(* ===== verification/_CoqProject ===== *)
-Q . S2P
Prelude.v
GoStrings.v
GoTime.v
Amount.v
Pricing.v
Store.v
Quota.v
Money.v
Funding.v
BillingTables.v
Charging.v
Settling.v
Accounts.v
Requests.v
Groups.v
Membership.v
Limiter.v
Encodings.v
Credentials.v
QuotaGuard.v
Upstreams.v
Pools.v
Selection.v
Subscriptions.v
Plans.v
ModelAccess.v
ModelPrices.v
Admission.v
Usage.v
