(* ===== verification/Prelude.v ===== *)
(** * Codex Gateway: verification development

    Codex Gateway is an HTTP gateway in Go between coding clients and model
    providers.  It identifies callers by API keys and sessions, admits a request
    only within rate, concurrency, token and money limits, forwards it to an
    upstream account, and charges what it used to a group, to subscriptions or
    to a cash balance, all kept in PostgreSQL.  The development models the parts
    that decide and account: amounts, prices and who may use a model, quotas,
    billing, subscriptions and plans, groups, the in-memory limiter, credentials,
    and the pool of upstream accounts with its guard and its allocation.

    ** Files and the code they model (paths under src/internal)

    - [Prelude]: results of fallible Go functions, 64-bit integers, sums over
      finite maps, tactics and hint databases.
    - [GoStrings], [GoTime], [Encodings]: what the code uses of the Go standard
      library: strings, trimming, decimal text and [big.Rat.SetString]; instants,
      dates and formats; base64 and base32 with their strict decoders.
    - [Amount] (billing/amount.go): decimal parsing, rounding to NUMERIC(30,12)
      and the cost formulas, over exact rationals.
    - [Pricing] (config/pricing.go): the price catalog, its validation and the
      selection of a price with its fallbacks.
    - [Store] (store/store.go): transactions over a record of tables, as a state
      and error monad; [withTx] commits or rolls back; [keeps] is the logic of
      transactions that preserve a relation.
    - [Quota] (store/quota.go): daily counters, minute windows, reservations and
      leases; admission, settlement, release, renewal and retention.
    - [Money], [Funding] (store/billing.go, billing_funding.go,
      billing_layers.go): arithmetic on column text, the order of the funding
      sources and the layers that may pay.
    - [BillingTables], [Charging], [Settling] (store/billing.go,
      billing_layers.go): the money tables with their CHECKs, the settlement of a
      request step by step, and its properties.
    - [Accounts] (store/billing.go): recharge rate, recharges and adjustments
      with their idempotent operations.
    - [Requests] (store/quota.go, billing.go): settling and releasing a request in
      quota, billing and usage at once, and the maintenance loops that repair.
    - [Groups] (store/group.go, model_access.go): the calendar of a group's
      periods, rolling a group forward, creating, changing, archiving and reading
      groups, and the idempotent wrapper of the writes.
    - [Membership] (store/group.go, group_memberships.go): adding and removing
      members, a member's priorities, and the groups that can pay for a request.
    - [Limiter] (limit/): windows, concurrency slots and daily reservations; calls
      interleave at the mutex and at the daily store.
    - [Credentials] (security/): API keys, opaque tokens, recovery codes, encrypted
      secrets.
    - [QuotaGuard] (store/upstream_quota_guard.go): the rule that holds an upstream
      account back, its table, checks, readings and settings.
    - [Upstreams] (store/upstream_accounts.go, upstream_account_access.go,
      user_upstream_access.go, upstream_concurrency.go, upstream_allocation.go):
      registering and synchronising provider accounts, local preferences, who may
      use which account and the eligibility queries, over the guard's tables.
    - [Pools] (store/group_upstream_accounts.go): the accounts a group may use
      with each provider, and the snapshot that a request takes of them.
    - [Selection] (store/upstream_allocation.go): the account a new request is
      assigned to.
    - [Subscriptions] (store/billing_entitlements.go, billing.go,
      billing_plans.go): subscriptions, their entitlement segments and periods:
      opening, replacing, disabling, rolling forward and expiring.
    - [Plans] (store/billing_plans.go, billing_preferences.go): the plan catalog,
      purchases and renewals paid from the cash lots, source preferences.
    - [ModelAccess] (store/model_access.go, model_access_batch.go): the model
      catalog, the defaults and each user's permissions.
    - [ModelPrices] (config/model_prices.go, model_access.go,
      store/model_prices.go, model_multipliers.go): the owner's overrides of
      prices, the multipliers, and the price a request is admitted with.
    - [Admission] (store/quota.go, billing.go, billing_funding.go,
      billing_layers.go, usage.go): [AdmitRequest], which makes the quota
      reservation, the billing reservation with its sources and layers, and the
      usage row in one transaction over the tables of all these components.
    - [Usage] (store/usage.go, upstream_accounts.go, conversation.go): the life of
      a usage row after its admission: first token, completion and its replay,
      attribution and retention.

    ** How the code is translated

    A pure function is a function; one that returns an error is a [result]; one
    that takes a [*sql.Tx] is a computation [tx S A] over a record of finite maps,
    one per table.  A statement checks the constraints of its table and reports a
    missing row, a duplicate key or a violated CHECK as [mapDBError] does.  Go
    integers are integers with the wrap-around written out where the code does
    not exclude it; amounts are decimal text in the code and a whole number of
    10^-12 in a column, and [Money] proves that the two agree.  Times are
    nanoseconds since year 1 at the precision the database stores.  Components
    meet through their tables: [Requests] runs the quota and the billing
    transactions over one store with [tzoom], [Groups] extends the billing
    tables with the columns the settlement does not read, [Subscriptions] and
    [Plans] extend those of [Groups], [Upstreams] runs the guard's transactions
    over its own store, [Admission] runs the transactions of all of them over
    one store, and the limiter uses a
    daily store through the class [DailyStore], as credentials use the class of
    the cryptographic primitives.

    ** What the theorems show

    - Invariants of every reachable state: balances equal the sum of the credit
      lots and allocations equal charges; quota counters equal the open
      reservations; quota and billing agree on every request; groups have a
      current period on their grid with matching limits and deadline; concurrency
      counters equal the calls that hold a slot, in every interleaving; guard
      rows satisfy their table; the account pool and its access lists agree; an
      enabled subscription has a segment for every instant of its term; no user
      lacks a permission row for a model of the catalog; every stored price can
      be listed.
    - Operations on every branch: what a settlement charges and from where, what
      recharges, adjustments, releases, membership changes and rolling a group do,
      when each is refused, and that a refused one changes nothing; what opening,
      rolling, renewing and expiring a subscription does; that a buyer pays the
      quoted price; who is authorised for an account or a model after a change.
    - Admission, end to end: a committed admission is one step of the request
      machine whose invariant [Requests] proves; every layer and source it
      records is backed by a group, a subscription or cash that can pay; a refused
      one writes nothing; once its usage is completed, which happens once, the
      request settles in quota and billing ([Usage]).
    - Fairness of the allocation: the loop chooses the accounts furthest below
      their weighted share, ties are drawn by weight, and no account ever gets
      more than one charge ahead of its share.
    - Refinement and equivalence: admission against the ordered list of checks,
      maintenance against single steps, the four-price formula against the
      three-price one, the price of a request against the owner's list, the
      admission transaction against the request machine.
    - Idempotence: replays of balance, group, pool, subscription and plan writes return
      what was recorded.
    - Round trips, bounds and rounding: parser normal forms, API keys and their
      encryption, exact rounding, exact calendar arithmetic without overflow.
    - Liveness and termination: settlements commit, recovery codes are generated,
      group funding is always answered, a roll succeeds on consistent tables, the
      expiry job misses nothing.
    - Findings: a rate window can be reset by a late caller ([Limiter]); clearing a
      group leaves members behind ([Membership]); the listing of a group's pool
      ignores the provider it is asked for ([Pools], [list_other_provider]); a
      completion after a marked first token cannot be replayed ([Usage],
      [replay_after_mark]).

    ** Bounds and fuel

    Recursion is structural except for three functions with fuel.  The digits of
    [n] are produced with fuel [log2 n], proved enough; [month_and_day] has fuel
    11, one per month boundary; the loop that draws recovery codes has fuel 11,
    one more than the ten codes, and is proved never to run out of it.

    ** Assumptions

    Transactions that interfere are serialised by the locks the code takes, so one
    runs at a time; the in-memory limiter is the exception and interleaves.  Code
    outside the repository (crypto primitives, UUID parsing, JSON decoding of the
    catalog, PostgreSQL's inet input and collation, SHA-256 fingerprints) is a
    parameter, with its documented laws as a class where theorems need them.  The
    [int] counters of the limiter are taken not to overflow.

    ** Not modelled

    HTTP handlers, streaming proxies, OIDC and WebAuthn, the bridge processes,
    migrations, configuration loading, log redaction and reporting queries: input
    and output, third-party protocols, or SQL aggregates without state of their
    own.  Of the upstream pool the aliases, batch edits and reports are left out,
    and of the usage records the aggregates, lists and reports. *)
From Stdlib Require Import Ascii.
From stdpp Require Export base tactics numbers list strings gmap sorting.

#[global] Open Scope Z_scope.

(** ** Results *)

(** Go functions that return [(T, error)] are modelled as [result E T]: the
    value is meaningful only when the error is nil. *)
Inductive result (E A : Type) : Type :=
| Ok (a : A)
| Err (e : E).
Arguments Ok {E A} a.
Arguments Err {E A} e.

Definition rbind {E A B} (m : result E A) (k : A -> result E B) : result E B :=
  match m with Ok a => k a | Err e => Err e end.

(** [fmt.Errorf("...: %w", err)]: rewrap the error of a failing call. *)
Definition map_err {E F A} (f : E -> F) (m : result E A) : result F A :=
  match m with Ok a => Ok a | Err e => Err (f e) end.

Definition is_ok {E A} (m : result E A) : bool :=
  match m with Ok _ => true | Err _ => false end.

Declare Scope go_scope.
Delimit Scope go_scope with go.
Notation "'let!' x ':=' m 'in' k" := (rbind m (fun x => k))
  (at level 10, x pattern, m at level 100, k at level 200) : go_scope.
#[global] Open Scope go_scope.

#[export] Instance result_eq_dec {E A} `{EqDecision E, EqDecision A} :
  EqDecision (result E A).
Proof. solve_decision. Defined.

(** ** The development's hint databases and tactics *)

Create HintDb gateway discriminated.
Create Rewrite HintDb gateway.

(** Case split on every [if] and [match] of a hypothesis, keeping the goals
    the equations do not close. *)
Ltac split_result H :=
  repeat (case_match; simplify_eq/=; try discriminate H); simplify_eq/=.

(** Turn the boolean tests of the code into propositions. *)
Ltac breflect :=
  repeat match goal with
  | H : (_ && _)%bool = true |- _ => apply andb_true_iff in H as [? ?]
  | H : (_ || _)%bool = false |- _ => apply orb_false_iff in H as [? ?]
  | H : (_ && _)%bool = false |- _ => apply andb_false_iff in H
  | H : (_ || _)%bool = true |- _ => apply orb_true_iff in H
  | H : negb _ = true |- _ => apply negb_true_iff in H
  | H : negb _ = false |- _ => apply negb_false_iff in H
  | H : (_ <? _) = true |- _ => apply Z.ltb_lt in H
  | H : (_ <? _) = false |- _ => apply Z.ltb_ge in H
  | H : (_ <=? _) = true |- _ => apply Z.leb_le in H
  | H : (_ <=? _) = false |- _ => apply Z.leb_gt in H
  | H : (_ =? _) = true |- _ => apply Z.eqb_eq in H
  | H : (_ =? _) = false |- _ => apply Z.eqb_neq in H
  | H : bool_decide _ = true |- _ => apply bool_decide_eq_true in H
  | H : bool_decide _ = false |- _ => apply bool_decide_eq_false in H
  end.

Lemma rbind_Ok {E A B} (m : result E A) (k : A -> result E B) b :
  rbind m k = Ok b <-> exists a, m = Ok a /\ k a = Ok b.
Proof. destruct m; simpl; split; [eauto|intros (?&[= ->]&?)|discriminate|intros (?&[=]&?)]; done. Qed.

Lemma rbind_Err {E A B} (m : result E A) (k : A -> result E B) e :
  rbind m k = Err e <-> m = Err e \/ exists a, m = Ok a /\ k a = Err e.
Proof.
  destruct m; simpl; split; intros H.
  - right. eauto.
  - destruct H as [[=]|(?&[= ->]&?)]; done.
  - left. congruence.
  - destruct H as [[= ->]|(?&[=]&?)]; done.
Qed.

(** Peel one [let!] of a computation that returned a value. *)
Ltac inv_bind H :=
  let a := fresh "a" in let Ha := fresh "Hm" in
  apply rbind_Ok in H as (a & Ha & H).

(** ** Go integers *)

Definition max_int64 : Z := 2 ^ 63 - 1.
Definition min_int64 : Z := - 2 ^ 63.

Definition is_int64 (z : Z) : Prop := min_int64 <= z <= max_int64.

(** Two's-complement wrap-around of int64 arithmetic. *)
Definition wrap64 (z : Z) : Z := (z + 2 ^ 63) mod 2 ^ 64 - 2 ^ 63.

Lemma wrap64_id z : is_int64 z -> wrap64 z = z.
Proof.
  unfold is_int64, min_int64, max_int64, wrap64. intros H.
  rewrite Z.mod_small; lia.
Qed.

Lemma wrap64_range z : is_int64 (wrap64 z).
Proof.
  unfold is_int64, min_int64, max_int64, wrap64.
  pose proof (Z.mod_pos_bound (z + 2 ^ 63) (2 ^ 64)). lia.
Qed.

#[export] Hint Resolve wrap64_range : gateway.
#[export] Hint Rewrite wrap64_id using (unfold is_int64, min_int64, max_int64 in *; lia) : gateway.

(** ** Sums over tables

    A database table is a finite map from primary keys to rows; the
    invariants relate counters to sums over a table. *)
Section msum.
Context {K : Type} `{Countable K} {A : Type}.

Definition msum (f : A -> Z) (m : gmap K A) : Z := map_fold (fun _ x acc => f x + acc) 0 m.

Lemma msum_empty f : msum f ∅ = 0.
Proof. apply map_fold_empty. Qed.

Lemma msum_insert f m i x : m !! i = None -> msum f (<[i := x]> m) = f x + msum f m.
Proof. intros. unfold msum. rewrite map_fold_insert_L; [done| |done]. intros; lia. Qed.

Lemma msum_delete f m i x : m !! i = Some x -> msum f (delete i m) = msum f m - f x.
Proof.
  intros Hi. rewrite <- (insert_delete_id m i x Hi) at 2.
  rewrite msum_insert by apply lookup_delete_eq. lia.
Qed.

Lemma msum_update f m i x y : m !! i = Some x -> msum f (<[i := y]> m) = msum f m - f x + f y.
Proof.
  intros Hi. rewrite <- (insert_delete_eq m i y), msum_insert by apply lookup_delete_eq.
  rewrite (msum_delete f m i x Hi). lia.
Qed.

Lemma msum_ext f g m : (forall i x, m !! i = Some x -> f x = g x) -> msum f m = msum g m.
Proof.
  induction m as [|i x m Hi IH] using map_ind; [by rewrite !msum_empty|].
  intros Hfg. rewrite !msum_insert by done. f_equal.
  - apply (Hfg i). by rewrite lookup_insert_eq.
  - apply IH. intros j y Hj. apply (Hfg j). rewrite lookup_insert_ne; [done|]. congruence.
Qed.

Lemma msum_nonneg f m : (forall i x, m !! i = Some x -> 0 <= f x) -> 0 <= msum f m.
Proof.
  induction m as [|i x m Hi IH] using map_ind; [by rewrite msum_empty|].
  intros Hf. rewrite msum_insert by done.
  assert (0 <= f x) by (apply (Hf i); by rewrite lookup_insert_eq).
  assert (0 <= msum f m); [|lia].
  apply IH. intros j y Hj. apply (Hf j). rewrite lookup_insert_ne; [done|]. congruence.
Qed.

Lemma msum_lookup_le f m i x :
  (forall i x, m !! i = Some x -> 0 <= f x) -> m !! i = Some x -> f x <= msum f m.
Proof.
  intros Hf Hi. pose proof (msum_delete f m i x Hi).
  assert (0 <= msum f (delete i m)); [|lia].
  apply msum_nonneg. intros j y [_ Hj]%lookup_delete_Some. eauto.
Qed.

Lemma msum_le f g m : (forall i x, m !! i = Some x -> f x <= g x) -> msum f m <= msum g m.
Proof.
  induction m as [|i x m Hi IH] using map_ind; [by rewrite !msum_empty|].
  intros Hfg. rewrite !msum_insert by done.
  assert (f x <= g x) by (apply (Hfg i); by rewrite lookup_insert_eq).
  assert (msum f m <= msum g m); [|lia].
  apply IH. intros j y Hj. apply (Hfg j). rewrite lookup_insert_ne; [done|]. congruence.
Qed.

Lemma msum_add f g m : msum (fun x => f x + g x) m = msum f m + msum g m.
Proof.
  induction m as [|i x m Hi IH] using map_ind; [by rewrite !msum_empty|].
  rewrite !msum_insert by done. lia.
Qed.
End msum.

(** The 0/1 value of a test, for counting rows. *)
Definition b2z (b : bool) : Z := if b then 1 else 0.
Lemma b2z_range b : 0 <= b2z b <= 1.
Proof. destruct b; simpl; lia. Qed.
#[export] Hint Resolve b2z_range : gateway.
