(* ===== verification/GoStrings.v ===== *)
(** * Go strings and decimal numerals

    The parts of the Go standard library's [strings] package (and of
    [math/big]'s decimal conversions) that the modelled components call.  A Go
    string is a byte sequence, so it is a Stdlib [string] (a sequence of 8-bit
    [ascii] characters). *)
From Stdlib Require Import Ascii QArith Qround.
From S2P Require Import Prelude.

(** ** Byte-level helpers *)

Definition byte_of (c : ascii) : Z := Z.of_N (N_of_ascii c).

Fixpoint str_drop (n : nat) (s : string) : string :=
  match n, s with
  | O, _ => s
  | S n', String _ s' => str_drop n' s'
  | S _, EmptyString => EmptyString
  end.

Fixpoint str_take (n : nat) (s : string) : string :=
  match n, s with
  | O, _ => EmptyString
  | S n', String c s' => String c (str_take n' s')
  | S _, EmptyString => EmptyString
  end.

Fixpoint str_rev_app (s acc : string) : string :=
  match s with
  | EmptyString => acc
  | String c s' => str_rev_app s' (String c acc)
  end.
Definition str_rev (s : string) : string := str_rev_app s EmptyString.

(** [strings.Repeat] of a one-byte string. *)
Fixpoint str_repeat (c : ascii) (n : nat) : string :=
  match n with O => EmptyString | S n' => String c (str_repeat c n') end.

Fixpoint str_forall (p : ascii -> bool) (s : string) : bool :=
  match s with
  | EmptyString => true
  | String c s' => p c && str_forall p s'
  end.

(** [strings.HasPrefix]. *)
Fixpoint has_prefix (p s : string) : bool :=
  match p, s with
  | EmptyString, _ => true
  | String c p', String d s' => Ascii.eqb c d && has_prefix p' s'
  | String _ _, EmptyString => false
  end.

(** [a < b] on strings: bytewise lexicographic order. *)
Fixpoint str_ltb (a b : string) : bool :=
  match a, b with
  | EmptyString, EmptyString => false
  | EmptyString, String _ _ => true
  | String _ _, EmptyString => false
  | String c a', String d b' =>
      (byte_of c <? byte_of d) || ((byte_of c =? byte_of d) && str_ltb a' b')
  end.

(** [strings.TrimLeft(s, string(c))]. *)
Fixpoint trim_left_char (c : ascii) (s : string) : string :=
  match s with
  | String d s' => if Ascii.eqb d c then trim_left_char c s' else s
  | EmptyString => EmptyString
  end.

(** [strings.TrimRight(s, string(c))]. *)
Fixpoint trim_right_char (c : ascii) (s : string) : string :=
  match s with
  | EmptyString => EmptyString
  | String d s' =>
      match trim_right_char c s' with
      | EmptyString => if Ascii.eqb d c then EmptyString else String d EmptyString
      | t => String d t
      end
  end.

(** ** [strings.TrimSpace]

    The UTF-8 encodings of the code points of [unicode.IsSpace]: the ASCII
    spaces, U+0085, U+00A0, U+1680, U+2000-U+200A, U+2028, U+2029, U+202F,
    U+205F and U+3000. *)
Definition space1 (c : ascii) : bool :=
  let n := byte_of c in ((9 <=? n) && (n <=? 13)) || (n =? 32).
Definition space2 (c1 c2 : ascii) : bool :=
  (byte_of c1 =? 194) && ((byte_of c2 =? 133) || (byte_of c2 =? 160)).
Definition space3 (c1 c2 c3 : ascii) : bool :=
  let '(n1, n2, n3) := (byte_of c1, byte_of c2, byte_of c3) in
  ((n1 =? 225) && (n2 =? 154) && (n3 =? 128)) ||
  ((n1 =? 226) && (n2 =? 128) && (((128 <=? n3) && (n3 <=? 138)) || (n3 =? 168) || (n3 =? 169) || (n3 =? 175))) ||
  ((n1 =? 226) && (n2 =? 129) && (n3 =? 159)) ||
  ((n1 =? 227) && (n2 =? 128) && (n3 =? 128)).

(** Strip spaces off the front; [rev] says that the string is read backwards,
    so that the bytes of a multi-byte space come in the opposite order. *)
Fixpoint trim_front (rev : bool) (s : string) : string :=
  match s with
  | EmptyString => EmptyString
  | String c1 s1 =>
      if space1 c1 then trim_front rev s1 else
      match s1 with
      | EmptyString => s
      | String c2 s2 =>
          if (if rev then space2 c2 c1 else space2 c1 c2) then trim_front rev s2 else
          match s2 with
          | EmptyString => s
          | String c3 s3 =>
              if (if rev then space3 c3 c2 c1 else space3 c1 c2 c3)
              then trim_front rev s3 else s
          end
      end
  end.

Definition trim_space (s : string) : string :=
  str_rev (trim_front true (str_rev (trim_front false s))).

(** [strings.ToLower], for comparison with ASCII strings: the ASCII letters
    and the two non-ASCII code points whose lower case is ASCII, U+0130 and
    U+212A.  Every other multi-byte sequence is mapped by Go to another
    non-ASCII sequence and is left as it is here. *)
Definition lower_char (c : ascii) : ascii :=
  let n := byte_of c in
  if (65 <=? n) && (n <=? 90) then ascii_of_N (N_of_ascii c + 32) else c.
Fixpoint to_lower (s : string) : string :=
  match s with
  | EmptyString => EmptyString
  | String c1 s1 =>
      match s1 with
      | EmptyString => String (lower_char c1) EmptyString
      | String c2 s2 =>
          if (byte_of c1 =? 196) && (byte_of c2 =? 176) then String "i" (to_lower s2) else
          match s2 with
          | EmptyString => String (lower_char c1) (to_lower s1)
          | String c3 s3 =>
              if (byte_of c1 =? 226) && (byte_of c2 =? 132) && (byte_of c3 =? 170)
              then String "k" (to_lower s3)
              else String (lower_char c1) (to_lower s1)
          end
      end
  end.

(** ** Decimal numerals *)

Definition is_digit (c : ascii) : bool := let n := byte_of c in (48 <=? n) && (n <=? 57).
Definition digit_val (c : ascii) : Z := byte_of c - 48.
Definition digit_char (d : Z) : ascii := ascii_of_N (Z.to_N (d + 48)).

Definition all_digits : string -> bool := str_forall is_digit.

(** The value of a digit string, most significant digit first. *)
Fixpoint dec_val (acc : Z) (s : string) : Z :=
  match s with
  | EmptyString => acc
  | String c s' => dec_val (10 * acc + digit_val c) s'
  end.

(** The longest prefix of digits, and the rest. *)
Fixpoint span_digits (s : string) : string * string :=
  match s with
  | String c s' =>
      if is_digit c then let '(ds, r) := span_digits s' in (String c ds, r)
      else (EmptyString, s)
  | EmptyString => (EmptyString, EmptyString)
  end.

(** [big.Int.String] of a non-negative integer. *)
Fixpoint z_digits_aux (fuel : nat) (n : Z) (acc : string) : string :=
  let acc' := String (digit_char (n mod 10)) acc in
  match fuel with
  | O => acc'
  | S f => if n <? 10 then acc' else z_digits_aux f (n / 10) acc'
  end.
Definition z_digits (n : Z) : string := z_digits_aux (Z.to_nat (Z.log2 n)) n EmptyString.

Definition pow10 (k : nat) : Z := 10 ^ Z.of_nat k.

(** [new(big.Rat).SetString] on decimal notation: an optional sign, digits and
    an optional fraction, with at least one digit.  (Go also reads fractions,
    exponents and other bases; the strings that reach it here are canonical
    amounts and NUMERIC columns printed by the database.) *)
Definition split_sign (s : string) : bool * string :=
  match s with
  | String "-" s' => (true, s')
  | String "+" s' => (false, s')
  | _ => (false, s)
  end.
Definition mk_rat (neg : bool) (i f : string) : Q :=
  Qmake ((if neg then Z.opp else id) (dec_val 0 (i +:+ f))) (Z.to_pos (pow10 (String.length f))).
Definition rat_SetString (s : string) : option Q :=
  let '(neg, u) := split_sign s in
  let '(i, r) := span_digits u in
  match r with
  | EmptyString => if bool_decide (i = EmptyString) then None else Some (mk_rat neg i EmptyString)
  | String "." f =>
      if all_digits f && negb (bool_decide (i +:+ f = EmptyString)) then Some (mk_rat neg i f) else None
  | _ => None
  end.

(** ** Lemmas: strings *)

Lemma str_app_nil_l s : "" +:+ s = s.
Proof. done. Qed.
Lemma str_app_cons c s t : String c s +:+ t = String c (s +:+ t).
Proof. done. Qed.
Lemma str_app_nil_r s : s +:+ "" = s.
Proof. induction s as [|c s IH]; [done|]. by rewrite str_app_cons, IH. Qed.
Lemma str_app_assoc s t u : s +:+ t +:+ u = (s +:+ t) +:+ u.
Proof. induction s as [|c s IH]; [done|]. by rewrite !str_app_cons, IH. Qed.
Lemma str_length_app s t : String.length (s +:+ t) = (String.length s + String.length t)%nat.
Proof. induction s as [|c s IH]; [done|]. rewrite str_app_cons. simpl. by rewrite IH. Qed.
Lemma str_length_repeat c n : String.length (str_repeat c n) = n.
Proof. induction n; simpl; auto. Qed.
Lemma str_forall_app p s t : str_forall p (s +:+ t) = str_forall p s && str_forall p t.
Proof. induction s as [|c s IH]; [done|]. rewrite str_app_cons. simpl. rewrite IH. by destruct (p c). Qed.
Lemma str_take_app s t : str_take (String.length s) (s +:+ t) = s.
Proof. induction s as [|c s IH]; [done|]. rewrite str_app_cons. simpl. by rewrite IH. Qed.
Lemma str_drop_app s t : str_drop (String.length s) (s +:+ t) = t.
Proof. induction s; done. Qed.
Lemma str_take_drop n s : str_take n s +:+ str_drop n s = s.
Proof. revert s; induction n as [|n IH]; intros [|c s]; try done. simpl. by rewrite str_app_cons, IH. Qed.
Lemma str_length_take n s :
  (n <= String.length s)%nat -> String.length (str_take n s) = n.
Proof.
  revert s; induction n as [|n IH]; intros [|c s]; simpl; intros H; try lia. rewrite IH; lia.
Qed.
Lemma str_length_drop n s : String.length (str_drop n s) = (String.length s - n)%nat.
Proof. revert s; induction n as [|n IH]; intros [|c s]; simpl; auto. Qed.
Lemma str_app_inj_len s1 s2 t1 t2 :
  String.length s1 = String.length s2 -> s1 +:+ t1 = s2 +:+ t2 -> s1 = s2 /\ t1 = t2.
Proof.
  revert s2; induction s1 as [|c s1 IH]; intros [|d s2] Hl H; simpl in Hl; try lia; [done|].
  rewrite !str_app_cons in H. injection H as -> H. destruct (IH s2) as [-> ->]; auto.
Qed.
Lemma has_prefix_app p s : has_prefix p (p +:+ s) = true.
Proof. induction p as [|c p IH]; [done|]. rewrite str_app_cons. simpl. by rewrite Ascii.eqb_refl. Qed.
Lemma has_prefix_spec p s : has_prefix p s = true -> s = p +:+ str_drop (String.length p) s.
Proof.
  revert s; induction p as [|c p IH]; intros [|d s]; simpl; try done.
  intros [->%Ascii.eqb_eq ->%IH]%andb_true_iff.
  by rewrite str_app_cons, str_drop_app.
Qed.

#[export] Hint Rewrite str_app_nil_l str_app_nil_r str_length_app str_length_repeat
  str_forall_app str_take_app str_drop_app has_prefix_app : gateway.

Lemma str_rev_app_spec s acc : str_rev_app s acc = str_rev s +:+ acc.
Proof.
  unfold str_rev. revert acc. induction s as [|c s IH]; intros acc; [done|].
  cbn [str_rev_app]. rewrite IH, (IH (String c "")), <- str_app_assoc. done.
Qed.
Lemma str_rev_cons c s : str_rev (String c s) = str_rev s +:+ String c "".
Proof. exact (str_rev_app_spec s (String c "")). Qed.
Lemma str_rev_append s t : str_rev (s +:+ t) = str_rev t +:+ str_rev s.
Proof.
  induction s as [|c s IH]; [by rewrite str_app_nil_r|].
  rewrite str_app_cons, !str_rev_cons, IH. by rewrite str_app_assoc.
Qed.
Lemma str_rev_involutive s : str_rev (str_rev s) = s.
Proof.
  induction s as [|c s IH]; [done|]. rewrite str_rev_cons, str_rev_append, IH. done.
Qed.

(** A string whose bytes are all printable ASCII has nothing to trim. *)
Definition is_graphic (c : ascii) : bool := let n := byte_of c in (33 <=? n) && (n <=? 126).

Lemma trim_front_graphic rev c s :
  is_graphic c = true -> str_forall is_graphic s = true ->
  trim_front rev (String c s) = String c s.
Proof.
  assert (Hg : forall d, is_graphic d = true -> 33 <= byte_of d <= 126).
  { unfold is_graphic. intros d H. breflect. lia. }
  assert (H1 : forall d, is_graphic d = true -> space1 d = false).
  { intros d Hd%Hg. unfold space1. lia. }
  assert (H2 : forall d e, is_graphic d = true -> space2 d e = false).
  { intros d e Hd%Hg. unfold space2. lia. }
  assert (H3 : forall d e f, is_graphic d = true -> space3 d e f = false).
  { intros d e f Hd%Hg. unfold space3. lia. }
  intros Hc Hs. destruct s as [|c2 s]; cbn [trim_front]; rewrite (H1 c Hc); [done|].
  simpl in Hs. apply andb_true_iff in Hs as [Hc2 Hs].
  rewrite (H2 c c2), (H2 c2 c) by done. replace (if rev then false else false) with false by by destruct rev.
  destruct s as [|c3 s]; [done|]. simpl in Hs. apply andb_true_iff in Hs as [Hc3 Hs].
  rewrite (H3 c c2 c3), (H3 c3 c2 c) by done. by destruct rev.
Qed.

Lemma str_forall_rev p s : str_forall p (str_rev s) = str_forall p s.
Proof.
  induction s as [|c s IH]; [done|].
  rewrite str_rev_cons, str_forall_app, IH. simpl. rewrite andb_true_r. apply andb_comm.
Qed.

Lemma trim_space_graphic s : str_forall is_graphic s = true -> trim_space s = s.
Proof.
  intros Hs. unfold trim_space.
  assert (H : forall rev t, str_forall is_graphic t = true -> trim_front rev t = t).
  { intros rev [|c t] Ht; [done|]. simpl in Ht. apply andb_true_iff in Ht as [? ?].
    by apply trim_front_graphic. }
  rewrite (H false s Hs), H by (by rewrite str_forall_rev).
  apply str_rev_involutive.
Qed.

Lemma str_forall_impl (p q : ascii -> bool) s :
  (forall c, p c = true -> q c = true) -> str_forall p s = true -> str_forall q s = true.
Proof.
  intros Hpq. induction s as [|c s IH]; [done|]. simpl. intros [? ?]%andb_true_iff.
  apply andb_true_iff; auto.
Qed.

(** ** Lemmas: digits *)

Lemma byte_of_range c : 0 <= byte_of c < 256.
Proof. unfold byte_of. pose proof (N_ascii_bounded c). lia. Qed.

Lemma byte_of_inj c d : byte_of c = byte_of d -> c = d.
Proof.
  unfold byte_of. intros H. apply N2Z.inj in H.
  rewrite <- (ascii_N_embedding c), <- (ascii_N_embedding d). by f_equal.
Qed.

Lemma digit_val_range c : is_digit c = true -> 0 <= digit_val c <= 9.
Proof. unfold is_digit, digit_val. intros H. breflect. lia. Qed.

Lemma digit_char_spec d :
  0 <= d <= 9 -> is_digit (digit_char d) = true /\ digit_val (digit_char d) = d.
Proof.
  intros H. unfold is_digit, digit_val, digit_char, byte_of.
  rewrite N_ascii_embedding by lia. rewrite Z2N.id by lia. split; [|lia].
  apply andb_true_iff. split; apply Z.leb_le; lia.
Qed.

Lemma digit_val_inj c d : digit_val c = digit_val d -> c = d.
Proof. unfold digit_val. intros H. apply byte_of_inj. lia. Qed.

Lemma pow10_pos k : 0 < pow10 k.
Proof. unfold pow10. apply Z.pow_pos_nonneg; lia. Qed.
Lemma pow10_S k : pow10 (S k) = 10 * pow10 k.
Proof. unfold pow10. rewrite Nat2Z.inj_succ, Z.pow_succ_r; lia. Qed.
Lemma pow10_add a b : pow10 (a + b) = pow10 a * pow10 b.
Proof. unfold pow10. rewrite Nat2Z.inj_add, Z.pow_add_r; lia. Qed.
Lemma pow10_le a b : (a <= b)%nat -> pow10 a <= pow10 b.
Proof. intros. unfold pow10. apply Z.pow_le_mono_r; lia. Qed.
#[export] Hint Resolve pow10_pos : gateway.

Lemma dec_val_app a s t : dec_val a (s +:+ t) = dec_val (dec_val a s) t.
Proof. revert a; induction s as [|c s IH]; intros a; [done|]. apply IH. Qed.

Lemma dec_val_acc a s : dec_val a s = a * pow10 (String.length s) + dec_val 0 s.
Proof.
  revert a; induction s as [|c s IH]; intros a; cbn [dec_val String.length].
  - unfold pow10. simpl. lia.
  - rewrite IH, (IH (10 * 0 + _)), pow10_S. lia.
Qed.

Lemma dec_val_cat s t :
  dec_val 0 (s +:+ t) = dec_val 0 s * pow10 (String.length t) + dec_val 0 t.
Proof. rewrite dec_val_app. apply dec_val_acc. Qed.

Lemma dec_val_bound s : all_digits s = true -> 0 <= dec_val 0 s < pow10 (String.length s).
Proof.
  induction s as [|c s IH]; [by cbn|].
  cbn -[pow10 dec_val]. intros [Hc%digit_val_range Hs%IH]%andb_true_iff.
  cbn [dec_val]. rewrite dec_val_acc, pow10_S. nia.
Qed.

Lemma dec_val_inj s t :
  all_digits s = true -> all_digits t = true ->
  String.length s = String.length t -> dec_val 0 s = dec_val 0 t -> s = t.
Proof.
  revert t; induction s as [|c s IH]; intros [|d t] Hs Ht Hl H; simpl in Hl; try lia; [done|].
  cbn in Hs, Ht. apply andb_true_iff in Hs as [Hc Hs], Ht as [Hd Ht].
  cbn [dec_val] in H. rewrite (dec_val_acc _ s), (dec_val_acc _ t) in H.
  pose proof (dec_val_bound s Hs) as Bs. pose proof (dec_val_bound t Ht) as Bt.
  apply digit_val_range in Hc as Rc, Hd as Rd.
  assert (Hl' : String.length s = String.length t) by lia.
  rewrite <- Hl' in Bt, H.
  assert (E : digit_val c = digit_val d) by nia.
  rewrite E in H. f_equal; [by apply digit_val_inj|]. apply IH; auto; lia.
Qed.

Lemma all_digits_repeat0 n : all_digits (str_repeat "0" n) = true.
Proof. induction n; simpl; auto. Qed.
Lemma dec_val_repeat0 n : dec_val 0 (str_repeat "0" n) = 0.
Proof. induction n; simpl; auto. Qed.

(** Digit strings with a non-zero leading digit. *)
Lemma dec_val_lead c s :
  is_digit c = true -> c <> "0"%char -> all_digits s = true ->
  pow10 (String.length s) <= dec_val 0 (String c s).
Proof.
  intros Hc Hne Hs. cbn [dec_val]. rewrite dec_val_acc.
  apply digit_val_range in Hc as R. pose proof (dec_val_bound s Hs).
  assert (digit_val c <> 0). { intros E. apply Hne, digit_val_inj. rewrite E. reflexivity. }
  pose proof (pow10_pos (String.length s)). nia.
Qed.

Definition canonical_int (s : string) : Prop :=
  all_digits s = true /\
  (s = "0" \/ exists c t, s = String c t /\ c <> "0"%char).

Lemma z_digits_aux_spec fuel n acc :
  0 <= n < 2 ^ (Z.of_nat fuel + 1) ->
  exists ds, z_digits_aux fuel n acc = ds +:+ acc /\ canonical_int ds /\ dec_val 0 ds = n.
Proof.
  revert n acc; induction fuel as [|fuel IH]; intros n acc Hn; cbn [z_digits_aux].
  - change (2 ^ (Z.of_nat 0 + 1)) with 2 in Hn.
    assert (n = 0 \/ n = 1) as [-> | ->] by lia.
    + exists "0". repeat split; auto.
    + exists "1". repeat split; auto. right. by eexists _, _.
  - destruct (n <? 10) eqn:E; breflect.
    + rewrite Z.mod_small by lia. destruct (digit_char_spec n) as [Hd Hv]; [lia|].
      exists (String (digit_char n) ""). split; [done|]. split; [split|].
      * cbn. by rewrite Hd.
      * destruct (decide (n = 0)) as [->|Hz]; [by left|]. right. eexists _, _. split; [done|].
        intros E'. rewrite E' in Hv. vm_compute in Hv. lia.
      * cbn [dec_val]. lia.
    + destruct (IH (n / 10) (String (digit_char (n mod 10)) acc)) as (ds & -> & [Hd Hlead] & Hv).
      { rewrite Nat2Z.inj_succ, Z.add_succ_l, Z.pow_succ_r in Hn by lia.
        split; [apply Z.div_pos; lia|]. apply Z.div_lt_upper_bound; lia. }
      pose proof (Z.mod_pos_bound n 10) as Hm.
      destruct (digit_char_spec (n mod 10)) as [Hd' Hv']; [lia|].
      exists (ds +:+ String (digit_char (n mod 10)) ""). split; [by rewrite <- str_app_assoc|].
      split; [split|].
      * unfold all_digits in *. rewrite str_forall_app, Hd. cbn. by rewrite Hd'.
      * right. destruct Hlead as [->|(c & t & -> & Hc)].
        -- exfalso. change (dec_val 0 "0") with 0 in Hv. symmetry in Hv.
           apply Z.div_small_iff in Hv; lia.
        -- by eexists _, _.
      * rewrite dec_val_app. cbn [dec_val]. rewrite Hv, Hv'. pose proof (Z.div_mod n 10). lia.
Qed.

Lemma z_digits_spec n : 0 <= n -> canonical_int (z_digits n) /\ dec_val 0 (z_digits n) = n.
Proof.
  intros Hn. unfold z_digits.
  destruct (z_digits_aux_spec (Z.to_nat (Z.log2 n)) n "") as (ds & -> & Hc & Hv).
  - pose proof (Z.log2_nonneg n). rewrite Z2Nat.id by lia. split; [done|].
    destruct (decide (n = 0)) as [->|]; [reflexivity|].
    pose proof (Z.log2_spec n). replace (Z.log2 n + 1) with (Z.succ (Z.log2 n)) by lia. lia.
  - by rewrite str_app_nil_r.
Qed.

(** The number of digits of a canonical numeral. *)
Lemma canonical_int_length s k :
  canonical_int s -> (0 < k)%nat ->
  (String.length s <= k)%nat <-> dec_val 0 s < pow10 k.
Proof.
  intros [Hd Hlead] Hk. split; intros H.
  - pose proof (dec_val_bound s Hd). pose proof (pow10_le _ _ H). lia.
  - destruct Hlead as [->|(c & t & -> & Hc)]; [cbn; lia|].
    cbn in Hd. apply andb_true_iff in Hd as [Hcd Ht].
    pose proof (dec_val_lead c t Hcd Hc Ht) as Hlo.
    destruct (decide (String.length t < k)%nat) as [|Hge]; [cbn; lia|].
    pose proof (pow10_le k (String.length t)). lia.
Qed.

Lemma canonical_int_unique s t :
  canonical_int s -> canonical_int t -> dec_val 0 s = dec_val 0 t -> s = t.
Proof.
  intros Hs Ht H. apply dec_val_inj; [apply Hs|apply Ht| |done].
  assert (Hpos : forall u, canonical_int u -> (0 < String.length u)%nat).
  { intros u [_ [->|(?&?&->&_)]]; cbn; lia. }
  pose proof (Hpos s Hs); pose proof (Hpos t Ht).
  apply Nat.le_antisymm.
  - apply canonical_int_length; auto. rewrite H. apply (canonical_int_length t); auto.
  - apply canonical_int_length; auto. rewrite <- H. apply (canonical_int_length s); auto.
Qed.

Lemma span_digits_app ds r :
  all_digits ds = true ->
  (match r with String c _ => is_digit c = false | EmptyString => True end) ->
  span_digits (ds +:+ r) = (ds, r).
Proof.
  induction ds as [|c ds IH]; intros Hd Hr.
  - rewrite str_app_nil_l. destruct r as [|c r]; [done|]. cbn. by rewrite Hr.
  - cbn in Hd. apply andb_true_iff in Hd as [Hc Hd].
    rewrite str_app_cons. cbn [span_digits]. rewrite Hc, IH by done. done.
Qed.

Lemma span_digits_spec s ds r :
  span_digits s = (ds, r) ->
  s = ds +:+ r /\ all_digits ds = true /\
  (match r with String c _ => is_digit c = false | EmptyString => True end).
Proof.
  revert ds r; induction s as [|c s IH]; intros ds r; cbn [span_digits]; [by intros [= <- <-]|].
  destruct (is_digit c) eqn:Hc; [|intros [= <- <-]; by rewrite str_app_nil_l].
  destruct (span_digits s) as [ds' r'] eqn:E. intros [= <- <-].
  destruct (IH _ _ eq_refl) as (-> & Hd & Hr). rewrite str_app_cons. cbn. rewrite Hc. auto.
Qed.

(** ** The byte order of strings *)

Definition str_le (a b : string) : Prop := str_ltb b a = false.
#[export] Instance str_le_dec : RelDecision str_le.
Proof. intros a b. unfold str_le. apply _. Defined.

Lemma str_ltb_irrefl s : str_ltb s s = false.
Proof. induction s as [|c s IH]; [done|]. simpl. by rewrite Z.ltb_irrefl, Z.eqb_refl, IH. Qed.

Lemma str_ltb_lt a b : str_ltb a b = true -> str_ltb b a = false.
Proof.
  revert b; induction a as [|c a IH]; intros [|d b]; simpl; try done.
  intros [?%Z.ltb_lt|[?%Z.eqb_eq H%IH]%andb_true_iff]%orb_true_iff.
  - replace (byte_of d <? byte_of c) with false by lia. by replace (byte_of d =? byte_of c) with false by lia.
  - replace (byte_of d <? byte_of c) with false by lia. rewrite H. by rewrite andb_false_r.
Qed.

#[export] Instance str_le_total : Total str_le.
Proof.
  intros a b. unfold str_le. destruct (str_ltb b a) eqn:E; [right; by apply str_ltb_lt|by left].
Qed.

Lemma str_ltb_trans a b c : str_ltb a b = true -> str_ltb b c = true -> str_ltb a c = true.
Proof.
  revert b c; induction a as [|x a IH]; intros [|y b] [|z c]; simpl; try done.
  rewrite !orb_true_iff, !andb_true_iff, !Z.ltb_lt, !Z.eqb_eq.
  intros [?|[? H1]] [?|[? H2]]; [left; lia..|]. right. split; [lia|]. eauto.
Qed.

Lemma str_ltb_antisym a b : str_ltb a b = false -> str_ltb b a = false -> a = b.
Proof.
  revert b; induction a as [|x a IH]; intros [|y b]; simpl; try done.
  rewrite !orb_false_iff, !andb_false_iff, !Z.ltb_ge, !Z.eqb_neq. intros [? H1] [? H2].
  assert (E : byte_of x = byte_of y) by lia. destruct H1, H2; try lia. apply byte_of_inj in E as ->. f_equal. auto.
Qed.

#[export] Instance str_le_trans : Transitive str_le.
Proof.
  intros a b c. unfold str_le. intros H1 H2. destruct (str_ltb c a) eqn:E; [|done].
  destruct (str_ltb a b) eqn:E'; [by rewrite (str_ltb_trans _ _ _ E E') in H2|].
  assert (a = b) as -> by by apply str_ltb_antisym. congruence.
Qed.
