(* ===== verification/GoTime.v ===== *)
(** * Times and dates

    Instants are integers, nanoseconds since Go's zero time (January 1 of year
    1, UTC), so that [IsZero] is the comparison with 0 and [Truncate] is a
    remainder.  A [time.Time] that is formatted also carries the UTC offset of
    its location at that instant. *)
From Stdlib Require Import Ascii.
From S2P Require Import Prelude GoStrings.

Definition Nanosecond : Z := 1.
Definition Millisecond : Z := 1000000.
Definition Second : Z := 1000000000.
Definition Minute : Z := 60 * Second.
Definition Hour : Z := 60 * Minute.
Definition Day24 : Z := 24 * Hour.

(** [t.IsZero()]. *)
Definition is_zero_time (t : Z) : bool := t =? 0.

(** [t.Truncate(d)]. *)
Definition truncate (t d : Z) : Z := if d <=? 0 then t else t - t mod d.

(** [t.Sub(u)]: saturates at the bounds of an int64 duration. *)
Definition time_sub (t u : Z) : Z := Z.max min_int64 (Z.min max_int64 (t - u)).

(** A time with the UTC offset of its location. *)
Record zoned := Zoned { instant : Z; offset : Z }.
(** The civil day shown by [t.Format("2006-01-02")], as a day number. *)
Definition civil_day (t : zoned) : Z := (instant t + offset t) / Day24.

Lemma truncate_spec t d :
  0 < d -> truncate t d <= t < truncate t d + d /\ (truncate t d) mod d = 0.
Proof.
  intros Hd. unfold truncate. replace (d <=? 0) with false by lia.
  pose proof (Z.mod_pos_bound t d Hd). split; [lia|].
  rewrite (Z.div_mod t d) at 1 by lia.
  replace (d * (t / d) + t mod d - t mod d) with (t / d * d) by ring. apply Z.mod_mul. lia.
Qed.

Lemma time_sub_exact t u : is_int64 (t - u) -> time_sub t u = t - u.
Proof. unfold is_int64, time_sub. lia. Qed.

(** ** [time.Parse("2006-01-02", s)] *)

Definition digits2 (a b : ascii) : option Z :=
  if is_digit a && is_digit b then Some (10 * digit_val a + digit_val b) else None.

Definition leap (y : Z) : bool := ((y mod 4 =? 0) && negb (y mod 100 =? 0)) || (y mod 400 =? 0).
Definition days_in (y m : Z) : Z :=
  if m =? 2 then if leap y then 29 else 28
  else if (m =? 4) || (m =? 6) || (m =? 9) || (m =? 11) then 30 else 31.

Definition parse_date (s : string) : option (Z * Z * Z) :=
  match s with
  | String y1 (String y2 (String y3 (String y4 (String "-" (String m1 (String m2
      (String "-" (String d1 (String d2 EmptyString))))))))) =>
      match digits2 y1 y2, digits2 y3 y4, digits2 m1 m2, digits2 d1 d2 with
      | Some yh, Some yl, Some m, Some d =>
          let y := 100 * yh + yl in
          if (1 <=? m) && (m <=? 12) && (1 <=? d) && (d <=? days_in y m) then Some (y, m, d) else None
      | _, _, _, _ => None
      end
  | _ => None
  end.

Definition valid_date (s : string) : bool := match parse_date s with Some _ => true | None => false end.

Example valid_date_ex : valid_date "2024-02-29" = true /\ valid_date "2023-02-29" = false.
Proof. vm_compute. auto. Qed.

(** ** Civil dates *)

(** The civil date of a day number (day 0 is January 1 of year 1). *)
Definition year_and_day (n : Z) : Z * Z :=
  let n400 := n / 146097 in
  let d := n - 146097 * n400 in
  let n100 := Z.min 3 (d / 36524) in
  let d := d - 36524 * n100 in
  let n4 := d / 1461 in
  let d := d - 1461 * n4 in
  let n1 := Z.min 3 (d / 365) in
  (400 * n400 + 100 * n100 + 4 * n4 + n1 + 1, d - 365 * n1).
Fixpoint month_and_day (fuel : nat) (y m d : Z) : Z * Z :=
  match fuel with
  | O => (m, d + 1)
  | S fuel => if d <? days_in y m then (m, d + 1) else month_and_day fuel y (m + 1) (d - days_in y m)
  end.
Fixpoint zero_pad (width : nat) (s : string) : string :=
  match width with
  | O => s
  | S w => if (String.length s <=? w)%nat then String "0"%char (zero_pad w s) else s
  end.
Definition format_day (n : Z) : string :=
  let '(y, yday) := year_and_day n in
  let '(m, d) := month_and_day 11 y 1 yday in
  zero_pad 4 (z_digits y) +:+ "-" +:+ zero_pad 2 (z_digits m) +:+ "-" +:+ zero_pad 2 (z_digits d).
Example format_day_ex : map format_day [0; 59; 738944; 738945] = ["0001-01-01"; "0001-03-01"; "2024-02-29"; "2024-03-01"].
Proof. vm_compute. reflexivity. Qed.

(** [t.Year()] of a UTC time. *)
Definition Year (t : Z) : Z := (year_and_day (t / Day24)).1.

(** The nanoseconds before January 1 of year 10000. *)
Definition year10000 : Z := 3652059 * Day24.

#[local] Ltac Zify.zify_post_hook ::= Z.to_euclidean_division_equations.

(** The year's first day is at most [n], and [n] is before the next year. *)
Lemma year_and_day_bounds n : let y := (year_and_day n).1 - 1 in
  365 * y + y / 4 - y / 100 + y / 400 <= n < 365 * (y + 1) + (y + 1) / 4 - (y + 1) / 100 + (y + 1) / 400.
Proof.
  unfold year_and_day. cbn [fst]. cbv zeta. pose proof (Z.div_mod n 146097 ltac:(lia)) as E1. pose proof (Z.mod_pos_bound n 146097 ltac:(lia)).
  replace (n - 146097 * (n / 146097)) with (n mod 146097) by lia. set (a := n / 146097) in *. set (d := n mod 146097) in *. clearbody a d.
  assert (exists b, Z.min 3 (d / 36524) = b /\ 0 <= b <= 3 /\ 0 <= d - 36524 * b <= 36524 /\ (b < 3 -> d - 36524 * b < 36524)) as (b & -> & Hb & Hd & Hlt)
    by (exists (Z.min 3 (d / 36524)); lia).
  set (e := d - 36524 * b) in *. assert (exists c, e / 1461 = c /\ 0 <= c <= 24 /\ 0 <= e - 1461 * c <= 1460) as (c & -> & Hc & He)
    by (exists (e / 1461); lia).
  set (f := e - 1461 * c) in *. assert (exists g, Z.min 3 (f / 365) = g /\ 0 <= g <= 3 /\ 0 <= f - 365 * g <= 365 /\ (g < 3 -> f - 365 * g < 365)) as (g & -> & Hg & Hf & Hgt)
    by (exists (Z.min 3 (f / 365)); lia).
  replace (400 * a + 100 * b + 4 * c + g + 1 - 1) with (400 * a + (100 * b + (4 * c + g))) by ring.
  assert ((400 * a + (100 * b + (4 * c + g))) / 400 = a) as -> by lia.
  assert ((400 * a + (100 * b + (4 * c + g))) / 100 = 4 * a + b) as -> by lia.
  assert ((400 * a + (100 * b + (4 * c + g))) / 4 = 100 * a + 25 * b + c) as -> by lia.
  split; [lia|]. destruct (Z.eq_dec g 3) as [->|]; [|lia]. destruct (Z.eq_dec c 24) as [->|]; [|lia]. destruct (Z.eq_dec b 3) as [->|]; lia.
Qed.

Lemma Year_range t : 1 <= Year t <= 9999 <-> 0 <= t < year10000.
Proof.
  unfold Year, year10000. pose proof (year_and_day_bounds (t / Day24)) as H. cbv zeta in H. revert H.
  generalize (year_and_day (t / Day24)).1. change Day24 with 86400000000000. set (n := t / 86400000000000). intros y H.
  assert (0 <= t < 3652059 * 86400000000000 <-> 0 <= n < 3652059) as -> by (unfold n; lia). clearbody n. split; intros.
  - assert (y - 1 = 9998 \/ y - 1 + 1 <= 9998) by lia. lia.
  - lia.
Qed.

(** [t.Unix()], [t.Nanosecond()] and [time.Unix(sec, nsec)], for [nsec] of one second. *)
Definition unix_epoch : Z := 62135596800.
Definition Unix (t : Z) : Z := t / Second - unix_epoch.
Definition Nanosecond_of (t : Z) : Z := t mod Second.
Definition time_Unix (sec nsec : Z) : Z := (sec + unix_epoch) * Second + nsec.

Lemma time_Unix_Unix t k : time_Unix (Unix t + k) (Nanosecond_of t) = t + k * Second.
Proof. unfold time_Unix, Unix, Nanosecond_of, Second. pose proof (Z.div_mod t 1000000000). lia. Qed.

(** [t.Format(time.RFC3339Nano)] of a UTC time: the fraction loses its trailing zeros. *)
Definition RFC3339Nano (t : Z) : string :=
  let s := t / Second mod 86400 in
  let frac := trim_right_char "0" (zero_pad 9 (z_digits (Nanosecond_of t))) in
  format_day (t / Day24) +:+ "T" +:+ zero_pad 2 (z_digits (s / 3600)) +:+ ":" +:+ zero_pad 2 (z_digits (s / 60 mod 60)) +:+ ":" +:+
  zero_pad 2 (z_digits (s mod 60)) +:+ (if bool_decide (frac = EmptyString) then "" else "." +:+ frac) +:+ "Z".

Example RFC3339Nano_ex : map RFC3339Nano [0; 738944 * Day24 + 3 * Hour + 4 * Minute + 5 * Second + 60000000] =
  ["0001-01-01T00:00:00Z"; "2024-02-29T03:04:05.06Z"].
Proof. vm_compute. reflexivity. Qed.
