(* ===== verification/Amount.v ===== *)
(** * Exact decimal arithmetic for billing ([internal/billing/amount.go])

    Amounts, prices and multipliers travel as decimal strings; costs are
    computed over rationals and rounded once, half away from zero, to the
    twelve fractional digits of the ledger's NUMERIC(30,12) columns.

    [math/big]'s [Rat] is modelled by Stdlib's [Q].  A [Rat] is kept in lowest
    terms and a [Q] is not, so the operations are related by [Qeq]; the only
    function that looks at numerator and denominator is [roundFixed], which
    is shown to respect [Qeq]. *)
From Stdlib Require Import Ascii QArith Qround Qabs Qreduction Morphisms.
From S2P Require Import Prelude GoStrings.

Definition AmountScale : nat := 12.
Definition InputScale : nat := 6.
Definition RateScale : nat := 12.
Definition maxIntegerDigits : nat := 18.

(** [ErrInvalidDecimal] with the context added by [fmt.Errorf]; [NilRat] is
    the nil dereference that an unparsed [Rat] would cause. *)
Inductive amount_error : Set :=
| ErrInvalidDecimal (context : string)
| NilRat.
#[export] Instance amount_error_eq_dec : EqDecision amount_error.
Proof. solve_decision. Defined.

(** ** Parsing *)

(** [decimalPattern.FindStringSubmatch]: the whole string is a zero or a digit
    string without a leading zero, then optionally a point and at least one
    digit.  The result is the integer group and the fraction group. *)
Definition match_fraction (i r : string) : option (string * string) :=
  match r with
  | EmptyString => Some (i, EmptyString)
  | String "." f =>
      if negb (bool_decide (f = EmptyString)) && all_digits f then Some (i, f) else None
  | _ => None
  end.
Definition decimalPattern (s : string) : option (string * string) :=
  match s with
  | EmptyString => None
  | String c r =>
      if Ascii.eqb c "0" then match_fraction "0" r
      else if is_digit c then
        let '(ds, r') := span_digits r in match_fraction (String c ds) r'
      else None
  end.

(** The second half of [parseBounded], after the sign is taken off. *)
Definition parseUnsigned (negative : bool) (unsigned : string) (scale : nat) (allowZero : bool)
  : result amount_error string :=
  match decimalPattern unsigned with
  | None => Err (ErrInvalidDecimal "")
  | Some (m1, m2) =>
      if (maxIntegerDigits <? String.length m1)%nat || (scale <? String.length m2)%nat
      then Err (ErrInvalidDecimal "") else
      let integer := trim_left_char "0" m1 in
      let integer := if bool_decide (integer = EmptyString) then "0" else integer in
      let fraction := trim_right_char "0" m2 in
      let canonical :=
        if bool_decide (fraction = EmptyString) then integer else integer +:+ "." +:+ fraction in
      if bool_decide (canonical = "0") then
        if negb allowZero then Err (ErrInvalidDecimal "") else Ok canonical
      else if negative then Ok ("-" +:+ canonical) else Ok canonical
  end.

(** [parseBounded]. *)
Definition parseBounded (value : string) (scale : nat) (signed allowZero : bool)
  : result amount_error string :=
  if bool_decide (value = EmptyString) || negb (bool_decide (trim_space value = value))
  then Err (ErrInvalidDecimal "") else
  let! (negative, unsigned) :=
    if has_prefix "-" value then
      if negb signed then Err (ErrInvalidDecimal "") else Ok (true, str_drop 1 value)
    else if has_prefix "+" value then
      if negb signed then Err (ErrInvalidDecimal "") else Ok (false, str_drop 1 value)
    else Ok (false, value) in
  parseUnsigned negative unsigned scale allowZero.

Definition ParseInput (value : string) (signed allowZero : bool) := parseBounded value InputScale signed allowZero.
Definition ParseRate (value : string) := parseBounded value RateScale false false.
Definition ParseMultiplier (value : string) := parseBounded value AmountScale false false.
Definition ParsePrice (value : string) := parseBounded value AmountScale false true.

(** ** Rounding and printing *)

(** [scaledIntegerString]. *)
Definition scaledIntegerString (value : Z) (scale : nat) : string :=
  let negative := value <? 0 in
  let digits := z_digits (Z.abs value) in
  let digits :=
    if (String.length digits <=? scale)%nat
    then str_repeat "0" (scale - String.length digits + 1) +:+ digits else digits in
  let k := (String.length digits - scale)%nat in
  let formatted := str_take k digits +:+ "." +:+ str_drop k digits in
  if negative && negb (value =? 0) then "-" +:+ formatted else formatted.

(** The integer that [roundFixed] prints: truncated quotient, then one unit
    away from zero when twice the remainder reaches the denominator. *)
Definition roundScaled (value : Q) (scale : nat) : Z :=
  let factor := pow10 scale in
  let scaledNumerator := Qnum value * factor in
  let den := Zpos (Qden value) in
  let quotient := Z.quot scaledNumerator den in
  let remainder := Z.rem scaledNumerator den in
  if negb (remainder =? 0) && (den <=? Z.shiftl (Z.abs remainder) 1) then
    if Qnum value <? 0 then quotient - 1 else quotient + 1
  else quotient.
Definition roundFixed (value : Q) (scale : nat) : string :=
  scaledIntegerString (roundScaled value scale) scale.

(** [roundAmount]. *)
Definition roundAmount (value : Q) : result amount_error string :=
  let r := roundFixed value AmountScale in
  match parseBounded r AmountScale true true with
  | Err _ => Err (ErrInvalidDecimal "amount exceeds NUMERIC(30,12)")
  | Ok _ => Ok r
  end.

(** The [Rat] read from a canonical string. *)
Definition ratOf (canonical : string) : result amount_error Q :=
  match rat_SetString canonical with Some q => Ok q | None => Err NilRat end.

Definition with_context (c : string) {A} (m : result amount_error A) : result amount_error A :=
  map_err (fun _ => ErrInvalidDecimal c) m.

(** ** Operations *)

(** [MultiplyToAmount]. *)
Definition MultiplyToAmount (left right : string) : result amount_error string :=
  let! left := with_context "invalid amount" (ParseInput left false false) in
  let! right := with_context "invalid rate" (ParseRate right) in
  let! l := ratOf left in
  let! r := ratOf right in
  roundAmount (Qmult l r).

(** [multiplyCostAndRound]. *)
Definition multiplyCostAndRound (total : Q) (multiplier : string) : result amount_error string :=
  let! canonical := with_context "invalid pricing multiplier" (ParseMultiplier multiplier) in
  let! factor := ratOf canonical in
  roundAmount (Qmult total factor).

(** One iteration of the loops that parse the price arguments. *)
Definition priceRat (value : string) : result amount_error Q :=
  let! canonical := with_context "invalid price" (ParsePrice value) in ratOf canonical.

Definition million : Q := inject_Z 1000000.

(** [CalculateCostWithMultiplier]. *)
Definition CalculateCostWithMultiplier (inputTokens cachedInputTokens outputTokens : Z)
  (inputPrice cachedPrice outputPrice multiplier : string) : result amount_error string :=
  if (inputTokens <? 0) || (cachedInputTokens <? 0) || (outputTokens <? 0) ||
     (inputTokens <? cachedInputTokens)
  then Err (ErrInvalidDecimal "invalid token counts") else
  let! p0 := priceRat inputPrice in
  let! p1 := priceRat cachedPrice in
  let! p2 := priceRat outputPrice in
  let uncached := wrap64 (inputTokens - cachedInputTokens) in
  let total := Qmult (inject_Z uncached) p0 in
  let total := Qplus total (Qmult (inject_Z cachedInputTokens) p1) in
  let total := Qplus total (Qmult (inject_Z outputTokens) p2) in
  let total := Qdiv total million in
  multiplyCostAndRound total multiplier.

(** [CalculateCost]. *)
Definition CalculateCost (inputTokens cachedInputTokens outputTokens : Z)
  (inputPrice cachedPrice outputPrice : string) : result amount_error string :=
  CalculateCostWithMultiplier inputTokens cachedInputTokens outputTokens inputPrice cachedPrice outputPrice "1".

(** [CalculateCostV2WithMultiplier]. *)
Definition CalculateCostV2WithMultiplier
  (inputTokens cachedInputTokens cacheWriteTokens outputTokens : Z)
  (cacheWriteMode inputPrice cachedPrice cacheWritePrice outputPrice multiplier : string)
  : result amount_error string :=
  if (inputTokens <? 0) || (cachedInputTokens <? 0) || (cacheWriteTokens <? 0) || (outputTokens <? 0) ||
     (inputTokens <? cachedInputTokens)
  then Err (ErrInvalidDecimal "invalid token counts") else
  if negb (bool_decide (cacheWriteMode = "separate")) && negb (bool_decide (cacheWriteMode = "included_in_input"))
  then Err (ErrInvalidDecimal "invalid cache write mode") else
  if bool_decide (cacheWriteMode = "separate") && (wrap64 (inputTokens - cachedInputTokens) <? cacheWriteTokens)
  then Err (ErrInvalidDecimal "invalid cache write token counts") else
  let! p0 := priceRat inputPrice in
  let! p1 := priceRat cachedPrice in
  let! p2 := priceRat cacheWritePrice in
  let! p3 := priceRat outputPrice in
  let ordinary := wrap64 (inputTokens - cachedInputTokens) in
  let ordinary := if bool_decide (cacheWriteMode = "separate") then wrap64 (ordinary - cacheWriteTokens) else ordinary in
  let total := Qmult (inject_Z ordinary) p0 in
  let total := Qplus total (Qmult (inject_Z cachedInputTokens) p1) in
  let total := if bool_decide (cacheWriteMode = "separate")
    then Qplus total (Qmult (inject_Z cacheWriteTokens) p2) else total in
  let total := Qplus total (Qmult (inject_Z outputTokens) p3) in
  let total := Qdiv total million in
  multiplyCostAndRound total multiplier.

(** [CalculateCostV2]. *)
Definition CalculateCostV2 (inputTokens cachedInputTokens cacheWriteTokens outputTokens : Z)
  (cacheWriteMode inputPrice cachedPrice cacheWritePrice outputPrice : string) : result amount_error string :=
  CalculateCostV2WithMultiplier inputTokens cachedInputTokens cacheWriteTokens outputTokens
    cacheWriteMode inputPrice cachedPrice cacheWritePrice outputPrice "1".

(** [big.Rat.Cmp(r, m) > 0]. *)
Definition rat_gtb (r m : Q) : bool := match Qcompare r m with Gt => true | _ => false end.

(** [CalculateCostV2TTLWithMultiplier]. *)
Definition CalculateCostV2TTLWithMultiplier
  (inputTokens cachedInputTokens cacheWriteTokens cacheWrite5mTokens cacheWrite1hTokens outputTokens : Z)
  (cacheWriteTTLPresent : bool)
  (inputPrice cachedPrice cacheWrite5mPrice cacheWrite1hPrice outputPrice multiplier : string)
  : result amount_error string :=
  if (inputTokens <? 0) || (cachedInputTokens <? 0) || (cacheWriteTokens <? 0) ||
     (cacheWrite5mTokens <? 0) || (cacheWrite1hTokens <? 0) || (outputTokens <? 0) ||
     (inputTokens <? cachedInputTokens) || (wrap64 (inputTokens - cachedInputTokens) <? cacheWriteTokens)
  then Err (ErrInvalidDecimal "invalid token counts") else
  if cacheWriteTTLPresent &&
     ((cacheWriteTokens <? cacheWrite5mTokens) ||
      negb (cacheWrite1hTokens =? wrap64 (cacheWriteTokens - cacheWrite5mTokens)))
  then Err (ErrInvalidDecimal "invalid cache write TTL totals") else
  if negb cacheWriteTTLPresent && (negb (cacheWrite5mTokens =? 0) || negb (cacheWrite1hTokens =? 0))
  then Err (ErrInvalidDecimal "unobserved cache write TTL counts") else
  let! p0 := priceRat inputPrice in
  let! p1 := priceRat cachedPrice in
  let! p2 := priceRat cacheWrite5mPrice in
  let! p3 := priceRat cacheWrite1hPrice in
  let! p4 := priceRat outputPrice in
  let total := Qmult (inject_Z (wrap64 (wrap64 (inputTokens - cachedInputTokens) - cacheWriteTokens))) p0 in
  let total := Qplus total (Qmult (inject_Z cachedInputTokens) p1) in
  let total :=
    if cacheWriteTTLPresent then
      Qplus (Qplus total (Qmult (inject_Z cacheWrite5mTokens) p2)) (Qmult (inject_Z cacheWrite1hTokens) p3)
    else
      let maximum := if rat_gtb p3 p2 then p3 else p2 in
      Qplus total (Qmult (inject_Z cacheWriteTokens) maximum) in
  let total := Qplus total (Qmult (inject_Z outputTokens) p4) in
  let total := Qdiv total million in
  multiplyCostAndRound total multiplier.

Example parse_ex1 : parseBounded "0012.50" 6 false false = Err (ErrInvalidDecimal "").
Proof. reflexivity. Qed.
Example parse_ex2 : parseBounded "+12.500" 6 true false = Ok "12.5".
Proof. vm_compute. reflexivity. Qed.
Example cost_ex1 :
  CalculateCostV2WithMultiplier 1000 200 300 50 "separate" "1.25" "0.125" "1.5" "10" "1.1" = Ok "0.001760000000".
Proof. vm_compute. reflexivity. Qed.

(** ** Normal forms *)

(** A decimal literal from its sign, integer part and fraction. *)
Definition render (neg : bool) (i f : string) : string :=
  (if neg then "-" else "") +:+ (if bool_decide (f = EmptyString) then i else i +:+ "." +:+ f).

Definition is_zero_literal (i f : string) : bool :=
  bool_decide (i = "0") && bool_decide (f = EmptyString).

Lemma canonical_int_graphic i : all_digits i = true -> str_forall is_graphic i = true.
Proof.
  apply str_forall_impl. unfold is_digit, is_graphic. intros c H. breflect.
  apply andb_true_iff. split; apply Z.leb_le; lia.
Qed.

Lemma canonical_int_cons i : canonical_int i -> exists c t, i = String c t.
Proof. intros [_ [->|(c & t & -> & _)]]; eauto. Qed.

Lemma canonical_int_head c t : canonical_int (String c t) -> is_digit c = true /\ all_digits t = true.
Proof. intros [H _]. by apply andb_true_iff in H. Qed.

Lemma digit_not c d : is_digit c = true -> is_digit d = false -> Ascii.eqb c d = false.
Proof. intros Hc Hd. apply Ascii.eqb_neq. congruence. Qed.

Lemma render_graphic neg i f :
  all_digits i = true -> all_digits f = true -> str_forall is_graphic (render neg i f) = true.
Proof.
  intros Hi%canonical_int_graphic Hf%canonical_int_graphic. unfold render.
  rewrite str_forall_app. apply andb_true_iff. split; [by destruct neg|].
  case_bool_decide; [done|]. rewrite !str_forall_app, Hi, Hf. done.
Qed.

Lemma match_fraction_spec i r m1 m2 :
  match_fraction i r = Some (m1, m2) ->
  m1 = i /\ all_digits m2 = true /\
  r = if bool_decide (m2 = EmptyString) then EmptyString else "." +:+ m2.
Proof.
  unfold match_fraction. destruct r as [|c f]; [by intros [= <- <-]|].
  destruct (decide (c = "."%char)) as [->|Hc].
  - destruct (negb _ && all_digits f) eqn:E; [|done]. intros [= <- <-]. breflect.
    repeat split; auto. by rewrite bool_decide_false.
  - destruct c as [[] [] [] [] [] [] [] []]; try done; congruence.
Qed.

Lemma match_fraction_render i f :
  all_digits f = true ->
  match_fraction i (if bool_decide (f = EmptyString) then EmptyString else "." +:+ f) = Some (i, f).
Proof.
  intros Hf. case_bool_decide as E; [by subst|].
  change ("." +:+ f) with (String "." f). cbn. rewrite bool_decide_false by done. by rewrite Hf.
Qed.

Lemma decimalPattern_spec u m1 m2 :
  decimalPattern u = Some (m1, m2) ->
  canonical_int m1 /\ all_digits m2 = true /\ u = render false m1 m2.
Proof.
  unfold decimalPattern, render. destruct u as [|c r]; [done|].
  destruct (Ascii.eqb c "0") eqn:E0.
  - apply Ascii.eqb_eq in E0 as ->. intros (-> & Hf & ->)%match_fraction_spec.
    split; [split; auto|]. split; [done|]. by case_bool_decide.
  - destruct (is_digit c) eqn:Hc; [|done]. apply Ascii.eqb_neq in E0.
    destruct (span_digits r) as [ds r'] eqn:Es. apply span_digits_spec in Es as (-> & Hds & _).
    intros (-> & Hf & ->)%match_fraction_spec. split.
    { split; [by cbn; rewrite Hc|]. right. eauto. }
    split; [done|]. case_bool_decide; subst; by rewrite ?str_app_nil_r.
Qed.

Lemma decimalPattern_render i f :
  canonical_int i -> all_digits f = true -> decimalPattern (render false i f) = Some (i, f).
Proof.
  intros Hi Hf. unfold render. rewrite str_app_nil_l.
  replace (if bool_decide (f = "") then i else i +:+ "." +:+ f)
    with (i +:+ (if bool_decide (f = "") then "" else "." +:+ f))
    by (case_bool_decide; by rewrite ?str_app_nil_r).
  destruct (canonical_int_cons i Hi) as (c & t & ->).
  destruct (canonical_int_head c t Hi) as [Hc Ht].
  rewrite str_app_cons. cbn [decimalPattern]. destruct (Ascii.eqb c "0") eqn:E0.
  - apply Ascii.eqb_eq in E0 as ->.
    destruct Hi as [_ [[= ->]|(? & ? & [= <- <-] & ?)]]; [|done]. by apply match_fraction_render.
  - rewrite Hc, span_digits_app; [by apply match_fraction_render|done|]. by case_bool_decide.
Qed.

(** The integer group has nothing to trim. *)
Lemma integer_group i :
  canonical_int i ->
  (if bool_decide (trim_left_char "0" i = EmptyString) then "0" else trim_left_char "0" i) = i.
Proof.
  intros [Hd [->|(c & t & -> & Hc)]]; [done|].
  cbn. apply Ascii.eqb_neq in Hc. rewrite Hc. by rewrite bool_decide_false.
Qed.

Lemma trim_right_char_spec c s :
  exists k, s = trim_right_char c s +:+ str_repeat c k.
Proof.
  induction s as [|d s [k IH]]; [by exists 0%nat|]. cbn.
  destruct (trim_right_char c s) as [|e t] eqn:E.
  - destruct (Ascii.eqb d c) eqn:Ed.
    + apply Ascii.eqb_eq in Ed as ->. exists (S k). rewrite str_app_nil_l in *. cbn. by rewrite <- IH.
    + exists k. rewrite str_app_nil_l in IH. by rewrite str_app_cons, str_app_nil_l, <- IH.
  - exists k. by rewrite str_app_cons, <- IH.
Qed.

Lemma trim_right_char_idem c s : trim_right_char c (trim_right_char c s) = trim_right_char c s.
Proof.
  induction s as [|d s IH]; [done|]. cbn.
  destruct (trim_right_char c s) as [|e t] eqn:E.
  - destruct (Ascii.eqb d c) eqn:Ed; [done|]. cbn. by rewrite Ed.
  - cbn [trim_right_char] in *. by rewrite IH.
Qed.

Lemma all_digits_trim c s : all_digits s = true -> all_digits (trim_right_char c s) = true.
Proof.
  intros Hs. destruct (trim_right_char_spec c s) as [k E]. rewrite E in Hs.
  unfold all_digits in *. rewrite str_forall_app in Hs. by apply andb_true_iff in Hs as [? _].
Qed.

Lemma length_trim c s : (String.length (trim_right_char c s) <= String.length s)%nat.
Proof.
  destruct (trim_right_char_spec c s) as [k E]. rewrite E at 2. rewrite str_length_app. lia.
Qed.

Lemma parse_unsigned_literal neg i m2 scale allowZero :
  canonical_int i -> all_digits m2 = true ->
  parseUnsigned neg (render false i m2) scale allowZero =
    if (maxIntegerDigits <? String.length i)%nat || (scale <? String.length m2)%nat
    then Err (ErrInvalidDecimal "")
    else if is_zero_literal i (trim_right_char "0" m2)
      then if allowZero then Ok "0" else Err (ErrInvalidDecimal "")
    else Ok (render neg i (trim_right_char "0" m2)).
Proof.
  intros Hi Hm. unfold parseUnsigned. rewrite decimalPattern_render by done.
  destruct (_ || _); [done|]. cbv zeta.
  rewrite (integer_group i Hi). unfold is_zero_literal, render.
  destruct (bool_decide (trim_right_char "0" m2 = "")) eqn:Ef; rewrite ?andb_true_r, ?andb_false_r.
  - destruct (bool_decide (i = "0")) eqn:Ei; [|by destruct neg].
    breflect. subst. by destruct allowZero.
  - rewrite bool_decide_false; [by destruct neg|].
    destruct (canonical_int_cons i Hi) as (c & t & ->).
    rewrite str_app_cons. intros [= _ E]. apply (f_equal String.length) in E.
    rewrite !str_length_app in E. simpl in E. lia.
Qed.

Lemma render_no_prefix d i m2 :
  canonical_int i -> is_digit d = false -> has_prefix (String d "") (render false i m2) = false.
Proof.
  intros Hi Hd. destruct (canonical_int_cons i Hi) as (c & t & ->).
  destruct (canonical_int_head c t Hi) as [Hc _].
  unfold render. rewrite str_app_nil_l.
  case_bool_decide; rewrite ?str_app_cons; cbn; apply andb_false_iff; left;
    apply Ascii.eqb_neq; congruence.
Qed.

Lemma render_nonempty neg i m2 : canonical_int i -> render neg i m2 <> "".
Proof.
  intros Hi. destruct (canonical_int_cons i Hi) as (c & t & ->).
  unfold render. destruct neg; [done|]. rewrite str_app_nil_l. by case_bool_decide.
Qed.

(** Parsing a literal, with every outcome. *)
Lemma parse_literal neg i m2 scale signed allowZero :
  canonical_int i -> all_digits m2 = true ->
  parseBounded (render neg i m2) scale signed allowZero =
    if (neg && negb signed) || (maxIntegerDigits <? String.length i)%nat || (scale <? String.length m2)%nat
    then Err (ErrInvalidDecimal "")
    else if is_zero_literal i (trim_right_char "0" m2)
      then if allowZero then Ok "0" else Err (ErrInvalidDecimal "")
    else Ok (render neg i (trim_right_char "0" m2)).
Proof.
  intros Hi Hm. unfold parseBounded.
  rewrite (trim_space_graphic (render neg i m2)) by (apply render_graphic; [apply Hi|done]).
  rewrite (bool_decide_false (render neg i m2 = "")) by (by apply render_nonempty).
  rewrite bool_decide_true by done. cbn [orb negb].
  destruct neg.
  - change (render true i m2) with (String "-" (render false i m2)).
    destruct signed; [|done].
    cbn [has_prefix Ascii.eqb Bool.eqb andb str_drop negb rbind orb]. by apply parse_unsigned_literal.
  - rewrite !render_no_prefix by done. cbn [rbind andb orb]. by apply parse_unsigned_literal.
Qed.

Lemma is_zero_literal_spec i f : is_zero_literal i f = true <-> i = "0" /\ f = EmptyString.
Proof. unfold is_zero_literal. rewrite andb_true_iff, !bool_decide_eq_true. done. Qed.

(** The literal behind a value that parses, and the canonical string it gives. *)
Lemma parse_inv v scale signed allowZero c :
  parseBounded v scale signed allowZero = Ok c ->
  exists neg i m2, canonical_int i /\ all_digits m2 = true /\
    (v = render neg i m2 \/ (v = "+" +:+ render false i m2 /\ neg = false)) /\
    (neg = true -> signed = true) /\ (String.length i <= 18)%nat /\ (String.length m2 <= scale)%nat /\
    (is_zero_literal i (trim_right_char "0" m2) = true -> allowZero = true) /\
    c = render (neg && negb (is_zero_literal i (trim_right_char "0" m2))) i (trim_right_char "0" m2).
Proof.
  assert (Hlit : forall neg i m2, canonical_int i -> all_digits m2 = true -> (neg = true -> signed = true) ->
    parseUnsigned neg (render false i m2) scale allowZero = Ok c ->
    (String.length i <= 18)%nat /\ (String.length m2 <= scale)%nat /\
    (is_zero_literal i (trim_right_char "0" m2) = true -> allowZero = true) /\
    c = render (neg && negb (is_zero_literal i (trim_right_char "0" m2))) i (trim_right_char "0" m2)).
  { intros neg i m2 Hi Hm Hs. rewrite parse_unsigned_literal by done. unfold maxIntegerDigits.
    destruct (_ || _) eqn:El; [done|]. apply orb_false_iff in El as [?%Nat.ltb_ge ?%Nat.ltb_ge].
    destruct (is_zero_literal _ _) eqn:Ez.
    - destruct allowZero; [|done]. intros [= <-]. rewrite andb_false_r.
      apply is_zero_literal_spec in Ez as [-> Hf]. rewrite Hf. done.
    - intros [= <-]. rewrite andb_true_r. done. }
  unfold parseBounded. destruct (_ || _); [done|]. intros H. inv_bind H. destruct a as [neg u].
  assert (Hu : exists i m2, canonical_int i /\ all_digits m2 = true /\ u = render false i m2).
  { unfold parseUnsigned in H. destruct (decimalPattern u) as [[i m2]|] eqn:E; [|done].
    apply decimalPattern_spec in E as (? & ? & ->). eauto. }
  destruct Hu as (i & m2 & Hi & Hd2 & ->). exists neg, i, m2.
  assert (Hsv : (v = render neg i m2 \/ v = "+" +:+ render false i m2 /\ neg = false) /\ (neg = true -> signed = true)).
  { destruct (has_prefix "-" v) eqn:E1; [|destruct (has_prefix "+" v) eqn:E2].
    - apply has_prefix_spec in E1. destruct signed; [|done]. cbn [negb] in Hm.
      assert (neg = true) as -> by congruence.
      assert (Hu : str_drop 1 v = render false i m2) by congruence.
      split; [|done]. left. rewrite E1. change (String.length "-") with 1%nat. by rewrite Hu.
    - apply has_prefix_spec in E2. destruct signed; [|done]. cbn [negb] in Hm.
      assert (neg = false) as -> by congruence.
      assert (Hu : str_drop 1 v = render false i m2) by congruence.
      split; [|done]. right. rewrite E2. change (String.length "+") with 1%nat. by rewrite Hu.
    - assert (neg = false) as -> by congruence. split; [left; congruence|done]. }
  destruct Hsv as [? Hs]. destruct (Hlit neg i m2) as (? & ? & ? & ?); auto. tauto.
Qed.

(** ** Values of literals *)

Lemma rat_render neg i f :
  canonical_int i -> all_digits f = true -> rat_SetString (render neg i f) = Some (mk_rat neg i f).
Proof.
  intros Hi Hf.
  assert (Hs : split_sign (render neg i f) = (neg, render false i f)).
  { destruct neg; [done|]. pose proof (render_no_prefix "-" i f Hi eq_refl) as H1.
    pose proof (render_no_prefix "+" i f Hi eq_refl) as H2.
    destruct (render false i f) as [|c t]; [done|]. cbn in H1, H2. rewrite andb_true_r in H1, H2.
    destruct c as [[] [] [] [] [] [] [] []]; done. }
  unfold rat_SetString. rewrite Hs. unfold render. rewrite str_app_nil_l.
  destruct (canonical_int_cons i Hi) as (c & t & ->). case_bool_decide as Ef.
  - subst. rewrite <- (str_app_nil_r (String c t)) at 1. rewrite span_digits_app by (done || apply Hi).
    by rewrite bool_decide_false.
  - rewrite span_digits_app; [|apply Hi|done].
    change ("." +:+ f) with (String "." f). cbv iota.
    rewrite Hf, bool_decide_false by done. done.
Qed.

Lemma rat_plus_render i f :
  canonical_int i -> all_digits f = true ->
  rat_SetString ("+" +:+ render false i f) = Some (mk_rat false i f).
Proof.
  intros Hi Hf. rewrite <- (rat_render false i f Hi Hf). unfold rat_SetString.
  change ("+" +:+ render false i f) with (String "+" (render false i f)). cbn [split_sign].
  pose proof (render_no_prefix "-" i f Hi eq_refl) as H1.
  pose proof (render_no_prefix "+" i f Hi eq_refl) as H2.
  destruct (render false i f) as [|c t] eqn:E; [done|]. cbn in H1, H2. rewrite andb_true_r in H1, H2.
  destruct c as [[] [] [] [] [] [] [] []]; done.
Qed.

(** A literal's value over the common denominator [10^scale]. *)
Lemma mk_rat_scaled neg i f :
  (mk_rat neg i f * inject_Z (pow10 (String.length f)) ==
   inject_Z ((if neg then Z.opp else id) (dec_val 0 (i +:+ f))))%Q.
Proof.
  unfold mk_rat, Qeq, inject_Z. simpl. pose proof (pow10_pos (String.length f)).
  rewrite Pos.mul_1_r, Z2Pos.id by done. destruct neg; simpl; unfold id; lia.
Qed.

Lemma mk_rat_zeros neg i f k : (mk_rat neg i (f +:+ str_repeat "0" k) == mk_rat neg i f)%Q.
Proof.
  unfold mk_rat, Qeq. simpl. rewrite str_app_assoc, (dec_val_cat (i +:+ f)), dec_val_repeat0.
  rewrite str_length_app, str_length_repeat, pow10_add.
  pose proof (pow10_pos (String.length f)); pose proof (pow10_pos k).
  rewrite !Z2Pos.id by nia. destruct neg; unfold id; nia.
Qed.

Lemma mk_rat_trim neg i f : (mk_rat neg i (trim_right_char "0" f) == mk_rat neg i f)%Q.
Proof. destruct (trim_right_char_spec "0" f) as [k E]. rewrite E at 2. by rewrite mk_rat_zeros. Qed.

Lemma trim_repeat c s k : trim_right_char c (s +:+ str_repeat c k) = trim_right_char c s.
Proof.
  induction s as [|d s IH].
  - rewrite str_app_nil_l. induction k as [|k IH]; [done|]. cbn. rewrite IH. cbn. by rewrite Ascii.eqb_refl.
  - rewrite str_app_cons. cbn. by rewrite IH.
Qed.

(** Literals with the same magnitude have the same integer part and, up to
    trailing zeros, the same fraction. *)
Lemma magnitude_inj i f i' f' :
  canonical_int i -> canonical_int i' -> all_digits f = true -> all_digits f' = true ->
  dec_val 0 (i +:+ f) * pow10 (String.length f') = dec_val 0 (i' +:+ f') * pow10 (String.length f) ->
  i = i' /\ trim_right_char "0" f = trim_right_char "0" f'.
Proof.
  intros Hi Hi' Hf Hf' H.
  set (g := f +:+ str_repeat "0" (String.length f')).
  set (g' := f' +:+ str_repeat "0" (String.length f)).
  assert (Hg : all_digits g = true /\ all_digits g' = true).
  { unfold all_digits, g, g' in *. rewrite !str_forall_app, Hf, Hf'. split; apply all_digits_repeat0. }
  destruct Hg as [Hg Hg'].
  assert (Hlen : String.length g = String.length g').
  { unfold g, g'. rewrite !str_length_app, !str_length_repeat. lia. }
  assert (Hv : dec_val 0 (i +:+ g) = dec_val 0 (i' +:+ g')).
  { unfold g, g'. rewrite !str_app_assoc, (dec_val_cat (i +:+ f)), (dec_val_cat (i' +:+ f')),
      !dec_val_repeat0, !str_length_repeat. lia. }
  rewrite (dec_val_cat i), (dec_val_cat i'), <- Hlen in Hv.
  pose proof (dec_val_bound g Hg). pose proof (dec_val_bound g' Hg') as Hb. rewrite <- Hlen in Hb.
  assert (dec_val 0 i = dec_val 0 i') as E by nia.
  split; [by apply canonical_int_unique|]. rewrite E in Hv.
  assert (g = g') as Egg by (apply dec_val_inj; auto; lia).
  rewrite <- (trim_repeat "0" f (String.length f')), <- (trim_repeat "0" f' (String.length f)).
  by fold g g'; rewrite Egg.
Qed.

Lemma mk_rat_zero neg i f :
  canonical_int i -> all_digits f = true ->
  (mk_rat neg i f == 0)%Q <-> is_zero_literal i (trim_right_char "0" f) = true.
Proof.
  intros Hi Hf. rewrite is_zero_literal_spec. split.
  - intros H. assert (dec_val 0 (i +:+ f) = 0) as E.
    { revert H. unfold mk_rat, Qeq. simpl. destruct neg; unfold id; lia. }
    apply (magnitude_inj i f "0" ""); auto; [split; auto|]. rewrite E. done.
  - intros [-> Ef]. rewrite <- mk_rat_trim, Ef. destruct neg; reflexivity.
Qed.

Lemma render_inj_value neg i f neg' i' f' :
  canonical_int i -> canonical_int i' -> all_digits f = true -> all_digits f' = true ->
  (mk_rat neg i f == mk_rat neg' i' f')%Q ->
  render (neg && negb (is_zero_literal i (trim_right_char "0" f))) i (trim_right_char "0" f) =
  render (neg' && negb (is_zero_literal i' (trim_right_char "0" f'))) i' (trim_right_char "0" f').
Proof.
  intros Hi Hi' Hf Hf' H.
  assert (Hm : dec_val 0 (i +:+ f) * pow10 (String.length f') = dec_val 0 (i' +:+ f') * pow10 (String.length f)
    /\ (dec_val 0 (i +:+ f) = 0 \/ neg = neg')).
  { pose proof (pow10_pos (String.length f)); pose proof (pow10_pos (String.length f')).
    assert (Hd : 0 <= dec_val 0 (i +:+ f) /\ 0 <= dec_val 0 (i' +:+ f')).
    { destruct Hi as [Hi _], Hi' as [Hi' _]. unfold all_digits in *.
      split; apply dec_val_bound; unfold all_digits; rewrite str_forall_app, ?Hi, ?Hi'; done. }
    revert H. unfold mk_rat, Qeq. simpl. rewrite !Z2Pos.id by done.
    destruct neg, neg'; unfold id; intros H; split; try (right; done); try (left; nia); nia. }
  destruct Hm as [Hm Hs]. destruct (magnitude_inj i f i' f') as [<- Et]; auto. rewrite <- Et.
  destruct Hs as [Hz|<-]; [|done].
  assert (is_zero_literal i (trim_right_char "0" f) = true) as ->.
  { apply (mk_rat_zero false); auto. unfold mk_rat, Qeq. simpl. rewrite Hz. done. }
  by rewrite !andb_false_r.
Qed.

(** ** Printing scaled integers *)

Lemma scaledIntegerString_literal v s :
  (0 < s)%nat ->
  exists i f, scaledIntegerString v s = render (v <? 0) i f /\ canonical_int i /\ all_digits f = true /\
    String.length f = s /\ dec_val 0 (i +:+ f) = Z.abs v.
Proof.
  intros Hs. destruct (z_digits_spec (Z.abs v)) as [Hc Hv]; [lia|].
  unfold scaledIntegerString. set (d := z_digits (Z.abs v)) in *.
  assert (Hn : (v <? 0) && negb (v =? 0) = (v <? 0)) by lia.
  rewrite Hn. clear Hn. set (e := if (String.length d <=? s)%nat then _ else d).
  assert (He : all_digits e = true /\ dec_val 0 e = Z.abs v /\ (s < String.length e)%nat /\
    canonical_int (str_take (String.length e - s) e)).
  { unfold e. destruct Hc as [Hd Hlead]. destruct (String.length d <=? s)%nat eqn:El.
    - apply Nat.leb_le in El. set (z := str_repeat "0" (s - String.length d + 1)).
      assert (Hz : all_digits z = true) by apply all_digits_repeat0.
      assert (Hlz : String.length z = (s - String.length d + 1)%nat) by apply str_length_repeat.
      rewrite str_length_app, Hlz.
      replace (s - String.length d + 1 + String.length d - s)%nat with 1%nat by lia.
      repeat split.
      + unfold all_digits in *. by rewrite str_forall_app, Hz, Hd.
      + rewrite dec_val_cat. unfold z. by rewrite dec_val_repeat0, Hv.
      + lia.
      + unfold z. rewrite Nat.add_1_r. done.
      + left. unfold z. rewrite Nat.add_1_r. done.
    - apply Nat.leb_gt in El. repeat split; auto.
      + unfold all_digits in *. rewrite <- (str_take_drop (String.length d - s) d), str_forall_app in Hd.
        by apply andb_true_iff in Hd as [? _].
      + destruct Hlead as [E|(c & t & E & Hne)]; [rewrite E in El; simpl in El; lia|].
        right. exists c. rewrite E in El |- *. simpl in El.
        replace (String.length (String c t) - s)%nat with (S (String.length t - s)) by (simpl; lia).
        cbn. eauto. }
  destruct He as (Hd & Hv' & Hlt & Hci). set (k := (String.length e - s)%nat) in *.
  exists (str_take k e), (str_drop k e).
  assert (Hlen : String.length (str_drop k e) = s) by (rewrite str_length_drop; lia).
  repeat split.
  - unfold render. rewrite bool_decide_false; [by destruct (v <? 0)|].
    intros E. rewrite E in Hlen. simpl in Hlen. lia.
  - apply Hci.
  - apply Hci.
  - unfold all_digits in *. rewrite <- (str_take_drop k e), str_forall_app in Hd.
    by apply andb_true_iff in Hd as [_ ?].
  - done.
  - by rewrite str_take_drop.
Qed.

Definition scaled (n : Z) (s : nat) : Q := Qmake n (Z.to_pos (pow10 s)).

Lemma literal_scaled v i f s :
  String.length f = s -> dec_val 0 (i +:+ f) = Z.abs v -> mk_rat (v <? 0) i f = scaled v s.
Proof.
  intros <- H. unfold mk_rat, scaled. rewrite H. f_equal.
  destruct (v <? 0) eqn:E; breflect; unfold id; lia.
Qed.

(** Printing and reading back is the identity on scaled integers. *)
Lemma rat_scaledIntegerString v s :
  (0 < s)%nat -> rat_SetString (scaledIntegerString v s) = Some (scaled v s).
Proof.
  intros Hs. destruct (scaledIntegerString_literal v s Hs) as (i & f & -> & Hi & Hf & Hl & Hv).
  rewrite rat_render by done. f_equal. by apply literal_scaled.
Qed.

(** ** Rounding *)

(** [r] is [x/d] rounded to the nearest integer, halves away from zero. *)
Definition half_away (r d x : Z) : Prop :=
  2 * Z.abs (r * d - x) <= d /\ (2 * Z.abs (r * d - x) = d -> Z.abs x < Z.abs (r * d)).

Lemma half_away_scale r d x e : 0 < e -> half_away r d x -> half_away r (d * e) (x * e).
Proof.
  intros He [H1 H2]. unfold half_away.
  replace (r * (d * e) - x * e) with ((r * d - x) * e) by ring.
  replace (r * (d * e)) with (r * d * e) by ring.
  rewrite !Z.abs_mul, (Z.abs_eq e) by lia. split; [nia|]. intros E.
  assert (2 * Z.abs (r * d - x) = d) by nia. nia.
Qed.

Lemma half_away_unique r t d x : 0 < d -> half_away r d x -> half_away t d x -> r = t.
Proof.
  intros Hd [H1 H2] [H3 H4].
  assert (Z.abs (r * d - t * d) <= d) as D by lia.
  rewrite <- Z.mul_sub_distr_r, Z.abs_mul, (Z.abs_eq d) in D by lia.
  assert (Ht : t * d <= - d \/ t * d = 0 \/ d <= t * d).
  { assert (t <= -1 \/ t = 0 \/ 1 <= t) as [?|[->|?]] by lia; [left|right; left|right; right]; nia. }
  assert (Z.abs (r - t) <= 1) by nia.
  assert (r = t \/ r = t + 1 \/ r = t - 1) as [|[->| ->]] by lia; [done|exfalso; lia..].
Qed.

Lemma roundScaled_spec v s :
  half_away (roundScaled v s) (Zpos (Qden v)) (Qnum v * pow10 s).
Proof.
  unfold roundScaled, half_away. set (n := Qnum v * pow10 s). set (d := Zpos (Qden v)).
  assert (Hd : 0 < d) by lia. pose proof (Z.quot_rem n d ltac:(lia)) as Hqr.
  pose proof (Z.rem_bound_abs n d ltac:(lia)) as Hr.
  assert (Hsg : (n < 0 -> Z.rem n d <= 0) /\ (0 <= n -> 0 <= Z.rem n d)).
  { split; intros; [apply Z.rem_nonpos|apply Z.rem_nonneg]; lia. }
  assert (Hn : Qnum v < 0 <-> n < 0) by (unfold n; pose proof (pow10_pos s); nia).
  rewrite Z.shiftl_mul_pow2 by lia. change (2 ^ 1) with 2.
  set (q := Z.quot n d) in *. set (r := Z.rem n d) in *.
  destruct (negb (r =? 0) && (d <=? Z.abs r * 2)) eqn:E; breflect.
  - destruct (Qnum v <? 0) eqn:En; breflect; split; lia.
  - destruct E as [E|E]; breflect; split; lia.
Qed.

(** Distance to the scaled value is at most one half, as rationals. *)
Lemma roundScaled_bounds v s :
  (inject_Z (roundScaled v s) - (1 # 2) <= v * inject_Z (pow10 s) /\
   v * inject_Z (pow10 s) <= inject_Z (roundScaled v s) + (1 # 2))%Q.
Proof.
  destruct (roundScaled_spec v s) as [H _]. unfold Qle, Qminus, Qplus, Qmult, Qopp, inject_Z. simpl.
  rewrite ?Pos.mul_1_r. split; lia.
Qed.

#[export] Instance roundScaled_proper s : Proper (Qeq ==> eq) (fun v => roundScaled v s).
Proof.
  intros v w E. unfold Qeq in E.
  pose proof (half_away_scale _ _ _ (Zpos (Qden w)) ltac:(lia) (roundScaled_spec v s)) as Hv.
  pose proof (half_away_scale _ _ _ (Zpos (Qden v)) ltac:(lia) (roundScaled_spec w s)) as Hw.
  rewrite (Z.mul_comm (Zpos (Qden w))) in Hw.
  assert (E' : Qnum w * pow10 s * Zpos (Qden v) = Qnum v * pow10 s * Zpos (Qden w)).
  { transitivity (Qnum w * Zpos (Qden v) * pow10 s); [ring|]. rewrite <- E. ring. }
  rewrite E' in Hw.
  eapply half_away_unique; [|exact Hv|exact Hw]. lia.
Qed.

Lemma roundScaled_mono v w s : (v <= w)%Q -> roundScaled v s <= roundScaled w s.
Proof.
  intros H. destruct (decide (roundScaled v s <= roundScaled w s)) as [|Hgt]; [done|exfalso].
  destruct (roundScaled_bounds v s) as [Hv _], (roundScaled_bounds w s) as [_ Hw].
  assert (Hs : (inject_Z (roundScaled w s) + 1 <= inject_Z (roundScaled v s))%Q).
  { unfold Qle, Qplus, inject_Z. simpl. lia. }
  assert (0 < inject_Z (pow10 s))%Q as Hp.
  { unfold Qlt, inject_Z. simpl. pose proof (pow10_pos s). lia. }
  assert (Hle : (w * inject_Z (pow10 s) <= v * inject_Z (pow10 s))%Q).
  { eapply Qle_trans; [exact Hw|]. eapply Qle_trans; [|exact Hv].
    eapply Qle_trans with (inject_Z (roundScaled w s) + 1 - (1 # 2))%Q.
    - apply Qle_lteq. right. ring.
    - by apply Qplus_le_compat; [|apply Qle_refl]. }
  apply Qmult_lt_0_le_reg_r in Hle; [|done].
  apply Hgt. rewrite (roundScaled_proper s v w); [lia|]. by apply Qle_antisym.
Qed.

(** [roundAmount] accepts exactly the amounts that fit NUMERIC(30,12). *)
Lemma roundAmount_eq v :
  roundAmount v =
    if Z.abs (roundScaled v AmountScale) <? pow10 30
    then Ok (scaledIntegerString (roundScaled v AmountScale) AmountScale)
    else Err (ErrInvalidDecimal "amount exceeds NUMERIC(30,12)").
Proof.
  unfold roundAmount, roundFixed. set (r := roundScaled v AmountScale).
  destruct (scaledIntegerString_literal r AmountScale) as (i & f & Ef & Hi & Hf & Hl & Hv); [unfold AmountScale; lia|].
  rewrite Ef, parse_literal by done. cbn [negb andb].
  rewrite andb_false_r, Hl, Nat.ltb_irrefl, orb_false_r. cbn [orb].
  assert (Hb : (maxIntegerDigits <? String.length i)%nat = negb (Z.abs r <? pow10 30)).
  { apply Bool.eq_iff_eq_true. rewrite Nat.ltb_lt, negb_true_iff, Z.ltb_ge.
    unfold maxIntegerDigits. rewrite <- Hv, dec_val_cat, Hl.
    pose proof (dec_val_bound f Hf) as Bf. rewrite Hl in Bf.
    change (pow10 30) with (pow10 18 * pow10 12). unfold AmountScale in *.
    pose proof (canonical_int_length i 18 Hi ltac:(lia)) as Hc. pose proof (pow10_pos 12).
    split; intros Hx.
    - assert (~ (dec_val 0 i < pow10 18)) by (rewrite <- Hc; lia). nia.
    - assert (~ (String.length i <= 18)%nat); [rewrite Hc; nia|lia]. }
  rewrite Hb. destruct (Z.abs r <? pow10 30); [|done]. cbn [negb]. destruct (is_zero_literal _ _); done.
Qed.

#[export] Instance roundAmount_proper : Proper (Qeq ==> eq) roundAmount.
Proof. intros v w E. rewrite !roundAmount_eq, (roundScaled_proper AmountScale v w E). done. Qed.

#[export] Instance multiplyCostAndRound_proper : Proper (Qeq ==> eq ==> eq) multiplyCostAndRound.
Proof.
  intros v w E m _ <-. unfold multiplyCostAndRound.
  destruct (with_context _ _); [|done]. cbn [rbind]. destruct (ratOf _); [|done]. cbn [rbind]. by rewrite E.
Qed.

Definition same_value (s t : string) : Prop :=
  match rat_SetString s, rat_SetString t with Some p, Some q => (p == q)%Q | _, _ => False end.

Lemma parse_value v scale signed allowZero c :
  parseBounded v scale signed allowZero = Ok c ->
  exists q n, rat_SetString c = Some q /\ (q == scaled n scale)%Q /\ Z.abs n < pow10 (18 + scale) /\
    (signed = false -> 0 <= n) /\ (allowZero = false -> n <> 0) /\
    exists q', rat_SetString v = Some q' /\ (q' == q)%Q.
Proof.
  intros (neg & i & m2 & Hi & Hm & Hv & Hs & Hli & Hlm & Hz & ->)%parse_inv.
  set (f := trim_right_char "0" m2) in *. assert (Hf : all_digits f = true) by by apply all_digits_trim.
  assert (Hq : (mk_rat (neg && negb (is_zero_literal i f)) i f == mk_rat neg i m2)%Q).
  { transitivity (mk_rat neg i f); [|apply mk_rat_trim]. destruct (is_zero_literal i f) eqn:E; [|by rewrite andb_true_r].
    rewrite andb_false_r. apply is_zero_literal_spec in E as [-> ->]. destruct neg; reflexivity. }
  pose proof (dec_val_bound _ Hm). destruct Hi as [Hid Hlead].
  pose proof (dec_val_bound _ Hid). set (mag := dec_val 0 (i +:+ m2)).
  assert (Hmag : 0 <= mag < pow10 (18 + String.length m2)).
  { unfold mag. rewrite dec_val_cat, pow10_add. pose proof (pow10_le _ _ Hli). nia. }
  set (k := (scale - String.length m2)%nat).
  exists (mk_rat (neg && negb (is_zero_literal i f)) i f), ((if neg then -1 else 1) * mag * pow10 k).
  rewrite rat_render by done. split; [done|].
  assert (Hsc : pow10 scale = pow10 (String.length m2) * pow10 k)
    by (rewrite <- pow10_add; f_equal; unfold k; lia).
  pose proof (pow10_pos k). pose proof (pow10_pos (String.length m2)).
  repeat split.
  - rewrite Hq. unfold mk_rat, scaled, Qeq. simpl. fold mag. rewrite !Z2Pos.id by (rewrite ?Hsc; nia).
    rewrite Hsc. destruct neg; unfold id; nia.
  - rewrite !Z.abs_mul. replace (Z.abs (if neg then -1 else 1)) with 1 by by destruct neg.
    rewrite (Z.abs_eq mag), (Z.abs_eq (pow10 k)) by lia.
    replace (18 + scale)%nat with (18 + String.length m2 + k)%nat by (unfold k; lia).
    rewrite pow10_add. nia.
  - intros Hsg. destruct neg; [rewrite Hs in Hsg by done; done|]. nia.
  - intros Ha Hn. assert (mag = 0) by (destruct neg; nia).
    assert (is_zero_literal i f = true) as E; [|by rewrite Hz in Ha].
    apply (mk_rat_zero false); [by split|done|]. unfold mk_rat, Qeq. simpl. fold mag. lia.
  - exists (mk_rat neg i m2). split; [|by rewrite Hq].
    destruct Hv as [->|[-> ->]]; [by apply rat_render|by apply rat_plus_render].
Qed.

Lemma rat_scaled_nonneg n s : 0 <= n -> (0 <= scaled n s)%Q.
Proof. intros H. unfold Qle, scaled. simpl. lia. Qed.

(** Parsed prices are non-negative rationals; the parse never yields a nil [Rat]. *)
Lemma priceRat_spec p q :
  priceRat p = Ok q -> (0 <= q)%Q /\ exists q', rat_SetString p = Some q' /\ (q' == q)%Q.
Proof.
  unfold priceRat, with_context, ratOf, ParsePrice. intros H. inv_bind H.
  destruct (parseBounded p AmountScale false true) as [c|] eqn:E; [|done]. cbn in Hm. injection Hm as <-.
  apply parse_value in E as (q0 & n & Hq & Hn & _ & Hp & _ & q' & Hq' & Heq).
  rewrite Hq in H. injection H as <-. split; [rewrite Hn; apply rat_scaled_nonneg; auto|]. eauto.
Qed.

Lemma parse_then_rat v scale signed allowZero c :
  parseBounded v scale signed allowZero = Ok c -> exists q, ratOf c = Ok q.
Proof. intros (q & n & Hq & _)%parse_value. unfold ratOf. rewrite Hq. eauto. Qed.

Lemma priceRat_no_nil p : priceRat p <> Err NilRat.
Proof.
  unfold priceRat, with_context, ParsePrice. destruct (parseBounded p AmountScale false true) as [c|] eqn:E; [|done].
  cbn. apply parse_then_rat in E as [q ->]. done.
Qed.

Lemma roundAmount_no_nil v : roundAmount v <> Err NilRat.
Proof. rewrite roundAmount_eq. by destruct (_ <? _). Qed.

Lemma multiply_spec total m r :
  multiplyCostAndRound total m = Ok r <->
  exists c f, ParseMultiplier m = Ok c /\ rat_SetString c = Some f /\ (0 < f)%Q /\ roundAmount (total * f) = Ok r.
Proof.
  unfold multiplyCostAndRound, with_context, ratOf, ParseMultiplier. split.
  - intros H. inv_bind H. destruct (parseBounded m AmountScale false false) as [c|] eqn:E; [|done].
    cbn in Hm. injection Hm as <-. pose proof E as (q0 & n & Hq & Hn & _ & Hp & Hz & _)%parse_value.
    rewrite Hq in H. cbn in H. exists c, q0. repeat split; auto.
    rewrite Hn. specialize (Hp eq_refl). specialize (Hz eq_refl). unfold Qlt, scaled. simpl. lia.
  - intros (c & f & -> & Hf & _ & Hr). cbn. by rewrite Hf.
Qed.

Lemma multiply_no_nil total m : multiplyCostAndRound total m <> Err NilRat.
Proof.
  unfold multiplyCostAndRound, with_context, ParseMultiplier.
  destruct (parseBounded m AmountScale false false) as [c|] eqn:E; [|done]. cbn.
  apply parse_then_rat in E as [q ->]. apply roundAmount_no_nil.
Qed.

(** The value of a printed amount. *)
Definition amount_value (s : string) : Q := default 0%Q (rat_SetString s).

Lemma roundAmount_value v r :
  roundAmount v = Ok r -> amount_value r = scaled (roundScaled v AmountScale) AmountScale.
Proof.
  rewrite roundAmount_eq. destruct (_ <? _); [|done]. intros [= <-].
  unfold amount_value. rewrite rat_scaledIntegerString by (unfold AmountScale; lia). done.
Qed.

Lemma roundScaled_nonneg v s : (0 <= v)%Q -> 0 <= roundScaled v s.
Proof. intros H. change 0 with (roundScaled 0 s) at 1. by apply roundScaled_mono. Qed.

(** A smaller total rounds to a smaller amount, which fits if the larger does. *)
Lemma multiply_le t t' m r' :
  (0 <= t)%Q -> (t <= t')%Q -> multiplyCostAndRound t' m = Ok r' ->
  exists r, multiplyCostAndRound t m = Ok r /\ (amount_value r <= amount_value r')%Q.
Proof.
  intros H0 Hle (c & f & Hc & Hf & Hpos & Hr')%multiply_spec.
  assert (Hle' : (t * f <= t' * f)%Q) by (apply Qmult_le_compat_r; [done|by apply Qlt_le_weak]).
  assert (H0' : (0 <= t * f)%Q) by (apply Qmult_le_0_compat; [done|by apply Qlt_le_weak]).
  pose proof (roundScaled_mono _ _ AmountScale Hle') as Hm.
  pose proof (roundScaled_nonneg _ AmountScale H0') as Hn.
  assert (exists r, roundAmount (t * f) = Ok r) as [r Hr].
  { rewrite roundAmount_eq in Hr' |- *. destruct (Z.abs (roundScaled (t' * f) _) <? _) eqn:E; [|done].
    breflect. replace (_ <? _) with true by lia. eauto. }
  exists r. split; [apply multiply_spec; eauto 6|].
  rewrite (roundAmount_value _ _ Hr), (roundAmount_value _ _ Hr'). unfold Qle, scaled. simpl. nia.
Qed.

(** Parsing the canonical string again returns it. *)
Lemma parseBounded_idem v scale signed allowZero c :
  parseBounded v scale signed allowZero = Ok c -> parseBounded c scale signed allowZero = Ok c.
Proof.
  intros (neg & i & m2 & Hi & Hm & Hv & Hs & Hli & Hlm & Hz & ->)%parse_inv.
  set (f := trim_right_char "0" m2) in *. assert (Hf : all_digits f = true) by by apply all_digits_trim.
  rewrite parse_literal by done. replace (trim_right_char "0" f) with f by (symmetry; apply trim_right_char_idem).
  rewrite (proj2 (Nat.ltb_ge _ _) Hli : (maxIntegerDigits <? _)%nat = false).
  rewrite (proj2 (Nat.ltb_ge scale (String.length f))) by (pose proof (length_trim "0" m2); fold f in H; lia).
  destruct (is_zero_literal i f) eqn:Ez.
  - rewrite andb_false_r. cbn [andb orb]. rewrite Hz by done.
    apply is_zero_literal_spec in Ez as [-> ->]. done.
  - rewrite andb_true_r. destruct neg; [rewrite Hs by done|]; done.
Qed.

(** The text of an amount in the range of its column parses, to the same value. *)
Lemma parse_scaled_text r :
  0 < r < pow10 30 -> exists c, ParseRate (scaledIntegerString r AmountScale) = Ok c /\
    exists q, rat_SetString c = Some q /\ (q == scaled r AmountScale)%Q.
Proof.
  intros Hr. assert (Hrat : rat_SetString (scaledIntegerString r AmountScale) = Some (scaled r AmountScale))
    by (apply rat_scaledIntegerString; unfold AmountScale; lia).
  destruct (scaledIntegerString_literal r AmountScale) as (i & f & Ef & Hi & Hf & Hl & Hv); [unfold AmountScale; lia|].
  replace (r <? 0) with false in Ef by lia.
  assert (exists c, ParseRate (scaledIntegerString r AmountScale) = Ok c) as [c Hc].
  { unfold ParseRate, RateScale. rewrite Ef, parse_literal by done. cbn [negb andb orb]. rewrite Hl, Nat.ltb_irrefl, orb_false_r.
    assert ((maxIntegerDigits <? String.length i)%nat = false) as ->.
    { apply Nat.ltb_ge. unfold maxIntegerDigits. apply (canonical_int_length i 18 Hi ltac:(lia)).
      rewrite dec_val_cat, Hl in Hv. pose proof (dec_val_bound f Hf). change (pow10 30) with (pow10 18 * pow10 12) in Hr.
      unfold AmountScale in *. pose proof (pow10_pos 12). nia. }
    destruct (is_zero_literal i (trim_right_char "0" f)) eqn:Ez; [|eauto]. apply (mk_rat_zero false) in Ez; [|done|done].
    rewrite Ef, rat_render in Hrat by done. apply Some_inj in Hrat. rewrite Hrat in Ez. unfold Qeq, scaled in Ez. cbn in Ez. lia. }
  exists c. split; [done|]. apply parse_value in Hc as (q & n & Hq & _ & _ & _ & _ & q' & Hq' & E). exists q. split; [done|].
  rewrite Hrat in Hq'. injection Hq' as <-. by symmetry.
Qed.

(** ** Properties *)

(** The output of [parseBounded] is a normal form: it has the value of the
    input, parsing it again returns it unchanged, and any other accepted input
    of the same value gives the same string. *)
Theorem parseBounded_normal_form v scale signed allowZero c :
  parseBounded v scale signed allowZero = Ok c ->
  same_value v c /\ parseBounded c scale signed allowZero = Ok c /\
  (forall v' c', parseBounded v' scale signed allowZero = Ok c' -> same_value v v' -> c' = c).
Proof.
  intros H. pose proof H as (q & n & Hq & _ & _ & _ & _ & q' & Hq' & Heq)%parse_value. pose proof (parseBounded_idem _ _ _ _ _ H) as Hid.
  apply parse_inv in H as (neg & i & m2 & Hi & Hm & Hv & Hs & Hli & Hlm & Hz & ->).
  set (f := trim_right_char "0" m2) in *. assert (Hf : all_digits f = true) by by apply all_digits_trim.
  assert (Ev : rat_SetString v = Some (mk_rat neg i m2)).
  { destruct Hv as [->|[-> ->]]; [by apply rat_render|by apply rat_plus_render]. }
  split; [unfold same_value; by rewrite Hq, Hq'|]. split; [done|].
  intros v' c' (neg' & i' & m2' & Hi' & Hm' & Hv' & _ & _ & _ & _ & ->)%parse_inv Hsv.
  assert (Ev' : rat_SetString v' = Some (mk_rat neg' i' m2')).
  { destruct Hv' as [->|[-> ->]]; [by apply rat_render|by apply rat_plus_render]. }
  unfold same_value in Hsv. rewrite Ev, Ev' in Hsv. symmetry. by apply render_inj_value.
Qed.

Lemma parseBounded_normal_form_witness :
  parseBounded "+0.500" 6 true false = Ok "0.5" /\ parseBounded "0.5" 6 true false = Ok "0.5".
Proof. split; [vm_compute; reflexivity|]. apply (parseBounded_normal_form "+0.500"). vm_compute. reflexivity. Defined.

(** An accepted decimal denotes [n / 10^scale] for an integer [n] of at most
    [18 + scale] digits, non-negative unless a sign was allowed and non-zero
    unless zero was allowed: it is stored exactly in its NUMERIC column. *)
Theorem parseBounded_bounds v scale signed allowZero c :
  parseBounded v scale signed allowZero = Ok c ->
  exists n, (amount_value c == scaled n scale)%Q /\ Z.abs n < pow10 (18 + scale) /\
    (signed = false -> 0 <= n) /\ (allowZero = false -> n <> 0).
Proof.
  intros (q & n & Hq & Hn & Hb & Hp & Hz & _)%parse_value.
  exists n. unfold amount_value. rewrite Hq. auto.
Qed.

Lemma parseBounded_bounds_witness :
  exists n, (amount_value "-12.5" == scaled n 6)%Q /\ Z.abs n < pow10 24 /\
    (true = false -> 0 <= n) /\ (false = false -> n <> 0).
Proof. apply (parseBounded_bounds "-12.500" 6 true false). vm_compute. reflexivity. Defined.

(** [C38] [roundAmount] is total on rationals: it prints the value rounded to
    twelve decimals, halves away from zero, when the rounded amount has at most
    thirty digits, and fails otherwise. *)
Theorem roundAmount_correct v :
  exists n, half_away n (Zpos (Qden v)) (Qnum v * pow10 AmountScale) /\
    ((Z.abs n < pow10 30 /\ exists s, roundAmount v = Ok s /\ rat_SetString s = Some (scaled n AmountScale)) \/
     (pow10 30 <= Z.abs n /\ roundAmount v = Err (ErrInvalidDecimal "amount exceeds NUMERIC(30,12)"))).
Proof.
  exists (roundScaled v AmountScale). split; [apply roundScaled_spec|]. rewrite roundAmount_eq.
  destruct (Z.abs _ <? _) eqn:E; breflect; [left|by right]. split; [done|].
  eexists. split; [done|]. apply rat_scaledIntegerString. unfold AmountScale. lia.
Qed.

(** In [included_in_input] mode the four-price calculation charges exactly
    what the three-price calculation charges: cache writes are already covered
    by the ordinary input price. *)
Theorem cost_v2_included_eq_v1 input cached write output ip cp wp op m q :
  0 <= write -> priceRat wp = Ok q ->
  CalculateCostV2WithMultiplier input cached write output "included_in_input" ip cp wp op m =
  CalculateCostWithMultiplier input cached output ip cp op m.
Proof.
  intros Hw Hq. unfold CalculateCostV2WithMultiplier, CalculateCostWithMultiplier.
  replace (write <? 0) with false by lia. rewrite orb_false_r.
  destruct (_ || _); [done|]. cbn [bool_decide negb andb]. rewrite Hq.
  destruct (priceRat ip); [|done]. cbn [rbind]. destruct (priceRat cp); [|done]. cbn [rbind].
  by destruct (priceRat op).
Qed.

Lemma cost_v2_included_eq_v1_witness :
  CalculateCostV2WithMultiplier 10 4 3 5 "included_in_input" "2" "1" "9" "3" "1" =
  CalculateCostWithMultiplier 10 4 5 "2" "1" "3" "1".
Proof. apply (cost_v2_included_eq_v1 10 4 3 5 "2" "1" "9" "3" "1" (9 # 1)%Q); [lia|vm_compute; reflexivity]. Defined.

(** In [separate] mode the cost of well-formed counts is the exact
    rational sum over the four categories, scaled by the multiplier and rounded
    once; no int64 subtraction wraps. *)
Theorem cost_v2_separate_exact input cached write output ip cp wp op m p0 p1 p2 p3 :
  is_int64 input -> 0 <= cached -> 0 <= write -> write <= input - cached -> 0 <= output ->
  priceRat ip = Ok p0 -> priceRat cp = Ok p1 -> priceRat wp = Ok p2 -> priceRat op = Ok p3 ->
  CalculateCostV2WithMultiplier input cached write output "separate" ip cp wp op m =
  multiplyCostAndRound
    ((inject_Z (input - cached - write) * p0 + inject_Z cached * p1 +
      inject_Z write * p2 + inject_Z output * p3) / inject_Z 1000000) m.
Proof.
  intros Hi Hc Hw Hle Ho H0 H1 H2 H3. unfold CalculateCostV2WithMultiplier, is_int64, max_int64 in *.
  rewrite H0, H1, H2, H3. cbn [rbind bool_decide negb andb].
  rewrite !(wrap64_id (input - cached)), (wrap64_id (input - cached - write))
    by (unfold is_int64, min_int64, max_int64; lia).
  replace (_ || _) with false by lia. replace (input - cached <? write) with false by lia. done.
Qed.

Lemma cost_v2_separate_exact_witness :
  CalculateCostV2WithMultiplier 10 4 3 5 "separate" "2" "1" "9" "3" "1" = Ok "0.000052000000".
Proof.
  rewrite (cost_v2_separate_exact 10 4 3 5 "2" "1" "9" "3" "1" (2 # 1) (1 # 1) (9 # 1) (3 # 1));
    [vm_compute; reflexivity|unfold is_int64, min_int64, max_int64; lia|lia..
    |vm_compute; reflexivity|vm_compute; reflexivity|vm_compute; reflexivity|vm_compute; reflexivity].
Defined.

Lemma max_price_covers (a b : Z) (p q : Q) :
  0 <= a -> 0 <= b -> (0 <= p)%Q -> (0 <= q)%Q ->
  (inject_Z a * p + inject_Z b * q <= inject_Z (a + b) * (if rat_gtb q p then q else p))%Q.
Proof.
  intros Ha Hb Hp Hq. rewrite inject_Z_plus, Qmult_plus_distr_l.
  assert (Hz : forall n, 0 <= n -> (0 <= inject_Z n)%Q) by (intros n Hn; unfold Qle, inject_Z; simpl; lia).
  assert (Hmax : (p <= if rat_gtb q p then q else p)%Q /\ (q <= if rat_gtb q p then q else p)%Q).
  { unfold rat_gtb. destruct (Qcompare_spec q p) as [E|E|E]; split;
      auto using Qle_refl, Qlt_le_weak. rewrite E. apply Qle_refl. }
  destruct Hmax. apply Qplus_le_compat; apply Qmult_le_compat_nonneg; auto using Qle_refl.
Qed.

Lemma cost_total_nonneg (a b c : Z) p q r :
  0 <= a -> 0 <= b -> 0 <= c -> (0 <= p)%Q -> (0 <= q)%Q -> (0 <= r)%Q ->
  (0 <= inject_Z a * p + inject_Z b * q + inject_Z c * r)%Q.
Proof.
  assert (Hz : forall n x, 0 <= n -> (0 <= x)%Q -> (0 <= inject_Z n * x)%Q).
  { intros n x Hn Hx. apply Qmult_le_0_compat; [unfold Qle, inject_Z; simpl; lia|done]. }
  intros. change 0%Q with (0 + 0 + 0)%Q. repeat apply Qplus_le_compat; auto.
Qed.

Lemma Qdiv_million_le x y : (x <= y)%Q -> (x / million <= y / million)%Q.
Proof. intros. apply Qmult_le_compat_r; [done|]. vm_compute. discriminate. Qed.

(** When the upstream reports no TTL breakdown, the aggregate charge at the
    higher write price covers every possible breakdown: any observed split of
    the same cache writes is accepted and costs no more. *)
Theorem ttl_fallback_covers input cached write w5 w1 output ip cp p5 ph op m r' :
  is_int64 input -> 0 <= w5 -> 0 <= w1 -> w5 + w1 = write ->
  CalculateCostV2TTLWithMultiplier input cached write 0 0 output false ip cp p5 ph op m = Ok r' ->
  exists r,
    CalculateCostV2TTLWithMultiplier input cached write w5 w1 output true ip cp p5 ph op m = Ok r /\
    (amount_value r <= amount_value r')%Q.
Proof.
  intros Hi H5 H1 Hsum. unfold CalculateCostV2TTLWithMultiplier.
  destruct (_ || _) eqn:Eg; [done|]. cbn [negb andb orb Z.eqb]. intros H.
  inv_bind H. inv_bind H. inv_bind H. inv_bind H. inv_bind H.
  unfold is_int64, min_int64, max_int64 in Hi. breflect.
  assert (Hr : forall z, 0 <= z <= input -> wrap64 z = z).
  { intros z Hz. apply wrap64_id. unfold is_int64, min_int64, max_int64. lia. }
  rewrite !(Hr (input - cached)) in * by lia. rewrite (Hr (write - w5)) by lia.
  rewrite (Hr (input - cached - write)) in * by lia.
  replace (_ || _) with false by lia. replace (_ || _) with false by lia.
  rewrite Hm, Hm0, Hm1, Hm2, Hm3. cbn [rbind].
  apply priceRat_spec in Hm as [Hm _], Hm0 as [Hm0 _], Hm1 as [Hm1 _], Hm2 as [Hm2 _], Hm3 as [Hm3 _].
  eapply multiply_le; [| |exact H].
  - apply Qle_shift_div_l; [reflexivity|]. rewrite Qmult_0_l.
    change 0%Q with (0 + 0)%Q. apply Qplus_le_compat.
    + rewrite <- Qplus_assoc. rewrite (Qplus_comm (inject_Z w5 * _)), Qplus_assoc.
      change 0%Q with (0 + 0)%Q. apply Qplus_le_compat; [apply cost_total_nonneg; first [lia|done]|].
      apply Qmult_le_0_compat; [unfold Qle, inject_Z; simpl; lia|done].
    + apply Qmult_le_0_compat; [unfold Qle, inject_Z; simpl; lia|done].
  - apply Qdiv_million_le, Qplus_le_compat; [|apply Qle_refl].
    rewrite <- Qplus_assoc. apply Qplus_le_compat; [apply Qle_refl|].
    rewrite <- Hsum. by apply max_price_covers.
Qed.

Lemma ttl_fallback_covers_witness :
  exists r, CalculateCostV2TTLWithMultiplier 100 10 30 20 10 5 true "3" "0.3" "3.75" "6" "15" "1" = Ok r /\
    (amount_value r <= amount_value "0.000438000000")%Q.
Proof.
  apply (ttl_fallback_covers 100 10 30 20 10 5 "3" "0.3" "3.75" "6" "15" "1");
    [unfold is_int64, min_int64, max_int64; lia|lia..|vm_compute; reflexivity].
Defined.

Lemma rbind_no_nil {A B} (m : result amount_error A) (k : A -> result amount_error B) :
  m <> Err NilRat -> (forall a, m = Ok a -> k a <> Err NilRat) -> rbind m k <> Err NilRat.
Proof. intros Hm Hk. destruct m; simpl; [by apply Hk|]. congruence. Qed.

Ltac no_nil :=
  repeat first [ apply rbind_no_nil; [apply priceRat_no_nil|intros]
               | apply multiply_no_nil | destruct (_ || _); [discriminate|]
               | destruct (_ && _); [discriminate|] ].

(** No cost calculation dereferences an unparsed rational: every string
    handed to [SetString] has been through the parser, which accepts only
    decimals that [SetString] reads. *)
Theorem cost_never_nil input cached write w5 w1 output present mode ip cp wp p5 ph op m :
  CalculateCostWithMultiplier input cached output ip cp op m <> Err NilRat /\
  CalculateCostV2WithMultiplier input cached write output mode ip cp wp op m <> Err NilRat /\
  CalculateCostV2TTLWithMultiplier input cached write w5 w1 output present ip cp p5 ph op m <> Err NilRat /\
  MultiplyToAmount ip cp <> Err NilRat.
Proof.
  repeat split.
  - unfold CalculateCostWithMultiplier. no_nil.
  - unfold CalculateCostV2WithMultiplier. no_nil.
  - unfold CalculateCostV2TTLWithMultiplier. no_nil.
  - unfold MultiplyToAmount, with_context, ParseInput, ParseRate.
    destruct (parseBounded ip _ _ _) as [c|] eqn:E; [|done]. cbn [map_err rbind].
    destruct (parseBounded cp _ _ _) as [d|] eqn:E'; [|done]. cbn [map_err rbind].
    apply parse_then_rat in E as [q ->], E' as [q' ->]. apply roundAmount_no_nil.
Qed.
