(* ===== verification/Pricing.v ===== *)
(** * Pricing catalog and price selection ([internal/config/pricing.go])

    The operator's catalog, its validation, the per-request snapshot, and the
    choice of the price that applies at settlement, with the conservative
    fallbacks.  JSON decoding itself is a parameter: the functions here start
    from the decoded records and the set of fields that were present.

    A Go [map] has no iteration order; ranging over one visits the entries of
    [map_to_list].  Which validation error is reported first may depend on the
    order, but whether one is does not. *)
From Stdlib Require Import Ascii QArith Qminmax Morphisms.
From S2P Require Import Prelude GoStrings GoTime Amount.

Definition maxUsagePricingModels : nat := 1000.
Definition PricingSchemaV1 : Z := 1.
Definition PricingSchemaV2 : Z := 2.
Definition CacheWriteSeparate : string := "separate".
Definition CacheWriteSeparateByTTL : string := "separate_by_ttl".
Definition CacheWriteIncludedInInput : string := "included_in_input".
Definition PricingTierStandard : string := "standard".
Definition PricingTierFlex : string := "flex".
Definition PricingTierFast : string := "fast".
Definition PricingTierMaxPublished : string := "max_published".
Definition ContextClassShort : string := "short".
Definition ContextClassLong : string := "long".
Definition FallbackUnknownServiceTier : string := "unknown_service_tier".
Definition FallbackMissingServiceTier : string := "missing_service_tier".
Definition FallbackMissingPriceCombination : string := "missing_price_combination".
Definition FallbackMissingCacheWriteTokens : string := "missing_cache_write_tokens".
Definition FallbackMissingCacheWriteTTL : string := "missing_cache_write_ttl".
Definition FallbackMaxPublished : string := "max_published".
Definition FallbackAllUncachedAsWrite : string := "all_uncached_as_write".

(** ** Data *)

Record PricingFallbackPolicy := {
  UnknownServiceTier : string;
  MissingPriceCombination : string;
  MissingCacheWriteTokens : string;
}.

Record TokenPricing := {
  tp_Input : string;
  tp_CachedInput : string;
  tp_CacheWrite : option string;
  tp_CacheWrite5m : option string;
  tp_CacheWrite1h : option string;
  tp_Output : string;
}.

Record ServiceTierPricing := { Short : option TokenPricing; Long : option TokenPricing }.

Record ModelPricing := {
  mp_Input : string;
  mp_CachedInput : string;
  mp_Output : string;
  CacheWriteMode : string;
  MaxInputTokens : Z;
  LongContextThresholdTokens : Z;
  ServiceTiers : gmap string ServiceTierPricing;
}.

Record UsagePricing := {
  up_SchemaVersion : Z;
  CatalogAsOf : string;
  FXAsOf : string;
  USDCNYRate : string;
  up_FallbackPolicy : PricingFallbackPolicy;
  Models : gmap string ModelPricing;
}.

Record PricingSnapshot := {
  ps_SchemaVersion : Z;
  ps_FallbackPolicy : PricingFallbackPolicy;
  ps_Model : string;
  Rule : ModelPricing;
}.

Record PricingDecision := {
  PricingServiceTier : string;
  ContextClass : string;
  d_Input : string;
  d_CachedInput : string;
  d_CacheWrite : string;
  d_CacheWrite5m : string;
  d_CacheWrite1h : string;
  d_Output : string;
  FallbackReason : string;
}.

(** ** Validation *)

Definition model_char (c : ascii) : bool :=
  let n := byte_of c in
  ((65 <=? n) && (n <=? 90)) || ((97 <=? n) && (n <=? 122)) || is_digit c ||
  Ascii.eqb c "." || Ascii.eqb c "_" || Ascii.eqb c ":" || Ascii.eqb c "-".
(** [usagePricingModelPattern]: one to 128 characters of the class above. *)
Definition usagePricingModelPattern (s : string) : bool :=
  (1 <=? String.length s)%nat && (String.length s <=? 128)%nat && str_forall model_char s.

Definition validateV2FallbackPolicy (policy : PricingFallbackPolicy) : result string unit :=
  if negb (bool_decide (UnknownServiceTier policy = FallbackMaxPublished))
  then Err "fallback_policy.unknown_service_tier" else
  if negb (bool_decide (MissingPriceCombination policy = FallbackMaxPublished))
  then Err "fallback_policy.missing_price_combination" else
  if negb (bool_decide (MissingCacheWriteTokens policy = FallbackAllUncachedAsWrite))
  then Err "fallback_policy.missing_cache_write_tokens" else Ok tt.

Definition v1Fields : list string := ["input_usd_per_million"; "cached_input_usd_per_million"; "output_usd_per_million"].
Definition v2Fields : list string := ["cache_write_mode"; "max_input_tokens"; "long_context_threshold_tokens"; "service_tiers"].

Definition validateModelPricingFieldPresence (schemaVersion : Z) (fields : gset string) : result string unit :=
  if existsb (fun f => bool_decide (f ∈ fields) && (schemaVersion =? PricingSchemaV2)) v1Fields
  then Err "pricing v2 model must not define v1 field" else
  if existsb (fun f => bool_decide (f ∈ fields) && (schemaVersion =? PricingSchemaV1)) v2Fields
  then Err "pricing v1 model must not define v2 field" else Ok tt.

(** [for ... range] over the values of a map: the first error stops the loop. *)
Fixpoint all_ok {A} (f : A -> result string unit) (l : list A) : result string unit :=
  match l with
  | [] => Ok tt
  | x :: l' => let! _ := f x in all_ok f l'
  end.

Definition valid_price (value : string) : result string unit :=
  match ParsePrice value with Ok _ => Ok tt | Err _ => Err "invalid price" end.

Definition validateV1ModelPricing (price : ModelPricing) : result string unit :=
  if negb (bool_decide (CacheWriteMode price = EmptyString)) || negb (MaxInputTokens price =? 0) ||
     negb (LongContextThresholdTokens price =? 0) || negb (bool_decide (size (ServiceTiers price) = 0%nat))
  then Err "pricing v1 model must not mix v2 fields" else
  all_ok valid_price [mp_Input price; mp_CachedInput price; mp_Output price].

Definition validateTokenPricing (cacheWriteMode : string) (price : TokenPricing) : result string unit :=
  let! _ := all_ok valid_price [tp_Input price; tp_CachedInput price; tp_Output price] in
  let! _ :=
    if bool_decide (cacheWriteMode = CacheWriteSeparate) then
      match tp_CacheWrite price with
      | None => Err "requires cache_write_usd_per_million"
      | Some p => valid_price p
      end
    else match tp_CacheWrite price with Some _ => Err "must omit cache_write_usd_per_million" | None => Ok tt end in
  if bool_decide (cacheWriteMode = CacheWriteSeparateByTTL) then
    all_ok (fun value => match value with None => Err "requires TTL price" | Some p => valid_price p end)
      [tp_CacheWrite5m price; tp_CacheWrite1h price]
  else match tp_CacheWrite5m price, tp_CacheWrite1h price with
       | None, None => Ok tt
       | _, _ => Err "must omit TTL cache write prices"
       end.

Definition validate_tier (cacheWriteMode : string) (entry : string * ServiceTierPricing) : result string unit :=
  let '(tier, contexts) := entry in
  if negb (bool_decide (tier = PricingTierStandard)) && negb (bool_decide (tier = PricingTierFlex)) &&
     negb (bool_decide (tier = PricingTierFast))
  then Err "invalid service tier" else
  match Short contexts, Long contexts with
  | None, None => Err "no published context price"
  | _, _ =>
      let! _ := match Short contexts with Some p => validateTokenPricing cacheWriteMode p | None => Ok tt end in
      match Long contexts with Some p => validateTokenPricing cacheWriteMode p | None => Ok tt end
  end.

Definition validateV2ModelPricing (price : ModelPricing) : result string unit :=
  if negb (bool_decide (mp_Input price = EmptyString)) || negb (bool_decide (mp_CachedInput price = EmptyString)) ||
     negb (bool_decide (mp_Output price = EmptyString))
  then Err "pricing v2 model must not mix v1 price fields" else
  if negb (bool_decide (CacheWriteMode price = CacheWriteSeparate)) &&
     negb (bool_decide (CacheWriteMode price = CacheWriteSeparateByTTL)) &&
     negb (bool_decide (CacheWriteMode price = CacheWriteIncludedInInput))
  then Err "invalid cache_write_mode" else
  if (MaxInputTokens price <=? 0) || (LongContextThresholdTokens price <=? 0) ||
     (MaxInputTokens price <? LongContextThresholdTokens price)
  then Err "invalid input-token boundaries" else
  if bool_decide (size (ServiceTiers price) = 0%nat) then Err "must define service_tiers" else
  all_ok (validate_tier (CacheWriteMode price)) (map_to_list (ServiceTiers price)).

(** What [encoding/json] makes of the catalog and of a snapshot: the decoded
    record and which fields its model rules carried. *)
Record DecodedUsagePricing := {
  du_pricing : UsagePricing;
  du_model_fields : gmap string (gset string);
  du_fallback_present : bool;
}.
Record DecodedSnapshot := { ds_snapshot : PricingSnapshot; ds_rule_fields : gset string }.

Section json.
Context (decode_usage_pricing : string -> option DecodedUsagePricing).
Context (decode_snapshot : string -> option DecodedSnapshot).

Definition validate_model (p : UsagePricing) (fields : gmap string (gset string)) (entry : string * ModelPricing)
  : result string unit :=
  let '(model, price) := entry in
  if negb (usagePricingModelPattern model) then Err "pricing model names" else
  let! _ := validateModelPricingFieldPresence (up_SchemaVersion p) (default ∅ (fields !! model)) in
  if up_SchemaVersion p =? PricingSchemaV1 then validateV1ModelPricing price else validateV2ModelPricing price.

Definition ParseUsagePricing (raw : string) : result string UsagePricing :=
  if bool_decide (trim_space raw = EmptyString) then Err "GATEWAY_USAGE_PRICING_JSON is required" else
  match decode_usage_pricing raw with
  | None => Err "parse GATEWAY_USAGE_PRICING_JSON"
  | Some d =>
      let p0 := du_pricing d in
      let version := if up_SchemaVersion p0 =? 0 then PricingSchemaV1 else up_SchemaVersion p0 in
      let p := {| up_SchemaVersion := version; CatalogAsOf := CatalogAsOf p0; FXAsOf := FXAsOf p0;
                  USDCNYRate := USDCNYRate p0; up_FallbackPolicy := up_FallbackPolicy p0; Models := Models p0 |} in
      if negb (version =? PricingSchemaV1) && negb (version =? PricingSchemaV2)
      then Err "pricing schema_version must be 1 or 2" else
      if negb (valid_date (CatalogAsOf p)) then Err "pricing catalog_as_of must be YYYY-MM-DD" else
      if negb (valid_date (FXAsOf p)) then Err "pricing fx_as_of must be YYYY-MM-DD" else
      let! _ := match ParseRate (USDCNYRate p) with Ok _ => Ok tt | Err _ => Err "pricing usd_cny_rate" end in
      if bool_decide (size (Models p) = 0%nat) then Err "pricing models must contain at least one exact model" else
      if (maxUsagePricingModels <? size (Models p))%nat then Err "pricing models must contain at most 1000 entries" else
      let! _ := if version =? PricingSchemaV1
                then if du_fallback_present d then Err "pricing v1 must not define fallback_policy" else Ok tt
                else validateV2FallbackPolicy (up_FallbackPolicy p) in
      let! _ := all_ok (validate_model p (du_model_fields d)) (map_to_list (Models p)) in
      Ok p
  end.

Definition ParsePricingSnapshot (raw : string) : result string PricingSnapshot :=
  match decode_snapshot raw with
  | None => Err "decode pricing snapshot"
  | Some d =>
      let s := ds_snapshot d in
      if negb (ps_SchemaVersion s =? PricingSchemaV2) || negb (usagePricingModelPattern (ps_Model s))
      then Err "invalid pricing snapshot header" else
      let! _ := validateModelPricingFieldPresence PricingSchemaV2 (ds_rule_fields d) in
      let! _ := validateV2FallbackPolicy (ps_FallbackPolicy s) in
      let! _ := validateV2ModelPricing (Rule s) in
      Ok s
  end.
End json.

(** [ModelSnapshot], up to the JSON encoding of the snapshot record. *)
Definition ModelSnapshot (p : UsagePricing) (model : string) : option (option PricingSnapshot * ModelPricing) :=
  match Models p !! model with
  | None => None
  | Some rule =>
      if negb (up_SchemaVersion p =? PricingSchemaV2) then Some (None, rule)
      else Some (Some {| ps_SchemaVersion := PricingSchemaV2; ps_FallbackPolicy := up_FallbackPolicy p;
                         ps_Model := model; Rule := rule |}, rule)
  end.

(** ** Selection *)

Definition NormalizeServiceTier (value : string) : option string :=
  let v := to_lower (trim_space value) in
  if bool_decide (v = "default") || bool_decide (v = "standard") then Some PricingTierStandard
  else if bool_decide (v = "flex") then Some PricingTierFlex
  else if bool_decide (v = "priority") || bool_decide (v = "fast") then Some PricingTierFast
  else None.

Definition ValidateRequestedServiceTier (p : UsagePricing) (model raw : string) : result string unit :=
  if bool_decide (trim_space raw = EmptyString) then Ok tt else
  match NormalizeServiceTier raw with
  | None => Err "service tier is not configured"
  | Some tier =>
      match Models p !! model with
      | None => Err "model is not configured"
      | Some rule =>
          if up_SchemaVersion p =? PricingSchemaV1 then
            if negb (bool_decide (tier = PricingTierStandard))
            then Err "service tier is not represented by pricing v1" else Ok tt
          else match ServiceTiers rule !! tier with
               | None => Err "service tier is not configured for model"
               | Some _ => Ok tt
               end
      end
  end.

(** [strings.Split(s, ",")]. *)
Fixpoint split_comma (s : string) : list string :=
  match s with
  | EmptyString => [EmptyString]
  | String c s' =>
      if Ascii.eqb c "," then EmptyString :: split_comma s'
      else match split_comma s' with
           | [] => [String c EmptyString]
           | w :: ws => String c w :: ws
           end
  end.
(** [strings.Join(l, ",")]. *)
Fixpoint join_comma (l : list string) : string :=
  match l with
  | [] => EmptyString
  | [w] => w
  | w :: ws => w +:+ "," +:+ join_comma ws
  end.

Definition AppendFallbackReason (existing reason : string) : string :=
  if bool_decide (reason = EmptyString) then existing else
  let set : gset string :=
    {[ reason ]} ∪ list_to_set (filter (fun w => w <> EmptyString) (split_comma existing)) in
  join_comma (merge_sort str_le (elements set)).

Definition contextPrice (value : ServiceTierPricing) (contextClass : string) : option TokenPricing :=
  if bool_decide (contextClass = ContextClassLong) then Long value else Short value.

(** [strings.SplitN(value, ".", 2)]: the part before the first point, and the
    part after it when there is one. *)
Fixpoint cut_point (s : string) : string * string :=
  match s with
  | EmptyString => (EmptyString, EmptyString)
  | String c s' =>
      if Ascii.eqb c "." then (EmptyString, s')
      else let '(a, b) := cut_point s' in (String c a, b)
  end.
Definition pad_left (pad : ascii) (w : nat) (s : string) : string := str_repeat pad (w - String.length s) +:+ s.
Definition pad_right (pad : ascii) (w : nat) (s : string) : string := s +:+ str_repeat pad (w - String.length s).

(** [fmt.Sprintf("%018s%-012s", integer, fraction)].  Whether the [0] flag pads
    a string with zeros or is ignored has varied between Go releases, so the
    left pad byte is an argument; see [maxDecimal_pad_irrelevant]. *)
Definition decimal_parts (pad : ascii) (value : string) : string :=
  let '(i, f) := cut_point value in pad_left pad 18 i +:+ pad_right " " 12 f.
Definition parsed_or_empty (s : string) : string := match ParsePrice s with Ok c => c | Err _ => EmptyString end.
Definition maxDecimalPad (pad : ascii) (left right : string) : string :=
  let l := parsed_or_empty left in
  let r := parsed_or_empty right in
  if str_ltb (decimal_parts pad l) (decimal_parts pad r) then r else l.
Definition maxDecimal : string -> string -> string := maxDecimalPad "0".

(** The running maximum of an optional price. *)
Definition max_opt (acc : string) (p : option string) : string :=
  match p with Some v => maxDecimal acc v | None => acc end.

Definition componentMaximum (values : list TokenPricing) (cacheWriteMode : string) : option TokenPricing :=
  match values with
  | [] => None
  | _ =>
      let fold f := foldl (fun acc v => maxDecimal acc (f v)) "0" values in
      let fold_opt f := foldl (fun acc v => max_opt acc (f v)) "0" values in
      let ttl := bool_decide (cacheWriteMode = CacheWriteSeparateByTTL) in
      Some {| tp_Input := fold tp_Input; tp_CachedInput := fold tp_CachedInput;
              tp_CacheWrite := if bool_decide (cacheWriteMode = CacheWriteSeparate)
                               then Some (fold_opt tp_CacheWrite) else None;
              tp_CacheWrite5m := if ttl then Some (fold_opt tp_CacheWrite5m) else None;
              tp_CacheWrite1h := if ttl then Some (fold_opt tp_CacheWrite1h) else None;
              tp_Output := fold tp_Output |}
  end.

Definition tiers (rule : ModelPricing) : list ServiceTierPricing := (map_to_list (ServiceTiers rule)).*2.

Definition maxPublishedForContext (rule : ModelPricing) (contextClass : string) : option TokenPricing :=
  componentMaximum (omap (fun tier => contextPrice tier contextClass) (tiers rule)) (CacheWriteMode rule).

Definition maxPublished (rule : ModelPricing) : option TokenPricing :=
  componentMaximum (mjoin ((fun tier => option_list (Short tier) ++ option_list (Long tier)) <$> tiers rule))
    (CacheWriteMode rule).

Inductive select_error : Set := NegativeInputTokens | NoPublishedPrices | NilPrice.

(** [PricingSnapshot.Select]; [NilPrice] is the nil dereference of a missing
    TTL price. *)
Definition Select (s : PricingSnapshot) (actualServiceTier : string) (inputTokens : Z)
  : result select_error PricingDecision :=
  if inputTokens <? 0 then Err NegativeInputTokens else
  let rule := Rule s in
  let contextClass := if LongContextThresholdTokens rule <? inputTokens then ContextClassLong else ContextClassShort in
  let overMaximum := MaxInputTokens rule <? inputTokens in
  let reason := if overMaximum then AppendFallbackReason EmptyString FallbackMissingPriceCombination else EmptyString in
  let missingTier := bool_decide (trim_space actualServiceTier = EmptyString) in
  let normalized := if missingTier then None else NormalizeServiceTier actualServiceTier in
  let unknownTier := negb missingTier && bool_decide (normalized = None) in
  let tier := default EmptyString normalized in
  let reason :=
    if missingTier then AppendFallbackReason reason FallbackMissingServiceTier
    else if unknownTier then AppendFallbackReason reason FallbackUnknownServiceTier else reason in
  let direct := negb overMaximum && negb missingTier && negb unknownTier in
  let selected :=
    if direct then match ServiceTiers rule !! tier with
                   | Some contexts => contextPrice contexts contextClass
                   | None => None
                   end
    else None in
  let reason :=
    if direct && bool_decide (selected = None)
    then AppendFallbackReason reason FallbackMissingPriceCombination else reason in
  let! (selected, pricingTier, reason) :=
    match selected with
    | Some p => Ok (p, tier, reason)
    | None =>
        let first := if negb overMaximum && (missingTier || unknownTier)
                     then maxPublishedForContext rule contextClass else None in
        match first with
        | Some p => Ok (p, PricingTierMaxPublished, reason)
        | None =>
            match maxPublished rule with
            | Some p => Ok (p, PricingTierMaxPublished, AppendFallbackReason reason FallbackMissingPriceCombination)
            | None => Err NoPublishedPrices
            end
        end
    end in
  let write := default "0" (tp_CacheWrite selected) in
  let! (write, write5m, write1h) :=
    if bool_decide (CacheWriteMode rule = CacheWriteSeparateByTTL) then
      match tp_CacheWrite5m selected, tp_CacheWrite1h selected with
      | Some w5, Some w1 => Ok (maxDecimal w5 w1, w5, w1)
      | _, _ => Err NilPrice
      end
    else Ok (write, EmptyString, EmptyString) in
  Ok {| PricingServiceTier := pricingTier; ContextClass := contextClass;
        d_Input := tp_Input selected; d_CachedInput := tp_CachedInput selected;
        d_CacheWrite := write; d_CacheWrite5m := write5m; d_CacheWrite1h := write1h;
        d_Output := tp_Output selected; FallbackReason := reason |}.

(** ** Order on printed prices *)

Lemma str_ltb_app_eq s a b : str_ltb (s +:+ a) (s +:+ b) = str_ltb a b.
Proof.
  induction s as [|c s IH]; [done|]. rewrite !str_app_cons. simpl.
  rewrite Z.ltb_irrefl, Z.eqb_refl, IH. done.
Qed.

(** Comparison of concatenations whose first parts have the same length. *)
Lemma str_ltb_app a1 a2 b1 b2 :
  String.length a1 = String.length a2 ->
  str_ltb (a1 +:+ b1) (a2 +:+ b2) = str_ltb a1 a2 || (bool_decide (a1 = a2) && str_ltb b1 b2).
Proof.
  revert a2; induction a1 as [|c a1 IH]; intros [|d a2] Hl; simpl in Hl; try lia.
  - rewrite !str_app_nil_l. done.
  - rewrite !str_app_cons. simpl. rewrite IH by lia.
    destruct (byte_of c <? byte_of d) eqn:E; [done|]. destruct (byte_of c =? byte_of d) eqn:E'.
    + apply Z.eqb_eq, byte_of_inj in E' as ->. simpl. f_equal. f_equal.
      apply bool_decide_ext. split; [by intros ->|by intros [= ->]].
    + simpl. rewrite bool_decide_false; [done|]. intros [= -> _]. by rewrite Z.eqb_refl in E'.
Qed.

(** A leading digit decides; on a tie the rest does. *)
Lemma lead_ltb (c d p x y : Z) :
  0 <= x < p -> 0 <= y < p -> ((c <? d) || ((c =? d) && (x <? y))) = ((c - 48) * p + x <? (d - 48) * p + y).
Proof.
  intros Hx Hy. destruct (Z.lt_trichotomy c d) as [H|[->|H]].
  - replace (c <? d) with true by lia. symmetry. simpl. apply Z.ltb_lt. nia.
  - rewrite Z.ltb_irrefl, Z.eqb_refl. simpl. apply Bool.eq_iff_eq_true. rewrite !Z.ltb_lt. lia.
  - replace (c <? d) with false by lia. replace (c =? d) with false by lia. symmetry. simpl. apply Z.ltb_ge. nia.
Qed.

Lemma str_ltb_digits a b :
  all_digits a = true -> all_digits b = true -> String.length a = String.length b ->
  str_ltb a b = (dec_val 0 a <? dec_val 0 b).
Proof.
  revert b; induction a as [|c a IH]; intros [|d b] Ha Hb Hl; simpl in Hl; try lia; [done|].
  cbn in Ha, Hb. apply andb_true_iff in Ha as [Hc Ha], Hb as [Hd Hb].
  cbn [str_ltb dec_val]. rewrite IH, (dec_val_acc (10 * 0 + digit_val c) a), (dec_val_acc (10 * 0 + digit_val d) b) by (auto || lia).
  pose proof (dec_val_bound a Ha) as Ba. pose proof (dec_val_bound b Hb) as Bb.
  assert (Hl' : String.length a = String.length b) by lia. rewrite <- Hl' in *.
  unfold digit_val. rewrite !Z.mul_0_r, !Z.add_0_l. by apply lead_ltb.
Qed.

(** A fraction scaled to twelve digits. *)
Definition frac12 (k : nat) (f : string) : Z := dec_val 0 f * pow10 (k - String.length f).

Lemma trim_tail c d t : trim_right_char c (String d t) = String d t -> trim_right_char c t = t.
Proof.
  cbn. destruct (trim_right_char c t) as [|e u] eqn:E; [|intros [= <-]; done].
  destruct (Ascii.eqb d c); [done|]. by intros [= <-].
Qed.

Lemma frac12_pos f :
  all_digits f = true -> trim_right_char "0" f = f -> f <> EmptyString -> 0 < dec_val 0 f.
Proof.
  induction f as [|c f IH]; intros Hd Ht Hne; [done|].
  cbn in Hd. apply andb_true_iff in Hd as [Hc Hd]. cbn [dec_val]. rewrite dec_val_acc.
  pose proof (dec_val_bound f Hd). apply digit_val_range in Hc as Rc. pose proof (pow10_pos (String.length f)).
  destruct (decide (f = EmptyString)) as [->|Hf].
  - assert (digit_val c <> 0); [|nia]. intros E. assert (c = "0"%char) as -> by (apply digit_val_inj; rewrite E; done).
    done.
  - apply trim_tail in Ht. specialize (IH Hd Ht Hf). nia.
Qed.

Lemma str_ltb_frac k f g :
  all_digits f = true -> all_digits g = true -> trim_right_char "0" f = f -> trim_right_char "0" g = g ->
  (String.length f <= k)%nat -> (String.length g <= k)%nat ->
  str_ltb (pad_right " " k f) (pad_right " " k g) = (frac12 k f <? frac12 k g).
Proof.
  revert f g; induction k as [|k IH]; intros f g Hf Hg Tf Tg Lf Lg.
  { destruct f, g; simpl in Lf, Lg; try lia. done. }
  assert (Hsp : forall c, is_digit c = true -> 32 < byte_of c) by (unfold is_digit; intros c H; breflect; lia).
  destruct f as [|c f], g as [|d g].
  - by rewrite str_ltb_irrefl, Z.ltb_irrefl.
  - pose proof (frac12_pos _ Hg Tg ltac:(done)) as Hp. cbn in Hg. apply andb_true_iff in Hg as [Hd _].
    unfold pad_right, frac12. cbn [String.length Nat.sub str_repeat dec_val]. rewrite str_app_nil_l, str_app_cons.
    cbn [str_ltb]. replace (byte_of " ") with 32 by done. specialize (Hsp d Hd).
    replace (32 <? byte_of d) with true by lia. simpl orb. cbn [dec_val] in Hp.
    pose proof (pow10_pos (k - String.length g)). symmetry. apply Z.ltb_lt. nia.
  - pose proof (frac12_pos _ Hf Tf ltac:(done)) as Hp. cbn in Hf. apply andb_true_iff in Hf as [Hc _].
    unfold pad_right, frac12. cbn [String.length Nat.sub str_repeat dec_val]. rewrite str_app_nil_l, str_app_cons.
    cbn [str_ltb]. replace (byte_of " ") with 32 by done. specialize (Hsp c Hc).
    replace (byte_of c <? 32) with false by lia. replace (byte_of c =? 32) with false by lia. simpl. cbn [dec_val] in Hp.
    pose proof (pow10_pos (k - String.length f)). symmetry. apply Z.ltb_ge. nia.
  - cbn in Hf, Hg. apply andb_true_iff in Hf as [Hc Hf], Hg as [Hd Hg]. simpl in Lf, Lg.
    unfold pad_right. rewrite !str_app_cons. cbn [str_ltb String.length Nat.sub].
    fold (pad_right " " k f) (pad_right " " k g). apply trim_tail in Tf, Tg. rewrite IH by (auto || lia).
    unfold frac12. cbn [dec_val String.length Nat.sub]. rewrite (dec_val_acc (10 * 0 + digit_val c) f), (dec_val_acc (10 * 0 + digit_val d) g).
    pose proof (dec_val_bound f Hf) as Bf. pose proof (dec_val_bound g Hg) as Bg.
    assert (Pf : pow10 k = pow10 (String.length f) * pow10 (k - String.length f)) by (rewrite <- pow10_add; f_equal; lia).
    assert (Pg : pow10 k = pow10 (String.length g) * pow10 (k - String.length g)) by (rewrite <- pow10_add; f_equal; lia).
    pose proof (pow10_pos (k - String.length f)). pose proof (pow10_pos (k - String.length g)).
    set (x := dec_val 0 f * pow10 (k - String.length f)). set (y := dec_val 0 g * pow10 (k - String.length g)).
    assert (Hx : 0 <= x < pow10 k) by (unfold x; nia). assert (Hy : 0 <= y < pow10 k) by (unfold y; nia).
    replace (((10 * 0 + digit_val c) * pow10 (String.length f) + dec_val 0 f) * pow10 (k - String.length f))
      with (digit_val c * pow10 k + x) by (unfold x; rewrite Pf; ring).
    replace (((10 * 0 + digit_val d) * pow10 (String.length g) + dec_val 0 g) * pow10 (k - String.length g))
      with (digit_val d * pow10 k + y) by (unfold y; rewrite Pg; ring).
    by apply lead_ltb.
Qed.

(** Zero-padded and space-padded integer parts compare as the integers do. *)
Lemma str_ltb_int pad i j :
  pad = "0"%char \/ pad = " "%char -> canonical_int i -> canonical_int j ->
  (String.length i <= 18)%nat -> (String.length j <= 18)%nat ->
  str_ltb (pad_left pad 18 i) (pad_left pad 18 j) = (dec_val 0 i <? dec_val 0 j).
Proof.
  intros Hp Hi Hj Li Lj.
  assert (Hcmp : forall u v n, canonical_int u -> canonical_int v -> (String.length u < String.length v)%nat ->
    str_ltb (str_repeat pad n +:+ str_repeat pad (String.length v - String.length u) +:+ u) (str_repeat pad n +:+ v) = true /\
    str_ltb (str_repeat pad n +:+ v) (str_repeat pad n +:+ str_repeat pad (String.length v - String.length u) +:+ u) = false /\
    dec_val 0 u < dec_val 0 v).
  { intros u v n Hu Hv Hlt. rewrite !str_ltb_app_eq.
    destruct (canonical_int_cons v Hv) as (c & t & Ev). destruct (canonical_int_cons u Hu) as (c' & t' & Eu).
    assert (Hc : c <> "0"%char /\ is_digit c = true).
    { rewrite Ev in Hv. split; [|by apply canonical_int_head in Hv as [? _]].
      destruct Hv as [_ [[= -> ->]|(? & ? & [= <- <-] & ?)]]; [|done]. subst u v. simpl in Hlt. lia. }
    destruct Hc as [Hc Hcd].
    assert (Hb : byte_of pad < byte_of c).
    { unfold is_digit in Hcd. breflect. assert (byte_of c <> 48) by (intros E; apply Hc, byte_of_inj; done).
      destruct Hp as [->| ->]; [change (byte_of "0") with 48|change (byte_of " ") with 32]; lia. }
    destruct (String.length v - String.length u)%nat as [|k] eqn:Ek; [lia|].
    rewrite Ev. cbn [str_repeat]. rewrite str_app_cons. cbn [str_ltb].
    replace (byte_of pad <? byte_of c) with true by lia.
    replace (byte_of c <? byte_of pad) with false by lia. replace (byte_of c =? byte_of pad) with false by lia.
    split; [done|]. split; [done|]. rewrite <- Ev.
    assert (0 < String.length u)%nat by (rewrite Eu; simpl; lia).
    pose proof (proj1 (canonical_int_length u (String.length u) Hu ltac:(done)) ltac:(lia)).
    assert (~ dec_val 0 v < pow10 (String.length u)); [|lia].
    intros Hn. apply (canonical_int_length v) in Hn; auto. lia. }
  unfold pad_left. destruct (Nat.lt_trichotomy (String.length i) (String.length j)) as [Hlt|[Heq|Hlt]].
  - destruct (Hcmp i j (18 - String.length j)%nat Hi Hj Hlt) as (H1 & _ & H2).
    assert (E : str_repeat pad (18 - String.length i) =
      str_repeat pad (18 - String.length j) +:+ str_repeat pad (String.length j - String.length i)).
    { replace (18 - String.length i)%nat with (18 - String.length j + (String.length j - String.length i))%nat by lia.
      generalize (18 - String.length j)%nat as n. induction n as [|n IH]; [done|]. simpl. by rewrite str_app_cons, IH. }
    rewrite E, <- str_app_assoc, H1. symmetry. by apply Z.ltb_lt.
  - rewrite Heq, str_ltb_app_eq. apply str_ltb_digits; [apply Hi|apply Hj|done].
  - destruct (Hcmp j i (18 - String.length i)%nat Hj Hi Hlt) as (_ & H1 & H2).
    assert (E : str_repeat pad (18 - String.length j) =
      str_repeat pad (18 - String.length i) +:+ str_repeat pad (String.length i - String.length j)).
    { replace (18 - String.length j)%nat with (18 - String.length i + (String.length i - String.length j))%nat by lia.
      generalize (18 - String.length i)%nat as n. induction n as [|n IH]; [done|]. simpl. by rewrite str_app_cons, IH. }
    rewrite E, <- str_app_assoc, H1. symmetry. apply Z.ltb_ge. lia.
Qed.

(** ** Prices as integers of 10^-12 units *)

Lemma cut_point_digits s t : all_digits s = true -> cut_point (s +:+ "." +:+ t) = (s, t).
Proof.
  induction s as [|c s IH]; intros H.
  - rewrite str_app_nil_l, str_app_cons, str_app_nil_l. done.
  - cbn in H. apply andb_true_iff in H as [Hc H]. rewrite str_app_cons. cbn [cut_point].
    rewrite (digit_not c "." Hc eq_refl), IH by done. done.
Qed.

Lemma cut_point_int s : all_digits s = true -> cut_point s = (s, EmptyString).
Proof.
  induction s as [|c s IH]; intros H; [done|]. cbn in H. apply andb_true_iff in H as [Hc H].
  cbn [cut_point]. rewrite (digit_not c "." Hc eq_refl), IH by done. done.
Qed.

Lemma cut_point_render i f : all_digits i = true -> cut_point (render false i f) = (i, f).
Proof.
  intros Hi. unfold render. rewrite str_app_nil_l. case_bool_decide; [subst; by apply cut_point_int|].
  by apply cut_point_digits.
Qed.

(** The value of a valid price in units of 10^-12. *)
Definition price_units (p : string) : option Z :=
  match ParsePrice p with
  | Ok c => let '(i, f) := cut_point c in Some (dec_val 0 i * pow10 12 + frac12 12 f)
  | Err _ => None
  end.

Lemma frac12_bound f : all_digits f = true -> (String.length f <= 12)%nat -> 0 <= frac12 12 f < pow10 12.
Proof.
  intros Hf Hl. pose proof (dec_val_bound f Hf). unfold frac12.
  assert (pow10 12 = pow10 (String.length f) * pow10 (12 - String.length f)) as -> by (rewrite <- pow10_add; f_equal; lia).
  pose proof (pow10_pos (12 - String.length f)). nia.
Qed.

Lemma mk_rat_units i f :
  (String.length f <= 12)%nat -> (mk_rat false i f == scaled (dec_val 0 i * pow10 12 + frac12 12 f) 12)%Q.
Proof.
  intros Hl. unfold mk_rat, scaled, Qeq, frac12. cbn [Qnum Qden]. unfold id.
  pose proof (pow10_pos (String.length f)). pose proof (pow10_pos 12).
  rewrite !Z2Pos.id by done. rewrite dec_val_cat.
  assert (pow10 12 = pow10 (String.length f) * pow10 (12 - String.length f)) as E by (rewrite <- pow10_add; f_equal; lia).
  rewrite E. ring.
Qed.

(** What a valid price looks like once parsed. *)
Lemma price_inv p n :
  price_units p = Some n ->
  exists i f, ParsePrice p = Ok (render false i f) /\ canonical_int i /\ all_digits f = true /\
    trim_right_char "0" f = f /\ (String.length i <= 18)%nat /\ (String.length f <= 12)%nat /\
    n = dec_val 0 i * pow10 12 + frac12 12 f.
Proof.
  unfold price_units. destruct (ParsePrice p) as [c|] eqn:E; [|done].
  intros H. pose proof E as (neg & i & m & Hi & Hm & Hv & Hs & Hl & Hlm & _ & Hc)%parse_inv.
  assert (neg = false) as -> by (destruct neg; [by specialize (Hs eq_refl)|done]). simpl andb in Hc.
  exists i, (trim_right_char "0" m). rewrite <- Hc. subst c. rewrite cut_point_render in H by apply Hi.
  injection H as <-. pose proof (length_trim "0" m). unfold AmountScale in *.
  split; [done|]. split; [done|]. split; [by apply all_digits_trim|].
  split; [by apply trim_right_char_idem|]. repeat split; try done; lia.
Qed.

Lemma price_units_value p n : price_units p = Some n -> (amount_value p == scaled n 12)%Q /\ 0 <= n.
Proof.
  intros H. pose proof H as (i & f & Hp & Hi & Hf & _ & _ & Hl & ->)%price_inv. split.
  - pose proof Hp as (q & _ & Hq & _ & _ & _ & _ & q' & Hq' & E)%parse_value.
    unfold amount_value. rewrite Hq'. simpl. rewrite E. rewrite rat_render in Hq by done. injection Hq as <-.
    by apply mk_rat_units.
  - pose proof (frac12_bound f Hf Hl). pose proof (dec_val_bound i (proj1 Hi)). pose proof (pow10_pos 12). nia.
Qed.

Lemma price_units_valid p : is_ok (ParsePrice p) = true <-> is_Some (price_units p).
Proof.
  unfold price_units. destruct (ParsePrice p); simpl.
  - split; [|done]. intros _. destruct (cut_point _). eauto.
  - split; [done|]. by intros [? ?].
Qed.

Lemma parse_idem p c : ParsePrice p = Ok c -> ParsePrice c = Ok c.
Proof.
  intros H. destruct (proj1 (price_units_valid p)) as [n Hn]; [by rewrite H|].
  pose proof Hn as (i & f & Hp & Hi & Hf & Ht & Hli & Hlf & ->)%price_inv. rewrite H in Hp. injection Hp as ->.
  unfold ParsePrice. rewrite parse_literal by done. rewrite Ht.
  rewrite (proj2 (Nat.ltb_ge _ _) Hli : (maxIntegerDigits <? _)%nat = false).
  rewrite (proj2 (Nat.ltb_ge _ _) Hlf : (AmountScale <? _)%nat = false). simpl orb. cbn match.
  destruct (is_zero_literal i f) eqn:Ez; [|done]. by apply is_zero_literal_spec in Ez as [-> ->].
Qed.

Lemma price_units_parsed p c : ParsePrice p = Ok c -> price_units c = price_units p.
Proof. intros H. unfold price_units. by rewrite (parse_idem p c H), H. Qed.

Lemma str_length_pad_left c w s : (String.length s <= w)%nat -> String.length (pad_left c w s) = w.
Proof. intros H. unfold pad_left. rewrite str_length_app, str_length_repeat. lia. Qed.

Lemma pad_left_inj c w i j :
  canonical_int i -> canonical_int j -> c = "0"%char \/ c = " "%char ->
  (String.length i <= 18)%nat -> (String.length j <= 18)%nat -> w = 18%nat ->
  pad_left c w i = pad_left c w j <-> dec_val 0 i = dec_val 0 j.
Proof.
  intros Hi Hj Hc Li Lj ->. split.
  - intros E. pose proof (str_ltb_int c i j Hc Hi Hj Li Lj) as H1. pose proof (str_ltb_int c j i Hc Hj Hi Lj Li) as H2.
    rewrite E, str_ltb_irrefl in *. lia.
  - intros E. destruct (magnitude_inj i "" j "" Hi Hj eq_refl eq_refl) as [-> _]; [|done].
    rewrite !str_app_nil_r. simpl String.length. change (pow10 0) with 1. lia.
Qed.

(** [maxDecimal] returns the larger price, whichever byte pads the integer part. *)
Lemma maxDecimalPad_spec pad l r a b :
  pad = "0"%char \/ pad = " "%char -> price_units l = Some a -> price_units r = Some b ->
  maxDecimalPad pad l r = (if a <? b then parsed_or_empty r else parsed_or_empty l) /\
  price_units (maxDecimalPad pad l r) = Some (Z.max a b).
Proof.
  intros Hpad Ha Hb.
  assert (E : maxDecimalPad pad l r = (if a <? b then parsed_or_empty r else parsed_or_empty l)).
  { pose proof Ha as (i & f & Hl & Hi & Hf & Tf & Li & Lf & ->)%price_inv.
    pose proof Hb as (j & g & Hr & Hj & Hg & Tg & Lj & Lg & ->)%price_inv.
    unfold maxDecimalPad, parsed_or_empty. rewrite Hl, Hr. unfold decimal_parts.
    rewrite !cut_point_render by (apply Hi || apply Hj).
    rewrite str_ltb_app by (by rewrite !str_length_pad_left).
    rewrite str_ltb_int, str_ltb_frac by done.
    rewrite (bool_decide_ext _ _ (pad_left_inj pad 18 i j Hi Hj Hpad Li Lj eq_refl)).
    pose proof (frac12_bound f Hf Lf). pose proof (frac12_bound g Hg Lg).
    assert (H1 : forall x y, bool_decide (x = y) = (x =? y)) by (intros; case_bool_decide; lia). rewrite H1.
    pose proof (lead_ltb (dec_val 0 i + 48) (dec_val 0 j + 48) (pow10 12) (frac12 12 f) (frac12 12 g)) as H2.
    replace (dec_val 0 i + 48 <? dec_val 0 j + 48) with (dec_val 0 i <? dec_val 0 j) in H2 by lia.
    replace (dec_val 0 i + 48 =? dec_val 0 j + 48) with (dec_val 0 i =? dec_val 0 j) in H2 by lia.
    rewrite H2 by done. rewrite !Z.add_simpl_r. done. }
  split; [done|]. rewrite E. unfold parsed_or_empty.
  destruct (ParsePrice l) as [cl|] eqn:El; [|unfold price_units in Ha; by rewrite El in Ha].
  destruct (ParsePrice r) as [cr|] eqn:Er; [|unfold price_units in Hb; by rewrite Er in Hb].
  destruct (Z.ltb_spec a b); [rewrite (price_units_parsed _ _ Er)|rewrite (price_units_parsed _ _ El)];
    rewrite ?Ha, ?Hb; f_equal; lia.
Qed.

(** ** Validated rules *)

Lemma all_ok_Forall {A} (f : A -> result string unit) l : all_ok f l = Ok tt <-> Forall (fun x => f x = Ok tt) l.
Proof.
  induction l as [|x l IH]; [split; [constructor|done]|]. cbn [all_ok]. rewrite Forall_cons, <- IH.
  destruct (f x) as [[]|]; cbn; [tauto|]. split; [done|]. by intros [? _].
Qed.

Lemma valid_price_units p : valid_price p = Ok tt -> exists n, price_units p = Some n.
Proof.
  intros H. apply (price_units_valid p). unfold valid_price in H. by destruct (ParsePrice p).
Qed.

(** A published price whose components are all valid and which has the cache
    write prices its mode calls for. *)
Definition opt_valid (required : bool) (p : option string) : Prop :=
  if required then exists v, p = Some v /\ valid_price v = Ok tt else p = None.
Definition token_valid (mode : string) (p : TokenPricing) : Prop :=
  valid_price (tp_Input p) = Ok tt /\ valid_price (tp_CachedInput p) = Ok tt /\ valid_price (tp_Output p) = Ok tt /\
  opt_valid (bool_decide (mode = CacheWriteSeparate)) (tp_CacheWrite p) /\
  opt_valid (bool_decide (mode = CacheWriteSeparateByTTL)) (tp_CacheWrite5m p) /\
  opt_valid (bool_decide (mode = CacheWriteSeparateByTTL)) (tp_CacheWrite1h p).

Lemma validateTokenPricing_valid mode p : validateTokenPricing mode p = Ok tt -> token_valid mode p.
Proof.
  unfold validateTokenPricing, token_valid. intros H. inv_bind H. destruct a. apply all_ok_Forall in Hm.
  rewrite !Forall_cons in Hm. destruct Hm as (H1 & H2 & H3 & _). inv_bind H. destruct a.
  split; [done|]. split; [done|]. split; [done|]. unfold opt_valid.
  split.
  { destruct (bool_decide _), (tp_CacheWrite p); try done; eauto. }
  destruct (bool_decide _) in H |- *.
  - apply all_ok_Forall in H. rewrite !Forall_cons in H. destruct H as (? & ? & _).
    destruct (tp_CacheWrite5m p), (tp_CacheWrite1h p); try done. split; eauto.
  - by destruct (tp_CacheWrite5m p), (tp_CacheWrite1h p).
Qed.

(** The prices a rule publishes for a context class. *)
Definition published (rule : ModelPricing) (contextClass : string) (p : TokenPricing) : Prop :=
  exists tier contexts, ServiceTiers rule !! tier = Some contexts /\ contextPrice contexts contextClass = Some p.

Lemma validated_published rule c p :
  validateV2ModelPricing rule = Ok tt -> published rule c p -> token_valid (CacheWriteMode rule) p.
Proof.
  unfold validateV2ModelPricing. intros H (tier & contexts & Ht & Hc). repeat (case_match; [done|]).
  apply all_ok_Forall in H. rewrite Forall_forall in H.
  specialize (H (tier, contexts)). rewrite elem_of_map_to_list in H. specialize (H Ht). cbn in H.
  case_match; [done|]. apply validateTokenPricing_valid. unfold contextPrice in Hc.
  destruct (Short contexts) as [s|], (Long contexts) as [l|]; try done; try inv_bind H;
    case_bool_decide; simplify_eq; try done; by destruct a.
Qed.

Lemma validated_some_published rule :
  validateV2ModelPricing rule = Ok tt -> exists c p, published rule c p.
Proof.
  unfold validateV2ModelPricing. intros H. repeat (case_match; [done|]).
  match goal with H : bool_decide (size _ = _) = false |- _ => rename H into Hs end.
  apply bool_decide_eq_false in Hs. destruct (map_choose (ServiceTiers rule)) as (tier & contexts & Ht).
  { intros E. by rewrite E, map_size_empty in Hs. }
  apply all_ok_Forall in H. rewrite Forall_forall in H.
  specialize (H (tier, contexts)). rewrite elem_of_map_to_list in H. specialize (H Ht). cbn in H.
  case_match; [done|]. destruct (Short contexts) as [s|] eqn:E; [exists ContextClassShort, s; by exists tier, contexts|].
  destruct (Long contexts) as [l|] eqn:E'; [|done]. exists ContextClassLong, l. by exists tier, contexts.
Qed.

Lemma elem_of_context_prices rule c p :
  p ∈ omap (fun tier => contextPrice tier c) (tiers rule) <-> published rule c p.
Proof.
  rewrite list_elem_of_omap. unfold tiers, published. split.
  - intros (contexts & [[tier x] [-> Hin]]%list_elem_of_fmap & Hc). apply elem_of_map_to_list in Hin. eauto.
  - intros (tier & contexts & Ht & Hc). exists contexts. split; [|done].
    apply list_elem_of_fmap. exists (tier, contexts). split; [done|]. by apply elem_of_map_to_list.
Qed.

Lemma elem_of_option_list {A} (o : option A) x : x ∈ option_list o <-> o = Some x.
Proof.
  destruct o; simpl; [rewrite list_elem_of_singleton|rewrite elem_of_nil]; split; naive_solver.
Qed.

Lemma elem_of_all_prices rule p :
  p ∈ mjoin ((fun tier => option_list (Short tier) ++ option_list (Long tier)) <$> tiers rule) <->
  published rule ContextClassShort p \/ published rule ContextClassLong p.
Proof.
  rewrite list_elem_of_join. unfold published, contextPrice, tiers. split.
  - intros (l & Hp & (x & -> & [[tier y] [-> Hin]]%list_elem_of_fmap)%list_elem_of_fmap).
    apply elem_of_map_to_list in Hin. rewrite elem_of_app, !elem_of_option_list in Hp. simpl in *.
    destruct Hp; [left|right]; exists tier, y; by split.
  - intros H. assert (exists tier x, ServiceTiers rule !! tier = Some x /\ (Short x = Some p \/ Long x = Some p))
      as (tier & x & Ht & Hx) by (destruct H as [(?&?&?&?)|(?&?&?&?)]; eauto).
    eexists. split; [|apply list_elem_of_fmap; exists x; split; [done|]; apply list_elem_of_fmap; exists (tier, x);
      split; [done|by apply elem_of_map_to_list]].
    rewrite elem_of_app, !elem_of_option_list. done.
Qed.

(** ** Component maxima *)

Lemma units_le p q a b :
  price_units p = Some a -> price_units q = Some b -> a <= b -> (amount_value p <= amount_value q)%Q.
Proof.
  intros [-> _]%price_units_value [-> _]%price_units_value H. unfold scaled, Qle. simpl Qnum. cbn [Qden]. nia.
Qed.

(** The running maximum over valid optional prices is valid and dominates the
    accumulator and every price that is present. *)
Lemma fold_max {A} (f : A -> option string) l acc n :
  price_units acc = Some n -> Forall (fun v => match f v with Some p => valid_price p = Ok tt | None => True end) l ->
  exists m, price_units (foldl (fun acc v => max_opt acc (f v)) acc l) = Some m /\ n <= m /\
    Forall (fun v => match f v with Some p => exists k, price_units p = Some k /\ k <= m | None => True end) l.
Proof.
  revert acc n; induction l as [|v l IH]; intros acc n Hn Hl; [exists n; auto with lia|].
  apply Forall_cons in Hl as [Hv Hl]. cbn [foldl]. destruct (f v) as [p|] eqn:E; cbn [max_opt].
  - destruct (valid_price_units p Hv) as [k Hk].
    destruct (maxDecimalPad_spec "0" acc p n k (or_introl eq_refl) Hn Hk) as [_ Hm].
    destruct (IH _ _ Hm Hl) as (m & H1 & H2 & H3). exists m. split; [done|]. split; [lia|].
    constructor; [|done]. rewrite E. exists k. split; [done|lia].
  - destruct (IH _ _ Hn Hl) as (m & H1 & H2 & H3). exists m. split; [done|]. split; [done|].
    constructor; [by rewrite E|done].
Qed.

Definition covers (p q : string) : Prop := valid_price p = Ok tt /\ (amount_value q <= amount_value p)%Q.

Lemma units_valid_price p n : price_units p = Some n -> valid_price p = Ok tt.
Proof. unfold price_units, valid_price. by destruct (ParsePrice p). Qed.

Lemma fold_covers {A} (f : A -> option string) l :
  Forall (fun v => match f v with Some p => valid_price p = Ok tt | None => True end) l ->
  Forall (fun v => match f v with Some p => covers (foldl (fun acc v => max_opt acc (f v)) "0" l) p | None => True end) l.
Proof.
  intros H. destruct (fold_max f l "0" 0) as (m & Hm & _ & Hl); [by vm_compute|done|].
  eapply Forall_impl; [exact Hl|]. intros v. cbv beta. destruct (f v); [|done]. intros (k & Hk & Hle).
  split; [by eapply units_valid_price|]. by eapply units_le.
Qed.

(** What it means for one price table to dominate another under a mode. *)
Definition opt_covers (p q : option string) : Prop :=
  match q with Some y => exists x, p = Some x /\ covers x y | None => True end.
Definition token_covers (p q : TokenPricing) : Prop :=
  covers (tp_Input p) (tp_Input q) /\ covers (tp_CachedInput p) (tp_CachedInput q) /\
  covers (tp_Output p) (tp_Output q) /\ opt_covers (tp_CacheWrite p) (tp_CacheWrite q) /\
  opt_covers (tp_CacheWrite5m p) (tp_CacheWrite5m q) /\ opt_covers (tp_CacheWrite1h p) (tp_CacheWrite1h q).

Lemma opt_valid_elim b p : opt_valid b p -> match p with Some v => valid_price v = Ok tt | None => True end.
Proof. unfold opt_valid. destruct b; [by intros (v & -> & ?)|by intros ->]. Qed.

Lemma opt_fold_covers b (f : TokenPricing -> option string) l p :
  Forall (fun v => opt_valid b (f v)) l -> p ∈ l ->
  opt_covers (if b then Some (foldl (fun acc v => max_opt acc (f v)) "0" l) else None) (f p).
Proof.
  intros H Hp. assert (Hc := fold_covers f l (Forall_impl _ _ _ H (fun x => opt_valid_elim b (f x)))).
  rewrite Forall_forall in Hc, H. specialize (Hc p Hp). specialize (H p Hp). unfold opt_covers.
  destruct (f p) eqn:E; [|done]. destruct b; simpl in H; [eauto|done].
Qed.

Lemma componentMaximum_covers mode l m p :
  Forall (token_valid mode) l -> componentMaximum l mode = Some m -> p ∈ l -> token_covers m p.
Proof.
  intros Hl Hm Hp.
  assert (Hf : forall f, Forall (fun v => valid_price (f v) = Ok tt) l ->
    covers (foldl (fun acc v => maxDecimal acc (f v)) "0" l) (f p)).
  { intros f Hv. pose proof (fold_covers (fun v => Some (f v)) l Hv) as H. rewrite Forall_forall in H. by apply (H p). }
  assert (Ho : forall b f, Forall (fun v => opt_valid b (f v)) l ->
    opt_covers (if b then Some (foldl (fun acc v => max_opt acc (f v)) "0" l) else None) (f p)).
  { intros b f H. by apply opt_fold_covers. }
  assert (m = default m (componentMaximum l mode)) as -> by by rewrite Hm.
  destruct l as [|x l]; [by apply elem_of_nil in Hp|]. cbn [componentMaximum default from_option].
  remember (x :: l) as l' eqn:El. unfold token_covers. cbn [id tp_Input tp_CachedInput tp_CacheWrite tp_CacheWrite5m tp_CacheWrite1h tp_Output].
  split_and!; (apply Hf || apply Ho); (eapply Forall_impl; [exact Hl|]); intros y Hy; apply Hy.
Qed.

(** ** Fallback reasons *)

(** The words of a reason string. *)
Definition reason_words (s : string) : list string := filter (fun w => w <> EmptyString) (split_comma s).
Definition no_comma (s : string) : bool := str_forall (fun c => negb (Ascii.eqb c ",")) s.

Lemma split_comma_word w : no_comma w = true -> split_comma w = [w].
Proof.
  induction w as [|c w IH]; [done|]. cbn. intros [Hc Hw]%andb_true_iff. apply negb_true_iff in Hc.
  rewrite Hc. unfold no_comma in IH. by rewrite IH.
Qed.

Lemma split_comma_cat w s : no_comma w = true -> split_comma (w +:+ "," +:+ s) = w :: split_comma s.
Proof.
  induction w as [|c w IH]; intros Hw.
  - rewrite str_app_nil_l, str_app_cons, str_app_nil_l. done.
  - cbn in Hw. apply andb_true_iff in Hw as [Hc Hw]. apply negb_true_iff in Hc.
    rewrite str_app_cons. cbn [split_comma]. by rewrite Hc, IH.
Qed.

Lemma split_join l : l <> [] -> Forall (fun w => no_comma w = true) l -> split_comma (join_comma l) = l.
Proof.
  induction l as [|w [|w' l] IH]; intros Hne Hl; [done|apply split_comma_word; by inversion Hl|].
  apply Forall_cons in Hl as [Hw Hl]. change (join_comma (w :: w' :: l)) with (w +:+ "," +:+ join_comma (w' :: l)).
  rewrite split_comma_cat by done. by rewrite IH.
Qed.

Lemma split_comma_no_comma s : Forall (fun w => no_comma w = true) (split_comma s).
Proof.
  induction s as [|c s IH]; [by constructor|]. cbn [split_comma].
  destruct (Ascii.eqb c ",") eqn:E; [by constructor|]. destruct (split_comma s) as [|w ws]; simplify_eq.
  - constructor; [|done]. cbn. by rewrite E.
  - apply Forall_cons in IH as [Hw IH]. constructor; [|done]. cbn. unfold no_comma in Hw. by rewrite E, Hw.
Qed.

Lemma append_words e r :
  r <> EmptyString -> no_comma r = true ->
  reason_words (AppendFallbackReason e r) =
    merge_sort str_le (elements ({[ r ]} ∪ list_to_set (reason_words e) : gset string)).
Proof.
  intros Hr Hc. unfold AppendFallbackReason. rewrite bool_decide_false by done.
  set (l := merge_sort str_le _).
  assert (Hp : l ≡ₚ elements ({[ r ]} ∪ list_to_set (reason_words e) : gset string)) by apply merge_sort_Permutation.
  assert (Hin : forall w, w ∈ l -> w <> EmptyString /\ no_comma w = true).
  { intros w. rewrite Hp, elem_of_elements, elem_of_union, elem_of_singleton, elem_of_list_to_set.
    unfold reason_words. rewrite list_elem_of_filter. intros [->|[Hw Hw']]; [done|]. split; [done|].
    pose proof (split_comma_no_comma e) as H. rewrite Forall_forall in H. auto. }
  unfold reason_words at 1. rewrite split_join.
  - clear Hp. clearbody l. induction l as [|w l IH]; [done|]. rewrite filter_cons_True by (apply Hin; left).
    f_equal. apply IH. intros w' Hw'. apply Hin. by right.
  - intros E. rewrite E in Hp. symmetry in Hp. apply Permutation_nil_r, elements_empty_inv in Hp. clear Hin. set_solver.
  - apply Forall_forall. intros w Hw. by apply Hin.
Qed.

(** Appending a fallback reason gives the sorted set of the reasons seen
    so far: the words of the result are sorted in byte order without duplicates,
    and are exactly the new reason and the non-empty words already present. *)
Theorem append_fallback_reason_set e r :
  r <> EmptyString -> no_comma r = true ->
  let words := reason_words (AppendFallbackReason e r) in
  StronglySorted str_le words /\ NoDup words /\ (forall w, w ∈ words <-> w = r \/ w ∈ reason_words e).
Proof.
  intros Hr Hc words. subst words. rewrite append_words by done.
  pose proof (merge_sort_Permutation str_le (elements ({[ r ]} ∪ list_to_set (reason_words e) : gset string))) as Hp.
  split; [apply (StronglySorted_merge_sort str_le)|]. split.
  - rewrite Hp. apply NoDup_elements.
  - intros w. rewrite Hp, elem_of_elements, elem_of_union, elem_of_singleton, elem_of_list_to_set. done.
Qed.

Lemma append_fallback_reason_set_witness :
  AppendFallbackReason "unknown_service_tier,missing_price_combination,unknown_service_tier" "missing_cache_write_ttl"
    = "missing_cache_write_ttl,missing_price_combination,unknown_service_tier" /\
  StronglySorted str_le (reason_words (AppendFallbackReason "b,a,,b" "c")).
Proof.
  split; [by vm_compute|]. apply (append_fallback_reason_set "b,a,,b" "c"); [done|by vm_compute].
Defined.

Lemma append_nonempty e r : r <> EmptyString -> no_comma r = true -> AppendFallbackReason e r <> EmptyString.
Proof.
  intros Hr Hc E. pose proof (append_words e r Hr Hc) as H. rewrite E in H.
  assert (Hin : r ∈ merge_sort str_le (elements ({[ r ]} ∪ list_to_set (reason_words e) : gset string))).
  { rewrite merge_sort_Permutation, elem_of_elements. set_solver. }
  rewrite <- H in Hin. by apply elem_of_nil in Hin.
Qed.

(** ** Selection *)

(** The decision carries the prices of [p]. *)
Definition decision_of (mode : string) (p : TokenPricing) (d : PricingDecision) : Prop :=
  d_Input d = tp_Input p /\ d_CachedInput d = tp_CachedInput p /\ d_Output d = tp_Output p /\
  if bool_decide (mode = CacheWriteSeparateByTTL)
  then tp_CacheWrite5m p = Some (d_CacheWrite5m d) /\ tp_CacheWrite1h p = Some (d_CacheWrite1h d) /\
       d_CacheWrite d = maxDecimal (d_CacheWrite5m d) (d_CacheWrite1h d)
  else d_CacheWrite d = default "0" (tp_CacheWrite p).

Definition context_of (rule : ModelPricing) (tokens : Z) : string :=
  if LongContextThresholdTokens rule <? tokens then ContextClassLong else ContextClassShort.

(** The price [Select] settles on, its tier and the reason it records, with the
    cache write prices still to be read off. *)
Definition chosen (s : PricingSnapshot) (actual : string) (tokens : Z) (p : TokenPricing) (tier reason : string) : Prop :=
  let rule := Rule s in
  let c := context_of rule tokens in
  let priced tier p := exists contexts, ServiceTiers rule !! tier = Some contexts /\ contextPrice contexts c = Some p in
  (tokens <= MaxInputTokens rule /\ NormalizeServiceTier actual = Some tier /\ reason = EmptyString /\
   priced tier p) \/
  ((tokens <= MaxInputTokens rule -> forall t p, NormalizeServiceTier actual = Some t -> ~ priced t p) /\
   tier = PricingTierMaxPublished /\ reason <> EmptyString /\
   (maxPublishedForContext rule c = Some p \/ maxPublished rule = Some p)).

Lemma normalized_nonempty actual tier :
  NormalizeServiceTier actual = Some tier -> trim_space actual <> EmptyString.
Proof. unfold NormalizeServiceTier. intros H E. rewrite E in H. done. Qed.

Ltac nonempty_reason := apply append_nonempty; [done|by vm_compute].

(** The choice, before the cache write prices are read: total once some price
    is published. *)
Lemma Select_chosen s actual tokens :
  0 <= tokens -> (exists p, maxPublished (Rule s) = Some p) ->
  exists p tier reason, chosen s actual tokens p tier reason /\
    Select s actual tokens =
      (let! (write, write5m, write1h) :=
         if bool_decide (CacheWriteMode (Rule s) = CacheWriteSeparateByTTL) then
           match tp_CacheWrite5m p, tp_CacheWrite1h p with
           | Some w5, Some w1 => Ok (maxDecimal w5 w1, w5, w1)
           | _, _ => Err NilPrice
           end
         else Ok (default "0" (tp_CacheWrite p), EmptyString, EmptyString) in
       Ok {| PricingServiceTier := tier; ContextClass := context_of (Rule s) tokens;
             d_Input := tp_Input p; d_CachedInput := tp_CachedInput p;
             d_CacheWrite := write; d_CacheWrite5m := write5m; d_CacheWrite1h := write1h;
             d_Output := tp_Output p; FallbackReason := reason |}).
Proof.
  intros Ht [pm Hpm]. unfold Select, chosen. replace (tokens <? 0) with false by lia.
  fold (context_of (Rule s) tokens). set (c := context_of (Rule s) tokens). rewrite Hpm.
  destruct (Z.ltb_spec (MaxInputTokens (Rule s)) tokens) as [Hover|Hover]; cbn [negb andb orb].
  - do 3 eexists. split; [|reflexivity]. right. split; [lia|]. split; [done|]. split; [nonempty_reason|]. by right.
  - destruct (bool_decide (trim_space actual = EmptyString)) eqn:Hm; cbn [negb andb orb].
    + assert (Hno : forall t, NormalizeServiceTier actual <> Some t).
      { intros t H%normalized_nonempty. by apply bool_decide_eq_true in Hm. }
      destruct (maxPublishedForContext (Rule s) c) as [p|] eqn:Ec; do 3 eexists; (split; [|reflexivity]); right;
        (split; [intros _ t q H; by apply Hno in H|]); (split; [done|]); (split; [nonempty_reason|]); auto.
    + destruct (NormalizeServiceTier actual) as [tier|] eqn:En; cbn [negb andb orb].
      * rewrite (bool_decide_false (Some tier = None)) by done. cbn [negb andb orb default from_option id].
        destruct (ServiceTiers (Rule s) !! tier) as [contexts|] eqn:Et;
          [destruct (contextPrice contexts c) as [p|] eqn:Ep|].
        -- rewrite (bool_decide_false (Some p = None)) by done. do 3 eexists. split; [|reflexivity]. left. eauto 10.
        -- rewrite bool_decide_true by done. do 3 eexists. split; [|reflexivity]. right.
           split; [intros _ t q [= <-] (x & Hx & Hq); congruence|]. split; [done|]. split; [nonempty_reason|]. by right.
        -- rewrite bool_decide_true by done. do 3 eexists. split; [|reflexivity]. right.
           split; [intros _ t q [= <-] (x & Hx & Hq); congruence|]. split; [done|]. split; [nonempty_reason|]. by right.
      * rewrite (bool_decide_true (@None string = None)) by done. cbn [negb andb orb].
        destruct (maxPublishedForContext (Rule s) c) as [p|] eqn:Ec; do 3 eexists; (split; [|reflexivity]); right;
          (split; [done|]); (split; [done|]); (split; [nonempty_reason|]); auto.
Qed.

Lemma maxPublished_some rule : validateV2ModelPricing rule = Ok tt -> exists p, maxPublished rule = Some p.
Proof.
  intros H. destruct (validated_some_published rule H) as (c & p & Hp). unfold maxPublished.
  assert (Hin : p ∈ mjoin ((fun tier => option_list (Short tier) ++ option_list (Long tier)) <$> tiers rule)).
  { apply elem_of_all_prices. destruct Hp as (tier & x & Ht & Hx). unfold contextPrice in Hx.
    destruct (bool_decide _); [right|left]; exists tier, x; by split. }
  destruct (mjoin _) as [|y l]; [by apply elem_of_nil in Hin|]. by eexists.
Qed.

(** Both maxima dominate every price published for the context. *)
Lemma maxima_cover rule c m p :
  validateV2ModelPricing rule = Ok tt -> c = ContextClassShort \/ c = ContextClassLong ->
  maxPublishedForContext rule c = Some m \/ maxPublished rule = Some m -> published rule c p -> token_covers m p.
Proof.
  intros Hv Hc Hm Hp. destruct Hm as [Hm|Hm]; eapply componentMaximum_covers; try exact Hm.
  - apply Forall_forall. intros q Hq%elem_of_context_prices. by eapply validated_published.
  - by apply elem_of_context_prices.
  - apply Forall_forall. intros q Hq%elem_of_all_prices. by destruct Hq; eapply validated_published.
  - apply elem_of_all_prices. destruct Hc as [-> | ->]; auto.
Qed.

Lemma componentMaximum_ttl mode l m :
  componentMaximum l mode = Some m -> mode = CacheWriteSeparateByTTL ->
  exists w5 w1, tp_CacheWrite5m m = Some w5 /\ tp_CacheWrite1h m = Some w1.
Proof.
  intros H Hm. destruct l; [done|]. injection H as <-. rewrite (bool_decide_true _ Hm). by do 2 eexists.
Qed.

Lemma chosen_ttl s actual tokens p tier reason :
  validateV2ModelPricing (Rule s) = Ok tt -> chosen s actual tokens p tier reason ->
  CacheWriteMode (Rule s) = CacheWriteSeparateByTTL ->
  exists w5 w1, tp_CacheWrite5m p = Some w5 /\ tp_CacheWrite1h p = Some w1.
Proof.
  intros Hv Hc Hm. destruct Hc as [(_ & _ & _ & contexts & Ht & Hx)|(_ & _ & _ & [H|H])];
    [|by eapply componentMaximum_ttl..].
  assert (Hp : published (Rule s) (context_of (Rule s) tokens) p) by (by exists tier, contexts).
  apply (validated_published _ _ _ Hv) in Hp as (_ & _ & _ & _ & H5 & H1).
  rewrite Hm, bool_decide_true in H5, H1 by done. destruct H5 as (? & -> & _), H1 as (? & -> & _). eauto.
Qed.

(** A validated snapshot always yields a decision, and the decision has the
    prices of the choice. *)
Lemma Select_decides s actual tokens :
  validateV2ModelPricing (Rule s) = Ok tt -> 0 <= tokens ->
  exists p tier reason d, chosen s actual tokens p tier reason /\ Select s actual tokens = Ok d /\
    decision_of (CacheWriteMode (Rule s)) p d /\ PricingServiceTier d = tier /\ FallbackReason d = reason /\
    ContextClass d = context_of (Rule s) tokens.
Proof.
  intros Hv Ht. destruct (Select_chosen s actual tokens Ht (maxPublished_some _ Hv)) as (p & tier & reason & Hc & E).
  exists p, tier, reason. unfold decision_of. case_bool_decide as Hm.
  - destruct (chosen_ttl _ _ _ _ _ _ Hv Hc Hm) as (w5 & w1 & H5 & H1). rewrite H5, H1 in E |- *. cbn in E.
    eexists. split; [done|]. split; [exact E|]. by cbn.
  - cbn in E. eexists. split; [done|]. split; [exact E|]. by cbn.
Qed.

(** A published price a decision must dominate: every component, and under the
    TTL mode the combined write price dominates both TTL prices. *)
Definition decision_covers (mode : string) (d : PricingDecision) (p : TokenPricing) : Prop :=
  covers (d_Input d) (tp_Input p) /\ covers (d_CachedInput d) (tp_CachedInput p) /\ covers (d_Output d) (tp_Output p) /\
  (mode = CacheWriteSeparate -> exists w, tp_CacheWrite p = Some w /\ covers (d_CacheWrite d) w) /\
  (mode = CacheWriteSeparateByTTL -> exists w5 w1, tp_CacheWrite5m p = Some w5 /\ tp_CacheWrite1h p = Some w1 /\
     covers (d_CacheWrite5m d) w5 /\ covers (d_CacheWrite1h d) w1 /\ covers (d_CacheWrite d) w5 /\ covers (d_CacheWrite d) w1).

Lemma covers_trans p q r : covers p q -> covers q r -> covers p r.
Proof. intros [? H1] [_ H2]. split; [done|]. by eapply Qle_trans. Qed.

Lemma maxDecimal_covers l r :
  valid_price l = Ok tt -> valid_price r = Ok tt -> covers (maxDecimal l r) l /\ covers (maxDecimal l r) r.
Proof.
  intros [a Ha]%valid_price_units [b Hb]%valid_price_units.
  destruct (maxDecimalPad_spec "0" l r a b (or_introl eq_refl) Ha Hb) as [_ Hm]. fold maxDecimal in Hm.
  split; (split; [by eapply units_valid_price|]); (eapply units_le; [eassumption..|lia]).
Qed.

Lemma decision_covers_intro mode p q d :
  token_valid mode q -> token_covers p q -> decision_of mode p d -> decision_covers mode d q.
Proof.
  intros (_ & _ & _ & V & V5 & V1) (C1 & C2 & C3 & C4 & C5 & C6) (D1 & D2 & D3 & D4). unfold decision_covers.
  rewrite D1, D2, D3. split; [done|]. split; [done|]. split; [done|]. split; intros Hm.
  - rewrite (bool_decide_true _ Hm) in V. rewrite bool_decide_false in D4 by (subst mode; done).
    destruct V as (w & Hw & _). exists w. split; [done|]. rewrite Hw in C4. destruct C4 as (x & Hx & Hc).
    rewrite D4, Hx. done.
  - rewrite (bool_decide_true _ Hm) in V5, V1, D4. destruct V5 as (w5 & H5 & _), V1 as (w1 & H1 & _).
    rewrite H5 in C5. rewrite H1 in C6. destruct C5 as (x5 & Hx5 & Hc5), C6 as (x1 & Hx1 & Hc1), D4 as (E5 & E1 & E).
    rewrite Hx5 in E5. rewrite Hx1 in E1. injection E5 as E5. injection E1 as E1. rewrite <- E5, <- E1 in *.
    destruct (maxDecimal_covers _ _ (proj1 Hc5) (proj1 Hc1)) as [M5 M1].
    exists w5, w1. rewrite E. split_and!; try done.
    + exact (covers_trans _ _ _ M5 Hc5).
    + exact (covers_trans _ _ _ M1 Hc1).
Qed.

(** ** Properties *)

(** A concrete validated snapshot for the witnesses: two tiers, the TTL mode. *)
Definition demo_price (i c w5 w1 o : string) : TokenPricing :=
  {| tp_Input := i; tp_CachedInput := c; tp_CacheWrite := None; tp_CacheWrite5m := Some w5;
     tp_CacheWrite1h := Some w1; tp_Output := o |}.
Definition demo_snapshot : PricingSnapshot :=
  {| ps_SchemaVersion := PricingSchemaV2;
     ps_FallbackPolicy := {| UnknownServiceTier := FallbackMaxPublished;
       MissingPriceCombination := FallbackMaxPublished; MissingCacheWriteTokens := FallbackAllUncachedAsWrite |};
     ps_Model := "demo-model";
     Rule := {| mp_Input := ""; mp_CachedInput := ""; mp_Output := ""; CacheWriteMode := CacheWriteSeparateByTTL;
       MaxInputTokens := 1000000; LongContextThresholdTokens := 200000;
       ServiceTiers :=
         {[ PricingTierStandard := {| Short := Some (demo_price "3" "0.3" "3.75" "6" "15");
                                      Long := Some (demo_price "6" "0.6" "7.5" "12" "22.5") |};
            PricingTierFast := {| Short := Some (demo_price "10" "0.25" "12.5" "20" "9.5"); Long := None |} ]} |} |}.

(** With a validated rule, a known tier that publishes a price for the
    request's context, and an input within the model's maximum, [Select] takes
    exactly that published price and records no fallback. *)
Theorem select_direct s actual tokens tier contexts p :
  validateV2ModelPricing (Rule s) = Ok tt -> 0 <= tokens <= MaxInputTokens (Rule s) ->
  NormalizeServiceTier actual = Some tier -> ServiceTiers (Rule s) !! tier = Some contexts ->
  contextPrice contexts (context_of (Rule s) tokens) = Some p ->
  exists d, Select s actual tokens = Ok d /\ decision_of (CacheWriteMode (Rule s)) p d /\
    PricingServiceTier d = tier /\ FallbackReason d = EmptyString /\ ContextClass d = context_of (Rule s) tokens.
Proof.
  intros Hv Ht Hn Hc Hp.
  destruct (Select_decides s actual tokens Hv ltac:(lia)) as (q & t & r & d & Hch & E & Hd & <- & <- & Hx).
  exists d. split; [done|]. destruct Hch as [(_ & Ht' & -> & x & Hx1 & Hx2)|(Hno & _)].
  - rewrite Hn in Ht'. injection Ht' as Ht'. rewrite <- Ht' in Hx1 |- *. rewrite Hc in Hx1. injection Hx1 as <-.
    rewrite Hp in Hx2. injection Hx2 as <-. done.
  - exfalso. eapply Hno; eauto. lia.
Qed.

Lemma select_direct_witness :
  exists d, Select demo_snapshot " Priority" 1000 = Ok d /\
    decision_of CacheWriteSeparateByTTL (demo_price "10" "0.25" "12.5" "20" "9.5") d /\
    PricingServiceTier d = PricingTierFast /\ FallbackReason d = EmptyString /\
    ContextClass d = context_of (Rule demo_snapshot) 1000.
Proof.
  eapply (select_direct demo_snapshot " Priority" 1000 PricingTierFast); [by vm_compute|by vm_compute|by vm_compute|..].
  - by vm_compute.
  - by vm_compute.
Defined.

(** [C39] With a validated rule [Select] is total on non-negative token counts:
    it never dereferences a missing price and never runs out of prices.  When it
    cannot use the exact published price it says so: the tier is
    [max_published], a reason is recorded, and every component of the decision,
    the cache write prices of the mode included, is a valid price at least as
    high as that of every price published for the request's context. *)
Theorem select_total_conservative s actual tokens :
  validateV2ModelPricing (Rule s) = Ok tt -> 0 <= tokens ->
  exists d, Select s actual tokens = Ok d /\ ContextClass d = context_of (Rule s) tokens /\
    ((FallbackReason d = EmptyString /\ NormalizeServiceTier actual = Some (PricingServiceTier d)) \/
     (FallbackReason d <> EmptyString /\ PricingServiceTier d = PricingTierMaxPublished /\
      forall p, published (Rule s) (ContextClass d) p -> decision_covers (CacheWriteMode (Rule s)) d p)).
Proof.
  intros Hv Ht. destruct (Select_decides s actual tokens Hv Ht) as (p & t & r & d & Hch & E & Hd & <- & <- & Hx).
  exists d. split; [done|]. split; [done|]. destruct Hch as [(_ & Hn & Hr & _)|(_ & Hm & Hr & Hmax)]; [auto|].
  right. split; [done|]. split; [done|]. intros q Hq. rewrite Hx in Hq. eapply decision_covers_intro; [|..|done].
  - by eapply validated_published.
  - eapply maxima_cover; try done. unfold context_of. case_match; auto.
Qed.

Lemma select_total_conservative_witness :
  exists d, Select demo_snapshot "batch" 500000 = Ok d /\ ContextClass d = ContextClassLong /\
    ((FallbackReason d = EmptyString /\ NormalizeServiceTier "batch" = Some (PricingServiceTier d)) \/
     (FallbackReason d <> EmptyString /\ PricingServiceTier d = PricingTierMaxPublished /\
      forall p, published (Rule demo_snapshot) (ContextClass d) p -> decision_covers CacheWriteSeparateByTTL d p)).
Proof. apply (select_total_conservative demo_snapshot "batch" 500000); [by vm_compute|lia]. Defined.

(** The larger of two valid prices is returned in canonical form, and the
    byte the formatter pads the integer part with, on which Go releases differ,
    does not matter. *)
Theorem maxDecimal_is_max pad l r :
  pad = "0"%char \/ pad = " "%char -> is_ok (ParsePrice l) = true -> is_ok (ParsePrice r) = true ->
  ParsePrice (maxDecimalPad pad l r) = Ok (maxDecimalPad pad l r) /\
  (amount_value (maxDecimalPad pad l r) == Qmax (amount_value l) (amount_value r))%Q /\
  maxDecimalPad pad l r = maxDecimal l r.
Proof.
  intros Hp [a Ha]%price_units_valid [b Hb]%price_units_valid.
  destruct (maxDecimalPad_spec pad l r a b Hp Ha Hb) as [E Hm].
  destruct (maxDecimalPad_spec "0" l r a b (or_introl eq_refl) Ha Hb) as [E' _].
  split; [|split]; [| |by unfold maxDecimal; rewrite E, E'].
  - rewrite E. unfold parsed_or_empty.
    pose proof Ha as (i & f & Hl & _)%price_inv. pose proof Hb as (j & g & Hr & _)%price_inv. rewrite Hl, Hr.
    case_match; [by eapply parse_idem|by eapply parse_idem].
  - rewrite (proj1 (price_units_value _ _ Hm)), (proj1 (price_units_value _ _ Ha)), (proj1 (price_units_value _ _ Hb)).
    destruct (Z.max_spec a b) as [[? ->]|[? ->]]; [rewrite Q.max_r|rewrite Q.max_l]; try done;
      unfold scaled, Qle; cbn [Qnum Qden]; nia.
Qed.

Lemma maxDecimal_is_max_witness :
  ParsePrice (maxDecimalPad " " "9.5" "10.250") = Ok (maxDecimalPad " " "9.5" "10.250") /\
  (amount_value (maxDecimalPad " " "9.5" "10.250") == Qmax (amount_value "9.5") (amount_value "10.250"))%Q /\
  maxDecimalPad " " "9.5" "10.250" = maxDecimal "9.5" "10.250".
Proof. apply (maxDecimal_is_max " " "9.5" "10.250"); [by right|by vm_compute|by vm_compute]. Defined.
