(* ===== verification/Store.v ===== *)
(** * Transactions of the store ([internal/store/store.go])

    The PostgreSQL tables a component uses are a record of finite maps from
    primary keys to rows.  A function that takes a [*sql.Tx] is a computation
    [tx S A] over such a record; [withTx] runs one and rolls back on error.
    Row and advisory locks serialise the transactions that interfere, so one
    runs at a time here.  [mapDBError] is folded into the statements: a missing
    row is [ErrNotFound], a duplicate key [ErrConflict], and a violated CHECK,
    NOT NULL or foreign key, or a BIGINT out of range, is [ErrInvalid].
    Identifiers are taken to be in canonical form. *)
From S2P Require Import Prelude.

(** ** Errors *)

Record QuotaExceededError := {
  Scope : string;
  Dimension : string;
  Limit : Z;
  Current : Z;
  Requested : Z;
  RetryAfter : Z;
}.
#[export] Instance QuotaExceededError_eq_dec : EqDecision QuotaExceededError.
Proof. solve_decision. Defined.

(** The sentinel an error wraps, with the operation that reported it. *)
Inductive store_error : Type :=
| ErrInvalid (operation : string)
| ErrConflict (operation : string)
| ErrNotFound (operation : string)
| ErrQuotaExceeded (e : QuotaExceededError)
| ErrInsufficientFunds (retryAfter : Z)
| ErrOther (message : string).
#[export] Instance store_error_eq_dec : EqDecision store_error.
Proof. solve_decision. Defined.

(** [errors.Is(err, ErrConflict) || errors.Is(err, ErrNotFound)]. *)
Definition is_conflict_or_missing (e : store_error) : bool :=
  match e with ErrConflict _ | ErrNotFound _ => true | _ => false end.

(** ** The transaction monad *)

Definition tx (S A : Type) : Type := S -> result store_error (A * S).

Section tx.
Context {S : Type}.
Definition tret {A} (a : A) : tx S A := fun s => Ok (a, s).
Definition tbind {A B} (m : tx S A) (k : A -> tx S B) : tx S B :=
  fun s => match m s with Ok (a, s') => k a s' | Err e => Err e end.
Definition tfail {A} (e : store_error) : tx S A := fun _ => Err e.
(** A [SELECT]. *)
Definition tgets {A} (f : S -> A) : tx S A := fun s => Ok (f s, s).
(** A statement that cannot fail. *)
Definition tmod (f : S -> S) : tx S unit := fun s => Ok (tt, f s).
(** A computation on the error type alone. *)
Definition tlift {A} (r : result store_error A) : tx S A :=
  fun s => match r with Ok a => Ok (a, s) | Err e => Err e end.
(** A row that must exist. *)
Definition tsome {A} (operation : string) (o : option A) : tx S A :=
  match o with Some a => tret a | None => tfail (ErrNotFound operation) end.
Definition tguard (b : bool) (e : store_error) : tx S unit := if b then tret tt else tfail e.
End tx.

(** Run a component's transaction inside a larger store. *)
Definition tzoom {S T A} (get : S -> T) (set : T -> S -> S) (m : tx T A) : tx S A :=
  fun s => match m (get s) with Ok (a, t) => Ok (a, set t s) | Err e => Err e end.

(** [Store.withTx]: commit the writes, or roll all of them back. *)
Definition withTx {S A} (m : tx S A) (s : S) : result store_error A * S :=
  match m s with Ok (a, s') => (Ok a, s') | Err e => (Err e, s) end.

Declare Scope tx_scope.
Delimit Scope tx_scope with tx.
Notation "'let*' x ':=' m 'in' k" := (tbind m (fun x => k))
  (at level 10, x pattern, m at level 100, k at level 200) : tx_scope.
Notation "m ;; k" := (tbind m (fun _ => k)) (at level 100, k at level 200, right associativity) : tx_scope.
#[global] Open Scope tx_scope.

(** ** Statements *)

(** [UPDATE ... WHERE key IN keys AND cond] on distinct keys: rewrites the rows
    that satisfy the condition and counts them; a row that violates a CHECK
    fails the statement. *)
Fixpoint update_rows {K A} `{Countable K} (keys : list K) (cond : A -> bool) (f : A -> A) (check : A -> bool)
  (m : gmap K A) : option (Z * gmap K A) :=
  match keys with
  | [] => Some (0, m)
  | k :: keys' =>
      match m !! k with
      | Some row =>
          if cond row then
            if check (f row) then
              match update_rows keys' cond f check (<[k := f row]> m) with
              | Some (n, m') => Some (n + 1, m')
              | None => None
              end
            else None
          else update_rows keys' cond f check m
      | None => update_rows keys' cond f check m
      end
  end.

(** [INSERT ... ON CONFLICT DO NOTHING]. *)
Definition insert_missing {K A} `{Countable K} (k : K) (row : A) (m : gmap K A) : gmap K A :=
  match m !! k with Some _ => m | None => <[k := row]> m end.

(** BIGINT columns hold int64 values. *)
Definition int64b (z : Z) : bool := (min_int64 <=? z) && (z <=? max_int64).

(** [valueOrNil]: an empty string is stored as NULL. *)
Definition value_or_nil (s : string) : option string := if bool_decide (s = EmptyString) then None else Some s.

(** [requireExactlyAffected]. *)
Definition requireExactlyAffected {S} (operation : string) (n expected : Z) : tx S unit :=
  tguard (n =? expected) (ErrConflict operation).

(** ** Lemmas *)

Lemma tbind_Ok {S A B} (m : tx S A) (k : A -> tx S B) s b s' :
  tbind m k s = Ok (b, s') <-> exists a t, m s = Ok (a, t) /\ k a t = Ok (b, s').
Proof.
  unfold tbind. destruct (m s) as [[a t]|e]; split.
  - eauto.
  - by intros (? & ? & [= <- <-] & ?).
  - done.
  - by intros (? & ? & [=] & ?).
Qed.

Lemma tguard_Ok {S} b e (s : S) u s' : tguard b e s = Ok (u, s') <-> b = true /\ s' = s.
Proof. destruct u, b; cbn; unfold tret, tfail; split; [intros [= ->]|intros [_ ->]|..]; try done; by intros [? _]. Qed.

Lemma tsome_Ok {S A} op (o : option A) (s : S) a s' : tsome op o s = Ok (a, s') <-> o = Some a /\ s' = s.
Proof. destruct o; cbn; split; [intros [= -> ->]|intros [[= ->] ->]|..]; try done; by intros [? _]. Qed.

Lemma tlift_Ok {S A} (m : result store_error A) (s : S) a s' : tlift m s = Ok (a, s') -> m = Ok a /\ s' = s.
Proof. unfold tlift. destruct m; [|done]. by intros [= <- <-]. Qed.

(** Run the first statement of a transaction. *)
Lemma tmod_bind {S A} (f : S -> S) (k : unit -> tx S A) s : tbind (tmod f) k s = k tt (f s).
Proof. done. Qed.
Lemma tgets_bind {S A B} (f : S -> A) (k : A -> tx S B) s : tbind (tgets f) k s = k (f s) s.
Proof. done. Qed.
Lemma tguard_bind {S A} b e (k : unit -> tx S A) s : tbind (tguard b e) k s = if b then k tt s else Err e.
Proof. by destruct b. Qed.
Lemma tret_bind {S A B} (a : A) (k : A -> tx S B) s : tbind (tret a) k s = k a s.
Proof. done. Qed.
Lemma tbind_run {S A B} (m : tx S A) (k : A -> tx S B) s a s' : m s = Ok (a, s') -> tbind m k s = k a s'.
Proof. unfold tbind. by intros ->. Qed.
Lemma tsome_run {S A} op (o : option A) (a : A) (s : S) : o = Some a -> tsome op o s = Ok (a, s).
Proof. by intros ->. Qed.

(** Peel the first statement of a transaction that committed. *)
Ltac inv_tx H :=
  let a := fresh "a" in let s := fresh "s" in let Hm := fresh "Ht" in
  apply tbind_Ok in H as (a & s & Hm & H).

Lemma withTx_rollback {S A} (m : tx S A) s e s' : withTx m s = (Err e, s') -> s' = s.
Proof. unfold withTx. destruct (m s) as [[a t]|]; by intros [= <-]. Qed.

Lemma withTx_commit {S A} (m : tx S A) s a s' : withTx m s = (Ok a, s') <-> m s = Ok (a, s').
Proof. unfold withTx. destruct (m s) as [[b t]|]; split; intros [=]; congruence. Qed.

(** An invariant survives [withTx] when the transaction preserves it. *)
Lemma withTx_preserves {S A} (P : S -> Prop) (m : tx S A) s :
  (forall a s', m s = Ok (a, s') -> P s') -> P s -> P (withTx m s).2.
Proof. intros H Hs. unfold withTx. destruct (m s) as [[a t]|] eqn:E; [by eapply H|done]. Qed.

Lemma int64b_spec z : int64b z = true <-> is_int64 z.
Proof. unfold int64b, is_int64. lia. Qed.

Lemma insert_missing_lookup {K A} `{Countable K} k (row : A) (m : gmap K A) :
  exists v, insert_missing k row m !! k = Some v /\ v = default row (m !! k).
Proof.
  unfold insert_missing. destruct (m !! k) eqn:E; [eauto|]. exists row. by rewrite lookup_insert_eq.
Qed.

Lemma insert_missing_ne {K A} `{Countable K} k j (row : A) (m : gmap K A) :
  j <> k -> insert_missing k row m !! j = m !! j.
Proof. intros Hj. unfold insert_missing. destruct (m !! k); [done|]. by rewrite lookup_insert_ne. Qed.

Lemma insert_missing_some {K A} `{Countable K} k j (row v : A) (m : gmap K A) :
  insert_missing k row m !! j = Some v -> m !! j = Some v \/ (j = k /\ m !! j = None /\ v = row).
Proof.
  destruct (decide (j = k)) as [->|Hj]; [|rewrite insert_missing_ne by done; by left].
  destruct (insert_missing_lookup k row m) as (w & -> & ->). intros [= <-].
  destruct (m !! k); [by left|by right].
Qed.

(** A two-row update that touched two rows changed exactly those rows. *)
Lemma update_rows_two {K A} `{Countable K} (k1 k2 : K) cond f check (m m' : gmap K A) n :
  k1 <> k2 -> update_rows [k1; k2] cond f check m = Some (n, m') -> n = 2 ->
  exists v1 v2, m !! k1 = Some v1 /\ m !! k2 = Some v2 /\ cond v1 = true /\ cond v2 = true /\
    check (f v1) = true /\ check (f v2) = true /\ m' = <[k2 := f v2]> (<[k1 := f v1]> m).
Proof.
  intros Hk E ->. cbn in E.
  destruct (m !! k1) as [v1|] eqn:E1; [|destruct (m !! k2) as [v2|] eqn:E2; [|simplify_eq];
    destruct (cond v2); [destruct (check (f v2))|]; simplify_eq].
  destruct (cond v1) eqn:C1; [|destruct (m !! k2) as [v2|]; [|simplify_eq];
    destruct (cond v2); [destruct (check (f v2))|]; simplify_eq].
  destruct (check (f v1)) eqn:F1; [|done]. rewrite lookup_insert_ne in E by done.
  destruct (m !! k2) as [v2|] eqn:E2; [|simplify_eq].
  destruct (cond v2) eqn:C2; [|simplify_eq]. destruct (check (f v2)) eqn:F2; [|done]. simplify_eq. eauto 10.
Qed.

Lemma update_rows_two_eq {K A} `{Countable K} (k1 k2 : K) cond f check (m : gmap K A) v1 v2 :
  k1 <> k2 -> m !! k1 = Some v1 -> m !! k2 = Some v2 -> cond v1 = true -> cond v2 = true ->
  update_rows [k1; k2] cond f check m =
    if check (f v1) && check (f v2) then Some (2, <[k2 := f v2]> (<[k1 := f v1]> m)) else None.
Proof.
  intros Hk E1 E2 C1 C2. cbn. rewrite E1, C1. destruct (check (f v1)); [|done].
  rewrite lookup_insert_ne by done. rewrite E2, C2. by destruct (check (f v2)).
Qed.

(** ** Transactions that keep a relation

    [keeps R m]: whenever [m] succeeds, the store after it is related to the
    one before.  For a preorder the combinators compose, so a long transaction
    is checked statement by statement with [auto with keeps]. *)

Create HintDb keeps.

Definition keeps {S A} (R : S -> S -> Prop) (m : tx S A) : Prop := forall s a s', m s = Ok (a, s') -> R s s'.

Section keeps.
Context {S : Type} (R : S -> S -> Prop) `{!PreOrder R}.

Lemma keeps_ret {A} (a : A) : keeps R (tret a).
Proof. intros s x s' [= _ <-]. reflexivity. Qed.
Lemma keeps_fail {A} e : keeps R (tfail (A := A) e).
Proof. by intros s x s'. Qed.
Lemma keeps_gets {A} (f : S -> A) : keeps R (tgets f).
Proof. intros s x s' [= _ <-]. reflexivity. Qed.
Lemma keeps_lift {A} (r : result store_error A) : keeps R (tlift r).
Proof. intros s x s'. destruct r; [|done]. intros [= _ <-]. reflexivity. Qed.
Lemma keeps_some {A} op (o : option A) : keeps R (tsome op o).
Proof. destruct o; [apply keeps_ret|apply keeps_fail]. Qed.
Lemma keeps_guard b e : keeps R (tguard b e).
Proof. destruct b; [apply keeps_ret|apply keeps_fail]. Qed.
Lemma keeps_mod (f : S -> S) : (forall s, R s (f s)) -> keeps R (tmod f).
Proof. intros H s x s' [= _ <-]. apply H. Qed.
Lemma keeps_bind {A B} (m : tx S A) (k : A -> tx S B) : keeps R m -> (forall a, keeps R (k a)) -> keeps R (tbind m k).
Proof. intros Hm Hk s b s' (a & s1 & H1 & H2)%tbind_Ok. transitivity s1; [by eapply Hm|by eapply Hk]. Qed.
(** The statements that read the store: what follows may use what was read. *)
Lemma keeps_gets_bind {A B} (f : S -> A) (k : A -> tx S B) : (forall s a s', k (f s) s = Ok (a, s') -> R s s') -> keeps R (tbind (tgets f) k).
Proof. intros H s a s'. rewrite tgets_bind. apply H. Qed.
Lemma keeps_if {A} (b : bool) (m1 m2 : tx S A) : keeps R m1 -> keeps R m2 -> keeps R (if b then m1 else m2).
Proof. by destruct b. Qed.

Lemma keeps_withTx {A} (m : tx S A) s : keeps R m -> R s (withTx m s).2.
Proof. intros H. unfold withTx. destruct (m s) as [[a s']|e] eqn:E; [by eapply H|reflexivity]. Qed.
End keeps.
#[export] Hint Resolve keeps_ret keeps_fail keeps_gets keeps_lift keeps_some keeps_guard keeps_bind keeps_if : keeps.

(** The body of a transaction, one constructor at a time. *)
Ltac keeps_step :=
  match goal with
  | |- keeps _ (match ?x with _ => _ end) => destruct x
  | |- keeps _ (let _ := _ in _) => cbv zeta
  | |- forall _, keeps _ _ => intros ?
  | _ => progress eauto 3 with keeps typeclass_instances
  | |- keeps _ (tbind _ _) => apply keeps_bind; [exact _| |intros ?]
  end.
Ltac keeps_tac := repeat keeps_step.
