(* ===== verification/Quota.v ===== *)
(** * Request quotas ([internal/store/quota.go])

    Admission against concurrency leases, minute windows and daily counters;
    settlement, release, lease renewal and retention.  All writers take the
    [global] row of [quota_locks] first, so the transactions are serial. *)
From S2P Require Import Prelude GoStrings GoTime Store.

(** ** Tables *)

Inductive reservation_state : Set := Reserved | Settled | Released.
#[export] Instance reservation_state_eq_dec : EqDecision reservation_state.
Proof. solve_decision. Defined.

Record counter_row := Counter {
  requests_reserved : Z;
  requests_completed : Z;
  tokens_reserved : Z;
  tokens_used : Z;
  counter_updated_at : Z;
}.
Record rate_row := Rate { request_count : Z; rate_updated_at : Z }.
#[export] Instance counter_row_eq_dec : EqDecision counter_row.
Proof. solve_decision. Defined.
#[export] Instance rate_row_eq_dec : EqDecision rate_row.
Proof. solve_decision. Defined.
Record reservation_row := Reservation {
  quota_day : Z;
  user_id : string;
  api_key_id : string;
  reserved_tokens : Z;
  actual_tokens : option Z;
  state : reservation_state;
  created_at : Z;
  settled_at : option Z;
}.
#[export] Instance reservation_row_eq_dec : EqDecision reservation_row.
Proof. solve_decision. Defined.
Record lease_row := Lease {
  lease_user_id : string;
  lease_api_key_id : string;
  lease_created_at : Z;
  lease_expires_at : Z;
}.

#[export] Instance lease_row_eq_dec : EqDecision lease_row.
Proof. solve_decision. Defined.

(** The quota tables, and the (key, owner) pairs their foreign keys refer to. *)
Record quota_db := QuotaDB {
  quota_locks : gset (string * string);
  quota_counters : gmap (Z * string * string) counter_row;
  quota_rate_windows : gmap (Z * string * string) rate_row;
  quota_reservations : gmap string reservation_row;
  concurrency_leases : gmap string lease_row;
  api_key_owners : gset (string * string);
}.

Definition set_locks v d := QuotaDB v (quota_counters d) (quota_rate_windows d) (quota_reservations d) (concurrency_leases d) (api_key_owners d).
Definition set_counters v d := QuotaDB (quota_locks d) v (quota_rate_windows d) (quota_reservations d) (concurrency_leases d) (api_key_owners d).
Definition set_windows v d := QuotaDB (quota_locks d) (quota_counters d) v (quota_reservations d) (concurrency_leases d) (api_key_owners d).
Definition set_reservations v d := QuotaDB (quota_locks d) (quota_counters d) (quota_rate_windows d) v (concurrency_leases d) (api_key_owners d).
Definition set_leases v d := QuotaDB (quota_locks d) (quota_counters d) (quota_rate_windows d) (quota_reservations d) v (api_key_owners d).

(** CHECK constraints of the tables. *)
Definition counter_check (c : counter_row) : bool :=
  (0 <=? requests_reserved c) && (0 <=? requests_completed c) && (requests_completed c <=? requests_reserved c) &&
  (0 <=? tokens_reserved c) && (0 <=? tokens_used c) &&
  int64b (requests_reserved c) && int64b (requests_completed c) && int64b (tokens_reserved c) && int64b (tokens_used c).
Definition rate_check (w : rate_row) : bool := (0 <=? request_count w) && int64b (request_count w).
Definition request_id_check (id : string) : bool :=
  (16 <=? String.length id)%nat && (String.length id <=? 128)%nat.
Definition state_consistent (r : reservation_row) : bool :=
  match state r, actual_tokens r, settled_at r with
  | Reserved, None, None => true
  | Settled, Some _, Some _ => true
  | Released, None, Some _ => true
  | _, _, _ => false
  end.
Definition reservation_check (r : reservation_row) : bool :=
  (0 <=? reserved_tokens r) && match actual_tokens r with Some a => 0 <=? a | None => true end && state_consistent r.
Definition lease_check (l : lease_row) : bool := lease_created_at l <? lease_expires_at l.

(** ** Parameters and results *)

Record QuotaLimits := {
  KeyRequestsPerMinute : Z;
  UserRequestsPerMinute : Z;
  KeyConcurrent : Z;
  UserConcurrent : Z;
  GlobalConcurrent : Z;
  KeyDailyRequests : Z;
  UserDailyRequests : Z;
}.

(** [Day] and [Now] carry their location's offset; an unset one is the zero time. *)
Record ReserveQuotaParams := {
  rq_RequestID : string;
  rq_UserID : string;
  rq_APIKeyID : string;
  rq_Day : zoned;
  rq_Now : zoned;
  rq_ReservedTokens : Z;
  rq_LeaseTTL : Z;
  rq_Limits : QuotaLimits;
}.

Record QuotaReservation := {
  qr_RequestID : string;
  qr_Day : Z;
  qr_UserID : string;
  qr_APIKeyID : string;
  qr_ReservedTokens : Z;
  qr_ActualTokens : option Z;
  qr_State : reservation_state;
  qr_CreatedAt : Z;
  qr_SettledAt : option Z;
  qr_LeaseExpiresAt : option Z;
}.

Record QuotaCounter := {
  qc_Day : Z;
  qc_ScopeType : string;
  qc_ScopeID : string;
  qc_row : counter_row;
}.

(** ** Validation *)

Definition validateQuotaLimits (limits : QuotaLimits) : result store_error unit :=
  if existsb (fun value => value <? 0)
       [KeyRequestsPerMinute limits; UserRequestsPerMinute limits; KeyConcurrent limits; UserConcurrent limits;
        GlobalConcurrent limits; KeyDailyRequests limits; UserDailyRequests limits]
  then Err (ErrInvalid "quota limits cannot be negative") else Ok tt.

(** [normalizeReserveQuota]; [clock] is [s.now().UTC()]. *)
Definition normalizeReserveQuota (clock : Z) (params : ReserveQuotaParams) : result store_error ReserveQuotaParams :=
  if bool_decide (rq_RequestID params = EmptyString) || bool_decide (rq_UserID params = EmptyString) ||
     bool_decide (rq_APIKeyID params = EmptyString) || (rq_ReservedTokens params <? 0)
  then Err (ErrInvalid "invalid quota reservation") else
  let now := if is_zero_time (instant (rq_Now params)) then Zoned clock 0 else rq_Now params in
  let day := if is_zero_time (instant (rq_Day params)) then now else rq_Day params in
  let ttl := if rq_LeaseTTL params <=? 0 then 5 * Minute else rq_LeaseTTL params in
  if 30 * Minute <? ttl then Err (ErrInvalid "quota lease TTL exceeds 30 minutes") else
  let! _ := validateQuotaLimits (rq_Limits params) in
  Ok {| rq_RequestID := rq_RequestID params; rq_UserID := rq_UserID params; rq_APIKeyID := rq_APIKeyID params;
        rq_Day := day; rq_Now := now; rq_ReservedTokens := rq_ReservedTokens params; rq_LeaseTTL := ttl;
        rq_Limits := rq_Limits params |}.

Definition enforceQuota (scope dimension : string) (limit current requested retry : Z) : tx quota_db unit :=
  tguard ((limit =? 0) || (wrap64 (current + requested) <=? limit))
    (ErrQuotaExceeded {| Scope := scope; Dimension := dimension; Limit := limit; Current := current;
                         Requested := requested; RetryAfter := retry |}).

(** ** Statements *)

Definition lockQuotaScopes (userID keyID : string) : tx quota_db unit :=
  tmod (fun d => set_locks (quota_locks d ∪ {[ ("global", "global"); ("key", keyID); ("user", userID) ]}) d) ;;
  let* locked := tgets (fun d => filter (fun l => l ∈ [("global", "global"); ("key", keyID); ("user", userID)])
                                   (elements (quota_locks d))) in
  tguard (bool_decide (length locked = 3%nat)) (ErrOther "lock quota scopes").

(** The two rows of a window or of a day. *)
Definition scope_keys (t : Z) (keyID userID : string) : list (Z * string * string) :=
  [(t, "key", keyID); (t, "user", userID)].

Definition readRateCounts (window : Z) (userID keyID : string) : tx quota_db (Z * Z) :=
  let* rows := tgets quota_rate_windows in
  match rows !! (window, "key", keyID), rows !! (window, "user", userID) with
  | Some k, Some u => tret (request_count k, request_count u)
  | _, _ => tfail (ErrOther "read rate windows")
  end.

Definition readQuotaSnapshots (day : Z) (userID keyID : string) : tx quota_db (counter_row * counter_row) :=
  let* rows := tgets quota_counters in
  match rows !! (day, "key", keyID), rows !! (day, "user", userID) with
  | Some k, Some u => tret (k, u)
  | _, _ => tfail (ErrOther "read quota counters")
  end.

Definition update_counters (operation : string) (day : Z) (keyID userID : string) (cond : counter_row -> bool)
  (f : counter_row -> counter_row) : tx quota_db unit :=
  let* rows := tgets quota_counters in
  match update_rows (scope_keys day keyID userID) cond f counter_check rows with
  | None => tfail (ErrInvalid operation)
  | Some (n, rows') => tmod (set_counters rows') ;; requireExactlyAffected operation n 2
  end.

Definition update_windows (operation : string) (window : Z) (keyID userID : string) (f : rate_row -> rate_row)
  : tx quota_db unit :=
  let* rows := tgets quota_rate_windows in
  match update_rows (scope_keys window keyID userID) (fun _ => true) f rate_check rows with
  | None => tfail (ErrInvalid operation)
  | Some (n, rows') => tmod (set_windows rows') ;; requireExactlyAffected operation n 2
  end.

(** [SELECT count( * ) FILTER (WHERE p) FROM concurrency_leases WHERE lease_expires_at > now]. *)
Definition count_leases (p : lease_row -> bool) (now : Z) (d : quota_db) : Z :=
  msum (fun l => b2z (p l && (now <? lease_expires_at l))) (concurrency_leases d).

(** Inserts: CHECK constraints first, then the primary key, then the foreign key. *)
Definition insert_reservation (id : string) (r : reservation_row) : tx quota_db unit :=
  let* d := tgets (fun d => d) in
  let op := "insert quota reservation" in
  tguard (request_id_check id && reservation_check r && int64b (reserved_tokens r)) (ErrInvalid op) ;;
  tguard (bool_decide (quota_reservations d !! id = None)) (ErrConflict op) ;;
  tguard (bool_decide ((api_key_id r, user_id r) ∈ api_key_owners d)) (ErrInvalid op) ;;
  tmod (fun d => set_reservations (<[id := r]> (quota_reservations d)) d).

Definition insert_lease (id : string) (l : lease_row) : tx quota_db unit :=
  let* d := tgets (fun d => d) in
  let op := "insert concurrency lease" in
  tguard (request_id_check id && lease_check l) (ErrInvalid op) ;;
  tguard (bool_decide (concurrency_leases d !! id = None)) (ErrConflict op) ;;
  tguard (bool_decide ((lease_api_key_id l, lease_user_id l) ∈ api_key_owners d)) (ErrInvalid op) ;;
  tmod (fun d => set_leases (<[id := l]> (concurrency_leases d)) d).

(** ** Reservation *)

(** The bounds on the duration to the next minute: at least one second. *)
Definition retry_minute (windowStart now : Z) : Z :=
  let d := time_sub (windowStart + Minute) now in if d <? Second then Second else d.

Definition reserveQuotaLockedTx (params : ReserveQuotaParams) : tx quota_db QuotaReservation :=
  let now := instant (rq_Now params) in
  let day := civil_day (rq_Day params) in
  let windowStart := truncate now Minute in
  let leaseExpiry := now + rq_LeaseTTL params in
  let limits := rq_Limits params in
  let user := rq_UserID params in
  let key := rq_APIKeyID params in
  tmod (fun d => set_leases (filter (fun kv => now < lease_expires_at kv.2) (concurrency_leases d)) d) ;;
  let* userConcurrent := tgets (count_leases (fun l => bool_decide (lease_user_id l = user)) now) in
  let* keyConcurrent := tgets (count_leases (fun l => bool_decide (lease_api_key_id l = key)) now) in
  let* globalConcurrent := tgets (count_leases (fun _ => true) now) in
  enforceQuota "key" "concurrency" (KeyConcurrent limits) keyConcurrent 1 Second ;;
  enforceQuota "user" "concurrency" (UserConcurrent limits) userConcurrent 1 Second ;;
  enforceQuota "global" "concurrency" (GlobalConcurrent limits) globalConcurrent 1 Second ;;
  tmod (fun d => set_windows (insert_missing (windowStart, "user", user) (Rate 0 now)
                   (insert_missing (windowStart, "key", key) (Rate 0 now) (quota_rate_windows d))) d) ;;
  let* (keyRate, userRate) := readRateCounts windowStart user key in
  let retryMinute := retry_minute windowStart now in
  enforceQuota "key" "rpm" (KeyRequestsPerMinute limits) keyRate 1 retryMinute ;;
  enforceQuota "user" "rpm" (UserRequestsPerMinute limits) userRate 1 retryMinute ;;
  tmod (fun d => set_counters (insert_missing (day, "user", user) (Counter 0 0 0 0 now)
                   (insert_missing (day, "key", key) (Counter 0 0 0 0 now) (quota_counters d))) d) ;;
  let* (keyDaily, userDaily) := readQuotaSnapshots day user key in
  enforceQuota "key" "daily_requests" (KeyDailyRequests limits) (requests_reserved keyDaily) 1 Day24 ;;
  enforceQuota "user" "daily_requests" (UserDailyRequests limits) (requests_reserved userDaily) 1 Day24 ;;
  update_windows "increment rate windows" windowStart key user (fun w => Rate (request_count w + 1) now) ;;
  update_counters "reserve daily quota" day key user (fun _ => true)
    (fun c => Counter (requests_reserved c + 1) (requests_completed c)
                (tokens_reserved c + rq_ReservedTokens params) (tokens_used c) now) ;;
  insert_reservation (rq_RequestID params)
    (Reservation day user key (rq_ReservedTokens params) None Reserved now None) ;;
  insert_lease (rq_RequestID params) (Lease user key now leaseExpiry) ;;
  tret {| qr_RequestID := rq_RequestID params; qr_Day := day; qr_UserID := user; qr_APIKeyID := key;
          qr_ReservedTokens := rq_ReservedTokens params; qr_ActualTokens := None; qr_State := Reserved;
          qr_CreatedAt := now; qr_SettledAt := None; qr_LeaseExpiresAt := Some leaseExpiry |}.

Definition reserveQuotaTx (params : ReserveQuotaParams) : tx quota_db QuotaReservation :=
  lockQuotaScopes (rq_UserID params) (rq_APIKeyID params) ;; reserveQuotaLockedTx params.

Definition ReserveQuota (clock : Z) (params : ReserveQuotaParams) (d : quota_db)
  : result store_error QuotaReservation * quota_db :=
  match normalizeReserveQuota clock params with
  | Err e => (Err e, d)
  | Ok params => withTx (reserveQuotaTx params) d
  end.

(** ** Settlement and release *)

Definition readReservation (requestID : string) : tx quota_db QuotaReservation :=
  let* d := tgets (fun d => d) in
  let* r := tsome "read quota reservation" (quota_reservations d !! requestID) in
  tret {| qr_RequestID := requestID; qr_Day := quota_day r; qr_UserID := user_id r; qr_APIKeyID := api_key_id r;
          qr_ReservedTokens := reserved_tokens r; qr_ActualTokens := actual_tokens r; qr_State := state r;
          qr_CreatedAt := created_at r; qr_SettledAt := settled_at r;
          qr_LeaseExpiresAt := lease_expires_at <$> concurrency_leases d !! requestID |}.

(** [UPDATE quota_reservations SET ... WHERE request_id = id]. *)
Definition update_reservation (operation id : string) (f : reservation_row -> reservation_row) : tx quota_db unit :=
  let* rows := tgets quota_reservations in
  match update_rows [id] (fun _ => true) f reservation_check rows with
  | None => tfail (ErrInvalid operation)
  | Some (_, rows') => tmod (set_reservations rows')
  end.

Definition delete_lease (id : string) : tx quota_db unit :=
  tmod (fun d => set_leases (delete id (concurrency_leases d)) d).

Definition settleQuotaTx (requestID : string) (actualTokens at_ : Z) : tx quota_db unit :=
  let* reservation := readReservation requestID in
  match qr_State reservation with
  | Settled =>
      if bool_decide (qr_ActualTokens reservation = Some actualTokens) then tret tt
      else tfail (ErrConflict "settle quota")
  | Released => tfail (ErrConflict "settle released quota")
  | Reserved =>
      update_counters "settle quota counters" (qr_Day reservation) (qr_APIKeyID reservation) (qr_UserID reservation)
        (fun c => qr_ReservedTokens reservation <=? tokens_reserved c)
        (fun c => Counter (requests_reserved c) (requests_completed c + 1)
                    (tokens_reserved c - qr_ReservedTokens reservation) (tokens_used c + actualTokens) at_) ;;
      update_reservation "settle quota reservation" requestID
        (fun r => Reservation (quota_day r) (user_id r) (api_key_id r) (reserved_tokens r) (Some actualTokens)
                    Settled (created_at r) (Some at_)) ;;
      delete_lease requestID
  end.

Definition releaseQuotaTx (requestID : string) (at_ : Z) : tx quota_db unit :=
  let* reservation := readReservation requestID in
  match qr_State reservation with
  | Released => tret tt
  | Settled => tfail (ErrConflict "release settled quota")
  | Reserved =>
      update_counters "release quota counters" (qr_Day reservation) (qr_APIKeyID reservation) (qr_UserID reservation)
        (fun c => (0 <? requests_reserved c) && (qr_ReservedTokens reservation <=? tokens_reserved c))
        (fun c => Counter (requests_reserved c - 1) (requests_completed c)
                    (tokens_reserved c - qr_ReservedTokens reservation) (tokens_used c) at_) ;;
      update_reservation "release quota reservation" requestID
        (fun r => Reservation (quota_day r) (user_id r) (api_key_id r) (reserved_tokens r) (actual_tokens r)
                    Released (created_at r) (Some at_)) ;;
      delete_lease requestID
  end.

(** The prefix the request-level operations share: find the owner, lock its scopes. *)
Definition lock_reservation (requestID : string) : tx quota_db unit :=
  let* pre := readReservation requestID in
  lockQuotaScopes (qr_UserID pre) (qr_APIKeyID pre).

Definition SettleQuota (clock : Z) (requestID : string) (actualTokens at_ : Z) (d : quota_db)
  : result store_error unit * quota_db :=
  if bool_decide (requestID = EmptyString) || (actualTokens <? 0) then (Err (ErrInvalid "invalid quota settlement"), d) else
  let at_ := if is_zero_time at_ then clock else at_ in
  withTx (lock_reservation requestID ;; settleQuotaTx requestID actualTokens at_) d.

Definition ReleaseQuota (clock : Z) (requestID : string) (at_ : Z) (d : quota_db) : result store_error unit * quota_db :=
  if bool_decide (requestID = EmptyString) then (Err (ErrInvalid "empty quota reservation id"), d) else
  let at_ := if is_zero_time at_ then clock else at_ in
  withTx (lock_reservation requestID ;; releaseQuotaTx requestID at_) d.

(** ** Lease renewal, reading, retention *)

Definition RenewQuotaLease (clock : Z) (requestID : string) (at_ ttl : Z) (d : quota_db)
  : result store_error unit * quota_db :=
  if (ttl <=? 0) || (30 * Minute <? ttl) then (Err (ErrInvalid "invalid quota lease TTL"), d) else
  let at_ := if is_zero_time at_ then clock else at_ in
  withTx
    (let* l := tgets (fun d => concurrency_leases d !! requestID) in
     let* r := tgets (fun d => quota_reservations d !! requestID) in
     match l, r with
     | Some l, Some r =>
         if bool_decide (state r = Reserved) && (at_ <? lease_expires_at l) then
           let l' := Lease (lease_user_id l) (lease_api_key_id l) (lease_created_at l) (at_ + ttl) in
           tguard (lease_check l') (ErrInvalid "renew quota lease") ;;
           tmod (fun d => set_leases (<[requestID := l']> (concurrency_leases d)) d)
         else tfail (ErrNotFound "renew quota lease")
     | _, _ => tfail (ErrNotFound "renew quota lease")
     end) d.

Definition GetQuotaCounters (day : zoned) (userID keyID : string) (d : quota_db) : list QuotaCounter :=
  omap (fun k => (fun c => {| qc_Day := k.1.1; qc_ScopeType := k.1.2; qc_ScopeID := k.2; qc_row := c |})
                   <$> quota_counters d !! k)
    (scope_keys (civil_day day) keyID userID).

(** The reservations retention drops: closed before the cutoff and not needed by
    billing; [billing_reserved] tells whether a request still has a reserved
    billing reservation. *)
Definition expired_reservation (billing_reserved : string -> bool) (before : zoned) (kv : string * reservation_row) : bool :=
  negb (bool_decide (state kv.2 = Reserved)) &&
  match settled_at kv.2 with Some t => t <? instant before | None => false end && negb (billing_reserved kv.1).

Definition DeleteQuotaStateBefore (billing_reserved : string -> bool) (before : zoned) (d : quota_db) : quota_db :=
  let d := set_windows (filter (fun kv => instant before <= kv.1.1.1) (quota_rate_windows d)) d in
  let d := set_reservations
             (filter (fun kv => expired_reservation billing_reserved before kv = false) (quota_reservations d)) d in
  set_counters (filter (fun kv => civil_day before <= kv.1.1.1) (quota_counters d)) d.

(** ** Tallies over the reservation table *)

(** The counter rows a reservation is counted in. *)
Definition in_scope (k : Z * string * string) (r : reservation_row) : bool :=
  bool_decide (k = (quota_day r, "key", api_key_id r)) || bool_decide (k = (quota_day r, "user", user_id r)).
Definition tally (g : reservation_row -> Z) (k : Z * string * string) (rs : gmap string reservation_row) : Z :=
  msum (fun r => if in_scope k r then g r else 0) rs.
Definition open_tokens (r : reservation_row) : Z := if bool_decide (state r = Reserved) then reserved_tokens r else 0.
Definition open_one (r : reservation_row) : Z := b2z (bool_decide (state r = Reserved)).

Lemma tally_insert g k rs id r :
  rs !! id = None -> tally g k (<[id := r]> rs) = tally g k rs + (if in_scope k r then g r else 0).
Proof. intros H. unfold tally. rewrite msum_insert by done. lia. Qed.

Lemma tally_update g k rs id r r' :
  rs !! id = Some r -> in_scope k r' = in_scope k r ->
  tally g k (<[id := r']> rs) = tally g k rs + (if in_scope k r then g r' - g r else 0).
Proof. intros H E. unfold tally. rewrite (msum_update _ _ _ r) by done. rewrite E. destruct (in_scope k r); lia. Qed.

Lemma tally_zero g k rs :
  (forall id r, rs !! id = Some r -> in_scope k r = true -> g r = 0) -> tally g k rs = 0.
Proof.
  intros H. unfold tally. rewrite (msum_ext _ (fun _ => 0)).
  - induction rs as [|i x m Hi IH] using map_ind; [apply msum_empty|]. rewrite msum_insert by done.
    rewrite IH; [done|]. intros j y Hj. apply (H j). rewrite lookup_insert_ne; [done|]. congruence.
  - intros id r Hr. destruct (in_scope k r) eqn:E; [|done]. by eapply H.
Qed.

Lemma tally_ge g k rs id r :
  (forall id r, rs !! id = Some r -> 0 <= g r) -> rs !! id = Some r -> in_scope k r = true -> g r <= tally g k rs.
Proof.
  intros Hg Hr Hs. unfold tally.
  pose proof (msum_lookup_le (fun r => if in_scope k r then g r else 0) rs id r) as H. cbv beta in H.
  rewrite Hs in H. apply H; [|done]. intros i x Hx. specialize (Hg i x Hx). destruct (in_scope k x); lia.
Qed.

(** ** The invariant of the quota tables *)

Record quota_inv (d : quota_db) : Prop := {
  inv_reservation : forall id r, quota_reservations d !! id = Some r -> reservation_check r = true;
  inv_counter : forall k c, quota_counters d !! k = Some c ->
    counter_check c = true /\ tokens_reserved c = tally open_tokens k (quota_reservations d) /\
    requests_reserved c = requests_completed c + tally open_one k (quota_reservations d);
  inv_rate : forall k w, quota_rate_windows d !! k = Some w -> rate_check w = true;
  inv_open : forall id r, quota_reservations d !! id = Some r -> state r = Reserved ->
    forall k, in_scope k r = true -> is_Some (quota_counters d !! k);
  inv_lease : forall id l, concurrency_leases d !! id = Some l ->
    lease_check l = true /\
    exists r, quota_reservations d !! id = Some r /\ state r = Reserved /\ user_id r = lease_user_id l /\
      api_key_id r = lease_api_key_id l;
}.

Lemma empty_quota_inv owners locks : quota_inv (QuotaDB locks ∅ ∅ ∅ ∅ owners).
Proof. split; cbn; intros *; rewrite lookup_empty; done. Qed.

Lemma open_tokens_nonneg d id r : quota_inv d -> quota_reservations d !! id = Some r -> 0 <= open_tokens r.
Proof.
  intros Hd Hr. apply (inv_reservation d Hd) in Hr. unfold reservation_check in Hr. breflect.
  unfold open_tokens. case_bool_decide; lia.
Qed.

(** A missing counter row counts nothing. *)
Lemma missing_counter d k :
  quota_inv d -> quota_counters d !! k = None ->
  tally open_tokens k (quota_reservations d) = 0 /\ tally open_one k (quota_reservations d) = 0.
Proof.
  intros Hd Hk. split; apply tally_zero; intros id r Hr Hs; unfold open_tokens, open_one; case_bool_decide as E; try done;
    destruct (inv_open d Hd id r Hr E k Hs) as [c Hc]; congruence.
Qed.

(** The counter row of a scope, a fresh one when it is missing, has the tallies. *)
Lemma counter_or_fresh d k t :
  quota_inv d ->
  let c := default (Counter 0 0 0 0 t) (quota_counters d !! k) in
  counter_check c = true /\ tokens_reserved c = tally open_tokens k (quota_reservations d) /\
  requests_reserved c = requests_completed c + tally open_one k (quota_reservations d).
Proof.
  intros Hd. destruct (quota_counters d !! k) as [c|] eqn:E; cbn; [by apply (inv_counter d Hd)|].
  destruct (missing_counter d k Hd E) as [-> ->]. done.
Qed.

Lemma keys_ne (t : Z) (k u : string) : (t, "key", k) <> (t, "user", u).
Proof. congruence. Qed.
#[export] Hint Resolve keys_ne : gateway.

Lemma in_scope_cases k r :
  in_scope k r = true <-> k = (quota_day r, "key", api_key_id r) \/ k = (quota_day r, "user", user_id r).
Proof. unfold in_scope. by rewrite orb_true_iff, !bool_decide_eq_true. Qed.

(** Rewriting the two counter rows of a reservation, when its tallies move the
    same way, keeps the counter part of the invariant. *)
Lemma counters_follow (cs cs' : gmap (Z * string * string) counter_row) rs rs' r (f : counter_row -> counter_row) (dt dn : Z) :
  (forall k, in_scope k r = true -> exists c, cs' !! k = Some (f c) /\ counter_check (f c) = true /\
     tokens_reserved c = tally open_tokens k rs /\ requests_reserved c = requests_completed c + tally open_one k rs) ->
  (forall k, in_scope k r = false -> cs' !! k = cs !! k) ->
  (forall c, tokens_reserved (f c) = tokens_reserved c + dt /\
     requests_reserved (f c) - requests_completed (f c) = requests_reserved c - requests_completed c + dn) ->
  (forall k, tally open_tokens k rs' = tally open_tokens k rs + (if in_scope k r then dt else 0)) ->
  (forall k, tally open_one k rs' = tally open_one k rs + (if in_scope k r then dn else 0)) ->
  (forall k c, cs !! k = Some c -> counter_check c = true /\ tokens_reserved c = tally open_tokens k rs /\
     requests_reserved c = requests_completed c + tally open_one k rs) ->
  forall k c, cs' !! k = Some c -> counter_check c = true /\ tokens_reserved c = tally open_tokens k rs' /\
     requests_reserved c = requests_completed c + tally open_one k rs'.
Proof.
  intros Hin Hout Hf Ht Hn Hold k c Hc. rewrite Ht, Hn. destruct (in_scope k r) eqn:E.
  - destruct (Hin k E) as (c0 & Hc0 & Hck & H1 & H2). rewrite Hc in Hc0. injection Hc0 as ->.
    destruct (Hf c0) as [F1 F2]. split; [done|]. lia.
  - rewrite Hout in Hc by done. destruct (Hold k c Hc) as (? & -> & ->). split; [done|]. lia.
Qed.

(** ** What admission decides *)

(** The limits in the order the code enforces them, each with the count read
    from the tables before the request. *)
Definition window_count (d : quota_db) (k : Z * string * string) : Z :=
  default 0 (request_count <$> quota_rate_windows d !! k).
Definition daily_count (d : quota_db) (k : Z * string * string) : Z :=
  default 0 (requests_reserved <$> quota_counters d !! k).
Definition admission_checks (p : ReserveQuotaParams) (d : quota_db) : list QuotaExceededError :=
  let now := instant (rq_Now p) in
  let w := truncate now Minute in
  let day := civil_day (rq_Day p) in
  let key := rq_APIKeyID p in
  let user := rq_UserID p in
  let l := rq_Limits p in
  let check scope dim limit current retry :=
    {| Scope := scope; Dimension := dim; Limit := limit; Current := current; Requested := 1; RetryAfter := retry |} in
  [ check "key" "concurrency" (KeyConcurrent l) (count_leases (fun x => bool_decide (lease_api_key_id x = key)) now d) Second;
    check "user" "concurrency" (UserConcurrent l) (count_leases (fun x => bool_decide (lease_user_id x = user)) now d) Second;
    check "global" "concurrency" (GlobalConcurrent l) (count_leases (fun _ => true) now d) Second;
    check "key" "rpm" (KeyRequestsPerMinute l) (window_count d (w, "key", key)) (retry_minute w now);
    check "user" "rpm" (UserRequestsPerMinute l) (window_count d (w, "user", user)) (retry_minute w now);
    check "key" "daily_requests" (KeyDailyRequests l) (daily_count d (day, "key", key)) Day24;
    check "user" "daily_requests" (UserDailyRequests l) (daily_count d (day, "user", user)) Day24 ].
Definition violated (e : QuotaExceededError) : bool :=
  negb ((Limit e =? 0) || (wrap64 (Current e + Requested e) <=? Limit e)).

(** The tables an admitted request leaves. *)
Definition bump_window (now : Z) (k : Z * string * string) (m : gmap (Z * string * string) rate_row) :=
  <[k := Rate (default 0 (request_count <$> m !! k) + 1) now]> m.
Definition reserve_counter (tokens now : Z) (c : counter_row) : counter_row :=
  Counter (requests_reserved c + 1) (requests_completed c) (tokens_reserved c + tokens) (tokens_used c) now.
Definition bump_counter (tokens now : Z) (k : Z * string * string) (m : gmap (Z * string * string) counter_row) :=
  <[k := reserve_counter tokens now (default (Counter 0 0 0 0 now) (m !! k))]> m.
Definition new_reservation (p : ReserveQuotaParams) : reservation_row :=
  Reservation (civil_day (rq_Day p)) (rq_UserID p) (rq_APIKeyID p) (rq_ReservedTokens p) None Reserved (instant (rq_Now p)) None.
Definition new_lease (p : ReserveQuotaParams) : lease_row :=
  Lease (rq_UserID p) (rq_APIKeyID p) (instant (rq_Now p)) (instant (rq_Now p) + rq_LeaseTTL p).
Definition live_leases (now : Z) (m : gmap string lease_row) : gmap string lease_row :=
  filter (fun kv => now < lease_expires_at kv.2) m.
Definition admitted (p : ReserveQuotaParams) (d : quota_db) : quota_db :=
  let now := instant (rq_Now p) in
  let w := truncate now Minute in
  let day := civil_day (rq_Day p) in
  let key := rq_APIKeyID p in
  let user := rq_UserID p in
  let n := rq_ReservedTokens p in
  QuotaDB (quota_locks d ∪ {[ ("global", "global"); ("key", key); ("user", user) ]})
    (bump_counter n now (day, "user", user) (bump_counter n now (day, "key", key) (quota_counters d)))
    (bump_window now (w, "user", user) (bump_window now (w, "key", key) (quota_rate_windows d)))
    (<[rq_RequestID p := new_reservation p]> (quota_reservations d))
    (<[rq_RequestID p := new_lease p]> (live_leases now (concurrency_leases d)))
    (api_key_owners d).

(** The row conditions PostgreSQL checks on the way. *)
Definition rows_fit (p : ReserveQuotaParams) (d : quota_db) : bool :=
  let now := instant (rq_Now p) in
  let w := truncate now Minute in
  let day := civil_day (rq_Day p) in
  let fits k := rate_check (Rate (window_count d k + 1) now) in
  let counter_fits k := counter_check (reserve_counter (rq_ReservedTokens p) now
                          (default (Counter 0 0 0 0 now) (quota_counters d !! k))) in
  fits (w, "key", rq_APIKeyID p) && fits (w, "user", rq_UserID p) &&
  counter_fits (day, "key", rq_APIKeyID p) && counter_fits (day, "user", rq_UserID p).
Definition insert_result (p : ReserveQuotaParams) (d : quota_db) : result store_error unit :=
  let id := rq_RequestID p in
  if negb (request_id_check id && (0 <=? rq_ReservedTokens p) && int64b (rq_ReservedTokens p))
  then Err (ErrInvalid "insert quota reservation") else
  if negb (bool_decide (quota_reservations d !! id = None)) then Err (ErrConflict "insert quota reservation") else
  if negb (bool_decide ((rq_APIKeyID p, rq_UserID p) ∈ api_key_owners d))
  then Err (ErrInvalid "insert quota reservation") else Ok tt.

Lemma filter_locks (key user : string) (s : gset (string * string)) :
  length (filter (fun l => l ∈ [("global", "global"); ("key", key); ("user", user)])
    (elements (s ∪ {[ ("global", "global"); ("key", key); ("user", user) ]}))) = 3%nat.
Proof.
  set (T := s ∪ _). assert (Hp : filter (fun l => l ∈ [("global", "global"); ("key", key); ("user", user)]) (elements T)
    ≡ₚ [("global", "global"); ("key", key); ("user", user)]); [|by rewrite Hp].
  apply NoDup_Permutation.
  - apply NoDup_filter, NoDup_elements.
  - repeat (constructor; [set_solver|]). constructor.
  - intros x. rewrite list_elem_of_filter, elem_of_elements. subst T. set_solver.
Qed.

Lemma lockQuotaScopes_eq user key d :
  lockQuotaScopes user key d =
    Ok (tt, set_locks (quota_locks d ∪ {[ ("global", "global"); ("key", key); ("user", user) ]}) d).
Proof.
  unfold lockQuotaScopes, tbind, tmod, tgets, tguard. cbn [set_locks quota_locks].
  rewrite bool_decide_true by apply filter_locks. done.
Qed.

Lemma count_leases_live p now d : count_leases p now (set_leases (live_leases now (concurrency_leases d)) d) = count_leases p now d.
Proof.
  unfold count_leases, live_leases. cbn [concurrency_leases set_leases]. generalize (concurrency_leases d) as m. intros m.
  induction m as [|i x m Hi IH] using map_ind; [done|].
  rewrite msum_insert by done. destruct (decide (now < lease_expires_at x)).
  - rewrite map_filter_insert_True by done. rewrite msum_insert by (apply map_lookup_filter_None; by left). by rewrite IH.
  - rewrite map_filter_insert_False by done. rewrite delete_id by done. rewrite IH.
    replace (now <? lease_expires_at x) with false by lia. rewrite andb_false_r. done.
Qed.

Lemma enforceQuota_bind {A} scope dim limit cur retry (k : unit -> tx quota_db A) d :
  tbind (enforceQuota scope dim limit cur 1 retry) k d =
    let e := {| Scope := scope; Dimension := dim; Limit := limit; Current := cur; Requested := 1; RetryAfter := retry |} in
    if violated e then Err (ErrQuotaExceeded e) else k tt d.
Proof.
  unfold tbind, enforceQuota, tguard, violated, tret, tfail. cbn [Limit Current Requested].
  by destruct ((limit =? 0) || _).
Qed.

Definition first_violation (checks : list QuotaExceededError) : option QuotaExceededError :=
  head (filter (fun e => violated e = true) checks).

Lemma first_violation_cons e l :
  first_violation (e :: l) = if violated e then Some e else first_violation l.
Proof.
  unfold first_violation. destruct (violated e) eqn:E; [rewrite filter_cons_True by done|rewrite filter_cons_False by congruence]; done.
Qed.

Lemma bump_window_two (w : Z) (key user : string) (now : Z) (m : gmap (Z * string * string) rate_row) :
  let m1 := insert_missing (w, "user", user) (Rate 0 now) (insert_missing (w, "key", key) (Rate 0 now) m) in
  exists a b, m1 !! (w, "key", key) = Some a /\ m1 !! (w, "user", user) = Some b /\
    request_count a = default 0 (request_count <$> m !! (w, "key", key)) /\
    request_count b = default 0 (request_count <$> m !! (w, "user", user)) /\
    <[(w, "user", user) := Rate (request_count b + 1) now]> (<[(w, "key", key) := Rate (request_count a + 1) now]> m1) =
      bump_window now (w, "user", user) (bump_window now (w, "key", key) m).
Proof.
  intros m1. pose proof (keys_ne w key user) as Hne.
  destruct (insert_missing_lookup (w, "key", key) (Rate 0 now) m) as (a & Ha & Ea).
  destruct (insert_missing_lookup (w, "user", user) (Rate 0 now) (insert_missing (w, "key", key) (Rate 0 now) m)) as (b & Hb & Eb).
  exists a, b. rewrite insert_missing_ne in Eb by congruence.
  assert (Ca : request_count a = default 0 (request_count <$> m !! (w, "key", key))) by (rewrite Ea; by destruct (m !! (w, "key", key))).
  assert (Cb : request_count b = default 0 (request_count <$> m !! (w, "user", user))) by (rewrite Eb; by destruct (m !! (w, "user", user))).
  split; [subst m1; by rewrite insert_missing_ne|]. split; [done|]. split; [done|]. split; [done|].
  unfold bump_window. rewrite lookup_insert_ne by done. rewrite Ca, Cb. subst m1. apply map_eq. intros k.
  destruct (decide (k = (w, "user", user))) as [->|H1]; [by rewrite !lookup_insert_eq|]. rewrite !(lookup_insert_ne _ (w, "user", user)) by done.
  destruct (decide (k = (w, "key", key))) as [->|H2]; [by rewrite !lookup_insert_eq|]. rewrite !(lookup_insert_ne _ (w, "key", key)) by done.
  by rewrite !insert_missing_ne.
Qed.

Lemma bump_counter_two (w : Z) (key user : string) (now n : Z) (m : gmap (Z * string * string) counter_row) :
  let fresh := Counter 0 0 0 0 now in
  let m1 := insert_missing (w, "user", user) fresh (insert_missing (w, "key", key) fresh m) in
  exists a b, m1 !! (w, "key", key) = Some a /\ m1 !! (w, "user", user) = Some b /\
    a = default fresh (m !! (w, "key", key)) /\ b = default fresh (m !! (w, "user", user)) /\
    <[(w, "user", user) := reserve_counter n now b]> (<[(w, "key", key) := reserve_counter n now a]> m1) =
      bump_counter n now (w, "user", user) (bump_counter n now (w, "key", key) m).
Proof.
  intros fresh m1. pose proof (keys_ne w key user) as Hne.
  destruct (insert_missing_lookup (w, "key", key) fresh m) as (a & Ha & Ea).
  destruct (insert_missing_lookup (w, "user", user) fresh (insert_missing (w, "key", key) fresh m)) as (b & Hb & Eb).
  exists a, b. rewrite insert_missing_ne in Eb by congruence.
  split; [subst m1; by rewrite insert_missing_ne|]. split; [done|]. split; [done|]. split; [done|].
  unfold bump_counter. rewrite lookup_insert_ne by done. subst fresh. rewrite <- Ea, <- Eb. subst m1. apply map_eq. intros k.
  destruct (decide (k = (w, "user", user))) as [->|H1]; [by rewrite !lookup_insert_eq|]. rewrite !(lookup_insert_ne _ (w, "user", user)) by done.
  destruct (decide (k = (w, "key", key))) as [->|H2]; [by rewrite !lookup_insert_eq|]. rewrite !(lookup_insert_ne _ (w, "key", key)) by done.
  by rewrite !insert_missing_ne.
Qed.


(** The last two inserts of an admission. *)
Lemma inserts_eq p d r l {A} (k : unit -> tx quota_db A) :
  let id := rq_RequestID p in
  r = new_reservation p -> l = new_lease p -> 0 < rq_LeaseTTL p ->
  (quota_reservations d !! id = None -> concurrency_leases d !! id = None) ->
  tbind (insert_reservation id r) (fun _ => tbind (insert_lease id l) k) d =
    match insert_result p d with
    | Err e => Err e
    | Ok _ => k tt (set_leases (<[id := l]> (concurrency_leases d)) (set_reservations (<[id := r]> (quota_reservations d)) d))
    end.
Proof.
  intros id -> -> Httl Hl. unfold insert_reservation, insert_result.
  unfold tbind at 1. rewrite tgets_bind, !tguard_bind.
  replace (reservation_check (new_reservation p)) with (0 <=? rq_ReservedTokens p)
    by (unfold reservation_check; cbn; by rewrite !andb_true_r).
  cbn [new_reservation reserved_tokens api_key_id user_id]. fold id.
  destruct (request_id_check id) eqn:Eid; cbn [andb negb]; [|done].
  destruct ((0 <=? rq_ReservedTokens p) && int64b (rq_ReservedTokens p)); cbn [negb]; [|done].
  destruct (bool_decide (quota_reservations d !! id = None)) eqn:Er; cbn [negb]; [|done].
  apply bool_decide_eq_true in Er. specialize (Hl Er).
  destruct (bool_decide ((rq_APIKeyID p, rq_UserID p) ∈ api_key_owners d)) eqn:Eo; cbn [negb]; [|done].
  unfold tmod at 1. unfold insert_lease, tbind at 1. rewrite tgets_bind, !tguard_bind.
  cbn [set_reservations concurrency_leases api_key_owners new_lease lease_api_key_id lease_user_id].
  rewrite Eid, Eo, Hl. replace (lease_check (new_lease p)) with true by (unfold lease_check; cbn; lia).
  rewrite bool_decide_true by done. done.
Qed.

Lemma update_windows_bind {A} op (w : Z) (key user : string) f (k : unit -> tx quota_db A) d a b :
  quota_rate_windows d !! (w, "key", key) = Some a -> quota_rate_windows d !! (w, "user", user) = Some b ->
  tbind (update_windows op w key user f) k d =
    if rate_check (f a) && rate_check (f b)
    then k tt (set_windows (<[(w, "user", user) := f b]> (<[(w, "key", key) := f a]> (quota_rate_windows d))) d)
    else Err (ErrInvalid op).
Proof.
  intros Ha Hb. unfold update_windows. unfold tbind at 1. rewrite tgets_bind.
  unfold scope_keys. rewrite (update_rows_two_eq _ _ _ _ _ _ a b) by (auto with gateway).
  by destruct (rate_check (f a) && rate_check (f b)).
Qed.

Lemma update_counters_bind {A} op (w : Z) (key user : string) cond f (k : unit -> tx quota_db A) d a b :
  quota_counters d !! (w, "key", key) = Some a -> quota_counters d !! (w, "user", user) = Some b ->
  cond a = true -> cond b = true ->
  tbind (update_counters op w key user cond f) k d =
    if counter_check (f a) && counter_check (f b)
    then k tt (set_counters (<[(w, "user", user) := f b]> (<[(w, "key", key) := f a]> (quota_counters d))) d)
    else Err (ErrInvalid op).
Proof.
  intros Ha Hb Ca Cb. unfold update_counters. unfold tbind at 1. rewrite tgets_bind.
  unfold scope_keys. rewrite (update_rows_two_eq _ _ _ _ _ _ a b) by (auto with gateway).
  by destruct (counter_check (f a) && counter_check (f b)).
Qed.

(** Read through the table setters. *)
Ltac tables :=
  cbn [set_locks set_leases set_windows set_counters set_reservations quota_locks concurrency_leases quota_rate_windows
       quota_counters quota_reservations api_key_owners] in *.

(** The reservation this request gets. *)
Definition reservation_of (p : ReserveQuotaParams) : QuotaReservation :=
  {| qr_RequestID := rq_RequestID p; qr_Day := civil_day (rq_Day p); qr_UserID := rq_UserID p; qr_APIKeyID := rq_APIKeyID p;
     qr_ReservedTokens := rq_ReservedTokens p; qr_ActualTokens := None; qr_State := Reserved;
     qr_CreatedAt := instant (rq_Now p); qr_SettledAt := None;
     qr_LeaseExpiresAt := Some (instant (rq_Now p) + rq_LeaseTTL p) |}.

Definition rows_fit_error (p : ReserveQuotaParams) (d : quota_db) : result store_error unit :=
  let now := instant (rq_Now p) in
  let w := truncate now Minute in
  let fits k := rate_check (Rate (window_count d k + 1) now) in
  if negb (fits (w, "key", rq_APIKeyID p) && fits (w, "user", rq_UserID p))
  then Err (ErrInvalid "increment rate windows")
  else if negb (rows_fit p d) then Err (ErrInvalid "reserve daily quota") else Ok tt.

(** [reserveQuotaTx] decides as the list of checks says, then as the row
    constraints say, and otherwise writes the admitted tables. *)
Lemma reserveQuotaTx_eq p d :
  0 < rq_LeaseTTL p -> (quota_reservations d !! rq_RequestID p = None -> concurrency_leases d !! rq_RequestID p = None) ->
  reserveQuotaTx p d =
    match first_violation (admission_checks p d) with
    | Some e => Err (ErrQuotaExceeded e)
    | None =>
        match rows_fit_error p d with
        | Err e => Err e
        | Ok _ => match insert_result p d with Err e => Err e | Ok _ => Ok (reservation_of p, admitted p d) end
        end
    end.
Proof.
  intros Httl Hl. unfold reserveQuotaTx. unfold tbind at 1. rewrite lockQuotaScopes_eq.
  unfold reserveQuotaLockedTx, admission_checks. set (d0 := set_locks _ d).
  set (now := instant (rq_Now p)). set (w := truncate now Minute). set (day := civil_day (rq_Day p)).
  rewrite tmod_bind. fold (live_leases now (concurrency_leases d0)). rewrite !tgets_bind, !count_leases_live.
  rewrite !enforceQuota_bind. rewrite !first_violation_cons.
  change (count_leases ?q now d0) with (count_leases q now d). cbv zeta.
  do 3 (destruct (violated _); [done|]).
  rewrite tmod_bind. tables. unfold readRateCounts. 
  destruct (bump_window_two w (rq_APIKeyID p) (rq_UserID p) now (quota_rate_windows d)) as (a & b & Ha & Hb & Ca & Cb & Ew).
  unfold tbind at 1. rewrite tgets_bind. tables. change (quota_rate_windows d0) with (quota_rate_windows d).
  rewrite Ha, Hb. unfold tret at 1. rewrite !enforceQuota_bind. cbv zeta. rewrite Ca, Cb.
  unfold window_count at 1 2. do 2 (destruct (violated _); [done|]).
  rewrite tmod_bind. tables. change (quota_counters d0) with (quota_counters d).
  destruct (bump_counter_two day (rq_APIKeyID p) (rq_UserID p) now (rq_ReservedTokens p) (quota_counters d))
    as (c & e & Hc & He & Cc & Ce & Ec).
  unfold readQuotaSnapshots. unfold tbind at 1. rewrite tgets_bind. tables. rewrite Hc, He.
  unfold tret at 1. rewrite !enforceQuota_bind. cbv zeta.
  assert (Dc : daily_count d (day, "key", rq_APIKeyID p) = requests_reserved c).
  { unfold daily_count. rewrite Cc. by destruct (quota_counters d !! (day, "key", rq_APIKeyID p)). }
  assert (De : daily_count d (day, "user", rq_UserID p) = requests_reserved e).
  { unfold daily_count. rewrite Ce. by destruct (quota_counters d !! (day, "user", rq_UserID p)). }
  rewrite Dc, De. do 2 (destruct (violated _); [done|]). change (first_violation []) with (@None QuotaExceededError).
  rewrite (update_windows_bind _ _ _ _ _ _ _ a b) by done. rewrite Ca, Cb.
  unfold rows_fit_error, rows_fit. fold now w day. unfold window_count.
  destruct (rate_check _ && rate_check _); cbn [negb andb]; [|done].
  tables.
  rewrite (update_counters_bind _ _ _ _ _ _ _ _ c e) by done.
  fold (reserve_counter (rq_ReservedTokens p) now c) (reserve_counter (rq_ReservedTokens p) now e). rewrite <- Cc, <- Ce.
  destruct (counter_check _ && counter_check _); cbn [negb]; [|done].
  tables.
  rewrite Ca, Cb in Ew. fold (reserve_counter (rq_ReservedTokens p) now c) (reserve_counter (rq_ReservedTokens p) now e).
  rewrite Ew, Ec. rewrite (inserts_eq p) by (done || (tables; intros H%Hl; apply map_lookup_filter_None; by left)).
  unfold insert_result. tables. repeat (case_match; [done|]). done.
Qed.

(** ** Preservation of the invariant *)

Lemma lookup_bump_counter (n now : Z) (k1 k2 k : Z * string * string) (m : gmap (Z * string * string) counter_row) :
  k1 <> k2 ->
  bump_counter n now k2 (bump_counter n now k1 m) !! k =
    if bool_decide (k = k1) || bool_decide (k = k2)
    then Some (reserve_counter n now (default (Counter 0 0 0 0 now) (m !! k))) else m !! k.
Proof.
  intros Hne. unfold bump_counter. rewrite (lookup_insert_ne m k1 k2) by done.
  destruct (decide (k = k2)) as [->|H2].
  - rewrite lookup_insert_eq, (bool_decide_false (k2 = k1)), bool_decide_true by congruence. done.
  - rewrite lookup_insert_ne by done. rewrite (bool_decide_false (k = k2)) by done. rewrite orb_false_r.
    destruct (decide (k = k1)) as [->|H1].
    + by rewrite lookup_insert_eq, bool_decide_true.
    + by rewrite lookup_insert_ne, bool_decide_false.
Qed.

Lemma rows_fit_Ok p d : rows_fit_error p d = Ok tt -> rows_fit p d = true.
Proof. unfold rows_fit_error. case_match; [done|]. by destruct (rows_fit p d). Qed.

Lemma insert_result_Ok p d :
  insert_result p d = Ok tt ->
  request_id_check (rq_RequestID p) = true /\ 0 <= rq_ReservedTokens p /\ quota_reservations d !! rq_RequestID p = None /\
  (rq_APIKeyID p, rq_UserID p) ∈ api_key_owners d.
Proof.
  unfold insert_result. intros H. repeat (case_match; [done|]). breflect. split_and!; auto.
Qed.

Lemma admitted_inv p d :
  quota_inv d -> 0 < rq_LeaseTTL p -> rows_fit p d = true -> insert_result p d = Ok tt -> quota_inv (admitted p d).
Proof.
  intros Hd Httl Hfit (_ & Htok & Hnew & _)%insert_result_Ok.
  set (now := instant (rq_Now p)). set (day := civil_day (rq_Day p)). set (r := new_reservation p).
  assert (Hscope : forall k, (bool_decide (k = (day, "key", rq_APIKeyID p)) || bool_decide (k = (day, "user", rq_UserID p)))
    = in_scope k r) by done.
  assert (Hlk : forall k, quota_counters (admitted p d) !! k =
    if in_scope k r then Some (reserve_counter (rq_ReservedTokens p) now (default (Counter 0 0 0 0 now) (quota_counters d !! k)))
    else quota_counters d !! k).
  { intros k. unfold admitted. tables. rewrite lookup_bump_counter by (auto with gateway). by rewrite <- Hscope. }
  split.
  - intros id x. unfold admitted. tables. intros [[<- <-]|[_ H]]%lookup_insert_Some; [|by eapply inv_reservation].
    unfold reservation_check, new_reservation. cbn. lia.
  - eapply (counters_follow (quota_counters d) _ (quota_reservations d) _ r
      (reserve_counter (rq_ReservedTokens p) now) (rq_ReservedTokens p) 1).
    + intros k Hk. rewrite Hlk, Hk. eexists. split; [done|].
      destruct (counter_or_fresh d k now Hd) as (_ & H1 & H2). split; [|done].
      unfold rows_fit in Hfit. fold now day in Hfit. breflect. by apply in_scope_cases in Hk as [-> | ->].
    + intros k Hk. by rewrite Hlk, Hk.
    + intros c. cbn. lia.
    + intros k. unfold admitted. tables. rewrite tally_insert by done. done.
    + intros k. unfold admitted. tables. rewrite tally_insert by done. done.
    + apply (inv_counter d Hd).
  - intros k x. unfold admitted, bump_window, rows_fit in *. tables. fold now day in Hfit |- *. breflect.
    intros [[<- <-]|[Hk [[<- <-]|[_ H']]%lookup_insert_Some]]%lookup_insert_Some; [| |by eapply inv_rate].
    + by rewrite lookup_insert_ne by (auto with gateway).
    + done.
  - intros id x Hx Hs k Hk. rewrite Hlk. destruct (in_scope k r) eqn:E; [eauto|].
    unfold admitted in Hx. tables. apply lookup_insert_Some in Hx as [[_ <-]|[_ Hx]]; [fold r in Hk; congruence|].
    by eapply inv_open.
  - intros id l. unfold admitted, live_leases. tables.
    intros [[<- <-]|[Hid [Hl _]%map_lookup_filter_Some]]%lookup_insert_Some.
    + split; [unfold lease_check; cbn; lia|]. exists r. by rewrite lookup_insert_eq.
    + apply (inv_lease d Hd) in Hl as (Hc & x & Hx & ?). split; [done|]. exists x. by rewrite lookup_insert_ne.
Qed.

Lemma lease_free d id : quota_inv d -> quota_reservations d !! id = None -> concurrency_leases d !! id = None.
Proof.
  intros Hd Hr. destruct (concurrency_leases d !! id) eqn:E; [|done].
  apply (inv_lease d Hd) in E as (_ & r & H & _). congruence.
Qed.

Lemma reserve_Ok p d r d' :
  quota_inv d -> 0 < rq_LeaseTTL p -> reserveQuotaTx p d = Ok (r, d') ->
  first_violation (admission_checks p d) = None /\ rows_fit p d = true /\ insert_result p d = Ok tt /\
  r = reservation_of p /\ d' = admitted p d.
Proof.
  intros Hd Httl H. rewrite reserveQuotaTx_eq in H by (done || by apply lease_free).
  destruct (first_violation _); [done|]. destruct (rows_fit_error p d) as [[]|] eqn:Ef; [|done].
  destruct (insert_result p d) as [[]|] eqn:Ei; [|done]. apply rows_fit_Ok in Ef. by injection H as <- <-.
Qed.

Lemma normalize_Ok clock p q :
  normalizeReserveQuota clock p = Ok q ->
  0 < rq_LeaseTTL q <= 30 * Minute /\ 0 <= rq_ReservedTokens q /\ rq_RequestID q = rq_RequestID p /\
  rq_UserID q = rq_UserID p /\ rq_APIKeyID q = rq_APIKeyID p /\ rq_Limits q = rq_Limits p /\
  validateQuotaLimits (rq_Limits q) = Ok tt.
Proof.
  unfold normalizeReserveQuota. destruct (_ || _) eqn:E1; [done|]. destruct (30 * Minute <? _) eqn:E2; [done|].
  intros H. inv_bind H. destruct a. injection H as <-. cbn. breflect.
  destruct (rq_LeaseTTL p <=? 0) eqn:E3; split_and!; auto; unfold Minute, Second in *; lia.
Qed.

(** The tables after a settlement or a release of the open reservation [r]. *)
Definition closed (id : string) (r : reservation_row) (f : counter_row -> counter_row) (r' : reservation_row)
  (a b : counter_row) (d : quota_db) : quota_db :=
  QuotaDB (quota_locks d ∪ {[ ("global", "global"); ("key", api_key_id r); ("user", user_id r) ]})
    (<[(quota_day r, "user", user_id r) := f b]> (<[(quota_day r, "key", api_key_id r) := f a]> (quota_counters d)))
    (quota_rate_windows d) (<[id := r']> (quota_reservations d)) (delete id (concurrency_leases d)) (api_key_owners d).

Lemma open_counters d id r :
  quota_inv d -> quota_reservations d !! id = Some r -> state r = Reserved ->
  exists a b, quota_counters d !! (quota_day r, "key", api_key_id r) = Some a /\
    quota_counters d !! (quota_day r, "user", user_id r) = Some b /\
    (forall c, c = a \/ c = b -> counter_check c = true /\ reserved_tokens r <= tokens_reserved c /\
       requests_completed c + 1 <= requests_reserved c).
Proof.
  intros Hd Hr Hs.
  destruct (inv_open d Hd id r Hr Hs (quota_day r, "key", api_key_id r)) as [a Ha]; [apply in_scope_cases; by left|].
  destruct (inv_open d Hd id r Hr Hs (quota_day r, "user", user_id r)) as [b Hb]; [apply in_scope_cases; by right|].
  assert (Hall : forall k c, in_scope k r = true -> quota_counters d !! k = Some c ->
    counter_check c = true /\ reserved_tokens r <= tokens_reserved c /\ requests_completed c + 1 <= requests_reserved c).
  { intros k c Hk Hc. destruct (inv_counter d Hd k c Hc) as (Hck & Ht & Hn). split; [done|].
    pose proof (tally_ge open_tokens k _ id r (fun id r => open_tokens_nonneg d id r Hd) Hr Hk) as H1.
    pose proof (tally_ge open_one k _ id r (fun _ r _ => proj1 (b2z_range _)) Hr Hk) as H2.
    assert (E1 : open_tokens r = reserved_tokens r) by (unfold open_tokens; by rewrite Hs).
    assert (E2 : open_one r = 1) by (unfold open_one; by rewrite Hs). lia. }
  exists a, b. split; [done|]. split; [done|]. intros c [-> | ->]; eapply Hall; eauto; apply in_scope_cases; auto.
Qed.

(** Closing an open reservation keeps the invariant when the counters drop its
    tokens and one of the requests in flight. *)
Lemma closed_inv d id r r' f a b :
  quota_inv d -> quota_reservations d !! id = Some r -> state r = Reserved ->
  quota_counters d !! (quota_day r, "key", api_key_id r) = Some a ->
  quota_counters d !! (quota_day r, "user", user_id r) = Some b ->
  counter_check (f a) = true -> counter_check (f b) = true ->
  (forall c, tokens_reserved (f c) = tokens_reserved c + - reserved_tokens r /\
     requests_reserved (f c) - requests_completed (f c) = requests_reserved c - requests_completed c + -1) ->
  (forall k, in_scope k r' = in_scope k r) -> state r' <> Reserved -> reservation_check r' = true ->
  quota_inv (closed id r f r' a b d).
Proof.
  intros Hd Hr Hs Ha Hb Fa Fb Hf Hsc Hs' Hc'. unfold closed. split; tables.
  - intros i x [[<- <-]|[_ H]]%lookup_insert_Some; [done|]. by eapply inv_reservation.
  - eapply (counters_follow (quota_counters d) _ (quota_reservations d) _ r f (- reserved_tokens r) (-1)).
    + intros k Hk. apply in_scope_cases in Hk as Hk'. destruct Hk' as [-> | ->].
      * exists a. rewrite lookup_insert_ne, lookup_insert_eq by (auto with gateway). split; [done|]. split; [done|].
        by apply (inv_counter d Hd).
      * exists b. rewrite lookup_insert_eq. split; [done|]. split; [done|]. by apply (inv_counter d Hd).
    + intros k Hk. rewrite !lookup_insert_ne; [done|..]; intros <-; rewrite (proj2 (in_scope_cases _ r)) in Hk; auto; done.
    + done.
    + intros k. rewrite (tally_update _ _ _ _ r) by done. unfold open_tokens. rewrite (bool_decide_false (state r' = _)) by done.
      rewrite bool_decide_true by done. destruct (in_scope k r); lia.
    + intros k. rewrite (tally_update _ _ _ _ r) by done. unfold open_one. rewrite (bool_decide_false (state r' = _)) by done.
      rewrite bool_decide_true by done. cbn. destruct (in_scope k r); lia.
    + apply (inv_counter d Hd).
  - apply (inv_rate d Hd).
  - intros i x Hx Hsx k Hk. apply lookup_insert_Some in Hx as [[_ <-]|[_ Hx]]; [done|].
    pose proof (inv_open d Hd i x Hx Hsx k Hk) as [c Hc].
    destruct (decide (k = (quota_day r, "user", user_id r))) as [->|H1]; [rewrite lookup_insert_eq; eauto|].
    rewrite lookup_insert_ne by done.
    destruct (decide (k = (quota_day r, "key", api_key_id r))) as [->|H2]; [rewrite lookup_insert_eq; eauto|].
    rewrite lookup_insert_ne by done. eauto.
  - intros i l [Hi Hl]%lookup_delete_Some. apply (inv_lease d Hd) in Hl as (Hlc & x & Hx & ?). split; [done|].
    exists x. by rewrite lookup_insert_ne.
Qed.

(** ** Settlement and release of a reservation *)

Definition settle_counter (r : reservation_row) (actual at_ : Z) (c : counter_row) : counter_row :=
  Counter (requests_reserved c) (requests_completed c + 1) (tokens_reserved c - reserved_tokens r) (tokens_used c + actual) at_.
Definition settled_row (actual at_ : Z) (r : reservation_row) : reservation_row :=
  Reservation (quota_day r) (user_id r) (api_key_id r) (reserved_tokens r) (Some actual) Settled (created_at r) (Some at_).
Definition release_counter (r : reservation_row) (at_ : Z) (c : counter_row) : counter_row :=
  Counter (requests_reserved c - 1) (requests_completed c) (tokens_reserved c - reserved_tokens r) (tokens_used c) at_.
Definition released_row (at_ : Z) (r : reservation_row) : reservation_row :=
  Reservation (quota_day r) (user_id r) (api_key_id r) (reserved_tokens r) (actual_tokens r) Released (created_at r) (Some at_).

Definition with_locks (r : reservation_row) (d : quota_db) : quota_db :=
  set_locks (quota_locks d ∪ {[ ("global", "global"); ("key", api_key_id r); ("user", user_id r) ]}) d.

Lemma lock_reservation_bind {A} id (k : unit -> tx quota_db A) d :
  tbind (lock_reservation id) k d =
    match quota_reservations d !! id with
    | None => Err (ErrNotFound "read quota reservation")
    | Some r => k tt (with_locks r d)
    end.
Proof.
  unfold lock_reservation, readReservation, with_locks. unfold tbind, tgets. destruct (quota_reservations d !! id); [|done].
  cbn [tsome tret qr_UserID qr_APIKeyID]. by rewrite lockQuotaScopes_eq.
Qed.

Lemma update_reservation_bind {A} op id f (k : unit -> tx quota_db A) d r :
  quota_reservations d !! id = Some r ->
  tbind (update_reservation op id f) k d =
    if reservation_check (f r) then k tt (set_reservations (<[id := f r]> (quota_reservations d)) d) else Err (ErrInvalid op).
Proof.
  intros Hr. unfold update_reservation. unfold tbind at 1. rewrite tgets_bind. cbn [update_rows]. rewrite Hr.
  by destruct (reservation_check (f r)).
Qed.

(** The row a settlement or release works on. *)
Lemma reserved_row d id r :
  quota_inv d -> quota_reservations d !! id = Some r -> state r = Reserved ->
  actual_tokens r = None /\ settled_at r = None /\ 0 <= reserved_tokens r.
Proof.
  intros Hd Hr Hs. pose proof (inv_reservation d Hd id r Hr) as H. unfold reservation_check, state_consistent in H.
  rewrite Hs in H. destruct (actual_tokens r), (settled_at r); breflect; try done; lia.
Qed.

Lemma settle_eq d id r actual at_ :
  quota_inv d -> quota_reservations d !! id = Some r -> state r = Reserved -> 0 <= actual ->
  exists a b, quota_counters d !! (quota_day r, "key", api_key_id r) = Some a /\
    quota_counters d !! (quota_day r, "user", user_id r) = Some b /\
    (lock_reservation id ;; settleQuotaTx id actual at_) d =
      if counter_check (settle_counter r actual at_ a) && counter_check (settle_counter r actual at_ b)
      then Ok (tt, closed id r (settle_counter r actual at_) (settled_row actual at_ r) a b d)
      else Err (ErrInvalid "settle quota counters").
Proof.
  intros Hd Hr Hs Hact. destruct (open_counters d id r Hd Hr Hs) as (a & b & Ha & Hb & Hab). exists a, b.
  split; [done|]. split; [done|]. rewrite lock_reservation_bind, Hr.
  unfold settleQuotaTx, readReservation. unfold tbind at 1. rewrite tgets_bind. unfold with_locks. tables. rewrite Hr.
  cbn [tsome]. unfold tret at 1. unfold tbind at 1. unfold tret at 1. cbn [qr_State]. rewrite Hs.
  cbn [qr_Day qr_APIKeyID qr_UserID qr_ReservedTokens].
  rewrite (update_counters_bind _ _ _ _ _ _ _ _ a b) by (done || apply Z.leb_le; apply Hab; auto).
  fold (settle_counter r actual at_ a) (settle_counter r actual at_ b).
  destruct (counter_check _ && counter_check _); [|done].
  rewrite (update_reservation_bind _ _ _ _ _ r) by done. tables.
  destruct (reserved_row d id r Hd Hr Hs) as (_ & _ & Htok).
  replace (reservation_check _) with true by (unfold reservation_check; cbn; lia). done.
Qed.

Lemma release_eq d id r at_ :
  quota_inv d -> quota_reservations d !! id = Some r -> state r = Reserved ->
  exists a b, quota_counters d !! (quota_day r, "key", api_key_id r) = Some a /\
    quota_counters d !! (quota_day r, "user", user_id r) = Some b /\
    counter_check (release_counter r at_ a) = true /\ counter_check (release_counter r at_ b) = true /\
    (lock_reservation id ;; releaseQuotaTx id at_) d =
      Ok (tt, closed id r (release_counter r at_) (released_row at_ r) a b d).
Proof.
  intros Hd Hr Hs. destruct (open_counters d id r Hd Hr Hs) as (a & b & Ha & Hb & Hab). exists a, b.
  destruct (reserved_row d id r Hd Hr Hs) as (Hact & _ & Htok).
  assert (Hck : forall c, c = a \/ c = b -> counter_check (release_counter r at_ c) = true).
  { intros c Hc. destruct (Hab c Hc) as (H1 & H2 & H3). unfold counter_check, int64b in *. cbn.
    unfold min_int64, max_int64 in *. lia. }
  split; [done|]. split; [done|]. split; [by auto|]. split; [by auto|]. rewrite lock_reservation_bind, Hr.
  unfold releaseQuotaTx, readReservation. unfold tbind at 1. rewrite tgets_bind. unfold with_locks. tables. rewrite Hr.
  cbn [tsome]. unfold tret at 1. unfold tbind at 1. unfold tret at 1. cbn [qr_State]. rewrite Hs.
  cbn [qr_Day qr_APIKeyID qr_UserID qr_ReservedTokens].
  assert (Hcond : forall c, c = a \/ c = b -> (0 <? requests_reserved c) && (reserved_tokens r <=? tokens_reserved c) = true).
  { intros c Hc. destruct (Hab c Hc) as (H1 & H2 & H3). unfold counter_check in H1. lia. }
  rewrite (update_counters_bind _ _ _ _ _ _ _ _ a b) by auto.
  fold (release_counter r at_ a) (release_counter r at_ b). rewrite !Hck by auto. cbn [andb].
  rewrite (update_reservation_bind _ _ _ _ _ r) by done. tables.
  replace (reservation_check _) with true by (unfold reservation_check, state_consistent; cbn; rewrite Hact; lia). done.
Qed.

Lemma settled_scope actual at_ r k : in_scope k (settled_row actual at_ r) = in_scope k r.
Proof. done. Qed.

(** Locking alone changes nothing the invariant speaks of. *)
Lemma with_locks_inv r d : quota_inv d -> quota_inv (with_locks r d).
Proof. intros [H1 H2 H3 H4 H5]. by split. Qed.

Lemma settle_inv d id actual at_ u d' :
  quota_inv d -> 0 <= actual -> (lock_reservation id ;; settleQuotaTx id actual at_) d = Ok (u, d') -> quota_inv d'.
Proof.
  intros Hd Hact H. destruct (quota_reservations d !! id) as [r|] eqn:Hr; [|by rewrite lock_reservation_bind, Hr in H].
  destruct (state r) eqn:Hs.
  - destruct (settle_eq d id r actual at_ Hd Hr Hs Hact) as (a & b & Ha & Hb & E). rewrite E in H.
    destruct (_ && _) eqn:Ec; [|done]. apply andb_true_iff in Ec as [Ca Cb]. injection H as _ <-.
    destruct (reserved_row d id r Hd Hr Hs) as (_ & _ & Htok).
    apply closed_inv; try done; [intros c; cbn; lia|]. unfold reservation_check. cbn. lia.
  - rewrite lock_reservation_bind, Hr in H. unfold settleQuotaTx, readReservation, tbind, tgets, with_locks in H. tables.
    rewrite Hr in H. cbn in H. rewrite Hs in H. case_match; [|done]. injection H as _ <-. by apply with_locks_inv.
  - rewrite lock_reservation_bind, Hr in H. unfold settleQuotaTx, readReservation, tbind, tgets, with_locks in H. tables.
    rewrite Hr in H. cbn in H. by rewrite Hs in H.
Qed.

Lemma release_inv d id at_ u d' :
  quota_inv d -> (lock_reservation id ;; releaseQuotaTx id at_) d = Ok (u, d') -> quota_inv d'.
Proof.
  intros Hd H. destruct (quota_reservations d !! id) as [r|] eqn:Hr; [|by rewrite lock_reservation_bind, Hr in H].
  destruct (state r) eqn:Hs.
  - destruct (release_eq d id r at_ Hd Hr Hs) as (a & b & Ha & Hb & Ca & Cb & E). rewrite E in H. injection H as _ <-.
    destruct (reserved_row d id r Hd Hr Hs) as (Hact & _ & Htok).
    apply closed_inv; try done; [intros c; cbn; lia|]. unfold reservation_check, state_consistent. cbn. rewrite Hact. lia.
  - rewrite lock_reservation_bind, Hr in H. unfold releaseQuotaTx, readReservation, tbind, tgets, with_locks in H. tables.
    rewrite Hr in H. cbn in H. by rewrite Hs in H.
  - rewrite lock_reservation_bind, Hr in H. unfold releaseQuotaTx, readReservation, tbind, tgets, with_locks in H. tables.
    rewrite Hr in H. cbn in H. rewrite Hs in H. injection H as _ <-. by apply with_locks_inv.
Qed.

(** ** Runs of the quota store *)

(** One operation, whatever its arguments and whether or not it succeeds.
    Retention runs when no reservation older than its cutoff day is still open:
    stale release repairs those within the hour, retention cuts at 92 days. *)
Inductive quota_step : quota_db -> quota_db -> Prop :=
| step_reserve clock p d : quota_step d (ReserveQuota clock p d).2
| step_settle clock id actual at_ d : quota_step d (SettleQuota clock id actual at_ d).2
| step_release clock id at_ d : quota_step d (ReleaseQuota clock id at_ d).2
| step_renew clock id at_ ttl d : quota_step d (RenewQuotaLease clock id at_ ttl d).2
| step_retention billing_reserved before d :
    (forall id r, quota_reservations d !! id = Some r -> state r = Reserved -> civil_day before <= quota_day r) ->
    quota_step d (DeleteQuotaStateBefore billing_reserved before d).

(** Tables reached from empty ones. *)
Inductive quota_reachable : quota_db -> Prop :=
| reach_empty owners locks : quota_reachable (QuotaDB locks ∅ ∅ ∅ ∅ owners)
| reach_step d d' : quota_reachable d -> quota_step d d' -> quota_reachable d'.

Lemma renew_inv clock id at_ ttl d : quota_inv d -> quota_inv (RenewQuotaLease clock id at_ ttl d).2.
Proof.
  intros Hd. unfold RenewQuotaLease. destruct (_ || _); [done|]. apply withTx_preserves; [|done]. intros [] d' H.
  rewrite !tgets_bind in H. destruct (concurrency_leases d !! id) as [l|] eqn:El; [|done].
  destruct (quota_reservations d !! id) as [r|] eqn:Er; [|done]. destruct (_ && _); [|done].
  rewrite tguard_bind in H. destruct (lease_check _) eqn:Ec; [|done]. injection H as <-.
  destruct Hd as [H1 H2 H3 H4 H5]. split; try done. intros i x. tables.
  intros [[<- <-]|[_ H]]%lookup_insert_Some; [|by apply H5]. split; [done|]. by apply H5 in El as (_ & ?).
Qed.

Lemma retention_inv billing_reserved before d :
  (forall id r, quota_reservations d !! id = Some r -> state r = Reserved -> civil_day before <= quota_day r) ->
  quota_inv d -> quota_inv (DeleteQuotaStateBefore billing_reserved before d).
Proof.
  intros Hopen Hd. unfold DeleteQuotaStateBefore. tables. set (old := expired_reservation billing_reserved before).
  assert (Hkeep : forall id r, quota_reservations d !! id = Some r -> state r = Reserved ->
    filter (fun kv => old kv = false) (quota_reservations d) !! id = Some r).
  { intros id r Hr Hs. apply map_lookup_filter_Some. split; [done|]. unfold old, expired_reservation. cbn. by rewrite Hs. }
  assert (Htally : forall g k, (forall r, state r <> Reserved -> g r = 0) ->
    tally g k (filter (fun kv => old kv = false) (quota_reservations d)) = tally g k (quota_reservations d)).
  { intros g k Hg. clear Hopen Hkeep. unfold tally. generalize (quota_reservations d) as m. intros m.
    induction m as [|i x m Hi IH] using map_ind; [done|]. rewrite msum_insert by done.
    destruct (old (i, x)) eqn:E.
    - rewrite map_filter_insert_False by congruence. rewrite delete_id by done. rewrite IH, (Hg x); [by destruct (in_scope k x)|].
      unfold old, expired_reservation in E. cbn in E. breflect. done.
    - rewrite map_filter_insert_True by done. rewrite msum_insert by (apply map_lookup_filter_None; by left). by rewrite IH. }
  destruct Hd as [H1 H2 H3 H4 H5]. split; tables.
  - intros id r [H _]%map_lookup_filter_Some. by eapply H1.
  - intros k c [Hc _]%map_lookup_filter_Some. rewrite !Htally; [by apply H2|..];
      intros r Hr; unfold open_tokens, open_one; by rewrite bool_decide_false.
  - intros k w [H _]%map_lookup_filter_Some. by eapply H3.
  - intros id r [Hr _]%map_lookup_filter_Some Hs k Hk. destruct (H4 id r Hr Hs k Hk) as [c Hc]. exists c.
    apply map_lookup_filter_Some. split; [done|]. cbn. apply in_scope_cases in Hk as [-> | ->]; cbn; eauto.
  - intros id l Hl. apply H5 in Hl as (Hc & r & Hr & Hs & ?). split; [done|]. exists r. split; [by apply Hkeep|]. done.
Qed.

Lemma quota_step_inv d d' : quota_step d d' -> quota_inv d -> quota_inv d'.
Proof.
  intros Hstep Hd. destruct Hstep.
  - unfold ReserveQuota. destruct (normalizeReserveQuota clock p) as [q|] eqn:E; [|done]. apply normalize_Ok in E as (Httl & _).
    apply withTx_preserves; [|done]. intros r d' (_ & Hf & Hi & _ & ->)%reserve_Ok; [|done|lia]. apply admitted_inv; auto. lia.
  - unfold SettleQuota. destruct (_ || _) eqn:E; [done|]. breflect. apply withTx_preserves; [|done].
    intros u d' H'. eapply settle_inv; [done| |exact H']. lia.
  - unfold ReleaseQuota. destruct (bool_decide _); [done|]. apply withTx_preserves; [|done].
    intros u d' H'. by eapply release_inv.
  - by apply renew_inv.
  - by apply retention_inv.
Qed.

Lemma quota_reachable_inv d : quota_reachable d -> quota_inv d.
Proof. induction 1; [apply empty_quota_inv|]. by eapply quota_step_inv. Qed.

(** ** Properties *)

(** Tables with one open reservation of 100 tokens, for the witnesses. *)
Definition demo_limits : QuotaLimits :=
  {| KeyRequestsPerMinute := 2; UserRequestsPerMinute := 0; KeyConcurrent := 2; UserConcurrent := 3; GlobalConcurrent := 10;
     KeyDailyRequests := 5; UserDailyRequests := 0 |}.
Definition demo_params (id : string) : ReserveQuotaParams :=
  {| rq_RequestID := id; rq_UserID := "u1"; rq_APIKeyID := "k1"; rq_Day := Zoned 0 0; rq_Now := Zoned (100 * Day24 + 5 * Second) 0;
     rq_ReservedTokens := 100; rq_LeaseTTL := 0; rq_Limits := demo_limits |}.
Definition demo_empty : quota_db := QuotaDB ∅ ∅ ∅ ∅ ∅ {[ ("k1", "u1") ]}.
Definition demo_id : string := "request-00000001".
Definition demo_db : quota_db := (ReserveQuota 1 (demo_params demo_id) demo_empty).2.

Lemma demo_reachable : quota_reachable demo_db.
Proof. eapply reach_step; [apply (reach_empty {[ ("k1", "u1") ]} ∅)|]. apply step_reserve. Qed.

(** [C10] In every reachable state the daily counters agree with the reservation
    table: the reserved tokens of a counter are those of the open reservations
    of its day and scope, and its reserved requests are the completed ones plus
    the open ones.  Every row satisfies its CHECK constraints, an open
    reservation has both counter rows, and every lease belongs to an open
    reservation of the same user and key. *)
Theorem quota_tables_consistent d :
  quota_reachable d ->
  (forall k c, quota_counters d !! k = Some c ->
     counter_check c = true /\ tokens_reserved c = tally open_tokens k (quota_reservations d) /\
     requests_reserved c = requests_completed c + tally open_one k (quota_reservations d)) /\
  (forall id r, quota_reservations d !! id = Some r -> state r = Reserved ->
     forall k, in_scope k r = true -> is_Some (quota_counters d !! k)) /\
  (forall id l, concurrency_leases d !! id = Some l ->
     exists r, quota_reservations d !! id = Some r /\ state r = Reserved /\ user_id r = lease_user_id l /\
       api_key_id r = lease_api_key_id l).
Proof.
  intros Hd%quota_reachable_inv. split; [apply Hd|]. split; [apply Hd|].
  intros id l Hl. by apply (inv_lease d Hd) in Hl as (_ & ?).
Qed.

Lemma quota_tables_consistent_witness :
  exists c, quota_counters demo_db !! (100, "key", "k1") = Some c /\ tokens_reserved c = 100 /\
    tokens_reserved c = tally open_tokens (100, "key", "k1") (quota_reservations demo_db).
Proof.
  eexists. split; [by vm_compute|]. split; [done|].
  apply (proj1 (quota_tables_consistent demo_db demo_reachable) (100, "key", "k1")). by vm_compute.
Defined.

Lemma not_violated e : violated e = false -> Limit e <> 0 -> is_int64 (Current e + Requested e) -> Current e + Requested e <= Limit e.
Proof. unfold violated. intros H Hl Hi. breflect. rewrite wrap64_id in H by done. lia. Qed.

Lemma first_violation_none l : first_violation l = None -> Forall (fun e => violated e = false) l.
Proof.
  induction l as [|e l IH]; [constructor|]. rewrite first_violation_cons. destruct (violated e) eqn:E; [done|].
  intros H. constructor; auto.
Qed.

Lemma count_leases_bound p now d : 0 <= count_leases p now d <= Z.of_nat (size (concurrency_leases d)).
Proof.
  unfold count_leases. generalize (concurrency_leases d) as m. intros m.
  induction m as [|i x m Hi IH] using map_ind; [by rewrite msum_empty, map_size_empty|].
  rewrite msum_insert, map_size_insert_None by done. pose proof (b2z_range (p x && (now <? lease_expires_at x))). lia.
Qed.

Lemma count_leases_admitted q p d :
  quota_reservations d !! rq_RequestID p = None -> quota_inv d -> 0 < rq_LeaseTTL p ->
  count_leases q (instant (rq_Now p)) (admitted p d) = count_leases q (instant (rq_Now p)) d + b2z (q (new_lease p)).
Proof.
  intros Hr Hd Httl. unfold count_leases at 1, admitted. tables. rewrite msum_insert.
  - rewrite <- (count_leases_live q (instant (rq_Now p)) d). unfold count_leases at 1. tables.
    replace (instant (rq_Now p) <? lease_expires_at (new_lease p)) with true by (cbn; lia). rewrite andb_true_r. lia.
  - unfold live_leases. apply map_lookup_filter_None. left. by apply lease_free.
Qed.

Lemma window_count_admitted p d k :
  k = (truncate (instant (rq_Now p)) Minute, "key", rq_APIKeyID p) \/
  k = (truncate (instant (rq_Now p)) Minute, "user", rq_UserID p) ->
  window_count (admitted p d) k = window_count d k + 1.
Proof.
  intros Hk. unfold window_count, admitted, bump_window. tables. destruct Hk as [-> | ->].
  - rewrite lookup_insert_ne, lookup_insert_eq by (auto with gateway). done.
  - rewrite lookup_insert_eq. cbn. by rewrite lookup_insert_ne by (auto with gateway).
Qed.

Lemma daily_count_admitted p d k :
  k = (civil_day (rq_Day p), "key", rq_APIKeyID p) \/ k = (civil_day (rq_Day p), "user", rq_UserID p) ->
  daily_count (admitted p d) k = daily_count d k + 1.
Proof.
  intros Hk. unfold daily_count, admitted. tables. rewrite lookup_bump_counter by (auto with gateway).
  rewrite (proj2 (orb_true_iff _ _)) by (rewrite !bool_decide_eq_true; done). cbn. by destruct (quota_counters d !! k).
Qed.

(** The counts the limits are about, read after the request was admitted. *)
Definition within (limit count : Z) : Prop := limit <> 0 -> count <= limit.
Definition limits_hold (p : ReserveQuotaParams) (d : quota_db) : Prop :=
  let now := instant (rq_Now p) in
  let w := truncate now Minute in
  let day := civil_day (rq_Day p) in
  let l := rq_Limits p in
  within (KeyConcurrent l) (count_leases (fun x => bool_decide (lease_api_key_id x = rq_APIKeyID p)) now d) /\
  within (UserConcurrent l) (count_leases (fun x => bool_decide (lease_user_id x = rq_UserID p)) now d) /\
  within (GlobalConcurrent l) (count_leases (fun _ => true) now d) /\
  within (KeyRequestsPerMinute l) (window_count d (w, "key", rq_APIKeyID p)) /\
  within (UserRequestsPerMinute l) (window_count d (w, "user", rq_UserID p)) /\
  within (KeyDailyRequests l) (daily_count d (day, "key", rq_APIKeyID p)) /\
  within (UserDailyRequests l) (daily_count d (day, "user", rq_UserID p)).

Lemma rate_fit_int64 n t : rate_check (Rate (n + 1) t) = true -> is_int64 (n + 1).
Proof. unfold rate_check. cbn. intros [_ H]%andb_true_iff. by apply int64b_spec. Qed.

Lemma daily_fit_int64 p d k :
  counter_check (reserve_counter (rq_ReservedTokens p) (instant (rq_Now p))
    (default (Counter 0 0 0 0 (instant (rq_Now p))) (quota_counters d !! k))) = true -> is_int64 (daily_count d k + 1).
Proof.
  intros H. unfold counter_check in H. breflect. apply int64b_spec. unfold daily_count.
  by destruct (quota_counters d !! k).
Qed.

Lemma admitted_limits p d :
  quota_inv d -> 0 < rq_LeaseTTL p -> Z.of_nat (size (concurrency_leases d)) < max_int64 ->
  first_violation (admission_checks p d) = None -> rows_fit p d = true -> insert_result p d = Ok tt ->
  limits_hold p (admitted p d).
Proof.
  intros Hd Httl Hsize Hv Hfit (_ & _ & Hnew & _)%insert_result_Ok. apply first_violation_none in Hv.
  unfold admission_checks in Hv. rewrite !Forall_cons in Hv. destruct Hv as (V1 & V2 & V3 & V4 & V5 & V6 & V7 & _).
  assert (Hc : forall q, is_int64 (count_leases q (instant (rq_Now p)) d + 1)).
  { intros q. pose proof (count_leases_bound q (instant (rq_Now p)) d). unfold is_int64, min_int64, max_int64 in *. lia. }
  unfold rows_fit in Hfit. breflect.
  unfold limits_hold, within. rewrite !count_leases_admitted, !window_count_admitted, !daily_count_admitted by auto.
  cbn [new_lease lease_api_key_id lease_user_id]. rewrite !bool_decide_true by done. cbn [b2z].
  split_and!; intros Hl; [apply (not_violated _ V1 Hl)|apply (not_violated _ V2 Hl)|apply (not_violated _ V3 Hl)|apply (not_violated _ V4 Hl)
    |apply (not_violated _ V5 Hl)|apply (not_violated _ V6 Hl)|apply (not_violated _ V7 Hl)]; cbn;
    auto; solve [eapply rate_fit_int64; eassumption | eapply daily_fit_int64; eassumption].
Qed.

(** [C11] A request that [ReserveQuota] admits leaves every limit respected: the
    live leases of its key, of its user and overall, the requests of its key and
    user in the current minute and those of the day, each counted with the new
    request and each compared with its limit unless the limit is 0. *)
Theorem reserve_respects_limits d clock params p r d' :
  quota_reachable d -> Z.of_nat (size (concurrency_leases d)) < max_int64 ->
  normalizeReserveQuota clock params = Ok p -> ReserveQuota clock params d = (Ok r, d') -> limits_hold p d'.
Proof.
  intros Hd%quota_reachable_inv Hsize Hn H. unfold ReserveQuota in H. rewrite Hn in H.
  apply withTx_commit in H. apply normalize_Ok in Hn as (Httl & _).
  apply reserve_Ok in H as (Hv & Hf & Hi & _ & ->); [|done|lia]. apply admitted_limits; auto. lia.
Qed.

Definition demo_normal (id : string) : ReserveQuotaParams :=
  {| rq_RequestID := id; rq_UserID := "u1"; rq_APIKeyID := "k1"; rq_Day := Zoned (100 * Day24 + 5 * Second) 0;
     rq_Now := Zoned (100 * Day24 + 5 * Second) 0; rq_ReservedTokens := 100; rq_LeaseTTL := 5 * Minute; rq_Limits := demo_limits |}.

Lemma reserve_respects_limits_witness :
  limits_hold (demo_normal "request-00000002") (ReserveQuota 1 (demo_params "request-00000002") demo_db).2.
Proof.
  apply (reserve_respects_limits demo_db 1 (demo_params "request-00000002") (demo_normal "request-00000002")
           (reservation_of (demo_normal "request-00000002"))).
  - exact demo_reachable.
  - vm_compute. reflexivity.
  - vm_compute. reflexivity.
  - rewrite (surjective_pairing (ReserveQuota 1 (demo_params "request-00000002") demo_db)) at 1. by f_equal.
Defined.

(** [C35] [ReserveQuota] refines the declarative admission rule on every branch:
    invalid parameters; else the first limit, in the documented order key/user/
    global concurrency, key/user minute rate, key/user daily requests, that the
    counts before the request already reach, with its retry delay; else the row
    constraints; else the reservation, with exactly the tables [admitted]
    describes.  On any error the tables are unchanged. *)
Theorem reserve_refines_rule d clock params :
  quota_reachable d ->
  ReserveQuota clock params d =
    match normalizeReserveQuota clock params with
    | Err e => (Err e, d)
    | Ok p =>
        match first_violation (admission_checks p d) with
        | Some e => (Err (ErrQuotaExceeded e), d)
        | None =>
            match rows_fit_error p d, insert_result p d with
            | Err e, _ => (Err e, d)
            | Ok _, Err e => (Err e, d)
            | Ok _, Ok _ => (Ok (reservation_of p), admitted p d)
            end
        end
    end.
Proof.
  intros Hd%quota_reachable_inv. unfold ReserveQuota. destruct (normalizeReserveQuota clock params) as [p|] eqn:Hn; [|done].
  apply normalize_Ok in Hn as (Httl & _). unfold withTx.
  rewrite reserveQuotaTx_eq by (lia || by apply lease_free). destruct (first_violation _); [done|].
  destruct (rows_fit_error p d); [|done]. by destruct (insert_result p d).
Qed.

Lemma reserve_refines_rule_witness :
  ReserveQuota 1 (demo_params "request-00000002") demo_db =
    match normalizeReserveQuota 1 (demo_params "request-00000002") with
    | Err e => (Err e, demo_db)
    | Ok p =>
        match first_violation (admission_checks p demo_db) with
        | Some e => (Err (ErrQuotaExceeded e), demo_db)
        | None =>
            match rows_fit_error p demo_db, insert_result p demo_db with
            | Err e, _ => (Err e, demo_db)
            | Ok _, Err e => (Err e, demo_db)
            | Ok _, Ok _ => (Ok (reservation_of p), admitted p demo_db)
            end
        end
    end.
Proof. apply (reserve_refines_rule demo_db 1 (demo_params "request-00000002")). exact demo_reachable. Defined.

(** The retry delay of a rate rejection is between one second and the time
    to the next minute boundary, rounded up to a second when less is left. *)
Theorem retry_minute_bounds now :
  let w := truncate now Minute in
  Second <= retry_minute w now <= Minute /\
  (Second <= w + Minute - now -> now + retry_minute w now = w + Minute).
Proof.
  intros w. pose proof (truncate_spec now Minute ltac:(done)) as [H _]. fold w in H.
  unfold retry_minute. rewrite time_sub_exact.
  - destruct (Z.ltb_spec (w + Minute - now) Second); unfold Minute, Second in *; lia.
  - unfold is_int64, min_int64, max_int64, Minute, Second in *. lia.
Qed.

(** Operations on a reservation that is no longer open. *)
Lemma closed_settle d id r actual at_ :
  quota_reservations d !! id = Some r -> state r <> Reserved ->
  (lock_reservation id ;; settleQuotaTx id actual at_) d =
    if bool_decide (state r = Settled) then
      if bool_decide (actual_tokens r = Some actual) then Ok (tt, with_locks r d) else Err (ErrConflict "settle quota")
    else Err (ErrConflict "settle released quota").
Proof.
  intros Hr Hs. rewrite lock_reservation_bind, Hr. unfold settleQuotaTx, readReservation, tbind, tgets, with_locks. tables.
  rewrite Hr. cbn. destruct (state r); [done| |done]. cbn. by destruct (bool_decide _).
Qed.

Lemma closed_release d id r at_ :
  quota_reservations d !! id = Some r -> state r <> Reserved ->
  (lock_reservation id ;; releaseQuotaTx id at_) d =
    if bool_decide (state r = Settled) then Err (ErrConflict "release settled quota") else Ok (tt, with_locks r d).
Proof.
  intros Hr Hs. rewrite lock_reservation_bind, Hr. unfold releaseQuotaTx, readReservation, tbind, tgets, with_locks. tables.
  rewrite Hr. cbn. by destruct (state r).
Qed.

Lemma with_locks_again r s d T :
  quota_locks d = s ∪ {[ ("global", "global"); ("key", api_key_id r); ("user", user_id r) ]} -> T = r -> with_locks T d = d.
Proof.
  intros E ->. destruct d. unfold with_locks, set_locks. cbn in *. f_equal. rewrite E. set_solver.
Qed.

Lemma lookup_closed_counters id r f r' a b d k :
  quota_counters d !! (quota_day r, "key", api_key_id r) = Some a ->
  quota_counters d !! (quota_day r, "user", user_id r) = Some b ->
  quota_counters (closed id r f r' a b d) !! k =
    if in_scope k r then f <$> quota_counters d !! k else quota_counters d !! k.
Proof.
  intros Ha Hb. unfold closed. tables. destruct (in_scope k r) eqn:E.
  - apply in_scope_cases in E as [-> | ->]; [rewrite lookup_insert_ne, lookup_insert_eq by (auto with gateway)|rewrite lookup_insert_eq];
      by rewrite ?Ha, ?Hb.
  - rewrite !lookup_insert_ne; [done|..]; intros <-; rewrite (proj2 (in_scope_cases _ r)) in E; auto; done.
Qed.

(** Settling an open reservation always succeeds when the usage total fits
    a BIGINT.  It moves the request from reserved to completed in both daily
    counters, replaces the reserved tokens by the actual ones, leaves every
    other counter alone, closes the reservation and frees its lease.  After that
    the same settlement is accepted again and changes nothing, while a different
    token count and a release are both refused as conflicts. *)
Theorem settle_once d clock id r actual at_ :
  quota_reachable d -> id <> EmptyString -> quota_reservations d !! id = Some r -> state r = Reserved -> 0 <= actual ->
  (forall k c, in_scope k r = true -> quota_counters d !! k = Some c -> tokens_used c + actual <= max_int64) ->
  let at' := if is_zero_time at_ then clock else at_ in
  exists d', SettleQuota clock id actual at_ d = (Ok tt, d') /\
    quota_reservations d' = <[id := settled_row actual at' r]> (quota_reservations d) /\
    concurrency_leases d' = delete id (concurrency_leases d) /\
    (forall k, quota_counters d' !! k =
       if in_scope k r then settle_counter r actual at' <$> quota_counters d !! k else quota_counters d !! k) /\
    SettleQuota clock id actual at_ d' = (Ok tt, d') /\
    (forall n, 0 <= n -> n <> actual -> SettleQuota clock id n at_ d' = (Err (ErrConflict "settle quota"), d')) /\
    ReleaseQuota clock id at_ d' = (Err (ErrConflict "release settled quota"), d').
Proof.
  intros Hd%quota_reachable_inv Hid Hr Hs Hact Hmax at'.
  destruct (settle_eq d id r actual at' Hd Hr Hs Hact) as (a & b & Ha & Hb & E).
  destruct (open_counters d id r Hd Hr Hs) as (a' & b' & Ha' & Hb' & Hab). rewrite Ha in Ha'. rewrite Hb in Hb'. simplify_eq.
  destruct (reserved_row d id r Hd Hr Hs) as (_ & _ & Htok).
  assert (Hck : forall c, c = a' \/ c = b' -> counter_check (settle_counter r actual at' c) = true).
  { intros c Hc. destruct (Hab c Hc) as (H1 & H2 & H3).
    assert (tokens_used c + actual <= max_int64) by (destruct Hc as [-> | ->]; eapply Hmax; eauto; apply in_scope_cases; auto).
    unfold counter_check, int64b in *. cbn. unfold min_int64, max_int64 in *. lia. }
  rewrite !Hck in E by auto. cbn [andb] in E. set (d' := closed _ _ _ _ _ _ _) in E.
  assert (Hr' : quota_reservations d' !! id = Some (settled_row actual at' r)) by (subst d'; unfold closed; tables; by rewrite lookup_insert_eq).
  assert (Hlk : with_locks (settled_row actual at' r) d' = d') by (by eapply (with_locks_again (settled_row actual at' r))).
  exists d'. unfold SettleQuota, ReleaseQuota. rewrite (bool_decide_false (id = _)) by done. cbn [orb]. fold at'.
  assert (Hneg : forall n, 0 <= n -> (n <? 0) = false) by lia. rewrite (Hneg actual) by done.
  split; [unfold withTx; by rewrite E|]. split; [done|]. split; [done|].
  split; [intros k; by apply lookup_closed_counters|].
  unfold withTx. rewrite (closed_settle _ _ _ _ _ Hr'), (closed_release _ _ _ _ Hr') by done. rewrite Hlk.
  rewrite !bool_decide_true by done. split; [done|]. split; [|done].
  intros n Hn Hne. rewrite (Hneg n) by done. rewrite (closed_settle _ _ _ _ _ Hr') by done.
  rewrite bool_decide_true, bool_decide_false by (cbn; congruence). done.
Qed.

Definition demo_row : reservation_row := Reservation 100 "u1" "k1" 100 None Reserved (100 * Day24 + 5 * Second) None.

Definition demo_counter : counter_row := Counter 1 0 100 0 (100 * Day24 + 5 * Second).

Lemma settle_once_witness :
  exists d', SettleQuota 1 demo_id 40 7 demo_db = (Ok tt, d') /\
    SettleQuota 1 demo_id 40 7 d' = (Ok tt, d') /\
    ReleaseQuota 1 demo_id 7 d' = (Err (ErrConflict "release settled quota"), d').
Proof.
  destruct (settle_once demo_db 1 demo_id demo_row 40 7) as (d' & H1 & _ & _ & _ & H2 & _ & H3).
  - exact demo_reachable.
  - discriminate.
  - vm_compute. reflexivity.
  - reflexivity.
  - lia.
  - assert (Hc : forall k, k = (100, "key", "k1") \/ k = (100, "user", "u1") -> quota_counters demo_db !! k = Some demo_counter)
      by (intros k [-> | ->]; vm_compute; reflexivity).
    intros k c Hk. rewrite Hc by (by apply in_scope_cases in Hk). intros [= <-]. discriminate.
  - exact (ex_intro _ d' (conj H1 (conj H2 H3))).
Defined.

(** A counter row without its timestamp; a missing row counts as zero. *)
Definition counts (c : option counter_row) : Z * Z * Z * Z :=
  match c with
  | Some c => (requests_reserved c, requests_completed c, tokens_reserved c, tokens_used c)
  | None => (0, 0, 0, 0)
  end.

(** Releasing an admitted request always succeeds and gives the daily
    quota back: every counter has the counts it had before the reservation and
    the lease is gone.  The minute windows keep counting the request.  Releasing
    again changes nothing and a settlement is refused as a conflict. *)
Theorem release_restores d clock params r d1 at_ :
  quota_reachable d -> ReserveQuota clock params d = (Ok r, d1) ->
  let id := qr_RequestID r in
  exists d2, ReleaseQuota clock id at_ d1 = (Ok tt, d2) /\
    (forall k, counts (quota_counters d2 !! k) = counts (quota_counters d !! k)) /\
    concurrency_leases d2 !! id = None /\ quota_rate_windows d2 = quota_rate_windows d1 /\
    ReleaseQuota clock id at_ d2 = (Ok tt, d2) /\
    (forall n, 0 <= n -> SettleQuota clock id n at_ d2 = (Err (ErrConflict "settle released quota"), d2)).
Proof.
  intros Hd%quota_reachable_inv H. unfold ReserveQuota in H.
  destruct (normalizeReserveQuota clock params) as [p|] eqn:Hn; [|done]. apply withTx_commit in H.
  assert (Hid : rq_RequestID p <> EmptyString).
  { unfold normalizeReserveQuota in Hn. destruct (_ || _) eqn:E1; [done|]. destruct (30 * Minute <? _); [done|].
    inv_bind Hn. injection Hn as <-. cbn. breflect. done. }
  apply normalize_Ok in Hn as (Httl & _). apply reserve_Ok in H as (Hv & Hf & Hi & -> & ->); [|done|lia].
  intros id. cbn in id. pose proof (admitted_inv p d Hd ltac:(lia) Hf Hi) as Hd1. set (d1 := admitted p d) in *.
  set (x := new_reservation p). assert (Hx : quota_reservations d1 !! id = Some x).
  { subst d1. unfold admitted. tables. by rewrite lookup_insert_eq. }
  set (at' := if is_zero_time at_ then clock else at_).
  destruct (release_eq d1 id x at' Hd1 Hx eq_refl) as (a & b & Ha & Hb & _ & _ & E). set (d2 := closed _ _ _ _ _ _ _) in E.
  assert (Hr' : quota_reservations d2 !! id = Some (released_row at' x)) by (subst d2; unfold closed; tables; by rewrite lookup_insert_eq).
  assert (Hlk : with_locks (released_row at' x) d2 = d2) by (by eapply (with_locks_again (released_row at' x))).
  exists d2. unfold SettleQuota, ReleaseQuota. rewrite !(bool_decide_false (id = _)) by done. cbn [orb]. fold at'.
  split; [unfold withTx; by rewrite E|]. split.
  { intros k. subst d2. rewrite lookup_closed_counters by done. subst d1. unfold admitted. tables.
    rewrite lookup_bump_counter by (auto with gateway). change (bool_decide _ || bool_decide _) with (in_scope k x).
    destruct (in_scope k x); [|done]. destruct (quota_counters d !! k) as [c|]; cbn; repeat f_equal; lia. }
  split; [subst d2; unfold closed; tables; by rewrite lookup_delete_eq|]. split; [done|].
  unfold withTx. rewrite (closed_release _ _ _ _ Hr') by done. rewrite Hlk. rewrite bool_decide_false by done. split; [done|].
  intros n Hneg. replace (n <? 0) with false by lia. rewrite (closed_settle _ _ _ _ _ Hr') by done.
  rewrite bool_decide_false by done. done.
Qed.

Definition demo_reservation : QuotaReservation :=
  {| qr_RequestID := demo_id; qr_Day := 100; qr_UserID := "u1"; qr_APIKeyID := "k1"; qr_ReservedTokens := 100;
     qr_ActualTokens := None; qr_State := Reserved; qr_CreatedAt := 100 * Day24 + 5 * Second; qr_SettledAt := None;
     qr_LeaseExpiresAt := Some (100 * Day24 + 5 * Second + 5 * Minute) |}.

Lemma release_restores_witness :
  exists d2, ReleaseQuota 1 demo_id 7 demo_db = (Ok tt, d2) /\
    (forall k, counts (quota_counters d2 !! k) = counts (quota_counters demo_empty !! k)).
Proof.
  destruct (release_restores demo_empty 1 (demo_params demo_id) demo_reservation demo_db 7) as (d2 & H1 & H2 & _).
  - apply reach_empty.
  - vm_compute. reflexivity.
  - exists d2. split; [exact H1|exact H2].
Defined.
