(* ===== verification/Money.v ===== *)
(** * Money at the store boundary ([internal/store/billing.go], 1938-1988)

    Amounts live in NUMERIC(30,12) columns; here a column holds the integer
    number of 10^-12 units.  The store reads a column as text, computes with
    [big.Rat] and hands text back to SQL.  The lemmas show that on column text
    the string operations are exactly the integer ones, so the components
    above can reason about integers. *)
From Stdlib Require Import Ascii QArith.
From S2P Require Import Prelude GoStrings Amount Store.

(** ** Columns *)

(** [column::text] of a NUMERIC(30,12). *)
Definition numeric_text (n : Z) : string := scaledIntegerString n AmountScale.
(** [$k::numeric] stored in, or added to, a NUMERIC(30,12). *)
Definition numeric_of (s : string) : option Z :=
  match rat_SetString s with Some q => Some (roundScaled q AmountScale) | None => None end.
(** The range of the column: at most 18 integer digits. *)
Definition numeric_fits (n : Z) : bool := Z.abs n <? pow10 30.

(** ** Operations *)

Definition billingRat (value : string) : result store_error Q :=
  match rat_SetString value with
  | Some q => Ok q
  | None => Err (ErrInvalid "invalid stored billing amount")
  end.

(** [big.Rat.FloatString]: the magnitude rounded half up, behind the sign. *)
Definition FloatString (q : Q) (prec : nat) : string :=
  let p := pow10 prec in
  let a := Z.abs (Qnum q) * p in
  let b := Zpos (Qden q) in
  let m := if b <=? 2 * (a mod b) then a / b + 1 else a / b in
  (if Qnum q <? 0 then "-" else "") +:+ scaledIntegerString m prec.

(** [l.Cmp(r) > 0]. *)
Definition billingMin (left right : string) : result store_error string :=
  let! l := billingRat left in
  let! r := billingRat right in
  Ok (FloatString (if rat_gtb l r then r else l) AmountScale).

Definition billingSubtract (left right : string) : result store_error string :=
  let! l := billingRat left in
  let! r := billingRat right in
  Ok (FloatString (Qminus l r) AmountScale).

Definition billingAdd (left right : string) : result store_error string :=
  let! l := billingRat left in
  let! r := billingRat right in
  Ok (FloatString (Qplus l r) AmountScale).

Definition billingPositive (value : string) : bool :=
  match rat_SetString value with Some q => 0 <? Qnum q | None => false end.

(** ** The operations on column text *)

Lemma rat_numeric_text n : rat_SetString (numeric_text n) = Some (scaled n AmountScale).
Proof. apply rat_scaledIntegerString. unfold AmountScale. lia. Qed.

Lemma billingRat_text n : billingRat (numeric_text n) = Ok (scaled n AmountScale).
Proof. unfold billingRat. by rewrite rat_numeric_text. Qed.

Lemma roundScaled_scaled n s : roundScaled (scaled n s) s = n.
Proof.
  unfold roundScaled, scaled. cbn [Qnum Qden]. pose proof (pow10_pos s). rewrite Z2Pos.id by done.
  rewrite Z.rem_mul, Z.quot_mul by lia. done.
Qed.

Lemma numeric_of_text n : numeric_of (numeric_text n) = Some n.
Proof. unfold numeric_of. by rewrite rat_numeric_text, roundScaled_scaled. Qed.

Lemma scaledIntegerString_neg n s : n < 0 -> scaledIntegerString n s = "-" +:+ scaledIntegerString (- n) s.
Proof.
  intros H. unfold scaledIntegerString. replace (n <? 0) with true by lia. replace (n =? 0) with false by lia.
  replace (- n <? 0) with false by lia. rewrite Z.abs_opp. done.
Qed.

(** A rational that is a whole number of units prints as that number. *)
Lemma FloatString_exact q n s : (q == scaled n s)%Q -> FloatString q s = scaledIntegerString n s.
Proof.
  unfold Qeq, scaled. cbn [Qnum Qden]. pose proof (pow10_pos s) as Hp. rewrite Z2Pos.id by done. intros E.
  unfold FloatString. set (b := Zpos (Qden q)) in *. assert (Hb : 0 < b) by lia.
  assert (Ha : Z.abs (Qnum q) * pow10 s = Z.abs n * b).
  { rewrite <- (Z.abs_eq (pow10 s)) by lia. rewrite <- Z.abs_mul, E, Z.abs_mul. rewrite (Z.abs_eq b) by lia. done. }
  rewrite Ha, Z.mod_mul, Z.div_mul by lia. replace (b <=? 2 * 0) with false by lia.
  destruct (Z.ltb_spec (Qnum q) 0).
  - assert (n < 0) by nia. rewrite Z.abs_neq by lia. by rewrite <- scaledIntegerString_neg.
  - assert (0 <= n) by nia. rewrite Z.abs_eq by lia. by rewrite str_app_nil_l.
Qed.

Lemma scaled_plus a b s : (scaled a s + scaled b s == scaled (a + b) s)%Q.
Proof. unfold scaled, Qplus, Qeq. cbn [Qnum Qden]. rewrite Pos2Z.inj_mul. nia. Qed.
Lemma scaled_minus a b s : (scaled a s - scaled b s == scaled (a - b) s)%Q.
Proof. unfold scaled, Qminus, Qplus, Qopp, Qeq. cbn [Qnum Qden]. rewrite Pos2Z.inj_mul. nia. Qed.

Lemma rat_gtb_scaled a b s : rat_gtb (scaled a s) (scaled b s) = (b <? a).
Proof.
  unfold rat_gtb, scaled, Qcompare. cbn [Qnum Qden].
  destruct (Z.compare_spec (a * Z.pos (Z.to_pos (pow10 s))) (b * Z.pos (Z.to_pos (pow10 s)))); symmetry;
    [apply Z.ltb_ge|apply Z.ltb_ge|apply Z.ltb_lt]; nia.
Qed.

Lemma billingMin_text a b : billingMin (numeric_text a) (numeric_text b) = Ok (numeric_text (Z.min a b)).
Proof.
  unfold billingMin. rewrite !billingRat_text. cbn [rbind]. rewrite rat_gtb_scaled. f_equal.
  destruct (Z.ltb_spec b a); apply FloatString_exact; [rewrite Z.min_r by lia|rewrite Z.min_l by lia]; done.
Qed.

Lemma billingSubtract_text a b : billingSubtract (numeric_text a) (numeric_text b) = Ok (numeric_text (a - b)).
Proof.
  unfold billingSubtract. rewrite !billingRat_text. cbn [rbind]. f_equal. apply FloatString_exact, scaled_minus.
Qed.

Lemma billingAdd_text a b : billingAdd (numeric_text a) (numeric_text b) = Ok (numeric_text (a + b)).
Proof. unfold billingAdd. rewrite !billingRat_text. cbn [rbind]. f_equal. apply FloatString_exact, scaled_plus. Qed.

Lemma billingPositive_text a : billingPositive (numeric_text a) = (0 <? a).
Proof. unfold billingPositive. by rewrite rat_numeric_text. Qed.

Create Rewrite HintDb money.
#[export] Hint Rewrite billingMin_text billingSubtract_text billingAdd_text billingPositive_text numeric_of_text : money.

(** ** Properties *)

(** On amounts read from the database the decimal helpers of the billing
    store compute exactly the minimum, difference, sum and sign of the stored
    integers, and what they print is stored back as that integer: no rounding
    is lost between the columns and the code. *)
Theorem money_exact a b :
  billingMin (numeric_text a) (numeric_text b) = Ok (numeric_text (Z.min a b)) /\
  billingSubtract (numeric_text a) (numeric_text b) = Ok (numeric_text (a - b)) /\
  billingAdd (numeric_text a) (numeric_text b) = Ok (numeric_text (a + b)) /\
  billingPositive (numeric_text a) = (0 <? a) /\
  numeric_of (numeric_text a) = Some a.
Proof. autorewrite with money. done. Qed.
