(* ===== verification/Funding.v ===== *)
(** * Funding layers and sources ([internal/store/billing_layers.go],
      [internal/store/billing_funding.go])

    The pure part of who pays: the ordered layers snapshotted at admission, the
    layers that may pay for the account that served a request, the order of
    personal sources, and the sources a settlement walks. *)
From Stdlib Require Import QArith.
From S2P Require Import Prelude GoStrings Amount Store Money.

Definition PersonalFundingLayerID : string := "00000000-0000-0000-0000-000000000000".
Definition BillingTierDay : string := "day".
Definition BillingTierWeek : string := "week".
Definition BillingTierMonth : string := "month".

(** ** Layers *)

Record fundingLayer := {
  position : Z;
  groupID : string;
  groupPeriodID : string;
  allAccounts : bool;
  accountIDs : list string;
}.

Record UpstreamAllocationGroup := { ag_GroupID : string; ag_AccountIDs : list string; ag_AllAccounts : bool }.

Definition allocationGroup (l : fundingLayer) : UpstreamAllocationGroup :=
  if allAccounts l
  then {| ag_GroupID := PersonalFundingLayerID; ag_AccountIDs := []; ag_AllAccounts := true |}
  else {| ag_GroupID := groupID l; ag_AccountIDs := accountIDs l; ag_AllAccounts := false |}.

Definition contains (l : fundingLayer) (accountID : string) : bool :=
  if allAccounts l then true else existsb (fun id => bool_decide (id = accountID)) (accountIDs l).

(** The loop of [settlementLayerCandidates]. *)
Fixpoint candidate_loop (accountID : string) (layers : list fundingLayer) : list fundingLayer * bool :=
  match layers with
  | [] => ([], false)
  | layer :: rest =>
      let '(groups, personal) := candidate_loop accountID rest in
      if bool_decide (accountID = EmptyString) || negb (contains layer accountID) then (groups, personal)
      else if allAccounts layer then (groups, true)
      else (layer :: groups, personal)
  end.

(** The groups that may pay, whether the personal layer may, and whether the
    account decided it. *)
Definition settlementLayerCandidates (layers : list fundingLayer) (accountID : string) : list fundingLayer * bool * bool :=
  let '(groups, personal) := candidate_loop accountID layers in
  match groups with
  | _ :: _ => (groups, personal, true)
  | [] =>
      if personal then ([], true, true) else
      match layers with
      | [] => ([], false, false)
      | first :: _ => if allAccounts first then ([], true, false) else ([first], false, false)
      end
  end.

(** ** Sources *)

Record BillingFundingSource := {
  SourceType : string;
  SubscriptionID : string;
  PeriodID : string;
  CashLotCutoff : Z;
  Priority : Z;
  PeriodDays : Z;
  RemainingUSD : string;
}.

Definition remaining_rat (s : BillingFundingSource) : Q := default 0%Q (rat_SetString (RemainingUSD s)).

(** The comparison [sort.SliceStable] uses. *)
Definition funding_less (a b : BillingFundingSource) : bool :=
  if negb (Priority a =? Priority b) then Priority a <? Priority b else
  if negb (bool_decide (SourceType a = SourceType b)) then bool_decide (SourceType a = "subscription") else
  if negb (PeriodDays a =? PeriodDays b) then PeriodDays b <? PeriodDays a else
  match Qcompare (remaining_rat a) (remaining_rat b) with
  | Gt => true
  | Lt => false
  | Eq => str_ltb (SubscriptionID a) (SubscriptionID b)
  end.

(** A stable sort: an element goes before the first one that is not less than it. *)
Fixpoint stable_insert {A} (less : A -> A -> bool) (x : A) (l : list A) : list A :=
  match l with
  | [] => [x]
  | y :: l' => if less y x then y :: stable_insert less x l' else x :: l
  end.
Definition stable_sort {A} (less : A -> A -> bool) (l : list A) : list A := foldr (stable_insert less) [] l.

Fixpoint validate_sources (sources : list BillingFundingSource) : result store_error unit :=
  match sources with
  | [] => Ok tt
  | s :: rest =>
      if (Priority s <? 1) || (100 <? Priority s) then Err (ErrInvalid "invalid funding priority") else
      let! _ := billingRat (RemainingUSD s) in
      validate_sources rest
  end.

Definition sortBillingFundingSources (sources : list BillingFundingSource) : result store_error (list BillingFundingSource) :=
  let! _ := validate_sources sources in Ok (stable_sort funding_less sources).

(** The validation loop of [billingSettlementSources] for rules 3 and 4. *)
Fixpoint check_sources (seen : list string) (sources : list BillingFundingSource) : result store_error unit :=
  match sources with
  | [] => Ok tt
  | s :: rest =>
      let! key :=
        if bool_decide (SourceType s = "subscription") then
          if bool_decide (PeriodID s = EmptyString) || bool_decide (SubscriptionID s = EmptyString) ||
             negb (CashLotCutoff s =? 0)
          then Err (ErrConflict "invalid subscription funding snapshot") else Ok (PeriodID s)
        else if bool_decide (SourceType s = "cash") then
          if (CashLotCutoff s <? 1) || negb (bool_decide (PeriodID s = EmptyString)) ||
             negb (bool_decide (SubscriptionID s = EmptyString))
          then Err (ErrConflict "invalid cash funding snapshot") else Ok "cash"
        else Err (ErrConflict "unknown funding source") in
      if bool_decide (key ∈ seen) then Err (ErrConflict "duplicate funding source") else
      check_sources (key :: seen) rest
  end.

Definition plain_source (kind period : string) (cutoff : Z) : BillingFundingSource :=
  {| SourceType := kind; SubscriptionID := ""; PeriodID := period; CashLotCutoff := cutoff; Priority := 0;
     PeriodDays := 0; RemainingUSD := "" |}.

(** [billingSettlementSources], over the fields of the reservation it reads. *)
Definition billingSettlementSources (fundingRuleVersion : Z) (ordered : list BillingFundingSource)
  (day week month : option string) (cashLotCutoff : option Z) : result store_error (list BillingFundingSource) :=
  if (fundingRuleVersion =? 3) || (fundingRuleVersion =? 4) then
    let! _ := check_sources [] ordered in Ok ordered
  else if negb (fundingRuleVersion =? 1) && negb (fundingRuleVersion =? 2)
  then Err (ErrConflict "unknown funding rule version")
  else
    let tier name id := match id with Some p => [plain_source name p 0] | None => [] end in
    Ok (tier BillingTierDay day ++ tier BillingTierWeek week ++ tier BillingTierMonth month ++
        match cashLotCutoff with Some c => [plain_source "cash" "" c] | None => [] end).

(** ** Lemmas on candidates *)

Lemma candidate_loop_spec accountID layers :
  candidate_loop accountID layers =
    (filter (fun l => allAccounts l = false /\ contains l accountID = true /\ accountID <> EmptyString) layers,
     negb (bool_decide (accountID = EmptyString)) && existsb allAccounts layers).
Proof.
  induction layers as [|l layers IH]; [cbn; by rewrite andb_false_r|]. cbn [candidate_loop existsb]. rewrite IH.
  case_bool_decide as Ha; cbn [orb negb andb].
  - rewrite filter_cons_False by (intros (? & ? & ?); done). done.
  - destruct (allAccounts l) eqn:E.
    + rewrite filter_cons_False by (intros (? & _); congruence). unfold contains. rewrite E. done.
    + destruct (contains l accountID) eqn:Ec; cbn [negb]; [rewrite filter_cons_True by done|
        rewrite filter_cons_False by (intros (? & ? & ?); congruence)]; done.
Qed.

(** ** Lemmas on the order *)

(** The orders that matter are strict weak orders on the sources at hand. *)
Section stable_sort.
Context {A : Type} (less : A -> A -> bool) (P : A -> Prop).
Hypothesis less_irrefl : forall a, P a -> less a a = false.
Hypothesis less_trans : forall a b c, P a -> P b -> P c -> less b a = false -> less c b = false -> less c a = false.
Hypothesis less_asym : forall a b, P a -> P b -> less a b = true -> less b a = false.

Lemma stable_insert_perm x l : stable_insert less x l ≡ₚ x :: l.
Proof.
  induction l as [|y l IH]; [done|]. cbn. destruct (less y x); [|done]. rewrite IH. apply Permutation_swap.
Qed.

Lemma stable_sort_perm l : stable_sort less l ≡ₚ l.
Proof. induction l as [|x l IH]; [done|]. cbn. by rewrite stable_insert_perm, IH. Qed.

Lemma stable_insert_sorted x l :
  P x -> Forall P l -> StronglySorted (fun a b => less b a = false) l ->
  StronglySorted (fun a b => less b a = false) (stable_insert less x l).
Proof.
  intros Hx Hl Hs. induction Hs as [|y l Hs IH Hy]; [by repeat constructor|].
  apply Forall_cons in Hl as [Py Hl]. cbn. destruct (less y x) eqn:E.
  - constructor; [by apply IH|]. rewrite stable_insert_perm. constructor; [by apply less_asym|done].
  - constructor; [by constructor|]. constructor; [done|].
    rewrite Forall_forall in Hy, Hl |- *. intros z Hz. eapply (less_trans x y z); auto.
Qed.

Lemma stable_sort_sorted l : Forall P l -> StronglySorted (fun a b => less b a = false) (stable_sort less l).
Proof.
  induction 1 as [|x l Hx Hl IH]; [constructor|]. change (stable_sort less (x :: l)) with (stable_insert less x (stable_sort less l)).
  apply stable_insert_sorted; [done| |done]. by rewrite stable_sort_perm.
Qed.

(** Two sorted permutations of the same elements are equal when ties are. *)
Lemma sorted_unique l1 l2 :
  (forall a b, a ∈ l1 -> b ∈ l1 -> less a b = false -> less b a = false -> a = b) ->
  StronglySorted (fun a b => less b a = false) l1 -> StronglySorted (fun a b => less b a = false) l2 ->
  l1 ≡ₚ l2 -> l1 = l2.
Proof.
  intros Htie H1. revert l2 Htie. induction H1 as [|x l1 H1 IH Hx]; intros l2 Htie H2 Hp.
  { by apply Permutation_nil_l in Hp. }
  destruct H2 as [|y l2 H2 Hy]; [by apply Permutation_nil_r in Hp|].
  assert (x = y) as ->.
  { assert (Hxy : x ∈ y :: l2) by (rewrite <- Hp; left). assert (Hyx : y ∈ x :: l1) by (rewrite Hp; left).
    apply elem_of_cons in Hxy as [->|Hxl]; [done|]. apply elem_of_cons in Hyx as [->|Hyl]; [done|].
    rewrite Forall_forall in Hx, Hy. apply Htie; [left|by right|by apply Hy|by apply Hx]. }
  f_equal. apply IH; [|done|by eapply Permutation_cons_inv]. intros a b Ha Hb. apply Htie; by right.
Qed.
End stable_sort.

(** ** The order of funding sources *)

Definition known_type (s : BillingFundingSource) : Prop := SourceType s = "subscription" \/ SourceType s = "cash".

(** The sort key, most significant component first. *)
Definition type_rank (s : BillingFundingSource) : Z := if bool_decide (SourceType s = "subscription") then 0 else 1.

(** [funding_less] is lexicographic on the key. *)
Lemma funding_less_spec a b :
  known_type a -> known_type b ->
  funding_less a b = true <->
  Priority a < Priority b \/ (Priority a = Priority b /\ (type_rank a < type_rank b \/ (type_rank a = type_rank b /\
    (PeriodDays b < PeriodDays a \/ (PeriodDays a = PeriodDays b /\
      ((remaining_rat b < remaining_rat a)%Q \/ ((remaining_rat a == remaining_rat b)%Q /\
        str_ltb (SubscriptionID a) (SubscriptionID b) = true))))))).
Proof.
  intros Ha Hb. unfold funding_less. destruct (Z.eqb_spec (Priority a) (Priority b)) as [E1|E1]; cbn [negb];
    [|rewrite Z.ltb_lt; split; [by left|intros [?|[? _]]; [done|lia]]].
  assert (Ht : SourceType a = SourceType b <-> type_rank a = type_rank b).
  { unfold type_rank. destruct Ha as [-> | ->], Hb as [-> | ->]; by vm_compute. }
  case_bool_decide as E2; cbn [negb].
  - assert (E2' : type_rank a = type_rank b) by tauto.
    destruct (Z.eqb_spec (PeriodDays a) (PeriodDays b)) as [E3|E3]; cbn [negb];
      [|rewrite Z.ltb_lt; split; [intros; right; split; [done|]; right; split; [done|]; by left|intros [?|[_ [?|[_ [?|[? _]]]]]]; lia]].
    destruct (Qcompare_spec (remaining_rat a) (remaining_rat b)) as [H|H|H].
    + split; [intros; right; split; [done|]; right; split; [done|]; right; split; [done|]; by right|]. intros [?|[_ [?|[_ [?|[_ [?|[_ ?]]]]]]]]; try lia; [|done].
      rewrite H in *. by apply Qlt_irrefl in H0.
    + split; [done|]. intros [?|[_ [?|[_ [?|[_ [H'|[H' _]]]]]]]]; try lia; exfalso.
      * eapply Qlt_irrefl, Qlt_trans; eassumption.
      * rewrite H' in H. by apply Qlt_irrefl in H.
    + split; [|done]. intros _. right. split; [done|]. right. split; [done|]. right. split; [done|]. by left.
  - assert (E2' : type_rank a <> type_rank b) by tauto. rewrite bool_decide_eq_true.
    assert (Hr : SourceType a = "subscription" <-> type_rank a < type_rank b).
    { unfold type_rank in *. clear E2' Ht. destruct Ha as [Ha | Ha], Hb as [Hb | Hb]; rewrite Ha, Hb in *; [done|by vm_compute..|done]. }
    rewrite Hr. split; [intros; right; split; [done|]; by left|intros [?|[_ [?|[? _]]]]; lia].
Qed.

(** The order the sorted list is in. *)
Definition funding_le (a b : BillingFundingSource) : Prop :=
  Priority a < Priority b \/ (Priority a = Priority b /\ (type_rank a < type_rank b \/ (type_rank a = type_rank b /\
    (PeriodDays b < PeriodDays a \/ (PeriodDays a = PeriodDays b /\
      ((remaining_rat b < remaining_rat a)%Q \/ ((remaining_rat a == remaining_rat b)%Q /\
        str_le (SubscriptionID a) (SubscriptionID b)))))))).

Lemma funding_le_spec a b : known_type a -> known_type b -> funding_less b a = false <-> funding_le a b.
Proof.
  intros Ha Hb. rewrite <- not_true_iff_false, funding_less_spec by done. unfold funding_le, str_le. split.
  - intros Hn. destruct (Z.lt_trichotomy (Priority a) (Priority b)) as [?|[E1|?]]; [by left| |tauto].
    right. split; [done|]. destruct (Z.lt_trichotomy (type_rank a) (type_rank b)) as [?|[E2|?]]; [by left| |].
    2:{ exfalso. apply Hn. right. split; [lia|]. by left. }
    right. split; [done|]. destruct (Z.lt_trichotomy (PeriodDays b) (PeriodDays a)) as [?|[E3|?]]; [by left| |].
    2:{ exfalso. apply Hn. right. split; [lia|]. right. split; [lia|]. by left. }
    right. split; [done|]. destruct (Q_dec (remaining_rat b) (remaining_rat a)) as [[?|H]|E4]; [by left| |].
    { exfalso. apply Hn. right. split; [lia|]. right. split; [lia|]. right. split; [lia|]. by left. }
    right. split; [by symmetry|]. apply not_true_iff_false. intros Hs. apply Hn. auto 10.
  - intros H H'.
    destruct H as [?|[? [?|[? [?|[? [H|[E H]]]]]]]], H' as [?|[? [?|[? [?|[? [K|[E' K]]]]]]]]; try lia.
    + eapply Qlt_irrefl, Qlt_trans; eassumption.
    + rewrite E' in H. by apply Qlt_irrefl in H.
    + rewrite E in K. by apply Qlt_irrefl in K.
    + congruence.
Qed.

Lemma funding_le_trans a b c : funding_le a b -> funding_le b c -> funding_le a c.
Proof.
  unfold funding_le. intros H K.
  destruct (Z.lt_trichotomy (Priority a) (Priority c)) as [?|[?|?]]; [by left| |lia]. right. split; [done|].
  destruct (Z.lt_trichotomy (type_rank a) (type_rank c)) as [?|[?|?]]; [by left| |lia]. right. split; [done|].
  destruct (Z.lt_trichotomy (PeriodDays c) (PeriodDays a)) as [?|[?|?]]; [by left| |lia]. right. split; [done|].
  destruct H as [?|[? [?|[? [?|[? [H|[E H]]]]]]]], K as [?|[? [?|[? [?|[? [K|[E' K]]]]]]]]; try lia.
  - left. eapply Qlt_trans; eassumption.
  - left. by rewrite <- E'.
  - left. by rewrite E.
  - right. split; [by rewrite E|]. by etrans.
Qed.

Lemma funding_less_asym a b : known_type a -> known_type b -> funding_less a b = true -> funding_less b a = false.
Proof.
  intros Ha Hb H. apply funding_le_spec; try done. apply funding_less_spec in H; try done. unfold funding_le.
  destruct H as [?|[? [?|[? [?|[? [?|[? Hs]]]]]]]]; [by left|right; split; [done|]..]; [by left|right; split; [done|]..];
    [by left|right; split; [done|]..]; [by left|]. right. split; [done|]. by apply str_ltb_lt.
Qed.

(** What a settlement can tell two sources apart by. *)
Definition source_key (s : BillingFundingSource) : string * string := (SourceType s, SubscriptionID s).

Lemma funding_tie a b :
  known_type a -> known_type b -> funding_less a b = false -> funding_less b a = false -> source_key a = source_key b.
Proof.
  intros Ha Hb H K. apply funding_le_spec in H, K; try done. unfold source_key, funding_le in *.
  assert (Ht : type_rank a = type_rank b -> SourceType a = SourceType b).
  { unfold type_rank. destruct Ha as [-> | ->], Hb as [-> | ->]; by vm_compute. }
  destruct H as [?|[? [?|[? [?|[? [H|[E H]]]]]]]], K as [?|[? [?|[? [?|[? [K|[E' K]]]]]]]]; try lia.
  - exfalso. eapply Qlt_irrefl, Qlt_trans; eassumption.
  - exfalso. rewrite E' in H. by apply Qlt_irrefl in H.
  - exfalso. rewrite E in K. by apply Qlt_irrefl in K.
  - rewrite Ht by lia. f_equal. by apply str_ltb_antisym.
Qed.

Lemma validate_sources_Ok l :
  validate_sources l = Ok tt <->
  Forall (fun s => 1 <= Priority s <= 100 /\ is_Some (rat_SetString (RemainingUSD s))) l.
Proof.
  induction l as [|s l IH]; [split; [constructor|done]|]. cbn [validate_sources]. rewrite Forall_cons, <- IH. clear IH.
  destruct (_ || _) eqn:E.
  - split; [done|]. intros [[? _] _]. lia.
  - unfold billingRat. destruct (rat_SetString (RemainingUSD s)); cbn; split; intros H.
    + split; [split; [lia|eauto]|done].
    + apply H.
    + done.
    + destruct H as [[_ [? ?]] _]. done.
Qed.

(** ** Properties *)

(** Sorting the funding sources of an admission succeeds exactly when every
    priority is between 1 and 100 and every amount parses.  The result is a
    permutation of the sources ordered by priority, subscriptions before cash,
    longer periods first, larger remaining amounts first (compared as numbers),
    then subscription id; and it does not depend on the order the rows came in
    when no two sources are the same subscription. *)
Theorem sort_funding_sources l :
  Forall known_type l -> NoDup (source_key <$> l) ->
  (forall l', sortBillingFundingSources l = Ok l' ->
     l' ≡ₚ l /\ StronglySorted funding_le l' /\
     forall l2, l2 ≡ₚ l -> sortBillingFundingSources l2 = Ok l') /\
  (is_ok (sortBillingFundingSources l) = true <->
     Forall (fun s => 1 <= Priority s <= 100 /\ is_Some (rat_SetString (RemainingUSD s))) l).
Proof.
  intros Hk Hnd. unfold sortBillingFundingSources. split.
  - intros l' H. inv_bind H. destruct a. injection H as <-. split; [apply stable_sort_perm|].
    assert (Hs : forall m, Forall known_type m -> StronglySorted (fun a b => funding_less b a = false) (stable_sort funding_less m)).
    { intros m Km. apply (stable_sort_sorted funding_less known_type); [| |done].
      - intros a b c Pa Pb Pc H1 H2. apply funding_le_spec; try done.
        apply (funding_le_trans a b c); by apply funding_le_spec.
      - intros a b Pa Pb H. by apply funding_less_asym. }
    split.
    + pose proof (Hs l Hk) as H. assert (Hk' : Forall known_type (stable_sort funding_less l)) by by rewrite stable_sort_perm.
      induction H as [|x m H IH Hx]; [constructor|]. apply Forall_cons in Hk' as [Kx Km]. constructor; [by apply IH|].
      rewrite Forall_forall in Hx, Km |- *. intros y Hy. apply funding_le_spec; auto.
    + intros l2 Hp. assert (Hk2 : Forall known_type l2) by by rewrite Hp.
      apply validate_sources_Ok in Hm. rewrite <- Hp in Hm. apply validate_sources_Ok in Hm. rewrite Hm. cbn. f_equal.
      symmetry. apply (sorted_unique funding_less); [|by apply Hs|by apply Hs|by rewrite !stable_sort_perm].
      intros a b. rewrite !stable_sort_perm. intros Ha Hb H1 H2. rewrite Forall_forall in Hk.
      pose proof (funding_tie a b (Hk a Ha) (Hk b Hb) H1 H2) as E.
      apply list_elem_of_lookup in Ha as [i Hi], Hb as [j Hj].
      assert (i = j) as ->; [|congruence]. apply (NoDup_lookup (source_key <$> l) i j (source_key a)); [done|..]; rewrite list_lookup_fmap;
        [rewrite Hi|rewrite Hj]; cbn; congruence.
  - rewrite <- validate_sources_Ok. destruct (validate_sources l) as [[]|]; cbn; split; done.
Qed.

Definition demo_sources : list BillingFundingSource :=
  [ {| SourceType := "cash"; SubscriptionID := ""; PeriodID := ""; CashLotCutoff := 4; Priority := 10; PeriodDays := 0; RemainingUSD := "5.0" |};
    {| SourceType := "subscription"; SubscriptionID := "s2"; PeriodID := "p2"; CashLotCutoff := 0; Priority := 10; PeriodDays := 7; RemainingUSD := "9.5" |};
    {| SourceType := "subscription"; SubscriptionID := "s1"; PeriodID := "p1"; CashLotCutoff := 0; Priority := 10; PeriodDays := 7; RemainingUSD := "10.25" |} ].

Lemma sort_funding_sources_witness :
  SubscriptionID <$> stable_sort funding_less demo_sources = ["s1"; "s2"; ""] /\
  forall l2, l2 ≡ₚ demo_sources -> sortBillingFundingSources l2 = Ok (stable_sort funding_less demo_sources).
Proof.
  split; [by vm_compute|]. apply (sort_funding_sources demo_sources).
  - repeat (apply Forall_cons; split; [solve [left; reflexivity | right; reflexivity]|]). constructor.
  - repeat (constructor; [vm_compute; intros H; repeat (apply elem_of_cons in H as [H|H]; [discriminate H|]); by apply elem_of_nil in H|]). constructor.
  - by vm_compute.
Defined.

(** The layers that may pay for a request: if the account is known and in
    some layer, exactly the group layers whose pool has it, in billing order,
    and the personal layer when there is one; otherwise the first layer alone.
    Whenever the admission recorded a layer, somebody may pay. *)
Theorem settlement_candidates layers accountID groups personal attributed :
  settlementLayerCandidates layers accountID = (groups, personal, attributed) ->
  (attributed = true ->
     accountID <> EmptyString /\ personal = existsb allAccounts layers /\
     groups = filter (fun l => allAccounts l = false /\ contains l accountID = true /\ accountID <> EmptyString) layers) /\
  (attributed = false ->
     (accountID = EmptyString \/ Forall (fun l => contains l accountID = false) layers) /\
     match layers with
     | [] => groups = [] /\ personal = false
     | first :: _ => groups = (if allAccounts first then [] else [first]) /\ personal = allAccounts first
     end) /\
  (layers <> [] -> groups <> [] \/ personal = true).
Proof.
  unfold settlementLayerCandidates. rewrite candidate_loop_spec. set (gs := filter _ layers).
  assert (Hne : forall g l, gs = g :: l -> accountID <> EmptyString).
  { intros g l E. assert (Hg : g ∈ gs) by (rewrite E; left). by apply list_elem_of_filter in Hg as [(_ & _ & ?) _]. }
  assert (Hno : gs = [] -> negb (bool_decide (accountID = EmptyString)) && existsb allAccounts layers = false ->
    accountID = EmptyString \/ Forall (fun l => contains l accountID = false) layers).
  { intros Eg Ep. destruct (decide (accountID = EmptyString)) as [|Hid]; [by left|right].
    rewrite bool_decide_false in Ep by done. cbn in Ep. apply Forall_forall. intros l Hl.
    destruct (contains l accountID) eqn:Ec; [|done]. exfalso. destruct (allAccounts l) eqn:Ea.
    - assert (existsb allAccounts layers = true); [|congruence]. apply existsb_exists. exists l. split; [|done].
      by apply list_elem_of_In.
    - assert (Hg : l ∈ gs) by (by apply list_elem_of_filter). rewrite Eg in Hg. by apply elem_of_nil in Hg. }
  destruct gs as [|g l] eqn:Eg.
  - destruct (negb _ && _) eqn:Ep.
    + intros [= <- <- <-]. split; [|split; [done|by right]]. intros _. apply andb_true_iff in Ep as [Hid ->].
      breflect. done.
    + specialize (Hno eq_refl eq_refl). destruct layers as [|first rest]; [intros [= <- <- <-]; done|].
      destruct (allAccounts first) eqn:Ea; intros [= <- <- <-]; (split; [done|]); (split; [done|]); intros _; [by right|by left].
  - intros [= <- <- <-]. specialize (Hne g l eq_refl). split; [|split; [done|by left]]. intros _.
    rewrite bool_decide_false by done. done.
Qed.

Definition demo_layers : list fundingLayer :=
  [ {| position := 1; groupID := "g1"; groupPeriodID := "gp1"; allAccounts := false; accountIDs := ["a"; "b"] |};
    {| position := 2; groupID := "g2"; groupPeriodID := "gp2"; allAccounts := false; accountIDs := ["b"] |};
    {| position := 3; groupID := ""; groupPeriodID := ""; allAccounts := true; accountIDs := [] |} ].

Lemma settlement_candidates_witness :
  exists groups personal, settlementLayerCandidates demo_layers "b" = (groups, personal, true) /\
    groupID <$> groups = ["g1"; "g2"] /\ (groups <> [] \/ personal = true).
Proof.
  do 2 eexists. split; [reflexivity|]. split; [reflexivity|].
  eapply (settlement_candidates demo_layers "b"); [reflexivity|discriminate].
Defined.
