(* ===== verification/BillingTables.v ===== *)
(** * The billing tables (migrations 0002 to 0043, [internal/store/billing.go])

    Rows, CHECK constraints and statements of the tables that hold money.
    Amounts are in units of 10^-12 USD.  Columns that only repeat a value the
    code has at hand are kept as the value.  The ledger and the audit log are
    append-only lists; an entry's id is its position, counted from 1. *)
From S2P Require Import Prelude GoStrings Amount Store Quota Money Funding.

(** ** Rows *)

Record account_row := Account { balance_usd : Z; next_cash_lot_sequence : Z; account_updated_at : Z }.

Record lot_row := Lot {
  lot_user : string;
  lot_sequence : Z;
  source_ledger_entry_id : Z;
  original_usd : Z;
  lot_remaining : Z;
  lot_created_at : Z;
}.

Record period_row := Period {
  period_subscription : string;
  period_user : string;
  period_tier : option string;
  allowance_usd : Z;
  period_remaining : Z;
  forfeited_usd : Z;
}.

Record group_period_row := GroupPeriod {
  gp_group : string;
  limit_usd : Z;
  used_usd : Z;
  member_limit_usd : option Z;
}.

(** What a settlement under pricing rule 2 records about the price it used. *)
Record pricing_record := {
  pr_cache_write_tokens : Z;
  pr_actual_service_tier : option string;
  pr_pricing_service_tier : string;
  pr_actual_model : string;
  pr_context_class : string;
  pr_input : string;
  pr_cached : string;
  pr_cache_write : string;
  pr_output : string;
  pr_fallback_reason : option string;
  pr_write5m_tokens : option Z;
  pr_write1h_tokens : option Z;
  pr_ttl_present : bool;
  pr_write5m : option string;
  pr_write1h : option string;
}.

(** The columns that are set exactly when a reservation is settled. *)
Record settled_charge := {
  sc_input_tokens : Z;
  sc_cached_tokens : Z;
  sc_output_tokens : Z;
  sc_cost : Z;
  sc_charged : Z;
  sc_uncovered : Z;
  sc_group_charged : Z;
  sc_personal_charged : Z;
  sc_pricing : option pricing_record;
}.

Record billing_reservation := {
  br_user : string;
  br_api_key : string;
  br_model : string;
  br_input_price : string;
  br_cached_price : string;
  br_output_price : string;
  br_rule_version : Z;
  br_multiplier : string;
  br_mode : string;
  br_catalog : option string;
  br_snapshot : string;
  br_cache_write_mode : option string;
  br_requested_tier : option string;
  br_day_period : option string;
  br_week_period : option string;
  br_month_period : option string;
  br_cash_cutoff : option Z;
  br_sources : list BillingFundingSource;
  br_funding_rule : Z;
  br_group : option string;
  br_group_period : option string;
  br_state : reservation_state;
  br_created_at : Z;
  br_settled_at : option Z;
  br_charge : option settled_charge;
}.

Record allocation_row := Allocation {
  al_source_type : string;
  al_subscription_period : option string;
  al_cash_lot : option Z;
  al_group_period : option string;
  al_amount : Z;
  al_created_at : Z;
}.

Record ledger_row := {
  le_user : string;
  le_operation : option string;
  le_entry_type : string;
  le_amount : Z;
  le_cash_delta : Z;
  le_balance_after : option Z;
  le_cny : option Z;
  le_rate : option Z;
  le_reason : string;
  le_actor : option string;
  le_created_at : Z;
  le_request : option string;
  le_model : option string;
  le_usage_requested_at : option Z;
  le_account : option string;
  le_group : option string;
  le_group_period : option string;
  le_rule_version : option Z;
  le_multiplier : option string;
  le_charge : option settled_charge;
}.

Record usage_row := {
  u_state : string;
  u_endpoint : string;
  u_model : string;
  u_requested_at : Z;
  u_completed_at : option Z;
  u_http_status : option Z;
  u_error_code : option string;
  u_duration_ms : option Z;
  u_input : Z;
  u_cached : Z;
  u_cache_write : Z;
  u_cache_write_present : bool;
  u_output : Z;
  u_actual_tier : option string;
  u_account : option string;
  u_write5m : Z;
  u_write1h : Z;
  u_ttl_present : bool;
  u_pricing_tier : option string;
  u_context_class : option string;
  u_fallback_reason : option string;
}.

Record operation_row := Operation {
  op_type : string;
  op_actor : string;
  op_target : string;
  op_reason : string;
  op_fingerprint : string;
  op_result : option Z;
  op_created_at : Z;
}.

Record audit_row := Audit {
  ev_occurred_at : Z;
  ev_actor : string;
  ev_session : option string;
  ev_type : string;
  ev_source_ip : option string;
  ev_subject_type : string;
  ev_subject : string;
  ev_request : option string;
  ev_metadata : list (string * string);
}.

(** The one row of [billing_settings]; the model scopes are not used here. *)
Record settings_row := Settings { usd_per_cny : Z; settings_updated_at : Z; settings_updated_by : option string }.

Record billing_db := BillingDB {
  users : gmap string string;
  billing_accounts : gmap string account_row;
  cash_lots : gmap Z lot_row;
  periods : gmap string period_row;
  user_groups : gset string;
  group_periods : gmap string group_period_row;
  member_usage : gmap (string * string) Z;
  billing_reservations : gmap string billing_reservation;
  reservation_layers : gmap string (list fundingLayer);
  allocations : gmap (string * Z) allocation_row;
  ledger : list ledger_row;
  usage_requests : gmap string usage_row;
  operations : gmap string operation_row;
  tombstones : gset string;
  billing_settings : settings_row;
  audit : list audit_row;
}.

Definition set_accounts v d := BillingDB (users d) v (cash_lots d) (periods d) (user_groups d) (group_periods d) (member_usage d) (billing_reservations d) (reservation_layers d) (allocations d) (ledger d) (usage_requests d) (operations d) (tombstones d) (billing_settings d) (audit d).
Definition set_lots v d := BillingDB (users d) (billing_accounts d) v (periods d) (user_groups d) (group_periods d) (member_usage d) (billing_reservations d) (reservation_layers d) (allocations d) (ledger d) (usage_requests d) (operations d) (tombstones d) (billing_settings d) (audit d).
Definition set_periods v d := BillingDB (users d) (billing_accounts d) (cash_lots d) v (user_groups d) (group_periods d) (member_usage d) (billing_reservations d) (reservation_layers d) (allocations d) (ledger d) (usage_requests d) (operations d) (tombstones d) (billing_settings d) (audit d).
Definition set_group_periods v d := BillingDB (users d) (billing_accounts d) (cash_lots d) (periods d) (user_groups d) v (member_usage d) (billing_reservations d) (reservation_layers d) (allocations d) (ledger d) (usage_requests d) (operations d) (tombstones d) (billing_settings d) (audit d).
Definition set_member_usage v d := BillingDB (users d) (billing_accounts d) (cash_lots d) (periods d) (user_groups d) (group_periods d) v (billing_reservations d) (reservation_layers d) (allocations d) (ledger d) (usage_requests d) (operations d) (tombstones d) (billing_settings d) (audit d).
Definition set_billing_reservations v d := BillingDB (users d) (billing_accounts d) (cash_lots d) (periods d) (user_groups d) (group_periods d) (member_usage d) v (reservation_layers d) (allocations d) (ledger d) (usage_requests d) (operations d) (tombstones d) (billing_settings d) (audit d).
Definition set_allocations v d := BillingDB (users d) (billing_accounts d) (cash_lots d) (periods d) (user_groups d) (group_periods d) (member_usage d) (billing_reservations d) (reservation_layers d) v (ledger d) (usage_requests d) (operations d) (tombstones d) (billing_settings d) (audit d).
Definition set_ledger v d := BillingDB (users d) (billing_accounts d) (cash_lots d) (periods d) (user_groups d) (group_periods d) (member_usage d) (billing_reservations d) (reservation_layers d) (allocations d) v (usage_requests d) (operations d) (tombstones d) (billing_settings d) (audit d).
Definition set_usage v d := BillingDB (users d) (billing_accounts d) (cash_lots d) (periods d) (user_groups d) (group_periods d) (member_usage d) (billing_reservations d) (reservation_layers d) (allocations d) (ledger d) v (operations d) (tombstones d) (billing_settings d) (audit d).
Definition set_operations v d := BillingDB (users d) (billing_accounts d) (cash_lots d) (periods d) (user_groups d) (group_periods d) (member_usage d) (billing_reservations d) (reservation_layers d) (allocations d) (ledger d) (usage_requests d) v (tombstones d) (billing_settings d) (audit d).
Definition set_settings v d := BillingDB (users d) (billing_accounts d) (cash_lots d) (periods d) (user_groups d) (group_periods d) (member_usage d) (billing_reservations d) (reservation_layers d) (allocations d) (ledger d) (usage_requests d) (operations d) (tombstones d) v (audit d).
Definition set_audit v d := BillingDB (users d) (billing_accounts d) (cash_lots d) (periods d) (user_groups d) (group_periods d) (member_usage d) (billing_reservations d) (reservation_layers d) (allocations d) (ledger d) (usage_requests d) (operations d) (tombstones d) (billing_settings d) v.

(** Read through the setters. *)
Ltac btables :=
  cbn [set_accounts set_lots set_periods set_group_periods set_member_usage set_billing_reservations set_allocations
       set_ledger set_usage set_operations set_settings set_audit users billing_accounts cash_lots periods user_groups group_periods
       member_usage billing_reservations reservation_layers allocations ledger usage_requests operations tombstones
       billing_settings audit] in *.

(** ** CHECK constraints *)

Definition account_check (a : account_row) : bool :=
  (0 <=? balance_usd a) && numeric_fits (balance_usd a) && (0 <? next_cash_lot_sequence a).
Definition lot_check (l : lot_row) : bool :=
  (0 <? lot_sequence l) && (0 <? original_usd l) && (0 <=? lot_remaining l) && (lot_remaining l <=? original_usd l) &&
  numeric_fits (original_usd l).
Definition period_check (p : period_row) : bool :=
  (0 <? allowance_usd p) && (0 <=? period_remaining p) && (0 <=? forfeited_usd p) &&
  (period_remaining p + forfeited_usd p <=? allowance_usd p) && numeric_fits (allowance_usd p).
Definition group_period_check (g : group_period_row) : bool :=
  (0 <=? limit_usd g) && (0 <=? used_usd g) && numeric_fits (used_usd g) && numeric_fits (limit_usd g) &&
  match member_limit_usd g with Some m => (0 <=? m) && numeric_fits m | None => true end.
Definition member_check (n : Z) : bool := (0 <=? n) && numeric_fits n.
Definition allocation_check (order : Z) (a : allocation_row) : bool :=
  (0 <? order) && (0 <? al_amount a) && numeric_fits (al_amount a).
Definition charge_check (c : settled_charge) : bool :=
  (0 <=? sc_input_tokens c) && (0 <=? sc_cached_tokens c) && (0 <=? sc_output_tokens c) &&
  (sc_cached_tokens c <=? sc_input_tokens c) &&
  (0 <=? sc_cost c) && (0 <=? sc_charged c) && (0 <=? sc_uncovered c) &&
  (0 <=? sc_group_charged c) && (0 <=? sc_personal_charged c) &&
  (sc_cost c =? sc_charged c + sc_uncovered c) && (sc_charged c =? sc_group_charged c + sc_personal_charged c) &&
  numeric_fits (sc_cost c).
Definition reservation_row_check (r : billing_reservation) : bool :=
  match br_state r, br_charge r, br_settled_at r with
  | Reserved, None, None => true
  | Released, None, Some _ => true
  | Settled, Some c, Some _ => charge_check c
  | _, _, _ => false
  end.
Definition ledger_check (e : ledger_row) : bool :=
  match le_balance_after e with Some b => (0 <=? b) && numeric_fits b | None => true end &&
  match le_cny e with Some c => (0 <=? c) && numeric_fits c | None => true end &&
  match le_rate e with Some r => (0 <? r) && numeric_fits r | None => true end &&
  match le_charge e with Some c => charge_check c | None => true end.

(** ** Statements *)

(** [UPDATE t SET ... WHERE id = k]: no effect on a missing row. *)
Definition update_one {K A} `{Countable K} (operation : string) (get : billing_db -> gmap K A)
  (set : gmap K A -> billing_db -> billing_db) (k : K) (f : A -> A) (check : A -> bool) : tx billing_db unit :=
  let* rows := tgets get in
  match update_rows [k] (fun _ => true) f check rows with
  | None => tfail (ErrInvalid operation)
  | Some (_, rows') => tmod (set rows')
  end.

(** A [$k::numeric] argument. *)
Definition numeric_arg (operation s : string) : tx billing_db Z :=
  match numeric_of s with Some n => tret n | None => tfail (ErrInvalid operation) end.

Definition insert_allocation (operation requestID : string) (order : Z) (a : allocation_row) : tx billing_db unit :=
  tguard (allocation_check order a) (ErrInvalid operation) ;;
  let* rows := tgets allocations in
  tguard (bool_decide (rows !! (requestID, order) = None)) (ErrConflict operation) ;;
  tmod (fun d => set_allocations (<[(requestID, order) := a]> (allocations d)) d).

(** Returns the id of the new entry. *)
Definition insert_ledger (operation : string) (e : ledger_row) : tx billing_db Z :=
  tguard (ledger_check e) (ErrInvalid operation) ;;
  tmod (fun d => set_ledger (ledger d ++ [e]) d) ;;
  tgets (fun d => Z.of_nat (length (ledger d))).

(** A new lot takes the next identity value; (user, sequence) is unique. *)
Definition next_lot_id (m : gmap Z lot_row) : Z := 1 + map_fold (fun k _ acc => Z.max k acc) 0 m.
Definition insert_lot (operation : string) (l : lot_row) : tx billing_db unit :=
  tguard (lot_check l) (ErrInvalid operation) ;;
  let* rows := tgets cash_lots in
  tguard (bool_decide (map_Forall (fun _ x => ~ (lot_user x = lot_user l /\ lot_sequence x = lot_sequence l)) rows))
    (ErrConflict operation) ;;
  tmod (fun d => set_lots (<[next_lot_id (cash_lots d) := l]> (cash_lots d)) d).

(** The lots a debit walks: those of the user with money left, oldest first. *)
Definition lot_le (x y : Z * lot_row) : Prop := lot_sequence x.2 <= lot_sequence y.2.
#[export] Instance lot_le_dec : RelDecision lot_le.
Proof. intros x y. unfold lot_le. apply _. Defined.
Definition lot_selected (userID : string) (cutoff : option Z) (l : lot_row) : bool :=
  bool_decide (lot_user l = userID) && (0 <? lot_remaining l) &&
  match cutoff with Some c => lot_sequence l <=? c | None => true end.
Definition user_lots (userID : string) (cutoff : option Z) (d : billing_db) : list (Z * lot_row) :=
  merge_sort lot_le (map_to_list (filter (fun kv => lot_selected userID cutoff kv.2 = true) (cash_lots d))).

(** ** Sums *)

Definition cash_total (userID : string) (m : gmap Z lot_row) : Z :=
  msum (fun l => if bool_decide (lot_user l = userID) then lot_remaining l else 0) m.
Definition allocated (requestID : string) (m : gmap (string * Z) allocation_row) : Z :=
  map_fold (fun k a acc => (if bool_decide (k.1 = requestID) then al_amount a else 0) + acc) 0 m.

Definition charged_of (r : option billing_reservation) : Z :=
  match r with Some r => match br_charge r with Some c => sc_charged c | None => 0 end | None => 0 end.

(** ** Invariant of the money tables

    An account's balance is what is left in its lots; every row satisfies its
    constraints; the allocations of a request add up to what it was charged,
    and only settled requests have any. *)

Record money_inv (d : billing_db) : Prop := {
  inv_account : forall u a, billing_accounts d !! u = Some a ->
    account_check a = true /\ balance_usd a = cash_total u (cash_lots d);
  inv_lot : forall id l, cash_lots d !! id = Some l -> lot_check l = true /\
    exists a, billing_accounts d !! lot_user l = Some a /\ lot_sequence l < next_cash_lot_sequence a;
  inv_period : forall id p, periods d !! id = Some p -> period_check p = true;
  inv_group_period : forall id g, group_periods d !! id = Some g -> group_period_check g = true;
  inv_member : forall p u n, member_usage d !! (p, u) = Some n ->
    0 <= n /\ exists g, group_periods d !! p = Some g /\ n <= used_usd g;
  inv_reservation_row : forall id r, billing_reservations d !! id = Some r -> reservation_row_check r = true;
  inv_allocated : forall id, allocated id (allocations d) = charged_of (billing_reservations d !! id);
  inv_open_allocations : forall id o, is_Some (allocations d !! (id, o)) ->
    exists r, billing_reservations d !! id = Some r /\ br_state r = Settled;
}.
