(* ===== verification/Charging.v ===== *)
(** * Settlement of a billed request ([internal/store/billing.go], 1990-2462)

    [settleBillingTx] in the pieces the function is made of: the layer that
    pays, the cost of the terminal usage, the group's share, the walk over the
    bound personal sources, and the final writes; and [releaseBillingTx]. *)
From Stdlib Require Import QArith.
From S2P Require Import Prelude GoStrings GoTime Amount Pricing Store Quota Money Funding BillingTables.

Definition BillingModeInternalZero : string := "internal_zero".
Definition zero_amount : string := "0.000000000000".

(** Terminal usage: [state <> 'in_progress']. *)
Definition terminal (u : usage_row) : bool := negb (bool_decide (u_state u = "in_progress")).

(** ** Group rows *)

(** [lockBoundGroupPeriodTx]: the rows must exist and belong together. *)
Definition lockBoundGroupPeriodTx (group period : option string) : tx billing_db unit :=
  match group, period with
  | None, None => tret tt
  | Some g, Some p =>
      let* d := tgets (fun d => d) in
      tguard (bool_decide (g ∈ user_groups d)) (ErrNotFound "lock group") ;;
      match group_periods d !! p with
      | Some row => tguard (bool_decide (gp_group row = g)) (ErrNotFound "lock bound group period")
      | None => tfail (ErrNotFound "lock bound group period")
      end
  | _, _ => tfail (ErrInvalid "incomplete group binding")
  end.

(** [groupMemberRemainingTx], read as text. *)
Definition groupMemberRemainingTx (periodID userID : string) (memberLimit : option string) : tx billing_db (option string) :=
  match memberLimit with
  | None => tret None
  | Some limit =>
      let* limit := numeric_arg "read group member remaining" limit in
      let* used := tgets (fun d => default 0 (member_usage d !! (periodID, userID))) in
      tret (Some (numeric_text (Z.max (limit - used) 0)))
  end.

(** The funds of a group period, as text. *)
Definition read_group_funds (operation groupID periodID : string) : tx billing_db (string * option string) :=
  let* rows := tgets group_periods in
  match rows !! periodID with
  | Some g => if bool_decide (gp_group g = groupID)
              then tret (numeric_text (Z.max (limit_usd g - used_usd g) 0), numeric_text <$> member_limit_usd g)
              else tfail (ErrNotFound operation)
  | None => tfail (ErrNotFound operation)
  end.

(** [bindSettlementLayerTx]: the loop that looks for a candidate with funds. *)
Fixpoint choose_layer (userID : string) (candidates : list fundingLayer) : tx billing_db (option fundingLayer) :=
  match candidates with
  | [] => tret None
  | c :: rest =>
      let* (available, memberLimit) := read_group_funds "read candidate group funding" (groupID c) (groupPeriodID c) in
      if negb (billingPositive available) then choose_layer userID rest else
      let* memberRemaining := groupMemberRemainingTx (groupPeriodID c) userID memberLimit in
      match memberRemaining with
      | None => tret (Some c)
      | Some m => if billingPositive m then tret (Some c) else choose_layer userID rest
      end
  end.

Definition with_group (group period : option string) (r : billing_reservation) : billing_reservation :=
  {| br_user := br_user r; br_api_key := br_api_key r; br_model := br_model r; br_input_price := br_input_price r;
     br_cached_price := br_cached_price r; br_output_price := br_output_price r; br_rule_version := br_rule_version r;
     br_multiplier := br_multiplier r; br_mode := br_mode r; br_catalog := br_catalog r; br_snapshot := br_snapshot r;
     br_cache_write_mode := br_cache_write_mode r; br_requested_tier := br_requested_tier r;
     br_day_period := br_day_period r; br_week_period := br_week_period r; br_month_period := br_month_period r;
     br_cash_cutoff := br_cash_cutoff r; br_sources := br_sources r; br_funding_rule := br_funding_rule r;
     br_group := group; br_group_period := period; br_state := br_state r; br_created_at := br_created_at r;
     br_settled_at := br_settled_at r; br_charge := br_charge r |}.

Definition bindSettlementLayerTx (requestID : string) (reservation : billing_reservation)
  (candidates : list fundingLayer) (personal : bool) : tx billing_db billing_reservation :=
  let* found := choose_layer (br_user reservation) candidates in
  let chosen := match found with Some c => Some c | None => head candidates end in
  if match chosen with Some _ => false | None => true end && negb personal
  then tfail (ErrConflict "rule 4 settlement without a paying layer") else
  let group := groupID <$> chosen in
  let period := groupPeriodID <$> chosen in
  let* rows := tgets billing_reservations in
  match update_rows [requestID] (fun r => bool_decide (br_state r = Reserved)) (with_group group period)
          reservation_row_check rows with
  | None => tfail (ErrInvalid "bind settlement funding layer")
  | Some (n, rows') =>
      tmod (set_billing_reservations rows') ;;
      tguard (negb (n =? 0)) (ErrNotFound "bind settlement funding layer") ;;
      tret (with_group group period reservation)
  end.

(** ** Cost *)

Section pricing.
Context (decode_snapshot : string -> option DecodedSnapshot).

(** The cost, the cache write tokens that were charged and the decision. *)
Definition settlement_cost (r : billing_reservation) (u : usage_row)
  : result store_error (string * Z * option PricingDecision) :=
  let cost_error {A} (m : result amount_error A) : result store_error A :=
    map_err (fun _ => ErrOther "calculate request cost") m in
  if br_rule_version r =? PricingSchemaV1 then
    let! cost := cost_error (CalculateCostWithMultiplier (u_input u) (u_cached u) (u_output u)
                   (br_input_price r) (br_cached_price r) (br_output_price r) (br_multiplier r)) in
    Ok (cost, u_cache_write u, None)
    else
    let! snapshot := map_err (fun _ => ErrOther "parse request pricing snapshot")
                       (ParsePricingSnapshot decode_snapshot (br_snapshot r)) in
    let selectionTier := if bool_decide (br_mode r = BillingModeInternalZero) then "default"
                         else default EmptyString (u_actual_tier u) in
    let! decision := map_err (fun _ => ErrOther "calculate request cost") (Select snapshot selectionTier (u_input u)) in
    let mode := CacheWriteMode (Rule snapshot) in
    let missing := (bool_decide (mode = CacheWriteSeparate) || bool_decide (mode = CacheWriteSeparateByTTL)) &&
                   negb (u_cache_write_present u) in
    let cacheWriteTokens := if missing then wrap64 (u_input u - u_cached u) else u_cache_write u in
    let reason := if missing then AppendFallbackReason (FallbackReason decision) FallbackMissingCacheWriteTokens
                  else FallbackReason decision in
    let with_reason reason :=
      {| PricingServiceTier := PricingServiceTier decision; ContextClass := ContextClass decision;
         d_Input := d_Input decision; d_CachedInput := d_CachedInput decision; d_CacheWrite := d_CacheWrite decision;
         d_CacheWrite5m := d_CacheWrite5m decision; d_CacheWrite1h := d_CacheWrite1h decision;
         d_Output := d_Output decision; FallbackReason := reason |} in
    if bool_decide (mode = CacheWriteSeparateByTTL) then
      let reason := if negb (u_ttl_present u) && (0 <? cacheWriteTokens)
                    then AppendFallbackReason reason FallbackMissingCacheWriteTTL else reason in
      let! cost := cost_error (CalculateCostV2TTLWithMultiplier (u_input u) (u_cached u) cacheWriteTokens
                     (u_write5m u) (u_write1h u) (u_output u) (u_ttl_present u) (d_Input decision) (d_CachedInput decision)
                     (d_CacheWrite5m decision) (d_CacheWrite1h decision) (d_Output decision) (br_multiplier r)) in
      Ok (cost, cacheWriteTokens, Some (with_reason reason))
    else
      let! cost := cost_error (CalculateCostV2WithMultiplier (u_input u) (u_cached u) cacheWriteTokens (u_output u) mode
                     (d_Input decision) (d_CachedInput decision) (d_CacheWrite decision) (d_Output decision)
                     (br_multiplier r)) in
      Ok (cost, cacheWriteTokens, Some (with_reason reason)).

(** [UPDATE usage_requests] with the pricing decision, under pricing rule 2; the
    column is 1 or 2 by its CHECK, so there is a decision exactly under rule 2. *)
Definition record_decision (requestID : string) (tokens : Z) (d : option PricingDecision) : tx billing_db unit :=
  match d with
  | None => tret tt
  | Some dec =>
      update_one "record usage pricing decision" usage_requests set_usage requestID
        (fun u => {| u_state := u_state u; u_endpoint := u_endpoint u; u_model := u_model u; u_requested_at := u_requested_at u;
           u_completed_at := u_completed_at u; u_http_status := u_http_status u; u_error_code := u_error_code u;
           u_duration_ms := u_duration_ms u; u_input := u_input u; u_cached := u_cached u; u_cache_write := tokens;
           u_cache_write_present := u_cache_write_present u; u_output := u_output u; u_actual_tier := u_actual_tier u;
           u_account := u_account u; u_write5m := u_write5m u; u_write1h := u_write1h u; u_ttl_present := u_ttl_present u;
           u_pricing_tier := Some (PricingServiceTier dec); u_context_class := Some (ContextClass dec);
           u_fallback_reason := value_or_nil (FallbackReason dec) |}) (fun _ => true)
  end.
End pricing.

(** ** Charging *)

(** The running totals of the settlement, as text, and the allocation counter. *)
Record charging := Charging { ch_remaining : string; ch_charged : string; ch_cash : string; ch_order : Z }.

Definition money {A} (m : result store_error A) : tx billing_db A := tlift m.

(** The bound group's share under funding rules 2 and later.  A bound period has
    its group: the lock taken before refuses an incomplete binding. *)
Definition charge_group (requestID : string) (r : billing_reservation) (cost : string) (at_ : Z)
  : tx billing_db (charging * string) :=
  let start := Charging cost zero_amount zero_amount 0 in
  match br_group_period r with
  | Some periodID =>
      if (2 <=? br_funding_rule r) && billingPositive cost then
        let* group := tsome "read bound group funding" (br_group r) in
        let* (available, memberLimit) := read_group_funds "read bound group funding" group periodID in
        let* memberRemaining := groupMemberRemainingTx periodID (br_user r) memberLimit in
        let* groupCharged := money (billingMin available cost) in
        let* groupCharged := match memberRemaining with
                             | Some m => money (billingMin groupCharged m)
                             | None => tret groupCharged
                             end in
        if billingPositive groupCharged then
          let* amount := numeric_arg "charge bound group period" groupCharged in
          update_one "charge bound group period" group_periods set_group_periods periodID
            (fun g => GroupPeriod (gp_group g) (limit_usd g) (used_usd g + amount) (member_limit_usd g)) group_period_check ;;
          let* usage := tgets member_usage in
          let total := default 0 (usage !! (periodID, br_user r)) + amount in
          tguard (member_check total) (ErrInvalid "accumulate group member funding") ;;
          tmod (fun d => set_member_usage (<[(periodID, br_user r) := total]> (member_usage d)) d) ;;
          insert_allocation "record group charge allocation" requestID 1
            (Allocation "group" None None (Some periodID) amount at_) ;;
          let* remaining := money (billingSubtract cost groupCharged) in
          tret (Charging remaining groupCharged zero_amount 1, groupCharged)
        else tret (start, groupCharged)
      else tret (start, zero_amount)
  | None => tret (start, zero_amount)
  end.

(** The inner loop over cash lots, read before the loop. *)
Fixpoint charge_lots (requestID : string) (at_ : Z) (lots : list (Z * lot_row)) (c : charging) : tx billing_db charging :=
  match lots with
  | [] => tret c
  | (id, lot) :: rest =>
      if negb (billingPositive (ch_remaining c)) then tret c else
      let* amount := money (billingMin (numeric_text (lot_remaining lot)) (ch_remaining c)) in
      if negb (billingPositive amount) then charge_lots requestID at_ rest c else
      let* n := numeric_arg "charge bound cash lot" amount in
      update_one "charge bound cash lot" cash_lots set_lots id
        (fun l => Lot (lot_user l) (lot_sequence l) (source_ledger_entry_id l) (original_usd l) (lot_remaining l - n) (lot_created_at l))
        lot_check ;;
      let order := ch_order c + 1 in
      insert_allocation "record cash charge allocation" requestID order (Allocation "cash" None (Some id) None n at_) ;;
      let* remaining := money (billingSubtract (ch_remaining c) amount) in
      let* charged := money (billingAdd (ch_charged c) amount) in
      let* cash := money (billingAdd (ch_cash c) amount) in
      charge_lots requestID at_ rest (Charging remaining charged cash order)
  end.

(** A subscription period the source is bound to. *)
Definition bound_period (userID : string) (s : BillingFundingSource) (p : period_row) : bool :=
  bool_decide (period_user p = userID) &&
  ((bool_decide (SourceType s = "subscription") && bool_decide (period_subscription p = SubscriptionID s)) ||
   bool_decide (period_tier p = Some (SourceType s))).

Definition charge_source (requestID userID : string) (at_ : Z) (s : BillingFundingSource) (c : charging) : tx billing_db charging :=
  if negb (bool_decide (SourceType s = "cash")) then
    let* rows := tgets periods in
    let* p := tsome "lock bound subscription period" (rows !! PeriodID s) in
    tguard (bound_period userID s p) (ErrNotFound "lock bound subscription period") ;;
    let* amount := money (billingMin (numeric_text (period_remaining p)) (ch_remaining c)) in
    if negb (billingPositive amount) then tret c else
    let* n := numeric_arg "charge bound subscription period" amount in
    update_one "charge bound subscription period" periods set_periods (PeriodID s)
      (fun p => Period (period_subscription p) (period_user p) (period_tier p) (allowance_usd p) (period_remaining p - n) (forfeited_usd p))
      period_check ;;
    let order := ch_order c + 1 in
    insert_allocation "record subscription charge allocation" requestID order
      (Allocation (SourceType s) (Some (PeriodID s)) None None n at_) ;;
    let* remaining := money (billingSubtract (ch_remaining c) amount) in
    let* charged := money (billingAdd (ch_charged c) amount) in
    tret (Charging remaining charged (ch_cash c) order)
  else
    let* lots := tgets (user_lots userID (Some (CashLotCutoff s))) in
    charge_lots requestID at_ lots c.

Fixpoint charge_sources (requestID userID : string) (at_ : Z) (sources : list BillingFundingSource) (c : charging)
  : tx billing_db charging :=
  match sources with
  | [] => tret c
  | s :: rest =>
      if negb (billingPositive (ch_remaining c)) then tret c else
      let* c := charge_source requestID userID at_ s c in
      charge_sources requestID userID at_ rest c
  end.

(** ** Final writes *)

Definition debit_account (userID cashCharged : string) (at_ : Z) : tx billing_db Z :=
  let* n := numeric_arg "debit billing account" cashCharged in
  let* rows := tgets billing_accounts in
  match rows !! userID with
  | Some a =>
      if n <=? balance_usd a then
        let a' := Account (balance_usd a - n) (next_cash_lot_sequence a) at_ in
        tguard (account_check a') (ErrInvalid "debit billing account") ;;
        tmod (fun d => set_accounts (<[userID := a']> (billing_accounts d)) d) ;;
        tret (balance_usd a')
      else tfail (ErrNotFound "debit billing account")
  | None => tfail (ErrNotFound "debit billing account")
  end.

Definition pricing_record_of (u : usage_row) (tokens : Z) (d : PricingDecision) : pricing_record :=
  {| pr_cache_write_tokens := tokens; pr_actual_service_tier := value_or_nil (default EmptyString (u_actual_tier u));
     pr_pricing_service_tier := PricingServiceTier d; pr_actual_model := u_model u; pr_context_class := ContextClass d;
     pr_input := d_Input d; pr_cached := d_CachedInput d; pr_cache_write := d_CacheWrite d; pr_output := d_Output d;
     pr_fallback_reason := value_or_nil (FallbackReason d);
     pr_write5m_tokens := if u_ttl_present u then Some (u_write5m u) else None;
     pr_write1h_tokens := if u_ttl_present u then Some (u_write1h u) else None;
     pr_ttl_present := u_ttl_present u;
     pr_write5m := value_or_nil (d_CacheWrite5m d); pr_write1h := value_or_nil (d_CacheWrite1h d) |}.

Definition settle_row (c : settled_charge) (at_ : Z) (r : billing_reservation) : billing_reservation :=
  {| br_user := br_user r; br_api_key := br_api_key r; br_model := br_model r; br_input_price := br_input_price r;
     br_cached_price := br_cached_price r; br_output_price := br_output_price r; br_rule_version := br_rule_version r;
     br_multiplier := br_multiplier r; br_mode := br_mode r; br_catalog := br_catalog r; br_snapshot := br_snapshot r;
     br_cache_write_mode := br_cache_write_mode r; br_requested_tier := br_requested_tier r;
     br_day_period := br_day_period r; br_week_period := br_week_period r; br_month_period := br_month_period r;
     br_cash_cutoff := br_cash_cutoff r; br_sources := br_sources r; br_funding_rule := br_funding_rule r;
     br_group := br_group r; br_group_period := br_group_period r; br_state := Settled; br_created_at := br_created_at r;
     br_settled_at := Some at_; br_charge := Some c |}.

(** The ledger entry, the rule 1 group total and the settled reservation. *)
Definition finish_settlement (requestID : string) (r : billing_reservation) (u : usage_row) (tokens : Z)
  (decision : option PricingDecision) (cost groupCharged : string) (c : charging) (at_ : Z) : tx billing_db billing_reservation :=
  let* personalCharged := money (billingSubtract (ch_charged c) groupCharged) in
  let* balanceAfter := debit_account (br_user r) (ch_cash c) at_ in
  let op := "record usage billing ledger" in
  let* cost_n := numeric_arg op cost in
  let* charged_n := numeric_arg op (ch_charged c) in
  let* uncovered_n := numeric_arg op (ch_remaining c) in
  let* cash_n := numeric_arg op (ch_cash c) in
  let* group_n := numeric_arg op groupCharged in
  let* personal_n := numeric_arg op personalCharged in
  let charge := {| sc_input_tokens := u_input u; sc_cached_tokens := u_cached u; sc_output_tokens := u_output u;
                   sc_cost := cost_n; sc_charged := charged_n; sc_uncovered := uncovered_n;
                   sc_group_charged := group_n; sc_personal_charged := personal_n;
                   sc_pricing := pricing_record_of u tokens <$> decision |} in
  let* _ := insert_ledger op
    {| le_user := br_user r; le_operation := None; le_entry_type := "usage_charge"; le_amount := cost_n;
       le_cash_delta := - cash_n; le_balance_after := Some balanceAfter; le_cny := None; le_rate := None;
       le_reason := "request usage charge"; le_actor := None; le_created_at := at_; le_request := Some requestID;
       le_model := Some (br_model r); le_usage_requested_at := Some (u_requested_at u);
       le_account := value_or_nil (default EmptyString (u_account u)); le_group := br_group r; le_group_period := br_group_period r;
       le_rule_version := Some (br_rule_version r); le_multiplier := Some (br_multiplier r); le_charge := Some charge |} in
  match br_group_period r with
  | Some p => if br_funding_rule r =? 1 then
                update_one "accumulate group usage" group_periods set_group_periods p
                  (fun g => GroupPeriod (gp_group g) (limit_usd g) (used_usd g + cost_n) (member_limit_usd g)) group_period_check
              else tret tt
  | None => tret tt
  end ;;
  let* rows := tgets billing_reservations in
  match update_rows [requestID] (fun _ => true) (settle_row charge at_) reservation_row_check rows with
  | None => tfail (ErrInvalid "settle billing reservation")
  | Some (n, rows') =>
      tguard (negb (n =? 0)) (ErrNotFound "settle billing reservation") ;;
      tmod (set_billing_reservations rows') ;;
      tret (settle_row charge at_ r)
  end.

(** ** The transaction *)

(** The candidate groups are locked in id order, each before its period. *)
Definition locking (candidates : list fundingLayer) : list fundingLayer :=
  stable_sort (fun a b => str_ltb (groupID a) (groupID b)) candidates.
Fixpoint lock_layers (layers : list fundingLayer) : tx billing_db unit :=
  match layers with
  | [] => tret tt
  | l :: rest => lockBoundGroupPeriodTx (Some (groupID l)) (Some (groupPeriodID l)) ;; lock_layers rest
  end.

(** [readFundingLayersTx]; the rows are kept in position order. *)
Definition readFundingLayersTx (requestID : string) : tx billing_db (list fundingLayer) :=
  let* layers := tgets (fun d => default [] (reservation_layers d !! requestID)) in
  match layers with
  | [] => tfail (ErrConflict "rule 4 reservation without funding layers")
  | _ => tret layers
  end.

Section settle.
Context (decode_snapshot : string -> option DecodedSnapshot).

Definition read_terminal_usage (operation requestID : string) : tx billing_db usage_row :=
  let* rows := tgets usage_requests in
  let* u := tsome operation (rows !! requestID) in
  tguard (terminal u) (ErrNotFound operation) ;; tret u.

Definition settleBillingTx (clock : Z) (requestID : string) (at_ : Z) : tx billing_db billing_reservation :=
  tguard (negb (bool_decide (requestID = EmptyString))) (ErrInvalid "empty billing request id") ;;
  let at_ := if is_zero_time at_ then clock else at_ in
  let* rows := tgets billing_reservations in
  let* pre := tsome "read billing reservation" (rows !! requestID) in
  let* (candidates, personal) :=
    if (br_funding_rule pre =? 4) && bool_decide (br_state pre = Reserved) then
      let* layers := readFundingLayersTx requestID in
      let* u := read_terminal_usage "read terminal usage account" requestID in
        let '(candidates, personal, _) := settlementLayerCandidates layers (default EmptyString (u_account u)) in
  lock_layers (locking candidates) ;; tret (candidates, personal)
    else lockBoundGroupPeriodTx (br_group pre) (br_group_period pre) ;; tret ([], false) in
  match br_state pre with
  | Settled => tret pre
  | Released => tfail (ErrConflict "settle released billing reservation")
  | Reserved =>
      let* u := read_terminal_usage "read terminal usage for billing" requestID in
      let* r := if br_funding_rule pre =? 4 then bindSettlementLayerTx requestID pre candidates personal else tret pre in
      let* (cost, tokens, decision) := tlift (settlement_cost decode_snapshot r u) in
      record_decision requestID tokens decision ;;
      let* (c, groupCharged) := charge_group requestID r cost at_ in
      let* sources := tlift (billingSettlementSources (br_funding_rule r) (br_sources r) (br_day_period r)
                               (br_week_period r) (br_month_period r) (br_cash_cutoff r)) in
      let* c := charge_sources requestID (br_user r) at_ sources c in
      finish_settlement requestID r u tokens decision cost groupCharged c at_
  end.

Definition SettleBilling (clock : Z) (requestID : string) (at_ : Z) (d : billing_db)
  : result store_error billing_reservation * billing_db :=
  let at_ := if is_zero_time at_ then clock else at_ in
  withTx (settleBillingTx clock requestID at_) d.
End settle.

(** ** Release *)

Definition release_row (at_ : Z) (r : billing_reservation) : billing_reservation :=
  {| br_user := br_user r; br_api_key := br_api_key r; br_model := br_model r; br_input_price := br_input_price r;
     br_cached_price := br_cached_price r; br_output_price := br_output_price r; br_rule_version := br_rule_version r;
     br_multiplier := br_multiplier r; br_mode := br_mode r; br_catalog := br_catalog r; br_snapshot := br_snapshot r;
     br_cache_write_mode := br_cache_write_mode r; br_requested_tier := br_requested_tier r;
     br_day_period := br_day_period r; br_week_period := br_week_period r; br_month_period := br_month_period r;
     br_cash_cutoff := br_cash_cutoff r; br_sources := br_sources r; br_funding_rule := br_funding_rule r;
     br_group := br_group r; br_group_period := br_group_period r; br_state := Released; br_created_at := br_created_at r;
     br_settled_at := Some at_; br_charge := br_charge r |}.

Definition releaseBillingTx (clock : Z) (requestID : string) (at_ : Z) : tx billing_db unit :=
  tguard (negb (bool_decide (requestID = EmptyString))) (ErrInvalid "empty billing request id") ;;
  let at_ := if is_zero_time at_ then clock else at_ in
  let* rows := tgets billing_reservations in
  let* r := tsome "lock billing reservation for release" (rows !! requestID) in
  match br_state r with
  | Released => tret tt
  | Settled => tfail (ErrConflict "release settled billing reservation")
  | Reserved =>
      match update_rows [requestID] (fun r => bool_decide (br_state r = Reserved)) (release_row at_)
              reservation_row_check rows with
      | None => tfail (ErrInvalid "release billing reservation")
      | Some (n, rows') =>
          tmod (set_billing_reservations rows') ;;
          tguard (negb (n =? 0)) (ErrNotFound "release billing reservation")
      end
  end.

Definition ReleaseBilling (clock : Z) (requestID : string) (at_ : Z) (d : billing_db) : result store_error unit * billing_db :=
  let at_ := if is_zero_time at_ then clock else at_ in
  withTx (releaseBillingTx clock requestID at_) d.
