(* ===== verification/Settling.v ===== *)
(** * The laws of settlement

    What [Charging] does to the money tables: every write keeps the balances
    equal to the cash lots, the walk over the sources conserves the amount, and
    a settlement with its rows in place commits.  The claims are at the end. *)
From Stdlib Require Import QArith.
From S2P Require Import Prelude GoStrings GoTime Amount Pricing Store Quota Money Funding BillingTables Charging.

(** ** Cost of the terminal usage *)

Lemma multiply_nonneg total m c :
  (0 <= total)%Q -> multiplyCostAndRound total m = Ok c ->
  exists n, c = numeric_text n /\ 0 <= n < pow10 30.
Proof.
  intros Ht (x & f & _ & _ & Hf & H)%multiply_spec. rewrite roundAmount_eq in H.
  destruct (Z.ltb_spec (Z.abs (roundScaled (total * f) AmountScale)) (pow10 30)) as [Hlt|]; [|done]. injection H as <-.
  exists (roundScaled (total * f) AmountScale). split; [done|].
  assert (0 <= roundScaled (total * f) AmountScale); [|lia].
  apply roundScaled_nonneg, Qmult_le_0_compat; [done|]. by apply Qlt_le_weak.
Qed.

Lemma Qnonneg_plus a b : (0 <= a)%Q -> (0 <= b)%Q -> (0 <= a + b)%Q.
Proof. intros Ha Hb. rewrite <- (Qplus_0_l 0). by apply Qplus_le_compat. Qed.
Lemma Qnonneg_tokens n p : 0 <= n -> (0 <= p)%Q -> (0 <= inject_Z n * p)%Q.
Proof. intros Hn Hp. apply Qmult_le_0_compat; [|done]. unfold Qle, inject_Z. simpl. lia. Qed.
Lemma Qnonneg_million a : (0 <= a)%Q -> (0 <= a / million)%Q.
Proof. intros Ha. unfold Qdiv. apply Qmult_le_0_compat; [done|]. by vm_compute. Qed.
Create HintDb cost discriminated.
#[export] Hint Resolve Qnonneg_plus Qnonneg_tokens Qnonneg_million : cost.

(** The token counts a usage row can have. *)
Definition usage_counts (u : usage_row) : Prop :=
  0 <= u_cached u <= u_input u /\ 0 <= u_output u /\ u_input u <= max_int64.

Lemma uncached_tokens a b : 0 <= b <= a -> a <= max_int64 -> wrap64 (a - b) = a - b.
Proof. intros H Ha. apply wrap64_id. unfold is_int64, min_int64, max_int64 in *. lia. Qed.

Ltac nonneg_prices :=
  repeat match goal with
  | H : priceRat _ = Ok _ |- _ => apply priceRat_spec in H as [? _]
  end.

Lemma cost_v1_amount i c o pi pc po m r :
  i <= max_int64 -> CalculateCostWithMultiplier i c o pi pc po m = Ok r ->
  0 <= c <= i /\ 0 <= o /\ exists n, r = numeric_text n /\ 0 <= n < pow10 30.
Proof.
  intros Hi H. unfold CalculateCostWithMultiplier in H. destruct (_ || _) eqn:E; [done|]. breflect.
  inv_bind H. inv_bind H. inv_bind H. nonneg_prices. rewrite uncached_tokens in H by lia.
  split; [lia|]. split; [lia|]. eapply multiply_nonneg; [|exact H]. auto 10 with cost lia zarith.
Qed.

Lemma cost_v2_amount i c w o mode pi pc pw po m r :
  i <= max_int64 -> CalculateCostV2WithMultiplier i c w o mode pi pc pw po m = Ok r ->
  0 <= c <= i /\ 0 <= o /\ exists n, r = numeric_text n /\ 0 <= n < pow10 30.
Proof.
  intros Hi H. unfold CalculateCostV2WithMultiplier in H. destruct (_ || _) eqn:E; [done|]. breflect.
  destruct (_ && _); [done|]. rewrite uncached_tokens in H by lia.
  destruct (bool_decide (mode = "separate")) eqn:Em; cbn [andb] in H.
  - destruct (Z.ltb_spec (i - c) w); [done|]. inv_bind H. inv_bind H. inv_bind H. inv_bind H. nonneg_prices.
    rewrite uncached_tokens in H by lia. split; [lia|]. split; [lia|]. eapply multiply_nonneg; [|exact H].
    apply Qnonneg_million. repeat apply Qnonneg_plus; apply Qnonneg_tokens; (done || lia).
  - inv_bind H. inv_bind H. inv_bind H. inv_bind H. nonneg_prices. split; [lia|]. split; [lia|].
    eapply multiply_nonneg; [|exact H]. apply Qnonneg_million. repeat apply Qnonneg_plus; apply Qnonneg_tokens; (done || lia).
Qed.

Lemma cost_ttl_amount i c w w5 w1 o t pi pc p5 p1 po m r :
  i <= max_int64 -> CalculateCostV2TTLWithMultiplier i c w w5 w1 o t pi pc p5 p1 po m = Ok r ->
  0 <= c <= i /\ 0 <= o /\ exists n, r = numeric_text n /\ 0 <= n < pow10 30.
Proof.
  intros Hi H. unfold CalculateCostV2TTLWithMultiplier in H. destruct (_ || _) eqn:E; [done|]. breflect.
  assert (Eu : wrap64 (i - c) = i - c) by (apply uncached_tokens; lia). rewrite Eu in *.
  assert (Ew : wrap64 (i - c - w) = i - c - w) by (apply uncached_tokens; lia). rewrite Ew in *.
  do 2 (match type of H with (if ?b then _ else _) = _ => destruct b eqn:?; [done|] end).
  do 5 inv_bind H. nonneg_prices. breflect.
  split; [lia|]. split; [lia|]. eapply multiply_nonneg; [|exact H]. apply Qnonneg_million.
  destruct t; [|destruct (rat_gtb _ _)]; repeat apply Qnonneg_plus; apply Qnonneg_tokens; (done || lia).
Qed.

Lemma map_err_Ok {E F A} (f : E -> F) (m : result E A) a : map_err f m = Ok a <-> m = Ok a.
Proof. destruct m; cbn; split; congruence. Qed.

(** The cost of a settlement is a column amount, and the usage it prices is
    consistent. *)
Lemma settlement_cost_amount decode r u cost tokens decision :
  u_input u <= max_int64 -> settlement_cost decode r u = Ok (cost, tokens, decision) ->
  usage_counts u /\ exists n, cost = numeric_text n /\ 0 <= n < pow10 30.
Proof.
  intros Hi H. unfold settlement_cost in H. unfold usage_counts. destruct (br_rule_version r =? PricingSchemaV1).
  - inv_bind H. apply map_err_Ok, cost_v1_amount in Hm; [|done]. injection H as -> _ _. tauto.
  - inv_bind H. inv_bind H. destruct (bool_decide (CacheWriteMode _ = CacheWriteSeparateByTTL));
      inv_bind H; injection H as -> _ _; apply map_err_Ok in Hm1;
      [apply cost_ttl_amount in Hm1|apply cost_v2_amount in Hm1]; tauto.
Qed.

(** ** The walk over the sources *)

Lemma allocated_insert (q req : string) (o : Z) (a : allocation_row) (m : gmap (string * Z) allocation_row) :
  m !! (req, o) = None ->
  allocated q (<[(req, o) := a]> m) = allocated q m + (if bool_decide (q = req) then al_amount a else 0).
Proof.
  intros H. unfold allocated. rewrite map_fold_insert_L; [|intros; lia|done]. cbn.
  rewrite (bool_decide_ext (req = q) (q = req)) by (split; congruence). lia.
Qed.

Lemma cash_total_update (u : string) (id : Z) (l l' : lot_row) (m : gmap Z lot_row) :
  m !! id = Some l -> lot_user l' = lot_user l ->
  cash_total u (<[id := l']> m) =
    cash_total u m + (if bool_decide (lot_user l = u) then lot_remaining l' - lot_remaining l else 0).
Proof.
  intros Hl Hu. unfold cash_total. rewrite (msum_update _ _ _ l) by done. rewrite Hu. case_bool_decide; lia.
Qed.

Lemma cash_total_nonneg (u : string) (m : gmap Z lot_row) :
  (forall id l, m !! id = Some l -> 0 <= lot_remaining l) -> 0 <= cash_total u m.
Proof. intros H. apply msum_nonneg. intros i x Hx. specialize (H i x Hx). case_bool_decide; lia. Qed.

(** A row from which only money was taken. *)
Definition lot_shrinks (l0 l : lot_row) : Prop :=
  l = Lot (lot_user l0) (lot_sequence l0) (source_ledger_entry_id l0) (original_usd l0) (lot_remaining l) (lot_created_at l0) /\
  0 <= lot_remaining l <= lot_remaining l0.
Definition period_shrinks (p0 p : period_row) : Prop :=
  p = Period (period_subscription p0) (period_user p0) (period_tier p0) (allowance_usd p0) (period_remaining p) (forfeited_usd p0) /\
  0 <= period_remaining p <= period_remaining p0.

(** Where the settlement of [req] for [user] stands: [r] is still owed, [g] is
    charged, [k] of it in cash, starting from the tables [d0]. *)
Record walk (d0 d : billing_db) (req user : string) (cost : Z) (c : charging) (r g k : Z) : Prop := {
  w_text : c = Charging (numeric_text r) (numeric_text g) (numeric_text k) (ch_order c);
  w_sums : 0 <= r /\ r + g = cost /\ 0 <= k <= g;
  w_allocated : allocated req (allocations d) = g;
  w_orders : 0 <= ch_order c /\ forall o, is_Some (allocations d !! (req, o)) -> 1 <= o <= ch_order c;
  w_others : forall q o, q <> req -> allocations d !! (q, o) = allocations d0 !! (q, o);
  w_others_sum : forall q, q <> req -> allocated q (allocations d) = allocated q (allocations d0);
  w_cash : forall u, cash_total u (cash_lots d) = cash_total u (cash_lots d0) - (if bool_decide (u = user) then k else 0);
  w_lots : forall id, option_Forall2 lot_shrinks (cash_lots d0 !! id) (cash_lots d !! id);
  w_periods : forall id, option_Forall2 period_shrinks (periods d0 !! id) (periods d !! id);
  w_lot_rows : forall id l, cash_lots d !! id = Some l -> lot_check l = true;
  w_period_rows : forall id p, periods d !! id = Some p -> period_check p = true;
  w_frame : d = BillingDB (users d0) (billing_accounts d0) (cash_lots d) (periods d) (user_groups d0) (group_periods d0)
      (member_usage d0) (billing_reservations d0) (reservation_layers d0) (allocations d) (ledger d0) (usage_requests d0)
      (operations d0) (tombstones d0) (billing_settings d0) (audit d0);
}.

Lemma update_one_eq {K A} `{Countable K} op (get : billing_db -> gmap K A) set k f check d v {B} (next : unit -> tx billing_db B) :
  get d !! k = Some v ->
  tbind (update_one op get set k f check) next d =
    if check (f v) then next tt (set (<[k := f v]> (get d)) d) else Err (ErrInvalid op).
Proof.
  intros Hv. unfold update_one. unfold tbind at 1. rewrite tgets_bind. cbn [update_rows]. rewrite Hv. by destruct (check (f v)).
Qed.

Lemma insert_allocation_eq op req o a d {B} (next : unit -> tx billing_db B) :
  allocation_check o a = true -> allocations d !! (req, o) = None ->
  tbind (insert_allocation op req o a) next d = next tt (set_allocations (<[(req, o) := a]> (allocations d)) d).
Proof.
  intros Hc Hn. unfold insert_allocation. unfold tbind at 1. rewrite tguard_bind, Hc, tgets_bind, tguard_bind.
  rewrite bool_decide_true by done. done.
Qed.

Lemma tlift_Ok_bind {A B} (a : A) (k : A -> tx billing_db B) d : tbind (tlift (Ok a)) k d = k a d.
Proof. done. Qed.

Lemma numeric_arg_bind {B} op n (k : Z -> tx billing_db B) d : tbind (numeric_arg op (numeric_text n)) k d = k n d.
Proof. unfold numeric_arg. by rewrite numeric_of_text. Qed.

Lemma numeric_fits_le a b : 0 <= a <= b -> numeric_fits b = true -> numeric_fits a = true.
Proof. unfold numeric_fits. lia. Qed.

Lemma next_order_free d0 d req user cost c r g k :
  walk d0 d req user cost c r g k -> allocations d !! (req, ch_order c + 1) = None.
Proof.
  intros W. destruct (allocations d !! (req, ch_order c + 1)) eqn:E; [|done].
  destruct (w_orders _ _ _ _ _ _ _ _ _ W) as [_ H]. specialize (H (ch_order c + 1)). rewrite E in H. specialize (H (mk_is_Some _ _ eq_refl)). lia.
Qed.

Lemma lot_shrinks_refl l : 0 <= lot_remaining l -> lot_shrinks l l.
Proof. intros. split; [by destruct l|lia]. Qed.
Lemma period_shrinks_refl p : 0 <= period_remaining p -> period_shrinks p p.
Proof. intros. split; [by destruct p|lia]. Qed.

(** Taking [n] out of a lot. *)
Definition take_lot (n : Z) (l : lot_row) : lot_row :=
  Lot (lot_user l) (lot_sequence l) (source_ledger_entry_id l) (original_usd l) (lot_remaining l - n) (lot_created_at l).
Definition take_period (n : Z) (p : period_row) : period_row :=
  Period (period_subscription p) (period_user p) (period_tier p) (allowance_usd p) (period_remaining p - n) (forfeited_usd p).

Lemma lot_shrinks_take l0 l n : lot_shrinks l0 l -> 0 <= n <= lot_remaining l -> lot_shrinks l0 (take_lot n l).
Proof. intros [-> H] Hn. cbn in *. split; [done|]. cbn. lia. Qed.
Lemma period_shrinks_take p0 p n : period_shrinks p0 p -> 0 <= n <= period_remaining p -> period_shrinks p0 (take_period n p).
Proof. intros [-> H] Hn. cbn in *. split; [done|]. cbn. lia. Qed.

Lemma lot_check_take l n : lot_check l = true -> 0 < n <= lot_remaining l -> lot_check (take_lot n l) = true.
Proof.
  unfold lot_check, take_lot. cbn [lot_sequence original_usd lot_remaining]. intros [H F]%andb_true_iff Hn.
  rewrite F, andb_true_r. lia.
Qed.
Lemma period_check_take p n : period_check p = true -> 0 < n <= period_remaining p -> period_check (take_period n p) = true.
Proof.
  unfold period_check, take_period. cbn [allowance_usd period_remaining forfeited_usd]. intros [H F]%andb_true_iff Hn.
  rewrite F, andb_true_r. lia.
Qed.

(** A cash step keeps the walk. *)
Lemma walk_lot d0 d req user cost c r g k id l n :
  walk d0 d req user cost c r g k -> cash_lots d !! id = Some l -> lot_user l = user -> 0 < n <= lot_remaining l -> n <= r ->
  forall at_, walk d0 (set_allocations (<[(req, ch_order c + 1) := Allocation "cash" None (Some id) None n at_]> (allocations d))
                  (set_lots (<[id := take_lot n l]> (cash_lots d)) d))
    req user cost (Charging (numeric_text (r - n)) (numeric_text (g + n)) (numeric_text (k + n)) (ch_order c + 1))
    (r - n) (g + n) (k + n).
Proof.
  intros W Hl Hu Hn Hr at_. pose proof (next_order_free _ _ _ _ _ _ _ _ _ W) as Hfree.
  pose proof (w_orders _ _ _ _ _ _ _ _ _ W) as [Ho Horders]. pose proof (w_sums _ _ _ _ _ _ _ _ _ W) as Hs.
  split; btables.
  - done.
  - lia.
  - rewrite allocated_insert by done. rewrite (w_allocated _ _ _ _ _ _ _ _ _ W), bool_decide_true by done. done.
  - cbn. split; [lia|]. intros o [x Hx]. apply lookup_insert_Some in Hx as [[[= <-] _]|[_ Hx]]; [lia|].
    specialize (Horders o (mk_is_Some _ _ Hx)). lia.
  - intros q o Hq. rewrite lookup_insert_ne by congruence. by apply (w_others _ _ _ _ _ _ _ _ _ W).
  - intros q Hq. rewrite allocated_insert, bool_decide_false by done. rewrite (w_others_sum _ _ _ _ _ _ _ _ _ W) by done. lia.
  - intros u. rewrite (cash_total_update _ _ l) by done. rewrite (w_cash _ _ _ _ _ _ _ _ _ W), Hu.
    rewrite (bool_decide_ext (user = u) (u = user)) by (split; congruence). cbn. case_bool_decide; lia.
  - intros i. destruct (decide (i = id)) as [->|Hi].
    + rewrite lookup_insert_eq. pose proof (w_lots _ _ _ _ _ _ _ _ _ W id) as H. rewrite Hl in H.
      inversion H as [x y Hxy E1 E2|]; subst. constructor. apply lot_shrinks_take; [done|lia].
    + rewrite lookup_insert_ne by done. apply (w_lots _ _ _ _ _ _ _ _ _ W).
  - apply (w_periods _ _ _ _ _ _ _ _ _ W).
  - intros i x [[<- <-]|[_ Hx]]%lookup_insert_Some; [|by apply (w_lot_rows _ _ _ _ _ _ _ _ _ W) in Hx].
    apply (w_lot_rows _ _ _ _ _ _ _ _ _ W) in Hl. by apply lot_check_take.
  - apply (w_period_rows _ _ _ _ _ _ _ _ _ W).
  - pose proof (w_frame _ _ _ _ _ _ _ _ _ W) as E. by rewrite E.
Qed.

(** A subscription step keeps the walk. *)
Lemma walk_period d0 d req user cost c r g k id p kind n :
  walk d0 d req user cost c r g k -> periods d !! id = Some p -> 0 < n <= period_remaining p -> n <= r ->
  forall at_, walk d0 (set_allocations (<[(req, ch_order c + 1) := Allocation kind (Some id) None None n at_]> (allocations d))
                  (set_periods (<[id := take_period n p]> (periods d)) d))
    req user cost (Charging (numeric_text (r - n)) (numeric_text (g + n)) (numeric_text k) (ch_order c + 1))
    (r - n) (g + n) k.
Proof.
  intros W Hp Hn Hr at_. pose proof (next_order_free _ _ _ _ _ _ _ _ _ W) as Hfree.
  pose proof (w_orders _ _ _ _ _ _ _ _ _ W) as [Ho Horders]. pose proof (w_sums _ _ _ _ _ _ _ _ _ W) as Hs.
  split; btables.
  - done.
  - lia.
  - rewrite allocated_insert by done. rewrite (w_allocated _ _ _ _ _ _ _ _ _ W), bool_decide_true by done. done.
  - cbn. split; [lia|]. intros o [x Hx]. apply lookup_insert_Some in Hx as [[[= <-] _]|[_ Hx]]; [lia|].
    specialize (Horders o (mk_is_Some _ _ Hx)). lia.
  - intros q o Hq. rewrite lookup_insert_ne by congruence. by apply (w_others _ _ _ _ _ _ _ _ _ W).
  - intros q Hq. rewrite allocated_insert, bool_decide_false by done. rewrite (w_others_sum _ _ _ _ _ _ _ _ _ W) by done. lia.
  - apply (w_cash _ _ _ _ _ _ _ _ _ W).
  - apply (w_lots _ _ _ _ _ _ _ _ _ W).
  - intros i. destruct (decide (i = id)) as [->|Hi].
    + rewrite lookup_insert_eq. pose proof (w_periods _ _ _ _ _ _ _ _ _ W id) as H. rewrite Hp in H.
      inversion H as [x y Hxy E1 E2|]; subst. constructor. apply period_shrinks_take; [done|lia].
    + rewrite lookup_insert_ne by done. apply (w_periods _ _ _ _ _ _ _ _ _ W).
  - apply (w_lot_rows _ _ _ _ _ _ _ _ _ W).
  - intros i x [[<- <-]|[_ Hx]]%lookup_insert_Some; [|by apply (w_period_rows _ _ _ _ _ _ _ _ _ W) in Hx].
    apply (w_period_rows _ _ _ _ _ _ _ _ _ W) in Hp. by apply period_check_take.
  - pose proof (w_frame _ _ _ _ _ _ _ _ _ W) as E. by rewrite E.
Qed.

(** Later tables: rows only lost money. *)
Definition later (d d' : billing_db) : Prop :=
  (forall id, option_Forall2 lot_shrinks (cash_lots d !! id) (cash_lots d' !! id)) /\
  (forall id, option_Forall2 period_shrinks (periods d !! id) (periods d' !! id)).

Lemma lot_shrinks_trans a b c : lot_shrinks a b -> lot_shrinks b c -> lot_shrinks a c.
Proof.
  destruct a, b, c. unfold lot_shrinks. cbn. intros [[= -> -> -> -> ->] ?] [[= -> -> -> -> ->] ?]. split; [done|lia].
Qed.
Lemma period_shrinks_trans a b c : period_shrinks a b -> period_shrinks b c -> period_shrinks a c.
Proof.
  destruct a, b, c. unfold period_shrinks. cbn. intros [[= -> -> -> -> ->] ?] [[= -> -> -> -> ->] ?]. split; [done|lia].
Qed.
Lemma option_shrinks_trans {A} (R : A -> A -> Prop) (x y z : option A) :
  (forall a b c, R a b -> R b c -> R a c) -> option_Forall2 R x y -> option_Forall2 R y z -> option_Forall2 R x z.
Proof. intros HR H1 H2. destruct H1; inversion H2; subst; constructor. by eapply HR. Qed.

Lemma later_trans d d' d'' : later d d' -> later d' d'' -> later d d''.
Proof.
  intros [L1 P1] [L2 P2]. split; intros id.
  - eapply option_shrinks_trans; [apply lot_shrinks_trans|apply L1|apply L2].
  - eapply option_shrinks_trans; [apply period_shrinks_trans|apply P1|apply P2].
Qed.

Lemma later_refl d0 d req user cost c r g k : walk d0 d req user cost c r g k -> later d d.
Proof.
  intros W. split; intros id.
  - destruct (cash_lots d !! id) as [l|] eqn:E; constructor. apply lot_shrinks_refl.
    apply (w_lot_rows _ _ _ _ _ _ _ _ _ W) in E. unfold lot_check in E. breflect. done.
  - destruct (periods d !! id) as [p|] eqn:E; constructor. apply period_shrinks_refl.
    apply (w_period_rows _ _ _ _ _ _ _ _ _ W) in E. unfold period_check in E. breflect. done.
Qed.

Definition lot_drained (d : billing_db) (id : Z) : Prop := exists l, cash_lots d !! id = Some l /\ lot_remaining l = 0.
Definition period_drained (d : billing_db) (id : string) : Prop := exists p, periods d !! id = Some p /\ period_remaining p = 0.

Lemma lot_drained_later d d' id : later d d' -> lot_drained d id -> lot_drained d' id.
Proof.
  intros [L _] (l & Hl & Hz). specialize (L id). rewrite Hl in L. inversion L as [a b [_ Hab] E1 E2|]; subst.
  exists b. split; [done|]. lia.
Qed.
Lemma period_drained_later d d' id : later d d' -> period_drained d id -> period_drained d' id.
Proof.
  intros [_ P] (p & Hp & Hz). specialize (P id). rewrite Hp in P. inversion P as [a b [_ Hab] E1 E2|]; subst.
  exists b. split; [done|]. lia.
Qed.

Lemma later_lot d0 d req user cost c r g k id l n a :
  walk d0 d req user cost c r g k -> cash_lots d !! id = Some l -> 0 <= n <= lot_remaining l ->
  later d (set_allocations a (set_lots (<[id := take_lot n l]> (cash_lots d)) d)).
Proof.
  intros W Hl Hn. destruct (later_refl _ _ _ _ _ _ _ _ _ W) as [L P]. split; [|done]. intros i. btables.
  destruct (decide (i = id)) as [->|Hi]; [|by rewrite lookup_insert_ne]. rewrite lookup_insert_eq.
  specialize (L id). rewrite Hl in L |- *. inversion L; subst. constructor. by apply lot_shrinks_take.
Qed.

Lemma later_period d0 d req user cost c r g k id p n a :
  walk d0 d req user cost c r g k -> periods d !! id = Some p -> 0 <= n <= period_remaining p ->
  later d (set_allocations a (set_periods (<[id := take_period n p]> (periods d)) d)).
Proof.
  intros W Hp Hn. destruct (later_refl _ _ _ _ _ _ _ _ _ W) as [L P]. split; [done|]. intros i. btables.
  destruct (decide (i = id)) as [->|Hi]; [|by rewrite lookup_insert_ne]. rewrite lookup_insert_eq.
  specialize (P id). rewrite Hp in P |- *. inversion P; subst. constructor. by apply period_shrinks_take.
Qed.

Lemma charge_lots_walk d0 req user cost at_ lots d c r g k :
  walk d0 d req user cost c r g k -> NoDup lots.*1 ->
  (forall id l, (id, l) ∈ lots -> cash_lots d !! id = Some l /\ lot_user l = user /\ 0 < lot_remaining l) ->
  exists c' d' r' g' k', charge_lots req at_ lots c d = Ok (c', d') /\ walk d0 d' req user cost c' r' g' k' /\ later d d' /\
    (r' <= r /\ g - k <= g' - k') /\ (0 < r' -> forall id l, (id, l) ∈ lots -> lot_drained d' id).
Proof.
  revert d c r g k. induction lots as [|[id l] lots IH]; intros d c r g k W Hnd Hin.
  { exists c, d, r, g, k. split; [done|]. split; [done|]. split; [by eapply later_refl|]. split; [lia|]. intros _ i x []%elem_of_nil. }
  cbn [charge_lots]. pose proof (w_text _ _ _ _ _ _ _ _ _ W) as Hc. pose proof (w_sums _ _ _ _ _ _ _ _ _ W) as Hs.
  replace (ch_remaining c) with (numeric_text r) by (by rewrite Hc).
  rewrite billingPositive_text. destruct (Z.ltb_spec 0 r) as [Hr|Hr]; cbn [negb].
  2:{ exists c, d, r, g, k. split; [done|]. split; [done|]. split; [by eapply later_refl|]. split; lia. }
  destruct (Hin id l) as (Hl & Hu & Hpos); [left|]. unfold money. rewrite billingMin_text, tlift_Ok_bind, billingPositive_text.
  set (n := Z.min (lot_remaining l) r). replace (0 <? n) with true by lia. cbn [negb]. rewrite numeric_arg_bind.
  assert (Hn : 0 < n <= lot_remaining l) by lia.
  rewrite (update_one_eq _ _ _ _ _ _ _ l) by done. fold (take_lot n l).
  pose proof (w_lot_rows _ _ _ _ _ _ _ _ _ W id l Hl) as Hlc. rewrite lot_check_take by done.
  assert (Hfits : numeric_fits n = true).
  { unfold lot_check in Hlc. breflect. eapply numeric_fits_le; [|eassumption]. lia. }
  rewrite insert_allocation_eq; [|unfold allocation_check; cbn [al_amount]; rewrite Hfits;
    pose proof (w_orders _ _ _ _ _ _ _ _ _ W) as [? _]; lia|btables; by eapply next_order_free].
  replace (ch_charged c) with (numeric_text g) by (by rewrite Hc). replace (ch_cash c) with (numeric_text k) by (by rewrite Hc).
  rewrite billingSubtract_text, !billingAdd_text, !tlift_Ok_bind. btables.
  set (d1 := set_allocations _ _). pose proof (walk_lot _ _ _ _ _ _ _ _ _ id l n W Hl Hu Hn ltac:(lia) at_) as W1. fold d1 in W1.
  apply NoDup_cons in Hnd as [Hnew Hnd].
  destruct (IH d1 _ _ _ _ W1 Hnd) as (c' & d' & r' & g' & k' & E & W' & L & Hle & Hdr).
  { intros i x Hx. assert (i <> id) by (intros ->; apply Hnew; apply list_elem_of_fmap; by exists (id, x)).
    subst d1. btables. rewrite lookup_insert_ne by done. apply Hin. by right. }
  exists c', d', r', g', k'. split; [done|]. split; [done|].
  assert (L1 : later d d1) by (eapply later_lot; [done|done|lia]). split; [by eapply later_trans|]. split; [lia|].
  intros Hr' i x [[= -> ->]|Hx]%elem_of_cons; [|by eapply Hdr].
  apply (lot_drained_later d1); [done|]. exists (take_lot n l). subst d1. btables. rewrite lookup_insert_eq. split; [done|].
  cbn. lia.
Qed.

Lemma elem_of_user_lots user cutoff d id l :
  (id, l) ∈ user_lots user cutoff d <-> cash_lots d !! id = Some l /\ lot_selected user cutoff l = true.
Proof. unfold user_lots. rewrite merge_sort_Permutation, elem_of_map_to_list, map_lookup_filter_Some. done. Qed.

Lemma user_lots_NoDup user cutoff d : NoDup (user_lots user cutoff d).*1.
Proof. unfold user_lots. rewrite merge_sort_Permutation. apply NoDup_fst_map_to_list. Qed.

(** The source has nothing left that this request may use. *)
Definition source_drained (d : billing_db) (user : string) (s : BillingFundingSource) : Prop :=
  if bool_decide (SourceType s = "cash") then
    forall id l, cash_lots d !! id = Some l -> lot_user l = user -> lot_sequence l <= CashLotCutoff s -> lot_remaining l = 0
  else period_drained d (PeriodID s).
(** The source's period exists and belongs to the user. *)
Definition source_bound (d : billing_db) (user : string) (s : BillingFundingSource) : Prop :=
  SourceType s = "cash" \/ exists p, periods d !! PeriodID s = Some p /\ bound_period user s p = true.

Lemma source_drained_later d d' user s : later d d' -> source_drained d user s -> source_drained d' user s.
Proof.
  unfold source_drained. intros L. case_bool_decide; [|by apply period_drained_later].
  intros H' id l' Hl' Hu Hs. destruct L as [L _]. specialize (L id). rewrite Hl' in L. inversion L as [l x [E Hx] E1 E2|]; subst x.
  rewrite E in Hu, Hs. cbn in Hu, Hs. symmetry in E1. specialize (H' id l E1 Hu Hs). lia.
Qed.

Lemma source_bound_walk d0 d req user cost c r g k s :
  walk d0 d req user cost c r g k -> source_bound d user s <-> source_bound d0 user s.
Proof.
  intros W. unfold source_bound. pose proof (w_periods _ _ _ _ _ _ _ _ _ W (PeriodID s)) as P.
  split; (intros [?|(p & Hp & Hb)]; [by left|right]); rewrite Hp in P; inversion P as [a b [Hab _] E1 E2|]; subst.
  - exists a. split; [done|]. rewrite Hab in Hb. unfold bound_period in *. done.
  - exists b. split; [done|]. rewrite Hab. unfold bound_period in *. done.
Qed.

Lemma charge_source_walk d0 req user cost at_ s d c r g k :
  walk d0 d req user cost c r g k -> 0 < r ->
  (~ source_bound d0 user s /\ charge_source req user at_ s c d = Err (ErrNotFound "lock bound subscription period")) \/
  exists c' d' r' g' k', charge_source req user at_ s c d = Ok (c', d') /\ walk d0 d' req user cost c' r' g' k' /\ later d d' /\
    (r' <= r /\ g - k <= g' - k') /\ (0 < r' -> source_drained d' user s).
Proof.
  intros W Hr. unfold charge_source, source_drained. pose proof (source_bound_walk _ _ _ _ _ _ _ _ _ s W) as Hbound.
  pose proof (w_text _ _ _ _ _ _ _ _ _ W) as Hc. pose proof (later_refl _ _ _ _ _ _ _ _ _ W) as Lrefl.
  case_bool_decide as Hcash; cbn [negb].
  - right. rewrite tgets_bind.
    destruct (charge_lots_walk d0 req user cost at_ (user_lots user (Some (CashLotCutoff s)) d) d c r g k W)
      as (c' & d' & r' & g' & k' & E & W' & L & Hle & Hdr); [apply user_lots_NoDup| |].
    { intros id l [Hl Hs]%elem_of_user_lots. unfold lot_selected in Hs. breflect. done. }
    exists c', d', r', g', k'. do 4 (split; [done|]). intros Hr' id l' Hl' Hu Hs.
    pose proof (proj1 L id) as Hid. rewrite Hl' in Hid. inversion Hid as [l x [Ex Hx] E1 E2|]; subst x. symmetry in E1.
    destruct (Z.ltb_spec 0 (lot_remaining l)); [|lia].
    destruct (Hdr Hr' id l) as (y & Hy & Hz); [|congruence]. apply elem_of_user_lots. split; [done|]. unfold lot_selected.
    rewrite Ex in Hu, Hs. cbn in Hu, Hs. rewrite bool_decide_true by done. lia.
  - rewrite tgets_bind. unfold tsome.
    destruct (periods d !! PeriodID s) as [p|] eqn:Ep.
    2:{ left. split; [|done]. rewrite <- Hbound. intros [?|(p & Hp & _)]; congruence. }
    rewrite tret_bind, tguard_bind. destruct (bound_period user s p) eqn:Eb.
    2:{ left. split; [|done]. rewrite <- Hbound. intros [?|(p' & Hp & Hb)]; congruence. }
    right. replace (ch_remaining c) with (numeric_text r) by (by rewrite Hc). unfold money.
    rewrite billingMin_text, tlift_Ok_bind, billingPositive_text. set (n := Z.min (period_remaining p) r).
    pose proof (w_period_rows _ _ _ _ _ _ _ _ _ W _ p Ep) as Hpc.
    destruct (Z.ltb_spec 0 n) as [Hn|Hn]; cbn [negb].
    2:{ exists c, d, r, g, k. do 3 (split; [done|]). split; [lia|]. intros _. exists p. split; [done|].
        unfold period_check in Hpc. breflect. lia. }
    rewrite numeric_arg_bind. assert (Hn' : 0 < n <= period_remaining p) by lia.
    rewrite (update_one_eq _ _ _ _ _ _ _ p) by done. fold (take_period n p). rewrite period_check_take by done.
    assert (Hfits : numeric_fits n = true).
    { unfold period_check in Hpc. breflect. eapply numeric_fits_le; [|eassumption]. lia. }
    rewrite insert_allocation_eq; [|unfold allocation_check; cbn [al_amount]; rewrite Hfits;
      pose proof (w_orders _ _ _ _ _ _ _ _ _ W) as [? _]; lia|btables; by eapply next_order_free].
    replace (ch_charged c) with (numeric_text g) by (by rewrite Hc). replace (ch_cash c) with (numeric_text k) by (by rewrite Hc).
    rewrite billingSubtract_text, !billingAdd_text, !tlift_Ok_bind. btables.
    eexists _, _, (r - n), (g + n), k. split; [done|].
    split; [apply (walk_period _ _ _ _ _ _ _ _ _ (PeriodID s) p (SourceType s) n W Ep Hn' ltac:(lia) at_)|].
    split; [eapply (later_period _ _ _ _ _ _ _ _ _ (PeriodID s) p n _ W Ep); lia|]. split; [lia|].
    intros Hr'. exists (take_period n p). btables. rewrite lookup_insert_eq. split; [done|]. cbn. lia.
Qed.

Lemma charge_sources_walk d0 req user cost at_ sources d c r g k :
  walk d0 d req user cost c r g k ->
  ((exists s, s ∈ sources /\ ~ source_bound d0 user s) /\
     charge_sources req user at_ sources c d = Err (ErrNotFound "lock bound subscription period")) \/
  exists c' d' r' g' k', charge_sources req user at_ sources c d = Ok (c', d') /\ walk d0 d' req user cost c' r' g' k' /\
    later d d' /\ (r' <= r /\ g - k <= g' - k') /\ (0 < r' -> Forall (source_drained d' user) sources).
Proof.
  revert d c r g k. induction sources as [|s sources IH]; intros d c r g k W.
  { right. exists c, d, r, g, k. do 2 (split; [done|]). split; [by eapply later_refl|]. split; [lia|]. constructor. }
  cbn [charge_sources]. pose proof (w_text _ _ _ _ _ _ _ _ _ W) as Hc.
  replace (ch_remaining c) with (numeric_text r) by (by rewrite Hc). rewrite billingPositive_text.
  destruct (Z.ltb_spec 0 r) as [Hr|Hr]; cbn [negb].
  2:{ right. exists c, d, r, g, k. do 2 (split; [done|]). split; [by eapply later_refl|]. split; [lia|]. lia. }
  unfold tbind at 1 2. destruct (charge_source_walk d0 req user cost at_ s d c r g k W Hr)
    as [[Hn ->]|(c1 & d1 & r1 & g1 & k1 & -> & W1 & L1 & Hle1 & Hdr1)].
  { left. split; [|done]. exists s. split; [left|done]. }
  destruct (IH d1 c1 r1 g1 k1 W1) as [[(s' & Hs' & Hn) E]|(c' & d' & r' & g' & k' & E & W' & L' & Hle & Hdr)].
  { left. split; [|done]. exists s'. split; [by right|done]. }
  right. exists c', d', r', g', k'. do 2 (split; [done|]). split; [by eapply later_trans|]. split; [lia|].
  intros Hr'. constructor; [|by apply Hdr]. eapply source_drained_later; [done|]. apply Hdr1. lia.
Qed.

(** ** The group's share *)

Lemma zero_amount_text : zero_amount = numeric_text 0.
Proof. by vm_compute. Qed.

Lemma update_one_Ok {K A} `{Countable K} op (get : billing_db -> gmap K A) set k f check d u d' :
  update_one op get set k f check d = Ok (u, d') ->
  (get d !! k = None /\ d' = set (get d) d) \/
  exists v, get d !! k = Some v /\ check (f v) = true /\ d' = set (<[k := f v]> (get d)) d.
Proof.
  unfold update_one. rewrite tgets_bind. cbn [update_rows]. destruct (get d !! k) as [v|] eqn:E.
  - destruct (check (f v)) eqn:Ec; [|done]. intros [= _ <-]. right. eauto.
  - intros [= _ <-]. by left.
Qed.

Lemma numeric_arg_Ok op n d x d' : numeric_arg op (numeric_text n) d = Ok (x, d') -> x = n /\ d' = d.
Proof. unfold numeric_arg. rewrite numeric_of_text. by intros [= <- <-]. Qed.

Lemma insert_allocation_Ok op req o a d u d' :
  insert_allocation op req o a d = Ok (u, d') ->
  allocations d !! (req, o) = None /\ allocation_check o a = true /\
  d' = set_allocations (<[(req, o) := a]> (allocations d)) d.
Proof.
  unfold insert_allocation. rewrite tguard_bind. destruct (allocation_check o a); [|done]. rewrite tgets_bind, tguard_bind.
  case_bool_decide; [|done]. by intros [= _ <-].
Qed.

Lemma read_group_funds_Ok op g p d x y d' :
  read_group_funds op g p d = Ok ((x, y), d') ->
  exists row, group_periods d !! p = Some row /\ gp_group row = g /\ d' = d /\
    x = numeric_text (Z.max (limit_usd row - used_usd row) 0) /\ y = numeric_text <$> member_limit_usd row.
Proof.
  unfold read_group_funds. rewrite tgets_bind. destruct (group_periods d !! p) as [row|] eqn:E; [|done].
  case_bool_decide; [|done]. intros [= <- <- <-]. eauto 10.
Qed.

(** The member's remaining allowance, when the period has a member limit. *)
Definition member_left (d : billing_db) (row : group_period_row) (p user : string) : option Z :=
  (fun m => Z.max (m - default 0 (member_usage d !! (p, user))) 0) <$> member_limit_usd row.

Lemma groupMemberRemainingTx_Ok p user row d m d' :
  groupMemberRemainingTx p user (numeric_text <$> member_limit_usd row) d = Ok (m, d') ->
  d' = d /\ m = numeric_text <$> member_left d row p user.
Proof.
  unfold groupMemberRemainingTx, member_left. destruct (member_limit_usd row) as [l|]; cbn.
  - rewrite numeric_arg_bind, tgets_bind. by intros [= <- <-].
  - by intros [= <- <-].
Qed.

Definition cap (x : Z) (m : option Z) : Z := match m with Some y => Z.min x y | None => x end.

(** What the bound group pays of a cost: its unspent limit, capped by the
    member's remaining allowance. *)
Definition group_share (d : billing_db) (r : billing_reservation) (cost : Z) : Z :=
  match br_group_period r with
  | Some p =>
      match group_periods d !! p with
      | Some row => if 2 <=? br_funding_rule r
                    then cap (Z.min (Z.max (limit_usd row - used_usd row) 0) cost) (member_left d row p (br_user r)) else 0
      | None => 0
      end
  | None => 0
  end.

(** The tables after the group paid [n] out of period [p]. *)
Definition group_paid (req p user : string) (row : group_period_row) (n at_ : Z) (d : billing_db) : billing_db :=
  set_allocations (<[(req, 1) := Allocation "group" None None (Some p) n at_]> (allocations d))
    (set_member_usage (<[(p, user) := default 0 (member_usage d !! (p, user)) + n]> (member_usage d))
       (set_group_periods (<[p := GroupPeriod (gp_group row) (limit_usd row) (used_usd row + n) (member_limit_usd row)]> (group_periods d)) d)).

Lemma member_left_nonneg d row p user m : member_left d row p user = Some m -> 0 <= m.
Proof. unfold member_left. destruct (member_limit_usd row); [|done]. intros [= <-]. lia. Qed.

Lemma cap_bounds x m : 0 <= x -> (forall y, m = Some y -> 0 <= y) -> 0 <= cap x m <= x.
Proof. intros Hx Hm. destruct m as [y|]; cbn; [|lia]. specialize (Hm y eq_refl). lia. Qed.

Lemma charge_group_Ok req r n at_ d c gtext d' :
  0 <= n -> charge_group req r (numeric_text n) at_ d = Ok ((c, gtext), d') ->
  let s := group_share d r n in
  0 <= s <= n /\ gtext = numeric_text s /\
  c = Charging (numeric_text (n - s)) (numeric_text s) (numeric_text 0) (if 0 <? s then 1 else 0) /\
  ((s = 0 /\ d' = d) \/
   (0 < s /\ exists p row, br_group_period r = Some p /\ group_periods d !! p = Some row /\
      s <= limit_usd row - used_usd row /\ allocations d !! (req, 1) = None /\ numeric_fits s = true /\
      d' = group_paid req p (br_user r) row s at_ d)).
Proof.
  intros Hn H. unfold charge_group in H. unfold group_share. rewrite zero_amount_text in H.
  destruct (br_group_period r) as [p|] eqn:Ep.
  2:{ injection H as <- <- <-. cbv zeta. rewrite Z.sub_0_r. split; [lia|]. auto. }
  rewrite billingPositive_text in H. destruct (Z.leb_spec 2 (br_funding_rule r)) as [Hrule|Hrule]; cbn [andb] in H.
  2:{ injection H as <- <- <-. cbv zeta. destruct (group_periods d !! p); rewrite Z.sub_0_r; (split; [lia|]); auto. }
  destruct (Z.ltb_spec 0 n) as [Hpos|Hz]; cbn [andb] in H.
  2:{ injection H as <- <- <-. assert (n = 0) as -> by lia.
      assert (E : match group_periods d !! p with Some row => cap (Z.min (Z.max (limit_usd row - used_usd row) 0) 0) (member_left d row p (br_user r)) | None => 0 end = 0).
      { destruct (group_periods d !! p) as [row|]; [|done].
        pose proof (cap_bounds (Z.min (Z.max (limit_usd row - used_usd row) 0) 0) (member_left d row p (br_user r)) ltac:(lia)
          (fun y Hy => member_left_nonneg d row p _ y Hy)). lia. }
      rewrite E. cbv zeta. rewrite Z.sub_0_r. split; [lia|]. auto. }
  inv_tx H. apply tsome_Ok in Ht as [Eg ->]. inv_tx H. destruct a0 as [x y].
  apply read_group_funds_Ok in Ht as (row & Erow & Egrp & -> & -> & ->). inv_tx H.
  apply groupMemberRemainingTx_Ok in Ht as [-> ->]. unfold money in H. rewrite billingMin_text, tlift_Ok_bind in H.
  rewrite Erow. set (s := cap (Z.min (Z.max (limit_usd row - used_usd row) 0) n) (member_left d row p (br_user r))).
  pose proof (cap_bounds (Z.min (Z.max (limit_usd row - used_usd row) 0) n) (member_left d row p (br_user r)) ltac:(lia)
          (fun y Hy => member_left_nonneg d row p _ y Hy)) as Hs. fold s in Hs.
  inv_tx H. assert (a0 = numeric_text s /\ s0 = d) as [-> ->].
  { subst s. destruct (member_left d row p (br_user r)) as [m|]; cbn in Ht |- *.
    - rewrite billingMin_text in Ht. by injection Ht as <- <-.
    - by injection Ht as <- <-. }
  clear Ht. rewrite billingPositive_text in H. cbv zeta. destruct (Z.ltb_spec 0 s) as [Hsp|Hsz].
  2:{ injection H as <- <- <-. assert (s = 0) as -> by lia. rewrite Z.sub_0_r. split; [lia|]. auto. }
  rewrite numeric_arg_bind in H. inv_tx H. apply update_one_Ok in Ht as [[Hnone _]|(v & Hv & Hck & ->)]; [congruence|].
  rewrite Erow in Hv. injection Hv as <-. rewrite tgets_bind, tguard_bind in H. btables.
  destruct (member_check _); [|done]. rewrite tmod_bind in H. inv_tx H. btables.
  apply insert_allocation_Ok in Ht as (Hfree & Hac & ->). btables.
  rewrite billingSubtract_text, tlift_Ok_bind in H. injection H as <- <- <-.
  split; [lia|]. split; [done|]. split; [done|]. right. split; [done|]. exists p, row. split; [done|]. split; [done|].
  split; [lia|]. split; [done|]. split; [|done]. unfold allocation_check in Hac. cbn [al_amount] in Hac. breflect. done.
Qed.

(** ** From the group's share to the settled tables *)

Lemma member_used_le d p user row :
  money_inv d -> group_periods d !! p = Some row -> 0 <= default 0 (member_usage d !! (p, user)) <= used_usd row.
Proof.
  intros M Hrow. destruct (member_usage d !! (p, user)) as [n|] eqn:E; cbn.
  - apply (inv_member d M) in E as (Hn & g & Hg & Hle). rewrite Hrow in Hg. injection Hg as <-. lia.
  - apply (inv_group_period d M) in Hrow. unfold group_period_check in Hrow. breflect. lia.
Qed.

(** The parts of the invariant that the group's payment and the walk leave
    alone, with the group rows after the payment. *)
Record settling (d0 d : billing_db) (req user : string) (n r g k : Z) : Prop := {
  s_sums : 0 <= r /\ r + g = n /\ 0 <= k <= g;
  s_allocated : allocated req (allocations d) = g;
  s_others : forall q o, q <> req -> allocations d !! (q, o) = allocations d0 !! (q, o);
  s_others_sum : forall q, q <> req -> allocated q (allocations d) = allocated q (allocations d0);
  s_cash : forall u, cash_total u (cash_lots d) = cash_total u (cash_lots d0) - (if bool_decide (u = user) then k else 0);
  s_later : later d0 d;
  s_lot_rows : forall id l, cash_lots d !! id = Some l -> lot_check l = true;
  s_period_rows : forall id p, periods d !! id = Some p -> period_check p = true;
  s_group_rows : forall id g, group_periods d !! id = Some g -> group_period_check g = true;
  s_members : forall p u m, member_usage d !! (p, u) = Some m -> 0 <= m /\ exists g, group_periods d !! p = Some g /\ m <= used_usd g;
  s_accounts : billing_accounts d = billing_accounts d0;
  s_reservations : billing_reservations d = billing_reservations d0;
  s_ledger : ledger d = ledger d0;
  s_usage : usage_requests d = usage_requests d0;
}.

Lemma no_allocations d req r :
  money_inv d -> billing_reservations d !! req = Some r -> br_state r = Reserved ->
  (forall o, allocations d !! (req, o) = None) /\ allocated req (allocations d) = 0.
Proof.
  intros M Hr Hs. split.
  - intros o. destruct (allocations d !! (req, o)) eqn:E; [|done].
    destruct (inv_open_allocations d M req o) as (r' & Hr' & Hs'); [by rewrite E|]. congruence.
  - rewrite (inv_allocated d M), Hr. cbn. apply (inv_reservation_row d M) in Hr. unfold reservation_row_check in Hr.
    rewrite Hs in Hr. by destruct (br_charge r).
Qed.

Lemma money_later d : money_inv d -> later d d.
Proof.
  intros M. split; intros id.
  - destruct (cash_lots d !! id) as [l|] eqn:E; constructor. apply lot_shrinks_refl.
    apply (inv_lot d M) in E as [E _]. unfold lot_check in E. breflect. done.
  - destruct (periods d !! id) as [p|] eqn:E; constructor. apply period_shrinks_refl.
    apply (inv_period d M) in E. unfold period_check in E. breflect. done.
Qed.

Lemma group_paid_walk d req r p row n s at_ x :
  money_inv d -> billing_reservations d !! req = Some r -> br_state r = Reserved -> group_periods d !! p = Some row ->
  0 < s <= n -> s <= limit_usd row - used_usd row ->
  let d1 := group_paid req p (br_user x) row s at_ d in
  walk d1 d1 req (br_user r) n (Charging (numeric_text (n - s)) (numeric_text s) (numeric_text 0) 1) (n - s) s 0 /\
  (forall id g, group_periods d1 !! id = Some g -> group_period_check g = true) /\
  (forall q u m, member_usage d1 !! (q, u) = Some m -> 0 <= m /\ exists g, group_periods d1 !! q = Some g /\ m <= used_usd g).
Proof.
  intros M Hr Hs Hrow Hn Hle d1. destruct (no_allocations d req r M Hr Hs) as [Hfree Hzero].
  pose proof (member_used_le d p (br_user x) row M Hrow) as Hused.
  pose proof (inv_group_period d M p row Hrow) as Hck. split; [|split].
  - destruct (money_later d M) as [L P]. split; subst d1; unfold group_paid; btables; try done.
    + cbn. lia.
    + rewrite allocated_insert, Hzero, bool_decide_true by done. done.
    + cbn. split; [lia|]. intros o [y Hy]. apply lookup_insert_Some in Hy as [[[= <-] _]|[_ Hy]]; [lia|]. by rewrite Hfree in Hy.
    + intros u. case_bool_decide; lia.
    + intros id l Hl. by apply (inv_lot d M) in Hl as [? _].
    + apply (inv_period d M).
  - intros id g. subst d1. unfold group_paid. btables. intros [[<- <-]|[_ Hg]]%lookup_insert_Some; [|by apply (inv_group_period d M) in Hg].
    unfold group_period_check in *. cbn [limit_usd used_usd member_limit_usd]. breflect.
    assert (numeric_fits (used_usd row + s) = true) as -> by (eapply (numeric_fits_le _ (limit_usd row)); [lia|done]).
    repeat match goal with H : _ = true |- _ => rewrite H end. lia.
  - intros q u m. subst d1. unfold group_paid. btables. intros [[[= <- <-] <-]|[Hne Hm]]%lookup_insert_Some.
    + split; [lia|]. eexists. rewrite lookup_insert_eq. split; [done|]. cbn. lia.
    + apply (inv_member d M) in Hm as (Hm0 & g & Hg & Hmg). split; [done|].
      destruct (decide (q = p)) as [->|Hq]; [|exists g; by rewrite lookup_insert_ne].
      rewrite Hrow in Hg. injection Hg as <-. eexists. rewrite lookup_insert_eq. split; [done|]. cbn. lia.
Qed.

Lemma no_group_walk d req r n :
  money_inv d -> billing_reservations d !! req = Some r -> br_state r = Reserved -> 0 <= n ->
  walk d d req (br_user r) n (Charging (numeric_text n) (numeric_text 0) (numeric_text 0) 0) n 0 0.
Proof.
  intros M Hr Hs Hn. destruct (no_allocations d req r M Hr Hs) as [Hfree Hzero]. destruct (money_later d M) as [L P].
  split; try done.
  - lia.
  - cbn. split; [lia|]. intros o [y Hy]. by rewrite Hfree in Hy.
  - intros u. case_bool_decide; lia.
  - intros id l Hl. by apply (inv_lot d M) in Hl as [? _].
  - apply (inv_period d M).
  - by destruct d.
Qed.

(** The walk can start once the group has paid its share. *)
Lemma group_walk d req r n at_ c0 d1 gtext :
  money_inv d -> billing_reservations d !! req = Some r -> br_state r = Reserved -> 0 <= n ->
  charge_group req r (numeric_text n) at_ d = Ok ((c0, gtext), d1) ->
  let s := group_share d r n in
  0 <= s <= n /\ gtext = numeric_text s /\
  c0 = Charging (numeric_text (n - s)) (numeric_text s) (numeric_text 0) (if 0 <? s then 1 else 0) /\
  exists w0, walk w0 d1 req (br_user r) n
      (Charging (numeric_text (n - s)) (numeric_text s) (numeric_text 0) (if 0 <? s then 1 else 0)) (n - s) s 0 /\
    allocations w0 = allocations d1 /\ cash_lots w0 = cash_lots d /\ periods w0 = periods d /\
    (forall q o, q <> req -> allocations w0 !! (q, o) = allocations d !! (q, o)) /\
    (forall q, q <> req -> allocated q (allocations w0) = allocated q (allocations d)) /\
    group_periods w0 = group_periods d1 /\ member_usage w0 = member_usage d1 /\ billing_accounts w0 = billing_accounts d /\
    billing_reservations w0 = billing_reservations d /\ ledger w0 = ledger d /\ usage_requests w0 = usage_requests d /\
    (forall id g, group_periods d1 !! id = Some g -> group_period_check g = true) /\
    (forall q u m, member_usage d1 !! (q, u) = Some m -> 0 <= m /\ exists g, group_periods d1 !! q = Some g /\ m <= used_usd g).
Proof.
  intros M Hr Hs Hn Hg. apply charge_group_Ok in Hg as (Hshare & -> & -> & Hcase); [|done]. cbv zeta.
  set (s := group_share d r n) in *. split; [done|]. split; [done|]. split; [done|].
  destruct Hcase as [[Hz ->]|(Hp & p & row & Ep & Hrow & Hle & _ & _ & ->)].
  - rewrite Hz. exists d. rewrite Z.sub_0_r. replace (0 <? 0) with false by done.
    split; [by apply no_group_walk|]. split_and!; try done; [apply (inv_group_period d M)|apply (inv_member d M)].
  - replace (0 <? s) with true by lia.
    destruct (group_paid_walk d req r p row n s at_ r M Hr Hs Hrow ltac:(lia) Hle) as (W & G1 & G2).
    eexists. split; [exact W|]. unfold group_paid in *. btables. split_and!; try done.
    + intros q o Hq. by rewrite lookup_insert_ne by congruence.
    + intros q Hq. destruct (no_allocations d req r M Hr Hs) as [Hfree _].
      rewrite allocated_insert, bool_decide_false by done. lia.
Qed.

(** Together: what the tables look like once every source was walked. *)
Lemma settling_intro d req r n at_ sources c0 c d1 d2 gtext :
  money_inv d -> billing_reservations d !! req = Some r -> br_state r = Reserved -> 0 <= n ->
  charge_group req r (numeric_text n) at_ d = Ok ((c0, gtext), d1) ->
  charge_sources req (br_user r) at_ sources c0 d1 = Ok (c, d2) ->
  exists rem g k, settling d d2 req (br_user r) n rem g k /\
    c = Charging (numeric_text rem) (numeric_text g) (numeric_text k) (ch_order c) /\
    gtext = numeric_text (group_share d r n) /\ 0 <= group_share d r n <= g - k /\
    (rem <= n - group_share d r n /\ group_periods d2 = group_periods d1) /\
    (0 < rem -> Forall (source_drained d2 (br_user r)) sources).
Proof.
  intros M Hr Hs Hn Hg Hsrc. apply (group_walk d req r n at_) in Hg as (Hshare & -> & -> & w0 & W & Ea & El & Ep & Eo & Eos & Eg & Em & Eacc & Eres & Eled & Eus & G1 & G2); try done.
  set (s := group_share d r n) in *.
  destruct (charge_sources_walk w0 req (br_user r) n at_ sources d1 _ _ _ _ W)
    as [[_ E]|(c' & d' & rem & g & k & E & W' & L & Hle & Hdr)]; rewrite Hsrc in E; [done|]. injection E as <- <-.
  exists rem, g, k. pose proof (w_sums _ _ _ _ _ _ _ _ _ W') as Hsum. pose proof (w_frame _ _ _ _ _ _ _ _ _ W') as F.
  split; [split|split; [apply (w_text _ _ _ _ _ _ _ _ _ W')|]].
  - done.
  - apply (w_allocated _ _ _ _ _ _ _ _ _ W').
  - intros q o Hq. rewrite (w_others _ _ _ _ _ _ _ _ _ W') by done. auto.
  - intros q Hq. rewrite (w_others_sum _ _ _ _ _ _ _ _ _ W') by done. auto.
  - intros u. rewrite (w_cash _ _ _ _ _ _ _ _ _ W'), El. done.
  - split; intros id; [rewrite <- El; apply (w_lots _ _ _ _ _ _ _ _ _ W')|rewrite <- Ep; apply (w_periods _ _ _ _ _ _ _ _ _ W')].
  - apply (w_lot_rows _ _ _ _ _ _ _ _ _ W').
  - apply (w_period_rows _ _ _ _ _ _ _ _ _ W').
  - rewrite F. btables. rewrite Eg. done.
  - rewrite F. btables. rewrite Eg, Em. done.
  - rewrite F. btables. done.
  - rewrite F. btables. done.
  - rewrite F. btables. done.
  - rewrite F. btables. done.
  - split; [done|]. split; [lia|]. split; [|done]. split; [lia|]. rewrite F. btables. done.
Qed.

Lemma debit_account_Ok user n at_ d b d' :
  debit_account user (numeric_text n) at_ d = Ok (b, d') ->
  exists a, billing_accounts d !! user = Some a /\ n <= balance_usd a /\ b = balance_usd a - n /\
    account_check (Account b (next_cash_lot_sequence a) at_) = true /\
    d' = set_accounts (<[user := Account b (next_cash_lot_sequence a) at_]> (billing_accounts d)) d.
Proof.
  unfold debit_account. rewrite numeric_arg_bind, tgets_bind. destruct (billing_accounts d !! user) as [a|] eqn:E; [|done].
  destruct (Z.leb_spec n (balance_usd a)); [|done]. rewrite tguard_bind. destruct (account_check _) eqn:Ec; [|done].
  intros [= <- <-]. eauto 10.
Qed.

Lemma insert_ledger_Ok op e d i d' :
  insert_ledger op e d = Ok (i, d') ->
  ledger_check e = true /\ i = Z.of_nat (length (ledger d)) + 1 /\ d' = set_ledger (ledger d ++ [e]) d.
Proof.
  unfold insert_ledger. rewrite tguard_bind. destruct (ledger_check e); [|done]. intros [= <- <-]. btables.
  split; [done|]. split; [|done]. rewrite length_app. cbn. lia.
Qed.

(** The invariant once the account, the ledger and the reservation are written. *)
Lemma settled_inv d d2 req r n rem g k charge at_ b a gps :
  money_inv d -> billing_reservations d !! req = Some r -> br_state r = Reserved ->
  settling d d2 req (br_user r) n rem g k -> billing_accounts d !! br_user r = Some a -> b = balance_usd a - k ->
  account_check (Account b (next_cash_lot_sequence a) at_) = true ->
  charge_check charge = true -> sc_charged charge = g ->
  (forall id x, gps !! id = Some x -> group_period_check x = true) ->
  (forall id x, group_periods d2 !! id = Some x -> exists y, gps !! id = Some y /\ used_usd x <= used_usd y) ->
  forall e lg, money_inv
    (set_billing_reservations (<[req := settle_row charge at_ r]> (billing_reservations d2))
       (set_group_periods gps (set_ledger (lg ++ [e])
          (set_accounts (<[br_user r := Account b (next_cash_lot_sequence a) at_]> (billing_accounts d2)) d2)))).
Proof.
  intros M Hr Hst S Ha Hb Hac Hcc Hcg Hgp Hgrow e lg. split; btables.
  - intros u x. rewrite (s_accounts _ _ _ _ _ _ _ _ S). intros [[<- <-]|[Hu Hx]]%lookup_insert_Some.
    + split; [done|]. cbn. rewrite (s_cash _ _ _ _ _ _ _ _ S), bool_decide_true by done.
      destruct (inv_account d M _ _ Ha) as [_ E]. lia.
    + rewrite (s_cash _ _ _ _ _ _ _ _ S), bool_decide_false by congruence. apply (inv_account d M) in Hx as [? ->]. split; [done|lia].
  - intros id l Hl. split; [by apply (s_lot_rows _ _ _ _ _ _ _ _ S) in Hl|].
    destruct (s_later _ _ _ _ _ _ _ _ S) as [L _]. specialize (L id). rewrite Hl in L.
    inversion L as [l0 x [El _] E1 E2|]; subst x. symmetry in E1. apply (inv_lot d M) in E1 as (_ & a0 & Ha0 & Hseq).
    assert (lot_user l = lot_user l0) as -> by (by rewrite El). assert (lot_sequence l = lot_sequence l0) as -> by (by rewrite El).
    rewrite (s_accounts _ _ _ _ _ _ _ _ S). destruct (decide (lot_user l0 = br_user r)) as [E|E].
    + rewrite E in Ha0 |- *. rewrite Ha in Ha0. injection Ha0 as <-. rewrite lookup_insert_eq. eauto.
    + rewrite lookup_insert_ne by done. eauto.
  - apply (s_period_rows _ _ _ _ _ _ _ _ S).
  - done.
  - intros p u m Hm. apply (s_members _ _ _ _ _ _ _ _ S) in Hm as (Hm0 & x & Hx & Hle). split; [done|].
    destruct (Hgrow p x Hx) as (y & Hy & Hxy). exists y. split; [done|lia].
  - intros id x. rewrite (s_reservations _ _ _ _ _ _ _ _ S). intros [[<- <-]|[_ Hx]]%lookup_insert_Some; [done|].
    by apply (inv_reservation_row d M) in Hx.
  - intros id. rewrite (s_reservations _ _ _ _ _ _ _ _ S). destruct (decide (id = req)) as [->|Hid].
    + rewrite lookup_insert_eq. cbn. by rewrite (s_allocated _ _ _ _ _ _ _ _ S).
    + rewrite lookup_insert_ne by done. rewrite (s_others_sum _ _ _ _ _ _ _ _ S) by done. apply (inv_allocated d M).
  - intros id o Ho. rewrite (s_reservations _ _ _ _ _ _ _ _ S). destruct (decide (id = req)) as [->|Hid].
    + rewrite lookup_insert_eq. eauto.
    + rewrite lookup_insert_ne by done. rewrite (s_others _ _ _ _ _ _ _ _ S) in Ho by done. by apply (inv_open_allocations d M) in Ho.
Qed.

(** The charge a settlement records. *)
Definition charge_of (u : usage_row) (tokens : Z) (decision : option PricingDecision) (n g rem share : Z) : settled_charge :=
  {| sc_input_tokens := u_input u; sc_cached_tokens := u_cached u; sc_output_tokens := u_output u;
     sc_cost := n; sc_charged := g; sc_uncovered := rem; sc_group_charged := share; sc_personal_charged := g - share;
     sc_pricing := pricing_record_of u tokens <$> decision |}.

Lemma charge_of_check u tokens decision n g rem share :
  usage_counts u -> 0 <= n < pow10 30 -> 0 <= rem -> rem + g = n -> 0 <= share <= g ->
  charge_check (charge_of u tokens decision n g rem share) = true.
Proof.
  intros (H1 & H2 & _) Hn Hrem Hsum Hshare. unfold charge_check, charge_of.
  cbn [sc_input_tokens sc_cached_tokens sc_output_tokens sc_cost sc_charged sc_uncovered sc_group_charged sc_personal_charged].
  assert (numeric_fits n = true) as -> by (unfold numeric_fits; lia). lia.
Qed.

Lemma finish_settlement_Ok d d2 req r u tokens decision n rem g k share c at_ row d' :
  money_inv d -> billing_reservations d !! req = Some r -> br_state r = Reserved ->
  settling d d2 req (br_user r) n rem g k ->
  c = Charging (numeric_text rem) (numeric_text g) (numeric_text k) (ch_order c) ->
  usage_counts u -> 0 <= n < pow10 30 -> 0 <= share <= g - k ->
  finish_settlement req r u tokens decision (numeric_text n) (numeric_text share) c at_ d2 = Ok (row, d') ->
  let charge := charge_of u tokens decision n g rem share in
  row = settle_row charge at_ r /\ charge_check charge = true /\ money_inv d' /\
  billing_reservations d' = <[req := row]> (billing_reservations d) /\
  cash_lots d' = cash_lots d2 /\ periods d' = periods d2 /\ allocations d' = allocations d2 /\
  usage_requests d' = usage_requests d /\
  (exists a, billing_accounts d !! br_user r = Some a /\
     billing_accounts d' = <[br_user r := Account (balance_usd a - k) (next_cash_lot_sequence a) at_]> (billing_accounts d)) /\
  exists e, ledger d' = ledger d ++ [e] /\ le_cash_delta e = - k /\ le_charge e = Some charge.
Proof.
  intros M Hr Hst S Hc Hu Hn Hshare H charge. pose proof (s_sums _ _ _ _ _ _ _ _ S) as Hsum.
  unfold finish_settlement, money in H. replace (ch_charged c) with (numeric_text g) in H by (by rewrite Hc).
  replace (ch_cash c) with (numeric_text k) in H by (by rewrite Hc).
  replace (ch_remaining c) with (numeric_text rem) in H by (by rewrite Hc).
  rewrite billingSubtract_text, tlift_Ok_bind in H. inv_tx H.
  apply debit_account_Ok in Ht as (acc & Hacc & Hkb & -> & Hack & ->). rewrite !numeric_arg_bind in H.
  fold (charge_of u tokens decision n g rem share) in H. fold charge in H. inv_tx H. apply insert_ledger_Ok in Ht as (Hlc & _ & ->). rewrite (s_accounts _ _ _ _ _ _ _ _ S) in Hacc.
  assert (Hcc : charge_check charge = true) by (apply charge_of_check; auto; lia).
  match type of Hlc with ledger_check ?e = true => set (entry := e) in * end.
  set (acc' := Account _ _ _) in *. inv_tx H. btables.
  assert (Hgps : exists gps, (forall id x, gps !! id = Some x -> group_period_check x = true) /\
    (forall id x, group_periods d2 !! id = Some x -> exists y, gps !! id = Some y /\ used_usd x <= used_usd y) /\
    s = set_group_periods gps (set_ledger (ledger d2 ++ [entry]) (set_accounts (<[br_user r := acc']> (billing_accounts d2)) d2))).
  { destruct (br_group_period r) as [p|]; [destruct (br_funding_rule r =? 1)|].
    - apply update_one_Ok in Ht as [[Hnone ->]|(v & Hv & Hck & ->)]; btables.
      + exists (group_periods d2). split; [apply (s_group_rows _ _ _ _ _ _ _ _ S)|]. split; [|done]. intros id x Hx. exists x. split; [done|lia].
      + eexists. split; [|split; [|reflexivity]].
        * intros id x [[<- <-]|[_ Hx]]%lookup_insert_Some; [done|]. by apply (s_group_rows _ _ _ _ _ _ _ _ S) in Hx.
        * intros id x Hx. destruct (decide (id = p)) as [->|Hid].
          -- rewrite lookup_insert_eq. eexists. split; [done|]. rewrite Hv in Hx. injection Hx as <-. cbn. lia.
          -- rewrite lookup_insert_ne by done. exists x. split; [done|lia].
    - injection Ht as _ <-. exists (group_periods d2). split; [apply (s_group_rows _ _ _ _ _ _ _ _ S)|].
      split; [intros id x Hx; exists x; split; [done|lia]|]. reflexivity.
    - injection Ht as _ <-. exists (group_periods d2). split; [apply (s_group_rows _ _ _ _ _ _ _ _ S)|].
      split; [intros id x Hx; exists x; split; [done|lia]|]. reflexivity. }
  destruct Hgps as (gps & G1 & G2 & ->). rewrite tgets_bind in H. btables. cbn [update_rows] in H.
  rewrite (s_reservations _ _ _ _ _ _ _ _ S), Hr in H.
  change (reservation_row_check (settle_row charge at_ r)) with (charge_check charge) in H. rewrite Hcc in H.
  cbn [tbind tguard negb Z.eqb Z.add] in H. injection H as <- <-.
  split; [done|]. split; [done|]. split.
  { rewrite <- (s_reservations _ _ _ _ _ _ _ _ S). eapply settled_inv; eauto. }
  btables. split; [done|]. do 3 (split; [done|]). split; [apply (s_usage _ _ _ _ _ _ _ _ S)|]. split.
  - exists acc. split; [done|]. by rewrite (s_accounts _ _ _ _ _ _ _ _ S).
  - eexists. rewrite (s_ledger _ _ _ _ _ _ _ _ S). split; [done|]. done.
Qed.

(** ** Binding the paying layer *)

Lemma choose_layer_frame user cs d o d' : choose_layer user cs d = Ok (o, d') -> d' = d.
Proof.
  revert d o d'. induction cs as [|c cs IH]; intros d o d' H; cbn [choose_layer] in H; [by injection H|].
  inv_tx H. destruct a as [x y]. apply read_group_funds_Ok in Ht as (row & _ & _ & -> & _ & ->).
  destruct (billingPositive x); cbn [negb] in H; [|by eapply IH]. inv_tx H.
  apply groupMemberRemainingTx_Ok in Ht as [-> ->]. destruct (numeric_text <$> _) as [m|]; [|by injection H].
  destruct (billingPositive m); [by injection H|by eapply IH].
Qed.

Lemma with_group_check g p r : br_state r = Reserved -> reservation_row_check (with_group g p r) = reservation_row_check r.
Proof. intros H. unfold reservation_row_check. cbn. by rewrite H. Qed.

Lemma bind_Ok req r cs personal d r' d' :
  billing_reservations d !! req = Some r -> br_state r = Reserved ->
  bindSettlementLayerTx req r cs personal d = Ok (r', d') ->
  exists g p, r' = with_group g p r /\ d' = set_billing_reservations (<[req := r']> (billing_reservations d)) d.
Proof.
  intros Hr Hs H. unfold bindSettlementLayerTx in H. inv_tx H. apply choose_layer_frame in Ht as ->.
  set (ch := match a with Some c => Some c | None => head cs end) in *. destruct (_ && _); [done|].
  rewrite tgets_bind in H. cbn [update_rows] in H. rewrite Hr in H. rewrite bool_decide_true in H by done.
  destruct (reservation_row_check _); [|done]. cbn in H. injection H as <- <-. eauto.
Qed.

Lemma money_inv_reservation d req r r' :
  money_inv d -> billing_reservations d !! req = Some r -> br_state r = Reserved ->
  reservation_row_check r' = true -> br_state r' <> Settled ->
  money_inv (set_billing_reservations (<[req := r']> (billing_reservations d)) d).
Proof.
  intros M Hr Hs Hc Hs'. destruct (no_allocations d req r M Hr Hs) as [Hfree Hzero].
  pose proof M as [M1 M2 M3 M4 M5 M6 M7 M8]. split; btables; try done.
  - intros id x [[<- <-]|[_ Hx]]%lookup_insert_Some; [done|by eapply M6].
  - intros id. destruct (decide (id = req)) as [->|Hid]; [|rewrite lookup_insert_ne by done; apply M7].
    rewrite lookup_insert_eq, Hzero. cbn. unfold reservation_row_check in Hc.
    destruct (br_state r'), (br_charge r'), (br_settled_at r'); done.
  - intros id o Ho. destruct (decide (id = req)) as [->|Hid]; [rewrite Hfree in Ho; by destruct Ho|].
    rewrite lookup_insert_ne by done. by eapply M8.
Qed.

Lemma money_inv_usage d us : money_inv d -> money_inv (set_usage us d).
Proof. intros [M1 M2 M3 M4 M5 M6 M7 M8]. by split. Qed.

(** The pricing decision is recorded without touching state and endpoint. *)
Definition usage_kept (m m' : gmap string usage_row) : Prop :=
  forall id, option_Forall2 (fun u u' => u_state u' = u_state u /\ u_endpoint u' = u_endpoint u) (m !! id) (m' !! id).

Lemma usage_kept_refl m : usage_kept m m.
Proof. intros id. destruct (m !! id); by constructor. Qed.

Lemma record_decision_Ok req tokens dec d u d' :
  record_decision req tokens dec d = Ok (u, d') -> exists us, d' = set_usage us d /\ usage_kept (usage_requests d) us.
Proof.
  unfold record_decision. destruct dec; [|intros [= _ <-]; exists (usage_requests d); split; [by destruct d|apply usage_kept_refl]].
  intros [[_ ->]|(v & Hv & _ & ->)]%update_one_Ok; eexists; (split; [done|]); [apply usage_kept_refl|].
  intros id. destruct (decide (id = req)) as [->|]; [rewrite Hv, lookup_insert_eq; by constructor|].
  rewrite lookup_insert_ne by done. apply usage_kept_refl.
Qed.

Lemma lock_layers_frame ls d u d' : lock_layers ls d = Ok (u, d') -> d' = d.
Proof.
  revert d. induction ls as [|l ls IH]; intros d H; cbn [lock_layers] in H; [by injection H|].
  inv_tx H. assert (s = d) as ->; [|by apply IH]. clear H. unfold lockBoundGroupPeriodTx in Ht. rewrite tgets_bind, tguard_bind in Ht.
  destruct (bool_decide _); [|done]. destruct (group_periods d !! _); [|done]. by apply tguard_Ok in Ht as [_ ->].
Qed.

Lemma lockBound_frame g p d u d' : lockBoundGroupPeriodTx g p d = Ok (u, d') -> d' = d.
Proof.
  unfold lockBoundGroupPeriodTx. destruct g, p; try done; [|by intros [= _ <-]]. rewrite tgets_bind, tguard_bind.
  destruct (bool_decide _); [|done]. destruct (group_periods d !! _); [|done]. by intros [_ ->]%tguard_Ok.
Qed.

Lemma read_terminal_usage_Ok op req d u d' :
  read_terminal_usage op req d = Ok (u, d') -> usage_requests d !! req = Some u /\ terminal u = true /\ d' = d.
Proof.
  unfold read_terminal_usage. rewrite tgets_bind. destruct (usage_requests d !! req); [|done]. cbn.
  rewrite tguard_bind. destruct (terminal _) eqn:E; [|done]. by intros [= <- <-].
Qed.

(** The part before the reservation is acted on reads only. *)
Lemma settle_prefix_Ok {A} req pre (k : list fundingLayer * bool -> tx billing_db A) d x d' :
  tbind (if (br_funding_rule pre =? 4) && bool_decide (br_state pre = Reserved) then
        let* layers := readFundingLayersTx req in
        let* u := read_terminal_usage "read terminal usage account" req in
        let '(candidates, personal, _) := settlementLayerCandidates layers (default EmptyString (u_account u)) in
        lock_layers (locking candidates) ;; tret (candidates, personal)
      else lockBoundGroupPeriodTx (br_group pre) (br_group_period pre) ;; tret ([], false)) k d = Ok (x, d') ->
  exists cp, k cp d = Ok (x, d').
Proof.
  intros H. inv_tx H. exists a. assert (s = d) as <-; [|done]. destruct (_ && _).
  - inv_tx Ht. assert (s0 = d) as ->.
    { unfold readFundingLayersTx in Ht0. rewrite tgets_bind in Ht0. destruct (default [] _); [done|by injection Ht0]. }
    inv_tx Ht. apply read_terminal_usage_Ok in Ht1 as (_ & _ & ->).
    destruct (settlementLayerCandidates _ _) as [[? ?] ?]. inv_tx Ht. apply lock_layers_frame in Ht1 as ->. by injection Ht.
  - inv_tx Ht. apply lockBound_frame in Ht0 as ->. by injection Ht.
Qed.

(** ** A settlement that commits *)

(** The row the settlement starts from, with the layer rule 4 bound. *)
Definition bound_row (pre r : billing_reservation) : Prop :=
  r = pre \/ (br_funding_rule pre = 4 /\ exists g p, r = with_group g p pre).

Definition settlement_sources (r : billing_reservation) : result store_error (list BillingFundingSource) :=
  billingSettlementSources (br_funding_rule r) (br_sources r) (br_day_period r) (br_week_period r) (br_month_period r)
    (br_cash_cutoff r).

Lemma settle_Ok decode clock req at_ d pre row d' :
  money_inv d -> billing_reservations d !! req = Some pre -> br_state pre = Reserved ->
  (forall u, usage_requests d !! req = Some u -> u_input u <= max_int64) ->
  settleBillingTx decode clock req at_ d = Ok (row, d') ->
  exists r u tokens decision n share rem g k sources acc e,
    let at' := if is_zero_time at_ then clock else at_ in
    let charge := charge_of u tokens decision n g rem share in
    bound_row pre r /\ usage_requests d !! req = Some u /\ terminal u = true /\
    settlement_cost decode r u = Ok (numeric_text n, tokens, decision) /\ 0 <= n < pow10 30 /\
    settlement_sources r = Ok sources /\
    row = settle_row charge at' r /\ charge_check charge = true /\ money_inv d' /\
    billing_reservations d' = <[req := row]> (billing_reservations d) /\
    share = group_share d r n /\ 0 <= k <= g - share /\
    allocated req (allocations d') = g /\ later d d' /\
    billing_accounts d !! br_user pre = Some acc /\
    billing_accounts d' = <[br_user pre := Account (balance_usd acc - k) (next_cash_lot_sequence acc) at']> (billing_accounts d) /\
    ledger d' = ledger d ++ [e] /\ le_cash_delta e = - k /\ le_charge e = Some charge /\
    (0 < rem -> Forall (source_drained d' (br_user pre)) sources) /\ usage_kept (usage_requests d) (usage_requests d').
Proof.
  intros M Hpre Hst Hin H. unfold settleBillingTx in H. rewrite tguard_bind in H. destruct (negb _); [|done].
  set (at' := if is_zero_time at_ then clock else at_) in *. rewrite tgets_bind in H.
  inv_tx H. apply tsome_Ok in Ht as [Ha ->]. rewrite Hpre in Ha. injection Ha as <-.
  apply settle_prefix_Ok in H as [[cands personal] H]. rewrite Hst in H. inv_tx H.
  apply read_terminal_usage_Ok in Ht as (Hu & Hterm & ->). inv_tx H.
  assert (Hb : exists r, a0 = r /\ bound_row pre r /\ br_user r = br_user pre /\ br_state r = Reserved /\
    reservation_row_check r = true /\ s = set_billing_reservations (<[req := r]> (billing_reservations d)) d).
  { pose proof (inv_reservation_row d M req pre Hpre) as Hck. destruct (Z.eqb_spec (br_funding_rule pre) 4) as [E4|E4].
    - apply bind_Ok in Ht as (g & p & -> & ->); try done. eexists. split; [done|].
      split; [right; eauto|]. rewrite with_group_check by done. done.
    - injection Ht as <- <-. exists pre. split; [done|]. split; [by left|]. do 3 (split; [done|]). rewrite insert_id by done. by destruct d. }
  destruct Hb as (r & -> & Hbr & Hur & Hsr & Hckr & ->). clear Ht.
  pose proof (money_inv_reservation d req pre r M Hpre Hst Hckr ltac:(congruence)) as M1.
  inv_tx H. destruct a0 as [[cost tokens] decision]. apply tlift_Ok in Ht as [Hcost ->].
  destruct (settlement_cost_amount decode r a cost tokens decision (Hin a Hu) Hcost) as (Hcounts & n & -> & Hn).
  inv_tx H. apply record_decision_Ok in Ht as (us & -> & Hkept). apply (money_inv_usage _ us) in M1.
  set (d1 := set_usage us _) in *.
  assert (Hr1 : billing_reservations d1 !! req = Some r) by (subst d1; btables; by rewrite lookup_insert_eq).
  inv_tx H. destruct a1 as [c0 gtext]. inv_tx H. apply tlift_Ok in Ht0 as [Hsrc ->]. inv_tx H.
  destruct (settling_intro d1 req r n at' a1 c0 a2 s s0 gtext M1 Hr1 Hsr ltac:(lia) Ht Ht0)
    as (rem & g & k & S & Hc & -> & Hshare & Hrem & Hdr).
  apply (finish_settlement_Ok d1 s0 req r a tokens decision n rem g k _ a2 at' row d' M1 Hr1 Hsr S Hc Hcounts Hn Hshare) in H
    as (-> & Hcc & M' & Hres & Hlots & Hper & Hall & Hus & (acc & Hacc & Haccs) & e & Hled & Hcash & Hch).
  pose proof (s_sums _ _ _ _ _ _ _ _ S) as Hsum. rewrite <- Hur. change (group_share d1 r n) with (group_share d r n) in *.
  exists r, a, tokens, decision, n, (group_share d r n), rem, g, k, a1, acc, e. cbv zeta.
  split; [done|]. split; [done|]. split; [done|]. split; [done|]. split; [done|]. split; [done|]. split; [done|].
  split; [done|]. split; [done|]. split.
  { rewrite Hres. subst d1. btables. by rewrite insert_insert_eq. }
  split; [done|]. split; [lia|]. split; [by rewrite Hall; apply (s_allocated _ _ _ _ _ _ _ _ S)|].
  split. { destruct (s_later _ _ _ _ _ _ _ _ S) as [L P]. split; intros id; [rewrite Hlots|rewrite Hper]; done. }
  split; [done|]. split; [done|]. split; [done|]. split; [done|]. split; [done|].
  split; [|by rewrite Hus].
  intros Hpos. specialize (Hdr Hpos). eapply Forall_impl; [exact Hdr|]. intros s'. unfold source_drained, period_drained. by rewrite Hlots, Hper.
Qed.

(** ** When a settlement commits *)

(** A group binding whose rows exist. *)
Definition group_rows_exist (d : billing_db) (g p : string) : Prop :=
  g ∈ user_groups d /\ exists row, group_periods d !! p = Some row /\ gp_group row = g.
Definition binding_exists (d : billing_db) (r : billing_reservation) : Prop :=
  match br_group r, br_group_period r with
  | None, None => True
  | Some g, Some p => group_rows_exist d g p
  | _, _ => False
  end.

Lemma lockBound_succeeds d g p : group_rows_exist d g p -> lockBoundGroupPeriodTx (Some g) (Some p) d = Ok (tt, d).
Proof.
  intros [Hg (row & Hrow & Hgrp)]. unfold lockBoundGroupPeriodTx. rewrite tgets_bind, tguard_bind, bool_decide_true by done.
  rewrite Hrow. unfold tguard. by rewrite bool_decide_true.
Qed.

Lemma lock_layers_succeeds d ls :
  Forall (fun l => group_rows_exist d (groupID l) (groupPeriodID l)) ls -> lock_layers ls d = Ok (tt, d).
Proof.
  induction 1 as [|l ls Hl _ IH]; [done|]. cbn [lock_layers]. unfold tbind. by rewrite lockBound_succeeds, IH.
Qed.

Lemma read_group_funds_succeeds op d g p row :
  group_periods d !! p = Some row -> gp_group row = g ->
  read_group_funds op g p d =
    Ok ((numeric_text (Z.max (limit_usd row - used_usd row) 0), numeric_text <$> member_limit_usd row), d).
Proof. intros Hrow Hg. unfold read_group_funds. rewrite tgets_bind, Hrow. by rewrite bool_decide_true. Qed.

Lemma groupMemberRemaining_succeeds d row p user :
  groupMemberRemainingTx p user (numeric_text <$> member_limit_usd row) d = Ok (numeric_text <$> member_left d row p user, d).
Proof.
  unfold groupMemberRemainingTx, member_left. destruct (member_limit_usd row); cbn; [|done]. by rewrite numeric_arg_bind, tgets_bind.
Qed.

Lemma choose_layer_succeeds d user cs :
  Forall (fun l => group_rows_exist d (groupID l) (groupPeriodID l)) cs ->
  exists o, choose_layer user cs d = Ok (o, d) /\ (forall c, o = Some c -> c ∈ cs).
Proof.
  induction 1 as [|c cs (Hg & row & Hrow & Hgrp) _ (o & IH & Hin)]; [by exists None|]. cbn [choose_layer]. unfold tbind at 1.
  rewrite (read_group_funds_succeeds _ d _ _ row) by done.
  assert (Hskip : exists o, choose_layer user cs d = Ok (o, d) /\ (forall x, o = Some x -> x ∈ c :: cs)).
  { exists o. split; [done|]. intros x Hx. right. by apply Hin. }
  destruct (billingPositive _); cbn [negb]; [|done]. unfold tbind. rewrite groupMemberRemaining_succeeds.
  destruct (numeric_text <$> _) as [m|]; [destruct (billingPositive m); [|done]|]; (exists (Some c); split; [done|]); intros x [= <-]; left.
Qed.

(** The group's share can always be charged: it never exceeds what is left. *)
Lemma charge_group_succeeds req r n at_ d r0 :
  money_inv d -> billing_reservations d !! req = Some r0 -> br_state r0 = Reserved -> binding_exists d r -> 0 <= n < pow10 30 ->
  exists x d', charge_group req r (numeric_text n) at_ d = Ok (x, d').
Proof.
  intros M Hr0 Hst Hb Hn. unfold charge_group, binding_exists in *. destruct (br_group_period r) as [p|]; [|eauto].
  destruct (br_group r) as [g|]; [|done]. destruct Hb as [Hg (row & Hrow & Hgrp)]. rewrite billingPositive_text.
  destruct (_ && _); [|eauto]. unfold tsome. rewrite tret_bind. unfold tbind at 1.
  rewrite (read_group_funds_succeeds _ d _ _ row) by done. unfold tbind at 1. rewrite groupMemberRemaining_succeeds.
  unfold money. rewrite billingMin_text, tlift_Ok_bind.
  set (s := cap (Z.min (Z.max (limit_usd row - used_usd row) 0) n) (member_left d row p (br_user r))).
  pose proof (cap_bounds (Z.min (Z.max (limit_usd row - used_usd row) 0) n) (member_left d row p (br_user r)) ltac:(lia)
    (fun y Hy => member_left_nonneg d row p _ y Hy)) as Hs. fold s in Hs.
  assert (E : (match numeric_text <$> member_left d row p (br_user r) with
     | Some m => tlift (billingMin (numeric_text (Z.min (Z.max (limit_usd row - used_usd row) 0) n)) m)
     | None => tret (numeric_text (Z.min (Z.max (limit_usd row - used_usd row) 0) n)) end) d = Ok (numeric_text s, d)).
  { subst s. destruct (member_left d row p (br_user r)); cbn; [by rewrite billingMin_text|done]. }
  unfold tbind at 1. rewrite E, billingPositive_text. destruct (Z.ltb_spec 0 s) as [Hp|]; [|eauto].
  rewrite numeric_arg_bind, (update_one_eq _ _ _ _ _ _ _ row) by done.
  pose proof (inv_group_period d M p row Hrow) as Hck. pose proof (member_used_le d p (br_user r) row M Hrow) as Hmu.
  destruct (no_allocations d req r0 M Hr0 Hst) as [Hfree _].
  unfold group_period_check in Hck. breflect.
  assert (Hf : numeric_fits (used_usd row + s) = true) by (eapply (numeric_fits_le _ (limit_usd row)); [lia|done]).
  assert (Hfs : numeric_fits s = true) by (eapply (numeric_fits_le _ (limit_usd row)); [lia|done]).
  assert (group_period_check (GroupPeriod (gp_group row) (limit_usd row) (used_usd row + s) (member_limit_usd row)) = true) as ->.
  { unfold group_period_check. cbn [limit_usd used_usd member_limit_usd]. rewrite Hf.
    repeat match goal with H : _ = true |- _ => rewrite H end. lia. }
  rewrite tgets_bind, tguard_bind. btables.
  assert (member_check (default 0 (member_usage d !! (p, br_user r)) + s) = true) as ->.
  { unfold member_check. rewrite (numeric_fits_le _ (used_usd row + s)) by (done || lia). lia. }
  rewrite tmod_bind. rewrite insert_allocation_eq; [|unfold allocation_check; cbn [al_amount]; rewrite Hfs; lia|btables; apply Hfree].
  rewrite billingSubtract_text, tlift_Ok_bind. eauto.
Qed.

Lemma finish_succeeds d d2 req r u tokens decision n rem g k share c at_ :
  money_inv d -> billing_reservations d !! req = Some r -> br_state r = Reserved ->
  settling d d2 req (br_user r) n rem g k ->
  c = Charging (numeric_text rem) (numeric_text g) (numeric_text k) (ch_order c) ->
  usage_counts u -> 0 <= n < pow10 30 -> 0 <= share <= g - k ->
  is_Some (billing_accounts d !! br_user r) ->
  (br_funding_rule r = 1 -> forall p row, br_group_period r = Some p -> group_periods d2 !! p = Some row ->
     numeric_fits (used_usd row + n) = true) ->
  exists row d', finish_settlement req r u tokens decision (numeric_text n) (numeric_text share) c at_ d2 = Ok (row, d').
Proof.
  intros M Hr Hst S Hc Hu Hn Hshare [acc Hacc] Hfit. pose proof (s_sums _ _ _ _ _ _ _ _ S) as Hsum.
  destruct (inv_account d M _ _ Hacc) as [Hack Hbal].
  assert (Hk : k <= balance_usd acc).
  { pose proof (s_cash _ _ _ _ _ _ _ _ S (br_user r)) as Hcash. rewrite bool_decide_true in Hcash by done.
    assert (0 <= cash_total (br_user r) (cash_lots d2)); [|lia]. apply cash_total_nonneg. intros id l Hl.
    apply (s_lot_rows _ _ _ _ _ _ _ _ S) in Hl. unfold lot_check in Hl. breflect. done. }
  unfold finish_settlement, money. replace (ch_charged c) with (numeric_text g) by (by rewrite Hc).
  replace (ch_cash c) with (numeric_text k) by (by rewrite Hc). replace (ch_remaining c) with (numeric_text rem) by (by rewrite Hc).
  rewrite billingSubtract_text, tlift_Ok_bind. unfold tbind at 1. unfold debit_account at 1.
  rewrite numeric_arg_bind, tgets_bind, (s_accounts _ _ _ _ _ _ _ _ S), Hacc. replace (k <=? balance_usd acc) with true by lia.
  rewrite tguard_bind. unfold account_check in Hack. breflect.
  assert (Hfb : numeric_fits (balance_usd acc - k) = true) by (eapply (numeric_fits_le _ (balance_usd acc)); [lia|done]).
  assert (account_check (Account (balance_usd acc - k) (next_cash_lot_sequence acc) at_) = true) as ->.
  { unfold account_check. cbn [balance_usd next_cash_lot_sequence]. rewrite Hfb. lia. }
  rewrite tmod_bind. unfold tret at 1. rewrite !numeric_arg_bind. cbn [balance_usd].
  fold (charge_of u tokens decision n g rem share). set (charge := charge_of u tokens decision n g rem share).
  assert (Hcc : charge_check charge = true) by (apply charge_of_check; auto; lia).
  unfold tbind at 1. unfold insert_ledger at 1. rewrite tguard_bind. unfold ledger_check at 1. cbn [le_balance_after le_charge le_cny le_rate].
  rewrite Hcc, Hfb. replace (0 <=? balance_usd acc - k) with true by lia. cbn [andb]. rewrite tmod_bind. unfold tgets at 1.
  match goal with |- exists row d', tbind ?m ?k ?s = _ => set (next := k); set (s3 := s); set (upd := m) end.
  assert (Hupd : exists gps, upd s3 = Ok (tt, set_group_periods gps s3)).
  { subst upd s3. destruct (br_group_period r) as [p|] eqn:Ep; [destruct (Z.eqb_spec (br_funding_rule r) 1) as [E1|E1]|].
    - unfold update_one. rewrite tgets_bind. btables. cbn [update_rows].
      destruct (group_periods d2 !! p) as [row|] eqn:Erow; [|exists (group_periods d2); done].
      assert (group_period_check (GroupPeriod (gp_group row) (limit_usd row) (used_usd row + n) (member_limit_usd row)) = true) as ->.
      { pose proof (s_group_rows _ _ _ _ _ _ _ _ S p row Erow) as Hg. unfold group_period_check in *.
        cbn [limit_usd used_usd member_limit_usd]. rewrite (Hfit E1 p row eq_refl Erow). breflect.
        repeat match goal with H : _ = true |- _ => rewrite H end. lia. }
      eexists. reflexivity.
    - exists (group_periods d2). reflexivity.
    - exists (group_periods d2). reflexivity. }
  destruct Hupd as [gps Hupd]. unfold tbind at 1. rewrite Hupd. subst next s3. cbv beta. rewrite tgets_bind. btables. cbn [update_rows].
  rewrite (s_reservations _ _ _ _ _ _ _ _ S), Hr.
  change (reservation_row_check (settle_row charge at_ r)) with (charge_check charge). rewrite Hcc. eauto.
Qed.

(** Everything a settlement looks up is there: the group binding or the rows of
    every recorded layer, the periods of the sources, the account; the terminal
    usage can be priced; and a rule 1 group total has room for the cost. *)
Record settle_ready (decode : string -> option DecodedSnapshot) (d : billing_db) (req : string) (pre : billing_reservation)
  (u : usage_row) (n tokens : Z) (decision : option PricingDecision) (sources : list BillingFundingSource) : Prop := {
  ready_row : billing_reservations d !! req = Some pre;
  ready_reserved : br_state pre = Reserved;
  ready_usage : usage_requests d !! req = Some u;
  ready_terminal : terminal u = true;
  ready_int64 : u_input u <= max_int64;
  ready_cost : settlement_cost decode pre u = Ok (numeric_text n, tokens, decision);
  ready_sources : settlement_sources pre = Ok sources;
  ready_bound : Forall (source_bound d (br_user pre)) sources;
  ready_account : is_Some (billing_accounts d !! br_user pre);
  ready_binding : binding_exists d pre;
  ready_layers : br_funding_rule pre = 4 -> exists layers, reservation_layers d !! req = Some layers /\ layers <> [] /\
    Forall (fun l => allAccounts l = false -> group_rows_exist d (groupID l) (groupPeriodID l)) layers;
  ready_rule1 : br_funding_rule pre = 1 -> forall p row, br_group_period pre = Some p -> group_periods d !! p = Some row ->
    numeric_fits (used_usd row + n) = true;
}.

Lemma candidates_rows d layers account groups personal attributed :
  Forall (fun l => allAccounts l = false -> group_rows_exist d (groupID l) (groupPeriodID l)) layers ->
  settlementLayerCandidates layers account = (groups, personal, attributed) ->
  Forall (fun l => group_rows_exist d (groupID l) (groupPeriodID l)) groups.
Proof.
  intros Hl. unfold settlementLayerCandidates. rewrite candidate_loop_spec. rewrite Forall_forall in Hl.
  destruct (filter _ layers) as [|g gs] eqn:Eg.
  - destruct (_ && _); [intros [= <- _ _]; constructor|]. destruct layers as [|l ls]; [intros [= <- _ _]; constructor|].
    destruct (allAccounts l) eqn:Ea; intros [= <- _ _]; constructor; [|constructor]. apply Hl; [left|done].
  - intros [= <- _ _]. rewrite <- Eg. apply Forall_forall. intros l [(Ha & _) Hin]%list_elem_of_filter. by apply Hl.
Qed.

Lemma candidates_pay layers account groups personal attributed :
  layers <> [] -> settlementLayerCandidates layers account = (groups, personal, attributed) -> groups <> [] \/ personal = true.
Proof.
  intros Hne. unfold settlementLayerCandidates. destruct (candidate_loop account layers) as [[|g gs] p].
  - destruct p; [intros [= <- <- _]; by right|]. destruct layers as [|l ls]; [done|].
    destruct (allAccounts l); intros [= <- <- _]; [by right|by left].
  - intros [= <- _ _]. by left.
Qed.

Lemma bind_succeeds d req r cs personal :
  billing_reservations d !! req = Some r -> br_state r = Reserved -> reservation_row_check r = true ->
  Forall (fun l => group_rows_exist d (groupID l) (groupPeriodID l)) cs -> cs <> [] \/ personal = true ->
  exists g p, bindSettlementLayerTx req r cs personal d =
      Ok (with_group g p r, set_billing_reservations (<[req := with_group g p r]> (billing_reservations d)) d) /\
    binding_exists d (with_group g p r).
Proof.
  intros Hr Hs Hck Hcs Hpay. destruct (choose_layer_succeeds d (br_user r) cs Hcs) as (o & Ho & Hin).
  unfold bindSettlementLayerTx. unfold tbind at 1. rewrite Ho.
  set (ch := match o with Some c => Some c | None => head cs end).
  assert (Hch : forall c, ch = Some c -> c ∈ cs).
  { subst ch. destruct o; [done|]. destruct cs; [done|]. intros c [= <-]. left. }
  assert ((match ch with Some _ => false | None => true end && negb personal) = false) as ->.
  { subst ch. destruct o; [done|]. destruct cs; cbn; [|done]. by destruct Hpay as [?| ->]. }
  rewrite tgets_bind. cbn [update_rows]. rewrite Hr, bool_decide_true by done. rewrite with_group_check, Hck by done.
  exists (groupID <$> ch), (groupPeriodID <$> ch). split; [done|]. unfold binding_exists. cbn.
  destruct ch as [c|]; [|done]. cbn. rewrite Forall_forall in Hcs. by apply Hcs, Hch.
Qed.

Lemma settle_succeeds decode clock req at_ d pre u n tokens decision sources :
  req <> EmptyString -> money_inv d -> settle_ready decode d req pre u n tokens decision sources ->
  exists row d', settleBillingTx decode clock req at_ d = Ok (row, d').
Proof.
  intros Hid M R. pose proof (ready_row _ _ _ _ _ _ _ _ _ R) as Hpre. pose proof (ready_reserved _ _ _ _ _ _ _ _ _ R) as Hst.
  pose proof (ready_usage _ _ _ _ _ _ _ _ _ R) as Hu. pose proof (ready_terminal _ _ _ _ _ _ _ _ _ R) as Hterm.
  unfold settleBillingTx. rewrite tguard_bind, bool_decide_false by done. cbn [negb].
  set (at' := if is_zero_time at_ then clock else at_). rewrite tgets_bind, Hpre. unfold tsome at 1. rewrite tret_bind.
  assert (Hread : forall op, read_terminal_usage op req d = Ok (u, d)).
  { intros op. unfold read_terminal_usage. rewrite tgets_bind, Hu. unfold tsome. rewrite tret_bind, tguard_bind, Hterm. done. }
  pose proof (inv_reservation_row d M req pre Hpre) as Hck.
  assert (Hpref : exists cp, (if (br_funding_rule pre =? 4) && bool_decide (br_state pre = Reserved) then
        let* layers := readFundingLayersTx req in
        let* u := read_terminal_usage "read terminal usage account" req in
        let '(candidates, personal, _) := settlementLayerCandidates layers (default EmptyString (u_account u)) in
        lock_layers (locking candidates) ;; tret (candidates, personal)
      else lockBoundGroupPeriodTx (br_group pre) (br_group_period pre) ;; tret ([], false)) d = Ok (cp, d) /\
    (br_funding_rule pre = 4 -> Forall (fun l => group_rows_exist d (groupID l) (groupPeriodID l)) cp.1 /\ (cp.1 <> [] \/ cp.2 = true))).
  { rewrite (bool_decide_true _ Hst), andb_true_r. destruct (Z.eqb_spec (br_funding_rule pre) 4) as [E4|E4].
    - destruct (ready_layers _ _ _ _ _ _ _ _ _ R E4) as (layers & El & Hne & Hrows).
      unfold tbind at 1. unfold readFundingLayersTx. rewrite tgets_bind, El. cbn [default from_option id]. destruct layers as [|l0 ls] eqn:El'; [done|].
      rewrite <- El' in *. clear El'. unfold tret at 1. unfold tbind at 1. rewrite Hread.
      destruct (settlementLayerCandidates layers (default EmptyString (u_account u))) as [[groups personal] attributed] eqn:Ec.
      pose proof (candidates_rows d layers _ _ _ _ Hrows Ec) as Hg. unfold tbind. rewrite lock_layers_succeeds by (unfold locking; by rewrite stable_sort_perm).
      exists (groups, personal). split; [done|]. intros _. split; [done|]. by eapply candidates_pay.
    - pose proof (ready_binding _ _ _ _ _ _ _ _ _ R) as Hb. unfold binding_exists in Hb. exists ([], false). split; [|done].
      unfold tbind. destruct (br_group pre) as [g|], (br_group_period pre) as [p|]; try done. by rewrite lockBound_succeeds. }
  destruct Hpref as ([cands personal] & Hpref & Hc4). unfold tbind at 1. rewrite Hpref. rewrite Hst. unfold tbind at 1. rewrite Hread.
  assert (Hbind : exists r, (if br_funding_rule pre =? 4 then bindSettlementLayerTx req pre cands personal else tret pre) d =
      Ok (r, set_billing_reservations (<[req := r]> (billing_reservations d)) d) /\ bound_row pre r /\ binding_exists d r /\
      reservation_row_check r = true /\ br_state r = Reserved /\ br_user r = br_user pre /\
      settlement_cost decode r u = settlement_cost decode pre u /\ settlement_sources r = settlement_sources pre /\
      br_funding_rule r = br_funding_rule pre /\ (br_funding_rule pre <> 4 -> r = pre)).
  { destruct (Z.eqb_spec (br_funding_rule pre) 4) as [E4|E4].
    - destruct (Hc4 E4) as [Hrows Hpay]. destruct (bind_succeeds d req pre cands personal Hpre Hst Hck Hrows Hpay) as (g & p & E & Hb).
      exists (with_group g p pre). split; [done|]. split; [right; eauto|]. split; [done|]. rewrite with_group_check by done. done.
    - exists pre. unfold tret. split. { f_equal. rewrite insert_id by done. by destruct d. }
      split; [by left|]. split; [apply (ready_binding _ _ _ _ _ _ _ _ _ R)|]. done. }
  destruct Hbind as (r & Er & Hbr & Hbe & Hckr & Hsr & Hur & Hcr & Hsrcr & Hfr & Hr4). unfold tbind at 1. rewrite Er.
  pose proof (money_inv_reservation d req pre r M Hpre Hst Hckr ltac:(congruence)) as M1.
  rewrite Hcr, (ready_cost _ _ _ _ _ _ _ _ _ R), tlift_Ok_bind.
  destruct (settlement_cost_amount decode pre u _ tokens decision (ready_int64 _ _ _ _ _ _ _ _ _ R) (ready_cost _ _ _ _ _ _ _ _ _ R))
    as (Hcounts & m & Em & Hm).
  assert (m = n) as -> by (assert (E : numeric_of (numeric_text n) = numeric_of (numeric_text m)) by (by rewrite Em); rewrite !numeric_of_text in E; congruence).
  set (db := set_billing_reservations _ d) in *.
  assert (Hrec : exists us, record_decision req tokens decision db = Ok (tt, set_usage us db)).
  { unfold record_decision. destruct decision; [|exists (usage_requests db); by destruct db].
    unfold update_one. rewrite tgets_bind. cbn [update_rows]. destruct (usage_requests db !! req); eexists; reflexivity. }
  destruct Hrec as [us Hrec]. unfold tbind at 1. rewrite Hrec. apply (money_inv_usage _ us) in M1. set (d1 := set_usage us db) in *.
  assert (Hr1 : billing_reservations d1 !! req = Some r) by (subst d1 db; btables; by rewrite lookup_insert_eq).
  destruct (charge_group_succeeds req r n at' d1 r M1 Hr1 Hsr Hbe ltac:(lia)) as ([c0 gtext] & d2 & Eg). unfold tbind at 1. rewrite Eg.
  change (billingSettlementSources _ _ _ _ _ _) with (settlement_sources r). rewrite Hsrcr, (ready_sources _ _ _ _ _ _ _ _ _ R), tlift_Ok_bind.
  assert (Hsrc : exists c d3, charge_sources req (br_user r) at' sources c0 d2 = Ok (c, d3)).
  { destruct (group_walk d1 req r n at' c0 d2 gtext M1 Hr1 Hsr ltac:(lia) Eg) as (_ & _ & -> & w0 & W & _ & _ & Ep & _).
    destruct (charge_sources_walk w0 req (br_user r) n at' sources d2 _ _ _ _ W) as [[(s & Hs & Hns) _]|(c & d3 & _ & _ & _ & E & _)]; [|eauto].
    exfalso. apply Hns. pose proof (ready_bound _ _ _ _ _ _ _ _ _ R) as Hb. rewrite Forall_forall in Hb. specialize (Hb s Hs).
    unfold source_bound in *. rewrite Ep, Hur. exact Hb. }
  destruct Hsrc as (c & d3 & Esrc). unfold tbind at 1. rewrite Esrc.
  destruct (settling_intro d1 req r n at' sources c0 c d2 d3 gtext M1 Hr1 Hsr ltac:(lia) Eg Esrc)
    as (rem & g & k & S & Hc & -> & Hshare & [Hrem Hgp] & _).
  apply (finish_succeeds d1 d3 req r u tokens decision n rem g k _ c at' M1 Hr1 Hsr S Hc Hcounts Hm Hshare);
    [rewrite Hur; apply (ready_account _ _ _ _ _ _ _ _ _ R)|].
  intros E1 p row Ep Hrow. rewrite Hfr in E1. rewrite Hr4 in Ep by lia. eapply (ready_rule1 _ _ _ _ _ _ _ _ _ R E1 p row Ep).
  rewrite Hgp in Hrow. unfold charge_group in Eg. rewrite (Hr4 ltac:(lia)), Ep, E1 in Eg. cbn in Eg. by injection Eg as _ _ <-.
Qed.

(** ** Properties *)

(** A user with 5 USD in cash, 2 USD left of a subscription period and a group
    period with 1 USD left, and a finished request that costs 10 USD. *)
Definition usd (n : Z) : Z := n * pow10 12.
Definition billed_request : string := "request-00000001".
Definition billed_usage : usage_row :=
  {| u_state := "completed"; u_endpoint := "responses"; u_model := "m"; u_requested_at := 100; u_completed_at := Some 200;
     u_http_status := Some 200; u_error_code := None; u_duration_ms := Some 1; u_input := 1000000; u_cached := 0;
     u_cache_write := 0; u_cache_write_present := false; u_output := 0; u_actual_tier := None; u_account := Some "acct";
     u_write5m := 0; u_write1h := 0; u_ttl_present := false; u_pricing_tier := None; u_context_class := None;
     u_fallback_reason := None |}.
Definition billed_sources : list BillingFundingSource :=
  [ {| SourceType := "subscription"; SubscriptionID := "s1"; PeriodID := "p1"; CashLotCutoff := 0; Priority := 10; PeriodDays := 7; RemainingUSD := "2" |};
    {| SourceType := "cash"; SubscriptionID := ""; PeriodID := ""; CashLotCutoff := 4; Priority := 20; PeriodDays := 0; RemainingUSD := "5" |} ].
Definition billed_reserved : billing_reservation :=
  {| br_user := "u1"; br_api_key := "k1"; br_model := "m"; br_input_price := "10"; br_cached_price := "1"; br_output_price := "30";
     br_rule_version := 1; br_multiplier := "1"; br_mode := "legacy"; br_catalog := None; br_snapshot := ""; br_cache_write_mode := None;
     br_requested_tier := None; br_day_period := None; br_week_period := None; br_month_period := None; br_cash_cutoff := None;
     br_sources := billed_sources; br_funding_rule := 3; br_group := Some "g1"; br_group_period := Some "gp1"; br_state := Reserved;
     br_created_at := 100; br_settled_at := None; br_charge := None |}.
Definition billed_db : billing_db :=
  BillingDB {[ "u1" := "active" ]} {[ "u1" := Account (usd 5) 2 1 ]} {[ 1 := Lot "u1" 1 1 (usd 6) (usd 5) 1 ]}
    {[ "p1" := Period "s1" "u1" None (usd 7) (usd 2) 0 ]} {[ "g1" ]} {[ "gp1" := GroupPeriod "g1" (usd 4) (usd 3) None ]} ∅
    {[ billed_request := billed_reserved ]} ∅ ∅ [] {[ billed_request := billed_usage ]} ∅ ∅ (Settings (usd 1) 0 None) [].

Lemma billed_money_inv : money_inv billed_db.
Proof.
  split; unfold billed_db; btables.
  - intros u a [<- <-]%lookup_singleton_Some. split; vm_compute; reflexivity.
  - intros id l [<- <-]%lookup_singleton_Some. split; [by vm_compute|]. exists (Account (usd 5) 2 1). split; [by rewrite lookup_singleton_eq|cbn; lia].
  - intros id p [<- <-]%lookup_singleton_Some. by vm_compute.
  - intros id g [<- <-]%lookup_singleton_Some. by vm_compute.
  - intros p u n. by rewrite lookup_empty.
  - intros id r [<- <-]%lookup_singleton_Some. by vm_compute.
  - intros id. destruct (decide (id = billed_request)) as [->|]; [rewrite lookup_singleton_eq|rewrite lookup_singleton_ne by done]; reflexivity.
  - intros id o [x Hx]. by rewrite lookup_empty in Hx.
Qed.

Definition no_snapshots (_ : string) : option DecodedSnapshot := None.

Definition billed_group : group_period_row := GroupPeriod "g1" (usd 4) (usd 3) None.
Definition billed_period : period_row := Period "s1" "u1" None (usd 7) (usd 2) 0.

Lemma billed_ready :
  settle_ready no_snapshots billed_db billed_request billed_reserved billed_usage (usd 10) 0 None billed_sources.
Proof.
  split.
  - vm_compute. reflexivity.
  - reflexivity.
  - vm_compute. reflexivity.
  - vm_compute. reflexivity.
  - vm_compute. discriminate.
  - vm_compute. reflexivity.
  - vm_compute. reflexivity.
  - apply Forall_cons. split; [|apply Forall_cons; split; [by left|constructor]].
    right. exists billed_period. split; vm_compute; reflexivity.
  - exists (Account (usd 5) 2 1). vm_compute. reflexivity.
  - split; [vm_compute; reflexivity|]. exists billed_group. split; [vm_compute; reflexivity|reflexivity].
  - intros E. discriminate E.
  - intros E. discriminate E.
Qed.

Definition billed_row : billing_reservation := settle_row (charge_of billed_usage 0 None (usd 10) (usd 8) (usd 2) (usd 1)) 300 billed_reserved.
Definition billed_after : billing_db :=
  match settleBillingTx no_snapshots 1 billed_request 300 billed_db with Ok (_, d) => d | Err _ => billed_db end.

Lemma billed_settles : settleBillingTx no_snapshots 1 billed_request 300 billed_db = Ok (billed_row, billed_after).
Proof. vm_compute. reflexivity. Qed.

(** [C1] A settlement that commits conserves money.  The cost is what was
    charged plus what stays uncovered, the charge is the group's part plus the
    personal part, and the allocations recorded for the request add up to the
    charge.  The user's balance drops by the cash part, which the ledger entry
    records, no other balance changes, no lot or period is overdrawn, and the
    balances still agree with the lots. *)
Theorem settlement_conserves decode clock req at_ d pre row d' :
  money_inv d -> billing_reservations d !! req = Some pre -> br_state pre = Reserved ->
  (forall u, usage_requests d !! req = Some u -> u_input u <= max_int64) ->
  settleBillingTx decode clock req at_ d = Ok (row, d') ->
  exists ch k e, money_inv d' /\ billing_reservations d' !! req = Some row /\ br_state row = Settled /\ br_charge row = Some ch /\
    sc_cost ch = sc_charged ch + sc_uncovered ch /\ sc_charged ch = sc_group_charged ch + sc_personal_charged ch /\
    0 <= sc_uncovered ch /\ 0 <= sc_group_charged ch /\ 0 <= k <= sc_personal_charged ch /\
    allocated req (allocations d') = sc_charged ch /\
    (forall u a, billing_accounts d !! u = Some a -> exists a', billing_accounts d' !! u = Some a' /\
       balance_usd a' = balance_usd a - (if bool_decide (u = br_user pre) then k else 0)) /\
    ledger d' = ledger d ++ [e] /\ le_cash_delta e = - k /\ le_charge e = Some ch /\ later d d'.
Proof.
  intros M Hpre Hst Hin H.
  destruct (settle_Ok decode clock req at_ d pre row d' M Hpre Hst Hin H) as (r & u & tokens & decision & n & share & rem & g & k &
    sources & acc & e & _ & _ & _ & _ & _ & _ & -> & Hcc & M' & Hres & _ & Hk & Hal & L & Hacc & Haccs & Hled & Hcash & Hch & _).
  exists (charge_of u tokens decision n g rem share), k, e.
  unfold charge_check, charge_of in Hcc.
  cbn [sc_input_tokens sc_cached_tokens sc_output_tokens sc_cost sc_charged sc_uncovered sc_group_charged sc_personal_charged] in Hcc.
  breflect. cbn [charge_of sc_cost sc_charged sc_uncovered sc_group_charged sc_personal_charged].
  split; [done|]. split; [by rewrite Hres, lookup_insert_eq|]. split; [done|]. split; [done|]. split; [lia|]. split; [lia|].
  split; [lia|]. split; [lia|]. split; [lia|]. split; [done|]. split; [|by auto].
  intros v a Ha. rewrite Haccs. case_bool_decide as Ev.
  - subst v. rewrite lookup_insert_eq. eexists. split; [done|]. rewrite Hacc in Ha. injection Ha as <-. done.
  - rewrite lookup_insert_ne by done. exists a. split; [done|lia].
Qed.

Lemma settlement_conserves_witness :
  exists d' ch k e, money_inv d' /\ billing_reservations d' !! billed_request = Some billed_row /\ br_state billed_row = Settled /\
    br_charge billed_row = Some ch /\ sc_cost ch = sc_charged ch + sc_uncovered ch /\
    allocated billed_request (allocations d') = sc_charged ch /\ 0 <= k <= sc_personal_charged ch /\ le_cash_delta e = - k.
Proof.
  destruct (settlement_conserves no_snapshots 1 billed_request 300 billed_db billed_reserved billed_row billed_after billed_money_inv)
    as (ch & k & e & H1 & H2 & H3 & H4 & H5 & _ & _ & _ & H6 & H7 & _ & _ & H8 & _).
  - vm_compute. reflexivity.
  - reflexivity.
  - intros u Hu. assert (u = billed_usage) as -> by (injection Hu as <-; reflexivity). discriminate.
  - exact billed_settles.
  - exists billed_after, ch, k, e. auto 12.
Defined.



(** A settlement whose rows are all there always commits: no CHECK
    constraint, no overdraft guard and no unique key can refuse it. *)
Theorem settlement_commits decode clock req at_ d pre u n tokens decision sources :
  req <> EmptyString -> money_inv d -> settle_ready decode d req pre u n tokens decision sources ->
  exists row d', settleBillingTx decode clock req at_ d = Ok (row, d').
Proof. intros. by eapply settle_succeeds. Qed.

Lemma settlement_commits_witness : exists row d', settleBillingTx no_snapshots 1 billed_request 300 billed_db = Ok (row, d').
Proof.
  eapply (settlement_commits no_snapshots 1 billed_request 300 billed_db); [discriminate|exact billed_money_inv|exact billed_ready].
Defined.

(** A billing reservation is closed once.  Settling a settled one returns
    the recorded row and changes nothing, releasing it is refused; a released
    one stays released and cannot be settled; releasing an open one marks it
    and moves no money. *)
Theorem billing_closed_once decode clock req at_ d r :
  req <> EmptyString -> money_inv d -> billing_reservations d !! req = Some r -> binding_exists d r ->
  match br_state r with
  | Settled => settleBillingTx decode clock req at_ d = Ok (r, d) /\
      releaseBillingTx clock req at_ d = Err (ErrConflict "release settled billing reservation")
  | Released => settleBillingTx decode clock req at_ d = Err (ErrConflict "settle released billing reservation") /\
      releaseBillingTx clock req at_ d = Ok (tt, d)
  | Reserved => exists d', releaseBillingTx clock req at_ d = Ok (tt, d') /\ money_inv d' /\
      billing_reservations d' = <[req := release_row (if is_zero_time at_ then clock else at_) r]> (billing_reservations d) /\
      billing_accounts d' = billing_accounts d /\ cash_lots d' = cash_lots d /\ periods d' = periods d /\
      group_periods d' = group_periods d /\ ledger d' = ledger d
  end.
Proof.
  intros Hid M Hr Hb. pose proof (inv_reservation_row d M req r Hr) as Hck.
  assert (Hlock : lockBoundGroupPeriodTx (br_group r) (br_group_period r) d = Ok (tt, d)).
  { unfold binding_exists in Hb. destruct (br_group r), (br_group_period r); try done. by apply lockBound_succeeds. }
  destruct (br_state r) eqn:Hs.
  - unfold releaseBillingTx. rewrite tguard_bind, bool_decide_false by done. cbn [negb]. rewrite tgets_bind, Hr. unfold tsome.
    rewrite tret_bind, Hs. cbn [update_rows]. rewrite Hr, bool_decide_true by done.
    assert (Hck' : reservation_row_check (release_row (if is_zero_time at_ then clock else at_) r) = true).
    { unfold reservation_row_check in *. cbn. rewrite Hs in Hck. by destruct (br_charge r). }
    rewrite Hck'. eexists. split; [reflexivity|]. split; [by eapply money_inv_reservation|]. done.
  - unfold settleBillingTx, releaseBillingTx. rewrite !tguard_bind, bool_decide_false by done. cbn [negb]. rewrite !tgets_bind, !Hr.
    unfold tsome. rewrite !tret_bind, Hs. rewrite bool_decide_false by done. rewrite andb_false_r. unfold tbind at 1 2. by rewrite Hlock.
  - unfold settleBillingTx, releaseBillingTx. rewrite !tguard_bind, bool_decide_false by done. cbn [negb]. rewrite !tgets_bind, !Hr.
    unfold tsome. rewrite !tret_bind, Hs. rewrite bool_decide_false by done. rewrite andb_false_r. unfold tbind at 1 2. by rewrite Hlock.
Qed.

Lemma billing_closed_once_witness :
  exists d', releaseBillingTx 1 billed_request 300 billed_db = Ok (tt, d') /\ money_inv d' /\
    billing_reservations d' = <[billed_request := release_row 300 billed_reserved]> (billing_reservations billed_db).
Proof.
  destruct (billing_closed_once no_snapshots 1 billed_request 300 billed_db billed_reserved) as (d' & H1 & H2 & H3 & _).
  - discriminate.
  - exact billed_money_inv.
  - vm_compute. reflexivity.
  - exact (ready_binding _ _ _ _ _ _ _ _ _ billed_ready).
  - exists d'. auto.
Defined.
