(* ===== verification/Accounts.v ===== *)
(** * Balance operations ([internal/store/billing.go], 258-383, 636-657, 840-940 and 1153-1435)

    The administrator's writes to the billing tables: the recharge rate, a
    recharge and a signed balance adjustment.  Each is a transaction that claims
    its operation id first, so that a retry returns the recorded entry.

    The fingerprint (SHA-256 of the JSON array of the arguments), the sessions
    table and PostgreSQL's [inet] input are not part of the sources: they are
    parameters.  Ids are the canonical texts of their UUID columns. *)
From Stdlib Require Import QArith Ascii.
From S2P Require Import Prelude GoStrings GoTime Amount Pricing Store Quota Money Funding BillingTables Charging Settling.

(** ** Parameters of the writes *)

Record BillingWriteParams := {
  OperationID : string;
  Reason : string;
  ActorUserID : string;
  ActorSessionID : string;
  RequestID : string;
  SourceIP : string;
  At : Z;
}.

(** The length of [[]rune(s)]: a byte that starts no UTF-8 sequence is one rune. *)
Definition continuation (lo hi : Z) (c : ascii) : bool := (lo <=? byte_of c) && (byte_of c <=? hi).
Definition second_byte (first : Z) (c : ascii) : bool :=
  continuation (if first =? 224 then 160 else if first =? 240 then 144 else 128)
               (if first =? 237 then 159 else if first =? 244 then 143 else 191) c.
Fixpoint rune_count (s : string) : Z :=
  match s with
  | EmptyString => 0
  | String c s1 =>
      let n := byte_of c in
      match s1 with
      | String c2 s2 =>
          if (194 <=? n) && (n <=? 223) && continuation 128 191 c2 then 1 + rune_count s2 else
          match s2 with
          | String c3 s3 =>
              if (224 <=? n) && (n <=? 239) && second_byte n c2 && continuation 128 191 c3 then 1 + rune_count s3 else
              match s3 with
              | String c4 s4 =>
                  if (240 <=? n) && (n <=? 244) && second_byte n c2 && continuation 128 191 c3 && continuation 128 191 c4
                  then 1 + rune_count s4 else 1 + rune_count s1
              | EmptyString => 1 + rune_count s1
              end
          | EmptyString => 1 + rune_count s1
          end
      | EmptyString => 1 + rune_count s1
      end
  end.

Definition empty (s : string) : bool := bool_decide (s = EmptyString).

Definition validateBillingWrite (p : BillingWriteParams) : result store_error unit :=
  if empty (OperationID p) || empty (ActorUserID p) || empty (trim_space (Reason p)) ||
     (500 <? rune_count (trim_space (Reason p)))
  then Err (ErrInvalid "operation id, actor and reason are required") else Ok tt.

Definition normalizedBillingTime (value now : Z) : Z := if is_zero_time value then now else value.

(** The fields a write normalises before its transaction. *)
Definition normalized (now : Z) (p : BillingWriteParams) : BillingWriteParams :=
  {| OperationID := OperationID p; Reason := trim_space (Reason p); ActorUserID := ActorUserID p;
     ActorSessionID := ActorSessionID p; RequestID := RequestID p; SourceIP := SourceIP p;
     At := normalizedBillingTime (At p) now |}.

(** ** Subscription periods *)

Definition billingPeriodDuration (tier : string) : result store_error Z :=
  if bool_decide (tier = BillingTierDay) then Ok (24 * Hour) else
  if bool_decide (tier = BillingTierWeek) then Ok (7 * 24 * Hour) else
  if bool_decide (tier = BillingTierMonth) then Ok (31 * 24 * Hour) else
  Err (ErrInvalid "invalid subscription tier").

Definition validateBillingPeriodCount (periodCount : Z) : result store_error unit :=
  if (periodCount <? 0) || (99 <? periodCount)
  then Err (ErrInvalid "subscription period count must be between 0 and 99") else Ok tt.

(** [AddDate(0, 0, n)] on a UTC instant is [n] days of 24 hours. *)
Definition billingSubscriptionExpiry (periodStart duration periodNumber periodCount : Z) : option Z :=
  if periodCount =? 0 then None else
  let remainingPeriods := wrap64 (wrap64 (periodCount - periodNumber) + 1) in
  Some (periodStart + wrap64 (remainingPeriods * Z.quot duration (24 * Hour)) * Day24).

(** ** Operations *)

Section operations.
Context (fingerprint : list string -> string) (session_of : string -> string -> bool) (inet_ok : string -> bool).

(** [(created, replayed ledger id)].  Both the actor and the target are foreign
    keys into [users]; the other constraints hold of normalised parameters. *)
Definition claimBillingOperationTx (p : BillingWriteParams) (operationType targetUserID fp : string)
  (compatible : list string) : tx billing_db (option Z) :=
  let* d := tgets (fun d => d) in
  tguard (negb (bool_decide (OperationID p ∈ tombstones d)))
    (ErrConflict "billing operation history was cleaned; operation ID cannot be reused") ;;
  match operations d !! OperationID p with
  | None =>
      tguard (bool_decide (is_Some (users d !! ActorUserID p)) &&
              (empty targetUserID || bool_decide (is_Some (users d !! targetUserID))))
        (ErrInvalid "claim billing operation") ;;
      tmod (fun d => set_operations (<[OperationID p :=
        Operation operationType (ActorUserID p) targetUserID (trim_space (Reason p)) fp None (At p)]> (operations d)) d) ;;
      tret None
  | Some row =>
      match op_result row with
      | Some ledgerID =>
          tguard (bool_decide (op_type row = operationType) && bool_decide (op_actor row = ActorUserID p) &&
                  bool_decide (op_target row = targetUserID) && bool_decide (op_fingerprint row ∈ fp :: compatible))
            (ErrConflict "billing operation replay mismatch") ;;
          tret (Some ledgerID)
      | None => tfail (ErrConflict "billing operation replay mismatch")
      end
  end.

Definition with_result (ledgerID : Z) (row : operation_row) : operation_row :=
  Operation (op_type row) (op_actor row) (op_target row) (op_reason row) (op_fingerprint row) (Some ledgerID) (op_created_at row).

Definition finishBillingOperationTx (operationID : string) (ledgerID : Z) : tx billing_db unit :=
  let* rows := tgets operations in
  match update_rows [operationID] (fun row => bool_decide (op_result row = None)) (with_result ledgerID) (fun _ => true) rows with
  | None => tfail (ErrInvalid "finish billing operation")
  | Some (n, rows') => tmod (set_operations rows') ;; tguard (negb (n =? 0)) (ErrNotFound "finish billing operation")
  end.

(** A ledger entry with its id; ids count from 1. *)
Definition replayBillingLedgerTx (id : Z) : tx billing_db (Z * ledger_row) :=
  let* rows := tgets ledger in
  let* row := tsome "read billing operation result" (rows !! Z.to_nat (id - 1)) in
  tret (id, row).

(** An entry of an operation: the operation id is unique in the ledger. *)
Definition insert_operation_entry (operation : string) (e : ledger_row) : tx billing_db (Z * ledger_row) :=
  let* rows := tgets ledger in
  tguard (bool_decide (Forall (fun x => le_operation x <> le_operation e) rows)) (ErrConflict operation) ;;
  let* id := insert_ledger operation e in
  tret (id, e).

Definition lockNonPendingUserTx (userID : string) : tx billing_db unit :=
  let* rows := tgets users in
  let* status := tsome "lock user for business operation" (rows !! userID) in
  tguard (negb (bool_decide (status = "pending"))) (ErrConflict "user registration is awaiting approval").

Definition lockBillingAccountTx (userID : string) : tx billing_db unit :=
  let* rows := tgets billing_accounts in
  let* _ := tsome "lock billing account" (rows !! userID) in
  lockNonPendingUserTx userID.

(** The metadata keys of the three writes are all allowed by
    [marshalSafeMetadata], and their values are short strings. *)
Definition appendBillingAuditTx (p : BillingWriteParams) (eventType subjectType subjectID : string)
  (metadata : list (string * string)) : tx billing_db unit :=
  let* rows := tgets users in
  tguard (bool_decide (is_Some (rows !! ActorUserID p)) &&
          (empty (ActorSessionID p) || session_of (ActorSessionID p) (ActorUserID p)) &&
          (empty (SourceIP p) || inet_ok (SourceIP p)) &&
          (empty (RequestID p) || ((16 <=? rune_count (RequestID p)) && (rune_count (RequestID p) <=? 128))))
    (ErrInvalid "append billing audit event") ;;
  tmod (fun d => set_audit (audit d ++ [Audit (At p) (ActorUserID p) (value_or_nil (ActorSessionID p)) eventType
    (value_or_nil (SourceIP p)) subjectType subjectID (value_or_nil (RequestID p)) metadata]) d).

(** A ledger entry that no request is behind. *)
Definition operation_entry (user : string) (p : BillingWriteParams) (kind : string) (amount cash : Z) (balance cny rate : option Z)
  : ledger_row :=
  {| le_user := user; le_operation := Some (OperationID p); le_entry_type := kind; le_amount := amount; le_cash_delta := cash;
     le_balance_after := balance; le_cny := cny; le_rate := rate; le_reason := Reason p; le_actor := Some (ActorUserID p);
     le_created_at := At p; le_request := None; le_model := None; le_usage_requested_at := None; le_account := None;
     le_group := None; le_group_period := None; le_rule_version := Some 1; le_multiplier := Some "1.000000000000"; le_charge := None |}.

(** Arguments are checked before the transaction starts. *)
Definition checked {A B} (arguments : result store_error A) (body : A -> tx billing_db B) (d : billing_db)
  : result store_error B * billing_db :=
  match arguments with Ok a => withTx (body a) d | Err e => (Err e, d) end.

(** ** The recharge rate *)

Record BillingSettings := { USDPerCNY : string; UpdatedAt : Z; UpdatedByUserID : option string }.

Definition set_rate_body (p : BillingWriteParams) (rate : string) : tx billing_db BillingSettings :=
  let fp := fingerprint ["recharge_rate"; ActorUserID p; Reason p; rate] in
  let* replay := claimBillingOperationTx p "recharge_rate" EmptyString fp [] in
  match replay with
  | Some id =>
      let* (_, entry) := replayBillingLedgerTx id in
      match le_rate entry with
      | None => tfail (ErrConflict "replayed rate operation has no snapshot")
      | Some r => tret {| USDPerCNY := numeric_text r; UpdatedAt := le_created_at entry; UpdatedByUserID := le_actor entry |}
      end
  | None =>
      let* r := numeric_arg "set recharge rate" rate in
      tguard ((0 <? r) && numeric_fits r) (ErrInvalid "set recharge rate") ;;
      tmod (set_settings (Settings r (At p) (Some (ActorUserID p)))) ;;
      let* (id, _) := insert_operation_entry "record recharge rate ledger"
        (operation_entry (ActorUserID p) p "recharge_rate" 0 0 None None (Some r)) in
      finishBillingOperationTx (OperationID p) id ;;
      appendBillingAuditTx p "billing.rate_updated" "billing_settings" "global"
        [("operation_id", OperationID p); ("usd_per_cny", rate)] ;;
      tret {| USDPerCNY := numeric_text r; UpdatedAt := At p; UpdatedByUserID := Some (ActorUserID p) |}
  end.

Definition SetRechargeRate (clock : Z) (p : BillingWriteParams) (usdPerCNY : string) (d : billing_db)
  : result store_error BillingSettings * billing_db :=
  checked
    (let! _ := validateBillingWrite p in
     map_err (fun _ => ErrInvalid "invalid recharge rate") (ParseRate usdPerCNY))
    (set_rate_body (normalized clock p)) d.

(** ** Recharge *)

Definition recharge_body (p : BillingWriteParams) (userID cny : string) : tx billing_db (Z * ledger_row) :=
  let fp := fingerprint ["recharge"; ActorUserID p; userID; Reason p; cny] in
  lockBillingAccountTx userID ;;
  let* replay := claimBillingOperationTx p "recharge" userID fp [] in
  match replay with
  | Some id => replayBillingLedgerTx id
  | None =>
      let* rate := tgets (fun d => usd_per_cny (billing_settings d)) in
      let* usd := tlift (map_err (fun _ => ErrOther "convert recharge amount") (MultiplyToAmount cny (numeric_text rate))) in
      tguard (billingPositive usd) (ErrInvalid "recharge rounds to zero USD") ;;
      let* n := numeric_arg "credit recharge balance" usd in
      let* accounts := tgets billing_accounts in
      let* a := tsome "credit recharge balance" (accounts !! userID) in
      let a' := Account (balance_usd a + n) (next_cash_lot_sequence a + 1) (At p) in
      tguard (account_check a' && int64b (next_cash_lot_sequence a')) (ErrInvalid "credit recharge balance") ;;
      tmod (set_accounts (<[userID := a']> accounts)) ;;
      let* c := numeric_arg "record recharge ledger" cny in
      let* (id, entry) := insert_operation_entry "record recharge ledger"
        (operation_entry userID p "recharge" n n (Some (balance_usd a')) (Some c) (Some rate)) in
      insert_lot "create recharge credit lot" (Lot userID (next_cash_lot_sequence a' - 1) id n n (At p)) ;;
      finishBillingOperationTx (OperationID p) id ;;
      appendBillingAuditTx p "billing.recharged" "user" userID
        [("operation_id", OperationID p); ("cny_amount", cny); ("usd_amount", usd); ("usd_per_cny", numeric_text rate)] ;;
      tret (id, entry)
  end.

Definition RechargeUser (clock : Z) (p : BillingWriteParams) (userID cnyAmount : string) (d : billing_db)
  : result store_error (Z * ledger_row) * billing_db :=
  checked
    (let! _ := validateBillingWrite p in
     if empty userID then Err (ErrInvalid "recharge user is required") else
     map_err (fun _ => ErrInvalid "invalid recharge amount") (ParseInput cnyAmount false false))
    (recharge_body (normalized clock p) userID) d.

(** ** Adjustment *)

(** The debit of the cash lots, oldest first. *)
Fixpoint debit_lots (lots : list (Z * lot_row)) (needed : string) : tx billing_db string :=
  match lots with
  | [] => tret needed
  | (id, lot) :: rest =>
      if negb (billingPositive needed) then tret needed else
      let* deduction := money (billingMin (numeric_text (lot_remaining lot)) needed) in
      let* n := numeric_arg "debit adjustment credit lot" deduction in
      update_one "debit adjustment credit lot" cash_lots set_lots id
        (fun l => Lot (lot_user l) (lot_sequence l) (source_ledger_entry_id l) (original_usd l) (lot_remaining l - n) (lot_created_at l))
        lot_check ;;
      let* needed := money (billingSubtract needed deduction) in
      debit_lots rest needed
  end.

Definition adjust_body (p : BillingWriteParams) (userID amount : string) : tx billing_db (Z * ledger_row) :=
  let fp := fingerprint ["adjustment"; ActorUserID p; userID; Reason p; amount] in
  lockBillingAccountTx userID ;;
  let* replay := claimBillingOperationTx p "adjustment" userID fp [] in
  match replay with
  | Some id => replayBillingLedgerTx id
  | None =>
      let* accounts := tgets billing_accounts in
      let* a := tsome "lock adjustment account" (accounts !! userID) in
      let nextSequence := next_cash_lot_sequence a in
      let* newBalance := money (billingAdd (numeric_text (balance_usd a)) amount) in
      let* newValue := money (billingRat newBalance) in
      tguard (negb (rat_gtb 0%Q newValue)) (ErrInsufficientFunds 0) ;;
      let positive := billingPositive amount in
      (if positive then tret tt else
         let* needed := money (billingSubtract "0" amount) in
         let* lots := tgets (user_lots userID None) in
         let* needed := debit_lots lots needed in
         tguard (negb (billingPositive needed)) (ErrConflict "cash lots do not reconcile with account")) ;;
      let next := if positive then wrap64 (nextSequence + 1) else nextSequence in
      let* b := numeric_arg "update adjusted balance" newBalance in
      let a' := Account b next (At p) in
      tguard (account_check a') (ErrInvalid "update adjusted balance") ;;
        tmod (fun d => set_accounts (<[userID := a']> (billing_accounts d)) d) ;;
      let* n := numeric_arg "record adjustment ledger" amount in
      let* (id, entry) := insert_operation_entry "record adjustment ledger"
        (operation_entry userID p "adjustment" n n (Some b) None None) in
      (if positive then insert_lot "create adjustment credit lot" (Lot userID nextSequence id n n (At p)) else tret tt) ;;
      finishBillingOperationTx (OperationID p) id ;;
      appendBillingAuditTx p "billing.adjusted" "user" userID [("operation_id", OperationID p); ("usd_amount", amount)] ;;
      tret (id, entry)
  end.

Definition AdjustUserBalance (clock : Z) (p : BillingWriteParams) (userID usdAmount : string) (d : billing_db)
  : result store_error (Z * ledger_row) * billing_db :=
  checked
    (let! _ := validateBillingWrite p in
     if empty userID then Err (ErrInvalid "adjustment user is required") else
     map_err (fun _ => ErrInvalid "invalid adjustment amount") (ParseInput usdAmount true false))
    (adjust_body (normalized clock p) userID) d.

End operations.

(** ** Amounts that were just parsed *)

(** [s] is the decimal text of [n / 10^12]. *)
Definition denotes (s : string) (n : Z) : Prop := exists q, rat_SetString s = Some q /\ (q == scaled n AmountScale)%Q.

Lemma denotes_text n : denotes (numeric_text n) n.
Proof. exists (scaled n AmountScale). split; [apply rat_numeric_text|done]. Qed.

Lemma scaled_input m : (scaled m InputScale == scaled (m * pow10 6) AmountScale)%Q.
Proof. unfold Qeq, scaled. cbn [Qnum Qden]. change (pow10 InputScale) with (pow10 6). change (pow10 AmountScale) with (pow10 6 * pow10 6).
  pose proof (pow10_pos 6). rewrite !Z2Pos.id by nia. nia. Qed.

Lemma parse_input_denotes v signed c :
  ParseInput v signed false = Ok c -> exists n, denotes c n /\ n <> 0 /\ Z.abs n < pow10 30 /\ (signed = false -> 0 < n).
Proof.
  intros (q & m & Hq & Hm & Hb & Hs & Hz & _)%parse_value. exists (m * pow10 6). split; [exists q; split; [done|]|].
  - by rewrite Hm, scaled_input.
  - specialize (Hz eq_refl). change (pow10 (18 + InputScale)) with (pow10 24) in Hb. change (pow10 30) with (pow10 24 * pow10 6).
    pose proof (pow10_pos 6). split; [nia|]. split; [rewrite Z.abs_mul; nia|]. intros E. specialize (Hs E). nia.
Qed.

Lemma scaled_inj a b s : (scaled a s == scaled b s)%Q -> a = b.
Proof. unfold Qeq, scaled. cbn [Qnum Qden]. nia. Qed.

Lemma denotes_inj s a b : denotes s a -> denotes s b -> a = b.
Proof. intros (q & Hq & Ea) (q' & Hq' & Eb). rewrite Hq in Hq'. injection Hq' as <-. apply (scaled_inj _ _ AmountScale). by rewrite <- Ea, Eb. Qed.

Lemma numeric_of_denotes s n : denotes s n -> numeric_of s = Some n.
Proof.
  intros (q & Hq & E). pose proof (numeric_of_text n) as H. unfold numeric_of in *. rewrite rat_numeric_text in H. rewrite Hq.
  rewrite <- H. f_equal. by apply roundScaled_proper.
Qed.

Lemma billingPositive_denotes s n : denotes s n -> billingPositive s = (0 <? n).
Proof. intros (q & Hq & E). unfold billingPositive. rewrite Hq. unfold Qeq, scaled in E. cbn [Qnum Qden] in E. apply Bool.eq_iff_eq_true. rewrite !Z.ltb_lt. nia. Qed.

Lemma billingAdd_denotes a s n : denotes s n -> billingAdd (numeric_text a) s = Ok (numeric_text (a + n)).
Proof.
  intros (q & Hq & E). unfold billingAdd, billingRat. rewrite rat_numeric_text, Hq. cbn [rbind]. f_equal.
  apply FloatString_exact. by rewrite E, scaled_plus.
Qed.

Lemma rat_zero : rat_SetString "0" = Some 0%Q.
Proof. by vm_compute. Qed.

Lemma billingNegate_denotes s n : denotes s n -> billingSubtract "0" s = Ok (numeric_text (- n)).
Proof.
  intros (q & Hq & E). unfold billingSubtract, billingRat. rewrite Hq, rat_zero. cbn [rbind]. f_equal. apply FloatString_exact.
  rewrite E. replace (- n) with (0 - n) by lia. rewrite <- scaled_minus. apply Qplus_comp; [by vm_compute|done].
Qed.

(** ** Debiting the cash lots *)

Lemma debit_lots_spec user lots d r :
  0 <= r -> NoDup lots.*1 ->
  (forall id l, (id, l) ∈ lots -> cash_lots d !! id = Some l /\ lot_user l = user /\ 0 < lot_remaining l) ->
  (forall id l, cash_lots d !! id = Some l -> lot_check l = true) ->
  exists r' L, debit_lots lots (numeric_text r) d = Ok (numeric_text r', set_lots L d) /\ 0 <= r' <= r /\
    (forall u, cash_total u L = cash_total u (cash_lots d) - (if bool_decide (u = user) then r - r' else 0)) /\
    (forall id, option_Forall2 lot_shrinks (cash_lots d !! id) (L !! id)) /\
    (forall id l, L !! id = Some l -> lot_check l = true) /\
    (0 < r' -> forall id l, (id, l) ∈ lots -> exists l', L !! id = Some l' /\ lot_remaining l' = 0).
Proof.
  revert d r. induction lots as [|[id l] lots IH]; intros d r Hr Hnd Hin Hck.
  - exists r, (cash_lots d). split; [by destruct d|]. split; [lia|]. split; [intros u; case_bool_decide; lia|].
    split; [|split; [done|intros _ i x []%elem_of_nil]]. intros i. destruct (cash_lots d !! i) as [x|] eqn:E; constructor.
    apply lot_shrinks_refl. apply Hck in E. unfold lot_check in E. breflect. done.
  - cbn [debit_lots]. rewrite billingPositive_text. destruct (Z.ltb_spec 0 r) as [Hp|Hp]; cbn [negb].
    2:{ exists r, (cash_lots d). split; [by destruct d|]. split; [lia|]. split; [intros u; case_bool_decide; lia|].
      split; [|split; [done|lia]]. intros i. destruct (cash_lots d !! i) as [x|] eqn:E; constructor.
      apply lot_shrinks_refl. apply Hck in E. unfold lot_check in E. breflect. done. }
    destruct (Hin id l) as (Hl & Hu & Hpos); [left|]. unfold money. rewrite billingMin_text, tlift_Ok_bind, numeric_arg_bind.
    set (n := Z.min (lot_remaining l) r). rewrite (update_one_eq _ _ _ _ _ _ _ l) by done. fold (take_lot n l).
    rewrite lot_check_take by (eauto; lia). rewrite billingSubtract_text, tlift_Ok_bind. apply NoDup_cons in Hnd as [Hnew Hnd].
    destruct (IH (set_lots (<[id := take_lot n l]> (cash_lots d)) d) (r - n)) as (r' & L & E & Hle & Hsum & Hsh & Hck' & Hdr).
    + lia.
    + done.
    + intros i x Hx. assert (i <> id) by (intros ->; apply Hnew; apply list_elem_of_fmap; by exists (id, x)).
      btables. rewrite lookup_insert_ne by done. apply Hin. by right.
    + intros i x. btables. destruct (decide (i = id)) as [->|Hi]; [rewrite lookup_insert_eq|rewrite lookup_insert_ne by done; apply Hck].
      intros [= <-]. apply lot_check_take; [by eapply Hck|lia].
    + btables. exists r', L. split; [exact E|]. split; [lia|]. split; [|split; [|split; [done|]]].
      * intros u. rewrite Hsum, (cash_total_update _ _ l) by done. rewrite Hu. cbn [take_lot lot_remaining].
        rewrite (bool_decide_ext (user = u) (u = user)) by (split; congruence). case_bool_decide; lia.
      * intros i. eapply option_shrinks_trans; [apply lot_shrinks_trans| |apply Hsh]. destruct (decide (i = id)) as [->|Hi].
        -- rewrite lookup_insert_eq, Hl. constructor. apply lot_shrinks_take; [apply lot_shrinks_refl|]; lia.
        -- rewrite lookup_insert_ne by done. destruct (cash_lots d !! i) as [x|] eqn:Ex; constructor.
           apply lot_shrinks_refl. apply Hck in Ex. unfold lot_check in Ex. breflect. done.
      * intros Hr' i x [[= -> ->]|Hx]%elem_of_cons; [|by eapply Hdr].
        specialize (Hsh id). rewrite lookup_insert_eq in Hsh. inversion Hsh as [a b [_ Hab] E1 E2|]; subst.
        exists b. split; [done|]. cbn in Hab. lia.
Qed.

(** When the lots run out, the user has no cash left. *)
Lemma cash_total_zero (u : string) (m : gmap Z lot_row) :
  (forall id l, m !! id = Some l -> lot_user l = u -> lot_remaining l = 0) -> cash_total u m = 0.
Proof.
  intros H. unfold cash_total. transitivity (msum (fun _ : lot_row => 0) m).
  - apply msum_ext. intros i x Hx. case_bool_decide as E; [by eapply H|done].
  - induction m as [|i x m Hi IH] using map_ind; [apply msum_empty|]. rewrite msum_insert by done. rewrite IH; [lia|].
    intros id l Hl. apply (H id). rewrite lookup_insert_ne; [done|]. intros ->. by rewrite Hi in Hl.
Qed.

(** The lots of a user cover his balance: a debit within it never runs short. *)
Lemma debit_covers d user r :
  money_inv d -> 0 <= r <= cash_total user (cash_lots d) ->
  exists L, debit_lots (user_lots user None d) (numeric_text r) d = Ok (numeric_text 0, set_lots L d) /\
    (forall u, cash_total u L = cash_total u (cash_lots d) - (if bool_decide (u = user) then r else 0)) /\
    (forall id, option_Forall2 lot_shrinks (cash_lots d !! id) (L !! id)) /\
    (forall id l, L !! id = Some l -> lot_check l = true).
Proof.
  intros M Hr. destruct (debit_lots_spec user (user_lots user None d) d r) as (r' & L & E & Hle & Hsum & Hsh & Hck & Hdr).
  - lia.
  - apply user_lots_NoDup.
  - intros id l [Hl Hs]%elem_of_user_lots. unfold lot_selected in Hs. breflect. auto.
  - intros id l Hl. by apply (inv_lot d M) in Hl as [? _].
  - assert (r' = 0) as ->.
    { destruct (decide (r' = 0)) as [|Hn]; [done|]. specialize (Hsum user). rewrite bool_decide_true in Hsum by done.
      rewrite cash_total_zero in Hsum; [lia|]. intros id l Hl Hu. specialize (Hsh id). rewrite Hl in Hsh.
      inversion Hsh as [a b [Hab Hrem] E1 E2|]; subst. symmetry in E1.
      destruct (decide (0 < lot_remaining a)); [|lia].
      destruct (Hdr ltac:(lia) id a) as (l' & Hl' & Hz).
      - apply elem_of_user_lots. split; [done|]. unfold lot_selected. rewrite Hab. cbn [lot_user]. rewrite bool_decide_true by done. lia.
      - congruence. }
    exists L. replace (r - 0) with r in Hsum by lia. auto.
Qed.

(** ** Writing the money tables *)

Lemma next_lot_id_bound (m : gmap Z lot_row) (id : Z) : is_Some (m !! id) -> id < next_lot_id m.
Proof.
  intros [l Hl]. unfold next_lot_id.
  enough (forall k x, m !! k = Some x -> k <= map_fold (fun k _ acc => Z.max k acc) 0 m) as H by (specialize (H id l Hl); lia).
  clear id l Hl. apply (map_fold_weak_ind (fun acc m => forall k x, m !! k = Some x -> k <= acc)).
  - intros k x. by rewrite lookup_empty.
  - intros i x m' r Hi IH k y. destruct (decide (k = i)) as [->|Hk]; [lia|]. rewrite lookup_insert_ne by done.
    intros Hy. specialize (IH k y Hy). lia.
Qed.

Lemma next_lot_id_free (m : gmap Z lot_row) : m !! next_lot_id m = None.
Proof. destruct (m !! next_lot_id m) as [l|] eqn:E; [|done]. pose proof (next_lot_id_bound m (next_lot_id m) ltac:(rewrite E; eauto)). lia. Qed.

(** The invariant reads seven tables only. *)
Lemma money_inv_ext d d' :
  billing_accounts d' = billing_accounts d -> cash_lots d' = cash_lots d -> periods d' = periods d ->
  group_periods d' = group_periods d -> member_usage d' = member_usage d ->
  billing_reservations d' = billing_reservations d -> allocations d' = allocations d -> money_inv d -> money_inv d'.
Proof. intros E1 E2 E3 E4 E5 E6 E7 [M1 M2 M3 M4 M5 M6 M7 M8]. split; rewrite ?E1, ?E2, ?E3, ?E4, ?E5, ?E6, ?E7; done. Qed.

(** A write to one account and its lots that keeps them in step. *)
Lemma money_inv_account d user a a' L :
  money_inv d -> billing_accounts d !! user = Some a -> account_check a' = true ->
  next_cash_lot_sequence a <= next_cash_lot_sequence a' -> balance_usd a' = cash_total user L ->
  (forall u, u <> user -> cash_total u L = cash_total u (cash_lots d)) ->
  (forall id l, L !! id = Some l -> lot_check l = true /\
     ((exists l0, cash_lots d !! id = Some l0 /\ lot_user l0 = lot_user l /\ lot_sequence l0 = lot_sequence l) \/
      (lot_user l = user /\ lot_sequence l < next_cash_lot_sequence a'))) ->
  money_inv (set_lots L (set_accounts (<[user := a']> (billing_accounts d)) d)).
Proof.
  intros [M1 M2 M3 M4 M5 M6 M7 M8] Ha Hck Hnext Hbal Hoth Hlots. split; btables; try done.
  - intros u x. destruct (decide (u = user)) as [->|Hu]; [rewrite lookup_insert_eq|rewrite lookup_insert_ne by done].
    + intros [= <-]. auto.
    + intros Hx. rewrite Hoth by done. by apply M1.
  - intros id l Hl. destruct (Hlots id l Hl) as [Hc [(l0 & Hl0 & Eu & Es)|[Eu Es]]]; (split; [done|]).
    + destruct (M2 id l0 Hl0) as (_ & x & Hx & Hlt). rewrite <- Eu, <- Es. destruct (decide (lot_user l0 = user)) as [E|E].
      * rewrite E, lookup_insert_eq. exists a'. split; [done|]. rewrite E, Ha in Hx. injection Hx as <-. lia.
      * rewrite lookup_insert_ne by done. eauto.
    + rewrite Eu, lookup_insert_eq. eauto.
Qed.

(** A fresh lot. *)
Lemma cash_total_insert (u : string) (l : lot_row) (m : gmap Z lot_row) :
  cash_total u (<[next_lot_id m := l]> m) = cash_total u m + (if bool_decide (lot_user l = u) then lot_remaining l else 0).
Proof. unfold cash_total. rewrite msum_insert by apply next_lot_id_free. lia. Qed.

Lemma insert_lot_eq op l d {B} (next : unit -> tx billing_db B) a :
  money_inv d -> billing_accounts d !! lot_user l = Some a -> next_cash_lot_sequence a <= lot_sequence l -> lot_check l = true ->
  forall d', cash_lots d' = cash_lots d ->
  tbind (insert_lot op l) next d' = next tt (set_lots (<[next_lot_id (cash_lots d) := l]> (cash_lots d)) d').
Proof.
  intros M Ha Hseq Hck d' E. unfold insert_lot. unfold tbind at 1. rewrite tguard_bind, Hck, tgets_bind, tguard_bind.
  rewrite bool_decide_true; [unfold tmod; by rewrite !E|]. rewrite E. intros id x Hx [Hu Hs]. apply (inv_lot d M) in Hx as (_ & b & Hb & Hlt).
  rewrite Hu, Ha in Hb. injection Hb as <-. lia.
Qed.

(** A credit of [n] as a new lot. *)
Lemma money_inv_credit d user a n seq src at_ :
  money_inv d -> billing_accounts d !! user = Some a -> 0 < n < pow10 30 -> seq = next_cash_lot_sequence a ->
  account_check (Account (balance_usd a + n) (seq + 1) at_) = true ->
  money_inv (set_lots (<[next_lot_id (cash_lots d) := Lot user seq src n n at_]> (cash_lots d))
    (set_accounts (<[user := Account (balance_usd a + n) (seq + 1) at_]> (billing_accounts d)) d)).
Proof.
  intros M Ha Hn -> Hck. destruct (inv_account d M user a Ha) as [Ka Hbal]. eapply money_inv_account; eauto.
  - cbn. lia.
  - rewrite cash_total_insert. cbn. rewrite bool_decide_true by done. lia.
  - intros u Hu. rewrite cash_total_insert. cbn. rewrite bool_decide_false by done. lia.
  - intros id l. destruct (decide (id = next_lot_id (cash_lots d))) as [->|Hi].
    + rewrite lookup_insert_eq. intros [= <-]. cbn. split; [|right; split; [done|lia]].
      unfold account_check in Ka. breflect. unfold lot_check, numeric_fits. cbn. lia.
    + rewrite lookup_insert_ne by done. intros Hl. split; [by apply (inv_lot d M) in Hl as [? _]|left; eauto].
Qed.

(** A debit of [n] out of the lots. *)
Lemma money_inv_debit d user a n L at_ :
  money_inv d -> billing_accounts d !! user = Some a -> 0 <= n <= balance_usd a ->
  (forall u, cash_total u L = cash_total u (cash_lots d) - (if bool_decide (u = user) then n else 0)) ->
  (forall id, option_Forall2 lot_shrinks (cash_lots d !! id) (L !! id)) ->
  (forall id l, L !! id = Some l -> lot_check l = true) ->
  money_inv (set_lots L (set_accounts (<[user := Account (balance_usd a - n) (next_cash_lot_sequence a) at_]> (billing_accounts d)) d)).
Proof.
  intros M Ha Hn Hsum Hsh Hck. destruct (inv_account d M user a Ha) as [Ka Hbal]. eapply money_inv_account; eauto.
  - unfold account_check in *. cbn. breflect. rewrite (numeric_fits_le _ (balance_usd a)) by (done || lia). lia.
  - cbn. lia.
  - cbn [balance_usd]. rewrite Hsum, bool_decide_true by done. lia.
  - intros u Hu. rewrite Hsum, bool_decide_false by done. lia.
  - intros id l Hl. split; [by eapply Hck|left]. specialize (Hsh id). rewrite Hl in Hsh. inversion Hsh as [x y [Hxy _] E1 E2|]; subst.
    exists x. rewrite Hxy. auto.
Qed.

(** ** Running a fresh operation *)

Lemma rat_gtb_zero n : (n <? 0) = rat_gtb 0%Q (scaled n AmountScale).
Proof.
  unfold rat_gtb, Qcompare, scaled. cbn [Qnum Qden]. rewrite Z.mul_1_r, Z.mul_0_l.
  destruct (Z.compare_spec 0 n), (Z.ltb_spec n 0); done || lia.
Qed.

Section fresh.
Context (fingerprint : list string -> string) (session_of : string -> string -> bool) (inet_ok : string -> bool).

(** What the audit event asks of the caller's session, address and request id. *)
Definition audit_ok (p : BillingWriteParams) : bool :=
          (empty (ActorSessionID p) || session_of (ActorSessionID p) (ActorUserID p)) &&
          (empty (SourceIP p) || inet_ok (SourceIP p)) &&
  (empty (RequestID p) || ((16 <=? rune_count (RequestID p)) && (rune_count (RequestID p) <=? 128))).

(** The operation id was never used, and the actor is known. *)
Record write_ready (d : billing_db) (p : BillingWriteParams) : Prop := {
  wr_tombstone : OperationID p ∉ tombstones d;
  wr_fresh : operations d !! OperationID p = None;
  wr_entry : Forall (fun x => le_operation x <> Some (OperationID p)) (ledger d);
  wr_actor : is_Some (users d !! ActorUserID p);
  wr_audit : audit_ok p = true;
}.

(** The account of a user whose registration is not pending. *)
Definition account_open (d : billing_db) (user : string) (a : account_row) : Prop :=
  billing_accounts d !! user = Some a /\ exists st, users d !! user = Some st /\ st <> "pending".

Lemma lock_account_eq {B} user a d (k : unit -> tx billing_db B) :
  account_open d user a -> tbind (lockBillingAccountTx user) k d = k tt d.
Proof.
  intros [Ha (st & Hst & Hp)]. unfold lockBillingAccountTx, lockNonPendingUserTx. unfold tbind at 1. rewrite tgets_bind, Ha.
  unfold tsome. rewrite tret_bind, tgets_bind, Hst. rewrite tret_bind. unfold tguard. by rewrite bool_decide_false.
Qed.

Lemma claim_fresh_eq {B} p kind target fp d (k : option Z -> tx billing_db B) :
  write_ready d p -> target = EmptyString \/ is_Some (users d !! target) ->
  tbind (claimBillingOperationTx p kind target fp []) k d =
    k None (set_operations (<[OperationID p :=
      Operation kind (ActorUserID p) target (trim_space (Reason p)) fp None (At p)]> (operations d)) d).
Proof.
  intros [W1 W2 W3 W4 W5] Ht. unfold claimBillingOperationTx. unfold tbind at 1. rewrite tgets_bind, tguard_bind.
  rewrite bool_decide_false by done. cbn [negb]. rewrite W2, tguard_bind, bool_decide_true by done.
  assert (empty target || bool_decide (is_Some (users d !! target)) = true) as ->; [|done].
  destruct Ht as [->|Ht]; [done|]. rewrite bool_decide_true by done. by rewrite orb_true_r.
Qed.

Lemma finish_eq {B} op id row d (k : unit -> tx billing_db B) :
  operations d !! op = Some row -> op_result row = None ->
  tbind (finishBillingOperationTx op id) k d = k tt (set_operations (<[op := with_result id row]> (operations d)) d).
Proof.
  intros Hr Hn. unfold finishBillingOperationTx. unfold tbind at 1. rewrite tgets_bind. cbn [update_rows].
  rewrite Hr, bool_decide_true by done. done.
Qed.

Lemma audit_eq {B} p kind st sid meta d (k : unit -> tx billing_db B) :
  is_Some (users d !! ActorUserID p) -> audit_ok p = true ->
  tbind (appendBillingAuditTx session_of inet_ok p kind st sid meta) k d =
    k tt (set_audit (audit d ++ [Audit (At p) (ActorUserID p) (value_or_nil (ActorSessionID p)) kind
      (value_or_nil (SourceIP p)) st sid (value_or_nil (RequestID p)) meta]) d).
Proof.
  intros Ha Ho. unfold appendBillingAuditTx. unfold tbind at 1. rewrite tgets_bind, tguard_bind, bool_decide_true by done.
  unfold audit_ok in Ho. cbn [andb]. by rewrite Ho.
Qed.

Lemma insert_entry_eq {B} op e d (k : Z * ledger_row -> tx billing_db B) :
  Forall (fun x => le_operation x <> le_operation e) (ledger d) -> ledger_check e = true ->
  tbind (insert_operation_entry op e) k d = k (Z.of_nat (length (ledger d)) + 1, e) (set_ledger (ledger d ++ [e]) d).
Proof.
  intros Hf Hc. unfold insert_operation_entry. unfold tbind at 1. rewrite tgets_bind, tguard_bind, bool_decide_true by done.
  unfold insert_ledger. unfold tbind at 1 2. unfold tguard. rewrite Hc. unfold tret, tmod, tbind, tgets. btables.
  rewrite length_app. cbn [length]. replace (Z.of_nat (length (ledger d) + 1)) with (Z.of_nat (length (ledger d)) + 1) by lia. done.
Qed.

(** The tables after a committed balance write. *)
Definition entry_id (d : billing_db) : Z := Z.of_nat (length (ledger d)) + 1.
Definition written (d : billing_db) (p : BillingWriteParams) (kind target fp : string) (e : ledger_row)
  (accounts : gmap string account_row) (lots : gmap Z lot_row) (event : string) (meta : list (string * string)) : billing_db :=
  BillingDB (users d) accounts lots (periods d) (user_groups d) (group_periods d) (member_usage d) (billing_reservations d)
    (reservation_layers d) (allocations d) (ledger d ++ [e]) (usage_requests d)
    (<[OperationID p := Operation kind (ActorUserID p) target (trim_space (Reason p)) fp (Some (entry_id d)) (At p)]> (operations d))
    (tombstones d) (billing_settings d)
    (audit d ++ [Audit (At p) (ActorUserID p) (value_or_nil (ActorSessionID p)) event (value_or_nil (SourceIP p)) "user" target
       (value_or_nil (RequestID p)) meta]).

Lemma MultiplyToAmount_eq c k rate :
  ParseInput c false false = Ok c -> denotes c k -> 0 < rate < pow10 30 ->
  let n := roundScaled (Qmult (scaled k AmountScale) (scaled rate AmountScale)) AmountScale in
  MultiplyToAmount c (numeric_text rate) =
    if Z.abs n <? pow10 30 then Ok (numeric_text n) else Err (ErrInvalidDecimal "amount exceeds NUMERIC(30,12)").
Proof.
  intros Hc (q & Hq & Eq) Hr n. unfold MultiplyToAmount. rewrite Hc. cbn [with_context map_err rbind].
  destruct (parse_scaled_text rate Hr) as (c' & Hc' & q' & Hq' & Eq'). fold (numeric_text rate) in Hc'. rewrite Hc'. cbn [with_context map_err rbind].
  unfold ratOf. rewrite Hq. cbn [rbind]. rewrite Hq'. cbn [rbind]. rewrite (roundAmount_proper _ (Qmult (scaled k AmountScale) (scaled rate AmountScale))) by (by rewrite Eq, Eq').
  by rewrite roundAmount_eq.
Qed.

(** The USD credited for [k] CNY at [rate], both in units of 10^-12. *)
Definition converted (k rate : Z) : Z := roundScaled (Qmult (scaled k AmountScale) (scaled rate AmountScale)) AmountScale.

Lemma recharge_body_eq p user c k a d :
  write_ready d p -> account_open d user a -> ParseInput c false false = Ok c -> denotes c k -> 0 < k < pow10 30 ->
  0 < usd_per_cny (billing_settings d) < pow10 30 -> money_inv d ->
  let rate := usd_per_cny (billing_settings d) in
  let n := converted k rate in
      let a' := Account (balance_usd a + n) (next_cash_lot_sequence a + 1) (At p) in
  let e := operation_entry user p "recharge" n n (Some (balance_usd a + n)) (Some k) (Some rate) in
  recharge_body fingerprint session_of inet_ok p user c d =
    if Z.abs n <? pow10 30 then
      if 0 <? n then
        if account_check a' && int64b (next_cash_lot_sequence a + 1) then
          Ok ((entry_id d, e), written d p "recharge" user (fingerprint ["recharge"; ActorUserID p; user; Reason p; c]) e
            (<[user := a']> (billing_accounts d))
            (<[next_lot_id (cash_lots d) := Lot user (next_cash_lot_sequence a) (entry_id d) n n (At p)]> (cash_lots d))
            "billing.recharged" [("operation_id", OperationID p); ("cny_amount", c); ("usd_amount", numeric_text n);
                                 ("usd_per_cny", numeric_text rate)])
        else Err (ErrInvalid "credit recharge balance")
      else Err (ErrInvalid "recharge rounds to zero USD")
    else Err (ErrOther "convert recharge amount").
Proof.
  intros W O Hc Hk Hkb Hr M rate n a' e. pose proof O as [Ha (st & Hst & _)]. pose proof W as [W1 W2 W3 W4 W5].
  unfold recharge_body. rewrite (lock_account_eq user a), claim_fresh_eq by eauto. rewrite tgets_bind. btables. fold rate.
  rewrite (MultiplyToAmount_eq c k rate) by done. fold (converted k rate). fold n.
  destruct (Z.ltb_spec (Z.abs n) (pow10 30)) as [Hn|]; [|done]. cbn [map_err]. rewrite tlift_Ok_bind, tguard_bind, billingPositive_text.
  destruct (Z.ltb_spec 0 n) as [Hp|]; [|done]. rewrite numeric_arg_bind, tgets_bind. btables. rewrite Ha. unfold tsome. rewrite tret_bind.
  cbn [balance_usd next_cash_lot_sequence]. rewrite tguard_bind. fold a'. destruct (account_check a') eqn:Ea; [|done].
  destruct (int64b _); [|done]. cbn [andb]. rewrite tmod_bind. unfold tbind at 1. unfold numeric_arg at 1. rewrite (numeric_of_denotes c k Hk).
  unfold tret at 1. rewrite insert_entry_eq; btables; [|done|].
  2:{ unfold account_check in Ea. cbn in Ea. breflect. unfold ledger_check, numeric_fits in *. cbn. lia. }
  replace (next_cash_lot_sequence a + 1 - 1) with (next_cash_lot_sequence a) by lia. fold (entry_id d).
  rewrite (insert_lot_eq _ _ d _ a); btables; [|done|done|cbn; lia| |done].
  2:{ destruct (inv_account d M user a Ha) as [Ka _]. unfold account_check in Ka. breflect. unfold lot_check, numeric_fits. cbn. lia. }
  rewrite (finish_eq _ _ (Operation "recharge" (ActorUserID p) user (trim_space (Reason p))
    (fingerprint ["recharge"; ActorUserID p; user; Reason p; c]) None (At p))); btables; [|by rewrite lookup_insert_eq|done].
  rewrite insert_insert_eq. rewrite audit_eq; btables; [|done|done]. done.
Qed.

Lemma adjust_overdrawn p user c n a d :
  write_ready d p -> account_open d user a -> denotes c n -> balance_usd a + n < 0 ->
  adjust_body fingerprint session_of inet_ok p user c d = Err (ErrInsufficientFunds 0).
Proof.
  intros W O Hc Hb. pose proof O as [Ha (st & Hst & _)]. unfold adjust_body. rewrite (lock_account_eq user a), claim_fresh_eq by eauto.
  rewrite tgets_bind. btables. rewrite Ha. unfold tsome, money. rewrite tret_bind, (billingAdd_denotes _ _ n) by done.
  rewrite tlift_Ok_bind, billingRat_text, tlift_Ok_bind, tguard_bind. rewrite <- (rat_gtb_zero (balance_usd a + n)).
  by replace (_ <? 0) with true by lia.
Qed.

(** The steps after the lots: the same for a credit and a debit. *)
Definition adjust_tail (p : BillingWriteParams) (user amount newBalance : string) (nextSequence : Z) : tx billing_db (Z * ledger_row) :=
      let positive := billingPositive amount in
      let next := if positive then wrap64 (nextSequence + 1) else nextSequence in
      let* b := numeric_arg "update adjusted balance" newBalance in
      let a' := Account b next (At p) in
      tguard (account_check a') (ErrInvalid "update adjusted balance") ;;
  tmod (fun d => set_accounts (<[user := a']> (billing_accounts d)) d) ;;
      let* n := numeric_arg "record adjustment ledger" amount in
      let* (id, entry) := insert_operation_entry "record adjustment ledger"
    (operation_entry user p "adjustment" n n (Some b) None None) in
  (if positive then insert_lot "create adjustment credit lot" (Lot user nextSequence id n n (At p)) else tret tt) ;;
      finishBillingOperationTx (OperationID p) id ;;
  appendBillingAuditTx session_of inet_ok p "billing.adjusted" "user" user [("operation_id", OperationID p); ("usd_amount", amount)] ;;
  tret (id, entry).

Definition adjusted (d : billing_db) (p : BillingWriteParams) (user c : string) (n : Z) (a' : account_row) (L : gmap Z lot_row)
  : result store_error ((Z * ledger_row) * billing_db) :=
  let e := operation_entry user p "adjustment" n n (Some (balance_usd a')) None None in
  Ok ((entry_id d, e), written d p "adjustment" user (fingerprint ["adjustment"; ActorUserID p; user; Reason p; c]) e
    (<[user := a']> (billing_accounts d)) L "billing.adjusted" [("operation_id", OperationID p); ("usd_amount", c)]).

Lemma adjust_head p user c n a d :
  write_ready d p -> account_open d user a -> denotes c n -> 0 <= balance_usd a + n ->
  let fp := fingerprint ["adjustment"; ActorUserID p; user; Reason p; c] in
  let d1 := set_operations (<[OperationID p := Operation "adjustment" (ActorUserID p) user (trim_space (Reason p)) fp None (At p)]>
    (operations d)) d in
    adjust_body fingerprint session_of inet_ok p user c d =
    tbind (if 0 <? n then tret tt else
         let* needed := debit_lots (user_lots user None d1) (numeric_text (- n)) in
         tguard (negb (billingPositive needed)) (ErrConflict "cash lots do not reconcile with account"))
      (fun _ => adjust_tail p user c (numeric_text (balance_usd a + n)) (next_cash_lot_sequence a)) d1.
Proof.
  intros W O Hc Hb fp d1. pose proof O as [Ha (st & Hst & _)]. unfold adjust_body. rewrite (lock_account_eq user a), claim_fresh_eq by eauto.
  fold fp. fold d1. rewrite tgets_bind. replace (billing_accounts d1) with (billing_accounts d) by done. rewrite Ha.
  unfold tsome, money. rewrite tret_bind, (billingAdd_denotes _ _ n) by done.
  rewrite tlift_Ok_bind, billingRat_text, tlift_Ok_bind, tguard_bind. rewrite <- (rat_gtb_zero (balance_usd a + n)).
  replace (balance_usd a + n <? 0) with false by lia. cbn [negb]. rewrite (billingPositive_denotes c n) by done.
  rewrite (billingNegate_denotes c n) by done. unfold adjust_tail. rewrite (billingPositive_denotes c n) by done.
  destruct (0 <? n); done.
Qed.

Lemma adjust_credit p user c n a d :
  write_ready d p -> account_open d user a -> denotes c n -> 0 < n < pow10 30 -> money_inv d ->
  let a' := Account (balance_usd a + n) (wrap64 (next_cash_lot_sequence a + 1)) (At p) in
    adjust_body fingerprint session_of inet_ok p user c d =
    if account_check a' then
      adjusted d p user c n a' (<[next_lot_id (cash_lots d) := Lot user (next_cash_lot_sequence a) (entry_id d) n n (At p)]> (cash_lots d))
    else Err (ErrInvalid "update adjusted balance").
Proof.
  intros W O Hc Hn M a'. pose proof O as [Ha (st & Hst & _)]. pose proof W as [W1 W2 W3 W4 W5].
  destruct (inv_account d M user a Ha) as [Ka _]. unfold account_check in Ka. breflect.
  rewrite (adjust_head p user c n a) by (done || lia). replace (0 <? n) with true by lia. rewrite tret_bind. unfold adjust_tail.
  rewrite numeric_arg_bind, (billingPositive_denotes c n) by done. replace (0 <? n) with true by lia. rewrite tguard_bind. fold a'.
  destruct (account_check a') eqn:Ea; [|done]. rewrite tmod_bind. unfold tbind at 1. unfold numeric_arg at 1.
  rewrite (numeric_of_denotes c n Hc). unfold tret at 1. rewrite insert_entry_eq; btables; [|done|].
  2:{ unfold account_check in Ea. cbn in Ea. breflect. unfold ledger_check, numeric_fits in *. cbn. lia. }
  fold (entry_id d). rewrite (insert_lot_eq _ _ d _ a); btables; [|done|done|cbn; lia| |done].
  2:{ unfold lot_check, numeric_fits. cbn. lia. }
  rewrite (finish_eq _ _ (Operation "adjustment" (ActorUserID p) user (trim_space (Reason p))
    (fingerprint ["adjustment"; ActorUserID p; user; Reason p; c]) None (At p))); btables; [|by rewrite lookup_insert_eq|done].
  rewrite insert_insert_eq. rewrite audit_eq; btables; [|done|done]. done.
Qed.

Lemma adjust_debit p user c n a d :
  write_ready d p -> account_open d user a -> denotes c n -> n < 0 <= balance_usd a + n -> money_inv d ->
  exists L, money_inv (set_lots L (set_accounts (<[user := Account (balance_usd a + n) (next_cash_lot_sequence a) (At p)]> (billing_accounts d)) d)) /\
    (forall id, option_Forall2 lot_shrinks (cash_lots d !! id) (L !! id)) /\
    adjust_body fingerprint session_of inet_ok p user c d =
      adjusted d p user c n (Account (balance_usd a + n) (next_cash_lot_sequence a) (At p)) L.
Proof.
  intros W O Hc Hn M. pose proof O as [Ha (st & Hst & _)]. pose proof W as [W1 W2 W3 W4 W5].
  destruct (inv_account d M user a Ha) as [Ka Hbal].
  set (d1 := set_operations (<[OperationID p := Operation "adjustment" (ActorUserID p) user (trim_space (Reason p))
    (fingerprint ["adjustment"; ActorUserID p; user; Reason p; c]) None (At p)]> (operations d)) d).
  assert (M1 : money_inv d1) by (by apply (money_inv_ext d)).
  destruct (debit_covers d1 user (- n) M1) as (L & E & Hsum & Hsh & Hck); [subst d1; btables; lia|]. subst d1. btables.
  pose proof (money_inv_debit d user a (- n) L (At p) M Ha ltac:(lia) Hsum Hsh Hck) as M'.
  replace (balance_usd a - - n) with (balance_usd a + n) in M' by lia.
  exists L. split; [done|]. split; [done|]. rewrite (adjust_head p user c n a) by (done || lia). replace (0 <? n) with false by lia.
  unfold tbind at 1 2. rewrite E. unfold tguard. rewrite billingPositive_text. cbn [negb Z.ltb Z.compare]. unfold tret at 1.
  unfold adjust_tail. rewrite numeric_arg_bind, (billingPositive_denotes c n) by done. replace (0 <? n) with false by lia.
  rewrite tguard_bind. destruct (inv_account _ M' user (Account (balance_usd a + n) (next_cash_lot_sequence a) (At p))) as [Ka' _];
    [btables; by rewrite lookup_insert_eq|]. rewrite Ka', tmod_bind. unfold tbind at 1. unfold numeric_arg at 1.
  rewrite (numeric_of_denotes c n Hc). unfold tret at 1. rewrite insert_entry_eq; btables; [|done|].
  2:{ unfold account_check in Ka'. cbn in Ka'. breflect. unfold ledger_check, numeric_fits in *. cbn. lia. }
  fold (entry_id d). rewrite tret_bind.
  rewrite (finish_eq _ _ (Operation "adjustment" (ActorUserID p) user (trim_space (Reason p))
    (fingerprint ["adjustment"; ActorUserID p; user; Reason p; c]) None (At p))); btables; [|by rewrite lookup_insert_eq|done].
  rewrite insert_insert_eq. rewrite audit_eq; btables; [|done|done]. done.
Qed.
End fresh.

(** ** Replays *)

(** The operation was recorded with the same arguments and result [x]. *)
Definition replays (d : billing_db) (p : BillingWriteParams) (kind target fp : string) (x : Z * ledger_row) : Prop :=
  (OperationID p ∉ tombstones d) /\ ledger d !! Z.to_nat (x.1 - 1) = Some x.2 /\
  exists row, operations d !! OperationID p = Some row /\ op_result row = Some x.1 /\ op_type row = kind /\
    op_actor row = ActorUserID p /\ op_target row = target /\ op_fingerprint row = fp.

Lemma claim_replay_eq {B} p kind target fp d x (k : option Z -> tx billing_db B) :
  replays d p kind target fp x -> tbind (claimBillingOperationTx p kind target fp []) k d = k (Some x.1) d.
Proof.
  intros (Ht & _ & row & Hr & Hres & Hk & Ha & Hta & Hf). unfold claimBillingOperationTx. unfold tbind at 1.
  rewrite tgets_bind, tguard_bind, bool_decide_false by done. cbn [negb]. rewrite Hr, Hres, tguard_bind.
  rewrite !bool_decide_true by (rewrite ?list_elem_of_singleton; done). done.
Qed.

Lemma replay_ledger_eq d p kind target fp x : replays d p kind target fp x -> replayBillingLedgerTx x.1 d = Ok (x, d).
Proof. intros (_ & Hl & _). unfold replayBillingLedgerTx. rewrite tgets_bind, Hl. by destruct x. Qed.

(** The other arguments are refused. *)
Lemma claim_mismatch_eq {B} p kind target fp d row (k : option Z -> tx billing_db B) :
  OperationID p ∉ tombstones d -> operations d !! OperationID p = Some row -> op_fingerprint row <> fp ->
  tbind (claimBillingOperationTx p kind target fp []) k d = Err (ErrConflict "billing operation replay mismatch").
Proof.
  intros Ht Hr Hf. unfold claimBillingOperationTx. unfold tbind at 1.
  rewrite tgets_bind, tguard_bind, bool_decide_false by done. cbn [negb]. rewrite Hr. destruct (op_result row); [|done].
  rewrite tguard_bind, (bool_decide_false (_ ∈ [fp])) by (by rewrite list_elem_of_singleton). by rewrite andb_false_r.
Qed.

Lemma claim_Ok p kind target fp d o d1 :
  claimBillingOperationTx p kind target fp [] d = Ok (o, d1) ->
  (OperationID p ∉ tombstones d) /\
  ((o = None /\ operations d !! OperationID p = None /\ is_Some (users d !! ActorUserID p) /\
    (target = EmptyString \/ is_Some (users d !! target)) /\
    d1 = set_operations (<[OperationID p := Operation kind (ActorUserID p) target (trim_space (Reason p)) fp None (At p)]> (operations d)) d) \/
   (exists id row, o = Some id /\ d1 = d /\ operations d !! OperationID p = Some row /\ op_result row = Some id /\ op_type row = kind /\
    op_actor row = ActorUserID p /\ op_target row = target /\ op_fingerprint row = fp)).
Proof.
  unfold claimBillingOperationTx. rewrite tgets_bind, tguard_bind. case_bool_decide as Ht; [done|]. cbn [negb]. intros H. split; [done|].
  destruct (operations d !! OperationID p) as [row|] eqn:Eo.
  - right. destruct (op_result row) as [id|] eqn:Er; [|done]. inv_tx H. apply tguard_Ok in Ht0 as [Hg ->]. injection H as <- <-.
    breflect. exists id, row. rewrite list_elem_of_singleton in *. auto 10.
  - left. inv_tx H. apply tguard_Ok in Ht0 as [Hg ->]. injection H as <- <-. apply andb_true_iff in Hg as [Ha Hg].
    apply bool_decide_eq_true in Ha. split; [done|]. split; [done|]. split; [done|]. split; [|done].
    apply orb_true_iff in Hg as [Hg|Hg]; apply bool_decide_eq_true in Hg; auto.
Qed.

Lemma lock_account_Ok user d u d' : lockBillingAccountTx user d = Ok (u, d') -> d' = d /\ exists a, account_open d user a.
Proof.
  unfold lockBillingAccountTx, lockNonPendingUserTx. rewrite tgets_bind. intros H. inv_tx H. apply tsome_Ok in Ht as [Ha ->].
  rewrite tgets_bind in H. inv_tx H. apply tsome_Ok in Ht as [Hs ->]. apply tguard_Ok in H as [Hp ->]. breflect.
  split; [done|]. eexists. split; eauto.
Qed.

Lemma insert_entry_Ok op e d x d' :
  insert_operation_entry op e d = Ok (x, d') -> Forall (fun y => le_operation y <> le_operation e) (ledger d) /\
    x = (entry_id d, e) /\ d' = set_ledger (ledger d ++ [e]) d.
Proof.
  unfold insert_operation_entry. rewrite tgets_bind, tguard_bind. case_bool_decide; [|done]. intros H'. inv_tx H'.
  apply insert_ledger_Ok in Ht as (_ & -> & ->). by injection H' as <- <-.
Qed.

Lemma finish_Ok op id d u d' : finishBillingOperationTx op id d = Ok (u, d') -> exists ops, d' = set_operations ops d.
Proof.
  unfold finishBillingOperationTx. rewrite tgets_bind. destruct (update_rows _ _ _ _ _) as [[n rows]|]; [|done]. intros H. inv_tx H.
  apply tguard_Ok in H as [_ ->]. injection Ht as <-. eauto.
Qed.

Lemma audit_Ok session_of inet_ok p kind st sid meta d u d' :
  appendBillingAuditTx session_of inet_ok p kind st sid meta d = Ok (u, d') -> audit_ok session_of inet_ok p = true.
Proof.
  unfold appendBillingAuditTx. rewrite tgets_bind, tguard_bind. case_bool_decide; [|done]. cbn [andb]. unfold audit_ok.
  by destruct (_ && _).
Qed.

Lemma insert_lot_Ok op l d u d' : insert_lot op l d = Ok (u, d') -> exists L, d' = set_lots L d.
Proof.
  unfold insert_lot. rewrite tguard_bind. destruct (lot_check l); [|done]. rewrite tgets_bind, tguard_bind.
  case_bool_decide; [|done]. intros [= _ <-]. eauto.
Qed.

Lemma numeric_arg_frame op s d n d' : numeric_arg op s d = Ok (n, d') -> d' = d.
Proof. unfold numeric_arg. destruct (numeric_of s); [|done]. by intros [= _ <-]. Qed.

Lemma debit_lots_frame lots s d s' d' : debit_lots lots s d = Ok (s', d') -> exists L, d' = set_lots L d.
Proof.
  revert s d. induction lots as [|[id l] lots IH]; intros s d H; cbn [debit_lots] in H; [injection H as <- <-; exists (cash_lots d); by destruct d|].
  destruct (negb _); [injection H as <- <-; exists (cash_lots d); by destruct d|]. unfold money in H. do 4 inv_tx H.
  apply tlift_Ok in Ht as [_ ->]. apply numeric_arg_frame in Ht0 as ->. apply tlift_Ok in Ht2 as [_ ->].
  apply IH in H as [L ->]. apply update_one_Ok in Ht1 as [[_ ->]|(v & _ & _ & ->)]; by exists L.
Qed.

(** ** Committed writes *)

Section committed.
Context (fingerprint : list string -> string) (session_of : string -> string -> bool) (inet_ok : string -> bool).

Lemma replay_Ok id d x d' : replayBillingLedgerTx id d = Ok (x, d') -> d' = d /\ x.1 = id /\ ledger d !! Z.to_nat (id - 1) = Some x.2.
Proof.
  unfold replayBillingLedgerTx. rewrite tgets_bind. intros H. inv_tx H. apply tsome_Ok in Ht as [Hl ->]. by injection H as <- <-.
Qed.

(** A recharge that commits is a replay or ran on a fresh operation. *)
Lemma recharge_body_Ok p user c d x d' :
  recharge_body fingerprint session_of inet_ok p user c d = Ok (x, d') ->
  exists a, account_open d user a /\
    ((replays d p "recharge" user (fingerprint ["recharge"; ActorUserID p; user; Reason p; c]) x /\ d' = d) \/
     write_ready session_of inet_ok d p).
Proof.
  unfold recharge_body. intros H. inv_tx H. apply lock_account_Ok in Ht as [-> [acc O]]. exists acc. split; [done|]. inv_tx H.
  apply claim_Ok in Ht as [Htomb [(-> & Hop & Hact & Htar & ->)|(id & row & -> & -> & Hrow & Hres & Hk & Ha & Ht & Hf)]].
  - right. rewrite tgets_bind in H. inv_tx H. apply tlift_Ok in Ht as [_ ->]. inv_tx H. apply tguard_Ok in Ht as [_ ->]. inv_tx H.
    apply numeric_arg_frame in Ht as ->. rewrite tgets_bind in H. inv_tx H. apply tsome_Ok in Ht as [_ ->]. inv_tx H.
    apply tguard_Ok in Ht as [_ ->]. rewrite tmod_bind in H. inv_tx H. apply numeric_arg_frame in Ht as ->. inv_tx H.
    apply insert_entry_Ok in Ht as (Hfor & -> & ->). btables. do 2 inv_tx H. inv_tx H. apply audit_Ok in Ht1. by split.
  - left. apply replay_Ok in H as (-> & <- & Hl). split; [|done]. split; [done|]. split; [done|]. exists row. auto 10.
Qed.

Lemma adjust_body_Ok p user c d x d' :
  adjust_body fingerprint session_of inet_ok p user c d = Ok (x, d') ->
  exists a, account_open d user a /\
    ((replays d p "adjustment" user (fingerprint ["adjustment"; ActorUserID p; user; Reason p; c]) x /\ d' = d) \/
     write_ready session_of inet_ok d p).
Proof.
  unfold adjust_body, money. intros H. inv_tx H. apply lock_account_Ok in Ht as [-> [acc O]]. exists acc. split; [done|]. inv_tx H.
  apply claim_Ok in Ht as [Htomb [(-> & Hop & Hact & Htar & ->)|(id & row & -> & -> & Hrow & Hres & Hk & Ha & Ht & Hf)]].
  - right. rewrite tgets_bind in H. inv_tx H. apply tsome_Ok in Ht as [_ ->]. do 2 (inv_tx H; apply tlift_Ok in Ht as [_ ->]).
    inv_tx H. apply tguard_Ok in Ht as [_ ->]. inv_tx H.
    assert (ledger s = ledger d) as El.
    { destruct (billingPositive c); [by injection Ht as _ <-|]. inv_tx Ht. apply tlift_Ok in Ht0 as [_ ->]. rewrite tgets_bind in Ht.
      inv_tx Ht. apply debit_lots_frame in Ht0 as [L ->]. by apply tguard_Ok in Ht as [_ ->]. }
    clear Ht. inv_tx H. apply numeric_arg_frame in Ht as ->. inv_tx H. apply tguard_Ok in Ht as [_ ->]. rewrite tmod_bind in H.
    inv_tx H. apply numeric_arg_frame in Ht as ->. inv_tx H. apply insert_entry_Ok in Ht as (Hfor & -> & ->). btables. rewrite El in Hfor.
    do 3 inv_tx H. apply audit_Ok in Ht1. by split.
  - left. apply replay_Ok in H as (-> & <- & Hl). split; [|done]. split; [done|]. split; [done|]. exists row. auto 10.
Qed.

(** What the types and CHECKs of the columns guarantee: the sequences and token
    counts are BIGINT, the rate is a positive NUMERIC(30,12). *)
Record columns_ok (d : billing_db) : Prop := {
  col_rate : 0 < usd_per_cny (billing_settings d) < pow10 30;
  col_sequence : forall u a, billing_accounts d !! u = Some a -> next_cash_lot_sequence a <= max_int64;
  col_usage : forall r u, usage_requests d !! r = Some u -> u_input u <= max_int64;
}.

(** The bodies run on an amount that was just parsed. *)
Lemma recharge_body_inv p user v c d x d' :
  money_inv d -> columns_ok d -> ParseInput v false false = Ok c ->
  recharge_body fingerprint session_of inet_ok p user c d = Ok (x, d') -> money_inv d'.
Proof.
  intros M [C1 C2 _] Hv H. destruct (recharge_body_Ok _ _ _ _ _ _ H) as (a & O & [[_ ->]|W]); [done|].
  destruct (parse_input_denotes v false c Hv) as (k & Hk & _ & Hb & Hpos). specialize (Hpos eq_refl).
    rewrite (recharge_body_eq fingerprint session_of inet_ok p user c k a d W O (parseBounded_idem _ _ _ _ _ Hv) Hk) in H by (done || lia).
  set (n := converted k (usd_per_cny (billing_settings d))) in *. destruct O as [Ha _].
  destruct (Z.ltb_spec (Z.abs n) (pow10 30)); [|done]. destruct (Z.ltb_spec 0 n); [|done].
  destruct (account_check _ && _) eqn:Ec; [|done]. apply andb_true_iff in Ec as [Ec _]. injection H as <- <-.
  eapply money_inv_ext; [..|apply (money_inv_credit d user a n (next_cash_lot_sequence a) (entry_id d) (At p)); eauto; lia]; done.
Qed.

Lemma next_sequence_exact (z : Z) : 0 < z <= max_int64 -> 0 < wrap64 (z + 1) -> wrap64 (z + 1) = z + 1.
Proof.
  intros Hz Hw. destruct (decide (z = max_int64)) as [->|]; [by vm_compute in Hw|]. apply wrap64_id.
  unfold is_int64, min_int64, max_int64 in *. lia.
Qed.

Lemma adjust_credit_inv d user a n at_ :
  money_inv d -> columns_ok d -> billing_accounts d !! user = Some a -> 0 < n < pow10 30 ->
  account_check (Account (balance_usd a + n) (wrap64 (next_cash_lot_sequence a + 1)) at_) = true ->
  wrap64 (next_cash_lot_sequence a + 1) = next_cash_lot_sequence a + 1 /\
  money_inv (set_lots (<[next_lot_id (cash_lots d) := Lot user (next_cash_lot_sequence a) (entry_id d) n n at_]> (cash_lots d))
    (set_accounts (<[user := Account (balance_usd a + n) (wrap64 (next_cash_lot_sequence a + 1)) at_]> (billing_accounts d)) d)).
Proof.
  intros M [_ C2 _] Ha Hn Hck. destruct (inv_account d M user a Ha) as [Ka _]. specialize (C2 user a Ha).
  assert (E : wrap64 (next_cash_lot_sequence a + 1) = next_cash_lot_sequence a + 1).
  { unfold account_check in Ka, Hck. cbn [balance_usd next_cash_lot_sequence] in *. breflect. apply next_sequence_exact; lia. }
  split; [done|]. rewrite E in *. by apply money_inv_credit.
Qed.

Lemma adjust_body_inv p user v c d x d' :
  money_inv d -> columns_ok d -> ParseInput v true false = Ok c ->
  adjust_body fingerprint session_of inet_ok p user c d = Ok (x, d') -> money_inv d'.
Proof.
  intros M C Hv H. destruct (adjust_body_Ok _ _ _ _ _ _ H) as (a & O & [[_ ->]|W]); [done|].
  destruct (parse_input_denotes v true c Hv) as (n & Hc & Hz & Hb & _).
    destruct (Z.ltb_spec (balance_usd a + n) 0); [by rewrite (adjust_overdrawn fingerprint session_of inet_ok p user c n a) in H|].
    destruct (Z.ltb_spec 0 n).
  - rewrite (adjust_credit fingerprint session_of inet_ok p user c n a) in H by (done || lia).
    destruct (account_check _) eqn:Ec; [|done]. injection H as <- <-. destruct O as [Ha _].
    destruct (adjust_credit_inv d user a n (At p) M C Ha ltac:(lia) Ec) as [_ M']. by eapply money_inv_ext; [..|exact M'].
  - destruct (adjust_debit fingerprint session_of inet_ok p user c n a d W O Hc ltac:(lia) M) as (L & M' & _ & E).
    rewrite E in H. injection H as <- <-. by eapply money_inv_ext; [..|exact M'].
Qed.

Lemma set_rate_body_inv p rate d x d' :
  money_inv d -> set_rate_body fingerprint session_of inet_ok p rate d = Ok (x, d') -> money_inv d'.
Proof.
  intros M. unfold set_rate_body. intros H. inv_tx H.
  apply claim_Ok in Ht as [_ [(-> & _ & _ & _ & ->)|(id & row & -> & -> & _)]].
  - inv_tx H. apply numeric_arg_frame in Ht as ->. inv_tx H. apply tguard_Ok in Ht as [_ ->]. rewrite tmod_bind in H. inv_tx H.
    apply insert_entry_Ok in Ht as (_ & -> & ->). inv_tx H. apply finish_Ok in Ht as [ops ->]. inv_tx H. injection H as _ <-.
    unfold appendBillingAuditTx in Ht. rewrite tgets_bind, tguard_bind in Ht. destruct (_ && _); [|done]. injection Ht as _ <-.
    by eapply money_inv_ext; [..|exact M].
  - inv_tx H. apply replay_Ok in Ht as (-> & _). destruct a as [i e]. cbn in H. destruct (le_rate e); [|done]. by injection H as _ <-.
Qed.
End committed.

(** ** Every write together *)

Section steps.
Context (fingerprint : list string -> string) (session_of : string -> string -> bool) (inet_ok : string -> bool)
  (decode : string -> option DecodedSnapshot).

(** The rest of the system opens reservations and changes the other tables; it
    never touches accounts, lots, allocations or existing reservations, and
    keeps the constraints of the period tables. *)
Record other_writes (d d' : billing_db) : Prop := {
  ow_accounts : billing_accounts d' = billing_accounts d;
  ow_lots : cash_lots d' = cash_lots d;
  ow_allocations : allocations d' = allocations d;
  ow_periods : forall id p, periods d' !! id = Some p -> period_check p = true;
  ow_groups : forall id g, group_periods d' !! id = Some g -> group_period_check g = true;
  ow_members : forall p u n, member_usage d' !! (p, u) = Some n -> 0 <= n /\ exists g, group_periods d' !! p = Some g /\ n <= used_usd g;
  ow_old : forall id r, billing_reservations d !! id = Some r -> billing_reservations d' !! id = Some r;
  ow_new : forall id r, billing_reservations d' !! id = Some r -> billing_reservations d !! id = None ->
    br_state r = Reserved /\ reservation_row_check r = true;
}.

Inductive money_step : billing_db -> billing_db -> Prop :=
| step_rate d clock p rate : money_step d (SetRechargeRate fingerprint session_of inet_ok clock p rate d).2
| step_recharge d clock p user cny : money_step d (RechargeUser fingerprint session_of inet_ok clock p user cny d).2
| step_adjust d clock p user usd : money_step d (AdjustUserBalance fingerprint session_of inet_ok clock p user usd d).2
| step_settle d clock req at_ : money_step d (SettleBilling decode clock req at_ d).2
| step_release d clock req at_ : money_step d (ReleaseBilling clock req at_ d).2
| step_other d d' : other_writes d d' -> money_step d d'.

Lemma checked_inv {A B} (arguments : result store_error A) (body : A -> tx billing_db B) d (P : billing_db -> Prop) :
  P d -> (forall a x d', arguments = Ok a -> body a d = Ok (x, d') -> P d') -> P (checked arguments body d).2.
Proof.
  intros Hd H. unfold checked. destruct arguments as [a|e]; [|done]. unfold withTx. destruct (body a d) as [[x d']|e] eqn:E; [|done].
  cbn. by eapply H.
Qed.

Lemma settle_tx_inv clock req at_ d row d' :
  money_inv d -> columns_ok d -> settleBillingTx decode clock req at_ d = Ok (row, d') -> money_inv d'.
Proof.
  intros M C H. destruct (billing_reservations d !! req) as [pre|] eqn:Hpre.
  - destruct (br_state pre) eqn:Hs.
    + destruct (settle_Ok decode clock req at_ d pre row d' M Hpre Hs (col_usage d C req) H) as (? & ? & ? & ? & ? & ? & ? & ? & ? & ? & ? & ?
        & _ & _ & _ & _ & _ & _ & _ & _ & M' & _). done.
    + unfold settleBillingTx in H. rewrite tguard_bind in H. destruct (negb _); [|done]. rewrite tgets_bind, Hpre in H. unfold tsome in H.
      rewrite tret_bind in H. apply settle_prefix_Ok in H as [[? ?] H]. rewrite Hs in H. by injection H as _ <-.
    + unfold settleBillingTx in H. rewrite tguard_bind in H. destruct (negb _); [|done]. rewrite tgets_bind, Hpre in H. unfold tsome in H.
      rewrite tret_bind in H. apply settle_prefix_Ok in H as [[? ?] H]. by rewrite Hs in H.
  - unfold settleBillingTx in H. rewrite tguard_bind in H. destruct (negb _); [|done]. by rewrite tgets_bind, Hpre in H.
Qed.

Lemma release_tx_inv clock req at_ d d' :
  money_inv d -> releaseBillingTx clock req at_ d = Ok (tt, d') -> money_inv d'.
Proof.
  intros M. unfold releaseBillingTx. rewrite tguard_bind. destruct (negb _); [|done]. rewrite tgets_bind.
  destruct (billing_reservations d !! req) as [r|] eqn:Hr; [|done]. unfold tsome. rewrite tret_bind. destruct (br_state r) eqn:Hs; [|done|by intros [= <-]].
  cbn [update_rows]. rewrite Hr, bool_decide_true by done. set (r' := release_row _ r).
  destruct (reservation_row_check r') eqn:Hck; [|done]. intros [= <-]. by apply money_inv_reservation with r.
Qed.

Lemma other_inv d d' : money_inv d -> other_writes d d' -> money_inv d'.
Proof.
  intros [M1 M2 M3 M4 M5 M6 M7 M8] [O1 O2 O3 O4 O5 O6 O7 O8]. split; rewrite ?O1, ?O2, ?O3; try done.
  - intros id r Hr. destruct (billing_reservations d !! id) as [r0|] eqn:E0; [|by eapply O8].
    pose proof (O7 id r0 E0). assert (r = r0) as -> by congruence. by eapply M6.
  - intros id. rewrite M7. destruct (billing_reservations d !! id) as [r0|] eqn:E0; [by rewrite (O7 id r0 E0)|]. cbn.
    destruct (billing_reservations d' !! id) as [r|] eqn:E; [|done]. destruct (O8 id r E E0) as [Hs Hc]. cbn.
    unfold reservation_row_check in Hc. rewrite Hs in Hc. by destruct (br_charge r).
  - intros id o Ho. destruct (M8 id o Ho) as (r & Hr & Hs). exists r. split; [by apply O7|done].
Qed.

Lemma money_step_inv d d' : columns_ok d -> money_step d d' -> money_inv d -> money_inv d'.
Proof.
  intros C S M. destruct S as [d clock p rate|d clock p user cny|d clock p user usd|d clock req at_|d clock req at_|d d' O].
  - apply (checked_inv _ _ _ money_inv M). intros a x d' _ H. by eapply set_rate_body_inv.
  - apply (checked_inv _ _ _ money_inv M). intros a x d' Ha H. destruct (validateBillingWrite p); [|done]. cbn [rbind] in Ha.
    destruct (empty user); [done|]. apply map_err_Ok in Ha. by eapply recharge_body_inv.
  - apply (checked_inv _ _ _ money_inv M). intros a x d' Ha H. destruct (validateBillingWrite p); [|done]. cbn [rbind] in Ha.
    destruct (empty user); [done|]. apply map_err_Ok in Ha. by eapply adjust_body_inv.
  - unfold SettleBilling. cbv zeta. apply withTx_preserves; [|done]. intros a d' H. by eapply settle_tx_inv.
  - unfold ReleaseBilling. cbv zeta. apply withTx_preserves; [|done]. intros [] d' H. by eapply release_tx_inv.
  - by eapply other_inv.
Qed.

(** A system whose accounts are all empty and where nothing was billed yet. *)
Definition opening (d : billing_db) : Prop :=
  cash_lots d = ∅ /\ allocations d = ∅ /\ billing_reservations d = ∅ /\ periods d = ∅ /\ group_periods d = ∅ /\ member_usage d = ∅ /\
  forall u a, billing_accounts d !! u = Some a -> balance_usd a = 0 /\ 0 < next_cash_lot_sequence a.

Lemma opening_inv d : opening d -> money_inv d.
Proof.
  intros (E1 & E2 & E3 & E4 & E5 & E6 & H). split; rewrite ?E1, ?E2, ?E3, ?E4, ?E5, ?E6.
  - intros u a Ha. destruct (H u a Ha) as [Hb Hs]. rewrite Hb. split; [|by rewrite cash_total_zero].
    unfold account_check, numeric_fits. rewrite Hb. cbn. pose proof (pow10_pos 30). lia.
  - intros id l. by rewrite lookup_empty.
  - intros id p. by rewrite lookup_empty.
  - intros id g. by rewrite lookup_empty.
  - intros p u n. by rewrite lookup_empty.
  - intros id r. by rewrite lookup_empty.
  - intros id. rewrite lookup_empty. done.
  - intros id o [x Hx]. by rewrite lookup_empty in Hx.
Qed.

End steps.

Section outcomes.
Context (fingerprint : list string -> string) (session_of : string -> string -> bool) (inet_ok : string -> bool).
  Abbreviation Recharge := (RechargeUser fingerprint session_of inet_ok).
  Abbreviation Adjust := (AdjustUserBalance fingerprint session_of inet_ok).

(** Retries of a write: the same operation, actor and reason. *)
Definition same_write (p q : BillingWriteParams) : Prop :=
  OperationID q = OperationID p /\ ActorUserID q = ActorUserID p /\ trim_space (Reason q) = trim_space (Reason p).

Lemma same_write_valid p q : same_write p q -> validateBillingWrite q = validateBillingWrite p.
Proof. intros (H1 & H2 & H3). unfold validateBillingWrite. by rewrite H1, H2, H3. Qed.

Lemma recharge_args p user v x d d' clock :
  Recharge clock p user v d = (Ok x, d') -> exists c, validateBillingWrite p = Ok tt /\ empty user = false /\
    ParseInput v false false = Ok c /\ recharge_body fingerprint session_of inet_ok (normalized clock p) user c d = Ok (x, d').
Proof.
  unfold RechargeUser, checked. destruct (validateBillingWrite p) as [[]|]; [|done]. cbn [rbind]. destruct (empty user); [done|].
  destruct (ParseInput v false false) as [c|]; [|done]. cbn [map_err]. intros H%withTx_commit. eauto.
Qed.

Lemma adjust_args p user v x d d' clock :
  Adjust clock p user v d = (Ok x, d') -> exists c, validateBillingWrite p = Ok tt /\ empty user = false /\
    ParseInput v true false = Ok c /\ adjust_body fingerprint session_of inet_ok (normalized clock p) user c d = Ok (x, d').
Proof.
  unfold AdjustUserBalance, checked. destruct (validateBillingWrite p) as [[]|]; [|done]. cbn [rbind]. destruct (empty user); [done|].
  destruct (ParseInput v true false) as [c|]; [|done]. cbn [map_err]. intros H%withTx_commit. eauto.
Qed.

Lemma written_replays d p kind target fp e accounts lots ev meta q :
  write_ready session_of inet_ok d p -> OperationID q = OperationID p -> ActorUserID q = ActorUserID p ->
  replays (written d p kind target fp e accounts lots ev meta) q kind target fp (entry_id d, e).
Proof.
  intros [W1 _ _ _ _] E1 E2. unfold replays, written. btables. rewrite E1, E2. split; [done|]. split.
  - cbn. unfold entry_id. replace (Z.to_nat (Z.of_nat (length (ledger d)) + 1 - 1)) with (length (ledger d)) by lia. by rewrite list_lookup_middle.
  - rewrite lookup_insert_eq. eexists. split; [done|]. auto.
Qed.

(** After a committed body the operation replays its result. *)
Lemma recharge_then_replays p q user v c d x d' :
  money_inv d -> columns_ok d -> ParseInput v false false = Ok c -> OperationID q = OperationID p -> ActorUserID q = ActorUserID p ->
  recharge_body fingerprint session_of inet_ok p user c d = Ok (x, d') ->
  (exists a, account_open d' user a) /\
  replays d' q "recharge" user (fingerprint ["recharge"; ActorUserID p; user; Reason p; c]) x.
Proof.
  intros M [C1 _ _] Hv E1 E2 H. destruct (recharge_body_Ok _ _ _ _ _ _ _ _ _ H) as (a & O & [[R ->]|W]).
  - split; [eauto|]. unfold replays in *. by rewrite E1, E2.
  - destruct (parse_input_denotes v false c Hv) as (k & Hk & _ & Hb & Hpos). specialize (Hpos eq_refl).
    rewrite (recharge_body_eq fingerprint session_of inet_ok p user c k a d W O (parseBounded_idem _ _ _ _ _ Hv) Hk) in H by (done || lia).
    destruct (_ <? _); [|done]. destruct (_ <? _); [|done]. destruct (_ && _); [|done]. injection H as <- <-.
    split; [|by apply written_replays]. destruct O as [Ha Hst]. eexists. split; [unfold written; btables; apply lookup_insert_eq|done].
Qed.

Lemma adjust_then_replays p q user v c d x d' :
  money_inv d -> ParseInput v true false = Ok c -> OperationID q = OperationID p -> ActorUserID q = ActorUserID p ->
  adjust_body fingerprint session_of inet_ok p user c d = Ok (x, d') ->
  (exists a, account_open d' user a) /\
  replays d' q "adjustment" user (fingerprint ["adjustment"; ActorUserID p; user; Reason p; c]) x.
Proof.
  intros M Hv E1 E2 H. destruct (adjust_body_Ok _ _ _ _ _ _ _ _ _ H) as (a & O & [[R ->]|W]).
  - split; [eauto|]. unfold replays in *. by rewrite E1, E2.
  - destruct (parse_input_denotes v true c Hv) as (n & Hc & Hz & Hb & _). pose proof O as [Ha Hst].
    destruct (Z.ltb_spec (balance_usd a + n) 0); [by rewrite (adjust_overdrawn fingerprint session_of inet_ok p user c n a) in H|].
    destruct (Z.ltb_spec 0 n).
    + rewrite (adjust_credit fingerprint session_of inet_ok p user c n a) in H by (done || lia).
      destruct (account_check _); [|done]. injection H as <- <-.
      split; [|by apply written_replays]. eexists. split; [unfold written; btables; apply lookup_insert_eq|done].
    + destruct (adjust_debit fingerprint session_of inet_ok p user c n a d W O Hc ltac:(lia) M) as (L & _ & _ & E).
      rewrite E in H. injection H as <- <-.
      split; [|by apply written_replays]. eexists. split; [unfold written; btables; apply lookup_insert_eq|done].
Qed.

Lemma recharge_replay_eq p user c d x a :
  account_open d user a -> replays d p "recharge" user (fingerprint ["recharge"; ActorUserID p; user; Reason p; c]) x ->
  recharge_body fingerprint session_of inet_ok p user c d = Ok (x, d).
Proof. intros O R. unfold recharge_body. rewrite (lock_account_eq user a), (claim_replay_eq _ _ _ _ _ x) by done. by eapply replay_ledger_eq. Qed.

Lemma adjust_replay_eq p user c d x a :
  account_open d user a -> replays d p "adjustment" user (fingerprint ["adjustment"; ActorUserID p; user; Reason p; c]) x ->
  adjust_body fingerprint session_of inet_ok p user c d = Ok (x, d).
Proof. intros O R. unfold adjust_body. rewrite (lock_account_eq user a), (claim_replay_eq _ _ _ _ _ x) by done. by eapply replay_ledger_eq. Qed.

(** [C28] Recharges and adjustments happen once.  Repeating a committed write with
    the same operation id, actor, reason and amount, at any later time and from
    any session, returns the recorded entry and changes nothing; repeating it
    with an amount of another fingerprint is refused and changes nothing. *)
Theorem balance_writes_idempotent clock clock' p q user v w d x d' :
  money_inv d -> columns_ok d -> same_write p q ->
  (Recharge clock p user v d = (Ok x, d') ->
     Recharge clock' q user v d' = (Ok x, d') /\
     forall c c', ParseInput v false false = Ok c -> ParseInput w false false = Ok c' ->
       let arg c := fingerprint ["recharge"; ActorUserID p; user; trim_space (Reason p); c] in
       arg c <> arg c' -> Recharge clock' q user w d' = (Err (ErrConflict "billing operation replay mismatch"), d')) /\
  (Adjust clock p user v d = (Ok x, d') ->
     Adjust clock' q user v d' = (Ok x, d') /\
     forall c c', ParseInput v true false = Ok c -> ParseInput w true false = Ok c' ->
       let arg c := fingerprint ["adjustment"; ActorUserID p; user; trim_space (Reason p); c] in
       arg c <> arg c' -> Adjust clock' q user w d' = (Err (ErrConflict "billing operation replay mismatch"), d')).
Proof.
  intros M C Hs. pose proof (same_write_valid p q Hs) as Hv'. destruct Hs as (E1 & E2 & E3). split; intros H.
  - apply recharge_args in H as (c & Hval & Hu & Hc & H). rewrite Hval in Hv'.
    apply (recharge_then_replays (normalized clock p) (normalized clock' q) user v c) in H as [[a O] R]; try done.
    split.
    + unfold RechargeUser, checked. rewrite Hv', Hu, Hc. cbn [rbind map_err]. apply withTx_commit, (recharge_replay_eq _ _ _ _ _ a); [done|].
      cbn [normalized ActorUserID Reason] in *. by rewrite E2, E3.
    + intros c0 c' Hc0 Hc' arg Hne. rewrite Hc in Hc0. injection Hc0 as <-. unfold RechargeUser, checked. rewrite Hv', Hu, Hc'. cbn [rbind map_err].
      unfold withTx, recharge_body. rewrite (lock_account_eq user a) by done. destruct R as (Ht & _ & row & Hrow & _ & _ & _ & _ & Hf).
      rewrite (claim_mismatch_eq _ _ _ _ _ row); [done|done|done|]. rewrite Hf. cbn [normalized ActorUserID Reason] in *. by rewrite E2, E3.
  - apply adjust_args in H as (c & Hval & Hu & Hc & H). rewrite Hval in Hv'.
    apply (adjust_then_replays (normalized clock p) (normalized clock' q) user v c) in H as [[a O] R]; try done.
    split.
    + unfold AdjustUserBalance, checked. rewrite Hv', Hu, Hc. cbn [rbind map_err]. apply withTx_commit, (adjust_replay_eq _ _ _ _ _ a); [done|].
      cbn [normalized ActorUserID Reason] in *. by rewrite E2, E3.
    + intros c0 c' Hc0 Hc' arg Hne. rewrite Hc in Hc0. injection Hc0 as <-. unfold AdjustUserBalance, checked. rewrite Hv', Hu, Hc'. cbn [rbind map_err].
      unfold withTx, adjust_body. rewrite (lock_account_eq user a) by done. destruct R as (Ht & _ & row & Hrow & _ & _ & _ & _ & Hf).
      rewrite (claim_mismatch_eq _ _ _ _ _ row); [done|done|done|]. rewrite Hf. cbn [normalized ActorUserID Reason] in *. by rewrite E2, E3.
Qed.

(** A signed adjustment on a fresh operation has exactly these outcomes.  It
    is refused as insufficient funds, with nothing changed, when it would make
    the balance negative; otherwise, unless the new balance or the lot sequence
    leaves its column, it commits: the balance moves by the amount, the ledger
    records it, no lot is overdrawn and the cash lots still add up to the
    balance.  In particular the error that the lots do not reconcile with the
    account cannot occur. *)
Theorem adjust_outcome clock p user v d c n a :
  money_inv d -> columns_ok d -> validateBillingWrite p = Ok tt -> user <> EmptyString -> ParseInput v true false = Ok c -> denotes c n ->
  write_ready session_of inet_ok d (normalized clock p) -> account_open d user a ->
  (balance_usd a + n < 0 -> Adjust clock p user v d = (Err (ErrInsufficientFunds 0), d)) /\
  (0 <= balance_usd a + n < pow10 30 -> next_cash_lot_sequence a < max_int64 ->
   exists e d', Adjust clock p user v d = (Ok (entry_id d, e), d') /\ money_inv d' /\
     le_cash_delta e = n /\ le_balance_after e = Some (balance_usd a + n) /\ ledger d' = ledger d ++ [e] /\
     (exists seq, billing_accounts d' = <[user := Account (balance_usd a + n) seq (normalizedBillingTime (At p) clock)]> (billing_accounts d)) /\
     cash_total user (cash_lots d') = balance_usd a + n) /\
  (pow10 30 <= balance_usd a + n -> Adjust clock p user v d = (Err (ErrInvalid "update adjusted balance"), d)).
Proof.
  intros M C Hval Hu Hv Hc W O. destruct (parse_input_denotes v true c Hv) as (n' & Hc' & Hz & Hb & _).
  rewrite (denotes_inj _ _ _ Hc' Hc) in *. clear n' Hc'.
  assert (E : Adjust clock p user v d = withTx (adjust_body fingerprint session_of inet_ok (normalized clock p) user c) d).
  { unfold AdjustUserBalance, checked. rewrite Hval, Hv. unfold empty. by rewrite bool_decide_false. }
  pose proof O as [Ha _]. destruct (inv_account d M user a Ha) as [Ka Hbal]. pose proof (col_sequence d C user a Ha).
  unfold account_check, numeric_fits in Ka. breflect. rewrite E. clear E. unfold withTx. split; [|split].
  - intros Hneg. by rewrite (adjust_overdrawn fingerprint session_of inet_ok _ user c n a).
  - intros Hpos Hseq. destruct (Z.ltb_spec 0 n).
    + rewrite (adjust_credit fingerprint session_of inet_ok _ user c n a) by (done || lia).
      assert (Hck : account_check (Account (balance_usd a + n) (wrap64 (next_cash_lot_sequence a + 1)) (At (normalized clock p))) = true).
      { unfold account_check, numeric_fits. cbn. rewrite wrap64_id by (unfold is_int64, min_int64, max_int64 in *; lia). lia. }
      rewrite Hck. eexists _, _. split; [done|]. destruct (adjust_credit_inv d user a n _ M C Ha ltac:(lia) Hck) as [_ M'].
      split; [by eapply money_inv_ext; [..|exact M']|]. do 3 (split; [done|]). split; [eauto|].
      destruct (inv_account _ M' user _ (lookup_insert_eq _ _ _)) as [_ Hb']. symmetry. exact Hb'.
    + destruct (adjust_debit fingerprint session_of inet_ok (normalized clock p) user c n a d W O Hc ltac:(lia) M) as (L & M' & _ & ->).
      eexists _, _. split; [done|]. split; [by eapply money_inv_ext; [..|exact M']|]. do 3 (split; [done|]). split; [eauto|].
      destruct (inv_account _ M' user _ (lookup_insert_eq _ _ _)) as [_ Hb']. symmetry. exact Hb'.
  - intros Hbig. rewrite (adjust_credit fingerprint session_of inet_ok _ user c n a) by (done || lia).
    assert (account_check (Account (balance_usd a + n) (wrap64 (next_cash_lot_sequence a + 1)) (At (normalized clock p))) = false) as ->; [|done].
    unfold account_check, numeric_fits. cbn. lia.
Qed.

(** A recharge on a fresh operation converts the amount at the rate in force,
    rounded to 12 decimals; when the result is positive and the new balance fits
    its column it commits a new cash lot of that value, whose sequence is the
    next one, credits the balance with it and records both amounts and the rate
    in the ledger; otherwise nothing changes. *)
Theorem recharge_outcome clock p user v d c k a :
  money_inv d -> columns_ok d -> validateBillingWrite p = Ok tt -> user <> EmptyString -> ParseInput v false false = Ok c -> denotes c k ->
  write_ready session_of inet_ok d (normalized clock p) -> account_open d user a ->
  let rate := usd_per_cny (billing_settings d) in
  let n := converted k rate in
  if (0 <? n) && (balance_usd a + n <? pow10 30) && (next_cash_lot_sequence a <? max_int64) then
    exists e d' id, Recharge clock p user v d = (Ok (entry_id d, e), d') /\ money_inv d' /\
      le_cash_delta e = n /\ le_cny e = Some k /\ le_rate e = Some rate /\ ledger d' = ledger d ++ [e] /\
      cash_lots d !! id = None /\
      cash_lots d' = <[id := Lot user (next_cash_lot_sequence a) (entry_id d) n n (normalizedBillingTime (At p) clock)]> (cash_lots d) /\
      billing_accounts d' = <[user := Account (balance_usd a + n) (next_cash_lot_sequence a + 1) (normalizedBillingTime (At p) clock)]>
        (billing_accounts d)
  else exists err, Recharge clock p user v d = (Err err, d).
Proof.
  intros M C Hval Hu Hv Hc W O rate n. destruct (parse_input_denotes v false c Hv) as (k' & Hc' & _ & Hb & Hpos).
  rewrite (denotes_inj _ _ _ Hc' Hc) in *. clear k' Hc'. specialize (Hpos eq_refl). pose proof (col_rate d C) as Hr.
  assert (E : Recharge clock p user v d = withTx (recharge_body fingerprint session_of inet_ok (normalized clock p) user c) d).
  { unfold RechargeUser, checked. rewrite Hval, Hv. unfold empty. by rewrite bool_decide_false. }
  pose proof O as [Ha _]. destruct (inv_account d M user a Ha) as [Ka Hbal]. pose proof (col_sequence d C user a Ha) as Hseq.
  unfold account_check, numeric_fits in Ka. breflect. unfold withTx in E.
  rewrite (recharge_body_eq fingerprint session_of inet_ok _ user c k a d W O (parseBounded_idem _ _ _ _ _ Hv) Hc) in E by (done || lia).
  fold rate in E. fold n in E. rewrite E. clear E. destruct (Z.ltb_spec 0 n); cbn [andb].
  2:{ destruct (Z.abs n <? pow10 30); eauto. }
  destruct (Z.ltb_spec (balance_usd a + n) (pow10 30)); cbn [andb].
  2:{ destruct (Z.abs n <? pow10 30); [|eauto]. unfold account_check, numeric_fits. cbn [balance_usd next_cash_lot_sequence].
      replace (Z.abs (balance_usd a + n) <? pow10 30) with false by lia. rewrite andb_false_r. cbn [andb]. eauto. }
  replace (Z.abs n <? pow10 30) with true by lia. destruct (Z.ltb_spec (next_cash_lot_sequence a) max_int64) as [Hlt|Hge].
  - assert (Hck : account_check (Account (balance_usd a + n) (next_cash_lot_sequence a + 1) (At (normalized clock p))) = true).
    { unfold account_check, numeric_fits. cbn. lia. }
    rewrite Hck. assert (int64b (next_cash_lot_sequence a + 1) = true) as -> by (apply int64b_spec; unfold is_int64, min_int64, max_int64 in *; lia).
    cbn [andb]. eexists _, _, _. split; [done|]. split.
    { eapply money_inv_ext; [..|apply (money_inv_credit d user a n (next_cash_lot_sequence a) (entry_id d) (At (normalized clock p))); eauto; lia]; done. }
    do 4 (split; [done|]). split; [apply next_lot_id_free|]. split; done.
  - assert (int64b (next_cash_lot_sequence a + 1) = false) as ->; [|rewrite andb_false_r; eauto].
    apply not_true_is_false. rewrite int64b_spec. unfold is_int64. lia.
Qed.
End outcomes.

(** ** Examples *)

(** Joins the arguments, which keeps different amounts apart. *)
Definition plain_fingerprint (args : list string) : string := String.concat "|" args.
Definition no_session (_ _ : string) : bool := false.
Definition any_inet (_ : string) : bool := true.

Definition bank_write : BillingWriteParams :=
  {| OperationID := "op-1"; Reason := " top up "; ActorUserID := "admin"; ActorSessionID := ""; RequestID := ""; SourceIP := "10.0.0.1"; At := 0 |}.
Definition bank_account : account_row := Account 0 1 1.
Definition bank_db : billing_db :=
  BillingDB {[ "u1" := "active"; "admin" := "active" ]} {[ "u1" := bank_account ]} ∅ ∅ ∅ ∅ ∅ ∅ ∅ ∅ [] ∅ ∅ ∅ (Settings (usd 2) 0 None) [].

Lemma bank_opening : opening bank_db.
Proof. do 6 (split; [done|]). unfold bank_db. btables. intros u a [<- <-]%lookup_singleton_Some. done. Qed.

Lemma bank_columns : columns_ok bank_db.
Proof.
  split; unfold bank_db; btables.
  - vm_compute. done.
  - intros u a [<- <-]%lookup_singleton_Some. vm_compute. done.
  - intros r u. by rewrite lookup_empty.
Qed.

Lemma bank_ready : write_ready no_session any_inet bank_db (normalized 500 bank_write).
Proof.
  split; unfold bank_db; btables.
  - apply not_elem_of_empty.
  - apply lookup_empty.
  - constructor.
  - exists "active". vm_compute. reflexivity.
  - vm_compute. reflexivity.
Qed.

Lemma bank_account_open : account_open bank_db "u1" bank_account.
Proof. split; [vm_compute; reflexivity|]. exists "active". split; [vm_compute; reflexivity|done]. Qed.

Definition usd5 : Z := usd 5.
Lemma denotes_5 : denotes "5" usd5.
Proof. exists 5%Q. split; [by vm_compute|]. unfold usd5. by vm_compute. Qed.

(** 5 CNY at 2 USD/CNY. *)
Lemma recharge_outcome_witness :
  exists e d' id, RechargeUser plain_fingerprint no_session any_inet 500 bank_write "u1" "5.0" bank_db = (Ok (entry_id bank_db, e), d') /\
    money_inv d' /\ le_cash_delta e = usd 10 /\ cash_lots d' !! id = Some (Lot "u1" 1 1 (usd 10) (usd 10) 500).
Proof.
  assert (Hc : (0 <? converted usd5 (usd_per_cny (billing_settings bank_db))) &&
    (balance_usd bank_account + converted usd5 (usd_per_cny (billing_settings bank_db)) <? pow10 30) &&
    (next_cash_lot_sequence bank_account <? max_int64) = true) by (vm_compute; reflexivity).
  assert (Hv : validateBillingWrite bank_write = Ok tt) by (vm_compute; reflexivity).
  assert (Hp : ParseInput "5.0" false false = Ok "5") by (vm_compute; reflexivity).
  assert (Hu : "u1" <> EmptyString) by discriminate.
  pose proof (recharge_outcome plain_fingerprint no_session any_inet 500 bank_write "u1" "5.0" bank_db "5" usd5 bank_account
    (opening_inv _ bank_opening) bank_columns Hv Hu Hp denotes_5 bank_ready bank_account_open) as H.
  cbv zeta in H. rewrite Hc in H. destruct H as (e & d' & id & H1 & H2 & H3 & _ & _ & _ & _ & H4 & _).
  exists e, d', id. split; [exact H1|]. split; [exact H2|]. split; [rewrite H3; vm_compute; reflexivity|].
  rewrite H4, lookup_insert_eq. vm_compute. reflexivity.
Defined.

Definition usd_minus5 : Z := - usd 5.
Lemma denotes_minus5 : denotes "-5" usd_minus5.
Proof. exists (-5)%Q. split; [by vm_compute|]. by vm_compute. Qed.

(** A debit of 5 USD from an empty account is refused, a credit commits. *)
Lemma adjust_outcome_witness :
  AdjustUserBalance plain_fingerprint no_session any_inet 500 bank_write "u1" "-5" bank_db = (Err (ErrInsufficientFunds 0), bank_db) /\
  exists e d', AdjustUserBalance plain_fingerprint no_session any_inet 500 bank_write "u1" "5" bank_db = (Ok (entry_id bank_db, e), d') /\
    money_inv d' /\ cash_total "u1" (cash_lots d') = usd 5.
Proof.
  pose proof (opening_inv _ bank_opening) as M. split.
  - apply (adjust_outcome plain_fingerprint no_session any_inet 500 bank_write "u1" "-5" bank_db "-5" usd_minus5 bank_account);
      first [exact M|exact bank_columns|exact denotes_minus5|exact bank_ready|exact bank_account_open|discriminate|vm_compute; reflexivity].
  - destruct (adjust_outcome plain_fingerprint no_session any_inet 500 bank_write "u1" "5" bank_db "5" usd5 bank_account)
      as (_ & H & _);
      [exact M|exact bank_columns|vm_compute; reflexivity|discriminate|vm_compute; reflexivity|exact denotes_5|exact bank_ready|exact bank_account_open|].
    destruct H as (e & d' & H1 & H2 & _ & _ & _ & _ & H3); [split; vm_compute; done|vm_compute; done|].
    exists e, d'. split; [exact H1|]. split; [exact H2|]. rewrite H3. vm_compute. reflexivity.
Defined.

Definition bank_recharged : result store_error (Z * ledger_row) * billing_db :=
  RechargeUser plain_fingerprint no_session any_inet 500 bank_write "u1" "5.0" bank_db.
Definition bank_entry : Z * ledger_row := match bank_recharged.1 with Ok x => x | Err _ => (0, operation_entry "" bank_write "" 0 0 None None None) end.

Lemma balance_writes_idempotent_witness :
  RechargeUser plain_fingerprint no_session any_inet 500 bank_write "u1" "5.0" bank_db = (Ok bank_entry, bank_recharged.2) /\
  RechargeUser plain_fingerprint no_session any_inet 900 bank_write "u1" "5.0" bank_recharged.2 = (Ok bank_entry, bank_recharged.2) /\
  RechargeUser plain_fingerprint no_session any_inet 900 bank_write "u1" "6" bank_recharged.2 =
    (Err (ErrConflict "billing operation replay mismatch"), bank_recharged.2).
Proof.
  assert (H : RechargeUser plain_fingerprint no_session any_inet 500 bank_write "u1" "5.0" bank_db = (Ok bank_entry, bank_recharged.2))
    by (vm_compute; reflexivity).
  destruct (balance_writes_idempotent plain_fingerprint no_session any_inet 500 900 bank_write bank_write "u1" "5.0" "6" bank_db bank_entry
    bank_recharged.2 (opening_inv _ bank_opening) bank_columns) as [H1 _]; [split; [reflexivity|split; reflexivity]|].
  destruct (H1 H) as [H2 H3]. split; [exact H|]. split; [exact H2|].
  apply (H3 "5" "6"); [vm_compute; reflexivity|vm_compute; reflexivity|]. vm_compute. discriminate.
Defined.

