(* ===== verification/Requests.v ===== *)
(** * Requests across quota and billing ([internal/store/quota.go], 555-592, 657-727 and 799-903; [billing.go], 2464-2505)

    A request holds a quota reservation and, on the billed endpoints, a billing
    reservation and a usage row.  [SettleRequest] and [ReleaseRequest] close
    both in one transaction; the maintenance loops repair what a crashed
    process left open. *)
From Stdlib Require Import QArith.
From S2P Require Import Prelude GoStrings GoTime Amount Pricing Store Quota Money Funding BillingTables Charging Settling Accounts.

(** The whole database of a request. *)
Record gateway_db := GatewayDB { quota : quota_db; billing : billing_db }.

Definition in_quota {A} (m : tx quota_db A) : tx gateway_db A := tzoom quota (fun q d => GatewayDB q (billing d)) m.
Definition in_billing {A} (m : tx billing_db A) : tx gateway_db A := tzoom billing (fun b d => GatewayDB (quota d) b) m.

(** Endpoints that consume traffic quota but no credit. *)
Definition unbilled (endpoint : string) : bool :=
  bool_decide (endpoint = "models") || bool_decide (endpoint = "messages.count_tokens").

Section requests.
Context (decode_snapshot : string -> option DecodedSnapshot).

(** ** Settlement *)

Definition settle_request_body (requestID : string) (at_ clock : Z) : tx gateway_db unit :=
  in_quota (lock_reservation requestID) ;;
      let* rows := tgets (fun d => usage_requests (billing d)) in
  let* u := tsome "read terminal usage for settlement" (rows !! requestID) in
  tguard (negb (bool_decide (u_state u = "in_progress") || (wrap64 (max_int64 - u_output u) <? u_input u)))
    (ErrConflict "settle request without terminal usage") ;;
  in_quota (settleQuotaTx requestID (wrap64 (u_input u + u_output u)) at_) ;;
  if unbilled (u_endpoint u) then tret tt
  else let* _ := in_billing (settleBillingTx decode_snapshot clock requestID at_) in tret tt.

Definition SettleRequest (clock : Z) (requestID : string) (at_ : Z) (d : gateway_db) : result store_error unit * gateway_db :=
  if bool_decide (requestID = EmptyString) then (Err (ErrInvalid "empty request settlement id"), d) else
  let at_ := if is_zero_time at_ then clock else at_ in
  withTx (settle_request_body requestID at_ clock) d.

(** ** Release *)

(** [ROUND(EXTRACT(EPOCH FROM (at - requested_at)) * 1000)], half away from zero, at least 0. *)
Definition duration_ms (requested at_ : Z) : Z :=
  Z.max 0 ((2 * (at_ - requested) + Millisecond) / (2 * Millisecond)).

Definition cancel_usage (at_ : Z) (u : usage_row) : usage_row :=
  {| u_state := "cancelled"; u_endpoint := u_endpoint u; u_model := u_model u; u_requested_at := u_requested_at u;
     u_completed_at := Some at_; u_http_status := Some 499; u_error_code := Some "reservation_released";
     u_duration_ms := Some (duration_ms (u_requested_at u) at_); u_input := u_input u; u_cached := u_cached u;
     u_cache_write := u_cache_write u; u_cache_write_present := u_cache_write_present u; u_output := u_output u;
     u_actual_tier := u_actual_tier u; u_account := u_account u; u_write5m := u_write5m u; u_write1h := u_write1h u;
     u_ttl_present := u_ttl_present u; u_pricing_tier := u_pricing_tier u; u_context_class := u_context_class u;
     u_fallback_reason := u_fallback_reason u |}.

Definition cancel_usage_row (requestID : string) (at_ : Z) : tx billing_db unit :=
  let* rows := tgets usage_requests in
  match update_rows [requestID] (fun u => bool_decide (u_state u = "in_progress")) (cancel_usage at_) (fun _ => true) rows with
  | None => tfail (ErrInvalid "complete released usage request")
  | Some (n, rows') => tmod (set_usage rows') ;; requireExactlyAffected "complete released usage request" n 1
  end.

Definition release_request_body (requestID : string) (at_ clock : Z) : tx gateway_db unit :=
  in_quota (lock_reservation requestID) ;;
  let* reservation := in_quota (readReservation requestID) in
  match qr_State reservation with
  | Released => tret tt
  | Settled => tfail (ErrConflict "release settled request")
  | Reserved =>
      let* rows := tgets (fun d => usage_requests (billing d)) in
      let* u := tsome "lock usage request for release" (rows !! requestID) in
      tguard (bool_decide (u_state u = "in_progress")) (ErrConflict "release request with terminal usage") ;;
      let at_ := if at_ <? u_requested_at u then u_requested_at u else at_ in
      in_billing (cancel_usage_row requestID at_) ;;
      in_quota (releaseQuotaTx requestID at_) ;;
      if unbilled (u_endpoint u) then tret tt else in_billing (releaseBillingTx clock requestID at_)
  end.

Definition ReleaseRequest (clock : Z) (requestID : string) (at_ : Z) (d : gateway_db) : result store_error unit * gateway_db :=
  if bool_decide (requestID = EmptyString) then (Err (ErrInvalid "empty request release id"), d) else
  let at_ := if is_zero_time at_ then clock else at_ in
  withTx (release_request_body requestID at_ clock) d.

(** ** Maintenance *)

Definition batch_limit (limit : Z) : nat := Z.to_nat (if (limit <=? 0) || (10000 <? limit) then 1000 else limit).

(** The loop over the listed requests: conflicts and vanished rows are skipped,
    any other error ends the batch. *)
Fixpoint repair_loop {A} (op : A -> gateway_db -> result store_error unit * gateway_db) (batch : list A) (done_ : Z) (d : gateway_db)
  : (Z * option store_error) * gateway_db :=
  match batch with
  | [] => ((done_, None), d)
  | x :: rest =>
      match op x d with
      | (Ok _, d') => repair_loop op rest (done_ + 1) d'
      | (Err e, d') => if is_conflict_or_missing e then repair_loop op rest done_ d' else ((done_, Some e), d')
      end
  end.

(** A stale reservation: open, created before the cutoff, without a live lease,
    and without terminal usage. *)
Definition stale (before now : Z) (d : gateway_db) (kv : string * reservation_row) : bool :=
  bool_decide (state kv.2 = Reserved) && (created_at kv.2 <? before) &&
  match concurrency_leases (quota d) !! kv.1 with Some l => lease_expires_at l <=? now | None => true end &&
  match usage_requests (billing d) !! kv.1 with Some u => bool_decide (u_state u = "in_progress") | None => true end.

Definition created_le (x y : string * reservation_row) : Prop := created_at x.2 <= created_at y.2.
#[local] Instance created_le_dec : RelDecision created_le.
Proof. intros x y. unfold created_le. apply _. Defined.

Definition stale_batch (before now limit : Z) (d : gateway_db) : list string :=
  (take (batch_limit limit)
     (merge_sort created_le (map_to_list (filter (fun kv => stale before now d kv = true) (quota_reservations (quota d)))))).*1.

(** The stale row is released with its usage when it has one.  [usageState] was
    read by the listing query. *)
Definition release_stale (clock : Z) (usageState : string -> string) (id : string) (d : gateway_db) : result store_error unit * gateway_db :=
  if bool_decide (usageState id = EmptyString) then
    let '(r, q) := ReleaseQuota clock id clock (quota d) in (r, GatewayDB q (billing d))
  else ReleaseRequest clock id clock d.

Definition ReleaseStaleQuotaReservations (clock now before limit : Z) (d : gateway_db) : (Z * option store_error) * gateway_db :=
  let usageState id := match usage_requests (billing d) !! id with Some u => u_state u | None => EmptyString end in
  repair_loop (release_stale clock usageState) (stale_batch before now limit d) 0 d.

(** Terminal usage whose quota or billing reservation is still open. *)
Definition unsettled (d : gateway_db) (kv : string * reservation_row) : bool :=
  match usage_requests (billing d) !! kv.1 with
  | Some u => terminal u &&
      (bool_decide (state kv.2 = Reserved) ||
       match billing_reservations (billing d) !! kv.1 with Some b => bool_decide (br_state b = Reserved) | None => false end)
  | None => false
  end.

(** [ORDER BY u.completed_at, q.created_at]; a terminal row has a completion time. *)
Definition completed_of (d : gateway_db) (id : string) : Z :=
  match usage_requests (billing d) !! id with Some u => default 0 (u_completed_at u) | None => 0 end.
Definition unsettled_le (d : gateway_db) (x y : string * reservation_row) : Prop :=
  completed_of d x.1 < completed_of d y.1 \/
  (completed_of d x.1 = completed_of d y.1 /\ created_at x.2 <= created_at y.2).
#[local] Instance unsettled_le_dec d : RelDecision (unsettled_le d).
Proof. intros x y. unfold unsettled_le. apply _. Defined.

Definition unsettled_batch (limit : Z) (d : gateway_db) : list string :=
  (take (batch_limit limit)
     (merge_sort (unsettled_le d) (map_to_list (filter (fun kv => unsettled d kv = true) (quota_reservations (quota d)))))).*1.

Definition RetryUnsettledRequests (clock limit : Z) (d : gateway_db) : (Z * option store_error) * gateway_db :=
  repair_loop (fun id => SettleRequest clock id clock) (unsettled_batch limit d) 0 d.

(** The same for billing alone, with the zero time. *)
Definition unsettled_billing (d : gateway_db) (kv : string * billing_reservation) : bool :=
  bool_decide (br_state kv.2 = Reserved) &&
  match usage_requests (billing d) !! kv.1 with Some u => terminal u | None => false end.
Definition billing_le (d : gateway_db) (x y : string * billing_reservation) : Prop :=
  completed_of d x.1 < completed_of d y.1 \/
  (completed_of d x.1 = completed_of d y.1 /\ br_created_at x.2 <= br_created_at y.2).
#[local] Instance billing_le_dec d : RelDecision (billing_le d).
Proof. intros x y. unfold billing_le. apply _. Defined.
Definition settle_billing_only (clock : Z) (id : string) (d : gateway_db) : result store_error unit * gateway_db :=
  let '(r, b) := SettleBilling decode_snapshot clock id 0 (billing d) in
  (match r with Ok _ => Ok tt | Err e => Err e end, GatewayDB (quota d) b).
Definition RetryUnsettledBilling (clock limit : Z) (d : gateway_db) : (Z * option store_error) * gateway_db :=
  let batch := (take (batch_limit limit)
    (merge_sort (billing_le d) (map_to_list (filter (fun kv => unsettled_billing d kv = true) (billing_reservations (billing d)))))).*1 in
  repair_loop (settle_billing_only clock) batch 0 d.

End requests.

(** ** What a committed transaction did *)

Lemma in_quota_Ok {A} (m : tx quota_db A) d a d' :
  in_quota m d = Ok (a, d') <-> exists q, m (quota d) = Ok (a, q) /\ d' = GatewayDB q (billing d).
Proof.
  unfold in_quota, tzoom. destruct (m (quota d)) as [[x q]|e]; split; try (intros [? [[= <- <-] ->]]); try done.
  intros [= <- <-]. eauto.
Qed.

Lemma in_billing_Ok {A} (m : tx billing_db A) d a d' :
  in_billing m d = Ok (a, d') <-> exists b, m (billing d) = Ok (a, b) /\ d' = GatewayDB (quota d) b.
Proof.
  unfold in_billing, tzoom. destruct (m (billing d)) as [[x q]|e]; split; try (intros [? [[= <- <-] ->]]); try done.
  intros [= <- <-]. eauto.
Qed.

(** The rows a quota settlement or release leaves. *)
Lemma settle_quota_rows id n at_ q q' :
  quota_inv q -> 0 <= n -> (lock_reservation id ;; settleQuotaTx id n at_) q = Ok (tt, q') ->
  quota_inv q' /\ exists r r', quota_reservations q !! id = Some r /\ state r <> Released /\ state r' = Settled /\
    quota_reservations q' = <[id := r']> (quota_reservations q).
Proof.
  intros Hq Hn H. split; [by eapply settle_inv|].
  destruct (quota_reservations q !! id) as [r|] eqn:Hr; [|by rewrite lock_reservation_bind, Hr in H]. destruct (state r) eqn:Hs.
  - destruct (settle_eq q id r n at_ Hq Hr Hs Hn) as (a & b & _ & _ & E). rewrite E in H. destruct (_ && _); [|done].
    injection H as <-. exists r, (settled_row n at_ r). rewrite Hs. done.
  - rewrite (closed_settle q id r n at_ Hr) in H by congruence. rewrite bool_decide_true in H by done. destruct (bool_decide _); [|done].
    injection H as <-. exists r, r. rewrite Hs. split; [done|]. split; [done|]. split; [done|]. unfold with_locks. cbn. by rewrite insert_id.
  - rewrite (closed_settle q id r n at_ Hr) in H by congruence. by rewrite bool_decide_false in H by congruence.
Qed.

Lemma release_quota_rows id at_ q q' :
  quota_inv q -> (lock_reservation id ;; releaseQuotaTx id at_) q = Ok (tt, q') ->
  quota_inv q' /\ exists r r', quota_reservations q !! id = Some r /\ state r <> Settled /\ state r' = Released /\
    quota_reservations q' = <[id := r']> (quota_reservations q).
Proof.
  intros Hq H. split; [by eapply release_inv|].
  destruct (quota_reservations q !! id) as [r|] eqn:Hr; [|by rewrite lock_reservation_bind, Hr in H]. destruct (state r) eqn:Hs.
  - destruct (release_eq q id r at_ Hq Hr Hs) as (a & b & _ & _ & _ & _ & E). rewrite E in H.
    injection H as <-. exists r, (released_row at_ r). rewrite Hs. done.
  - rewrite (closed_release q id r at_ Hr) in H by congruence. by rewrite bool_decide_true in H by done.
  - rewrite (closed_release q id r at_ Hr) in H by congruence. rewrite bool_decide_false in H by congruence.
    injection H as <-. exists r, r. rewrite Hs. split; [done|]. split; [done|]. split; [done|]. unfold with_locks. cbn. by rewrite insert_id.
Qed.

(** The rows a billing settlement or release leaves. *)
Lemma settle_billing_rows decode clock id at_ d row d' :
  money_inv d -> columns_ok d -> settleBillingTx decode clock id at_ d = Ok (row, d') ->
  money_inv d' /\ br_state row = Settled /\ is_Some (billing_reservations d !! id) /\
  billing_reservations d' = <[id := row]> (billing_reservations d) /\ usage_kept (usage_requests d) (usage_requests d').
Proof.
  intros M C H. split; [by eapply settle_tx_inv|]. destruct (billing_reservations d !! id) as [pre|] eqn:Hpre.
  - destruct (br_state pre) eqn:Hs.
    + destruct (settle_Ok decode clock id at_ d pre row d' M Hpre Hs (col_usage d C id) H) as (r & u & tk & dc & n & sh & rem & g & k & src & acc & e
        & _ & _ & _ & _ & _ & _ & -> & _ & _ & Hres & _ & _ & _ & _ & _ & _ & _ & _ & _ & _ & Hk). eauto.
    + unfold settleBillingTx in H. rewrite tguard_bind in H. destruct (negb _); [|done]. rewrite tgets_bind, Hpre in H. unfold tsome in H.
      rewrite tret_bind in H. apply settle_prefix_Ok in H as [[? ?] H]. rewrite Hs in H. injection H as <- <-.
      split; [done|]. split; [eauto|]. split; [by rewrite insert_id|apply usage_kept_refl].
    + unfold settleBillingTx in H. rewrite tguard_bind in H. destruct (negb _); [|done]. rewrite tgets_bind, Hpre in H. unfold tsome in H.
      rewrite tret_bind in H. apply settle_prefix_Ok in H as [[? ?] H]. by rewrite Hs in H.
  - unfold settleBillingTx in H. rewrite tguard_bind in H. destruct (negb _); [|done]. by rewrite tgets_bind, Hpre in H.
Qed.

Lemma release_billing_rows clock id at_ d d' :
  money_inv d -> releaseBillingTx clock id at_ d = Ok (tt, d') ->
  money_inv d' /\ exists r row, billing_reservations d !! id = Some r /\ br_state r <> Settled /\ br_state row = Released /\
    billing_reservations d' = <[id := row]> (billing_reservations d) /\ usage_requests d' = usage_requests d.
Proof.
  intros M H. split; [by eapply release_tx_inv|]. unfold releaseBillingTx in H. rewrite tguard_bind in H. destruct (negb _); [|done].
  rewrite tgets_bind in H. destruct (billing_reservations d !! id) as [r|] eqn:Hr; [|done]. unfold tsome in H. rewrite tret_bind in H.
  destruct (br_state r) eqn:Hs; [|done|].
  - cbn [update_rows] in H. rewrite Hr, bool_decide_true in H by done. destruct (reservation_row_check _); [|done]. injection H as <-.
    eexists r, _. rewrite Hs. split; [done|]. split; [done|]. split; [|split; reflexivity]. done.
  - injection H as <-. exists r, r. rewrite Hs. split; [done|]. split; [done|]. split; [done|]. by rewrite insert_id.
Qed.

Section committed_requests.
Context (decode : string -> option DecodedSnapshot).

Definition usage_total (u : usage_row) : Z := wrap64 (u_input u + u_output u).

Lemma settle_request_Ok id at_ clock d d' :
  settle_request_body decode id at_ clock d = Ok (tt, d') ->
  exists u, usage_requests (billing d) !! id = Some u /\ terminal u = true /\ u_input u <= wrap64 (max_int64 - u_output u) /\
    (lock_reservation id ;; settleQuotaTx id (usage_total u) at_) (quota d) = Ok (tt, quota d') /\
    (if unbilled (u_endpoint u) then billing d' = billing d
     else exists row, settleBillingTx decode clock id at_ (billing d) = Ok (row, billing d')).
Proof.
  unfold settle_request_body. intros H. inv_tx H. destruct a. apply in_quota_Ok in Ht as (q & Hq & ->). rewrite tgets_bind in H. cbn [billing] in H.
  inv_tx H. apply tsome_Ok in Ht as [Hu ->]. inv_tx H. apply tguard_Ok in Ht as [Hg ->]. inv_tx H. destruct a1.
  apply in_quota_Ok in Ht as (q' & Hq' & ->). cbn [quota billing] in *. apply negb_true_iff, orb_false_iff in Hg as [Hg1 Hg2].
  apply Z.ltb_ge in Hg2. exists a. split; [done|]. split; [unfold terminal; by rewrite Hg1|]. split; [done|].
  destruct (unbilled (u_endpoint a)).
  - injection H as <-. cbn [quota billing]. split; [|done]. unfold tbind. by rewrite Hq.
  - inv_tx H. injection H as <-. apply in_billing_Ok in Ht as (b & Hb & ->). cbn [quota billing] in *. split; [|eauto]. unfold tbind. by rewrite Hq.
Qed.

Lemma release_request_Ok id at_ clock d d' :
  release_request_body id at_ clock d = Ok (tt, d') ->
  exists r, quota_reservations (quota d) !! id = Some r /\ state r <> Settled /\
  ((state r = Released /\ d' = GatewayDB (with_locks r (quota d)) (billing d)) \/
   (state r = Reserved /\ exists u, usage_requests (billing d) !! id = Some u /\ u_state u = "in_progress" /\
      let at' := if at_ <? u_requested_at u then u_requested_at u else at_ in
      let b := set_usage (<[id := cancel_usage at' u]> (usage_requests (billing d))) (billing d) in
      (lock_reservation id ;; releaseQuotaTx id at') (quota d) = Ok (tt, quota d') /\
      if unbilled (u_endpoint u) then billing d' = b else releaseBillingTx clock id at' b = Ok (tt, billing d'))).
Proof.
  unfold release_request_body. intros H. unfold tbind at 1 in H. unfold in_quota at 1, tzoom in H.
  destruct (lock_reservation id (quota d)) as [[[] q]|e] eqn:El; [|done].
  pose proof (lock_reservation_bind id (fun _ => tret tt) (quota d)) as E. unfold tbind in E. rewrite El in E. unfold tret in E.
  destruct (quota_reservations (quota d) !! id) as [r|] eqn:Hr; [|done]. injection E as ->. exists r. split; [done|].
  inv_tx H. apply in_quota_Ok in Ht as (q & Hq & ->). cbn [quota billing] in *. unfold readReservation in Hq. rewrite tgets_bind in Hq.
  unfold with_locks in Hq at 1. cbn [set_locks quota_reservations] in Hq. rewrite Hr in Hq. injection Hq as <- <-. cbn [qr_State] in H.
  destruct (state r) eqn:Hs; [|done|injection H as <-; auto]. split; [done|]. right. split; [done|]. rewrite tgets_bind in H. cbn [billing] in H.
  inv_tx H. apply tsome_Ok in Ht as [Hu ->]. inv_tx H. apply tguard_Ok in Ht as [Hg ->]. apply bool_decide_eq_true in Hg.
  exists a. split; [done|]. split; [done|]. cbv zeta. set (at' := if at_ <? u_requested_at a then u_requested_at a else at_) in *.
  set (b := set_usage (<[id := cancel_usage at' a]> (usage_requests (billing d))) (billing d)). inv_tx H. apply in_billing_Ok in Ht as (b1 & Hb1 & ->). cbn [quota billing] in *.
  assert (b1 = b) as ->.
  { unfold cancel_usage_row in Hb1. rewrite tgets_bind in Hb1. cbn [update_rows] in Hb1. rewrite Hu, bool_decide_true in Hb1 by done.
    by injection Hb1 as _ <-. }
  inv_tx H. destruct a2. apply in_quota_Ok in Ht as (q2 & Hq2 & ->). cbn [quota billing] in *.
  destruct (unbilled (u_endpoint a)).
  - injection H as <-. cbn [quota billing]. split; [|done]. unfold tbind. by rewrite El.
  - apply in_billing_Ok in H as (b2 & Hb2 & ->). cbn [quota billing] in *. split; [|done]. unfold tbind. by rewrite El.
Qed.
End committed_requests.

(** ** Quota and billing in step *)

(** The two reservations of a request are in the same state; an open billing
    reservation has its quota reservation and a billed usage row, and an open
    quota reservation of a billed request has its billing reservation. *)
Record gateway_inv (d : gateway_db) : Prop := {
  gi_quota : quota_inv (quota d);
  gi_money : money_inv (billing d);
  gi_same : forall id q b, quota_reservations (quota d) !! id = Some q -> billing_reservations (billing d) !! id = Some b ->
    state q = br_state b;
  gi_open_billing : forall id b, billing_reservations (billing d) !! id = Some b -> br_state b = Reserved ->
    is_Some (quota_reservations (quota d) !! id) /\
    exists u, usage_requests (billing d) !! id = Some u /\ unbilled (u_endpoint u) = false;
  gi_open_quota : forall id q u, quota_reservations (quota d) !! id = Some q -> state q = Reserved ->
    usage_requests (billing d) !! id = Some u -> unbilled (u_endpoint u) = false -> is_Some (billing_reservations (billing d) !! id);
}.

(** Changing the tables of one request, keeping its two rows in step. *)
Lemma gateway_inv_close d q' b' id :
  gateway_inv d -> quota_inv q' -> money_inv b' ->
  (exists r r', quota_reservations (quota d) !! id = Some r /\ state r' <> Reserved /\
     quota_reservations q' = <[id := r']> (quota_reservations (quota d)) /\
     match billing_reservations b' !! id with Some b => br_state b = state r' | None => True end) ->
  (forall i, i <> id -> billing_reservations b' !! i = billing_reservations (billing d) !! i) ->
  (forall i u', usage_requests b' !! i = Some u' -> exists u, usage_requests (billing d) !! i = Some u /\ u_endpoint u' = u_endpoint u) ->
  (forall i, is_Some (usage_requests (billing d) !! i) -> is_Some (usage_requests b' !! i)) ->
  gateway_inv (GatewayDB q' b').
Proof.
  intros [G1 G2 G3 G4 G5] Hq Hb (r & r' & Hr & Hs' & Hrows & Hst) Hoth Hus Hdom. split; cbn [quota billing]; rewrite ?Hrows; try done.
  - intros i q b. destruct (decide (i = id)) as [->|Hi].
    + rewrite lookup_insert_eq. intros [= <-] Hb'. by rewrite Hb' in Hst.
    + rewrite lookup_insert_ne, Hoth by done. apply G3.
  - intros i b Hi Hrb. destruct (decide (i = id)) as [->|Hne]; [rewrite Hi in Hst; congruence|].
    rewrite lookup_insert_ne by done. rewrite Hoth in Hi by done. destruct (G4 i b Hi Hrb) as [Hq0 (u & Hu & Hub)]. split; [done|].
    destruct (Hdom i ltac:(by rewrite Hu)) as [u' Hu']. exists u'. split; [done|]. destruct (Hus i u' Hu') as (u0 & Hu0 & ->). congruence.
  - intros i q u Hi Hqs Hu Hub. destruct (decide (i = id)) as [->|Hne].
    + rewrite lookup_insert_eq in Hi. by injection Hi as <-.
    + rewrite lookup_insert_ne in Hi by done. rewrite Hoth by done. destruct (Hus i u Hu) as (u0 & Hu0 & E). rewrite E in Hub. by eapply G5.
Qed.

Lemma usage_kept_back m m' i u' : usage_kept m m' -> m' !! i = Some u' -> exists u, m !! i = Some u /\ u_endpoint u' = u_endpoint u.
Proof. intros H Hu. specialize (H i). rewrite Hu in H. inversion H as [x y [_ E] E1 E2|]; subst. eauto. Qed.
Lemma usage_kept_dom m m' i : usage_kept m m' -> is_Some (m !! i) -> is_Some (m' !! i).
Proof. intros H [u Hu]. specialize (H i). rewrite Hu in H. inversion H; subst. eauto. Qed.

(** What the CHECKs of [usage_requests] add to the column types. *)
Record gateway_columns (d : gateway_db) : Prop := {
  gc_billing : columns_ok (billing d);
  gc_usage : forall id u, usage_requests (billing d) !! id = Some u -> 0 <= u_input u <= max_int64 /\ 0 <= u_output u <= max_int64;
}.

Lemma usage_total_exact d id u :
  gateway_columns d -> usage_requests (billing d) !! id = Some u -> u_input u <= wrap64 (max_int64 - u_output u) ->
  usage_total u = u_input u + u_output u /\ 0 <= usage_total u <= max_int64.
Proof.
  intros [_ C] Hu Hle. destruct (C id u Hu) as [Hi Ho]. unfold usage_total.
  rewrite (wrap64_id (max_int64 - u_output u)) in Hle by (unfold is_int64, min_int64, max_int64 in *; lia).
  rewrite wrap64_id by (unfold is_int64, min_int64, max_int64 in *; lia). lia.
Qed.

Section step_requests.
Context (fingerprint : list string -> string) (session_of : string -> string -> bool) (inet_ok : string -> bool)
  (decode : string -> option DecodedSnapshot).

Lemma settle_request_inv id at_ clock d d' :
  gateway_inv d -> gateway_columns d -> settle_request_body decode id at_ clock d = Ok (tt, d') -> gateway_inv d'.
Proof.
  intros G C H. apply settle_request_Ok in H as (u & Hu & Ht & Hle & Hq & Hb). destruct G as [G1 G2 G3 G4 G5] eqn:EG.
  destruct (usage_total_exact d id u C Hu Hle) as [_ Hn].
  apply settle_quota_rows in Hq as (Hq' & r & r' & Hr & Hsr & Hsr' & Hrows); [|done|lia].
  destruct d' as [q' b']. cbn [quota billing] in *. destruct (unbilled (u_endpoint u)) eqn:Eu.
  - subst b'. apply (gateway_inv_close d q' (billing d) id G Hq' G2); [|done|eauto|done].
    exists r, r'. split; [done|]. split; [congruence|]. split; [done|]. destruct (billing_reservations (billing d) !! id) as [b|] eqn:Eb; [|done].
    pose proof (G3 id r b Hr Eb) as E. destruct (state r) eqn:Es; [|congruence|done].
    destruct (G4 id b Eb) as [_ (u0 & Hu0 & Hub)]; [congruence|]. rewrite Hu in Hu0. congruence.
  - destruct Hb as (row & Hb). apply settle_billing_rows in Hb as (Hm & Hrow & _ & Hbr & Hk); [|done|apply C].
    apply (gateway_inv_close d q' b' id G Hq' Hm).
    + exists r, r'. split; [done|]. split; [congruence|]. split; [done|]. rewrite Hbr, lookup_insert_eq. congruence.
    + intros i Hi. by rewrite Hbr, lookup_insert_ne.
    + intros i u'. by apply usage_kept_back.
    + intros i. by apply usage_kept_dom.
Qed.

Lemma money_inv_cancel b id u' : money_inv b -> money_inv (set_usage (<[id := u']> (usage_requests b)) b).
Proof. apply money_inv_usage. Qed.

Lemma release_request_inv id at_ clock d d' :
  gateway_inv d -> release_request_body id at_ clock d = Ok (tt, d') -> gateway_inv d'.
Proof.
  intros G H. pose proof G as [G1 G2 G3 G4 G5].
  apply release_request_Ok in H as (r & Hr & Hns & [[Hs ->]|[Hs (u & Hu & Hst & Hq & Hb)]]).
  { split; cbn [quota billing]; try done. by apply with_locks_inv. }
  set (at' := if at_ <? u_requested_at u then u_requested_at u else at_) in *.
  apply release_quota_rows in Hq as (Hq' & r0 & r' & Hr0 & _ & Hsr' & Hrows); [|done]. rewrite Hr in Hr0. injection Hr0 as <-.
  destruct d' as [q' b']. cbn [quota billing] in *.
  set (b := set_usage (<[id := cancel_usage at' u]> (usage_requests (billing d))) (billing d)) in *.
  assert (Mb : money_inv b) by (by apply money_inv_cancel).
  assert (Hback : forall i x, usage_requests b !! i = Some x -> exists y, usage_requests (billing d) !! i = Some y /\ u_endpoint x = u_endpoint y).
  { intros i x. subst b. btables. intros [[<- <-]|[_ Hx]]%lookup_insert_Some; eauto. }
  assert (Hdom : forall i, is_Some (usage_requests (billing d) !! i) -> is_Some (usage_requests b !! i)).
  { intros i Hi. subst b. btables. by apply lookup_insert_is_Some'; right. }
  destruct (unbilled (u_endpoint u)) eqn:Eu.
  - subst b'. apply (gateway_inv_close d q' b id G Hq' Mb); [|done|done|done].
    exists r, r'. split; [done|]. split; [congruence|]. split; [done|]. subst b. btables.
    destruct (billing_reservations (billing d) !! id) as [x|] eqn:Eb; [|done].
    destruct (G4 id x Eb) as [_ (u0 & Hu0 & Hub)]; [rewrite <- (G3 id r x Hr Eb); done|]. rewrite Hu in Hu0. congruence.
  - apply release_billing_rows in Hb as (Hm & x & row & _ & _ & Hrow & Hbr & Hus); [|done].
    apply (gateway_inv_close d q' b' id G Hq' Hm).
    + exists r, r'. split; [done|]. split; [congruence|]. split; [done|]. rewrite Hbr, lookup_insert_eq. congruence.
    + intros i Hi. by rewrite Hbr, lookup_insert_ne.
    + rewrite Hus. done.
    + rewrite Hus. done.
Qed.

(** The quota release of a stale reservation that has no usage row. *)
Lemma release_orphan_inv clock id at_ d :
  gateway_inv d -> usage_requests (billing d) !! id = None ->
  gateway_inv (GatewayDB (ReleaseQuota clock id at_ (quota d)).2 (billing d)).
Proof.
  intros G Hu. pose proof G as [G1 G2 G3 G4 G5]. unfold ReleaseQuota. destruct (bool_decide _); [by destruct d|]. unfold withTx.
  set (at' := if is_zero_time at_ then clock else at_).
  destruct ((lock_reservation id ;; releaseQuotaTx id at') (quota d)) as [[[] q']|] eqn:E; [|by destruct d]. cbn.
  apply release_quota_rows in E as (Hq' & r & r' & Hr & Hns & Hs' & Hrows); [|done].
  apply (gateway_inv_close d q' (billing d) id G Hq' G2); [|done|eauto|done].
    exists r, r'. split; [done|]. split; [congruence|]. split; [done|]. destruct (billing_reservations (billing d) !! id) as [b|] eqn:Eb; [|done].
  pose proof (G3 id r b Hr Eb) as E. destruct (state r) eqn:Es; [|congruence|congruence].
  destruct (G4 id b Eb) as [_ (u0 & Hu0 & _)]; congruence.
Qed.
End step_requests.

(** ** Runs of the system *)

Section runs.
Context (decode : string -> option DecodedSnapshot).

(** What an admission writes besides the quota rows: the usage row and, on a
    billed endpoint, an open billing reservation, both for a new request id. *)
Record admission_writes (id : string) (b b' : billing_db) : Prop := {
  aw_other : other_writes b b';
  aw_fresh : usage_requests b !! id = None /\ billing_reservations b !! id = None;
  aw_rows : exists u, usage_requests b' = <[id := u]> (usage_requests b) /\
    (if unbilled (u_endpoint u) then billing_reservations b' = billing_reservations b
     else exists row, billing_reservations b' = <[id := row]> (billing_reservations b) /\ br_state row = Reserved);
}.

(** Completing usage rows, and deleting those of closed requests. *)
Definition usage_writes (b : billing_db) (us : gmap string usage_row) : Prop :=
  (forall i u', us !! i = Some u' -> exists u, usage_requests b !! i = Some u /\ u_endpoint u' = u_endpoint u) /\
  (forall i row, billing_reservations b !! i = Some row -> br_state row = Reserved -> is_Some (us !! i)).

Definition billing_open (b : billing_db) (id : string) : bool :=
  match billing_reservations b !! id with Some row => bool_decide (br_state row = Reserved) | None => false end.

Inductive request_step : gateway_db -> gateway_db -> Prop :=
| rs_admit clock p r q' b' d : ReserveQuota clock p (quota d) = (Ok r, q') -> admission_writes (qr_RequestID r) (billing d) b' ->
    request_step d (GatewayDB q' b')
| rs_usage us d : usage_writes (billing d) us -> request_step d (GatewayDB (quota d) (set_usage us (billing d)))
| rs_settle clock id at_ d : request_step d (SettleRequest decode clock id at_ d).2
| rs_release clock id at_ d : request_step d (ReleaseRequest clock id at_ d).2
| rs_release_orphan clock id at_ d : usage_requests (billing d) !! id = None ->
    request_step d (GatewayDB (ReleaseQuota clock id at_ (quota d)).2 (billing d))
| rs_renew clock id at_ ttl d : request_step d (GatewayDB (RenewQuotaLease clock id at_ ttl (quota d)).2 (billing d))
| rs_retention before d :
    (forall id r, quota_reservations (quota d) !! id = Some r -> state r = Reserved -> civil_day before <= quota_day r) ->
    request_step d (GatewayDB (DeleteQuotaStateBefore (billing_open (billing d)) before (quota d)) (billing d))
| rs_balance b' d : money_inv b' -> billing_reservations b' = billing_reservations (billing d) ->
    usage_requests b' = usage_requests (billing d) -> request_step d (GatewayDB (quota d) b').

Lemma renew_rows clock id at_ ttl q : quota_reservations (RenewQuotaLease clock id at_ ttl q).2 = quota_reservations q.
Proof.
  unfold RenewQuotaLease. destruct (_ || _); [done|]. unfold withTx. rewrite !tgets_bind.
  destruct (concurrency_leases q !! id); [|done]. destruct (quota_reservations q !! id); [|done]. destruct (_ && _); [|done].
  rewrite tguard_bind. by destruct (lease_check _).
Qed.

Lemma admit_inv clock p r q' b' d :
  gateway_inv d -> ReserveQuota clock p (quota d) = (Ok r, q') -> admission_writes (qr_RequestID r) (billing d) b' ->
  gateway_inv (GatewayDB q' b').
Proof.
  intros [G1 G2 G3 G4 G5] Hq [O [Hfu Hfb] (u & Hus & Hbr)]. unfold ReserveQuota in Hq.
  destruct (normalizeReserveQuota clock p) as [n|] eqn:En; [|done]. apply withTx_commit in Hq. apply normalize_Ok in En as (Httl & _).
  apply reserve_Ok in Hq as (_ & Hf & Hi & -> & ->); [|done|lia]. cbn [qr_RequestID reservation_of] in *. set (id := rq_RequestID n) in *.
  assert (Hrows : quota_reservations (admitted n (quota d)) = <[id := new_reservation n]> (quota_reservations (quota d))) by done.
  split; cbn [quota billing]; rewrite ?Hrows.
  - apply admitted_inv; auto; lia.
  - by eapply other_inv.
  - intros i q b. destruct (decide (i = id)) as [->|Hne].
    + rewrite lookup_insert_eq. intros [= <-] Hb. destruct (unbilled _); [rewrite Hbr in Hb; congruence|].
      destruct Hbr as (row & E & Hrow). rewrite E, lookup_insert_eq in Hb. injection Hb as <-. by rewrite Hrow.
    + rewrite lookup_insert_ne by done. intros Hq Hb. destruct (unbilled _); [rewrite Hbr in Hb; by eapply G3|].
      destruct Hbr as (row & E & Hrow). rewrite E, lookup_insert_ne in Hb by done. by eapply G3.
  - intros i b Hb Hst. destruct (decide (i = id)) as [->|Hne].
    + rewrite lookup_insert_eq. split; [done|]. exists u. rewrite Hus, lookup_insert_eq. split; [done|].
      destruct (unbilled (u_endpoint u)); [rewrite Hbr in Hb; congruence|done].
    + rewrite lookup_insert_ne by done. rewrite Hus, lookup_insert_ne by done. apply (G4 i b); [|done].
      destruct (unbilled (u_endpoint u)); [by rewrite Hbr in Hb|]. destruct Hbr as (row & E & _). by rewrite E, lookup_insert_ne in Hb.
  - intros i q x Hq Hst Hx Hub. rewrite Hus in Hx. destruct (decide (i = id)) as [->|Hne].
    + rewrite lookup_insert_eq in Hx. injection Hx as <-. rewrite Hub in Hbr. destruct Hbr as (row & E & _). rewrite E, lookup_insert_eq. eauto.
    + rewrite lookup_insert_ne in Hx by done. rewrite lookup_insert_ne in Hq by done. destruct (G5 i q x Hq Hst Hx Hub) as [b Hb].
      exists b. by apply (ow_old _ _ O).
Qed.

Lemma retention_step_inv before d :
  gateway_inv d -> (forall id r, quota_reservations (quota d) !! id = Some r -> state r = Reserved -> civil_day before <= quota_day r) ->
  gateway_inv (GatewayDB (DeleteQuotaStateBefore (billing_open (billing d)) before (quota d)) (billing d)).
Proof.
  intros [G1 G2 G3 G4 G5] Hday. set (q' := DeleteQuotaStateBefore _ before (quota d)).
  assert (Hsub : forall i q, quota_reservations q' !! i = Some q -> quota_reservations (quota d) !! i = Some q).
  { intros i q Hi. by apply map_lookup_filter_Some in Hi as [? _]. }
  split; cbn [quota billing]; eauto.
  - by apply retention_inv.
  - intros i b Hb Hs. destruct (G4 i b Hb Hs) as [[r Hr] Hu]. split; [|done]. exists r. apply map_lookup_filter_Some. split; [done|].
    unfold expired_reservation, billing_open. cbn. rewrite Hb, (bool_decide_true (br_state b = Reserved)) by done. cbn [negb]. by rewrite andb_false_r.
Qed.

Lemma request_step_inv d d' : gateway_columns d -> request_step d d' -> gateway_inv d -> gateway_inv d'.
Proof.
  intros C S G. destruct S as [clock p r q' b' d Hq Hw|us d [H1 H2]|clock id at_ d|clock id at_ d|clock id at_ d Hu|clock id at_ ttl d|before d Hd|b' d Hm Hb Hu].
  - by eapply admit_inv.
  - destruct G as [G1 G2 G3 G4 G5]. split; cbn [quota billing]; btables; try done.
    + by apply money_inv_usage.
    + intros i b Hb Hs. destruct (G4 i b Hb Hs) as [Hq (u & Hu & Hub)]. split; [done|]. destruct (H2 i b Hb Hs) as [u' Hu']. exists u'.
      split; [done|]. destruct (H1 i u' Hu') as (u0 & Hu0 & ->). congruence.
    + intros i q u Hq Hs Hu Hub. destruct (H1 i u Hu) as (u0 & Hu0 & E). rewrite E in Hub. by eapply G5.
  - unfold SettleRequest. destruct (bool_decide _); [done|]. apply withTx_preserves; [|done]. intros [] d' H. by eapply settle_request_inv.
  - unfold ReleaseRequest. destruct (bool_decide _); [done|]. apply withTx_preserves; [|done]. intros [] d' H. by eapply release_request_inv.
  - by apply release_orphan_inv.
  - destruct G as [G1 G2 G3 G4 G5]. split; cbn [quota billing]; rewrite ?renew_rows; try done. by apply renew_inv.
  - by apply retention_step_inv.
  - destruct G as [G1 G2 G3 G4 G5]. split; cbn [quota billing]; rewrite ?Hb, ?Hu; done.
Qed.

(** Nothing reserved yet. *)
Definition gateway_opening (d : gateway_db) : Prop :=
  quota_counters (quota d) = ∅ /\ quota_rate_windows (quota d) = ∅ /\ quota_reservations (quota d) = ∅ /\
  concurrency_leases (quota d) = ∅ /\ opening (billing d) /\ usage_requests (billing d) = ∅.

Lemma gateway_opening_inv d : gateway_opening d -> gateway_inv d.
Proof.
  intros (E1 & E2 & E3 & E4 & O & E5). pose proof (opening_inv _ O) as M. destruct O as (_ & _ & E6 & _). split; try done.
  - destruct (quota d). cbn in *. subst. apply empty_quota_inv.
  - intros id q b. by rewrite E3, lookup_empty.
  - intros id b. by rewrite E6, lookup_empty.
  - intros id q u. by rewrite E3, lookup_empty.
Qed.

(** [C3] Quota and billing stay in step.  In every state reached from an empty
    system by admissions, usage updates, settlements, releases (of requests and
    of orphaned quota), lease renewals, retention and balance writes, the quota
    and billing reservations of a request are in the same state, an open billing
    reservation still has its quota reservation and its usage row, a request
    that is open in the quota tables and billed has its billing reservation, and
    the invariants of both sets of tables hold. *)
Theorem requests_in_step d0 d :
  gateway_opening d0 -> rtc (fun x y => gateway_columns x /\ request_step x y) d0 d ->
  gateway_inv d /\
  (forall id q b, quota_reservations (quota d) !! id = Some q -> billing_reservations (billing d) !! id = Some b -> state q = br_state b).
Proof.
  intros O H. assert (G : gateway_inv d).
  { apply gateway_opening_inv in O. induction H as [|x y z [C S] _ IH]; [done|]. by apply IH, (request_step_inv x). }
  split; [done|]. apply (gi_same d G).
Qed.

(** ** The repair loops *)

Lemma repair_loop_rtc {A} (op : A -> gateway_db -> result store_error unit * gateway_db) (R : gateway_db -> gateway_db -> Prop)
  (P : gateway_db -> Prop) batch n d :
  (forall x d, x ∈ batch -> P d -> R d (op x d).2 /\ P (op x d).2) -> P d -> rtc R d (repair_loop op batch n d).2.
Proof.
  revert n d. induction batch as [|x batch IH]; intros n d H HP; [done|]. cbn [repair_loop].
  destruct (H x d ltac:(left) HP) as [HR HP']. destruct (op x d) as [[[]|e] d'] eqn:E; cbn in HR, HP'.
  - eapply rtc_l; [exact HR|]. apply IH; [|done]. intros y s Hy. apply H. by right.
  - destruct (is_conflict_or_missing e); [|by apply rtc_once]. eapply rtc_l; [exact HR|]. apply IH; [|done]. intros y s Hy. apply H. by right.
Qed.

Lemma repair_loop_count {A} (op : A -> gateway_db -> result store_error unit * gateway_db) batch n d :
  n <= (repair_loop op batch n d).1.1 <= n + Z.of_nat (length batch).
Proof.
  revert n d. induction batch as [|x batch IH]; intros n d; cbn [repair_loop length]; [cbn; lia|].
  destruct (op x d) as [[[]|e] d']; [specialize (IH (n + 1) d'); lia|]. destruct (is_conflict_or_missing e); [specialize (IH n d'); lia|cbn; lia].
Qed.

Lemma release_usage_none clock id at_ d i :
  usage_requests (billing d) !! i = None -> usage_requests (billing (ReleaseRequest clock id at_ d).2) !! i = None.
Proof.
  intros Hn. unfold ReleaseRequest. destruct (bool_decide _); [done|]. unfold withTx.
  destruct (release_request_body id _ clock d) as [[[] d']|] eqn:E; [|done]. cbn.
  apply release_request_Ok in E as (r & _ & _ & [[_ ->]|[_ (u & Hu & _ & _ & Hb)]]); [done|].
  assert (i <> id) by congruence. destruct (unbilled (u_endpoint u)).
  - rewrite Hb. btables. by rewrite lookup_insert_ne.
  - unfold releaseBillingTx in Hb. rewrite tguard_bind in Hb. destruct (negb _); [|done]. rewrite tgets_bind in Hb.
    destruct (billing_reservations _ !! id) as [row|]; [|done]. unfold tsome in Hb. rewrite tret_bind in Hb.
    destruct (br_state row); [|done|injection Hb as <-; btables; by rewrite lookup_insert_ne].
    destruct (update_rows _ _ _ _ _) as [[m rows]|]; [|done]. inv_tx Hb. apply tguard_Ok in Hb as [_ ->]. injection Ht as _ <-. btables.
    by rewrite lookup_insert_ne.
Qed.

(** The maintenance loops only ever perform the steps above: a retry is a
    sequence of request settlements and a stale release is a sequence of request
    releases and of quota releases of requests without a usage row, so both keep
    quota and billing in step; and neither repairs more than its limit, 1000
    when the limit given is out of range. *)
Theorem repairs_are_steps clock now before limit d :
  rtc request_step d (RetryUnsettledRequests decode clock limit d).2 /\
  rtc request_step d (ReleaseStaleQuotaReservations clock now before limit d).2 /\
  0 <= (RetryUnsettledRequests decode clock limit d).1.1 <= Z.of_nat (batch_limit limit) /\
  0 <= (ReleaseStaleQuotaReservations clock now before limit d).1.1 <= Z.of_nat (batch_limit limit).
Proof.
  split; [|split; [|split]].
  - apply (repair_loop_rtc _ _ (fun _ => True)); [|done]. intros id x _ _. split; [apply rs_settle|done].
  - unfold ReleaseStaleQuotaReservations. cbv zeta.
    apply (repair_loop_rtc _ _ (fun x => forall i, usage_requests (billing d) !! i = None -> usage_requests (billing x) !! i = None)); [|done].
    intros id x Hid Hx. unfold release_stale. case_bool_decide as E.
    + destruct (ReleaseQuota clock id clock (quota x)) as [r q] eqn:Eq. cbn. split; [|done].
      replace q with (ReleaseQuota clock id clock (quota x)).2 by (by rewrite Eq). apply rs_release_orphan.
      destruct (usage_requests (billing d) !! id) as [u|] eqn:Eu; [|by apply Hx]. exfalso.
      unfold stale_batch in Hid. apply list_elem_of_fmap in Hid as ([i r0] & -> & Hin). cbn in *.
      apply elem_of_take in Hin as (k & Hk & _). apply list_elem_of_lookup_2 in Hk.
      rewrite merge_sort_Permutation in Hk. apply elem_of_map_to_list, map_lookup_filter_Some in Hk as [_ Hst].
      unfold stale in Hst. cbn in Hst. rewrite Eu in Hst. breflect. congruence.
    + split; [apply rs_release|]. intros i Hi. apply release_usage_none. by apply Hx.
  - unfold RetryUnsettledRequests. pose proof (repair_loop_count (fun id => SettleRequest decode clock id clock) (unsettled_batch limit d) 0 d) as H.
    assert (length (unsettled_batch limit d) <= batch_limit limit)%nat by (unfold unsettled_batch; rewrite length_fmap, length_take; lia).
    lia.
  - unfold ReleaseStaleQuotaReservations. cbv zeta. match goal with |- 0 <= (repair_loop ?o ?b 0 d).1.1 <= _ => pose proof (repair_loop_count o b 0 d) as H end.
    assert (length (stale_batch before now limit d) <= batch_limit limit)%nat by (unfold stale_batch; rewrite length_fmap, length_take; lia).
    lia.
Qed.
End runs.

(** ** Closing a request *)

Lemma lock_reservation_eq id r q : quota_reservations q !! id = Some r -> lock_reservation id q = Ok (tt, with_locks r q).
Proof.
  intros Hr. pose proof (lock_reservation_bind id (fun _ => tret tt) q) as E. rewrite Hr in E. unfold tbind, tret in E.
  destruct (lock_reservation id q) as [[[] q']|]; [|done]. by injection E as ->.
Qed.

(** The statements every release starts with. *)
Lemma release_prefix id r d (k : QuotaReservation -> tx gateway_db unit) :
  quota_reservations (quota d) !! id = Some r ->
  tbind (in_quota (lock_reservation id)) (fun _ => tbind (in_quota (readReservation id)) k) d =
    k {| qr_RequestID := id; qr_Day := quota_day r; qr_UserID := user_id r; qr_APIKeyID := api_key_id r; qr_ReservedTokens := reserved_tokens r;
         qr_ActualTokens := actual_tokens r; qr_State := state r; qr_CreatedAt := created_at r; qr_SettledAt := settled_at r;
         qr_LeaseExpiresAt := lease_expires_at <$> concurrency_leases (quota d) !! id |} (GatewayDB (with_locks r (quota d)) (billing d)).
Proof.
  intros Hr. unfold tbind at 1. unfold in_quota at 1, tzoom. rewrite (lock_reservation_eq id r) by done. unfold tbind at 1.
  unfold in_quota, tzoom. cbn [quota]. unfold readReservation. rewrite tgets_bind. unfold with_locks at 1. cbn [set_locks quota_reservations].
  by rewrite Hr.
Qed.

Lemma release_billing_eq clock id at_ b row :
  id <> EmptyString -> money_inv b -> billing_reservations b !! id = Some row -> br_state row = Reserved ->
  exists t, releaseBillingTx clock id at_ b = Ok (tt, set_billing_reservations (<[id := release_row t row]> (billing_reservations b)) b).
Proof.
  intros Hid M Hb Hs. exists (if is_zero_time at_ then clock else at_). unfold releaseBillingTx.
  rewrite tguard_bind, bool_decide_false by done. cbn [negb]. rewrite tgets_bind, Hb. unfold tsome. rewrite tret_bind, Hs. cbn [update_rows].
  rewrite Hb, bool_decide_true by done. set (t := if is_zero_time at_ then clock else at_).
  assert (reservation_row_check (release_row t row) = true) as ->; [|done].
  pose proof (inv_reservation_row b M id row Hb) as Hck. unfold reservation_row_check in *. cbn. rewrite Hs in Hck. by destruct (br_charge row).
Qed.

Section closing.
Context (decode : string -> option DecodedSnapshot).

(** A finished request always settles.  When a billed request is open, its
    usage is terminal, its token total fits the counters and the rows its
    billing binds are there, [SettleRequest] commits: the quota reservation
    records the total of input and output tokens and its lease is freed, the
    billing reservation is settled with its exact cost, and quota and billing
    stay in step. *)
Theorem settle_request_commits clock id at_ d r pre u n tokens decision sources :
  gateway_inv d -> gateway_columns d -> id <> EmptyString -> quota_reservations (quota d) !! id = Some r -> state r = Reserved ->
  settle_ready decode (billing d) id pre u n tokens decision sources -> unbilled (u_endpoint u) = false ->
  u_input u + u_output u <= max_int64 ->
  (forall k c, in_scope k r = true -> quota_counters (quota d) !! k = Some c -> tokens_used c + (u_input u + u_output u) <= max_int64) ->
    let at' := if is_zero_time at_ then clock else at_ in
  exists d' row, SettleRequest decode clock id at_ d = (Ok tt, d') /\ gateway_inv d' /\
    quota_reservations (quota d') = <[id := settled_row (u_input u + u_output u) at' r]> (quota_reservations (quota d)) /\
    concurrency_leases (quota d') = delete id (concurrency_leases (quota d)) /\
    billing_reservations (billing d') = <[id := row]> (billing_reservations (billing d)) /\ br_state row = Settled.
Proof.
  intros G C Hid Hr Hs R Hub Hfit Hcnt at'. pose proof G as [G1 G2 _ _ _]. pose proof (ready_usage _ _ _ _ _ _ _ _ _ R) as Hu.
  pose proof (ready_terminal _ _ _ _ _ _ _ _ _ R) as Ht. destruct (gc_usage d C id u Hu) as [Hin Hout].
  set (total := u_input u + u_output u) in *.
  assert (Htot : wrap64 (u_input u + u_output u) = total) by (apply wrap64_id; unfold is_int64, min_int64, max_int64 in *; lia).
  destruct (settle_eq (quota d) id r total at' G1 Hr Hs ltac:(lia)) as (a & b & Ha & Hb & E).
  destruct (open_counters (quota d) id r G1 Hr Hs) as (a' & b' & Ha' & Hb' & Hab). rewrite Ha in Ha'. rewrite Hb in Hb'. injection Ha' as <-. injection Hb' as <-.
  destruct (reserved_row (quota d) id r G1 Hr Hs) as (_ & _ & Htok).
  assert (Hck : forall c, c = a \/ c = b -> counter_check (settle_counter r total at' c) = true).
  { intros c Hc. destruct (Hab c Hc) as (H1 & H2 & H3).
    assert (tokens_used c + total <= max_int64) by (destruct Hc as [-> | ->]; eapply Hcnt; eauto; apply in_scope_cases; auto).
    unfold counter_check, int64b in *. cbn. unfold min_int64, max_int64 in *. lia. }
  rewrite !Hck in E by auto. cbn [andb] in E. set (q' := closed _ _ _ _ _ _ _) in E.
  destruct (settle_succeeds decode clock id at' (billing d) pre u n tokens decision sources Hid G2 R) as (row & bd & Hbill).
  assert (Hbody : settle_request_body decode id at' clock d = Ok (tt, GatewayDB q' bd)).
  { unfold settle_request_body. unfold tbind in E. destruct (lock_reservation id (quota d)) as [[[] ql]|] eqn:El; [|done].
    unfold tbind at 1. unfold in_quota at 1, tzoom. rewrite El. rewrite tgets_bind. cbn [billing]. rewrite Hu. unfold tsome. rewrite tret_bind, tguard_bind.
    unfold terminal in Ht. apply negb_true_iff in Ht. rewrite Ht. cbn [orb].
    replace (wrap64 (max_int64 - u_output u) <? u_input u) with false
      by (rewrite wrap64_id by (unfold is_int64, min_int64, max_int64 in *; lia); lia).
    cbn [negb]. rewrite Htot. unfold tbind at 1. unfold in_quota at 1, tzoom. cbn [quota billing]. rewrite E, Hub.
    unfold tbind, in_billing, tzoom. cbn [billing quota]. by rewrite Hbill. }
  exists (GatewayDB q' bd), row. cbn [quota billing]. unfold SettleRequest. rewrite bool_decide_false by done. cbv zeta. fold at'.
  split; [by apply withTx_commit|]. split; [by eapply settle_request_inv|]. split; [done|]. split; [done|].
  by destruct (settle_billing_rows decode clock id at' (billing d) row bd G2 (gc_billing d C) Hbill) as (_ & Hst & _ & Hrows & _).
Qed.

(** A request is released only while its usage is in progress.  Then
    [ReleaseRequest] commits, whatever the time it is given: the usage is marked
    cancelled at a time not before the request, both reservations are released,
    and no balance, lot, period or ledger entry changes.  A request whose usage
    is terminal is refused as a conflict and nothing changes. *)
Theorem release_request_outcome clock id at_ d r b u :
  gateway_inv d -> id <> EmptyString -> quota_reservations (quota d) !! id = Some r -> state r = Reserved ->
  usage_requests (billing d) !! id = Some u -> unbilled (u_endpoint u) = false -> billing_reservations (billing d) !! id = Some b ->
  if bool_decide (u_state u = "in_progress") then
    exists d' u', ReleaseRequest clock id at_ d = (Ok tt, d') /\ gateway_inv d' /\
      (exists r', quota_reservations (quota d') = <[id := r']> (quota_reservations (quota d)) /\ state r' = Released) /\
      (exists row, billing_reservations (billing d') = <[id := row]> (billing_reservations (billing d)) /\ br_state row = Released) /\
      usage_requests (billing d') !! id = Some u' /\ u_state u' = "cancelled" /\
      (exists t, u_completed_at u' = Some t /\ u_requested_at u <= t) /\
      billing_accounts (billing d') = billing_accounts (billing d) /\ cash_lots (billing d') = cash_lots (billing d) /\
      periods (billing d') = periods (billing d) /\ group_periods (billing d') = group_periods (billing d) /\
      ledger (billing d') = ledger (billing d)
  else ReleaseRequest clock id at_ d = (Err (ErrConflict "release request with terminal usage"), d).
Proof.
  intros G Hid Hr Hs Hu Hub Hb. pose proof G as [G1 G2 G3 _ _]. pose proof (G3 id r b Hr Hb) as Hsb. rewrite Hs in Hsb. symmetry in Hsb.
  unfold ReleaseRequest. rewrite (bool_decide_false (id = _)) by done. cbv zeta. set (at0 := if is_zero_time at_ then clock else at_).
  pose proof (lock_reservation_eq id r (quota d) Hr) as El. pose proof (fun k => release_prefix id r d k Hr) as Hpre.
  case_bool_decide as Hst.
  - set (at1 := if at0 <? u_requested_at u then u_requested_at u else at0).
    set (b1 := set_usage (<[id := cancel_usage at1 u]> (usage_requests (billing d))) (billing d)).
    destruct (release_eq (quota d) id r at1 G1 Hr Hs) as (ca & cb & _ & _ & _ & _ & E). set (q' := closed _ _ _ _ _ _ _) in E.
    unfold tbind in E. rewrite El in E.
    destruct (release_billing_eq clock id at1 b1 b) as [t Hrel]; [done|by apply money_inv_cancel|subst b1; by btables|done|].
    assert (Hrun : release_request_body id at0 clock d = Ok (tt, GatewayDB q' (set_billing_reservations (<[id := release_row t b]> (billing_reservations b1)) b1))).
    { unfold release_request_body. rewrite Hpre. cbn [qr_State]. rewrite Hs, tgets_bind. cbn [billing]. rewrite Hu. unfold tsome.
      rewrite tret_bind, tguard_bind, bool_decide_true by done. fold at1. unfold tbind at 1. unfold in_billing at 1, tzoom. cbn [billing quota].
      unfold cancel_usage_row at 1. rewrite tgets_bind. cbn [update_rows]. rewrite Hu, bool_decide_true by done. rewrite tmod_bind.
      unfold requireExactlyAffected. change (0 + 1 =? 1) with true. unfold tguard, tret at 1. fold b1. cbn [quota billing].
      unfold tbind at 1. unfold in_quota at 1, tzoom. cbn [quota billing]. rewrite E, Hub. unfold in_billing, tzoom. cbn [quota billing]. by rewrite Hrel. }
    exists (GatewayDB q' (set_billing_reservations (<[id := release_row t b]> (billing_reservations b1)) b1)), (cancel_usage at1 u).
    split; [by apply withTx_commit|]. split; [by eapply release_request_inv|]. cbn [quota billing]. split; [eexists; by split|].
    split; [eexists; by split|]. subst b1. btables. rewrite lookup_insert_eq. split; [done|]. split; [done|]. split; [|done].
    exists at1. split; [done|]. unfold at1. destruct (Z.ltb_spec at0 (u_requested_at u)); lia.
  - unfold withTx, release_request_body. rewrite Hpre. cbn [qr_State]. rewrite Hs, tgets_bind. cbn [billing]. rewrite Hu. unfold tsome.
    by rewrite tret_bind, tguard_bind, bool_decide_false.
Qed.
End closing.

(** ** Examples *)

(** The request of the settlement examples with its quota reservation. *)
Definition open_gateway : gateway_db := GatewayDB demo_db billed_db.
Definition open_row : reservation_row := Reservation 100 "u1" "k1" 100 None Reserved (100 * Day24 + 5 * Second) None.

Lemma open_gateway_inv : gateway_inv open_gateway.
Proof.
  split; unfold open_gateway; cbn [quota billing].
  - exact (quota_reachable_inv _ demo_reachable).
  - exact billed_money_inv.
  - intros id q b. unfold billed_db. btables. intros Hq [<- <-]%lookup_singleton_Some.
    assert (Hq' : quota_reservations demo_db !! billed_request = Some open_row) by (vm_compute; reflexivity).
    rewrite Hq in Hq'. injection Hq' as ->. reflexivity.
  - intros id b. unfold billed_db. btables. intros [<- <-]%lookup_singleton_Some _. split; [exists open_row; vm_compute; reflexivity|].
    exists billed_usage. split; [vm_compute; reflexivity|reflexivity].
  - intros id q u _ _. unfold billed_db. btables. intros [<- <-]%lookup_singleton_Some _. exists billed_reserved. vm_compute. reflexivity.
Qed.

Lemma open_gateway_columns : gateway_columns open_gateway.
Proof.
  split; [split|]; unfold open_gateway, billed_db; cbn [billing]; btables.
  - vm_compute. done.
  - intros u a [<- <-]%lookup_singleton_Some. vm_compute. done.
  - intros r u [<- <-]%lookup_singleton_Some. vm_compute. done.
  - intros id u [<- <-]%lookup_singleton_Some. vm_compute. done.
Qed.

Lemma settle_request_commits_witness :
  exists d' row, SettleRequest no_snapshots 1 billed_request 300 open_gateway = (Ok tt, d') /\ gateway_inv d' /\
    quota_reservations (quota d') = <[billed_request := settled_row 1000000 300 open_row]> (quota_reservations demo_db) /\ br_state row = Settled.
Proof.
  destruct (settle_request_commits no_snapshots 1 billed_request 300 open_gateway open_row billed_reserved billed_usage (usd 10) 0 None billed_sources)
    as (d' & row & H1 & H2 & H3 & _ & _ & H4).
  - exact open_gateway_inv.
  - exact open_gateway_columns.
  - discriminate.
  - vm_compute. reflexivity.
  - reflexivity.
  - exact billed_ready.
  - reflexivity.
  - vm_compute. discriminate.
  - intros k c _ Hc. pose proof (inv_counter _ (gi_quota _ open_gateway_inv) k c Hc) as _.
    assert (Hall : map_Forall (fun _ x => tokens_used x = 0) (quota_counters demo_db))
      by (apply (bool_decide_unpack _); vm_compute; exact I).
    rewrite (Hall k c Hc). vm_compute. discriminate.
  - exists d', row. auto.
Defined.

(** The same request while its response is still being streamed. *)
Definition running_usage : usage_row :=
  {| u_state := "in_progress"; u_endpoint := "responses"; u_model := "m"; u_requested_at := 100; u_completed_at := None;
     u_http_status := None; u_error_code := None; u_duration_ms := None; u_input := 0; u_cached := 0;
     u_cache_write := 0; u_cache_write_present := false; u_output := 0; u_actual_tier := None; u_account := None;
     u_write5m := 0; u_write1h := 0; u_ttl_present := false; u_pricing_tier := None; u_context_class := None;
     u_fallback_reason := None |}.
Definition running_gateway : gateway_db := GatewayDB demo_db (set_usage {[ billed_request := running_usage ]} billed_db).

Lemma running_gateway_inv : gateway_inv running_gateway.
Proof.
  apply (request_step_inv no_snapshots open_gateway); [exact open_gateway_columns| |exact open_gateway_inv].
  apply (rs_usage no_snapshots {[ billed_request := running_usage ]} open_gateway). split.
  - intros i u' [<- <-]%lookup_singleton_Some. exists billed_usage. split; [vm_compute; reflexivity|reflexivity].
  - intros i row. unfold open_gateway, billed_db. cbn [billing]. btables. intros [<- _]%lookup_singleton_Some _.
    exists running_usage. vm_compute. reflexivity.
Qed.

Lemma release_request_outcome_witness :
  exists d' u', ReleaseRequest 1 billed_request 50 running_gateway = (Ok tt, d') /\ gateway_inv d' /\
    usage_requests (billing d') !! billed_request = Some u' /\ u_state u' = "cancelled" /\
    billing_accounts (billing d') = billing_accounts billed_db.
Proof.
  assert (H : u_state running_usage = "in_progress") by reflexivity.
  pose proof (release_request_outcome 1 billed_request 50 running_gateway open_row billed_reserved running_usage running_gateway_inv) as R.
  rewrite bool_decide_true in R by exact H. destruct R as (d' & u' & H1 & H2 & _ & _ & H3 & H4 & _ & H5 & _).
  - discriminate.
  - vm_compute. reflexivity.
  - reflexivity.
  - vm_compute. reflexivity.
  - reflexivity.
  - vm_compute. reflexivity.
  - exists d', u'. auto.
Defined.

(** An admission of an unbilled request into an empty system. *)
Definition first_usage : usage_row :=
  {| u_state := "in_progress"; u_endpoint := "models"; u_model := "m"; u_requested_at := 100; u_completed_at := None;
     u_http_status := None; u_error_code := None; u_duration_ms := None; u_input := 0; u_cached := 0;
     u_cache_write := 0; u_cache_write_present := false; u_output := 0; u_actual_tier := None; u_account := None;
     u_write5m := 0; u_write1h := 0; u_ttl_present := false; u_pricing_tier := None; u_context_class := None;
     u_fallback_reason := None |}.
Definition first_gateway : gateway_db := GatewayDB demo_db (set_usage {[ demo_id := first_usage ]} bank_db).

Lemma requests_in_step_witness : gateway_inv first_gateway.
Proof.
  apply (requests_in_step no_snapshots (GatewayDB demo_empty bank_db) first_gateway).
  - repeat (split; [reflexivity|]). split; [exact bank_opening|reflexivity].
  - apply rtc_once. split.
    + split; [exact bank_columns|]. intros id u. cbn. by rewrite lookup_empty.
    + apply (rs_admit no_snapshots 1 (demo_params demo_id) (reservation_of (demo_normal demo_id)) demo_db
        (set_usage {[ demo_id := first_usage ]} bank_db) (GatewayDB demo_empty bank_db)).
      * rewrite (surjective_pairing (ReserveQuota 1 (demo_params demo_id) _)). f_equal; vm_compute; reflexivity.
      * split.
        -- split; try done; intros *; cbn; rewrite ?lookup_empty; done.
        -- split; reflexivity.
        -- exists first_usage. split; reflexivity.
Defined.
