(* ===== verification/Groups.v ===== *)
(** * Groups and their periods ([internal/store/group.go])

    A group shares an allowance that is renewed every period.  This file holds
    the calendar of the periods, the tables, rolling a group forward and the
    administrator's writes; who belongs to a group and which groups may pay for
    a request is in [Membership].

    The tables extend the billing tables: the amounts of the periods, the
    members' usage, accounts, users and the audit log are those of
    [BillingTables]; the other columns are kept beside them.  Timestamps are at
    the precision PostgreSQL stores.  [github.com/google/uuid] is the parameter
    [uuid_parse], the database's collation of user names [collate]. *)
From Stdlib Require Import Ascii.
From S2P Require Import Prelude GoStrings GoTime Amount Store Money Funding BillingTables Charging Accounts.

(** ** The calendar of a group *)

Definition groupPeriodDuration (period : string) (customDays : Z) : result store_error Z :=
  if bool_decide (period = "custom") then
    if (customDays <? 1) || (106751 <? customDays) then Err (ErrInvalid "custom period days must be between 1 and 106751")
    else Ok (wrap64 (wrap64 (customDays * 24) * Hour))
  else if negb (customDays =? 0) then Err (ErrInvalid "custom days require a custom period")
  else billingPeriodDuration period.

Definition groupPeriodStart (anchor at_ duration : Z) : Z :=
  if at_ <? anchor then anchor else
  let elapsed := wrap64 (Unix at_ - Unix anchor) in
  let elapsed := if Nanosecond_of at_ <? Nanosecond_of anchor then wrap64 (elapsed - 1) else elapsed in
  let seconds := Z.quot duration Second in
  time_Unix (wrap64 (Unix anchor + wrap64 (Z.quot elapsed seconds * seconds))) (Nanosecond_of anchor).

Definition validateGroupTime (at_ : Z) : result store_error unit :=
  if (Year at_ <? 1) || (9999 <? Year at_) then Err (ErrInvalid "group dates must be between years 1 and 9999") else Ok tt.

(** [time.Date(9999, 12, 31, 23, 59, 59, 0, time.UTC).Unix()]. *)
Definition lastSecond : Z := 253402300799.

Definition addGroupPeriods (anchor duration count : Z) : result store_error Z :=
  let! _ := validateGroupTime anchor in
  let seconds := Z.quot duration Second in
  if (count <? 0) || (seconds <=? 0) || (Z.quot (wrap64 (lastSecond - Unix anchor)) seconds <? count)
  then Err (ErrInvalid "group period or expiry exceeds the supported date range")
  else Ok (time_Unix (wrap64 (Unix anchor + wrap64 (count * seconds))) (Nanosecond_of anchor)).

Definition groupExpiration (end_ duration count current : Z) : result store_error (option Z) :=
  if count =? 0 then Ok None else
  if count <? current then Err (ErrInvalid "group period count cannot be below the current period number") else
  let! expires := addGroupPeriods end_ duration (wrap64 (count - current)) in
  Ok (Some expires).

(** ** Groups as the store returns them *)

Record GroupSummary := {
  gs_ID : string;
  gs_Name : string;
  gs_LimitUSD : string;
  gs_MemberLimitUSD : option string;
  gs_UsedUSD : string;
  gs_RemainingUSD : string;
  gs_Period : string;
  gs_CustomDays : Z;
  gs_StartsAt : Z;
  gs_PeriodID : string;
  gs_PeriodStartsAt : Z;
  gs_PeriodEndsAt : Z;
  gs_PeriodCount : Z;
  gs_CurrentPeriodNumber : Z;
  gs_ExpiresAt : option Z;
  gs_MemberCount : Z;
  gs_ArchivedAt : option Z;
  gs_CreatedAt : Z;
  gs_UpdatedAt : Z;
  gs_ModelIDs : list string;
  gs_AccountUsageVisible : bool;
}.
Record GroupMember := {
  gm_UserID : string;
  gm_Username : string;
  gm_DisplayName : string;
  gm_UsedUSD : string;
  gm_RemainingUSD : option string;
}.
Record Group := { group_summary : GroupSummary; group_members : list GroupMember }.
#[export] Instance GroupSummary_eq_dec : EqDecision GroupSummary.
Proof. solve_decision. Defined.
#[export] Instance GroupMember_eq_dec : EqDecision GroupMember.
Proof. solve_decision. Defined.
#[export] Instance Group_eq_dec : EqDecision Group.
Proof. solve_decision. Defined.

(** [before o at_]: [o == nil || at.Before( *o )]. *)
Definition before_deadline (at_ : Z) (deadline : option Z) : bool :=
  match deadline with None => true | Some e => at_ <? e end.
Definition is_nil {A} (o : option A) : bool := match o with None => true | Some _ => false end.

Definition groupPeriodActive (g : option GroupSummary) (at_ : Z) : bool :=
  match g with
  | None => false
  | Some g => is_nil (gs_ArchivedAt g) && negb (at_ <? gs_PeriodStartsAt g) && (at_ <? gs_PeriodEndsAt g) &&
      before_deadline at_ (gs_ExpiresAt g)
  end.

Definition groupModelAllowed (g : option GroupSummary) (model : string) : bool :=
  match g with None => false | Some g => existsb (fun candidate => bool_decide (candidate = model)) (gs_ModelIDs g) end.

Definition groupHasNextPeriod (g : option GroupSummary) : bool :=
  match g with
  | None => false
  | Some g =>
      if negb (is_nil (gs_ArchivedAt g)) || (negb (gs_PeriodCount g =? 0) && (gs_PeriodCount g <=? gs_CurrentPeriodNumber g)) ||
         negb (before_deadline (gs_PeriodEndsAt g) (gs_ExpiresAt g)) then false else
      match groupPeriodDuration (gs_Period g) (gs_CustomDays g) with
      | Err _ => false
      | Ok duration => is_ok (addGroupPeriods (gs_PeriodEndsAt g) duration 1)
      end
  end.

Record GroupQuotaExceededError := { gq_GroupID : string; gq_RetryAfter : Z; gq_NotStarted : bool }.

Definition requireGroupQuota (g : option GroupSummary) (at_ : Z) : result GroupQuotaExceededError unit :=
  match g with
  | None => Ok tt
  | Some g =>
      if negb (is_nil (gs_ArchivedAt g)) || negb (before_deadline at_ (gs_ExpiresAt g)) || negb (at_ <? gs_PeriodEndsAt g)
      then Err {| gq_GroupID := gs_ID g; gq_RetryAfter := 0; gq_NotStarted := false |} else
      if at_ <? gs_PeriodStartsAt g
      then Err {| gq_GroupID := gs_ID g; gq_RetryAfter := time_sub (gs_PeriodStartsAt g) at_; gq_NotStarted := true |} else
      if negb (billingPositive (gs_RemainingUSD g)) then
        Err {| gq_GroupID := gs_ID g; gq_NotStarted := false;
               gq_RetryAfter := if groupHasNextPeriod (Some g) then time_sub (gs_PeriodEndsAt g) at_ else 0 |}
      else Ok tt
  end.

(** ** Tables *)

(** A row of [user_groups]. *)
Record group_row := {
  ug_name : string;
  ug_limit : Z;
  ug_member_limit : option Z;
  ug_period : string;
  ug_custom_days : Z;
  ug_starts_at : Z;
  ug_current_period : option string;
  ug_period_count : Z;
  ug_current_number : Z;
  ug_expires_at : option Z;
  ug_archived_at : option Z;
  ug_created_at : Z;
  ug_updated_at : Z;
  ug_model_ids : list string;
  ug_models_initialized : bool;
  ug_usage_visible : bool;
}.

(** The columns of [group_usage_periods] beside the amounts. *)
Record period_times := PeriodTimes { pd_starts : Z; pd_ends : Z; pd_closed : option Z; pd_created : Z }.

(** A row of [group_memberships]. *)
Record membership_row := Membership { ms_priority : Z; ms_created_at : Z; ms_updated_at : Z }.

Record GroupMembershipPreference := { gp_GroupID : string; gp_UserID : string; gp_Priority : Z }.

(** The JSON of the recorded response: of a group, with the field
    [period_count] or (written by an older version) without it, or of a
    membership preference. *)
Inductive group_response :=
| GroupResponse (g : Group) (period_count : bool)
| PreferenceResponse (p : GroupMembershipPreference).

Record group_operation := GroupOperation {
  go_actor : string;
  go_action : string;
  go_fingerprint : string;
  go_response : option group_response;
  go_created_at : Z;
}.

(** [gd_mirror] is the column [billing_accounts.group_id] where it is not NULL;
    [gd_memberships] is [None] before the migration that creates the table;
    [gd_catalog] is [model_access_defaults.catalog_active]; [gd_random] are the
    16-byte blocks that [rand.Read] delivers. *)
Record group_db := GroupDB {
  gd_billing : billing_db;
  gd_names : gmap string (string * string);
  gd_mirror : gmap string string;
  gd_groups : gmap string group_row;
  gd_periods : gmap string period_times;
  gd_memberships : option (gmap (string * string) membership_row);
  gd_operations : gmap string group_operation;
  gd_catalog : gmap string bool;
  gd_random : list string;
}.

Definition set_billing v d := GroupDB v (gd_names d) (gd_mirror d) (gd_groups d) (gd_periods d) (gd_memberships d) (gd_operations d) (gd_catalog d) (gd_random d).
Definition set_mirror v d := GroupDB (gd_billing d) (gd_names d) v (gd_groups d) (gd_periods d) (gd_memberships d) (gd_operations d) (gd_catalog d) (gd_random d).
Definition set_groups v d := GroupDB (gd_billing d) (gd_names d) (gd_mirror d) v (gd_periods d) (gd_memberships d) (gd_operations d) (gd_catalog d) (gd_random d).
Definition set_period_times v d := GroupDB (gd_billing d) (gd_names d) (gd_mirror d) (gd_groups d) v (gd_memberships d) (gd_operations d) (gd_catalog d) (gd_random d).
Definition set_memberships v d := GroupDB (gd_billing d) (gd_names d) (gd_mirror d) (gd_groups d) (gd_periods d) (Some v) (gd_operations d) (gd_catalog d) (gd_random d).
Definition set_group_operations v d := GroupDB (gd_billing d) (gd_names d) (gd_mirror d) (gd_groups d) (gd_periods d) (gd_memberships d) v (gd_catalog d) (gd_random d).
Definition set_random v d := GroupDB (gd_billing d) (gd_names d) (gd_mirror d) (gd_groups d) (gd_periods d) (gd_memberships d) (gd_operations d) (gd_catalog d) v.
Definition set_user_groups v d := BillingDB (users d) (billing_accounts d) (cash_lots d) (periods d) v (group_periods d) (member_usage d) (billing_reservations d) (reservation_layers d) (allocations d) (ledger d) (usage_requests d) (operations d) (tombstones d) (billing_settings d) (audit d).

(** Read through the setters. *)
Ltac gtables :=
  cbn [set_billing set_mirror set_groups set_period_times set_memberships set_group_operations set_random set_user_groups
       gd_billing gd_names gd_mirror gd_groups gd_periods gd_memberships gd_operations gd_catalog gd_random
       users billing_accounts cash_lots periods user_groups group_periods member_usage billing_reservations reservation_layers allocations
       ledger usage_requests operations tombstones billing_settings audit] in *; btables.

Definition on_billing {A} (m : tx billing_db A) : tx group_db A := tzoom gd_billing set_billing m.
Definition memberships (d : group_db) : gmap (string * string) membership_row := default ∅ (gd_memberships d).

(** The CHECK constraints. *)
Definition int32b (z : Z) : bool := (- 2 ^ 31 <=? z) && (z <=? 2 ^ 31 - 1).
Definition limit_check (n : Z) : bool := (0 <=? n) && numeric_fits n.
Definition option_check {A} (p : A -> bool) (o : option A) : bool := match o with Some a => p a | None => true end.
Definition group_check (g : group_row) : bool :=
  (1 <=? rune_count (ug_name g)) && (rune_count (ug_name g) <=? 120) && limit_check (ug_limit g) &&
  option_check limit_check (ug_member_limit g) &&
  (if bool_decide (ug_period g = "custom") then (1 <=? ug_custom_days g) && (ug_custom_days g <=? 106751)
   else bool_decide (ug_period g ∈ ["day"; "week"; "month"]) && (ug_custom_days g =? 0)) &&
  (0 <=? ug_period_count g) && (ug_period_count g <=? 99) && (1 <=? ug_current_number g) && int32b (ug_current_number g) &&
  ((ug_period_count g =? 0) || (ug_current_number g <=? ug_period_count g)) &&
  (if ug_period_count g =? 0 then is_nil (ug_expires_at g) else negb (is_nil (ug_expires_at g))) &&
  (negb (ug_models_initialized g) || negb (bool_decide (ug_model_ids g = []))).

(** [newUUID]: sixteen random bytes with the version and variant bits set. *)
Definition hex_digit (n : Z) : ascii := default "?"%char (String.get (Z.to_nat n) "0123456789abcdef").
Fixpoint hex_encode (s : string) : string :=
  match s with
  | EmptyString => EmptyString
  | String c rest => String (hex_digit (byte_of c / 16)) (String (hex_digit (byte_of c mod 16)) (hex_encode rest))
  end.
Definition map_byte (i : nat) (f : Z -> Z) (s : string) : string :=
  str_take i s +:+ match str_drop i s with
    | String c rest => String (ascii_of_N (Z.to_N (f (byte_of c)))) rest
    | EmptyString => EmptyString
    end.
Definition uuid_text (b : string) : string :=
  let b := map_byte 6 (fun n => Z.lor (Z.land n 15) 64) b in
  let b := map_byte 8 (fun n => Z.lor (Z.land n 63) 128) b in
  let part i j := hex_encode (str_take (j - i) (str_drop i b)) in
  part 0%nat 4%nat +:+ "-" +:+ part 4%nat 6%nat +:+ "-" +:+ part 6%nat 8%nat +:+ "-" +:+ part 8%nat 10%nat +:+ "-" +:+ part 10%nat 16%nat.
Definition newUUID : tx group_db string :=
  fun d => match gd_random d with [] => Err (ErrOther "generate id") | b :: rest => Ok (uuid_text b, set_random rest d) end.

(** A [$k::numeric] argument, also a nullable one. *)
Definition numeric_param (operation s : string) : tx group_db Z :=
  match numeric_of s with Some n => tret n | None => tfail (ErrInvalid operation) end.
Definition nullable_numeric (operation : string) (s : option string) : tx group_db (option Z) :=
  match s with None => tret None | Some s => let* n := numeric_param operation s in tret (Some n) end.

(** [UPDATE user_groups SET ... WHERE id = k]. *)
Definition update_group (operation id : string) (f : group_row -> group_row) : tx group_db unit :=
  let* rows := tgets gd_groups in
  match update_rows [id] (fun _ => true) f group_check rows with
  | None => tfail (ErrInvalid operation)
  | Some (_, rows') => tmod (set_groups rows')
  end.

(** ** Reading a group *)

Definition lockGroupTx (id : string) : tx group_db unit :=
  let* rows := tgets gd_groups in
  let* _ := tsome "lock group" (rows !! id) in
  tret tt.

(** Members are counted once, from the memberships and the older column. *)
Definition member_ids (id : string) (d : group_db) : gset string :=
  set_map snd (dom (filter (fun kv => kv.1.1 = id) (memberships d))) ∪ dom (filter (fun kv => kv.2 = id) (gd_mirror d)).

Definition summary_of (id : string) (g : group_row) (pid : string) (t : period_times) (used : Z) (d : group_db) : GroupSummary :=
  {| gs_ID := id; gs_Name := ug_name g; gs_LimitUSD := numeric_text (ug_limit g);
     gs_MemberLimitUSD := numeric_text <$> ug_member_limit g; gs_UsedUSD := numeric_text used;
     gs_RemainingUSD := numeric_text (Z.max (ug_limit g - used) 0); gs_Period := ug_period g; gs_CustomDays := ug_custom_days g;
     gs_StartsAt := ug_starts_at g; gs_PeriodID := pid; gs_PeriodStartsAt := pd_starts t; gs_PeriodEndsAt := pd_ends t;
     gs_PeriodCount := ug_period_count g; gs_CurrentPeriodNumber := ug_current_number g; gs_ExpiresAt := ug_expires_at g;
     gs_MemberCount := Z.of_nat (size (member_ids id d)); gs_ArchivedAt := ug_archived_at g; gs_CreatedAt := ug_created_at g;
     gs_UpdatedAt := ug_updated_at g; gs_ModelIDs := ug_model_ids g;
     gs_AccountUsageVisible := match gd_memberships d with Some _ => ug_usage_visible g | None => false end |}.

(** The join of a group with its current period. *)
Definition group_summary_of (id : string) (d : group_db) : option GroupSummary :=
  g ← gd_groups d !! id;
  pid ← ug_current_period g;
  t ← gd_periods d !! pid;
  p ← group_periods (gd_billing d) !! pid;
  Some (summary_of id g pid t (used_usd p) d).

Definition readGroupSummaryTx (id : string) : tx group_db GroupSummary :=
  let* s := tgets (group_summary_of id) in
  tsome "read group" s.

(** ** Rolling a group to the period of an instant *)

Definition close_period (closedAt : Z) (t : period_times) : period_times :=
  PeriodTimes (pd_starts t) (pd_ends t) (Some (default closedAt (pd_closed t))) (pd_created t).
Definition close_periods (pid : string) (closedAt : Z) : tx group_db unit :=
  tmod (fun d => set_period_times (alter (close_period closedAt) pid (gd_periods d)) d).

Definition insert_period (operation id group : string) (starts ends limit : Z) (memberLimit : option Z) (at_ : Z) : tx group_db unit :=
  tguard ((starts <? ends) && limit_check limit && option_check limit_check memberLimit) (ErrInvalid operation) ;;
  let* d := tgets (fun d => d) in
  tguard (bool_decide (gd_periods d !! id = None)) (ErrConflict operation) ;;
  tguard (bool_decide (is_Some (gd_groups d !! group))) (ErrInvalid operation) ;;
  tmod (fun d => set_period_times (<[id := PeriodTimes starts ends None at_]> (gd_periods d)) d) ;;
  on_billing (tmod (fun b => set_group_periods (<[id := GroupPeriod group limit 0 memberLimit]> (group_periods b)) b)).

Definition advance_group (period : string) (at_ number : Z) (g : group_row) : group_row :=
  {| ug_name := ug_name g; ug_limit := ug_limit g; ug_member_limit := ug_member_limit g; ug_period := ug_period g;
     ug_custom_days := ug_custom_days g; ug_starts_at := ug_starts_at g; ug_current_period := Some period;
     ug_period_count := ug_period_count g; ug_current_number := number; ug_expires_at := ug_expires_at g;
     ug_archived_at := ug_archived_at g; ug_created_at := ug_created_at g; ug_updated_at := at_; ug_model_ids := ug_model_ids g;
     ug_models_initialized := ug_models_initialized g; ug_usage_visible := ug_usage_visible g |}.

(** The fields of [g] that the statements use are passed one by one. *)
Definition replaceGroupPeriodTx (groupID periodID limitUSD : string) (memberLimitUSD : option string) (number : Z)
  (starts ends closedAt at_ : Z) : tx group_db unit :=
  (if empty periodID then tret tt else close_periods periodID closedAt) ;;
  let* id := newUUID in
  let* limit := numeric_param "create group period" limitUSD in
  let* memberLimit := nullable_numeric "create group period" memberLimitUSD in
  insert_period "create group period" id groupID starts ends limit memberLimit at_ ;;
  update_group "advance group period" groupID (advance_group id at_ number).

Definition rollGroupTx (id : string) (at_ : Z) : tx group_db GroupSummary :=
  let* g := readGroupSummaryTx id in
  if negb (is_nil (gs_ArchivedAt g)) || (at_ <? gs_PeriodEndsAt g) || negb (before_deadline at_ (gs_ExpiresAt g)) then tret g else
  let* duration := tlift (groupPeriodDuration (gs_Period g) (gs_CustomDays g)) in
  let start := groupPeriodStart (gs_PeriodStartsAt g) at_ duration in
  match addGroupPeriods start duration 1 with
  | Err _ => tret g
  | Ok end_ =>
      let number := wrap64 (gs_CurrentPeriodNumber g +
        Z.quot (wrap64 (Unix start - Unix (gs_PeriodStartsAt g))) (Z.quot duration Second)) in
      tguard (negb ((0 <? gs_PeriodCount g) && (gs_PeriodCount g <? number))) (ErrInvalid "group period exceeds its configured count") ;;
      replaceGroupPeriodTx (gs_ID g) (gs_PeriodID g) (gs_LimitUSD g) (gs_MemberLimitUSD g) number start end_ (gs_PeriodEndsAt g) at_ ;;
      readGroupSummaryTx id
  end.

(** ** A group with its members *)

Section detail.
Context (collate : string -> string -> comparison).

(** [ORDER BY used DESC, lower(username), id]. *)
Definition member_less (a b : Z * (string * GroupMember)) : bool :=
  if b.1 <? a.1 then true else if a.1 <? b.1 then false else
  match collate a.2.1 b.2.1 with
  | Lt => true
  | Gt => false
  | Eq => str_ltb (gm_UserID a.2.2) (gm_UserID b.2.2)
  end.

Definition member_line (pid : string) (memberLimit : option string) (d : group_db) (user : string) : Z * (string * GroupMember) :=
  let used := default 0 (member_usage (gd_billing d) !! (pid, user)) in
  let names := default ("", "") (gd_names d !! user) in
  (used, (names.1, {| gm_UserID := user; gm_Username := names.1; gm_DisplayName := names.2; gm_UsedUSD := numeric_text used;
    gm_RemainingUSD := (fun s => numeric_text (Z.max (default 0 (numeric_of s) - used) 0)) <$> memberLimit |})).

Definition groupDetailTx (id : string) : tx group_db Group :=
  let* summary := readGroupSummaryTx id in
  let* d := tgets (fun d => d) in
  let ids := elements (member_ids id d ∩ dom (users (gd_billing d))) in
  let lines := map (member_line (gs_PeriodID summary) (gs_MemberLimitUSD summary) d) ids in
  tret {| group_summary := summary; group_members := map (fun l => l.2.2) (stable_sort member_less lines) |}.
End detail.

Definition groupMemberUsedTx (periodID userID : string) : tx group_db string :=
  tgets (fun d => numeric_text (default 0 (member_usage (gd_billing d) !! (periodID, userID)))).

Definition groupMemberRemainingTx (periodID userID : string) (memberLimit : option string) : tx group_db (option string) :=
  match memberLimit with
  | None => tret None
  | Some s =>
      let* limit := numeric_param "read group member remaining" s in
      let* d := tgets (fun d => d) in
      tret (Some (numeric_text (Z.max (limit - default 0 (member_usage (gd_billing d) !! (periodID, userID))) 0)))
  end.

(** ** Audit metadata *)

(** The bytes [json.Marshal] writes for a string: quotes, backslashes and the
    five named controls take two, other controls, HTML characters, U+2028,
    U+2029 and bytes that are not UTF-8 take six. *)
Definition json_char_length (c : ascii) : Z :=
  let n := byte_of c in
  if (n =? 34) || (n =? 92) || (n =? 8) || (n =? 9) || (n =? 10) || (n =? 12) || (n =? 13) then 2 else
  if (n <? 32) || (n =? 60) || (n =? 62) || (n =? 38) || (128 <=? n) then 6 else 1.
Fixpoint json_body_length (s : string) : Z :=
  match s with
  | EmptyString => 0
  | String c s1 =>
      let n := byte_of c in
      match s1 with
      | String c2 s2 =>
          if (194 <=? n) && (n <=? 223) && continuation 128 191 c2 then 2 + json_body_length s2 else
          match s2 with
          | String c3 s3 =>
              if (224 <=? n) && (n <=? 239) && second_byte n c2 && continuation 128 191 c3 then
                (if (n =? 226) && (byte_of c2 =? 128) && ((byte_of c3 =? 168) || (byte_of c3 =? 169)) then 6 else 3) + json_body_length s3 else
              match s3 with
              | String c4 s4 =>
                  if (240 <=? n) && (n <=? 244) && second_byte n c2 && continuation 128 191 c3 && continuation 128 191 c4
                  then 4 + json_body_length s4 else json_char_length c + json_body_length s1
              | EmptyString => json_char_length c + json_body_length s1
              end
          | EmptyString => json_char_length c + json_body_length s1
          end
      | EmptyString => json_char_length c + json_body_length s1
      end
  end.

Definition int_text (n : Z) : string := if n <? 0 then "-" +:+ z_digits (- n) else z_digits n.
Fixpoint join (sep : string) (l : list string) : string :=
  match l with [] => EmptyString | [s] => s | s :: rest => s +:+ sep +:+ join sep rest end.

Inductive metadata_value := MetaString (s : string) | MetaInt (n : Z) | MetaBool (b : bool) | MetaStrings (l : list string) | MetaObject (m : list (string * metadata_value)).
Definition json_string_length (s : string) : Z := 2 + json_body_length s.
Fixpoint metadata_length (v : metadata_value) : Z :=
  match v with
  | MetaString s => json_string_length s
  | MetaInt n => Z.of_nat (String.length (int_text n))
  | MetaBool b => if b then 4 else 5
  | MetaStrings l => 2 + foldr (fun s acc => json_string_length s + acc) 0 l + Z.max 0 (Z.of_nat (length l) - 1)
  | MetaObject m => 2 + foldr (fun kv acc => json_string_length kv.1 + 1 + metadata_length kv.2 + acc) 0 m + Z.max 0 (Z.of_nat (length m) - 1)
  end.
(** The audit row keeps integers in decimal and lists and objects joined by commas. *)
Fixpoint metadata_text (v : metadata_value) : string :=
  match v with
  | MetaString s => s
  | MetaInt n => int_text n
  | MetaBool b => if b then "true" else "false"
  | MetaStrings l => join "," l
  | MetaObject m => join "," (map (fun kv => kv.1 +:+ ":" +:+ metadata_text kv.2) m)
  end.

Definition maxMetadataBytes : Z := 32768.
(** None of the keys used here is forbidden, so only the size can fail. *)
Definition marshalSafeMetadata (m : list (string * metadata_value)) : result store_error (list (string * string)) :=
  if maxMetadataBytes <? metadata_length (MetaObject m) then Err (ErrInvalid "metadata exceeds the limit") else Ok (map (fun kv => (kv.1, metadata_text kv.2)) m).

(** ** Model scopes *)

Definition asciiAlphaNumeric (c : ascii) : bool :=
  let n := byte_of c in ((97 <=? n) && (n <=? 122)) || ((65 <=? n) && (n <=? 90)) || ((48 <=? n) && (n <=? 57)).
Definition validModelAccessModel (model : string) : bool :=
  if (String.length model =? 0)%nat || (128 <? String.length model)%nat then false else
  str_forall (fun c => asciiAlphaNumeric c || (byte_of c =? 46) || (byte_of c =? 95) || (byte_of c =? 58) || (byte_of c =? 45)) model.
Definition normalizeModelAccessModel (model : string) : result store_error string :=
  let model := trim_space model in
  if validModelAccessModel model then Ok model else Err (ErrInvalid "invalid model access model").
Fixpoint normalize_each (models : list string) : result store_error (list string) :=
  match models with
  | [] => Ok []
  | m :: rest => let! x := normalizeModelAccessModel m in let! xs := normalize_each rest in Ok (x :: xs)
  end.
Definition normalizeModelAccessCatalog (models : list string) : result store_error (list string) :=
  let! l := normalize_each models in
  Ok (stable_sort str_ltb (elements (list_to_set l : gset string))).
Definition normalizeBillingModels (models : list string) : result store_error (list string) :=
  let! values := normalizeModelAccessCatalog models in
  if bool_decide (values = []) then Err (ErrInvalid "at least one model must be selected") else Ok values.

Definition validateBillingModelsTx (models : list string) : tx group_db unit :=
  let* d := tgets (fun d => d) in
  tguard (forallb (fun m => bool_decide (gd_catalog d !! m = Some true)) models) (ErrInvalid "model is not in the manageable catalog").

Definition catalog_models (d : group_db) : list string :=
  stable_sort str_ltb (elements (dom (filter (fun kv => kv.2 = true) (gd_catalog d)))).

(** ** Writes of the administrator *)

Record PutGroupParams := {
  pg_write : BillingWriteParams;
  pg_GroupID : string;
  pg_Name : string;
  pg_LimitUSD : string;
  pg_MemberLimitUSD : option string;
  pg_MemberLimitSet : bool;
  pg_Period : string;
  pg_CustomDays : Z;
  pg_StartsAt : option Z;
  pg_PeriodCount : option Z;
  pg_ModelIDs : list string;
  pg_ModelIDsSet : bool;
}.

Definition zero_group : Group := {|
  group_summary := {| gs_ID := ""; gs_Name := ""; gs_LimitUSD := ""; gs_MemberLimitUSD := None; gs_UsedUSD := ""; gs_RemainingUSD := "";
    gs_Period := ""; gs_CustomDays := 0; gs_StartsAt := 0; gs_PeriodID := ""; gs_PeriodStartsAt := 0; gs_PeriodEndsAt := 0;
    gs_PeriodCount := 0; gs_CurrentPeriodNumber := 0; gs_ExpiresAt := None; gs_MemberCount := 0; gs_ArchivedAt := None;
    gs_CreatedAt := 0; gs_UpdatedAt := 0; gs_ModelIDs := []; gs_AccountUsageVisible := false |};
  group_members := [] |}.

(** An old response describes a single period, its own. *)
Definition single_period (g : Group) : Group :=
  let s := group_summary g in
  {| group_summary := {| gs_ID := gs_ID s; gs_Name := gs_Name s; gs_LimitUSD := gs_LimitUSD s; gs_MemberLimitUSD := gs_MemberLimitUSD s;
       gs_UsedUSD := gs_UsedUSD s; gs_RemainingUSD := gs_RemainingUSD s; gs_Period := gs_Period s; gs_CustomDays := gs_CustomDays s;
       gs_StartsAt := gs_StartsAt s; gs_PeriodID := gs_PeriodID s; gs_PeriodStartsAt := gs_PeriodStartsAt s; gs_PeriodEndsAt := gs_PeriodEndsAt s;
       gs_PeriodCount := 1; gs_CurrentPeriodNumber := 1; gs_ExpiresAt := Some (gs_PeriodEndsAt s); gs_MemberCount := gs_MemberCount s;
       gs_ArchivedAt := gs_ArchivedAt s; gs_CreatedAt := gs_CreatedAt s; gs_UpdatedAt := gs_UpdatedAt s; gs_ModelIDs := gs_ModelIDs s;
       gs_AccountUsageVisible := gs_AccountUsageVisible s |};
     group_members := group_members g |}.

(** The fields of a preference are not those of a group, so decoding one
    leaves the zero value. *)
Definition decodeGroupOperationResponse (encoded : group_response) : Group :=
  match encoded with
  | GroupResponse g true => g
  | GroupResponse g false => single_period g
  | PreferenceResponse _ => single_period zero_group
  end.

Section writes.
Context (fingerprint : list string -> string) (session_of : string -> string -> bool) (inet_ok : string -> bool)
        (uuid_parse : string -> option string) (collate : string -> string -> comparison).

Definition uuid_nil : string := "00000000-0000-0000-0000-000000000000".
Definition canonicalGroupID (value : string) : result store_error string :=
  match uuid_parse value with
  | None => Err (ErrInvalid "invalid group or user ID")
  | Some id => if bool_decide (id = uuid_nil) then Err (ErrInvalid "invalid group or user ID") else Ok id
  end.

(** The claim of an operation: the recorded response of an earlier run with
    the same arguments, or a new row. *)
Definition claim_group_operation (p : BillingWriteParams) (action fp operation : string) : tx group_db (option group_response) :=
  tguard ((1 <=? rune_count (OperationID p)) && (rune_count (OperationID p) <=? 128)) (ErrInvalid operation) ;;
  let* d := tgets (fun d => d) in
  match gd_operations d !! OperationID p with
  | None =>
      tguard (bool_decide (is_Some (users (gd_billing d) !! ActorUserID p))) (ErrInvalid operation) ;;
      tmod (set_group_operations (<[OperationID p := GroupOperation (ActorUserID p) action fp None (At p)]> (gd_operations d))) ;;
      tret None
  | Some row =>
      match go_response row with
      | Some encoded =>
          tguard (bool_decide (go_actor row = ActorUserID p) && bool_decide (go_action row = action) && bool_decide (go_fingerprint row = fp))
            (ErrConflict "group operation replay mismatch") ;;
          tret (Some encoded)
      | None => tfail (ErrConflict "group operation replay mismatch")
      end
  end.

Definition finish_group_operation (operationID : string) (r : group_response) : tx group_db unit :=
  tmod (fun d => set_group_operations
    (alter (fun o => GroupOperation (go_actor o) (go_action o) (go_fingerprint o) (Some r) (go_created_at o)) operationID (gd_operations d)) d).

Definition group_audit (p : BillingWriteParams) (eventType subjectType subjectID : string) (m : list (string * metadata_value)) : tx group_db unit :=
  let* metadata := tlift (marshalSafeMetadata m) in
  on_billing (appendBillingAuditTx session_of inet_ok p eventType subjectType subjectID metadata).

Definition with_at (clock : Z) (p : BillingWriteParams) : BillingWriteParams :=
  {| OperationID := OperationID p; Reason := Reason p; ActorUserID := ActorUserID p; ActorSessionID := ActorSessionID p;
     RequestID := RequestID p; SourceIP := SourceIP p; At := normalizedBillingTime (At p) clock |}.

Definition group_write_body (p : BillingWriteParams) (action : string) (values : list string) (apply : tx group_db Group) : tx group_db Group :=
  let* replay := claim_group_operation p action (fingerprint (values ++ [trim_space (Reason p)])) "claim group operation" in
  match replay with
  | Some encoded => tret (decodeGroupOperationResponse encoded)
  | None =>
      let* result := apply in
      finish_group_operation (OperationID p) (GroupResponse result true) ;;
      group_audit p ("group." +:+ action) "group" (gs_ID (group_summary result))
        [("reason", MetaString (trim_space (Reason p))); ("operation_id", MetaString (OperationID p));
         ("member_count", MetaInt (gs_MemberCount (group_summary result))); ("model_ids", MetaStrings (gs_ModelIDs (group_summary result)))] ;;
      tret result
  end.

Definition groupWrite (clock : Z) (p : BillingWriteParams) (action : string) (values : list string) (apply : tx group_db Group) (d : group_db)
  : result store_error Group * group_db :=
  match validateBillingWrite p with
  | Err e => (Err e, d)
  | Ok _ => withTx (group_write_body (with_at clock p) action values apply) d
  end.

(** *** Creating and changing a group *)

(** The parameters after the checks that precede the transaction. *)
Record put_args := {
  pa_GroupID : string;
  pa_Name : string;
  pa_amount : string;
  pa_MemberLimitUSD : option string;
  pa_MemberLimitSet : bool;
  pa_Period : string;
  pa_CustomDays : Z;
  pa_duration : Z;
  pa_StartsAt : option Z;
  pa_PeriodCount : option Z;
  pa_ModelIDs : list string;
  pa_ModelIDsSet : bool;
  pa_At : Z;
}.

Definition put_arguments (clock : Z) (p : PutGroupParams) : result store_error put_args :=
  let! groupID := (if empty (pg_GroupID p) then Ok "" else canonicalGroupID (pg_GroupID p)) in
  let name := trim_space (pg_Name p) in
  if empty name || (120 <? rune_count name) then Err (ErrInvalid "group name is required (maximum 120 characters)") else
  let! amount := map_err (fun _ => ErrInvalid "invalid group limit") (ParseInput (pg_LimitUSD p) false true) in
  let! memberLimit := match pg_MemberLimitUSD p with
    | None => Ok None
    | Some s => let! m := map_err (fun _ => ErrInvalid "invalid group member limit") (ParseInput s false true) in Ok (Some m)
    end in
  let! duration := groupPeriodDuration (pg_Period p) (pg_CustomDays p) in
  let at_ := normalizedBillingTime (At (pg_write p)) clock in
  let! _ := validateGroupTime at_ in
  if match pg_PeriodCount p with Some n => (n <? 0) || (99 <? n) | None => false end
  then Err (ErrInvalid "group period count must be between 0 and 99") else
  let modelsSet := negb (bool_decide (pg_ModelIDs p = [])) || pg_ModelIDsSet p in
  let! models := (if modelsSet then normalizeBillingModels (pg_ModelIDs p) else Ok (pg_ModelIDs p)) in
  let! _ := match pg_StartsAt p with Some t => validateGroupTime t | None => Ok tt end in
  Ok {| pa_GroupID := groupID; pa_Name := name; pa_amount := amount; pa_MemberLimitUSD := memberLimit;
        pa_MemberLimitSet := match pg_MemberLimitUSD p with Some _ => true | None => pg_MemberLimitSet p end;
        pa_Period := pg_Period p; pa_CustomDays := pg_CustomDays p; pa_duration := duration; pa_StartsAt := pg_StartsAt p;
        pa_PeriodCount := pg_PeriodCount p; pa_ModelIDs := models; pa_ModelIDsSet := modelsSet; pa_At := at_ |}.

Definition nul : string := String (ascii_of_N 0) EmptyString.
Definition put_fingerprint (a : put_args) : list string :=
  [pa_GroupID a; pa_Name a; pa_amount a; pa_Period a; int_text (pa_CustomDays a);
   match pa_StartsAt a with Some t => RFC3339Nano t | None => "" end] ++
  (if pa_MemberLimitSet a then ["member_limit_usd"; default "null" (pa_MemberLimitUSD a)] else []) ++
  match pa_PeriodCount a with Some n => ["period_count"; int_text n] | None => [] end ++
  (if pa_ModelIDsSet a then ["model_ids"; join nul (pa_ModelIDs a)] else ["model_ids_omitted"]).

(** What the rest of the write uses of the group it starts from. *)
Record put_group_state := {
  ps_ID : string;
  ps_MemberLimitUSD : option string;
  ps_Period : string;
  ps_CustomDays : Z;
  ps_StartsAt : Z;
  ps_PeriodID : string;
  ps_PeriodStartsAt : Z;
  ps_PeriodEndsAt : Z;
  ps_PeriodCount : Z;
  ps_Number : Z;
  ps_ModelIDs : list string;
}.

Definition put_new (a : put_args) : tx group_db put_group_state :=
  let* id := newUUID in
  let* models := (if pa_ModelIDsSet a then validateBillingModelsTx (pa_ModelIDs a) ;; tret (pa_ModelIDs a) else tgets catalog_models) in
  tret {| ps_ID := id; ps_MemberLimitUSD := pa_MemberLimitUSD a; ps_Period := pa_Period a; ps_CustomDays := pa_CustomDays a;
          ps_StartsAt := default (pa_At a) (pa_StartsAt a); ps_PeriodID := ""; ps_PeriodStartsAt := 0; ps_PeriodEndsAt := 0;
          ps_PeriodCount := 1; ps_Number := 1; ps_ModelIDs := models |}.

Definition put_existing (a : put_args) : tx group_db put_group_state :=
  lockGroupTx (pa_GroupID a) ;;
  let* g := rollGroupTx (pa_GroupID a) (pa_At a) in
  tguard (is_nil (gs_ArchivedAt g)) (ErrConflict "group is archived") ;;
  let* models := (if pa_ModelIDsSet a then validateBillingModelsTx (pa_ModelIDs a) ;; tret (pa_ModelIDs a) else tret (gs_ModelIDs g)) in
  tret {| ps_ID := gs_ID g; ps_MemberLimitUSD := gs_MemberLimitUSD g; ps_Period := gs_Period g; ps_CustomDays := gs_CustomDays g;
          ps_StartsAt := gs_StartsAt g; ps_PeriodID := gs_PeriodID g; ps_PeriodStartsAt := gs_PeriodStartsAt g;
          ps_PeriodEndsAt := gs_PeriodEndsAt g; ps_PeriodCount := gs_PeriodCount g; ps_Number := gs_CurrentPeriodNumber g;
          ps_ModelIDs := models |}.

Definition insert_group (id : string) (row : group_row) : tx group_db unit :=
  tguard (group_check row) (ErrInvalid "create group") ;;
  let* d := tgets (fun d => d) in
  tguard (bool_decide (gd_groups d !! id = None)) (ErrConflict "create group") ;;
  tmod (fun d => set_groups (<[id := row]> (gd_groups d)) d) ;;
  on_billing (tmod (fun b => set_user_groups ({[id]} ∪ user_groups b) b)).

Definition put_row (a : put_args) (start limit : Z) (memberLimit : option Z) (count number : Z) (expires : option Z) (models : list string)
  (old : option group_row) : group_row :=
  {| ug_name := pa_Name a; ug_limit := limit; ug_member_limit := memberLimit; ug_period := pa_Period a; ug_custom_days := pa_CustomDays a;
     ug_starts_at := start; ug_current_period := old ≫= ug_current_period; ug_period_count := count; ug_current_number := number;
     ug_expires_at := expires; ug_archived_at := old ≫= ug_archived_at;
     ug_created_at := match old with Some g => ug_created_at g | None => pa_At a end; ug_updated_at := pa_At a; ug_model_ids := models;
     ug_models_initialized := negb (bool_decide (models = []));
     ug_usage_visible := match old with Some g => ug_usage_visible g | None => false end |}.

(** [UPDATE group_usage_periods SET limit_usd, member_limit_usd WHERE id]. *)
Definition update_period_limits (pid : string) (limit : Z) (memberLimit : option Z) : tx group_db unit :=
  on_billing (update_one "update group period limit" group_periods set_group_periods pid
    (fun p => GroupPeriod (gp_group p) limit (used_usd p) memberLimit) group_period_check).

Definition put_body (a : put_args) : tx group_db Group :=
  let create := empty (pa_GroupID a) in
  let* g := (if create then put_new a else put_existing a) in
  let reset := create || negb (bool_decide (ps_Period g = pa_Period a)) || negb (ps_CustomDays g =? pa_CustomDays a) ||
    match pa_StartsAt a with Some t => negb (t =? ps_StartsAt g) | None => false end in
  let start := if reset then default (pa_At a) (pa_StartsAt a) else ps_StartsAt g in
  let memberLimit := if pa_MemberLimitSet a then pa_MemberLimitUSD a else ps_MemberLimitUSD g in
  let count := default (ps_PeriodCount g) (pa_PeriodCount a) in
  let number := if reset then 1 else ps_Number g in
  let periodStart := if reset then groupPeriodStart start (pa_At a) (pa_duration a) else ps_PeriodStartsAt g in
  let* periodEnd := (if reset then tlift (addGroupPeriods periodStart (pa_duration a) 1) else tret (ps_PeriodEndsAt g)) in
  let* expires := tlift (groupExpiration periodEnd (pa_duration a) count number) in
  let operation := if create then "create group" else "update group" in
  let* limit := numeric_param operation (pa_amount a) in
  let* member := nullable_numeric operation memberLimit in
  (if create then insert_group (ps_ID g) (put_row a start limit member count number expires (ps_ModelIDs g) None)
   else update_group "update group" (ps_ID g) (fun row => put_row a start limit member count number expires (ps_ModelIDs g) (Some row))) ;;
  (if reset then replaceGroupPeriodTx (ps_ID g) (ps_PeriodID g) (pa_amount a) memberLimit number periodStart periodEnd (pa_At a) (pa_At a)
   else update_period_limits (ps_PeriodID g) limit member ;; let* _ := rollGroupTx (ps_ID g) (pa_At a) in tret tt) ;;
  groupDetailTx collate (ps_ID g).

Definition PutGroup (clock : Z) (p : PutGroupParams) (d : group_db) : result store_error Group * group_db :=
  match put_arguments clock p with
  | Err e => (Err e, d)
  | Ok a => groupWrite clock (with_at clock (pg_write p)) "put" (put_fingerprint a) (put_body a) d
  end.

(** *** Archiving and reading *)

Definition archive_row (at_ : Z) (g : group_row) : group_row :=
  {| ug_name := ug_name g; ug_limit := ug_limit g; ug_member_limit := ug_member_limit g; ug_period := ug_period g;
     ug_custom_days := ug_custom_days g; ug_starts_at := ug_starts_at g; ug_current_period := ug_current_period g;
     ug_period_count := ug_period_count g; ug_current_number := ug_current_number g; ug_expires_at := ug_expires_at g;
     ug_archived_at := Some (default at_ (ug_archived_at g)); ug_created_at := ug_created_at g; ug_updated_at := at_;
     ug_model_ids := ug_model_ids g; ug_models_initialized := ug_models_initialized g; ug_usage_visible := ug_usage_visible g |}.

Definition archive_body (groupID : string) (at_ : Z) : tx group_db Group :=
  lockGroupTx groupID ;;
  let* g := rollGroupTx groupID at_ in
  tguard (gs_MemberCount g =? 0) (ErrConflict "only empty groups can be archived") ;;
  update_group "archive group" groupID (archive_row at_) ;;
  close_periods (gs_PeriodID g) at_ ;;
  groupDetailTx collate groupID.

Definition ArchiveGroup (clock : Z) (p : BillingWriteParams) (groupID : string) (d : group_db) : result store_error Group * group_db :=
  match canonicalGroupID groupID with
  | Err e => (Err e, d)
  | Ok id =>
      let p := with_at clock p in
      groupWrite clock p "archive" [id] (archive_body id (At p)) d
  end.

Definition GetGroup (now : Z) (id : string) (d : group_db) : result store_error Group * group_db :=
  match canonicalGroupID id with
  | Err e => (Err e, d)
  | Ok id => withTx (lockGroupTx id ;; let* _ := rollGroupTx id now in groupDetailTx collate id) d
  end.

(** [ORDER BY created_at, id]; every group is rolled in a transaction of its
    own, at the [n]-th reading of the clock. *)
Definition group_order (a b : string * group_row) : bool :=
  if ug_created_at a.2 <? ug_created_at b.2 then true else if ug_created_at b.2 <? ug_created_at a.2 then false else str_ltb a.1 b.1.
Fixpoint list_each (now : nat -> Z) (n : nat) (ids : list string) (d : group_db) : result store_error (list GroupSummary) * group_db :=
  match ids with
  | [] => (Ok [], d)
  | id :: rest =>
      match withTx (lockGroupTx id ;; rollGroupTx id (now n)) d with
      | (Err e, d) => (Err e, d)
      | (Ok g, d) => let '(r, d) := list_each now (S n) rest d in (match r with Ok gs => Ok (g :: gs) | Err e => Err e end, d)
      end
  end.
Definition ListGroups (now : nat -> Z) (d : group_db) : result store_error (list GroupSummary) * group_db :=
  list_each now 0 (map fst (stable_sort group_order (map_to_list (gd_groups d)))) d.

End writes.

(** ** The calendar is exact *)

(** A duration the groups use: between 1 and 106751 days. *)
Definition period_duration (duration : Z) : Prop := exists days, duration = days * Day24 /\ 1 <= days <= 106751.
(** A time of the years 1 to 9999. *)
Definition group_time (t : Z) : Prop := 0 <= t < year10000.

Lemma group_duration_days period days duration : groupPeriodDuration period days = Ok duration -> period_duration duration.
Proof.
  unfold groupPeriodDuration, billingPeriodDuration, period_duration. change Day24 with 86400000000000. repeat case_bool_decide; try done.
  - destruct (Z.ltb_spec days 1), (Z.ltb_spec 106751 days); try done. cbn [orb]. intros [= <-]. exists days. split; [|lia].
    change Hour with 3600000000000. rewrite (wrap64_id (days * 24)) by (unfold is_int64, min_int64, max_int64; lia).
    rewrite wrap64_id by (unfold is_int64, min_int64, max_int64; lia). lia.
  - destruct (negb _); [done|]. intros [= <-]. exists 1. done.
  - destruct (negb _); [done|]. intros [= <-]. exists 7. done.
  - destruct (negb _); [done|]. intros [= <-]. exists 31. done.
  - by destruct (negb _).
Qed.

Lemma group_time_valid t : validateGroupTime t = Ok tt <-> group_time t.
Proof.
  unfold validateGroupTime, group_time. rewrite <- Year_range. destruct (Z.ltb_spec (Year t) 1), (Z.ltb_spec 9999 (Year t)); cbn [orb];
    split; (done || lia).
Qed.

Lemma group_time_invalid t : ~ group_time t -> exists e, validateGroupTime t = Err e.
Proof.
  intros H. unfold validateGroupTime. destruct (_ || _) eqn:E; [by eexists|]. destruct H. apply group_time_valid. unfold validateGroupTime. by rewrite E.
Qed.

Lemma wrap_small z : - 2 ^ 62 <= z <= 2 ^ 62 -> wrap64 z = z.
Proof. intros. apply wrap64_id. unfold is_int64, min_int64, max_int64. lia. Qed.

Lemma quot_seconds days : 1 <= days -> Z.quot (days * Day24) Second = days * 86400.
Proof. intros. rewrite Z.quot_div_nonneg by (unfold Day24, Hour, Minute, Second; lia).
  replace (days * Day24) with (days * 86400 * Second) by (unfold Day24, Hour, Minute, Second; lia). apply Z.div_mul. done. Qed.

Lemma div_days x days : 1 <= days -> x / Second / (days * 86400) = x / (days * Day24).
Proof. intros. rewrite Z.div_div by (unfold Second; lia). f_equal. unfold Day24, Hour, Minute, Second. lia. Qed.

(** The start of the period that contains [at_], counted from the anchor. *)
Lemma group_period_start anchor at_ duration :
  group_time anchor -> group_time at_ -> period_duration duration ->
  groupPeriodStart anchor at_ duration = anchor + Z.max 0 ((at_ - anchor) / duration) * duration.
Proof.
  intros Ha Ht (days & -> & Hd). unfold groupPeriodStart. destruct (Z.ltb_spec at_ anchor).
  - assert ((at_ - anchor) / (days * Day24) < 0) by (apply Z.div_lt_upper_bound; unfold Day24, Hour, Minute, Second; lia). lia.
  - assert (Hq : 0 <= (at_ - anchor) / (days * Day24)) by (apply Z.div_pos; unfold Day24, Hour, Minute, Second; lia).
    rewrite Z.max_r by done. rewrite quot_seconds by lia. unfold group_time in *. change year10000 with 315537897600000000000 in *.
    assert (He : (if Nanosecond_of at_ <? Nanosecond_of anchor then wrap64 (wrap64 (Unix at_ - Unix anchor) - 1)
                  else wrap64 (Unix at_ - Unix anchor)) = (at_ - anchor) / Second).
    { unfold Unix, Nanosecond_of, unix_epoch, Second. pose proof (Z.div_mod at_ 1000000000). pose proof (Z.div_mod anchor 1000000000).
      pose proof (Z.mod_pos_bound at_ 1000000000). pose proof (Z.mod_pos_bound anchor 1000000000).
      rewrite (wrap_small (at_ / 1000000000 - 62135596800 - (anchor / 1000000000 - 62135596800))) by lia.
      rewrite wrap_small by lia. destruct (Z.ltb_spec (at_ mod 1000000000) (anchor mod 1000000000)).
      - apply Z.div_unique with (r := at_ mod 1000000000 - anchor mod 1000000000 + 1000000000); lia.
      - apply Z.div_unique with (r := at_ mod 1000000000 - anchor mod 1000000000); lia. }
    rewrite He. rewrite Z.quot_div_nonneg, div_days by (try (apply Z.div_pos; unfold Second); lia).
    set (k := (at_ - anchor) / (days * Day24)) in *.
    assert (Hk : k * (days * 86400) <= 315537897600).
    { assert (k * (days * Day24) <= at_ - anchor) as Hk by (unfold k; rewrite Z.mul_comm; apply Z.mul_div_le; unfold Day24, Hour, Minute, Second; lia).
      unfold Day24, Hour, Minute, Second in Hk. lia. }
    assert (0 <= k * (days * 86400)) by lia. set (s := k * (days * 86400)) in *.
    assert (- 62135596800 <= Unix anchor <= 253402300800) by (unfold Unix, unix_epoch, Second; pose proof (Z.div_mod anchor 1000000000); pose proof (Z.mod_pos_bound anchor 1000000000); lia).
    rewrite (wrap_small s) by lia. rewrite wrap_small by lia. rewrite time_Unix_Unix. subst s. unfold Day24, Hour, Minute, Second. lia.
Qed.

(** Adding periods succeeds exactly when the result is before the year 10000. *)
Lemma add_group_periods anchor duration count :
  group_time anchor -> period_duration duration -> 0 <= count ->
  if anchor + count * duration <? year10000 then addGroupPeriods anchor duration count = Ok (anchor + count * duration)
  else exists e, addGroupPeriods anchor duration count = Err e.
Proof.
  intros Ha (days & -> & Hd) Hc. unfold addGroupPeriods. rewrite (proj2 (group_time_valid anchor) Ha). cbn [rbind]. rewrite quot_seconds by lia.
  unfold group_time in Ha. change year10000 with (315537897600 * Second) in *.
  pose proof (Z.div_mod anchor Second ltac:(done)) as E. pose proof (Z.mod_pos_bound anchor Second ltac:(done)).
  assert (Hu : 0 <= anchor / Second < 315537897600) by (unfold Second in *; lia).
  assert (Hl : wrap64 (lastSecond - Unix anchor) = 315537897599 - anchor / Second).
  { rewrite wrap_small; unfold lastSecond, Unix, unix_epoch; lia. }
  rewrite Hl, Z.quot_div_nonneg by lia. replace (count <? 0) with false by lia. replace (days * 86400 <=? 0) with false by lia. cbn [orb].
  set (q := (315537897599 - anchor / Second) / (days * 86400)).
  assert (Hq : q < count <-> 315537897600 * Second <= anchor + count * (days * Day24)).
  { transitivity (315537897599 - anchor / Second < count * (days * 86400)).
    - unfold q. split; intros Hq.
      + apply Z.lt_nge. intros Hle. apply (Z.lt_irrefl count). apply Z.le_lt_trans with ((315537897599 - anchor / Second) / (days * 86400)); [|done].
        apply Z.div_le_lower_bound; lia.
      + apply Z.div_lt_upper_bound; lia.
    - unfold Day24, Hour, Minute, Second in *. lia. }
  destruct (Z.ltb_spec q count) as [Hlt|Hge].
  - apply Hq in Hlt. destruct (Z.ltb_spec (anchor + count * (days * Day24)) (315537897600 * Second)); [lia|by eexists].
  - destruct (Z.ltb_spec (anchor + count * (days * Day24)) (315537897600 * Second)) as [Hb|Hb]; [|apply Hq in Hb; lia].
    f_equal. assert (0 <= count * (days * 86400) <= 315537897600) by (unfold Day24, Hour, Minute, Second in *; lia).
    set (s := count * (days * 86400)) in *. rewrite (wrap_small s) by lia. rewrite wrap_small by (unfold Unix, unix_epoch; lia).
    rewrite time_Unix_Unix. subst s. unfold Day24, Hour, Minute, Second. lia.
Qed.

Lemma add_group_periods_Ok anchor duration count t :
  group_time anchor -> period_duration duration -> 0 <= count ->
  addGroupPeriods anchor duration count = Ok t <-> t = anchor + count * duration /\ t < year10000.
Proof.
  intros Ha Hd Hc. pose proof (add_group_periods anchor duration count Ha Hd Hc) as H.
  destruct (Z.ltb_spec (anchor + count * duration) year10000) as [Hb|Hb].
  - rewrite H. split; [intros [= <-]; done|by intros [-> _]].
  - destruct H as [e ->]. split; [done|intros [-> ?]; lia].
Qed.

Lemma duration_pos duration : period_duration duration -> Day24 <= duration.
Proof. intros (days & -> & ?). unfold Day24, Hour, Minute, Second. lia. Qed.

(** The deadline of a term: the end of its last period. *)
Definition term_end (end_ duration count number : Z) : option Z :=
  if count =? 0 then None else Some (end_ + (count - number) * duration).

Lemma group_expiration end_ duration count number x :
  group_time end_ -> period_duration duration -> 0 <= count <= 99 -> 1 <= number ->
  groupExpiration end_ duration count number = Ok x ->
  x = term_end end_ duration count number /\ (count = 0 \/ number <= count) /\ option_check (fun e => e <? year10000) x = true.
Proof.
  intros He Hd Hc Hn. unfold groupExpiration, term_end. destruct (Z.eqb_spec count 0); [intros [= <-]; split_and!; auto|].
  destruct (Z.ltb_spec count number); [done|]. rewrite wrap_small by lia. destruct (addGroupPeriods _ _ _) as [t|] eqn:E; [|done].
  apply add_group_periods_Ok in E as [-> Hb]; [|done|done|lia]. intros [= <-]. split_and!; auto. cbn. lia.
Qed.

(** ** Consistency of the group tables *)

(** A group and its current period: the amounts agree, the period lies on the
    group's grid within the supported years, and the deadline is the end of the
    last period of the term. *)
Record group_ok (d : group_db) (id : string) (g : group_row) (pid : string) (t : period_times) (p : group_period_row) (duration : Z) : Prop := {
  ok_check : group_check g = true;
  ok_current : ug_current_period g = Some pid;
  ok_pid : pid <> "";
  ok_times : gd_periods d !! pid = Some t;
  ok_amounts : group_periods (gd_billing d) !! pid = Some p;
  ok_owner : gp_group p = id;
  ok_limits : limit_usd p = ug_limit g /\ member_limit_usd p = ug_member_limit g;
  ok_duration : groupPeriodDuration (ug_period g) (ug_custom_days g) = Ok duration;
  ok_starts : group_time (pd_starts t);
  ok_anchor : 0 <= ug_starts_at g <= pd_starts t /\ (pd_starts t - ug_starts_at g) mod duration = 0;
  ok_number : (ug_current_number g - 1) * duration <= pd_starts t - ug_starts_at g;
  ok_ends : pd_ends t = pd_starts t + duration /\ pd_ends t < year10000;
  ok_expires : ug_expires_at g = term_end (pd_ends t) duration (ug_period_count g) (ug_current_number g) /\
    option_check (fun e => e <? year10000) (ug_expires_at g) = true;
}.

Record groups_inv (d : group_db) : Prop := {
  gi_groups : forall id g, gd_groups d !! id = Some g -> exists pid t p duration, group_ok d id g pid t p duration;
  gi_periods : dom (gd_periods d) = dom (group_periods (gd_billing d));
  gi_ids : user_groups (gd_billing d) = dom (gd_groups d);
  gi_owner : forall pid p, group_periods (gd_billing d) !! pid = Some p -> is_Some (gd_groups d !! gp_group p);
}.

Lemma group_check_facts g : group_check g = true ->
  limit_check (ug_limit g) = true /\ option_check limit_check (ug_member_limit g) = true /\ 0 <= ug_period_count g <= 99 /\
  1 <= ug_current_number g <= 2 ^ 31 - 1 /\ (ug_period_count g = 0 \/ ug_current_number g <= ug_period_count g).
Proof. unfold group_check, int32b. rewrite !andb_true_iff, orb_true_iff. intros. destruct_and!. split_and!; try done; lia. Qed.

Lemma group_check_duration g : group_check g = true -> exists duration, groupPeriodDuration (ug_period g) (ug_custom_days g) = Ok duration.
Proof.
  unfold group_check. rewrite !andb_true_iff. intros H. destruct_and!. unfold groupPeriodDuration, billingPeriodDuration.
  destruct (bool_decide (ug_period g = "custom")).
  - replace (ug_custom_days g <? 1) with false by lia. replace (106751 <? ug_custom_days g) with false by lia. by eexists.
  - rewrite andb_true_iff in *. destruct_and!. assert (ug_custom_days g = 0) as -> by lia. cbn [Z.eqb negb].
    assert (Hin : ug_period g ∈ ["day"; "week"; "month"]) by (eapply bool_decide_eq_true; eassumption).
    rewrite !elem_of_cons, elem_of_nil in Hin. destruct Hin as [->|[->|[->|[]]]]; by eexists.
Qed.

(** The summary of a consistent group. *)
Lemma read_summary d id g pid t p duration :
  gd_groups d !! id = Some g -> group_ok d id g pid t p duration ->
  group_summary_of id d = Some (summary_of id g pid t (used_usd p) d).
Proof. intros Hg [? Hc ? Ht Hp]. unfold group_summary_of. rewrite Hg. cbn. rewrite Hc. cbn. rewrite Ht. cbn. by rewrite Hp. Qed.

Lemma read_summary_Ok d id s d' :
  groups_inv d -> readGroupSummaryTx id d = Ok (s, d') ->
  d' = d /\ exists g pid t p duration, gd_groups d !! id = Some g /\ group_ok d id g pid t p duration /\ s = summary_of id g pid t (used_usd p) d.
Proof.
  intros I H. unfold readGroupSummaryTx in H. rewrite tgets_bind in H. destruct (gd_groups d !! id) as [g|] eqn:Hg.
  - destruct (gi_groups d I id g Hg) as (pid & t & p & duration & Hok). rewrite (read_summary d id g pid t p duration Hg Hok) in H.
    injection H as <- <-. split; [done|]. by exists g, pid, t, p, duration.
  - unfold group_summary_of in H. rewrite Hg in H. done.
Qed.

(** ** Replacing the period of a group *)

(** The state after [replaceGroupPeriodTx] with the random block [b]. *)
Definition replaced (d : group_db) (id : string) (g : group_row) (pid b : string) (rest : list string) (limit : Z) (memberLimit : option Z)
  (number starts ends closedAt at_ : Z) : group_db :=
  let new := uuid_text b in
  let closed := if empty pid then gd_periods d else alter (close_period closedAt) pid (gd_periods d) in
  GroupDB (set_group_periods (<[new := GroupPeriod id limit 0 memberLimit]> (group_periods (gd_billing d))) (gd_billing d)) (gd_names d)
    (gd_mirror d) (<[id := advance_group new at_ number g]> (gd_groups d)) (<[new := PeriodTimes starts ends None at_]> closed)
    (gd_memberships d) (gd_operations d) (gd_catalog d) rest.

Lemma replace_Ok d id g pid limitUSD memberUSD limit memberLimit number starts ends closedAt at_ d' :
  gd_groups d !! id = Some g -> numeric_of limitUSD = Some limit -> nullable_numeric "create group period" memberUSD = tret memberLimit ->
  replaceGroupPeriodTx id pid limitUSD memberUSD number starts ends closedAt at_ d = Ok (tt, d') <->
  exists b rest, gd_random d = b :: rest /\ gd_periods d !! uuid_text b = None /\ starts < ends /\ limit_check limit = true /\
    option_check limit_check memberLimit = true /\ group_check (advance_group (uuid_text b) at_ number g) = true /\
    d' = replaced d id g pid b rest limit memberLimit number starts ends closedAt at_.
Proof.
  intros Hg Hl Hm. unfold replaceGroupPeriodTx. rewrite Hm. unfold numeric_param. rewrite Hl.
  assert (Hclose : exists d1, (if empty pid then tret tt else close_periods pid closedAt) d = Ok (tt, d1) /\
    d1 = set_period_times (if empty pid then gd_periods d else alter (close_period closedAt) pid (gd_periods d)) d).
  { destruct (empty pid); eexists; (split; [reflexivity|]); by destruct d. }
  destruct Hclose as (d1 & Hrun & Hd1). rewrite (tbind_run _ _ _ _ _ Hrun). unfold tbind at 1, newUUID. subst d1. gtables.
  destruct (gd_random d) as [|b rest] eqn:Hr; [split; [done|by intros (? & ? & ? & _)]|].
  rewrite !tret_bind. unfold insert_period. unfold tbind at 1. rewrite tguard_bind.
  assert (Hn : (if empty pid then gd_periods d else alter (close_period closedAt) pid (gd_periods d)) !! uuid_text b = None <->
    gd_periods d !! uuid_text b = None) by (destruct (empty pid); [done|apply lookup_alter_None]).
  destruct (_ && _ && _) eqn:Hck.
  - rewrite !andb_true_iff in Hck. destruct Hck as [[Hlt Hck] Hmk]. apply Z.ltb_lt in Hlt. rewrite tgets_bind, tguard_bind. gtables.
    destruct (bool_decide_reflect ((if empty pid then gd_periods d else alter (close_period closedAt) pid (gd_periods d)) !! uuid_text b = None)) as [Hf|Hf].
    + rewrite tguard_bind, Hg. rewrite bool_decide_true by done. rewrite tmod_bind. unfold on_billing, tzoom, tmod at 1. gtables.
      unfold update_group. rewrite tgets_bind. gtables. cbn [update_rows]. rewrite Hg.
      destruct (group_check (advance_group (uuid_text b) at_ number g)) eqn:Hgc.
      * split.
        -- intros [= <-]. exists b, rest. split_and!; auto; by apply Hn.
        -- intros (b' & rest' & [= <- <-] & _ & _ & _ & _ & _ & ->). reflexivity.
      * split; [done|]. intros (b' & rest' & [= <- <-] & _ & _ & _ & _ & ? & _). congruence.
    + split; [done|]. intros (b' & rest' & [= <- <-] & Hf' & _). by rewrite <- Hn in Hf'.
  - split; [done|]. intros (b' & rest' & [= <- <-] & _ & Hlt & H1 & H2 & _). rewrite H1, H2 in Hck. apply Z.ltb_lt in Hlt. by rewrite Hlt in Hck.
Qed.

(** ** Rolling *)

(** The number of periods between the current one and the one that contains [at_]. *)
Definition periods_since (t : period_times) (duration at_ : Z) : Z := (at_ - pd_starts t) / duration.

(** The group stays as it is: archived, its period is not over, its term is,
    or the next period would leave the supported years. *)
Definition roll_idle (g : group_row) (t : period_times) (duration at_ : Z) : bool :=
  negb (is_nil (ug_archived_at g)) || (at_ <? pd_ends t) || negb (before_deadline at_ (ug_expires_at g)) ||
  (year10000 <=? pd_starts t + (periods_since t duration at_ + 1) * duration).

Definition rolled (d : group_db) (id : string) (g : group_row) (pid : string) (t : period_times) (duration at_ : Z) (b : string) (rest : list string)
  : group_db :=
  let start := pd_starts t + periods_since t duration at_ * duration in
  replaced d id g pid b rest (ug_limit g) (ug_member_limit g) (ug_current_number g + periods_since t duration at_) start (start + duration)
    (pd_ends t) at_.

Section roll.
Context (d : group_db) (id : string) (g : group_row) (pid : string) (t : period_times) (p : group_period_row) (duration at_ : Z).
Context (Hg : gd_groups d !! id = Some g) (Hok : group_ok d id g pid t p duration) (Ht : group_time at_).

(** A period that is over: [at_] lies [k] >= 1 periods later, within the term. *)
Lemma roll_facts : roll_idle g t duration at_ = false ->
  let k := periods_since t duration at_ in
  1 <= k /\ pd_starts t + k * duration <= at_ < pd_starts t + (k + 1) * duration /\ pd_starts t + (k + 1) * duration < year10000 /\
  is_nil (ug_archived_at g) = true /\ before_deadline at_ (ug_expires_at g) = true /\
  (ug_period_count g = 0 \/ ug_current_number g + k <= ug_period_count g).
Proof.
  destruct Hok as [Hc _ _ _ _ _ _ Hd Hs [Ha _] Hn [He _] [Hx _]]. apply group_duration_days in Hd. pose proof (duration_pos duration Hd) as Hpos.
  unfold roll_idle. rewrite !orb_false_iff, !negb_false_iff. intros [[[? Hend] Hdl] Hy].
  apply Z.ltb_ge in Hend. apply Z.leb_gt in Hy. unfold periods_since in *. set (k := (at_ - pd_starts t) / duration) in *.
  assert (0 < duration) by (unfold Day24, Hour, Minute, Second in Hpos; lia).
  pose proof (Z.div_mod (at_ - pd_starts t) duration ltac:(lia)). pose proof (Z.mod_pos_bound (at_ - pd_starts t) duration ltac:(lia)). fold k in H1.
  assert (1 <= k) by (apply Z.div_le_lower_bound; lia). split_and!; try done; try nia.
  apply group_check_facts in Hc as (_ & _ & Hcount & Hnum & Hcn). rewrite Hx in Hdl. unfold term_end in Hdl.
  destruct (Z.eqb_spec (ug_period_count g) 0); [by left|right]. cbn in Hdl. apply Z.ltb_lt in Hdl. rewrite He in Hdl. nia.
Qed.

Lemma roll_check b : roll_idle g t duration at_ = false ->
  group_check (advance_group b at_ (ug_current_number g + periods_since t duration at_) g) = true.
Proof.
  intros Hi. destruct (roll_facts Hi) as (Hk & Hs & Hy & _ & _ & Hn). destruct Hok as [Hc _ _ _ _ _ _ Hd Hst [Ha _] Hnum _ _].
  apply group_duration_days, duration_pos in Hd. unfold group_time in *. change year10000 with 315537897600000000000 in *. change Day24 with 86400000000000 in Hd.
  assert (ug_current_number g + periods_since t duration at_ <= 3652100) as Hmax by nia.
  revert Hc Hk Hn Hmax. generalize (periods_since t duration at_). clear. intros k Hc Hk Hn Hmax. unfold group_check, advance_group in *.
  cbn [ug_name ug_limit ug_member_limit ug_period ug_custom_days ug_period_count ug_current_number ug_expires_at ug_models_initialized ug_model_ids].
  rewrite !andb_true_iff in *. destruct Hc as [[[[[[[[[[[? ?] ?] ?] ?] ?] ?] ?] Hi] ?] ?] ?]. unfold int32b in *. split_and!; try assumption; lia.
Qed.

Lemma roll_arguments : roll_idle g t duration at_ = false ->
  let k := periods_since t duration at_ in let start := pd_starts t + k * duration in
  groupPeriodStart (pd_starts t) at_ duration = start /\ addGroupPeriods start duration 1 = Ok (start + duration) /\
  wrap64 (ug_current_number g + Z.quot (wrap64 (Unix start - Unix (pd_starts t))) (Z.quot duration Second)) = ug_current_number g + k.
Proof.
  intros Hi. destruct (roll_facts Hi) as (Hk & Hs & Hy & _ & _ & Hn). pose proof (roll_check "" Hi) as Hck.
  destruct Hok as [Hc _ _ _ _ _ _ Hd Hst [Ha _] Hnum _ _].
  apply group_duration_days in Hd. pose proof (duration_pos duration Hd) as Hpos. cbv zeta. unfold group_time in *.
  set (k := periods_since t duration at_) in *. split_and!.
  - rewrite group_period_start by done. rewrite Z.max_r; [done|]. unfold periods_since in k. lia.
  - apply add_group_periods_Ok; [|done|lia|]; unfold group_time; unfold Day24, Hour, Minute, Second in Hpos; nia.
  - destruct Hd as (days & -> & Hdays). rewrite quot_seconds by lia.
    assert (Hu : Unix (pd_starts t + k * (days * Day24)) - Unix (pd_starts t) = k * (days * 86400)).
    { unfold Unix. replace (pd_starts t + k * (days * Day24)) with (pd_starts t + k * (days * 86400) * Second)
        by (unfold Day24, Hour, Minute, Second; lia). rewrite Z.div_add by done. lia. }
    rewrite Hu. change year10000 with 315537897600000000000 in *. change Day24 with 86400000000000 in *.
    rewrite (wrap_small (k * (days * 86400))) by nia. rewrite Z.quot_mul by lia. apply wrap_small.
    apply group_check_facts in Hck as (_ & _ & _ & ? & _). cbn [ug_current_number advance_group] in *. lia.
Qed.

Lemma rolled_summary b rest :
  let k := periods_since t duration at_ in let start := pd_starts t + k * duration in
  group_summary_of id (rolled d id g pid t duration at_ b rest) =
  Some (summary_of id (advance_group (uuid_text b) at_ (ug_current_number g + k) g) (uuid_text b) (PeriodTimes start (start + duration) None at_) 0
    (rolled d id g pid t duration at_ b rest)).
Proof.
  cbv zeta. set (d1 := rolled _ _ _ _ _ _ _ _ _). set (g1 := advance_group _ _ _ _). set (t1 := PeriodTimes _ _ _ _).
  assert (gd_groups d1 !! id = Some g1) as E1 by apply lookup_insert_eq.
  assert (gd_periods d1 !! uuid_text b = Some t1) as E2 by apply lookup_insert_eq.
  assert (group_periods (gd_billing d1) !! uuid_text b = Some (GroupPeriod id (ug_limit g) 0 (ug_member_limit g))) as E3 by apply lookup_insert_eq.
  clearbody d1. unfold group_summary_of. rewrite E1. cbn. rewrite E2. cbn. by rewrite E3.
Qed.

Lemma roll_Ok s d' :
  rollGroupTx id at_ d = Ok (s, d') <->
  (roll_idle g t duration at_ = true /\ d' = d /\ s = summary_of id g pid t (used_usd p) d) \/
  (roll_idle g t duration at_ = false /\ exists b rest, gd_random d = b :: rest /\ gd_periods d !! uuid_text b = None /\
     d' = rolled d id g pid t duration at_ b rest /\ group_summary_of id d' = Some s).
Proof.
  unfold rollGroupTx, readGroupSummaryTx. pose proof Hok as [Hc Hcur Hpid Htm Hamt Hown Hlim Hd Hst [Ha _] Hnum [He Hey] [Hx _]].
  rewrite (tbind_run _ _ d (summary_of id g pid t (used_usd p) d) d) by (rewrite tgets_bind, (read_summary d id g pid t p duration Hg Hok); done).
  cbn [gs_ArchivedAt gs_PeriodEndsAt gs_ExpiresAt gs_Period gs_CustomDays gs_PeriodStartsAt gs_CurrentPeriodNumber gs_PeriodCount gs_ID gs_PeriodID
       gs_LimitUSD gs_MemberLimitUSD summary_of].
  destruct (_ || _ || _) eqn:Hfirst.
  { assert (roll_idle g t duration at_ = true) as Hi by (unfold roll_idle; by rewrite Hfirst). rewrite Hi.
    split; [intros [= <- <-]; by left|]. intros [(_ & -> & ->)|[? _]]; done. }
  rewrite Hd. unfold tlift at 1. unfold tbind at 1. destruct (roll_idle g t duration at_) eqn:Hi.
  - unfold roll_idle in Hi. rewrite Hfirst in Hi. cbn [orb] in Hi. apply Z.leb_le in Hi. rewrite !orb_false_iff in Hfirst. destruct Hfirst as [[_ Hend] _].
    apply group_duration_days in Hd. pose proof (duration_pos duration Hd) as Hpos.
    assert (Hge : pd_ends t <= at_) by (by apply Z.ltb_ge). change Day24 with 86400000000000 in Hpos.
    assert (Hq : 0 <= periods_since t duration at_) by (apply Z.div_pos; lia).
    rewrite group_period_start by done. fold (periods_since t duration at_). rewrite Z.max_r by done.
    assert (Hs : pd_starts t + periods_since t duration at_ * duration <= at_).
    { unfold periods_since. pose proof (Z.mul_div_le (at_ - pd_starts t) duration ltac:(lia)). lia. }
    pose proof (add_group_periods (pd_starts t + periods_since t duration at_ * duration) duration 1) as Hadd.
    destruct (Z.ltb_spec (pd_starts t + periods_since t duration at_ * duration + 1 * duration) year10000); [lia|].
    destruct Hadd as [e ->]; [unfold group_time in *; nia|done|lia|].
    split; [intros [= <- <-]; by left|]. intros [(_ & -> & ->)|[? _]]; done.
  - destruct (roll_arguments Hi) as (-> & -> & ->). rewrite tguard_bind.
    destruct (roll_facts Hi) as (Hk & Hs & Hy & _ & _ & Hn). replace (negb _) with true by (apply group_check_facts in Hc as (_ & _ & ? & _); lia).
    assert (Hl : limit_check (ug_limit g) = true /\ option_check limit_check (ug_member_limit g) = true) by (apply group_check_facts in Hc; tauto).
    assert (Hm : nullable_numeric "create group period" (numeric_text <$> ug_member_limit g) = tret (ug_member_limit g)).
    { destruct (ug_member_limit g); cbn; [|done]. unfold numeric_param. by rewrite numeric_of_text. }
    set (start := pd_starts t + periods_since t duration at_ * duration) in *.
    pose proof (fun d1 => replace_Ok d id g pid (numeric_text (ug_limit g)) (numeric_text <$> ug_member_limit g) (ug_limit g) (ug_member_limit g)
      (ug_current_number g + periods_since t duration at_) start (start + duration) (pd_ends t) at_ d1 Hg (numeric_of_text _) Hm) as Hrep.
    split.
    + intros ([] & d1 & Hrun & Hread)%tbind_Ok. apply Hrep in Hrun as (b & rest & Hr & Hf & _ & _ & _ & _ & ->).
      right. split; [done|]. exists b, rest. split; [done|]. split; [done|].
      unfold readGroupSummaryTx in Hread. rewrite tgets_bind in Hread. fold (rolled d id g pid t duration at_ b rest) in Hread.
      destruct (group_summary_of _ _) eqn:E; [|done]. injection Hread as -> <-. done.
    + intros [[? _]|(_ & b & rest & Hr & Hf & -> & Hsum)]; [done|].
      assert (Hrun : exists d1, replaceGroupPeriodTx id pid (numeric_text (ug_limit g)) (numeric_text <$> ug_member_limit g)
        (ug_current_number g + periods_since t duration at_) start (start + duration) (pd_ends t) at_ d = Ok (tt, d1) /\ d1 = rolled d id g pid t duration at_ b rest).
      { eexists. split; [|reflexivity]. apply Hrep. exists b, rest. split_and!; try tauto; [|by apply roll_check].
        apply group_duration_days, duration_pos in Hd. unfold Day24, Hour, Minute, Second in Hd. lia. }
      destruct Hrun as (d1 & Hrun & ->). rewrite (tbind_run _ _ _ _ _ Hrun), tgets_bind, Hsum. done.
Qed.
End roll.

(** ** Group administration moves no money *)

Definition account_money (a : account_row) : Z * Z := (balance_usd a, next_cash_lot_sequence a).

(** Balances, lots, reservations, the ledger and every spent amount are as
    before; a new period starts with nothing used. *)
Record spending_kept (b b' : billing_db) : Prop := {
  sk_users : users b' = users b;
  sk_accounts : forall u, account_money <$> billing_accounts b' !! u = account_money <$> billing_accounts b !! u;
  sk_lots : cash_lots b' = cash_lots b;
  sk_periods : periods b' = periods b;
  sk_members : member_usage b' = member_usage b;
  sk_reservations : billing_reservations b' = billing_reservations b;
  sk_allocations : allocations b' = allocations b;
  sk_ledger : ledger b' = ledger b;
  sk_old : forall pid p, group_periods b !! pid = Some p ->
    exists p', group_periods b' !! pid = Some p' /\ gp_group p' = gp_group p /\ used_usd p' = used_usd p;
  sk_new : forall pid p', group_periods b' !! pid = Some p' -> group_periods b !! pid = None -> used_usd p' = 0;
  sk_check : map_Forall (fun _ p => group_period_check p = true) (group_periods b) ->
    map_Forall (fun _ p => group_period_check p = true) (group_periods b');
}.

#[export] Instance spending_kept_preorder : PreOrder spending_kept.
Proof.
  split.
  - intros b. split; try done; [eauto|]. intros pid p H1 H2. congruence.
  - intros a b c H1 H2. destruct H1 as [U1 A1 L1 P1 M1 R1 Al1 Le1 O1 N1 C1], H2 as [U2 A2 L2 P2 M2 R2 Al2 Le2 O2 N2 C2].
    split; try congruence; try (intros; congruence).
    + intros pid p Hp. destruct (O1 pid p Hp) as (p1 & Hp1 & ? & ?). destruct (O2 pid p1 Hp1) as (p2 & ? & ? & ?). exists p2. split_and!; congruence.
    + intros pid p' Hc Ha. destruct (group_periods b !! pid) as [p1|] eqn:Hb; [|by eapply N2]. destruct (O2 pid p1 Hb) as (p2 & ? & ? & Hu).
      rewrite (N1 pid p1 Hb Ha) in Hu. congruence.
    + auto.
Qed.

(** The money invariant of the billing tables survives. *)
Lemma spending_kept_inv b b' : spending_kept b b' -> money_inv b -> money_inv b'.
Proof.
  intros [_ HA HL HP HM HR HAl _ HO _ HC] [M1 M2 M3 M4 M5 M6 M7 M8].
  assert (HA' : forall u a', billing_accounts b' !! u = Some a' -> exists a, billing_accounts b !! u = Some a /\ account_money a' = account_money a).
  { intros u a' H. specialize (HA u). rewrite H in HA. destruct (billing_accounts b !! u) as [a|]; [|done]. exists a. split; [done|]. by injection HA as ? ?; unfold account_money; congruence. }
  assert (HA2 : forall u a, billing_accounts b !! u = Some a -> exists a', billing_accounts b' !! u = Some a' /\ account_money a' = account_money a).
  { intros u a H. specialize (HA u). rewrite H in HA. destruct (billing_accounts b' !! u) as [a'|]; [|done]. exists a'. split; [done|]. by injection HA as ? ?; unfold account_money; congruence. }
  split; rewrite ?HL, ?HP, ?HM, ?HR, ?HAl; try done.
  - intros u a' H. destruct (HA' u a' H) as (a & Ha & [= E1 E2]). destruct (M1 u a Ha). unfold account_check in *. rewrite E1, E2. done.
  - intros id l Hl. destruct (M2 id l Hl) as (? & a & Ha & Hlt). split; [done|]. destruct (HA2 _ a Ha) as (a' & ? & [= E1 E2]). exists a'. rewrite E2. done.
  - intros id g Hg. exact (HC M4 id g Hg).
  - intros p u n Hn. destruct (M5 p u n Hn) as (? & g & Hg & ?). split; [done|]. destruct (HO p g Hg) as (g' & ? & _ & E). exists g'. rewrite E. done.
Qed.

(** The same, with the two halves of a period's row in step. *)
Definition group_frame (d d' : group_db) : Prop :=
  dom (gd_periods d) = dom (group_periods (gd_billing d)) ->
  dom (gd_periods d') = dom (group_periods (gd_billing d')) /\ spending_kept (gd_billing d) (gd_billing d').

#[export] Instance group_frame_preorder : PreOrder group_frame.
Proof.
  split; [intros d H; split; [done|reflexivity]|]. intros a b c H1 H2 Ha. destruct (H1 Ha) as [Hb K1]. destruct (H2 Hb) as [Hc K2].
  split; [done|]. by transitivity (gd_billing b).
Qed.

(** Statements that touch neither the billing tables nor the set of periods. *)
Lemma frame_same d d' : gd_billing d' = gd_billing d -> dom (gd_periods d') = dom (gd_periods d) -> group_frame d d'.
Proof. intros E1 E2 H. rewrite E1, E2. split; [done|reflexivity]. Qed.

Lemma frame_billing d b : spending_kept (gd_billing d) b -> dom (group_periods b) = dom (group_periods (gd_billing d)) -> group_frame d (set_billing b d).
Proof. intros K E H. gtables. split; [congruence|done]. Qed.

Lemma frame_on_billing {A} (m : tx billing_db A) :
  keeps (fun b b' => spending_kept b b' /\ dom (group_periods b') = dom (group_periods b)) m -> keeps group_frame (on_billing m).
Proof.
  intros H d a d'. unfold on_billing, tzoom. destruct (m (gd_billing d)) as [[x b]|] eqn:E; [|done]. intros [= <- <-].
  destruct (H _ _ _ E). by apply frame_billing.
Qed.

Lemma frame_newUUID : keeps group_frame newUUID.
Proof. intros d id d'. unfold newUUID. destruct (gd_random d); [done|]. intros [= _ <-]. by apply frame_same. Qed.

Lemma frame_update_group op id f : keeps group_frame (update_group op id f).
Proof.
  apply keeps_gets_bind. intros d a d'. destruct (update_rows _ _ _ _ _) as [[n rows]|]; [|done]. intros [= _ <-]. by apply frame_same.
Qed.

Lemma frame_close_periods pid at_ : keeps group_frame (close_periods pid at_).
Proof. apply keeps_mod. intros d. apply frame_same; [done|]. gtables. apply dom_alter_L. Qed.

Lemma limit_checks_period g l u m : limit_check l = true -> option_check limit_check m = true -> 0 <= u -> numeric_fits u = true ->
  group_period_check (GroupPeriod g l u m) = true.
Proof.
  unfold limit_check, option_check, group_period_check. cbn [limit_usd used_usd member_limit_usd]. rewrite !andb_true_iff, !Z.leb_le.
  intros [] Hm ? ?. by split_and!.
Qed.

Lemma frame_insert_period op id g starts ends limit member at_ : keeps group_frame (insert_period op id g starts ends limit member at_).
Proof.
  intros d a d'. unfold insert_period. rewrite tguard_bind. destruct (_ && _ && _) eqn:Hck; [|done]. rewrite !andb_true_iff in Hck. destruct Hck as [[_ Hl] Hm].
  rewrite tgets_bind, tguard_bind. destruct (bool_decide_reflect (gd_periods d !! id = None)) as [Hn|]; [|done].
  rewrite tguard_bind. destruct (bool_decide _); [|done]. intros [= _ <-] Hdom. gtables.
  assert (Hn' : group_periods (gd_billing d) !! id = None) by (apply not_elem_of_dom; rewrite <- Hdom; by apply not_elem_of_dom).
  split; [by rewrite !dom_insert_L, Hdom|]. split; try done; btables.
  - intros pid p Hp. exists p. split_and!; try done. rewrite lookup_insert_ne; [done|]. congruence.
  - intros pid p'. rewrite lookup_insert_Some. intros [[<- <-]|[_ ?]] ?; [done|congruence].
  - intros HF. apply map_Forall_insert_2; [by apply limit_checks_period|done].
Qed.
#[export] Hint Resolve frame_newUUID frame_update_group frame_close_periods frame_insert_period : keeps.
#[export] Hint Extern 0 (PreOrder group_frame) => exact group_frame_preorder : keeps.

Lemma frame_numeric op s : keeps group_frame (numeric_param op s).
Proof. unfold numeric_param. keeps_tac. Qed.
#[export] Hint Resolve frame_numeric : keeps.
Lemma frame_nullable op s : keeps group_frame (nullable_numeric op s).
Proof. unfold nullable_numeric. keeps_tac. Qed.
#[export] Hint Resolve frame_nullable : keeps.
Lemma frame_replace id pid l m n s e c at_ : keeps group_frame (replaceGroupPeriodTx id pid l m n s e c at_).
Proof. unfold replaceGroupPeriodTx. keeps_tac. Qed.
Lemma frame_read id : keeps group_frame (readGroupSummaryTx id).
Proof. unfold readGroupSummaryTx. keeps_tac. Qed.
#[export] Hint Resolve frame_replace frame_read : keeps.
Lemma frame_roll id at_ : keeps group_frame (rollGroupTx id at_).
Proof. unfold rollGroupTx. keeps_tac. Qed.
Lemma frame_lock id : keeps group_frame (lockGroupTx id).
Proof. unfold lockGroupTx. keeps_tac. Qed.
Lemma frame_detail collate id : keeps group_frame (groupDetailTx collate id).
Proof. unfold groupDetailTx. keeps_tac. Qed.
#[export] Hint Resolve frame_roll frame_lock frame_detail : keeps.

(** ** Operations keep the group tables consistent *)

(** Consistency of every group but [x], which an operation is rewriting. *)
Record others_ok (d : group_db) (x : string) : Prop := {
  ot_groups : forall id g, gd_groups d !! id = Some g -> id <> x -> exists pid t p duration, group_ok d id g pid t p duration;
  ot_periods : dom (gd_periods d) = dom (group_periods (gd_billing d));
  ot_ids : user_groups (gd_billing d) = dom (gd_groups d);
  ot_owner : forall pid p, group_periods (gd_billing d) !! pid = Some p -> is_Some (gd_groups d !! gp_group p);
}.

Lemma inv_others d x : groups_inv d -> others_ok d x.
Proof. intros [H1 H2 H3 H4]. split; eauto. Qed.

Lemma others_inv d x : others_ok d x -> (forall g, gd_groups d !! x = Some g -> exists pid t p duration, group_ok d x g pid t p duration) -> groups_inv d.
Proof. intros [H1 H2 H3 H4] Hx. split; try done. intros id g Hg. destruct (decide (id = x)) as [->|]; eauto. Qed.

(** [group_ok] depends on the two halves of the current period alone. *)
Lemma group_ok_frame d d' id g pid t p duration t' p' :
  group_ok d id g pid t p duration -> gd_periods d' !! pid = Some t' -> pd_starts t' = pd_starts t -> pd_ends t' = pd_ends t ->
  group_periods (gd_billing d') !! pid = Some p' -> gp_group p' = gp_group p -> limit_usd p' = limit_usd p -> member_limit_usd p' = member_limit_usd p ->
  group_ok d' id g pid t' p' duration.
Proof. intros [] Ht E1 E2 Hp E3 E4 E5. split; rewrite ?E1, ?E2, ?E3, ?E4, ?E5; try done. Qed.

Lemma uuid_text_ne b : uuid_text b <> "".
Proof. intros H%(f_equal String.length). unfold uuid_text in H. rewrite !str_length_app in H. cbn in H. lia. Qed.

Lemma replaced_others d id g pid b rest limit member number starts ends closedAt at_ :
  others_ok d id -> gd_groups d !! id = Some g -> gd_periods d !! uuid_text b = None ->
  (pid <> "" -> forall p, group_periods (gd_billing d) !! pid = Some p -> gp_group p = id) ->
  others_ok (replaced d id g pid b rest limit member number starts ends closedAt at_) id.
Proof.
  intros [H1 H2 H3 H4] Hg Hn Hpid.
  assert (Hn' : group_periods (gd_billing d) !! uuid_text b = None) by (apply not_elem_of_dom; rewrite <- H2; by apply not_elem_of_dom).
  assert (Hdom : dom (if empty pid then gd_periods d else alter (close_period closedAt) pid (gd_periods d)) = dom (gd_periods d))
    by (destruct (empty pid); [done|apply dom_alter_L]).
  unfold replaced. split; gtables.
  - intros j gj. rewrite lookup_insert_Some. intros [[-> _]|[Hj Hgj]] Hne; [done|]. destruct (H1 j gj Hgj Hne) as (pj & tj & qj & dur & Hok).
    assert (pj <> uuid_text b) by (pose proof (ok_times _ _ _ _ _ _ _ Hok); congruence).
    assert (pid <> "" -> pj <> pid) by (intros Hne' ->; pose proof (ok_owner _ _ _ _ _ _ _ Hok); pose proof (Hpid Hne' qj (ok_amounts _ _ _ _ _ _ _ Hok)); congruence).
    exists pj, tj, qj, dur. eapply group_ok_frame; [exact Hok|..]; gtables; try done.
    + rewrite lookup_insert_ne by done. unfold empty. destruct (bool_decide_reflect (pid = "")) as [|Hp]; [apply Hok|].
      rewrite lookup_alter_ne by (intros E; by apply (H0 Hp)). apply Hok.
    + rewrite lookup_insert_ne by done. apply Hok.
  - by rewrite !dom_insert_L, Hdom, H2.
  - rewrite dom_insert_lookup_L by eauto. done.
  - intros q p. rewrite lookup_insert_Some. intros [[<- <-]|[_ Hp]]; cbn [gp_group]; [rewrite lookup_insert_eq; eauto|].
    destruct (decide (gp_group p = id)) as [->|]; [rewrite lookup_insert_eq; eauto|rewrite lookup_insert_ne by done]. by eapply H4.
Qed.

(** The fresh period is current and consistent. *)
Lemma replaced_ok d id g pid b rest limit member number starts ends closedAt at_ duration :
  group_check (advance_group (uuid_text b) at_ number g) = true -> limit = ug_limit g -> member = ug_member_limit g ->
  groupPeriodDuration (ug_period g) (ug_custom_days g) = Ok duration -> group_time starts ->
  0 <= ug_starts_at g <= starts /\ (starts - ug_starts_at g) mod duration = 0 -> (number - 1) * duration <= starts - ug_starts_at g ->
  ends = starts + duration /\ ends < year10000 ->
  ug_expires_at g = term_end ends duration (ug_period_count g) number /\ option_check (fun e => e <? year10000) (ug_expires_at g) = true ->
  group_ok (replaced d id g pid b rest limit member number starts ends closedAt at_) id (advance_group (uuid_text b) at_ number g) (uuid_text b)
    (PeriodTimes starts ends None at_) (GroupPeriod id limit 0 member) duration.
Proof. intros. unfold replaced. split; gtables; try done; [apply uuid_text_ne|apply lookup_insert_eq|apply lookup_insert_eq]. Qed.

Lemma replaced_inv d id g pid b rest limit member number starts ends closedAt at_ duration :
  others_ok d id -> gd_groups d !! id = Some g -> gd_periods d !! uuid_text b = None ->
  (pid <> "" -> forall p, group_periods (gd_billing d) !! pid = Some p -> gp_group p = id) ->
  group_check (advance_group (uuid_text b) at_ number g) = true -> limit = ug_limit g -> member = ug_member_limit g ->
  groupPeriodDuration (ug_period g) (ug_custom_days g) = Ok duration -> group_time starts ->
  0 <= ug_starts_at g <= starts /\ (starts - ug_starts_at g) mod duration = 0 -> (number - 1) * duration <= starts - ug_starts_at g ->
  ends = starts + duration /\ ends < year10000 ->
  ug_expires_at g = term_end ends duration (ug_period_count g) number /\ option_check (fun e => e <? year10000) (ug_expires_at g) = true ->
  groups_inv (replaced d id g pid b rest limit member number starts ends closedAt at_).
Proof.
  intros. eapply others_inv; [by eapply replaced_others|]. intros g'. unfold replaced at 1. gtables. rewrite lookup_insert_eq. intros [= <-].
  do 4 eexists. by eapply replaced_ok.
Qed.

Lemma rolled_inv d id g pid t p duration at_ b rest :
  groups_inv d -> gd_groups d !! id = Some g -> group_ok d id g pid t p duration -> group_time at_ ->
  roll_idle g t duration at_ = false -> gd_periods d !! uuid_text b = None ->
  groups_inv (rolled d id g pid t duration at_ b rest).
Proof.
  intros I Hg Hok Ht Hi Hn. destruct (roll_facts d id g pid t p duration at_ Hok Hi) as (Hk & Hs & Hy & _ & _ & Hcn).
  pose proof (roll_check d id g pid t p duration at_ Hok Ht (uuid_text b) Hi) as Hck.
  pose proof Hok as [Hc _ _ _ Hp Hown _ Hd Hst [Ha Hmod] Hnum [He _] [Hx Hxy]]. pose proof (duration_pos duration (group_duration_days _ _ _ Hd)) as Hpos.
  change Day24 with 86400000000000 in Hpos. unfold rolled. eapply replaced_inv with (duration := duration); try done.
  - by apply inv_others.
  - intros _ q Hq. congruence.
  - unfold group_time in *. nia.
  - split; [nia|]. replace (pd_starts t + _ - _) with (pd_starts t - ug_starts_at g + periods_since t duration at_ * duration) by ring.
    by rewrite Z.mod_add by lia.
  - nia.
  - split; [done|nia].
  - split; [|done]. rewrite Hx, He. unfold term_end. destruct (_ =? 0); [done|]. f_equal. ring.
Qed.

Lemma roll_inv id at_ d s d' : group_time at_ -> groups_inv d -> rollGroupTx id at_ d = Ok (s, d') -> groups_inv d'.
Proof.
  intros Ht I H. destruct (gd_groups d !! id) as [g|] eqn:Hg.
  - destruct (gi_groups d I id g Hg) as (pid & t & p & duration & Hok).
    destruct (proj1 (roll_Ok d id g pid t p duration at_ Hg Hok Ht s d') H) as [(_ & E & _)|(Hi & b & rest & _ & Hn & E & _)]; rewrite E;
      [done|by eapply rolled_inv].
  - unfold rollGroupTx, readGroupSummaryTx in H. apply tbind_Ok in H as (? & ? & H & _). rewrite tgets_bind in H. unfold group_summary_of in H.
    by rewrite Hg in H.
Qed.

(** Rolling a group to an instant: with an unused id it always succeeds;
    the group moves forward by whole periods to the one that contains the
    instant, the skipped periods count, the old period is closed at its end,
    the new one starts unspent with the same deadline, and a group whose
    period is still not active is archived, not yet started, past its deadline
    or at the end of the calendar. *)
Theorem roll_group_current d id g pid t p duration at_ :
  groups_inv d -> gd_groups d !! id = Some g -> group_ok d id g pid t p duration -> group_time at_ ->
  (forall b rest, gd_random d = b :: rest -> gd_periods d !! uuid_text b = None -> exists s d', rollGroupTx id at_ d = Ok (s, d')) /\
  (forall s d', rollGroupTx id at_ d = Ok (s, d') ->
    let k := if roll_idle g t duration at_ then 0 else (at_ - pd_starts t) / duration in
    groups_inv d' /\ gs_PeriodStartsAt s = pd_starts t + k * duration /\ gs_PeriodEndsAt s = pd_starts t + (k + 1) * duration /\
    gs_CurrentPeriodNumber s = ug_current_number g + k /\ gs_ExpiresAt s = ug_expires_at g /\
    (k = 0 -> d' = d) /\
    (k <> 0 -> groupPeriodActive (Some s) at_ = true /\ gs_UsedUSD s = numeric_text 0 /\ gs_LimitUSD s = numeric_text (ug_limit g) /\
       gd_periods d' !! pid = Some (close_period (pd_ends t) t)) /\
    (groupPeriodActive (Some s) at_ = false ->
       gs_ArchivedAt s <> None \/ at_ < gs_PeriodStartsAt s \/ before_deadline at_ (gs_ExpiresAt s) = false \/
       year10000 <= pd_starts t + ((at_ - pd_starts t) / duration + 1) * duration)).
Proof.
  intros I Hg Hok Ht. pose proof (roll_Ok d id g pid t p duration at_ Hg Hok Ht) as Hroll. split.
  - intros b rest Hr Hn. destruct (roll_idle g t duration at_) eqn:Hi.
    + do 2 eexists. apply Hroll. by left.
    + do 2 eexists. apply Hroll. right. split; [done|]. exists b, rest. split_and!; try done. apply (rolled_summary d id g pid t duration at_ b rest).
  - intros s d' H. cbv zeta. split; [by eapply roll_inv|]. apply Hroll in H as [(Hi & -> & ->)|(Hi & b & rest & Hr & Hn & -> & Hs)]; rewrite Hi.
    + pose proof Hok as [_ _ _ _ _ _ _ _ _ _ _ [He _] _]. cbn [gs_PeriodStartsAt gs_PeriodEndsAt gs_CurrentPeriodNumber gs_ExpiresAt gs_ArchivedAt summary_of].
      split_and!; try done; try lia. intros Ha. unfold roll_idle, periods_since in Hi. unfold groupPeriodActive in Ha.
      cbn [gs_PeriodStartsAt gs_PeriodEndsAt gs_ExpiresAt gs_ArchivedAt summary_of] in Ha.
      destruct (ug_archived_at g); [by left|right]. cbn [is_nil negb andb orb] in *. destruct (Z.ltb_spec at_ (pd_starts t)); [by left|right].
      destruct (at_ <? pd_ends t); cbn [negb andb orb] in *; [by left|]. destruct (before_deadline at_ (ug_expires_at g)); cbn in Hi; [right; lia|by left].
    + pose proof (rolled_summary d id g pid t duration at_ b rest) as Hsum. cbv zeta in Hsum. rewrite Hs in Hsum. injection Hsum as ->.
      destruct (roll_facts d id g pid t p duration at_ Hok Hi) as (Hk & Hin & Hy & Har & Hdl & _). unfold periods_since in *.
      assert (Hact : groupPeriodActive (Some (summary_of id (advance_group (uuid_text b) at_ (ug_current_number g + (at_ - pd_starts t) / duration) g)
        (uuid_text b) (PeriodTimes (pd_starts t + (at_ - pd_starts t) / duration * duration)
          (pd_starts t + (at_ - pd_starts t) / duration * duration + duration) None at_) 0 (rolled d id g pid t duration at_ b rest))) at_ = true).
      { unfold groupPeriodActive. cbn [gs_PeriodStartsAt gs_PeriodEndsAt gs_ExpiresAt gs_ArchivedAt summary_of advance_group ug_archived_at ug_expires_at pd_starts pd_ends].
        rewrite Har, Hdl. lia. }
      split_and!; try done; try lia.
      * cbn [gs_PeriodEndsAt summary_of pd_ends]. ring.
      * intros _. split_and!; try done. unfold rolled, replaced. gtables.
        pose proof Hok as [_ _ Hpid Htm _ _ _ _ _ _ _ _ _]. rewrite lookup_insert_ne by congruence. unfold empty. rewrite bool_decide_false by done.
        by rewrite lookup_alter_eq, Htm.
      * intros Hf. congruence.
Qed.

(** *** Creating and changing a group *)

(** What the checks before the transaction establish. *)
Record put_ok (a : put_args) : Prop := {
  po_duration : groupPeriodDuration (pa_Period a) (pa_CustomDays a) = Ok (pa_duration a);
  po_at : group_time (pa_At a);
  po_starts : forall t, pa_StartsAt a = Some t -> group_time t;
  po_count : forall n, pa_PeriodCount a = Some n -> 0 <= n <= 99;
}.

Lemma put_arguments_ok uuid_parse clock p a : put_arguments uuid_parse clock p = Ok a -> put_ok a.
Proof.
  unfold put_arguments. intros (gid & _ & H)%rbind_Ok. cbv zeta in H. destruct (_ || _); [done|]. apply rbind_Ok in H as (amount & _ & H).
  apply rbind_Ok in H as (m & _ & H). apply rbind_Ok in H as (dur & Hd & H). apply rbind_Ok in H as ([] & Ha & H).
  destruct (match pg_PeriodCount p with Some _ => _ | None => _ end) eqn:Hc; [done|]. apply rbind_Ok in H as (models & _ & H).
  apply rbind_Ok in H as ([] & Hs & H). injection H as <-. split; cbn.
  - done.
  - by apply group_time_valid.
  - intros t E. rewrite E in Hs. by apply group_time_valid.
  - intros n E. rewrite E in Hc. lia.
Qed.

Lemma roll_row id at_ d s d' : group_time at_ -> groups_inv d -> rollGroupTx id at_ d = Ok (s, d') ->
  groups_inv d' /\ exists g pid t p duration, gd_groups d' !! id = Some g /\ group_ok d' id g pid t p duration /\ s = summary_of id g pid t (used_usd p) d'.
Proof.
  intros Ht I H. pose proof (roll_inv id at_ d s d' Ht I H) as I'. split; [done|].
  assert (Hs : group_summary_of id d' = Some s).
  { destruct (gd_groups d !! id) as [g|] eqn:Hg.
    - destruct (gi_groups d I id g Hg) as (pid & t & p & duration & Hok).
      destruct (proj1 (roll_Ok d id g pid t p duration at_ Hg Hok Ht s d') H) as [(_ & -> & ->)|(_ & b & rest & _ & _ & _ & Hs)]; [|done].
      by eapply read_summary.
    - unfold rollGroupTx, readGroupSummaryTx in H. apply tbind_Ok in H as (? & ? & H & _). rewrite tgets_bind in H. unfold group_summary_of in H.
      by rewrite Hg in H. }
  assert (Hread : readGroupSummaryTx id d' = Ok (s, d')) by (unfold readGroupSummaryTx; rewrite tgets_bind, Hs; done).
  by destruct (read_summary_Ok d' id s d' I' Hread) as [_ ?].
Qed.

(** The grid and the deadline a reset chooses. *)
Lemma reset_facts a start count number ends expires :
  put_ok a -> start = default (pa_At a) (pa_StartsAt a) -> 0 <= count <= 99 -> number = 1 ->
  let starts := groupPeriodStart start (pa_At a) (pa_duration a) in
  addGroupPeriods starts (pa_duration a) 1 = Ok ends -> groupExpiration ends (pa_duration a) count number = Ok expires ->
  group_time starts /\ (0 <= start <= starts /\ (starts - start) mod pa_duration a = 0) /\ (number - 1) * pa_duration a <= starts - start /\
  (ends = starts + pa_duration a /\ ends < year10000) /\
  expires = term_end ends (pa_duration a) count number /\ option_check (fun e => e <? year10000) expires = true.
Proof.
  intros [Hd Ha Hs _] -> Hc -> starts He Hx. apply group_duration_days in Hd. pose proof (duration_pos _ Hd) as Hpos. change Day24 with 86400000000000 in Hpos.
  assert (Hst : group_time (default (pa_At a) (pa_StartsAt a))) by (destruct (pa_StartsAt a); cbn; auto).
  set (start := default (pa_At a) (pa_StartsAt a)) in *. set (q := (pa_At a - start) / pa_duration a).
  assert (Es : starts = start + Z.max 0 q * pa_duration a) by (by apply group_period_start).
  assert (Hle : Z.max 0 q * pa_duration a <= Z.max 0 (pa_At a - start)).
  { unfold q. pose proof (Z.mul_div_le (pa_At a - start) (pa_duration a) ltac:(lia)). destruct (Z.max_spec 0 ((pa_At a - start) / pa_duration a)) as [[? ->]|[? ->]]; lia. }
  assert (Hgt : group_time starts) by (unfold group_time in *; nia). apply add_group_periods_Ok in He as [-> Hy]; [|done|done|lia].
  assert (Het : group_time (starts + 1 * pa_duration a)) by (unfold group_time in *; lia).
  apply group_expiration in Hx as (-> & _ & Hxy); [|done|done|lia|lia]. rewrite Z.mul_1_l in *. split_and!; try done; try (unfold group_time in *; lia).
  - rewrite Es. replace (start + _ - start) with (Z.max 0 q * pa_duration a) by ring. apply Z.mod_mul. lia.

Qed.

Lemma update_group_Ok op id f d g d' : gd_groups d !! id = Some g ->
  update_group op id f d = Ok (tt, d') <-> group_check (f g) = true /\ d' = set_groups (<[id := f g]> (gd_groups d)) d.
Proof.
  intros Hg. unfold update_group. rewrite tgets_bind. cbn [update_rows]. rewrite Hg. destruct (group_check (f g)); [|split; [done|by intros []]].
  unfold tmod. split; [by intros [= <-]|by intros [_ ->]].
Qed.

(** Rewriting one row leaves the other groups consistent. *)
Lemma set_group_others d id g : groups_inv d -> is_Some (gd_groups d !! id) -> others_ok (set_groups (<[id := g]> (gd_groups d)) d) id.
Proof.
  intros [H1 H2 H3 H4] Hid. split; gtables; try done.
  - intros j gj. rewrite lookup_insert_Some. intros [[-> _]|[_ Hj]] Hne; [done|]. destruct (H1 j gj Hj) as (pj & tj & qj & dur & Hok).
    exists pj, tj, qj, dur. destruct Hok. by eapply group_ok_frame; [by split|..].
  - by rewrite dom_insert_lookup_L.
  - intros q p Hp. apply lookup_insert_is_Some'. right. by eapply H4.
Qed.

Lemma detail_Ok collate id d x d' : groupDetailTx collate id d = Ok (x, d') -> d' = d /\ group_summary_of id d = Some (group_summary x).
Proof.
  unfold groupDetailTx, readGroupSummaryTx. intros (s & d1 & Hs & H)%tbind_Ok. rewrite tgets_bind in Hs. apply tsome_Ok in Hs as [E ->].
  rewrite tgets_bind in H. by injection H as <- <-.
Qed.

Lemma numeric_param_Ok op s d x d' : numeric_param op s d = Ok (x, d') <-> numeric_of s = Some x /\ d' = d.
Proof. unfold numeric_param. destruct (numeric_of s); cbn; split; try done; [by intros [= <- <-]|by intros [[= <-] ->]|by intros []]. Qed.

Lemma nullable_Ok op s d x d' : nullable_numeric op s d = Ok (x, d') -> d' = d /\ forall op', nullable_numeric op' s = tret x.
Proof.
  destruct s as [s|]; cbn; [|intros [= <- <-]; done]. intros (n & d1 & [Hn ->]%numeric_param_Ok & [= <- <-])%tbind_Ok. split; [done|].
  intros op'. unfold numeric_param. by rewrite Hn.
Qed.

Lemma put_new_Ok a d g d1 : put_new a d = Ok (g, d1) ->
  exists b rest, gd_random d = b :: rest /\ d1 = set_random rest d /\ ps_ID g = uuid_text b /\ ps_PeriodID g = "" /\ ps_PeriodCount g = 1.
Proof.
  unfold put_new. intros (id & d2 & Hid & H)%tbind_Ok. unfold newUUID in Hid. destruct (gd_random d) as [|b rest]; [done|]. injection Hid as <- <-.
  apply tbind_Ok in H as (models & d3 & Hm & H). injection H as <- <-. exists b, rest. split_and!; try done.
  destruct (pa_ModelIDsSet a); [|by injection Hm as _ <-]. apply tbind_Ok in Hm as (? & d4 & Hv & Hm). injection Hm as _ <-.
  unfold validateBillingModelsTx in Hv. rewrite tgets_bind in Hv. by apply tguard_Ok in Hv as [_ ->].
Qed.

Lemma put_existing_Ok a d g d1 : put_ok a -> groups_inv d -> put_existing a d = Ok (g, d1) ->
  groups_inv d1 /\ exists row pid t p duration, gd_groups d1 !! pa_GroupID a = Some row /\ group_ok d1 (pa_GroupID a) row pid t p duration /\
    ps_ID g = pa_GroupID a /\ ps_PeriodID g = pid /\ ps_Period g = ug_period row /\ ps_CustomDays g = ug_custom_days row /\
    ps_StartsAt g = ug_starts_at row /\ ps_PeriodStartsAt g = pd_starts t /\ ps_PeriodEndsAt g = pd_ends t /\
    ps_PeriodCount g = ug_period_count row /\ ps_Number g = ug_current_number row.
Proof.
  intros Ha I. unfold put_existing. intros (? & d2 & Hl & H)%tbind_Ok. unfold lockGroupTx in Hl. rewrite tgets_bind in Hl.
  apply tbind_Ok in Hl as (? & d3 & [_ ->]%tsome_Ok & Hl). injection Hl as _ <-. apply tbind_Ok in H as (s & d4 & Hr & H).
  destruct (roll_row _ _ _ _ _ (po_at a Ha) I Hr) as (I4 & row & pid & t & p & duration & Hrow & Hok & ->).
  rewrite tguard_bind in H. destruct (is_nil _); [|done]. apply tbind_Ok in H as (models & d5 & Hm & H). injection H as <- <-.
  assert (d5 = d4) as ->.
  { destruct (pa_ModelIDsSet a); [|by injection Hm as _ <-]. apply tbind_Ok in Hm as (? & d6 & Hv & Hm). injection Hm as _ <-.
    unfold validateBillingModelsTx in Hv. rewrite tgets_bind in Hv. by apply tguard_Ok in Hv as [_ ->]. }
  split; [done|]. exists row, pid, t, p, duration. split_and!; done.
Qed.

(** A row written with a reset schedule becomes consistent with its new period. *)
Lemma reset_inv a d id row limit member models count expires starts ends pid old memberUSD d' :
  put_ok a -> others_ok d id -> gd_groups d !! id = Some row -> (pid <> "" -> forall p, group_periods (gd_billing d) !! pid = Some p -> gp_group p = id) ->
  row = put_row a (default (pa_At a) (pa_StartsAt a)) limit member count 1 expires models old -> 0 <= count <= 99 ->
  starts = groupPeriodStart (default (pa_At a) (pa_StartsAt a)) (pa_At a) (pa_duration a) ->
  addGroupPeriods starts (pa_duration a) 1 = Ok ends -> groupExpiration ends (pa_duration a) count 1 = Ok expires ->
  numeric_of (pa_amount a) = Some limit -> (forall op, nullable_numeric op memberUSD = tret member) ->
  replaceGroupPeriodTx id pid (pa_amount a) memberUSD 1 starts ends (pa_At a) (pa_At a) d = Ok (tt, d') -> groups_inv d'.
Proof.
  intros Ha O Hrow Hpid Er Hc -> He Hx Hl Hm H. destruct (reset_facts a _ count 1 ends expires Ha eq_refl Hc eq_refl He Hx) as (F1 & F2 & F3 & F4 & F5).
  apply (replace_Ok d id row pid (pa_amount a) memberUSD limit member) in H as (b & rest & Hr & Hn & _ & _ & _ & Hck & ->); [|done..|apply Hm].
  eapply replaced_inv with (duration := pa_duration a); try done; rewrite Er; try done. apply Ha.
Qed.

(** Without a reset the row keeps its period; only amounts, the count and the deadline change. *)
Lemma keep_schedule_inv a d id row pid t p duration start limit member count number expires models d' :
  put_ok a -> groups_inv d -> gd_groups d !! id = Some row -> group_ok d id row pid t p duration ->
  ug_period row = pa_Period a -> ug_custom_days row = pa_CustomDays a -> start = ug_starts_at row -> number = ug_current_number row ->
  0 <= count <= 99 -> groupExpiration (pd_ends t) (pa_duration a) count number = Ok expires ->
  group_check (put_row a start limit member count number expires models (Some row)) = true ->
  update_period_limits pid limit member (set_groups (<[id := put_row a start limit member count number expires models (Some row)]> (gd_groups d)) d) = Ok (tt, d') ->
  groups_inv d'.
Proof.
  intros Ha I Hrow Hok Ep Ed -> -> Hc Hx Hck H. pose proof Hok as [Hck0 Hcur Hne Ht Hp Hown Hlim Hd Hst Hanc Hnum [He Hey] _].
  assert (duration = pa_duration a) as -> by (rewrite Ep, Ed, (po_duration a Ha) in Hd; by injection Hd).
  apply group_expiration in Hx as (-> & _ & Hxy); [|unfold group_time in *; pose proof (duration_pos _ (group_duration_days _ _ _ Hd)) as Hpos;
    unfold Day24, Hour, Minute, Second in Hpos; lia|by eapply group_duration_days|done|by apply group_check_facts in Hck0 as (_ & _ & _ & [? _] & _)].
  unfold update_period_limits, on_billing, tzoom, update_one in H. rewrite tgets_bind in H. gtables. cbn [update_rows] in H. rewrite Hp in H.
  destruct (group_period_check _) eqn:Hpk; [|done]. injection H as <-. set (row' := put_row _ _ _ _ _ _ _ _ _) in *. btables.
  destruct (set_group_others d id row' I ltac:(eauto)) as [O1 O2 O3 O4]. gtables. apply others_inv with id.
  - split; gtables; try done.
    + intros j gj Hj Hne'. destruct (O1 j gj Hj Hne') as (pj & tj & qj & dur & Hokj). exists pj, tj, qj, dur.
      assert (pj <> pid) by (intros ->; destruct Hokj; gtables; congruence).
      eapply group_ok_frame; [exact Hokj|..]; gtables; try done; [apply Hokj|]. rewrite lookup_insert_ne by done. apply Hokj.
    + by rewrite dom_insert_lookup_L.
    + intros q r. rewrite lookup_insert_Some. intros [[<- <-]|[_ Hr]]; [|by eapply O4]. cbn [gp_group]. by eapply O4.
  - intros g'. gtables. rewrite lookup_insert_eq. intros [= <-]. exists pid, t, (GroupPeriod (gp_group p) limit (used_usd p) member), (pa_duration a).
    split; gtables; try done; [apply lookup_insert_eq|]. by rewrite Ep, Ed in Hd.
Qed.

Lemma put_body_inv collate a d x d' : put_ok a -> groups_inv d -> put_body collate a d = Ok (x, d') -> groups_inv d'.
Proof.
  intros Ha I. unfold put_body. cbv zeta. intros (g & d1 & Hg & H)%tbind_Ok. destruct (empty (pa_GroupID a)) eqn:Hcreate.
  - apply put_new_Ok in Hg as (b & rest & Hr & -> & Hid & Hpid & Hcount). cbn [orb] in H.
    apply tbind_Ok in H as (ends & d2 & He & H). apply tlift_Ok in He as [He ->].
    apply tbind_Ok in H as (expires & d3 & Hx & H). apply tlift_Ok in Hx as [Hx ->].
    apply tbind_Ok in H as (limit & d4 & [Hl ->]%numeric_param_Ok & H). apply tbind_Ok in H as (member & d5 & Hm & H). apply nullable_Ok in Hm as [-> Hm].
    apply tbind_Ok in H as ([] & d6 & Hi & H). apply tbind_Ok in H as ([] & d7 & Hrep & H).
    unfold insert_group in Hi. rewrite tguard_bind in Hi. destruct (group_check _); [|done]. rewrite tgets_bind, tguard_bind in Hi. gtables.
    destruct (bool_decide_reflect (gd_groups d !! ps_ID g = None)) as [Hnone|]; [|done]. injection Hi as <-.
    assert (I7 : groups_inv d7).
    { eapply (reset_inv a) with (models := ps_ModelIDs g) (old := None); [done| | | |reflexivity| |reflexivity|exact He|exact Hx|exact Hl|exact Hm|exact Hrep].
      - destruct I as [H1 H2 H3 H4]. split; gtables; try done.
        + intros j gj. rewrite lookup_insert_Some. intros [[-> _]|[_ Hj]] Hne; [done|]. destruct (H1 j gj Hj) as (pj & tj & qj & dur & Hok).
          exists pj, tj, qj, dur. destruct Hok. by eapply group_ok_frame; [by split|..].
        + by rewrite dom_insert_L, H3.
        + intros q p Hp. apply lookup_insert_is_Some'. right. by eapply H4.
      - apply lookup_insert_eq.
      - intros Hne. by destruct Hne.
      - destruct (pa_PeriodCount a) eqn:Ec; cbn; [by apply (po_count a Ha)|lia]. }
    by apply detail_Ok in H as [-> _].
  - destruct (put_existing_Ok a d g d1 Ha I Hg) as (I1 & row & pid & t & p & duration & Hrow & Hok & Hid & Hpid & Hper & Hcd & Hst & Hps & Hpe & Hcnt & Hnum).
    rewrite Hid in H. set (reset := _ || _) in H. apply tbind_Ok in H as (ends & d2 & He & H). apply tbind_Ok in H as (expires & d3 & Hx & H).
    apply tlift_Ok in Hx as [Hx ->]. apply tbind_Ok in H as (limit & d4 & [Hl ->]%numeric_param_Ok & H).
    apply tbind_Ok in H as (member & d5 & Hm & H). apply nullable_Ok in Hm as [-> Hm]. apply tbind_Ok in H as ([] & d6 & Hu & H).
    apply tbind_Ok in H as ([] & d7 & Hrep & H). apply detail_Ok in H as [-> _].
    assert (Hc : 0 <= default (ps_PeriodCount g) (pa_PeriodCount a) <= 99).
    { destruct (pa_PeriodCount a) eqn:Ec; cbn; [by apply (po_count a Ha)|]. rewrite Hcnt. by destruct (group_check_facts row (ok_check _ _ _ _ _ _ _ Hok)) as (_ & _ & ? & _). }
    destruct reset eqn:Hreset.
    + apply tlift_Ok in He as [He ->]. apply (update_group_Ok _ _ _ _ row) in Hu as [_ ->]; [|done].
      eapply (reset_inv a) with (models := ps_ModelIDs g) (old := Some row);
        [done|apply set_group_others; [done|by eexists]| | |reflexivity|done|reflexivity|exact He|exact Hx|exact Hl|exact Hm|exact Hrep].
      * apply lookup_insert_eq.
      * intros _ q Hq. gtables. rewrite Hpid, (ok_amounts _ _ _ _ _ _ _ Hok) in Hq. injection Hq as <-. apply Hok.
    + injection He as <- <-. apply (update_group_Ok _ _ _ _ row) in Hu as [Hck ->]; [|done]. apply tbind_Ok in Hrep as ([] & d8 & Hlim & Hrep).
      apply tbind_Ok in Hrep as (s & d9 & Hroll & Hrep). injection Hrep as <-. eapply roll_inv; [apply Ha| |exact Hroll]. clear d9 s Hroll.
      unfold reset in Hreset. rewrite !orb_false_iff, !negb_false_iff, bool_decide_eq_true, Z.eqb_eq in Hreset. destruct Hreset as [[[_ R1] R2] _].
      rewrite Hpid in Hlim. rewrite Hpe, Hnum in Hx. rewrite Hst, Hnum in Hck, Hlim.
      eapply keep_schedule_inv; [exact Ha|exact I1|exact Hrow|exact Hok|congruence|congruence|reflexivity|reflexivity|exact Hc|exact Hx|exact Hck|exact Hlim].
Qed.

(** *** The idempotent wrapper *)

(** Statements that do not touch the groups and their periods. *)
Record same_groups (d d' : group_db) : Prop := {
  sg_groups : gd_groups d' = gd_groups d;
  sg_periods : gd_periods d' = gd_periods d;
  sg_amounts : group_periods (gd_billing d') = group_periods (gd_billing d);
  sg_ids : user_groups (gd_billing d') = user_groups (gd_billing d);
}.
#[export] Instance same_groups_preorder : PreOrder same_groups.
Proof. split; [by intros d|]. intros a b c [] []. split; congruence. Qed.
#[export] Hint Extern 0 (PreOrder same_groups) => exact same_groups_preorder : keeps.

Lemma same_groups_inv d d' : same_groups d d' -> groups_inv d -> groups_inv d'.
Proof.
  intros [E1 E2 E3 E4] [H1 H2 H3 H4]. split; rewrite ?E1, ?E2, ?E3, ?E4; try done.
  intros id g Hg. destruct (H1 id g Hg) as (pid & t & p & duration & Hok). exists pid, t, p, duration.
  eapply group_ok_frame; [exact Hok|..]; rewrite ?E2, ?E3; try done; apply Hok.
Qed.

Lemma same_claim p action fp op : keeps same_groups (claim_group_operation p action fp op).
Proof.
  unfold claim_group_operation. keeps_tac. apply keeps_mod. intros d. by split.
Qed.
Lemma same_finish op r : keeps same_groups (finish_group_operation op r).
Proof. apply keeps_mod. intros d. by split. Qed.

Lemma same_audit session_of inet_ok p e st si m : keeps same_groups (group_audit session_of inet_ok p e st si m).
Proof.
  unfold group_audit. keeps_tac. intros d x d'. unfold on_billing, tzoom, appendBillingAuditTx. rewrite tgets_bind, tguard_bind.
  destruct (_ && _); [|done]. intros [= _ <-]. by split.
Qed.

Lemma frame_claim p action fp op : keeps group_frame (claim_group_operation p action fp op).
Proof. unfold claim_group_operation. keeps_tac. apply keeps_mod. intros d. by apply frame_same. Qed.
Lemma frame_finish op r : keeps group_frame (finish_group_operation op r).
Proof. apply keeps_mod. intros d. by apply frame_same. Qed.
Lemma frame_audit session_of inet_ok p e st si m : keeps group_frame (group_audit session_of inet_ok p e st si m).
Proof.
  unfold group_audit. keeps_tac. apply frame_on_billing. intros b x b'. unfold appendBillingAuditTx. rewrite tgets_bind, tguard_bind.
  destruct (_ && _); [|done]. intros [= _ <-]. split; [|done]. split; btables; try done; eauto. intros; congruence.
Qed.
#[export] Hint Resolve same_claim same_finish same_audit frame_claim frame_finish frame_audit : keeps.

(** Any transaction that keeps the tables consistent does so inside the wrapper. *)
Lemma group_write_body_inv fingerprint session_of inet_ok p action values apply_ d x d' :
  (forall y e e', groups_inv e -> apply_ e = Ok (y, e') -> groups_inv e') -> groups_inv d ->
  group_write_body fingerprint session_of inet_ok p action values apply_ d = Ok (x, d') -> groups_inv d'.
Proof.
  intros Happly I. unfold group_write_body. intros (replay & d1 & Hc & H)%tbind_Ok.
  pose proof (same_groups_inv _ _ (same_claim _ _ _ _ _ _ _ Hc) I) as I1. destruct replay as [r|]; [by injection H as _ <-|].
  apply tbind_Ok in H as (y & d2 & Ha & H). pose proof (Happly _ _ _ I1 Ha) as I2. apply tbind_Ok in H as ([] & d3 & Hf & H).
  pose proof (same_groups_inv _ _ (same_finish _ _ _ _ _ Hf) I2) as I3. apply tbind_Ok in H as ([] & d4 & Hau & H). injection H as _ <-.
  by apply (same_groups_inv _ _ (same_audit _ _ _ _ _ _ _ _ _ _ Hau)).
Qed.

Lemma frame_group_write_body fingerprint session_of inet_ok p action values apply_ : keeps group_frame apply_ ->
  keeps group_frame (group_write_body fingerprint session_of inet_ok p action values apply_).
Proof. intros. unfold group_write_body. keeps_tac. Qed.
#[export] Hint Resolve frame_group_write_body : keeps.

Lemma group_write_inv fingerprint session_of inet_ok clock p action values apply_ d :
  (forall y e e', groups_inv e -> apply_ e = Ok (y, e') -> groups_inv e') -> groups_inv d ->
  groups_inv (groupWrite fingerprint session_of inet_ok clock p action values apply_ d).2.
Proof.
  intros Ha I. unfold groupWrite. destruct (validateBillingWrite p); [|done]. apply withTx_preserves; [|done]. intros x d' H.
  by eapply group_write_body_inv.
Qed.

Lemma frame_group_write fingerprint session_of inet_ok clock p action values apply_ d : keeps group_frame apply_ ->
  group_frame d (groupWrite fingerprint session_of inet_ok clock p action values apply_ d).2.
Proof. intros. unfold groupWrite. destruct (validateBillingWrite p); [|reflexivity]. apply keeps_withTx; [exact _|]. by apply frame_group_write_body. Qed.

(** *** Archiving *)

Lemma archive_body_inv collate id at_ d x d' : group_time at_ -> groups_inv d -> archive_body collate id at_ d = Ok (x, d') -> groups_inv d'.
Proof.
  intros Ht I. unfold archive_body. intros ([] & d1 & Hl & H)%tbind_Ok. unfold lockGroupTx in Hl. rewrite tgets_bind in Hl.
  apply tbind_Ok in Hl as (? & d2 & [_ ->]%tsome_Ok & Hl). injection Hl as <-. apply tbind_Ok in H as (s & d3 & Hr & H).
  destruct (roll_row _ _ _ _ _ Ht I Hr) as (I3 & row & pid & t & p & duration & Hrow & Hok & ->).
  rewrite tguard_bind in H. destruct (_ =? 0); [|done]. apply tbind_Ok in H as ([] & d4 & Hu & H).
  apply (update_group_Ok _ _ _ _ row) in Hu as [Hck ->]; [|done]. unfold close_periods in H. rewrite tmod_bind in H. apply detail_Ok in H as [-> _].
  cbn [gs_PeriodID summary_of]. destruct (set_group_others d3 id (archive_row at_ row) I3 ltac:(eauto)) as [O1 O2 O3 O4]. gtables. apply others_inv with id.
  - split; gtables; try done.
    + intros j gj Hj Hne. destruct (O1 j gj Hj Hne) as (pj & tj & qj & dur & Hokj). exists pj, tj, qj, dur.
      assert (pj <> pid) by (intros ->; pose proof (ok_amounts _ _ _ _ _ _ _ Hokj); pose proof (ok_owner _ _ _ _ _ _ _ Hokj); destruct Hok; gtables; congruence).
      eapply group_ok_frame; [exact Hokj|..]; gtables; try done; [|apply Hokj]. rewrite lookup_alter_ne by done. apply Hokj.
    + by rewrite dom_alter_L.
  - intros g'. gtables. rewrite lookup_insert_eq. intros [= <-]. exists pid, (close_period at_ t), p, duration.
    destruct Hok. split; gtables; try done. by rewrite lookup_alter_eq, ok_times0.
Qed.

Lemma frame_archive_body collate id at_ : keeps group_frame (archive_body collate id at_).
Proof. unfold archive_body. keeps_tac. Qed.

Lemma frame_insert_group id row : keeps group_frame (insert_group id row).
Proof.
  unfold insert_group. keeps_tac; [apply keeps_mod; intros d; by apply frame_same|]. apply frame_on_billing, keeps_mod. intros b.
  split; [|done]. split; gtables; try done; eauto. intros; congruence.
Qed.
Lemma frame_period_limits pid limit member :
  keeps group_frame (update_period_limits pid limit member).
Proof.
  apply frame_on_billing. intros b x b'. unfold update_one. rewrite tgets_bind. cbn [update_rows].
  destruct (group_periods b !! pid) as [p|] eqn:Hp; [destruct (group_period_check _) eqn:Hck; [|done]|]; intros [= _ <-]; btables.
  - split; [|by rewrite dom_insert_lookup_L]. split; btables; try done.
    + intros q r Hr. destruct (decide (q = pid)) as [->|]; [rewrite lookup_insert_eq|rewrite lookup_insert_ne by done; eauto].
      eexists. split; [done|]. cbn. split; congruence.
    + intros q r. rewrite lookup_insert_Some. intros [[<- <-]|[_ ?]] ?; congruence.
    + intros HF. by apply map_Forall_insert_2.
  - split; [|done]. split; btables; try done; eauto. intros; congruence.
Qed.
#[export] Hint Resolve frame_archive_body frame_insert_group frame_period_limits : keeps.

Lemma frame_put_body collate a : keeps group_frame (put_body collate a).
Proof. unfold put_body, put_new, put_existing, validateBillingModelsTx. keeps_tac. Qed.
#[export] Hint Resolve frame_put_body : keeps.

(** ** Replays *)

(** The bodies of the writes leave the table of operations alone. *)
Definition operations_kept (d d' : group_db) : Prop := gd_operations d' = gd_operations d.
#[export] Instance operations_kept_preorder : PreOrder operations_kept.
Proof. split; [by intros d|]. intros a b c H1 H2. unfold operations_kept in *. congruence. Qed.
#[export] Hint Extern 0 (PreOrder operations_kept) => exact operations_kept_preorder : keeps.
#[export] Hint Extern 3 (keeps operations_kept (tmod _)) => (apply keeps_mod; intros ?; reflexivity) : keeps.

Lemma ops_on_billing {A} (m : tx billing_db A) : keeps operations_kept (on_billing m).
Proof. intros d a d'. unfold on_billing, tzoom. destruct (m (gd_billing d)) as [[x b]|]; [|done]. by intros [= _ <-]. Qed.
Lemma ops_newUUID : keeps operations_kept newUUID.
Proof. intros d a d'. unfold newUUID. destruct (gd_random d); [done|]. by intros [= _ <-]. Qed.
#[export] Hint Resolve ops_on_billing ops_newUUID : keeps.
Lemma ops_update_group op id f : keeps operations_kept (update_group op id f).
Proof. unfold update_group. keeps_tac. Qed.
Lemma ops_nullable op s : keeps operations_kept (nullable_numeric op s).
Proof. unfold nullable_numeric, numeric_param. keeps_tac. Qed.
#[export] Hint Resolve ops_update_group ops_nullable : keeps.
Lemma ops_replace id pid l m n s e c at_ : keeps operations_kept (replaceGroupPeriodTx id pid l m n s e c at_).
Proof. unfold replaceGroupPeriodTx, numeric_param, close_periods, insert_period. keeps_tac. Qed.
#[export] Hint Resolve ops_replace : keeps.
Lemma ops_roll id at_ : keeps operations_kept (rollGroupTx id at_).
Proof. unfold rollGroupTx, readGroupSummaryTx. keeps_tac. Qed.
Lemma ops_detail collate id : keeps operations_kept (groupDetailTx collate id).
Proof. unfold groupDetailTx, readGroupSummaryTx. keeps_tac. Qed.
#[export] Hint Resolve ops_roll ops_detail : keeps.
Lemma ops_put_body collate a : keeps operations_kept (put_body collate a).
Proof.
  unfold put_body, put_new, put_existing, validateBillingModelsTx, lockGroupTx, numeric_param, insert_group, update_period_limits. keeps_tac.
Qed.
Lemma ops_archive_body collate id at_ : keeps operations_kept (archive_body collate id at_).
Proof. unfold archive_body, lockGroupTx, close_periods. keeps_tac. Qed.
#[export] Hint Resolve ops_put_body ops_archive_body : keeps.

Lemma ops_audit session_of inet_ok p e st si m : keeps operations_kept (group_audit session_of inet_ok p e st si m).
Proof. unfold group_audit. keeps_tac. Qed.

Section replay.
Context (fingerprint : list string -> string) (session_of : string -> string -> bool) (inet_ok : string -> bool).

(** The row a committed write leaves behind. *)
Lemma group_write_recorded clock p action values apply_ d x d' :
  keeps operations_kept apply_ -> groupWrite fingerprint session_of inet_ok clock p action values apply_ d = (Ok x, d') ->
  1 <= rune_count (OperationID p) <= 128 /\ exists row r, gd_operations d' !! OperationID p = Some row /\ go_actor row = ActorUserID p /\ go_action row = action /\
    go_fingerprint row = fingerprint (values ++ [trim_space (Reason p)]) /\ go_response row = Some r /\ decodeGroupOperationResponse r = x.
Proof.
  intros Hk. unfold groupWrite. destruct (validateBillingWrite p); [|done]. rewrite withTx_commit. unfold group_write_body.
  intros (replay & d1 & Hc & H)%tbind_Ok. unfold claim_group_operation in Hc. cbn [with_at OperationID Reason ActorUserID At] in *. rewrite tguard_bind in Hc.
  destruct (_ && _) eqn:Hlen; [|done]. apply andb_true_iff in Hlen as [Hl1 Hl2]. split; [lia|]. rewrite tgets_bind in Hc.
  destruct (gd_operations d !! OperationID p) as [row|] eqn:Hrow.
  - destruct (go_response row) as [r|] eqn:Hr; [|done]. rewrite tguard_bind in Hc. destruct (_ && _) eqn:Hm; [|done]. injection Hc as <- <-.
    rewrite !andb_true_iff, !bool_decide_eq_true in Hm. destruct Hm as [[Hm1 Hm2] Hm3]. injection H as <- <-. exists row, r. done.
  - rewrite tguard_bind in Hc. destruct (bool_decide _); [|done]. injection Hc as <- <-. apply tbind_Ok in H as (y & d2 & Ha & H).
    pose proof (Hk _ _ _ Ha) as E2. unfold operations_kept in E2. gtables. unfold finish_group_operation in H. rewrite tmod_bind in H.
    apply tbind_Ok in H as ([] & d3 & Hau & H). injection H as <- <-. pose proof (ops_audit _ _ _ _ _ _ _ _ _ _ Hau) as E3. unfold operations_kept in E3.
    gtables. rewrite E3, E2, lookup_alter_eq, lookup_insert_eq. eexists _, _. split; [reflexivity|]. done.
Qed.

(** Group writes are idempotent: once a write committed, repeating its
    operation id returns the recorded response, whatever happened to the group
    since, and changes nothing; the same id with another actor, action,
    argument or reason is refused as a conflict. *)
Theorem group_write_replays clock p action values apply_ d x d' :
  keeps operations_kept apply_ -> groupWrite fingerprint session_of inet_ok clock p action values apply_ d = (Ok x, d') ->
  forall clock2 p2 action2 values2 apply2 d2,
    OperationID p2 = OperationID p -> validateBillingWrite p2 = Ok tt -> gd_operations d2 !! OperationID p = gd_operations d' !! OperationID p ->
    groupWrite fingerprint session_of inet_ok clock2 p2 action2 values2 apply2 d2 =
      (if bool_decide (ActorUserID p = ActorUserID p2) && bool_decide (action = action2) &&
          bool_decide (fingerprint (values ++ [trim_space (Reason p)]) = fingerprint (values2 ++ [trim_space (Reason p2)]))
       then (Ok x, d2) else (Err (ErrConflict "group operation replay mismatch"), d2)).
Proof.
  intros Hk H. destruct (group_write_recorded _ _ _ _ _ _ _ _ Hk H) as (Hlen & row & r & Hrow & Ea & Eact & Ef & Hr & Hx).
  intros clock2 p2 action2 values2 apply2 d2 Eid Hv Ed. unfold groupWrite. rewrite Hv. unfold withTx, group_write_body, claim_group_operation.
  cbn [with_at OperationID Reason ActorUserID At]. unfold tbind at 1. rewrite tguard_bind, Eid, tgets_bind, Ed, Hrow, Hr, Ea, Eact, Ef, tguard_bind.
  replace (_ && _) with true by lia. destruct (_ && _); [|done]. cbn. by rewrite Hx.
Qed.
End replay.

(** ** The calendar, in one statement *)

(** [C33] Period arithmetic is exact over the whole supported calendar, with no
    64-bit wrap-around although the years 1 to 9999 exceed a [time.Duration]:
    the period of an instant starts a whole number of periods after the anchor
    and contains the instant, and adding periods succeeds exactly when the
    result is before the year 10000. *)
Theorem group_calendar_exact period days duration anchor at_ :
  groupPeriodDuration period days = Ok duration -> group_time anchor -> group_time at_ ->
  Day24 <= duration <= 106751 * Day24 /\ duration <= max_int64 /\
  (let start := groupPeriodStart anchor at_ duration in
   anchor <= start /\ (start - anchor) mod duration = 0 /\
   (anchor <= at_ -> start <= at_ < start + duration) /\ (at_ < anchor -> start = anchor)) /\
  (forall count t, 0 <= count -> addGroupPeriods anchor duration count = Ok t <-> t = anchor + count * duration /\ t < year10000) /\
  (forall count, count < 0 -> exists e, addGroupPeriods anchor duration count = Err e).
Proof.
  intros Hd%group_duration_days Ha Ht. pose proof (duration_pos _ Hd) as Hpos. pose proof Hd as (n & En & Hn).
  assert (Hp : 0 < duration) by (unfold Day24, Hour, Minute, Second in Hpos; lia).
  split; [unfold Day24, Hour, Minute, Second in *; lia|]. split; [unfold Day24, Hour, Minute, Second, max_int64 in *; lia|]. split.
  - cbv zeta. rewrite group_period_start by done. pose proof (Z.div_mod (at_ - anchor) duration ltac:(lia)). pose proof (Z.mod_pos_bound (at_ - anchor) duration Hp).
    split; [nia|]. split; [|split].
    + replace (anchor + _ - anchor) with (Z.max 0 ((at_ - anchor) / duration) * duration) by ring. apply Z.mod_mul. lia.
    + intros Hle. rewrite Z.max_r by (apply Z.div_pos; lia). lia.
    + intros Hlt. assert ((at_ - anchor) / duration < 0) by (apply Z.div_lt_upper_bound; lia). lia.
  - split; [intros; by apply add_group_periods_Ok|]. intros count Hc. unfold addGroupPeriods. rewrite (proj2 (group_time_valid anchor) Ha). cbn [rbind].
    replace (count <? 0) with true by lia. by eexists.
Qed.

(** A daily group far before its anchor's 292nd year after, and the last day of the calendar. *)
Lemma group_calendar_exact_witness :
  groupPeriodStart 5 (year10000 - 1) (24 * Hour) = 5 + 3652058 * Day24 /\
  addGroupPeriods (5 + 3652057 * Day24) (24 * Hour) 1 = Ok (5 + 3652058 * Day24).
Proof.
  assert (Ha : group_time 5) by (unfold group_time, year10000, Day24, Hour, Minute, Second; lia).
  assert (Ht : group_time (year10000 - 1)) by (unfold group_time, year10000, Day24, Hour, Minute, Second; lia).
  assert (Hb : group_time (5 + 3652057 * Day24)) by (unfold group_time, year10000, Day24, Hour, Minute, Second; lia).
  destruct (group_calendar_exact "day" 0 (24 * Hour) 5 (year10000 - 1) eq_refl Ha Ht) as (_ & _ & (H1 & H2 & H3 & _) & _).
  destruct (group_calendar_exact "day" 0 (24 * Hour) (5 + 3652057 * Day24) (year10000 - 1) eq_refl Hb Ht) as (_ & _ & _ & H5 & _).
  split; [|apply (H5 1 (5 + 3652058 * Day24)); [lia|vm_compute; auto]].
  specialize (H3 ltac:(vm_compute; discriminate)). change (24 * Hour) with Day24 in *. set (s := groupPeriodStart _ _ _) in *.
  apply Z.mod_divide in H2 as [q Hq]; [|done]. change year10000 with (3652059 * Day24) in *. change Day24 with 86400000000000 in *.
  assert (q = 3652058) by lia. lia.
Defined.

(** ** A sample system *)

Definition demo_billing : billing_db :=
  BillingDB {["owner" := "active"; "ann" := "active"; "bob" := "active"]}
    {["ann" := Account 0 1 0; "bob" := Account 0 1 0]} ∅ ∅ ∅ ∅ ∅ ∅ ∅ ∅ [] ∅ ∅ ∅ (Settings 1 0 None) [].
Definition demo_random : list string :=
  map (fun c => String c (String c (String c (String c (String c (String c (String c (String c (String c (String c (String c (String c (String c
    (String c (String c (String c EmptyString))))))))))))))))
    ["a"; "b"; "c"; "d"; "e"; "f"; "g"; "h"; "i"]%char.
Definition demo_groups : group_db :=
  GroupDB demo_billing {["ann" := ("ann", "Ann"); "bob" := ("bob", "Bob")]} ∅ ∅ ∅ (Some ∅) ∅ {["gpt-5" := true]} demo_random.

Definition demo_write (op : string) : BillingWriteParams :=
  {| OperationID := op; Reason := "setup"; ActorUserID := "owner"; ActorSessionID := ""; RequestID := ""; SourceIP := ""; At := 0 |}.
(** A weekly allowance of ten dollars for at most twelve weeks. *)
Definition demo_put (op : string) (groupID : string) : PutGroupParams :=
  {| pg_write := demo_write op; pg_GroupID := groupID; pg_Name := " team "; pg_LimitUSD := "10"; pg_MemberLimitUSD := Some "4"; pg_MemberLimitSet := true;
     pg_Period := "week"; pg_CustomDays := 0; pg_StartsAt := None; pg_PeriodCount := Some 12; pg_ModelIDs := []; pg_ModelIDsSet := false |}.

Definition demo_fingerprint : list string -> string := join "|".
Definition demo_collate (_ _ : string) : comparison := Eq.
Definition demo_start : Z := 738000 * Day24.
Definition demo_create : result store_error Group * group_db :=
  PutGroup demo_fingerprint (fun _ _ => true) (fun _ => true) Some demo_collate demo_start (demo_put "op-1" "") demo_groups.
Definition demo_team : string := "61616161-6161-4161-a161-616161616161".

Example demo_create_ex :
  match demo_create with
  | (Ok g, d) => (gs_ID (group_summary g), gs_PeriodID (group_summary g), gs_RemainingUSD (group_summary g), gs_ExpiresAt (group_summary g), length (gd_random d))
  | (Err _, _) => ("", "", "", None, 0%nat)
  end = (demo_team, "62626262-6262-4262-a262-626262626262", "10.000000000000", Some (demo_start + 84 * Day24), 7%nat).
Proof. vm_compute. reflexivity. Qed.

Lemma put_group_inv fingerprint session_of inet_ok uuid_parse collate clock p d :
  groups_inv d -> groups_inv (PutGroup fingerprint session_of inet_ok uuid_parse collate clock p d).2.
Proof.
  intros I. unfold PutGroup. destruct (put_arguments uuid_parse clock p) as [a|] eqn:Ha; [|done]. apply group_write_inv; [|done].
  intros y e e' He. apply put_body_inv; [by eapply put_arguments_ok|done].
Qed.

Lemma demo_groups_inv : groups_inv demo_groups.
Proof.
  split; [|reflexivity|reflexivity|]; intros id g H.
  - change (gd_groups demo_groups) with (∅ : gmap string group_row) in H. by rewrite lookup_empty in H.
  - change (group_periods (gd_billing demo_groups)) with (∅ : gmap string group_period_row) in H. by rewrite lookup_empty in H.
Qed.

Lemma roll_group_current_witness : exists s d',
  rollGroupTx demo_team (demo_start + 15 * Day24) demo_create.2 = Ok (s, d') /\ groups_inv d' /\ gs_PeriodStartsAt s = demo_start + 14 * Day24 /\
  gs_CurrentPeriodNumber s = 3 /\ groupPeriodActive (Some s) (demo_start + 15 * Day24) = true.
Proof.
  assert (I : groups_inv demo_create.2) by (apply put_group_inv, demo_groups_inv).
  destruct (gd_groups demo_create.2 !! demo_team) as [g|] eqn:Hg; [|vm_compute in Hg; discriminate Hg].
  destruct (gi_groups _ I demo_team g Hg) as (pid & t & p & duration & Hok).
  assert (Ht : group_time (demo_start + 15 * Day24)) by (vm_compute; split; [discriminate|reflexivity]).
  destruct (roll_group_current _ demo_team g pid t p duration (demo_start + 15 * Day24) I Hg Hok Ht) as [Hlive Hspec].
  destruct (Hlive (default "" (gd_random demo_create.2 !! 0%nat)) (drop 1 (gd_random demo_create.2))) as (s & d' & Hrun);
    [vm_compute; reflexivity|vm_compute; reflexivity|].
  exists s, d'. split; [exact Hrun|]. destruct (Hspec s d' Hrun) as (I' & H1 & _ & H3 & _ & _ & H6 & _). split; [exact I'|].
  pose proof (ok_current _ _ _ _ _ _ _ Hok) as Ec. pose proof (ok_times _ _ _ _ _ _ _ Hok) as Et. pose proof (ok_duration _ _ _ _ _ _ _ Hok) as Ed.
  vm_compute in Hg. injection Hg as <-. injection Ec as <-. vm_compute in Et. injection Et as <-. vm_compute in Ed. injection Ed as <-.
  split; [rewrite H1; vm_compute; reflexivity|]. split; [rewrite H3; vm_compute; reflexivity|]. apply H6. vm_compute. discriminate.
Defined.

Lemma group_write_replays_witness :
  exists d', demo_create = (Ok {| group_summary := match demo_create.1 with Ok g => group_summary g | Err _ => group_summary zero_group end; group_members := [] |}, d') /\
    forall d2, gd_operations d2 !! "op-1" = gd_operations d' !! "op-1" ->
      (groupWrite demo_fingerprint (fun _ _ => true) (fun _ => true) 7 (demo_write "op-1") "archive" [] (tfail (ErrOther "")) d2).1 =
      Err (ErrConflict "group operation replay mismatch").
Proof.
  eexists. split; [vm_compute; reflexivity|]. intros d2 Hd2.
  destruct (put_arguments Some demo_start (demo_put "op-1" "")) as [a|] eqn:Ha; [|vm_compute in Ha; discriminate Ha].
  assert (H : exists x, groupWrite demo_fingerprint (fun _ _ => true) (fun _ => true) demo_start (with_at demo_start (demo_write "op-1")) "put"
    (put_fingerprint a) (put_body demo_collate a) demo_groups = (Ok x, demo_create.2)).
  { vm_compute in Ha. injection Ha as <-. eexists. vm_compute. reflexivity. }
  destruct H as [x H].
  rewrite (group_write_replays demo_fingerprint (fun _ _ => true) (fun _ => true) demo_start (with_at demo_start (demo_write "op-1")) "put"
    (put_fingerprint a) (put_body demo_collate a) demo_groups x demo_create.2 (ops_put_body demo_collate a) H 7 (demo_write "op-1") "archive" []
    (tfail (ErrOther "")) d2 eq_refl eq_refl); [reflexivity|]. etransitivity; [exact Hd2|]. vm_compute. reflexivity.
Defined.
