(* ===== verification/Membership.v ===== *)
(** * Group membership and group funding ([internal/store/group.go], [group_memberships.go])

    Who belongs to a group: the table [group_memberships] and, from the time a
    user had at most one group, the column [billing_accounts.group_id].  The
    administrator adds and removes members, a member orders his groups, and a
    request asks which groups can pay for it. *)
From Stdlib Require Import Ascii.
From S2P Require Import Prelude GoStrings GoTime Store Money Funding BillingTables Charging Accounts Groups.

(** ** Statements *)

Definition memberships_tx : tx group_db (gmap (string * string) membership_row) :=
  let* m := tgets gd_memberships in
  match m with Some m => tret m | None => tfail (ErrOther "relation group_memberships does not exist") end.

(** [ORDER BY priority, group_id]. *)
Definition membership_less (a b : string * Z) : bool :=
  if a.2 <? b.2 then true else if b.2 <? a.2 then false else str_ltb a.1 b.1.
Definition user_memberships (userID : string) (m : gmap (string * string) membership_row) : list (string * Z) :=
  stable_sort membership_less
    (map (fun kv => (kv.1.1, ms_priority kv.2)) (map_to_list (filter (fun kv => kv.1.2 = userID) m))).

Definition touch_account (at_ : Z) (a : account_row) : account_row := Account (balance_usd a) (next_cash_lot_sequence a) at_.
(** [UPDATE billing_accounts SET group_id = f(group_id), updated_at WHERE user_id AND cond]. *)
Definition update_mirror (userID : string) (cond : option string -> bool) (f : option string -> option string) (at_ : Z) : tx group_db unit :=
  tmod (fun d =>
    match billing_accounts (gd_billing d) !! userID with
    | None => d
    | Some a =>
        if cond (gd_mirror d !! userID) then
          set_mirror (partial_alter f userID (gd_mirror d))
            (set_billing (set_accounts (<[userID := touch_account at_ a]> (billing_accounts (gd_billing d))) (gd_billing d)) d)
        else d
    end).

(** ** Changing the members *)

Definition groupMemberAccountIDsTx (groupID : string) : tx group_db (list string) :=
  let* _ := memberships_tx in
  tgets (fun d => stable_sort str_ltb (elements (member_ids groupID d))).

Definition StatusPending : string := "pending".
Definition lockGroupMemberUsersTx (ids : list string) : tx group_db unit :=
  let* d := tgets (fun d => d) in
  tguard (forallb (fun id => negb (bool_decide (users (gd_billing d) !! id = Some StatusPending))) ids)
    (ErrConflict "user registration is awaiting approval") ;;
  tguard (forallb (fun id => bool_decide (is_Some (users (gd_billing d) !! id))) ids) (ErrNotFound "group member user is missing").

Definition add_member (groupID : string) (at_ : Z) (id : string) : tx group_db unit :=
  let* m := memberships_tx in
  tmod (set_memberships (insert_missing (groupID, id) (Membership 100 at_ at_) m)) ;;
  update_mirror id (fun _ => true) (fun old => Some (default groupID old)) at_.

Definition remove_member (groupID : string) (at_ : Z) (id : string) : tx group_db unit :=
  let* m := memberships_tx in
  tmod (set_memberships (delete (groupID, id) m)) ;;
  let* m := memberships_tx in
  update_mirror id (fun old => bool_decide (old = Some groupID)) (fun _ => fst <$> head (user_memberships id m)) at_.

Fixpoint each {A} (f : A -> tx group_db unit) (l : list A) : tx group_db unit :=
  match l with [] => tret tt | a :: rest => f a ;; each f rest end.

(** [DELETE] of the memberships, then the statement on the older column, which
    is cleared only for users with no membership left. *)
Definition remove_all_members (groupID : string) (at_ : Z) : tx group_db unit :=
  let* m := memberships_tx in
  tmod (set_memberships (filter (fun kv => kv.1.1 <> groupID) m)) ;;
  let* m := memberships_tx in
  let* ids := tgets (fun d => elements (dom (gd_mirror d))) in
  each (fun id => update_mirror id
    (fun old => bool_decide (old = Some groupID) && bool_decide (user_memberships id m = [])) (fun _ => None) at_) ids.

(** The three actions, on the locked members. *)
Definition change_members (groupID action : string) (memberIDs : list string) (at_ : Z) : tx group_db unit :=
  if bool_decide (action = "remove_all") then remove_all_members groupID at_
  else if bool_decide (action = "add") then each (add_member groupID at_) memberIDs
  else each (remove_member groupID at_) memberIDs.

Section members.
Context (fingerprint : list string -> string) (session_of : string -> string -> bool) (inet_ok : string -> bool)
        (uuid_parse : string -> option string) (collate : string -> string -> comparison).

Definition members_body (groupID action : string) (ids : list string) (at_ : Z) : tx group_db Group :=
  let removeAll := bool_decide (action = "remove_all") in
  let* memberIDs := (if removeAll then groupMemberAccountIDsTx groupID else tret ids) in
  (if bool_decide (memberIDs = []) then tret tt else lockGroupMemberUsersTx memberIDs) ;;
  lockGroupTx groupID ;;
  let* g := rollGroupTx groupID at_ in
  tguard (is_nil (gs_ArchivedAt g)) (ErrConflict "group is archived") ;;
  change_members groupID action memberIDs at_ ;;
  groupDetailTx collate groupID.

Fixpoint canonical_each (ids : list string) : result store_error (list string) :=
  match ids with
  | [] => Ok []
  | id :: rest => let! x := canonicalGroupID uuid_parse id in let! xs := canonical_each rest in Ok (x :: xs)
  end.
Fixpoint adjacent_equal (ids : list string) : bool :=
  match ids with a :: ((b :: _) as rest) => bool_decide (a = b) || adjacent_equal rest | _ => false end.

Definition members_arguments (groupID action : string) (userIDs : list string) : result store_error (string * list string) :=
  let removeAll := bool_decide (action = "remove_all") in
  let n := Z.of_nat (length userIDs) in
  if empty groupID || (removeAll && negb (n =? 0)) ||
     (negb removeAll && ((negb (bool_decide (action = "add")) && negb (bool_decide (action = "remove"))) || (n =? 0) || (5000 <? n)))
  then Err (ErrInvalid "invalid group members operation") else
  let! gid := canonicalGroupID uuid_parse groupID in
  let! ids := canonical_each userIDs in
  let ids := stable_sort str_ltb ids in
  if adjacent_equal ids then Err (ErrInvalid "user IDs must be distinct") else Ok (gid, ids).

Definition SetGroupMembers (clock : Z) (p : BillingWriteParams) (groupID action : string) (userIDs : list string) (d : group_db)
  : result store_error Group * group_db :=
  match members_arguments groupID action userIDs with
  | Err e => (Err e, d)
  | Ok (gid, ids) =>
      let p := with_at clock p in
      groupWrite fingerprint session_of inet_ok clock p ("members." +:+ action) (gid :: ids) (members_body gid action ids (At p)) d
  end.

(** ** A member's order of groups *)

Definition decode_preference (r : group_response) : GroupMembershipPreference :=
  match r with
  | PreferenceResponse p => p
  | GroupResponse _ _ => {| gp_GroupID := ""; gp_UserID := ""; gp_Priority := 0 |}
  end.

Definition priority_body (p : BillingWriteParams) (gid uid : string) (priority : Z) : tx group_db GroupMembershipPreference :=
  on_billing (lockBillingAccountTx uid) ;;
  lockGroupTx gid ;;
  let fp := fingerprint ["membership_priority"; gid; uid; int_text priority; trim_space (Reason p)] in
  let* replay := claim_group_operation p "membership_priority" fp "claim membership priority operation" in
  match replay with
  | Some r => tret (decode_preference r)
  | None =>
      let* rows := tgets gd_groups in
      let* row := tsome "read group status" (rows !! gid) in
      tguard (is_nil (ug_archived_at row)) (ErrConflict "group is archived") ;;
      let* m := memberships_tx in
      let* ms := tsome "group membership not found" (m !! (gid, uid)) in
      tmod (set_memberships (<[(gid, uid) := Membership priority (ms_created_at ms) (At p)]> m)) ;;
      let result := {| gp_GroupID := gid; gp_UserID := uid; gp_Priority := priority |} in
      finish_group_operation (OperationID p) (PreferenceResponse result) ;;
      group_audit session_of inet_ok p "group.membership_priority" "group_membership" gid
        [("user_id", MetaString uid); ("priority", MetaInt priority); ("operation_id", MetaString (OperationID p))] ;;
      tret result
  end.

Definition SetGroupMembershipPriority (clock : Z) (p : BillingWriteParams) (groupID userID : string) (priority : Z) (d : group_db)
  : result store_error GroupMembershipPreference * group_db :=
  match (let! _ := validateBillingWrite p in
         let! gid := canonicalGroupID uuid_parse (trim_space groupID) in
         let! uid := canonicalGroupID uuid_parse (trim_space userID) in
         if negb (bool_decide (ActorUserID p = uid)) || (priority <? 1) || (100 <? priority)
         then Err (ErrInvalid "membership priority requires the member and a value between 1 and 100") else Ok (gid, uid)) with
  | Err e => (Err e, d)
  | Ok (gid, uid) => withTx (priority_body (with_at clock p) gid uid priority) d
  end.

Definition ListUserGroupMemberships (userID : string) (d : group_db) : result store_error (list GroupMembershipPreference) :=
  let! uid := canonicalGroupID uuid_parse (trim_space userID) in
  match gd_memberships d with
  | None => Err (ErrOther "relation group_memberships does not exist")
  | Some m => Ok (map (fun x => {| gp_GroupID := x.1; gp_UserID := uid; gp_Priority := x.2 |}) (user_memberships uid m))
  end.
End members.

(** ** The groups that can pay for a request *)

Fixpoint lock_each (ids : list string) : tx group_db unit :=
  match ids with [] => tret tt | id :: rest => lockGroupTx id ;; lock_each rest end.

(** Roll every group once; archived groups are left out. *)
Fixpoint roll_members (at_ : Z) (members : list (string * Z)) (byID : gmap string GroupSummary) : tx group_db (gmap string GroupSummary) :=
  match members with
  | [] => tret byID
  | m :: rest =>
      match byID !! m.1 with
      | Some _ => roll_members at_ rest byID
      | None =>
          let* g := rollGroupTx m.1 at_ in
          roll_members at_ rest (if is_nil (gs_ArchivedAt g) then <[m.1 := g]> byID else byID)
      end
  end.

(** The loop variables: [usable] (newest last), [used] and [fallback]. *)
Record funding_loop := FundingLoop { fl_usable : list GroupSummary; fl_used : gset string; fl_fallback : option GroupSummary }.

Definition funding_member (userID : string) (at_ : Z) (model : string) (byID : gmap string GroupSummary) (m : string * Z) (l : funding_loop)
  : tx group_db funding_loop :=
  match byID !! m.1 with
  | None => tret l
  | Some g =>
      if bool_decide (m.1 ∈ fl_used l) then tret l else
      if negb (empty model) && negb (groupModelAllowed (Some g) model) then tret l else
      let fallback := if is_nil (fl_fallback l) && before_deadline at_ (gs_ExpiresAt g) then Some g else fl_fallback l in
      if groupPeriodActive (Some g) at_ && billingPositive (gs_RemainingUSD g) then
        let* rem := groupMemberRemainingTx (gs_PeriodID g) userID (gs_MemberLimitUSD g) in
        if match rem with None => true | Some r => billingPositive r end
        then tret (FundingLoop (fl_usable l ++ [g]) ({[m.1]} ∪ fl_used l) fallback)
        else tret (FundingLoop (fl_usable l) (fl_used l) fallback)
      else tret (FundingLoop (fl_usable l) (fl_used l) fallback)
  end.
Fixpoint funding_members (userID : string) (at_ : Z) (model : string) (byID : gmap string GroupSummary) (members : list (string * Z)) (l : funding_loop)
  : tx group_db funding_loop :=
  match members with
  | [] => tret l
  | m :: rest => let* l := funding_member userID at_ model byID m l in funding_members userID at_ model byID rest l
  end.

(** [model] is empty when the caller names none. *)
Definition userFundingGroupsTx (userID : string) (at_ : Z) (model : string) : tx group_db (list GroupSummary * option GroupSummary) :=
  let* d := tgets (fun d => d) in
  let members := match gd_memberships d with Some m => user_memberships userID m | None => [] end in
  let* members := (if bool_decide (members = []) then
      let* _ := tsome "read legacy user group" (billing_accounts (gd_billing d) !! userID) in
      tret (match gd_mirror d !! userID with Some g => [(g, 100)] | None => [] end)
    else tret members) in
  lock_each (stable_sort str_ltb (elements (list_to_set (map fst members) : gset string))) ;;
  let* byID := roll_members at_ members ∅ in
  let* l := funding_members userID at_ model byID members (FundingLoop [] ∅ None) in
  tret (fl_usable l, fl_fallback l).

(** ** Who is a member *)

Lemma elem_member_ids g u d : u ∈ member_ids g d <-> is_Some (memberships d !! (g, u)) \/ gd_mirror d !! u = Some g.
Proof.
  unfold member_ids. rewrite elem_of_union, elem_of_map. f_equiv.
  - split.
    + intros ([g' u'] & -> & [ms Hms]%elem_of_dom). apply map_lookup_filter_Some in Hms as [Hms E]. cbn in E. subst g'. by exists ms.
    + intros [ms Hms]. exists (g, u). split; [done|]. apply elem_of_dom. exists ms. by apply map_lookup_filter_Some.
  - rewrite elem_of_dom. split.
    + intros [g' H]. apply map_lookup_filter_Some in H as [H E]. cbn in E. by subst.
    + intros H. exists g. by apply map_lookup_filter_Some.
Qed.

Lemma elem_user_memberships u g n m : (g, n) ∈ user_memberships u m <-> exists ms, m !! (g, u) = Some ms /\ ms_priority ms = n.
Proof.
  unfold user_memberships. rewrite (stable_sort_perm membership_less), list_elem_of_fmap. split.
  - intros ([[g' u'] ms] & [= -> ->] & H). apply elem_of_map_to_list, map_lookup_filter_Some in H as [H E]. cbn in E. subst u'. by exists ms.
  - intros (ms & H & <-). exists ((g, u), ms). split; [done|]. apply elem_of_map_to_list, map_lookup_filter_Some. done.
Qed.

(** The older column belongs to an account. *)
Definition mirror_ok (d : group_db) : Prop := dom (gd_mirror d) ⊆ dom (billing_accounts (gd_billing d)).

(** Rolling and reading leave memberships alone. *)
Definition same_members (d d' : group_db) : Prop :=
  gd_memberships d' = gd_memberships d /\ gd_mirror d' = gd_mirror d /\ billing_accounts (gd_billing d') = billing_accounts (gd_billing d).
#[export] Instance same_members_preorder : PreOrder same_members.
Proof. split; [by intros d|]. intros a b c (?&?&?) (?&?&?). split_and!; congruence. Qed.
#[export] Hint Extern 0 (PreOrder same_members) => exact same_members_preorder : keeps.
#[export] Hint Extern 3 (keeps same_members (tmod _)) => (apply keeps_mod; intros ?; by split_and!) : keeps.
#[export] Hint Extern 3 (keeps same_members (on_billing (tmod _))) => (apply keeps_mod; intros ?; by split_and!) : keeps.

Lemma members_newUUID : keeps same_members newUUID.
Proof. intros d a d'. unfold newUUID. destruct (gd_random d); [done|]. by intros [= _ <-]. Qed.
#[export] Hint Resolve members_newUUID : keeps.
Lemma members_update_group op id f : keeps same_members (update_group op id f).
Proof. unfold update_group. keeps_tac. Qed.
Lemma members_nullable op s : keeps same_members (nullable_numeric op s).
Proof. unfold nullable_numeric, numeric_param. keeps_tac. Qed.
#[export] Hint Resolve members_update_group members_nullable : keeps.
Lemma members_replace id pid l m n s e c at_ : keeps same_members (replaceGroupPeriodTx id pid l m n s e c at_).
Proof. unfold replaceGroupPeriodTx, numeric_param, close_periods, insert_period. keeps_tac. Qed.
#[export] Hint Resolve members_replace : keeps.
Lemma members_roll id at_ : keeps same_members (rollGroupTx id at_).
Proof. unfold rollGroupTx, readGroupSummaryTx. keeps_tac. Qed.
Lemma members_detail collate id : keeps same_members (groupDetailTx collate id).
Proof. unfold groupDetailTx, readGroupSummaryTx. keeps_tac. Qed.
Lemma members_claim p action fp op : keeps same_members (claim_group_operation p action fp op).
Proof. unfold claim_group_operation. keeps_tac. Qed.
Lemma members_finish op r : keeps same_members (finish_group_operation op r).
Proof. unfold finish_group_operation. keeps_tac. Qed.
Lemma members_audit session_of inet_ok p e st si m : keeps same_members (group_audit session_of inet_ok p e st si m).
Proof.
  unfold group_audit. keeps_tac. intros d x d'. unfold on_billing, tzoom, appendBillingAuditTx. rewrite tgets_bind, tguard_bind.
  destruct (_ && _); [|done]. intros [= _ <-]. by split_and!.
Qed.
#[export] Hint Resolve members_roll members_detail members_claim members_finish members_audit : keeps.

Lemma same_member_ids d d' : same_members d d' -> forall g u, u ∈ member_ids g d' <-> u ∈ member_ids g d.
Proof. intros (E1 & E2 & _) g u. rewrite !elem_member_ids. unfold memberships. by rewrite E1, E2. Qed.
Lemma same_mirror_ok d d' : same_members d d' -> mirror_ok d -> mirror_ok d'.
Proof. intros (_ & E2 & E3). unfold mirror_ok. by rewrite E2, E3. Qed.

(** The effect of [update_mirror] on the tables. *)
Lemma update_mirror_run id cond f at_ d : exists d', update_mirror id cond f at_ d = Ok (tt, d') /\ gd_memberships d' = gd_memberships d /\
  dom (billing_accounts (gd_billing d')) = dom (billing_accounts (gd_billing d)) /\
  gd_mirror d' = if bool_decide (is_Some (billing_accounts (gd_billing d) !! id)) && cond (gd_mirror d !! id)
                 then partial_alter f id (gd_mirror d) else gd_mirror d.
Proof.
  unfold update_mirror, tmod. eexists. split; [reflexivity|]. destruct (billing_accounts (gd_billing d) !! id) as [a|] eqn:Ha.
  - rewrite bool_decide_true by by eexists. cbn [andb]. destruct (cond _); [|done]. gtables. split_and!; try done. by rewrite dom_insert_lookup_L.
  - by rewrite bool_decide_false by by intros [].
Qed.

Lemma mirror_account d u g : mirror_ok d -> gd_mirror d !! u = Some g -> is_Some (billing_accounts (gd_billing d) !! u).
Proof. intros H Hu. apply elem_of_dom, H, elem_of_dom. by eexists. Qed.

(** The members of every group after a step. *)
Definition members_after (d' : group_db) (P : string -> string -> Prop) : Prop :=
  mirror_ok d' /\ forall g u, u ∈ member_ids g d' <-> P g u.

Lemma add_member_Ok gid at_ id d x d' : mirror_ok d -> add_member gid at_ id d = Ok (x, d') ->
  members_after d' (fun g u => u ∈ member_ids g d \/ (g = gid /\ u = id)).
Proof.
  intros M. unfold add_member, memberships_tx. rewrite tbind_Ok. intros (m & d1 & Hm & H). rewrite tgets_bind in Hm.
  destruct (gd_memberships d) as [m0|] eqn:Em; [|done]. injection Hm as -> <-. rewrite tmod_bind in H.
  set (d2 := set_memberships _ d) in H. destruct (update_mirror_run id (fun _ => true) (fun old => Some (default gid old)) at_ d2) as (d3 & Hrun & E1 & E2 & E3).
  rewrite Hrun in H. injection H as _ <-. unfold d2 in *. gtables. rewrite andb_true_r in E3. split.
  - unfold mirror_ok. rewrite E2, E3. case_bool_decide as Ha; [|done]. intros u Hu. apply elem_of_dom in Hu. destruct (decide (u = id)) as [->|];
      [by apply elem_of_dom|]. rewrite lookup_partial_alter_ne in Hu by done. by apply M, elem_of_dom.
  - intros g u. rewrite !elem_member_ids. unfold memberships. rewrite E1, E3, Em. cbn [default]. unfold insert_missing.
    assert (Hms : is_Some ((match m !! (gid, id) with Some _ => m | None => <[(gid, id) := Membership 100 at_ at_]> m end) !! (g, u)) <->
      is_Some (m !! (g, u)) \/ g = gid /\ u = id).
    { destruct (m !! (gid, id)) eqn:Eg.
      - split; [by left|]. intros [?|[-> ->]]; [done|by eexists].
      - rewrite lookup_insert_is_Some'. split; intros [E|E]; auto; [injection E as -> ->; auto|destruct E as [-> ->]; auto]. }
    rewrite Hms. clear Hms. destruct (bool_decide_reflect (is_Some (billing_accounts (gd_billing d) !! id))) as [Ha|Ha]; [|tauto].
    destruct (decide (u = id)) as [->|]; [|rewrite lookup_partial_alter_ne by done; tauto]. rewrite lookup_partial_alter_eq.
    destruct (gd_mirror d !! id) as [g0|]; cbn; [tauto|]. split; [intros [[?|?]|[= ->]]; auto|intros [[?|?]|?]; auto; done].
Qed.

Lemma remove_member_Ok gid at_ id d x d' : mirror_ok d -> remove_member gid at_ id d = Ok (x, d') ->
  members_after d' (fun g u => u ∈ member_ids g d /\ ~ (g = gid /\ u = id)).
Proof.
  intros M. unfold remove_member, memberships_tx. rewrite tbind_Ok. intros (m & d1 & Hm & H). rewrite tgets_bind in Hm.
  destruct (gd_memberships d) as [m0|] eqn:Em; [|done]. injection Hm as -> <-. rewrite tmod_bind in H. apply tbind_Ok in H as (m1 & d2 & Hm & H).
  rewrite tgets_bind in Hm. gtables. injection Hm as <- <-. set (m1 := delete (gid, id) m) in *. set (d2 := set_memberships m1 d) in H.
  destruct (update_mirror_run id (fun old => bool_decide (old = Some gid)) (fun _ => fst <$> head (user_memberships id m1)) at_ d2) as (d3 & Hrun & E1 & E2 & E3).
  rewrite Hrun in H. injection H as _ <-. unfold d2 in *. gtables. split.
  - unfold mirror_ok. rewrite E2, E3. destruct (_ && _) eqn:Hc; [|done]. apply andb_true_iff in Hc as [Ha _]. apply bool_decide_eq_true in Ha.
    intros u Hu. apply elem_of_dom in Hu. destruct (decide (u = id)) as [->|]; [by apply elem_of_dom|].
    rewrite lookup_partial_alter_ne in Hu by done. by apply M, elem_of_dom.
  - intros g u. rewrite !elem_member_ids. unfold memberships. rewrite E1, E3, Em. cbn [default].
    assert (Hms : is_Some (m1 !! (g, u)) <-> is_Some (m !! (g, u)) /\ ~ (g = gid /\ u = id)).
    { unfold m1. rewrite lookup_delete_is_Some. split; intros [E F]; split; auto; [intros [-> ->]; done|]. intros [= -> ->]. by apply F. }
    destruct (decide (u = id)) as [->|Hne].
    + destruct (bool_decide_reflect (gd_mirror d !! id = Some gid)) as [Eg|Eg].
      * rewrite bool_decide_true by by eapply mirror_account. cbn [andb]. rewrite lookup_partial_alter_eq, Eg, Hms.
        destruct (user_memberships id m1) as [|[g1 n1] rest] eqn:Eu; cbn.
        -- split; [intros [?|?]; [tauto|done]|]. intros [[?|[= ->]] ?]; [by left|]. tauto.
        -- assert (Hin : is_Some (m1 !! (g1, id))).
           { assert ((g1, n1) ∈ user_memberships id m1) as (ms & ? & _)%elem_user_memberships by (rewrite Eu; apply elem_of_cons; by left). by eexists. }
           split; [intros [?|[= <-]]; [tauto|]|intros [[?|[= ->]] ?]; [by left|tauto]]. unfold m1 in Hin. apply lookup_delete_is_Some in Hin as [Hn Hin].
           split; [by left|]. intros [-> _]. by apply Hn.
      * rewrite andb_false_r, Hms. split; [intros [?|?]; [tauto|split; [by right|intros [-> _]; done]]|intros [[?|?] ?]; [by left|by right]].
    + assert ((if bool_decide (is_Some (billing_accounts (gd_billing d) !! id)) && bool_decide (gd_mirror d !! id = Some gid)
        then partial_alter (fun _ => fst <$> head (user_memberships id m1)) id (gd_mirror d) else gd_mirror d) !! u = gd_mirror d !! u) as ->
        by (destruct (_ && _); [by rewrite lookup_partial_alter_ne|done]).
      rewrite Hms. tauto.
Qed.

(** The same for every user of a list. *)
Lemma each_add_Ok gid at_ ids d x d' : mirror_ok d -> each (add_member gid at_) ids d = Ok (x, d') ->
  members_after d' (fun g u => u ∈ member_ids g d \/ (g = gid /\ u ∈ ids)).
Proof.
  revert d x. induction ids as [|id ids IH]; intros d x M; cbn [each].
  - intros [= _ <-]. split; [done|]. intros g u. rewrite elem_of_nil. tauto.
  - intros ([] & d1 & H1 & H)%tbind_Ok. destruct (add_member_Ok _ _ _ _ _ _ M H1) as (M1 & P1). destruct (IH d1 x M1 H) as (M2 & P2).
    split; [done|]. intros g u. rewrite P2, P1, elem_of_cons. tauto.
Qed.

Lemma each_remove_Ok gid at_ ids d x d' : mirror_ok d -> each (remove_member gid at_) ids d = Ok (x, d') ->
  members_after d' (fun g u => u ∈ member_ids g d /\ ~ (g = gid /\ u ∈ ids)).
Proof.
  revert d x. induction ids as [|id ids IH]; intros d x M; cbn [each].
  - intros [= _ <-]. split; [done|]. intros g u. rewrite elem_of_nil. tauto.
  - intros ([] & d1 & H1 & H)%tbind_Ok. destruct (remove_member_Ok _ _ _ _ _ _ M H1) as (M1 & P1). destruct (IH d1 x M1 H) as (M2 & P2).
    split; [done|]. intros g u. rewrite P2, P1, elem_of_cons. tauto.
Qed.

(** Nobody with another membership loses the older column. *)
Definition clears (gid : string) (m : gmap (string * string) membership_row) (id : string) (old : option string) : bool :=
  bool_decide (old = Some gid) && bool_decide (user_memberships id m = []).

Lemma clear_each_Ok gid at_ m ids d x d' : mirror_ok d -> each (fun id => update_mirror id (clears gid m id) (fun _ => None) at_) ids d = Ok (x, d') ->
  gd_memberships d' = gd_memberships d /\ mirror_ok d' /\
  forall u, gd_mirror d' !! u = if bool_decide (u ∈ ids) && clears gid m u (gd_mirror d !! u) then None else gd_mirror d !! u.
Proof.
  revert d x. induction ids as [|id ids IH]; intros d x M; cbn [each]; [by intros [= _ <-]|].
  destruct (update_mirror_run id (clears gid m id) (fun _ => None) at_ d) as (d1 & Hrun & E1 & E2 & E3). rewrite (tbind_run _ _ _ _ _ Hrun). intros H.
  assert (Hu : forall u, gd_mirror d1 !! u = if bool_decide (u = id) && clears gid m u (gd_mirror d !! u) then None else gd_mirror d !! u).
  { intros u. rewrite E3. destruct (bool_decide_reflect (u = id)) as [->|Hne]; cbn [andb].
    - destruct (clears gid m id (gd_mirror d !! id)) eqn:Hc; [|by rewrite andb_false_r]. unfold clears in Hc. apply andb_true_iff in Hc as [Hg _].
      apply bool_decide_eq_true in Hg. rewrite bool_decide_true by by eapply mirror_account. apply lookup_partial_alter_eq.
    - destruct (_ && _); [by rewrite lookup_partial_alter_ne|done]. }
  assert (M1 : mirror_ok d1).
  { unfold mirror_ok. rewrite E2. intros u [g Hg]%elem_of_dom. apply M, elem_of_dom. exists g. rewrite Hu in Hg. by destruct (bool_decide (u = id) && clears gid m u (gd_mirror d !! u)). }
  destruct (IH d1 x M1 H) as (F1 & F2 & F3). split; [congruence|]. split; [done|]. intros u. rewrite F3, Hu.
  destruct (bool_decide_reflect (u = id)) as [->|Hne]; cbn [andb].
  - rewrite (bool_decide_true (id ∈ id :: ids)) by (apply elem_of_cons; by left). cbn [andb].
    destruct (clears gid m id (gd_mirror d !! id)) eqn:Hc; [by destruct (bool_decide (id ∈ ids) && clears gid m id None)|]. by rewrite Hc, andb_false_r.
  - rewrite (bool_decide_ext (u ∈ id :: ids) (u ∈ ids)); [done|]. rewrite elem_of_cons. tauto.
Qed.

Lemma remove_all_Ok gid at_ d x d' : mirror_ok d -> remove_all_members gid at_ d = Ok (x, d') ->
  members_after d' (fun g u => u ∈ member_ids g d /\
    (g = gid -> gd_mirror d !! u = Some gid /\ exists g', g' <> gid /\ is_Some (memberships d !! (g', u)))).
Proof.
  intros M. unfold remove_all_members, memberships_tx. rewrite tbind_Ok. intros (m & d1 & Hm & H). rewrite tgets_bind in Hm.
  destruct (gd_memberships d) as [m0|] eqn:Em; [|done]. injection Hm as -> <-. rewrite tmod_bind in H. apply tbind_Ok in H as (m1 & d2 & Hm & H).
  rewrite tgets_bind in Hm. gtables. injection Hm as <- <-. rewrite tgets_bind in H. gtables. set (m1 := filter _ m) in *.
  destruct (clear_each_Ok gid at_ m1 (elements (dom (gd_mirror d))) (set_memberships m1 d) x d' M H) as (F1 & F2 & F3). gtables.
  assert (Hm1 : forall g u, is_Some (m1 !! (g, u)) <-> is_Some (m !! (g, u)) /\ g <> gid).
  { intros g u. unfold m1. split.
    - intros [ms H1]. apply map_lookup_filter_Some in H1 as [? ?]. split; [by eexists|done].
    - intros [[ms ?] ?]. exists ms. by apply map_lookup_filter_Some. }
  assert (Hnil : forall u, user_memberships u m1 <> [] <-> exists g, g <> gid /\ is_Some (m !! (g, u))).
  { intros u. split.
    - destruct (user_memberships u m1) as [|[g n] rest] eqn:E; [done|]. intros _. exists g.
      assert ((g, n) ∈ user_memberships u m1) as (ms & ? & _)%elem_user_memberships by (rewrite E; apply elem_of_cons; by left).
      assert (Hs : is_Some (m1 !! (g, u))) by by eexists. apply Hm1 in Hs. tauto.
    - intros (g & Hg & Hs). assert (is_Some (m1 !! (g, u))) as [ms Hms] by by apply Hm1. intros E.
      assert ((g, ms_priority ms) ∈ user_memberships u m1) as Hin by (apply elem_user_memberships; by exists ms). rewrite E in Hin. by apply elem_of_nil in Hin. }
  split; [done|]. intros g u. rewrite !elem_member_ids. unfold memberships. rewrite F1, F3, Em. cbn [default].
  rewrite Hm1. unfold clears. destruct (gd_mirror d !! u) as [g0|] eqn:Eg; cbn.
  - rewrite (bool_decide_true (u ∈ elements (dom (gd_mirror d)))) by (apply elem_of_elements, elem_of_dom; by eexists). cbn [andb].
    destruct (bool_decide_reflect (Some g0 = Some gid)) as [[= ->]|Hg0]; cbn [andb].
    + destruct (bool_decide_reflect (user_memberships u m1 = [])) as [En|En].
      * split; [intros [[? ?]|?]; [split; [by left|done]|done]|]. intros [Hor Himp]. destruct (decide (g = gid)) as [->|].
        -- destruct (Himp eq_refl) as [_ Hex%Hnil]. done.
        -- left. split; [|done]. destruct Hor as [?|[= ?]]; congruence.
      * apply Hnil in En. split; [intros [[? ?]|[= ->]]; [split; [by left|done]|split; [by right|done]]|]. intros [[?|?] Himp]; [|by right].
        destruct (decide (g = gid)) as [->|]; [by right|by left].
    + split; [intros [[? ?]|[= ->]]; [split; [by left|done]|split; [by right|intros ->; done]]|]. intros [[?|?] Himp]; [|by right].
      destruct (decide (g = gid)) as [->|]; [|by left]. destruct (Himp eq_refl) as [? _]. congruence.
  - rewrite andb_false_r. split; [intros [[? ?]|?]; [split; [by left|done]|done]|]. intros [[?|?] Himp]; [|done]. left. split; [done|].
    intros ->. by destruct (Himp eq_refl).
Qed.

(** *** The whole operation *)

Lemma ops_each {A} (f : A -> tx group_db unit) l : (forall a, keeps operations_kept (f a)) -> keeps operations_kept (each f l).
Proof. intros Hf. induction l; cbn [each]; keeps_tac. Qed.
Lemma ops_mirror id cond f at_ : keeps operations_kept (update_mirror id cond f at_).
Proof. apply keeps_mod. intros d. destruct (billing_accounts _ !! _); [|reflexivity]. by destruct (cond _). Qed.
#[export] Hint Resolve ops_each ops_mirror : keeps.
Lemma ops_members_body collate gid action ids at_ : keeps operations_kept (members_body collate gid action ids at_).
Proof.
  unfold members_body, change_members, groupMemberAccountIDsTx, lockGroupMemberUsersTx, lockGroupTx, remove_all_members, add_member, remove_member, memberships_tx.
  keeps_tac; apply ops_each; intros; keeps_tac.
Qed.

Section membership.
Context (fingerprint : list string -> string) (session_of : string -> string -> bool) (inet_ok : string -> bool)
        (uuid_parse : string -> option string) (collate : string -> string -> comparison).

(** A committed write that is not a replay ran its body; the rest of the
    wrapper leaves groups and members alone. *)
Lemma group_write_fresh clock p action values apply_ d x d' :
  groupWrite fingerprint session_of inet_ok clock p action values apply_ d = (Ok x, d') -> gd_operations d !! OperationID p = None ->
  exists d1 d2, same_members d d1 /\ same_groups d d1 /\ apply_ d1 = Ok (x, d2) /\ same_members d2 d' /\ same_groups d2 d'.
Proof.
  unfold groupWrite. destruct (validateBillingWrite p); [|done]. rewrite withTx_commit. unfold group_write_body. intros (replay & d1 & Hc & H)%tbind_Ok Hn.
  pose proof (members_claim _ _ _ _ _ _ _ Hc) as M1. pose proof (same_claim _ _ _ _ _ _ _ Hc) as G1.
  unfold claim_group_operation in Hc. rewrite tguard_bind in Hc. destruct (_ && _); [|done]. rewrite tgets_bind in Hc. cbn [with_at OperationID] in Hc. rewrite Hn in Hc.
  rewrite tguard_bind in Hc. destruct (bool_decide _); [|done]. injection Hc as <- Hd1. apply tbind_Ok in H as (y & d2 & Ha & H).
  apply tbind_Ok in H as ([] & d3 & Hf & H). apply tbind_Ok in H as ([] & d4 & Hau & H). injection H as -> ->. exists d1, d2. split_and!; try done.
  - transitivity d3; [by eapply members_finish|by eapply members_audit].
  - transitivity d3; [by eapply same_finish|by eapply same_audit].
Qed.

(** The body up to the statements on the members. *)
Lemma members_body_Ok gid action ids at_ d x d' : mirror_ok d -> members_body collate gid action ids at_ d = Ok (x, d') ->
  members_after d' (fun g u =>
    if bool_decide (action = "remove_all") then u ∈ member_ids g d /\
      (g = gid -> gd_mirror d !! u = Some gid /\ exists g', g' <> gid /\ is_Some (memberships d !! (g', u)))
    else if bool_decide (action = "add") then u ∈ member_ids g d \/ (g = gid /\ u ∈ ids)
    else u ∈ member_ids g d /\ ~ (g = gid /\ u ∈ ids)).
Proof.
  intros M. unfold members_body. intros (l & d1 & Hl & H)%tbind_Ok. apply tbind_Ok in H as ([] & d2 & Hu & H). apply tbind_Ok in H as ([] & d3 & Hg & H).
  apply tbind_Ok in H as (g0 & d4 & Hr & H). rewrite tguard_bind in H. destruct (is_nil _); [|done]. apply tbind_Ok in H as ([] & d5 & Hm & H).
  apply detail_Ok in H as [-> _].
  assert (Hread : d3 = d /\ (bool_decide (action = "remove_all") = false -> l = ids)).
  { assert (d1 = d /\ (bool_decide (action = "remove_all") = false -> l = ids)) as [-> El].
    { destruct (bool_decide (action = "remove_all")); [|by injection Hl as -> <-]. unfold groupMemberAccountIDsTx, memberships_tx in Hl.
      apply tbind_Ok in Hl as (? & d6 & Hq & Hl). rewrite tgets_bind in Hq. destruct (gd_memberships d); [|done]. injection Hq as _ <-. by injection Hl as _ <-. }
    assert (d2 = d) as ->.
    { destruct (bool_decide (l = [])); [by injection Hu|]. unfold lockGroupMemberUsersTx in Hu. rewrite tgets_bind, tguard_bind in Hu.
      destruct (forallb _ _); [|done]. by apply tguard_Ok in Hu as [_ ->]. }
    unfold lockGroupTx in Hg. rewrite tgets_bind in Hg. apply tbind_Ok in Hg as (? & d6 & [_ ->]%tsome_Ok & Hg). injection Hg as <-. done. }
  destruct Hread as [-> El]. pose proof (members_roll _ _ _ _ _ Hr) as S4. pose proof (same_mirror_ok _ _ S4 M) as M4.
  pose proof (same_member_ids _ _ S4) as Hids. destruct S4 as (E1 & E2 & _). unfold change_members in Hm.
  destruct (bool_decide (action = "remove_all")).
  - destruct (remove_all_Ok _ _ _ _ _ M4 Hm) as [M5 P]. split; [done|]. intros g u. rewrite P, Hids, E2. unfold memberships. by rewrite E1.
  - rewrite El in Hm by done. destruct (bool_decide (action = "add")).
    + destruct (each_add_Ok _ _ _ _ _ _ M4 Hm) as [M5 P]. split; [done|]. intros g u. by rewrite P, Hids.
    + destruct (each_remove_Ok _ _ _ _ _ _ M4 Hm) as [M5 P]. split; [done|]. intros g u. by rewrite P, Hids.
Qed.

Lemma set_members_Ok clock p groupID action userIDs gid ids d x d' :
  mirror_ok d -> gd_operations d !! OperationID p = None -> members_arguments uuid_parse groupID action userIDs = Ok (gid, ids) ->
  SetGroupMembers fingerprint session_of inet_ok uuid_parse collate clock p groupID action userIDs d = (Ok x, d') ->
  members_after d' (fun g u =>
    if bool_decide (action = "remove_all") then u ∈ member_ids g d /\
      (g = gid -> gd_mirror d !! u = Some gid /\ exists g', g' <> gid /\ is_Some (memberships d !! (g', u)))
    else if bool_decide (action = "add") then u ∈ member_ids g d \/ (g = gid /\ u ∈ ids)
    else u ∈ member_ids g d /\ ~ (g = gid /\ u ∈ ids)).
Proof.
  intros M Hn Ha. unfold SetGroupMembers. rewrite Ha. intros H. apply group_write_fresh in H as (d1 & d2 & S1 & _ & Hb & S2 & _); [|done].
  destruct (members_body_Ok _ _ _ _ _ _ _ (same_mirror_ok _ _ S1 M) Hb) as [M2 P]. split; [by apply (same_mirror_ok _ _ S2)|].
  intros g u. rewrite (same_member_ids _ _ S2), P. pose proof (same_member_ids _ _ S1 g u) as E. destruct S1 as (E1 & E2 & _).
  rewrite E2. unfold memberships. rewrite E1. destruct (bool_decide (action = "remove_all")), (bool_decide (action = "add")); by rewrite E.
Qed.

(** Adding and removing members does exactly that: the named users join
    or leave the named group, counting both the memberships and the older
    column, and nobody's membership of any other group changes. *)
Theorem membership_changes_exact clock p groupID action userIDs gid ids d x d' :
  action = "add" \/ action = "remove" ->
  mirror_ok d -> gd_operations d !! OperationID p = None -> members_arguments uuid_parse groupID action userIDs = Ok (gid, ids) ->
  SetGroupMembers fingerprint session_of inet_ok uuid_parse collate clock p groupID action userIDs d = (Ok x, d') ->
  mirror_ok d' /\
  (forall g u, g <> gid -> u ∈ member_ids g d' <-> u ∈ member_ids g d) /\
  (forall u, u ∈ member_ids gid d' <-> if bool_decide (action = "add") then u ∈ member_ids gid d \/ u ∈ ids else u ∈ member_ids gid d /\ u ∉ ids).
Proof.
  intros Hact M Hn Ha H. destruct (set_members_Ok _ _ _ _ _ _ _ _ _ _ M Hn Ha H) as [M' P]. split; [done|].
  assert (Hall : bool_decide (action = "remove_all") = false) by (apply bool_decide_eq_false; destruct Hact; congruence).
  destruct (bool_decide (action = "add")); (split; [intros g u Hg|intros u]); rewrite P, Hall; intuition eauto.
Qed.

(** [C40] Clearing a group with "remove_all" does not clear it: exactly the
    members whose older column names the group and who belong to some other
    group stay members, because the column is reset only for users with no
    membership left. *)
Theorem remove_all_leaves_mirrored clock p groupID gid ids d x d' :
  mirror_ok d -> gd_operations d !! OperationID p = None -> members_arguments uuid_parse groupID "remove_all" [] = Ok (gid, ids) ->
  SetGroupMembers fingerprint session_of inet_ok uuid_parse collate clock p groupID "remove_all" [] d = (Ok x, d') ->
  forall u, u ∈ member_ids gid d' <-> gd_mirror d !! u = Some gid /\ exists g, g <> gid /\ is_Some (memberships d !! (g, u)).
Proof.
  intros M Hn Ha H u. destruct (set_members_Ok _ _ _ _ _ _ _ _ _ _ M Hn Ha H) as [_ P]. rewrite P, bool_decide_true by done.
  split; [intros [_ Hi]; exact (Hi eq_refl)|]. intros [Hm Hg]. split; [apply elem_member_ids; by right|]. intros _. done.
Qed.
End membership.

(** ** Every operation keeps the groups consistent and moves no money *)

Lemma frame_mirror id cond f at_ : keeps group_frame (update_mirror id cond f at_).
Proof.
  apply keeps_mod. intros d. destruct (billing_accounts (gd_billing d) !! id) as [a|] eqn:Ha; [|reflexivity]. destruct (cond _); [|reflexivity].
  intros Hdom. gtables. split; [done|]. split; gtables; try done; [|eauto|intros; congruence].
  intros u. destruct (decide (u = id)) as [->|]; [rewrite lookup_insert_eq, Ha|rewrite lookup_insert_ne by done]; done.
Qed.
Lemma same_mirror id cond f at_ : keeps same_groups (update_mirror id cond f at_).
Proof. apply keeps_mod. intros d. destruct (billing_accounts _ !! _); [|reflexivity]. by destruct (cond _). Qed.
#[export] Hint Resolve frame_mirror same_mirror : keeps.
#[export] Hint Extern 3 (keeps group_frame (tmod (set_memberships _))) => (apply keeps_mod; intros ?; by apply frame_same) : keeps.
#[export] Hint Extern 3 (keeps same_groups (tmod (set_memberships _))) => (apply keeps_mod; intros ?; by split) : keeps.

Lemma keeps_each (R : group_db -> group_db -> Prop) `{!PreOrder R} {A} (f : A -> tx group_db unit) l : (forall a, keeps R (f a)) -> keeps R (each f l).
Proof. intros Hf. induction l; cbn [each]; [by apply keeps_ret|]. by apply keeps_bind. Qed.

Lemma frame_change_members gid action ids at_ : keeps group_frame (change_members gid action ids at_).
Proof.
  unfold change_members, remove_all_members, add_member, remove_member, memberships_tx.
  repeat apply keeps_if; keeps_tac; apply keeps_each; try exact _; intros; keeps_tac.
Qed.
Lemma same_change_members gid action ids at_ : keeps same_groups (change_members gid action ids at_).
Proof.
  unfold change_members, remove_all_members, add_member, remove_member, memberships_tx.
  repeat apply keeps_if; keeps_tac; apply keeps_each; try exact _; intros; keeps_tac.
Qed.
#[export] Hint Resolve frame_change_members same_change_members : keeps.

Lemma frame_members_body collate gid action ids at_ : keeps group_frame (members_body collate gid action ids at_).
Proof.
  unfold members_body, groupMemberAccountIDsTx, lockGroupMemberUsersTx, memberships_tx. keeps_tac.
Qed.

Lemma members_body_inv collate gid action ids at_ d x d' : group_time at_ -> groups_inv d ->
  members_body collate gid action ids at_ d = Ok (x, d') -> groups_inv d'.
Proof.
  intros Ht I. unfold members_body. intros (l & d1 & Hl & H)%tbind_Ok. apply tbind_Ok in H as ([] & d2 & Hu & H). apply tbind_Ok in H as ([] & d3 & Hg & H).
  apply tbind_Ok in H as (g0 & d4 & Hr & H). rewrite tguard_bind in H. destruct (is_nil _); [|done]. apply tbind_Ok in H as ([] & d5 & Hm & H).
  apply detail_Ok in H as [-> _]. apply (same_groups_inv d4); [by eapply same_change_members|]. eapply (roll_inv _ _ d3); [done| |exact Hr].
  apply (same_groups_inv d); [|done]. transitivity d1; [|transitivity d2].
  - refine ((_ : keeps same_groups _) _ _ _ Hl). unfold groupMemberAccountIDsTx, memberships_tx. keeps_tac.
  - refine ((_ : keeps same_groups _) _ _ _ Hu). unfold lockGroupMemberUsersTx. keeps_tac.
  - refine ((_ : keeps same_groups _) _ _ _ Hg). unfold lockGroupTx. keeps_tac.
Qed.

Lemma frame_lock_account uid : keeps group_frame (on_billing (lockBillingAccountTx uid)).
Proof.
  apply frame_on_billing. intros b x b'. unfold lockBillingAccountTx, lockNonPendingUserTx. rewrite tgets_bind, tbind_Ok.
  intros (? & ? & [_ ->]%tsome_Ok & H). rewrite tgets_bind, tbind_Ok in H. destruct H as (? & ? & [_ ->]%tsome_Ok & [_ ->]%tguard_Ok). split; [reflexivity|done].
Qed.
Lemma same_lock_account uid : keeps same_groups (on_billing (lockBillingAccountTx uid)).
Proof.
  intros d x d'. unfold on_billing, tzoom. destruct (lockBillingAccountTx uid (gd_billing d)) as [[y b]|] eqn:E; [|done]. intros [= _ <-].
  unfold lockBillingAccountTx, lockNonPendingUserTx in E. rewrite tgets_bind, tbind_Ok in E. destruct E as (? & ? & [_ ->]%tsome_Ok & H).
  rewrite tgets_bind, tbind_Ok in H. destruct H as (? & ? & [_ ->]%tsome_Ok & [_ ->]%tguard_Ok). by split.
Qed.
#[export] Hint Resolve frame_lock_account same_lock_account frame_members_body : keeps.

Section priority.
Context (fingerprint : list string -> string) (session_of : string -> string -> bool) (inet_ok : string -> bool).
Lemma frame_priority_body p gid uid priority : keeps group_frame (priority_body fingerprint session_of inet_ok p gid uid priority).
Proof. unfold priority_body, memberships_tx. keeps_tac. Qed.
Lemma same_priority_body p gid uid priority : keeps same_groups (priority_body fingerprint session_of inet_ok p gid uid priority).
Proof. unfold priority_body, memberships_tx, lockGroupTx. keeps_tac. Qed.
End priority.
#[export] Hint Resolve frame_priority_body same_priority_body : keeps.

(** *** The groups of a request *)

Lemma frame_lock_each ids : keeps group_frame (lock_each ids).
Proof. induction ids; cbn [lock_each]; keeps_tac. Qed.
Lemma frame_remaining pid u s : keeps group_frame (groupMemberRemainingTx pid u s).
Proof. unfold groupMemberRemainingTx. keeps_tac. Qed.
#[export] Hint Resolve frame_lock_each frame_remaining : keeps.
Lemma frame_roll_members at_ members byID : keeps group_frame (roll_members at_ members byID).
Proof. revert byID. induction members as [|m rest IH]; intros byID; cbn [roll_members]; keeps_tac. Qed.
Lemma frame_funding_members u at_ model byID members l : keeps group_frame (funding_members u at_ model byID members l).
Proof. revert l. induction members as [|m rest IH]; intros l; cbn [funding_members]; unfold funding_member; keeps_tac. Qed.
#[export] Hint Resolve frame_roll_members frame_funding_members : keeps.
Lemma frame_funding u at_ model : keeps group_frame (userFundingGroupsTx u at_ model).
Proof. unfold userFundingGroupsTx. keeps_tac. Qed.

(** ** Which groups can pay *)

(** The groups of a user in the order they are asked: his memberships by
    priority, or the older column when he has none. *)
Definition candidate_groups (userID : string) (d : group_db) : list (string * Z) :=
  let l := user_memberships userID (memberships d) in
  if bool_decide (l = []) then match gd_mirror d !! userID with Some g => [(g, 100)] | None => [] end else l.

(** What is left of a member's own limit. *)
Definition member_left (d : group_db) (userID : string) (g : GroupSummary) : bool :=
  match gs_MemberLimitUSD g with
  | None => true
  | Some s => default 0 (member_usage (gd_billing d) !! (gs_PeriodID g, userID)) <? default 0 (numeric_of s)
  end.
Definition model_fits (model : string) (g : GroupSummary) : bool := empty model || groupModelAllowed (Some g) model.
Definition group_usable (d : group_db) (userID : string) (at_ : Z) (model : string) (g : GroupSummary) : bool :=
  model_fits model g && groupPeriodActive (Some g) at_ && billingPositive (gs_RemainingUSD g) && member_left d userID g.
Definition group_fallback (at_ : Z) (model : string) (g : GroupSummary) : bool := model_fits model g && before_deadline at_ (gs_ExpiresAt g).

Lemma user_memberships_NoDup u m : NoDup (user_memberships u m).*1.
Proof.
  unfold user_memberships. rewrite (stable_sort_perm membership_less). rewrite <- list_fmap_compose.
  set (f := fun kv : string * string * membership_row => kv.1.1).
  assert (H : forall l : list (string * string * membership_row), NoDup l.*1 -> Forall (fun kv => kv.1.2 = u) l -> NoDup (f <$> l)).
  { induction l as [|[[g v] ms] l IH]; intros Hn Hf; [constructor|]. cbn in Hn. apply NoDup_cons in Hn as [Hn1 Hn2]. apply Forall_cons in Hf as [Hv Hf]. cbn in Hv. subst v.
    cbn. apply NoDup_cons. split; [|by apply IH]. intros ([[g' v'] ms'] & E & Hin)%list_elem_of_fmap. cbn in E. subst g'. apply Hn1.
    rewrite Forall_forall in Hf. specialize (Hf _ Hin). cbn in Hf. subst v'. apply list_elem_of_fmap. by exists (g, u, ms'). }
  apply H; [apply NoDup_fst_map_to_list|]. apply Forall_forall. intros [k ms] Hk%elem_of_map_to_list. by apply map_lookup_filter_Some in Hk as [_ ?].
Qed.

Lemma candidate_NoDup u d : NoDup (candidate_groups u d).*1.
Proof.
  unfold candidate_groups. case_bool_decide; [|apply user_memberships_NoDup]. destruct (gd_mirror d !! u); cbn; [|constructor].
  apply NoDup_singleton.
Qed.

(** Rolling a group does not show in the others. *)
Lemma summary_frame d d' id : gd_groups d' !! id = gd_groups d !! id -> gd_memberships d' = gd_memberships d -> gd_mirror d' = gd_mirror d ->
  (forall g pid, gd_groups d !! id = Some g -> ug_current_period g = Some pid ->
     gd_periods d' !! pid = gd_periods d !! pid /\ group_periods (gd_billing d') !! pid = group_periods (gd_billing d) !! pid) ->
  group_summary_of id d' = group_summary_of id d.
Proof.
  intros E1 E2 E3 Hp. unfold group_summary_of. rewrite E1. destruct (gd_groups d !! id) as [g|] eqn:Hg; [|done]. cbn.
  destruct (ug_current_period g) as [pid|] eqn:Hc; [|done]. cbn. destruct (Hp g pid eq_refl Hc) as [-> ->].
  destruct (gd_periods d !! pid); [|done]. cbn. destruct (group_periods (gd_billing d) !! pid); [|done]. cbn. f_equal.
  unfold summary_of, member_ids, memberships. by rewrite E2, E3.
Qed.

Lemma roll_other id j at_ d s d' : groups_inv d -> group_time at_ -> rollGroupTx j at_ d = Ok (s, d') -> id <> j ->
  group_summary_of id d' = group_summary_of id d.
Proof.
  intros I Ht H Hne. pose proof (members_roll _ _ _ _ _ H) as (E1 & E2 & _). destruct (gd_groups d !! j) as [g|] eqn:Hg.
  - destruct (gi_groups d I j g Hg) as (pid & t & p & duration & Hok).
    destruct (proj1 (roll_Ok d j g pid t p duration at_ Hg Hok Ht s d') H) as [(_ & -> & _)|(_ & b & rest & _ & Hn & -> & _)]; [done|].
    apply summary_frame; [|done|done|].
    + unfold rolled, replaced. gtables. by rewrite lookup_insert_ne.
    + intros gi pi Hgi Hc. destruct (gi_groups d I id gi Hgi) as (pi' & ti & qi & di & Hoki). pose proof (ok_current _ _ _ _ _ _ _ Hoki) as Hc'.
      rewrite Hc in Hc'. injection Hc' as <-. pose proof (ok_times _ _ _ _ _ _ _ Hoki). pose proof (ok_amounts _ _ _ _ _ _ _ Hoki).
      pose proof (ok_owner _ _ _ _ _ _ _ Hoki). pose proof (ok_amounts _ _ _ _ _ _ _ Hok). pose proof (ok_owner _ _ _ _ _ _ _ Hok).
      assert (pi <> uuid_text b) by congruence. assert (pi <> pid) by (intros ->; congruence).
      unfold rolled, replaced. gtables. rewrite !lookup_insert_ne by done. split; [|done]. destruct (empty pid); [done|by rewrite lookup_alter_ne].
  - unfold rollGroupTx, readGroupSummaryTx in H. apply tbind_Ok in H as (? & ? & H & _). rewrite tgets_bind in H. unfold group_summary_of in H.
    by rewrite Hg in H.
Qed.

Lemma roll_own id at_ d s d' : groups_inv d -> group_time at_ -> rollGroupTx id at_ d = Ok (s, d') -> groups_inv d' /\ group_summary_of id d' = Some s.
Proof.
  intros I Ht H. destruct (roll_row id at_ d s d' Ht I H) as (I' & g & pid & t & p & duration & Hg & Hok & ->). split; [done|]. by eapply read_summary.
Qed.

(** The summary of a group that is not archived. *)
Definition live_group (d : group_db) (id : string) : option GroupSummary :=
  match group_summary_of id d with Some g => if is_nil (gs_ArchivedAt g) then Some g else None | None => None end.

Lemma roll_members_Ok at_ members byID d byID' d' :
  groups_inv d -> group_time at_ -> NoDup members.*1 -> (forall id, id ∈ members.*1 -> byID !! id = None) ->
  roll_members at_ members byID d = Ok (byID', d') ->
  groups_inv d' /\ same_members d d' /\ (forall id, id ∉ members.*1 -> group_summary_of id d' = group_summary_of id d) /\
  (forall id, byID' !! id = if bool_decide (id ∈ members.*1) then live_group d' id else byID !! id).
Proof.
  revert byID d. induction members as [|[id n] rest IH]; intros byID d I Ht Hn Hnew; cbn [roll_members fst].
  - intros [= <- <-]. by split_and!.
  - cbn in Hn, Hnew. apply NoDup_cons in Hn as [Hn1 Hn2]. rewrite Hnew by (apply elem_of_cons; by left). intros (s & d1 & Hr & H)%tbind_Ok.
    destruct (roll_own _ _ _ _ _ I Ht Hr) as [I1 Hs]. set (byID1 := if is_nil _ then _ else _) in H.
    assert (Hother : forall j, j <> id -> byID1 !! j = byID !! j) by (intros j Hj; unfold byID1; destruct (is_nil _); [by rewrite lookup_insert_ne|done]).
    assert (Hid : byID1 !! id = live_group d1 id).
    { unfold byID1, live_group. rewrite Hs. destruct (is_nil _); [by rewrite lookup_insert_eq|]. apply Hnew, elem_of_cons. by left. }
    destruct (IH byID1 d1 I1 Ht Hn2) as (I2 & S2 & F & P); [|exact H|].
    { intros j Hj. rewrite Hother by (intros ->; done). apply Hnew, elem_of_cons. by right. }
    split; [done|]. split; [transitivity d1; [by eapply members_roll|done]|]. split.
    + intros j. cbn. rewrite elem_of_cons. intros Hj. rewrite F by tauto. eapply roll_other; [exact I|exact Ht|exact Hr|tauto].
    + intros j. cbn. rewrite P. destruct (bool_decide_reflect (j ∈ rest.*1)) as [Hj|Hj].
      * rewrite bool_decide_true; [done|]. apply elem_of_cons. by right.
      * destruct (decide (j = id)) as [->|Hne]; [rewrite bool_decide_true by (apply elem_of_cons; by left)|rewrite bool_decide_false by (rewrite elem_of_cons; tauto); by apply Hother].
        rewrite Hid. unfold live_group. by rewrite (F id Hn1).
Qed.

(** A summary of the tables carries its limits as column text. *)
Lemma summary_limit d id g s : group_summary_of id d = Some g -> gs_MemberLimitUSD g = Some s -> exists n, s = numeric_text n.
Proof.
  unfold group_summary_of. destruct (gd_groups d !! id) as [row|]; [|done]. cbn. destruct (ug_current_period row); [|done]. cbn.
  destruct (gd_periods d !! _); [|done]. cbn. destruct (group_periods (gd_billing d) !! _); [|done]. cbn. intros [= <-]. cbn.
  destruct (ug_member_limit row) as [n|]; cbn; [|done]. intros [= <-]. by exists n.
Qed.

(** One iteration of the loop. *)
Lemma funding_member_run u at_ model (byID : gmap string GroupSummary) m d l :
  m.1 ∉ fl_used l -> (forall id g, byID !! id = Some g -> group_summary_of id d = Some g) ->
  exists l', funding_member u at_ model byID m l d = Ok (l', d) /\
    fl_usable l' = fl_usable l ++ List.filter (group_usable d u at_ model) (option_list (byID !! m.1)) /\
    fl_fallback l' = match fl_fallback l with Some g => Some g | None => head (List.filter (group_fallback at_ model) (option_list (byID !! m.1))) end /\
    fl_used l' ⊆ {[m.1]} ∪ fl_used l.
Proof.
  intros Hu Hb. unfold funding_member. destruct (byID !! m.1) as [g|] eqn:Hg;
    [change (option_list (Some g)) with [g]; cbn [List.filter]|exists l; split_and!; [done|by rewrite app_nil_r|by destruct (fl_fallback l)|set_solver]].
  rewrite bool_decide_false by done.
  replace (negb (empty model) && negb (groupModelAllowed (Some g) model)) with (negb (model_fits model g))
    by (unfold model_fits; by destruct (empty model), (groupModelAllowed (Some g) model)).
  unfold group_usable, group_fallback. destruct (model_fits model g); cbn [negb andb];
    [|exists l; split_and!; [done|by rewrite app_nil_r|by destruct (fl_fallback l)|set_solver]].
  set (fb := if is_nil (fl_fallback l) && before_deadline at_ (gs_ExpiresAt g) then Some g else fl_fallback l).
  assert (Hfb : fb = match fl_fallback l with Some g => Some g | None => head (if before_deadline at_ (gs_ExpiresAt g) then [g] else []) end)
    by (unfold fb; destruct (fl_fallback l); cbn; [done|]; by destruct (before_deadline at_ (gs_ExpiresAt g))).
  destruct (groupPeriodActive (Some g) at_ && billingPositive (gs_RemainingUSD g)); cbn [andb];
    [|eexists; split; [reflexivity|]; cbn; rewrite app_nil_r; split_and!; [done|done|set_solver]].
  assert (Hrem : exists rem, groupMemberRemainingTx (gs_PeriodID g) u (gs_MemberLimitUSD g) d = Ok (rem, d) /\
    (match rem with None => true | Some r => billingPositive r end) = member_left d u g).
  { unfold groupMemberRemainingTx, member_left. destruct (gs_MemberLimitUSD g) as [s|] eqn:Hs; [|by eexists].
    destruct (summary_limit d m.1 g s (Hb m.1 g Hg) Hs) as [k ->]. eexists. unfold numeric_param. rewrite numeric_of_text. split; [reflexivity|].
    cbn beta iota. rewrite billingPositive_text. change (default 0 (Some k)) with k. set (used := default 0 _). clearbody used. clear. lia. }
  destruct Hrem as (rem & Hrem & Hleft). rewrite (tbind_run _ _ _ _ _ Hrem), Hleft.
  destruct (member_left d u g); (eexists; split; [reflexivity|]); cbn; rewrite ?app_nil_r; split_and!; try done; set_solver.
Qed.

Lemma funding_members_run u at_ model (byID : gmap string GroupSummary) members d l :
  NoDup members.*1 -> (forall id, id ∈ members.*1 -> id ∉ fl_used l) -> (forall id g, byID !! id = Some g -> group_summary_of id d = Some g) ->
  let candidates := omap (fun m => byID !! m.1) members in
  exists l', funding_members u at_ model byID members l d = Ok (l', d) /\
    fl_usable l' = fl_usable l ++ List.filter (group_usable d u at_ model) candidates /\
    fl_fallback l' = match fl_fallback l with Some g => Some g | None => head (List.filter (group_fallback at_ model) candidates) end.
Proof.
  revert l. induction members as [|m rest IH]; intros l Hn Hu Hb; cbn [funding_members].
  - exists l. cbn. split_and!; [done|by rewrite app_nil_r|by destruct (fl_fallback l)].
  - cbn in Hn, Hu. apply NoDup_cons in Hn as [Hn1 Hn2].
    destruct (funding_member_run u at_ model byID m d l) as (l1 & Hrun & Eu & Ef & Es); [apply Hu, elem_of_cons; by left|done|].
    rewrite (tbind_run _ _ _ _ _ Hrun). destruct (IH l1 Hn2) as (l' & Hrest & Eu' & Ef'); [|done|].
    { intros id Hid Hin. apply Es, elem_of_union in Hin as [->%elem_of_singleton|Hin]; [done|]. by apply (Hu id); [apply elem_of_cons; right|]. }
    exists l'. split; [done|]. replace (omap (fun m => byID !! m.1) (m :: rest)) with (option_list (byID !! m.1) ++ omap (fun m => byID !! m.1) rest)
      by (cbn; by destruct (byID !! m.1)).
    rewrite Eu', Eu, Ef', Ef, !List.filter_app, app_assoc. split; [done|]. destruct (fl_fallback l); [done|].
    by destruct (List.filter (group_fallback at_ model) (option_list (byID !! m.1))).
Qed.

(** *** Asking always gets an answer *)

(** The random source still has [n] blocks, and gives ids not used before. *)
Definition fresh_ids (d : group_db) (n : nat) : Prop :=
  (n <= length (gd_random d))%nat /\ NoDup (uuid_text <$> gd_random d) /\ forall b, b ∈ gd_random d -> gd_periods d !! uuid_text b = None.

Lemma roll_succeeds id at_ d n : groups_inv d -> group_time at_ -> is_Some (gd_groups d !! id) -> fresh_ids d (S n) ->
  exists s d', rollGroupTx id at_ d = Ok (s, d') /\ fresh_ids d' n /\ dom (gd_groups d') = dom (gd_groups d).
Proof.
  intros I Ht [g Hg] (Hlen & Hnd & Hf). destruct (gi_groups d I id g Hg) as (pid & t & p & duration & Hok).
  pose proof (roll_Ok d id g pid t p duration at_ Hg Hok Ht) as Hroll. destruct (roll_idle g t duration at_) eqn:Hi.
  - do 2 eexists. split; [apply Hroll; by left|]. split; [|done]. split_and!; [lia|done|done].
  - destruct (gd_random d) as [|b rest] eqn:Hr; [cbn in Hlen; lia|]. cbn in Hnd. apply NoDup_cons in Hnd as [Hb Hnd].
    exists (default (group_summary zero_group) (group_summary_of id (rolled d id g pid t duration at_ b rest))), (rolled d id g pid t duration at_ b rest).
    pose proof (rolled_summary d id g pid t duration at_ b rest) as Hs. cbv zeta in Hs. split.
    { apply Hroll. right. split; [done|]. exists b, rest. split_and!; try done; [apply Hf, elem_of_cons; by left|]. by rewrite Hs. }
    split; [|unfold rolled, replaced; gtables; rewrite dom_insert_lookup_L by (by eexists); done].
    split; [unfold rolled, replaced; gtables; cbn in Hlen; lia|]. split; [done|]. unfold rolled, replaced. gtables. intros c Hc.
    rewrite lookup_insert_ne by (intros E; apply Hb; rewrite E; by apply list_elem_of_fmap_2). specialize (Hf c ltac:(apply elem_of_cons; by right)).
    destruct (empty pid); [done|]. by apply lookup_alter_None.
Qed.

Lemma roll_members_succeed at_ members byID d n : groups_inv d -> group_time at_ -> (forall m, m ∈ members -> is_Some (gd_groups d !! m.1)) ->
  fresh_ids d (length members + n) -> exists byID' d', roll_members at_ members byID d = Ok (byID', d').
Proof.
  revert byID d. induction members as [|m rest IH]; intros byID d I Ht Hm Hf; cbn [roll_members]; [by do 2 eexists|].
  assert (Hf' : fresh_ids d (length rest + n)) by (destruct Hf as (Hl & ? & ?); cbn in Hl; split_and!; [lia|done|done]).
  destruct (byID !! m.1); [apply IH; try done; intros x Hx; apply Hm, elem_of_cons; by right|].
  destruct (roll_succeeds m.1 at_ d (length rest + n)) as (s & d1 & Hr & Hf1 & Hd); [done|done|apply Hm, elem_of_cons; by left|done|].
  rewrite (tbind_run _ _ _ _ _ Hr). apply IH; [by eapply roll_inv|done| |done].
  intros x Hx. apply elem_of_dom. rewrite Hd. apply elem_of_dom, Hm, elem_of_cons. by right.
Qed.

Lemma lock_each_Ok ids d x d' : lock_each ids d = Ok (x, d') <-> d' = d /\ Forall (fun id => is_Some (gd_groups d !! id)) ids.
Proof.
  induction ids as [|id ids IH]; cbn [lock_each].
  - destruct x. split; [intros [= <-]; done|by intros [-> _]].
  - unfold lockGroupTx. destruct (gd_groups d !! id) as [g|] eqn:Hg.
    + rewrite (tbind_run _ _ d tt d) by (rewrite tgets_bind, Hg; done). rewrite IH, Forall_cons, Hg. split; [intros []|intros (? & _ & ?)]; done.
    + split; [|intros [_ Hf]; apply Forall_cons in Hf as [[? ?] _]; congruence].
      intros (? & ? & H & _)%tbind_Ok. rewrite tgets_bind, Hg in H. done.
Qed.

Lemma omap_ext_elem {A B} (f g : A -> option B) (l : list A) : (forall x, x ∈ l -> f x = g x) -> omap f l = omap g l.
Proof.
  induction l as [|x l IH]; intros H; [done|]. cbn. rewrite (H x) by (apply elem_of_cons; by left). rewrite IH; [done|].
  intros y Hy. apply H, elem_of_cons. by right.
Qed.

(** The candidates as [userFundingGroupsTx] computes them. *)
Lemma funding_unfold u at_ model d :
  is_Some (billing_accounts (gd_billing d) !! u) ->
  userFundingGroupsTx u at_ model d =
    (lock_each (stable_sort str_ltb (elements (list_to_set (candidate_groups u d).*1 : gset string))) ;;
     let* byID := roll_members at_ (candidate_groups u d) ∅ in
     let* l := funding_members u at_ model byID (candidate_groups u d) (FundingLoop [] ∅ None) in
     tret (fl_usable l, fl_fallback l)) d.
Proof.
  intros [a Ha]. unfold userFundingGroupsTx. rewrite tgets_bind. unfold candidate_groups, memberships.
  assert (Hm : (match gd_memberships d with Some m => user_memberships u m | None => [] end) = user_memberships u (default ∅ (gd_memberships d))).
  { destruct (gd_memberships d); [done|]. cbn [default]. unfold user_memberships. by rewrite map_filter_empty, map_to_list_empty. }
  rewrite Hm. case_bool_decide; [|done]. rewrite Ha. done.
Qed.

(** [C29] The groups a request may use: with an account, existing groups and
    unused ids the question is always answered; the answer is, in the member's
    order of priority, exactly his groups that are not archived, whose model
    scope includes the model, whose period contains the instant and that have
    money left both for the group and for him; the group named for a retry is
    the first whose term is not over.  Nothing is spent by asking. *)
Theorem funding_groups_exact u at_ model d :
  groups_inv d -> group_time at_ -> is_Some (billing_accounts (gd_billing d) !! u) ->
  (forall m, m ∈ candidate_groups u d -> is_Some (gd_groups d !! m.1)) -> fresh_ids d (length (candidate_groups u d)) ->
  exists usable fallback d', userFundingGroupsTx u at_ model d = Ok ((usable, fallback), d') /\
    (let candidates := omap (fun m => live_group d' m.1) (candidate_groups u d) in
     usable = List.filter (group_usable d' u at_ model) candidates /\ fallback = head (List.filter (group_fallback at_ model) candidates)) /\
    groups_inv d' /\ spending_kept (gd_billing d) (gd_billing d').
Proof.
  intros I Ht Ha Hm Hf. rewrite funding_unfold by done. set (members := candidate_groups u d) in *.
  assert (Hl : lock_each (stable_sort str_ltb (elements (list_to_set members.*1 : gset string))) d = Ok (tt, d)).
  { apply lock_each_Ok. split; [done|]. apply Forall_forall. intros id Hid. rewrite (stable_sort_perm str_ltb), elem_of_elements, elem_of_list_to_set in Hid.
    apply list_elem_of_fmap in Hid as (m & -> & Hin). by apply Hm. }
  rewrite (tbind_run _ _ _ _ _ Hl). destruct (roll_members_succeed at_ members ∅ d 0) as (byID & d' & Hr); [done|done|done|by rewrite Nat.add_0_r|].
  rewrite (tbind_run _ _ _ _ _ Hr).
  destruct (roll_members_Ok at_ members ∅ d byID d') as (I' & _ & _ & HbyID); [done|done|apply candidate_NoDup|intros; apply lookup_empty|done|].
  assert (Hsum : forall id g, byID !! id = Some g -> group_summary_of id d' = Some g).
  { intros id g. rewrite HbyID. case_bool_decide; [|by rewrite lookup_empty]. unfold live_group. destruct (group_summary_of id d'); [|done].
    by destruct (is_nil _); [intros [= <-]|]. }
  destruct (funding_members_run u at_ model byID members d' (FundingLoop [] ∅ None)) as (l & Hrun & Eu & Ef); [apply candidate_NoDup|intros; apply not_elem_of_empty|done|].
  rewrite (tbind_run _ _ _ _ _ Hrun). exists (fl_usable l), (fl_fallback l), d'. split; [done|].
  assert (Hc : omap (fun m => byID !! m.1) members = omap (fun m => live_group d' m.1) members).
  { apply omap_ext_elem. intros m Hin. rewrite HbyID, bool_decide_true; [done|]. by apply list_elem_of_fmap_2. }
  rewrite Eu, Ef, Hc. split; [done|]. split; [done|]. by apply (frame_roll_members _ _ _ _ _ _ Hr), gi_periods.
Qed.

(** ** Every history *)

Section history.
Context (fingerprint : list string -> string) (session_of : string -> string -> bool) (inet_ok : string -> bool)
        (uuid_parse : string -> option string) (collate : string -> string -> comparison).

(** One call of the store's group operations. *)
Inductive group_call : group_db -> group_db -> Prop :=
| call_put clock p d : group_call d (PutGroup fingerprint session_of inet_ok uuid_parse collate clock p d).2
| call_archive clock p groupID d : group_time (normalizedBillingTime (At p) clock) ->
    group_call d (ArchiveGroup fingerprint session_of inet_ok uuid_parse collate clock p groupID d).2
| call_members clock p groupID action userIDs d : group_time (normalizedBillingTime (At p) clock) ->
    group_call d (SetGroupMembers fingerprint session_of inet_ok uuid_parse collate clock p groupID action userIDs d).2
| call_priority clock p groupID userID priority d :
    group_call d (SetGroupMembershipPriority fingerprint session_of inet_ok uuid_parse clock p groupID userID priority d).2
| call_get now id d : group_time now -> group_call d (GetGroup uuid_parse collate now id d).2
| call_list now d : (forall n, group_time (now n)) -> group_call d (ListGroups now d).2
| call_funding u at_ model d : group_time at_ -> group_call d (withTx (userFundingGroupsTx u at_ model) d).2.

(** The rest of the system: settlements add to what a period has used and new
    users, models or random bytes appear; groups, periods and limits stay. *)
Record group_env (d d' : group_db) : Prop := {
  ge_groups : gd_groups d' = gd_groups d;
  ge_periods : gd_periods d' = gd_periods d;
  ge_ids : user_groups (gd_billing d') = user_groups (gd_billing d);
  ge_amounts : forall pid, (fun p => (gp_group p, limit_usd p, member_limit_usd p)) <$> group_periods (gd_billing d') !! pid =
    (fun p => (gp_group p, limit_usd p, member_limit_usd p)) <$> group_periods (gd_billing d) !! pid;
}.

Lemma group_env_inv d d' : group_env d d' -> groups_inv d -> groups_inv d'.
Proof.
  intros [E1 E2 E3 E4] [H1 H2 H3 H4].
  assert (Hback : forall pid p', group_periods (gd_billing d') !! pid = Some p' -> exists p, group_periods (gd_billing d) !! pid = Some p /\
    gp_group p' = gp_group p /\ limit_usd p' = limit_usd p /\ member_limit_usd p' = member_limit_usd p).
  { intros pid p' Hp. specialize (E4 pid). rewrite Hp in E4. destruct (group_periods (gd_billing d) !! pid) as [p|]; [|done]. injection E4 as ? ? ?. by exists p. }
  split; rewrite ?E1, ?E2, ?E3; try done.
  - intros id g Hg. destruct (H1 id g Hg) as (pid & t & p & duration & Hok). specialize (E4 pid). rewrite (ok_amounts _ _ _ _ _ _ _ Hok) in E4.
    destruct (group_periods (gd_billing d') !! pid) as [p'|] eqn:Hp; [|done]. injection E4 as ? ? ?. exists pid, t, p', duration.
    eapply group_ok_frame; [exact Hok|rewrite E2; apply Hok|done|done|done|done|done|done].
  - rewrite H2. apply set_eq. intros pid. rewrite !elem_of_dom. specialize (E4 pid).
    destruct (group_periods (gd_billing d') !! pid), (group_periods (gd_billing d) !! pid); try done.
  - intros pid p' Hp. destruct (Hback pid p' Hp) as (p & Hp0 & -> & _). by eapply H4.
Qed.

Definition group_step (d d' : group_db) : Prop := group_call d d' \/ group_env d d'.

Lemma roll_call_inv {A} (m : tx group_db A) id now d : keeps same_groups m -> group_time now -> groups_inv d ->
  groups_inv (withTx (lockGroupTx id ;; let* _ := rollGroupTx id now in m) d).2.
Proof.
  intros Hm Ht I. apply withTx_preserves; [|done]. intros x d' ([] & d1 & Hl & H)%tbind_Ok. apply tbind_Ok in H as (s & d2 & Hr & H).
  apply (same_groups_inv d2); [by eapply Hm|]. eapply roll_inv; [exact Ht| |exact Hr]. apply (same_groups_inv d); [|done].
  refine ((_ : keeps same_groups _) _ _ _ Hl). unfold lockGroupTx. keeps_tac.
Qed.

Lemma list_each_inv now n ids d : (forall n, group_time (now n)) -> groups_inv d -> groups_inv (list_each now n ids d).2.
Proof.
  intros Ht. revert n d. induction ids as [|id ids IH]; intros n d I; cbn [list_each]; [done|].
  assert (I1 : groups_inv (withTx (lockGroupTx id ;; rollGroupTx id (now n)) d).2).
  { apply withTx_preserves; [|done]. intros x d' ([] & d1 & Hl & Hr)%tbind_Ok. eapply roll_inv; [apply Ht| |exact Hr]. apply (same_groups_inv d); [|done].
    refine ((_ : keeps same_groups _) _ _ _ Hl). unfold lockGroupTx. keeps_tac. }
  destruct (withTx _ d) as [[g|e] d1]; [|done]. specialize (IH (S n) d1 I1). by destruct (list_each now (S n) ids d1).
Qed.

Lemma frame_list_each now n ids d : group_frame d (list_each now n ids d).2.
Proof.
  revert n d. induction ids as [|id ids IH]; intros n d; cbn [list_each]; [reflexivity|].
  assert (F : group_frame d (withTx (lockGroupTx id ;; rollGroupTx id (now n)) d).2) by (apply keeps_withTx; [exact _|]; keeps_tac).
  destruct (withTx _ d) as [[g|e] d1]; [|done]. specialize (IH (S n) d1). destruct (list_each now (S n) ids d1). by transitivity d1.
Qed.

Lemma same_detail id : keeps same_groups (groupDetailTx collate id).
Proof. unfold groupDetailTx, readGroupSummaryTx. keeps_tac. Qed.

Lemma roll_members_inv at_ members byID d x d' : group_time at_ -> groups_inv d -> roll_members at_ members byID d = Ok (x, d') -> groups_inv d'.
Proof.
  intros Ht. revert byID d. induction members as [|m rest IH]; intros byID d I; cbn [roll_members]; [by intros [= _ <-]|].
  destruct (byID !! m.1); [by apply IH|]. intros (s & d1 & Hr & H)%tbind_Ok. eapply IH; [|exact H]. by eapply roll_inv.
Qed.

Lemma same_funding_members u at_ model byID members l : keeps same_groups (funding_members u at_ model byID members l).
Proof.
  revert l. induction members as [|m rest IH]; intros l; cbn [funding_members]; unfold funding_member, groupMemberRemainingTx, numeric_param; keeps_tac.
Qed.

Lemma funding_inv u at_ model d x d' : group_time at_ -> groups_inv d -> userFundingGroupsTx u at_ model d = Ok (x, d') -> groups_inv d'.
Proof.
  intros Ht I. unfold userFundingGroupsTx. rewrite tgets_bind. intros (members & d1 & Hm & H)%tbind_Ok. apply tbind_Ok in H as ([] & d2 & Hl & H).
  apply tbind_Ok in H as (byID & d3 & Hr & H). apply tbind_Ok in H as (l & d4 & Hf & H). injection H as _ <-.
  apply (same_groups_inv d3); [by eapply same_funding_members|]. eapply roll_members_inv; [exact Ht| |exact Hr].
  apply lock_each_Ok in Hl as [-> _]. apply (same_groups_inv d); [|done]. refine ((_ : keeps same_groups _) _ _ _ Hm). keeps_tac.
Qed.

Lemma group_call_inv d d' : group_call d d' -> groups_inv d -> groups_inv d'.
Proof.
  intros C I. destruct C as [clock p d|clock p gid d Ht|clock p gid action ids d Ht|clock p gid uid priority d|now id d Ht|now d Ht|u at_ model d Ht].
  - by apply put_group_inv.
  - unfold ArchiveGroup. destruct (canonicalGroupID uuid_parse gid); [|done]. apply group_write_inv; [|done]. intros y e e' Ie. by apply archive_body_inv.
  - unfold SetGroupMembers. destruct (members_arguments _ _ _ _) as [[g l]|]; [|done]. apply group_write_inv; [|done]. intros y e e' Ie. by apply members_body_inv.
  - unfold SetGroupMembershipPriority. destruct (let! _ := _ in _) as [[g l]|]; [|done]. apply (same_groups_inv d); [|done].
    apply keeps_withTx; [exact _|apply same_priority_body].
  - unfold GetGroup. destruct (canonicalGroupID uuid_parse id); [|done]. apply roll_call_inv; [apply same_detail|done|done].
  - by apply list_each_inv.
  - apply withTx_preserves; [|done]. intros x d' H. by eapply funding_inv.
Qed.

Lemma group_call_frame d d' : group_call d d' -> group_frame d d'.
Proof.
  intros C. destruct C as [clock p d|clock p gid d Ht|clock p gid action ids d Ht|clock p gid uid priority d|now id d Ht|now d Ht|u at_ model d Ht].
  - unfold PutGroup. destruct (put_arguments uuid_parse clock p); [|reflexivity]. apply frame_group_write, frame_put_body.
  - unfold ArchiveGroup. destruct (canonicalGroupID uuid_parse gid); [|reflexivity]. apply frame_group_write, frame_archive_body.
  - unfold SetGroupMembers. destruct (members_arguments _ _ _ _) as [[g l]|]; [|reflexivity]. apply frame_group_write, frame_members_body.
  - unfold SetGroupMembershipPriority. destruct (let! _ := _ in _) as [[g l]|]; [|reflexivity]. apply keeps_withTx; [exact _|apply frame_priority_body].
  - unfold GetGroup. destruct (canonicalGroupID uuid_parse id); [|reflexivity]. apply keeps_withTx; [exact _|]. keeps_tac.
  - apply frame_list_each.
  - apply keeps_withTx; [exact _|apply frame_funding].
Qed.

(** [C12] In every history of group operations, with settlements and other
    writes in between, every group has a current period of its own that lies on
    the group's grid, carries the group's limits and ends before the year
    10000; its period number never exceeds the configured count and its
    deadline is the end of the last period. *)
Theorem groups_consistent d0 d :
  gd_groups d0 = ∅ -> gd_periods d0 = ∅ -> group_periods (gd_billing d0) = ∅ -> user_groups (gd_billing d0) = ∅ -> rtc group_step d0 d ->
  groups_inv d.
Proof.
  intros E1 E2 E3 E4 H. assert (I0 : groups_inv d0).
  { split; rewrite ?E1, ?E2, ?E3, ?E4; try done; by rewrite ?dom_empty_L. }
  clear E1 E2 E3 E4. induction H as [d|d1 d2 d3 [C|E] _ IH]; [done|apply IH; by eapply group_call_inv|apply IH; by eapply group_env_inv].
Qed.

(** No group operation moves money or forgets spending: balances, credit
    lots, reservations, allocations, the ledger and what members and periods
    have used are unchanged, a new period starts at zero, and the money
    invariant of the billing tables survives. *)
Theorem group_calls_move_no_money d d' :
  groups_inv d -> group_call d d' ->
  spending_kept (gd_billing d) (gd_billing d') /\ (money_inv (gd_billing d) -> money_inv (gd_billing d')).
Proof.
  intros I C. destruct (group_call_frame d d' C (gi_periods d I)) as [_ K]. split; [done|]. by apply spending_kept_inv.
Qed.
End history.

(** ** A sample history *)

Definition demo_any (_ _ : string) : bool := true.
Definition demo_ip (_ : string) : bool := true.
Definition demo_members (op groupID action : string) (ids : list string) (d : group_db) : result store_error Group * group_db :=
  SetGroupMembers demo_fingerprint demo_any demo_ip Some demo_collate demo_start (demo_write op) groupID action ids d.
Definition demo_second : string := "63636363-6363-4363-a363-636363636363".

(** Two groups; Ann is in both, Bob in the first. *)
Definition demo_two : group_db :=
  (PutGroup demo_fingerprint demo_any demo_ip Some demo_collate demo_start (demo_put "op-2" "") demo_create.2).2.
Definition demo_joined : group_db := (demo_members "op-3" demo_team "add" ["bob"; "ann"] demo_two).2.
Definition demo_both : group_db := (demo_members "op-4" demo_second "add" ["ann"] demo_joined).2.
(** The first group is cleared, then Ann leaves the second. *)
Definition demo_cleared : group_db := (demo_members "op-5" demo_team "remove_all" [] demo_both).2.
Definition demo_left : group_db := (demo_members "op-6" demo_second "remove" ["ann"] demo_cleared).2.

Lemma demo_mirror_ok : mirror_ok demo_two /\ mirror_ok demo_both /\ mirror_ok demo_cleared.
Proof.
  assert (H : forall (m : gmap string string) (b : gmap string account_row), forallb (fun kv => bool_decide (is_Some (b !! kv.1))) (map_to_list m) = true -> dom m ⊆ dom b).
  { intros m b Hf u [g Hg]%elem_of_dom. apply elem_of_dom. rewrite List.forallb_forall in Hf.
    specialize (Hf (u, g) ltac:(by apply list_elem_of_In, elem_of_map_to_list)). by apply bool_decide_eq_true in Hf. }
  split_and!; apply H; vm_compute; reflexivity.
Qed.

(** Bob and Ann join the first group; the second is untouched. *)
Lemma membership_changes_exact_witness :
  ("ann" ∈ member_ids demo_team demo_joined /\ "bob" ∈ member_ids demo_team demo_joined) /\
  (forall u, u ∈ member_ids demo_second demo_joined <-> u ∈ member_ids demo_second demo_two).
Proof.
  destruct (demo_members "op-3" demo_team "add" ["bob"; "ann"] demo_two) as [[x|e] d'] eqn:E;
    [|exfalso; apply (f_equal fst) in E; vm_compute in E; discriminate E].
  assert (Hd : demo_joined = d') by exact (f_equal snd E).
  destruct (membership_changes_exact demo_fingerprint demo_any demo_ip Some demo_collate demo_start (demo_write "op-3") demo_team "add" ["bob"; "ann"]
    demo_team ["ann"; "bob"] demo_two x d' (or_introl eq_refl) (proj1 demo_mirror_ok) ltac:(vm_compute; reflexivity) ltac:(vm_compute; reflexivity) E)
    as (_ & Hother & Hteam). rewrite Hd. clear Hd E.
  split; [split; apply Hteam; right; vm_compute; [by left|right; by left]|]. intros u. apply Hother. discriminate.
Defined.

Lemma demo_bob : user_memberships "bob" (memberships demo_both) = [(demo_team, 100)].
Proof. vm_compute. reflexivity. Qed.

(** Ann stays a member of the cleared group, so that it cannot be archived;
    once she leaves the second group the cleared one pays for her again. *)
Lemma remove_all_leaves_mirrored_witness :
  ("ann" ∈ member_ids demo_team demo_cleared /\ "bob" ∉ member_ids demo_team demo_cleared) /\
  (ArchiveGroup demo_fingerprint demo_any demo_ip Some demo_collate demo_start (demo_write "op-7") demo_team demo_cleared).1 =
    Err (ErrConflict "only empty groups can be archived") /\
  match userFundingGroupsTx "ann" demo_start "gpt-5" demo_left with Ok ((usable, _), _) => map gs_ID usable | Err _ => [] end = [demo_team].
Proof.
  split; [|vm_compute; auto].
  destruct (demo_members "op-5" demo_team "remove_all" [] demo_both) as [[x|e] d'] eqn:E;
    [|exfalso; apply (f_equal fst) in E; vm_compute in E; discriminate E].
  assert (Hd : demo_cleared = d') by exact (f_equal snd E).
  pose proof (remove_all_leaves_mirrored demo_fingerprint demo_any demo_ip Some demo_collate demo_start (demo_write "op-5") demo_team
    demo_team [] demo_both x d' (proj1 (proj2 demo_mirror_ok)) ltac:(vm_compute; reflexivity) ltac:(vm_compute; reflexivity) E) as H.
  rewrite Hd. clear Hd E. rewrite !H. split.
  - split; [vm_compute; reflexivity|]. exists demo_second. split; [discriminate|]. vm_compute. by eexists.
  - intros [_ (g & Hg & [ms Hs])].
    pose proof (proj2 (elem_user_memberships "bob" g (ms_priority ms) (memberships demo_both)) (ex_intro _ ms (conj Hs eq_refl))) as Hin.
    rewrite demo_bob in Hin. apply elem_of_cons in Hin as [Hin|Hin]; [|apply elem_of_nil in Hin; exact Hin]. injection Hin as -> _. exact (Hg eq_refl).
Defined.

Lemma demo_time : group_time demo_start.
Proof. vm_compute. split; [discriminate|reflexivity]. Qed.
Definition demo_members_call op g action ids d : group_call demo_fingerprint demo_any demo_ip Some demo_collate d (demo_members op g action ids d).2 :=
  call_members demo_fingerprint demo_any demo_ip Some demo_collate demo_start (demo_write op) g action ids d demo_time.
Lemma demo_two_inv : groups_inv demo_two.
Proof. exact (put_group_inv _ _ _ _ _ _ _ _ (put_group_inv _ _ _ _ _ _ _ _ demo_groups_inv)). Qed.
Lemma demo_both_inv : groups_inv demo_both.
Proof.
  exact (group_call_inv _ _ _ _ _ _ _ (demo_members_call "op-4" demo_second "add" ["ann"] demo_joined)
    (group_call_inv _ _ _ _ _ _ _ (demo_members_call "op-3" demo_team "add" ["bob"; "ann"] demo_two) demo_two_inv)).
Qed.
Lemma demo_fresh : fresh_ids demo_both 2.
Proof.
  split; [vm_compute; lia|]. split; [refine (bool_decide_unpack _ _); vm_compute; exact I|].
  apply Forall_forall. refine (bool_decide_unpack _ _). vm_compute. exact I.
Qed.

Lemma funding_groups_exact_witness : exists usable fallback d',
  userFundingGroupsTx "ann" demo_start "gpt-5" demo_both = Ok ((usable, fallback), d') /\ map gs_ID usable = [demo_team; demo_second] /\
  spending_kept (gd_billing demo_both) (gd_billing d').
Proof.
  assert (Hc : candidate_groups "ann" demo_both = [(demo_team, 100); (demo_second, 100)]) by (vm_compute; reflexivity).
  assert (Hm : forall m, m ∈ candidate_groups "ann" demo_both -> is_Some (gd_groups demo_both !! m.1)).
  { rewrite Hc. intros m Hm. apply elem_of_cons in Hm as [-> |Hm]; [vm_compute; eexists; reflexivity|].
    apply elem_of_cons in Hm as [-> |Hm]; [vm_compute; eexists; reflexivity|]. apply elem_of_nil in Hm. destruct Hm. }
  assert (Hf : fresh_ids demo_both (length (candidate_groups "ann" demo_both))) by (rewrite Hc; exact demo_fresh).
  assert (Ha : is_Some (billing_accounts (gd_billing demo_both) !! "ann")) by (vm_compute; eexists; reflexivity).
  destruct (funding_groups_exact "ann" demo_start "gpt-5" demo_both demo_both_inv demo_time Ha Hm Hf) as (usable & fallback & d' & Hrun & _ & _ & K).
  exists usable, fallback, d'. split; [exact Hrun|]. split; [|exact K].
  assert (H : match userFundingGroupsTx "ann" demo_start "gpt-5" demo_both with Ok ((us, _), _) => map gs_ID us | Err _ => [] end = [demo_team; demo_second])
    by (vm_compute; reflexivity).
  rewrite Hrun in H. exact H.
Defined.

Lemma groups_consistent_witness : groups_inv demo_joined.
Proof.
  refine (groups_consistent demo_fingerprint demo_any demo_ip Some demo_collate demo_groups demo_joined eq_refl eq_refl eq_refl eq_refl _).
  refine (rtc_l _ _ demo_create.2 _ (or_introl (call_put _ _ _ _ _ demo_start (demo_put "op-1" "") demo_groups)) _).
  refine (rtc_l _ _ demo_two _ (or_introl (call_put _ _ _ _ _ demo_start (demo_put "op-2" "") demo_create.2)) _).
  refine (rtc_l _ _ demo_joined _ (or_introl (demo_members_call "op-3" demo_team "add" ["bob"; "ann"] demo_two)) _). exact (rtc_refl _ _).
Defined.

Lemma group_calls_move_no_money_witness : spending_kept (gd_billing demo_both) (gd_billing demo_cleared).
Proof.
  exact (proj1 (group_calls_move_no_money demo_fingerprint demo_any demo_ip Some demo_collate demo_both demo_cleared demo_both_inv
    (demo_members_call "op-5" demo_team "remove_all" [] demo_both))).
Defined.
