(* ===== verification/Limiter.v ===== *)
(** * In-process admission ([internal/limit])

    Per-key and per-user request rates in fixed windows, per-key, per-user and
    global concurrency, and daily counters behind the [DailyStore] interface.
    [Acquire] reads the clock, reserves locally under the mutex, asks the daily
    store, and rolls the local reservation back when that fails; [limiter_step]
    interleaves any number of calls. *)
From Stdlib Require Import Ascii.
From S2P Require Import Prelude GoStrings GoTime.

(** ** Types *)

Inductive Scope : Set := ScopeKey | ScopeUser | ScopeGlobal.
Inductive Reason : Set := ReasonRPM | ReasonConcurrency | ReasonDailyRequests.
#[export] Instance Scope_eq_dec : EqDecision Scope.
Proof. solve_decision. Defined.
#[export] Instance Reason_eq_dec : EqDecision Reason.
Proof. solve_decision. Defined.
#[export] Instance Scope_countable : Countable Scope.
Proof.
  apply (inj_countable' (fun s => match s with ScopeKey => 0%nat | ScopeUser => 1%nat | ScopeGlobal => 2%nat end)
    (fun n => match n with 0%nat => ScopeKey | 1%nat => ScopeUser | _ => ScopeGlobal end)). by intros [].
Defined.

Definition DefaultWindow : Z := Minute.
Definition DefaultConcurrencyRetryAfter : Z := Second.

Record Identity := { KeyID : string; UserID : string }.
Record Limits := { RequestsPerMinute : Z; Concurrent : Z; RequestsPerDay : Z }.

(** A location gives the offset of local time at an instant; [None] is nil. *)
Definition Location : Type := Z -> Z.
Definition UTC : Location := fun _ => 0.

Record Config := {
  cfg_Key : Limits;
  cfg_User : Limits;
  GlobalConcurrent : Z;
  Window : Z;
  ConcurrencyRetryAfter : Z;
  DayLocation : option Location;
  DailyStore_set : bool;
}.

Definition Day : Type := string.
Record DailyReservation := { dr_Scope : Scope; dr_ID : string; dr_RequestLimit : Z }.

Inductive daily_error : Set :=
| DailyContext
| ErrNilContext
| ErrInvalidDay
| ErrInvalidDailyEntry
| ErrDuplicateDailyEntry
| ErrCounterOverflow
| DailyLimitError (scope : Scope) (id : string) (reason : Reason) (current limit : Z).

Inductive limit_error : Set :=
| ErrInvalidConfig
| ErrDailyStoreRequired
| ErrInvalidIdentity
| LimitContext
| LimitNilContext
| LimitError (scope : Scope) (reason : Reason) (retryAfter limit : Z)
| LimitDaily (e : daily_error).

(** A request context: nil, live, or cancelled. *)
Inductive context : Set := NilContext | Live | Cancelled.
Definition validateContext (ctx : context) : option daily_error :=
  match ctx with NilContext => Some ErrNilContext | Live => None | Cancelled => Some DailyContext end.

(** ** Configuration *)

Definition DefaultConfig (store : bool) : Config :=
  {| cfg_Key := {| RequestsPerMinute := 30; Concurrent := 16; RequestsPerDay := 1000 |};
     cfg_User := {| RequestsPerMinute := 60; Concurrent := 16; RequestsPerDay := 2000 |};
     GlobalConcurrent := 32; Window := 0; ConcurrencyRetryAfter := 0; DayLocation := None; DailyStore_set := store |}.

Definition invalidLimits (value : Limits) : bool :=
  (RequestsPerMinute value <? 0) || (Concurrent value <? 0) || (RequestsPerDay value <? 0).
Definition hasDailyLimits (value : Limits) : bool := 0 <? RequestsPerDay value.

Definition validateConfig (c : Config) : result limit_error unit :=
  if (Window c <? 0) || (ConcurrencyRetryAfter c <? 0) || (GlobalConcurrent c <? 0) ||
     invalidLimits (cfg_Key c) || invalidLimits (cfg_User c) then Err ErrInvalidConfig
  else if (hasDailyLimits (cfg_Key c) || hasDailyLimits (cfg_User c)) && negb (DailyStore_set c) then Err ErrDailyStoreRequired
  else Ok tt.

(** ** The limiter *)

Record windowCounter := { start : Z; count : Z }.

Record Limiter := {
  keyRPM : gmap string windowCounter;
  userRPM : gmap string windowCounter;
  keyConcurrent : gmap string Z;
  userConcurrent : gmap string Z;
  globalCurrent : Z;
}.

Record localReservation := { lr_identity : Identity; lr_window : Z; lr_keyRPM : bool; lr_userRPM : bool; lr_concurrent : bool }.

Definition New (c : Config) : result limit_error (Config * Limiter) :=
  let! _ := validateConfig c in
  Ok ({| cfg_Key := cfg_Key c; cfg_User := cfg_User c; GlobalConcurrent := GlobalConcurrent c;
         Window := if Window c =? 0 then DefaultWindow else Window c;
         ConcurrencyRetryAfter := if ConcurrencyRetryAfter c =? 0 then DefaultConcurrencyRetryAfter else ConcurrencyRetryAfter c;
         DayLocation := match DayLocation c with None => Some UTC | l => l end; DailyStore_set := DailyStore_set c |},
      {| keyRPM := ∅; userRPM := ∅; keyConcurrent := ∅; userConcurrent := ∅; globalCurrent := 0 |}).

(** A map of ints read at a missing key gives 0. *)
Definition at_key (m : gmap string Z) (k : string) : Z := default 0 (m !! k).

(** The counter of the window, created or reset when it is not the active one;
    the map holds a pointer, so it is updated with it. *)
Definition activeCounter (counters : gmap string windowCounter) (id : string) (window : Z) : Z * gmap string windowCounter :=
  match counters !! id with
  | None => (0, <[id := {| start := window; count := 0 |}]> counters)
  | Some c => if start c =? window then (count c, counters) else (0, <[id := {| start := window; count := 0 |}]> counters)
  end.

Definition reserveLocal (c : Config) (identity : Identity) (now : Z) (l : Limiter) : result limit_error localReservation * Limiter :=
  let window := truncate now (Window c) in
  let '(keyCount, keys) := activeCounter (keyRPM l) (KeyID identity) window in
  let '(userCount, users) := activeCounter (userRPM l) (UserID identity) window in
  let l := {| keyRPM := keys; userRPM := users; keyConcurrent := keyConcurrent l; userConcurrent := userConcurrent l;
              globalCurrent := globalCurrent l |} in
  let windowRetry := time_sub (window + Window c) now in
  let kl := cfg_Key c in let ul := cfg_User c in
  if (0 <? RequestsPerMinute kl) && (RequestsPerMinute kl <=? keyCount)
  then (Err (LimitError ScopeKey ReasonRPM windowRetry (RequestsPerMinute kl)), l) else
  if (0 <? RequestsPerMinute ul) && (RequestsPerMinute ul <=? userCount)
  then (Err (LimitError ScopeUser ReasonRPM windowRetry (RequestsPerMinute ul)), l) else
  if (0 <? Concurrent kl) && (Concurrent kl <=? at_key (keyConcurrent l) (KeyID identity))
  then (Err (LimitError ScopeKey ReasonConcurrency (ConcurrencyRetryAfter c) (Concurrent kl)), l) else
  if (0 <? Concurrent ul) && (Concurrent ul <=? at_key (userConcurrent l) (UserID identity))
  then (Err (LimitError ScopeUser ReasonConcurrency (ConcurrencyRetryAfter c) (Concurrent ul)), l) else
  if (0 <? GlobalConcurrent c) && (GlobalConcurrent c <=? globalCurrent l)
  then (Err (LimitError ScopeGlobal ReasonConcurrency (ConcurrencyRetryAfter c) (GlobalConcurrent c)), l) else
  let keyed := 0 <? RequestsPerMinute kl in
  let usered := 0 <? RequestsPerMinute ul in
  (Ok {| lr_identity := identity; lr_window := window; lr_keyRPM := keyed; lr_userRPM := usered; lr_concurrent := true |},
   {| keyRPM := if keyed then <[KeyID identity := {| start := window; count := keyCount + 1 |}]> keys else keys;
      userRPM := if usered then <[UserID identity := {| start := window; count := userCount + 1 |}]> users else users;
      keyConcurrent := <[KeyID identity := at_key (keyConcurrent l) (KeyID identity) + 1]> (keyConcurrent l);
      userConcurrent := <[UserID identity := at_key (userConcurrent l) (UserID identity) + 1]> (userConcurrent l);
      globalCurrent := globalCurrent l + 1 |}).

(** One concurrency slot back; a last slot removes the entry. *)
Definition release_one (m : gmap string Z) (k : string) : gmap string Z :=
  if 1 <? at_key m k then <[k := at_key m k - 1]> m else delete k m.
Definition releaseConcurrentLocked (identity : Identity) (l : Limiter) : Limiter :=
  {| keyRPM := keyRPM l; userRPM := userRPM l; keyConcurrent := release_one (keyConcurrent l) (KeyID identity);
     userConcurrent := release_one (userConcurrent l) (UserID identity);
     globalCurrent := if 0 <? globalCurrent l then globalCurrent l - 1 else globalCurrent l |}.

Definition rollback_counter (counters : gmap string windowCounter) (id : string) (window : Z) : gmap string windowCounter :=
  match counters !! id with
  | Some c => if (start c =? window) && (0 <? count c) then <[id := {| start := start c; count := count c - 1 |}]> counters else counters
  | None => counters
  end.
Definition rollbackLocal (r : localReservation) (l : Limiter) : Limiter :=
  let l := {| keyRPM := if lr_keyRPM r then rollback_counter (keyRPM l) (KeyID (lr_identity r)) (lr_window r) else keyRPM l;
              userRPM := if lr_userRPM r then rollback_counter (userRPM l) (UserID (lr_identity r)) (lr_window r) else userRPM l;
              keyConcurrent := keyConcurrent l; userConcurrent := userConcurrent l; globalCurrent := globalCurrent l |} in
  if lr_concurrent r then releaseConcurrentLocked (lr_identity r) l else l.

(** [releaseFor]: the returned function runs once; [released] is its [sync.Once]. *)
Definition release_once (identity : Identity) (released : bool) (l : Limiter) : bool * Limiter :=
  if released then (true, l) else (true, releaseConcurrentLocked identity l).

Definition dailyReservations (c : Config) (identity : Identity) : list DailyReservation :=
  (if hasDailyLimits (cfg_Key c)
   then [{| dr_Scope := ScopeKey; dr_ID := KeyID identity; dr_RequestLimit := RequestsPerDay (cfg_Key c) |}] else []) ++
  (if hasDailyLimits (cfg_User c)
   then [{| dr_Scope := ScopeUser; dr_ID := UserID identity; dr_RequestLimit := RequestsPerDay (cfg_User c) |}] else []).

Record Snapshot := { KeyRPM : Z; UserRPM : Z; KeyConcurrent : Z; UserConcurrent : Z; SnapGlobalConcurrent : Z; WindowEnds : Z }.
Definition snapshot_count (counters : gmap string windowCounter) (id : string) (window : Z) : Z :=
  match counters !! id with Some c => if start c =? window then count c else 0 | None => 0 end.
Definition snapshot (c : Config) (identity : Identity) (now : Z) (l : Limiter) : Snapshot :=
  let window := truncate now (Window c) in
  {| KeyRPM := snapshot_count (keyRPM l) (KeyID identity) window; UserRPM := snapshot_count (userRPM l) (UserID identity) window;
     KeyConcurrent := at_key (keyConcurrent l) (KeyID identity); UserConcurrent := at_key (userConcurrent l) (UserID identity);
     SnapGlobalConcurrent := globalCurrent l; WindowEnds := window + Window c |}.

(** ** Days *)

(** [time.Date] of a local time in a location. *)
Definition date_in (loc : Location) (local : Z) : Z :=
  let o := loc local in if o =? 0 then local else local - loc (local - o).
Definition local_time (loc : Location) (now : Z) : Z := now + loc now.

Definition untilNextDay (now : Z) (loc : Location) : Z :=
  let day := local_time loc now / Day24 in
  let next := date_in loc ((day + 1) * Day24) in
  let retry := time_sub next now in
  if retry <=? 0 then Second else retry.

Definition retryAfterSeconds (value : Z) : Z :=
  if value <=? 0 then 1 else
  let seconds := Z.quot value Second in
  let seconds := if negb (Z.rem value Second =? 0) then seconds + 1 else seconds in
  if seconds <? 1 then 1 else seconds.

Definition dayAt (now : Z) (loc : Location) : Day := format_day (local_time loc now / Day24).

(** ** Daily stores *)

(** What the limiter calls; the two contexts are its state at the entry of the
    call and once the store's lock is held. *)
Class DailyStore (S : Type) := {
  ReserveRequests : context -> context -> Day -> list DailyReservation -> S -> result daily_error unit * S;
  Usage : Day -> Scope -> string -> S -> Z;
}.

(** How many of the reservations are for a scope and id. *)
Definition asked (scope : Scope) (id : string) (rs : list DailyReservation) : Z :=
  Z.of_nat (length (filter (fun r => dr_Scope r = scope /\ dr_ID r = id) rs)).

(** The contract: all counters advance and respect their limits, or none moves. *)
Class DailyStoreLaws (S : Type) `{DailyStore S} := {
  ds_atomic : forall ctx ctx' day rs s e s', ReserveRequests ctx ctx' day rs s = (Err e, s') ->
    forall day' scope id, Usage day' scope id s' = Usage day' scope id s;
  ds_counts : forall ctx ctx' day rs s s', ReserveRequests ctx ctx' day rs s = (Ok tt, s') ->
    forall day' scope id, Usage day' scope id s' = Usage day' scope id s + (if bool_decide (day' = day) then asked scope id rs else 0);
  ds_limits : forall ctx ctx' day rs s s', ReserveRequests ctx ctx' day rs s = (Ok tt, s') ->
    forall r, r ∈ rs -> 0 < dr_RequestLimit r -> Usage day (dr_Scope r) (dr_ID r) s' <= dr_RequestLimit r;
}.

(** *** The in-memory store *)

Abbreviation dailyKey := (Day * Scope * string)%type.
Definition MemoryDailyStore : Type := gmap dailyKey Z.
Definition NewMemoryDailyStore : MemoryDailyStore := ∅.

Definition validateDay (day : Day) : option daily_error := if valid_date day then None else Some ErrInvalidDay.
Definition validDailyScope (scope : Scope) : bool := bool_decide (scope = ScopeKey) || bool_decide (scope = ScopeUser).

Fixpoint validate_entries (seen : gset (Scope * string)) (entries : list DailyReservation) : option daily_error :=
  match entries with
  | [] => None
  | e :: rest =>
      if negb (validDailyScope (dr_Scope e)) || bool_decide (dr_ID e = EmptyString) || (dr_RequestLimit e <? 0)
      then Some ErrInvalidDailyEntry
      else if bool_decide ((dr_Scope e, dr_ID e) ∈ seen) then Some ErrDuplicateDailyEntry
      else validate_entries (seen ∪ {[ (dr_Scope e, dr_ID e) ]}) rest
  end.
Definition validateReservations : list DailyReservation -> option daily_error := validate_entries ∅.

Definition usage_of (m : gmap dailyKey Z) (day : Day) (scope : Scope) (id : string) : Z := default 0 (m !! (day, scope, id)).

(** The first loop: refuse before anything is counted. *)
Fixpoint check_entries (day : Day) (m : gmap dailyKey Z) (entries : list DailyReservation) : option daily_error :=
  match entries with
  | [] => None
  | e :: rest =>
      let current := usage_of m day (dr_Scope e) (dr_ID e) in
      if (0 <? dr_RequestLimit e) && (dr_RequestLimit e <=? current)
      then Some (DailyLimitError (dr_Scope e) (dr_ID e) ReasonDailyRequests current (dr_RequestLimit e))
      else if current =? max_int64 then Some ErrCounterOverflow
      else check_entries day m rest
  end.
(** The second loop. *)
Fixpoint count_entries (day : Day) (entries : list DailyReservation) (m : gmap dailyKey Z) : gmap dailyKey Z :=
  match entries with
  | [] => m
  | e :: rest => count_entries day rest (<[(day, dr_Scope e, dr_ID e) := usage_of m day (dr_Scope e) (dr_ID e) + 1]> m)
  end.

Definition memory_reserve (ctx ctx' : context) (day : Day) (rs : list DailyReservation) (m : MemoryDailyStore)
  : result daily_error unit * MemoryDailyStore :=
  match validateContext ctx, validateDay day, validateReservations rs, validateContext ctx', check_entries day m rs with
  | None, None, None, None, None => (Ok tt, count_entries day rs m)
  | Some e, _, _, _, _ | None, Some e, _, _, _ | None, None, Some e, _, _ | None, None, None, Some e, _
  | None, None, None, None, Some e => (Err e, m)
  end.

(** [MemoryDailyStore.Usage]. *)
Definition memory_usage (ctx ctx' : context) (day : Day) (scope : Scope) (id : string) (m : MemoryDailyStore) : result daily_error Z :=
  match validateContext ctx, validateDay day with
  | Some e, _ | None, Some e => Err e
  | None, None =>
      if negb (validDailyScope scope) || bool_decide (id = EmptyString) then Err ErrInvalidDailyEntry else
      match validateContext ctx' with Some e => Err e | None => Ok (usage_of m day scope id) end
  end.

(** [MemoryDailyStore.DeleteBefore]: days compare as strings. *)
Definition DeleteBefore (day : Day) (m : MemoryDailyStore) : result daily_error unit * MemoryDailyStore :=
  match validateDay day with
  | Some e => (Err e, m)
  | None => (Ok tt, filter (fun kv => str_ltb kv.1.1.1 day = false) m)
  end.

#[export] Instance memory_daily_store : DailyStore MemoryDailyStore :=
  {| ReserveRequests := memory_reserve; Usage := fun day scope id m => usage_of m day scope id |}.

(** ** [Acquire] *)

Section acquire.
Context {S : Type} `{DailyStore S} (c : Config).

Definition location : Location := default UTC (DayLocation c).

(** The answer to a refusal by the daily store. *)
Definition daily_refusal (now : Z) (e : daily_error) : limit_error :=
  match e with
  | DailyLimitError scope _ reason _ limit => LimitError scope reason (untilNextDay now location) limit
  | _ => LimitDaily e
  end.

Definition Acquire (ctx ctx1 ctx2 : context) (identity : Identity) (now : Z) (l : Limiter) (s : S)
  : result limit_error unit * (Limiter * S) :=
  match ctx with
  | NilContext => (Err LimitNilContext, (l, s))
  | Cancelled => (Err LimitContext, (l, s))
  | Live =>
      if bool_decide (KeyID identity = EmptyString) || bool_decide (UserID identity = EmptyString)
      then (Err ErrInvalidIdentity, (l, s)) else
      match reserveLocal c identity now l with
      | (Err e, l) => (Err e, (l, s))
      | (Ok r, l) =>
          match dailyReservations c identity with
          | [] => (Ok tt, (l, s))
          | rs =>
              match ReserveRequests ctx1 ctx2 (dayAt now location) rs s with
              | (Ok _, s) => (Ok tt, (l, s))
              | (Err e, s) => (Err (daily_refusal now e), (rollbackLocal r l, s))
              end
          end
      end
  end.

(** *** Interleaved calls *)

(** A call that read the clock, one that reserved locally and waits for the
    daily store, and an admitted one whose release function did not run yet. *)
Inductive call := Begun (i : Identity) (now : Z) | Pending (r : localReservation) (now : Z) | Holding (r : localReservation).
Record system := System { sys_clock : Z; sys_limiter : Limiter; sys_store : S; sys_calls : gmap nat call }.

Inductive limiter_step : system -> system -> Prop :=
| ls_tick t l s cs t' : t <= t' -> limiter_step (System t l s cs) (System t' l s cs)
| ls_begin t l s cs n i : cs !! n = None -> limiter_step (System t l s cs) (System t l s (<[n := Begun i t]> cs))
| ls_reserve t l s cs n i now r l' : cs !! n = Some (Begun i now) -> reserveLocal c i now l = (Ok r, l') ->
    limiter_step (System t l s cs) (System t l' s (<[n := Pending r now]> cs))
| ls_reject t l s cs n i now e l' : cs !! n = Some (Begun i now) -> reserveLocal c i now l = (Err e, l') ->
    limiter_step (System t l s cs) (System t l' s (delete n cs))
| ls_no_daily t l s cs n r now : cs !! n = Some (Pending r now) -> dailyReservations c (lr_identity r) = [] ->
    limiter_step (System t l s cs) (System t l s (<[n := Holding r]> cs))
| ls_daily t l s cs n r now ctx1 ctx2 s' : cs !! n = Some (Pending r now) -> dailyReservations c (lr_identity r) <> [] ->
    ReserveRequests ctx1 ctx2 (dayAt now location) (dailyReservations c (lr_identity r)) s = (Ok tt, s') ->
    limiter_step (System t l s cs) (System t l s' (<[n := Holding r]> cs))
| ls_rollback t l s cs n r now ctx1 ctx2 e s' : cs !! n = Some (Pending r now) -> dailyReservations c (lr_identity r) <> [] ->
    ReserveRequests ctx1 ctx2 (dayAt now location) (dailyReservations c (lr_identity r)) s = (Err e, s') ->
    limiter_step (System t l s cs) (System t (rollbackLocal r l) s' (delete n cs))
| ls_release t l s cs n r : cs !! n = Some (Holding r) ->
    limiter_step (System t l s cs) (System t (release_once (lr_identity r) false l).2 s (delete n cs)).
End acquire.

(** ** The memory store keeps its contract *)

Lemma validate_entries_NoDup seen rs :
  validate_entries seen rs = None -> NoDup ((fun r => (dr_Scope r, dr_ID r)) <$> rs) /\ forall r, r ∈ rs -> (dr_Scope r, dr_ID r) ∉ seen.
Proof.
  revert seen. induction rs as [|e rs IH]; intros seen H; [split; [constructor|intros r []%elem_of_nil]|]. cbn [validate_entries] in H.
  destruct (_ || _); [done|]. case_bool_decide as Hs; [done|]. apply IH in H as [Hnd Hout]. split.
  - apply NoDup_cons. split; [|done]. intros (r & E & Hr)%list_elem_of_fmap. apply (Hout r Hr). rewrite <- E. clear IH. set_solver.
  - intros r [->|Hr]%elem_of_cons; [done|]. specialize (Hout r Hr). clear IH. set_solver.
Qed.

Lemma asked_cons scope id e rs :
  asked scope id (e :: rs) = (if bool_decide (dr_Scope e = scope /\ dr_ID e = id) then 1 else 0) + asked scope id rs.
Proof. unfold asked. rewrite filter_cons. case_bool_decide; case_decide; try done; cbn [length]; lia. Qed.

Lemma asked_zero scope id rs : (forall r, r ∈ rs -> (dr_Scope r, dr_ID r) <> (scope, id)) -> asked scope id rs = 0.
Proof.
  induction rs as [|e rs IH]; [done|]. intros H. rewrite asked_cons, IH by (intros r Hr; apply H; by right).
  rewrite bool_decide_false; [done|]. intros [<- <-]. by apply (H e); [left|].
Qed.

Lemma usage_insert (m : gmap (Day * Scope * string) Z) (day : Day) (scope : Scope) (id : string) (v : Z) (day' : Day) (scope' : Scope) (id' : string) :
  usage_of (<[(day, scope, id) := v]> m) day' scope' id' =
    if bool_decide (day' = day /\ scope = scope' /\ id = id') then v else usage_of m day' scope' id'.
Proof.
  unfold usage_of. case_bool_decide as E; [destruct E as (-> & -> & ->); by rewrite lookup_insert_eq|].
  rewrite lookup_insert_ne; [done|]. intros [= -> -> ->]. by apply E.
Qed.

Lemma count_entries_usage day rs m day' scope id :
  usage_of (count_entries day rs m) day' scope id = usage_of m day' scope id + (if bool_decide (day' = day) then asked scope id rs else 0).
Proof.
  revert m. induction rs as [|e rs IH]; intros m; cbn [count_entries].
  - unfold asked. cbn. case_bool_decide; lia.
  - rewrite IH, asked_cons, usage_insert. destruct (decide (day' = day)) as [->|Hd].
    + rewrite !(bool_decide_true (day = day)) by done. destruct (decide (dr_Scope e = scope /\ dr_ID e = id)) as [[<- <-]|E1].
      * rewrite !bool_decide_true by done. lia.
      * rewrite !bool_decide_false; [lia|done|]. intros (_ & ? & ?). by apply E1.
    + rewrite !(bool_decide_false (day' = day)) by done. rewrite bool_decide_false; [lia|]. intros [? _]. done.
Qed.

Lemma check_entries_limits day m rs r :
  check_entries day m rs = None -> r ∈ rs -> 0 < dr_RequestLimit r -> usage_of m day (dr_Scope r) (dr_ID r) < dr_RequestLimit r.
Proof.
  induction rs as [|e rs IH]; [by intros _ []%elem_of_nil|]. cbn [check_entries]. intros H Hr Hl.
  destruct (_ && _) eqn:E; [done|]. destruct (_ =? _); [done|]. apply elem_of_cons in Hr as [->|Hr]; [|by apply IH]. lia.
Qed.

Lemma asked_one rs r : NoDup ((fun r => (dr_Scope r, dr_ID r)) <$> rs) -> r ∈ rs -> asked (dr_Scope r) (dr_ID r) rs = 1.
Proof.
  induction rs as [|e rs IH]; [by intros _ []%elem_of_nil|]. intros Hd. rewrite fmap_cons, NoDup_cons in Hd. destruct Hd as [Hn Hnd]. rewrite asked_cons.
  intros [->|Hr]%elem_of_cons.
  - rewrite bool_decide_true by done. rewrite asked_zero; [lia|]. intros x Hx E. apply Hn. rewrite <- E. apply list_elem_of_fmap. by exists x.
  - rewrite IH, bool_decide_false; [lia| |done|done]. intros [E1 E2]. apply Hn. rewrite E1, E2. apply list_elem_of_fmap. by exists r.
Qed.

Lemma memory_reserve_Ok ctx ctx' day rs m m' :
  memory_reserve ctx ctx' day rs m = (Ok tt, m') ->
  validateReservations rs = None /\ check_entries day m rs = None /\ m' = count_entries day rs m.
Proof.
  unfold memory_reserve. destruct (validateContext ctx); [done|]. destruct (validateDay day); [done|].
  destruct (validateReservations rs); [done|]. destruct (validateContext ctx'); [done|]. destruct (check_entries day m rs); [done|].
  by intros [= <-].
Qed.

#[export] Instance memory_daily_laws : DailyStoreLaws MemoryDailyStore.
Proof.
  split.
  - intros ctx ctx' day rs m e m' H day' scope id. cbn in *. unfold memory_reserve in H.
    destruct (validateContext ctx), (validateDay day), (validateReservations rs), (validateContext ctx'), (check_entries day m rs);
      by simplify_eq.
  - intros ctx ctx' day rs m m' (_ & _ & ->)%memory_reserve_Ok day' scope id. apply count_entries_usage.
  - intros ctx ctx' day rs m m' (Hv & Hc & ->)%memory_reserve_Ok r Hr Hl. cbn. rewrite count_entries_usage, bool_decide_true by done.
    apply validate_entries_NoDup in Hv as [Hnd _]. rewrite (asked_one rs r Hnd Hr). pose proof (check_entries_limits day m rs r Hc Hr Hl). lia.
Qed.

(** ** Concurrency *)

(** The identity a call holds a slot for. *)
Definition holder (x : call) : option Identity :=
  match x with Begun _ _ => None | Pending r _ => Some (lr_identity r) | Holding r => Some (lr_identity r) end.
Definition holds_key (k : string) (x : call) : Z :=
  match holder x with Some i => if bool_decide (KeyID i = k) then 1 else 0 | None => 0 end.
Definition holds_user (u : string) (x : call) : Z :=
  match holder x with Some i => if bool_decide (UserID i = u) then 1 else 0 | None => 0 end.
Definition holds_any (x : call) : Z := match holder x with Some _ => 1 | None => 0 end.
Definition nonzero (n : Z) : option Z := if n =? 0 then None else Some n.

(** The concurrency counters are the calls that hold a slot, within the limits. *)
Record slots_exact {S} (c : Config) (s : system (S := S)) : Prop := {
  se_key : forall k, keyConcurrent (sys_limiter s) !! k = nonzero (msum (holds_key k) (sys_calls s));
  se_user : forall u, userConcurrent (sys_limiter s) !! u = nonzero (msum (holds_user u) (sys_calls s));
  se_global : globalCurrent (sys_limiter s) = msum holds_any (sys_calls s);
  se_key_limit : forall k, 0 < Concurrent (cfg_Key c) -> msum (holds_key k) (sys_calls s) <= Concurrent (cfg_Key c);
  se_user_limit : forall u, 0 < Concurrent (cfg_User c) -> msum (holds_user u) (sys_calls s) <= Concurrent (cfg_User c);
  se_global_limit : 0 < GlobalConcurrent c -> msum holds_any (sys_calls s) <= GlobalConcurrent c;
  se_flag : forall n r now, sys_calls s !! n = Some (Pending r now) -> lr_concurrent r = true;
}.

Lemma holds_key_nonneg k x : 0 <= holds_key k x.
Proof. unfold holds_key. destruct (holder x); [case_bool_decide|]; lia. Qed.
Lemma holds_user_nonneg k x : 0 <= holds_user k x.
Proof. unfold holds_user. destruct (holder x); [case_bool_decide|]; lia. Qed.
Lemma holds_any_nonneg x : 0 <= holds_any x.
Proof. unfold holds_any. destruct (holder x); lia. Qed.

Lemma at_key_nonzero (m : gmap string Z) (k : string) (n : Z) : m !! k = nonzero n -> at_key m k = n.
Proof. unfold at_key, nonzero. intros ->. destruct (Z.eqb_spec n 0); [by subst|done]. Qed.

(** Taking and giving back a slot of one map. *)
Lemma take_slot (m : gmap string Z) (f : string -> Z) (k : string) :
  (forall i, 0 <= f i) -> (forall i, m !! i = nonzero (f i)) ->
  forall i, <[k := at_key m k + 1]> m !! i = nonzero (f i + (if bool_decide (k = i) then 1 else 0)).
Proof.
  intros Hf Hm i. rewrite (at_key_nonzero m k (f k)) by done. case_bool_decide as E.
  - subst i. rewrite lookup_insert_eq. unfold nonzero. specialize (Hf k). replace (f k + 1 =? 0) with false by lia. done.
  - rewrite lookup_insert_ne by done. rewrite Hm. f_equal. lia.
Qed.

Lemma give_slot (m : gmap string Z) (f : string -> Z) (k : string) :
  (forall i, m !! i = nonzero (f i)) -> 0 < f k ->
  forall i, release_one m k !! i = nonzero (f i - (if bool_decide (k = i) then 1 else 0)).
Proof.
  intros Hm Hk i. unfold release_one. rewrite (at_key_nonzero m k (f k)) by done. case_bool_decide as E.
  - subst i. destruct (Z.ltb_spec 1 (f k)); [rewrite lookup_insert_eq|rewrite lookup_delete_eq]; unfold nonzero.
    + by replace (f k - 1 =? 0) with false by lia.
    + by replace (f k - 1 =? 0) with true by lia.
  - destruct (1 <? f k); [rewrite lookup_insert_ne by done|rewrite lookup_delete_ne by done]; rewrite Hm; f_equal; lia.
Qed.

(** The checks of [reserveLocal] in order. *)
Ltac peel_limits :=
  repeat match goal with |- (if ?b then _ else _) = _ -> _ => destruct b eqn:?; [by intros [=]; subst|] end.

Lemma reserveLocal_Ok c i now l r l' :
  reserveLocal c i now l = (Ok r, l') ->
  lr_identity r = i /\ lr_concurrent r = true /\ lr_window r = truncate now (Window c) /\
  keyConcurrent l' = <[KeyID i := at_key (keyConcurrent l) (KeyID i) + 1]> (keyConcurrent l) /\
  userConcurrent l' = <[UserID i := at_key (userConcurrent l) (UserID i) + 1]> (userConcurrent l) /\
  globalCurrent l' = globalCurrent l + 1 /\
  (0 < Concurrent (cfg_Key c) -> at_key (keyConcurrent l) (KeyID i) < Concurrent (cfg_Key c)) /\
  (0 < Concurrent (cfg_User c) -> at_key (userConcurrent l) (UserID i) < Concurrent (cfg_User c)) /\
  (0 < GlobalConcurrent c -> globalCurrent l < GlobalConcurrent c).
Proof.
  unfold reserveLocal. destruct (activeCounter (keyRPM l) (KeyID i) _) as [kc keys]. destruct (activeCounter (userRPM l) (UserID i) _) as [uc users].
  cbn [keyConcurrent userConcurrent globalCurrent]. peel_limits. cbv zeta. intros H. simplify_eq. cbn. repeat split; lia.
Qed.

Lemma reserveLocal_Err c i now l e l' :
  reserveLocal c i now l = (Err e, l') ->
  keyConcurrent l' = keyConcurrent l /\ userConcurrent l' = userConcurrent l /\ globalCurrent l' = globalCurrent l.
Proof.
  unfold reserveLocal. destruct (activeCounter (keyRPM l) (KeyID i) _) as [kc keys]. destruct (activeCounter (userRPM l) (UserID i) _) as [uc users].
  cbn [keyConcurrent userConcurrent globalCurrent]. peel_limits. done.
Qed.

Lemma rollback_slots r l : lr_concurrent r = true ->
  keyConcurrent (rollbackLocal r l) = release_one (keyConcurrent l) (KeyID (lr_identity r)) /\
  userConcurrent (rollbackLocal r l) = release_one (userConcurrent l) (UserID (lr_identity r)) /\
  globalCurrent (rollbackLocal r l) = if 0 <? globalCurrent l then globalCurrent l - 1 else globalCurrent l.
Proof. intros H. unfold rollbackLocal. by rewrite H. Qed.

(** *** Every interleaving *)

Lemma holds_key_Pending r now k : holds_key k (Pending r now) = if bool_decide (KeyID (lr_identity r) = k) then 1 else 0.
Proof. done. Qed.
Lemma holds_user_Pending r now k : holds_user k (Pending r now) = if bool_decide (UserID (lr_identity r) = k) then 1 else 0.
Proof. done. Qed.

(** A call whose slots do not change. *)
Lemma slots_same {S} (c : Config) (t t' : Z) (l l' : Limiter) (s s' : S) (cs cs' : gmap nat call) :
  slots_exact c (System t l s cs) ->
  keyConcurrent l' = keyConcurrent l -> userConcurrent l' = userConcurrent l -> globalCurrent l' = globalCurrent l ->
  (forall k, msum (holds_key k) cs' = msum (holds_key k) cs) -> (forall k, msum (holds_user k) cs' = msum (holds_user k) cs) ->
  msum holds_any cs' = msum holds_any cs ->
  (forall n r now, cs' !! n = Some (Pending r now) -> cs !! n = Some (Pending r now)) ->
  slots_exact c (System t' l' s' cs').
Proof.
  intros [K U G KL UL GL F] EK EU EG MK MU MA HF. cbn in *. split; cbn; intros.
  - by rewrite EK, MK.
  - by rewrite EU, MU.
  - by rewrite EG, MA.
  - rewrite MK. auto.
  - rewrite MU. auto.
  - rewrite MA. auto.
  - eauto.
Qed.

(** A call that gives its slot back. *)
Lemma slots_release {S} (c : Config) (t : Z) (l l' : Limiter) (s s' : S) (cs : gmap nat call) (n : nat) (x : call) (i : Identity) :
  slots_exact c (System t l s cs) -> cs !! n = Some x -> holder x = Some i ->
  keyConcurrent l' = release_one (keyConcurrent l) (KeyID i) -> userConcurrent l' = release_one (userConcurrent l) (UserID i) ->
  globalCurrent l' = (if 0 <? globalCurrent l then globalCurrent l - 1 else globalCurrent l) ->
  slots_exact c (System t l' s' (delete n cs)).
Proof.
  intros [K U G KL UL GL F] Hn Hx EK EU EG. cbn in *.
  assert (Dk : forall k, msum (holds_key k) (delete n cs) = msum (holds_key k) cs - (if bool_decide (KeyID i = k) then 1 else 0))
    by (intros k; rewrite (msum_delete _ _ _ _ Hn); unfold holds_key at 2; by rewrite Hx).
  assert (Du : forall k, msum (holds_user k) (delete n cs) = msum (holds_user k) cs - (if bool_decide (UserID i = k) then 1 else 0))
    by (intros k; rewrite (msum_delete _ _ _ _ Hn); unfold holds_user at 2; by rewrite Hx).
  assert (Da : msum holds_any (delete n cs) = msum holds_any cs - 1)
    by (rewrite (msum_delete _ _ _ _ Hn); unfold holds_any at 2; by rewrite Hx).
  assert (0 <= msum holds_any (delete n cs)) by (apply msum_nonneg; intros; apply holds_any_nonneg).
  assert (0 <= msum (holds_key (KeyID i)) (delete n cs)) by (apply msum_nonneg; intros; apply holds_key_nonneg).
  assert (0 <= msum (holds_user (UserID i)) (delete n cs)) by (apply msum_nonneg; intros; apply holds_user_nonneg).
  pose proof (Dk (KeyID i)) as Dk1. pose proof (Du (UserID i)) as Du1. rewrite bool_decide_true in Dk1, Du1 by done.
  split; cbn; intros.
  - rewrite EK, Dk. apply (give_slot _ (fun k => msum (holds_key k) cs)); [done|lia].
  - rewrite EU, Du. apply (give_slot _ (fun k => msum (holds_user k) cs)); [done|lia].
  - rewrite EG, Da, G. destruct (Z.ltb_spec 0 (msum holds_any cs)); lia.
  - rewrite Dk. specialize (KL k). case_bool_decide; lia.
  - rewrite Du. specialize (UL u). case_bool_decide; lia.
  - lia.
  - apply lookup_delete_Some in H2 as [_ ?]. eauto.
Qed.

(** A call that takes one. *)
Lemma slots_take {S} (c : Config) (t : Z) (l l' : Limiter) (s : S) (cs : gmap nat call) (n : nat) (i : Identity) (now : Z) (r : localReservation) :
  slots_exact c (System t l s cs) -> cs !! n = Some (Begun i now) -> reserveLocal c i now l = (Ok r, l') ->
  slots_exact c (System t l' s (<[n := Pending r now]> cs)).
Proof.
  intros [K U G KL UL GL F] Hn (Hi & Hc & _ & EK & EU & EG & LK & LU & LG)%reserveLocal_Ok. cbn in *.
  rewrite (at_key_nonzero _ _ _ (K (KeyID i))) in LK. rewrite (at_key_nonzero _ _ _ (U (UserID i))) in LU.
  assert (Dk : forall k, msum (holds_key k) (<[n := Pending r now]> cs) = msum (holds_key k) cs + (if bool_decide (KeyID i = k) then 1 else 0))
    by (intros k; rewrite (msum_update _ _ _ _ _ Hn), holds_key_Pending, Hi; unfold holds_key at 2; cbn; lia).
  assert (Du : forall k, msum (holds_user k) (<[n := Pending r now]> cs) = msum (holds_user k) cs + (if bool_decide (UserID i = k) then 1 else 0))
    by (intros k; rewrite (msum_update _ _ _ _ _ Hn), holds_user_Pending, Hi; unfold holds_user at 2; cbn; lia).
  assert (Da : msum holds_any (<[n := Pending r now]> cs) = msum holds_any cs + 1)
    by (rewrite (msum_update _ _ _ _ _ Hn); unfold holds_any at 2 3; cbn; lia).
  split; cbn; intros.
  - rewrite EK, Dk. apply (take_slot _ (fun k => msum (holds_key k) cs)); [|done]. intros. apply msum_nonneg. intros. apply holds_key_nonneg.
  - rewrite EU, Du. apply (take_slot _ (fun k => msum (holds_user k) cs)); [|done]. intros. apply msum_nonneg. intros. apply holds_user_nonneg.
  - lia.
  - rewrite Dk. specialize (KL k). case_bool_decide; subst; lia.
  - rewrite Du. specialize (UL u). case_bool_decide; subst; lia.
  - lia.
  - destruct (decide (n0 = n)) as [->|]; [rewrite lookup_insert_eq in *|rewrite lookup_insert_ne in * by done]; simplify_eq; eauto.
Qed.

Lemma limiter_step_slots {S} `{DailyStore S} (c : Config) (x y : system) : limiter_step c x y -> slots_exact c x -> slots_exact c y.
Proof.
  intros Hs. destruct Hs as [t l s cs t' Ht|t l s cs n i Hn|t l s cs n i now r l' Hn Hr|t l s cs n i now e l' Hn Hr|t l s cs n r now Hn Hd
    |t l s cs n r now c1 c2 s' Hn Hd Hr|t l s cs n r now c1 c2 e s' Hn Hd Hr|t l s cs n r Hn]; intros I.
  - by eapply slots_same.
  - eapply slots_same; try done; intros; [by rewrite msum_insert..|].
    destruct (decide (n0 = n)) as [->|]; [rewrite lookup_insert_eq in *|rewrite lookup_insert_ne in * by done]; by simplify_eq.
  - by eapply slots_take.
  - apply reserveLocal_Err in Hr as (E1 & E2 & E3).
    eapply slots_same; try done; intros; [rewrite (msum_delete _ _ _ _ Hn); cbn; lia..|]. by apply lookup_delete_Some in H0 as [_ ?].
  - eapply slots_same; try done; intros; [rewrite (msum_update _ _ _ _ _ Hn); unfold holds_key, holds_user, holds_any; cbn; lia..|].
    destruct (decide (n0 = n)) as [->|]; [rewrite lookup_insert_eq in *|rewrite lookup_insert_ne in * by done]; by simplify_eq.
  - eapply slots_same; try done; intros; [rewrite (msum_update _ _ _ _ _ Hn); unfold holds_key, holds_user, holds_any; cbn; lia..|].
    destruct (decide (n0 = n)) as [->|]; [rewrite lookup_insert_eq in *|rewrite lookup_insert_ne in * by done]; by simplify_eq.
  - pose proof (rollback_slots r l (se_flag _ _ I _ _ _ Hn)) as (E1 & E2 & E3). by eapply slots_release.
  - by eapply slots_release.
Qed.

(** [C30] In every state the limiter reaches by any interleaving of calls, the
    per-key, per-user and global concurrency counters are exactly the numbers
    of calls that hold a slot (an idle key or user has no entry), and no
    configured limit is exceeded; rolled back and released calls give their
    slot back exactly once. *)
Theorem concurrency_exact {S} `{DailyStore S} (c cfg : Config) (l0 : Limiter) (t : Z) (s0 : S) (sys : system) :
  New c = Ok (cfg, l0) -> rtc (limiter_step cfg) (System t l0 s0 ∅) sys -> slots_exact cfg sys.
Proof.
  intros HN Hr. assert (I0 : slots_exact cfg (System t l0 s0 ∅)).
  { apply rbind_Ok in HN as ([] & _ & [= <- <-]). split; cbn; intros; rewrite ?msum_empty; [done|done|done|lia|lia|lia|]. by rewrite lookup_empty in H0. }
  revert I0. induction Hr as [x|x y z Hs Hr IH]; [done|]. intros I. apply IH. by eapply limiter_step_slots.
Qed.

(** A configuration with one request per window and no other limit. *)
Definition one_per_window : Config :=
  {| cfg_Key := {| RequestsPerMinute := 1; Concurrent := 0; RequestsPerDay := 0 |};
     cfg_User := {| RequestsPerMinute := 0; Concurrent := 2; RequestsPerDay := 5 |};
     GlobalConcurrent := 0; Window := Minute; ConcurrencyRetryAfter := Second; DayLocation := Some UTC; DailyStore_set := true |}.
Definition no_daily (c : Config) : Config :=
  {| cfg_Key := cfg_Key c; cfg_User := {| RequestsPerMinute := 0; Concurrent := 0; RequestsPerDay := 0 |};
     GlobalConcurrent := 0; Window := Window c; ConcurrencyRetryAfter := ConcurrencyRetryAfter c; DayLocation := DayLocation c; DailyStore_set := false |}.
Definition idle : Limiter := {| keyRPM := ∅; userRPM := ∅; keyConcurrent := ∅; userConcurrent := ∅; globalCurrent := 0 |}.
Definition someone : Identity := {| KeyID := "key"; UserID := "user" |}.

Lemma concurrency_exact_witness :
  exists sys, New one_per_window = Ok (one_per_window, idle) /\
    rtc (limiter_step one_per_window) (System 0 idle NewMemoryDailyStore ∅) sys /\ slots_exact one_per_window sys /\
    msum holds_any (sys_calls sys) = 1.
Proof.
  set (l1 := (reserveLocal one_per_window someone 0 idle).2).
  set (r1 := {| lr_identity := someone; lr_window := 0; lr_keyRPM := true; lr_userRPM := false; lr_concurrent := true |}).
  assert (HN : New one_per_window = Ok (one_per_window, idle)) by reflexivity.
  set (cs := (<[0%nat := Pending r1 0]> (<[0%nat := Begun someone 0]> ∅)) : gmap nat call).
  assert (HR : rtc (limiter_step one_per_window) (System 0 idle NewMemoryDailyStore ∅) (System 0 l1 NewMemoryDailyStore cs)).
  { eapply rtc_l; [apply (ls_begin one_per_window 0 idle NewMemoryDailyStore ∅ 0 someone); reflexivity|].
    apply rtc_once. eapply (ls_reserve one_per_window 0 idle NewMemoryDailyStore _ 0 someone 0 r1 l1); reflexivity. }
  exists (System 0 l1 NewMemoryDailyStore cs). split; [exact HN|]. split; [exact HR|].
  split; [exact (concurrency_exact one_per_window one_per_window idle 0 NewMemoryDailyStore _ HN HR)|vm_compute; reflexivity].
Defined.

(** ** The clock is read before the lock

    [Acquire] evaluates [l.now()] before [reserveLocal] takes the mutex, and a
    counter of another window is reset whether that window is older or newer. *)
Section race.
Let c : Config := no_daily one_per_window.
Let s : MemoryDailyStore := NewMemoryDailyStore.
Let at_reserve (now : Z) (l : Limiter) : Limiter := (reserveLocal c someone now l).2.
Let held (window : Z) : localReservation :=
  {| lr_identity := someone; lr_window := window; lr_keyRPM := true; lr_userRPM := false; lr_concurrent := true |}.
Let late : Z := Minute - Second.
Let l2 : Limiter := at_reserve Minute idle.
Let l1 : Limiter := at_reserve late l2.
Let l3 : Limiter := at_reserve (Minute + Second) l1.

(** With one request per window, a call that read the clock just before the
    boundary and reserves just after another one resets the new window's
    counter: two requests of one key are admitted in the same window. *)
Theorem window_boundary_race :
  RequestsPerMinute (cfg_Key c) = 1 /\
  exists sys r r', rtc (limiter_step c) (System late idle s ∅) sys /\
    sys_calls sys !! 2%nat = Some (Holding r) /\ sys_calls sys !! 3%nat = Some (Holding r') /\
    KeyID (lr_identity r) = KeyID (lr_identity r') /\ lr_window r = lr_window r'.
Proof.
  split; [reflexivity|]. eexists _, (held Minute), (held Minute). split.
  { eapply rtc_l; [apply (ls_begin c late idle s ∅ 1 someone); reflexivity|].
    eapply rtc_l; [apply (ls_tick c late idle s _ Minute); vm_compute; discriminate|].
    eapply rtc_l; [apply (ls_begin c Minute idle s _ 2 someone); reflexivity|].
    eapply rtc_l; [apply (ls_reserve c Minute idle s _ 2 someone Minute (held Minute) l2); reflexivity|].
    eapply rtc_l; [apply (ls_reserve c Minute l2 s _ 1 someone late (held 0) l1); reflexivity|].
    eapply rtc_l; [apply (ls_tick c Minute l1 s _ (Minute + Second)); vm_compute; discriminate|].
    eapply rtc_l; [apply (ls_begin c (Minute + Second) l1 s _ 3 someone); reflexivity|].
    eapply rtc_l; [apply (ls_reserve c (Minute + Second) l1 s _ 3 someone (Minute + Second) (held Minute) l3); reflexivity|].
    eapply rtc_l; [apply (ls_no_daily c (Minute + Second) l3 s _ 2 (held Minute) Minute); reflexivity|].
    apply rtc_once. apply (ls_no_daily c (Minute + Second) l3 s _ 3 (held Minute) (Minute + Second)); reflexivity. }
  repeat split; reflexivity.
Qed.
End race.

(** ** One call *)

(** What every operation keeps: no idle entries, no negative counts. *)
Record limiter_wf (l : Limiter) : Prop := {
  lw_key : forall k n, keyConcurrent l !! k = Some n -> 0 < n;
  lw_user : forall k n, userConcurrent l !! k = Some n -> 0 < n;
  lw_global : 0 <= globalCurrent l;
  lw_keyRPM : forall k x, keyRPM l !! k = Some x -> 0 <= count x;
  lw_userRPM : forall k x, userRPM l !! k = Some x -> 0 <= count x;
}.

#[export] Instance windowCounter_eq_dec : EqDecision windowCounter.
Proof. solve_decision. Defined.

Lemma activeCounter_spec (m : gmap string windowCounter) (id : string) (w : Z) :
  activeCounter m id w =
    (snapshot_count m id w, if bool_decide (m !! id = Some {| start := w; count := snapshot_count m id w |}) then m
                            else <[id := {| start := w; count := 0 |}]> m) /\
  (bool_decide (m !! id = Some {| start := w; count := snapshot_count m id w |}) = false -> snapshot_count m id w = 0).
Proof.
  unfold activeCounter, snapshot_count. destruct (m !! id) as [[st n]|] eqn:E; cbn; [|done].
  destruct (Z.eqb_spec st w) as [->|Hne]; [by rewrite bool_decide_true|]. rewrite bool_decide_false by congruence. done.
Qed.

Lemma snapshot_insert (m : gmap string windowCounter) (id id' : string) (w n : Z) :
  snapshot_count (<[id := {| start := w; count := n |}]> m) id' w = if bool_decide (id = id') then n else snapshot_count m id' w.
Proof.
  unfold snapshot_count. case_bool_decide as E; [subst; rewrite lookup_insert_eq; cbn; by rewrite Z.eqb_refl|by rewrite lookup_insert_ne].
Qed.

(** The counters as a snapshot of the window sees them. *)
Lemma activeCounter_snapshot (m : gmap string windowCounter) (id : string) (w : Z) :
  (activeCounter m id w).1 = snapshot_count m id w /\
  (activeCounter m id w).2 !! id = Some {| start := w; count := snapshot_count m id w |} /\
  (forall id', snapshot_count (activeCounter m id w).2 id' w = snapshot_count m id' w) /\
  ((forall k x, m !! k = Some x -> 0 <= count x) -> forall k x, (activeCounter m id w).2 !! k = Some x -> 0 <= count x).
Proof.
  destruct (activeCounter_spec m id w) as [-> H0]. cbn. split; [done|]. case_bool_decide as E; [done|]. specialize (H0 eq_refl). rewrite H0.
  split; [by rewrite lookup_insert_eq|]. split.
  - intros id'. rewrite snapshot_insert. case_bool_decide; [by subst|done].
  - intros Hm k x. destruct (decide (k = id)) as [->|]; [rewrite lookup_insert_eq; intros [= <-]; done|rewrite lookup_insert_ne by done; eauto].
Qed.

(** Counting a request and taking it back. *)
Lemma rollback_counted (m : gmap string windowCounter) (id : string) (w n : Z) (on : bool) :
  m !! id = Some {| start := w; count := n |} -> 0 <= n ->
  (if on then rollback_counter (if on then <[id := {| start := w; count := n + 1 |}]> m else m) id w
   else (if on then <[id := {| start := w; count := n + 1 |}]> m else m)) = m.
Proof.
  intros Hm Hn. destruct on; [|done]. unfold rollback_counter. rewrite lookup_insert_eq. cbn. rewrite Z.eqb_refl. cbn.
  replace (0 <? n + 1) with true by lia. rewrite insert_insert_eq. replace (n + 1 - 1) with n by lia. by apply insert_id.
Qed.

Lemma release_taken (m : gmap string Z) (k : string) : (forall k n, m !! k = Some n -> 0 < n) -> release_one (<[k := at_key m k + 1]> m) k = m.
Proof.
  intros Hm. unfold release_one. assert (at_key (<[k := at_key m k + 1]> m) k = at_key m k + 1) as -> by (unfold at_key at 1; by rewrite lookup_insert_eq).
  unfold at_key. destruct (m !! k) as [n|] eqn:E; cbn.
  - specialize (Hm k n E). replace (1 <? n + 1) with true by lia. rewrite insert_insert_eq. replace (n + 1 - 1) with n by lia. by apply insert_id.
  - rewrite delete_insert_eq. by apply delete_id.
Qed.

(** The limiter after the counters of the window were made active. *)
Definition activated (c : Config) (i : Identity) (now : Z) (l : Limiter) : Limiter :=
  {| keyRPM := (activeCounter (keyRPM l) (KeyID i) (truncate now (Window c))).2;
     userRPM := (activeCounter (userRPM l) (UserID i) (truncate now (Window c))).2;
     keyConcurrent := keyConcurrent l; userConcurrent := userConcurrent l; globalCurrent := globalCurrent l |}.

Lemma activated_same c i now l : limiter_wf l ->
  limiter_wf (activated c i now l) /\ forall i', snapshot c i' now (activated c i now l) = snapshot c i' now l.
Proof.
  intros [K U G KR UR]. destruct (activeCounter_snapshot (keyRPM l) (KeyID i) (truncate now (Window c))) as (_ & _ & Sk & Wk).
  destruct (activeCounter_snapshot (userRPM l) (UserID i) (truncate now (Window c))) as (_ & _ & Su & Wu).
  split; [split; cbn; eauto|]. intros i'. unfold snapshot. cbn. by rewrite Sk, Su.
Qed.

(** [reserveLocal] in terms of snapshots. *)
Definition counted (on : bool) (m : gmap string windowCounter) (id : string) (w n : Z) : gmap string windowCounter :=
  if on then <[id := {| start := w; count := n + 1 |}]> m else m.

Lemma reserveLocal_outcome c i now l res l' :
  reserveLocal c i now l = (res, l') ->
  let a := activated c i now l in let w := truncate now (Window c) in let before := snapshot c i now l in
  match res with
  | Err _ => l' = a
  | Ok r =>
      (0 < RequestsPerMinute (cfg_Key c) -> KeyRPM before < RequestsPerMinute (cfg_Key c)) /\
      (0 < RequestsPerMinute (cfg_User c) -> UserRPM before < RequestsPerMinute (cfg_User c)) /\
      (0 < Concurrent (cfg_Key c) -> KeyConcurrent before < Concurrent (cfg_Key c)) /\
      (0 < Concurrent (cfg_User c) -> UserConcurrent before < Concurrent (cfg_User c)) /\
      (0 < GlobalConcurrent c -> SnapGlobalConcurrent before < GlobalConcurrent c) /\
      r = {| lr_identity := i; lr_window := w; lr_keyRPM := 0 <? RequestsPerMinute (cfg_Key c);
             lr_userRPM := 0 <? RequestsPerMinute (cfg_User c); lr_concurrent := true |} /\
      l' = {| keyRPM := counted (0 <? RequestsPerMinute (cfg_Key c)) (keyRPM a) (KeyID i) w (KeyRPM before);
              userRPM := counted (0 <? RequestsPerMinute (cfg_User c)) (userRPM a) (UserID i) w (UserRPM before);
              keyConcurrent := <[KeyID i := KeyConcurrent before + 1]> (keyConcurrent l);
              userConcurrent := <[UserID i := UserConcurrent before + 1]> (userConcurrent l);
              globalCurrent := SnapGlobalConcurrent before + 1 |}
  end.
Proof.
  unfold reserveLocal, activated. cbn zeta. destruct (activeCounter_snapshot (keyRPM l) (KeyID i) (truncate now (Window c))) as (Ek & _).
  destruct (activeCounter_snapshot (userRPM l) (UserID i) (truncate now (Window c))) as (Eu & _).
  destruct (activeCounter (keyRPM l) (KeyID i) _) as [kc keys], (activeCounter (userRPM l) (UserID i) _) as [uc users]. cbn in Ek, Eu. subst kc uc.
  cbn [keyConcurrent userConcurrent globalCurrent keyRPM userRPM snd]. peel_limits. intros [= <- <-]. unfold counted, snapshot. cbn. repeat split; lia.
Qed.

Lemma rollback_reserved c i now l r l' : limiter_wf l -> reserveLocal c i now l = (Ok r, l') -> rollbackLocal r l' = activated c i now l.
Proof.
  intros [K U G KR UR] (_ & _ & _ & _ & _ & -> & ->)%reserveLocal_outcome. unfold rollbackLocal, releaseConcurrentLocked. cbn -[rollback_counter activeCounter release_one].
  destruct (activeCounter_snapshot (keyRPM l) (KeyID i) (truncate now (Window c))) as (_ & Ak & _ & Wk).
  destruct (activeCounter_snapshot (userRPM l) (UserID i) (truncate now (Window c))) as (_ & Au & _ & Wu).
  unfold activated, counted. f_equal.
  - apply rollback_counted; [done|]. by apply (Wk KR (KeyID i) _ Ak).
  - apply rollback_counted; [done|]. by apply (Wu UR (UserID i) _ Au).
  - by apply release_taken.
  - by apply release_taken.
  - replace (0 <? globalCurrent l + 1) with true by lia. lia.
Qed.

(** The counters of the caller move by one and stay within a configured limit. *)
Definition advanced (limit before after : Z) : Prop := after = before + 1 /\ (0 < limit -> after <= limit).
(** A counter that is only kept when its limit is set. *)
Definition advanced_if (limit before after : Z) : Prop := 0 < limit -> advanced limit before after.

Lemma at_key_insert (m : gmap string Z) (k : string) (n : Z) : at_key (<[k := n]> m) k = n.
Proof. unfold at_key. by rewrite lookup_insert_eq. Qed.

Lemma counted_advances (limit w n : Z) (m : gmap string windowCounter) (id : string) :
  (0 < limit -> n < limit) -> advanced_if limit n (snapshot_count (counted (0 <? limit) m id w n) id w).
Proof.
  intros H Hl. unfold counted. replace (0 <? limit) with true by lia. rewrite snapshot_insert, bool_decide_true by done. split; lia.
Qed.

Lemma counted_wf (on : bool) (m : gmap string windowCounter) (id : string) (w n : Z) :
  0 <= n -> (forall k x, m !! k = Some x -> 0 <= count x) -> forall k x, counted on m id w n !! k = Some x -> 0 <= count x.
Proof.
  intros Hn Hm k x. unfold counted. destruct on; [|eauto].
  destruct (decide (k = id)) as [->|]; [rewrite lookup_insert_eq; intros [= <-]; cbn; lia|rewrite lookup_insert_ne by done; eauto].
Qed.

Lemma taken_wf (m : gmap string Z) (k : string) :
  (forall k n, m !! k = Some n -> 0 < n) -> forall k' n, <[k := at_key m k + 1]> m !! k' = Some n -> 0 < n.
Proof.
  intros Hm k' n. destruct (decide (k' = k)) as [->|]; [|rewrite lookup_insert_ne by done; eauto].
  rewrite lookup_insert_eq. intros [= <-]. unfold at_key. destruct (m !! k) as [v|] eqn:E; cbn; [specialize (Hm k v E); lia|lia].
Qed.

Lemma reserved_outcome c i now l r l' : limiter_wf l -> reserveLocal c i now l = (Ok r, l') ->
  let before := snapshot c i now l in let after := snapshot c i now l' in
  limiter_wf l' /\
  advanced_if (RequestsPerMinute (cfg_Key c)) (KeyRPM before) (KeyRPM after) /\
  advanced_if (RequestsPerMinute (cfg_User c)) (UserRPM before) (UserRPM after) /\
  advanced (Concurrent (cfg_Key c)) (KeyConcurrent before) (KeyConcurrent after) /\
  advanced (Concurrent (cfg_User c)) (UserConcurrent before) (UserConcurrent after) /\
  advanced (GlobalConcurrent c) (SnapGlobalConcurrent before) (SnapGlobalConcurrent after).
Proof.
  intros [K U G KR UR] (H1 & H2 & H3 & H4 & H5 & _ & ->)%reserveLocal_outcome. cbn zeta.
  destruct (activeCounter_snapshot (keyRPM l) (KeyID i) (truncate now (Window c))) as (_ & Ak & _ & Wk).
  destruct (activeCounter_snapshot (userRPM l) (UserID i) (truncate now (Window c))) as (_ & Au & _ & Wu).
  split; [|split; [|split; [|split; [|split]]]].
  - split; cbn [keyConcurrent userConcurrent globalCurrent keyRPM userRPM].
    + exact (taken_wf _ _ K).
    + exact (taken_wf _ _ U).
    + cbn. lia.
    + exact (counted_wf _ _ _ _ _ (Wk KR _ _ Ak) (Wk KR)).
    + exact (counted_wf _ _ _ _ _ (Wu UR _ _ Au) (Wu UR)).
  - exact (counted_advances _ _ _ _ _ H1).
  - exact (counted_advances _ _ _ _ _ H2).
  - unfold snapshot at 2. cbn [KeyConcurrent keyConcurrent]. rewrite at_key_insert. split; [done|lia].
  - unfold snapshot at 2. cbn [UserConcurrent userConcurrent]. rewrite at_key_insert. split; [done|lia].
  - split; [done|]. intros Hl. specialize (H5 Hl). cbn in *. lia.
Qed.

(** The daily counters of the caller after an admission. *)
Lemma daily_admitted {S} `{DailyStoreLaws S} (c : Config) (i : Identity) (ctx1 ctx2 : context) (day : Day) (s s' : S) :
  ReserveRequests ctx1 ctx2 day (dailyReservations c i) s = (Ok tt, s') ->
  advanced_if (RequestsPerDay (cfg_Key c)) (Usage day ScopeKey (KeyID i) s) (Usage day ScopeKey (KeyID i) s') /\
  advanced_if (RequestsPerDay (cfg_User c)) (Usage day ScopeUser (UserID i) s) (Usage day ScopeUser (UserID i) s').
Proof.
  intros HR. pose proof (ds_counts _ _ _ _ _ _ HR day) as HC. pose proof (ds_limits _ _ _ _ _ _ HR) as HL.
  rewrite bool_decide_true in HC by done. unfold dailyReservations, hasDailyLimits in *.
  split; intros Hl; split.
  - rewrite HC. replace (0 <? RequestsPerDay (cfg_Key c)) with true by lia. cbn [app]. rewrite asked_cons, bool_decide_true by done.
    destruct (0 <? RequestsPerDay (cfg_User c)); [rewrite asked_cons, bool_decide_false by (by intros [? _])|]; change (asked ScopeKey (KeyID i) []) with 0; lia.
  - intros _. replace (0 <? RequestsPerDay (cfg_Key c)) with true in HL by lia.
    apply (HL {| dr_Scope := ScopeKey; dr_ID := KeyID i; dr_RequestLimit := RequestsPerDay (cfg_Key c) |}); [set_solver|done].
  - rewrite HC. replace (0 <? RequestsPerDay (cfg_User c)) with true by lia. 
    destruct (0 <? RequestsPerDay (cfg_Key c)); cbn [app]; rewrite !asked_cons, ?(bool_decide_false (_ = ScopeUser /\ _)) by (by intros [? _]);
      rewrite bool_decide_true by done; change (asked ScopeUser (UserID i) []) with 0; lia.
  - intros _. replace (0 <? RequestsPerDay (cfg_User c)) with true in HL by lia.
    apply (HL {| dr_Scope := ScopeUser; dr_ID := UserID i; dr_RequestLimit := RequestsPerDay (cfg_User c) |}); [|done].
    apply elem_of_app. right. set_solver.
Qed.

(** A refused call leaves no trace: whatever the reason (context,
    identity, rate, concurrency or the daily store), every counter anyone can
    read at that moment and every daily counter is as before. An admitted call
    advances exactly its own counters by one, each within its limit. *)
Theorem acquire_outcome {S} `{DailyStoreLaws S} (c : Config) (ctx ctx1 ctx2 : context) (i : Identity) (now : Z) (l l' : Limiter) (s s' : S) res :
  limiter_wf l -> Acquire c ctx ctx1 ctx2 i now l s = (res, (l', s')) ->
  limiter_wf l' /\
  match res with
  | Err _ => (forall i', snapshot c i' now l' = snapshot c i' now l) /\ (forall day scope id, Usage day scope id s' = Usage day scope id s)
  | Ok _ =>
      let before := snapshot c i now l in let after := snapshot c i now l' in let day := dayAt now (location c) in
      advanced_if (RequestsPerMinute (cfg_Key c)) (KeyRPM before) (KeyRPM after) /\
      advanced_if (RequestsPerMinute (cfg_User c)) (UserRPM before) (UserRPM after) /\
      advanced (Concurrent (cfg_Key c)) (KeyConcurrent before) (KeyConcurrent after) /\
      advanced (Concurrent (cfg_User c)) (UserConcurrent before) (UserConcurrent after) /\
      advanced (GlobalConcurrent c) (SnapGlobalConcurrent before) (SnapGlobalConcurrent after) /\
      advanced_if (RequestsPerDay (cfg_Key c)) (Usage day ScopeKey (KeyID i) s) (Usage day ScopeKey (KeyID i) s') /\
      advanced_if (RequestsPerDay (cfg_User c)) (Usage day ScopeUser (UserID i) s) (Usage day ScopeUser (UserID i) s')
  end.
Proof.
  intros W. unfold Acquire. destruct ctx; [by intros [= <- <- <-]| |by intros [= <- <- <-]]. destruct (_ || _); [by intros [= <- <- <-]|].
  destruct (reserveLocal c i now l) as [[r|e] l1] eqn:ER; cycle 1.
  { intros [= <- <- <-]. apply reserveLocal_outcome in ER as ->. destruct (activated_same c i now l W) as [? ?]. done. }
  pose proof (reserved_outcome _ _ _ _ _ _ W ER) as (W1 & P1 & P2 & P3 & P4 & P5).
  destruct (dailyReservations c i) as [|d0 ds] eqn:ED.
  { intros [= <- <- <-]. split; [done|]. unfold dailyReservations, hasDailyLimits in ED.
    destruct (0 <? RequestsPerDay (cfg_Key c)) eqn:E1, (0 <? RequestsPerDay (cfg_User c)) eqn:E2; try done.
    repeat split; try apply P1; try apply P2; try apply P3; try apply P4; try apply P5; try done; lia. }
  rewrite <- ED. destruct (ReserveRequests ctx1 ctx2 _ (dailyReservations c i) s) as [[[]|e] s1] eqn:EQ.
  - intros [= <- <- <-]. split; [done|]. cbn zeta. pose proof (daily_admitted c i _ _ _ _ _ EQ) as [? ?]. auto 10.
  - intros [= <- <- <-]. rewrite (rollback_reserved c i now l r l1 W ER). destruct (activated_same c i now l W) as [? ?].
    split; [done|]. split; [done|]. intros. by eapply ds_atomic.
Qed.

Lemma idle_wf : limiter_wf idle.
Proof. split; cbn; try done; intros k n H; by rewrite lookup_empty in H. Qed.

Lemma acquire_outcome_witness :
  let a := Acquire one_per_window Live Live Live someone (738944 * Day24) idle NewMemoryDailyStore in
  is_ok a.1 = true /\ is_ok (Acquire one_per_window Live Live Live someone (738944 * Day24 + 1) a.2.1 a.2.2).1 = false /\
  limiter_wf a.2.1.
Proof.
  intros a. split; [vm_compute; reflexivity|]. split; [vm_compute; reflexivity|].
  subst a. destruct (Acquire _ _ _ _ _ _ _ _) as [res [l s]] eqn:E. apply acquire_outcome in E; [|exact idle_wf]. destruct E as [W _]. exact W.
Defined.

(** ** Rates, when the calls do not overlap *)

(** Calls one after another with a clock that does not go back; the log lists
    the admitted ones with the time they read. *)
Inductive serial_run {S} `{DailyStore S} (c : Config) : list (Identity * Z) -> Z -> Limiter -> S -> Prop :=
| sr_new t s : serial_run c [] t idle s
| sr_acquire log t l s now ctx ctx1 ctx2 i res l' s' : serial_run c log t l s -> t <= now ->
    Acquire c ctx ctx1 ctx2 i now l s = (res, (l', s')) ->
    serial_run c (if is_ok res then (i, now) :: log else log) now l' s'
| sr_release log t l s i : serial_run c log t l s -> serial_run c log t (release_once i false l).2 s.

(** Admitted requests of a key (or user) in the window that starts at [w]. *)
Definition admitted_in (width : Z) (f : Identity -> string) (id : string) (w : Z) (log : list (Identity * Z)) : Z :=
  Z.of_nat (length (filter (fun e => f e.1 = id /\ truncate e.2 width = w) log)).

Lemma admitted_cons width f id w i now log :
  admitted_in width f id w ((i, now) :: log) =
    (if bool_decide (f i = id /\ truncate now width = w) then 1 else 0) + admitted_in width f id w log.
Proof. unfold admitted_in. rewrite filter_cons. cbn. case_bool_decide; case_decide; try done; cbn [length]; lia. Qed.

(** The counters agree with the log and no earlier window is reopened. *)
Definition rate_ok (limit width : Z) (f : Identity -> string) (log : list (Identity * Z)) (t : Z) (m : gmap string windowCounter) : Prop :=
  forall id, match m !! id with
  | None => forall w, admitted_in width f id w log = 0
  | Some x => count x = admitted_in width f id (start x) log /\ start x <= truncate t width /\
              forall w, start x < w -> admitted_in width f id w log = 0
  end /\ forall w, admitted_in width f id w log <= limit.

Lemma truncate_mono t t' d : 0 < d -> t <= t' -> truncate t d <= truncate t' d.
Proof.
  intros Hd Ht. unfold truncate. replace (d <=? 0) with false by lia.
  pose proof (Z.div_mod t d ltac:(lia)). pose proof (Z.div_mod t' d ltac:(lia)). pose proof (Z.div_le_mono t t' d Hd Ht). nia.
Qed.

Lemma rate_ok_activate limit width f log t now m id : 0 < width -> t <= now -> rate_ok limit width f log t m ->
  rate_ok limit width f log now (activeCounter m id (truncate now width)).2 /\
  snapshot_count m id (truncate now width) = admitted_in width f id (truncate now width) log.
Proof.
  intros Hw Ht I. pose proof (truncate_mono t now width Hw Ht) as HT.
  assert (J : rate_ok limit width f log now m).
  { intros k. specialize (I k) as [Ik Lk]. split; [|done]. destruct (m !! k); [|done]. destruct Ik as (? & ? & ?). repeat split; [done|lia|done]. }
  assert (E : snapshot_count m id (truncate now width) = admitted_in width f id (truncate now width) log).
  { specialize (I id) as [Ii _]. unfold snapshot_count. destruct (m !! id) as [x|]; [|by rewrite Ii]. destruct Ii as (Hc & Hs & H0).
    destruct (Z.eqb_spec (start x) (truncate now width)) as [<-|]; [done|]. rewrite H0; lia. }
  split; [|done]. destruct (activeCounter_spec m id (truncate now width)) as [-> H0]. cbn. case_bool_decide as B; [done|]. specialize (H0 eq_refl).
  intros k. destruct (decide (k = id)) as [->|]; [|rewrite lookup_insert_ne by done; apply J]. rewrite lookup_insert_eq. cbn.
  destruct (I id) as [Ii Li]. split; [|done]. split; [lia|]. split; [lia|]. intros w Hlt.
  destruct (m !! id) as [x|]; [|done]. destruct Ii as (_ & Hs & Hz). apply Hz. lia.
Qed.

Lemma rate_ok_counted limit width f log now m i : 0 < width -> 0 < limit -> rate_ok limit width f log now m ->
  m !! f i = Some {| start := truncate now width; count := admitted_in width f (f i) (truncate now width) log |} ->
  admitted_in width f (f i) (truncate now width) log < limit ->
  rate_ok limit width f ((i, now) :: log) now
    (counted (0 <? limit) m (f i) (truncate now width) (admitted_in width f (f i) (truncate now width) log)).
Proof.
  intros Hw Hl I Hm Hlt k. unfold counted. replace (0 <? limit) with true by lia. specialize (I k) as [Ik Lk].
  destruct (decide (k = f i)) as [->|Hk].
  - rewrite lookup_insert_eq. rewrite Hm in Ik. destruct Ik as (_ & _ & H0). cbn in *. split; [split; [|split; [lia|]]|].
    + rewrite admitted_cons, bool_decide_true by done. lia.
    + intros w Hw'. rewrite admitted_cons, bool_decide_false by (intros [_ ?]; lia). rewrite H0; lia.
    + intros w. rewrite admitted_cons. specialize (Lk w). case_bool_decide as B; [destruct B as [_ <-]; lia|lia].
  - rewrite lookup_insert_ne by done. assert (E : forall w, admitted_in width f k w ((i, now) :: log) = admitted_in width f k w log)
      by (intros w; rewrite admitted_cons, bool_decide_false by (intros [? _]; congruence); lia).
    split; [|intros w; by rewrite E]. destruct (m !! k) as [x|]; [|intros w; by rewrite E].
    destruct Ik as (? & ? & ?). split; [by rewrite E|]. split; [done|]. intros w ?. rewrite E. auto.
Qed.

(** How a call changes the counters of the window. *)
Lemma acquire_rates {S} `{DailyStore S} (c : Config) (ctx ctx1 ctx2 : context) (i : Identity) (now : Z) (l l' : Limiter) (s s' : S) res :
  limiter_wf l -> Acquire c ctx ctx1 ctx2 i now l s = (res, (l', s')) ->
  (is_ok res = false /\ (l' = l \/ l' = activated c i now l)) \/ (is_ok res = true /\ exists r, reserveLocal c i now l = (Ok r, l')).
Proof.
  intros W. unfold Acquire. destruct ctx; [intros [= <- <- <-]; auto| |intros [= <- <- <-]; auto]. destruct (_ || _); [intros [= <- <- <-]; auto|].
  destruct (reserveLocal c i now l) as [[r|e] l1] eqn:ER; cycle 1.
  { intros [= <- <- <-]. apply reserveLocal_outcome in ER as ->. auto. }
  destruct (dailyReservations c i) as [|d ds]; [intros [= <- <- <-]; eauto|].
  destruct (ReserveRequests _ _ _ _ _) as [[[]|e] s1]; intros [= <- <- <-]; [eauto|].
  rewrite (rollback_reserved c i now l r l1 W ER). auto.
Qed.

Lemma release_one_wf (m : gmap string Z) (k : string) :
  (forall k n, m !! k = Some n -> 0 < n) -> forall k' n, release_one m k !! k' = Some n -> 0 < n.
Proof.
  intros Hm k' n. unfold release_one. destruct (Z.ltb_spec 1 (at_key m k)).
  - destruct (decide (k' = k)) as [->|]; [rewrite lookup_insert_eq; intros [= <-]; lia|rewrite lookup_insert_ne by done; eauto].
  - intros [_ ?]%lookup_delete_Some. eauto.
Qed.
Lemma release_wf i l : limiter_wf l -> limiter_wf (releaseConcurrentLocked i l).
Proof.
  intros [K U G KR UR]. split; cbn; [exact (release_one_wf _ _ K)|exact (release_one_wf _ _ U)| |done|done].
  destruct (Z.ltb_spec 0 (globalCurrent l)); lia.
Qed.

Section serial.
Context {S : Type} `{DailyStore S} (c : Config) (width_pos : 0 < Window c).

Lemma acquire_wf ctx ctx1 ctx2 i now l (s : S) res l' s' : limiter_wf l -> Acquire c ctx ctx1 ctx2 i now l s = (res, (l', s')) -> limiter_wf l'.
Proof.
  intros W HA. apply (acquire_rates c _ _ _ _ _ _ _ _ _ _ W) in HA as [[_ [->| ->]]|[_ [r HR]]]; [done| |].
  - apply (proj1 (activated_same c i now l W)).
  - apply (proj1 (reserved_outcome c i now l r l' W HR)).
Qed.

Lemma serial_wf log t l (s : S) : serial_run c log t l s -> limiter_wf l.
Proof. induction 1; [exact idle_wf|by eapply acquire_wf|by apply release_wf]. Qed.

Lemma serial_rates log t l (s : S) : serial_run c log t l s ->
  (0 < RequestsPerMinute (cfg_Key c) -> rate_ok (RequestsPerMinute (cfg_Key c)) (Window c) KeyID log t (keyRPM l)) /\
  (0 < RequestsPerMinute (cfg_User c) -> rate_ok (RequestsPerMinute (cfg_User c)) (Window c) UserID log t (userRPM l)).
Proof.
  induction 1 as [t s|log t l s now ctx ctx1 ctx2 i res l' s' Hr [IHk IHu] Ht HA|log t l s i Hr IH]; [| |done].
  { split; intros Hl id; cbn; rewrite lookup_empty; split; intros w; cbn; unfold admitted_in; cbn; lia. }
  pose proof (serial_wf _ _ _ _ Hr) as W. apply (acquire_rates c _ _ _ _ _ _ _ _ _ _ W) in HA.
  assert (Stay : forall limit f m, rate_ok limit (Window c) f log t m -> rate_ok limit (Window c) f log now m).
  { intros limit f m I k. specialize (I k) as [Ik Lk]. split; [|done]. destruct (m !! k); [|done]. pose proof (truncate_mono t now _ width_pos Ht).
    destruct Ik as (? & ? & ?). repeat split; [done|lia|done]. }
  destruct HA as [[-> [->| ->]]|[-> [r HR]]].
  - split; intros Hl; apply Stay; auto.
  - split; intros Hl; apply (rate_ok_activate _ _ _ _ t); auto.
  - apply reserveLocal_outcome in HR as (H1 & H2 & _ & _ & _ & _ & ->). cbn [keyRPM userRPM activated]. cbn in H1, H2.
    split; intros Hl; cbn.
    + destruct (rate_ok_activate _ _ KeyID _ _ _ _ (KeyID i) width_pos Ht (IHk Hl)) as [J E]. rewrite E in *.
      apply rate_ok_counted; [done..| |auto]. rewrite <- E. apply activeCounter_snapshot.
    + destruct (rate_ok_activate _ _ UserID _ _ _ _ (UserID i) width_pos Ht (IHu Hl)) as [J E]. rewrite E in *.
      apply rate_ok_counted; [done..| |auto]. rewrite <- E. apply activeCounter_snapshot.
Qed.
End serial.

(** When calls do not overlap and the clock does not go back, no window
    ever admits more requests of a key or of a user than the configured rate:
    requests refused later by the daily store do not use up the rate. *)
Theorem serial_rate_bound {S} `{DailyStore S} (c cfg : Config) (log : list (Identity * Z)) (t : Z) (l : Limiter) (s : S) (id : string) (w : Z) :
  New c = Ok (cfg, idle) -> serial_run cfg log t l s ->
  (0 < RequestsPerMinute (cfg_Key cfg) -> admitted_in (Window cfg) KeyID id w log <= RequestsPerMinute (cfg_Key cfg)) /\
  (0 < RequestsPerMinute (cfg_User cfg) -> admitted_in (Window cfg) UserID id w log <= RequestsPerMinute (cfg_User cfg)).
Proof.
  intros HN Hr. assert (Hw : 0 < Window cfg).
  { unfold New in HN. apply rbind_Ok in HN as ([] & HV & HC). injection HC as <-. cbn. unfold validateConfig in HV.
    destruct (_ || _) eqn:E in HV; [done|]. destruct (Z.eqb_spec (Window c) 0); [done|]. lia. }
  destruct (serial_rates cfg Hw _ _ _ _ Hr) as [Hk Hu]. split; intros Hl; [apply Hk|apply Hu]; done.
Qed.

Lemma serial_rate_bound_witness :
  exists log t l (s : MemoryDailyStore), New one_per_window = Ok (one_per_window, idle) /\ serial_run one_per_window log t l s /\
    admitted_in (Window one_per_window) KeyID "key" (738944 * Day24) log = 1 /\
    admitted_in (Window one_per_window) KeyID "key" (738944 * Day24) log <= RequestsPerMinute (cfg_Key one_per_window).
Proof.
  destruct (Acquire one_per_window Live Live Live someone (738944 * Day24) idle NewMemoryDailyStore) as [res [l s]] eqn:E.
  assert (Hok : is_ok res = true) by (change res with (res, (l, s)).1; rewrite <- E; vm_compute; reflexivity).
  assert (HR : serial_run one_per_window (if is_ok res then [(someone, 738944 * Day24)] else []) (738944 * Day24) l s).
  { refine (sr_acquire _ [] 0 idle NewMemoryDailyStore _ _ _ _ _ _ _ _ (sr_new _ _ _) _ E). vm_compute. discriminate. }
  rewrite Hok in HR.
  eexists _, _, _, _. split; [reflexivity|]. split; [exact HR|]. split; [vm_compute; reflexivity|].
  exact (proj1 (serial_rate_bound one_per_window one_per_window _ _ _ _ "key" _ eq_refl HR) eq_refl).
Defined.

(** ** Retry delays *)

Lemma retryAfterSeconds_ceiling value :
  0 < value -> (retryAfterSeconds value - 1) * Second < value <= retryAfterSeconds value * Second.
Proof.
  intros Hv. unfold retryAfterSeconds. replace (value <=? 0) with false by lia. unfold Second in *.
  rewrite Z.quot_div_nonneg, Z.rem_mod_nonneg by lia. pose proof (Z.div_mod value 1000000000 ltac:(lia)). pose proof (Z.mod_pos_bound value 1000000000 ltac:(lia)).
  destruct (Z.eqb_spec (value mod 1000000000) 0) as [E|E]; cbn [negb].
  - destruct (Z.ltb_spec (value / 1000000000) 1); lia.
  - destruct (Z.ltb_spec (value / 1000000000 + 1) 1); lia.
Qed.

(** In a location of fixed offset, the delay after a daily refusal is
    positive, at most a day, ends exactly at the next local midnight, and the
    whole seconds of the Retry-After header are the smallest number that
    covers it. *)
Theorem daily_retry_reaches_midnight (now offset : Z) :
  let r := untilNextDay now (fun _ => offset) in
  0 < r <= Day24 /\ (now + r + offset) mod Day24 = 0 /\ (now + r + offset) / Day24 = (now + offset) / Day24 + 1 /\
  (retryAfterSeconds r - 1) * Second < r <= retryAfterSeconds r * Second.
Proof.
  assert (Hr : untilNextDay now (fun _ => offset) = ((now + offset) / Day24 + 1) * Day24 - (now + offset)).
  { unfold untilNextDay, date_in, local_time. pose proof (Z.div_mod (now + offset) Day24 ltac:(done)). pose proof (Z.mod_pos_bound (now + offset) Day24 ltac:(done)).
    assert ((if offset =? 0 then ((now + offset) / Day24 + 1) * Day24 else ((now + offset) / Day24 + 1) * Day24 - offset) =
      ((now + offset) / Day24 + 1) * Day24 - offset) as -> by (destruct (Z.eqb_spec offset 0); lia).
    assert (time_sub (((now + offset) / Day24 + 1) * Day24 - offset) now = ((now + offset) / Day24 + 1) * Day24 - (now + offset)) as ->.
    { rewrite time_sub_exact; [lia|]. unfold is_int64, min_int64, max_int64. change Day24 with 86400000000000 in *. lia. }
    destruct (Z.leb_spec (((now + offset) / Day24 + 1) * Day24 - (now + offset)) 0); lia. }
  cbn zeta. rewrite Hr. pose proof (Z.div_mod (now + offset) Day24 ltac:(done)). pose proof (Z.mod_pos_bound (now + offset) Day24 ltac:(done)).
  set (q := (now + offset) / Day24) in *. replace (now + ((q + 1) * Day24 - (now + offset)) + offset) with ((q + 1) * Day24) by lia.
  rewrite Z.mod_mul, Z.div_mul by done. split; [lia|]. split; [done|]. split; [done|]. apply retryAfterSeconds_ceiling. lia.
Qed.
