(* ===== verification/Encodings.v ===== *)
(** * Base64 and base32 of the Go standard library

    [base64.RawURLEncoding] (URL alphabet, no padding) with its strict decoder
    and [base32.NewEncoding(...).WithPadding(NoPadding)], as the credential
    code of [internal/security] uses them.  Byte slices are strings. *)
From Stdlib Require Import Ascii.
From S2P Require Import Prelude GoStrings.

Definition byte_chr (n : Z) : ascii := ascii_of_N (Z.to_N n).

(** The character of a digit, and the decode map (0xff is [None]). *)
Definition enc_char (alphabet : string) (n : Z) : ascii := default "?"%char (String.get (Z.to_nat n) alphabet).
Fixpoint dec_char (alphabet : string) (c : ascii) : option Z :=
  match alphabet with
  | EmptyString => None
  | String d rest => if Ascii.eqb d c then Some 0 else Z.succ <$> dec_char rest c
  end.

Definition url_alphabet : string := "ABCDEFGHIJKLMNOPQRSTUVWXYZabcdefghijklmnopqrstuvwxyz0123456789-_".
Definition crockford_alphabet : string := "0123456789ABCDEFGHJKMNPQRSTVWXYZ".

(** ** [RawURLEncoding] *)

Definition sextet (v i : Z) : ascii := enc_char url_alphabet (v / 2 ^ (18 - 6 * i) mod 64).

Fixpoint base64_encode (s : string) : string :=
  match s with
  | String a (String b (String c rest)) =>
      let v := byte_of a * 65536 + byte_of b * 256 + byte_of c in
      String (sextet v 0) (String (sextet v 1) (String (sextet v 2) (String (sextet v 3) (base64_encode rest))))
  | String a (String b EmptyString) =>
      let v := byte_of a * 65536 + byte_of b * 256 in
      String (sextet v 0) (String (sextet v 1) (String (sextet v 2) EmptyString))
  | String a EmptyString =>
      let v := byte_of a * 65536 in String (sextet v 0) (String (sextet v 1) EmptyString)
  | EmptyString => EmptyString
  end.

Definition quantum (x y z w : Z) : Z := x * 262144 + y * 4096 + z * 64 + w.
Definition is_newline (c : ascii) : bool := (byte_of c =? 10) || (byte_of c =? 13).

(** [Strict().DecodeString]: [q] holds the digits of the current quantum;
    newlines are skipped, a lone digit and non-zero trailing bits refused. *)
Fixpoint base64_decode (q : list Z) (s : string) : option string :=
  match s with
  | EmptyString =>
      match q with
      | [] => Some EmptyString
      | [x; y] => let v := quantum x y 0 0 in
          if v mod 65536 =? 0 then Some (String (byte_chr (v / 65536)) EmptyString) else None
      | [x; y; z] => let v := quantum x y z 0 in
          if v mod 256 =? 0 then Some (String (byte_chr (v / 65536)) (String (byte_chr (v / 256 mod 256)) EmptyString)) else None
      | _ => None
      end
  | String c rest =>
      match dec_char url_alphabet c with
      | Some d =>
          match q with
          | [x; y; z] => let v := quantum x y z d in
              (fun tail => String (byte_chr (v / 65536)) (String (byte_chr (v / 256 mod 256)) (String (byte_chr (v mod 256)) tail)))
                <$> base64_decode [] rest
          | _ => base64_decode (q ++ [d]) rest
          end
      | None => if is_newline c then base64_decode q rest else None
      end
  end.

Definition DecodeStrict (s : string) : option string := base64_decode [] s.

(** ** Base32 *)

Definition quintet (v i : Z) : ascii := enc_char crockford_alphabet (v / 2 ^ (35 - 5 * i) mod 32).
Definition quintets (v : Z) : string :=
  String (quintet v 0) (String (quintet v 1) (String (quintet v 2) (String (quintet v 3)
    (String (quintet v 4) (String (quintet v 5) (String (quintet v 6) (String (quintet v 7) EmptyString))))))).

Fixpoint base32_encode (s : string) : string :=
  match s with
  | String a (String b (String c (String d (String e rest)))) =>
      quintets (byte_of a * 2 ^ 32 + byte_of b * 2 ^ 24 + byte_of c * 2 ^ 16 + byte_of d * 2 ^ 8 + byte_of e) +:+ base32_encode rest
  | String a (String b (String c (String d EmptyString))) =>
      str_take 7 (quintets (byte_of a * 2 ^ 32 + byte_of b * 2 ^ 24 + byte_of c * 2 ^ 16 + byte_of d * 2 ^ 8))
  | String a (String b (String c EmptyString)) => str_take 5 (quintets (byte_of a * 2 ^ 32 + byte_of b * 2 ^ 24 + byte_of c * 2 ^ 16))
  | String a (String b EmptyString) => str_take 4 (quintets (byte_of a * 2 ^ 32 + byte_of b * 2 ^ 24))
  | String a EmptyString => str_take 2 (quintets (byte_of a * 2 ^ 32))
  | EmptyString => EmptyString
  end.

Definition digits32 (q : list Z) : Z := foldl (fun v d => v * 32 + d) 0 q.
Definition bytes40 (v : Z) : string :=
  String (byte_chr (v / 2 ^ 32)) (String (byte_chr (v / 2 ^ 24 mod 256)) (String (byte_chr (v / 2 ^ 16 mod 256))
    (String (byte_chr (v / 2 ^ 8 mod 256)) (String (byte_chr (v mod 256)) EmptyString)))).

(** [DecodeString]: bits left over in a last, partial group are ignored and a
    group of 1, 3 or 6 digits yields nothing. *)
Fixpoint base32_decode (q : list Z) (s : string) : option string :=
  match s with
  | EmptyString =>
      Some (match length q with
            | 7%nat => str_take 4 (bytes40 (digits32 (q ++ [0])))
            | 5%nat => str_take 3 (bytes40 (digits32 (q ++ [0; 0; 0])))
            | 4%nat => str_take 2 (bytes40 (digits32 (q ++ [0; 0; 0; 0])))
            | 2%nat => str_take 1 (bytes40 (digits32 (q ++ [0; 0; 0; 0; 0; 0])))
            | _ => EmptyString
            end)
  | String c rest =>
      if is_newline c then base32_decode q rest else
      match dec_char crockford_alphabet c with
      | Some d => if (length q =? 7)%nat then String.append (bytes40 (digits32 (q ++ [d]))) <$> base32_decode [] rest
                  else base32_decode (q ++ [d]) rest
      | None => None
      end
  end.

Example base64_ex : base64_encode "hello?>" = "aGVsbG8_Pg" /\ DecodeStrict "aGVsbG8_Pg" = Some "hello?>" /\ DecodeStrict "aGVsbG8_Ph" = None.
Proof. vm_compute. auto. Qed.
Example base32_ex : base32_encode "hello" = "D1JPRV3F" /\ base32_decode [] "D1JPRV3F" = Some "hello".
Proof. vm_compute. auto. Qed.

(** ** Decoding undoes encoding *)

Lemma byte_chr_of c : byte_chr (byte_of c) = c.
Proof. unfold byte_chr, byte_of. rewrite N2Z.id. apply ascii_N_embedding. Qed.

(** Both alphabets are injective; no character is a newline or a NUL. *)
Definition alphabet_ok (alphabet : string) (size : nat) : bool :=
  forallb (fun n => bool_decide (dec_char alphabet (enc_char alphabet (Z.of_nat n)) = Some (Z.of_nat n)) &&
                    is_graphic (enc_char alphabet (Z.of_nat n))) (seq 0 size).

Lemma alphabet_digit alphabet size n : alphabet_ok alphabet size = true -> 0 <= n < Z.of_nat size ->
  dec_char alphabet (enc_char alphabet n) = Some n /\ is_graphic (enc_char alphabet n) = true.
Proof.
  intros H Hn. unfold alphabet_ok in H. rewrite forallb_forall in H. specialize (H (Z.to_nat n)). rewrite Z2Nat.id in H by lia.
  assert (In (Z.to_nat n) (seq 0 size)) as Hin by (apply in_seq; lia). specialize (H Hin). apply andb_true_iff in H as [H ?].
  by apply bool_decide_eq_true in H.
Qed.

Lemma url_digit n : 0 <= n < 64 -> dec_char url_alphabet (enc_char url_alphabet n) = Some n /\ is_graphic (enc_char url_alphabet n) = true.
Proof. intros. apply (alphabet_digit _ 64); [vm_compute; reflexivity|lia]. Qed.
Lemma crockford_digit n :
  0 <= n < 32 -> dec_char crockford_alphabet (enc_char crockford_alphabet n) = Some n /\ is_graphic (enc_char crockford_alphabet n) = true.
Proof. intros. apply (alphabet_digit _ 32); [vm_compute; reflexivity|lia]. Qed.

Lemma dec_sextet v i : dec_char url_alphabet (sextet v i) = Some (v / 2 ^ (18 - 6 * i) mod 64).
Proof. apply url_digit. apply Z.mod_pos_bound. lia. Qed.
Lemma dec_quintet v i : dec_char crockford_alphabet (quintet v i) = Some (v / 2 ^ (35 - 5 * i) mod 32).
Proof. apply crockford_digit. apply Z.mod_pos_bound. lia. Qed.
Lemma sextet_graphic v i : is_graphic (sextet v i) = true.
Proof. apply url_digit. apply Z.mod_pos_bound. lia. Qed.
Lemma quintet_graphic v i : is_graphic (quintet v i) = true.
Proof. apply crockford_digit. apply Z.mod_pos_bound. lia. Qed.

Lemma quantum_digits v : 0 <= v < 2 ^ 24 ->
  quantum (v / 2 ^ (18 - 6 * 0) mod 64) (v / 2 ^ (18 - 6 * 1) mod 64) (v / 2 ^ (18 - 6 * 2) mod 64) (v / 2 ^ (18 - 6 * 3) mod 64) = v.
Proof.
  intros Hv. unfold quantum. change (2 ^ (18 - 6 * 0)) with 262144. change (2 ^ (18 - 6 * 1)) with 4096. change (2 ^ (18 - 6 * 2)) with 64.
  change (2 ^ (18 - 6 * 3)) with 1. change (2 ^ 24) with 16777216 in Hv. Z.to_euclidean_division_equations. lia.
Qed.

Lemma bytes24 (a b c : ascii) (v : Z) : v = byte_of a * 65536 + byte_of b * 256 + byte_of c ->
  byte_chr (v / 65536) = a /\ byte_chr (v / 256 mod 256) = b /\ byte_chr (v mod 256) = c /\ 0 <= v < 2 ^ 24.
Proof.
  intros ->. pose proof (byte_of_range a). pose proof (byte_of_range b). pose proof (byte_of_range c).
  repeat split; try lia.
  - rewrite <- (byte_chr_of a) at 2. f_equal. Z.to_euclidean_division_equations. lia.
  - rewrite <- (byte_chr_of b) at 2. f_equal. Z.to_euclidean_division_equations. lia.
  - rewrite <- (byte_chr_of c) at 2. f_equal. Z.to_euclidean_division_equations. lia.
Qed.

Lemma base64_decode_quad v rest :
  base64_decode [] (String (sextet v 0) (String (sextet v 1) (String (sextet v 2) (String (sextet v 3) rest)))) =
  let w := quantum (v / 2 ^ (18 - 6 * 0) mod 64) (v / 2 ^ (18 - 6 * 1) mod 64) (v / 2 ^ (18 - 6 * 2) mod 64) (v / 2 ^ (18 - 6 * 3) mod 64) in
  (fun tail => String (byte_chr (w / 65536)) (String (byte_chr (w / 256 mod 256)) (String (byte_chr (w mod 256)) tail))) <$> base64_decode [] rest.
Proof. cbn [base64_decode]. by rewrite !dec_sextet. Qed.

(** Induction in steps of three and five bytes. *)
Lemma str_ind3 (P : string -> Prop) :
  P "" -> (forall a, P (String a "")) -> (forall a b, P (String a (String b ""))) ->
  (forall a b c s, P s -> P (String a (String b (String c s)))) -> forall s, P s.
Proof.
  intros H0 H1 H2 H3 s. assert (H : forall n s, (String.length s <= n)%nat -> P s); [|by eapply H].
  intros n. induction n as [|n IH]; intros [|a [|b [|c t]]] Hl; cbn in Hl; auto; try lia. apply H3, IH. lia.
Qed.

Lemma base64_roundtrip s : DecodeStrict (base64_encode s) = Some s.
Proof.
  unfold DecodeStrict. induction s as [|a|a b|a b c s IH] using str_ind3; [done| | |].
  - cbn [base64_encode base64_decode]. rewrite !dec_sextet. cbn [app].
    destruct (bytes24 a "000"%char "000"%char (byte_of a * 65536)) as (Ea & _ & _ & Hv); [change (byte_of "000"%char) with 0; lia|]. pose proof (quantum_digits _ Hv) as Q.
    assert (H2 : byte_of a * 65536 / 2 ^ (18 - 6 * 2) mod 64 = 0) by (change (2 ^ (18 - 6 * 2)) with 64; Z.to_euclidean_division_equations; lia).
    assert (H3 : byte_of a * 65536 / 2 ^ (18 - 6 * 3) mod 64 = 0) by (change (2 ^ (18 - 6 * 3)) with 1; Z.to_euclidean_division_equations; lia).
    rewrite H2, H3 in Q. rewrite Q, Ea. by replace (byte_of a * 65536 mod 65536 =? 0) with true by (symmetry; apply Z.eqb_eq, Z.mod_mul; lia).
  - cbn [base64_encode base64_decode]. rewrite !dec_sextet. cbn [app].
    destruct (bytes24 a b "000"%char (byte_of a * 65536 + byte_of b * 256)) as (Ea & Eb & _ & Hv); [change (byte_of "000"%char) with 0; lia|]. pose proof (quantum_digits _ Hv) as Q.
    assert (H3 : (byte_of a * 65536 + byte_of b * 256) / 2 ^ (18 - 6 * 3) mod 64 = 0)
      by (change (2 ^ (18 - 6 * 3)) with 1; Z.to_euclidean_division_equations; lia).
    rewrite H3 in Q. rewrite Q, Ea, Eb.
    by replace ((byte_of a * 65536 + byte_of b * 256) mod 256 =? 0) with true by (symmetry; apply Z.eqb_eq; Z.to_euclidean_division_equations; lia).
  - cbn [base64_encode]. rewrite base64_decode_quad. destruct (bytes24 a b c _ eq_refl) as (Ea & Eb & Ec & Hv).
    cbn zeta. rewrite (quantum_digits _ Hv), Ea, Eb, Ec, IH. done.
Qed.

Lemma base64_inj s t : base64_encode s = base64_encode t -> s = t.
Proof. intros E. pose proof (base64_roundtrip s) as Hs. rewrite E, base64_roundtrip in Hs. congruence. Qed.

Lemma base64_graphic s : str_forall is_graphic (base64_encode s) = true.
Proof.
  induction s as [|a|a b|a b c s IH] using str_ind3; [done| | |]; cbn [base64_encode str_forall]; rewrite !sextet_graphic; done.
Qed.

(** A 5-byte group. *)
Lemma digits32_quintets v : 0 <= v < 2 ^ 40 ->
  digits32 ([v / 2 ^ (35 - 5 * 0) mod 32; v / 2 ^ (35 - 5 * 1) mod 32; v / 2 ^ (35 - 5 * 2) mod 32; v / 2 ^ (35 - 5 * 3) mod 32;
             v / 2 ^ (35 - 5 * 4) mod 32; v / 2 ^ (35 - 5 * 5) mod 32; v / 2 ^ (35 - 5 * 6) mod 32] ++ [v / 2 ^ (35 - 5 * 7) mod 32]) = v.
Proof.
  intros Hv. unfold digits32. cbn [foldl app]. 
  change (2 ^ (35 - 5 * 0)) with (32*(32*(32*(32*(32*(32*32)))))). change (2 ^ (35 - 5 * 1)) with (32*(32*(32*(32*(32*32))))).
  change (2 ^ (35 - 5 * 2)) with (32*(32*(32*(32*32)))). change (2 ^ (35 - 5 * 3)) with (32*(32*(32*32))). change (2 ^ (35 - 5 * 4)) with (32*(32*32)).
  change (2 ^ (35 - 5 * 5)) with (32*32). change (2 ^ (35 - 5 * 6)) with 32. change (2 ^ (35 - 5 * 7)) with 1. rewrite Z.div_1_r.
  rewrite <- !Z.div_div by lia.
  set (v1 := v / 32). set (v2 := v1 / 32). set (v3 := v2 / 32). set (v4 := v3 / 32). set (v5 := v4 / 32). set (v6 := v5 / 32). set (v7 := v6 / 32).
  change (2 ^ 40) with 1099511627776 in Hv. subst v7 v6 v5 v4 v3 v2 v1. Z.to_euclidean_division_equations. lia.
Qed.

Lemma bytes40_spec (a b c d e : ascii) (v : Z) :
  v = byte_of a * 2 ^ 32 + byte_of b * 2 ^ 24 + byte_of c * 2 ^ 16 + byte_of d * 2 ^ 8 + byte_of e ->
  bytes40 v = String a (String b (String c (String d (String e EmptyString)))) /\ 0 <= v < 2 ^ 40.
Proof.
  intros ->. pose proof (byte_of_range a). pose proof (byte_of_range b). pose proof (byte_of_range c). pose proof (byte_of_range d). pose proof (byte_of_range e).
  split; [|lia]. unfold bytes40. change (2 ^ 32) with 4294967296. change (2 ^ 24) with 16777216. change (2 ^ 16) with 65536. change (2 ^ 8) with 256.
  repeat f_equal.
  - rewrite <- (byte_chr_of a) at 2. f_equal. Z.to_euclidean_division_equations. lia.
  - rewrite <- (byte_chr_of b) at 2. f_equal. Z.to_euclidean_division_equations. lia.
  - rewrite <- (byte_chr_of c) at 2. f_equal. Z.to_euclidean_division_equations. lia.
  - rewrite <- (byte_chr_of d) at 2. f_equal. Z.to_euclidean_division_equations. lia.
  - rewrite <- (byte_chr_of e) at 2. f_equal. Z.to_euclidean_division_equations. lia.
Qed.

Lemma graphic_not_newline c : is_graphic c = true -> is_newline c = false.
Proof. unfold is_graphic, is_newline. lia. Qed.

(** Decoding the digits of one group. *)
Lemma base32_decode_group v rest : 0 <= v < 2 ^ 40 ->
  base32_decode [] (quintets v +:+ rest) = String.append (bytes40 v) <$> base32_decode [] rest.
Proof.
  intros Hv. pose proof (digits32_quintets v Hv) as Hq. unfold quintets. rewrite !str_app_cons, str_app_nil_l.
  do 8 (cbn [base32_decode]; rewrite (graphic_not_newline _ (quintet_graphic v _)), dec_quintet; cbn [length Nat.eqb app]).
  cbn [app] in Hq. by rewrite Hq.
Qed.

Lemma base32_roundtrip s n : String.length s = (5 * n)%nat -> base32_decode [] (base32_encode s) = Some s.
Proof.
  revert s. induction n as [|n IH]; intros s Hs; [by destruct s|].
  destruct s as [|a [|b [|c [|d [|e s]]]]]; cbn in Hs; try lia. cbn [base32_encode].
  destruct (bytes40_spec a b c d e _ eq_refl) as [E Hv]. rewrite base32_decode_group by done. rewrite E, IH by lia. done.
Qed.

Lemma base32_length s n : String.length s = (5 * n)%nat -> String.length (base32_encode s) = (8 * n)%nat.
Proof.
  revert s. induction n as [|n IH]; intros s Hs; [by destruct s|].
  destruct s as [|a [|b [|c [|d [|e s]]]]]; cbn in Hs; try lia. cbn [base32_encode]. rewrite str_length_app, IH by lia. cbn. lia.
Qed.

Lemma base64_length s : Z.of_nat (String.length (base64_encode s)) = (4 * Z.of_nat (String.length s) + 2) / 3.
Proof.
  induction s as [|a|a b|a b c s IH] using str_ind3; [done..|]. cbn [base64_encode String.length]. rewrite !Nat2Z.inj_succ, IH.
  Z.to_euclidean_division_equations. lia.
Qed.

(** The displayed alphabet only. *)
Definition in_alphabet (alphabet : string) (c : ascii) : bool := match dec_char alphabet c with Some _ => true | None => false end.

Lemma base32_alphabet s n : String.length s = (5 * n)%nat -> str_forall (in_alphabet crockford_alphabet) (base32_encode s) = true.
Proof.
  revert s. induction n as [|n IH]; intros s Hs; [by destruct s|].
  destruct s as [|a [|b [|c [|d [|e s]]]]]; cbn in Hs; try lia. cbn [base32_encode]. rewrite str_forall_app, IH by lia.
  rewrite andb_true_r. unfold quintets, in_alphabet. cbn [str_forall]. by rewrite !dec_quintet.
Qed.
