(* ===== verification/Credentials.v ===== *)
(** * Credentials ([internal/security])

    API keys, opaque tokens, recovery codes and the encrypted secrets.  A byte
    slice is a string; an [io.Reader] is the bytes it still delivers before it
    fails, [None] the nil interface.  The primitives of [crypto/*] are the
    operations of the class [Crypto], with their documented behaviour in
    [CryptoLaws]; theorems about forgery end in an explicit collision or
    forgery of the primitive instead of assuming there is none. *)
From Stdlib Require Import Ascii.
From S2P Require Import Prelude GoStrings Encodings.

(** ** The primitives *)

Class Crypto := {
  sha256 : string -> string;
  hmac_sha256 : string -> string -> string;
  hkdf_sha256 : string -> string -> string;
  gcm_Seal : string -> string -> string -> string -> string;
  gcm_Open : string -> string -> string -> string -> option string;
}.
(** [NonceSize] and [Overhead] of the standard GCM. *)
Definition gcm_NonceSize : nat := 12.
Definition gcm_Overhead : nat := 16.

Class CryptoLaws `{Crypto} := {
  open_seal : forall key nonce plaintext aad, gcm_Open key nonce (gcm_Seal key nonce plaintext aad) aad = Some plaintext;
  seal_length : forall key nonce plaintext aad,
    String.length (gcm_Seal key nonce plaintext aad) = (String.length plaintext + gcm_Overhead)%nat;
}.

(** Two messages with one digest; a ciphertext that opens under other
    additional data or to another plaintext than it was sealed with. *)
Definition collision (h : string -> string) : Prop := exists x y, x <> y /\ h x = h y.
Definition forgery `{Crypto} : Prop :=
  exists key nonce p aad p' aad', (p, aad) <> (p', aad') /\ gcm_Open key nonce (gcm_Seal key nonce p aad) aad' = Some p'.

(** [hmac.Equal] and [subtle.ConstantTimeCompare]. *)
Definition hmacEqual (a b : string) : bool := bool_decide (a = b).

(** [io.ReadFull]: all the bytes asked for, or an error. *)
Definition ReadFull (n : nat) (random : string) : option (string * string) :=
  if (String.length random <? n)%nat then None else Some (str_take n random, str_drop n random).

Inductive security_error : Set :=
| ErrNilRandom
| ErrRandom
| ErrInvalidAPIKey
| ErrPepperTooShort
| ErrInvalidToken
| ErrInvalidTokenKind
| ErrInvalidRecoveryCode
| ErrRandomCollision
| ErrTokenPepperTooShort
| ErrInvalidAPIKeyEncryptionKey
| ErrInvalidAPIKeyCiphertext
| ErrInvalidEgressCiphertext.
#[export] Instance security_error_eq_dec : EqDecision security_error.
Proof. solve_decision. Defined.

Definition nul : string := String "000"%char EmptyString.
Definition RedactedValue : string := "[REDACTED]".
Definition MinimumPepperBytes : nat := 32.

(** ** API keys *)

Definition APIKeyVersionPrefix : string := "cgk_v1_".
Definition APIKeyPublicIDBytes : nat := 12.
Definition APIKeySecretBytes : nat := 32.
Definition apiKeyPublicIDEncodedLen : nat := 16.
Definition apiKeySecretEncodedLen : nat := 43.

Record GeneratedAPIKey := { Token : string; gen_PublicID : string; gen_Prefix : string }.
Record ParsedAPIKey := { PublicID : string; secret : string; valid : bool }.
Definition zeroParsedAPIKey : ParsedAPIKey := {| PublicID := ""; secret := str_repeat "000"%char 32; valid := false |}.

Definition GenerateAPIKeyFrom (random : option string) : result security_error GeneratedAPIKey :=
  match random with
  | None => Err ErrNilRandom
  | Some random =>
      match ReadFull APIKeyPublicIDBytes random with
      | None => Err ErrRandom
      | Some (publicID, random) =>
          match ReadFull APIKeySecretBytes random with
          | None => Err ErrRandom
          | Some (secret, _) =>
              let publicEncoded := base64_encode publicID in
              let secretEncoded := base64_encode secret in
              let prefix := APIKeyVersionPrefix +:+ publicEncoded +:+ "_" in
              Ok {| Token := prefix +:+ secretEncoded; gen_PublicID := publicEncoded; gen_Prefix := prefix |}
          end
      end
  end.

(** A strict, canonical decoding of a part of a given size. *)
Definition decode_exact (size : nat) (encoded : string) : option string :=
  match DecodeStrict encoded with
  | Some raw => if (String.length raw =? size)%nat && bool_decide (base64_encode raw = encoded) then Some raw else None
  | None => None
  end.

Definition ParseAPIKey (raw : string) : result security_error ParsedAPIKey :=
  if negb (String.length raw =? String.length APIKeyVersionPrefix + apiKeyPublicIDEncodedLen + 1 + apiKeySecretEncodedLen)%nat ||
     negb (has_prefix APIKeyVersionPrefix raw) then Err ErrInvalidAPIKey
  else
    let remainder := str_drop (String.length APIKeyVersionPrefix) raw in
    let separator := apiKeyPublicIDEncodedLen in
    if negb (bool_decide (String.get separator remainder = Some "_"%char)) then Err ErrInvalidAPIKey
    else
      let publicEncoded := str_take separator remainder in
      let secretEncoded := str_drop (separator + 1) remainder in
      match decode_exact APIKeyPublicIDBytes publicEncoded with
      | None => Err ErrInvalidAPIKey
      | Some _ =>
          match decode_exact APIKeySecretBytes secretEncoded with
          | None => Err ErrInvalidAPIKey
          | Some secretRaw => Ok {| PublicID := publicEncoded; secret := secretRaw; valid := true |}
          end
      end.

Definition Prefix (k : ParsedAPIKey) : string := if negb (valid k) then "" else APIKeyVersionPrefix +:+ PublicID k +:+ "_".
(** [ParsedAPIKey.String] and [GeneratedAPIKey.String]. *)
Definition parsed_String (k : ParsedAPIKey) : string :=
  if negb (bool_decide (Prefix k = "")) then Prefix k +:+ RedactedValue else RedactedValue.
Definition generated_String (k : GeneratedAPIKey) : string :=
  if negb (bool_decide (gen_Prefix k = "")) then gen_Prefix k +:+ RedactedValue else RedactedValue.

Definition APIKeyPrefixForLog (raw : string) : result security_error string :=
  let! key := ParseAPIKey raw in Ok (Prefix key).

Section hashing.
Context `{Crypto}.

Definition api_key_message (key : ParsedAPIKey) : string :=
  "codex-gateway/api-key/v1" +:+ nul +:+ PublicID key +:+ nul +:+ secret key.

Definition HashParsedAPIKey (pepper : string) (key : ParsedAPIKey) : result security_error string :=
  if (String.length pepper <? MinimumPepperBytes)%nat then Err ErrPepperTooShort
  else if negb (valid key) then Err ErrInvalidAPIKey
  else Ok (hmac_sha256 pepper (api_key_message key)).

Definition HashAPIKey (pepper raw : string) : result security_error string :=
  let! parsed := ParseAPIKey raw in HashParsedAPIKey pepper parsed.

Definition VerifyParsedAPIKey (pepper : string) (key : ParsedAPIKey) (expected : string) : result security_error bool :=
  let! actual := HashParsedAPIKey pepper key in Ok (hmacEqual actual expected).

Definition VerifyAPIKey (pepper raw expected : string) : result security_error (ParsedAPIKey * bool) :=
  if (String.length pepper <? MinimumPepperBytes)%nat then Err ErrPepperTooShort
  else match ParseAPIKey raw with
  | Err _ => Ok (zeroParsedAPIKey, false)
  | Ok key => let! ok := VerifyParsedAPIKey pepper key expected in Ok (key, ok)
  end.
End hashing.

(** ** Opaque tokens *)

Definition OpaqueTokenBytes : nat := 32.
(** [TokenKind] is a uint8: [InvitationToken], [SessionToken], [RecoveryToken] from 1. *)
Definition InvitationToken : Z := 1.
Definition SessionToken : Z := 2.
Definition RecoveryToken : Z := 3.

Definition token_prefix (k : Z) : option string :=
  if k =? InvitationToken then Some "cgi_v1_"
  else if k =? SessionToken then Some "cgs_v1_"
  else if k =? RecoveryToken then Some "cgr_v1_" else None.
Definition token_domain (k : Z) : string :=
  if k =? InvitationToken then "codex-gateway/invitation-token/v1"
  else if k =? SessionToken then "codex-gateway/session-token/v1"
  else if k =? RecoveryToken then "codex-gateway/recovery-token/v1" else "".

Record GeneratedToken := { tok_Token : string; tok_Digest : string }.

Section tokens.
Context `{Crypto}.

Definition domain_message (domain value : string) : string := domain +:+ nul +:+ value.
Definition domainDigest (domain value : string) : string := sha256 (domain_message domain value).

Definition PepperTokenDigest (pepper digest : string) : result security_error string :=
  if (String.length pepper <? MinimumPepperBytes)%nat then Err ErrTokenPepperTooShort
  else Ok (hmac_sha256 pepper ("codex-gateway/token-digest-pepper/v1" +:+ nul +:+ digest)).

Definition DigestOpaqueToken (kind : Z) (token : string) : result security_error string :=
  match token_prefix kind with
  | None => Err ErrInvalidTokenKind
  | Some prefix =>
      if negb (String.length token =? String.length prefix + 43)%nat || negb (has_prefix prefix token) then Err ErrInvalidToken
      else match decode_exact OpaqueTokenBytes (str_drop (String.length prefix) token) with
      | None => Err ErrInvalidToken
      | Some _ => Ok (domainDigest (token_domain kind) token)
      end
  end.

Definition GenerateOpaqueTokenFrom (kind : Z) (random : option string) : result security_error GeneratedToken :=
  match token_prefix kind with
  | None => Err ErrInvalidTokenKind
  | Some prefix =>
      match random with
      | None => Err ErrNilRandom
      | Some random =>
          match ReadFull OpaqueTokenBytes random with
          | None => Err ErrRandom
          | Some (entropy, _) =>
              let token := prefix +:+ base64_encode entropy in
              let! digest := DigestOpaqueToken kind token in
              Ok {| tok_Token := token; tok_Digest := digest |}
          end
      end
  end.

Definition VerifyOpaqueToken (kind : Z) (token expected : string) : bool :=
  match DigestOpaqueToken kind token with Err _ => false | Ok actual => hmacEqual actual expected end.
End tokens.

(** ** Recovery codes *)

Definition RecoveryCodeCount : nat := 10.
Definition RecoveryCodeBytes : nat := 15.
Definition recoveryCodeRawLength : nat := 24.

Record GeneratedRecoveryCode := { Code : string; rc_Digest : string }.

(** The loop of [groupRecoveryCode] from index [i]. *)
Fixpoint group_from (i : nat) (raw : string) : string :=
  match raw with
  | EmptyString => EmptyString
  | String c rest =>
      if (0 <? i)%nat && (i mod 4 =? 0)%nat then String "-" (String c (group_from (S i) rest)) else String c (group_from (S i) rest)
  end.
Definition groupRecoveryCode (raw : string) : string := group_from 0 raw.

Fixpoint ungroup_from (i : nat) (code : string) : option string :=
  match code with
  | EmptyString => Some EmptyString
  | String c rest =>
      if ((i + 1) mod 5 =? 0)%nat then if negb (Ascii.eqb c "-") then None else ungroup_from (S i) rest
      else if negb (in_alphabet crockford_alphabet c) then None
      else String c <$> ungroup_from (S i) rest
  end.
Definition ungroupRecoveryCode (code : string) : option string :=
  if negb (String.length code =? recoveryCodeRawLength + 5)%nat then None else
  match ungroup_from 0 code with
  | Some b => if negb (String.length b =? recoveryCodeRawLength)%nat then None else Some b
  | None => None
  end.

Section recovery.
Context `{Crypto}.

Definition DigestRecoveryCode (code : string) : result security_error string :=
  match ungroupRecoveryCode code with
  | None => Err ErrInvalidRecoveryCode
  | Some raw =>
      match base32_decode [] raw with
      | None => Err ErrInvalidRecoveryCode
      | Some decoded =>
          if negb (String.length decoded =? RecoveryCodeBytes)%nat || negb (bool_decide (base32_encode decoded = raw))
          then Err ErrInvalidRecoveryCode
          else Ok (domainDigest "codex-gateway/recovery-code/v1" code)
      end
  end.

Definition VerifyRecoveryCode (code expected : string) : bool :=
  match DigestRecoveryCode code with Err _ => false | Ok actual => hmacEqual actual expected end.

(** The loop; [None] is running out of fuel. *)
Fixpoint recovery_loop (fuel : nat) (codes : list GeneratedRecoveryCode) (seen : gset string) (random : string)
  : option (result security_error (list GeneratedRecoveryCode)) :=
  match fuel with
  | O => None
  | S fuel =>
      if (length codes <? RecoveryCodeCount)%nat then
        match ReadFull RecoveryCodeBytes random with
        | None => Some (Err ErrRandom)
        | Some (entropy, random) =>
            let raw := base32_encode entropy in
            let code := groupRecoveryCode raw in
            if bool_decide (code ∈ seen) then Some (Err ErrRandomCollision)
            else match DigestRecoveryCode code with
            | Err e => Some (Err e)
            | Ok digest => recovery_loop fuel (codes ++ [{| Code := code; rc_Digest := digest |}]) (seen ∪ {[ code ]}) random
            end
        end
      else Some (Ok codes)
  end.

Definition GenerateRecoveryCodesFrom (random : option string) : option (result security_error (list GeneratedRecoveryCode)) :=
      match random with
  | None => Some (Err ErrNilRandom)
  | Some random => recovery_loop (S RecoveryCodeCount) [] ∅ random
      end.
End recovery.

(** ** Encrypted secrets *)

Definition APIKeyEncryptionKeyBytes : nat := 32.
Definition apiKeyCipherVersion : ascii := "001".

Definition apiKeySecretAAD (userID publicID : string) : string :=
  "codex-gateway/api-key-secret/v1" +:+ nul +:+ userID +:+ nul +:+ publicID.

Section ciphers.
Context `{Crypto}.

Definition EncryptAPIKeySecretFrom (random : option string) (key userID publicID token : string) : result security_error string :=
  if negb (String.length key =? APIKeyEncryptionKeyBytes)%nat then Err ErrInvalidAPIKeyEncryptionKey else
      match random with
      | None => Err ErrNilRandom
      | Some random =>
      match ParseAPIKey token with
      | Err _ => Err ErrInvalidAPIKey
      | Ok parsed =>
          if bool_decide (userID = "") || bool_decide (publicID = "") || negb (hmacEqual (PublicID parsed) publicID) then Err ErrInvalidAPIKey else
          match ReadFull gcm_NonceSize random with
          | None => Err ErrRandom
          | Some (nonce, _) =>
              Ok (String apiKeyCipherVersion nonce +:+ gcm_Seal key nonce token (apiKeySecretAAD userID publicID))
          end
      end
      end.

Definition DecryptAPIKeySecret (key userID publicID envelope : string) : result security_error string :=
  if negb (String.length key =? APIKeyEncryptionKeyBytes)%nat then Err ErrInvalidAPIKeyEncryptionKey else
  if bool_decide (userID = "") || bool_decide (publicID = "") || (String.length envelope =? 0)%nat ||
     negb (bool_decide (String.get 0 envelope = Some apiKeyCipherVersion)) then Err ErrInvalidAPIKeyCiphertext else
  if (String.length envelope <? 1 + gcm_NonceSize + gcm_Overhead)%nat then Err ErrInvalidAPIKeyCiphertext else
  let nonce := str_take gcm_NonceSize (str_drop 1 envelope) in
  match gcm_Open key nonce (str_drop (1 + gcm_NonceSize) envelope) (apiKeySecretAAD userID publicID) with
  | None => Err ErrInvalidAPIKeyCiphertext
  | Some token =>
      match ParseAPIKey token with
      | Err _ => Err ErrInvalidAPIKeyCiphertext
      | Ok parsed => if negb (hmacEqual (PublicID parsed) publicID) then Err ErrInvalidAPIKeyCiphertext else Ok token
      end
  end.

(** The derived key of the egress passwords. *)
Definition egressCipher (key : string) : result security_error string :=
  if negb (String.length key =? 32)%nat then Err ErrInvalidEgressCiphertext
  else Ok (hkdf_sha256 key "codex-gateway/egress-encryption/v1").

Definition egress_aad (nodeID : string) : string := "codex-gateway/egress-password/v1" +:+ nul +:+ nodeID.

Definition EncryptEgressPassword (random key nodeID password : string) : result security_error string :=
  let! a := egressCipher key in
  if bool_decide (nodeID = "") || bool_decide (password = "") then Err ErrInvalidEgressCiphertext else
          match ReadFull gcm_NonceSize random with
          | None => Err ErrRandom
  | Some (nonce, _) => Ok (String "001" nonce +:+ gcm_Seal a nonce password (egress_aad nodeID))
          end.

Definition DecryptEgressPassword (key nodeID envelope : string) : result security_error string :=
  let! a := egressCipher key in
  if bool_decide (nodeID = "") || (String.length envelope <? 1 + gcm_NonceSize + gcm_Overhead)%nat ||
     negb (bool_decide (String.get 0 envelope = Some "001"%char)) then Err ErrInvalidEgressCiphertext else
  match gcm_Open a (str_take gcm_NonceSize (str_drop 1 envelope)) (str_drop (1 + gcm_NonceSize) envelope) (egress_aad nodeID) with
  | None => Err ErrInvalidEgressCiphertext
  | Some plaintext => Ok plaintext
  end.
End ciphers.

(** ** API keys: one text per key *)

Lemma decode_exact_spec size e raw : decode_exact size e = Some raw <-> e = base64_encode raw /\ String.length raw = size.
Proof.
  unfold decode_exact. split.
  - destruct (DecodeStrict e) as [x|]; [|done]. destruct (Nat.eqb_spec (String.length x) size); [|done]. cbn.
    case_bool_decide; [|done]. by intros [= <-].
  - intros [-> <-]. rewrite base64_roundtrip, Nat.eqb_refl. cbn. by rewrite bool_decide_true.
Qed.

Lemma ReadFull_spec n random a rest : ReadFull n random = Some (a, rest) <-> random = a +:+ rest /\ String.length a = n.
Proof.
  unfold ReadFull. destruct (Nat.ltb_spec (String.length random) n) as [Hl|Hl]; split.
  - done.
  - intros [-> <-]. rewrite str_length_app in Hl. lia.
  - intros [= <- <-]. split; [by rewrite str_take_drop|]. by rewrite str_length_take.
  - intros [-> <-]. by rewrite str_take_app, str_drop_app.
Qed.

Lemma ReadFull_app n a rest : String.length a = n -> ReadFull n (a +:+ rest) = Some (a, rest).
Proof. intros H. by apply ReadFull_spec. Qed.

Definition api_key_text (publicID secret : string) : string :=
  APIKeyVersionPrefix +:+ base64_encode publicID +:+ "_" +:+ base64_encode secret.

Lemma base64_12 s : String.length s = 12%nat -> String.length (base64_encode s) = 16%nat.
Proof. intros E. pose proof (base64_length s) as L. rewrite E in L. change ((4 * Z.of_nat 12 + 2) / 3) with 16 in L. lia. Qed.
Lemma base64_32 s : String.length s = 32%nat -> String.length (base64_encode s) = 43%nat.
Proof. intros E. pose proof (base64_length s) as L. rewrite E in L. change ((4 * Z.of_nat 32 + 2) / 3) with 43 in L. lia. Qed.

Lemma str_get_app_mid s c t : String.get (String.length s) (s +:+ String c t) = Some c.
Proof. induction s; [done|]. cbn. done. Qed.
Lemma str_get_split n s c : String.get n s = Some c -> s = str_take n s +:+ String c (str_drop (n + 1) s).
Proof.
  revert s. induction n as [|n IH]; intros [|d s]; cbn; try done.
  - intros [= ->]. f_equal.
  - intros H. by rewrite (IH s H) at 1.
Qed.

Lemma ParseAPIKey_spec raw k :
  ParseAPIKey raw = Ok k <-> exists publicID secret, String.length publicID = APIKeyPublicIDBytes /\ String.length secret = APIKeySecretBytes /\
    raw = api_key_text publicID secret /\ k = {| PublicID := base64_encode publicID; secret := secret; valid := true |}.
Proof.
  split.
  - unfold ParseAPIKey. destruct (_ || _) eqn:E; [done|]. apply orb_false_iff in E as [E1 E2]. apply negb_false_iff in E1, E2.
    case_bool_decide as Hs; [|done]. cbn [negb]. destruct (decode_exact APIKeyPublicIDBytes _) as [p|] eqn:EP; [|done].
    destruct (decode_exact APIKeySecretBytes _) as [s|] eqn:ES; [|done]. intros [= <-].
    apply decode_exact_spec in EP as [EP LP]. apply decode_exact_spec in ES as [ES LS]. exists p, s. split; [done|]. split; [done|]. split; [|cbn zeta in *; by rewrite <- EP].
    apply has_prefix_spec in E2. rewrite E2 at 1. unfold api_key_text. f_equal.
    rewrite (str_get_split _ _ _ Hs) at 1. rewrite EP, ES. done.
  - intros (p & s & LP & LS & -> & ->). unfold ParseAPIKey, api_key_text. pose proof (base64_12 p LP) as BP. pose proof (base64_32 s LS) as BS.
    assert (L : String.length (APIKeyVersionPrefix +:+ base64_encode p +:+ "_" +:+ base64_encode s) = 67%nat)
      by (rewrite !str_length_app, BP, BS; reflexivity).
    rewrite L, has_prefix_app. change (67 =? _)%nat with true. cbn [negb orb].
    rewrite str_drop_app. unfold apiKeyPublicIDEncodedLen. rewrite <- BP, str_take_app.
    change ("_" +:+ base64_encode s) with (String "_" (base64_encode s)). rewrite str_get_app_mid. rewrite bool_decide_true by done. cbn [negb].
    replace (base64_encode p +:+ String "_" (base64_encode s)) with ((base64_encode p +:+ "_") +:+ base64_encode s) by by rewrite <- str_app_assoc.
    replace (String.length (base64_encode p) + 1)%nat with (String.length (base64_encode p +:+ "_")) by by rewrite str_length_app.
    rewrite str_drop_app. by rewrite (proj2 (decode_exact_spec _ _ p)), (proj2 (decode_exact_spec _ _ s)).
Qed.

Lemma GenerateAPIKeyFrom_spec random g :
  GenerateAPIKeyFrom (Some random) = Ok g <->
  exists publicID secret rest, random = publicID +:+ secret +:+ rest /\ String.length publicID = APIKeyPublicIDBytes /\
    String.length secret = APIKeySecretBytes /\
    g = {| Token := api_key_text publicID secret; gen_PublicID := base64_encode publicID;
           gen_Prefix := APIKeyVersionPrefix +:+ base64_encode publicID +:+ "_" |}.
Proof.
  unfold GenerateAPIKeyFrom, api_key_text. split.
  - destruct (ReadFull APIKeyPublicIDBytes random) as [[p r]|] eqn:E1; [|done]. destruct (ReadFull APIKeySecretBytes r) as [[s r']|] eqn:E2; [|done].
    intros [= <-]. apply ReadFull_spec in E1 as [-> ?], E2 as [-> ?]. exists p, s, r'. by rewrite !str_app_assoc.
  - intros (p & s & rest & -> & Lp & Ls & ->). rewrite ReadFull_app by done. rewrite ReadFull_app by done. by rewrite !str_app_assoc.
Qed.

(** [C37] The parser accepts exactly the texts the generator produces, one per
    public ID and secret: it recovers both, and the prefix kept for logs is the
    generated one and says nothing about the secret. *)
Theorem api_key_roundtrip (raw : string) (k : ParsedAPIKey) :
  ParseAPIKey raw = Ok k <->
  exists random g, GenerateAPIKeyFrom (Some random) = Ok g /\ raw = Token g /\
    k = {| PublicID := gen_PublicID g; secret := str_take APIKeySecretBytes (str_drop APIKeyPublicIDBytes random); valid := true |} /\
    APIKeyPrefixForLog raw = Ok (gen_Prefix g) /\ parsed_String k = generated_String g /\
    generated_String g = APIKeyVersionPrefix +:+ gen_PublicID g +:+ "_" +:+ RedactedValue.
Proof.
  split.
  - intros HP. pose proof HP as (p & s & Lp & Ls & -> & ->)%ParseAPIKey_spec. exists (p +:+ s).
    eexists. split; [apply GenerateAPIKeyFrom_spec; exists p, s, ""; by rewrite str_app_nil_r|]. cbn [Token gen_PublicID gen_Prefix].
    rewrite <- Lp, str_drop_app, <- Ls. pose proof (str_take_app s "") as T. rewrite str_app_nil_r in T. rewrite T.
    unfold APIKeyPrefixForLog, parsed_String, generated_String, Prefix. rewrite HP. cbn [rbind valid negb PublicID gen_Prefix].
    split; [done|]. split; [done|]. split; [done|]. split; [done|]. rewrite bool_decide_false; [|done]. cbn [negb]. by rewrite !str_app_assoc.
  - intros (random & g & (p & s & rest & -> & Lp & Ls & ->)%GenerateAPIKeyFrom_spec & -> & -> & _). cbn [Token gen_PublicID].
    apply ParseAPIKey_spec. exists p, s. split; [done|]. split; [done|]. split; [done|]. rewrite <- Lp, str_drop_app, <- Ls, str_take_app. done.
Qed.

(** ** Verification of keys *)

Lemma ParseAPIKey_shape raw k : ParseAPIKey raw = Ok k ->
  valid k = true /\ String.length (PublicID k) = 16%nat /\ str_forall is_graphic (PublicID k) = true.
Proof. intros (p & s & Lp & Ls & -> & ->)%ParseAPIKey_spec. cbn. by rewrite base64_12, base64_graphic. Qed.

Lemma ParseAPIKey_inj raw raw' k : ParseAPIKey raw = Ok k -> ParseAPIKey raw' = Ok k -> raw = raw'.
Proof.
  intros (p & s & _ & _ & -> & ->)%ParseAPIKey_spec (p' & s' & _ & _ & -> & E)%ParseAPIKey_spec. injection E as E ->.
  by apply base64_inj in E as ->.
Qed.

Lemma api_key_message_inj raw raw' k k' : ParseAPIKey raw = Ok k -> ParseAPIKey raw' = Ok k' -> api_key_message k = api_key_message k' -> k = k'.
Proof.
  intros H H' E. pose proof (ParseAPIKey_shape _ _ H) as (Hv & Hl & _). pose proof (ParseAPIKey_shape _ _ H') as (Hv' & Hl' & _).
  unfold api_key_message in E. apply str_app_inj_len in E as [_ E]; [|done]. apply str_app_inj_len in E as [_ E]; [|done].
  apply str_app_inj_len in E as [E1 E]; [|congruence]. apply str_app_inj_len in E as [_ E2]; [|done].
  destruct k, k'. cbn in *. congruence.
Qed.

(** A digest accepts its own key, and any other text it accepts is a
    collision of HMAC-SHA256 under the server's pepper; malformed keys are
    refused without an error and a short pepper is one. *)
Theorem api_key_verification `{Crypto} (pepper raw digest : string) :
  HashAPIKey pepper raw = Ok digest ->
  (exists k, ParseAPIKey raw = Ok k /\ VerifyAPIKey pepper raw digest = Ok (k, true)) /\
  (forall raw' k', VerifyAPIKey pepper raw' digest = Ok (k', true) -> raw' = raw \/ collision (hmac_sha256 pepper)) /\
  (forall raw' e, ParseAPIKey raw' = Err e -> VerifyAPIKey pepper raw' digest = Ok (zeroParsedAPIKey, false)) /\
  (forall pepper' raw', (String.length pepper' < MinimumPepperBytes)%nat -> VerifyAPIKey pepper' raw' digest = Err ErrPepperTooShort).
Proof.
  unfold HashAPIKey. intros (k & HP & HH)%rbind_Ok. unfold HashParsedAPIKey in HH. destruct (_ <? _)%nat eqn:EP; [done|].
  destruct (negb (valid k)) eqn:EV; [done|]. injection HH as <-.
  assert (HV : forall raw' k', ParseAPIKey raw' = Ok k' -> VerifyAPIKey pepper raw' (hmac_sha256 pepper (api_key_message k)) =
    Ok (k', hmacEqual (hmac_sha256 pepper (api_key_message k')) (hmac_sha256 pepper (api_key_message k)))).
  { intros raw' k' HP'. unfold VerifyAPIKey, VerifyParsedAPIKey, HashParsedAPIKey. rewrite EP, HP'.
    pose proof (ParseAPIKey_shape _ _ HP') as (-> & _). done. }
  split; [|split; [|split]].
  - exists k. split; [done|]. rewrite (HV raw k HP). unfold hmacEqual. by rewrite bool_decide_true.
  - intros raw' k' HV'. destruct (ParseAPIKey raw') as [k2|e] eqn:HP'.
    + rewrite (HV raw' k2 HP') in HV'. injection HV' as <- HE. apply bool_decide_eq_true in HE.
      destruct (decide (api_key_message k2 = api_key_message k)) as [Em|Em]; [|right; by exists (api_key_message k2), (api_key_message k)].
      left. pose proof (api_key_message_inj _ _ _ _ HP' HP Em) as ->. by eapply ParseAPIKey_inj.
    + unfold VerifyAPIKey in HV'. by rewrite EP, HP' in HV'.
  - intros raw' e HP'. unfold VerifyAPIKey. by rewrite EP, HP'.
  - intros pepper' raw' Hl. unfold VerifyAPIKey. by rewrite (proj2 (Nat.ltb_lt _ _) Hl).
Qed.

(** ** Opaque tokens *)

Lemma token_prefix_length k p : token_prefix k = Some p -> String.length p = 7%nat.
Proof. unfold token_prefix. repeat case_match; by intros [= <-]. Qed.

Lemma DigestOpaqueToken_spec `{Crypto} k t d : DigestOpaqueToken k t = Ok d <->
  exists p entropy, token_prefix k = Some p /\ t = p +:+ base64_encode entropy /\ String.length entropy = OpaqueTokenBytes /\
    d = domainDigest (token_domain k) t.
Proof.
  unfold DigestOpaqueToken. split.
  - destruct (token_prefix k) as [p|] eqn:Ep; [|done]. destruct (_ || _) eqn:E; [done|]. apply orb_false_iff in E as [E1 E2]. apply negb_false_iff in E1, E2.
    destruct (decode_exact _ _) as [x|] eqn:ED; [|done]. intros [= <-]. apply decode_exact_spec in ED as [ED L]. exists p, x.
    split; [done|]. split; [|done]. rewrite <- ED. by apply has_prefix_spec.
  - intros (p & x & -> & -> & L & ->). pose proof (base64_32 x L) as B. rewrite str_length_app, B, Nat.eqb_refl, has_prefix_app. cbn [negb orb].
    rewrite str_drop_app. by rewrite (proj2 (decode_exact_spec _ _ x)).
Qed.

(** The prefix of a token tells its kind, and so does the domain of its digest. *)
Lemma token_kind_of_prefix k k' p p' s s' : token_prefix k = Some p -> token_prefix k' = Some p' -> p +:+ s = p' +:+ s' -> k = k'.
Proof.
  unfold token_prefix. intros H H'.
  repeat match goal with H : (if ?a =? ?b then _ else _) = _ |- _ => destruct (Z.eqb_spec a b); simplify_eq end; intros E; first [done | discriminate E].
Qed.

Lemma domain_message_inj k k' p p' t t' : token_prefix k = Some p -> token_prefix k' = Some p' ->
  domain_message (token_domain k) t = domain_message (token_domain k') t' -> k = k' /\ t = t'.
Proof.
  unfold token_prefix, domain_message, token_domain. intros H H'.
  repeat match goal with H : (if ?a =? ?b then _ else _) = _ |- _ => destruct (Z.eqb_spec a b); simplify_eq end; intros E; first [discriminate E | split; [done|by injection E]].
Qed.

(** [C32] A generated token verifies for its own kind. Whatever a stored digest
    accepts is the very token of the very kind it was made for, or a collision
    of SHA-256; in particular a token is refused for every other kind. *)
Theorem opaque_token_kinds `{Crypto} (kind : Z) (random : option string) (g : GeneratedToken) :
  GenerateOpaqueTokenFrom kind random = Ok g ->
  VerifyOpaqueToken kind (tok_Token g) (tok_Digest g) = true /\
  (forall kind' token', VerifyOpaqueToken kind' token' (tok_Digest g) = true -> (kind', token') = (kind, tok_Token g) \/ collision sha256) /\
  (forall kind' expected, kind' <> kind -> VerifyOpaqueToken kind' (tok_Token g) expected = false).
Proof.
  unfold GenerateOpaqueTokenFrom. destruct (token_prefix kind) as [p|] eqn:Ep; [|done]. destruct random as [random|]; [|done].
  destruct (ReadFull OpaqueTokenBytes random) as [[x r]|] eqn:ER; [|done]. intros (d & HD & HG)%rbind_Ok. injection HG as <-. cbn.
  pose proof HD as (p1 & x1 & Ep1 & Et & L & ->)%DigestOpaqueToken_spec. unfold VerifyOpaqueToken. split; [|split].
  - rewrite HD. unfold hmacEqual. by rewrite bool_decide_true.
  - intros kind' token'. destruct (DigestOpaqueToken kind' token') as [d'|] eqn:HD'; [|done]. unfold hmacEqual. intros HE%bool_decide_eq_true.
    apply DigestOpaqueToken_spec in HD' as (p' & x' & Ep' & -> & L' & ->). unfold domainDigest in HE.
    destruct (decide (domain_message (token_domain kind') (p' +:+ base64_encode x') = domain_message (token_domain kind) (p +:+ base64_encode x))) as [E|E];
      [left|right; eexists _, _; by split].
    by apply (domain_message_inj _ _ _ _ _ _ Ep' Ep) in E as [-> ->].
  - intros kind' expected Hk. destruct (DigestOpaqueToken kind' _) as [d'|] eqn:HD'; [|done]. exfalso. apply Hk.
    apply DigestOpaqueToken_spec in HD' as (p' & x' & Ep' & E & _). symmetry. by apply (token_kind_of_prefix kind kind' p p' _ _ Ep Ep' E).
Qed.

(** ** Recovery codes *)

Lemma group_ungroup raw : String.length raw = recoveryCodeRawLength -> str_forall (in_alphabet crockford_alphabet) raw = true ->
  ungroupRecoveryCode (groupRecoveryCode raw) = Some raw.
Proof.
  unfold recoveryCodeRawLength. intros L A.
  do 24 (destruct raw as [|? raw]; [discriminate L|]). destruct raw; [|discriminate L]. cbn [str_forall] in A. rewrite !andb_true_iff in A.
  repeat match goal with H : _ /\ _ |- _ => destruct H end.
  unfold ungroupRecoveryCode, groupRecoveryCode. cbn [group_from Nat.ltb Nat.leb Nat.modulo Nat.divmod snd Nat.sub Nat.eqb andb].
  cbn [String.length negb Nat.eqb Nat.add recoveryCodeRawLength].
  cbn [ungroup_from Nat.add Nat.modulo Nat.divmod snd Nat.sub Nat.eqb].
  repeat match goal with H : in_alphabet _ ?c = true |- _ => rewrite H; clear H end. reflexivity.
Qed.

Section recovery_codes.
Context `{Crypto}.

Lemma recovery_code_digest entropy : String.length entropy = RecoveryCodeBytes ->
  let code := groupRecoveryCode (base32_encode entropy) in
  DigestRecoveryCode code = Ok (domainDigest "codex-gateway/recovery-code/v1" code).
Proof.
  intros L. cbn zeta. pose proof (base32_length entropy 3 L) as L32. unfold DigestRecoveryCode.
  rewrite group_ungroup; [|exact L32|by apply (base32_alphabet _ 3)]. rewrite (base32_roundtrip entropy 3 L), L, Nat.eqb_refl.
  by rewrite bool_decide_true.
Qed.

Lemma DigestRecoveryCode_Ok code d : DigestRecoveryCode code = Ok d -> d = domainDigest "codex-gateway/recovery-code/v1" code.
Proof. unfold DigestRecoveryCode. repeat case_match; try done. by intros [= <-]. Qed.

(** What each code of the result satisfies. *)
Definition good_code (c : GeneratedRecoveryCode) : Prop := DigestRecoveryCode (Code c) = Ok (rc_Digest c).

Definition recovery_result (r : string) (res : result security_error (list GeneratedRecoveryCode)) (left : nat) : Prop :=
  match res with
  | Ok codes => length codes = RecoveryCodeCount /\ NoDup (Code <$> codes) /\ Forall good_code codes
  | Err e => (e = ErrRandom /\ (String.length r < left * RecoveryCodeBytes)%nat) \/ e = ErrRandomCollision
  end.

Lemma recovery_loop_done left codes seen r :
  (length codes + left = RecoveryCodeCount)%nat -> NoDup (Code <$> codes) -> Forall good_code codes ->
  (forall code, code ∈ Code <$> codes -> code ∈ seen) ->
  exists res, recovery_loop (S left) codes seen r = Some res /\ recovery_result r res left.
Proof.
  revert codes seen r. induction left as [|left IH]; intros codes seen r Hl Hn Hg Hs.
  - cbn [recovery_loop]. rewrite (proj2 (Nat.ltb_ge (length codes) RecoveryCodeCount)) by lia. eexists. split; [done|]. cbn. repeat split; [lia|done|done].
  - cbn [recovery_loop]. rewrite (proj2 (Nat.ltb_lt (length codes) RecoveryCodeCount)) by lia.
    destruct (ReadFull RecoveryCodeBytes r) as [[entropy rest]|] eqn:ER.
    + apply ReadFull_spec in ER as [-> Le]. cbn zeta. case_bool_decide as Hin; [eexists; split; [done|]; by right|].
      rewrite (recovery_code_digest entropy Le). set (code := groupRecoveryCode (base32_encode entropy)) in *.
      destruct (IH (codes ++ [{| Code := code; rc_Digest := domainDigest "codex-gateway/recovery-code/v1" code |}]) (seen ∪ {[code]}) rest) as (res & HR & P).
      * rewrite length_app. cbn. lia.
      * rewrite fmap_app. apply NoDup_app. split; [done|]. split; [|apply NoDup_singleton]. intros x Hx ->%list_elem_of_singleton. by apply Hin, Hs.
      * apply Forall_app. split; [done|]. apply Forall_singleton. unfold good_code. cbn [Code rc_Digest]. by apply recovery_code_digest.
      * intros x. rewrite fmap_app, elem_of_app. intros [Hx|Hx]; apply elem_of_union; [left; by apply Hs|right]. apply list_elem_of_singleton in Hx. by apply elem_of_singleton.
      * exists res. split; [done|]. destruct res as [cs|e]; [done|]. destruct P as [[-> Hlt]|Hc]; [left; split; [done|]|by right].
        rewrite str_length_app, Le. unfold RecoveryCodeBytes in *. lia.
    + eexists. split; [done|]. left. split; [done|]. unfold ReadFull in ER. destruct (Nat.ltb_spec (String.length r) RecoveryCodeBytes); [|done].
      unfold RecoveryCodeBytes in *. lia.
Qed.
End recovery_codes.


(** ** Encrypted secrets *)

Section envelopes.
Context `{CryptoLaws}.

(** Opening an envelope made of the version byte, the nonce and a sealed text. *)
Lemma envelope_parts v nonce key p aad :
  String.length nonce = gcm_NonceSize ->
  let envelope := String v nonce +:+ gcm_Seal key nonce p aad in
  String.get 0 envelope = Some v /\ (String.length envelope <? 1 + gcm_NonceSize + gcm_Overhead)%nat = false /\
  str_take gcm_NonceSize (str_drop 1 envelope) = nonce /\ str_drop (1 + gcm_NonceSize) envelope = gcm_Seal key nonce p aad /\
  (String.length envelope =? 0)%nat = false.
Proof.
  intros L. cbn zeta. rewrite str_length_app, seal_length. split; [done|]. split; [cbn [String.length]; rewrite L; apply Nat.ltb_ge; lia|].
  rewrite str_app_cons. change (str_drop 1 (String v ?x)) with x. change (str_drop (1 + gcm_NonceSize) (String v ?x)) with (str_drop gcm_NonceSize x).
  rewrite <- L, str_take_app, str_drop_app. done.
Qed.

Lemma reopened key nonce p aad aad' p' : gcm_Open key nonce (gcm_Seal key nonce p aad) aad' = Some p' -> (p' = p /\ aad' = aad) \/ forgery.
Proof.
  intros HO. destruct (decide (p' = p /\ aad' = aad)) as [|Hne]; [by left|right]. exists key, nonce, p, aad, p', aad'. split; [|done]. intros [= -> ->]. by apply Hne.
Qed.
End envelopes.

Lemma aad_inj user user' pub pub' : String.length pub = String.length pub' -> apiKeySecretAAD user pub = apiKeySecretAAD user' pub' -> user = user' /\ pub = pub'.
Proof.
  unfold apiKeySecretAAD. intros L E. apply str_app_inj_len in E as [_ E]; [|done]. apply str_app_inj_len in E as [_ E]; [|done].
  assert (Hu : String.length user = String.length user').
  { apply (f_equal String.length) in E. rewrite !str_length_app in E. lia. }
  apply str_app_inj_len in E as [-> E]; [|done]. by apply str_app_inj_len in E as [_ ->].
Qed.

(** A stored secret decrypts to the key it was made from under the same
    user and public ID. Under any other user or public ID the envelope is
    refused: a different answer would be a forgery of AES-GCM, because the
    authenticated data determines both IDs. *)
Theorem api_key_secret_bound `{CryptoLaws} (random : option string) (key userID publicID token envelope : string) :
  EncryptAPIKeySecretFrom random key userID publicID token = Ok envelope ->
  DecryptAPIKeySecret key userID publicID envelope = Ok token /\
  forall userID' publicID' token', DecryptAPIKeySecret key userID' publicID' envelope = Ok token' ->
    (userID', publicID', token') = (userID, publicID, token) \/ forgery.
Proof.
  unfold EncryptAPIKeySecretFrom. destruct (negb (String.length key =? _)%nat) eqn:EK; [done|]. destruct random as [random|]; [|done].
  destruct (ParseAPIKey token) as [k|] eqn:EP; [|done]. destruct (_ || _) eqn:EI; [done|].
  destruct (ReadFull gcm_NonceSize random) as [[nonce r]|] eqn:ER; [|done]. intros [= <-]. apply ReadFull_spec in ER as [_ Ln].
  rewrite !orb_false_iff, negb_false_iff in EI. destruct EI as [[E1 E2] E3]. unfold hmacEqual in E3. apply bool_decide_eq_true in E3.
  destruct (envelope_parts apiKeyCipherVersion nonce key token (apiKeySecretAAD userID publicID) Ln) as (P1 & P2 & P3 & P4 & P5).
  unfold DecryptAPIKeySecret. rewrite EK, P1, P2, P3, P4, P5. rewrite (bool_decide_true (Some _ = Some _)) by done. cbn [negb orb].
  split.
  - rewrite E1, E2. cbn [orb]. rewrite open_seal, EP. unfold hmacEqual. by rewrite bool_decide_true.
  - intros u' p' t'. destruct (_ || _); [done|]. destruct (gcm_Open _ _ _ _) as [t|] eqn:EO; [|done].
    destruct (ParseAPIKey t) as [k'|] eqn:EP'; [|done]. unfold hmacEqual. destruct (bool_decide_reflect (PublicID k' = p')) as [Ep|Ep]; cbn [negb]; [|intros [=]]. intros [= <-].
    apply reopened in EO as [[-> EA]|]; [left|by right].
    apply aad_inj in EA as [-> ->]; [done|]. rewrite <- Ep, <- E3. pose proof (ParseAPIKey_shape _ _ EP) as (_ & -> & _).
    by pose proof (ParseAPIKey_shape _ _ EP') as (_ & -> & _).
Qed.

(** The passwords of egress nodes, likewise bound to their node. *)
Theorem egress_password_bound `{CryptoLaws} (random key nodeID password envelope : string) :
  EncryptEgressPassword random key nodeID password = Ok envelope ->
  DecryptEgressPassword key nodeID envelope = Ok password /\
  forall nodeID' password', DecryptEgressPassword key nodeID' envelope = Ok password' -> (nodeID', password') = (nodeID, password) \/ forgery.
Proof.
  unfold EncryptEgressPassword, DecryptEgressPassword. destruct (egressCipher key) as [a|]; [|done]. cbn [rbind]. destruct (_ || _) eqn:EI; [done|].
  destruct (ReadFull gcm_NonceSize random) as [[nonce r]|] eqn:ER; [|done]. intros [= <-]. apply ReadFull_spec in ER as [_ Ln].
  apply orb_false_iff in EI as [E1 E2]. destruct (envelope_parts "001" nonce a password (egress_aad nodeID) Ln) as (P1 & P2 & P3 & P4 & P5).
  rewrite P1, P2, P3, P4. rewrite (bool_decide_true (Some _ = Some _)) by done. cbn [negb orb]. split.
  - rewrite E1. cbn [orb]. by rewrite open_seal.
  - intros n' p'. destruct (_ || _); [done|]. destruct (gcm_Open _ _ _ _) as [t|] eqn:EO; [|done]. intros [= <-].
    apply reopened in EO as [[-> EA]|]; [left|by right]. unfold egress_aad in EA.
    apply str_app_inj_len in EA as [_ EA]; [|done]. by apply str_app_inj_len in EA as [_ ->].
Qed.

(** ** A concrete instance, for the examples *)

Definition toy_tag (aad : string) : string := str_take 16 (str_rev aad +:+ str_repeat "." 16).
#[export] Instance toy_crypto : Crypto := {|
  sha256 := fun m => str_take 32 (str_rev m +:+ str_repeat "." 32);
  hmac_sha256 := fun k m => str_take 32 (str_rev m +:+ k);
  hkdf_sha256 := fun k info => str_take 32 (k +:+ info);
  gcm_Seal := fun key nonce p aad => toy_tag aad +:+ p;
  gcm_Open := fun key nonce c aad => if bool_decide (str_take 16 c = toy_tag aad) then Some (str_drop 16 c) else None;
|}.
Lemma toy_tag_length aad : String.length (toy_tag aad) = 16%nat.
Proof. unfold toy_tag. apply str_length_take. rewrite str_length_app, str_length_repeat. lia. Qed.
#[export] Instance toy_laws : CryptoLaws.
Proof.
  split; intros key nonce p aad; cbn [gcm_Seal gcm_Open toy_crypto].
  - rewrite <- (toy_tag_length aad), str_take_app, str_drop_app. by rewrite bool_decide_true.
  - rewrite str_length_app, toy_tag_length. unfold gcm_Overhead. lia.
Qed.

Definition some_entropy : string := "0123456789abcdefghijklmnopqrstuvwxyzABCDEFGHIJKLMNOPQRSTUVWXYZ".
Definition some_pepper : string := str_repeat "p" 32.
Definition some_key : string := match GenerateAPIKeyFrom (Some some_entropy) with Ok g => Token g | Err _ => "" end.

Lemma api_key_verification_witness :
  exists d k, HashAPIKey some_pepper some_key = Ok d /\ VerifyAPIKey some_pepper some_key d = Ok (k, true).
Proof.
  destruct (HashAPIKey some_pepper some_key) as [d|e] eqn:E; [|vm_compute in E; discriminate].
  pose proof (api_key_verification some_pepper some_key d E) as [(k & _ & Hk) _]. exists d, k. split; [reflexivity|exact Hk].
Defined.

Lemma opaque_token_kinds_witness :
  exists g, GenerateOpaqueTokenFrom SessionToken (Some some_entropy) = Ok g /\
    VerifyOpaqueToken SessionToken (tok_Token g) (tok_Digest g) = true /\ VerifyOpaqueToken InvitationToken (tok_Token g) (tok_Digest g) = false.
Proof.
  destruct (GenerateOpaqueTokenFrom SessionToken (Some some_entropy)) as [g|e] eqn:E; [|vm_compute in E; discriminate].
  pose proof (opaque_token_kinds SessionToken (Some some_entropy) g E) as (H1 & _ & H3). exists g. split; [reflexivity|]. split; [assumption|]. apply H3. discriminate.
Defined.

Lemma api_key_secret_bound_witness :
  exists env, EncryptAPIKeySecretFrom (Some some_entropy) some_pepper "user" (str_take 16 (str_drop 7 some_key)) some_key = Ok env /\
    DecryptAPIKeySecret some_pepper "user" (str_take 16 (str_drop 7 some_key)) env = Ok some_key.
Proof.
  destruct (EncryptAPIKeySecretFrom (Some some_entropy) some_pepper "user" (str_take 16 (str_drop 7 some_key)) some_key) as [env|e] eqn:E;
    [|vm_compute in E; discriminate].
  pose proof (api_key_secret_bound _ _ _ _ _ _ E) as [HD _]. exists env. split; [reflexivity|exact HD].
Defined.

Lemma egress_password_bound_witness :
  exists env, EncryptEgressPassword some_entropy some_pepper "node" "password" = Ok env /\
    DecryptEgressPassword some_pepper "node" env = Ok "password".
Proof.
  destruct (EncryptEgressPassword some_entropy some_pepper "node" "password") as [env|e] eqn:E; [|vm_compute in E; discriminate].
  pose proof (egress_password_bound _ _ _ _ _ E) as [HD _]. exists env. split; [reflexivity|exact HD].
Defined.
