(* ===== verification/QuotaGuard.v ===== *)
(** * The upstream quota guard ([internal/store/upstream_quota_guard.go])

    Per account: the last reading of the five-hour and weekly windows, the
    limited state with its restore time and the schedule of automatic checks.
    Timestamps are the microsecond values PostgreSQL stores; a nil [*time.Time]
    and a NULL column are [None].  The owner's session and the textual form of
    an address are parameters, as for the billing audit events. *)
From Stdlib Require Import Ascii.
From S2P Require Import Prelude GoStrings GoTime Store.

Definition DefaultUpstreamQuotaGuardPercent : Z := 5.
Definition MaxUpstreamQuotaGuardPercent : Z := 50.
Definition UpstreamQuotaGuardAvailable : string := "available".
Definition UpstreamQuotaGuardLimited : string := "limited".
Definition UpstreamQuotaGuardSourceAuto : string := "auto".
Definition UpstreamQuotaGuardSourceManual : string := "manual".
Definition UpstreamQuotaWindowFiveHour : string := "five_hour".
Definition UpstreamQuotaWindowSevenDay : string := "seven_day".
Definition UpstreamQuotaGuardMinInterval : Z := 10 * Minute.
Definition UpstreamQuotaGuardMaxInterval : Z := 60 * Minute.
Definition UpstreamQuotaGuardRestoreDelay : Z := 5 * Minute.
Definition upstreamQuotaGuardUnknownResetHold : Z := Hour.
Definition upstreamQuotaGuardSamePeriod : Z := 2 * Minute.

Definition UpstreamProviderCodex : string := "codex".
Definition UpstreamProviderAnthropic : string := "anthropic".
Definition guardedUpstreamProvider (provider : string) : bool :=
  bool_decide (provider = UpstreamProviderCodex) || bool_decide (provider = UpstreamProviderAnthropic).

(** [upstreamAccountIDPattern]: [^[a-f0-9]{16}$]. *)
Definition is_lower_hex (c : ascii) : bool :=
  let n := byte_of c in ((97 <=? n) && (n <=? 102)) || ((48 <=? n) && (n <=? 57)).
Definition upstreamAccountIDPattern (s : string) : bool := (String.length s =? 16)%nat && str_forall is_lower_hex s.

Record UpstreamQuotaWindow := Window { UsedPercent : Z; ResetAt : option Z }.
Record UpstreamQuotaObservation := Observation {
  ObservedAt : Z;
  FiveHour : option UpstreamQuotaWindow;
  SevenDay : option UpstreamQuotaWindow;
}.

(** ** The rule *)

Record upstreamQuotaGuardDecision := Decision_ {
  limited : bool;
  window : string;
  resetAt : option Z;
  restoreAt : option Z;
  nextCheckAt : Z;
}.

(** The loop variables: the decision's fields, [unknownReset], [margin], [interval]. *)
Record guard_loop := Loop {
  gl_limited : bool;
  gl_window : string;
  gl_resetAt : option Z;
  gl_unknownReset : bool;
  gl_margin : Z;
  gl_interval : Z;
}.

(** Reports whether the window counts at [now]. *)
Definition window_current (now : Z) (w : UpstreamQuotaWindow) : bool :=
  match ResetAt w with Some t => now <? t | None => true end.

(** Usage that rose within the same period: half the time until the margin is gone. *)
Definition predicted_interval (observation : UpstreamQuotaObservation) (previous : option UpstreamQuotaObservation)
  (current : UpstreamQuotaWindow) (prior : option UpstreamQuotaWindow) (windowMargin : Z) : option Z :=
  match previous, prior with
  | Some prev, Some prior =>
      match ResetAt prior, ResetAt current with
      | Some priorReset, Some currentReset =>
          if (UsedPercent prior <? UsedPercent current) && (ObservedAt prev <? ObservedAt observation) then
            let gap := time_sub currentReset priorReset in
            if (gap <=? upstreamQuotaGuardSamePeriod) && (- upstreamQuotaGuardSamePeriod <=? gap) then
              let elapsed := time_sub (ObservedAt observation) (ObservedAt prev) in
              let untilLimit := Z.quot (wrap64 (elapsed * windowMargin)) (UsedPercent current - UsedPercent prior) in
              Some (Z.quot untilLimit 2)
            else None
          else None
      | _, _ => None
      end
  | _, _ => None
  end.

(** One iteration of the loop over the windows. *)
Definition guard_window (observation : UpstreamQuotaObservation) (previous : option UpstreamQuotaObservation) (percent now : Z)
  (name : string) (current prior : option UpstreamQuotaWindow) (l : guard_loop) : guard_loop :=
  match current with
  | None => l
  | Some current =>
      if negb (window_current now current) then l else
      let remaining := 100 - UsedPercent current in
      if remaining <=? percent then
        let window := if bool_decide (gl_window l = "") then name else gl_window l in
        match ResetAt current with
        | None => Loop true window (gl_resetAt l) true (gl_margin l) (gl_interval l)
        | Some t =>
            let later := match gl_resetAt l with None => true | Some r => r <? t end in
            if later then Loop true name (Some t) (gl_unknownReset l) (gl_margin l) (gl_interval l)
            else Loop true window (gl_resetAt l) (gl_unknownReset l) (gl_margin l) (gl_interval l)
        end
      else
        let windowMargin := remaining - percent in
        let margin := if (gl_margin l <? 0) || (windowMargin <? gl_margin l) then windowMargin else gl_margin l in
        let interval := match predicted_interval observation previous current prior windowMargin with
          | Some i => Z.min (gl_interval l) i
          | None => gl_interval l
          end in
        Loop (gl_limited l) (gl_window l) (gl_resetAt l) (gl_unknownReset l) margin interval
  end.

Definition evaluateUpstreamQuotaGuard (observation : UpstreamQuotaObservation) (previous : option UpstreamQuotaObservation)
  (percent now : Z) : upstreamQuotaGuardDecision :=
  let l := Loop false "" None false (-1) UpstreamQuotaGuardMaxInterval in
  let l := guard_window observation previous percent now UpstreamQuotaWindowFiveHour (FiveHour observation) (previous ≫= FiveHour) l in
  let l := guard_window observation previous percent now UpstreamQuotaWindowSevenDay (SevenDay observation) (previous ≫= SevenDay) l in
  if gl_limited l then
    let restore := now + upstreamQuotaGuardUnknownResetHold in
    let restore := match gl_resetAt l with
      | Some r => let afterReset := r + UpstreamQuotaGuardRestoreDelay in
          if negb (gl_unknownReset l) || (restore <? afterReset) then afterReset else restore
      | None => restore
      end in
    Decision_ true (gl_window l) (gl_resetAt l) (Some restore) restore
  else
    let interval :=
      if gl_margin l <? 0 then UpstreamQuotaGuardMinInterval
      else if gl_margin l <=? 10 then Z.min (gl_interval l) UpstreamQuotaGuardMinInterval
      else if gl_margin l <=? 20 then Z.min (gl_interval l) (15 * Minute)
      else if gl_margin l <=? 35 then Z.min (gl_interval l) (30 * Minute)
      else gl_interval l in
    let interval := Z.max UpstreamQuotaGuardMinInterval (Z.min UpstreamQuotaGuardMaxInterval interval) in
    Decision_ false (gl_window l) (gl_resetAt l) None (now + interval).

Definition validUpstreamQuotaObservation (o : UpstreamQuotaObservation) : bool :=
  forallb (fun w => match w with Some w => (0 <=? UsedPercent w) && (UsedPercent w <=? 100) | None => true end) [FiveHour o; SevenDay o].

(** ** The tables *)

Record upstreamQuotaGuardRow := GuardRow {
  g_status : string;
  g_source : string;
  g_limitedWindow : option string;
  g_resetAt : option Z;
  g_restoreAt : option Z;
  g_changedAt : option Z;
  g_observedAt : option Z;
  g_fiveHour : option UpstreamQuotaWindow;
  g_sevenDay : option UpstreamQuotaWindow;
  g_autoCheckedAt : option Z;
  g_nextCheckAt : option Z;
}.

(** A row created with the defaults of its columns. *)
Definition new_guard_row (autoCheckedAt : option Z) : upstreamQuotaGuardRow :=
  GuardRow UpstreamQuotaGuardAvailable UpstreamQuotaGuardSourceAuto None None None None None None None autoCheckedAt None.

(** The CHECK constraints of migration 0044. *)
Definition percent_check (w : option UpstreamQuotaWindow) : bool :=
  match w with Some w => (0 <=? UsedPercent w) && (UsedPercent w <=? 100) | None => true end.
Definition guard_row_check (r : upstreamQuotaGuardRow) : bool :=
  (bool_decide (g_status r = UpstreamQuotaGuardAvailable) || bool_decide (g_status r = UpstreamQuotaGuardLimited)) &&
  (bool_decide (g_source r = UpstreamQuotaGuardSourceAuto) || bool_decide (g_source r = UpstreamQuotaGuardSourceManual)) &&
  match g_limitedWindow r with
  | Some w => bool_decide (w = UpstreamQuotaWindowFiveHour) || bool_decide (w = UpstreamQuotaWindowSevenDay)
  | None => true
  end &&
  percent_check (g_fiveHour r) && percent_check (g_sevenDay r) &&
  (bool_decide (g_status r = UpstreamQuotaGuardLimited) ||
   (bool_decide (g_limitedWindow r = None) && bool_decide (g_resetAt r = None) && bool_decide (g_restoreAt r = None))) &&
  match g_resetAt r, g_restoreAt r with Some reset, Some restore => reset <? restore | _, _ => true end.

Record UpstreamQuotaGuardSettings := GuardSettings { SafetyPercent : Z; Revision : Z; UpdatedAt : Z }.

Inductive meta : Set := MString (s : string) | MInt (n : Z) | MBool (b : bool) | MTime (t : Z).
Record guard_audit := GuardAudit {
  ga_at : Z;
  ga_actor : option string;
  ga_session : option string;
  ga_event : string;
  ga_source_ip : option string;
  ga_subject_type : string;
  ga_subject : string;
  ga_request : option string;
  ga_metadata : list (string * meta);
}.

Record guard_db := GuardDB {
  guard_users : gset string;
  upstream_accounts : gmap string string;
  guard_settings : UpstreamQuotaGuardSettings;
  guard_states : gmap string upstreamQuotaGuardRow;
  guard_audits : list guard_audit;
}.
Definition set_guard_settings v d := GuardDB (guard_users d) (upstream_accounts d) v (guard_states d) (guard_audits d).
Definition set_guard_states v d := GuardDB (guard_users d) (upstream_accounts d) (guard_settings d) v (guard_audits d).
Definition add_guard_audit a d := GuardDB (guard_users d) (upstream_accounts d) (guard_settings d) (guard_states d) (guard_audits d ++ [a]).

(** [upstreamQuotaGuardHeld]: the SQL condition that keeps an account out of allocation. *)
Definition upstreamQuotaGuardHeld (accountID : string) (at_ : Z) (d : guard_db) : bool :=
  match guard_states d !! accountID with
  | Some q => bool_decide (g_status q = "limited") && match g_restoreAt q with None => true | Some r => at_ <? r end
  | None => false
  end.

(** ** Reading a row *)

Definition limitedAt (row : upstreamQuotaGuardRow) (at_ : Z) : bool :=
  bool_decide (g_status row = UpstreamQuotaGuardLimited) && match g_restoreAt row with None => true | Some r => at_ <? r end.

Definition guard_snapshot (row : upstreamQuotaGuardRow) : option UpstreamQuotaObservation :=
  match g_observedAt row with None => None | Some t => Some (Observation t (g_fiveHour row) (g_sevenDay row)) end.

Record UpstreamQuotaGuardState := GuardState {
  st_AccountID : string;
  st_Status : string;
  st_Source : string;
  st_LimitedWindow : string;
  st_ResetAt : option Z;
  st_RestoreAt : option Z;
  st_ChangedAt : option Z;
  st_ObservedAt : option Z;
  st_FiveHour : option UpstreamQuotaWindow;
  st_SevenDay : option UpstreamQuotaWindow;
  st_AutoCheckedAt : option Z;
  st_NextCheckAt : option Z;
}.

Definition guard_state (accountID : string) (row : upstreamQuotaGuardRow) (at_ : Z) : UpstreamQuotaGuardState :=
  let held := limitedAt row at_ in
  GuardState accountID (if held then UpstreamQuotaGuardLimited else UpstreamQuotaGuardAvailable) (g_source row)
    (if held then default "" (g_limitedWindow row) else "") (if held then g_resetAt row else None)
    (if held then g_restoreAt row else None) (g_changedAt row) (g_observedAt row) (g_fiveHour row) (g_sevenDay row)
    (g_autoCheckedAt row) (g_nextCheckAt row).

Definition NextAutomaticCheck (nextCheckAt autoCheckedAt : option Z) : Z :=
  let next := default 0 nextCheckAt in
  match autoCheckedAt with
  | Some t => let floor := t + UpstreamQuotaGuardMinInterval in if next <? floor then floor else next
  | None => next
  end.

Definition normalizedGuardTime (at_ now : Z) : Z := if is_zero_time at_ then now else at_.

Definition soonestUpstreamQuotaReset (row : upstreamQuotaGuardRow) (now : Z) : option (string * Z) :=
  let visit (name : string) (w : option UpstreamQuotaWindow) (acc : option (string * Z)) :=
    match w ≫= ResetAt with
    | None => acc
    | Some t =>
        if negb (now <? t) then acc else
        match acc with
        | None => Some (name, t)
        | Some (_, soonest) => if t <? soonest then Some (name, t) else acc
        end
    end in
  visit UpstreamQuotaWindowSevenDay (g_sevenDay row) (visit UpstreamQuotaWindowFiveHour (g_fiveHour row) None).

(** [ORDER BY account_id]. *)
Definition by_id {A} (a b : string * A) : Prop := str_le a.1 b.1.
#[export] Instance by_id_dec {A} (a b : string * A) : Decision (by_id a b).
Proof. unfold by_id, str_le. apply _. Defined.

(** ** Operations *)

Section operations.
Context (session_of : string -> string -> bool) (inet_ok : string -> bool).

(** The bounds of [request_id] in characters are checked on its bytes: request
    IDs are ASCII. *)
Definition request_id_ok (s : string) : bool :=
  bool_decide (s = "") || ((16 <=? Z.of_nat (String.length s)) && (Z.of_nat (String.length s) <=? 128)).

(** [INSERT INTO audit_events], with the columns the guard writes. *)
Definition insert_guard_audit (operation : string) (at_ : Z) (actorUserID actorSessionID sourceIP requestID eventType subjectType subject : string)
  (metadata : list (string * meta)) : tx guard_db unit :=
  let* users := tgets guard_users in
  tguard ((bool_decide (actorUserID = "") && bool_decide (actorSessionID = "") || bool_decide (actorUserID ∈ users)) &&
          (bool_decide (actorSessionID = "") || session_of actorSessionID actorUserID) &&
          (bool_decide (sourceIP = "") || inet_ok sourceIP) && request_id_ok requestID)
    (ErrInvalid operation) ;;
  tmod (add_guard_audit (GuardAudit at_ (value_or_nil actorUserID) (value_or_nil actorSessionID) eventType
    (value_or_nil sourceIP) subjectType subject (value_or_nil requestID) metadata)).

(** The metadata keys and values are all allowed by [marshalSafeMetadata]. *)
Definition appendUpstreamQuotaGuardAuditTx (at_ : Z) (actorUserID actorSessionID sourceIP requestID eventType accountID : string)
  (metadata : list (string * meta)) : tx guard_db unit :=
  insert_guard_audit "audit upstream quota guard" at_ actorUserID actorSessionID sourceIP requestID eventType "upstream_account" accountID metadata.

(** The row of an account of a provider, created when missing. *)
Definition lockUpstreamQuotaGuardRowTx (accountID provider : string) : tx guard_db upstreamQuotaGuardRow :=
  let* accounts := tgets upstream_accounts in
  if bool_decide (accounts !! accountID = Some provider) then
    tmod (fun d => set_guard_states (insert_missing accountID (new_guard_row None) (guard_states d)) d) ;;
    let* states := tgets guard_states in
    tsome "lock upstream quota guard" (states !! accountID)
  else tfail (ErrNotFound "lock upstream quota guard").

(** [UPDATE upstream_quota_guard_states ... WHERE account_id = $1]. *)
Definition update_guard_row (operation accountID : string) (f : upstreamQuotaGuardRow -> upstreamQuotaGuardRow) : tx guard_db unit :=
  let* states := tgets guard_states in
  match states !! accountID with
  | None => tret tt
  | Some row =>
      tguard (guard_row_check (f row)) (ErrInvalid operation) ;;
      tmod (set_guard_states (<[accountID := f row]> states))
  end.

Record UpstreamQuotaCheckClaim := CheckClaim { claim_Provider : string; Claimed : bool; claim_NextCheckAt : Z }.

(** One statement: due by schedule and at least the minimum interval after the
    last attempt. *)
Definition ClaimUpstreamQuotaCheck (accountID : string) (at_ clock : Z) (d : guard_db)
  : result store_error UpstreamQuotaCheckClaim * guard_db :=
  if negb (upstreamAccountIDPattern accountID) then (Err (ErrInvalid "invalid upstream account"), d) else
  let at_ := normalizedGuardTime at_ clock in
  match upstream_accounts d !! accountID with
  | None => (Ok (CheckClaim "" false 0), d)
  | Some provider =>
      if negb (guardedUpstreamProvider provider) then (Ok (CheckClaim "" false 0), d) else
      match guard_states d !! accountID with
      | None => (Ok (CheckClaim provider true 0), set_guard_states (<[accountID := new_guard_row (Some at_)]> (guard_states d)) d)
      | Some g =>
          if match g_nextCheckAt g with None => true | Some t => t <=? at_ end &&
             match g_autoCheckedAt g with None => true | Some t => t <=? at_ - UpstreamQuotaGuardMinInterval end
          then (Ok (CheckClaim provider true 0),
                set_guard_states (<[accountID := GuardRow (g_status g) (g_source g) (g_limitedWindow g) (g_resetAt g) (g_restoreAt g)
                  (g_changedAt g) (g_observedAt g) (g_fiveHour g) (g_sevenDay g) (Some at_) (g_nextCheckAt g)]> (guard_states d)) d)
          else (Ok (CheckClaim provider false (NextAutomaticCheck (g_nextCheckAt g) (g_autoCheckedAt g))), d)
      end
  end.

Record RecordUpstreamQuotaObservationParams := RecordParams {
  rp_Provider : string;
  rp_AccountID : string;
  rp_Observation : UpstreamQuotaObservation;
  rp_Automatic : bool;
  rp_At : Z;
}.

Definition guardAuditWindowMetadata (metadata : list (string * meta)) (o : UpstreamQuotaObservation) : list (string * meta) :=
  metadata ++ match FiveHour o with Some w => [("five_hour_used_percent", MInt (UsedPercent w))] | None => [] end
           ++ match SevenDay o with Some w => [("seven_day_used_percent", MInt (UsedPercent w))] | None => [] end.

(** The columns written from a decision. *)
Definition decided_row (decision : upstreamQuotaGuardDecision) (source : string) (changedAt observedAt nextCheckAt : option Z)
  (five seven : option UpstreamQuotaWindow) (row : upstreamQuotaGuardRow) : upstreamQuotaGuardRow :=
  GuardRow (if limited decision then UpstreamQuotaGuardLimited else UpstreamQuotaGuardAvailable) source
    (if limited decision then Some (window decision) else None) (resetAt decision) (restoreAt decision) changedAt observedAt five seven
    (g_autoCheckedAt row) nextCheckAt.

Definition record_body (p : RecordUpstreamQuotaObservationParams) (observation : UpstreamQuotaObservation) (at_ : Z)
  : tx guard_db UpstreamQuotaGuardState :=
  let* percent := tgets (fun d => SafetyPercent (guard_settings d)) in
  let* current := lockUpstreamQuotaGuardRowTx (rp_AccountID p) (rp_Provider p) in
  (if negb (rp_Automatic p) && bool_decide (g_source current = UpstreamQuotaGuardSourceManual) then
     update_guard_row "record upstream quota snapshot" (rp_AccountID p) (fun r =>
       GuardRow (g_status r) (g_source r) (g_limitedWindow r) (g_resetAt r) (g_restoreAt r) (g_changedAt r)
         (Some (ObservedAt observation)) (FiveHour observation) (SevenDay observation) (g_autoCheckedAt r) (g_nextCheckAt r))
   else
     let decision := evaluateUpstreamQuotaGuard observation (guard_snapshot current) percent at_ in
     let wasLimited := limitedAt current at_ in
     let changed := negb (Bool.eqb wasLimited (limited decision)) || negb (bool_decide (g_source current = UpstreamQuotaGuardSourceAuto)) in
     update_guard_row "record upstream quota guard" (rp_AccountID p)
       (decided_row decision UpstreamQuotaGuardSourceAuto (if changed then Some at_ else g_changedAt current)
         (Some (ObservedAt observation)) (Some (nextCheckAt decision)) (FiveHour observation) (SevenDay observation)) ;;
     if negb (Bool.eqb wasLimited (limited decision)) then
       let via := if rp_Automatic p then "automatic" else "observation" in
       let metadata := [("via", MString via); ("safety_percent", MInt percent)] ++
         (if limited decision then ("window", MString (window decision)) ::
            match resetAt decision with Some t => [("reset_at", MTime t)] | None => [] end else []) in
       appendUpstreamQuotaGuardAuditTx at_ "" "" "" ""
         (if limited decision then "upstream_quota_guard.limited" else "upstream_quota_guard.restored")
         (rp_AccountID p) (guardAuditWindowMetadata metadata observation)
     else tret tt) ;;
  let* states := tgets guard_states in
  let* updated := tsome "read upstream quota guard" (states !! rp_AccountID p) in
  tret (guard_state (rp_AccountID p) updated at_).

Definition RecordUpstreamQuotaObservation (p : RecordUpstreamQuotaObservationParams) (clock : Z) (d : guard_db)
  : result store_error UpstreamQuotaGuardState * guard_db :=
  if negb (guardedUpstreamProvider (rp_Provider p)) || negb (upstreamAccountIDPattern (rp_AccountID p)) ||
     negb (validUpstreamQuotaObservation (rp_Observation p))
  then (Err (ErrInvalid "invalid upstream quota observation"), d) else
  let at_ := normalizedGuardTime (rp_At p) clock in
  let o := rp_Observation p in
  let o := if is_zero_time (ObservedAt o) then Observation at_ (FiveHour o) (SevenDay o) else o in
  withTx (record_body p o at_) d.

Record SetUpstreamQuotaGuardStatusParams := StatusParams {
  sp_AccountID : string;
  sp_Limited : bool;
  sp_ActorUserID : string;
  sp_ActorSessionID : string;
  sp_RequestID : string;
  sp_SourceIP : string;
  sp_At : Z;
}.

Definition status_body (p : SetUpstreamQuotaGuardStatusParams) (provider : string) (at_ : Z) : tx guard_db UpstreamQuotaGuardState :=
  let* current := lockUpstreamQuotaGuardRowTx (sp_AccountID p) provider in
  let wasLimited := limitedAt current at_ in
  if Bool.eqb wasLimited (sp_Limited p) then tret (guard_state (sp_AccountID p) current at_) else
  let soonest := if sp_Limited p then soonestUpstreamQuotaReset current at_ else None in
  let next :=
    if sp_Limited p then (fun s => s.2 + UpstreamQuotaGuardRestoreDelay) <$> soonest
    else Some match g_autoCheckedAt current with
         | Some t => if at_ <? t + UpstreamQuotaGuardMinInterval then t + UpstreamQuotaGuardMinInterval else at_
         | None => at_
         end in
  update_guard_row "set upstream quota guard" (sp_AccountID p) (fun r =>
    GuardRow (if sp_Limited p then UpstreamQuotaGuardLimited else UpstreamQuotaGuardAvailable) UpstreamQuotaGuardSourceManual
      (fst <$> soonest) (snd <$> soonest) ((fun s => s.2 + UpstreamQuotaGuardRestoreDelay) <$> soonest) (Some at_)
      (g_observedAt r) (g_fiveHour r) (g_sevenDay r) (g_autoCheckedAt r) next) ;;
  appendUpstreamQuotaGuardAuditTx at_ (sp_ActorUserID p) (sp_ActorSessionID p) (sp_SourceIP p) (sp_RequestID p)
    "upstream_quota_guard.manual_set" (sp_AccountID p)
    (("limited", MBool (sp_Limited p)) ::
     match soonest with Some (name, t) => [("window", MString name); ("reset_at", MTime t)] | None => [] end) ;;
  let* states := tgets guard_states in
  let* updated := tsome "read upstream quota guard" (states !! sp_AccountID p) in
  tret (guard_state (sp_AccountID p) updated at_).

Definition SetUpstreamQuotaGuardStatus (provider : string) (p : SetUpstreamQuotaGuardStatusParams) (clock : Z) (d : guard_db)
  : result store_error UpstreamQuotaGuardState * guard_db :=
  if negb (guardedUpstreamProvider provider) || negb (upstreamAccountIDPattern (sp_AccountID p)) ||
     bool_decide (trim_space (sp_ActorUserID p) = "")
  then (Err (ErrInvalid "invalid quota guard account or actor"), d) else
  withTx (status_body p provider (normalizedGuardTime (sp_At p) clock)) d.

Record SetUpstreamQuotaGuardSettingsParams := SettingsParams {
  gp_SafetyPercent : Z;
  gp_ActorUserID : string;
  gp_ActorSessionID : string;
  gp_RequestID : string;
  gp_SourceIP : string;
  gp_At : Z;
}.

(** The loop that reapplies the rule, with the counts of the audit event. *)
Fixpoint reapply (percent at_ : Z) (rows : list (string * upstreamQuotaGuardRow)) (counts : Z * Z) : tx guard_db (Z * Z) :=
  match rows with
  | [] => tret counts
  | (accountID, row) :: rest =>
      match guard_snapshot row with
      | None => tfail (ErrOther "nil snapshot")
      | Some snapshot =>
          let decision := evaluateUpstreamQuotaGuard snapshot None percent at_ in
          let wasLimited := limitedAt row at_ in
          let changed := negb (Bool.eqb wasLimited (limited decision)) in
          let counts := if changed then if limited decision then (counts.1 + 1, counts.2) else (counts.1, counts.2 + 1) else counts in
          update_guard_row "reapply upstream quota guard" accountID (fun r =>
            decided_row decision (g_source r) (if changed then Some at_ else g_changedAt row) (g_observedAt r)
              (if limited decision then Some (nextCheckAt decision) else None) (g_fiveHour r) (g_sevenDay r) r) ;;
          reapply percent at_ rest counts
      end
  end.

(** [source = 'auto' AND observed_at IS NOT NULL], by account. *)
Definition automatic_rows (states : gmap string upstreamQuotaGuardRow) : list (string * upstreamQuotaGuardRow) :=
  merge_sort by_id
    (map_to_list (filter (fun kv => g_source kv.2 = UpstreamQuotaGuardSourceAuto /\ g_observedAt kv.2 <> None) states)).

Definition settings_body (p : SetUpstreamQuotaGuardSettingsParams) (at_ : Z) : tx guard_db UpstreamQuotaGuardSettings :=
  let* previous := tgets guard_settings in
  let settings := GuardSettings (gp_SafetyPercent p) (Revision previous + 1) at_ in
  tguard (int64b (Revision settings)) (ErrInvalid "update upstream quota guard settings") ;;
  tmod (set_guard_settings settings) ;;
  let* rows := tgets (fun d => automatic_rows (guard_states d)) in
  let* (limited, restored) := reapply (SafetyPercent settings) at_ rows (0, 0) in
  insert_guard_audit "audit upstream quota guard settings" at_ (gp_ActorUserID p) (gp_ActorSessionID p) (gp_SourceIP p) (gp_RequestID p)
    "upstream_quota_guard.settings_updated" "upstream_quota_guard_settings" "global"
    [("previous_safety_percent", MInt (SafetyPercent previous)); ("safety_percent", MInt (SafetyPercent settings));
     ("revision", MInt (Revision settings)); ("limited_accounts", MInt limited); ("restored_accounts", MInt restored)] ;;
  tret settings.

Definition SetUpstreamQuotaGuardSettings (p : SetUpstreamQuotaGuardSettingsParams) (clock : Z) (d : guard_db)
  : result store_error UpstreamQuotaGuardSettings * guard_db :=
  if (gp_SafetyPercent p <? 0) || (MaxUpstreamQuotaGuardPercent <? gp_SafetyPercent p) || bool_decide (trim_space (gp_ActorUserID p) = "")
  then (Err (ErrInvalid "invalid quota guard settings"), d) else
  withTx (settings_body p (normalizedGuardTime (gp_At p) clock)) d.
End operations.

(** [ListUpstreamQuotaGuards] of a store for [provider]. *)
Definition ListUpstreamQuotaGuards (provider : string) (at_ clock : Z) (d : guard_db)
  : UpstreamQuotaGuardSettings * list UpstreamQuotaGuardState :=
  let at_ := normalizedGuardTime at_ clock in
  if negb (guardedUpstreamProvider provider) then (guard_settings d, []) else
  (guard_settings d,
   (fun kv => guard_state kv.1 kv.2 at_) <$>
     merge_sort by_id
       (map_to_list (filter (fun kv => upstream_accounts d !! kv.1 = Some provider) (guard_states d)))).

(** ** What the rule decides *)

(** A reported window that has not reset and has at most [percent] left. *)
Definition tripped (percent now : Z) (w : UpstreamQuotaWindow) : bool := window_current now w && (100 - UsedPercent w <=? percent).
(** How long a tripped window keeps the account out. *)
Definition hold_until (now : Z) (w : UpstreamQuotaWindow) : Z :=
  match ResetAt w with Some t => t + UpstreamQuotaGuardRestoreDelay | None => now + upstreamQuotaGuardUnknownResetHold end.
Definition reported (o : UpstreamQuotaObservation) (w : UpstreamQuotaWindow) : Prop := FiveHour o = Some w \/ SevenDay o = Some w.

(** The loop state after any windows: what has been tripped so far. *)
Record loop_ok (percent now : Z) (ws : list UpstreamQuotaWindow) (l : guard_loop) : Prop := {
  lk_limited : gl_limited l = true <-> exists w, w ∈ ws /\ tripped percent now w = true;
  lk_unknown : gl_unknownReset l = true <-> exists w, w ∈ ws /\ tripped percent now w = true /\ ResetAt w = None;
  lk_reset : forall t, gl_resetAt l = Some t -> now < t /\ exists w, w ∈ ws /\ tripped percent now w = true /\ ResetAt w = Some t;
  lk_latest : forall w t, w ∈ ws -> tripped percent now w = true -> ResetAt w = Some t -> exists r, gl_resetAt l = Some r /\ t <= r;
  lk_window : gl_limited l = true -> gl_window l = UpstreamQuotaWindowFiveHour \/ gl_window l = UpstreamQuotaWindowSevenDay;
  lk_idle : gl_limited l = false -> gl_window l = "";
}.

Lemma loop_ok_skip percent now ws w l : tripped percent now w = false -> loop_ok percent now ws l -> loop_ok percent now (w :: ws) l.
Proof.
  intros Hw [L U R T W I]. split; [| | | |done|done].
  - rewrite L. split; intros (x & Hx & Ht); exists x; [by split; [right|]|]. apply elem_of_cons in Hx as [->|]; [congruence|done].
  - rewrite U. split; intros (x & Hx & Ht & Hr); exists x; [by split; [right|]|]. apply elem_of_cons in Hx as [->|]; [congruence|done].
  - intros t Ht. destruct (R t Ht) as (? & x & ? & ? & ?). split; [done|]. exists x. by split; [right|].
  - intros x t [->|Hx]%elem_of_cons; [congruence|by apply (T x)].
Qed.

Lemma loop_ok_margin percent now ws l margin interval : loop_ok percent now ws l ->
  loop_ok percent now ws (Loop (gl_limited l) (gl_window l) (gl_resetAt l) (gl_unknownReset l) margin interval).
Proof. intros [L U R T W I]. by split. Qed.

Lemma loop_ok_window o prev percent now name w prior l ws :
  name = UpstreamQuotaWindowFiveHour \/ name = UpstreamQuotaWindowSevenDay ->
  loop_ok percent now ws l -> loop_ok percent now (w :: ws) (guard_window o prev percent now name (Some w) prior l).
Proof.
  intros Hname I. unfold guard_window. destruct (window_current now w) eqn:EC; cbn [negb].
  2: { apply loop_ok_skip; [|done]. unfold tripped. by rewrite EC. }
  destruct (100 - UsedPercent w <=? percent) eqn:ER.
  2: { apply loop_ok_margin, loop_ok_skip; [|done]. unfold tripped. by rewrite EC, ER. }
  assert (HT : tripped percent now w = true) by (unfold tripped; by rewrite EC, ER).
  destruct I as [L U R T W I].
  assert (HW : forall x, (if bool_decide (gl_window l = "") then name else gl_window l) = x -> x = UpstreamQuotaWindowFiveHour \/ x = UpstreamQuotaWindowSevenDay).
  { intros x <-. destruct (gl_limited l); [specialize (W eq_refl); case_bool_decide; auto|]. rewrite I by done. by rewrite bool_decide_true. }
  destruct (ResetAt w) as [t|] eqn:EW.
  - assert (Ht : now < t) by (unfold window_current in EC; rewrite EW in EC; lia).
    destruct (match gl_resetAt l with None => true | Some r => r <? t end) eqn:EL; split; cbn.
    + split; [|done]. intros _. exists w. by split; [left|].
    + rewrite U. split; intros (x & Hx & H1 & H2); exists x; [by split; [right|]|]. apply elem_of_cons in Hx as [->|]; [congruence|done].
    + intros t' [= <-]. split; [done|]. exists w. by split; [left|].
    + intros x t' [->|Hx]%elem_of_cons Hx1 Hx2; [exists t; split; [done|]; assert (t' = t) by congruence; lia|].
      destruct (T x t' Hx Hx1 Hx2) as (r & Hr & Hle). rewrite Hr in EL. exists t. split; [done|lia].
    + done.
    + done.
    + split; [|done]. intros _. exists w. by split; [left|].
    + rewrite U. split; intros (x & Hx & H1 & H2); exists x; [by split; [right|]|]. apply elem_of_cons in Hx as [->|]; [congruence|done].
    + intros t' Ht'. destruct (R t' Ht') as (? & x & ? & ? & ?). split; [done|]. exists x. by split; [right|].
    + intros x t' [->|Hx]%elem_of_cons Hx1 Hx2; [|by apply (T x)]. destruct (gl_resetAt l) as [r|]; [|done]. exists r. split; [done|].
      assert (t' = t) by congruence. lia.
    + intros _. by apply HW.
    + done.
  - split; cbn.
    + split; [|done]. intros _. exists w. by split; [left|].
    + split; [|done]. intros _. exists w. by split; [left|].
    + intros t' Ht'. destruct (R t' Ht') as (? & x & ? & ? & ?). split; [done|]. exists x. by split; [right|].
    + intros x t' [->|Hx]%elem_of_cons Hx1 Hx2; [congruence|by apply (T x)].
    + intros _. by apply HW.
    + done.
Qed.

Definition windows_of (o : UpstreamQuotaObservation) : list UpstreamQuotaWindow := option_list (SevenDay o) ++ option_list (FiveHour o).
Lemma windows_of_spec o w : w ∈ windows_of o <-> reported o w.
Proof.
  unfold windows_of, reported. rewrite elem_of_app. destruct (SevenDay o) as [x|], (FiveHour o) as [y|]; cbn;
    rewrite ?list_elem_of_singleton, ?elem_of_nil; intuition congruence.
Qed.

(** The state of the loop when it ends. *)
Definition guard_loop_end (o : UpstreamQuotaObservation) (previous : option UpstreamQuotaObservation) (percent now : Z) : guard_loop :=
  guard_window o previous percent now UpstreamQuotaWindowSevenDay (SevenDay o) (previous ≫= SevenDay)
    (guard_window o previous percent now UpstreamQuotaWindowFiveHour (FiveHour o) (previous ≫= FiveHour)
      (Loop false "" None false (-1) UpstreamQuotaGuardMaxInterval)).

Lemma guard_loop_end_ok o previous percent now : loop_ok percent now (windows_of o) (guard_loop_end o previous percent now).
Proof.
  assert (I0 : loop_ok percent now [] (Loop false "" None false (-1) UpstreamQuotaGuardMaxInterval)).
  { split; cbn; [split; [done|by intros (w & []%elem_of_nil & _)]|split; [done|by intros (w & []%elem_of_nil & _)]|done|by intros w t []%elem_of_nil|done|done]. }
  unfold guard_loop_end, windows_of.
  assert (I1 : loop_ok percent now (option_list (FiveHour o))
    (guard_window o previous percent now UpstreamQuotaWindowFiveHour (FiveHour o) (previous ≫= FiveHour) (Loop false "" None false (-1) UpstreamQuotaGuardMaxInterval))).
  { destruct (FiveHour o) as [w|]; cbn [option_list option_rect]; [|done]. apply loop_ok_window; auto. }
  destruct (SevenDay o) as [w|]; cbn [option_list option_rect app]; [|done]. apply loop_ok_window; auto.
Qed.

(** [C34] The guard limits an account exactly when a reported window that has
    not reset has at most the safety percentage left. It then holds the account
    until the last of the tripped windows is over: five minutes after its
    reset, or an hour when no reset time is known. Otherwise the next check
    lies between ten and sixty minutes ahead, whatever the readings, even where
    the prediction overflows. *)
Theorem guard_decision (o : UpstreamQuotaObservation) (previous : option UpstreamQuotaObservation) (percent now : Z) :
  let d := evaluateUpstreamQuotaGuard o previous percent now in
  (limited d = true <-> exists w, reported o w /\ tripped percent now w = true) /\
  (forall w, reported o w -> tripped percent now w = true -> exists r, restoreAt d = Some r /\ hold_until now w <= r) /\
  (limited d = true -> exists w, reported o w /\ tripped percent now w = true /\
     restoreAt d = Some (hold_until now w) /\ nextCheckAt d = hold_until now w /\ now < hold_until now w) /\
  (limited d = false -> restoreAt d = None /\ resetAt d = None /\
     now + UpstreamQuotaGuardMinInterval <= nextCheckAt d <= now + UpstreamQuotaGuardMaxInterval).
Proof.
  cbn zeta. unfold evaluateUpstreamQuotaGuard. fold (guard_loop_end o previous percent now).
  destruct (guard_loop_end_ok o previous percent now) as [L U R T W I]. set (l := guard_loop_end o previous percent now) in *.
  setoid_rewrite windows_of_spec in L. setoid_rewrite windows_of_spec in U. setoid_rewrite windows_of_spec in R. setoid_rewrite windows_of_spec in T.
  change UpstreamQuotaGuardMinInterval with 600000000000. change UpstreamQuotaGuardMaxInterval with 3600000000000.
  destruct (gl_limited l) eqn:EL; cbn [limited restoreAt nextCheckAt resetAt].
  - split; [by rewrite <- L|]. assert (HL := proj1 L eq_refl). split; [|split; [|done]].
    + intros w Hw Ht. eexists. split; [done|]. unfold hold_until. destruct (ResetAt w) as [t|] eqn:ER.
      * destruct (T w t Hw Ht ER) as (r & -> & Hle). destruct (gl_unknownReset l); cbn [negb orb]; [|lia].
        destruct (Z.ltb_spec (now + upstreamQuotaGuardUnknownResetHold) (r + UpstreamQuotaGuardRestoreDelay)); lia.
      * assert (HU : gl_unknownReset l = true) by (apply U; by exists w). rewrite HU. cbn [negb orb]. destruct (gl_resetAt l) as [r|]; [|lia].
        destruct (Z.ltb_spec (now + upstreamQuotaGuardUnknownResetHold) (r + UpstreamQuotaGuardRestoreDelay)); lia.
    + intros _. assert (HK : forall r, gl_resetAt l = Some r -> exists w, reported o w /\ tripped percent now w = true /\
        hold_until now w = r + UpstreamQuotaGuardRestoreDelay /\ now < hold_until now w).
      { intros r Hr. destruct (R r Hr) as (Hlt & w & Hw & Ht & Ew). exists w. unfold hold_until. rewrite Ew. repeat split; try done.
        unfold UpstreamQuotaGuardRestoreDelay, Minute, Second. lia. }
      assert (HU : gl_unknownReset l = true -> exists w, reported o w /\ tripped percent now w = true /\
        hold_until now w = now + upstreamQuotaGuardUnknownResetHold /\ now < hold_until now w).
      { intros (w & Hw & Ht & Ew)%U. exists w. unfold hold_until. rewrite Ew. repeat split; try done.
        unfold upstreamQuotaGuardUnknownResetHold, Hour, Minute, Second. lia. }
      destruct (gl_resetAt l) as [r|] eqn:Er.
      * destruct (HK r eq_refl) as (w & Hw & Ht & Eh & Hn). destruct (gl_unknownReset l); cbn [negb orb].
        -- destruct (now + upstreamQuotaGuardUnknownResetHold <? r + UpstreamQuotaGuardRestoreDelay).
           ++ exists w. by rewrite Eh in *.
           ++ destruct (HU eq_refl) as (w' & ? & ? & Eh' & ?). exists w'. by rewrite Eh' in *.
        -- exists w. by rewrite Eh in *.
      * destruct HL as (w & Hw & Ht). destruct (ResetAt w) as [t|] eqn:Ew; [by destruct (T w t Hw Ht Ew) as (? & ? & _)|].
        exists w. unfold hold_until. rewrite Ew. repeat split; try done. unfold upstreamQuotaGuardUnknownResetHold, Hour, Minute, Second. lia.
  - assert (HN : forall w, reported o w -> tripped percent now w = true -> False) by (intros w Hw Ht; enough (false = true) by done; apply L; eauto).
    split; [split; [done|]; intros (w & Hw & Ht); exfalso; eauto|]. split; [intros w Hw Ht; exfalso; eauto|]. split; [done|]. intros _. split; [done|].
    split; [|lia]. destruct (gl_resetAt l) as [r|] eqn:Er; [|done]. destruct (R r eq_refl) as (_ & w & Hw & Ht & _). exfalso; eauto.
Qed.

(** ** The table *)

(** A limit set by the rule always has an end. *)
Definition expires (r : upstreamQuotaGuardRow) : Prop :=
  g_source r = UpstreamQuotaGuardSourceAuto -> g_status r = UpstreamQuotaGuardLimited -> g_restoreAt r <> None.

Record guard_ok (d : guard_db) : Prop := {
  go_percent : 0 <= SafetyPercent (guard_settings d) <= MaxUpstreamQuotaGuardPercent;
  go_rows : forall a r, guard_states d !! a = Some r -> guard_row_check r = true /\ expires r;
}.

(** No row is lost and the time of the last automatic check is kept. *)
Definition checks_kept (d d' : guard_db) : Prop :=
  forall a r, guard_states d !! a = Some r -> exists r', guard_states d' !! a = Some r' /\ g_autoCheckedAt r' = g_autoCheckedAt r.

Definition guard_frame (d d' : guard_db) : Prop := (guard_ok d -> guard_ok d') /\ checks_kept d d'.

#[export] Instance guard_frame_preorder : PreOrder guard_frame.
Proof.
  split.
  - intros d. split; [done|]. intros a r Hr. by exists r.
  - intros d1 d2 d3 [H1 K1] [H2 K2]. split; [by intros ?%H1%H2|]. intros a r Hr. destruct (K1 a r Hr) as (r2 & Hr2 & <-).
    destruct (K2 a r2 Hr2) as (r3 & Hr3 & <-). by exists r3.
Qed.

(** Writing one row. *)
Lemma frame_insert d a r' :
  guard_row_check r' = true -> expires r' -> (forall r, guard_states d !! a = Some r -> g_autoCheckedAt r' = g_autoCheckedAt r) ->
  guard_frame d (set_guard_states (<[a := r']> (guard_states d)) d).
Proof.
  intros Hc He Hk. split.
  - intros [P R]. split; [done|]. intros b r. cbn. destruct (decide (b = a)) as [->|]; [rewrite lookup_insert_eq; by intros [= <-]|].
    rewrite lookup_insert_ne by done. apply R.
  - intros b r Hb. cbn. destruct (decide (b = a)) as [->|]; [exists r'; rewrite lookup_insert_eq; auto|rewrite lookup_insert_ne by done; eauto].
Qed.

Lemma update_guard_row_Ok op a f d u d' :
  update_guard_row op a f d = Ok (u, d') ->
  (forall r, guard_states d !! a = Some r -> g_autoCheckedAt (f r) = g_autoCheckedAt r /\ expires (f r)) ->
  guard_frame d d' /\ guard_states d' !! a = f <$> guard_states d !! a.
Proof.
  unfold update_guard_row. cbn. intros H Hf. destruct (guard_states d !! a) as [r|] eqn:Er.
  - inv_tx H. apply tguard_Ok in Ht as [Hc ->]. injection H as _ <-. destruct (Hf r eq_refl) as [Hk He]. split.
    + apply frame_insert; [done|done|]. intros r2. rewrite Er. by intros [= <-].
    + cbn. by rewrite lookup_insert_eq.
  - injection H as _ <-. split; [reflexivity|]. by rewrite Er.
Qed.

Lemma new_guard_row_ok t : guard_row_check (new_guard_row t) = true /\ expires (new_guard_row t).
Proof. split; [reflexivity|]. intros _ [=]. Qed.

Lemma lock_row_Ok a provider d r d' : lockUpstreamQuotaGuardRowTx a provider d = Ok (r, d') ->
  guard_frame d d' /\ guard_states d' !! a = Some r /\ upstream_accounts d !! a = Some provider /\ r = default (new_guard_row None) (guard_states d !! a).
Proof.
  unfold lockUpstreamQuotaGuardRowTx. cbn. destruct (bool_decide_reflect (upstream_accounts d !! a = Some provider)) as [Ha|]; [|done].
  intros H. inv_tx H. injection Ht as _ <-. inv_tx H. injection Ht as <- <-. apply tsome_Ok in H as [H ->]. cbn in H |- *.
  destruct (insert_missing_lookup a (new_guard_row None) (guard_states d)) as (v & Hv & Ev). rewrite Hv in H. injection H as <-.
  split; [|done]. unfold insert_missing in *. destruct (guard_states d !! a) as [x|] eqn:Ex; [by destruct d|].
  apply frame_insert; [apply new_guard_row_ok..|]. by rewrite Ex.
Qed.

Section guard_ops.
Context (session_of : string -> string -> bool) (inet_ok : string -> bool).

Lemma guard_audit_Ok op at_ u s ip req ev ty acc md d x d' :
  insert_guard_audit session_of inet_ok op at_ u s ip req ev ty acc md d = Ok (x, d') ->
  guard_frame d d' /\ guard_states d' = guard_states d /\ guard_settings d' = guard_settings d.
Proof.
  unfold insert_guard_audit. intros H. inv_tx H. injection Ht as _ <-. inv_tx H. apply tguard_Ok in Ht as [_ ->]. injection H as _ <-.
  split; [|done]. split; [intros [P R]; by split|]. intros b r Hb. cbn. by exists r.
Qed.

(** A decision makes a row that passes the checks and expires. *)
Lemma decision_columns o previous percent now :
  let d := evaluateUpstreamQuotaGuard o previous percent now in
  if limited d then (exists r, restoreAt d = Some r /\ forall t, resetAt d = Some t -> t < r) /\
    (window d = UpstreamQuotaWindowFiveHour \/ window d = UpstreamQuotaWindowSevenDay)
  else resetAt d = None /\ restoreAt d = None.
Proof.
  cbn zeta. unfold evaluateUpstreamQuotaGuard. fold (guard_loop_end o previous percent now).
  destruct (guard_loop_end_ok o previous percent now) as [L U R T W I]. set (l := guard_loop_end o previous percent now) in *.
  destruct (gl_limited l) eqn:EL; cbn [limited restoreAt window resetAt].
  - split; [|auto]. eexists. split; [done|]. intros t Ht. rewrite Ht.
    assert (t < t + UpstreamQuotaGuardRestoreDelay) by (unfold UpstreamQuotaGuardRestoreDelay, Minute, Second; lia).
    destruct (negb (gl_unknownReset l)); cbn [orb]; [done|].
    destruct (Z.ltb_spec (now + upstreamQuotaGuardUnknownResetHold) (t + UpstreamQuotaGuardRestoreDelay)); lia.
  - split; [|done]. destruct (gl_resetAt l) as [r|] eqn:Er; [|done]. destruct (R r eq_refl) as (_ & w & Hw & Ht & _).
    enough (false = true) by done. apply L. eauto.
Qed.

Lemma decided_row_ok o previous percent now src ch ob nx five seven r :
  src = UpstreamQuotaGuardSourceAuto \/ src = UpstreamQuotaGuardSourceManual -> percent_check five = true -> percent_check seven = true ->
  let row := decided_row (evaluateUpstreamQuotaGuard o previous percent now) src ch ob nx five seven r in
  guard_row_check row = true /\ expires row.
Proof.
  intros Hs H5 H7. cbn zeta. pose proof (decision_columns o previous percent now) as HD.
  set (e := evaluateUpstreamQuotaGuard o previous percent now) in *. cbn zeta in HD. unfold guard_row_check, expires, decided_row. cbn.
  rewrite H5, H7. destruct (limited e).
  - destruct HD as [(x & -> & Hx) Hw]. split; [|done]. destruct (resetAt e) as [t|]; [specialize (Hx t eq_refl); rewrite (proj2 (Z.ltb_lt _ _) Hx)|];
      destruct Hs as [-> | ->], Hw as [-> | ->]; reflexivity.
  - destruct HD as [-> ->]. split; [|done]. by destruct Hs as [-> | ->].
Qed.

Lemma row_ok_parts r : guard_row_check r = true ->
  (g_source r = UpstreamQuotaGuardSourceAuto \/ g_source r = UpstreamQuotaGuardSourceManual) /\
  percent_check (g_fiveHour r) = true /\ percent_check (g_sevenDay r) = true.
Proof.
  unfold guard_row_check. rewrite !andb_true_iff. intros ((((((_ & Hs) & _) & H5) & H7) & _) & _). split; [|done].
  apply orb_true_iff in Hs as [Hs|Hs]; apply bool_decide_eq_true in Hs; auto.
Qed.

Lemma observation_percents o : validUpstreamQuotaObservation o = true -> percent_check (FiveHour o) = true /\ percent_check (SevenDay o) = true.
Proof. unfold validUpstreamQuotaObservation, percent_check. cbn. rewrite andb_true_r. by intros [H5 H7]%andb_true_iff. Qed.

(** Running the statements. *)
Lemma lock_row_run a provider d : upstream_accounts d !! a = Some provider ->
  lockUpstreamQuotaGuardRowTx a provider d =
    Ok (default (new_guard_row None) (guard_states d !! a), set_guard_states (insert_missing a (new_guard_row None) (guard_states d)) d).
Proof.
  intros Ha. unfold lockUpstreamQuotaGuardRowTx. cbn. rewrite bool_decide_true by done. unfold tbind, tmod, tgets, tsome, tret. cbn.
  destruct (insert_missing_lookup a (new_guard_row None) (guard_states d)) as (v & -> & ->). done.
Qed.

Lemma update_guard_row_run op a f d r : guard_states d !! a = Some r -> guard_row_check (f r) = true ->
  update_guard_row op a f d = Ok (tt, set_guard_states (<[a := f r]> (guard_states d)) d).
Proof. intros Hr Hc. unfold update_guard_row. cbn. rewrite Hr. unfold tbind, tguard. by rewrite Hc. Qed.

Lemma rule_audit_run at_ ev acc md d :
  appendUpstreamQuotaGuardAuditTx session_of inet_ok at_ "" "" "" "" ev acc md d =
    Ok (tt, add_guard_audit (GuardAudit at_ None None ev None "upstream_account" acc None md) d).
Proof. reflexivity. Qed.

Lemma rule_audit_cases (b : bool) at_ ev acc md d : exists d',
  (if b then appendUpstreamQuotaGuardAuditTx session_of inet_ok at_ "" "" "" "" ev acc md else tret tt) d = Ok (tt, d') /\
  guard_states d' = guard_states d /\ guard_frame d d'.
Proof.
  destruct b; [|by exists d]. eexists. split; [apply rule_audit_run|]. split; [done|]. split; [intros [P R]; by split|].
  intros a r Hr. by exists r.
Qed.

(** A snapshot update keeps everything else. *)
Definition with_snapshot (o : UpstreamQuotaObservation) (r : upstreamQuotaGuardRow) : upstreamQuotaGuardRow :=
  GuardRow (g_status r) (g_source r) (g_limitedWindow r) (g_resetAt r) (g_restoreAt r) (g_changedAt r)
    (Some (ObservedAt o)) (FiveHour o) (SevenDay o) (g_autoCheckedAt r) (g_nextCheckAt r).

Lemma with_snapshot_ok o r : validUpstreamQuotaObservation o = true -> guard_row_check r = true -> expires r ->
  guard_row_check (with_snapshot o r) = true /\ expires (with_snapshot o r).
Proof.
  intros [H5 H7]%observation_percents Hc He. split; [|done]. unfold guard_row_check in *. cbn. rewrite !andb_true_iff in *.
  destruct Hc as ((((((? & ?) & ?) & ?) & ?) & ?) & ?). auto 10.
Qed.

(** Whether a reading only refreshes the snapshot. *)
Definition manual_reading (p : RecordUpstreamQuotaObservationParams) (current : upstreamQuotaGuardRow) : bool :=
  negb (rp_Automatic p) && bool_decide (g_source current = UpstreamQuotaGuardSourceManual).

Definition recorded_row (p : RecordUpstreamQuotaObservationParams) (o : UpstreamQuotaObservation) (percent at_ : Z)
  (current : upstreamQuotaGuardRow) : upstreamQuotaGuardRow :=
  if manual_reading p current then with_snapshot o current
  else let decision := evaluateUpstreamQuotaGuard o (guard_snapshot current) percent at_ in
    decided_row decision UpstreamQuotaGuardSourceAuto
      (if negb (Bool.eqb (limitedAt current at_) (limited decision)) || negb (bool_decide (g_source current = UpstreamQuotaGuardSourceAuto))
       then Some at_ else g_changedAt current)
      (Some (ObservedAt o)) (Some (nextCheckAt decision)) (FiveHour o) (SevenDay o) current.

Lemma recorded_row_ok p o percent at_ r : validUpstreamQuotaObservation o = true -> guard_row_check r = true -> expires r ->
  guard_row_check (recorded_row p o percent at_ r) = true /\ expires (recorded_row p o percent at_ r) /\
  g_autoCheckedAt (recorded_row p o percent at_ r) = g_autoCheckedAt r.
Proof.
  intros Hv Hc He. unfold recorded_row. destruct (manual_reading p r).
  - by destruct (with_snapshot_ok o r Hv Hc He).
  - destruct (observation_percents o Hv) as [H5 H7]. cbn zeta.
    destruct (decided_row_ok o (guard_snapshot r) percent at_ UpstreamQuotaGuardSourceAuto
      (if negb (Bool.eqb (limitedAt r at_) (limited (evaluateUpstreamQuotaGuard o (guard_snapshot r) percent at_))) ||
          negb (bool_decide (g_source r = UpstreamQuotaGuardSourceAuto)) then Some at_ else g_changedAt r)
      (Some (ObservedAt o)) (Some (nextCheckAt (evaluateUpstreamQuotaGuard o (guard_snapshot r) percent at_)))
      (FiveHour o) (SevenDay o) r (or_introl eq_refl) H5 H7) as [Rc Re]. done.
Qed.

(** Recording a reading commits, and writes exactly that row. *)
Lemma record_body_run p o at_ d r : guard_ok d -> validUpstreamQuotaObservation o = true ->
  upstream_accounts d !! rp_AccountID p = Some (rp_Provider p) ->
  r = default (new_guard_row None) (guard_states d !! rp_AccountID p) ->
  let row := recorded_row p o (SafetyPercent (guard_settings d)) at_ r in
  exists d', record_body session_of inet_ok p o at_ d = Ok (guard_state (rp_AccountID p) row at_, d') /\
    guard_frame d d' /\ guard_states d' !! rp_AccountID p = Some row.
Proof.
  intros G Hv Ha Hr. cbn zeta. unfold record_body. rewrite tgets_bind, (tbind_run _ _ _ _ _ (lock_row_run _ _ _ Ha)), <- Hr.
  assert (Hrow : guard_row_check r = true /\ expires r).
  { subst r. destruct (guard_states d !! rp_AccountID p) as [x|] eqn:Ex; [by eapply (go_rows d G)|]. apply new_guard_row_ok. }
  destruct Hrow as [Hc He]. destruct (recorded_row_ok p o (SafetyPercent (guard_settings d)) at_ r Hv Hc He) as (Rc & Re & Rk).
  pose proof (lock_row_run _ _ _ Ha) as HL. pose proof HL as (F1 & L1 & _)%lock_row_Ok. rewrite <- Hr in L1.
  set (d1 := set_guard_states (insert_missing (rp_AccountID p) (new_guard_row None) (guard_states d)) d) in *.
  set (row := recorded_row p o (SafetyPercent (guard_settings d)) at_ r) in *.
  set (d2 := set_guard_states (<[rp_AccountID p := row]> (guard_states d1)) d1).
  assert (F2 : guard_frame d1 d2) by (apply frame_insert; [done|done|intros x; rewrite L1; by intros [= <-]]).
  assert (L2 : guard_states d2 !! rp_AccountID p = Some row) by (cbn; by rewrite lookup_insert_eq).
  unfold row, recorded_row, manual_reading in *. destruct (negb (rp_Automatic p) && bool_decide (g_source r = UpstreamQuotaGuardSourceManual)) eqn:EM.
  - rewrite (tbind_run _ _ _ _ _ (update_guard_row_run _ _ (with_snapshot o) _ _ L1 Rc)). fold d2.
    rewrite tgets_bind, (tbind_run _ _ _ _ _ (tsome_run _ _ _ _ L2)). exists d2. split; [done|]. split; [by transitivity d1|done].
  - cbn zeta in *. set (dec := evaluateUpstreamQuotaGuard o (guard_snapshot r) _ at_) in *.
    match goal with |- context [tbind ?m _ d1] =>
      assert (HM : exists d3, m d1 = Ok (tt, d3) /\ guard_states d3 = guard_states d2 /\ guard_frame d2 d3) end.
    { rewrite (tbind_run _ _ _ _ _ (update_guard_row_run _ _ _ _ _ L1 Rc)). fold d2. apply rule_audit_cases. }
    destruct HM as (d3 & HM & S3 & F3). rewrite (tbind_run _ _ _ _ _ HM), tgets_bind, S3, (tbind_run _ _ _ _ _ (tsome_run _ _ _ _ L2)).
    exists d3. split; [done|]. rewrite S3. split; [|done]. transitivity d1; [done|]. by transitivity d2.
Qed.
End guard_ops.

Section guard_steps.
Context (session_of : string -> string -> bool) (inet_ok : string -> bool).

Lemma status_body_frame p provider at_ d st d' : status_body session_of inet_ok p provider at_ d = Ok (st, d') -> guard_frame d d'.
Proof.
  unfold status_body. intros H. inv_tx H. apply lock_row_Ok in Ht as (F1 & L1 & _). destruct (Bool.eqb _ _); [by injection H as _ <-|].
  do 4 inv_tx H. injection H as _ <-. apply tsome_Ok in Ht2 as [_ ->]. injection Ht1 as _ <-.
  apply guard_audit_Ok in Ht0 as (F3 & _). apply update_guard_row_Ok in Ht as [F2 _].
  - transitivity s; [done|]. by transitivity s0.
  - intros r Hr. split; [done|]. intros [=].
Qed.

Lemma reapply_frame percent at_ rows counts d x d' :
  reapply percent at_ rows counts d = Ok (x, d') -> guard_frame d d'.
Proof.
  revert counts d. induction rows as [|[a row] rows IH]; intros counts d; cbn [reapply]; [by intros [= _ <-]|].
  destruct (guard_snapshot row) as [o|]; [|done]. intros H. inv_tx H. apply update_guard_row_Ok in Ht as [F1 _].
  - transitivity s; [done|]. by eapply IH.
  - intros r Hr. split; [done|]. intros _ Hs. cbn in Hs |- *. pose proof (decision_columns o None percent at_) as HD. cbn zeta in HD.
    destruct (limited _); [|done]. by destruct HD as [(t & -> & _) _].
Qed.

Lemma settings_body_frame p at_ d st d' : 0 <= gp_SafetyPercent p <= MaxUpstreamQuotaGuardPercent ->
  settings_body session_of inet_ok p at_ d = Ok (st, d') -> guard_frame d d'.
Proof.
  intros Hp. unfold settings_body. rewrite tgets_bind. intros H. inv_tx H. apply tguard_Ok in Ht as [_ ->]. rewrite tmod_bind, tgets_bind in H.
  inv_tx H. destruct a0 as [li re]. inv_tx H. injection H as _ <-. apply guard_audit_Ok in Ht0 as (F2 & _). apply reapply_frame in Ht.
  etransitivity; [|etransitivity; [exact Ht|exact F2]]. split; [intros [P R]; by split|]. intros b r Hr. by exists r.
Qed.

(** Everything that writes the tables; synchronisation adds accounts and users
    but never removes a row of the guard. *)
Inductive guard_op : guard_db -> guard_db -> Prop :=
| op_record d p clock : guard_op d (RecordUpstreamQuotaObservation session_of inet_ok p clock d).2
| op_status d provider p clock : guard_op d (SetUpstreamQuotaGuardStatus session_of inet_ok provider p clock d).2
| op_settings d p clock : guard_op d (SetUpstreamQuotaGuardSettings session_of inet_ok p clock d).2
| op_sync d users accounts : guard_op d (GuardDB users accounts (guard_settings d) (guard_states d) (guard_audits d)).

(** A history: the table and the automatic checks granted so far, newest first. *)
Inductive guard_history : guard_db -> list (string * Z) -> Prop :=
| gh_start users accounts at_ : guard_history (GuardDB users accounts (GuardSettings DefaultUpstreamQuotaGuardPercent 1 at_) ∅ []) []
| gh_op d d' log : guard_history d log -> guard_op d d' -> guard_history d' log
| gh_claim d log a at_ clock c d' : guard_history d log -> ClaimUpstreamQuotaCheck a at_ clock d = (Ok c, d') ->
    guard_history d' (if Claimed c then (a, normalizedGuardTime at_ clock) :: log else log).

Lemma withTx_frame {A} (m : tx guard_db A) d : (forall x d', m d = Ok (x, d') -> guard_frame d d') -> guard_frame d (withTx m d).2.
Proof. intros H. unfold withTx. destruct (m d) as [[x d']|] eqn:E; cbn; [by eapply H|reflexivity]. Qed.

Lemma record_frame p clock d : guard_ok d -> guard_frame d (RecordUpstreamQuotaObservation session_of inet_ok p clock d).2.
Proof.
  intros G. unfold RecordUpstreamQuotaObservation. destruct (_ || _) eqn:E; [reflexivity|]. rewrite !orb_false_iff, !negb_false_iff in E.
  destruct E as [_ Hv]. apply withTx_frame. intros x d' H. set (o := if is_zero_time _ then _ else _) in H.
  assert (Ho : validUpstreamQuotaObservation o = true) by (subst o; by destruct (is_zero_time _)).
  assert (Ha : upstream_accounts d !! rp_AccountID p = Some (rp_Provider p)).
  { unfold record_body in H. rewrite tgets_bind in H. inv_tx H. by apply lock_row_Ok in Ht as (_ & _ & ? & _). }
  destruct (record_body_run session_of inet_ok p o (normalizedGuardTime (rp_At p) clock) d _ G Ho Ha eq_refl) as (d2 & E2 & F & _).
  rewrite E2 in H. by injection H as _ <-.
Qed.

Lemma guard_op_frame d d' : guard_ok d -> guard_op d d' -> guard_frame d d'.
Proof.
  intros G Hop. destruct Hop as [d p clock|d provider p clock|d p clock|d users accounts].
  - by apply record_frame.
  - unfold SetUpstreamQuotaGuardStatus. destruct (_ || _); [reflexivity|]. apply withTx_frame. intros x d'. apply status_body_frame.
  - unfold SetUpstreamQuotaGuardSettings. destruct (_ || _) eqn:E; [reflexivity|]. rewrite !orb_false_iff in E. destruct E as [[E1 E2] _].
    apply withTx_frame. intros x d'. apply settings_body_frame. lia.
  - split; [intros [P R]; by split|]. intros b r Hr. by exists r.
Qed.

(** A granted check records its time, at least the minimum interval later. *)
Lemma guard_claim_Ok a at_ clock d c d' : ClaimUpstreamQuotaCheck a at_ clock d = (Ok c, d') ->
  (guard_ok d -> guard_ok d') /\
  if Claimed c then
    let now := normalizedGuardTime at_ clock in
    (exists r', guard_states d' !! a = Some r' /\ g_autoCheckedAt r' = Some now) /\
    (forall b, b <> a -> guard_states d' !! b = guard_states d !! b) /\
    (forall r t, guard_states d !! a = Some r -> g_autoCheckedAt r = Some t -> t + UpstreamQuotaGuardMinInterval <= now) /\
    (forall r t, guard_states d !! a = Some r -> g_nextCheckAt r = Some t -> t <= now)
  else d' = d.
Proof.
  unfold ClaimUpstreamQuotaCheck. destruct (negb (upstreamAccountIDPattern a)); [done|]. cbn zeta. set (now := normalizedGuardTime at_ clock).
  destruct (upstream_accounts d !! a) as [provider|]; [|by intros [= <- <-]]. destruct (negb (guardedUpstreamProvider provider)); [by intros [= <- <-]|].
  destruct (guard_states d !! a) as [g|] eqn:Eg.
  - match goal with |- context [if ?b then _ else _] => destruct b eqn:ED end; [|by intros [= <- <-]]. apply andb_true_iff in ED as [E1 E2].
    intros [= <- <-]. cbn [Claimed guard_states set_guard_states]. split.
    + intros [P R]. split; [done|]. cbn. intros b r. destruct (decide (b = a)) as [->|]; [|rewrite lookup_insert_ne by done; apply R].
      rewrite lookup_insert_eq. intros [= <-]. destruct (R a g Eg) as [Rc Re]. split; [exact Rc|exact Re].
    + split; [rewrite lookup_insert_eq; by eexists|]. split; [intros b Hb; by rewrite lookup_insert_ne|].
      split; intros r t [= <-] Ht; [rewrite Ht in E2|rewrite Ht in E1]; lia.
  - intros [= <- <-]. cbn [Claimed guard_states set_guard_states]. split.
    + intros [P R]. split; [done|]. cbn. intros b r. destruct (decide (b = a)) as [->|]; [|rewrite lookup_insert_ne by done; apply R].
      rewrite lookup_insert_eq. intros [= <-]. apply new_guard_row_ok.
    + split; [rewrite lookup_insert_eq; by eexists|]. split; [intros b Hb; by rewrite lookup_insert_ne|]. done.
Qed.

Lemma guard_history_ok d log : guard_history d log -> guard_ok d.
Proof.
  induction 1 as [users accounts at_|d d' log H IH Hop|d log a at_ clock c d' H IH HC].
  - split; [cbn; unfold DefaultUpstreamQuotaGuardPercent, MaxUpstreamQuotaGuardPercent; lia|]. cbn. intros a r Hr. by rewrite lookup_empty in Hr.
  - by apply (guard_op_frame d d' IH Hop).
  - by apply guard_claim_Ok in HC as [HG _]; apply HG.
Qed.

(** Every granted check is no later than the recorded one. *)
Lemma guard_history_recorded d log a t : guard_history d log -> (a, t) ∈ log ->
  exists r tn, guard_states d !! a = Some r /\ g_autoCheckedAt r = Some tn /\ t <= tn.
Proof.
  intros H. revert a t. induction H as [users accounts at_|d d' log H IH Hop|d log b at_ clock c d' H IH HC]; intros a t Hin.
  - by apply elem_of_nil in Hin.
  - destruct (IH a t Hin) as (r & tn & Hr & Hk & Hle). destruct (guard_op_frame d d' (guard_history_ok _ _ H) Hop) as [_ K].
    destruct (K a r Hr) as (r' & Hr' & E). exists r', tn. by rewrite E.
  - apply guard_claim_Ok in HC as [_ HC]. destruct (Claimed c); [|subst d'; by apply IH]. destruct HC as ((r' & Hr' & Hk') & Hne & Hold & _).
    destruct (decide (a = b)) as [->|Hab].
    + exists r', (normalizedGuardTime at_ clock). split; [done|]. split; [done|]. apply elem_of_cons in Hin as [[= ->]|Hin]; [done|].
      destruct (IH b t Hin) as (r & tn & Hr & Hk & Hle). specialize (Hold r tn Hr Hk).
      unfold UpstreamQuotaGuardMinInterval, Minute, Second in Hold. lia.
    + apply elem_of_cons in Hin as [[= -> ->]|Hin]; [done|]. destruct (IH a t Hin) as (r & tn & Hr & Hk & Hle). exists r, tn. by rewrite Hne.
Qed.
End guard_steps.

(** [C31] Automatic checks of one account are never closer than ten minutes, in
    whatever order readings, manual changes, new settings and the claims of any
    number of instances reach the tables, and whatever clock each claim read. *)
Theorem automatic_checks_apart session_of inet_ok (d : guard_db) (log l1 l2 l3 : list (string * Z)) (a : string) (t1 t2 : Z) :
  guard_history session_of inet_ok d log -> log = l1 ++ (a, t2) :: l2 ++ (a, t1) :: l3 -> t1 + UpstreamQuotaGuardMinInterval <= t2.
Proof.
  intros H. revert l1. induction H as [users accounts at_|d d' log H IH Hop|d log b at_ clock c d' H IH HC]; intros l1 E.
  - by destruct l1.
  - by eapply IH.
  - apply guard_claim_Ok in HC as [_ HC]. destruct (Claimed c); [|by eapply IH]. destruct HC as (_ & _ & Hold & _).
    destruct l1 as [|x l1]; [|injection E as _ E; by eapply IH]. injection E as -> <- E.
    destruct (guard_history_recorded session_of inet_ok d log a t1 H) as (r & tn & Hr & Hk & Hle); [rewrite E; set_solver|].
    specialize (Hold r tn Hr Hk). lia.
Qed.

Lemma evaluate_limited o previous percent now :
  let d := evaluateUpstreamQuotaGuard o previous percent now in
  (limited d = true <-> exists w, reported o w /\ tripped percent now w = true) /\
  (limited d = true -> exists r, restoreAt d = Some r /\ now < r).
Proof.
  cbn zeta. unfold evaluateUpstreamQuotaGuard. fold (guard_loop_end o previous percent now).
  destruct (guard_loop_end_ok o previous percent now) as [L _ R _ _ _]. set (l := guard_loop_end o previous percent now) in *.
  setoid_rewrite windows_of_spec in L. destruct (gl_limited l); cbn [limited restoreAt]; [|by split].
  split; [done|]. intros _. eexists. split; [done|].
  assert (now < now + upstreamQuotaGuardUnknownResetHold) by (unfold upstreamQuotaGuardUnknownResetHold, Hour, Minute, Second; lia).
  destruct (gl_resetAt l) as [r|]; [|done]. destruct (R r eq_refl) as [Hr _].
  assert (0 < UpstreamQuotaGuardRestoreDelay) by (unfold UpstreamQuotaGuardRestoreDelay, Minute, Second; lia).
  destruct (negb (gl_unknownReset l) || _); lia.
Qed.

(** The observation that is stored: a zero time is the time of the call. *)
Definition stored_observation (p : RecordUpstreamQuotaObservationParams) (at_ : Z) : UpstreamQuotaObservation :=
  let o := rp_Observation p in if is_zero_time (ObservedAt o) then Observation at_ (FiveHour o) (SevenDay o) else o.

(** In every reachable state each row satisfies the constraints of its
    table, and a limit the rule has set always has an end; so recording a valid
    reading of a known account never fails. An automatic reading, or any
    reading of an account without a manual state, puts the account out of
    allocation exactly when a current window has at most the safety percentage
    left; otherwise it only refreshes the snapshot of the manual state. *)
Theorem observation_applied session_of inet_ok (d : guard_db) log (p : RecordUpstreamQuotaObservationParams) (clock : Z) :
  guard_history session_of inet_ok d log ->
  guardedUpstreamProvider (rp_Provider p) = true -> upstreamAccountIDPattern (rp_AccountID p) = true ->
  validUpstreamQuotaObservation (rp_Observation p) = true -> upstream_accounts d !! rp_AccountID p = Some (rp_Provider p) ->
  let at_ := normalizedGuardTime (rp_At p) clock in
  let o := stored_observation p at_ in
  let current := default (new_guard_row None) (guard_states d !! rp_AccountID p) in
  exists row d', RecordUpstreamQuotaObservation session_of inet_ok p clock d = (Ok (guard_state (rp_AccountID p) row at_), d') /\
    guard_states d' !! rp_AccountID p = Some row /\ guard_row_check row = true /\ expires row /\ guard_snapshot row = Some o /\
    if manual_reading p current then g_source row = UpstreamQuotaGuardSourceManual /\ forall t, limitedAt row t = limitedAt current t
    else g_source row = UpstreamQuotaGuardSourceAuto /\
      (upstreamQuotaGuardHeld (rp_AccountID p) at_ d' = true <->
       exists w, reported o w /\ tripped (SafetyPercent (guard_settings d)) at_ w = true).
Proof.
  intros H Hg Hi Hv Ha. cbn zeta. set (at_ := normalizedGuardTime (rp_At p) clock). set (o := stored_observation p at_).
  set (current := default (new_guard_row None) (guard_states d !! rp_AccountID p)). pose proof (guard_history_ok _ _ _ _ H) as G.
  assert (Ho : validUpstreamQuotaObservation o = true) by (subst o; unfold stored_observation; by destruct (is_zero_time _)).
  destruct (record_body_run session_of inet_ok p o at_ d current G Ho Ha eq_refl) as (d' & E & [FG _] & L). cbn zeta in E, L.
  set (row := recorded_row p o (SafetyPercent (guard_settings d)) at_ current) in *. exists row, d'.
  split. { unfold RecordUpstreamQuotaObservation. rewrite Hg, Hi, Hv. cbn [negb orb]. fold at_. fold (stored_observation p at_). fold o. by apply withTx_commit. }
  split; [done|]. destruct (go_rows d' (FG G) _ _ L) as [Hc He]. split; [done|]. split; [done|].
  unfold upstreamQuotaGuardHeld. rewrite L. unfold row, recorded_row. clearbody o at_. destruct (manual_reading p current) eqn:EM.
  - split; [by destruct o|]. split; [|done]. unfold manual_reading in EM. apply andb_true_iff in EM as [_ EM]. by apply bool_decide_eq_true in EM.
  - cbn zeta. destruct (evaluate_limited o (guard_snapshot current) (SafetyPercent (guard_settings d)) at_) as [HL HR].
    set (dec := evaluateUpstreamQuotaGuard o _ _ at_) in *. split; [by destruct o|]. split; [done|]. cbn. rewrite <- HL. clearbody dec.
    destruct (limited dec); [destruct (HR eq_refl) as (r & -> & Hr); split; [done|]; intros _; by rewrite (proj2 (Z.ltb_lt _ _) Hr)|done].
Qed.

(** Example: an account with 4% of its weekly window left. *)
Definition guard_example : guard_db :=
  GuardDB {["owner"]} {["0123456789abcdef" := UpstreamProviderCodex]} (GuardSettings DefaultUpstreamQuotaGuardPercent 1 7) ∅ [].
Definition reading_example : RecordUpstreamQuotaObservationParams :=
  RecordParams UpstreamProviderCodex "0123456789abcdef"
    (Observation 0 (Some (Window 40 (Some (3 * Hour)))) (Some (Window 96 (Some (50 * Hour))))) true Hour.
Definition any_session (_ _ : string) : bool := true.
Definition any_address (_ : string) : bool := true.

Lemma observation_applied_witness :
  guard_history any_session any_address guard_example [] /\
  exists row d', RecordUpstreamQuotaObservation any_session any_address reading_example 0 guard_example =
      (Ok (guard_state "0123456789abcdef" row Hour), d') /\ g_source row = UpstreamQuotaGuardSourceAuto /\
    upstreamQuotaGuardHeld "0123456789abcdef" Hour d' = true.
Proof.
  assert (H : guard_history any_session any_address guard_example []) by (apply (gh_start any_session any_address)).
  split; [exact H|].
  pose proof (observation_applied any_session any_address guard_example [] reading_example 0 H eq_refl eq_refl eq_refl ltac:(vm_compute; reflexivity)) as HO.
  cbn zeta in HO. destruct HO as (row & d' & E & _ & _ & _ & _ & HS). exists row, d'. split; [exact E|].
  replace (manual_reading reading_example (default (new_guard_row None) (guard_states guard_example !! rp_AccountID reading_example)))
    with false in HS by reflexivity.
  destruct HS as [HS HH]. split; [exact HS|]. apply HH. exists (Window 96 (Some (50 * Hour))). split; [right; reflexivity|vm_compute; reflexivity].
Defined.

Lemma automatic_checks_apart_witness :
  exists d log, guard_history any_session any_address d log /\ log = [("0123456789abcdef", 2 * Hour); ("0123456789abcdef", Hour)] /\
    Hour + UpstreamQuotaGuardMinInterval <= 2 * Hour.
Proof.
  assert (H0 : guard_history any_session any_address guard_example []) by (apply (gh_start any_session any_address)).
  destruct (ClaimUpstreamQuotaCheck "0123456789abcdef" Hour 0 guard_example) as [[c1|e] d1] eqn:E1; [|vm_compute in E1; discriminate].
  pose proof (gh_claim _ _ _ _ _ _ _ _ _ H0 E1) as H1. assert (C1 : Claimed c1 = true) by (vm_compute in E1; injection E1 as <- <-; reflexivity).
  rewrite C1 in H1. destruct (ClaimUpstreamQuotaCheck "0123456789abcdef" (2 * Hour) 0 d1) as [[c2|e] d2] eqn:E2;
    [|vm_compute in E1; injection E1 as <- <-; vm_compute in E2; discriminate].
  pose proof (gh_claim _ _ _ _ _ _ _ _ _ H1 E2) as H2.
  assert (C2 : Claimed c2 = true) by (vm_compute in E1; injection E1 as <- <-; vm_compute in E2; injection E2 as <- <-; reflexivity).
  rewrite C2 in H2. exists d2, [("0123456789abcdef", 2 * Hour); ("0123456789abcdef", Hour)]. split; [exact H2|]. split; [reflexivity|].
  exact (automatic_checks_apart _ _ _ _ [] [] [] _ _ _ H2 eq_refl).
Defined.
