(* ===== verification/Upstreams.v ===== *)
(** * Upstream accounts ([internal/store/upstream_accounts.go], [upstream_account_access.go],
      [user_upstream_access.go], [upstream_concurrency.go], [upstream_allocation.go])

    The pool of provider accounts that requests are forwarded to: the
    synchronised metadata, the owner's local preferences, who may use an
    account, and the questions the sidecar asks about candidates.  The quota
    guard's tables are part of this store, so that its operations run here.
    [github.com/google/uuid] is the parameter [uuid_parse]; the digest in the
    audit metadata is [sha256_hex].  Timestamps are at the precision PostgreSQL
    stores. *)
From Stdlib Require Import Ascii.
From S2P Require Import Prelude GoStrings GoTime Amount Store Money Funding BillingTables Accounts QuotaGuard.

Definition UpstreamProviderAntigravity : string := "antigravity".
Definition MaxUpstreamAllocationCandidates : Z := 256.
Definition MaxUpstreamAllocationWeight : Z := 2 ^ 31 - 1.
Definition MaxUpstreamConcurrentLimit : Z := 2 ^ 31 - 1.

Definition upstreamProviderName (provider : string) : string := if empty provider then UpstreamProviderCodex else provider.
Definition isUpstreamProvider (provider : string) : bool :=
  bool_decide (provider ∈ [UpstreamProviderCodex; UpstreamProviderAntigravity; UpstreamProviderAnthropic]).
Definition validUpstreamProvider (provider : string) : bool := isUpstreamProvider (upstreamProviderName provider).

(** ** Account metadata *)

Record UpstreamAccountSnapshot := Snapshot {
  sn_ID : string;
  sn_DisplayName : string;
  sn_MaskedEmail : string;
  sn_Plan : string;
  sn_Status : string;
  sn_LastSyncedAt : Z;
}.

Definition normalizeUpstreamAccountID (value : string) : result store_error string :=
  let value := trim_space value in
  if empty value then Ok "" else
  if negb (upstreamAccountIDPattern value) then Err (ErrInvalid "invalid upstream account id") else Ok value.

Definition is_alnum (c : ascii) : bool :=
  let n := byte_of c in ((65 <=? n) && (n <=? 90)) || ((97 <=? n) && (n <=? 122)) || ((48 <=? n) && (n <=? 57)).
Definition is_lower_alnum (c : ascii) : bool :=
  let n := byte_of c in ((97 <=? n) && (n <=? 122)) || ((48 <=? n) && (n <=? 57)).
Fixpoint last_char (c : ascii) (s : string) : ascii :=
  match s with EmptyString => c | String d rest => last_char d rest end.

(** [[A-Za-z0-9](?:[A-Za-z0-9.-]{0,251}[A-Za-z0-9])?]. *)
Definition email_domain (s : string) : bool :=
  match s with
  | EmptyString => false
  | String c rest =>
      is_alnum c && is_alnum (last_char c rest) && (String.length rest <=? 252)%nat &&
      str_forall (fun x => is_alnum x || bool_decide (x = "."%char) || bool_decide (x = "-"%char)) rest
  end.
Definition upstreamMaskedEmailPattern (s : string) : bool :=
  match s with
  | String c (String "*" (String "*" (String "*" (String "@" domain)))) => is_alnum c && email_domain domain
  | _ => false
  end.
Definition validMaskedEmail (value : string) : bool :=
  let n := Z.of_nat (String.length value) in (7 <=? n) && (n <=? 254) && upstreamMaskedEmailPattern value.

(** [^[a-z0-9][a-z0-9_-]{0,31}$]. *)
Definition upstreamDisplayNamePattern (s : string) : bool :=
  match s with
  | EmptyString => false
  | String c rest => is_lower_alnum c && (String.length rest <=? 31)%nat &&
      str_forall (fun x => is_lower_alnum x || bool_decide (x = "_"%char) || bool_decide (x = "-"%char)) rest
  end.

Definition UpstreamAccountStatusAvailable : string := "available".
Definition UpstreamAccountStatusUnavailable : string := "unavailable".

Definition normalize_plan (plan : string) : result store_error string :=
  let plan := to_lower (trim_space plan) in
  if bool_decide (plan ∈ [""; "unknown"]) then Ok "unknown" else
  if bool_decide (plan ∈ ["plus"; "chatgpt plus"]) then Ok "plus" else
  if bool_decide (plan ∈ ["pro"; "chatgpt pro"]) then Ok "pro" else
  Err (ErrInvalid "invalid upstream account plan").
Definition normalize_status (status : string) : result store_error string :=
  let status := to_lower (trim_space status) in
  if bool_decide (status ∈ [UpstreamAccountStatusAvailable; "active"; "enabled"]) then Ok UpstreamAccountStatusAvailable else
  if bool_decide (status ∈ [""; UpstreamAccountStatusUnavailable; "inactive"; "disabled"]) then Ok UpstreamAccountStatusUnavailable else
  Err (ErrInvalid "invalid upstream account status").

Definition normalizeUpstreamAccountSnapshot (v : UpstreamAccountSnapshot) : result store_error UpstreamAccountSnapshot :=
  match normalizeUpstreamAccountID (sn_ID v) with
  | Err _ => Err (ErrInvalid "invalid upstream account snapshot id")
  | Ok id =>
      if empty id then Err (ErrInvalid "invalid upstream account snapshot id") else
      let displayName := trim_space (sn_DisplayName v) in
      if negb (empty displayName) && negb (upstreamDisplayNamePattern displayName)
      then Err (ErrInvalid "invalid upstream account display name") else
      let maskedEmail := trim_space (sn_MaskedEmail v) in
      if negb (validMaskedEmail maskedEmail) && negb (empty maskedEmail && negb (empty displayName))
      then Err (ErrInvalid "upstream email is not masked") else
      let! plan := normalize_plan (sn_Plan v) in
      let! status := normalize_status (sn_Status v) in
      Ok (Snapshot id displayName maskedEmail plan status (sn_LastSyncedAt v))
  end.

(** ** Tables *)

Record upstream_account := {
  ac_provider : string;
  ac_display_name : string;
  ac_alias : string;
  ac_masked_email : string;
  ac_plan : string;
  ac_status : string;
  ac_last_synced : option Z;
  ac_created_at : Z;
  ac_updated_at : Z;
  ac_weight : Z;
  ac_limit : Z;
  ac_access_mode : string;
}.

(** [ud_users] holds the status of a user; [ud_grants] the authorised users of
    an account; [ud_modes] and [ud_members] the scope of a user for a provider;
    [ud_ledger] is [billing_ledger_entries]. *)
Record upstream_db := UpstreamDB {
  ud_users : gmap string string;
  ud_accounts : gmap string upstream_account;
  ud_grants : gmap string (gset string);
  ud_modes : gmap (string * string) string;
  ud_members : gmap (string * string) (gset string);
  ud_ledger : list ledger_row;
  ud_guard_settings : UpstreamQuotaGuardSettings;
  ud_guard_states : gmap string upstreamQuotaGuardRow;
  ud_audits : list guard_audit;
}.

Definition set_upstream_accounts v d := UpstreamDB (ud_users d) v (ud_grants d) (ud_modes d) (ud_members d) (ud_ledger d) (ud_guard_settings d) (ud_guard_states d) (ud_audits d).
Definition set_grants v d := UpstreamDB (ud_users d) (ud_accounts d) v (ud_modes d) (ud_members d) (ud_ledger d) (ud_guard_settings d) (ud_guard_states d) (ud_audits d).
Definition set_modes v d := UpstreamDB (ud_users d) (ud_accounts d) (ud_grants d) v (ud_members d) (ud_ledger d) (ud_guard_settings d) (ud_guard_states d) (ud_audits d).
Definition set_members v d := UpstreamDB (ud_users d) (ud_accounts d) (ud_grants d) (ud_modes d) v (ud_ledger d) (ud_guard_settings d) (ud_guard_states d) (ud_audits d).

(** The tables of the quota guard, and its transactions on this store. *)
Definition guard_of (d : upstream_db) : guard_db :=
  GuardDB (dom (ud_users d)) (ac_provider <$> ud_accounts d) (ud_guard_settings d) (ud_guard_states d) (ud_audits d).
Definition put_guard (g : guard_db) (d : upstream_db) : upstream_db :=
  UpstreamDB (ud_users d) (ud_accounts d) (ud_grants d) (ud_modes d) (ud_members d) (ud_ledger d) (guard_settings g) (guard_states g) (guard_audits g).
Definition in_guard {A} (m : tx guard_db A) : tx upstream_db A := tzoom guard_of put_guard m.

(** Read through the setters. *)
Ltac utables :=
  cbn [set_upstream_accounts set_grants set_modes set_members guard_of put_guard ud_users ud_accounts ud_grants ud_modes ud_members
       ud_ledger ud_guard_settings ud_guard_states ud_audits guard_users upstream_accounts guard_settings guard_states guard_audits] in *.

(** The CHECK constraints of [upstream_accounts]. *)
Definition upstream_account_check (id : string) (a : upstream_account) : bool :=
  upstreamAccountIDPattern id && isUpstreamProvider (ac_provider a) &&
  (empty (ac_display_name a) || upstreamDisplayNamePattern (ac_display_name a)) &&
  (empty (ac_masked_email a) || validMaskedEmail (ac_masked_email a)) &&
  bool_decide (ac_plan a ∈ ["plus"; "pro"; "unknown"]) && bool_decide (ac_status a ∈ ["available"; "unavailable"]) &&
  (ac_created_at a <=? ac_updated_at a) && (0 <=? ac_weight a) && (ac_weight a <=? 2 ^ 31 - 1) &&
  (0 <? ac_limit a) && (ac_limit a <=? 2 ^ 31 - 1) && bool_decide (ac_access_mode a ∈ ["shared"; "exclusive"]).

(** A new row: local preferences take their column defaults. *)
Definition new_upstream_account (provider displayName maskedEmail plan status : string) (lastSynced : option Z) (at_ : Z) : upstream_account :=
  {| ac_provider := provider; ac_display_name := displayName; ac_alias := ""; ac_masked_email := maskedEmail; ac_plan := plan;
     ac_status := status; ac_last_synced := lastSynced; ac_created_at := at_; ac_updated_at := at_; ac_weight := 1; ac_limit := 1;
     ac_access_mode := "shared" |}.
Definition with_metadata (displayName maskedEmail plan status : string) (lastSynced : option Z) (at_ : Z) (a : upstream_account) : upstream_account :=
  {| ac_provider := ac_provider a; ac_display_name := displayName; ac_alias := ac_alias a; ac_masked_email := maskedEmail;
     ac_plan := plan; ac_status := status; ac_last_synced := lastSynced; ac_created_at := ac_created_at a; ac_updated_at := at_;
     ac_weight := ac_weight a; ac_limit := ac_limit a; ac_access_mode := ac_access_mode a |}.
Definition with_preferences (weight limit : Z) (mode : string) (a : upstream_account) : upstream_account :=
  {| ac_provider := ac_provider a; ac_display_name := ac_display_name a; ac_alias := ac_alias a; ac_masked_email := ac_masked_email a;
     ac_plan := ac_plan a; ac_status := ac_status a; ac_last_synced := ac_last_synced a; ac_created_at := ac_created_at a;
     ac_updated_at := ac_updated_at a; ac_weight := weight; ac_limit := limit; ac_access_mode := mode |}.

Definition save_account (operation id : string) (a : upstream_account) : tx upstream_db unit :=
  tguard (upstream_account_check id a) (ErrInvalid operation) ;;
  tmod (fun d => set_upstream_accounts (<[id := a]> (ud_accounts d)) d).

(** [SELECT ... WHERE id = $1 AND provider = $2 FOR UPDATE]. *)
Definition lock_account (operation provider id : string) : tx upstream_db upstream_account :=
  let* rows := tgets ud_accounts in
  let* a := tsome operation (rows !! id) in
  if bool_decide (ac_provider a = provider) then tret a else tfail (ErrNotFound operation).

(** ** Synchronisation *)

Definition or_clock (at_ clock : Z) : Z := if is_zero_time at_ then clock else at_.

Definition EnsureUpstreamAccount (provider : string) (clock : Z) (id : string) (at_ : Z) (d : upstream_db) : result store_error unit * upstream_db :=
  match normalizeUpstreamAccountID id with
  | Err _ => (Err (ErrInvalid "invalid upstream account id"), d)
  | Ok id =>
      if empty id then (Err (ErrInvalid "invalid upstream account id"), d) else
      let at_ := or_clock at_ clock in
      match ud_accounts d !! id with
      | Some a =>
          if bool_decide (ac_provider a = upstreamProviderName provider) then (Ok tt, d)
          else (Err (ErrConflict "upstream account belongs to another provider"), d)
      | None => withTx (save_account "ensure upstream account" id
          (new_upstream_account (upstreamProviderName provider) "" "" "unknown" "unavailable" None at_)) d
      end
  end.

Definition ensureUsageUpstreamAccount (provider : string) (clock : Z) (id : string) (at_ : Z) (d : upstream_db) : result store_error unit * upstream_db :=
  match ud_accounts d !! id with
  | Some a =>
      if negb (empty provider) && negb (bool_decide (ac_provider a = upstreamProviderName provider))
      then (Err (ErrConflict "usage account belongs to another provider"), d) else (Ok tt, d)
  | None => EnsureUpstreamAccount provider clock id at_ d
  end.

Fixpoint normalize_snapshots (at_ : Z) (seen : list string) (accounts : list UpstreamAccountSnapshot) : result store_error (list UpstreamAccountSnapshot) :=
  match accounts with
  | [] => Ok []
  | account :: rest =>
      let! v := normalizeUpstreamAccountSnapshot account in
      if bool_decide (sn_ID v ∈ seen) then Err (ErrInvalid "duplicate upstream account id") else
      let v := Snapshot (sn_ID v) (sn_DisplayName v) (sn_MaskedEmail v) (sn_Plan v) (sn_Status v) (or_clock (sn_LastSyncedAt v) at_) in
      let! vs := normalize_snapshots at_ (sn_ID v :: seen) rest in
      Ok (v :: vs)
  end.

Definition sync_account (provider : string) (at_ : Z) (v : UpstreamAccountSnapshot) : tx upstream_db unit :=
  let* rows := tgets ud_accounts in
  match rows !! sn_ID v with
  | None => save_account "synchronize upstream account" (sn_ID v)
      (new_upstream_account provider (sn_DisplayName v) (sn_MaskedEmail v) (sn_Plan v) (sn_Status v) (Some (sn_LastSyncedAt v)) at_)
  | Some a =>
      if negb (bool_decide (ac_provider a = provider)) then tfail (ErrConflict "upstream account belongs to another provider") else
      if ac_updated_at a <=? at_ then save_account "synchronize upstream account" (sn_ID v)
        (with_metadata (sn_DisplayName v) (sn_MaskedEmail v) (sn_Plan v) (sn_Status v) (Some (sn_LastSyncedAt v)) at_ a)
      else tret tt
  end.
Fixpoint sync_accounts (provider : string) (at_ : Z) (l : list UpstreamAccountSnapshot) : tx upstream_db unit :=
  match l with [] => tret tt | v :: rest => sync_account provider at_ v ;; sync_accounts provider at_ rest end.

(** Accounts that the snapshot does not name become unavailable. *)
Definition mark_missing (provider : string) (at_ : Z) (ids : list string) (id : string) (a : upstream_account) : upstream_account :=
  if (ac_updated_at a <=? at_) && bool_decide (ac_provider a = provider) && negb (bool_decide (id ∈ ids))
  then with_metadata (ac_display_name a) (ac_masked_email a) (ac_plan a) UpstreamAccountStatusUnavailable (ac_last_synced a) at_ a else a.
Definition mark_missing_accounts (provider : string) (at_ : Z) (ids : list string) : tx upstream_db unit :=
  tmod (fun d => set_upstream_accounts (map_imap (fun id a => Some (mark_missing provider at_ ids id a)) (ud_accounts d)) d).

Definition SyncUpstreamAccounts (provider : string) (clock : Z) (accounts : list UpstreamAccountSnapshot) (at_ : Z) (d : upstream_db)
  : result store_error unit * upstream_db :=
  if negb (validUpstreamProvider provider) then (Err (ErrInvalid "invalid upstream provider"), d) else
  let at_ := or_clock at_ clock in
  match normalize_snapshots at_ [] accounts with
  | Err e => (Err e, d)
  | Ok normalized => withTx (
      sync_accounts (upstreamProviderName provider) at_ normalized ;;
      mark_missing_accounts (upstreamProviderName provider) at_ (sn_ID <$> normalized)) d
  end.

(** ** Local preferences and access *)

Record upstream_write := {
  uw_ActorUserID : string;
  uw_ActorSessionID : string;
  uw_RequestID : string;
  uw_SourceIP : string;
  uw_At : Z;
}.

Section writes.
Context (session_of : string -> string -> bool) (inet_ok : string -> bool) (uuid_parse : string -> option string)
        (sha256_hex : list string -> string).

Definition upstream_audit (operation : string) (w : upstream_write) (at_ : Z) (eventType subjectType subject : string)
  (metadata : list (string * meta)) : tx upstream_db unit :=
  in_guard (insert_guard_audit session_of inet_ok operation at_ (uw_ActorUserID w) (uw_ActorSessionID w) (uw_SourceIP w) (uw_RequestID w)
    eventType subjectType subject metadata).

Definition SetUpstreamAccountAllocationWeight (provider : string) (clock : Z) (w : upstream_write) (accountID : string) (weight : Z) (d : upstream_db)
  : result store_error upstream_account * upstream_db :=
  if negb (upstreamAccountIDPattern accountID) || (weight <? 0) || (MaxUpstreamAllocationWeight <? weight) || empty (trim_space (uw_ActorUserID w))
  then (Err (ErrInvalid "invalid allocation weight, account, or actor"), d) else
  withTx (
    let* a := lock_account "lock upstream account allocation weight" (upstreamProviderName provider) accountID in
    let a' := with_preferences weight (ac_limit a) (ac_access_mode a) a in
    save_account "set upstream account allocation weight" accountID a' ;;
    upstream_audit "audit upstream account allocation weight" w (or_clock (uw_At w) clock)
      "upstream_account.allocation_weight_changed" "upstream_account" accountID
      [("previous_weight", MInt (ac_weight a)); ("weight", MInt weight)] ;;
    tret a') d.

Definition SetUpstreamAccountConcurrentLimit (provider : string) (clock : Z) (w : upstream_write) (accountID : string) (limit : Z) (d : upstream_db)
  : result store_error upstream_account * upstream_db :=
  if negb (upstreamAccountIDPattern accountID) || (limit <? 1) || (MaxUpstreamConcurrentLimit <? limit) || empty (trim_space (uw_ActorUserID w))
  then (Err (ErrInvalid "invalid concurrent limit, account, or actor"), d) else
  withTx (
    let* a := lock_account "lock upstream account concurrent limit" (upstreamProviderName provider) accountID in
    let a' := with_preferences (ac_weight a) limit (ac_access_mode a) a in
    save_account "set upstream account concurrent limit" accountID a' ;;
    upstream_audit "audit upstream account concurrent limit" w (or_clock (uw_At w) clock)
      "upstream_account.concurrent_limit_changed" "upstream_account" accountID
      [("previous_limit", MInt (ac_limit a)); ("limit", MInt limit)] ;;
    tret a') d.

(** *** Who may use an account *)

Record SetUpstreamAccountAccessParams := {
  sa_AccountID : string;
  sa_Mode : string;
  sa_UserIDs : list string;
  sa_Reason : string;
  sa_write : upstream_write;
}.

Definition canonical_uuid (id : string) : bool := bool_decide (uuid_parse id = Some id).
Fixpoint all_unique (valid : string -> bool) (seen ids : list string) : bool :=
  match ids with
  | [] => true
  | id :: rest => valid id && negb (bool_decide (id ∈ seen)) && all_unique valid (id :: seen) rest
  end.

(** The trimmed reason and the sorted users. *)
Definition normalizeUpstreamAccess (p : SetUpstreamAccountAccessParams) : result store_error (string * list string) :=
  let reason := trim_space (sa_Reason p) in
  if negb (upstreamAccountIDPattern (sa_AccountID p)) || empty (uw_ActorUserID (sa_write p)) || empty reason || (500 <? rune_count reason) ||
     (negb (bool_decide (sa_Mode p = "shared")) && negb (bool_decide (sa_Mode p = "exclusive"))) ||
     (10000 <? Z.of_nat (length (sa_UserIDs p))) ||
     (bool_decide (sa_Mode p = "shared") && negb (bool_decide (sa_UserIDs p = []))) ||
     (bool_decide (sa_Mode p = "exclusive") && bool_decide (sa_UserIDs p = []))
  then Err (ErrInvalid "invalid upstream account access") else
  if negb (all_unique canonical_uuid [] (sa_UserIDs p)) then Err (ErrInvalid "invalid or duplicate authorized user") else
  Ok (reason, stable_sort str_ltb (sa_UserIDs p)).

Definition sorted_ids (s : gset string) : list string := stable_sort str_ltb (elements s).
Definition grants (accountID : string) (d : upstream_db) : gset string := default ∅ (ud_grants d !! accountID).
Definition members (userID provider : string) (d : upstream_db) : gset string := default ∅ (ud_members d !! (userID, provider)).
Definition user_mode (userID provider : string) (d : upstream_db) : string := default "all" (ud_modes d !! (userID, provider)).

Definition known_user (d : upstream_db) (id : string) : bool :=
  match ud_users d !! id with Some status => negb (bool_decide (status = "pending")) | None => false end.

Record UpstreamAccountAccess := AccountAccess { aa_AccountID : string; aa_Mode : string; aa_UserIDs : list string }.

Definition SetUpstreamAccountAccess (provider : string) (clock : Z) (p : SetUpstreamAccountAccessParams) (d : upstream_db)
  : result store_error UpstreamAccountAccess * upstream_db :=
  match normalizeUpstreamAccess p with
  | Err e => (Err e, d)
  | Ok (reason, userIDs) => withTx (
      let* a := lock_account "lock upstream account access" (upstreamProviderName provider) (sa_AccountID p) in
      let* previous := tgets (fun d => sorted_ids (grants (sa_AccountID p) d)) in
      let* count := tgets (fun d => length (List.filter (known_user d) userIDs)) in
      tguard (bool_decide (count = length userIDs)) (ErrInvalid "authorized user does not exist") ;;
      save_account "set upstream account access" (sa_AccountID p) (with_preferences (ac_weight a) (ac_limit a) (sa_Mode p) a) ;;
      tmod (fun d => set_grants (delete (sa_AccountID p) (ud_grants d)) d) ;;
      tmod (fun d => set_grants (<[sa_AccountID p := list_to_set userIDs]> (ud_grants d)) d) ;;
      upstream_audit "audit upstream account access" (sa_write p) (or_clock (uw_At (sa_write p)) clock)
        "upstream_account.access_changed" "upstream_account" (sa_AccountID p)
        [("previous_mode", MString (ac_access_mode a)); ("previous_user_count", MInt (Z.of_nat (length previous)));
         ("previous_users_sha256", MString (sha256_hex previous)); ("mode", MString (sa_Mode p));
         ("user_count", MInt (Z.of_nat (length userIDs))); ("users_sha256", MString (sha256_hex userIDs)); ("reason", MString reason)] ;;
      tret (AccountAccess (sa_AccountID p) (sa_Mode p) userIDs)) d
  end.

(** *** Which accounts a user may use *)

Record SetUserUpstreamAccessParams := {
  su_UserID : string;
  su_Mode : string;
  su_AccountIDs : list string;
  su_Reason : string;
  su_write : upstream_write;
}.
Record UserUpstreamAccess := UserAccess { xa_UserID : string; xa_Provider : string; xa_Mode : string; xa_AccountIDs : list string }.

Definition normalizeUserUpstreamAccess (p : SetUserUpstreamAccessParams) : result store_error (string * list string) :=
  let reason := trim_space (su_Reason p) in
  if negb (canonical_uuid (su_UserID p)) || empty (trim_space (uw_ActorUserID (su_write p))) || empty reason || (500 <? rune_count reason) ||
     (negb (bool_decide (su_Mode p = "all")) && negb (bool_decide (su_Mode p = "selected"))) ||
     (10000 <? Z.of_nat (length (su_AccountIDs p))) ||
     (bool_decide (su_Mode p = "all") && negb (bool_decide (su_AccountIDs p = [])))
  then Err (ErrInvalid "invalid user upstream access") else
  if negb (all_unique upstreamAccountIDPattern [] (su_AccountIDs p)) then Err (ErrInvalid "invalid or duplicate upstream account") else
  Ok (reason, stable_sort str_ltb (su_AccountIDs p)).

Definition GetUserUpstreamAccess (provider userID : string) (d : upstream_db) : result store_error UserUpstreamAccess :=
  if negb (validUpstreamProvider provider) || negb (canonical_uuid userID) then Err (ErrInvalid "invalid upstream provider or user") else
  match ud_users d !! userID with
  | None => Err (ErrNotFound "get user upstream access")
  | Some status =>
      if bool_decide (status = "pending") then Err (ErrConflict "user registration is awaiting approval") else
      let provider := upstreamProviderName provider in
      Ok (UserAccess userID provider (user_mode userID provider d) (sorted_ids (members userID provider d)))
  end.

Definition replaceUserUpstreamAccessTx (w : upstream_write) (at_ : Z) (reason : string) (previous next : UserUpstreamAccess) : tx upstream_db unit :=
  let key := (xa_UserID next, xa_Provider next) in
  tmod (fun d => set_modes (<[key := xa_Mode next]> (ud_modes d)) d) ;;
  tmod (fun d => set_members (delete key (ud_members d)) d) ;;
  tmod (fun d => set_members (<[key := list_to_set (xa_AccountIDs next)]> (ud_members d)) d) ;;
  upstream_audit "audit user upstream access" w at_ "user.upstream_access_changed" "user" (xa_UserID next)
    [("provider", MString (xa_Provider next)); ("previous_mode", MString (xa_Mode previous));
     ("previous_account_count", MInt (Z.of_nat (length (xa_AccountIDs previous))));
     ("previous_accounts_sha256", MString (sha256_hex (xa_AccountIDs previous))); ("mode", MString (xa_Mode next));
     ("account_count", MInt (Z.of_nat (length (xa_AccountIDs next)))); ("accounts_sha256", MString (sha256_hex (xa_AccountIDs next)));
     ("reason", MString reason)].

Definition account_of_provider (provider : string) (d : upstream_db) (id : string) : bool :=
  match ud_accounts d !! id with Some a => bool_decide (ac_provider a = provider) | None => false end.

Definition lock_nonpending_user (userID : string) : tx upstream_db unit :=
  let* rows := tgets ud_users in
  let* status := tsome "lock user for business operation" (rows !! userID) in
  tguard (negb (bool_decide (status = "pending"))) (ErrConflict "user registration is awaiting approval").

Definition SetUserUpstreamAccess (provider : string) (clock : Z) (p : SetUserUpstreamAccessParams) (d : upstream_db)
  : result store_error UserUpstreamAccess * upstream_db :=
  if negb (validUpstreamProvider provider) then (Err (ErrInvalid "invalid upstream provider"), d) else
  match normalizeUserUpstreamAccess p with
  | Err e => (Err e, d)
  | Ok (reason, accountIDs) =>
      let provider := upstreamProviderName provider in
      let result := UserAccess (su_UserID p) provider (su_Mode p) accountIDs in
      withTx (
        let* count := tgets (fun d => length (List.filter (account_of_provider provider d) accountIDs)) in
        tguard (bool_decide (count = length accountIDs)) (ErrInvalid "upstream account does not exist for this provider") ;;
        lock_nonpending_user (su_UserID p) ;;
        let* previous := tgets (fun d => UserAccess (su_UserID p) provider (user_mode (su_UserID p) provider d)
                                           (sorted_ids (members (su_UserID p) provider d))) in
        replaceUserUpstreamAccessTx (su_write p) (or_clock (uw_At (su_write p)) clock) reason previous result ;;
        tret result) d
  end.

(** *** The questions of the sidecar *)

(** [userUpstreamAccessPredicate]: an account that is not registered is outside
    every selection. *)
Definition userUpstreamAccessPredicate (userID provider : string) (id : string) (d : upstream_db) : bool :=
  bool_decide (user_mode userID provider d = "all") ||
  match ud_accounts d !! id with Some _ => bool_decide (id ∈ members userID provider d) | None => false end.

(** The conditions that every candidate query shares. *)
Definition authorized (userID provider : string) (d : upstream_db) (id : string) : bool :=
  bool_decide (ud_users d !! userID = Some "active") &&
  match ud_accounts d !! id with
  | None => true
  | Some a => bool_decide (ac_provider a = provider) &&
      (bool_decide (ac_access_mode a = "shared") || bool_decide (userID ∈ grants id d))
  end &&
  userUpstreamAccessPredicate userID provider id d.

Definition upstreamCandidateArguments (userID : string) (ids : list string) : result store_error unit :=
  if negb (canonical_uuid userID) || bool_decide (ids = []) || (MaxUpstreamAllocationCandidates <? Z.of_nat (length ids))
  then Err (ErrInvalid "invalid upstream user or candidates") else
  if negb (all_unique upstreamAccountIDPattern [] ids) then Err (ErrInvalid "invalid upstream candidates") else Ok tt.

Definition EligibleUpstreamAccounts (provider userID : string) (ids : list string) (d : upstream_db) : result store_error (list string) :=
  if negb (validUpstreamProvider provider) then Err (ErrInvalid "invalid upstream provider") else
  let! _ := upstreamCandidateArguments userID ids in
  Ok (stable_sort str_ltb (List.filter (authorized userID (upstreamProviderName provider) d) ids)).

Record UpstreamAccountEligibility := Eligibility { el_ID : string; el_ConcurrentLimit : Z }.

(** [now_] is the database's clock. *)
Definition EligibleUpstreamAccountLimits (provider userID : string) (ids : list string) (now_ : Z) (d : upstream_db)
  : result store_error (list UpstreamAccountEligibility) :=
  if negb (validUpstreamProvider provider) then Err (ErrInvalid "invalid upstream provider") else
  let! _ := upstreamCandidateArguments userID ids in
  let rows := (fun id => Eligibility id (match ud_accounts d !! id with Some a => ac_limit a | None => 1 end)) <$>
    stable_sort str_ltb (List.filter (fun id => authorized userID (upstreamProviderName provider) d id &&
      negb (upstreamQuotaGuardHeld id now_ (guard_of d))) ids) in
  if forallb (fun e => (1 <=? el_ConcurrentLimit e) && (el_ConcurrentLimit e <=? MaxUpstreamConcurrentLimit)) rows then Ok rows
  else Err (ErrInvalid "invalid upstream concurrent limit").
End writes.

(** ** Access changes are exact *)

Definition add_audit (e : guard_audit) (d : upstream_db) : upstream_db := put_guard (add_guard_audit e (guard_of d)) d.

(** The permission to use an account reads these tables only. *)
Lemma authorized_add_audit u q e d id : authorized u q (add_audit e d) id = authorized u q d id.
Proof. done. Qed.

Lemma upstream_audit_Ok so io op w at_ ev st su md d x d' :
  upstream_audit so io op w at_ ev st su md d = Ok (x, d') -> exists e, d' = add_audit e d.
Proof.
  unfold upstream_audit, in_guard, tzoom, insert_guard_audit. rewrite tgets_bind, tguard_bind.
  destruct (_ && _)%bool; cbn; [|done]. intros [= _ <-]. by eexists.
Qed.

Lemma save_account_Ok op id a d x d' :
  save_account op id a d = Ok (x, d') <-> upstream_account_check id a = true /\ d' = set_upstream_accounts (<[id := a]> (ud_accounts d)) d.
Proof.
  unfold save_account. rewrite tguard_bind. destruct x, (upstream_account_check id a); cbn; unfold tmod.
  - split; [by intros [= <-]|by intros [_ ->]].
  - by split; [|intros [? _]].
Qed.

Lemma lock_upstream_Ok op provider id d a d' :
  lock_account op provider id d = Ok (a, d') <-> ud_accounts d !! id = Some a /\ ac_provider a = provider /\ d' = d.
Proof.
  unfold lock_account. rewrite tgets_bind. destruct (ud_accounts d !! id) as [b|] eqn:E; [|by split; [|intros (? & _)]].
  cbn. case_bool_decide as Hp; cbn; unfold tret, tfail; (split; [intros H|intros (? & ? & ?)]); simplify_eq; done.
Qed.

Lemma filter_length_all {A} (p : A -> bool) l : length (List.filter p l) = length l -> forallb p l = true.
Proof.
  induction l as [|x l IH]; [done|]. cbn. destruct (p x); cbn; [intros [= H]; by apply IH|].
  pose proof (List.filter_length_le p l). lia.
Qed.


(** Sorting strings gives the list of their set. *)
Lemma stable_sort_strings l1 l2 : l1 ≡ₚ l2 -> stable_sort str_ltb l1 = stable_sort str_ltb l2.
Proof.
  intros Hp. assert (Hs : forall l, StronglySorted (fun a b => str_ltb b a = false) (stable_sort str_ltb l)).
  { intros l. apply (stable_sort_sorted str_ltb (fun _ => True)).
    - intros a b c _ _ _ H1 H2. exact (transitivity (R := str_le) H1 H2).
    - intros a b _ _. apply str_ltb_lt.
    - by apply Forall_true. }
  apply (sorted_unique str_ltb); [intros; by apply str_ltb_antisym|apply Hs|apply Hs|]. by rewrite !stable_sort_perm.
Qed.

Lemma sorted_ids_list l : NoDup l -> sorted_ids (list_to_set (stable_sort str_ltb l)) = stable_sort str_ltb l.
Proof.
  intros Hl. unfold sorted_ids. apply stable_sort_strings. rewrite elements_list_to_set; [apply stable_sort_perm|]. by rewrite stable_sort_perm.
Qed.

Lemma all_unique_NoDup valid seen ids : all_unique valid seen ids = true -> NoDup ids /\ (forall x, x ∈ ids -> (x ∉ seen) /\ valid x = true).
Proof.
  revert seen. induction ids as [|x ids IH]; intros seen; cbn [all_unique].
  { intros _. split; [constructor|]. intros x Hx. by apply elem_of_nil in Hx. }
  intros H. breflect. destruct (IH _ H0) as [Hnd Hs]. split.
  - constructor; [|done]. intros Hx. destruct (Hs x Hx) as [Hn _]. apply Hn. left.
  - intros y [->|Hy]%elem_of_cons; [done|]. destruct (Hs y Hy) as [Hn ?]. split; [|done]. intros Hi. apply Hn. by right.
Qed.

(** After the owner sets who may use an account, a user may use it exactly when
    the account is shared or names the user, within the user's own scope. *)
Theorem account_access_exact so io up sh provider clock p d r d' :
  SetUpstreamAccountAccess so io up sh provider clock p d = (Ok r, d') ->
  forall u q id, authorized u q d' id =
    if bool_decide (id = sa_AccountID p)
    then bool_decide (ud_users d !! u = Some "active") && bool_decide (q = upstreamProviderName provider) &&
         (bool_decide (sa_Mode p = "shared") || bool_decide (u ∈ sa_UserIDs p)) && userUpstreamAccessPredicate u q id d
    else authorized u q d id.
Proof.
  unfold SetUpstreamAccountAccess. destruct (normalizeUpstreamAccess up p) as [[reason ids]|e] eqn:EN; [|done].
  assert (Hids : ids ≡ₚ sa_UserIDs p).
  { unfold normalizeUpstreamAccess in EN. cbv zeta in EN. repeat (case_match; [done|]). simplify_eq. apply stable_sort_perm. }
  intros H%withTx_commit u q id. inv_tx H. apply lock_upstream_Ok in Ht as (Ha & Hp & ->).
  do 2 rewrite tgets_bind in H. rewrite tguard_bind in H. destruct (bool_decide _); [|done].
  inv_tx H. apply save_account_Ok in Ht as (_ & ->). do 2 rewrite tmod_bind in H. inv_tx H.
  apply upstream_audit_Ok in Ht as (e & ->). cbn in H. unfold tret in H. simplify_eq.
  rewrite authorized_add_audit. unfold authorized, userUpstreamAccessPredicate, grants, members, user_mode. utables.
  destruct (bool_decide_reflect (id = sa_AccountID p)) as [->|Hid].
  - rewrite !lookup_insert_eq. cbn [with_preferences ac_provider ac_access_mode from_option Datatypes.id]. rewrite Ha.
    assert (bool_decide (u ∈@{gset string} list_to_set ids) = bool_decide (u ∈ sa_UserIDs p)) as ->.
    { apply bool_decide_ext. by rewrite elem_of_list_to_set, Hids. }
    rewrite (bool_decide_ext (ac_provider a = q) (q = upstreamProviderName provider)) by (rewrite Hp; naive_solver).
    by rewrite !andb_assoc.
  - rewrite !lookup_insert_ne, lookup_delete_ne by done. done.
Qed.

(** After the owner sets a user's scope, the user may use an account of that
    provider exactly when the scope admits it and the account does; the scope
    reads back as it was set. *)
Theorem user_access_exact so io up sh provider clock p d r d' :
  SetUserUpstreamAccess so io up sh provider clock p d = (Ok r, d') ->
  GetUserUpstreamAccess up provider (su_UserID p) d' = Ok r /\
  forall u q id, authorized u q d' id =
    if bool_decide (u = su_UserID p) && bool_decide (q = upstreamProviderName provider)
    then bool_decide (ud_users d !! u = Some "active") &&
         match ud_accounts d !! id with
         | None => bool_decide (su_Mode p = "all")
         | Some a => bool_decide (ac_provider a = q) && (bool_decide (ac_access_mode a = "shared") || bool_decide (u ∈ grants id d)) &&
             (bool_decide (su_Mode p = "all") || bool_decide (id ∈ su_AccountIDs p))
         end
    else authorized u q d id.
Proof.
  unfold SetUserUpstreamAccess. destruct (validUpstreamProvider provider) eqn:EV; [|done]. cbn [negb].
  destruct (normalizeUserUpstreamAccess up p) as [[reason ids]|e] eqn:EN; [|done].
  assert (Hn : ids = stable_sort str_ltb (su_AccountIDs p) /\ canonical_uuid up (su_UserID p) = true /\ NoDup (su_AccountIDs p)).
  { unfold normalizeUserUpstreamAccess in EN. cbv zeta in EN. case_match eqn:E1; [done|]. case_match eqn:E2; [done|]. simplify_eq.
    breflect. split_and!; [done|done|]. by eapply all_unique_NoDup. }
  destruct Hn as (-> & Hu & Hnd). set (ids := stable_sort str_ltb (su_AccountIDs p)) in *.
  assert (Hids : ids ≡ₚ su_AccountIDs p) by apply stable_sort_perm.
  intros H%withTx_commit. rewrite tgets_bind, tguard_bind in H. destruct (bool_decide _); [|done].
  inv_tx H. unfold lock_nonpending_user in Ht. rewrite tgets_bind in Ht.
  destruct (ud_users d !! su_UserID p) as [status|] eqn:EU; [|done]. cbn in Ht. apply tguard_Ok in Ht as (Hst & ->).
  rewrite tgets_bind in H. inv_tx H. unfold replaceUserUpstreamAccessTx in Ht. do 3 rewrite tmod_bind in Ht.
  apply upstream_audit_Ok in Ht as (e & ->). cbn in H. unfold tret in H. simplify_eq. split.
  - unfold GetUserUpstreamAccess. rewrite EV, Hu. cbn [negb orb]. unfold user_mode, members, add_audit. utables. cbn [xa_UserID xa_Provider xa_Mode xa_AccountIDs].
    rewrite EU. destruct (bool_decide (status = "pending")); [done|]. rewrite !lookup_insert_eq. cbn [from_option Datatypes.id]. do 2 f_equal.
    apply sorted_ids_list. done.
  - intros u q id. rewrite authorized_add_audit. unfold authorized, userUpstreamAccessPredicate, grants, members, user_mode. utables. cbn [xa_UserID xa_Provider xa_Mode xa_AccountIDs].
    destruct (bool_decide_reflect (u = su_UserID p)) as [->|H1]; cbn [andb];
      [destruct (bool_decide_reflect (q = upstreamProviderName provider)) as [->|H2]|]; cycle 1.
    { rewrite !lookup_insert_ne, lookup_delete_ne by congruence. done. }
    { rewrite !lookup_insert_ne, lookup_delete_ne by congruence. done. }
    rewrite !lookup_insert_eq. cbn [from_option Datatypes.id].
    assert (bool_decide (id ∈@{gset string} list_to_set ids) = bool_decide (id ∈ su_AccountIDs p)) as ->.
    { apply bool_decide_ext. by rewrite elem_of_list_to_set, Hids. }
    destruct (ud_accounts d !! id) as [row|]; [by rewrite !andb_assoc|]. by rewrite andb_true_r, orb_false_r.
Qed.

(** ** Synchronisation is exact *)

(** What one entry of a snapshot makes of an account. *)
Definition synced (provider : string) (at_ : Z) (v : UpstreamAccountSnapshot) (old : option upstream_account) : upstream_account :=
  match old with
  | None => new_upstream_account provider (sn_DisplayName v) (sn_MaskedEmail v) (sn_Plan v) (sn_Status v) (Some (sn_LastSyncedAt v)) at_
  | Some a => if ac_updated_at a <=? at_
      then with_metadata (sn_DisplayName v) (sn_MaskedEmail v) (sn_Plan v) (sn_Status v) (Some (sn_LastSyncedAt v)) at_ a else a
  end.

Lemma sync_account_Ok provider at_ v d x d' : sync_account provider at_ v d = Ok (x, d') ->
  d' = set_upstream_accounts (<[sn_ID v := synced provider at_ v (ud_accounts d !! sn_ID v)]> (ud_accounts d)) d /\
  (forall a, ud_accounts d !! sn_ID v = Some a -> ac_provider a = provider) /\
  upstream_account_check (sn_ID v) (synced provider at_ v (ud_accounts d !! sn_ID v)) = true \/
  d' = d /\ exists a, ud_accounts d !! sn_ID v = Some a /\ ac_provider a = provider /\ synced provider at_ v (Some a) = a.
Proof.
  unfold sync_account. rewrite tgets_bind. destruct (ud_accounts d !! sn_ID v) as [a|] eqn:E; cbn [synced].
  - destruct (bool_decide_reflect (ac_provider a = provider)) as [Hp|]; cbn [negb]; [|done].
    destruct (ac_updated_at a <=? at_) eqn:Et.
    + intros [Hc ->]%save_account_Ok. left. split_and!; [done|by intros ? [= <-]|done].
    + intros [= _ <-]. right. split; [done|]. exists a. split_and!; [done|done|]. cbn [synced]. by rewrite Et.
  - intros [Hc ->]%save_account_Ok. left. split_and!; [done|done|done].
Qed.

(** The entry of a snapshot for an account. *)
Definition entry_of (id : string) (l : list UpstreamAccountSnapshot) : option UpstreamAccountSnapshot :=
  List.find (fun v => bool_decide (sn_ID v = id)) l.

Lemma entry_of_None id l : entry_of id l = None <-> id ∉ sn_ID <$> l.
Proof.
  unfold entry_of. induction l as [|v l IH]; cbn; [split; [intros _ H; by apply elem_of_nil in H|done]|].
  case_bool_decide as H; [split; [done|intros Hn; exfalso; apply Hn; rewrite H; left]|].
  rewrite IH, elem_of_cons. intuition congruence.
Qed.
Lemma entry_of_Some id l v : entry_of id l = Some v -> sn_ID v = id /\ v ∈ l.
Proof.
  unfold entry_of. intros H. apply List.find_some in H as [Hin H]. apply bool_decide_eq_true in H.
  split; [done|]. by apply list_elem_of_In.
Qed.

Definition with_accounts_of (d' d : upstream_db) : upstream_db := set_upstream_accounts (ud_accounts d') d.

Lemma sync_accounts_Ok provider at_ l d x d' : NoDup (sn_ID <$> l) -> sync_accounts provider at_ l d = Ok (x, d') ->
  d' = with_accounts_of d' d /\
  forall id, match entry_of id l with
    | None => ud_accounts d' !! id = ud_accounts d !! id
    | Some v => ud_accounts d' !! id = Some (synced provider at_ v (ud_accounts d !! id)) /\
        (forall a, ud_accounts d !! id = Some a -> ac_provider a = provider)
    end.
Proof.
  revert d. induction l as [|v l IH]; cbn [sync_accounts]; intros d Hnd H.
  { unfold tret in H. simplify_eq. split; [by destruct d'|done]. }
  cbn in Hnd. apply NoDup_cons in Hnd as [Hv Hnd]. inv_tx H. apply IH in H as [Hd H]; [|done].
  assert (Hs : s = with_accounts_of s d /\ ud_accounts s !! sn_ID v = Some (synced provider at_ v (ud_accounts d !! sn_ID v)) /\
    (forall a, ud_accounts d !! sn_ID v = Some a -> ac_provider a = provider) /\
    forall id, id <> sn_ID v -> ud_accounts s !! id = ud_accounts d !! id).
  { apply sync_account_Ok in Ht as [(-> & Hp & _)|(-> & b & Hb & Hp & Hsame)].
    - split_and!; [by destruct d| |done|]; utables; [by rewrite lookup_insert_eq|]. intros id Hid. by rewrite lookup_insert_ne.
    - split_and!; [by destruct d| | |done]; rewrite Hb; [by rewrite Hsame|]. intros ? [= <-]. done. }
  destruct Hs as (Hs & Hsv & Hpv & Hso). split.
  - rewrite Hd, Hs. unfold with_accounts_of. utables. done.
  - intros id. specialize (H id). unfold entry_of in *. cbn [List.find]. destruct (bool_decide_reflect (sn_ID v = id)) as [<-|Hne].
    + assert (List.find (fun v0 => bool_decide (sn_ID v0 = sn_ID v)) l = None) as E by by apply entry_of_None.
      rewrite E in H. by rewrite H.
    + rewrite Hso in H by done. done.
Qed.

Lemma normalize_snapshots_ids at_ seen l vs : normalize_snapshots at_ seen l = Ok vs ->
  NoDup (sn_ID <$> vs) /\ forall id, id ∈ sn_ID <$> vs -> id ∉ seen.
Proof.
  revert seen vs. induction l as [|x l IH]; intros seen vs; cbn [normalize_snapshots].
  { intros [= <-]. split; [constructor|]. intros id H. by apply elem_of_nil in H. }
  intros H. inv_bind H. case_bool_decide as Hs; [done|]. inv_bind H. injection H as <-. apply IH in Hm0 as [Hnd Hn].
  cbn in *. split.
  - constructor; [|done]. intros Hin. apply (Hn _ Hin). left.
  - intros id [->|Hin]%elem_of_cons; [done|]. specialize (Hn _ Hin). rewrite elem_of_cons in Hn. tauto.
Qed.

Lemma mark_missing_accounts_lookup provider at_ ids d x d' : mark_missing_accounts provider at_ ids d = Ok (x, d') ->
  d' = with_accounts_of d' d /\ forall id, ud_accounts d' !! id = mark_missing provider at_ ids id <$> ud_accounts d !! id.
Proof.
  intros [= _ <-]. split; [by destruct d|]. intros id. utables. rewrite map_lookup_imap. by destruct (ud_accounts d !! id).
Qed.

(** What the synchronisation does not own: the provider, the owner's
    preferences and who may use the account. *)
Definition local_columns (a : upstream_account) : string * string * Z * Z * Z * string :=
  (ac_provider a, ac_alias a, ac_created_at a, ac_weight a, ac_limit a, ac_access_mode a).

(** What a synchronisation makes of the account [id]. *)
Definition sync_result (provider : string) (at_ : Z) (l : list UpstreamAccountSnapshot) (id : string) (old : option upstream_account) : option upstream_account :=
  match entry_of id l with
  | Some v => Some (synced provider at_ v old)
  | None => mark_missing provider at_ (sn_ID <$> l) id <$> old
  end.

Lemma mark_missing_named provider at_ ids id a : id ∈ ids -> mark_missing provider at_ ids id a = a.
Proof. intros H. unfold mark_missing. rewrite (bool_decide_true _ H). by rewrite andb_false_r. Qed.

(** A synchronisation that reports success did all of it. *)
Lemma sync_lookup provider clock accounts at_ d d' : SyncUpstreamAccounts provider clock accounts at_ d = (Ok tt, d') ->
  exists l, normalize_snapshots (or_clock at_ clock) [] accounts = Ok l /\ d' = with_accounts_of d' d /\
    (forall id, ud_accounts d' !! id = sync_result (upstreamProviderName provider) (or_clock at_ clock) l id (ud_accounts d !! id)) /\
    forall id v a, entry_of id l = Some v -> ud_accounts d !! id = Some a -> ac_provider a = upstreamProviderName provider.
Proof.
  unfold SyncUpstreamAccounts. destruct (validUpstreamProvider provider); [|done]. cbn [negb].
  destruct (normalize_snapshots _ [] accounts) as [l|] eqn:EN; [|done]. intros H%withTx_commit. inv_tx H.
  apply sync_accounts_Ok in Ht as [Hs Ht]; [|by apply normalize_snapshots_ids in EN as [? _]].
  apply mark_missing_accounts_lookup in H as [Hd H]. exists l. split; [done|]. split_and!.
  - rewrite Hd, Hs. by destruct d.
  - intros id. rewrite H. specialize (Ht id). unfold sync_result. destruct (entry_of id l) as [v|] eqn:E.
    + destruct Ht as [-> _]. cbn. f_equal. apply mark_missing_named. apply entry_of_Some in E as [<- Hv]. by apply list_elem_of_fmap_2.
    + by rewrite Ht.
  - intros id v b E Hb. specialize (Ht id). rewrite E in Ht. destruct Ht as [_ Ht]. by apply Ht.
Qed.

Lemma synced_local provider at_ v a : local_columns (synced provider at_ v (Some a)) = local_columns a.
Proof. cbn. by destruct (_ <=? _). Qed.
Lemma mark_missing_local provider at_ ids id a : local_columns (mark_missing provider at_ ids id a) = local_columns a.
Proof. unfold mark_missing. by destruct (_ && _)%bool. Qed.
Lemma synced_twice provider at_ v old : synced provider at_ v (Some (synced provider at_ v old)) = synced provider at_ v old.
Proof. destruct old as [a|]; cbn; [destruct (ac_updated_at a <=? at_) eqn:E; cbn|]; [by rewrite Z.leb_refl|by rewrite E|by rewrite Z.leb_refl]. Qed.
Lemma mark_missing_twice provider at_ ids id a : mark_missing provider at_ ids id (mark_missing provider at_ ids id a) = mark_missing provider at_ ids id a.
Proof.
  destruct ((ac_updated_at a <=? at_) && bool_decide (ac_provider a = provider) && negb (bool_decide (id ∈ ids))) eqn:E.
  - assert (mark_missing provider at_ ids id a =
      with_metadata (ac_display_name a) (ac_masked_email a) (ac_plan a) UpstreamAccountStatusUnavailable (ac_last_synced a) at_ a) as ->
      by (unfold mark_missing; by rewrite E).
    clear E. unfold mark_missing. by destruct (_ && _)%bool.
  - assert (mark_missing provider at_ ids id a = a) as R by (unfold mark_missing; by rewrite E). by rewrite !R.
Qed.

(** A synchronised account can be saved again. *)
Definition accounts_ok (d : upstream_db) : Prop := map_Forall (fun id a => upstream_account_check id a = true) (ud_accounts d).

Lemma sync_accounts_keep provider at_ l : keeps (fun d d' => accounts_ok d -> accounts_ok d') (sync_accounts provider at_ l).
Proof.
  assert (PreOrder (fun d d0 => accounts_ok d -> accounts_ok d0)) by (split; [by intros ?|intros x y z; auto]).
  induction l as [|v l IH]; [by apply keeps_ret|]. cbn [sync_accounts]. apply keeps_bind; [done| |done].
  intros d x d' [(-> & _ & Hc)|(-> & _)]%sync_account_Ok Hd; [|done]. by apply map_Forall_insert_2.
Qed.

Lemma mark_missing_check provider at_ ids id a : upstream_account_check id a = true -> upstream_account_check id (mark_missing provider at_ ids id a) = true.
Proof.
  intros H. unfold mark_missing. destruct (_ && _)%bool eqn:E; [|done]. rewrite !andb_true_iff, Z.leb_le in E.
  unfold upstream_account_check in *. cbn [with_metadata ac_provider ac_display_name ac_masked_email ac_plan ac_status ac_created_at ac_updated_at ac_weight ac_limit ac_access_mode].
  rewrite !andb_true_iff in H |- *. split_and!; try tauto. apply Z.leb_le. destruct_and!. lia.
Qed.

Lemma sync_keeps provider clock accounts at_ d : accounts_ok d -> accounts_ok (SyncUpstreamAccounts provider clock accounts at_ d).2.
Proof.
  intros Hd. unfold SyncUpstreamAccounts. destruct (negb _); [done|]. destruct (normalize_snapshots _ _ _); [|done].
  apply withTx_preserves; [|done]. intros x d' H. inv_tx H. apply sync_accounts_keep in Ht. specialize (Ht Hd). injection H as _ <-.
  intros id b. utables. rewrite map_lookup_imap. destruct (ud_accounts s !! id) eqn:E; [|done]. cbn. intros [= <-]. apply mark_missing_check.
  by apply (Ht id).
Qed.

(** Keys that do not repeat determine the element. *)
Lemma NoDup_fmap_unique {A B} (f : A -> B) l x y : NoDup (f <$> l) -> x ∈ l -> y ∈ l -> f x = f y -> x = y.
Proof.
  intros Hnd Hx Hy E. apply list_elem_of_lookup in Hx as [i Hi]. apply list_elem_of_lookup in Hy as [j Hj].
  assert (i = j) as ->; [|congruence]. eapply (NoDup_lookup (f <$> l)); [done|rewrite list_lookup_fmap, Hi; done|rewrite list_lookup_fmap, Hj; cbn; by rewrite E].
Qed.

Lemma entry_of_unique l v : NoDup (sn_ID <$> l) -> v ∈ l -> entry_of (sn_ID v) l = Some v.
Proof.
  intros Hnd Hv. destruct (entry_of (sn_ID v) l) as [w|] eqn:E.
  - apply entry_of_Some in E as [Hw Hin]. f_equal. by apply (NoDup_fmap_unique sn_ID l).
  - apply entry_of_None in E. destruct E. by apply list_elem_of_fmap_2.
Qed.

Lemma sync_accounts_noop provider at_ l d : accounts_ok d ->
  (forall v, v ∈ l -> exists a, ud_accounts d !! sn_ID v = Some a /\ ac_provider a = provider /\ synced provider at_ v (Some a) = a) ->
  sync_accounts provider at_ l d = Ok (tt, d).
Proof.
  intros Hd. induction l as [|v l IH]; intros Hl; [done|]. cbn [sync_accounts].
  destruct (Hl v ltac:(left)) as (a & Ha & Hp & Hs).
  assert (sync_account provider at_ v d = Ok (tt, d)) as E.
  { unfold sync_account. rewrite tgets_bind, Ha. rewrite bool_decide_true by done. cbn [negb]. cbn [synced] in Hs.
    destruct (ac_updated_at a <=? at_); [|done]. rewrite Hs. apply save_account_Ok. split; [by apply (Hd _ _ Ha)|].
    rewrite insert_id by done. by destruct d. }
  rewrite (tbind_run _ _ _ _ _ E). apply IH. intros w Hw. apply Hl. by right.
Qed.

(** Applying a snapshot of the sidecar does exactly this: it never touches
    another provider's accounts, rows newer than the snapshot, the owner's
    preferences or any table but the accounts; each named account takes the
    metadata of its entry, every other known account of the provider becomes
    unavailable, no other account appears, and applying the same snapshot again
    changes nothing. *)
Theorem sync_exact provider clock accounts at_ d d' :
  accounts_ok d -> SyncUpstreamAccounts provider clock accounts at_ d = (Ok tt, d') ->
  exists l, normalize_snapshots (or_clock at_ clock) [] accounts = Ok l /\ d' = with_accounts_of d' d /\
  (forall id a, ud_accounts d !! id = Some a -> exists a', ud_accounts d' !! id = Some a' /\ local_columns a' = local_columns a /\
     (ac_provider a <> upstreamProviderName provider \/ or_clock at_ clock < ac_updated_at a -> a' = a) /\
     (ac_provider a = upstreamProviderName provider -> ac_updated_at a <= or_clock at_ clock ->
        match entry_of id l with
        | Some v => ac_status a' = sn_Status v /\ ac_masked_email a' = sn_MaskedEmail v /\ ac_plan a' = sn_Plan v /\ ac_display_name a' = sn_DisplayName v
        | None => ac_status a' = UpstreamAccountStatusUnavailable
        end)) /\
  (forall id, ud_accounts d !! id = None -> (is_Some (ud_accounts d' !! id) <-> id ∈ sn_ID <$> l)) /\
  SyncUpstreamAccounts provider clock accounts at_ d' = (Ok tt, d').
Proof.
  intros Hok H. assert (Hok' : accounts_ok d') by (rewrite <- (f_equal snd H : (SyncUpstreamAccounts _ _ _ _ _).2 = d'); by apply sync_keeps).
  destruct (sync_lookup _ _ _ _ _ _ H) as (l & HN & Hd & Hl & Hp). exists l. split; [done|]. split; [done|].
  set (P := upstreamProviderName provider) in *. set (t := or_clock at_ clock) in *. split_and!.
  - intros id a Ha. rewrite Hl, Ha. unfold sync_result. destruct (entry_of id l) as [v|] eqn:E.
    + eexists. split; [done|]. split; [apply synced_local|]. cbn [synced]. split.
      * intros [Hn|Hn]; [destruct Hn; by eapply Hp|]. by replace (ac_updated_at a <=? t) with false by lia.
      * intros _ Ht. by replace (ac_updated_at a <=? t) with true by lia.
    + eexists. split; [done|]. split; [apply mark_missing_local|]. unfold mark_missing. split.
      * intros [Hn|Hn]; [by rewrite (bool_decide_false _ Hn), andb_false_r|]. by replace (ac_updated_at a <=? t) with false by lia.
      * intros Hpa Ht. replace (ac_updated_at a <=? t) with true by lia. rewrite (bool_decide_true _ Hpa).
        rewrite bool_decide_false by by apply entry_of_None. done.
  - intros id Hn. rewrite Hl, Hn. unfold sync_result. destruct (entry_of id l) as [v|] eqn:E.
    + split; [|by eauto]. intros _. apply entry_of_Some in E as [<- Hv]. by apply list_elem_of_fmap_2.
    + apply entry_of_None in E. split; [by intros []|done].
  - revert H. unfold SyncUpstreamAccounts. destruct (validUpstreamProvider provider); [|done]. cbn [negb]. fold P t. rewrite HN. intros _.
    apply withTx_commit. rewrite (tbind_run _ _ _ tt d').
    + unfold mark_missing_accounts, tmod. do 2 f_equal. transitivity (set_upstream_accounts (ud_accounts d') d'); [|by destruct d'].
      f_equal. apply map_eq. intros id. rewrite map_lookup_imap, Hl. unfold sync_result. destruct (entry_of id l) as [v|] eqn:E; cbn.
      * f_equal. apply mark_missing_named. apply entry_of_Some in E as [<- Hv]. by apply list_elem_of_fmap_2.
      * destruct (ud_accounts d !! id); cbn; [|done]. f_equal. apply mark_missing_twice.
    + apply sync_accounts_noop; [done|]. intros v Hv. apply normalize_snapshots_ids in HN as [Hnd _].
      pose proof (entry_of_unique l v Hnd Hv) as E.
      specialize (Hl (sn_ID v)). unfold sync_result in Hl. rewrite E in Hl. eexists. split; [done|]. split; [|apply synced_twice].
      destruct (ud_accounts d !! sn_ID v) as [b|] eqn:Eb; [|done].
      transitivity (ac_provider b); [cbn [synced]; by destruct (_ <=? _)|by eapply Hp].
Qed.

(** ** The invariant of the pool

    Rows satisfy their constraints; an account names authorised users exactly
    when it is exclusive; a user's selection holds registered accounts of the
    selection's own provider. *)

Record upstream_inv (d : upstream_db) : Prop := {
  ui_accounts : accounts_ok d;
  ui_exclusive : forall id a, ud_accounts d !! id = Some a -> (ac_access_mode a = "exclusive" <-> grants id d <> ∅);
  ui_granted : forall id u, u ∈ grants id d -> is_Some (ud_accounts d !! id) /\ is_Some (ud_users d !! u);
  ui_members : forall u q id, id ∈ members u q d -> exists a, ud_accounts d !! id = Some a /\ ac_provider a = q;
}.

Section pool_steps.
Context (session_of : string -> string -> bool) (inet_ok : string -> bool) (uuid_parse : string -> option string)
        (sha256_hex : list string -> string).

Inductive upstream_step (d : upstream_db) : upstream_db -> Prop :=
| ustep_ensure provider clock id at_ : upstream_step d (EnsureUpstreamAccount provider clock id at_ d).2
| ustep_usage provider clock id at_ : upstream_step d (ensureUsageUpstreamAccount provider clock id at_ d).2
| ustep_sync provider clock accounts at_ : upstream_step d (SyncUpstreamAccounts provider clock accounts at_ d).2
| ustep_weight provider clock w id n : upstream_step d (SetUpstreamAccountAllocationWeight session_of inet_ok provider clock w id n d).2
| ustep_limit provider clock w id n : upstream_step d (SetUpstreamAccountConcurrentLimit session_of inet_ok provider clock w id n d).2
| ustep_access provider clock p : upstream_step d (SetUpstreamAccountAccess session_of inet_ok uuid_parse sha256_hex provider clock p d).2
| ustep_user provider clock p : upstream_step d (SetUserUpstreamAccess session_of inet_ok uuid_parse sha256_hex provider clock p d).2
| ustep_guard {A} (m : tx guard_db A) : upstream_step d (withTx (in_guard m) d).2.

(** A row may be replaced by one with the same provider and access mode. *)
Lemma inv_set_account d id a : upstream_inv d -> upstream_account_check id a = true ->
  (forall old, ud_accounts d !! id = Some old -> ac_provider a = ac_provider old /\ ac_access_mode a = ac_access_mode old) ->
  (ud_accounts d !! id = None -> ac_access_mode a = "shared") ->
  upstream_inv (set_upstream_accounts (<[id := a]> (ud_accounts d)) d).
Proof.
  intros [H1 H2 H3 H4] Hc Hold Hnew. split; unfold grants, members in *; utables.
  - by apply map_Forall_insert_2.
  - intros j b. destruct (decide (id = j)) as [<-|Hj]; [|rewrite lookup_insert_ne by done; apply H2].
    rewrite lookup_insert_eq. intros [= <-]. destruct (ud_accounts d !! id) as [old|] eqn:E.
    + destruct (Hold _ eq_refl) as [_ ->]. by apply H2.
    + rewrite Hnew by done. split; [done|]. intros Hne. apply set_choose_L in Hne as [u Hu]. destruct (H3 _ _ Hu) as [[] _]. congruence.
  - intros j u Hu. destruct (H3 _ _ Hu) as [Hj ?]. split; [|done]. destruct (decide (id = j)) as [<-|]; [rewrite lookup_insert_eq|rewrite lookup_insert_ne by done]; eauto.
  - intros u q j Hj. destruct (H4 _ _ _ Hj) as (b & Hb & Hq). destruct (decide (id = j)) as [<-|]; [|rewrite lookup_insert_ne by done; eauto].
    exists a. rewrite lookup_insert_eq. split; [done|]. destruct (Hold _ Hb) as [-> _]. done.
Qed.

Lemma inv_accounts d d' : upstream_inv d -> d' = with_accounts_of d' d -> accounts_ok d' ->
  (forall id a, ud_accounts d !! id = Some a -> exists a', ud_accounts d' !! id = Some a' /\ local_columns a' = local_columns a) ->
  (forall id a', ud_accounts d !! id = None -> ud_accounts d' !! id = Some a' -> ac_access_mode a' = "shared") -> upstream_inv d'.
Proof.
  intros [H1 H2 H3 H4] Hd Hok Hold Hnew.
  assert (Hg : forall id, grants id d' = grants id d) by (intros; by rewrite Hd).
  assert (Hm : forall u q, members u q d' = members u q d) by (intros; by rewrite Hd). split; [done|..].
  - intros id a' Ha'. rewrite Hg. destruct (ud_accounts d !! id) as [a|] eqn:E.
    + destruct (Hold _ _ E) as (b & Hb & Hl). rewrite <- (H2 _ _ E). unfold local_columns in Hl. assert (ac_access_mode a' = ac_access_mode a) as -> by congruence. done.
    + rewrite (Hnew id a') by done. split; [done|]. intros Hne. apply set_choose_L in Hne as [u Hu]. destruct (H3 _ _ Hu) as [[] _]. congruence.
  - intros id u. rewrite Hg. intros Hu. destruct (H3 _ _ Hu) as [[a Ha] Hu']. destruct (Hold _ _ Ha) as (b & Hb & _). split; [by eauto|]. by rewrite Hd.
  - intros u q id. rewrite Hm. intros Hi. destruct (H4 _ _ _ Hi) as (a & Ha & Hq). destruct (Hold _ _ Ha) as (b & Hb & Hl).
    exists b. split; [done|]. unfold local_columns in Hl. congruence.
Qed.

Lemma inv_add_audit e d : upstream_inv d -> upstream_inv (add_audit e d).
Proof. intros [H1 H2 H3 H4]. split; [exact H1|exact H2|exact H3|exact H4]. Qed.

Lemma ensure_keeps provider clock id at_ d : upstream_inv d -> upstream_inv (EnsureUpstreamAccount provider clock id at_ d).2.
Proof.
  intros Hi. unfold EnsureUpstreamAccount. destruct (normalizeUpstreamAccountID id) as [i|]; [|done]. destruct (empty i); [done|].
  destruct (ud_accounts d !! i) eqn:E; [by case_bool_decide|]. apply withTx_preserves; [|done]. intros x d' [Hc ->]%save_account_Ok.
  apply inv_set_account; [done|done| |done]. intros old. by rewrite E.
Qed.

Lemma preference_keeps op1 op2 op3 P w at_ ev id (f : upstream_account -> upstream_account) (md : upstream_account -> list (string * meta)) x d d' :
  (forall a, ac_provider (f a) = ac_provider a /\ ac_access_mode (f a) = ac_access_mode a) ->
  (let* a := lock_account op1 P id in
   save_account op2 id (f a) ;;
   upstream_audit session_of inet_ok op3 w at_ ev "upstream_account" id (md a) ;;
   tret (f a)) d = Ok (x, d') -> upstream_inv d -> upstream_inv d'.
Proof.
  intros Hf H Hi. inv_tx H. apply lock_upstream_Ok in Ht as (Ha & Hp & ->). inv_tx H. apply save_account_Ok in Ht as [Hc ->].
  inv_tx H. apply upstream_audit_Ok in Ht as [e ->]. cbn in H. unfold tret in H. simplify_eq. apply inv_add_audit, inv_set_account; [done|done| |congruence].
  intros old Hold. simplify_eq. apply Hf.
Qed.

Lemma sync_inv provider clock accounts at_ d : upstream_inv d -> upstream_inv (SyncUpstreamAccounts provider clock accounts at_ d).2.
Proof.
  intros Hi. pose proof (sync_keeps provider clock accounts at_ d (ui_accounts _ Hi)) as Hok.
  destruct (SyncUpstreamAccounts provider clock accounts at_ d) as [[[]|e] d2] eqn:E.
  - destruct (sync_lookup _ _ _ _ _ _ E) as (l & _ & Hd & Hl & _). eapply inv_accounts; [done|done|done|..].
    + intros id a Ha. rewrite Hl, Ha. unfold sync_result. destruct (entry_of id l) as [v|]; cbn [fmap option_fmap option_map]; eexists; (split; [done|]);
          [apply synced_local|apply mark_missing_local].
    + intros id a Ha. rewrite Hl, Ha. unfold sync_result. destruct (entry_of id l) as [v|]; cbn; [by intros [= <-]|done].
  - unfold SyncUpstreamAccounts in E. destruct (negb _); [by simplify_eq|]. destruct (normalize_snapshots _ _ _); [|by simplify_eq].
    apply withTx_rollback in E as ->. done.
Qed.

Lemma normalizeUpstreamAccess_Ok p reason ids : normalizeUpstreamAccess uuid_parse p = Ok (reason, ids) ->
  ids ≡ₚ sa_UserIDs p /\ (sa_Mode p = "shared" /\ ids = [] \/ sa_Mode p = "exclusive" /\ ids <> []).
Proof.
  unfold normalizeUpstreamAccess. cbv zeta. case_match eqn:E1; [done|]. case_match eqn:E2; [done|]. intros [= _ <-].
  pose proof (stable_sort_perm str_ltb (sa_UserIDs p)) as Hp. split; [done|].
  apply orb_false_iff in E1 as [E1 Hex]. apply orb_false_iff in E1 as [E1 Hsh]. apply orb_false_iff in E1 as [E1 _]. apply orb_false_iff in E1 as [_ Hmode].
  destruct (bool_decide_reflect (sa_Mode p = "shared")) as [Hs|].
  - left. split; [done|]. apply negb_false_iff, bool_decide_eq_true in Hsh. by rewrite Hsh.
  - right. destruct (bool_decide_reflect (sa_Mode p = "exclusive")) as [He|]; [|done]. split; [done|]. apply bool_decide_eq_false in Hex.
    intros Hn. rewrite Hn in Hp. by apply Permutation_nil_l in Hp.
Qed.

Lemma access_keeps provider clock p d : upstream_inv d ->
  upstream_inv (SetUpstreamAccountAccess session_of inet_ok uuid_parse sha256_hex provider clock p d).2.
Proof.
  intros Hi. unfold SetUpstreamAccountAccess. destruct (normalizeUpstreamAccess uuid_parse p) as [[reason ids]|] eqn:EN; [|done].
  apply normalizeUpstreamAccess_Ok in EN as [_ Hmode]. apply withTx_preserves; [|done]. intros r d' H.
  inv_tx H. apply lock_upstream_Ok in Ht as (Ha & Hp & ->). do 2 rewrite tgets_bind in H. rewrite tguard_bind in H.
  case_bool_decide as Hk; [|done]. apply filter_length_all in Hk. rewrite forallb_forall in Hk.
  inv_tx H. apply save_account_Ok in Ht as (Hc & ->). do 2 rewrite tmod_bind in H. inv_tx H.
  apply upstream_audit_Ok in Ht as (e & ->). cbn in H. unfold tret in H. simplify_eq. apply inv_add_audit.
  destruct Hi as [H1 H2 H3 H4]. unfold grants, members in *. split; unfold grants, members; utables.
  - by apply map_Forall_insert_2.
  - intros j b. destruct (decide (sa_AccountID p = j)) as [<-|Hj].
    + rewrite !lookup_insert_eq. intros [= <-]. cbn. destruct Hmode as [[-> ->]|[-> Hne]]; [done|]. split; [|done]. intros _.
      intros He. destruct ids as [|i ids]; [done|]. apply (not_elem_of_empty (C := gset string) i). rewrite <- He. cbn. apply elem_of_union_l, elem_of_singleton. done.
    + rewrite !lookup_insert_ne, lookup_delete_ne by done. apply H2.
  - intros j u. destruct (decide (sa_AccountID p = j)) as [<-|Hj].
    + rewrite !lookup_insert_eq. cbn. rewrite elem_of_list_to_set. intros Hu. split; [eauto|].
      apply list_elem_of_In in Hu. apply Hk in Hu. unfold known_user in Hu. by destruct (ud_users d !! u).
    + rewrite !lookup_insert_ne, lookup_delete_ne by done. apply H3.
  - intros u q j Hj. destruct (H4 _ _ _ Hj) as (b & Hb & Hq). destruct (decide (sa_AccountID p = j)) as [<-|Hne].
    + rewrite lookup_insert_eq. eexists. split; [done|]. simplify_eq. done.
    + rewrite lookup_insert_ne by done. eauto.
Qed.

Lemma user_access_keeps provider clock p d : upstream_inv d ->
  upstream_inv (SetUserUpstreamAccess session_of inet_ok uuid_parse sha256_hex provider clock p d).2.
Proof.
  intros Hi. unfold SetUserUpstreamAccess. destruct (negb _); [done|]. destruct (normalizeUserUpstreamAccess uuid_parse p) as [[reason ids]|]; [|done].
  apply withTx_preserves; [|done]. intros r d' H. rewrite tgets_bind, tguard_bind in H. case_bool_decide as Hk; [|done].
  apply filter_length_all in Hk. rewrite forallb_forall in Hk.
  inv_tx H. unfold lock_nonpending_user in Ht. rewrite tgets_bind in Ht. destruct (ud_users d !! su_UserID p) as [status|]; [|done].
  cbn in Ht. apply tguard_Ok in Ht as (_ & ->). rewrite tgets_bind in H. inv_tx H. unfold replaceUserUpstreamAccessTx in Ht. do 3 rewrite tmod_bind in Ht.
  apply upstream_audit_Ok in Ht as (e & ->). cbn in H. unfold tret in H. simplify_eq. apply inv_add_audit.
  destruct Hi as [H1 H2 H3 H4]. split; [exact H1|exact H2|exact H3|].
  intros u q id. unfold members in *. utables. cbn [xa_UserID xa_Provider xa_AccountIDs].
  destruct (decide ((su_UserID p, upstreamProviderName provider) = (u, q))) as [[= <- <-]|Hne].
  - rewrite lookup_insert_eq. cbn. rewrite elem_of_list_to_set. intros Hin%list_elem_of_In. apply Hk in Hin. unfold account_of_provider in Hin.
    destruct (ud_accounts d !! id) as [b|]; [|done]. apply bool_decide_eq_true in Hin. eauto.
  - rewrite lookup_insert_ne, lookup_delete_ne by done. apply H4.
Qed.

(** [C25] Whatever sequence of synchronisations, owner's writes and quota guard
    operations has run, the account rows satisfy their constraints, an account
    names authorised users exactly when it is exclusive, and a user's selection
    holds only registered accounts of its own provider. *)
Theorem upstream_pool_consistent d0 d : upstream_inv d0 -> rtc upstream_step d0 d -> upstream_inv d.
Proof.
  intros Hi Hr. induction Hr as [d|d1 d2 d3 Hs _ IH]; [done|]. apply IH. clear IH.
  destruct Hs as [provider clock id at_|provider clock id at_|provider clock accounts at_|provider clock w id n|provider clock w id n|provider clock p|provider clock p|A m].
  - by apply ensure_keeps.
  - unfold ensureUsageUpstreamAccount. destruct (ud_accounts d1 !! id); [by destruct (_ && _)%bool|by apply ensure_keeps].
  - by apply sync_inv.
  - unfold SetUpstreamAccountAllocationWeight. case_match; [done|]. apply withTx_preserves; [|done]. intros a d' H'.
    eapply (preference_keeps _ _ _ _ _ _ _ _ (fun a => with_preferences n (ac_limit a) (ac_access_mode a) a)); [|exact H'|done]. done.
  - unfold SetUpstreamAccountConcurrentLimit. case_match; [done|]. apply withTx_preserves; [|done]. intros a d' H'.
    eapply (preference_keeps _ _ _ _ _ _ _ _ (fun a => with_preferences (ac_weight a) n (ac_access_mode a) a)); [|exact H'|done]. done.
  - by apply access_keeps.
  - by apply user_access_keeps.
  - apply withTx_preserves; [|done]. intros a d' H'. unfold in_guard, tzoom in H'. destruct (m (guard_of d1)) as [[x g]|]; [|done]. injection H' as _ <-.
    destruct Hi as [H1 H2 H3 H4]. split; [exact H1|exact H2|exact H3|exact H4].
Qed.
End pool_steps.

(** ** A concrete pool *)

Definition pool_start : upstream_db :=
  {| ud_users := list_to_map [("owner", "active"); ("ann", "active"); ("bob", "active")]; ud_accounts := ∅; ud_grants := ∅; ud_modes := ∅;
     ud_members := ∅; ud_ledger := []; ud_guard_settings := GuardSettings 5 1 0; ud_guard_states := ∅; ud_audits := [] |}.
Definition acct_a : string := "00000000000000aa".
Definition acct_b : string := "00000000000000bb".
Definition pool_sessions (_ _ : string) : bool := true.
Definition pool_address (_ : string) : bool := true.
Definition pool_digest (l : list string) : string := String.concat "," l.
Definition pool_write : upstream_write := {| uw_ActorUserID := "owner"; uw_ActorSessionID := ""; uw_RequestID := ""; uw_SourceIP := ""; uw_At := 0 |}.
Definition pool_snapshot : list UpstreamAccountSnapshot :=
  [Snapshot acct_a "slot-a" "a***@example.com" "ChatGPT Pro" "active" 0; Snapshot acct_b "" "b***@example.com" "" "" 0].
Definition pool_synced : upstream_db := (SyncUpstreamAccounts "" Hour pool_snapshot 0 pool_start).2.
Definition pool_access : SetUpstreamAccountAccessParams :=
  {| sa_AccountID := acct_b; sa_Mode := "exclusive"; sa_UserIDs := ["bob"; "ann"]; sa_Reason := "team"; sa_write := pool_write |}.
Definition pool_exclusive : upstream_db := (SetUpstreamAccountAccess pool_sessions pool_address Some pool_digest "" Hour pool_access pool_synced).2.
Definition pool_scope : SetUserUpstreamAccessParams :=
  {| su_UserID := "ann"; su_Mode := "selected"; su_AccountIDs := [acct_b]; su_Reason := "trial"; su_write := pool_write |}.
Definition pool_scoped : upstream_db := (SetUserUpstreamAccess pool_sessions pool_address Some pool_digest "codex" Hour pool_scope pool_exclusive).2.

Lemma pool_start_inv : upstream_inv pool_start.
Proof.
  split.
  - exact (map_Forall_empty _).
  - intros id a H. vm_compute in H. discriminate H.
  - intros id u H. vm_compute in H. discriminate H.
  - intros u q id H. vm_compute in H. discriminate H.
Qed.

Lemma pool_synced_inv : upstream_inv pool_synced.
Proof. exact (sync_inv "" Hour pool_snapshot 0 pool_start pool_start_inv). Qed.

Lemma account_access_exact_witness :
  authorized "ann" "codex" pool_exclusive acct_b = true /\ authorized "owner" "codex" pool_exclusive acct_b = false /\
  authorized "owner" "codex" pool_exclusive acct_a = authorized "owner" "codex" pool_synced acct_a.
Proof.
  destruct (SetUpstreamAccountAccess pool_sessions pool_address Some pool_digest "" Hour pool_access pool_synced) as [[r|e] d'] eqn:E;
    [|exfalso; apply (f_equal fst) in E; vm_compute in E; discriminate E].
  assert (Hd : pool_exclusive = d') by exact (f_equal snd E).
  pose proof (account_access_exact pool_sessions pool_address Some pool_digest "" Hour pool_access pool_synced r d' E) as H.
  rewrite Hd. rewrite !H. split; [vm_compute; reflexivity|]. split; [vm_compute; reflexivity|]. reflexivity.
Defined.

Lemma user_access_exact_witness :
  authorized "ann" "codex" pool_scoped acct_a = false /\ authorized "ann" "codex" pool_scoped acct_b = true /\
  authorized "bob" "codex" pool_scoped acct_a = authorized "bob" "codex" pool_exclusive acct_a.
Proof.
  destruct (SetUserUpstreamAccess pool_sessions pool_address Some pool_digest "codex" Hour pool_scope pool_exclusive) as [[r|e] d'] eqn:E;
    [|exfalso; apply (f_equal fst) in E; vm_compute in E; discriminate E].
  assert (Hd : pool_scoped = d') by exact (f_equal snd E).
  destruct (user_access_exact pool_sessions pool_address Some pool_digest "codex" Hour pool_scope pool_exclusive r d' E) as [_ H].
  rewrite Hd. rewrite !H. split; [vm_compute; reflexivity|]. split; [vm_compute; reflexivity|]. reflexivity.
Defined.

Lemma sync_exact_witness :
  SyncUpstreamAccounts "" Hour pool_snapshot 0 pool_synced = (Ok tt, pool_synced) /\
  option_map ac_plan (ud_accounts pool_synced !! acct_a) = Some "pro".
Proof.
  split; [|vm_compute; reflexivity].
  destruct (SyncUpstreamAccounts "" Hour pool_snapshot 0 pool_start) as [[[]|e] d'] eqn:E;
    [|exfalso; apply (f_equal fst) in E; vm_compute in E; discriminate E].
  assert (Hd : pool_synced = d') by exact (f_equal snd E).
  destruct (sync_exact "" Hour pool_snapshot 0 pool_start d' (ui_accounts _ pool_start_inv) E) as (l & _ & _ & _ & _ & H).
  rewrite Hd. exact H.
Defined.

Lemma upstream_pool_consistent_witness : upstream_inv pool_scoped.
Proof.
  refine (upstream_pool_consistent pool_sessions pool_address Some pool_digest pool_start pool_scoped pool_start_inv _).
  refine (rtc_l _ _ pool_synced _ (ustep_sync _ _ _ _ _ "" Hour pool_snapshot 0) _).
  refine (rtc_l _ _ pool_exclusive _ (ustep_access _ _ _ _ _ "" Hour pool_access) _).
  refine (rtc_l _ _ pool_scoped _ (ustep_user _ _ _ _ _ "codex" Hour pool_scope) _). exact (rtc_refl _ _).
Defined.
