(* ===== verification/Pools.v ===== *)
(** * Account pools of groups ([internal/store/group_upstream_accounts.go])

    A group may use all accounts of a provider or a selection of them.  A policy
    is an operation of the group books; admission takes a snapshot of the pool.
    [po_policies] is [None] before the migration that creates its table.  The
    response of an operation of this kind is kept in [po_responses], beside its
    row in the operations of the groups.  [self] is the provider that a store was
    opened for; [collate] is the database's order of text. *)
From Stdlib Require Import Ascii.
From S2P Require Import Prelude GoStrings GoTime Amount Store Money Funding BillingTables Accounts Groups Membership QuotaGuard Upstreams.

Record GroupUpstreamAccountPolicy := {
  gu_GroupID : string;
  gu_Provider : string;
  gu_Strategy : string;
  gu_Mode : string;
  gu_AccountIDs : list string;
  gu_UpdatedAt : Z;
}.
Record SetGroupUpstreamAccountsParams := {
  gp_Write : BillingWriteParams;
  gp_GroupID : string;
  gp_Provider : string;
  gp_Strategy : string;
  gp_AccountIDs : list string;
}.

(** ** Tables *)

Record policy_row := PolicyRow { py_strategy : string; py_created : Z; py_updated : Z }.
Record pools_db := PoolsDB {
  po_groups : group_db;
  po_upstreams : upstream_db;
  po_policies : option (gmap (string * string) policy_row);
  po_selected : gmap (string * string) (gset string);
  po_responses : gmap string GroupUpstreamAccountPolicy;
}.
Definition set_po_groups v d := PoolsDB v (po_upstreams d) (po_policies d) (po_selected d) (po_responses d).
Definition set_policies v d := PoolsDB (po_groups d) (po_upstreams d) (Some v) (po_selected d) (po_responses d).
Definition set_selected v d := PoolsDB (po_groups d) (po_upstreams d) (po_policies d) v (po_responses d).
Definition set_responses v d := PoolsDB (po_groups d) (po_upstreams d) (po_policies d) (po_selected d) v.
Definition in_pool_groups {A} (m : tx group_db A) : tx pools_db A := tzoom po_groups set_po_groups m.

Ltac potables := cbn [set_po_groups set_policies set_selected set_responses po_groups po_upstreams po_policies po_selected po_responses] in *.

(** [SELECT id FROM upstream_accounts WHERE provider = $1]. *)
Definition provider_accounts (provider : string) (d : upstream_db) : gset string := dom (filter (fun kv => ac_provider kv.2 = provider) (ud_accounts d)).
Definition selected_accounts (gid provider : string) (d : pools_db) : gset string := default ∅ (po_selected d !! (gid, provider)).

(** ** Parameters *)

Section pools.
Context (uuid_parse : string -> option string) (fingerprint : list string -> string) (session_of : string -> string -> bool) (inet_ok : string -> bool)
        (collate : string -> string -> comparison).

Definition text_less (a b : string) : bool := match collate a b with Lt => true | _ => false end.
(** [ORDER BY] a column of text. *)
Definition sorted_set (s : gset string) : list string := stable_sort text_less (elements s).

Fixpoint pool_ids (seen ids : list string) : result store_error (list string) :=
  match ids with
  | [] => Ok []
  | id :: rest =>
      match normalizeUpstreamAccountID id with
      | Err _ => Err (ErrInvalid "invalid or duplicate upstream account")
      | Ok id =>
          if empty id || bool_decide (id ∈ seen) then Err (ErrInvalid "invalid or duplicate upstream account") else
          let! l := pool_ids (id :: seen) rest in Ok (id :: l)
      end
  end.
Definition pool_provider (provider : string) : result store_error string :=
  let provider := to_lower (trim_space provider) in
  if isUpstreamProvider provider then Ok provider else Err (ErrInvalid "invalid upstream provider").
Definition normalizeGroupUpstreamParams (p : SetGroupUpstreamAccountsParams) : result store_error SetGroupUpstreamAccountsParams :=
  let! gid := canonicalGroupID uuid_parse (trim_space (gp_GroupID p)) in
  let! provider := pool_provider (gp_Provider p) in
  let strategy := to_lower (trim_space (gp_Strategy p)) in
  let strategy := if empty strategy then "all" else strategy in
  if negb (bool_decide (strategy = "all")) && negb (bool_decide (strategy = "selected")) then Err (ErrInvalid "invalid group upstream strategy") else
  if bool_decide (strategy = "all") && negb (bool_decide (gp_AccountIDs p = [])) then Err (ErrInvalid "all strategy cannot include accounts") else
  let! ids := pool_ids [] (gp_AccountIDs p) in
  Ok {| gp_Write := gp_Write p; gp_GroupID := gid; gp_Provider := provider; gp_Strategy := strategy; gp_AccountIDs := stable_sort str_ltb ids |}.

(** ** Writes *)

(** [INSERT INTO group_operations ... ON CONFLICT DO NOTHING] and the replay. *)
Definition claim_pool_operation (w : BillingWriteParams) (fp : string) : tx pools_db (option GroupUpstreamAccountPolicy) :=
  tguard ((1 <=? rune_count (OperationID w)) && (rune_count (OperationID w) <=? 128)) (ErrInvalid "claim group upstream operation") ;;
  let* d := tgets (fun d => d) in
  match gd_operations (po_groups d) !! OperationID w with
  | None =>
      tguard (bool_decide (is_Some (users (gd_billing (po_groups d)) !! ActorUserID w))) (ErrInvalid "claim group upstream operation") ;;
      in_pool_groups (tmod (fun g => set_group_operations (<[OperationID w := GroupOperation (ActorUserID w) "group_upstream_accounts" fp None (At w)]> (gd_operations g)) g)) ;;
      tret None
  | Some row =>
      match po_responses d !! OperationID w with
      | Some response =>
          tguard (bool_decide (go_actor row = ActorUserID w) && bool_decide (go_action row = "group_upstream_accounts") && bool_decide (go_fingerprint row = fp))
            (ErrConflict "group operation replay mismatch") ;;
          tret (Some response)
      | None => tfail (ErrConflict "group operation replay mismatch")
      end
  end.

Definition save_policy (gid provider strategy : string) (ids : list string) (at_ : Z) : tx pools_db unit :=
  let* policies := tgets po_policies in
  match policies with
  | None => tfail (ErrOther "save group upstream policy")
  | Some rows =>
      let row := match rows !! (gid, provider) with Some r => PolicyRow strategy (py_created r) at_ | None => PolicyRow strategy at_ at_ end in
      tmod (set_policies (<[(gid, provider) := row]> rows)) ;;
      tmod (fun d => set_selected (<[(gid, provider) := list_to_set ids]> (po_selected d)) d)
  end.

Definition pool_body (w : BillingWriteParams) (p : SetGroupUpstreamAccountsParams) : tx pools_db GroupUpstreamAccountPolicy :=
  let gid := gp_GroupID p in
  let provider := gp_Provider p in
  let ids := gp_AccountIDs p in
  let fp := fingerprint ["group_upstream_accounts"; gid; provider; gp_Strategy p; join (String "000" EmptyString) ids; trim_space (Reason w)] in
  in_pool_groups (lockGroupTx gid) ;;
  let* groups := tgets (fun d => gd_groups (po_groups d)) in
  let* g := tsome "read group upstream status" (groups !! gid) in
  tguard (bool_decide (ug_archived_at g = None)) (ErrConflict "group is archived") ;;
  let* known := tgets (fun d => provider_accounts provider (po_upstreams d)) in
  tguard (forallb (fun id => bool_decide (id ∈ known)) ids) (ErrNotFound "upstream account not found for provider") ;;
  let* replay := claim_pool_operation w fp in
  match replay with
  | Some response => tret response
  | None =>
      save_policy gid provider (gp_Strategy p) ids (At w) ;;
      let result := {| gu_GroupID := gid; gu_Provider := provider; gu_Strategy := gp_Strategy p; gu_Mode := gp_Strategy p; gu_AccountIDs := ids; gu_UpdatedAt := At w |} in
      tmod (fun d => set_responses (<[OperationID w := result]> (po_responses d)) d) ;;
      in_pool_groups (group_audit session_of inet_ok w "group.upstream_accounts" "group" gid
        [("provider", MetaString provider); ("strategy", MetaString (gp_Strategy p)); ("account_count", MetaInt (Z.of_nat (length ids))); ("operation_id", MetaString (OperationID w))]) ;;
      tret result
  end.
Definition SetGroupUpstreamAccounts (clock : Z) (p : SetGroupUpstreamAccountsParams) (d : pools_db) : result store_error GroupUpstreamAccountPolicy * pools_db :=
  match (let! p := normalizeGroupUpstreamParams p in let! _ := validateBillingWrite (gp_Write p) in
         if empty (ActorUserID (gp_Write p)) then Err (ErrInvalid "actor required") else Ok p) with
  | Err e => (Err e, d)
  | Ok p => withTx (pool_body (with_at clock (gp_Write p)) p) d
  end.
Definition SetGroupUpstreamAccountPolicy : Z -> SetGroupUpstreamAccountsParams -> pools_db -> result store_error GroupUpstreamAccountPolicy * pools_db := SetGroupUpstreamAccounts.

(** ** Reads *)

Definition all_policy (gid provider : string) : GroupUpstreamAccountPolicy :=
  {| gu_GroupID := gid; gu_Provider := provider; gu_Strategy := "all"; gu_Mode := "all"; gu_AccountIDs := []; gu_UpdatedAt := 0 |}.
Definition GetGroupUpstreamAccounts (groupID provider : string) (d : pools_db) : result store_error GroupUpstreamAccountPolicy :=
  let! gid := canonicalGroupID uuid_parse (trim_space groupID) in
  let! provider := pool_provider provider in
  if negb (bool_decide (is_Some (gd_groups (po_groups d) !! gid))) then Err (ErrNotFound "") else
  match po_policies d with
  | None => Err (ErrOther "read group upstream policy")
  | Some rows =>
      match rows !! (gid, provider) with
      | None => Ok (all_policy gid provider)
      | Some r => Ok {| gu_GroupID := gid; gu_Provider := provider; gu_Strategy := py_strategy r; gu_Mode := py_strategy r;
                        gu_AccountIDs := sorted_set (selected_accounts gid provider d); gu_UpdatedAt := py_updated r |}
      end
  end.
(** The accounts, or that all of them are meant. *)
Definition GroupUpstreamAccountIDs (groupID provider : string) (d : pools_db) : result store_error (list string * bool) :=
  let! policy := GetGroupUpstreamAccounts groupID provider d in
  Ok (if bool_decide (gu_Strategy policy = "all") then ([], true) else (gu_AccountIDs policy, false)).

Definition pool_strategy (gid provider : string) (d : pools_db) : string :=
  match po_policies d with Some rows => match rows !! (gid, provider) with Some r => py_strategy r | None => "all" end | None => "all" end.
Definition snapshotGroupUpstreamAllocationGroupTx (groupID provider : string) : tx pools_db UpstreamAllocationGroup :=
  let* gid := tlift (canonicalGroupID uuid_parse (trim_space groupID)) in
  let* provider := tlift (pool_provider provider) in
  let* d := tgets (fun d => d) in
  let ids := if bool_decide (pool_strategy gid provider d = "selected")
             then selected_accounts gid provider d ∩ provider_accounts provider (po_upstreams d)
             else provider_accounts provider (po_upstreams d) in
  tret {| ag_GroupID := gid; ag_AccountIDs := sorted_set ids; ag_AllAccounts := false |}.

(** [ORDER BY CASE status WHEN 'available' THEN 0 ELSE 1 END, lower(masked_email), id]. *)
Definition account_less (a b : string * upstream_account) : bool :=
  let rank x := if bool_decide (ac_status x = UpstreamAccountStatusAvailable) then 0 else 1 in
  if negb (rank a.2 =? rank b.2) then rank a.2 <? rank b.2 else
  match collate (to_lower (ac_masked_email a.2)) (to_lower (ac_masked_email b.2)) with Lt => true | Gt => false | Eq => text_less a.1 b.1 end.
Definition ListUpstreamAccounts (self : string) (d : upstream_db) : list (string * upstream_account) :=
  stable_sort account_less (map_to_list (filter (fun kv => ac_provider kv.2 = upstreamProviderName self) (ud_accounts d))).

Definition pool_of_policy (self gid : string) (policy : GroupUpstreamAccountPolicy) (d : pools_db) : UpstreamAllocationGroup :=
  {| ag_GroupID := gid; ag_AccountIDs := if bool_decide (gu_Strategy policy = "all") then (ListUpstreamAccounts self (po_upstreams d)).*1 else gu_AccountIDs policy; ag_AllAccounts := false |}.
Definition ListGroupUpstreamAllocationGroup (self groupID provider : string) (d : pools_db) : result store_error UpstreamAllocationGroup :=
  let! gid := canonicalGroupID uuid_parse (trim_space groupID) in
  let! provider := pool_provider provider in
  let! policy := GetGroupUpstreamAccounts gid provider d in
  Ok (pool_of_policy self gid policy d).

(** The groups of a user, from the table or, in an old schema, from the column. *)
Definition user_allocation_ids (userID model : string) (d : group_db) : result store_error (list string) :=
  match gd_memberships d with
  | Some m => Ok (List.filter (fun gid => match gd_groups d !! gid with
                                          | Some g => is_nil (ug_archived_at g) && (empty model || bool_decide (model ∈ ug_model_ids g))
                                          | None => false end) (user_memberships userID m).*1)
  | None => if bool_decide (is_Some (billing_accounts (gd_billing d) !! userID)) then Ok (option_list (gd_mirror d !! userID))
            else Err (ErrNotFound "read legacy allocation group")
  end.
Fixpoint user_allocation_groups (self provider : string) (ids : list string) (d : pools_db) : result store_error (list UpstreamAllocationGroup) :=
  match ids with
  | [] => Ok []
  | gid :: rest =>
      let! policy := GetGroupUpstreamAccounts gid provider d in
      let! l := user_allocation_groups self provider rest d in
      Ok (pool_of_policy self gid policy d :: l)
  end.
Definition ListUserUpstreamAllocationGroups (self userID provider model : string) (d : pools_db) : result store_error (list UpstreamAllocationGroup) :=
  let! uid := canonicalGroupID uuid_parse (trim_space userID) in
  let! provider := pool_provider provider in
  let! ids := user_allocation_ids uid model (po_groups d) in
  user_allocation_groups self provider ids d.
End pools.

(** ** Lemmas *)

(** The accounts that a group may use for a provider. *)
Definition account_pool (gid provider : string) (d : pools_db) : gset string :=
  if bool_decide (pool_strategy gid provider d = "selected")
  then selected_accounts gid provider d ∩ provider_accounts provider (po_upstreams d)
  else provider_accounts provider (po_upstreams d).

(** What a committed policy leaves: its row and its accounts, and nothing else
    of the pools; the groups and the money are as before. *)
Record pool_saved (w : BillingWriteParams) (fp : string) (q : SetGroupUpstreamAccountsParams) (r : GroupUpstreamAccountPolicy) (d d' : pools_db) : Prop := {
  psv_result : r = {| gu_GroupID := gp_GroupID q; gu_Provider := gp_Provider q; gu_Strategy := gp_Strategy q; gu_Mode := gp_Strategy q;
                     gu_AccountIDs := gp_AccountIDs q; gu_UpdatedAt := At w |};
  psv_policy : exists rows row, po_policies d = Some rows /\ py_strategy row = gp_Strategy q /\ py_updated row = At w /\
    po_policies d' = Some (<[(gp_GroupID q, gp_Provider q) := row]> rows);
  psv_selected : po_selected d' = <[(gp_GroupID q, gp_Provider q) := list_to_set (gp_AccountIDs q)]> (po_selected d);
  psv_upstreams : po_upstreams d' = po_upstreams d;
  psv_groups : gd_groups (po_groups d') = gd_groups (po_groups d);
  psv_operation : gd_operations (po_groups d') !! OperationID w = Some (GroupOperation (ActorUserID w) "group_upstream_accounts" fp None (At w));
  psv_response : po_responses d' = <[OperationID w := r]> (po_responses d);
  psv_money : group_frame (po_groups d) (po_groups d');
}.

(** The record of a policy that an operation left. *)
Record pool_recorded (w : BillingWriteParams) (fp : string) (r : GroupUpstreamAccountPolicy) (d : pools_db) : Prop := {
  pr_row : exists row, gd_operations (po_groups d) !! OperationID w = Some row /\
    (go_actor row, go_action row, go_fingerprint row) = (ActorUserID w, "group_upstream_accounts", fp);
  pr_response : po_responses d !! OperationID w = Some r;
}.
(** What the transaction requires. *)
Record pool_guard (w : BillingWriteParams) (q : SetGroupUpstreamAccountsParams) (d : pools_db) : Prop := {
  pgd_group : exists g, gd_groups (po_groups d) !! gp_GroupID q = Some g /\ ug_archived_at g = None;
  pgd_known : Forall (fun id => id ∈ provider_accounts (gp_Provider q) (po_upstreams d)) (gp_AccountIDs q);
  pgd_operation : (1 <=? rune_count (OperationID w)) && (rune_count (OperationID w) <=? 128) = true;
}.

Section lemmas.
Context (uuid_parse : string -> option string) (fingerprint : list string -> string) (session_of : string -> string -> bool) (inet_ok : string -> bool)
        (collate : string -> string -> comparison).
Abbreviation sorted := (sorted_set collate).

Lemma sorted_elem x s : x ∈ sorted s <-> x ∈ s.
Proof. unfold sorted_set. by rewrite (stable_sort_perm (text_less collate)), elem_of_elements. Qed.
Lemma sorted_to_set s : (list_to_set (sorted s) : gset string) = s.
Proof. apply set_eq. intros x. by rewrite elem_of_list_to_set, sorted_elem. Qed.

Lemma snapshot_run gid provider g p d : canonicalGroupID uuid_parse (trim_space gid) = Ok g -> pool_provider provider = Ok p ->
  snapshotGroupUpstreamAllocationGroupTx uuid_parse collate gid provider d =
    Ok ({| ag_GroupID := g; ag_AccountIDs := sorted (account_pool g p d); ag_AllAccounts := false |}, d).
Proof. intros Hg Hp. unfold snapshotGroupUpstreamAllocationGroupTx. rewrite Hg, Hp. done. Qed.

Lemma elem_provider_accounts provider d id : id ∈ provider_accounts provider d <-> exists a, ud_accounts d !! id = Some a /\ ac_provider a = provider.
Proof. unfold provider_accounts. rewrite elem_of_dom. split; [intros [a [H1 H2]%map_lookup_filter_Some]; eauto|intros (a & H1 & H2); exists a; by apply map_lookup_filter_Some]. Qed.

Lemma forallb_Forall (P : gset string) l : forallb (fun id => bool_decide (id ∈ P)) l = true <-> Forall (fun id => id ∈ P) l.
Proof. rewrite forallb_forall, Forall_forall. setoid_rewrite list_elem_of_In. setoid_rewrite bool_decide_eq_true. done. Qed.

Lemma audit_tail w e t id m (d d' : group_db) u : group_audit session_of inet_ok w e t id m d = Ok (u, d') ->
  gd_groups d' = gd_groups d /\ gd_operations d' = gd_operations d /\ group_frame d d'.
Proof.
  intros H. pose proof (same_audit session_of inet_ok w e t id m _ _ _ H) as []. pose proof (frame_audit session_of inet_ok w e t id m _ _ _ H).
  split; [done|]. split; [|done]. revert H. unfold group_audit. intros H. inv_tx H. apply tlift_Ok in Ht as [_ ->].
  unfold on_billing, tzoom in H. destruct (appendBillingAuditTx _ _ _ _ _ _ _ _) as [[]|]; [|done]. by injection H as _ <-.
Qed.

Lemma locked id d u d' : in_pool_groups (lockGroupTx id) d = Ok (u, d') -> d' = d /\ is_Some (gd_groups (po_groups d) !! id).
Proof.
  unfold in_pool_groups, tzoom, lockGroupTx. rewrite tgets_bind. destruct (gd_groups (po_groups d) !! id) eqn:E; cbn; [|done].
  intros [= _ <-]. split; [by destruct d|eauto].
Qed.

Definition pool_fingerprint (w : BillingWriteParams) (q : SetGroupUpstreamAccountsParams) : string :=
  fingerprint ["group_upstream_accounts"; gp_GroupID q; gp_Provider q; gp_Strategy q; join (String "000" EmptyString) (gp_AccountIDs q); trim_space (Reason w)].

(** A policy that committed was saved, or it is the replay of one that was. *)
Lemma pool_body_Ok w q d r d' : pool_body fingerprint session_of inet_ok w q d = Ok (r, d') ->
  pool_guard w q d /\
  (pool_saved w (pool_fingerprint w q) q r d d' /\ gd_operations (po_groups d) !! OperationID w = None \/
   pool_recorded w (pool_fingerprint w q) r d /\ d' = d).
Proof.
  unfold pool_body. intros H. inv_tx H. apply locked in Ht as [-> [g Hg]]. rewrite tgets_bind in H. rewrite Hg in H. cbn [tsome] in H. rewrite tret_bind in H.
  rewrite tguard_bind in H. case_bool_decide as Ha; [|done]. rewrite tgets_bind, tguard_bind in H. destruct (forallb _ _) eqn:Hf; [|done].
  unfold claim_pool_operation in H. inv_tx H. rewrite tguard_bind in Ht. destruct (_ && _) eqn:Hc; [|done]. rewrite tgets_bind in Ht.
  split; [split; [eauto|apply forallb_Forall; done|done]|].
  destruct (gd_operations (po_groups d) !! OperationID w) as [row|] eqn:Eo.
  - destruct (po_responses d !! OperationID w) as [response|] eqn:Er; [|done]. rewrite tguard_bind in Ht. destruct (_ && _ && _) eqn:Em; [|done]. injection Ht as <- <-.
    injection H as <- <-. right. split; [|done]. split; [|done]. exists row. split; [done|]. apply andb_true_iff in Em as [[E1%bool_decide_eq_true E2%bool_decide_eq_true]%andb_true_iff E3%bool_decide_eq_true].
    by rewrite E1, E2, E3.
  - left. split; [|done]. rewrite tguard_bind in Ht. case_bool_decide; [|done]. injection Ht as <- <-. inv_tx H. unfold save_policy in Ht. rewrite tgets_bind in Ht.
    potables. destruct (po_policies d) as [rows|] eqn:Ep; [|done]. rewrite tmod_bind in Ht. injection Ht as <- <-. rewrite tmod_bind in H. inv_tx H.
    unfold in_pool_groups, tzoom in Ht. destruct (group_audit _ _ _ _ _ _ _ _) as [[u gd]|] eqn:Eg; [|done]. injection Ht as <- <-. injection H as <- <-.
    apply audit_tail in Eg as (E1 & E2 & E3). potables. gtables.
    split; potables; try done.
    + eexists rows, _. split; [done|]. split; [|split; [|done]]; by destruct (rows !! _).
    + rewrite E2. by rewrite lookup_insert_eq.
Qed.

Lemma pool_body_replay w q d r : pool_guard w q d -> pool_recorded w (pool_fingerprint w q) r d -> pool_body fingerprint session_of inet_ok w q d = Ok (r, d).
Proof.
  intros [(g & Hg & Ha) Hk Hc] [(row & Ho & [= E1 E2 E3]) Er]. unfold pool_body.
  rewrite (tbind_run _ _ d tt d) by (unfold in_pool_groups, tzoom, lockGroupTx; rewrite tgets_bind, Hg; by destruct d).
  rewrite tgets_bind, Hg. cbn [tsome]. rewrite tret_bind, tguard_bind, bool_decide_true by done. rewrite tgets_bind, tguard_bind.
  rewrite (proj2 (forallb_Forall _ _)) by done.
  rewrite (tbind_run _ _ d (Some r) d); [done|]. unfold claim_pool_operation. rewrite tguard_bind, Hc, tgets_bind, Ho, Er, tguard_bind.
  rewrite !bool_decide_true by done. done.
Qed.

(** What a saved policy leaves lets it be replayed. *)
Lemma pool_saved_recorded w fp q r d d' : pool_saved w fp q r d d' -> pool_recorded w fp r d'.
Proof. intros []. split; [eauto|]. by rewrite psv_response0, lookup_insert_eq. Qed.
Lemma pool_saved_guard w fp q r d d' : pool_saved w fp q r d d' -> pool_guard w q d -> pool_guard w q d'.
Proof. intros [] []. by split; rewrite ?psv_groups0, ?psv_upstreams0. Qed.
End lemmas.

(** ** Properties *)

Section properties.
Context (uuid_parse : string -> option string) (fingerprint : list string -> string) (session_of : string -> string -> bool) (inet_ok : string -> bool)
        (collate : string -> string -> comparison).
Abbreviation Set_ := (SetGroupUpstreamAccounts uuid_parse fingerprint session_of inet_ok).
Abbreviation Get := (GetGroupUpstreamAccounts uuid_parse collate).

(** What is checked before the transaction. *)
Definition pool_arguments (p : SetGroupUpstreamAccountsParams) : result store_error SetGroupUpstreamAccountsParams :=
  let! p := normalizeGroupUpstreamParams uuid_parse p in let! _ := validateBillingWrite (gp_Write p) in
  if empty (ActorUserID (gp_Write p)) then Err (ErrInvalid "actor required") else Ok p.

Lemma set_pool_run clock p q d : pool_arguments p = Ok q ->
  Set_ clock p d = withTx (pool_body fingerprint session_of inet_ok (with_at clock (gp_Write q)) q) d.
Proof. unfold SetGroupUpstreamAccounts, pool_arguments. by intros ->. Qed.

Lemma set_pool_committed clock p d r d' : Set_ clock p d = (Ok r, d') ->
  exists q, pool_arguments p = Ok q /\ pool_body fingerprint session_of inet_ok (with_at clock (gp_Write q)) q d = Ok (r, d').
Proof.
  unfold SetGroupUpstreamAccounts. fold (pool_arguments p). destruct (pool_arguments p) as [q|e]; [|done]. intros H%withTx_commit. eauto.
Qed.

Lemma pool_provider_fix provider : isUpstreamProvider provider = true -> pool_provider provider = Ok provider.
Proof. unfold isUpstreamProvider. rewrite bool_decide_eq_true, !elem_of_cons, elem_of_nil. by intros [->|[->|[->|[]]]]. Qed.
Lemma pool_provider_Ok provider p : pool_provider provider = Ok p -> isUpstreamProvider p = true.
Proof. unfold pool_provider. destruct (isUpstreamProvider _) eqn:E; [|done]. by intros [= <-]. Qed.

Lemma pool_ids_NoDup ids : forall seen l, pool_ids seen ids = Ok l -> NoDup l /\ Forall (fun id => (id ∉ seen) /\ id <> "") l.
Proof.
  induction ids as [|id ids IH]; intros seen l; cbn; [intros [= <-]; by split; constructor|].
  destruct (normalizeUpstreamAccountID id) as [x|]; [|done]. destruct (empty x || _) eqn:E; [done|]. intros H. inv_bind H. injection H as <-.
  apply orb_false_iff in E as [E1 E2%bool_decide_eq_false]. apply IH in Hm as [Hd HF]. split.
  - constructor; [|done]. intros Hin. apply (proj1 (Forall_forall _ _) HF) in Hin as [Hin _]. apply Hin. left.
  - constructor; [split; [done|]; by intros ->|]. eapply Forall_impl; [exact HF|]. intros y [Hy ?]. split; [|done]. contradict Hy. by right.
Qed.

Lemma pool_arguments_norm p q : pool_arguments p = Ok q ->
  isUpstreamProvider (gp_Provider q) = true /\ (gp_Strategy q = "all" /\ gp_AccountIDs q = [] \/ gp_Strategy q = "selected") /\ NoDup (gp_AccountIDs q) /\ gp_Write q = gp_Write p.
Proof.
  unfold pool_arguments. intros H. inv_bind H. rename Hm into Hq. assert (q = a) as -> by (inv_bind H; by destruct (empty _); [|injection H as <-]). clear H.
  unfold normalizeGroupUpstreamParams in Hq. inv_bind Hq. inv_bind Hq. apply pool_provider_Ok in Hm0. cbv zeta in Hq. set (st := if empty _ then _ else _) in *. revert Hq.
  destruct (negb _ && negb _) eqn:E1; [done|]. destruct (bool_decide (st = "all") && _) eqn:E2; [done|]. intros Hq. inv_bind Hq. injection Hq as <-.
  cbn [gp_Provider gp_Strategy gp_AccountIDs gp_Write]. split; [done|]. apply pool_ids_NoDup in Hm1 as Hd. split; [|split; [rewrite (stable_sort_perm str_ltb); apply Hd|done]].
  destruct (decide (st = "all")) as [Hs|Hs]; [left; rewrite bool_decide_true in E2 by done|right; rewrite bool_decide_false in E1 by done].
  - split; [done|]. destruct (gp_AccountIDs p); [by injection Hm1 as <-|done].
  - cbn in E1. by apply negb_false_iff, bool_decide_eq_true in E1.
Qed.


(** Sending a policy again returns the first response and changes nothing. *)
Theorem set_pool_replay clock clock' p d r d' : Set_ clock p d = (Ok r, d') -> Set_ clock' p d' = (Ok r, d').
Proof.
  intros (q & Hq & H)%set_pool_committed. rewrite (set_pool_run _ _ _ _ Hq). apply withTx_commit.
  pose proof (pool_body_Ok _ _ _ _ _ _ _ _ H) as [G [[S _]|[R ->]]].
  - apply pool_body_replay; [apply (pool_saved_guard _ _ _ _ _ _ S) in G as []|apply pool_saved_recorded in S as []]; by split.
  - apply pool_body_replay; [destruct G|destruct R]; by split.
Qed.

(** Selected accounts are accounts of the provider. *)
Definition pools_inv (d : pools_db) : Prop :=
  forall gid provider, selected_accounts gid provider d ⊆ provider_accounts provider (po_upstreams d).

Lemma set_pool_inv clock p d : pools_inv d -> pools_inv (Set_ clock p d).2.
Proof.
  intros I. destruct (Set_ clock p d) as [[r|e] d'] eqn:E; cbn.
  - apply set_pool_committed in E as (q & _ & H). destruct (pool_body_Ok _ _ _ _ _ _ _ _ H) as [[_ Hk _] [[[_ _ Es Eu _ _ _ _] _]|[_ ->]]]; [|done].
    intros gid provider. unfold selected_accounts. rewrite Es, Eu. destruct (decide ((gp_GroupID q, gp_Provider q) = (gid, provider))) as [[= <- <-]|Hne].
    + rewrite lookup_insert_eq. cbn. intros x. unfold id. rewrite elem_of_list_to_set. by apply (proj1 (Forall_forall _ _) Hk).
    + rewrite lookup_insert_ne by done. apply I.
  - assert (d' = d) as ->; [|done]. revert E. unfold SetGroupUpstreamAccounts. destruct (rbind _ _); [apply withTx_rollback|by intros [= _ <-]].
Qed.

(** [ListGroupUpstreamAllocationGroup] resolves a pool outside a transaction.
    For a selected policy it returns what the snapshot of an admission holds.
    For a policy of all accounts it returns the accounts of the provider the
    store was opened for, which are the accounts of the snapshot when that is
    the provider asked about. *)
Theorem list_pool_exact self groupID provider g p d rows : pools_inv d ->
  canonicalGroupID uuid_parse (trim_space groupID) = Ok g -> canonicalGroupID uuid_parse (trim_space g) = Ok g -> pool_provider provider = Ok p ->
  is_Some (gd_groups (po_groups d) !! g) -> po_policies d = Some rows -> (forall k r, rows !! k = Some r -> py_strategy r = "all" \/ py_strategy r = "selected") ->
  exists ids, ListGroupUpstreamAllocationGroup uuid_parse collate self groupID provider d = Ok {| ag_GroupID := g; ag_AccountIDs := ids; ag_AllAccounts := false |} /\
    (list_to_set ids : gset string) = (if bool_decide (pool_strategy g p d = "selected") then account_pool g p d else provider_accounts (upstreamProviderName self) (po_upstreams d)) /\
    (upstreamProviderName self = p -> (list_to_set ids : gset string) = account_pool g p d).
Proof.
  intros I Hg Hg' Hp Hx Er Hs. unfold ListGroupUpstreamAllocationGroup. rewrite Hg, Hp. cbn [rbind]. unfold GetGroupUpstreamAccounts. rewrite Hg'. cbn [rbind].
  rewrite pool_provider_fix by by eapply pool_provider_Ok. cbn [rbind]. rewrite bool_decide_true by done. cbn [negb]. rewrite Er.
  assert (Hall : (list_to_set (ListUpstreamAccounts collate self (po_upstreams d)).*1 : gset string) = provider_accounts (upstreamProviderName self) (po_upstreams d)).
  { apply set_eq. intros x. unfold ListUpstreamAccounts. rewrite elem_of_list_to_set, (stable_sort_perm (account_less collate)), list_elem_of_fmap, elem_provider_accounts. split.
    - intros ([y a] & -> & [H1 H2]%elem_of_map_to_list%map_lookup_filter_Some). eauto.
    - intros (a & H1 & H2). exists (x, a). split; [done|]. apply elem_of_map_to_list, map_lookup_filter_Some. done. }
  unfold account_pool, pool_strategy. rewrite Er. destruct (rows !! (g, p)) as [r|] eqn:Ek; cbn [rbind].
  - eexists. split; [done|]. unfold pool_of_policy. cbn [gu_Strategy gu_AccountIDs]. destruct (Hs _ _ Ek) as [->| ->]; [change (bool_decide ("all" = "all")) with true|change (bool_decide ("selected" = "all")) with false]; cbn [ag_AccountIDs].
    + rewrite Hall. split; [done|]. by intros ->.
    + rewrite sorted_to_set. specialize (I g p). assert (selected_accounts g p d ∩ provider_accounts p (po_upstreams d) = selected_accounts g p d) as E by by apply subseteq_intersection_1_L.
      split; [by rewrite E|]. intros _. by rewrite E.
  - eexists. split; [done|]. unfold pool_of_policy. cbn [gu_Strategy all_policy]. change (bool_decide ("all" = "all")) with true. cbn [ag_AccountIDs]. rewrite Hall. split; [done|]. by intros ->.
Qed.
End properties.

(** ** A sample pool *)

Definition pools_start : pools_db := PoolsDB demo_both pool_synced (Some ∅) ∅ ∅.
Definition pools_write (op strategy : string) (ids : list string) : SetGroupUpstreamAccountsParams :=
  {| gp_Write := demo_write op; gp_GroupID := demo_team; gp_Provider := " Codex "; gp_Strategy := strategy; gp_AccountIDs := ids |}.
Definition pools_selected : result store_error GroupUpstreamAccountPolicy * pools_db :=
  SetGroupUpstreamAccounts Some demo_fingerprint demo_any demo_ip demo_start (pools_write "op-7" "selected" [acct_b]) pools_start.
(** The selection of no account turns the provider off. *)
Definition pools_disabled : result store_error GroupUpstreamAccountPolicy * pools_db :=
  SetGroupUpstreamAccounts Some demo_fingerprint demo_any demo_ip demo_start (pools_write "op-8" "Selected" []) pools_selected.2.

Example pools_ex :
  gu_AccountIDs <$> (match pools_selected.1 with Ok r => Some r | Err _ => None end) = Some [acct_b] /\
  elements (account_pool demo_team "codex" pools_disabled.2) = [] /\
  GroupUpstreamAccountIDs Some demo_collate demo_team "codex" pools_selected.2 = Ok ([acct_b], false) /\
  (length <$> (match ListUserUpstreamAllocationGroups Some demo_collate "" "ann" "codex" "" pools_selected.2 with Ok l => Some (ag_AccountIDs <$> l) | Err _ => None end)) = Some 2%nat.
Proof. split_and!; vm_compute; reflexivity. Qed.


Lemma set_pool_replay_witness :
  SetGroupUpstreamAccounts Some demo_fingerprint demo_any demo_ip (demo_start + 5) (pools_write "op-7" "selected" [acct_b]) pools_selected.2 = pools_selected.
Proof.
  destruct pools_selected as [[r|e] d'] eqn:E; [|exfalso; apply (f_equal fst) in E; vm_compute in E; discriminate E].
  exact (set_pool_replay Some demo_fingerprint demo_any demo_ip demo_start (demo_start + 5) (pools_write "op-7" "selected" [acct_b]) pools_start r d' E).
Defined.

Lemma pools_start_inv : pools_inv pools_start.
Proof. intros gid provider. unfold selected_accounts. change (po_selected pools_start) with (∅ : gmap (string * string) (gset string)). rewrite lookup_empty. apply empty_subseteq. Qed.

Lemma list_pool_exact_witness :
  (exists ids, ListGroupUpstreamAllocationGroup Some demo_collate "" demo_team "codex" pools_selected.2 = Ok {| ag_GroupID := demo_team; ag_AccountIDs := ids; ag_AllAccounts := false |} /\
     (list_to_set ids : gset string) = account_pool demo_team "codex" pools_selected.2).
Proof.
  set (rows := {[(demo_team, "codex") := PolicyRow "selected" demo_start demo_start]} : gmap (string * string) policy_row).
  assert (E : po_policies pools_selected.2 = Some rows) by (vm_compute; reflexivity).
  destruct (list_pool_exact Some demo_collate "" demo_team "codex" demo_team "codex" pools_selected.2 rows) as (ids & H & _ & Hs).
  - apply set_pool_inv. exact pools_start_inv.
  - vm_compute. reflexivity.
  - vm_compute. reflexivity.
  - vm_compute. reflexivity.
  - apply (bool_decide_unpack _). vm_compute. exact I.
  - exact E.
  - intros k r [<- <-]%lookup_singleton_Some. by right.
  - exists ids. split; [exact H|]. apply Hs. reflexivity.
Defined.

(** A store opened for [anthropic] lists no account for a group that may use all
    [codex] accounts; the snapshot has both. *)
Example list_other_provider :
  ListGroupUpstreamAllocationGroup Some demo_collate "anthropic" demo_team "codex" pools_start = Ok {| ag_GroupID := demo_team; ag_AccountIDs := []; ag_AllAccounts := false |} /\
  bool_decide (acct_a ∈ account_pool demo_team "codex" pools_start) = true.
Proof. split; vm_compute; reflexivity. Qed.
