(* ===== verification/Selection.v ===== *)
(** * Choosing an upstream account ([internal/store/upstream_allocation.go])

    A new assignment goes to the candidate whose share of the last day's
    settled cost is furthest below its share of the weights; ties are broken by
    a weighted draw.  [big.Rat] is Stdlib's [Q]; [draw] stands for
    [crypto/rand]; [row_order] is the order in which PostgreSQL returns rows of
    a query without ORDER BY. *)
From Stdlib Require Import QArith.
From S2P Require Import Prelude GoStrings GoTime Amount Store Money Funding BillingTables Accounts QuotaGuard Upstreams.
#[local] Open Scope Z_scope.

(** ** The selection *)

Record upstreamAllocationCandidate := Candidate { cd_id : string; cd_weight : Z; cd_cost : string }.

Definition ErrNoUpstreamAccount : store_error := ErrOther "store: no upstream account accepts new assignments".

(** The first loop: the costs, nil for a candidate of weight zero, and the totals. *)
Fixpoint allocation_totals (candidates : list upstreamAllocationCandidate) (totalCost : Q) (totalWeight : Z)
  : result store_error (list (option Q) * Q * Z) :=
  match candidates with
  | [] => Ok ([], totalCost, totalWeight)
  | c :: rest =>
      if (cd_weight c <? 0) || (MaxUpstreamAllocationWeight <? cd_weight c)
      then Err (ErrInvalid "invalid upstream allocation weight") else
      if cd_weight c =? 0 then
        let! t := allocation_totals rest totalCost totalWeight in
        let '(costs, cost, weight) := t in Ok (None :: costs, cost, weight)
      else
        match rat_SetString (cd_cost c) with
        | None => Err (ErrOther "invalid upstream allocation cost")
        | Some q =>
            if Qnum q <? 0 then Err (ErrOther "invalid upstream allocation cost") else
            let! t := allocation_totals rest (Qplus totalCost q) (wrap64 (totalWeight + cd_weight c)) in
            let '(costs, cost, weight) := t in Ok (Some q :: costs, cost, weight)
        end
  end.

Definition deficit_of (totalCost : Q) (totalWeight : Z) (weight : Z) (cost : Q) : Q :=
  Qminus (Qmult totalCost (inject_Z weight)) (Qmult cost (inject_Z totalWeight)).

(** The second loop: the candidates of the largest deficit and their weight. *)
Fixpoint largest_deficit (totalCost : Q) (totalWeight : Z) (candidates : list (upstreamAllocationCandidate * option Q))
  (largest : option Q) (ties : list upstreamAllocationCandidate) (tiedWeight : Z) : list upstreamAllocationCandidate * Z :=
  match candidates with
  | [] => (ties, tiedWeight)
  | (c, cost) :: rest =>
      if cd_weight c =? 0 then largest_deficit totalCost totalWeight rest largest ties tiedWeight else
      let deficit := deficit_of totalCost totalWeight (cd_weight c) (default 0%Q cost) in
      match match largest with None => Gt | Some m => Qcompare deficit m end with
      | Lt => largest_deficit totalCost totalWeight rest largest ties tiedWeight
      | Gt => largest_deficit totalCost totalWeight rest (Some deficit) [c] (wrap64 (0 + cd_weight c))
      | Eq => largest_deficit totalCost totalWeight rest largest (ties ++ [c]) (wrap64 (tiedWeight + cd_weight c))
      end
  end.

Fixpoint pick (ties : list upstreamAllocationCandidate) (chosen : Z) : result store_error string :=
  match ties with
  | [] => Err ErrNoUpstreamAccount
  | c :: rest => if chosen <? cd_weight c then Ok (cd_id c) else pick rest (chosen - cd_weight c)
  end.

Definition selectUpstreamAllocation (candidates : list upstreamAllocationCandidate) (draw : Z -> result store_error Z) : result store_error string :=
  if MaxUpstreamAllocationCandidates <? Z.of_nat (length candidates) then Err (ErrInvalid "too many upstream candidates") else
  let! t := allocation_totals candidates 0%Q 0 in
  let '(costs, totalCost, totalWeight) := t in
  if totalWeight =? 0 then Err ErrNoUpstreamAccount else
  let '(ties, tiedWeight) := largest_deficit totalCost totalWeight (zip candidates costs) None [] 0 in
  match ties with
  | [c] => Ok (cd_id c)
  | _ =>
      match draw tiedWeight with
      | Err _ => Err (ErrOther "randomize tied upstream allocations")
      | Ok chosen =>
          if (chosen <? 0) || (tiedWeight <=? chosen) then Err (ErrOther "invalid upstream allocation random result")
          else pick ties chosen
      end
  end.

(** The tests of the repository. *)
Example select_tests :
  let fail := fun _ => Err (ErrOther "drawn") in
  selectUpstreamAllocation [Candidate "a" 5 "5"; Candidate "b" 20 "5"] fail = Ok "b" /\
  selectUpstreamAllocation [Candidate "a" 5 "1"; Candidate "b" 20 "9"; Candidate "drained" 0 "1000000"] fail = Ok "a" /\
  selectUpstreamAllocation [Candidate "a" 1 "999999999999999999.000000000001"; Candidate "b" 1 "999999999999999999.000000000000"] fail = Ok "b" /\
  selectUpstreamAllocation [Candidate "a" 0 "1"; Candidate "b" 0 "2"] fail = Err ErrNoUpstreamAccount.
Proof. vm_compute. auto. Qed.

(** ** The query *)

(** [COALESCE(usage_requested_at, created_at)]. *)
Definition charge_time (e : ledger_row) : Z := default (le_created_at e) (le_usage_requested_at e).

(** The settled cost attributed to an account in [from, until). *)
Definition in_window (accountID : string) (from until : Z) (e : ledger_row) : bool :=
  bool_decide (le_entry_type e = "usage_charge") && bool_decide (le_account e = Some accountID) &&
  (from <=? charge_time e) && (charge_time e <? until).
(** [sum] skips NULLs. *)
Definition window_costs (accountID : string) (from until : Z) (l : list ledger_row) : list Z :=
  omap (fun e => sc_cost <$> le_charge e) (List.filter (in_window accountID from until) l).
Definition window_cost (accountID : string) (from until : Z) (l : list ledger_row) : Z := foldr Z.add 0 (window_costs accountID from until l).

Section select.
Context (uuid_parse : string -> option string) (row_order : list upstreamAllocationCandidate -> list upstreamAllocationCandidate).

(** A candidate as the query returns it; an account that is not registered has
    weight one and no cost. *)
Definition candidate_row (from until : Z) (d : upstream_db) (id : string) : upstreamAllocationCandidate :=
  match ud_accounts d !! id with
  | Some a => Candidate id (ac_weight a)
      (if bool_decide (window_costs id from until (ud_ledger d) = []) then "0" else numeric_text (window_cost id from until (ud_ledger d)))
  | None => Candidate id 1 "0"
  end.

Definition assignable (userID provider : string) (at_ : Z) (d : upstream_db) (id : string) : bool :=
  authorized userID provider d id && negb (upstreamQuotaGuardHeld id at_ (guard_of d)).

Definition allocation_snapshot (userID provider : string) (ids : list string) (at_ : Z) (d : upstream_db) : list upstreamAllocationCandidate :=
  map (candidate_row (at_ - Day24) at_ d) (List.filter (assignable userID provider at_ d) ids).

Definition SelectUpstreamAccount (provider userID : string) (candidateIDs : list string) (at_ clock : Z) (draw : Z -> result store_error Z) (d : upstream_db)
  : result store_error string :=
  if negb (validUpstreamProvider provider) then Err (ErrInvalid "invalid upstream provider") else
  let! _ := upstreamCandidateArguments uuid_parse userID candidateIDs in
  if bool_decide (candidateIDs = []) || (MaxUpstreamAllocationCandidates <? Z.of_nat (length candidateIDs))
  then Err (ErrInvalid "invalid upstream candidate count") else
  let at_ := or_clock at_ clock in
  if negb (all_unique upstreamAccountIDPattern [] candidateIDs) then Err (ErrInvalid "noncanonical or duplicate upstream candidate") else
  selectUpstreamAllocation (row_order (allocation_snapshot userID (upstreamProviderName provider) candidateIDs at_ d)) draw.
End select.

(** ** The candidates of the largest deficit *)

(** A candidate with the cost its text denotes, in units of 10^-12 USD. *)
Definition candidate_ok (units : upstreamAllocationCandidate -> Z) (c : upstreamAllocationCandidate) : Prop :=
  0 <= cd_weight c <= MaxUpstreamAllocationWeight /\ denotes (cd_cost c) (units c) /\ 0 <= units c.

Definition positives (l : list upstreamAllocationCandidate) : list upstreamAllocationCandidate := List.filter (fun c => 0 <? cd_weight c) l.
Definition sum_of (f : upstreamAllocationCandidate -> Z) (l : list upstreamAllocationCandidate) : Z := foldr (fun c acc => f c + acc) 0 l.

Lemma sum_of_app f l1 l2 : sum_of f (l1 ++ l2) = sum_of f l1 + sum_of f l2.
Proof. unfold sum_of. induction l1 as [|c l1 IH]; cbn; [done|]. rewrite IH. lia. Qed.
Lemma sum_of_nonneg f l : (forall c, In c l -> 0 <= f c) -> 0 <= sum_of f l.
Proof. unfold sum_of. induction l as [|c l IH]; cbn; [done|]. intros H. specialize (H c (or_introl eq_refl)) as Hc. specialize (IH (fun x Hx => H x (or_intror Hx))). lia. Qed.
Lemma sum_filter_le f p l : (forall c, In c l -> 0 <= f c) -> 0 <= sum_of f (List.filter p l) <= sum_of f l.
Proof.
  unfold sum_of. induction l as [|c l IH]; cbn; [done|]. intros H. specialize (H c (or_introl eq_refl)) as Hc. specialize (IH (fun x Hx => H x (or_intror Hx))).
  destruct (p c); cbn; lia.
Qed.

Section deficits.
Context (units : upstreamAllocationCandidate -> Z).

(** How far a candidate's cost is below its share, times the total weight. *)
Definition deficit (l : list upstreamAllocationCandidate) (c : upstreamAllocationCandidate) : Z :=
  cd_weight c * sum_of units (positives l) - units c * sum_of cd_weight l.

(** The candidates that no other one is further behind than. *)
Definition furthest_behind (l : list upstreamAllocationCandidate) : list upstreamAllocationCandidate :=
  List.filter (fun c => forallb (fun c' => deficit l c' <=? deficit l c) (positives l)) (positives l).

Lemma weights_bound l : Forall (candidate_ok units) l -> 0 <= sum_of cd_weight l <= Z.of_nat (length l) * MaxUpstreamAllocationWeight.
Proof.
  induction 1 as [|c l [Hc _] _ IH]; [cbn; lia|]. cbn [sum_of foldr length]. fold (sum_of cd_weight l). lia.
Qed.

Definition costs_of (l : list upstreamAllocationCandidate) : list (option Q) :=
  map (fun c => if cd_weight c =? 0 then None else rat_SetString (cd_cost c)) l.

Lemma allocation_totals_spec l T W : Forall (candidate_ok units) l ->
  0 <= W -> W + Z.of_nat (length l) * MaxUpstreamAllocationWeight < 2 ^ 63 ->
  exists q, allocation_totals l T W = Ok (costs_of l, q, W + sum_of cd_weight l) /\
    (q == T + scaled (sum_of units (positives l)) AmountScale)%Q.
Proof.
  intros Hl. revert T W. induction Hl as [|c l (Hw & (q & Hq & Eq) & Hu) Hl IH]; intros T W HW Hb.
  { exists T. cbn. rewrite Z.add_0_r. split; [done|]. assert (scaled 0 AmountScale == 0)%Q as -> by (unfold Qeq; done). ring. }
  cbn [allocation_totals length positives List.filter costs_of map sum_of foldr] in *. fold (positives l) (costs_of l) (sum_of cd_weight l) in *.
  assert (0 < MaxUpstreamAllocationWeight) by (vm_compute; done).
  replace ((cd_weight c <? 0) || (MaxUpstreamAllocationWeight <? cd_weight c)) with false by lia.
  destruct (Z.eqb_spec (cd_weight c) 0) as [E0|E0].
  - destruct (IH T W) as (q' & -> & Hq'); [lia|lia|]. exists q'. replace (0 <? cd_weight c) with false by lia.
    cbn [rbind]. rewrite E0, Z.add_0_l. done.
  - rewrite Hq. assert ((Qnum q <? 0) = false) as ->.
    { apply Z.ltb_ge. assert (0 <= q)%Q as Hq0; [|unfold Qle in Hq0; cbn in Hq0; lia]. rewrite Eq. unfold scaled, Qle. cbn. lia. }
    replace (0 <? cd_weight c) with true by lia. rewrite wrap64_id by (unfold is_int64, min_int64, max_int64; lia).
    destruct (IH (Qplus T q) (W + cd_weight c)) as (q' & -> & Hq'); [lia|lia|]. exists q'. cbn [rbind sum_of foldr]. fold (sum_of units (positives l)).
    rewrite Z.add_assoc. split; [done|]. rewrite Hq', Eq, <- scaled_plus. ring.
Qed.

(** The second loop computes a maximum: the order of the rationals is that of
    the integer deficits. *)
Lemma deficit_scaled T W w q t c : (T == scaled t AmountScale)%Q -> (q == scaled c AmountScale)%Q ->
  (deficit_of T W w q == scaled (w * t - c * W) AmountScale)%Q.
Proof. intros HT Hq. unfold deficit_of. rewrite HT, Hq. unfold scaled, inject_Z, Qminus, Qplus, Qmult, Qopp, Qeq. cbn [Qnum Qden]. lia. Qed.

Lemma scaled_compare a b : (scaled a AmountScale ?= scaled b AmountScale)%Q = (a ?= b).
Proof. unfold scaled, Qcompare. cbn [Qnum Qden]. symmetry. apply Zmult_compare_compat_r. done. Qed.

Section loop.
Context (D : upstreamAllocationCandidate -> Z).
Definition maxima (l : list upstreamAllocationCandidate) : list upstreamAllocationCandidate :=
  List.filter (fun c => forallb (fun c' => D c' <=? D c) l) l.

Lemma filter_none {A} (l : list A) : List.filter (fun _ => false) l = [].
Proof. by induction l. Qed.

Lemma maxima_In l c : In c (maxima l) <-> In c l /\ forall c', In c' l -> D c' <= D c.
Proof. unfold maxima. rewrite List.filter_In, forallb_forall. setoid_rewrite Z.leb_le. done. Qed.

(** The maxima of a list with one more element, against a maximum so far. *)
Lemma maxima_snoc l x m : (forall c, In c l -> D c <= m) -> (exists c, In c l /\ D c = m) ->
  maxima (l ++ [x]) = match D x ?= m with Lt => maxima l | Eq => maxima l ++ [x] | Gt => [x] end.
Proof.
  intros Hm [b [Hb Eb]]. unfold maxima at 1. rewrite List.filter_app. cbn [List.filter].
  assert (Hx : forallb (fun c' => D c' <=? D x) (l ++ [x]) = (m <=? D x)).
  { apply eq_true_iff_eq. rewrite forallb_forall, Z.leb_le. setoid_rewrite Z.leb_le. split.
    - intros H. rewrite <- Eb. apply H. apply in_or_app. by left.
    - intros H c [Hc|[<-|[]]]%in_app_or; [|lia]. specialize (Hm _ Hc). lia. }
  rewrite Hx. assert (Hf : forall c, In c l -> forallb (fun c' => D c' <=? D c) (l ++ [x]) = forallb (fun c' => D c' <=? D c) l && (D x <=? D c)).
  { intros c _. by rewrite forallb_app; cbn; rewrite andb_true_r. }
  rewrite (filter_ext_in _ _ _ Hf). unfold maxima. destruct (Z.compare_spec (D x) m) as [E|E|E].
  - replace (m <=? D x) with true by lia. f_equal. apply filter_ext_in. intros c Hc. destruct (forallb _ l) eqn:F; [|done].
    rewrite forallb_forall in F. specialize (F _ Hb). lia.
  - replace (m <=? D x) with false by lia. rewrite app_nil_r. apply filter_ext_in. intros c Hc. destruct (forallb _ l) eqn:F; [|done].
    rewrite forallb_forall in F. specialize (F _ Hb). lia.
  - replace (m <=? D x) with true by lia. rewrite (filter_ext_in _ (fun _ => false)); [by rewrite filter_none|].
    intros c Hc. specialize (Hm _ Hc). apply andb_false_iff. right. lia.
Qed.

(** The positive candidates seen so far, their maxima and the running values. *)
Lemma largest_deficit_spec T W l p largest : (forall c, In c l -> 0 < cd_weight c ->
    (deficit_of T W (cd_weight c) (default 0%Q (rat_SetString (cd_cost c))) == scaled (D c) AmountScale)%Q) ->
  (forall c, In c l -> 0 <= cd_weight c) -> (forall c, In c p -> 0 <= cd_weight c) ->
  sum_of cd_weight (p ++ l) < 2 ^ 63 ->
  match largest with
  | None => p = []
  | Some m => exists z, (m == scaled z AmountScale)%Q /\ (forall c, In c p -> D c <= z) /\ exists c, In c p /\ D c = z
  end ->
  largest_deficit T W (zip l (costs_of l)) largest (maxima p) (sum_of cd_weight (maxima p)) =
    (maxima (p ++ positives l), sum_of cd_weight (maxima (p ++ positives l))).
Proof.
  revert p largest. induction l as [|c l IH]; intros p largest HD Hl Hp Hsum Hm; cbn [positives List.filter costs_of map zip zip_with].
  { cbn [largest_deficit]. by rewrite app_nil_r. }
  fold (positives l) (costs_of l). assert (0 <= cd_weight c) by (apply Hl; by left).
  assert (Hs : sum_of cd_weight ((p ++ [c]) ++ l) < 2 ^ 63) by (by rewrite <- app_assoc).
  assert (Hpc : forall x, In x (p ++ [c]) -> 0 <= cd_weight x) by (intros x [Hx|[<-|[]]]%in_app_or; [by apply Hp|done]).
  cbn [largest_deficit]. destruct (Z.eqb_spec (cd_weight c) 0) as [E0|E0].
  { replace (0 <? cd_weight c) with false by lia. apply IH; [intros; apply HD; [by right|done]|intros; apply Hl; by right|done| |done].
    rewrite sum_of_app in *. cbn [sum_of foldr] in *. fold (sum_of cd_weight l) in *. lia. }
  replace (0 <? cd_weight c) with true by lia. specialize (HD c ltac:(by left) ltac:(lia)) as HDc.
  assert (Hle : 0 <= sum_of cd_weight (maxima p) <= sum_of cd_weight p) by by apply sum_filter_le.
  assert (0 <= sum_of cd_weight l) by (apply sum_of_nonneg; intros; apply Hl; by right).
  assert (Htot : sum_of cd_weight p + cd_weight c < 2 ^ 63) by (rewrite sum_of_app in Hsum; cbn [sum_of foldr] in Hsum; fold (sum_of cd_weight l) in Hsum; lia).
  replace (p ++ c :: positives l) with ((p ++ [c]) ++ positives l) by by rewrite <- app_assoc.
  assert (Hrec : forall largest', match largest' with
      | None => p ++ [c] = []
      | Some m => exists z, (m == scaled z AmountScale)%Q /\ (forall x, In x (p ++ [c]) -> D x <= z) /\ exists x, In x (p ++ [c]) /\ D x = z
      end -> largest_deficit T W (zip l (costs_of l)) largest' (maxima (p ++ [c])) (sum_of cd_weight (maxima (p ++ [c]))) =
        (maxima ((p ++ [c]) ++ positives l), sum_of cd_weight (maxima ((p ++ [c]) ++ positives l)))).
  { intros largest' H'. apply IH; [intros; apply HD; [by right|done]|intros; apply Hl; by right|done|done|done]. }
  destruct largest as [m|]; cycle 1.
  - subst p. cbn [app] in *. assert (maxima [c] = [c]) as E by (unfold maxima; cbn; by rewrite Z.leb_refl).
    specialize (Hrec (Some (deficit_of T W (cd_weight c) (default 0%Q (rat_SetString (cd_cost c)))))). rewrite E in Hrec.
    cbn [sum_of foldr] in Hrec. rewrite Z.add_0_r in Hrec. rewrite Z.add_0_l, wrap64_id by (unfold is_int64, min_int64, max_int64; lia).
    apply Hrec. exists (D c). split; [done|]. split; [intros x [<-|[]]; lia|]. exists c. split; [by left|done].
  - destruct Hm as (z & Hz & Hmax & b & Hb & Eb).
    pose proof (maxima_snoc p c z Hmax (ex_intro _ b (conj Hb Eb))) as Hsn.
    assert (Qcompare (deficit_of T W (cd_weight c) (default 0%Q (rat_SetString (cd_cost c)))) m = (D c ?= z)) as ->.
    { rewrite HDc, Hz. apply scaled_compare. }
    destruct (Z.compare_spec (D c) z) as [E|E|E]; rewrite Hsn in Hrec.
    + rewrite wrap64_id by (unfold is_int64, min_int64, max_int64; lia).
      rewrite sum_of_app in Hrec. cbn [sum_of foldr] in Hrec. rewrite Z.add_0_r in Hrec. apply Hrec. exists z. split; [done|]. split.
      * intros x [Hx|[<-|[]]]%in_app_or; [by apply Hmax|lia].
      * exists b. split; [apply in_or_app; by left|done].
    + apply Hrec. exists z. split; [done|]. split.
      * intros x [Hx|[<-|[]]]%in_app_or; [by apply Hmax|lia].
      * exists b. split; [apply in_or_app; by left|done].
    + rewrite Z.add_0_l, wrap64_id by (unfold is_int64, min_int64, max_int64; lia). cbn [sum_of foldr] in Hrec. rewrite Z.add_0_r in Hrec.
      apply Hrec. exists (D c). split; [done|]. split.
      * intros x [Hx|[<-|[]]]%in_app_or; [specialize (Hmax _ Hx); lia|lia].
      * exists c. split; [apply in_or_app; right; by left|done].
Qed.
End loop.
End deficits.

Lemma positives_nil l : (forall c, In c l -> 0 <= cd_weight c) -> sum_of cd_weight l = 0 <-> positives l = [].
Proof.
  unfold sum_of, positives. induction l as [|c l IH]; cbn; [done|]. intros H. specialize (H c (or_introl eq_refl)) as Hc.
  specialize (IH (fun x Hx => H x (or_intror Hx))). pose proof (sum_of_nonneg cd_weight l (fun x Hx => H x (or_intror Hx))) as Hs. unfold sum_of in Hs.
  destruct (Z.ltb_spec 0 (cd_weight c)); [split; [lia|done]|]. rewrite <- IH. lia.
Qed.

Lemma maxima_nonempty D l : l <> [] -> maxima D l <> [].
Proof.
  intros Hl. assert (exists c, In c l /\ forall c', In c' l -> D c' <= D c) as (c & Hc).
  { induction l as [|x l IH]; [done|]. destruct l as [|y l]; [exists x; split; [by left|intros c' [<-|[]]; lia]|].
    destruct (IH ltac:(done)) as (c & Hc & Hmax). destruct (Z_le_gt_dec (D c) (D x)).
    - exists x. split; [by left|]. intros c' [<-|Hc']; [lia|]. specialize (Hmax _ Hc'). lia.
    - exists c. split; [by right|]. intros c' [<-|Hc']; [lia|]. by apply Hmax. }
  intros E. apply (in_nil (a := c)). rewrite <- E. by apply maxima_In.
Qed.

Lemma furthest_behind_maxima units l : furthest_behind units l = maxima (deficit units l) (positives l).
Proof. done. Qed.

(** The loops with their running totals and exact rationals compute the
    specification: the candidates of positive weight that are furthest below
    their share of the cost, alone or by a draw over their weights; no total
    overflows. *)
Lemma select_is_furthest_behind_eq units l draw :
  Forall (candidate_ok units) l -> Z.of_nat (length l) <= MaxUpstreamAllocationCandidates ->
  selectUpstreamAllocation l draw =
    match furthest_behind units l with
    | [] => Err ErrNoUpstreamAccount
    | [c] => Ok (cd_id c)
    | ties =>
        match draw (sum_of cd_weight ties) with
        | Err _ => Err (ErrOther "randomize tied upstream allocations")
        | Ok r => if (r <? 0) || (sum_of cd_weight ties <=? r) then Err (ErrOther "invalid upstream allocation random result") else pick ties r
        end
    end.
Proof.
  intros Hl Hlen. unfold selectUpstreamAllocation. replace (MaxUpstreamAllocationCandidates <? Z.of_nat (length l)) with false by lia.
  assert (HM : MaxUpstreamAllocationWeight = 2147483647 /\ MaxUpstreamAllocationCandidates = 256) by done. destruct HM as [HM HC].
  assert (Hw : forall c, In c l -> 0 <= cd_weight c).
  { intros c Hc%list_elem_of_In. rewrite Forall_forall in Hl. destruct (Hl _ Hc). lia. }
  pose proof (weights_bound units l Hl) as HW.
  destruct (allocation_totals_spec units l 0%Q 0 Hl) as (q & -> & Hq); [lia|lia|]. cbn [rbind]. rewrite Z.add_0_l.
  destruct (Z.eqb_spec (sum_of cd_weight l) 0) as [E|E].
  { apply (positives_nil l Hw) in E. unfold furthest_behind. by rewrite E. }
  change (@nil upstreamAllocationCandidate) with (maxima (deficit units l) []) at 1. change 0 with (sum_of cd_weight (maxima (deficit units l) [])) at 1.
  rewrite largest_deficit_spec; [|..].
  - cbn [app]. rewrite furthest_behind_maxima. destruct (maxima (deficit units l) (positives l)) as [|c [|c2 rest]] eqn:Em; [|done|done].
    exfalso. apply (maxima_nonempty (deficit units l) (positives l)); [|done]. intros Hn. apply E. by apply positives_nil.
  - intros c Hc Hpos. rewrite Forall_forall in Hl. apply list_elem_of_In in Hc. destruct (Hl _ Hc) as (_ & (q' & Hq' & Eq') & _). rewrite Hq'. cbn [from_option Datatypes.id].
    apply deficit_scaled; [|done]. rewrite Hq. ring.
  - done.
  - by intros c [].
  - cbn [app]. lia.
  - done.
Qed.

Lemma pick_total ties r : (forall c, In c ties -> 0 <= cd_weight c) -> 0 <= r < sum_of cd_weight ties -> exists c, In c ties /\ pick ties r = Ok (cd_id c).
Proof.
  revert r. induction ties as [|c ties IH]; intros r Hw Hr; [cbn in Hr; lia|]. cbn [pick sum_of foldr] in *. fold (sum_of cd_weight ties) in Hr.
  destruct (Z.ltb_spec r (cd_weight c)); [exists c; split; [by left|done]|].
  destruct (IH (r - cd_weight c)) as (x & Hx & E); [intros; apply Hw; by right|lia|]. exists x. split; [by right|done].
Qed.

(** When some candidate has weight, a working source of randomness always
    yields a selection, and it is a candidate of positive weight that is at
    least as far below its share as every other. *)
Lemma select_total_ex units l draw :
  Forall (candidate_ok units) l -> Z.of_nat (length l) <= MaxUpstreamAllocationCandidates ->
  (exists c, In c l /\ 0 < cd_weight c) -> (forall n, 0 < n -> exists r, draw n = Ok r /\ 0 <= r < n) ->
  exists c, selectUpstreamAllocation l draw = Ok (cd_id c) /\ In c l /\ 0 < cd_weight c /\
    forall c', In c' l -> 0 < cd_weight c' -> deficit units l c' <= deficit units l c.
Proof.
  intros Hl Hlen (c0 & Hc0 & Hpos) Hdraw.
  assert (Hin : forall c, In c (furthest_behind units l) -> In c l /\ 0 < cd_weight c /\ forall c', In c' l -> 0 < cd_weight c' -> deficit units l c' <= deficit units l c).
  { intros c. rewrite furthest_behind_maxima, maxima_In. unfold positives. rewrite List.filter_In, Z.ltb_lt. intros [[? ?] Hmax]. split_and!; [done|done|].
    intros c' Hc' Hp'. apply Hmax. apply List.filter_In. by rewrite Z.ltb_lt. }
  rewrite (select_is_furthest_behind_eq units) by done.
  destruct (furthest_behind units l) as [|c [|c2 rest]] eqn:E.
  - exfalso. apply (maxima_nonempty (deficit units l) (positives l)); [|by rewrite <- furthest_behind_maxima].
    intros Hn. apply (in_nil (a := c0)). rewrite <- Hn. apply List.filter_In. by rewrite Z.ltb_lt.
  - exists c. split; [done|]. apply Hin. by left.
  - set (ties := c :: c2 :: rest) in *. assert (Hw : forall x, In x ties -> 0 < cd_weight x) by (intros x Hx; by apply Hin).
    assert (0 < sum_of cd_weight ties).
    { pose proof (sum_of_nonneg cd_weight (c2 :: rest)) as Hs. specialize (Hw c ltac:(by left)) as Hc.
      change (sum_of cd_weight ties) with (cd_weight c + sum_of cd_weight (c2 :: rest)). assert (0 <= sum_of cd_weight (c2 :: rest)); [|lia].
      apply Hs. intros x Hx. specialize (Hw x ltac:(by right)). lia. }
    cbv zeta. destruct (Hdraw (sum_of cd_weight ties)) as (r & -> & Hr); [done|]. replace ((r <? 0) || (sum_of cd_weight ties <=? r)) with false by lia.
    destruct (pick_total ties r) as (x & Hx & ->); [|done|].
    + intros y Hy. specialize (Hw y Hy). lia.
    + exists x. split; [done|]. by apply Hin.
Qed.

(** [C16] The loops with their running totals and exact rationals compute the
    specification: the candidates of positive weight that are furthest below
    their share of the cost, alone or by a draw over their weights; no total
    overflows. *)
Theorem select_is_furthest_behind units l draw :
  Forall (candidate_ok units) l -> Z.of_nat (length l) <= MaxUpstreamAllocationCandidates ->
  selectUpstreamAllocation l draw =
    match furthest_behind units l with
    | [] => Err ErrNoUpstreamAccount
    | [c] => Ok (cd_id c)
    | ties =>
        match draw (sum_of cd_weight ties) with
        | Err _ => Err (ErrOther "randomize tied upstream allocations")
        | Ok r => if (r <? 0) || (sum_of cd_weight ties <=? r) then Err (ErrOther "invalid upstream allocation random result") else pick ties r
        end
    end.
Proof. apply select_is_furthest_behind_eq. Qed.

(** ** Ties are weighted *)

Definition is_ok_id (id : string) (r : result store_error string) : bool := match r with Ok x => bool_decide (x = id) | Err _ => false end.

(** How many of the [n] draws from [start] on give [id]. *)
Definition draws_for (id : string) (ties : list upstreamAllocationCandidate) (start n : Z) : Z :=
  Z.of_nat (length (List.filter (fun r => is_ok_id id (pick ties r)) (seqZ start n))).

Lemma filter_length_const {A} (p : A -> bool) (b : bool) l : (forall x, x ∈ l -> p x = b) -> length (List.filter p l) = if b then length l else O.
Proof.
  induction l as [|x l IH]; intros H; [by destruct b|]. cbn [List.filter]. rewrite (H x) by left.
  assert (IH' := IH (fun y Hy => H y (list_elem_of_further y x l Hy))). clear IH. rename IH' into IH. destruct b; cbn; by rewrite IH.
Qed.

Lemma draws_shift id c ties n : 0 <= n -> (forall x, In x ties -> 0 <= cd_weight x) ->
  Z.of_nat (length (List.filter (fun r => is_ok_id id (pick (c :: ties) r)) (seqZ (cd_weight c) n))) = draws_for id ties 0 n.
Proof.
  intros Hn Hw. unfold draws_for. f_equal. assert (seqZ (cd_weight c) n = (fun z => z + cd_weight c) <$> seqZ 0 n) as ->.
  { rewrite <- (Z.add_0_r (cd_weight c)) at 1. rewrite <- fmap_add_seqZ. apply list_fmap_ext. intros; lia. }
  assert (forall l, (forall r, r ∈ l -> 0 <= r) -> length (List.filter (fun r => is_ok_id id (pick (c :: ties) r)) ((fun z => z + cd_weight c) <$> l)) =
    length (List.filter (fun r => is_ok_id id (pick ties r)) l)) as Hgen.
  { induction l as [|r l IH]; intros H; [done|]. rewrite fmap_cons. cbn [List.filter]. specialize (H r ltac:(left)) as Hr.
    assert (pick (c :: ties) (r + cd_weight c) = pick ties r) as ->.
    { cbn [pick]. replace (r + cd_weight c <? cd_weight c) with false by lia. by rewrite Z.add_simpl_r. }
    specialize (IH (fun y Hy => H y (list_elem_of_further y r l Hy))).
    destruct (is_ok_id id (pick ties r)); cbn [length]; by rewrite IH. }
  apply Hgen. intros r Hr%elem_of_seqZ. lia.
Qed.

(** Of the equally likely draws below the tied weight, each tied candidate
    is given exactly as many as its weight. *)
Theorem ties_weighted ties c : NoDup (cd_id <$> ties) -> Forall (fun x => 0 <= cd_weight x) ties -> c ∈ ties ->
  draws_for (cd_id c) ties 0 (sum_of cd_weight ties) = cd_weight c.
Proof.
  intros Hnd Hw. induction ties as [|x ties IH]; intros Hc; [by apply elem_of_nil in Hc|].
  cbn in Hnd. apply NoDup_cons in Hnd as [Hx Hnd]. apply Forall_cons in Hw as [Hwx Hw].
  assert (Hw' : forall y, In y ties -> 0 <= cd_weight y) by (intros y Hy%list_elem_of_In; rewrite Forall_forall in Hw; by apply Hw).
  pose proof (sum_of_nonneg cd_weight ties Hw') as Hs. unfold draws_for. cbn [sum_of foldr]. fold (sum_of cd_weight ties).
  rewrite seqZ_app by lia. rewrite List.filter_app, length_app, Nat2Z.inj_add, Z.add_0_l, draws_shift by done.
  assert (Hfirst : forall r, r ∈ seqZ 0 (cd_weight x) -> is_ok_id (cd_id c) (pick (x :: ties) r) = bool_decide (cd_id x = cd_id c)).
  { intros r Hr%elem_of_seqZ. cbn [pick]. replace (r <? cd_weight x) with true by lia. done. }
  rewrite (filter_length_const _ _ _ Hfirst). apply elem_of_cons in Hc as [->|Hc].
  - rewrite bool_decide_true by done. rewrite length_seqZ, Z2Nat.id by done.
    assert (draws_for (cd_id x) ties 0 (sum_of cd_weight ties) = 0) as ->; [|lia].
    unfold draws_for. rewrite (filter_length_const _ false); [done|]. intros r Hr%elem_of_seqZ.
    destruct (pick_total ties r) as (y & Hy & ->); [done|lia|]. cbn. apply bool_decide_false. intros E. apply Hx. rewrite <- E. apply list_elem_of_fmap_2. by apply list_elem_of_In.
  - rewrite bool_decide_false; [by rewrite IH|]. intros E. apply Hx. rewrite E. by apply list_elem_of_fmap_2.
Qed.

(** ** No account runs ahead of its share *)

Lemma pick_In ties r id : pick ties r = Ok id -> exists c, In c ties /\ cd_id c = id.
Proof.
  revert r. induction ties as [|c ties IH]; intros r; [done|]. cbn [pick]. destruct (_ <? _).
  - intros [= <-]. exists c. split; [by left|done].
  - intros (x & ? & ?)%IH. exists x. split; [by right|done].
Qed.

Lemma select_Ok units l draw id : Forall (candidate_ok units) l -> Z.of_nat (length l) <= MaxUpstreamAllocationCandidates ->
  selectUpstreamAllocation l draw = Ok id -> exists c, In c (furthest_behind units l) /\ cd_id c = id.
Proof.
  intros Hl Hlen. rewrite (select_is_furthest_behind_eq units) by done. destruct (furthest_behind units l) as [|c [|c2 rest]]; [done| |].
  - intros [= <-]. exists c. split; [by left|done].
  - cbv zeta. destruct (draw _); [|done]. destruct (_ || _)%bool; [done|]. apply pick_In.
Qed.

Lemma sum_positives l : (forall c, In c l -> 0 <= cd_weight c) -> sum_of cd_weight (positives l) = sum_of cd_weight l.
Proof.
  unfold positives, sum_of. induction l as [|c l IH]; cbn; [done|]. intros H. specialize (H c (or_introl eq_refl)) as Hc.
  specialize (IH (fun x Hx => H x (or_intror Hx))). destruct (Z.ltb_spec 0 (cd_weight c)); cbn; lia.
Qed.

Lemma sum_linear f g a b l : sum_of (fun c => f c * a - g c * b) l = sum_of f l * a - sum_of g l * b.
Proof. unfold sum_of. induction l as [|c l IH]; cbn; lia. Qed.
Lemma sum_negative f l : l <> [] -> (forall c, In c l -> f c < 0) -> sum_of f l < 0.
Proof.
  unfold sum_of. destruct l as [|c l]; [done|]. intros _ H. cbn. specialize (H c (or_introl eq_refl)) as Hc.
  assert (foldr (fun c acc => f c + acc) 0 l <= 0); [|lia]. assert (Hl : forall x, In x l -> f x < 0) by (intros; apply H; by right).
  clear H Hc. induction l as [|x l IH]; cbn; [done|]. specialize (Hl x (or_introl eq_refl)) as Hx. specialize (IH (fun y Hy => Hl y (or_intror Hy))). lia.
Qed.

(** The deficits add up to zero, so the largest is not negative. *)
Lemma largest_not_negative units l c : (forall c, In c l -> 0 <= cd_weight c) -> In c (furthest_behind units l) -> 0 <= deficit units l c.
Proof.
  intros Hw. rewrite furthest_behind_maxima, maxima_In. intros [Hc Hmax]. destruct (Z_le_gt_dec 0 (deficit units l c)); [done|]. exfalso.
  assert (sum_of (deficit units l) (positives l) < 0) as Hneg.
  { apply sum_negative; [intros E; by rewrite E in Hc|]. intros c' Hc'. specialize (Hmax _ Hc'). lia. }
  unfold deficit in Hneg. rewrite sum_linear, (sum_positives l Hw) in Hneg. lia.
Qed.

(** A pool with what each account has been charged. *)
Record share := Share { sh_id : string; sh_weight : Z; sh_units : Z }.
Definition candidate_of (s : share) : upstreamAllocationCandidate := Candidate (sh_id s) (sh_weight s) (numeric_text (sh_units s)).
Definition units_of (c : upstreamAllocationCandidate) : Z := default 0 (numeric_of (cd_cost c)).
Definition charge (id : string) (x : Z) (s : share) : share := if bool_decide (sh_id s = id) then Share (sh_id s) (sh_weight s) (sh_units s + x) else s.

(** One assignment: an account is selected and later charged at most [limit]. *)
Inductive charge_step (limit : Z) (l : list share) : list share -> Prop :=
| charge_selected draw id x : selectUpstreamAllocation (map candidate_of l) draw = Ok id -> 0 <= x <= limit ->
    charge_step limit l (map (charge id x) l).

Definition total_weight (l : list share) : Z := foldr (fun s acc => sh_weight s + acc) 0 l.
Definition total_units (l : list share) : Z := foldr (fun s acc => (if 0 <? sh_weight s then sh_units s else 0) + acc) 0 l.

(** Each account's charges exceed its share of all charges by at most [limit]. *)
Definition within (limit : Z) (l : list share) : Prop :=
  forall s, In s l -> sh_units s * total_weight l <= sh_weight s * total_units l + limit * total_weight l.

Definition share_ok (l : list share) : Prop :=
  NoDup (sh_id <$> l) /\ Z.of_nat (length l) <= MaxUpstreamAllocationCandidates /\
  forall s, In s l -> 0 <= sh_weight s <= MaxUpstreamAllocationWeight /\ 0 <= sh_units s.

Lemma total_weight_candidates l : sum_of cd_weight (map candidate_of l) = total_weight l.
Proof. unfold sum_of, total_weight. induction l as [|s l IH]; cbn; [done|]. by rewrite IH. Qed.
Lemma units_of_candidate s : units_of (candidate_of s) = sh_units s.
Proof. unfold units_of, candidate_of. cbn. by rewrite numeric_of_text. Qed.
Lemma total_units_candidates l : sum_of units_of (positives (map candidate_of l)) = total_units l.
Proof.
  unfold sum_of, total_units, positives. induction l as [|s l IH]; [done|]. cbn [map List.filter foldr]. change (cd_weight (candidate_of s)) with (sh_weight s).
  destruct (0 <? sh_weight s); cbn [foldr]; rewrite IH; [by rewrite units_of_candidate|done].
Qed.
Lemma shares_ok l : (forall s, In s l -> 0 <= sh_weight s <= MaxUpstreamAllocationWeight /\ 0 <= sh_units s) -> Forall (candidate_ok units_of) (map candidate_of l).
Proof.
  intros H. apply Forall_forall. intros c (s & -> & Hs)%list_elem_of_fmap. apply list_elem_of_In in Hs. destruct (H _ Hs) as [Hw Hu]. split; [done|].
  rewrite units_of_candidate. split; [|done]. exists (scaled (sh_units s) AmountScale). split; [apply rat_numeric_text|done].
Qed.

Lemma charge_totals id x l s : NoDup (sh_id <$> l) -> In s l -> sh_id s = id -> 0 < sh_weight s ->
  total_units (map (charge id x) l) = total_units l + x.
Proof.
  unfold total_units. intros Hnd. induction l as [|y l IH]; intros Hs Hid Hw; [done|]. cbn in Hnd. apply NoDup_cons in Hnd as [Hy Hnd].
  cbn [map foldr]. destruct Hs as [->|Hs].
  - assert (map (charge id x) l = l) as ->.
    { clear IH Hnd. induction l as [|z l IH]; [done|]. rewrite fmap_cons, not_elem_of_cons in Hy. cbn [map]. destruct Hy as [Hz Hl].
      unfold charge at 1. rewrite bool_decide_false by congruence. f_equal. by apply IH. }
    unfold charge. rewrite (bool_decide_true _ Hid). cbn [sh_weight sh_units]. replace (0 <? sh_weight s) with true by lia. lia.
  - rewrite (IH Hnd Hs Hid Hw). unfold charge. rewrite bool_decide_false; [lia|]. intros E. apply Hy. rewrite E, <- Hid. apply list_elem_of_fmap_2. by apply list_elem_of_In.
Qed.

Lemma charge_weights id x l : total_weight (map (charge id x) l) = total_weight l.
Proof. unfold total_weight. induction l as [|y l IH]; [done|]. cbn. rewrite IH. unfold charge. by case_bool_decide. Qed.

Lemma charge_ids id x l : sh_id <$> map (charge id x) l = sh_id <$> l.
Proof. induction l as [|y l IH]; [done|]. cbn. rewrite IH. f_equal. unfold charge. by case_bool_decide. Qed.

Lemma charge_step_within limit l l' : share_ok l -> within limit l -> charge_step limit l l' -> share_ok l' /\ within limit l'.
Proof.
  intros (Hnd & Hlen & Hok) Hin Hstep. destruct Hstep as [draw id x Hsel Hx].
  assert (Hc : Forall (candidate_ok units_of) (map candidate_of l)) by by apply shares_ok.
  apply (select_Ok units_of) in Hsel as (c & Hfb & Hid); [|done|by rewrite length_map].
  assert (Hdef : 0 <= deficit units_of (map candidate_of l) c).
  { apply largest_not_negative; [|done]. intros c' (s' & <- & Hs')%in_map_iff. cbn. by destruct (Hok _ Hs') as [[? ?] ?]. }
  rewrite furthest_behind_maxima, maxima_In in Hfb. destruct Hfb as [Hpos _]. apply List.filter_In in Hpos as [Hc0 Hpos%Z.ltb_lt].
  apply in_map_iff in Hc0 as (s & <- & Hs). cbn in Hid, Hpos. unfold deficit in Hdef.
  rewrite total_units_candidates, total_weight_candidates, units_of_candidate in Hdef. cbn in Hdef.
  pose proof (charge_totals id x l s Hnd Hs Hid Hpos) as HT. split.
  - split_and!; [by rewrite charge_ids|by rewrite length_map|]. intros y (y0 & <- & Hy)%in_map_iff. destruct (Hok _ Hy) as [? ?]. unfold charge. case_bool_decide; cbn; lia.
  - intros y (y0 & <- & Hy)%in_map_iff. rewrite HT, charge_weights. specialize (Hin _ Hy). destruct (Hok _ Hy) as [Hwy _].
    assert (0 <= total_weight l) as HW.
    { rewrite <- total_weight_candidates. apply sum_of_nonneg. intros c' (s' & <- & Hs')%in_map_iff. cbn. by destruct (Hok _ Hs') as [[? ?] ?]. }
    unfold charge. case_bool_decide as E; cbn; [|nia]. assert (y0 = s) as ->; [|nia].
    apply (NoDup_fmap_unique sh_id l); [done|by apply list_elem_of_In|by apply list_elem_of_In|congruence].
Qed.


(** ** The account that serves a request *)

Lemma sum_of_perm f l1 l2 : l1 ≡ₚ l2 -> sum_of f l1 = sum_of f l2.
Proof. unfold sum_of. induction 1; cbn; lia. Qed.
Lemma positives_perm l1 l2 : l1 ≡ₚ l2 -> positives l1 ≡ₚ positives l2.
Proof. unfold positives. induction 1; cbn; repeat case_match; try done; [by constructor|constructor|by etransitivity]. Qed.
Lemma deficit_perm units l1 l2 c : l1 ≡ₚ l2 -> deficit units l1 c = deficit units l2 c.
Proof. intros H. unfold deficit. by rewrite (sum_of_perm _ _ _ (positives_perm _ _ H)), (sum_of_perm _ _ _ H). Qed.

Definition weight_in (d : upstream_db) (id : string) : Z := match ud_accounts d !! id with Some a => ac_weight a | None => 1 end.
Definition day_cost (at_ : Z) (d : upstream_db) (id : string) : Z :=
  match ud_accounts d !! id with Some _ => window_cost id (at_ - Day24) at_ (ud_ledger d) | None => 0 end.

Definition ledger_ok (d : upstream_db) : Prop := Forall (fun e => ledger_check e = true) (ud_ledger d).

Lemma window_cost_nonneg id from until d : ledger_ok d -> 0 <= window_cost id from until (ud_ledger d).
Proof.
  unfold ledger_ok, window_cost, window_costs. induction (ud_ledger d) as [|e l IH]; intros H; [done|]. apply Forall_cons in H as [He Hl]. specialize (IH Hl).
  cbn [List.filter]. destruct (in_window id from until e); [|done]. cbn [omap list_omap]. destruct (le_charge e) as [c|] eqn:E; cbn; [|done].
  unfold ledger_check in He. rewrite E in He. apply andb_true_iff in He as [_ He]. unfold charge_check in He.
  assert (0 <= sc_cost c); [|lia]. rewrite !andb_true_iff in He. lia.
Qed.

Lemma candidate_row_weight from until d id : cd_weight (candidate_row from until d id) = weight_in d id.
Proof. unfold candidate_row, weight_in. by destruct (ud_accounts d !! id). Qed.
Lemma candidate_row_id from until d id : cd_id (candidate_row from until d id) = id.
Proof. unfold candidate_row. by destruct (ud_accounts d !! id). Qed.

Lemma candidate_row_cost at_ d id : denotes (cd_cost (candidate_row (at_ - Day24) at_ d id)) (day_cost at_ d id) /\
  units_of (candidate_row (at_ - Day24) at_ d id) = day_cost at_ d id.
Proof.
  unfold candidate_row, day_cost, units_of. destruct (ud_accounts d !! id); cbn [cd_cost].
  - case_bool_decide as E.
    + unfold window_cost. rewrite E. cbn [foldr]. split; [|done]. exists 0%Q. split; [done|]. unfold Qeq. done.
    + split; [|by rewrite numeric_of_text]. eexists. split; [apply rat_numeric_text|done].
  - split; [|done]. exists 0%Q. split; [done|]. unfold Qeq. done.
Qed.

Lemma snapshot_ok userID provider ids at_ d : accounts_ok d -> ledger_ok d -> Forall (candidate_ok units_of) (allocation_snapshot userID provider ids at_ d).
Proof.
  intros Ha Hl. apply Forall_forall. intros c (id & -> & _)%list_elem_of_fmap. destruct (candidate_row_cost at_ d id) as [H1 H2].
  unfold candidate_ok. rewrite H2, candidate_row_weight. split; [|split; [done|]].
  - unfold weight_in. destruct (ud_accounts d !! id) as [a|] eqn:E; [|done]. specialize (Ha _ _ E). cbn in Ha. unfold upstream_account_check in Ha.
    rewrite !andb_true_iff in Ha. change MaxUpstreamAllocationWeight with (2 ^ 31 - 1). lia.
  - unfold day_cost. destruct (ud_accounts d !! id); [by apply window_cost_nonneg|done].
Qed.

Lemma snapshot_length userID provider ids at_ d : (length (allocation_snapshot userID provider ids at_ d) <= length ids)%nat.
Proof. unfold allocation_snapshot. rewrite length_map. apply List.filter_length_le. Qed.

Section select_theorems.
Context (uuid_parse : string -> option string) (row_order : list upstreamAllocationCandidate -> list upstreamAllocationCandidate).
Hypothesis row_order_perm : forall l, row_order l ≡ₚ l.

Lemma select_account_unfold provider userID ids at_ clock draw d :
  SelectUpstreamAccount uuid_parse row_order provider userID ids at_ clock draw d =
    if negb (validUpstreamProvider provider) then Err (ErrInvalid "invalid upstream provider") else
    match upstreamCandidateArguments uuid_parse userID ids with
    | Err e => Err e
    | Ok _ => selectUpstreamAllocation (row_order (allocation_snapshot userID (upstreamProviderName provider) ids (or_clock at_ clock) d)) draw
    end.
Proof.
  unfold SelectUpstreamAccount, upstreamCandidateArguments. destruct (negb (validUpstreamProvider provider)); [done|].
  destruct (negb (canonical_uuid uuid_parse userID)); cbn [orb rbind]; [done|].
  destruct (bool_decide (ids = [])); cbn [orb rbind]; [done|]. destruct (MaxUpstreamAllocationCandidates <? Z.of_nat (length ids)); [done|].
  by destruct (negb (all_unique _ _ _)).
Qed.

Lemma candidate_arguments_length userID ids u : upstreamCandidateArguments uuid_parse userID ids = Ok u -> Z.of_nat (length ids) <= MaxUpstreamAllocationCandidates.
Proof.
  unfold upstreamCandidateArguments. destruct (_ || _)%bool eqn:E; [done|]. intros _. apply orb_false_iff in E as [_ E]. lia.
Qed.

(** [C18] The account chosen for a new request is one of the candidates, open to
    this active user by the account's and the user's own rules, not held back by
    the quota guard, of positive weight, and at least as far below its share of
    the last day's settled cost as any other such candidate. *)
Theorem selected_account_allowed provider userID ids at_ clock draw d id :
  accounts_ok d -> ledger_ok d ->
  SelectUpstreamAccount uuid_parse row_order provider userID ids at_ clock draw d = Ok id ->
  let now := or_clock at_ clock in
  let open := List.filter (assignable userID (upstreamProviderName provider) now d) ids in
  let behind := fun x => weight_in d x * sum_of units_of (positives (map (candidate_row (now - Day24) now d) open)) -
                         day_cost now d x * foldr (fun x acc => weight_in d x + acc) 0 open in
  id ∈ ids /\ authorized userID (upstreamProviderName provider) d id = true /\ upstreamQuotaGuardHeld id now (guard_of d) = false /\
  0 < weight_in d id /\ forall other, other ∈ open -> 0 < weight_in d other -> behind other <= behind id.
Proof.
  intros Ha Hl H now open behind. rewrite select_account_unfold in H. destruct (negb _); [done|].
  destruct (upstreamCandidateArguments uuid_parse userID ids) as [u|] eqn:EA; [|done]. fold now in H.
  set (L := row_order _) in H. assert (HL : L ≡ₚ allocation_snapshot userID (upstreamProviderName provider) ids now d) by apply row_order_perm.
  apply (select_Ok units_of) in H as (c & Hc & Hid); [| |].
  - rewrite furthest_behind_maxima, maxima_In in Hc. destruct Hc as [Hpos Hmax]. apply List.filter_In in Hpos as [Hin Hpos%Z.ltb_lt].
    assert (HinL : forall x, x ∈ open -> In (candidate_row (now - Day24) now d x) L).
    { intros x Hx. apply list_elem_of_In. rewrite HL. by apply list_elem_of_fmap_2. }
    apply list_elem_of_In in Hin. rewrite HL in Hin. apply list_elem_of_fmap in Hin as (x & -> & Hx).
    rewrite candidate_row_id in Hid. subst x. rewrite candidate_row_weight in Hpos.
    assert (Hb : forall x, deficit units_of L (candidate_row (now - Day24) now d x) = behind x).
    { intros x. rewrite (deficit_perm _ _ _ _ HL). unfold deficit, behind. rewrite candidate_row_weight. destruct (candidate_row_cost now d x) as [_ ->].
      f_equal. f_equal. unfold allocation_snapshot. fold open. clear. unfold sum_of. induction open as [|y l IH]; [done|]. cbn [map foldr]. by rewrite candidate_row_weight, IH. }
    apply list_elem_of_In, List.filter_In in Hx as [Hx Has]. unfold assignable in Has. apply andb_true_iff in Has as [Hauth Hheld]. apply negb_true_iff in Hheld.
    split_and!; [by apply list_elem_of_In|done|done|done|]. intros other Ho Hw. rewrite <- !Hb. apply Hmax. apply List.filter_In. split; [by apply HinL|].
    rewrite candidate_row_weight. lia.
  - rewrite HL. by apply snapshot_ok.
  - apply candidate_arguments_length in EA. rewrite HL. pose proof (snapshot_length userID (upstreamProviderName provider) ids now d). lia.
Qed.

(** With valid arguments and a working source of randomness an account is
    chosen exactly when some candidate that is open to the user and not held
    back has positive weight; otherwise the answer is that no account accepts
    new assignments. *)
Theorem selection_answers provider userID ids at_ clock draw d :
  accounts_ok d -> ledger_ok d -> validUpstreamProvider provider = true -> upstreamCandidateArguments uuid_parse userID ids = Ok tt ->
  (forall n, 0 < n -> exists r, draw n = Ok r /\ 0 <= r < n) ->
  (exists id, id ∈ ids /\ assignable userID (upstreamProviderName provider) (or_clock at_ clock) d id = true /\ 0 < weight_in d id) /\
    (exists id, SelectUpstreamAccount uuid_parse row_order provider userID ids at_ clock draw d = Ok id) \/
  (forall id, id ∈ ids -> assignable userID (upstreamProviderName provider) (or_clock at_ clock) d id = true -> weight_in d id <= 0) /\
    SelectUpstreamAccount uuid_parse row_order provider userID ids at_ clock draw d = Err ErrNoUpstreamAccount.
Proof.
  intros Ha Hl HP HA Hdraw. rewrite select_account_unfold, HP, HA. cbn [negb]. set (now := or_clock at_ clock). set (P := upstreamProviderName provider).
  set (L := row_order _). assert (HL : L ≡ₚ allocation_snapshot userID P ids now d) by apply row_order_perm.
  assert (Hok : Forall (candidate_ok units_of) L) by (rewrite HL; by apply snapshot_ok).
  assert (Hlen : Z.of_nat (length L) <= MaxUpstreamAllocationCandidates).
  { apply candidate_arguments_length in HA. rewrite HL. pose proof (snapshot_length userID P ids now d). lia. }
  assert (Hin : forall c, In c L <-> exists id, id ∈ ids /\ assignable userID P now d id = true /\ c = candidate_row (now - Day24) now d id).
  { intros c. rewrite <- list_elem_of_In, HL. unfold allocation_snapshot. rewrite list_elem_of_fmap. setoid_rewrite list_elem_of_In. setoid_rewrite List.filter_In.
    split; [intros (x & -> & Hx & Has); by exists x|intros (x & Hx & Has & ->); by exists x]. }
  rewrite (select_is_furthest_behind_eq units_of) by done.
  destruct (positives L) as [|c rest] eqn:EP.
  - right. split.
    + intros id Hid Has. destruct (Z_le_gt_dec (weight_in d id) 0) as [|Hw]; [done|]. exfalso. apply (in_nil (a := candidate_row (now - Day24) now d id)).
      rewrite <- EP. apply List.filter_In. split; [apply Hin; eauto|]. rewrite candidate_row_weight. lia.
    + unfold furthest_behind. by rewrite EP.
  - assert (Hc : In c (positives L)) by (rewrite EP; by left). apply List.filter_In in Hc as [HcL Hpos%Z.ltb_lt]. left.
    split.
    + apply Hin in HcL as (id & Hid & Has & ->). exists id. rewrite candidate_row_weight in Hpos. done.
    + destruct (select_total_ex units_of L draw Hok Hlen) as (c' & Hc' & _); [by eauto|done|]. exists (cd_id c').
      rewrite <- Hc'. symmetry. by apply select_is_furthest_behind_eq.
Qed.
End select_theorems.

(** ** Witnesses *)

Definition busy_ledger : list ledger_row :=
  [{| le_user := "ann"; le_operation := None; le_entry_type := "usage_charge"; le_amount := 0; le_cash_delta := 0; le_balance_after := None;
      le_cny := None; le_rate := None; le_reason := ""; le_actor := None; le_created_at := Hour; le_request := None; le_model := None;
      le_usage_requested_at := None; le_account := Some acct_a; le_group := None; le_group_period := None; le_rule_version := None; le_multiplier := None;
      le_charge := Some {| sc_input_tokens := 0; sc_cached_tokens := 0; sc_output_tokens := 0; sc_cost := 7; sc_charged := 7; sc_uncovered := 0;
        sc_group_charged := 0; sc_personal_charged := 7; sc_pricing := None |} |}].
Definition busy_pool : upstream_db :=
  UpstreamDB (ud_users pool_exclusive) (ud_accounts pool_exclusive) (ud_grants pool_exclusive) (ud_modes pool_exclusive) (ud_members pool_exclusive)
    busy_ledger (ud_guard_settings pool_exclusive) (ud_guard_states pool_exclusive) (ud_audits pool_exclusive).
Definition same_order (l : list upstreamAllocationCandidate) : list upstreamAllocationCandidate := l.
Definition first_draw (n : Z) : result store_error Z := Ok 0.

Lemma busy_accounts : accounts_ok busy_pool.
Proof. apply (access_keeps pool_sessions pool_address Some pool_digest "" Hour pool_access). apply pool_synced_inv. Qed.
Lemma busy_ledger_ok : ledger_ok busy_pool.
Proof. constructor; [vm_compute; reflexivity|constructor]. Qed.

Lemma select_is_furthest_behind_witness :
  selectUpstreamAllocation [Candidate "a" 5 "0.005"; Candidate "b" 20 "0.035"] first_draw = Ok "a".
Proof.
  rewrite (select_is_furthest_behind units_of [Candidate "a" 5 "0.005"; Candidate "b" 20 "0.035"] first_draw).
  - vm_compute. reflexivity.
  - constructor; [|constructor; [|constructor]]; (split; [vm_compute; split; discriminate|split; [|vm_compute; discriminate]]);
      eexists; (split; [vm_compute; reflexivity|vm_compute; reflexivity]).
  - vm_compute. discriminate.
Defined.

Lemma ties_weighted_witness : draws_for "b" [Candidate "a" 5 "0"; Candidate "b" 20 "0"] 0 25 = 20.
Proof.
  refine (ties_weighted [Candidate "a" 5 "0"; Candidate "b" 20 "0"] (Candidate "b" 20 "0") _ _ _).
  - apply (bool_decide_unpack _). vm_compute. exact I.
  - constructor; [vm_compute; discriminate|constructor; [vm_compute; discriminate|constructor]].
  - right. left.
Defined.


(** The account that was charged is ahead, so the other one is chosen. *)
Lemma selected_account_allowed_witness :
  SelectUpstreamAccount Some same_order "" "ann" [acct_a; acct_b] (2 * Hour) 0 first_draw busy_pool = Ok acct_b /\
  authorized "ann" "codex" busy_pool acct_b = true.
Proof.
  assert (H : SelectUpstreamAccount Some same_order "" "ann" [acct_a; acct_b] (2 * Hour) 0 first_draw busy_pool = Ok acct_b) by (vm_compute; reflexivity).
  split; [exact H|].
  exact (proj1 (proj2 (selected_account_allowed Some same_order (fun l => Permutation_refl l) "" "ann" [acct_a; acct_b] (2 * Hour) 0 first_draw busy_pool acct_b
    busy_accounts busy_ledger_ok H))).
Defined.

Lemma selection_answers_witness :
  exists id, SelectUpstreamAccount Some same_order "" "ann" [acct_a; acct_b] (2 * Hour) 0 first_draw busy_pool = Ok id.
Proof.
  destruct (selection_answers Some same_order (fun l => Permutation_refl l) "" "ann" [acct_a; acct_b] (2 * Hour) 0 first_draw busy_pool
    busy_accounts busy_ledger_ok) as [[_ H]|[H _]].
  - vm_compute. reflexivity.
  - vm_compute. reflexivity.
  - intros n Hn. exists 0. split; [reflexivity|lia].
  - exact H.
  - exfalso. specialize (H acct_b ltac:(right; left) ltac:(vm_compute; reflexivity)). vm_compute in H. apply H. reflexivity.
Defined.
