(* ===== verification/Subscriptions.v ===== *)
(** * Subscriptions and their entitlements ([internal/store/billing_entitlements.go],
      [billing.go] 663-800 and 1437-1733, [billing_plans.go] 303-377)

    A subscription grants an allowance every period.  What it grants when is
    fixed by its entitlements, segments of time with one configuration each; the
    current period is opened when something looks at the subscription after the
    previous one has ended.  The tables extend those of [Groups]: the amounts of
    a period are in [BillingTables], the other columns here.  The transaction
    snapshots of ledger entries, their tier and period are kept by entry id.
    Generated ids come from the same stream as [newUUID]. *)
From Stdlib Require Import Ascii.
From S2P Require Import Prelude GoStrings GoTime Amount Store Money Funding BillingTables Charging Accounts Groups.

(** ** Durations *)

Definition BillingTierCustom : string := "custom".
Definition normalizeBillingPeriodDays (tier : string) (days : Z) : result store_error Z :=
  if bool_decide (tier = BillingTierCustom) then
    if (days <? 1) || (3650 <? days) then Err (ErrInvalid "custom period days must be between 1 and 3650") else Ok days
  else
    let! expected := (if bool_decide (tier = BillingTierDay) then Ok 1 else if bool_decide (tier = BillingTierWeek) then Ok 7 else
                      if bool_decide (tier = BillingTierMonth) then Ok 31 else Err (ErrInvalid "invalid subscription tier")) in
    if negb (days =? 0) && negb (days =? expected) then Err (ErrInvalid "period days do not match tier") else Ok expected.

Definition max_int32 : Z := 2 ^ 31 - 1.

Definition billingExpiryDays (start days count : Z) : result store_error Z :=
  if (days <? 1) || (3650 <? days) || (count <? 1) || (max_int32 <? count) || (Year start <? 1) || (9999 <? Year start)
  then Err (ErrInvalid "subscription duration exceeds supported range") else
  let seconds := wrap64 (wrap64 (days * count) * 86400) in
  let end_ := time_Unix (wrap64 (Unix start + seconds)) (Nanosecond_of start) in
  if (9999 <? Year end_) || negb (start <? end_) then Err (ErrInvalid "subscription expiry exceeds supported range") else Ok end_.

(** ** Tables *)

Record BillingPlan := {
  pl_ID : string;
  pl_Name : string;
  pl_PriceUSD : string;
  pl_Tier : string;
  pl_AllowanceUSD : string;
  pl_MinPeriodCount : Z;
  pl_Active : bool;
  pl_Version : Z;
  pl_CreatedAt : Z;
  pl_UpdatedAt : Z;
  pl_PeriodDays : Z;
  pl_ModelIDs : list string;
  pl_DeletedAt : option Z;
}.

Record subscription_row := {
  sb_user : string;
  sb_name : string;
  sb_tier : string;
  sb_enabled : bool;
  sb_allowance : Z;
  sb_current_period : option string;
  sb_period_count : Z;
  sb_current_number : Z;
  sb_expires_at : option Z;
  sb_disabled_at : option Z;
  sb_created_at : Z;
  sb_updated_at : Z;
  sb_period_days : Z;
  sb_model_ids : list string;
  sb_models_initialized : bool;
  sb_charge_enabled : bool;
  sb_priority : Z;
  sb_plan : option (string * Z);
  sb_config_version : Z;
}.

Record entitlement_row := {
  en_subscription : string;
  en_user : string;
  en_starts : Z;
  en_ends : option Z;
  en_tier : string;
  en_days : Z;
  en_allowance : Z;
  en_models : list string;
  en_count : Z;
  en_first : Z;
  en_plan : option BillingPlan;
  en_superseded : option Z;
  en_created : Z;
}.

(** The columns of [billing_subscription_periods] beside the amounts. *)
Record sub_period := SubPeriod {
  sp_starts : Z;
  sp_ends : Z;
  sp_number : Z;
  sp_count : Z;
  sp_days : Z;
  sp_entitlement : string;
  sp_closed : option (Z * string);
  sp_created : Z;
}.

Record BillingSubscriptionEntitlement := {
  be_ID : string;
  be_StartsAt : Z;
  be_EndsAt : option Z;
  be_Tier : string;
  be_PeriodDays : Z;
  be_AllowanceUSD : string;
  be_ModelIDs : list string;
  be_PeriodCount : Z;
  be_FirstPeriodNumber : Z;
  be_Plan : option BillingPlan;
}.
Record BillingSubscriptionState := {
  ss_ID : string;
  ss_Tier : string;
  ss_Enabled : bool;
  ss_AllowanceUSD : string;
  ss_RemainingUSD : string;
  ss_PeriodCount : Z;
  ss_CurrentPeriodNumber : Z;
  ss_ExpiresAt : option Z;
  ss_PeriodID : option string;
  ss_PeriodStartsAt : option Z;
  ss_PeriodEndsAt : option Z;
  ss_UpdatedAt : option Z;
  ss_ConfigVersion : Z;
  ss_Plan : option BillingPlan;
  ss_CanRenew : bool;
  ss_Name : string;
  ss_PeriodDays : Z;
  ss_ModelIDs : list string;
  ss_Priority : Z;
  ss_ChargeEnabled : bool;
  ss_Entitlements : list BillingSubscriptionEntitlement;
}.

Record BillingCashPreferences := { bp_Priority : Z; bp_ChargeEnabled : bool }.
(** The JSON object in the column [transaction_snapshot]: the keys of
    [billingTransactionSnapshot] and of [billingPreferencesSnapshot]. *)
Record billingTransactionSnapshot := {
  ts_Plan : option BillingPlan;
  ts_PeriodCount : Z;
  ts_TotalUSD : string;
  ts_BalanceUSD : string;
  ts_Subscription : option BillingSubscriptionState;
  ts_Cash : option BillingCashPreferences;
}.
Definition subscription_snapshot (s : BillingSubscriptionState) : billingTransactionSnapshot :=
  {| ts_Plan := None; ts_PeriodCount := 0; ts_TotalUSD := ""; ts_BalanceUSD := ""; ts_Subscription := Some s; ts_Cash := None |}.
Record ledger_extra := { lx_tier : option string; lx_period : option string; lx_snapshot : option billingTransactionSnapshot }.

(** A row of [billing_subscription_operation_snapshots]. *)
Record operation_snapshot := { os_subscription : string; os_count : Z; os_number : Z; os_expires : option Z }.

(** The source preferences of an account. *)
Record account_flags := { af_day : bool; af_week : bool; af_month : bool; af_cash : bool; af_cash_priority : Z }.
Definition default_flags : account_flags := {| af_day := false; af_week := false; af_month := false; af_cash := false; af_cash_priority := 100 |}.

(** [sd_cash_models] are the columns [models_initialized] and [model_ids] of the
    billing settings; [sd_config_versions] is the last value of the sequence. *)
Record sub_db := SubDB {
  sd_groups : group_db;
  sd_subs : gmap string subscription_row;
  sd_entitlements : gmap string entitlement_row;
  sd_periods : gmap string sub_period;
  sd_plans : gmap string BillingPlan;
  sd_flags : gmap string account_flags;
  sd_cash_models : bool * list string;
  sd_ledger_extra : gmap Z ledger_extra;
  sd_op_snapshots : gmap Z operation_snapshot;
  sd_config_versions : Z;
}.
Definition set_sub_groups v d := SubDB v (sd_subs d) (sd_entitlements d) (sd_periods d) (sd_plans d) (sd_flags d) (sd_cash_models d) (sd_ledger_extra d) (sd_op_snapshots d) (sd_config_versions d).
Definition set_subs v d := SubDB (sd_groups d) v (sd_entitlements d) (sd_periods d) (sd_plans d) (sd_flags d) (sd_cash_models d) (sd_ledger_extra d) (sd_op_snapshots d) (sd_config_versions d).
Definition set_entitlements v d := SubDB (sd_groups d) (sd_subs d) v (sd_periods d) (sd_plans d) (sd_flags d) (sd_cash_models d) (sd_ledger_extra d) (sd_op_snapshots d) (sd_config_versions d).
Definition set_sub_periods v d := SubDB (sd_groups d) (sd_subs d) (sd_entitlements d) v (sd_plans d) (sd_flags d) (sd_cash_models d) (sd_ledger_extra d) (sd_op_snapshots d) (sd_config_versions d).
Definition set_plans v d := SubDB (sd_groups d) (sd_subs d) (sd_entitlements d) (sd_periods d) v (sd_flags d) (sd_cash_models d) (sd_ledger_extra d) (sd_op_snapshots d) (sd_config_versions d).
Definition set_flags v d := SubDB (sd_groups d) (sd_subs d) (sd_entitlements d) (sd_periods d) (sd_plans d) v (sd_cash_models d) (sd_ledger_extra d) (sd_op_snapshots d) (sd_config_versions d).
Definition set_ledger_extra v d := SubDB (sd_groups d) (sd_subs d) (sd_entitlements d) (sd_periods d) (sd_plans d) (sd_flags d) (sd_cash_models d) v (sd_op_snapshots d) (sd_config_versions d).
Definition set_op_snapshots v d := SubDB (sd_groups d) (sd_subs d) (sd_entitlements d) (sd_periods d) (sd_plans d) (sd_flags d) (sd_cash_models d) (sd_ledger_extra d) v (sd_config_versions d).
Definition set_config_versions v d := SubDB (sd_groups d) (sd_subs d) (sd_entitlements d) (sd_periods d) (sd_plans d) (sd_flags d) (sd_cash_models d) (sd_ledger_extra d) (sd_op_snapshots d) v.

Definition sd_billing (d : sub_db) : billing_db := gd_billing (sd_groups d).
Definition in_groups {A} (m : tx group_db A) : tx sub_db A := tzoom sd_groups set_sub_groups m.
Definition in_billing {A} (m : tx billing_db A) : tx sub_db A := in_groups (on_billing m).

(** Read through the setters. *)
Ltac stables :=
  cbn [set_sub_groups set_subs set_entitlements set_sub_periods set_plans set_flags set_ledger_extra set_op_snapshots set_config_versions
       sd_groups sd_subs sd_entitlements sd_periods sd_plans sd_flags sd_cash_models sd_ledger_extra sd_op_snapshots sd_config_versions] in *.

(** The CHECK constraints. *)
Definition tier_days_ok (tier : string) (days : Z) : bool :=
  (bool_decide (tier = "day") && (days =? 1)) || (bool_decide (tier = "week") && (days =? 7)) || (bool_decide (tier = "month") && (days =? 31)) ||
  (bool_decide (tier = "custom") && (1 <=? days) && (days <=? 3650)).
Definition number_ok (number count : Z) : bool :=
  (1 <=? number) && int32b number && (0 <=? count) && int32b count && ((count =? 0) || (number <=? count)).
Definition subscription_check (s : subscription_row) : bool :=
  tier_days_ok (sb_tier s) (sb_period_days s) && (0 <? sb_allowance s) && numeric_fits (sb_allowance s) &&
  (if sb_enabled s then is_nil (sb_disabled_at s) else negb (is_nil (sb_disabled_at s))) &&
  number_ok (sb_current_number s) (sb_period_count s) &&
  (if sb_period_count s =? 0 then is_nil (sb_expires_at s) else negb (is_nil (sb_expires_at s))) &&
  (1 <=? rune_count (trim_space (sb_name s))) && (rune_count (trim_space (sb_name s)) <=? 100) &&
  (negb (sb_models_initialized s) || negb (bool_decide (sb_model_ids s = []))) && (1 <=? sb_priority s) && (sb_priority s <=? 100) &&
  (0 <? sb_config_version s).
Definition entitlement_check (e : entitlement_row) : bool :=
  tier_days_ok (en_tier e) (en_days e) && (0 <? en_allowance e) && numeric_fits (en_allowance e) && (1 <=? en_first e) && int32b (en_first e) &&
  (0 <=? en_count e) && int32b (en_count e) &&
  match en_ends e with None => en_count e =? 0 | Some t => (0 <? en_count e) && (en_starts e <? t) end.
Definition sub_period_check (tier : string) (allowance : Z) (p : sub_period) : bool :=
  bool_decide (tier ∈ ["day"; "week"; "month"; "custom"]) && (1 <=? sp_days p) && (sp_days p <=? 3650) &&
  (sp_ends p =? sp_starts p + sp_days p * Day24) && number_ok (sp_number p) (sp_count p) && (0 <? allowance) && numeric_fits allowance &&
  match sp_closed p with Some (t, _) => sp_starts p <=? t | None => true end.

(** ** Statements *)

(** [UPDATE billing_subscriptions SET ... WHERE id]. *)
Definition update_sub (operation id : string) (f : subscription_row -> subscription_row) : tx sub_db unit :=
  let* rows := tgets sd_subs in
  match update_rows [id] (fun _ => true) f subscription_check rows with
  | None => tfail (ErrInvalid operation)
  | Some (_, rows') => tmod (set_subs rows')
  end.

Definition next_config_version : tx sub_db Z :=
  tmod (fun d => set_config_versions (sd_config_versions d + 1) d) ;; tgets sd_config_versions.

(** [UPDATE billing_subscription_periods SET closed_at, close_reason WHERE id AND
    closed_at IS NULL [AND at >= starts_at]]; the number of rows. *)
Definition close_sub_period (operation id : string) (closedAt : sub_period -> Z) (reason : string) (from_start : bool) : tx sub_db Z :=
  let* rows := tgets sd_periods in
  match rows !! id with
  | Some p =>
      if is_nil (sp_closed p) && (negb from_start || (sp_starts p <=? closedAt p)) then
        tguard (sp_starts p <=? closedAt p) (ErrInvalid operation) ;;
        tmod (set_sub_periods (<[id := SubPeriod (sp_starts p) (sp_ends p) (sp_number p) (sp_count p) (sp_days p) (sp_entitlement p)
          (Some (closedAt p, reason)) (sp_created p)]> rows)) ;;
        tret 1
      else tret 0
  | None => tret 0
  end.

(** [INSERT INTO billing_subscription_periods]; both parts of the row. *)
Definition insert_sub_period (operation id subscription user tier : string) (allowance : Z) (p : sub_period) : tx sub_db unit :=
  tguard (sub_period_check tier allowance p) (ErrInvalid operation) ;;
  let* d := tgets (fun d => d) in
  tguard (bool_decide (sd_periods d !! id = None) && bool_decide (periods (sd_billing d) !! id = None)) (ErrConflict operation) ;;
  tguard (bool_decide (is_Some (sd_subs d !! subscription)) && bool_decide (is_Some (sd_entitlements d !! sp_entitlement p))) (ErrInvalid operation) ;;
  tmod (fun d => set_sub_periods (<[id := p]> (sd_periods d)) d) ;;
  in_billing (tmod (fun b => set_periods (<[id := Period subscription user (Some tier) allowance allowance 0]> (periods b)) b)).

(** A ledger entry with its tier, period and snapshot. *)
Definition insert_sub_ledger (operation : string) (e : ledger_row) (x : ledger_extra) : tx sub_db Z :=
  let* id := in_billing (insert_ledger operation e) in
  tmod (fun d => set_ledger_extra (<[id := x]> (sd_ledger_extra d)) d) ;;
  tret id.

(** ** Rolling a user's subscriptions forward *)

(** A [$k::numeric] argument. *)
Definition sub_numeric (operation s : string) : tx sub_db Z :=
  match numeric_of s with Some n => tret n | None => tfail (ErrInvalid operation) end.

Definition sub_disable (disabledAt : option Z) (at_ : Z) (s : subscription_row) : subscription_row :=
  {| sb_user := sb_user s; sb_name := sb_name s; sb_tier := sb_tier s; sb_enabled := false; sb_allowance := sb_allowance s;
     sb_current_period := sb_current_period s; sb_period_count := sb_period_count s; sb_current_number := sb_current_number s;
     sb_expires_at := sb_expires_at s; sb_disabled_at := disabledAt; sb_created_at := sb_created_at s; sb_updated_at := at_;
     sb_period_days := sb_period_days s; sb_model_ids := sb_model_ids s; sb_models_initialized := sb_models_initialized s;
     sb_charge_enabled := sb_charge_enabled s; sb_priority := sb_priority s; sb_plan := sb_plan s; sb_config_version := sb_config_version s |}.

Definition sub_advance (period : string) (number : Z) (tier : string) (days allowance : Z) (models : list string) (at_ : Z) (s : subscription_row) : subscription_row :=
  {| sb_user := sb_user s; sb_name := sb_name s; sb_tier := tier; sb_enabled := sb_enabled s; sb_allowance := allowance;
     sb_current_period := Some period; sb_period_count := sb_period_count s; sb_current_number := number; sb_expires_at := sb_expires_at s;
     sb_disabled_at := sb_disabled_at s; sb_created_at := sb_created_at s; sb_updated_at := at_; sb_period_days := days; sb_model_ids := models;
     sb_models_initialized := sb_models_initialized s; sb_charge_enabled := sb_charge_enabled s; sb_priority := sb_priority s; sb_plan := sb_plan s;
     sb_config_version := sb_config_version s |}.

(** The rows of a query over a user's subscriptions, [ORDER BY s.id]. *)
Definition user_subs (userID : string) (d : sub_db) : list (string * subscription_row) :=
  omap (fun id => (id,.) <$> sd_subs d !! id)
    (stable_sort str_ltb (elements (dom (filter (fun kv => sb_user kv.2 = userID) (sd_subs d))))).

(** An enabled subscription whose current period has ended. *)
Definition stale_period (at_ : Z) (d : sub_db) (s : subscription_row) : option (string * sub_period) :=
  if sb_enabled s then
    pid ← sb_current_period s; p ← sd_periods d !! pid; if sp_ends p <=? at_ then Some (pid, p) else None
  else None.
Definition stale_subs (userID : string) (at_ : Z) (d : sub_db) : list (string * string * option Z) :=
  omap (fun s => (fun p => (s.1, p.1, sb_expires_at s.2)) <$> stale_period at_ d s.2) (user_subs userID d).

(** The segment of a subscription that covers an instant: the latest one. *)
Definition covers (subscription : string) (at_ : Z) (e : entitlement_row) : bool :=
  bool_decide (en_subscription e = subscription) && is_nil (en_superseded e) && (en_starts e <=? at_) && before_deadline at_ (en_ends e).
Definition later_segment (id : string) (e : entitlement_row) (best : option (string * entitlement_row)) : option (string * entitlement_row) :=
  match best with Some b => if en_starts b.2 <? en_starts e then Some (id, e) else best | None => Some (id, e) end.
Definition current_entitlement (subscription : string) (at_ : Z) (d : sub_db) : option (string * entitlement_row) :=
  map_fold later_segment None (filter (fun kv => covers subscription at_ kv.2 = true) (sd_entitlements d)).

Definition renewal_entry (user : string) (allowance at_ : Z) : ledger_row :=
  {| le_user := user; le_operation := None; le_entry_type := "subscription_renewal"; le_amount := allowance; le_cash_delta := 0;
     le_balance_after := None; le_cny := None; le_rate := None; le_reason := "automatic renewal"; le_actor := None; le_created_at := at_;
     le_request := None; le_model := None; le_usage_requested_at := None; le_account := None; le_group := None; le_group_period := None;
     le_rule_version := Some 1; le_multiplier := Some "1.000000000000"; le_charge := None |}.

(** The whole periods of a segment that ended by [at_]. *)
Definition elapsed_periods (start at_ days : Z) : Z :=
  let seconds := wrap64 (Unix at_ - Unix start) in
  let seconds := if Nanosecond_of at_ <? Nanosecond_of start then wrap64 (seconds - 1) else seconds in
  Z.quot seconds (wrap64 (days * 86400)).

Definition open_period (userID id : string) (at_ : Z) : tx sub_db unit :=
  let* d := tgets (fun d => d) in
  let* s := tsome "locate current subscription entitlement" (sd_subs d !! id) in
  let* (entitlementID, e) := tsome "locate current subscription entitlement" (current_entitlement id at_ d) in
  let elapsed := elapsed_periods (en_starts e) at_ (en_days e) in
  tguard (negb (max_int32 - en_first e <? elapsed)) (ErrInvalid "subscription period number overflow") ;;
  let periodNumber := en_first e + elapsed in
  let* start := tlift (if 0 <? elapsed then billingExpiryDays (en_starts e) (en_days e) elapsed else Ok (en_starts e)) in
  let* periodEnd := tlift (billingExpiryDays start (en_days e) 1) in
  let* pid := in_groups newUUID in
  insert_sub_period "create current entitlement period" pid id userID (en_tier e) (en_allowance e)
    (SubPeriod start periodEnd periodNumber (sb_period_count s) (en_days e) entitlementID None at_) ;;
  update_sub "activate entitlement period" id (sub_advance pid periodNumber (en_tier e) (en_days e) (en_allowance e) (en_models e) at_) ;;
  let* _ := insert_sub_ledger "record current entitlement period" (renewal_entry userID (en_allowance e) at_)
    {| lx_tier := Some (en_tier e); lx_period := Some pid; lx_snapshot := None |} in
  tret tt.

(** One stale subscription: 1 when it was disabled. *)
Definition roll_one (userID : string) (at_ : Z) (v : string * string * option Z) : tx sub_db Z :=
  let '(id, pid, expiry) := v in
  let* _ := close_sub_period "close elapsed billing period" pid sp_ends "expired" false in
  if negb (before_deadline at_ expiry) then
    update_sub "expire subscription" id (fun s => sub_disable (sb_expires_at s) at_ s) ;;
    tret 1
  else open_period userID id at_ ;; tret 0.

Fixpoint roll_each (userID : string) (at_ : Z) (l : list (string * string * option Z)) : tx sub_db Z :=
  match l with
  | [] => tret 0
  | v :: rest => let* n := roll_one userID at_ v in let* m := roll_each userID at_ rest in tret (n + m)
  end.

Definition rollBillingEntitlementsTx (userID : string) (at_ : Z) : tx sub_db Z :=
  let* stale := tgets (stale_subs userID at_) in
  roll_each userID at_ stale.
Definition rollBillingSubscriptionsTx : string -> Z -> tx sub_db Z := rollBillingEntitlementsTx.

(** ** Expiry without an admission *)

Definition expired_sub (at_ : Z) (s : subscription_row) : bool :=
  sb_enabled s && (0 <? sb_period_count s) && match sb_expires_at s with Some t => t <=? at_ | None => false end.

(** [ORDER BY tier]: day, week, the others. *)
Definition tier_rank (tier : string) : Z := if bool_decide (tier = "day") then 1 else if bool_decide (tier = "week") then 2 else 3.
Definition expired_subs (userID : string) (at_ : Z) (d : sub_db) : list (string * Z * string * Z) :=
  omap (fun s => pid ← sb_current_period s.2; p ← sd_periods d !! pid; t ← sb_expires_at s.2; Some (s.1, t, pid, sp_ends p))
    (stable_sort (fun a b => tier_rank (sb_tier a.2) <? tier_rank (sb_tier b.2))
       (List.filter (fun s => expired_sub at_ s.2) (user_subs userID d))).

Definition expire_one (at_ : Z) (v : string * Z * string * Z) : tx sub_db unit :=
  let '(id, expiresAt, pid, periodEndsAt) := v in
  let closedAt := if expiresAt <? periodEndsAt then expiresAt else periodEndsAt in
  let* _ := close_sub_period "close converged finite billing period" pid (fun _ => closedAt) "expired" false in
  let* rows := tgets sd_subs in
  match rows !! id with
  | Some s => if sb_enabled s then update_sub "converge finite billing subscription expiry" id (fun s => sub_disable (sb_expires_at s) at_ s) else tret tt
  | None => tret tt
  end.
Fixpoint expire_each (at_ : Z) (l : list (string * Z * string * Z)) : tx sub_db unit :=
  match l with [] => tret tt | v :: rest => expire_one at_ v ;; expire_each at_ rest end.

Definition expireBillingSubscriptionsTx (userID : string) (at_ : Z) : tx sub_db Z :=
  let* values := tgets (expired_subs userID at_) in
  expire_each at_ values ;;
  tret (Z.of_nat (length values)).

Definition convergeBillingSubscriptionsCount (userID : string) (at_ : Z) (d : sub_db) : result store_error Z * sub_db :=
  withTx (in_billing (lockBillingAccountTx userID) ;; expireBillingSubscriptionsTx userID at_) d.
Definition convergeBillingSubscriptions (userID : string) (at_ : Z) (d : sub_db) : result store_error unit * sub_db :=
  match convergeBillingSubscriptionsCount userID at_ d with (Ok _, d') => (Ok tt, d') | (Err e, d') => (Err e, d') end.

(** [SELECT DISTINCT user_id ... ORDER BY user_id LIMIT limit]. *)
Definition expired_users (at_ limit : Z) (d : sub_db) : list string :=
  take (Z.to_nat limit) (stable_sort str_ltb (elements
    (list_to_set (map (fun kv => sb_user kv.2) (List.filter (fun kv => expired_sub at_ kv.2) (map_to_list (sd_subs d)))) : gset string))).

Fixpoint converge_each (at_ disabled : Z) (l : list string) (d : sub_db) : (Z * option store_error) * sub_db :=
  match l with
  | [] => ((disabled, None), d)
  | u :: rest =>
      match convergeBillingSubscriptionsCount u at_ d with
      | (Err e, d') => ((disabled, Some e), d')
      | (Ok n, d') => converge_each at_ (disabled + n) rest d'
      end
  end.
(** The count so far and the error that stopped the run. *)
Definition ExpireBillingSubscriptions (clock at_ limit : Z) (d : sub_db) : (Z * option store_error) * sub_db :=
  let limit := if (limit <=? 0) || (10000 <? limit) then 1000 else limit in
  let at_ := normalizedBillingTime at_ clock in
  converge_each at_ 0 (expired_users at_ limit d) d.

(** ** Reading a subscription *)

(** The entitlements still ahead, [ORDER BY e.starts_at, e.id]. *)
Definition segment_less (a b : string * entitlement_row) : bool :=
  if en_starts a.2 <? en_starts b.2 then true else if en_starts b.2 <? en_starts a.2 then false else str_ltb a.1 b.1.
Definition entitlement_state (x : string * entitlement_row) : BillingSubscriptionEntitlement :=
  {| be_ID := x.1; be_StartsAt := en_starts x.2; be_EndsAt := en_ends x.2; be_Tier := en_tier x.2; be_PeriodDays := en_days x.2;
     be_AllowanceUSD := numeric_text (en_allowance x.2); be_ModelIDs := en_models x.2; be_PeriodCount := en_count x.2;
     be_FirstPeriodNumber := en_first x.2; be_Plan := en_plan x.2 |}.
Definition live_segments (id : string) (periodStart : option Z) (d : sub_db) : list BillingSubscriptionEntitlement :=
  map entitlement_state (stable_sort segment_less (List.filter (fun x =>
    bool_decide (en_subscription x.2 = id) && is_nil (en_superseded x.2) &&
    match en_ends x.2, periodStart with Some t, Some s => s <? t | _, _ => true end) (map_to_list (sd_entitlements d)))).

Definition subscription_state (id : string) (s : subscription_row) (d : sub_db) : BillingSubscriptionState :=
  let p := sb_current_period s ≫= fun pid => sd_periods d !! pid in
  let remaining := sb_current_period s ≫= fun pid => period_remaining <$> periods (sd_billing d) !! pid in
  {| ss_ID := id; ss_Tier := sb_tier s; ss_Enabled := sb_enabled s; ss_AllowanceUSD := numeric_text (sb_allowance s);
     ss_RemainingUSD := match remaining with Some n => if sb_enabled s then numeric_text n else "0.000000000000" | None => "0.000000000000" end;
     ss_PeriodCount := sb_period_count s; ss_CurrentPeriodNumber := sb_current_number s; ss_ExpiresAt := sb_expires_at s;
     ss_PeriodID := match p with Some _ => sb_current_period s | None => None end; ss_PeriodStartsAt := sp_starts <$> p; ss_PeriodEndsAt := sp_ends <$> p;
     ss_UpdatedAt := Some (sb_updated_at s); ss_ConfigVersion := sb_config_version s;
     ss_Plan := sb_plan s ≫= fun b => sd_plans d !! b.1 ≫= fun plan => if is_nil (pl_DeletedAt plan) then Some plan else None;
     ss_CanRenew := false; ss_Name := sb_name s; ss_PeriodDays := sb_period_days s; ss_ModelIDs := sb_model_ids s; ss_Priority := sb_priority s;
     ss_ChargeEnabled := sb_charge_enabled s; ss_Entitlements := live_segments id (sp_starts <$> p) d |}.

Definition with_renewable (at_ : Z) (v : BillingSubscriptionState) : BillingSubscriptionState :=
  {| ss_ID := ss_ID v; ss_Tier := ss_Tier v; ss_Enabled := ss_Enabled v; ss_AllowanceUSD := ss_AllowanceUSD v; ss_RemainingUSD := ss_RemainingUSD v;
     ss_PeriodCount := ss_PeriodCount v; ss_CurrentPeriodNumber := ss_CurrentPeriodNumber v; ss_ExpiresAt := ss_ExpiresAt v; ss_PeriodID := ss_PeriodID v;
     ss_PeriodStartsAt := ss_PeriodStartsAt v; ss_PeriodEndsAt := ss_PeriodEndsAt v; ss_UpdatedAt := ss_UpdatedAt v; ss_ConfigVersion := ss_ConfigVersion v;
     ss_Plan := ss_Plan v;
     ss_CanRenew := negb (is_nil (ss_Plan v)) && ss_Enabled v && match ss_ExpiresAt v with Some t => at_ <? t | None => false end;
     ss_Name := ss_Name v; ss_PeriodDays := ss_PeriodDays v; ss_ModelIDs := ss_ModelIDs v; ss_Priority := ss_Priority v;
     ss_ChargeEnabled := ss_ChargeEnabled v; ss_Entitlements := ss_Entitlements v |}.

Definition readBillingSubscriptionStateTx (userID subscriptionID : string) (at_ : Z) : tx sub_db BillingSubscriptionState :=
  let* d := tgets (fun d => d) in
  let* s := tsome "read subscription state" (sd_subs d !! subscriptionID) in
  if bool_decide (sb_user s = userID) then tret (with_renewable at_ (subscription_state subscriptionID s d))
  else tfail (ErrNotFound "read subscription state").

(** ** Opening and closing subscriptions *)

Definition insertBillingEntitlementTx (userID subscriptionID : string) (start : Z) (tier : string) (days count first : Z) (allowance : string)
  (models : list string) (plan : option BillingPlan) (at_ : Z) : tx sub_db (string * option Z) :=
  let* end_ := (if 0 <? count then let* e := tlift (billingExpiryDays start days count) in tret (Some e) else tret None) in
  let* n := sub_numeric "create subscription entitlement" allowance in
  let e := {| en_subscription := subscriptionID; en_user := userID; en_starts := start; en_ends := end_; en_tier := tier; en_days := days;
              en_allowance := n; en_models := models; en_count := count; en_first := first; en_plan := plan; en_superseded := None; en_created := at_ |} in
  tguard (entitlement_check e) (ErrInvalid "create subscription entitlement") ;;
  let* id := in_groups newUUID in
  let* d := tgets (fun d => d) in
  tguard (bool_decide (sd_entitlements d !! id = None)) (ErrConflict "create subscription entitlement") ;;
  tguard (match sd_subs d !! subscriptionID with Some s => bool_decide (sb_user s = userID) | None => false end)
    (ErrInvalid "create subscription entitlement") ;;
  tmod (set_entitlements (<[id := e]> (sd_entitlements d))) ;;
  tret (id, end_).

Record PutSubscriptionParams := {
  pp_write : BillingWriteParams;
  pp_UserID : string;
  pp_SubscriptionID : string;
  pp_Name : string;
  pp_Tier : string;
  pp_PeriodDays : Z;
  pp_ModelIDs : list string;
  pp_AllowanceUSD : string;
  pp_PeriodCount : Z;
}.

Definition supersede (subscription : string) (at_ : Z) (e : entitlement_row) : entitlement_row :=
  if bool_decide (en_subscription e = subscription) && is_nil (en_superseded e) then
    {| en_subscription := en_subscription e; en_user := en_user e; en_starts := en_starts e; en_ends := en_ends e; en_tier := en_tier e;
       en_days := en_days e; en_allowance := en_allowance e; en_models := en_models e; en_count := en_count e; en_first := en_first e;
       en_plan := en_plan e; en_superseded := Some at_; en_created := en_created e |}
  else e.

(** The previous configuration of a subscription that is opened again. *)
Definition retire_previous (userID subscriptionID : string) (at_ : Z) : tx sub_db unit :=
  let* d := tgets (fun d => d) in
  let* s := tsome "lock subscription for reopen" (sd_subs d !! subscriptionID) in
  (if bool_decide (sb_user s = userID) then tret tt else tfail (ErrNotFound "lock subscription for reopen")) ;;
  tguard (match sb_current_period s ≫= fun pid => sd_periods d !! pid with Some p => negb (at_ <? sp_starts p) | None => true end)
    (ErrInvalid "replacement precedes current period") ;;
  (match sb_current_period s with
   | Some pid => let* _ := close_sub_period "close replaced period" pid (fun _ => at_) "modified" true in tret tt
   | None => tret tt
   end) ;;
  tmod (fun d => set_entitlements (supersede subscriptionID at_ <$> sd_entitlements d) d).

Definition new_subscription (p : PutSubscriptionParams) (allowance : Z) (expires : option Z) (version : Z) : subscription_row :=
  {| sb_user := pp_UserID p; sb_name := pp_Name p; sb_tier := pp_Tier p; sb_enabled := true; sb_allowance := allowance; sb_current_period := None;
     sb_period_count := pp_PeriodCount p; sb_current_number := 1; sb_expires_at := expires; sb_disabled_at := None; sb_created_at := At (pp_write p);
     sb_updated_at := At (pp_write p); sb_period_days := pp_PeriodDays p; sb_model_ids := pp_ModelIDs p; sb_models_initialized := true;
     sb_charge_enabled := true; sb_priority := 1; sb_plan := None; sb_config_version := version |}.

Definition insert_subscription (id : string) (row : subscription_row) : tx sub_db unit :=
  tguard (subscription_check row) (ErrInvalid "create billing subscription") ;;
  let* d := tgets (fun d => d) in
  tguard (bool_decide (sd_subs d !! id = None)) (ErrConflict "create billing subscription") ;;
  tguard (bool_decide (is_Some (users (sd_billing d) !! sb_user row))) (ErrInvalid "create billing subscription") ;;
  tmod (set_subs (<[id := row]> (sd_subs d))).

Definition sub_reopen (p : PutSubscriptionParams) (allowance : Z) (expires : option Z) (period : string) (plan : option BillingPlan) (version : Z)
  (s : subscription_row) : subscription_row :=
  {| sb_user := sb_user s; sb_name := pp_Name p; sb_tier := pp_Tier p; sb_enabled := true; sb_allowance := allowance; sb_current_period := Some period;
     sb_period_count := pp_PeriodCount p; sb_current_number := 1; sb_expires_at := expires; sb_disabled_at := None; sb_created_at := sb_created_at s;
     sb_updated_at := At (pp_write p); sb_period_days := pp_PeriodDays p; sb_model_ids := pp_ModelIDs p; sb_models_initialized := true;
     sb_charge_enabled := sb_charge_enabled s; sb_priority := sb_priority s; sb_plan := (fun x => (pl_ID x, pl_Version x)) <$> plan;
     sb_config_version := version |}.

Definition reopenBillingSubscriptionTx (p : PutSubscriptionParams) (allowance : string) (plan : option BillingPlan) : tx sub_db BillingSubscriptionState :=
  let at_ := At (pp_write p) in
  in_groups (validateBillingModelsTx (pp_ModelIDs p)) ;;
  let create := empty (pp_SubscriptionID p) in
  let* id := (if create then in_groups newUUID else retire_previous (pp_UserID p) (pp_SubscriptionID p) at_ ;; tret (pp_SubscriptionID p)) in
  let* expires := (if 0 <? pp_PeriodCount p then let* e := tlift (billingExpiryDays at_ (pp_PeriodDays p) (pp_PeriodCount p)) in tret (Some e) else tret None) in
  (if create then
     let* n := sub_numeric "create billing subscription" allowance in
     let* version := next_config_version in
     insert_subscription id (new_subscription p n expires version)
   else tret tt) ;;
  let* (entitlementID, _) := insertBillingEntitlementTx (pp_UserID p) id at_ (pp_Tier p) (pp_PeriodDays p) (pp_PeriodCount p) 1 allowance (pp_ModelIDs p) plan at_ in
  let* pid := in_groups newUUID in
  let* periodEnd := tlift (billingExpiryDays at_ (pp_PeriodDays p) 1) in
  let* n := sub_numeric "create subscription period" allowance in
  insert_sub_period "create subscription period" pid id (pp_UserID p) (pp_Tier p) n
    (SubPeriod at_ periodEnd 1 (pp_PeriodCount p) (pp_PeriodDays p) entitlementID None at_) ;;
  let* version := next_config_version in
  update_sub "activate billing subscription" id (sub_reopen p n expires pid plan version) ;;
  readBillingSubscriptionStateTx (pp_UserID p) id at_.

Section writes.
Context (fingerprint : list string -> string) (session_of : string -> string -> bool) (inet_ok : string -> bool).

(** The recorded response of a subscription write. *)
Definition subscriptionOperationStateTx (id : Z) (entry : ledger_row) (enabled : bool) : tx sub_db BillingSubscriptionState :=
  let* d := tgets (fun d => d) in
  let x := default {| lx_tier := None; lx_period := None; lx_snapshot := None |} (sd_ledger_extra d !! id) in
  match lx_snapshot x with
  | Some snap => match ts_Subscription snap with Some s => tret s | None => tfail (ErrConflict "subscription operation snapshot missing") end
  | None =>
      match lx_tier x with
      | None => tfail (ErrConflict "subscription operation ledger is incomplete")
      | Some tier =>
          let* v := (match lx_period x with
            | Some pid =>
                let* p := tsome "read subscription operation period" (sd_periods d !! pid) in
                let* m := tsome "read subscription operation period" (periods (sd_billing d) !! pid) in
                (if bool_decide (period_user m = le_user entry) && bool_decide (period_tier m = Some tier) then tret tt
                 else tfail (ErrNotFound "read subscription operation period")) ;;
                let* duration := tlift (billingPeriodDuration tier) in
                tret (period_subscription m, Some (sp_starts p), Some (sp_ends p), sp_number p, sp_count p,
                      billingSubscriptionExpiry (sp_starts p) duration (sp_number p) (sp_count p))
            | None =>
                match sd_op_snapshots d !! id with
                | None => tfail (ErrConflict "subscription operation snapshot is incomplete")
                | Some o => tret (os_subscription o, None, None, os_number o, os_count o, os_expires o)
                end
            end) in
          let '(subscriptionID, startsAt, endsAt, number, count, expiresAt) := v in
          tret {| ss_ID := subscriptionID; ss_Tier := tier; ss_Enabled := enabled; ss_AllowanceUSD := numeric_text (le_amount entry);
                  ss_RemainingUSD := if enabled then numeric_text (le_amount entry) else "0.000000000000"; ss_PeriodCount := count;
                  ss_CurrentPeriodNumber := number; ss_ExpiresAt := expiresAt; ss_PeriodID := lx_period x; ss_PeriodStartsAt := startsAt;
                  ss_PeriodEndsAt := endsAt; ss_UpdatedAt := Some (le_created_at entry); ss_ConfigVersion := 0; ss_Plan := None; ss_CanRenew := false;
                  ss_Name := ""; ss_PeriodDays := 0; ss_ModelIDs := []; ss_Priority := 0; ss_ChargeEnabled := false; ss_Entitlements := [] |}
      end
  end.

(** [INSERT INTO billing_ledger_entries ... RETURNING] for an operation. *)
Definition record_sub_operation (operation userID : string) (p : BillingWriteParams) (kind : string) (amount : Z) (x : ledger_extra) : tx sub_db (Z * ledger_row) :=
  let* (id, e) := in_billing (insert_operation_entry operation (operation_entry userID p kind amount 0 None None None)) in
  tmod (fun d => set_ledger_extra (<[id := x]> (sd_ledger_extra d)) d) ;;
  tret (id, e).

Definition put_subscription_body (p : PutSubscriptionParams) (allowance : string) : tx sub_db BillingSubscriptionState :=
  let w := pp_write p in
  let fp := fingerprint ["subscription_set"; ActorUserID w; pp_UserID p; pp_SubscriptionID p; pp_Name p; pp_Tier p; int_text (pp_PeriodDays p);
    join "," (pp_ModelIDs p); Reason w; allowance; int_text (pp_PeriodCount p)] in
  in_billing (lockBillingAccountTx (pp_UserID p)) ;;
  let* replay := in_billing (claimBillingOperationTx w "subscription_set" (pp_UserID p) fp []) in
  match replay with
  | Some id =>
      let* (id, entry) := in_billing (replayBillingLedgerTx id) in
      subscriptionOperationStateTx id entry true
  | None =>
      let* state := reopenBillingSubscriptionTx p allowance None in
      let* n := sub_numeric "record subscription ledger" allowance in
      let* (id, entry) := record_sub_operation "record subscription ledger" (pp_UserID p) w "subscription_set" n
        {| lx_tier := Some (pp_Tier p); lx_period := ss_PeriodID state; lx_snapshot := Some (subscription_snapshot state) |} in
      in_billing (finishBillingOperationTx (OperationID w) id) ;;
      in_billing (appendBillingAuditTx session_of inet_ok w "billing.subscription_updated" "subscription" (ss_ID state)
        [("operation_id", OperationID w); ("tier", pp_Tier p); ("allowance_usd", allowance); ("period_count", int_text (pp_PeriodCount p))]) ;;
      subscriptionOperationStateTx id entry true
  end.

Definition put_subscription_arguments (clock : Z) (p : PutSubscriptionParams) : result store_error (PutSubscriptionParams * string) :=
  let! _ := validateBillingWrite (pp_write p) in
  if empty (pp_UserID p) then Err (ErrInvalid "subscription user is required") else
  let! days := normalizeBillingPeriodDays (pp_Tier p) (pp_PeriodDays p) in
  let! models := normalizeBillingModels (pp_ModelIDs p) in
  let name := trim_space (pp_Name p) in
  if (rune_count name <? 1) || (100 <? rune_count name) then Err (ErrInvalid "subscription name must contain 1 to 100 characters") else
  let! _ := validateBillingPeriodCount (pp_PeriodCount p) in
  let! allowance := map_err (fun _ => ErrInvalid "invalid subscription allowance") (ParseInput (pp_AllowanceUSD p) false false) in
  Ok ({| pp_write := normalized clock (pp_write p); pp_UserID := pp_UserID p; pp_SubscriptionID := pp_SubscriptionID p; pp_Name := name;
         pp_Tier := pp_Tier p; pp_PeriodDays := days; pp_ModelIDs := models; pp_AllowanceUSD := pp_AllowanceUSD p;
         pp_PeriodCount := pp_PeriodCount p |}, allowance).

Definition PutSubscription (clock : Z) (p : PutSubscriptionParams) (d : sub_db) : result store_error BillingSubscriptionState * sub_db :=
  match put_subscription_arguments clock p with
  | Err e => (Err e, d)
  | Ok (p, allowance) => withTx (put_subscription_body p allowance) d
  end.

(** The administrator's disable also unbinds the plan. *)
Definition sub_delete (at_ version : Z) (s : subscription_row) : subscription_row :=
  {| sb_user := sb_user s; sb_name := sb_name s; sb_tier := sb_tier s; sb_enabled := false; sb_allowance := sb_allowance s;
     sb_current_period := sb_current_period s; sb_period_count := sb_period_count s; sb_current_number := sb_current_number s;
     sb_expires_at := sb_expires_at s; sb_disabled_at := if sb_enabled s then Some at_ else sb_disabled_at s; sb_created_at := sb_created_at s;
     sb_updated_at := at_; sb_period_days := sb_period_days s; sb_model_ids := sb_model_ids s; sb_models_initialized := sb_models_initialized s;
     sb_charge_enabled := sb_charge_enabled s; sb_priority := sb_priority s; sb_plan := None; sb_config_version := version |}.

Definition delete_subscription_body (w : BillingWriteParams) (userID subscriptionID : string) : tx sub_db BillingSubscriptionState :=
  let fp := fingerprint ["subscription_disable"; ActorUserID w; userID; subscriptionID; Reason w] in
  in_billing (lockBillingAccountTx userID) ;;
  let* replay := in_billing (claimBillingOperationTx w "subscription_disable" userID fp []) in
  match replay with
  | Some id =>
      let* (id, entry) := in_billing (replayBillingLedgerTx id) in
      subscriptionOperationStateTx id entry false
  | None =>
      let* d := tgets (fun d => d) in
      let* s := tsome "lock subscription for disable" (sd_subs d !! subscriptionID) in
      (if bool_decide (sb_user s = userID) then tret tt else tfail (ErrNotFound "lock subscription for disable")) ;;
      (match sb_current_period s with
       | Some pid =>
           if sb_enabled s then
             let* n := close_sub_period "close disabled subscription period" pid (fun _ => At w) "disabled" true in
             tguard (negb (n =? 0)) (ErrNotFound "close disabled subscription period")
           else tret tt
       | None => tret tt
       end) ;;
      let* version := next_config_version in
      update_sub "disable billing subscription" subscriptionID (sub_delete (At w) version) ;;
      let* state := readBillingSubscriptionStateTx userID subscriptionID (At w) in
      let* (id, entry) := record_sub_operation "record subscription disable ledger" userID w "subscription_disable" (sb_allowance s)
        {| lx_tier := Some (sb_tier s); lx_period := sb_current_period s; lx_snapshot := Some (subscription_snapshot state) |} in
      (match sb_current_period s with
       | Some _ => tret tt
       | None => tmod (fun d => set_op_snapshots (<[id := {| os_subscription := subscriptionID; os_count := sb_period_count s;
           os_number := sb_current_number s; os_expires := sb_expires_at s |}]> (sd_op_snapshots d)) d)
       end) ;;
      in_billing (finishBillingOperationTx (OperationID w) id) ;;
      in_billing (appendBillingAuditTx session_of inet_ok w "billing.subscription_disabled" "subscription" subscriptionID
        [("operation_id", OperationID w); ("tier", sb_tier s)]) ;;
      subscriptionOperationStateTx id entry false
  end.

Definition DeleteSubscription (clock : Z) (w : BillingWriteParams) (userID subscriptionID : string) (d : sub_db)
  : result store_error BillingSubscriptionState * sub_db :=
  match validateBillingWrite w with
  | Err e => (Err e, d)
  | Ok _ =>
      if empty userID then (Err (ErrInvalid "subscription user is required"), d) else
      if empty subscriptionID then (Err (ErrInvalid "subscription ID required"), d) else
      withTx (delete_subscription_body (normalized clock w) userID subscriptionID) d
  end.
End writes.

(** ** Model scopes of subscriptions from before they had any *)

Definition init_sub_models (models : list string) (s : subscription_row) : subscription_row :=
  if sb_models_initialized s then s else
  {| sb_user := sb_user s; sb_name := sb_name s; sb_tier := sb_tier s; sb_enabled := sb_enabled s; sb_allowance := sb_allowance s;
     sb_current_period := sb_current_period s; sb_period_count := sb_period_count s; sb_current_number := sb_current_number s;
     sb_expires_at := sb_expires_at s; sb_disabled_at := sb_disabled_at s; sb_created_at := sb_created_at s; sb_updated_at := sb_updated_at s;
     sb_period_days := sb_period_days s; sb_model_ids := models; sb_models_initialized := true; sb_charge_enabled := sb_charge_enabled s;
     sb_priority := sb_priority s; sb_plan := sb_plan s; sb_config_version := sb_config_version s |}.
Definition init_entitlement_models (subs : gmap string subscription_row) (models : list string) (e : entitlement_row) : entitlement_row :=
  match subs !! en_subscription e with
  | Some s => if sb_models_initialized s then e else
      {| en_subscription := en_subscription e; en_user := en_user e; en_starts := en_starts e; en_ends := en_ends e; en_tier := en_tier e;
         en_days := en_days e; en_allowance := en_allowance e; en_models := models; en_count := en_count e; en_first := en_first e;
         en_plan := en_plan e; en_superseded := en_superseded e; en_created := en_created e |}
  | None => e
  end.
Definition InitializeBillingSubscriptionModels (d : sub_db) : result store_error unit * sub_db :=
  withTx (
    let* d := tgets (fun d => d) in
    if forallb (fun kv => sb_models_initialized kv.2) (map_to_list (sd_subs d)) then tret tt else
    let models := catalog_models (sd_groups d) in
    tguard (negb (bool_decide (models = []))) (ErrInvalid "cannot initialize subscriptions from an empty model catalog") ;;
    tmod (fun d => set_entitlements (init_entitlement_models (sd_subs d) models <$> sd_entitlements d) d) ;;
    tmod (fun d => set_subs (init_sub_models models <$> sd_subs d) d)) d.

(** ** The calendar is exact *)

Definition sub_time (t : Z) : Prop := 0 <= t < year10000.

Lemma Year_in t : sub_time t -> (Year t <? 1) || (9999 <? Year t) = false.
Proof. intros H. apply Year_range in H. lia. Qed.

Lemma unix_shift t seconds : sub_time t -> 0 <= seconds <= 2 ^ 62 -> time_Unix (wrap64 (Unix t + seconds)) (Nanosecond_of t) = t + seconds * Second.
Proof.
  intros [H0 H1] Hs. rewrite wrap64_id; [apply time_Unix_Unix|]. unfold is_int64, min_int64, max_int64, Unix, unix_epoch, Second, year10000, Day24, Hour, Minute, Second in *.
  assert (0 <= t / 1000000000 < 315537897600) by (split; [apply Z.div_pos; lia|apply Z.div_lt_upper_bound; lia]). lia.
Qed.

Lemma expiry_days_eq start days count : sub_time start -> 1 <= days <= 3650 -> 1 <= count <= max_int32 ->
  billingExpiryDays start days count =
    if start + days * count * Day24 <? year10000 then Ok (start + days * count * Day24)
    else Err (ErrInvalid "subscription expiry exceeds supported range").
Proof.
  intros Hs Hd Hc. unfold billingExpiryDays. change max_int32 with 2147483647 in *.
  replace ((days <? 1) || (3650 <? days) || (count <? 1) || (2147483647 <? count)) with false by lia. cbn [orb].
  pose proof (Year_in start Hs) as HY. apply orb_false_iff in HY as [-> ->]. cbn [orb].
  assert (Hb : 1 <= days * count <= 3650 * 2147483647) by nia.
  rewrite (wrap64_id (days * count)) by (unfold is_int64, min_int64, max_int64; lia).
  rewrite (wrap64_id (days * count * 86400)) by (unfold is_int64, min_int64, max_int64; lia).
  rewrite unix_shift by (done || lia). replace (days * count * 86400 * Second) with (days * count * Day24) by (unfold Day24, Hour, Minute; lia).
  set (e := start + days * count * Day24). assert (start < e) by (unfold e, Day24, Hour, Minute, Second; lia).
  replace (start <? e) with true by lia. rewrite orb_false_r. pose proof (Year_range e) as HR. unfold sub_time in Hs.
  destruct (Z.ltb_spec e year10000); destruct (Z.ltb_spec 9999 (Year e)); try done.
  - assert (1 <= Year e <= 9999) by (apply HR; lia). lia.
  - exfalso. assert (0 <= e < year10000); [|lia]. apply HR. split; [|done].
    unfold Year. pose proof (year_and_day_bounds (e / Day24)) as HB. cbv zeta in HB.
    assert (0 <= e / Day24) by (apply Z.div_pos; [lia|unfold Day24, Hour, Minute, Second; lia]).
    destruct (Z_lt_le_dec (year_and_day (e / Day24)).1 1) as [Hneg|]; [|done]. exfalso.
    set (y := (year_and_day (e / Day24)).1 - 1) in *. assert (y < 0) by lia. assert (y + 1 <= 0) by lia.
    assert (365 * (y + 1) + (y + 1) / 4 - (y + 1) / 100 + (y + 1) / 400 <= 0); [|lia].
    assert ((y + 1) / 4 <= (y + 1) / 100); [|assert ((y + 1) / 400 <= 0) by (apply Z.div_le_upper_bound; lia); lia].
    apply Z.div_le_lower_bound; [lia|]. pose proof (Z.mul_div_le (y + 1) 4). lia.
Qed.

(** A subscription's end is exactly the given number of 24-hour days after
    its start, without wrap-around, whenever that is before year 10000; every
    other request is refused. *)
Theorem expiry_days_exact start days count :
  billingExpiryDays start days count =
    if (1 <=? days) && (days <=? 3650) && (1 <=? count) && (count <=? max_int32) && (0 <=? start) && (start <? year10000) then
      if start + days * count * Day24 <? year10000 then Ok (start + days * count * Day24)
      else Err (ErrInvalid "subscription expiry exceeds supported range")
    else Err (ErrInvalid "subscription duration exceeds supported range").
Proof.
  destruct (Z.leb_spec 1 days), (Z.leb_spec days 3650), (Z.leb_spec 1 count), (Z.leb_spec count max_int32); cbn [andb];
    try (unfold billingExpiryDays; replace ((days <? 1) || (3650 <? days) || (count <? 1) || (max_int32 <? count)) with true by lia; done).
  destruct ((0 <=? start) && (start <? year10000)) eqn:E; [apply expiry_days_eq; unfold sub_time; lia|].
  unfold billingExpiryDays. replace ((days <? 1) || (3650 <? days) || (count <? 1) || (max_int32 <? count)) with false by lia. cbn [orb].
  assert ((Year start <? 1) || (9999 <? Year start) = true) as ->; [|done].
  destruct ((Year start <? 1) || (9999 <? Year start)) eqn:EY; [done|]. assert (1 <= Year start <= 9999) as HY by lia. apply Year_range in HY. lia.
Qed.

Lemma elapsed_periods_exact start at_ days : sub_time start -> start <= at_ < year10000 -> 1 <= days <= 3650 ->
  elapsed_periods start at_ days = (at_ - start) / (days * Day24).
Proof.
  intros [Hs0 Hs1] Ht Hd. unfold elapsed_periods, Unix, Nanosecond_of.
  assert (HS : Second = 1000000000) by done. assert (HD : Day24 = 86400 * Second) by done.
  pose proof (Z.div_mod at_ Second ltac:(lia)) as Ea. pose proof (Z.div_mod start Second ltac:(lia)) as Es.
  pose proof (Z.mod_pos_bound at_ Second ltac:(lia)). pose proof (Z.mod_pos_bound start Second ltac:(lia)).
  assert (0 <= start / Second) by (apply Z.div_pos; lia). assert (at_ / Second < 315537897600).
  { apply Z.div_lt_upper_bound; [lia|]. unfold year10000, Day24, Hour, Minute, Second in *. lia. }
  assert (start / Second <= at_ / Second) by (apply Z.div_le_mono; lia).
  replace (at_ / Second - unix_epoch - (start / Second - unix_epoch)) with (at_ / Second - start / Second) by lia.
  rewrite (wrap64_id (at_ / Second - start / Second)) by (unfold is_int64, min_int64, max_int64; lia).
  rewrite (wrap64_id (days * 86400)) by (unfold is_int64, min_int64, max_int64; lia).
  assert (Hq : (if at_ mod Second <? start mod Second then wrap64 (at_ / Second - start / Second - 1) else at_ / Second - start / Second) = (at_ - start) / Second).
  { destruct (Z.ltb_spec (at_ mod Second) (start mod Second)).
    - rewrite wrap64_id by (unfold is_int64, min_int64, max_int64; lia).
      apply (Z.div_unique _ _ _ (at_ mod Second - start mod Second + Second)); lia.
    - apply (Z.div_unique _ _ _ (at_ mod Second - start mod Second)); lia. }
  rewrite Hq, Z.quot_div_nonneg; [|apply Z.div_pos; lia|lia]. rewrite Z.div_div by lia. f_equal. lia.
Qed.

(** ** The invariant *)

(** A live segment of a subscription. *)
Definition segment_ok (s : subscription_row) (e : entitlement_row) : Prop :=
  entitlement_check e = true /\ sub_time (en_starts e) /\ (sb_models_initialized s = true -> en_models e <> []) /\
  match en_ends e with
  | Some t => t = en_starts e + en_days e * en_count e * Day24 /\ t < year10000 /\ en_first e + en_count e - 1 <= sb_period_count s
  | None => sb_period_count s = 0 /\ en_first e = 1
  end.

Definition segments_ok (d : sub_db) (id : string) (s : subscription_row) : Prop :=
  forall eid e, sd_entitlements d !! eid = Some e -> en_subscription e = id -> en_superseded e = None -> segment_ok s e.

(** The current period of an enabled subscription: it is open, and from its
    start to the end of the term some live segment covers every instant. *)
Record current_ok (d : sub_db) (id : string) (s : subscription_row) (pid : string) (p : sub_period) (m : period_row) : Prop := {
  co_current : sb_current_period s = Some pid;
  co_period : sd_periods d !! pid = Some p;
  co_money : periods (sd_billing d) !! pid = Some m;
  co_open : sp_closed p = None;
  co_owner : period_subscription m = id /\ period_user m = sb_user s;
  co_span : sp_starts p < sp_ends p;
  co_term : before_deadline (sp_starts p) (sb_expires_at s) = true;
  co_covered : forall t, sp_starts p <= t -> before_deadline t (sb_expires_at s) = true ->
    exists eid e, sd_entitlements d !! eid = Some e /\ covers id t e = true;
}.

Definition sub_ok (d : sub_db) (id : string) (s : subscription_row) : Prop :=
  subscription_check s = true /\ segments_ok d id s /\ (sb_enabled s = true -> exists pid p m, current_ok d id s pid p m).
Definition sub_inv (d : sub_db) : Prop := map_Forall (sub_ok d) (sd_subs d).

(** ** Statements *)

Lemma update_sub_run op d id f s : sd_subs d !! id = Some s -> subscription_check (f s) = true ->
  update_sub op id f d = Ok (tt, set_subs (<[id := f s]> (sd_subs d)) d).
Proof. intros Hs Hc. unfold update_sub. rewrite tgets_bind. cbn [update_rows]. rewrite Hs. cbn. by rewrite Hc. Qed.

Lemma update_sub_Ok op d id f u d' : update_sub op id f d = Ok (u, d') ->
  (sd_subs d !! id = None /\ d' = set_subs (sd_subs d) d) \/
  (exists s, sd_subs d !! id = Some s /\ subscription_check (f s) = true /\ d' = set_subs (<[id := f s]> (sd_subs d)) d).
Proof.
  unfold update_sub. rewrite tgets_bind. cbn [update_rows]. destruct (sd_subs d !! id) as [s|]; [|intros [= _ <-]; by left].
  destruct (subscription_check (f s)) eqn:E; [|done]. intros [= _ <-]. right. by exists s.
Qed.

Definition closed_period (t : Z) (reason : string) (p : sub_period) : sub_period :=
  SubPeriod (sp_starts p) (sp_ends p) (sp_number p) (sp_count p) (sp_days p) (sp_entitlement p) (Some (t, reason)) (sp_created p).

Lemma close_run op d pid p f reason b : sd_periods d !! pid = Some p -> sp_closed p = None -> sp_starts p <= f p ->
  close_sub_period op pid f reason b d = Ok (1, set_sub_periods (<[pid := closed_period (f p) reason p]> (sd_periods d)) d).
Proof.
  intros Hp Hc Ht. unfold close_sub_period. rewrite tgets_bind, Hp, Hc. apply Z.leb_le in Ht. rewrite Ht, orb_true_r. cbn [is_nil andb].
  rewrite tguard_bind. done.
Qed.

(** Closing a period changes at most that row. *)
Lemma close_Ok op d pid f reason b n d' : close_sub_period op pid f reason b d = Ok (n, d') ->
  d' = d \/ exists p, sd_periods d !! pid = Some p /\ sp_closed p = None /\ sp_starts p <= f p /\
    d' = set_sub_periods (<[pid := closed_period (f p) reason p]> (sd_periods d)) d.
Proof.
  unfold close_sub_period. rewrite tgets_bind. destruct (sd_periods d !! pid) as [p|] eqn:Hp; [|intros [= _ <-]; by left].
  destruct (is_nil (sp_closed p) && _) eqn:E; [|intros [= _ <-]; by left]. rewrite tguard_bind. destruct (Z.leb_spec (sp_starts p) (f p)); [|done].
  intros [= _ <-]. right. exists p. apply andb_true_iff in E as [E _]. by destruct (sp_closed p).
Qed.

Lemma sub_billing_Ok {A} (m : tx billing_db A) d a d' : in_billing m d = Ok (a, d') ->
  exists b', m (sd_billing d) = Ok (a, b') /\ d' = set_sub_groups (set_billing b' (sd_groups d)) d.
Proof.
  unfold in_billing, in_groups, on_billing, tzoom. fold (sd_billing d). destruct (m (sd_billing d)) as [[x b']|]; [|done]. intros [= <- <-]. by exists b'.
Qed.
Lemma in_billing_run {A} (m : tx billing_db A) d a b' : m (sd_billing d) = Ok (a, b') ->
  in_billing m d = Ok (a, set_sub_groups (set_billing b' (sd_groups d)) d).
Proof. unfold in_billing, in_groups, on_billing, tzoom. fold (sd_billing d). by intros ->. Qed.

Lemma newUUID_run d b rest : gd_random (sd_groups d) = b :: rest ->
  in_groups newUUID d = Ok (uuid_text b, set_sub_groups (set_random rest (sd_groups d)) d).
Proof. intros H. unfold in_groups, tzoom, newUUID. by rewrite H. Qed.

(** ** Opening the current period *)

Lemma current_entitlement_spec subscription t d :
  match current_entitlement subscription t d with
  | Some (eid, e) => sd_entitlements d !! eid = Some e /\ covers subscription t e = true /\
      forall eid' e', sd_entitlements d !! eid' = Some e' -> covers subscription t e' = true -> en_starts e' <= en_starts e
  | None => forall eid e, sd_entitlements d !! eid = Some e -> covers subscription t e = false
  end.
Proof.
  unfold current_entitlement. set (m := filter _ (sd_entitlements d)).
  assert (Hm : forall eid e, m !! eid = Some e <-> sd_entitlements d !! eid = Some e /\ covers subscription t e = true) by (intros; apply map_lookup_filter_Some).
  assert (HP : match map_fold later_segment None m with
    | Some x => m !! x.1 = Some x.2 /\ forall eid' e', m !! eid' = Some e' -> en_starts e' <= en_starts x.2
    | None => m = ∅ end).
  { clearbody m. clear Hm. revert m. apply (map_fold_weak_ind (fun r m => match r with
      | Some x => m !! x.1 = Some x.2 /\ forall eid' e', m !! eid' = Some e' -> en_starts e' <= en_starts x.2
      | None => m = ∅ end)); [done|].
    intros i e m r Hi Hr. unfold later_segment. destruct r as [[j b]|].
    - destruct Hr as [Hj Hmax]. cbn in *. destruct (Z.ltb_spec (en_starts b) (en_starts e)); cbn.
      + split; [apply lookup_insert_eq|]. intros k v. destruct (decide (k = i)) as [->|Hk]; [rewrite lookup_insert_eq; by intros [= ->]|].
        rewrite lookup_insert_ne by done. intros Hv%Hmax. lia.
      + assert (j <> i) by congruence. split; [by rewrite lookup_insert_ne|]. intros k v.
        destruct (decide (k = i)) as [->|Hk]; [rewrite lookup_insert_eq; by intros [= ->]|]. rewrite lookup_insert_ne by done. apply Hmax.
    - subst m. split; [apply lookup_insert_eq|]. cbn. intros k v. rewrite insert_empty, lookup_singleton_Some. by intros [_ ->]. }
  destruct (map_fold later_segment None m) as [[eid e]|].
  - destruct HP as [H1 H2]. cbn in *. apply Hm in H1 as [H1 H1']. split_and!; [done..|]. intros eid' e' Ha Hb. eapply H2, Hm; eauto.
  - intros eid e He. destruct (covers subscription t e) eqn:E; [|done]. assert (m !! eid = Some e) as Hx by by apply Hm. by rewrite HP in Hx.
Qed.

(** Where an instant lies in a segment. *)
Definition segment_index (e : entitlement_row) (t : Z) : Z := (t - en_starts e) / (en_days e * Day24).
Definition segment_period (e : entitlement_row) (t : Z) : Z := en_starts e + segment_index e t * (en_days e * Day24).

Lemma tier_days_range tier days : tier_days_ok tier days = true -> 1 <= days <= 3650.
Proof. unfold tier_days_ok. rewrite !orb_true_iff, !andb_true_iff. lia. Qed.
Lemma entitlement_check_facts e : entitlement_check e = true ->
  tier_days_ok (en_tier e) (en_days e) = true /\ 1 <= en_days e <= 3650 /\ 0 < en_allowance e /\ numeric_fits (en_allowance e) = true /\ 1 <= en_first e.
Proof.
  unfold entitlement_check. rewrite !andb_true_iff. intros [[[[[[[H1 H2] H3] H4] ?] ?] ?] ?].
  split_and!; try done; first [apply tier_days_range in H1; lia|lia].
Qed.

(** The clock leaves room for one more period before year 10000. *)
Definition clock_ok (t : Z) : Prop := 0 <= t /\ t + 3650 * Day24 < year10000.

Section segment.
Context (id : string) (s : subscription_row) (e : entitlement_row) (t : Z).
Context (Hc : subscription_check s = true) (He : segment_ok s e) (Ht : clock_ok t) (Hcov : covers id t e = true).

Lemma segment_bounds :
  let k := segment_index e t in
  sub_time (en_starts e) /\ 1 <= en_days e <= 3650 /\ en_starts e <= t < year10000 /\ 0 <= k <= 3652060 /\
  en_starts e <= segment_period e t <= t /\ t < segment_period e t + en_days e * Day24 < year10000 /\
  number_ok (en_first e + k) (sb_period_count s) = true.
Proof.
  cbv zeta. destruct He as (Hchk & Hst & _ & Hend). pose proof (entitlement_check_facts e Hchk) as (_ & Hdays & _ & _ & Hfirst).
  unfold covers in Hcov. rewrite !andb_true_iff in Hcov. destruct Hcov as [[_ Hle%Z.leb_le] Hdl]. destruct Ht as [Ht0 Ht1].
  assert (HD : Day24 = 86400000000000) by done. assert (HY : year10000 = 3652059 * Day24) by done.
  unfold segment_index, segment_period in *. set (w := en_days e * Day24) in *. assert (Hw : Day24 <= w <= 3650 * Day24) by (unfold w; nia).
  pose proof (Z.div_mod (t - en_starts e) w ltac:(lia)) as Hdm. pose proof (Z.mod_pos_bound (t - en_starts e) w ltac:(lia)).
  unfold segment_index. fold w. set (k := (t - en_starts e) / w) in *. assert (0 <= k) by (apply Z.div_pos; lia).
  assert (0 <= en_starts e) by apply Hst. assert (k * Day24 <= 3652059 * Day24) by nia.
  split_and!; try done; try lia; try nia.
  unfold subscription_check in Hc. rewrite !andb_true_iff in Hc. destruct Hc as [[[[[[[[[[[_ _] _] _] Hn] _] _] _] _] _] _] _].
  unfold number_ok in *. unfold int32b in *. rewrite !andb_true_iff in Hn. destruct Hn as [[[[? Hi] ?] Hi2] _].
  destruct (en_ends e) as [x|] eqn:Ex.
  - destruct Hend as (Hx & _ & Hcount). cbn [before_deadline] in Hdl. apply Z.ltb_lt in Hdl.
    assert (k < en_count e); [|lia]. assert (k * w < en_count e * w); [|nia]. unfold w in *. nia.
  - destruct Hend as [-> ->]. lia.
Qed.

Lemma elapsed_segment : elapsed_periods (en_starts e) t (en_days e) = segment_index e t.
Proof. pose proof segment_bounds as (? & ? & ? & _). by apply elapsed_periods_exact. Qed.

Lemma segment_start : (if 0 <? segment_index e t then billingExpiryDays (en_starts e) (en_days e) (segment_index e t) else Ok (en_starts e)) = Ok (segment_period e t).
Proof.
  pose proof segment_bounds as (Hs & Hd & Ht' & Hk & Hp & Hq & _). destruct (Z.ltb_spec 0 (segment_index e t)) as [Hlt|Hge].
  - rewrite expiry_days_eq by (done || (change max_int32 with 2147483647; lia)). unfold segment_period in *.
    replace (en_starts e + en_days e * segment_index e t * Day24) with (en_starts e + segment_index e t * (en_days e * Day24)) by lia.
    replace (_ <? year10000) with true by lia. done.
  - unfold segment_period. replace (segment_index e t) with 0 by lia. f_equal. lia.
Qed.

Lemma segment_end : billingExpiryDays (segment_period e t) (en_days e) 1 = Ok (segment_period e t + en_days e * Day24).
Proof.
  pose proof segment_bounds as ([Hs _] & Hd & Ht' & Hk & Hp & Hq & _). rewrite expiry_days_eq by (unfold sub_time; (done || (change max_int32 with 2147483647; lia))).
  replace (en_days e * 1 * Day24) with (en_days e * Day24) by lia. by replace (_ <? year10000) with true by lia.
Qed.
End segment.

(** Everything a roll leaves alone: the entitlements, the accounts and their
    money, and the configuration. *)
Record roll_frame (d d' : sub_db) : Prop := {
  rf_entitlements : sd_entitlements d' = sd_entitlements d;
  rf_accounts : billing_accounts (sd_billing d') = billing_accounts (sd_billing d);
  rf_lots : cash_lots (sd_billing d') = cash_lots (sd_billing d);
  rf_users : users (sd_billing d') = users (sd_billing d);
  rf_settings : sd_plans d' = sd_plans d /\ sd_flags d' = sd_flags d /\ sd_cash_models d' = sd_cash_models d /\ sd_config_versions d' = sd_config_versions d;
}.
#[export] Instance roll_frame_preorder : PreOrder roll_frame.
Proof. split; [by intros d|]. intros a b c [] []. split; try congruence. destruct_and!. split_and!; congruence. Qed.

(** What opening a period at [t] in segment [e] does. *)
Record opened (userID id : string) (t : Z) (s : subscription_row) (eid : string) (e : entitlement_row) (b : string) (d d' : sub_db) : Prop := {
  op_subs : sd_subs d' = <[id := sub_advance (uuid_text b) (en_first e + segment_index e t) (en_tier e) (en_days e) (en_allowance e) (en_models e) t s]> (sd_subs d);
  op_periods : sd_periods d' = <[uuid_text b := SubPeriod (segment_period e t) (segment_period e t + en_days e * Day24) (en_first e + segment_index e t)
    (sb_period_count s) (en_days e) eid None t]> (sd_periods d);
  op_money : periods (sd_billing d') = <[uuid_text b := Period id userID (Some (en_tier e)) (en_allowance e) (en_allowance e) 0]> (periods (sd_billing d));
  op_frame : roll_frame d d';
}.

Lemma advance_check pid s e t number : subscription_check s = true -> segment_ok s e -> number_ok number (sb_period_count s) = true ->
  subscription_check (sub_advance pid number (en_tier e) (en_days e) (en_allowance e) (en_models e) t s) = true.
Proof.
  intros Hc (He & _ & Hm & _) Hn. apply entitlement_check_facts in He as (Ht & _ & Ha & Hf & _). apply Z.ltb_lt in Ha. unfold subscription_check in *. cbn.
  rewrite !andb_true_iff in *. destruct Hc as [[[[[[[[[[[_ _] _] H4] H5] H6] H7] H8] H9] H10] H11] H12]. split_and!; try done.
  destruct (sb_models_initialized s); [|done]. cbn. rewrite bool_decide_false by auto. done.
Qed.

Lemma new_period_check tier allowance starts days number count eid t : tier_days_ok tier days = true -> 0 < allowance -> numeric_fits allowance = true ->
  number_ok number count = true -> sub_period_check tier allowance (SubPeriod starts (starts + days * Day24) number count days eid None t) = true.
Proof.
  intros Ht Ha Hf Hn. pose proof (tier_days_range _ _ Ht). unfold sub_period_check. cbn. rewrite Hn, Hf, Z.eqb_refl.
  replace (1 <=? days) with true by lia. replace (days <=? 3650) with true by lia. replace (0 <? allowance) with true by lia. rewrite !andb_true_r.
  apply bool_decide_true. unfold tier_days_ok in Ht. rewrite !orb_true_iff, !andb_true_iff, !bool_decide_eq_true in Ht.
  rewrite !elem_of_cons. destruct Ht as [[[[-> _]|[-> _]]|[-> _]]|[[-> _] _]]; auto.
Qed.

Lemma covering_ok d id s t eid e : segments_ok d id s -> sd_entitlements d !! eid = Some e -> covers id t e = true -> segment_ok s e.
Proof.
  intros Hseg He Hcov. unfold covers in Hcov. rewrite !andb_true_iff, bool_decide_eq_true in Hcov. destruct Hcov as [[[? Hn] _] _].
  eapply Hseg; [done..|]. by destruct (en_superseded e).
Qed.

Lemma open_period_run userID id t d s b rest :
  clock_ok t -> sd_subs d !! id = Some s -> subscription_check s = true -> segments_ok d id s ->
  (exists eid e, sd_entitlements d !! eid = Some e /\ covers id t e = true) ->
  gd_random (sd_groups d) = b :: rest -> sd_periods d !! uuid_text b = None -> periods (sd_billing d) !! uuid_text b = None ->
  exists eid e d', open_period userID id t d = Ok (tt, d') /\ sd_entitlements d !! eid = Some e /\ covers id t e = true /\
    opened userID id t s eid e b d d' /\ gd_random (sd_groups d') = rest.
Proof.
  intros Ht Hs Hc Hseg (eid0 & e0 & He0 & Hcov0) Hr Hp Hm. pose proof (current_entitlement_spec id t d) as Hcur.
  destruct (current_entitlement id t d) as [[eid e]|] eqn:Ecur; [|by rewrite (Hcur eid0 e0 He0) in Hcov0].
  destruct Hcur as (He & Hcov & _). assert (Hok : segment_ok s e) by by eapply covering_ok.
  pose proof (segment_bounds id s e t Hc Hok Ht Hcov) as (_ & _ & _ & Hk & _ & _ & Hnum). destruct Hok as [Hchk Hrest] eqn:EOk. clear EOk.
  pose proof (entitlement_check_facts e Hchk) as (Htd & Hdays & Hall & Hfit & Hfirst). unfold open_period. rewrite tgets_bind, Hs.
  unfold tsome at 1. rewrite tret_bind. rewrite Ecur. unfold tsome at 1. rewrite tret_bind. cbv beta iota.
  rewrite (elapsed_segment id s e t) by done. rewrite tguard_bind. rewrite (segment_start id s e t) by done.
  assert (Hov : negb (max_int32 - en_first e <? segment_index e t) = true).
  { unfold number_ok, int32b in Hnum. rewrite !andb_true_iff in Hnum. change max_int32 with (2 ^ 31 - 1). destruct Hnum as [[[[? [? ?]] ?] ?] ?].
    destruct (Z.ltb_spec (2 ^ 31 - 1 - en_first e) (segment_index e t)); [lia|done]. }
  rewrite Hov. unfold tlift at 1. unfold tbind at 1. rewrite (segment_end id s e t) by done. unfold tlift, tbind at 1.
  rewrite (tbind_run _ _ _ _ _ (newUUID_run d b rest Hr)). unfold insert_sub_period. unfold tbind at 1. rewrite tguard_bind.
  rewrite new_period_check by done. rewrite tgets_bind, tguard_bind. unfold sd_billing in *. stables. gtables. rewrite Hp, Hm, !bool_decide_true by done. cbn [andb].
  rewrite tguard_bind, tmod_bind. stables.
  erewrite in_billing_run by reflexivity. unfold tbind at 1. erewrite update_sub_run; [|stables; done|by apply advance_check]. unfold insert_sub_ledger.
  unfold tbind. erewrite in_billing_run by reflexivity. exists eid, e. eexists. split; [reflexivity|]. split_and!; [done..| |].
  - split; try done.
  - stables. gtables. done.
Qed.

(** ** One stale subscription *)

(** The ids a transaction may still draw are new. *)
Record fresh_ids (n : nat) (d : sub_db) : Prop := {
  fr_enough : (n <= length (gd_random (sd_groups d)))%nat;
  fr_distinct : NoDup (uuid_text <$> gd_random (sd_groups d));
  fr_periods : forall b, b ∈ gd_random (sd_groups d) -> sd_periods d !! uuid_text b = None /\ periods (sd_billing d) !! uuid_text b = None;
}.

(** What a roll at [t] makes of one subscription of [userID]. *)
Inductive roll_outcome (userID : string) (t : Z) (d d' : sub_db) (id : string) (s : subscription_row) : subscription_row -> Prop :=
| Roll_idle : stale_period t d s = None -> roll_outcome userID t d d' id s s
| Roll_expired pid p : stale_period t d s = Some (pid, p) -> before_deadline t (sb_expires_at s) = false ->
    sd_periods d' !! pid = Some (closed_period (sp_ends p) "expired" p) ->
    roll_outcome userID t d d' id s (sub_disable (sb_expires_at s) t s)
| Roll_renewed pid p eid e new : stale_period t d s = Some (pid, p) -> before_deadline t (sb_expires_at s) = true ->
    sd_periods d' !! pid = Some (closed_period (sp_ends p) "expired" p) ->
    sd_entitlements d !! eid = Some e -> covers id t e = true -> sd_periods d !! new = None ->
    sd_periods d' !! new = Some (SubPeriod (segment_period e t) (segment_period e t + en_days e * Day24) (en_first e + segment_index e t)
      (sb_period_count s) (en_days e) eid None t) ->
    periods (sd_billing d') !! new = Some (Period id userID (Some (en_tier e)) (en_allowance e) (en_allowance e) 0) ->
    roll_outcome userID t d d' id s
      (sub_advance new (en_first e + segment_index e t) (en_tier e) (en_days e) (en_allowance e) (en_models e) t s).

(** The rows outside the subscriptions [ids]. *)
Record roll_effect (ids : list string) (d d' : sub_db) : Prop := {
  re_frame : roll_frame d d';
  re_subs : forall id, id ∉ ids -> sd_subs d' !! id = sd_subs d !! id;
  re_money : forall pid m, periods (sd_billing d) !! pid = Some m -> periods (sd_billing d') !! pid = Some m;
  re_periods : forall pid p m, sd_periods d !! pid = Some p -> periods (sd_billing d) !! pid = Some m -> period_subscription m ∉ ids ->
    sd_periods d' !! pid = Some p;
  re_dom : forall pid, sd_periods d' !! pid = None -> sd_periods d !! pid = None;
}.

Lemma disable_check s x : subscription_check s = true -> sb_expires_at s <> None -> subscription_check (sub_disable (sb_expires_at s) x s) = true.
Proof.
  intros Hc He. unfold subscription_check in *. cbn. rewrite !andb_true_iff in *. destruct Hc as [[[[[[[[[[[H1 H2] H3] _] H5] H6] H7] H8] H9] H10] H11] H12].
  split_and!; try done. by destruct (sb_expires_at s).
Qed.

Lemma covers_earlier id t x e : covers id t e = true -> en_starts e <= x <= t -> covers id x e = true.
Proof.
  unfold covers. rewrite !andb_true_iff. intros [[[H1 H2] _] H4] Hx. split_and!; [done..|lia|]. destruct (en_ends e); cbn in *; [|done].
  apply Z.ltb_lt in H4. apply Z.ltb_lt. lia.
Qed.

(** Other subscriptions stay consistent when their rows do. *)
Lemma sub_ok_frame ids d d' id s : roll_effect ids d d' -> id ∉ ids -> sub_ok d id s -> sub_ok d' id s.
Proof.
  intros [[He _ _ _ _] _ Hm Hp _] Hid (Hc & Hseg & Hcur). unfold sub_ok, segments_ok. rewrite He. split_and!; [done..|]. intros Hen.
  destruct (Hcur Hen) as (pid & p & m & [H1 H2 H3 H4 [H5 H5'] H6 H7 H8]). exists pid, p, m. split; eauto. - eapply Hp; eauto. by rewrite H5. - by rewrite He.
Qed.

Lemma sub_inv_effect id d d' s' : sub_inv d -> roll_effect [id] d d' -> sd_subs d' !! id = Some s' -> sub_ok d' id s' -> sub_inv d'.
Proof.
  intros I R Hs Hok i x Hx. destruct (decide (i = id)) as [->|Hne]; [congruence|]. assert (i ∉ [id]) by (by intros [->|[]%elem_of_nil]%elem_of_cons).
  rewrite (re_subs _ _ _ R) in Hx by done. eapply sub_ok_frame; eauto.
Qed.

Section one.
Context (userID : string) (t : Z) (d : sub_db) (id pid : string) (s : subscription_row) (p : sub_period).
Context (Ht : clock_ok t) (I : sub_inv d) (F : fresh_ids 1 d).
Context (Hs : sd_subs d !! id = Some s) (Hu : sb_user s = userID) (Hst : stale_period t d s = Some (pid, p)).

Lemma stale_facts : sb_enabled s = true /\ subscription_check s = true /\ segments_ok d id s /\ sp_ends p <= t /\ exists m, current_ok d id s pid p m.
Proof.
  destruct (I id s Hs) as (Hc & Hseg & Hcur). unfold stale_period in Hst. destruct (sb_enabled s) eqn:Een; [|done].
  destruct (Hcur eq_refl) as (pid' & p' & m & Hok). pose proof Hok as [H1 H2 _ _ _ _ _ _]. rewrite H1 in Hst. cbn in Hst. rewrite H2 in Hst. cbn in Hst.
  destruct (Z.leb_spec (sp_ends p') t); [|done]. injection Hst as <- <-. split_and!; eauto.
Qed.

(** The state after this subscription was rolled, and the ids that are left. *)
Definition rolled_one (n : Z) (d' : sub_db) : Prop :=
  roll_one userID t (id, pid, sb_expires_at s) d = Ok (n, d') /\
  (exists s', sd_subs d' !! id = Some s' /\ roll_outcome userID t d d' id s s') /\ roll_effect [id] d d' /\ sub_inv d' /\
  exists b rest, gd_random (sd_groups d) = b :: rest /\ (gd_random (sd_groups d') = rest \/
      gd_random (sd_groups d') = b :: rest /\ sd_periods d' !! uuid_text b = None /\ periods (sd_billing d') !! uuid_text b = None) /\
    forall q, q <> uuid_text b -> sd_periods d !! q = None -> periods (sd_billing d) !! q = None ->
      sd_periods d' !! q = None /\ periods (sd_billing d') !! q = None.

Context (b : string) (rest : list string) (Hr : gd_random (sd_groups d) = b :: rest).

Lemma roll_one_renews : before_deadline t (sb_expires_at s) = true -> exists d', rolled_one 0 d'.
Proof.
  intros Edl. destruct stale_facts as (Hen & Hc & Hseg & Hle & m & Hok). pose proof Hok as [H1 H2 H3 H4 [H5 H5'] H6 H7 H8]. destruct F as [Fn Fd Fp].
  rewrite Hr in Fp. destruct (Fp b ltac:(apply elem_of_cons; by left)) as [Fb Fb']. unfold rolled_one.
  unfold roll_one. rewrite (tbind_run _ _ _ _ _ (close_run _ d pid p sp_ends "expired" false H2 H4 ltac:(lia))).
  set (d1 := set_sub_periods _ d). rewrite Edl. cbn [negb].
  destruct (open_period_run userID id t d1 s b rest) as (eid & e & d' & Hrun & He & Hcov & [Os Op Om Of] & Hr'); try done.
  { apply H8; [lia|done]. }
  { unfold d1. stables. rewrite lookup_insert_ne by congruence. done. }
  rewrite (tbind_run _ _ _ _ _ Hrun). exists d'. split; [reflexivity|].
  assert (Hnp : uuid_text b <> pid) by congruence. unfold d1 in Op, Om, Os, He. unfold sd_billing in Om, Fb', H3. stables.
  assert (R : roll_effect [id] d d').
  { split; [by destruct Of|..].
    - intros i Hi%not_elem_of_cons. rewrite Os, lookup_insert_ne by (destruct Hi; congruence). done.
    - intros q x Hq. unfold sd_billing in *. rewrite Om, lookup_insert_ne by congruence. done.
    - intros q x y Hq Hy Hi. rewrite Op, lookup_insert_ne by congruence. apply not_elem_of_cons in Hi as [Hi _].
      rewrite lookup_insert_ne; [done|]. intros <-. unfold sd_billing in *. congruence.
    - intros q. rewrite Op, !lookup_insert_None. by intros [[? _] _]. }
  assert (Hsok : segment_ok s e) by by eapply covering_ok. rewrite Os.
  pose proof (segment_bounds id s e t Hc Hsok Ht Hcov) as (_ & _ & _ & _ & Hb1 & Hb2 & Hnum).
  assert (Hd'p : sd_periods d' !! pid = Some (closed_period (sp_ends p) "expired" p)) by (rewrite Op, lookup_insert_ne, lookup_insert_eq by done; done).
  split_and!; [|done|..].
  - eexists. split; [apply lookup_insert_eq|]. eapply (Roll_renewed userID t d d' id s pid p eid e (uuid_text b)); try done.
    + rewrite Op. apply lookup_insert_eq. + unfold sd_billing. rewrite Om. apply lookup_insert_eq.
  - eapply (sub_inv_effect id d d'); [done..| |]; [rewrite Os; apply lookup_insert_eq|]. split_and!; [by apply advance_check| |].
    + intros i x. rewrite (rf_entitlements _ _ (re_frame _ _ _ R)). apply Hseg.
    + intros _. exists (uuid_text b). do 2 eexists. split; [done|rewrite Op; apply lookup_insert_eq|unfold sd_billing; rewrite Om; apply lookup_insert_eq|done|by rewrite <- Hu|..]; cbn.
      * lia. * cbn. destruct (sb_expires_at s); cbn in *; [|done]. lia.
      * intros x Hx Hxd. rewrite (rf_entitlements _ _ (re_frame _ _ _ R)). destruct (Z_le_gt_dec x t); [|apply H8; [lia|done]].
        exists eid, e. split; [done|]. apply (covers_earlier id t); [done|lia].
  - exists b, rest. split_and!; [done|by left|]. intros q Hqb Hq Hq'. unfold sd_billing in *. rewrite Op, Om, !lookup_insert_ne by congruence. done.
Qed.

Lemma roll_one_expires : before_deadline t (sb_expires_at s) = false -> exists d', rolled_one 1 d'.
Proof.
  intros Edl. destruct stale_facts as (Hen & Hc & Hseg & Hle & m & Hok). pose proof Hok as [H1 H2 H3 H4 [H5 H5'] H6 H7 H8]. unfold rolled_one.
  unfold roll_one. rewrite (tbind_run _ _ _ _ _ (close_run _ d pid p sp_ends "expired" false H2 H4 ltac:(lia))).
  set (d1 := set_sub_periods _ d). rewrite Edl. cbn [negb]. assert (Hne : sb_expires_at s <> None) by by destruct (sb_expires_at s).
  rewrite (tbind_run _ _ _ _ _ (update_sub_run _ d1 id (fun s => sub_disable (sb_expires_at s) t s) s Hs (disable_check s t Hc Hne))). eexists. split; [reflexivity|].
  set (d' := set_subs _ d1). assert (R : roll_effect [id] d d').
  { split; [done|..]; unfold d', d1; stables.
    - intros i Hi%not_elem_of_cons. rewrite lookup_insert_ne by (destruct Hi; congruence). done.
    - done.
    - intros q x y Hq Hy Hi. apply not_elem_of_cons in Hi as [Hi _]. rewrite lookup_insert_ne; [done|]. intros <-. congruence.
    - intros q. rewrite !lookup_insert_None. by intros [? _]. }
  split_and!; [|done|..].
  - eexists. split; [unfold d'; stables; apply lookup_insert_eq|]. eapply Roll_expired; [done..|]. unfold d', d1. stables. apply lookup_insert_eq.
  - eapply (sub_inv_effect id d d'); [done..| |]; [unfold d'; stables; apply lookup_insert_eq|]. split_and!; [by apply disable_check|done|done].
  - assert (Hq : forall q, sd_periods d !! q = None -> sd_periods d' !! q = None).
    { intros q Hq. unfold d', d1. stables. rewrite lookup_insert_ne by congruence. done. }
    destruct F as [_ _ Fp]. rewrite Hr in Fp. destruct (Fp b ltac:(apply elem_of_cons; by left)) as [Fb Fb'].
    exists b, rest. split_and!; [done|right; split_and!; auto|]. auto.
Qed.

Lemma roll_one_run : exists n d', rolled_one n d'.
Proof. destruct (before_deadline t (sb_expires_at s)) eqn:E; [destruct roll_one_renews|destruct roll_one_expires]; eauto. Qed.
End one.

(** ** All stale subscriptions *)

#[export] Instance roll_effect_refl ids : Reflexive (roll_effect ids).
Proof. by intros d. Qed.

Lemma roll_effect_cons id ids d d1 d2 : roll_effect [id] d d1 -> roll_effect ids d1 d2 -> roll_effect (id :: ids) d d2.
Proof.
  intros [F1 S1 M1 P1 D1] [F2 S2 M2 P2 D2]. split; [by transitivity d1| |auto| |auto].
  - intros i [Hi Hn]%not_elem_of_cons. rewrite S2, S1; [done| |done]. by intros [->|[]%elem_of_nil]%elem_of_cons.
  - intros pid p m Hp Hm [Hi Hn]%not_elem_of_cons. apply (P2 pid p m); [|auto|done]. apply (P1 pid p m); [done..|].
    by intros [?|[]%elem_of_nil]%elem_of_cons.
Qed.

(** A subscription that was not rolled is still stale exactly when it was. *)
Lemma stale_period_effect ids t d d' id s : sub_inv d -> roll_effect ids d d' -> sd_subs d !! id = Some s -> id ∉ ids ->
  stale_period t d' s = stale_period t d s.
Proof.
  intros I R Hs Hid. unfold stale_period. destruct (sb_enabled s) eqn:Een; [|done]. destruct (I id s Hs) as (_ & _ & Hcur).
  destruct (Hcur Een) as (pid & p & m & [H1 H2 H3 _ [H5 _] _ _ _]). rewrite H1. cbn. rewrite H2, (re_periods _ _ _ R pid p m H2 H3); [done|by rewrite H5].
Qed.

Lemma outcome_before userID t d d1 d2 id0 id s s' : sub_inv d -> sd_subs d !! id = Some s -> id <> id0 -> roll_effect [id0] d d1 ->
  roll_outcome userID t d1 d2 id s s' -> roll_outcome userID t d d2 id s s'.
Proof.
  intros I Hs Hne R H. assert (Hni : id ∉ [id0]) by (by intros [?|[]%elem_of_nil]%elem_of_cons).
  pose proof (stale_period_effect _ t _ _ _ _ I R Hs Hni) as Est. pose proof (rf_entitlements _ _ (re_frame _ _ _ R)) as Een.
  destruct H; rewrite Est in *; rewrite ?Een in *; [by apply Roll_idle|by eapply Roll_expired|].
  eapply Roll_renewed; eauto. by apply (re_dom _ _ _ R).
Qed.

Lemma outcome_after userID t d d1 d2 ids id s s' : sub_inv d -> sd_subs d !! id = Some s -> id ∉ ids -> roll_effect [id] d d1 -> roll_effect ids d1 d2 ->
  roll_outcome userID t d d1 id s s' -> roll_outcome userID t d d2 id s s'.
Proof.
  intros I Hs Hni R1 R2 H. assert (Hpid : forall pid p x, stale_period t d s = Some (pid, p) -> sd_periods d1 !! pid = Some x -> sd_periods d2 !! pid = Some x).
  { intros pid p x Hst Hx. unfold stale_period in Hst. destruct (sb_enabled s) eqn:Een; [|done]. destruct (I id s Hs) as (_ & _ & Hcur).
    destruct (Hcur Een) as (pid' & p' & m & [H1 H2 H3 _ [H5 _] _ _ _]). rewrite H1 in Hst. cbn in Hst. rewrite H2 in Hst. cbn in Hst.
    destruct (sp_ends p' <=? t); [|done]. injection Hst as -> ->. apply (re_periods _ _ _ R2 pid x m); [done|by apply (re_money _ _ _ R1)|by rewrite H5]. }
  destruct H as [Hst|pid p Hst Hdl Hp|pid p eid e new Hst Hdl Hp He Hcov Hn Hnew Hm]; [by apply Roll_idle|eapply Roll_expired; eauto|].
  eapply Roll_renewed; eauto; [eapply (re_periods _ _ _ R2); eauto|by apply (re_money _ _ _ R2)].
Qed.

Definition stale_row (userID : string) (t : Z) (d : sub_db) (v : string * string * option Z) : Prop :=
  exists s p, sd_subs d !! v.1.1 = Some s /\ sb_user s = userID /\ stale_period t d s = Some (v.1.2, p) /\ v.2 = sb_expires_at s.

Lemma fresh_after n d d' b rest : fresh_ids (S n) d -> gd_random (sd_groups d) = b :: rest ->
  (gd_random (sd_groups d') = rest \/
    gd_random (sd_groups d') = b :: rest /\ sd_periods d' !! uuid_text b = None /\ periods (sd_billing d') !! uuid_text b = None) ->
  (forall q, q <> uuid_text b -> sd_periods d !! q = None -> periods (sd_billing d) !! q = None ->
    sd_periods d' !! q = None /\ periods (sd_billing d') !! q = None) -> fresh_ids n d'.
Proof.
  intros [Fn Fd Fp] Hr Hr' Hq. rewrite Hr in *. cbn in Fn, Fd. apply NoDup_cons in Fd as [Fd1 Fd2].
  assert (Hrest : forall x, x ∈ rest -> sd_periods d' !! uuid_text x = None /\ periods (sd_billing d') !! uuid_text x = None).
  { intros x Hx. destruct (Fp x ltac:(apply elem_of_cons; by right)). apply Hq; [|done..]. intros E. apply Fd1. rewrite <- E. by apply list_elem_of_fmap_2. }
  destruct Hr' as [E|(E & Hb)]; split; rewrite E; cbn; [lia|done|done|lia|by apply NoDup_cons|]. intros x [->|Hx]%elem_of_cons; auto.
Qed.

Lemma roll_each_run userID t l : forall d, clock_ok t -> sub_inv d -> fresh_ids (length l) d -> NoDup (map (fun v => v.1.1) l) -> Forall (stale_row userID t d) l ->
  exists n d', roll_each userID t l d = Ok (n, d') /\ sub_inv d' /\ roll_effect (map (fun v => v.1.1) l) d d' /\
    forall v, v ∈ l -> exists s s', sd_subs d !! v.1.1 = Some s /\ sd_subs d' !! v.1.1 = Some s' /\ sb_user s = userID /\ roll_outcome userID t d d' v.1.1 s s'.
Proof.
  induction l as [|[[id pid] expiry] l IH]; intros d Ht I Fr Hnd Hall.
  - exists 0, d. split_and!; [done..|reflexivity|]. by intros v []%elem_of_nil.
  - cbn [map] in *. apply NoDup_cons in Hnd as [Hni Hnd]. apply Forall_cons in Hall as [(s & p & Hs & Hu & Hst & Hx) Hall]. cbn in Hs, Hst, Hx. subst expiry.
    assert (F1 : fresh_ids 1 d) by (destruct Fr; split; [cbn in *; lia|done..]). destruct (gd_random (sd_groups d)) as [|b0 rest0] eqn:Hr0.
    { destruct F1 as [F1 _ _]. rewrite Hr0 in F1. cbn in F1. lia. }
    destruct (roll_one_run userID t d id pid s p Ht I F1 Hs Hu Hst b0 rest0 Hr0) as (n1 & d1 & Hrun & (s' & Hs' & Hout) & R1 & I1 & b & rest & Hr & Hr' & Hq).
    assert (Fr1 : fresh_ids (length l) d1) by by eapply fresh_after. assert (Hne : forall v, v ∈ l -> v.1.1 <> id).
    { intros v Hv E. apply Hni. rewrite <- E. apply list_elem_of_fmap. by exists v. }
    assert (Hsame : forall v, v ∈ l -> sd_subs d1 !! v.1.1 = sd_subs d !! v.1.1).
    { intros v Hv. apply (re_subs _ _ _ R1). intros [E|[]%elem_of_nil]%elem_of_cons. by eapply Hne. }
    assert (Hall1 : Forall (stale_row userID t d1) l).
    { rewrite Forall_forall in Hall |- *. intros v Hv. destruct (Hall v Hv) as (sv & pv & Ha & Hb & Hc & Hd). exists sv, pv. rewrite Hsame by done.
      split_and!; try done. rewrite (stale_period_effect [id] t d d1 v.1.1); [done..|]. intros [E|[]%elem_of_nil]%elem_of_cons. by eapply Hne. }
    destruct (IH d1 Ht I1 Fr1 Hnd Hall1) as (n2 & d2 & Hrun2 & I2 & R2 & Hout2). exists (n1 + n2), d2. cbn [roll_each].
    rewrite (tbind_run _ _ _ _ _ Hrun), (tbind_run _ _ _ _ _ Hrun2). split_and!; [done..|by eapply roll_effect_cons|].
    intros v [->|Hv]%elem_of_cons; cbn.
    + exists s, s'. split_and!; [done|by rewrite (re_subs _ _ _ R2)|done|by eapply outcome_after].
    + destruct (Hout2 v Hv) as (sv & sv' & Ha & Hb & Hc & Hd). exists sv, sv'. rewrite <- Hsame by done. split_and!; try done.
      eapply (outcome_before _ _ d d1); [done|by rewrite <- Hsame|by eapply Hne|done..].
Qed.

Lemma user_subs_elem userID d x : x ∈ user_subs userID d <-> sd_subs d !! x.1 = Some x.2 /\ sb_user x.2 = userID.
Proof.
  unfold user_subs. rewrite list_elem_of_omap. split.
  - intros (id & Hid & H). destruct (sd_subs d !! id) as [s|] eqn:E; [|done]. injection H as <-. cbn. split; [done|].
    rewrite stable_sort_perm, elem_of_elements, elem_of_dom in Hid. destruct Hid as [s' Hs']. apply map_lookup_filter_Some in Hs' as [Hs' Hu]. cbn in Hu. congruence.
  - intros [Hx Hu]. destruct x as [id s]. cbn in *. exists id. rewrite Hx. split; [|done]. rewrite stable_sort_perm, elem_of_elements, elem_of_dom. exists s.
    by apply map_lookup_filter_Some.
Qed.

Lemma omap_keys_NoDup {A B} (f : A -> option B) (g : B -> A) (l : list A) :
  (forall a b, f a = Some b -> g b = a) -> NoDup l -> NoDup (map g (omap f l)).
Proof.
  intros Hg. induction 1 as [|a l Ha Hl IH]; [constructor|]. cbn. destruct (f a) as [b|] eqn:E; [|done]. cbn. constructor; [|done].
  rewrite (Hg _ _ E). intros (b' & Hb & Hin)%list_elem_of_fmap. apply list_elem_of_omap in Hin as (a' & Ha' & E'). rewrite (Hg _ _ E') in Hb. congruence.
Qed.

Lemma user_subs_NoDup userID d : NoDup (map fst (user_subs userID d)).
Proof.
  apply omap_keys_NoDup; [|rewrite stable_sort_perm; apply NoDup_elements]. intros id x. destruct (sd_subs d !! id); [|done]. by intros [= <-].
Qed.

Lemma stale_subs_elem userID t d v : v ∈ stale_subs userID t d <-> stale_row userID t d v.
Proof.
  unfold stale_subs, stale_row. rewrite list_elem_of_omap. split.
  - intros ([id s] & [Hs Hu]%user_subs_elem & H). cbn in *. destruct (stale_period t d s) as [[pid p]|] eqn:E; [|done]. injection H as <-. cbn. eauto 10.
  - intros (s & p & Hs & Hu & Hst & Hx). exists (v.1.1, s). split; [by apply user_subs_elem|]. cbn. rewrite Hst. cbn. destruct v as [[? ?] ?]. cbn in *. congruence.
Qed.

Lemma stale_subs_NoDup userID t d : NoDup (map (fun v => v.1.1) (stale_subs userID t d)).
Proof.
  unfold stale_subs. pose proof (user_subs_NoDup userID d) as H. induction (user_subs userID d) as [|[id s] l IH]; [constructor|].
  cbn in H. apply NoDup_cons in H as [H1 H2]. cbn. destruct (stale_period t d s) as [[pid p]|]; [|auto]. cbn. constructor; [|auto].
  intros (v & Hv & Hin)%list_elem_of_fmap. apply list_elem_of_omap in Hin as ([id' s'] & Hin & E). cbn in *. apply H1.
  destruct (stale_period t d s'); [|done]. injection E as <-. cbn in Hv. subst. by apply (list_elem_of_fmap_2 fst) in Hin.
Qed.

Lemma roll_run userID t d : clock_ok t -> sub_inv d -> fresh_ids (length (stale_subs userID t d)) d ->
  exists n d', rollBillingSubscriptionsTx userID t d = Ok (n, d') /\ sub_inv d' /\ roll_effect (map (fun v => v.1.1) (stale_subs userID t d)) d d' /\
    forall id s, sd_subs d !! id = Some s -> exists s', sd_subs d' !! id = Some s' /\
      (sb_user s = userID -> roll_outcome userID t d d' id s s') /\ (sb_user s <> userID -> s' = s).
Proof.
  intros Ht I Fr. destruct (roll_each_run userID t _ d Ht I Fr (stale_subs_NoDup userID t d)) as (n & d' & Hrun & I' & R & Hout).
  { apply Forall_forall. intros v. apply stale_subs_elem. }
  exists n, d'. unfold rollBillingSubscriptionsTx, rollBillingEntitlementsTx. rewrite tgets_bind. split_and!; [done..|].
  intros id s Hs. destruct (decide (id ∈ map (fun v => v.1.1) (stale_subs userID t d))) as [(v & -> & Hv)%list_elem_of_fmap|Hni].
  - destruct (Hout v Hv) as (s0 & s' & H1 & H2 & H3 & H4). assert (s0 = s) as -> by congruence. exists s'. split_and!; done.
  - exists s. split_and!; [by rewrite (re_subs _ _ _ R)| |done]. intros Hu. apply Roll_idle. destruct (stale_period t d s) as [[pid p]|] eqn:E; [|done].
    exfalso. apply Hni, list_elem_of_fmap. exists (id, pid, sb_expires_at s). split; [done|]. apply stale_subs_elem. exists s, p. done.
Qed.

(** [C19] Rolling always succeeds and decides each subscription of the user by
    the calendar alone: one whose period is not over stays as it is; one whose
    term is over is disabled at its end; any other gets, however long it was
    dormant, the one period of its segment that contains the instant, numbered
    accordingly, with the segment's full allowance.  Nobody's money moves and
    other users' subscriptions are untouched. *)
Theorem roll_exact userID t d :
  clock_ok t -> sub_inv d -> fresh_ids (length (stale_subs userID t d)) d ->
  exists n d', rollBillingSubscriptionsTx userID t d = Ok (n, d') /\
    billing_accounts (sd_billing d') = billing_accounts (sd_billing d) /\ cash_lots (sd_billing d') = cash_lots (sd_billing d) /\
    forall id s, sd_subs d !! id = Some s -> exists s', sd_subs d' !! id = Some s' /\
      (sb_user s <> userID -> s' = s) /\
      (sb_user s = userID -> stale_period t d s = None -> s' = s) /\
      (forall pid p, sb_user s = userID -> stale_period t d s = Some (pid, p) ->
        sd_periods d' !! pid = Some (closed_period (sp_ends p) "expired" p) /\
        if before_deadline t (sb_expires_at s) then
          exists eid e new k, sd_entitlements d !! eid = Some e /\ covers id t e = true /\ sd_periods d !! new = None /\ sb_enabled s' = true /\
            sb_current_period s' = Some new /\ sb_current_number s' = en_first e + k /\ sb_expires_at s' = sb_expires_at s /\
            sd_periods d' !! new = Some (SubPeriod (en_starts e + k * (en_days e * Day24)) (en_starts e + (k + 1) * (en_days e * Day24))
              (en_first e + k) (sb_period_count s) (en_days e) eid None t) /\
            en_starts e + k * (en_days e * Day24) <= t < en_starts e + (k + 1) * (en_days e * Day24) /\
            periods (sd_billing d') !! new = Some (Period id userID (Some (en_tier e)) (en_allowance e) (en_allowance e) 0)
        else s' = sub_disable (sb_expires_at s) t s).
Proof.
  intros Ht I Fr. destruct (roll_run userID t d Ht I Fr) as (n & d' & Hrun & _ & [[_ Ha Hl _ _] _ _ _ _] & Hall). exists n, d'. split_and!; [done..|].
  intros id s Hs. destruct (Hall id s Hs) as (s' & Hs' & Hmine & Hother). exists s'. split_and!; [done..| |].
  - intros Hu Hn. destruct (Hmine Hu) as [|? ? Hst|? ? ? ? ? Hst]; [done|congruence..].
  - intros pid p Hu Hst0. destruct (I id s Hs) as (Hc & Hseg & _).
    destruct (Hmine Hu) as [Hst|pid' p' Hst Hdl Hp|pid' p' eid e new Hst Hdl Hp He Hcov Hn Hnew Hm]; [congruence|..];
      rewrite Hst0 in Hst; injection Hst as <- <-; (split; [done|]); rewrite Hdl; [done|].
    pose proof (segment_bounds id s e t Hc (covering_ok _ _ _ _ _ _ Hseg He Hcov) Ht Hcov) as (_ & _ & _ & _ & Hb1 & Hb2 & _).
    assert (Hsb : sb_enabled s = true) by (unfold stale_period in Hst0; by destruct (sb_enabled s)).
    exists eid, e, new, (segment_index e t). unfold segment_period in *.
    replace (en_starts e + (segment_index e t + 1) * (en_days e * Day24)) with (en_starts e + segment_index e t * (en_days e * Day24) + en_days e * Day24) by lia.
    split_and!; try done; lia.
Qed.

Lemma roll_leaves_none userID t d n d' : clock_ok t -> sub_inv d -> fresh_ids (length (stale_subs userID t d)) d ->
  rollBillingSubscriptionsTx userID t d = Ok (n, d') -> stale_subs userID t d' = [].
Proof.
  intros Ht I Fr Hrun0. destruct (roll_run userID t d Ht I Fr) as (n' & d0 & Hrun & I' & R & Hall). rewrite Hrun0 in Hrun. injection Hrun as <- <-.
  apply elem_of_nil_inv. intros [[id pid] x] (s' & p & Hs' & Hu' & Hst' & _)%stale_subs_elem. cbn in *.
  assert (Hs : exists s, sd_subs d !! id = Some s).
  { destruct (decide (id ∈ map (fun v => v.1.1) (stale_subs userID t d))) as [(v & -> & Hv)%list_elem_of_fmap|Hni].
    - apply stale_subs_elem in Hv as (s & ? & Hs & _). eauto.
    - rewrite (re_subs _ _ _ R) in Hs' by done. eauto. }
  destruct Hs as (s & Hs). destruct (Hall id s Hs) as (s1 & Hs1 & Hmine & Hother). assert (s1 = s') as -> by congruence.
  destruct (decide (sb_user s = userID)) as [Hu|Hu]; [|rewrite (Hother Hu) in Hu'; congruence]. destruct (I id s Hs) as (Hc & Hseg & _).
  destruct (Hmine Hu) as [Hst|? ? ? ? ?|? ? eid e new Hst Hdl Hp He Hcov Hn Hnew Hm]; [|done|].
  - rewrite (stale_period_effect _ t _ _ _ _ I R Hs) in Hst'; [congruence|]. intros (v & -> & Hv)%list_elem_of_fmap.
    apply stale_subs_elem in Hv as (s2 & ? & Hs2 & _ & Hst2 & _). congruence.
  - unfold stale_period in Hst'. cbn in Hst'. destruct (sb_enabled s); [|done]. rewrite Hnew in Hst'. cbn in Hst'.
    pose proof (segment_bounds id s e t Hc (covering_ok _ _ _ _ _ _ Hseg He Hcov) Ht Hcov) as (_ & _ & _ & _ & Hb1 & Hb2 & _).
    by replace (segment_period e t + en_days e * Day24 <=? t) with false in Hst' by lia.
Qed.

(** After one roll no subscription of the user has a period that is over,
    so rolling again at the same instant changes nothing at all. *)
Theorem roll_settles userID t d n d' :
  clock_ok t -> sub_inv d -> fresh_ids (length (stale_subs userID t d)) d -> rollBillingSubscriptionsTx userID t d = Ok (n, d') ->
  (forall id s pid p, sd_subs d' !! id = Some s -> sb_user s = userID -> sb_enabled s = true -> sb_current_period s = Some pid ->
    sd_periods d' !! pid = Some p -> t < sp_ends p) /\
  rollBillingSubscriptionsTx userID t d' = Ok (0, d').
Proof.
  intros Ht I Fr Hrun. pose proof (roll_leaves_none _ _ _ _ _ Ht I Fr Hrun) as Hnil. split.
  - intros id s pid p Hs Hu Hen Hpid Hp. destruct (Z_lt_le_dec t (sp_ends p)) as [|Hle]; [done|]. exfalso.
    assert (Hin : (id, pid, sb_expires_at s) ∈ stale_subs userID t d'); [|rewrite Hnil in Hin; by apply elem_of_nil in Hin].
    apply stale_subs_elem. exists s, p. split_and!; try done. unfold stale_period. rewrite Hen, Hpid. cbn. rewrite Hp. cbn. by replace (sp_ends p <=? t) with true by lia.
  - unfold rollBillingSubscriptionsTx, rollBillingEntitlementsTx. by rewrite tgets_bind, Hnil.
Qed.

(** ** Statements that leave the subscriptions alone *)

Definition same_subs (d d' : sub_db) : Prop :=
  sd_subs d' = sd_subs d /\ sd_entitlements d' = sd_entitlements d /\ sd_periods d' = sd_periods d /\ periods (sd_billing d') = periods (sd_billing d).
#[export] Instance same_subs_preorder : PreOrder same_subs.
Proof. split; [by intros d|]. intros a b c (H1 & H2 & H3 & H4) (G1 & G2 & G3 & G4). split_and!; congruence. Qed.
#[export] Hint Extern 0 (PreOrder same_subs) => exact same_subs_preorder : keeps.

Definition same_periods (b b' : billing_db) : Prop := periods b' = periods b.
#[export] Instance same_periods_preorder : PreOrder same_periods.
Proof. split; [by intros b|]. intros a b c H G. unfold same_periods in *. congruence. Qed.
#[export] Hint Extern 0 (PreOrder same_periods) => exact same_periods_preorder : keeps.

Lemma same_in_billing {A} (m : tx billing_db A) : keeps same_periods m -> keeps same_subs (in_billing m).
Proof. intros H d a d' (b' & Hb & ->)%sub_billing_Ok. apply H in Hb. done. Qed.
Lemma same_in_groups {A} (m : tx group_db A) : keeps (fun d d' => periods (gd_billing d') = periods (gd_billing d)) m -> keeps same_subs (in_groups m).
Proof. intros H d a d'. unfold in_groups, tzoom. destruct (m (sd_groups d)) as [[x g]|] eqn:E; [|done]. intros [= <- <-]. by apply H in E. Qed.

Lemma same_insert_ledger op e : keeps same_periods (insert_ledger op e).
Proof. unfold insert_ledger. keeps_tac. by apply keeps_mod. Qed.
#[export] Hint Resolve same_insert_ledger : keeps.
Lemma same_lock userID : keeps same_periods (lockBillingAccountTx userID).
Proof. unfold lockBillingAccountTx, lockNonPendingUserTx. keeps_tac. Qed.
Lemma same_claim_operation p kind target fp c : keeps same_periods (claimBillingOperationTx p kind target fp c).
Proof. unfold claimBillingOperationTx. keeps_tac. by apply keeps_mod. Qed.
Lemma same_finish_operation op id : keeps same_periods (finishBillingOperationTx op id).
Proof. unfold finishBillingOperationTx. keeps_tac. by apply keeps_mod. Qed.
Lemma same_replay id : keeps same_periods (replayBillingLedgerTx id).
Proof. unfold replayBillingLedgerTx. keeps_tac. Qed.
Lemma same_operation_entry op e : keeps same_periods (insert_operation_entry op e).
Proof. unfold insert_operation_entry. keeps_tac. Qed.
Lemma same_billing_audit session_of inet_ok p t st si m : keeps same_periods (appendBillingAuditTx session_of inet_ok p t st si m).
Proof. unfold appendBillingAuditTx. keeps_tac. by apply keeps_mod. Qed.
#[export] Hint Resolve same_in_billing same_lock same_claim_operation same_finish_operation same_replay same_operation_entry same_billing_audit : keeps.

Lemma same_newUUID : keeps same_subs (in_groups newUUID).
Proof. apply same_in_groups. intros d a d'. unfold newUUID. destruct (gd_random d); [done|]. by intros [= _ <-]. Qed.
Lemma same_validate models : keeps same_subs (in_groups (validateBillingModelsTx models)).
Proof. apply same_in_groups. intros d a d'. unfold validateBillingModelsTx. rewrite tgets_bind. by intros [_ ->]%tguard_Ok. Qed.
Lemma same_numeric op s : keeps same_subs (sub_numeric op s).
Proof. unfold sub_numeric. keeps_tac. Qed.
Lemma same_next_version : keeps same_subs next_config_version.
Proof. unfold next_config_version. keeps_tac. by apply keeps_mod. Qed.
Lemma same_read userID id t : keeps same_subs (readBillingSubscriptionStateTx userID id t).
Proof. unfold readBillingSubscriptionStateTx. keeps_tac. Qed.
Lemma same_record_operation op userID p kind amount x : keeps same_subs (record_sub_operation op userID p kind amount x).
Proof. unfold record_sub_operation. keeps_tac; by apply keeps_mod. Qed.
Lemma same_operation_state id entry enabled : keeps same_subs (subscriptionOperationStateTx id entry enabled).
Proof. unfold subscriptionOperationStateTx. keeps_tac. Qed.
#[export] Hint Resolve same_newUUID same_validate same_numeric same_next_version same_read same_record_operation same_operation_state : keeps.

(** The foreign keys: a segment has its subscription, a current period is one
    of the subscription's own. *)
Definition own_period (d : sub_db) (id : string) (s : subscription_row) : Prop :=
  forall pid, sb_current_period s = Some pid -> exists m, periods (sd_billing d) !! pid = Some m /\ period_subscription m = id.
Definition owned (d : sub_db) : Prop := forall eid e, sd_entitlements d !! eid = Some e -> is_Some (sd_subs d !! en_subscription e).
Definition subs_consistent (d : sub_db) : Prop := sub_inv d /\ owned d /\ map_Forall (own_period d) (sd_subs d).

Lemma sub_ok_same d d' id s : same_subs d d' -> sub_ok d id s -> sub_ok d' id s.
Proof.
  intros (H1 & H2 & H3 & H4) (Hc & Hseg & Hcur). unfold sub_ok, segments_ok. rewrite H2. split_and!; [done..|]. intros Hen.
  destruct (Hcur Hen) as (pid & p & m & []). exists pid, p, m. split; rewrite ?H2, ?H3, ?H4; auto.
Qed.
Lemma consistent_same d d' : same_subs d d' -> subs_consistent d -> subs_consistent d'.
Proof.
  intros R (I & O & P). pose proof R as (H1 & H2 & _ & H4). split_and!; [|unfold owned; by rewrite H1, H2|].
  2: { intros id s. rewrite H1. intros Hs pid Hpid. rewrite H4. by eapply P. }
  intros id s. rewrite H1. intros Hs. eapply sub_ok_same; [done|by apply I].
Qed.

(** What a subscription's own statements leave of the others. *)
Record others_kept (id : string) (d d' : sub_db) : Prop := {
  ok_subs : forall i, i <> id -> sd_subs d' !! i = sd_subs d !! i;
  ok_segments : forall eid e, sd_entitlements d !! eid = Some e -> en_subscription e <> id -> sd_entitlements d' !! eid = Some e;
  ok_segments_back : forall eid e, sd_entitlements d' !! eid = Some e -> en_subscription e <> id -> sd_entitlements d !! eid = Some e;
  ok_money : forall pid m, periods (sd_billing d) !! pid = Some m -> periods (sd_billing d') !! pid = Some m;
  ok_periods : forall pid p m, sd_periods d !! pid = Some p -> periods (sd_billing d) !! pid = Some m -> period_subscription m <> id ->
    sd_periods d' !! pid = Some p;
}.
#[export] Instance others_kept_preorder id : PreOrder (others_kept id).
Proof.
  split; [by intros d|]. intros a b c [A1 A2 A3 A4 A5] [B1 B2 B3 B4 B5]. split; eauto. intros i Hi. rewrite B1, A1 by done. done.
Qed.
Lemma others_same id d d' : same_subs d d' -> others_kept id d d'.
Proof. intros (H1 & H2 & H3 & H4). split; rewrite ?H1, ?H2, ?H3, ?H4; auto. Qed.

Lemma sub_ok_others id d d' i s : others_kept id d d' -> i <> id -> sub_ok d i s -> sub_ok d' i s.
Proof.
  intros [K1 K2 K3 K4 K5] Hi (Hc & Hseg & Hcur). split_and!; [done| |].
  - intros eid e He Hsub. eapply Hseg; [|done]. apply K3; [done|congruence].
  - intros Hen. destruct (Hcur Hen) as (pid & p & m & [H1 H2 H3 H4 [H5 H5'] H6 H7 H8]). exists pid, p, m. split; eauto.
    + eapply K5; eauto. congruence.
    + intros t Ht Hd. destruct (H8 t Ht Hd) as (eid & e & He & Hcov). exists eid, e. split; [|done]. apply K2; [done|].
      unfold covers in Hcov. rewrite !andb_true_iff, bool_decide_eq_true in Hcov. destruct Hcov as [[[-> _] _] _]. done.
Qed.

(** A write to one subscription keeps the tables consistent when that
    subscription is consistent afterwards. *)
Lemma consistent_others id d d' s' : subs_consistent d -> others_kept id d d' -> sd_subs d' !! id = Some s' -> sub_ok d' id s' ->
  own_period d' id s' -> subs_consistent d'.
Proof.
  intros (I & O & P) K Hs Hok Hp. split_and!.
  - intros i s Hi. destruct (decide (i = id)) as [->|Hne]; [congruence|]. eapply sub_ok_others; [done..|]. apply I. by rewrite <- (ok_subs _ _ _ K).
  - intros eid e He. destruct (decide (en_subscription e = id)) as [->|Hne]; [eauto|]. rewrite (ok_subs _ _ _ K) by done. eapply O, (ok_segments_back _ _ _ K); eauto.
  - intros i s Hi. destruct (decide (i = id)) as [->|Hne]; [by assert (s = s') as -> by congruence|]. rewrite (ok_subs _ _ _ K) in Hi by done. intros pid Hpid.
    destruct (P i s Hi pid Hpid) as (m & Hm & E). exists m. split; [by apply (ok_money _ _ _ K)|done].
Qed.

Lemma expiry_Ok start days count e : billingExpiryDays start days count = Ok e ->
  sub_time start /\ 1 <= days <= 3650 /\ 1 <= count <= max_int32 /\ e = start + days * count * Day24 /\ e < year10000.
Proof.
  intros H. assert (Hc : sub_time start /\ 1 <= days <= 3650 /\ 1 <= count <= max_int32).
  { unfold billingExpiryDays in H. destruct ((days <? 1) || _ || _ || _ || _ || _) eqn:E; [done|]. rewrite !orb_false_iff in E.
    assert (1 <= Year start <= 9999) as HY by lia. apply Year_range in HY. unfold sub_time. lia. }
  destruct Hc as (H1 & H2 & H3). rewrite expiry_days_eq in H by done. destruct (Z.ltb_spec (start + days * count * Day24) year10000); [|done].
  injection H as <-. done.
Qed.

(** ** Opening *)

Definition live_of (id : string) (d : sub_db) : Prop := forall eid e, sd_entitlements d !! eid = Some e -> en_subscription e = id -> en_superseded e <> None.

Lemma supersede_keys id t e : en_subscription (supersede id t e) = en_subscription e.
Proof. unfold supersede. by destruct (_ && _). Qed.

Lemma retire_Ok userID id t d u d' : subs_consistent d -> retire_previous userID id t d = Ok (u, d') ->
  others_kept id d d' /\ live_of id d' /\ sd_subs d' = sd_subs d /\ (exists s, sd_subs d !! id = Some s /\ sb_user s = userID) /\ periods (sd_billing d') = periods (sd_billing d) /\
  (forall q, sd_periods d' !! q = None -> sd_periods d !! q = None).
Proof.
  intros (I & O & P) H. unfold retire_previous in H. rewrite tgets_bind in H. apply tbind_Ok in H as (s & d0 & [Hs ->]%tsome_Ok & H).
  apply tbind_Ok in H as (x & d1 & Hx & H). destruct (bool_decide_reflect (sb_user s = userID)) as [Hu|]; [|done]. injection Hx as _ <-.
  rewrite tguard_bind in H. match type of H with (if ?b then _ else _) = _ => destruct b end; [|done]. apply tbind_Ok in H as (x' & d1 & Hclose & H).
  assert (C : d1 = d \/ exists pid p, sb_current_period s = Some pid /\ sd_periods d !! pid = Some p /\ sp_closed p = None /\
    d1 = set_sub_periods (<[pid := closed_period t "modified" p]> (sd_periods d)) d).
  { destruct (sb_current_period s) as [pid|]; [|injection Hclose as _ <-; by left]. apply tbind_Ok in Hclose as (n & d2 & Hc & [= _ <-]).
    apply close_Ok in Hc as [->|(p & Hp & Ho & _ & ->)]; [by left|right; eauto 10]. }
  injection H as _ <-. set (d2 := set_entitlements _ d1).
  assert (E2 : sd_entitlements d2 = supersede id t <$> sd_entitlements d) by (unfold d2; destruct C as [->|(? & ? & _ & _ & _ & ->)]; done).
  assert (S2 : sd_subs d2 = sd_subs d) by (unfold d2; destruct C as [->|(? & ? & _ & _ & _ & ->)]; done).
  assert (M2 : periods (sd_billing d2) = periods (sd_billing d)) by (unfold d2; destruct C as [->|(? & ? & _ & _ & _ & ->)]; done).
  assert (Hsup : forall e, en_subscription e <> id -> supersede id t e = e) by (intros e He; unfold supersede; by rewrite bool_decide_false).
  split_and!; [split| |done|eauto|done|].
  - by rewrite S2.
  - intros eid e He Hne. rewrite E2, lookup_fmap, He. cbn. by rewrite Hsup.
  - intros eid e He Hne. rewrite E2, lookup_fmap in He. destruct (sd_entitlements d !! eid) as [e0|]; [|done]. injection He as <-.
    rewrite supersede_keys in Hne. by rewrite Hsup.
  - by rewrite M2.
  - intros pid p m Hp Hm Hne. unfold d2. stables. destruct C as [->|(pid' & p' & Hc & Hp' & Ho & ->)]; [done|]. stables.
    rewrite lookup_insert_ne; [done|]. intros ->. destruct (P id s Hs pid Hc) as (m' & Hm' & E). congruence.
  - intros eid e He Hsub. rewrite E2, lookup_fmap in He. destruct (sd_entitlements d !! eid) as [e0|]; [|done]. injection He as <-.
    rewrite supersede_keys in Hsub. unfold supersede. rewrite bool_decide_true by done. by destruct (en_superseded e0) eqn:E; cbn; rewrite ?E.
  - intros q. unfold d2. stables. destruct C as [->|(? & ? & _ & _ & _ & ->)]; [done|]. stables. by intros [? _]%lookup_insert_None.
Qed.

(** The end of a term of [count] periods, zero meaning forever. *)
Definition term_of (start days count : Z) : option Z := if 0 <? count then Some (start + days * count * Day24) else None.

Lemma term_Ok {A} start days count (k : option Z -> tx sub_db A) d r :
  tbind (if 0 <? count then let* e := tlift (billingExpiryDays start days count) in tret (Some e) else tret None) k d = Ok r ->
  k (term_of start days count) d = Ok r /\ (0 < count -> sub_time start /\ start + days * count * Day24 < year10000).
Proof.
  unfold term_of. destruct (Z.ltb_spec 0 count).
  - destruct r as [x d']. intros (o & d1 & Ho & Hk)%tbind_Ok. apply tbind_Ok in Ho as (e & d2 & [He ->]%tlift_Ok & [= <- <-]).
    apply expiry_Ok in He as (H1 & _ & _ & -> & H2). done.
  - rewrite tret_bind. split; [done|lia].
Qed.

Lemma insert_entitlement_Ok userID id start tier days count first allowance models plan t d eid end_ d' :
  insertBillingEntitlementTx userID id start tier days count first allowance models plan t d = Ok ((eid, end_), d') ->
  exists n e, numeric_of allowance = Some n /\ end_ = term_of start days count /\
    (0 < count -> sub_time start /\ start + days * count * Day24 < year10000) /\
    e = {| en_subscription := id; en_user := userID; en_starts := start; en_ends := end_; en_tier := tier; en_days := days; en_allowance := n; en_models := models;
           en_count := count; en_first := first; en_plan := plan; en_superseded := None; en_created := t |} /\
    entitlement_check e = true /\ sd_entitlements d !! eid = None /\ sd_entitlements d' = <[eid := e]> (sd_entitlements d) /\
    sd_subs d' = sd_subs d /\ sd_periods d' = sd_periods d /\ periods (sd_billing d') = periods (sd_billing d).
Proof.
  unfold insertBillingEntitlementTx. intros [H Hterm]%term_Ok. apply tbind_Ok in H as (n & d1 & Hn & H). unfold sub_numeric in Hn.
  destruct (numeric_of allowance) as [n'|] eqn:En; [|done]. injection Hn as -> ->. cbv zeta in H. rewrite tguard_bind in H.
  destruct (entitlement_check _) eqn:Ec; [|done]. apply tbind_Ok in H as (x & d2 & Hx & H). apply same_newUUID in Hx as (S1 & S2 & S3 & S4).
  rewrite tgets_bind, tguard_bind in H. destruct (bool_decide_reflect (sd_entitlements d2 !! x = None)) as [Hnone|]; [|done]. rewrite tguard_bind in H.
  match type of H with (if ?b then _ else _) = _ => destruct b end; [|done]. rewrite tmod_bind in H. unfold tret in H. injection H as <- <- <-. do 2 eexists. split_and!; try done.
  - by rewrite <- S2. - stables. by rewrite S2.
Qed.

Lemma insert_sub_period_Ok op pid id userID tier n p d u d' : insert_sub_period op pid id userID tier n p d = Ok (u, d') ->
  sub_period_check tier n p = true /\ sd_periods d !! pid = None /\ periods (sd_billing d) !! pid = None /\
  sd_periods d' = <[pid := p]> (sd_periods d) /\ periods (sd_billing d') = <[pid := Period id userID (Some tier) n n 0]> (periods (sd_billing d)) /\
  sd_subs d' = sd_subs d /\ sd_entitlements d' = sd_entitlements d.
Proof.
  unfold insert_sub_period. rewrite tguard_bind. destruct (sub_period_check tier n p) eqn:Ec; [|done]. rewrite tgets_bind, tguard_bind.
  destruct (bool_decide_reflect (sd_periods d !! pid = None)) as [H1|]; [|done]. destruct (bool_decide_reflect (periods (sd_billing d) !! pid = None)) as [H2|]; [|done].
  cbn [andb]. rewrite tguard_bind. destruct (bool_decide _ && bool_decide _); [|done]. rewrite tmod_bind. intros (b' & [= _ <-] & ->)%sub_billing_Ok. done.
Qed.

Lemma others_insert_segment id d d' eid e : sd_subs d' = sd_subs d -> sd_periods d' = sd_periods d -> periods (sd_billing d') = periods (sd_billing d) ->
  sd_entitlements d !! eid = None -> sd_entitlements d' = <[eid := e]> (sd_entitlements d) -> en_subscription e = id -> others_kept id d d'.
Proof.
  intros H1 H2 H3 Hn H4 He. split; rewrite ?H1, ?H2, ?H3, ?H4; auto.
  - intros i x Hx Hi. rewrite lookup_insert_ne by congruence. done.
  - intros i x [[<- <-]|[_ ?]]%lookup_insert_Some Hi; done.
Qed.

Lemma others_insert_period id d d' pid p userID tier n : sd_subs d' = sd_subs d -> sd_entitlements d' = sd_entitlements d -> sd_periods d !! pid = None ->
  periods (sd_billing d) !! pid = None -> sd_periods d' = <[pid := p]> (sd_periods d) ->
  periods (sd_billing d') = <[pid := Period id userID tier n n 0]> (periods (sd_billing d)) -> others_kept id d d'.
Proof.
  intros H1 H2 Hn Hn' H3 H4. split; rewrite ?H1, ?H2, ?H3, ?H4; auto.
  - intros q x Hq. rewrite lookup_insert_ne by congruence. done.
  - intros q x m Hq Hm _. rewrite lookup_insert_ne by congruence. done.
Qed.

Lemma others_update id d s : others_kept id d (set_subs (<[id := s]> (sd_subs d)) d).
Proof. split; stables; auto. intros i Hi. by rewrite lookup_insert_ne. Qed.

(** The subscription to open, with its previous life retired. *)
Lemma reopen_target p t d id d' : subs_consistent d ->
  (if empty (pp_SubscriptionID p) then in_groups newUUID else retire_previous (pp_UserID p) (pp_SubscriptionID p) t ;; tret (pp_SubscriptionID p)) d = Ok (id, d') ->
  others_kept id d d' /\ sd_subs d' = sd_subs d /\ periods (sd_billing d') = periods (sd_billing d) /\
  (forall q, sd_periods d' !! q = None -> sd_periods d !! q = None) /\
  (if empty (pp_SubscriptionID p) then pp_SubscriptionID p = "" else
     id = pp_SubscriptionID p /\ live_of id d' /\ exists s, sd_subs d !! id = Some s /\ sb_user s = pp_UserID p).
Proof.
  intros C H. destruct (empty (pp_SubscriptionID p)) eqn:E.
  - apply same_newUUID in H as S. pose proof S as (S1 & S2 & S3 & S4). split_and!; [by apply others_same|done|done|by rewrite S3|]. by apply bool_decide_eq_true in E.
  - apply tbind_Ok in H as (u & d1 & Hr & [= <- <-]). pose proof (retire_Ok _ _ _ _ _ _ C Hr) as (K & L & HS & HU & HM & HD). by split_and!.
Qed.

(** A new row exists before its first segment. *)
Lemma create_row_Ok p allowance id expires d u d' :
  (if empty (pp_SubscriptionID p) then
     let* n := sub_numeric "create billing subscription" allowance in
     let* version := next_config_version in
     insert_subscription id (new_subscription p n expires version)
   else tret tt) d = Ok (u, d') ->
  others_kept id d d' /\ sd_entitlements d' = sd_entitlements d /\ sd_periods d' = sd_periods d /\ periods (sd_billing d') = periods (sd_billing d) /\
  if empty (pp_SubscriptionID p) then sd_subs d !! id = None /\ exists s, sd_subs d' !! id = Some s /\ sb_user s = pp_UserID p else d' = d.
Proof.
  destruct (empty (pp_SubscriptionID p)); [|by intros [= _ <-]]. intros (n & d1 & H1 & H)%tbind_Ok. apply same_numeric in H1.
  apply tbind_Ok in H as (v & d2 & H2 & H). apply same_next_version in H2. assert (S : same_subs d d2) by by transitivity d1. clear H1 H2.
  pose proof S as (S1 & S2 & S3 & S4). unfold insert_subscription in H. rewrite tguard_bind in H. destruct (subscription_check _); [|done].
  rewrite tgets_bind, tguard_bind in H. destruct (bool_decide_reflect (sd_subs d2 !! id = None)) as [Hn|]; [|done]. rewrite tguard_bind in H.
  destruct (bool_decide _); [|done]. injection H as _ <-. rewrite S1 in *. split_and!; try done.
  - transitivity d2; [by apply others_same|]. rewrite <- S1. apply others_update.
  - stables. eexists. split; [apply lookup_insert_eq|done].
Qed.

Definition opened_segment (p : PutSubscriptionParams) (n : Z) (plan : option BillingPlan) (id : string) : entitlement_row :=
  {| en_subscription := id; en_user := pp_UserID p; en_starts := At (pp_write p);
     en_ends := term_of (At (pp_write p)) (pp_PeriodDays p) (pp_PeriodCount p); en_tier := pp_Tier p; en_days := pp_PeriodDays p; en_allowance := n;
     en_models := pp_ModelIDs p; en_count := pp_PeriodCount p; en_first := 1; en_plan := plan; en_superseded := None; en_created := At (pp_write p) |}.
Definition opened_period (p : PutSubscriptionParams) (eid : string) : sub_period :=
  SubPeriod (At (pp_write p)) (At (pp_write p) + pp_PeriodDays p * Day24) 1 (pp_PeriodCount p) (pp_PeriodDays p) eid None (At (pp_write p)).

(** What opening a subscription leaves behind: one live segment from now to the
    end of the term, and its first period with the full allowance. *)
Record reopened (p : PutSubscriptionParams) (n : Z) (plan : option BillingPlan) (id eid pid : string) (d d' : sub_db) : Prop := {
  ro_others : others_kept id d d';
  ro_target : if empty (pp_SubscriptionID p) then sd_subs d !! id = None else id = pp_SubscriptionID p /\ exists s, sd_subs d !! id = Some s /\ sb_user s = pp_UserID p;
  ro_row : exists s0 version, sd_subs d' !! id = Some (sub_reopen p n (term_of (At (pp_write p)) (pp_PeriodDays p) (pp_PeriodCount p)) pid plan version s0) /\
    sb_user s0 = pp_UserID p /\ subscription_check (sub_reopen p n (term_of (At (pp_write p)) (pp_PeriodDays p) (pp_PeriodCount p)) pid plan version s0) = true;
  ro_segment : sd_entitlements d' !! eid = Some (opened_segment p n plan id) /\ entitlement_check (opened_segment p n plan id) = true;
  ro_only : forall i e, sd_entitlements d' !! i = Some e -> en_subscription e = id -> en_superseded e = None -> i = eid;
  ro_period : sd_periods d !! pid = None /\ sd_periods d' !! pid = Some (opened_period p eid);
  ro_money : periods (sd_billing d') !! pid = Some (Period id (pp_UserID p) (Some (pp_Tier p)) n n 0);
  ro_time : sub_time (At (pp_write p)) /\ (0 < pp_PeriodCount p -> At (pp_write p) + pp_PeriodDays p * pp_PeriodCount p * Day24 < year10000);
}.

Lemma reopen_Ok p allowance plan d st d' : subs_consistent d -> reopenBillingSubscriptionTx p allowance plan d = Ok (st, d') ->
  exists n id eid pid, numeric_of allowance = Some n /\ reopened p n plan id eid pid d d' /\ ss_ID st = id.
Proof.
  intros C H. unfold reopenBillingSubscriptionTx in H. cbv zeta in H. apply tbind_Ok in H as (? & d1 & H1 & H). apply same_validate in H1.
  pose proof (consistent_same _ _ H1 C) as C1. apply tbind_Ok in H as (id & d2 & H2 & H). pose proof (reopen_target _ _ _ _ _ C1 H2) as (K2 & S2 & M2 & D2 & T2).
  apply term_Ok in H as [H Hterm]. apply tbind_Ok in H as (? & d3 & H3 & H). apply create_row_Ok in H3 as (K3 & E3 & P3 & M3 & T3).
  apply tbind_Ok in H as ([eid end_] & d4 & H4 & H). apply insert_entitlement_Ok in H4 as (n & e & Hn & -> & _ & He & Hec & Hfresh & E4 & S4 & P4 & M4).
  apply tbind_Ok in H as (pid & d5 & H5 & H). apply same_newUUID in H5 as Q5. pose proof Q5 as (S5 & E5 & P5 & M5).
  apply tbind_Ok in H as (pend & d5' & [H6 ->]%tlift_Ok & H). apply expiry_Ok in H6 as (Hst & Hdays & _ & -> & _).
  apply tbind_Ok in H as (n' & d5' & H7 & H). unfold sub_numeric in H7. rewrite Hn in H7. injection H7 as <- <-.
  apply tbind_Ok in H as (? & d6 & H8 & H). apply insert_sub_period_Ok in H8 as (Hpc & Hp6 & Hm6 & P6 & M6 & S6 & E6).
  apply tbind_Ok in H as (version & d7 & H9 & H). apply same_next_version in H9 as Q7. pose proof Q7 as (S7 & E7 & P7 & M7).
  apply tbind_Ok in H as (? & d8 & H10 & H). apply same_read in H as Q9. pose proof Q9 as (S9 & E9 & P9 & M9).
  assert (Hrow : exists s0, sd_subs d7 !! id = Some s0 /\ sb_user s0 = pp_UserID p).
  { rewrite S7, S6, S5, S4. destruct (empty (pp_SubscriptionID p)); [by destruct T3|]. subst d3. rewrite S2. destruct T2 as (_ & _ & s & ? & ?). eauto. }
  destruct Hrow as (s0 & Hs0 & Hu0). apply update_sub_Ok in H10 as [[? _]|(s0' & Hs0' & Hck & ->)]; [congruence|]. assert (s0' = s0) as -> by congruence. stables.
  assert (Hlive : live_of id d2).
  { destruct (empty (pp_SubscriptionID p)); [|by destruct T2 as (_ & ? & _)]. destruct T3 as [T3 _]. rewrite S2 in T3. intros i y Hy Hi. exfalso.
    apply same_newUUID in H2 as (_ & R2 & _). rewrite R2 in Hy. destruct C1 as (_ & O & _). apply O in Hy as [? Hy]. congruence. }
  exists n, id, eid, pid. split; [done|]. replace (At (pp_write p) + pp_PeriodDays p * 1 * Day24) with (At (pp_write p) + pp_PeriodDays p * Day24) in * by lia. split.
  - split.
    + transitivity d1; [by apply others_same|]. transitivity d2; [done|]. transitivity d3; [done|]. transitivity d4; [eapply others_insert_segment; [done..|by subst e]|].
      transitivity d5; [by apply others_same|]. transitivity d6; [by eapply others_insert_period|]. transitivity d7; [by apply others_same|].
      etransitivity; [apply others_update|by apply others_same].
    + destruct H1 as (R1 & _). destruct (empty (pp_SubscriptionID p)); [destruct T3 as [T3 _]; congruence|]. destruct T2 as (-> & _ & s & Hs & ?). rewrite R1 in Hs. eauto.
    + exists s0, version. rewrite S9. split_and!; [apply lookup_insert_eq|done..].
    + rewrite E9, E7, E6, E5, E4. subst e. split; [apply lookup_insert_eq|done].
    + intros i y Hy Hi Hl. rewrite E9, E7, E6, E5, E4, E3 in Hy. apply lookup_insert_Some in Hy as [[<- _]|[_ Hy]]; [done|]. exfalso. by eapply Hlive.
    + rewrite P9, P7, P6. split; [|apply lookup_insert_eq]. rewrite P5, P4, P3 in Hp6. destruct H1 as (_ & _ & R3 & _). rewrite <- R3. by apply D2.
    + rewrite M9. unfold sd_billing in *. stables. rewrite M7, M6. apply lookup_insert_eq.
    + split; [done|]. intros Hc. by apply Hterm.
  - unfold readBillingSubscriptionStateTx in H. rewrite tgets_bind in H. apply tbind_Ok in H as (? & ? & _ & H). destruct (bool_decide _); [|done]. by injection H as <- _.
Qed.

(** ** The operations keep the tables consistent *)

Lemma reopened_consistent p n plan id eid pid d d' : subs_consistent d -> pp_ModelIDs p <> [] -> reopened p n plan id eid pid d d' -> subs_consistent d'.
Proof.
  intros C Hmodels [K _ (s0 & version & Hrow & Hu & Hck) [He Hec] Honly [_ Hp] Hm [Ht Hterm]]. set (s := sub_reopen _ _ _ _ _ _ _) in *.
  eapply (consistent_others id d d'); [done..| |].
  - split_and!; [done| |].
    + intros i e Hi Hsub Hlive. rewrite (Honly i e Hi Hsub Hlive), He in Hi. injection Hi as <-. split_and!; [done..|]. cbn [en_ends opened_segment].
      pose proof Hec as Hcount. unfold entitlement_check in Hcount. rewrite !andb_true_iff in Hcount. destruct Hcount as [_ Hcount]. cbn in Hcount.
      unfold term_of in *. destruct (Z.ltb_spec 0 (pp_PeriodCount p)); cbn in *; [|apply Z.eqb_eq in Hcount; by split]. split_and!; [lia|auto|lia].
    + intros _. exists pid, (opened_period p eid). eexists. split; [done|done|done|done|by cbn; rewrite Hu|..].
      * cbn. pose proof (entitlement_check_facts _ Hec) as (_ & Hd & _). cbn in Hd. unfold Day24, Hour, Minute, Second. lia.
      * cbn. unfold term_of. destruct (Z.ltb_spec 0 (pp_PeriodCount p)); [|done]. cbn. apply Z.ltb_lt.
        pose proof (entitlement_check_facts _ Hec) as (_ & Hd & _). cbn in Hd. unfold Day24, Hour, Minute, Second. nia.
      * intros t Hge Hdl. exists eid. eexists. split; [done|]. cbn in Hge, Hdl. unfold covers. cbn. rewrite bool_decide_true by done. apply Z.leb_le in Hge. by rewrite Hge, Hdl.
  - intros q [= <-]. eexists. split; [done|done].
Qed.

(** Closing the current period of a subscription. *)
Lemma close_own op d id s pid f reason b n d' : subs_consistent d -> sd_subs d !! id = Some s -> sb_current_period s = Some pid ->
  close_sub_period op pid f reason b d = Ok (n, d') ->
  others_kept id d d' /\ sd_subs d' = sd_subs d /\ sd_entitlements d' = sd_entitlements d /\ periods (sd_billing d') = periods (sd_billing d).
Proof.
  intros (_ & _ & P) Hs Hpid [->|(p & Hp & _ & _ & ->)]%close_Ok; [by split_and!|]. split_and!; try done. split; stables; auto.
  intros q x m Hq Hm Hne. rewrite lookup_insert_ne; [done|]. intros <-. destruct (P id s Hs pid Hpid) as (m' & Hm' & E). unfold sd_billing in *. stables. congruence.
Qed.

(** A disabled subscription only has to keep its configuration. *)
Lemma disabled_consistent id d d1 d' s s' : subs_consistent d -> sd_subs d !! id = Some s -> others_kept id d d1 ->
  sd_entitlements d1 = sd_entitlements d -> periods (sd_billing d1) = periods (sd_billing d) -> same_subs (set_subs (<[id := s']> (sd_subs d1)) d1) d' ->
  subscription_check s' = true -> sb_enabled s' = false -> sb_models_initialized s' = sb_models_initialized s -> sb_period_count s' = sb_period_count s ->
  sb_current_period s' = sb_current_period s -> subs_consistent d'.
Proof.
  intros C Hs K E M S Hc Hen Hmi Hpc Hcp. eapply consistent_same; [exact S|]. eapply (consistent_others id d); [done|..].
  - transitivity d1; [done|apply others_update].
  - stables. apply lookup_insert_eq.
  - destruct C as (I & _). destruct (I id s Hs) as (_ & Hseg & _). split_and!; [done| |by rewrite Hen].
    intros i e He Hsub Hl. stables. rewrite E in He. pose proof (Hseg i e He Hsub Hl) as Hok. unfold segment_ok in *. by rewrite Hmi, Hpc.
  - destruct C as (_ & _ & P). intros pid. rewrite Hcp. intros Hpid. destruct (P id s Hs pid Hpid) as (m & Hm & Eo). exists m. unfold sd_billing in *. stables. by rewrite M.
Qed.

Lemma expire_one_consistent t id x pid y d u d' s : subs_consistent d -> sd_subs d !! id = Some s -> sb_current_period s = Some pid ->
  expire_one t (id, x, pid, y) d = Ok (u, d') ->
  subs_consistent d' /\ (forall i, i <> id -> sd_subs d' !! i = sd_subs d !! i) /\ exists s', sd_subs d' !! id = Some s' /\ sb_enabled s' = false /\
    (sb_enabled s = true -> s' = sub_disable (sb_expires_at s) t s).
Proof.
  intros C Hs Hpid H. unfold expire_one in H. cbv zeta in H. apply tbind_Ok in H as (n & d1 & H1 & H).
  pose proof (close_own _ _ _ _ _ _ _ _ _ _ C Hs Hpid H1) as (K & S1 & E1 & M1). rewrite tgets_bind, S1, Hs in H. destruct (sb_enabled s) eqn:Een.
  - apply update_sub_Ok in H as [[? _]|(s' & Hs' & Hck & ->)]; [congruence|]. assert (s' = s) as -> by congruence. split_and!.
    + eapply (disabled_consistent id d d1); [done|done|done|done|done|reflexivity|done..].
    + intros i Hi. stables. rewrite lookup_insert_ne by done. by rewrite S1.
    + stables. eexists. split; [apply lookup_insert_eq|]. done.
  - injection H as _ <-. split_and!; [|by rewrite S1|rewrite S1; by exists s].
    eapply (consistent_others id d d1); [done..|by rewrite S1| |].
    + destruct C as (I & _). destruct (I id s Hs) as (Hc & Hseg & _). split_and!; [done| |by rewrite Een]. intros i e. rewrite E1. apply Hseg.
    + destruct C as (_ & _ & P). intros q Hq. rewrite M1. by eapply P.
Qed.

(** ** Expiry is complete *)

Definition expire_row (t : Z) (s : subscription_row) : subscription_row := if expired_sub t s then sub_disable (sb_expires_at s) t s else s.

(** A row of [expired_subs]. *)
Definition expired_row (userID : string) (t : Z) (d : sub_db) (v : string * Z * string * Z) : Prop :=
  exists s p, sd_subs d !! v.1.1.1 = Some s /\ sb_user s = userID /\ expired_sub t s = true /\ sb_expires_at s = Some v.1.1.2 /\
    sb_current_period s = Some v.1.2 /\ sd_periods d !! v.1.2 = Some p /\ v.2 = sp_ends p.

Lemma expired_facts t s : expired_sub t s = true -> sb_enabled s = true /\ exists x, sb_expires_at s = Some x /\ x <= t.
Proof. unfold expired_sub. rewrite !andb_true_iff. intros [[? _] Hx]. split; [done|]. destruct (sb_expires_at s) as [x|]; [|done]. exists x. split; [done|lia]. Qed.

Lemma expire_one_run userID t v d : subs_consistent d -> expired_row userID t d v -> exists d', expire_one t v d = Ok (tt, d') /\
  subs_consistent d' /\ (forall i, i <> v.1.1.1 -> sd_subs d' !! i = sd_subs d !! i) /\ sd_subs d' !! v.1.1.1 = expire_row t <$> sd_subs d !! v.1.1.1 /\
  others_kept v.1.1.1 d d' /\ users (sd_billing d') = users (sd_billing d) /\ billing_accounts (sd_billing d') = billing_accounts (sd_billing d).
Proof.
  intros C (s & p & Hs & Hu & Hexp & Hx & Hpid & Hp & Hy). destruct v as [[[id x] pid] y]. cbn in *. subst y. pose proof (expired_facts _ _ Hexp) as (Hen & _).
  destruct C as (I & O & P) eqn:EC. clear EC. destruct (I id s Hs) as (Hc & Hseg & Hcur). destruct (Hcur Hen) as (q & p' & m & [H1 H2 H3 H4 [H5 _] H6 H7 H8]).
  assert (q = pid) as -> by congruence. assert (p' = p) as -> by congruence. rewrite Hx in H7. cbn in H7. apply Z.ltb_lt in H7.
  assert (Hrun : exists d', expire_one t (id, x, pid, sp_ends p) d = Ok (tt, d') /\ users (sd_billing d') = users (sd_billing d) /\
    billing_accounts (sd_billing d') = billing_accounts (sd_billing d) /\ others_kept id d d').
  { unfold expire_one. cbv zeta. erewrite tbind_run; [|apply (close_run _ d pid p); [done..|]; destruct (Z.ltb_spec x (sp_ends p)); lia].
    rewrite tgets_bind. stables. rewrite Hs, Hen. eexists. split; [apply (update_sub_run _ _ id (fun s => sub_disable (sb_expires_at s) t s) s); stables; [done|]|].
    - apply disable_check; [done|congruence].
    - split_and!; try done. etransitivity; [|apply others_update]. split; stables; auto. intros q x' m' Hq Hm' Hne. rewrite lookup_insert_ne; [done|]. congruence. }
  destruct Hrun as (d' & Hrun & Hu1 & Hu2 & K). exists d'. destruct (expire_one_consistent t id x pid (sp_ends p) d tt d' s (conj I (conj O P)) Hs Hpid Hrun) as (C' & Hoth & s' & Hs' & _ & Hd).
  split_and!; try done. rewrite Hs, Hs'. cbn. unfold expire_row. by rewrite Hexp, (Hd Hen).
Qed.

Lemma expired_row_kept userID t id d d' v : others_kept id d d' -> subs_consistent d -> v.1.1.1 <> id -> expired_row userID t d v -> expired_row userID t d' v.
Proof.
  intros [K1 _ _ K4 K5] (_ & _ & P) Hne (s & p & Hs & Hu & Hexp & Hx & Hpid & Hp & Hy). exists s, p. split_and!; try done; [by rewrite K1|].
  destruct (P _ _ Hs _ Hpid) as (m & Hm & E). eapply K5; eauto. congruence.
Qed.

Lemma expire_each_run userID t l : forall d, subs_consistent d -> NoDup (map (fun v => v.1.1.1) l) -> Forall (expired_row userID t d) l ->
  exists d', expire_each t l d = Ok (tt, d') /\ subs_consistent d' /\
    users (sd_billing d') = users (sd_billing d) /\ billing_accounts (sd_billing d') = billing_accounts (sd_billing d) /\
    (forall id, id ∈ map (fun v => v.1.1.1) l -> sd_subs d' !! id = expire_row t <$> sd_subs d !! id) /\
    (forall id, id ∉ map (fun v => v.1.1.1) l -> sd_subs d' !! id = sd_subs d !! id).
Proof.
  induction l as [|v l IH]; intros d C Hnd Hall.
  - exists d. split_and!; try done. by intros id []%elem_of_nil.
  - cbn [map] in *. apply NoDup_cons in Hnd as [Hni Hnd]. apply Forall_cons in Hall as [Hv Hall].
    destruct (expire_one_run userID t v d C Hv) as (d1 & Hrun & C1 & Hoth & Hid & K & HU & HA).
    assert (Hall1 : Forall (expired_row userID t d1) l).
    { rewrite Forall_forall in Hall |- *. intros w Hw. eapply expired_row_kept; [done..| |by apply Hall]. intros E. apply Hni. rewrite <- E. apply list_elem_of_fmap. by exists w. }
    destruct (IH d1 C1 Hnd Hall1) as (d2 & Hrun2 & C2 & HU2 & HA2 & Hin & Hout). exists d2. cbn [expire_each]. rewrite (tbind_run _ _ _ _ _ Hrun).
    split_and!; [done..|congruence|congruence| |].
    + intros id [->|Hi]%elem_of_cons; [by rewrite Hout|]. rewrite Hin by done. rewrite Hoth; [done|]. by intros ->.
    + intros id [Hne Hn]%not_elem_of_cons. rewrite Hout, Hoth by done. done.
Qed.

Lemma expired_subs_elem userID t d v : sub_inv d -> v ∈ expired_subs userID t d <-> expired_row userID t d v.
Proof.
  intros I. unfold expired_subs, expired_row. rewrite list_elem_of_omap. split.
  - intros ([id s] & Hin & H). rewrite stable_sort_perm in Hin. apply list_elem_of_In, filter_In in Hin as [Hin%list_elem_of_In Hexp]. apply user_subs_elem in Hin as [Hs Hu]. cbn in *.
    destruct (sb_current_period s) as [pid|] eqn:Ep; [|done]. cbn in H. destruct (sd_periods d !! pid) as [p|] eqn:Hp; [|done]. cbn in H.
    destruct (sb_expires_at s) as [x|] eqn:Ex; [|done]. injection H as <-. cbn. exists s, p. done.
  - intros (s & p & Hs & Hu & Hexp & Hx & Hpid & Hp & Hy). exists (v.1.1.1, s). rewrite stable_sort_perm. split.
    + apply list_elem_of_In, filter_In. split; [|done]. apply list_elem_of_In, user_subs_elem. done.
    + cbn. rewrite Hpid. cbn. rewrite Hp. cbn. rewrite Hx. cbn. destruct v as [[[? ?] ?] ?]. cbn in *. congruence.
Qed.

Lemma expired_subs_NoDup userID t d : NoDup (map (fun v => v.1.1.1) (expired_subs userID t d)).
Proof.
  unfold expired_subs. set (l := stable_sort _ _). assert (Hl : NoDup (map fst l)).
  { unfold l. rewrite stable_sort_perm. pose proof (user_subs_NoDup userID d) as H. induction (user_subs userID d) as [|x r IH]; [constructor|].
    cbn in H. apply NoDup_cons in H as [H1 H2]. cbn. destruct (expired_sub t x.2); [|auto]. cbn. constructor; [|auto].
    intros (y & E & Hy)%list_elem_of_fmap. apply list_elem_of_In, filter_In in Hy as [Hy%list_elem_of_In _]. apply H1. rewrite E. apply list_elem_of_fmap. by exists y. }
  clearbody l. induction l as [|[id s] l IH]; [constructor|]. cbn in Hl. apply NoDup_cons in Hl as [H1 H2]. cbn.
  destruct (sb_current_period s ≫= _) as [v|] eqn:E; [|auto]. cbn. constructor; [|auto].
  assert (Hk : forall (i : string) (x : subscription_row) (w : string * Z * string * Z), (pid ← sb_current_period x; p ← sd_periods d !! pid; t0 ← sb_expires_at x; Some (i, t0, pid, sp_ends p)) = Some w -> w.1.1.1 = i).
  { intros i x w Hw. destruct (sb_current_period x); [|done]. cbn in Hw. destruct (sd_periods d !! _); [|done]. cbn in Hw. destruct (sb_expires_at x); [|done]. by injection Hw as <-. }
  apply Hk in E. rewrite E. intros (w & Ew & Hw)%list_elem_of_fmap. apply list_elem_of_omap in Hw as ([id' s'] & Hin & E'). cbn in E'. apply Hk in E'.
  apply H1. rewrite Ew, E'. apply list_elem_of_fmap. by exists (id', s').
Qed.

(** The users a lock can be taken for. *)
Definition lockable (d : sub_db) (u : string) : Prop :=
  is_Some (billing_accounts (sd_billing d) !! u) /\ exists status, users (sd_billing d) !! u = Some status /\ status <> "pending".

Lemma lock_run d u : lockable d u -> in_billing (lockBillingAccountTx u) d = Ok (tt, set_sub_groups (set_billing (sd_billing d) (sd_groups d)) d).
Proof.
  intros [[a Ha] (status & Hu & Hs)]. apply in_billing_run. unfold lockBillingAccountTx, lockNonPendingUserTx. rewrite tgets_bind, Ha. unfold tsome at 1.
  rewrite tret_bind, tgets_bind, Hu. unfold tsome at 1. rewrite tret_bind, bool_decide_false by done. done.
Qed.
Lemma lock_same d : set_sub_groups (set_billing (sd_billing d) (sd_groups d)) d = d.
Proof. by destruct d as [[] ? ? ? ? ? ? ? ? ?]. Qed.

Lemma converge_run u t d : subs_consistent d -> lockable d u -> exists d', convergeBillingSubscriptionsCount u t d = (Ok (Z.of_nat (length (expired_subs u t d))), d') /\
  subs_consistent d' /\ users (sd_billing d') = users (sd_billing d) /\ billing_accounts (sd_billing d') = billing_accounts (sd_billing d) /\
  forall id, sd_subs d' !! id = (fun s => if bool_decide (sb_user s = u) then expire_row t s else s) <$> sd_subs d !! id.
Proof.
  intros C L. pose proof C as (I & _ & _). unfold convergeBillingSubscriptionsCount, withTx. rewrite (tbind_run _ _ _ _ _ (lock_run d u L)), lock_same.
  unfold expireBillingSubscriptionsTx. rewrite tgets_bind. destruct (expire_each_run u t (expired_subs u t d) d C (expired_subs_NoDup u t d)) as (d' & Hrun & C' & HU & HA & Hin & Hout).
  { apply Forall_forall. intros v. by apply expired_subs_elem. }
  rewrite (tbind_run _ _ _ _ _ Hrun). exists d'. split_and!; try done. intros id.
  destruct (decide (id ∈ map (fun v => v.1.1.1) (expired_subs u t d))) as [Hi|Hi].
  - rewrite (Hin id Hi). apply list_elem_of_fmap in Hi as (v & -> & (s & p & Hs & Hu & _)%expired_subs_elem); [|done]. rewrite Hs. cbn. by rewrite bool_decide_true.
  - rewrite (Hout id Hi). destruct (sd_subs d !! id) as [s|] eqn:Hs; [|done]. cbn. f_equal. case_bool_decide as Hu; [|done]. unfold expire_row.
    destruct (expired_sub t s) eqn:Hexp; [|done]. exfalso. apply Hi. destruct (expired_facts _ _ Hexp) as (Hen & x & Hx & _).
    destruct (I id s Hs) as (_ & _ & Hcur). destruct (Hcur Hen) as (pid & p & m & [H1 H2 _ _ _ _ _ _]). apply list_elem_of_fmap. exists (id, x, pid, sp_ends p).
    split; [done|]. apply expired_subs_elem; [done|]. exists s, p. done.
Qed.

Lemma expire_row_idem t s : expire_row t (expire_row t s) = expire_row t s.
Proof. unfold expire_row. destruct (expired_sub t s) eqn:E; [|by rewrite E]. done. Qed.
Lemma expire_row_user t s : sb_user (expire_row t s) = sb_user s.
Proof. unfold expire_row. by destruct (expired_sub t s). Qed.

Lemma converge_each_run t l : forall n d, subs_consistent d -> Forall (lockable d) l -> exists m d', converge_each t n l d = ((m, None), d') /\ subs_consistent d' /\
  forall id, sd_subs d' !! id = (fun s => if bool_decide (sb_user s ∈ l) then expire_row t s else s) <$> sd_subs d !! id.
Proof.
  induction l as [|u l IH]; intros n d C L.
  - exists n, d. split_and!; try done. intros id. destruct (sd_subs d !! id) as [s|]; [|done]. cbn. by rewrite bool_decide_false by apply not_elem_of_nil.
  - apply Forall_cons in L as [Lu L]. destruct (converge_run u t d C Lu) as (d1 & Hrun & C1 & HU & HA & Hs1). cbn [converge_each]. rewrite Hrun.
    destruct (IH (n + Z.of_nat (length (expired_subs u t d))) d1 C1) as (m & d' & Hrun' & C' & Hs').
    { eapply Forall_impl; [exact L|]. intros v. unfold lockable. by rewrite HU, HA. }
    exists m, d'. split_and!; try done. intros id. rewrite Hs', Hs1. destruct (sd_subs d !! id) as [s|]; [|done]. cbn. f_equal.
    destruct (bool_decide_reflect (sb_user s = u)) as [Hu|Hu].
    + rewrite expire_row_user, expire_row_idem. rewrite (bool_decide_true (sb_user s ∈ u :: l)) by (apply elem_of_cons; by left). by destruct (bool_decide _).
    + assert (E : bool_decide (sb_user s ∈ u :: l) = bool_decide (sb_user s ∈ l)); [|by rewrite E]. apply bool_decide_ext. rewrite elem_of_cons. split; [by intros [?|?]|by right].
Qed.

Definition users_with_expired (t : Z) (d : sub_db) : gset string :=
  list_to_set (map (fun kv => sb_user kv.2) (List.filter (fun kv => expired_sub t kv.2) (map_to_list (sd_subs d)))).

Lemma users_with_expired_elem t d u : u ∈ users_with_expired t d <-> exists id s, sd_subs d !! id = Some s /\ sb_user s = u /\ expired_sub t s = true.
Proof.
  unfold users_with_expired. rewrite elem_of_list_to_set, list_elem_of_fmap. split.
  - intros ([id s] & -> & [Hin%list_elem_of_In Hexp]%list_elem_of_In%filter_In). apply elem_of_map_to_list in Hin. eauto.
  - intros (id & s & Hs & <- & Hexp). exists (id, s). split; [done|]. apply list_elem_of_In, filter_In. split; [|done]. by apply list_elem_of_In, elem_of_map_to_list.
Qed.

(** The expiry job never fails, and when one run may visit every user that
    has something to expire it disables exactly the finite subscriptions whose
    end has passed, each as of its own end, and nothing else. *)
Theorem expiry_complete clock t limit d :
  subs_consistent d -> let at_ := normalizedBillingTime t clock in
  (forall u, u ∈ users_with_expired at_ d -> lockable d u) ->
  Z.of_nat (size (users_with_expired at_ d)) <= (if (limit <=? 0) || (10000 <? limit) then 1000 else limit) ->
  exists n d', ExpireBillingSubscriptions clock t limit d = ((n, None), d') /\ subs_consistent d' /\
    sd_subs d' = (fun s => if expired_sub at_ s then sub_disable (sb_expires_at s) at_ s else s) <$> sd_subs d.
Proof.
  intros C at_ HL Hsize. unfold ExpireBillingSubscriptions. cbv zeta. fold at_. set (lim := if (limit <=? 0) || (10000 <? limit) then 1000 else limit) in *. unfold expired_users. fold (users_with_expired at_ d).
  set (l := stable_sort str_ltb (elements (users_with_expired at_ d))). assert (Hl : l ≡ₚ elements (users_with_expired at_ d)) by apply stable_sort_perm.
  rewrite take_ge by (rewrite Hl; change (length (elements (users_with_expired at_ d))) with (size (users_with_expired at_ d)); lia). assert (Hel : forall u, u ∈ l <-> u ∈ users_with_expired at_ d) by (intros u; by rewrite Hl, elem_of_elements).
  destruct (converge_each_run at_ l 0 d C) as (n & d' & Hrun & C' & Hs).
  { apply Forall_forall. intros u Hu%Hel. by apply HL. }
  exists n, d'. split_and!; try done. apply map_eq. intros id. rewrite Hs, lookup_fmap. destruct (sd_subs d !! id) as [s|] eqn:E; [|done]. cbn. f_equal.
  fold (expire_row at_ s). case_bool_decide as Hin; [done|]. unfold expire_row. destruct (expired_sub at_ s) eqn:Hexp; [|done]. exfalso. apply Hin, Hel, users_with_expired_elem. eauto.
Qed.

(** ** Committed writes *)

Section committed.
Context (fingerprint : list string -> string) (session_of : string -> string -> bool) (inet_ok : string -> bool).

Ltac keep_same := first [by eapply same_in_billing; [|eassumption]; eauto with keeps|eapply same_record_operation; eassumption|eapply same_operation_state; eassumption].

(** A put that commits replays a recorded operation or opens the subscription. *)
Lemma put_body_Ok p allowance d st d' : subs_consistent d -> put_subscription_body fingerprint session_of inet_ok p allowance d = Ok (st, d') ->
  (is_Some (operations (sd_billing d) !! OperationID (pp_write p)) /\ same_subs d d') \/
  (operations (sd_billing d) !! OperationID (pp_write p) = None /\
   exists n id eid pid, numeric_of allowance = Some n /\ reopened p n None id eid pid d d').
Proof.
  intros C H. unfold put_subscription_body in H. cbv zeta in H. apply tbind_Ok in H as (u & d1 & H1 & H).
  assert (S1 : same_subs d d1) by keep_same. apply sub_billing_Ok in H1 as (b1 & H1 & E1). apply lock_account_Ok in H1 as [-> _]. rewrite lock_same in E1. subst d1.
  apply tbind_Ok in H as (replay & d2 & H2 & H). assert (S2 : same_subs d d2) by keep_same. apply sub_billing_Ok in H2 as (b2 & H2 & E2).
  apply claim_Ok in H2 as (_ & [(-> & Hop & _ & _ & ->)|(id & row & -> & -> & Hop & _)]).
  - right. split; [done|]. apply tbind_Ok in H as (state & d3 & H3 & H). apply tbind_Ok in H as (n & d3' & Hn & H). apply same_numeric in Hn as S3.
    apply tbind_Ok in H as ([id entry] & d4 & H4 & H). apply same_record_operation in H4 as S4. apply tbind_Ok in H as (? & d5 & H5 & H).
    assert (S5 : same_subs d4 d5) by keep_same. apply tbind_Ok in H as (? & d6 & H6 & H). assert (S6 : same_subs d5 d6) by keep_same.
    apply same_operation_state in H as S7. pose proof (consistent_same _ _ S2 C) as C2. apply reopen_Ok in H3 as (n' & sid & eid & pid & Hn' & R & _); [|done].
    exists n', sid, eid, pid. split; [done|]. assert (S : same_subs d3 d') by (transitivity d3'; [done|]; transitivity d4; [done|]; transitivity d5; [done|]; by transitivity d6).
    destruct S2 as (A1 & A2 & A3 & A4). destruct S as (B1 & B2 & B3 & B4). destruct R as [R1 R2 R3 R4 R5 R6 R7 R8].
    split; rewrite ?B1, ?B2, ?B3, ?B4; try done; try (rewrite A1 in R2; exact R2); try (rewrite A3 in R6; exact R6).
    transitivity d2; [by apply others_same|]. transitivity d3; [done|by apply others_same].
  - left. split; [eauto|]. apply tbind_Ok in H as ([id' entry] & d3 & H3 & H). assert (S3 : same_subs d2 d3) by keep_same.
    apply same_operation_state in H as S4. transitivity d2; [done|by transitivity d3].
Qed.

Lemma put_arguments_Ok clock p p' allowance : put_subscription_arguments clock p = Ok (p', allowance) ->
  pp_ModelIDs p' <> [] /\ pp_write p' = normalized clock (pp_write p) /\ pp_UserID p' = pp_UserID p /\ pp_SubscriptionID p' = pp_SubscriptionID p /\
  pp_PeriodCount p' = pp_PeriodCount p /\ pp_Tier p' = pp_Tier p /\ 0 <= pp_PeriodCount p <= 99 /\
  normalizeBillingPeriodDays (pp_Tier p) (pp_PeriodDays p) = Ok (pp_PeriodDays p') /\ ParseInput (pp_AllowanceUSD p) false false = Ok allowance.
Proof.
  unfold put_subscription_arguments. destruct (validateBillingWrite (pp_write p)); [|done]. cbn [rbind]. destruct (empty (pp_UserID p)); [done|].
  destruct (normalizeBillingPeriodDays _ _) as [days|]; [|done]. cbn [rbind]. destruct (normalizeBillingModels (pp_ModelIDs p)) as [models|] eqn:Em; [|done]. cbn [rbind].
  destruct (_ || _); [done|]. unfold validateBillingPeriodCount. destruct ((pp_PeriodCount p <? 0) || (99 <? pp_PeriodCount p)) eqn:Ec; [done|]. cbn [rbind].
  destruct (ParseInput _ _ _) as [c|]; [|done]. cbn. intros [= <- <-]. cbn. unfold normalizeBillingModels in Em.
  destruct (normalizeModelAccessCatalog (pp_ModelIDs p)) as [values|]; [|done]. cbn in Em. case_bool_decide; [done|]. injection Em as <-. split_and!; try done; lia.
Qed.

Lemma put_body_consistent p allowance d st d' : subs_consistent d -> pp_ModelIDs p <> [] ->
  put_subscription_body fingerprint session_of inet_ok p allowance d = Ok (st, d') -> subs_consistent d'.
Proof.
  intros C Hm [[_ S]|(_ & n & id & eid & pid & _ & R)]%put_body_Ok; [by eapply consistent_same|by eapply reopened_consistent|done].
Qed.

Lemma put_consistent clock p d : subs_consistent d -> subs_consistent (PutSubscription fingerprint session_of inet_ok clock p d).2.
Proof.
  intros C. unfold PutSubscription. destruct (put_subscription_arguments clock p) as [[p' allowance]|] eqn:E; [|done]. apply put_arguments_Ok in E as (Hm & _).
  apply withTx_preserves; [|done]. intros st d'. by apply put_body_consistent.
Qed.

Lemma delete_body_consistent w userID id d st d' : subs_consistent d ->
  delete_subscription_body fingerprint session_of inet_ok w userID id d = Ok (st, d') -> subs_consistent d'.
Proof.
  intros C H. unfold delete_subscription_body in H. cbv zeta in H. apply tbind_Ok in H as (? & d1 & H1 & H). assert (S1 : same_subs d d1) by keep_same.
  apply tbind_Ok in H as (replay & d2 & H2 & H). assert (S2 : same_subs d1 d2) by keep_same. pose proof (consistent_same _ _ S2 (consistent_same _ _ S1 C)) as C2.
  destruct replay as [i|].
  - apply tbind_Ok in H as ([id' entry] & d3 & H3 & H). assert (S3 : same_subs d2 d3) by keep_same. apply same_operation_state in H as S4.
    eapply consistent_same; [|exact C2]. by transitivity d3.
  - rewrite tgets_bind in H. apply tbind_Ok in H as (s & d2' & [Hs ->]%tsome_Ok & H). apply tbind_Ok in H as (? & d2' & Hu & H).
    destruct (bool_decide (sb_user s = userID)); [|done]. injection Hu as _ <-. apply tbind_Ok in H as (? & d3 & H3 & H).
    assert (K3 : others_kept id d2 d3 /\ sd_subs d3 = sd_subs d2 /\ sd_entitlements d3 = sd_entitlements d2 /\ periods (sd_billing d3) = periods (sd_billing d2)).
    { destruct (sb_current_period s) as [pid|] eqn:Ep; [|injection H3 as _ <-; by split_and!]. destruct (sb_enabled s); [|injection H3 as _ <-; by split_and!].
      apply tbind_Ok in H3 as (n & d3' & Hc & [_ ->]%tguard_Ok). by eapply (close_own _ d2 id s pid). }
    destruct K3 as (K3 & B1 & B2 & B3). apply tbind_Ok in H as (v & d4 & H4 & H). apply same_next_version in H4 as S4. pose proof S4 as (D1 & D2 & D3 & D4).
    apply tbind_Ok in H as (? & d5 & H5 & H). apply update_sub_Ok in H5 as [[Hx _]|(s' & Hs' & Hck & ->)]; [congruence|]. assert (s' = s) as -> by congruence.
    apply tbind_Ok in H as (state & d6 & H6 & H). apply same_read in H6 as S6. apply tbind_Ok in H as ([lid entry] & d7 & H7 & H). apply same_record_operation in H7 as S7.
    apply tbind_Ok in H as (? & d8 & H8 & H). assert (S8 : same_subs d7 d8) by (destruct (sb_current_period s); by injection H8 as _ <-).
    apply tbind_Ok in H as (? & d9 & H9 & H). assert (S9 : same_subs d8 d9) by keep_same. apply tbind_Ok in H as (? & d10 & H10 & H). assert (S10 : same_subs d9 d10) by keep_same.
    apply same_operation_state in H as S11. eapply (disabled_consistent id d2 d4 d' s (sub_delete (At w) v s)); try done; try congruence.
    + transitivity d3; [done|by apply others_same].
    + transitivity d6; [done|]. transitivity d7; [done|]. transitivity d8; [done|]. transitivity d9; [done|by transitivity d10].
Qed.

Lemma delete_consistent clock w userID id d : subs_consistent d -> subs_consistent (DeleteSubscription fingerprint session_of inet_ok clock w userID id d).2.
Proof.
  intros C. unfold DeleteSubscription. destruct (validateBillingWrite w); [|done]. destruct (empty userID); [done|]. destruct (empty id); [done|].
  apply withTx_preserves; [|done]. intros st d'. by apply delete_body_consistent.
Qed.
End committed.

Lemma roll_consistent userID t d n d' : clock_ok t -> subs_consistent d -> fresh_ids (length (stale_subs userID t d)) d ->
  rollBillingSubscriptionsTx userID t d = Ok (n, d') -> subs_consistent d'.
Proof.
  intros Ht (I & O & P) Fr Hrun. destruct (roll_run userID t d Ht I Fr) as (n' & d0 & Hrun' & I' & R & Hall). rewrite Hrun in Hrun'. injection Hrun' as <- <-.
  assert (Hback : forall id s', sd_subs d' !! id = Some s' -> exists s, sd_subs d !! id = Some s).
  { intros id s' Hs'. destruct (decide (id ∈ map (fun v => v.1.1) (stale_subs userID t d))) as [(v & -> & (s & ? & Hs & _)%stale_subs_elem)%list_elem_of_fmap|Hni]; [eauto|].
    rewrite (re_subs _ _ _ R) in Hs' by done. eauto. }
  split_and!; [done| |].
  - intros eid e. rewrite (rf_entitlements _ _ (re_frame _ _ _ R)). intros He. destruct (O eid e He) as [s Hs]. destruct (Hall _ s Hs) as (s' & Hs' & _). eauto.
  - intros id s' Hs' pid Hpid. destruct (Hback id s' Hs') as (s & Hs). destruct (Hall id s Hs) as (s0 & Hs0 & Hmine & Hother). assert (s0 = s') as -> by congruence.
    assert (Hold : sb_current_period s = Some pid -> exists m, periods (sd_billing d') !! pid = Some m /\ period_subscription m = id).
    { intros Hp. destruct (P id s Hs pid Hp) as (m & Hm & E). exists m. split; [by apply (re_money _ _ _ R)|done]. }
    destruct (decide (sb_user s = userID)) as [Hu|Hu]; [|rewrite (Hother Hu) in Hpid; auto].
    destruct (Hmine Hu) as [| |q p eid e new Hst Hdl Hp He Hcov Hn Hnew Hm]; [auto|auto|]. injection Hpid as <-. eexists. split; [exact Hm|done].
Qed.

Lemma converge_consistent u t d : subs_consistent d -> subs_consistent (convergeBillingSubscriptionsCount u t d).2.
Proof.
  intros C. destruct (in_billing (lockBillingAccountTx u) d) as [[x d1]|e] eqn:E.
  - apply sub_billing_Ok in E as (b & Hb & _). apply lock_account_Ok in Hb as (_ & a & Ha & status & Hst & Hp).
    destruct (converge_run u t d C) as (d' & -> & C' & _); [by split; eauto|done].
  - unfold convergeBillingSubscriptionsCount, withTx, tbind. by rewrite E.
Qed.

Lemma expire_consistent clock t limit d : subs_consistent d -> subs_consistent (ExpireBillingSubscriptions clock t limit d).2.
Proof.
  intros C. unfold ExpireBillingSubscriptions. cbv zeta. generalize (normalizedBillingTime t clock). intros at_. generalize (expired_users at_ (if (limit <=? 0) || (10000 <? limit) then 1000 else limit) d).
  intros l. generalize 0. revert d C. induction l as [|u l IH]; intros d C n; [done|]. cbn [converge_each]. pose proof (converge_consistent u at_ d C) as C1.
  destruct (convergeBillingSubscriptionsCount _ _ _) as [[m|e] d1]; cbn [snd] in *; [by apply IH|done].
Qed.

Lemma initialize_consistent d : subs_consistent d -> subs_consistent (InitializeBillingSubscriptionModels d).2.
Proof.
  intros (I & O & P). unfold InitializeBillingSubscriptionModels. apply withTx_preserves; [|done]. intros a d'. rewrite tgets_bind. destruct (forallb _ _); [by intros [= _ <-]|]. rewrite tguard_bind.
  destruct (bool_decide_reflect (catalog_models (sd_groups d) = [])) as [|Hne]; [done|]. cbn [negb]. set (models := catalog_models (sd_groups d)) in *.
  rewrite tmod_bind. intros [= _ <-]. stables.
  assert (Hsub : forall e, en_subscription (init_entitlement_models (sd_subs d) models e) = en_subscription e).
  { intros e. unfold init_entitlement_models. destruct (sd_subs d !! _) as [s|]; [|done]. by destruct (sb_models_initialized s). }
  split_and!.
  - intros id s'. stables. rewrite lookup_fmap. destruct (sd_subs d !! id) as [s|] eqn:Hs; [|done]. intros [= <-]. destruct (I id s Hs) as (Hc & Hseg & Hcur). split_and!.
    + unfold init_sub_models. destruct (sb_models_initialized s) eqn:Em; [done|]. unfold subscription_check in *. cbn. rewrite !andb_true_iff in *.
      destruct Hc as [[[[[[[[[[[H1 H2] H3] H4] H5] H6] H7] H8] _] H10] H11] H12]. split_and!; try done. by rewrite bool_decide_false.
    + intros eid e. stables. rewrite lookup_fmap. destruct (sd_entitlements d !! eid) as [e0|] eqn:He; [|done]. intros [= <-] Hes Hl. rewrite Hsub in Hes.
      unfold init_entitlement_models, init_sub_models in *. rewrite Hes, Hs in *. destruct (sb_models_initialized s) eqn:Em.
      * by eapply Hseg.
      * destruct (Hseg eid e0 He Hes Hl) as (H1 & H2 & H3 & H4). split_and!; cbn; try done.
    + unfold init_sub_models at 1. intros Hen. assert (Hen' : sb_enabled s = true) by by destruct (sb_models_initialized s).
      destruct (Hcur Hen') as (pid & p & m & [H1 H2 H3 H4 [H5 H5'] H6 H7 H8]). exists pid, p, m.
      assert (E : sb_current_period (init_sub_models models s) = sb_current_period s /\ sb_user (init_sub_models models s) = sb_user s /\
        sb_expires_at (init_sub_models models s) = sb_expires_at s) by (unfold init_sub_models; by destruct (sb_models_initialized s)).
      destruct E as (E1 & E2 & E3). split; rewrite ?E1, ?E2, ?E3; stables; try done. intros t Ht Hd. destruct (H8 t Ht Hd) as (eid & e & He & Hcov).
      exists eid. eexists. rewrite lookup_fmap, He. split; [done|]. unfold init_entitlement_models. destruct (sd_subs d !! en_subscription e) as [s1|]; [|done]. destruct (sb_models_initialized s1); exact Hcov.
  - intros eid e. stables. rewrite lookup_fmap. destruct (sd_entitlements d !! eid) as [e0|] eqn:He; [|done]. intros [= <-]. rewrite Hsub, lookup_fmap.
    destruct (O eid e0 He) as [s ->]. eauto.
  - intros id s'. stables. rewrite lookup_fmap. destruct (sd_subs d !! id) as [s|] eqn:Hs; [|done]. intros [= <-] pid Hpid. apply (P id s Hs pid).
    unfold init_sub_models in Hpid. by destruct (sb_models_initialized s).
Qed.

(** ** Histories *)

(** The operations on subscriptions; a roll runs inside an admission, while the
    clock is in range and the ids it draws are new. *)
Inductive sub_step (fingerprint : list string -> string) (session_of : string -> string -> bool) (inet_ok : string -> bool) (d : sub_db) : sub_db -> Prop :=
| Step_put clock p : sub_step fingerprint session_of inet_ok d (PutSubscription fingerprint session_of inet_ok clock p d).2
| Step_delete clock w userID id : sub_step fingerprint session_of inet_ok d (DeleteSubscription fingerprint session_of inet_ok clock w userID id d).2
| Step_roll userID t n d' : clock_ok t -> fresh_ids (length (stale_subs userID t d)) d -> rollBillingSubscriptionsTx userID t d = Ok (n, d') ->
    sub_step fingerprint session_of inet_ok d d'
| Step_expire clock t limit : sub_step fingerprint session_of inet_ok d (ExpireBillingSubscriptions clock t limit d).2
| Step_initialize : sub_step fingerprint session_of inet_ok d (InitializeBillingSubscriptionModels d).2
| Step_other d' : same_subs d d' -> sub_step fingerprint session_of inet_ok d d'.

Lemma step_consistent fingerprint session_of inet_ok d d' : sub_step fingerprint session_of inet_ok d d' -> subs_consistent d -> subs_consistent d'.
Proof.
  intros [] C; [by apply put_consistent|by apply delete_consistent|by eapply roll_consistent|by apply expire_consistent|by apply initialize_consistent|by eapply consistent_same].
Qed.

(** However subscriptions are opened, replaced, disabled, rolled and expired,
    from an empty table on: every enabled subscription has an open current
    period of its own with the configuration its constraints demand, and until
    its term ends every instant from that period on is covered by one of its
    live segments, so that the next roll finds what it needs. *)
Theorem subscriptions_covered fingerprint session_of inet_ok d0 d :
  sd_subs d0 = ∅ -> sd_entitlements d0 = ∅ -> rtc (sub_step fingerprint session_of inet_ok) d0 d ->
  forall id s, sd_subs d !! id = Some s -> subscription_check s = true /\
    (sb_enabled s = true -> exists pid p m, sb_current_period s = Some pid /\ sd_periods d !! pid = Some p /\ periods (sd_billing d) !! pid = Some m /\
      sp_closed p = None /\ period_subscription m = id /\ period_user m = sb_user s /\ sp_starts p < sp_ends p /\
      before_deadline (sp_starts p) (sb_expires_at s) = true /\
      forall t, sp_starts p <= t -> before_deadline t (sb_expires_at s) = true -> is_Some (current_entitlement id t d)).
Proof.
  intros H1 H2 Hr. assert (C : subs_consistent d).
  { assert (C0 : subs_consistent d0) by (split_and!; [intros ? ?; by rewrite H1|intros ? ?; by rewrite H2|intros ? ?; by rewrite H1]).
    clear H1 H2. induction Hr; [done|]. eauto using step_consistent. }
  intros id s Hs. destruct C as (I & _). destruct (I id s Hs) as (Hc & _ & Hcur). split; [done|]. intros Hen. destruct (Hcur Hen) as (pid & p & m & [A1 A2 A3 A4 [A5 A5'] A6 A7 A8]).
  exists pid, p, m. split_and!; try done. intros t Ht Hd. destruct (A8 t Ht Hd) as (eid & e & He & Hcov). pose proof (current_entitlement_spec id t d) as Hspec.
  destruct (current_entitlement id t d); [eauto|]. rewrite (Hspec eid e He) in Hcov. done.
Qed.

(** ** Replays *)

(** The books the operations are recorded in. *)
Definition same_books (d d' : sub_db) : Prop :=
  let b := sd_billing d in let b' := sd_billing d' in
  ledger b' = ledger b /\ operations b' = operations b /\ tombstones b' = tombstones b /\ users b' = users b /\ billing_accounts b' = billing_accounts b.
#[export] Instance same_books_preorder : PreOrder same_books.
Proof. split; [by intros d|]. unfold same_books. cbv zeta. intros a b c (H1 & H2 & H3 & H4 & H5) (G1 & G2 & G3 & G4 & G5). split_and!; congruence. Qed.
#[export] Hint Extern 0 (PreOrder same_books) => exact same_books_preorder : keeps.
#[export] Hint Extern 3 (keeps same_books (tmod _)) => (apply keeps_mod; intros ?; by unfold same_books) : keeps.

Lemma books_newUUID : keeps same_books (in_groups newUUID).
Proof. intros d a d'. unfold in_groups, tzoom, newUUID. destruct (gd_random _); [done|]. by intros [= _ <-]. Qed.
Lemma books_validate models : keeps same_books (in_groups (validateBillingModelsTx models)).
Proof. intros d a d'. unfold in_groups, tzoom, validateBillingModelsTx. rewrite tgets_bind. destruct (tguard _ _ _) as [[x g]|] eqn:E; [|done]. apply tguard_Ok in E as [_ ->]. by intros [= _ <-]. Qed.
Lemma books_update op id f : keeps same_books (update_sub op id f).
Proof. unfold update_sub. keeps_tac. Qed.
Lemma books_close op pid f reason b : keeps same_books (close_sub_period op pid f reason b).
Proof. unfold close_sub_period. keeps_tac. Qed.
Lemma books_insert_period op pid id u tier n p : keeps same_books (insert_sub_period op pid id u tier n p).
Proof. unfold insert_sub_period. keeps_tac. intros d x d'. by intros (b' & [= _ <-] & ->)%sub_billing_Ok. Qed.
Lemma books_version : keeps same_books next_config_version.
Proof. unfold next_config_version. keeps_tac. Qed.
#[export] Hint Resolve books_newUUID books_validate books_update books_close books_insert_period books_version : keeps.
Lemma books_entitlement u id start tier days count first allowance models plan t :
  keeps same_books (insertBillingEntitlementTx u id start tier days count first allowance models plan t).
Proof. unfold insertBillingEntitlementTx, sub_numeric. keeps_tac. Qed.
Lemma books_read u id t : keeps same_books (readBillingSubscriptionStateTx u id t).
Proof. unfold readBillingSubscriptionStateTx. keeps_tac. Qed.
#[export] Hint Resolve books_entitlement books_read : keeps.
Lemma books_reopen p allowance plan : keeps same_books (reopenBillingSubscriptionTx p allowance plan).
Proof. unfold reopenBillingSubscriptionTx, retire_previous, sub_numeric, insert_subscription. keeps_tac. Qed.

Lemma operation_state_reads id entry enabled d st d' : subscriptionOperationStateTx id entry enabled d = Ok (st, d') -> d' = d.
Proof.
  intros H. assert (K : keeps eq (subscriptionOperationStateTx id entry enabled)) by (unfold subscriptionOperationStateTx; keeps_tac). symmetry. by eapply K.
Qed.

Section replay.
Context (fingerprint : list string -> string) (session_of : string -> string -> bool) (inet_ok : string -> bool).

(** The operation was recorded, and its recorded answer is [st]. *)
Definition sub_replays (d : sub_db) (w : BillingWriteParams) (kind target fp : string) (enabled : bool) (st : BillingSubscriptionState) : Prop :=
  (exists a, account_open (sd_billing d) target a) /\
  exists x, replays (sd_billing d) w kind target fp x /\ subscriptionOperationStateTx x.1 x.2 enabled d = Ok (st, d).

(** The head of both writes, on an operation that was recorded. *)
Lemma sub_replay_run w kind target fp enabled st d (k : tx sub_db BillingSubscriptionState) : sub_replays d w kind target fp enabled st ->
  (in_billing (lockBillingAccountTx target) ;;
   let* replay := in_billing (claimBillingOperationTx w kind target fp []) in
   match replay with
   | Some id => let* (id, entry) := in_billing (replayBillingLedgerTx id) in subscriptionOperationStateTx id entry enabled
   | None => k
   end) d = Ok (st, d).
Proof.
  intros ((a & O) & x & R & Hst). assert (Hl : in_billing (lockBillingAccountTx target) d = Ok (tt, d)).
  { rewrite <- (lock_same d) at 2. apply in_billing_run. pose proof (lock_account_eq target a (sd_billing d) tret O) as E.
    unfold tbind in E. by destruct (lockBillingAccountTx target (sd_billing d)) as [[[] ?]|]. }
  rewrite (tbind_run _ _ _ _ _ Hl). assert (Hc : in_billing (claimBillingOperationTx w kind target fp []) d = Ok (Some x.1, d)).
  { rewrite <- (lock_same d) at 2. apply in_billing_run. pose proof (claim_replay_eq w kind target fp (sd_billing d) x tret R) as E.
    unfold tbind in E. destruct (claimBillingOperationTx w kind target fp [] (sd_billing d)) as [[o ?]|]; [|done]. by injection E as -> ->. }
  rewrite (tbind_run _ _ _ _ _ Hc). assert (Hr : in_billing (replayBillingLedgerTx x.1) d = Ok (x, d)).
  { rewrite <- (lock_same d) at 2. apply in_billing_run. by eapply replay_ledger_eq. }
  rewrite (tbind_run _ _ _ _ _ Hr). by destruct x.
Qed.

(** Recording an operation makes it replay. *)
Lemma recorded_replays op userID w kind amount ex state fp d2 d3 id entry d4 d5 d6 d' u1 u2 st enabled ev s1 s2 meta row a :
  operations (sd_billing d2) !! OperationID w = Some row -> op_type row = kind -> op_actor row = ActorUserID w -> op_target row = userID ->
  op_fingerprint row = fp -> op_result row = None -> OperationID w ∉ tombstones (sd_billing d2) -> account_open (sd_billing d2) userID a ->
  same_books d2 d3 -> lx_snapshot ex = Some (subscription_snapshot state) ->
  record_sub_operation op userID w kind amount ex d3 = Ok ((id, entry), d4) ->
  (sd_ledger_extra d5 = sd_ledger_extra d4 /\ sd_billing d5 = sd_billing d4) ->
  in_billing (finishBillingOperationTx (OperationID w) id) d5 = Ok (u1, d6) ->
  in_billing (appendBillingAuditTx session_of inet_ok w ev s1 s2 meta) d6 = Ok (u2, d') ->
  subscriptionOperationStateTx id entry enabled d' = Ok (st, d') -> sub_replays d' w kind userID fp enabled st.
Proof.
  intros Hrow Hk Ha Ht Hf Hn Htomb O (B1 & B2 & B3 & B4 & B5) Hx H4 [X5 B'5] H6 H7 Hst. unfold record_sub_operation in H4.
  apply tbind_Ok in H4 as ([i e] & d3' & H & H4). apply sub_billing_Ok in H as (b' & (Hfree & [= -> ->] & ->)%insert_entry_Ok & ->).
  rewrite tmod_bind in H4. injection H4 as <- <- <-. apply sub_billing_Ok in H6 as (b6 & H6 & ->). rewrite B'5 in H6. unfold sd_billing in *. stables. gtables.
  unfold finishBillingOperationTx in H6. rewrite tgets_bind in H6. btables. rewrite B2 in H6. cbn [update_rows] in H6. rewrite Hrow, bool_decide_true in H6 by done.
  rewrite tmod_bind in H6. apply tguard_Ok in H6 as [_ ->]. apply sub_billing_Ok in H7 as (b7 & H7 & ->). unfold appendBillingAuditTx in H7. rewrite tgets_bind in H7.
  apply tbind_Ok in H7 as (? & b & [_ ->]%tguard_Ok & [= _ <-]). unfold sub_replays. split.
  - exists a. unfold account_open, sd_billing in *. stables. gtables. btables. by rewrite B4, B5.
  - eexists (_, _). split; [|exact Hst]. unfold replays, sd_billing in *. stables. gtables. btables. cbn [fst snd]. rewrite B3. split_and!; [done| |].
    + unfold entry_id. replace (Z.to_nat _) with (length (ledger (gd_billing (sd_groups d3)))) by lia. by rewrite list_lookup_middle.
    + rewrite lookup_insert_eq. eexists. split_and!; [done|..]; done.
Qed.

(** The head of both writes, when they commit. *)
Lemma sub_head_Ok w kind target fp enabled st d (k : tx sub_db BillingSubscriptionState) d' :
  (in_billing (lockBillingAccountTx target) ;;
   let* replay := in_billing (claimBillingOperationTx w kind target fp []) in
   match replay with
   | Some id => let* (id, entry) := in_billing (replayBillingLedgerTx id) in subscriptionOperationStateTx id entry enabled
   | None => k
   end) d = Ok (st, d') ->
  (d' = d /\ sub_replays d w kind target fp enabled st) \/
  (operations (sd_billing d) !! OperationID w = None /\
   exists d2 row a, k d2 = Ok (st, d') /\ same_subs d d2 /\ operations (sd_billing d2) !! OperationID w = Some row /\ op_type row = kind /\ op_actor row = ActorUserID w /\
    op_target row = target /\ op_fingerprint row = fp /\ op_result row = None /\ (OperationID w ∉ tombstones (sd_billing d2)) /\ account_open (sd_billing d2) target a).
Proof.
  intros H. apply tbind_Ok in H as (u & d1 & H1 & H). apply sub_billing_Ok in H1 as (b1 & (-> & a & O)%lock_account_Ok & ->). rewrite lock_same in H.
  apply tbind_Ok in H as (replay & d2 & H2 & H). apply sub_billing_Ok in H2 as (b2 & (Htomb & [(-> & Hop & _ & _ & ->)|(id & row & -> & -> & Hop & Hres & Hk & Ha & Ht & Hf)])%claim_Ok & ->).
  - right. split; [done|]. eexists _, _, a. unfold sd_billing. stables. gtables. btables. split_and!; [exact H|done..|apply lookup_insert_eq|done|done|done|done|done|done|done].
  - left. rewrite lock_same in H. apply tbind_Ok in H as ([id' entry] & d3 & H3 & H). apply sub_billing_Ok in H3 as (b3 & (-> & E & Hl)%replay_Ok & ->). rewrite lock_same in H.
    cbn in E, Hl. subst id'. apply operation_state_reads in H as E. subst d'. split; [done|]. split; [eauto|]. exists (id, entry). split; [|done].
    split_and!; [done..|]. exists row. done.
Qed.

Lemma put_then_replays p allowance d st d' : put_subscription_body fingerprint session_of inet_ok p allowance d = Ok (st, d') ->
  sub_replays d' (pp_write p) "subscription_set" (pp_UserID p) (fingerprint ["subscription_set"; ActorUserID (pp_write p); pp_UserID p; pp_SubscriptionID p; pp_Name p;
    pp_Tier p; int_text (pp_PeriodDays p); join "," (pp_ModelIDs p); Reason (pp_write p); allowance; int_text (pp_PeriodCount p)]) true st.
Proof.
  intros H. unfold put_subscription_body in H. cbv zeta in H.
  apply sub_head_Ok in H as [[-> R]|(_ & d2 & row & a & H & _ & R1 & R2 & R3 & R4 & R5 & R6 & R7 & R8)]; [done|].
  apply tbind_Ok in H as (state & d3 & H3 & H). apply books_reopen in H3 as B3. apply tbind_Ok in H as (n & d3' & Hn & H).
  assert (d3' = d3) as -> by (unfold sub_numeric in Hn; destruct (numeric_of allowance); [by injection Hn as _ <-|done]).
  apply tbind_Ok in H as ([id entry] & d4 & H4 & H). apply tbind_Ok in H as (u1 & d5 & H5 & H). apply tbind_Ok in H as (u2 & d6 & H6 & H).
  apply operation_state_reads in H as E. subst d6.
  eapply (recorded_replays _ _ _ _ _ _ state _ d2 d3 id entry d4 d4 d5 d' u1 u2 st); try eassumption; done.
Qed.

Lemma delete_then_replays w userID sid d st d' : delete_subscription_body fingerprint session_of inet_ok w userID sid d = Ok (st, d') ->
  sub_replays d' w "subscription_disable" userID (fingerprint ["subscription_disable"; ActorUserID w; userID; sid; Reason w]) false st.
Proof.
  intros H. unfold delete_subscription_body in H. cbv zeta in H.
  apply sub_head_Ok in H as [[-> R]|(_ & d2 & row & a & H & _ & R1 & R2 & R3 & R4 & R5 & R6 & R7 & R8)]; [done|].
  rewrite tgets_bind in H. apply tbind_Ok in H as (s & d2' & [Hs ->]%tsome_Ok & H). apply tbind_Ok in H as (? & d2' & Hu & H).
  destruct (bool_decide (sb_user s = userID)); [|done]. injection Hu as _ <-. apply tbind_Ok in H as (? & d3 & H3 & H).
  assert (B3 : same_books d2 d3).
  { destruct (sb_current_period s) as [pid|]; [|by injection H3 as _ <-]. destruct (sb_enabled s); [|by injection H3 as _ <-].
    apply tbind_Ok in H3 as (n & d3' & Hc & [_ ->]%tguard_Ok). by eapply books_close. }
  apply tbind_Ok in H as (v & d4 & H4 & H). apply books_version in H4 as B4. apply tbind_Ok in H as (? & d5 & H5 & H). apply books_update in H5 as B5.
  apply tbind_Ok in H as (state & d6 & H6 & H). apply books_read in H6 as B6. apply tbind_Ok in H as ([id entry] & d7 & H7 & H). apply tbind_Ok in H as (? & d8 & H8 & H).
  assert (B8 : sd_ledger_extra d8 = sd_ledger_extra d7 /\ sd_billing d8 = sd_billing d7) by (destruct (sb_current_period s); by injection H8 as _ <-).
  apply tbind_Ok in H as (u1 & d9 & H9 & H). apply tbind_Ok in H as (u2 & d10 & H10 & H). apply operation_state_reads in H as E. subst d10.
  eapply (recorded_replays _ _ _ _ _ _ state _ d2 d6 id entry d7 d8 d9 d' u1 u2 st); try eassumption; try done.
  transitivity d3; [done|]. transitivity d4; [done|]. by transitivity d5.
Qed.

(** A retry of a put: the same operation with the same arguments. *)
Definition same_put (p q : PutSubscriptionParams) : Prop :=
  same_write (pp_write p) (pp_write q) /\ pp_UserID q = pp_UserID p /\ pp_SubscriptionID q = pp_SubscriptionID p /\ pp_Name q = pp_Name p /\ pp_Tier q = pp_Tier p /\
  pp_PeriodDays q = pp_PeriodDays p /\ pp_ModelIDs q = pp_ModelIDs p /\ pp_AllowanceUSD q = pp_AllowanceUSD p /\ pp_PeriodCount q = pp_PeriodCount p.

(** Opening and disabling subscriptions happen once: repeating a committed
    operation, at any time and from any session, returns the recorded state of
    the subscription and changes nothing. *)
Theorem subscription_writes_idempotent clock clock' p q w v userID sid st d d' :
  (same_put p q -> PutSubscription fingerprint session_of inet_ok clock p d = (Ok st, d') ->
    PutSubscription fingerprint session_of inet_ok clock' q d' = (Ok st, d')) /\
  (same_write w v -> DeleteSubscription fingerprint session_of inet_ok clock w userID sid d = (Ok st, d') ->
    DeleteSubscription fingerprint session_of inet_ok clock' v userID sid d' = (Ok st, d')).
Proof.
  split.
  - intros (Hw & E1 & E2 & E3 & E4 & E5 & E6 & E7 & E8). pose proof (same_write_valid _ _ Hw) as Hv. destruct Hw as (W1 & W2 & W3). unfold PutSubscription, put_subscription_arguments.
    rewrite Hv, E1, E2, E3, E4, E5, E6, E7, E8. destruct (validateBillingWrite (pp_write p)); [|done]. cbn [rbind]. destruct (empty (pp_UserID p)); [done|].
    destruct (normalizeBillingPeriodDays _ _) as [days|]; [|done]. cbn [rbind]. destruct (normalizeBillingModels _) as [models|]; [|done]. cbn [rbind].
    destruct (_ || _); [done|]. destruct (validateBillingPeriodCount _); [|done]. cbn [rbind]. destruct (ParseInput _ _ _) as [c|]; [|done]. cbn [rbind map_err].
    rewrite !withTx_commit. intros H. apply put_then_replays in H. unfold put_subscription_body. cbv zeta. apply sub_replay_run.
    cbn [normalized ActorUserID Reason OperationID pp_write pp_UserID pp_SubscriptionID pp_Name pp_Tier pp_PeriodDays pp_ModelIDs pp_PeriodCount] in *.
    rewrite W2, W3. destruct H as (O & x & R & Hx). split; [done|]. exists x. split; [|done]. unfold replays in *. cbn [normalized OperationID ActorUserID] in *. by rewrite W1, W2.
  - intros Hw. pose proof (same_write_valid _ _ Hw) as Hv. destruct Hw as (W1 & W2 & W3). unfold DeleteSubscription. rewrite Hv. destruct (validateBillingWrite w); [|done].
    destruct (empty userID); [done|]. destruct (empty sid); [done|]. rewrite !withTx_commit. intros H. apply delete_then_replays in H. unfold delete_subscription_body. cbv zeta.
    apply sub_replay_run. cbn [normalized ActorUserID Reason OperationID] in *. rewrite W2, W3. destruct H as (O & x & R & Hx). split; [done|]. exists x. split; [|done].
    unfold replays in *. cbn [normalized OperationID ActorUserID] in *. by rewrite W1, W2.
Qed.
End replay.

(** A put on a new operation id opens what it was asked for: the
    subscription, the named one or a new one, is enabled with that
    configuration and expires [count] periods from now; its only live segment
    runs from now to that end; its current period is the first one, starts now
    and holds the full allowance; every other subscription keeps its row and
    its segments, and no existing period loses money. *)
Theorem put_opens fingerprint session_of inet_ok clock p st d d' :
  subs_consistent d -> operations (sd_billing d) !! OperationID (pp_write p) = None ->
  PutSubscription fingerprint session_of inet_ok clock p d = (Ok st, d') ->
  let now := normalizedBillingTime (At (pp_write p)) clock in
  exists days allowance n id eid pid s e, normalizeBillingPeriodDays (pp_Tier p) (pp_PeriodDays p) = Ok days /\
    ParseInput (pp_AllowanceUSD p) false false = Ok allowance /\ numeric_of allowance = Some n /\
    (if empty (pp_SubscriptionID p) then sd_subs d !! id = None else id = pp_SubscriptionID p) /\
    sd_subs d' !! id = Some s /\ sb_enabled s = true /\ sb_user s = pp_UserID p /\ sb_current_period s = Some pid /\ sb_current_number s = 1 /\ sb_allowance s = n /\
    sb_expires_at s = (if 0 <? pp_PeriodCount p then Some (now + days * pp_PeriodCount p * Day24) else None) /\
    sd_entitlements d' !! eid = Some e /\ en_subscription e = id /\ en_starts e = now /\ en_ends e = sb_expires_at s /\ en_allowance e = n /\ en_superseded e = None /\
    (forall i x, sd_entitlements d' !! i = Some x -> en_subscription x = id -> en_superseded x = None -> i = eid) /\
    sd_periods d' !! pid = Some (SubPeriod now (now + days * Day24) 1 (pp_PeriodCount p) days eid None now) /\
    periods (sd_billing d') !! pid = Some (Period id (pp_UserID p) (Some (pp_Tier p)) n n 0) /\
    (forall i, i <> id -> sd_subs d' !! i = sd_subs d !! i) /\
    (forall i x, sd_entitlements d !! i = Some x -> en_subscription x <> id -> sd_entitlements d' !! i = Some x) /\
    (forall q m, periods (sd_billing d) !! q = Some m -> periods (sd_billing d') !! q = Some m).
Proof.
  intros C Hop H now. unfold PutSubscription in H. destruct (put_subscription_arguments clock p) as [[p' allowance]|] eqn:Ea; [|done].
  apply put_arguments_Ok in Ea as (_ & Ew & Eu & Es & Ec & Et & _ & Hd & Hall). apply withTx_commit in H.
  apply put_body_Ok in H as [[[? Hx] _]|(_ & n & id & eid & pid & Hn & [K T (s0 & v & Hs & Hu & _) [He _] Ho [_ Hp] Hm _])]; [rewrite Ew in Hx; cbn in Hx; congruence| |done].
  assert (Enow : At (pp_write p') = now) by by rewrite Ew. unfold term_of, opened_period in *. rewrite Ec, Enow, Es, Eu, Et in *. destruct K as [K1 K2 _ K4 _].
  exists (pp_PeriodDays p'), allowance, n, id, eid, pid. eexists _, _. split_and!; try eassumption; try done; cbn; try (rewrite ?Ec, ?Enow; done).
  destruct (empty (pp_SubscriptionID p)); [done|by destruct T].
Qed.

(** ** A sample system *)

Definition demo_subs : sub_db := SubDB demo_groups ∅ ∅ ∅ ∅ ∅ (true, ["gpt-5"]) ∅ ∅ 0.
(** Ten dollars a week for twelve weeks. *)
Definition demo_weekly (op id : string) : PutSubscriptionParams :=
  {| pp_write := demo_write op; pp_UserID := "ann"; pp_SubscriptionID := id; pp_Name := " weekly "; pp_Tier := "week"; pp_PeriodDays := 0; pp_ModelIDs := ["gpt-5"];
     pp_AllowanceUSD := "10"; pp_PeriodCount := 12 |}.
Definition demo_put_sub (clock : Z) (p : PutSubscriptionParams) (d : sub_db) : result store_error BillingSubscriptionState * sub_db :=
  PutSubscription demo_fingerprint (fun _ _ => true) (fun _ => true) clock p d.
Definition demo_opened : sub_db := (demo_put_sub demo_start (demo_weekly "op-1" "") demo_subs).2.
Definition demo_sub : string := "61616161-6161-4161-a161-616161616161".

Example demo_opened_ex :
  match demo_put_sub demo_start (demo_weekly "op-1" "") demo_subs with
  | (Ok s, d) => (ss_ID s, ss_RemainingUSD s, ss_PeriodEndsAt s, ss_ExpiresAt s, length (ss_Entitlements s), length (gd_random (sd_groups d)))
  | (Err _, _) => ("", "", None, None, 0%nat, 0%nat)
  end = (demo_sub, "10.000000000000", Some (demo_start + 7 * Day24), Some (demo_start + 84 * Day24), 1%nat, 6%nat).
Proof. vm_compute. reflexivity. Qed.

Lemma demo_subs_consistent : subs_consistent demo_subs.
Proof. split_and!; intros ? ? H; vm_compute in H; discriminate H. Qed.
Lemma demo_opened_consistent : subs_consistent demo_opened.
Proof. apply put_consistent, demo_subs_consistent. Qed.
Lemma demo_clock : clock_ok (demo_start + 15 * Day24).
Proof. vm_compute. split; [discriminate|reflexivity]. Qed.
Lemma demo_fresh_periods : fresh_ids (length (stale_subs "ann" (demo_start + 15 * Day24) demo_opened)) demo_opened.
Proof.
  split; [vm_compute; lia|apply (bool_decide_eq_true _); vm_compute; reflexivity|].
  assert (H : forallb (fun b => bool_decide (sd_periods demo_opened !! uuid_text b = None) && bool_decide (periods (sd_billing demo_opened) !! uuid_text b = None))
    (gd_random (sd_groups demo_opened)) = true) by (vm_compute; reflexivity).
  intros b Hb%list_elem_of_In. rewrite forallb_forall in H. apply H in Hb. by rewrite andb_true_iff, !bool_decide_eq_true in Hb.
Qed.

(** Two weeks later the third period is current. *)
Lemma roll_exact_witness : exists n d' s', rollBillingSubscriptionsTx "ann" (demo_start + 15 * Day24) demo_opened = Ok (n, d') /\
  sd_subs d' !! demo_sub = Some s' /\ sb_enabled s' = true.
Proof.
  destruct (roll_exact "ann" (demo_start + 15 * Day24) demo_opened demo_clock (proj1 demo_opened_consistent) demo_fresh_periods) as (n & d' & Hrun & _ & _ & Hall).
  destruct (sd_subs demo_opened !! demo_sub) as [s|] eqn:Hs; [|vm_compute in Hs; discriminate Hs].
  destruct (Hall demo_sub s Hs) as (s' & Hs' & _ & _ & Hst). exists n, d', s'. split; [exact Hrun|]. split; [exact Hs'|].
  destruct (stale_period (demo_start + 15 * Day24) demo_opened s) as [[pid p]|] eqn:E; [|vm_compute in Hs; injection Hs as <-; vm_compute in E; discriminate E].
  assert (Hu : sb_user s = "ann") by (vm_compute in Hs; injection Hs as <-; reflexivity).
  destruct (Hst pid p Hu eq_refl) as [_ Hr]. destruct (before_deadline (demo_start + 15 * Day24) (sb_expires_at s)) eqn:Ed; [|vm_compute in Hs; injection Hs as <-; vm_compute in Ed; discriminate Ed].
  destruct Hr as (eid & e & new & k & _ & _ & _ & Hen & _). exact Hen.
Defined.

Lemma roll_settles_witness : exists n d', rollBillingSubscriptionsTx "ann" (demo_start + 15 * Day24) demo_opened = Ok (n, d') /\
  rollBillingSubscriptionsTx "ann" (demo_start + 15 * Day24) d' = Ok (0, d').
Proof.
  destruct (roll_run "ann" (demo_start + 15 * Day24) demo_opened demo_clock (proj1 demo_opened_consistent) demo_fresh_periods) as (n & d' & Hrun & _). exists n, d'. split; [exact Hrun|].
  exact (proj2 (roll_settles "ann" (demo_start + 15 * Day24) demo_opened n d' demo_clock (proj1 demo_opened_consistent) demo_fresh_periods Hrun)).
Defined.

Lemma expiry_complete_witness : exists n d', ExpireBillingSubscriptions (demo_start + 84 * Day24) 0 0 demo_opened = ((n, None), d') /\
  (sb_enabled <$> sd_subs d' !! demo_sub) = Some false.
Proof.
  destruct (expiry_complete (demo_start + 84 * Day24) 0 0 demo_opened demo_opened_consistent) as (n & d' & Hrun & _ & Hs).
  - intros u (id & s & Hid & <- & _)%users_with_expired_elem. vm_compute in Hid.
    assert (Hs : s = default s (sd_subs demo_opened !! demo_sub)).
    { pose proof Hid as Hx. change (sd_subs demo_opened !! id = Some s) in Hx. assert (E : sd_subs demo_opened = {[demo_sub := default s (sd_subs demo_opened !! demo_sub)]}) by (vm_compute; reflexivity).
      rewrite E in Hx. apply lookup_singleton_Some in Hx as [_ <-]. reflexivity. }
    rewrite Hs. vm_compute. split; [eauto|]. exists "active". split; [reflexivity|discriminate].
  - vm_compute. discriminate.
  - exists n, d'. split; [exact Hrun|]. rewrite Hs. vm_compute. reflexivity.
Defined.

Lemma subscriptions_covered_witness : is_Some (current_entitlement demo_sub (demo_start + 83 * Day24) demo_opened).
Proof.
  destruct (sd_subs demo_opened !! demo_sub) as [s|] eqn:Hs; [|vm_compute in Hs; discriminate Hs].
  destruct (subscriptions_covered demo_fingerprint (fun _ _ => true) (fun _ => true) demo_subs demo_opened eq_refl eq_refl
    (rtc_once _ _ (Step_put _ _ _ _ demo_start (demo_weekly "op-1" ""))) demo_sub s Hs) as [_ H].
  assert (Hen : sb_enabled s = true) by (vm_compute in Hs; injection Hs as <-; reflexivity).
  destruct (H Hen) as (pid & p & m & Hp & Hq & _ & _ & _ & _ & _ & _ & Hcov). vm_compute in Hs. injection Hs as <-. injection Hp as <-. vm_compute in Hq. injection Hq as <-.
  apply Hcov; vm_compute; [discriminate|reflexivity].
Defined.

Lemma put_opens_witness : exists id s, sd_subs demo_opened !! id = Some s /\ sb_current_number s = 1 /\ sb_expires_at s = Some (demo_start + 84 * Day24).
Proof.
  destruct (demo_put_sub demo_start (demo_weekly "op-1" "") demo_subs) as [[st|e] d'] eqn:E; [|vm_compute in E; discriminate E].
  destruct (put_opens demo_fingerprint (fun _ _ => true) (fun _ => true) demo_start (demo_weekly "op-1" "") st demo_subs d' demo_subs_consistent eq_refl E)
    as (days & allowance & n & id & eid & pid & s & e & Hd & _ & _ & _ & Hs & _ & _ & _ & Hn & _ & Hx & _).
  exists id, s. replace demo_opened with d' by (unfold demo_opened; rewrite E; reflexivity). split; [exact Hs|]. split; [exact Hn|]. rewrite Hx.
  vm_compute in Hd. injection Hd as <-. vm_compute. reflexivity.
Defined.

Lemma subscription_writes_idempotent_witness : exists st,
  demo_put_sub demo_start (demo_weekly "op-1" "") demo_subs = (Ok st, demo_opened) /\
  demo_put_sub (demo_start + Day24) (demo_weekly "op-1" "") demo_opened = (Ok st, demo_opened).
Proof.
  destruct (demo_put_sub demo_start (demo_weekly "op-1" "") demo_subs) as [[st|e] d'] eqn:E; [|vm_compute in E; discriminate E]. exists st.
  replace demo_opened with d' by (unfold demo_opened; rewrite E; reflexivity). split; [reflexivity|].
  apply (proj1 (subscription_writes_idempotent demo_fingerprint (fun _ _ => true) (fun _ => true) demo_start (demo_start + Day24) (demo_weekly "op-1" "") (demo_weekly "op-1" "")
    (demo_write "") (demo_write "") "" "" st demo_subs d')); [|exact E]. repeat split.
Defined.
