(* ===== verification/Plans.v ===== *)
(** * Plans, purchases and source preferences ([internal/store/billing_plans.go],
      [billing_preferences.go])

    The owner keeps a catalog of plans; a user buys one or renews the
    subscription it is bound to with the cash of his account, in one transaction
    with the change of the subscription.  Every write is an operation of the
    billing books: a retry returns the recorded snapshot.  A row of
    [billing_plans] holds its amounts as the text of their columns; an entry of
    the ledger without a user has the empty one. *)
From Stdlib Require Import Ascii QArith.
From S2P Require Import Prelude GoStrings GoTime Amount Store Money Funding BillingTables Charging Settling Accounts Groups Subscriptions.

Definition ErrBillingPlanChanged : store_error := ErrConflict "billing plan or subscription configuration changed".

(** ** The catalog *)

Definition normalizeBillingPlan (p : BillingPlan) : result store_error BillingPlan :=
  let name := trim_space (pl_Name p) in
  if (rune_count name <? 1) || (100 <? rune_count name) then Err (ErrInvalid "plan name must contain 1 to 100 characters") else
  let! days := normalizeBillingPeriodDays (pl_Tier p) (pl_PeriodDays p) in
  let! models := normalizeBillingModels (pl_ModelIDs p) in
  if (pl_MinPeriodCount p <? 1) || (99 <? pl_MinPeriodCount p) then Err (ErrInvalid "minimum purchase count must be between 1 and 99") else
  let! price := map_err (fun _ => ErrInvalid "invalid plan price") (ParseRate (pl_PriceUSD p)) in
  let! allowance := map_err (fun _ => ErrInvalid "invalid plan allowance") (ParseRate (pl_AllowanceUSD p)) in
  Ok {| pl_ID := pl_ID p; pl_Name := name; pl_PriceUSD := price; pl_Tier := pl_Tier p; pl_AllowanceUSD := allowance; pl_MinPeriodCount := pl_MinPeriodCount p;
        pl_Active := pl_Active p; pl_Version := pl_Version p; pl_CreatedAt := pl_CreatedAt p; pl_UpdatedAt := pl_UpdatedAt p; pl_PeriodDays := days;
        pl_ModelIDs := models; pl_DeletedAt := pl_DeletedAt p |}.

(** The CHECK constraints, on the amounts of the row. *)
Definition plan_check (price allowance : Z) (p : BillingPlan) : bool :=
  (1 <=? rune_count (trim_space (pl_Name p))) && (rune_count (trim_space (pl_Name p)) <=? 100) && (0 <? price) && numeric_fits price &&
  tier_days_ok (pl_Tier p) (pl_PeriodDays p) && (0 <? allowance) && numeric_fits allowance && (1 <=? pl_MinPeriodCount p) && (pl_MinPeriodCount p <=? 99) &&
  (0 <? pl_Version p) && int64b (pl_Version p) && negb (bool_decide (pl_ModelIDs p = [])).

(** A row written from the parameters of a statement. *)
Definition plan_row (p : BillingPlan) (id : string) (price allowance version created updated : Z) (deleted : option Z) : BillingPlan :=
  {| pl_ID := id; pl_Name := pl_Name p; pl_PriceUSD := numeric_text price; pl_Tier := pl_Tier p; pl_AllowanceUSD := numeric_text allowance;
     pl_MinPeriodCount := pl_MinPeriodCount p; pl_Active := pl_Active p; pl_Version := version; pl_CreatedAt := created; pl_UpdatedAt := updated;
     pl_PeriodDays := pl_PeriodDays p; pl_ModelIDs := pl_ModelIDs p; pl_DeletedAt := deleted |}.

(** [(name, price_usd, ...) IS DISTINCT FROM (...)]. *)
Definition plan_changed (current next : BillingPlan) : bool :=
  negb (bool_decide (pl_Name current = pl_Name next) && bool_decide (pl_PriceUSD current = pl_PriceUSD next) && bool_decide (pl_Tier current = pl_Tier next) &&
        bool_decide (pl_AllowanceUSD current = pl_AllowanceUSD next) && (pl_MinPeriodCount current =? pl_MinPeriodCount next) &&
        bool_decide (pl_Active current = pl_Active next) && (pl_PeriodDays current =? pl_PeriodDays next) && bool_decide (pl_ModelIDs current = pl_ModelIDs next)).

Definition billingPlanAuditMetadata (plan : BillingPlan) : metadata_value :=
  MetaObject [("id", MetaString (pl_ID plan)); ("name", MetaString (pl_Name plan)); ("price_usd", MetaString (pl_PriceUSD plan)); ("tier", MetaString (pl_Tier plan));
    ("allowance_usd", MetaString (pl_AllowanceUSD plan)); ("min_period_count", MetaInt (pl_MinPeriodCount plan)); ("active", MetaBool (pl_Active plan));
    ("version", MetaInt (pl_Version plan)); ("period_days", MetaInt (pl_PeriodDays plan)); ("model_ids", MetaStrings (pl_ModelIDs plan))].

Definition bool_text (b : bool) : string := if b then "true" else "false".

Definition plan_snapshot (p : BillingPlan) : billingTransactionSnapshot :=
  {| ts_Plan := Some p; ts_PeriodCount := 0; ts_TotalUSD := ""; ts_BalanceUSD := ""; ts_Subscription := None; ts_Cash := None |}.

(** The snapshot of a replayed entry. *)
Definition entry_snapshot (id : Z) (d : sub_db) : option billingTransactionSnapshot := sd_ledger_extra d !! id ≫= lx_snapshot.

Section plans.
Context (fingerprint : list string -> string) (session_of : string -> string -> bool) (inet_ok : string -> bool).

Definition sub_audit (w : BillingWriteParams) (eventType subjectType subjectID : string) (m : list (string * metadata_value)) : tx sub_db unit :=
  let* metadata := tlift (marshalSafeMetadata m) in
  in_billing (appendBillingAuditTx session_of inet_ok w eventType subjectType subjectID metadata).

(** [INSERT INTO billing_ledger_entries (operation_id, ..., transaction_snapshot)]
    without a user, the finished operation and its audit event. *)
Definition record_plan_operation (w : BillingWriteParams) (operation kind subject : string) (plan : BillingPlan) : tx sub_db unit :=
  let* (id, _) := record_sub_operation operation "" w kind 0 {| lx_tier := None; lx_period := None; lx_snapshot := Some (plan_snapshot plan) |} in
  in_billing (finishBillingOperationTx (OperationID w) id) ;;
  sub_audit w ("billing." +:+ kind) "billing_plan" subject [("operation_id", MetaString (OperationID w)); ("plan", billingPlanAuditMetadata plan)].

(** A retried catalog write. *)
Definition replay_plan (id : Z) (missing : string) : tx sub_db BillingPlan :=
  let* (id, _) := in_billing (replayBillingLedgerTx id) in
  let* snap := tgets (entry_snapshot id) in
  match snap with
  | None => tfail (ErrOther "read plan operation snapshot")
  | Some s => match ts_Plan s with Some p => tret p | None => tfail (ErrConflict missing) end
  end.

Definition insert_plan (w : BillingWriteParams) (plan : BillingPlan) : tx sub_db BillingPlan :=
  let* price := sub_numeric "save billing plan" (pl_PriceUSD plan) in
  let* allowance := sub_numeric "save billing plan" (pl_AllowanceUSD plan) in
  let* id := in_groups newUUID in
  let* d := tgets (fun d => d) in
  let row := plan_row plan id price allowance 1 (At w) (At w) None in
  tguard (plan_check price allowance row) (ErrInvalid "save billing plan") ;;
  tguard (bool_decide (sd_plans d !! id = None)) (ErrConflict "save billing plan") ;;
  tguard (bool_decide (is_Some (users (sd_billing d) !! ActorUserID w))) (ErrInvalid "save billing plan") ;;
  tmod (set_plans (<[id := row]> (sd_plans d))) ;;
  tret row.

Definition update_plan (w : BillingWriteParams) (plan : BillingPlan) : tx sub_db BillingPlan :=
  let* d := tgets (fun d => d) in
  let* current := tsome "lock billing plan" (sd_plans d !! pl_ID plan) in
  tguard (is_nil (pl_DeletedAt current) && (pl_Version current =? pl_Version plan)) ErrBillingPlanChanged ;;
  let* price := sub_numeric "save billing plan" (pl_PriceUSD plan) in
  let* allowance := sub_numeric "save billing plan" (pl_AllowanceUSD plan) in
  let next v := plan_row plan (pl_ID current) price allowance v (pl_CreatedAt current) (At w) (pl_DeletedAt current) in
  let row := next (pl_Version current + if plan_changed current (next 1) then 1 else 0) in
  tguard (plan_check price allowance row) (ErrInvalid "save billing plan") ;;
  tguard (bool_decide (is_Some (users (sd_billing d) !! ActorUserID w))) (ErrInvalid "save billing plan") ;;
  tmod (set_plans (<[pl_ID plan := row]> (sd_plans d))) ;;
  tret row.

Definition write_plan_body (w : BillingWriteParams) (plan : BillingPlan) (create : bool) : tx sub_db BillingPlan :=
  let opType := if create then "plan_create" else "plan_update" in
  let fp := fingerprint [opType; ActorUserID w; Reason w; pl_ID plan; int_text (pl_Version plan); pl_Name plan; pl_PriceUSD plan; pl_Tier plan; pl_AllowanceUSD plan;
    int_text (pl_MinPeriodCount plan); bool_text (pl_Active plan); int_text (pl_PeriodDays plan); join "," (pl_ModelIDs plan)] in
  let* replay := in_billing (claimBillingOperationTx w opType "" fp []) in
  match replay with
  | Some id => replay_plan id "plan operation snapshot missing"
  | None =>
      in_groups (validateBillingModelsTx (pl_ModelIDs plan)) ;;
      let* result := (if create then insert_plan w plan else update_plan w plan) in
      record_plan_operation w "record plan ledger" opType (pl_ID result) result ;;
      tret result
  end.

Definition writeBillingPlan (clock : Z) (w : BillingWriteParams) (plan : BillingPlan) (create : bool) (d : sub_db) : result store_error BillingPlan * sub_db :=
  match (let! _ := validateBillingWrite w in normalizeBillingPlan plan) with
  | Err e => (Err e, d)
  | Ok plan => withTx (write_plan_body (normalized clock w) plan create) d
  end.

Record PlanParams := {
  cp_write : BillingWriteParams;
  cp_PeriodDays : Z;
  cp_ModelIDs : list string;
  cp_Name : string;
  cp_PriceUSD : string;
  cp_Tier : string;
  cp_AllowanceUSD : string;
  cp_MinPeriodCount : Z;
  cp_Active : bool;
}.
Definition params_plan (p : PlanParams) (id : string) (version minimum : Z) : BillingPlan :=
  {| pl_ID := id; pl_Name := cp_Name p; pl_PriceUSD := cp_PriceUSD p; pl_Tier := cp_Tier p; pl_AllowanceUSD := cp_AllowanceUSD p; pl_MinPeriodCount := minimum;
     pl_Active := cp_Active p; pl_Version := version; pl_CreatedAt := 0; pl_UpdatedAt := 0; pl_PeriodDays := cp_PeriodDays p; pl_ModelIDs := cp_ModelIDs p;
     pl_DeletedAt := None |}.
Definition CreateBillingPlan (clock : Z) (p : PlanParams) (d : sub_db) : result store_error BillingPlan * sub_db :=
  writeBillingPlan clock (cp_write p) (params_plan p "" 0 (if cp_MinPeriodCount p =? 0 then 1 else cp_MinPeriodCount p)) true d.
Definition UpdateBillingPlan (clock : Z) (p : PlanParams) (planID : string) (version : Z) (d : sub_db) : result store_error BillingPlan * sub_db :=
  if empty planID || (version <? 1) then (Err (ErrInvalid "plan and version are required"), d) else
  writeBillingPlan clock (cp_write p) (params_plan p planID version (cp_MinPeriodCount p)) false d.

(** The plan and its bindings. *)
Definition sub_detach (version : Z) (s : subscription_row) : subscription_row :=
  {| sb_user := sb_user s; sb_name := sb_name s; sb_tier := sb_tier s; sb_enabled := sb_enabled s; sb_allowance := sb_allowance s;
     sb_current_period := sb_current_period s; sb_period_count := sb_period_count s; sb_current_number := sb_current_number s; sb_expires_at := sb_expires_at s;
     sb_disabled_at := sb_disabled_at s; sb_created_at := sb_created_at s; sb_updated_at := sb_updated_at s; sb_period_days := sb_period_days s;
     sb_model_ids := sb_model_ids s; sb_models_initialized := sb_models_initialized s; sb_charge_enabled := sb_charge_enabled s; sb_priority := sb_priority s;
     sb_plan := None; sb_config_version := version |}.
Definition bound_subs (planID : string) (d : sub_db) : list string :=
  omap (fun kv => match sb_plan kv.2 with Some b => if bool_decide (b.1 = planID) then Some kv.1 else None | None => None end) (map_to_list (sd_subs d)).
Fixpoint detach_each (l : list string) : tx sub_db unit :=
  match l with
  | [] => tret tt
  | id :: rest => let* version := next_config_version in update_sub "detach deleted plan subscriptions" id (sub_detach version) ;; detach_each rest
  end.

Definition deleted_plan (p : BillingPlan) (at_ : Z) : BillingPlan :=
  {| pl_ID := pl_ID p; pl_Name := pl_Name p; pl_PriceUSD := pl_PriceUSD p; pl_Tier := pl_Tier p; pl_AllowanceUSD := pl_AllowanceUSD p;
     pl_MinPeriodCount := pl_MinPeriodCount p; pl_Active := false; pl_Version := pl_Version p + 1; pl_CreatedAt := pl_CreatedAt p; pl_UpdatedAt := at_;
     pl_PeriodDays := pl_PeriodDays p; pl_ModelIDs := pl_ModelIDs p; pl_DeletedAt := Some at_ |}.

Definition delete_plan_body (w : BillingWriteParams) (planID : string) (version : Z) : tx sub_db BillingPlan :=
  let fp := fingerprint ["plan_delete"; ActorUserID w; planID; int_text version; Reason w] in
  let* replay := in_billing (claimBillingOperationTx w "plan_delete" "" fp []) in
  match replay with
  | Some id => replay_plan id "missing deleted plan snapshot"
  | None =>
      let* d := tgets (fun d => d) in
      let* current := tsome "lock plan for deletion" (sd_plans d !! planID) in
      tguard (is_nil (pl_DeletedAt current) && (pl_Version current =? version)) ErrBillingPlanChanged ;;
      let result := deleted_plan current (At w) in
      tguard (int64b (pl_Version result) && bool_decide (is_Some (users (sd_billing d) !! ActorUserID w))) (ErrInvalid "delete billing plan") ;;
      tmod (set_plans (<[planID := result]> (sd_plans d))) ;;
      detach_each (bound_subs planID d) ;;
      record_plan_operation w "record deleted plan ledger" "plan_delete" planID result ;;
      tret result
  end.
Definition DeleteBillingPlan (clock : Z) (w : BillingWriteParams) (planID : string) (version : Z) (d : sub_db) : result store_error BillingPlan * sub_db :=
  match validateBillingWrite w with
  | Err e => (Err e, d)
  | Ok _ =>
      if empty planID || (version <? 1) then (Err (ErrInvalid "plan and version required"), d) else
      withTx (delete_plan_body (normalized clock w) planID version) d
  end.

(** ** Buying and renewing *)

Definition billingPlanTotal (price : string) (count : Z) : result store_error string :=
  let! value := billingRat price in
  let total := FloatString (Qmult value (inject_Z count)) AmountScale in
  match ParsePrice total with Ok _ => Ok total | Err _ => Err (ErrInvalid "purchase total exceeds supported range") end.

(** The debit of the cash lots, oldest first. *)
Fixpoint debit_plan_lots (lots : list (Z * lot_row)) (needed : string) : tx billing_db string :=
  match lots with
  | [] => tret needed
  | (id, lot) :: rest =>
      if negb (billingPositive needed) then tret needed else
      let* deduction := money (billingMin (numeric_text (lot_remaining lot)) needed) in
      let* n := numeric_arg "debit purchase cash lot" deduction in
      update_one "debit purchase cash lot" cash_lots set_lots id
        (fun l => Lot (lot_user l) (lot_sequence l) (source_ledger_entry_id l) (original_usd l) (lot_remaining l - n) (lot_created_at l))
        lot_check ;;
      let* needed := money (billingSubtract needed deduction) in
      debit_plan_lots rest needed
  end.
Definition debitBillingPlanCashTx (userID total : string) (at_ : Z) : tx billing_db string :=
  let* accounts := tgets billing_accounts in
  let* a := tsome "read purchase balance" (accounts !! userID) in
  let* updated := money (billingSubtract (numeric_text (balance_usd a)) total) in
  let* amount := money (billingRat updated) in
  tguard (negb (rat_gtb 0%Q amount)) (ErrInsufficientFunds 0) ;;
  let* lots := tgets (user_lots userID None) in
  let* needed := debit_plan_lots lots total in
  tguard (negb (billingPositive needed)) (ErrConflict "cash lots do not reconcile with account") ;;
  let* b := numeric_arg "update purchase balance" updated in
  update_one "update purchase balance" billing_accounts set_accounts userID (fun a => Account b (next_cash_lot_sequence a) at_) account_check ;;
  tret updated.

Record BillingPlanTransaction := {
  bt_Plan : BillingPlan;
  bt_PeriodCount : Z;
  bt_TotalUSD : string;
  bt_BalanceUSD : string;
  bt_Subscription : BillingSubscriptionState;
  bt_Ledger : Z * ledger_row;
}.

(** The term is longer; the current period stays as it is. *)
Definition sub_extend (count : Z) (expiry : option Z) (at_ version config : Z) (s : subscription_row) : subscription_row :=
  {| sb_user := sb_user s; sb_name := sb_name s; sb_tier := sb_tier s; sb_enabled := sb_enabled s; sb_allowance := sb_allowance s;
     sb_current_period := sb_current_period s; sb_period_count := sb_period_count s + count; sb_current_number := sb_current_number s; sb_expires_at := expiry;
     sb_disabled_at := sb_disabled_at s; sb_created_at := sb_created_at s; sb_updated_at := at_; sb_period_days := sb_period_days s;
     sb_model_ids := sb_model_ids s; sb_models_initialized := sb_models_initialized s; sb_charge_enabled := sb_charge_enabled s; sb_priority := sb_priority s;
     sb_plan := (fun b => (b.1, version)) <$> sb_plan s; sb_config_version := config |}.

Definition renew_subscription (w : BillingWriteParams) (userID subscriptionID : string) (plan : BillingPlan) (count : Z) : tx sub_db BillingSubscriptionState :=
  let* _ := rollBillingSubscriptionsTx userID (At w) in
  let* subscription := readBillingSubscriptionStateTx userID subscriptionID (At w) in
  match ss_CanRenew subscription, ss_Plan subscription, ss_ExpiresAt subscription with
  | true, Some bound, Some expiresAt =>
      tguard (bool_decide (pl_ID bound = pl_ID plan)) ErrBillingPlanChanged ;;
      tguard (negb (max_int32 - count <? ss_PeriodCount subscription)) (ErrInvalid "subscription period count exceeds supported range") ;;
      let* (_, expiry) := insertBillingEntitlementTx userID (ss_ID subscription) expiresAt (pl_Tier plan) (pl_PeriodDays plan) count
        (ss_PeriodCount subscription + 1) (pl_AllowanceUSD plan) (pl_ModelIDs plan) (Some plan) (At w) in
      let* config := next_config_version in
      update_sub "extend plan subscription" (ss_ID subscription) (sub_extend count expiry (At w) (pl_Version plan) config) ;;
      readBillingSubscriptionStateTx userID subscriptionID (At w)
  | _, _, _ => tfail ErrBillingPlanChanged
  end.

Definition purchase_params (w : BillingWriteParams) (userID : string) (plan : BillingPlan) (count : Z) : PutSubscriptionParams :=
  {| pp_write := w; pp_UserID := userID; pp_SubscriptionID := ""; pp_Name := pl_Name plan; pp_Tier := pl_Tier plan; pp_PeriodDays := pl_PeriodDays plan;
     pp_ModelIDs := pl_ModelIDs plan; pp_AllowanceUSD := pl_AllowanceUSD plan; pp_PeriodCount := count |}.

(** A retried purchase or renewal. *)
Definition replay_transaction (id : Z) : tx sub_db BillingPlanTransaction :=
  let* (id, entry) := in_billing (replayBillingLedgerTx id) in
  let* snap := tgets (entry_snapshot id) in
  match snap with
  | None => tfail (ErrOther "read plan transaction snapshot")
  | Some s =>
      match ts_Plan s, ts_Subscription s with
      | Some plan, Some subscription => tret {| bt_Plan := plan; bt_PeriodCount := ts_PeriodCount s; bt_TotalUSD := ts_TotalUSD s; bt_BalanceUSD := ts_BalanceUSD s;
          bt_Subscription := subscription; bt_Ledger := (id, entry) |}
      | _, _ => tfail (ErrConflict "plan transaction snapshot missing")
      end
  end.

(** The plan a renewal is bound to. *)
Definition bound_plan (userID subscriptionID : string) (d : sub_db) : option string :=
  s ← sd_subs d !! subscriptionID; if bool_decide (sb_user s = userID) then fst <$> sb_plan s else None.

Definition quoted_plan (userID planID subscriptionID : string) (planVersion configVersion count : Z) (renew : bool) : tx sub_db BillingPlan :=
  let* d := tgets (fun d => d) in
  let* planID := (if renew then match bound_plan userID subscriptionID d with Some id => tret id | None => tfail ErrBillingPlanChanged end else tret planID) in
  let* plan := (match sd_plans d !! planID with Some p => tret p | None => tfail ErrBillingPlanChanged end) in
  tguard (is_nil (pl_DeletedAt plan) && (renew || pl_Active plan) && (pl_Version plan =? planVersion)) ErrBillingPlanChanged ;;
  tguard (pl_MinPeriodCount plan <=? count) (ErrInvalid "quantity is below the plan minimum") ;;
  (if renew then
     let* s := tsome "lock renewal subscription" (sd_subs d !! subscriptionID) in
     tguard (sb_config_version s =? configVersion) ErrBillingPlanChanged
   else tret tt) ;;
  tret plan.

Definition transact_body (w : BillingWriteParams) (userID planID subscriptionID : string) (planVersion configVersion count : Z) (renew : bool)
  : tx sub_db BillingPlanTransaction :=
  let opType := if renew then "plan_renewal" else "plan_purchase" in
  let fp := fingerprint [opType; ActorUserID w; userID; Reason w; planID; subscriptionID; int_text planVersion; int_text configVersion; int_text count] in
  in_billing (lockBillingAccountTx userID) ;;
  let* replay := in_billing (claimBillingOperationTx w opType userID fp []) in
  match replay with
  | Some id => replay_transaction id
  | None =>
      let* plan := quoted_plan userID planID subscriptionID planVersion configVersion count renew in
      let* subscription := (if renew then renew_subscription w userID subscriptionID plan count
                            else reopenBillingSubscriptionTx (purchase_params w userID plan count) (pl_AllowanceUSD plan) (Some plan)) in
      let* total := tlift (billingPlanTotal (pl_PriceUSD plan) count) in
      let* balance := in_billing (debitBillingPlanCashTx userID total (At w)) in
      let* n := sub_numeric "record plan transaction ledger" total in
      let* b := sub_numeric "record plan transaction ledger" balance in
      let* (id, entry) := in_billing (insert_operation_entry "record plan transaction ledger" (operation_entry userID w opType n (- n) (Some b) None None)) in
      tmod (fun d => set_ledger_extra (<[id := {| lx_tier := Some (pl_Tier plan); lx_period := ss_PeriodID subscription;
        lx_snapshot := Some {| ts_Plan := Some plan; ts_PeriodCount := count; ts_TotalUSD := total; ts_BalanceUSD := balance; ts_Subscription := Some subscription; ts_Cash := None |} |}]>
        (sd_ledger_extra d)) d) ;;
      in_billing (finishBillingOperationTx (OperationID w) id) ;;
      sub_audit w ("billing." +:+ opType) "subscription" (ss_ID subscription)
        [("operation_id", MetaString (OperationID w)); ("plan", billingPlanAuditMetadata plan); ("period_count", MetaInt count); ("total_usd", MetaString total)] ;;
      tret {| bt_Plan := plan; bt_PeriodCount := count; bt_TotalUSD := total; bt_BalanceUSD := balance; bt_Subscription := subscription; bt_Ledger := (id, entry) |}
  end.

Definition transactBillingPlan (clock : Z) (w : BillingWriteParams) (userID planID subscriptionID : string) (planVersion configVersion count : Z) (renew : bool) (d : sub_db)
  : result store_error BillingPlanTransaction * sub_db :=
  match validateBillingWrite w with
  | Err e => (Err e, d)
  | Ok _ =>
      if empty userID || negb (bool_decide (userID = ActorUserID w)) || (planVersion <? 1) || (configVersion <? 0) || (count <? 1) || (99 <? count)
      then (Err (ErrInvalid "invalid plan transaction"), d) else
      withTx (transact_body (normalized clock w) userID planID subscriptionID planVersion configVersion count renew) d
  end.
Definition PurchaseBillingPlan (clock : Z) (w : BillingWriteParams) (userID planID : string) (planVersion count : Z) (d : sub_db)
  : result store_error BillingPlanTransaction * sub_db :=
  if empty planID then (Err (ErrInvalid "plan is required"), d) else
  transactBillingPlan clock w userID planID "" planVersion 0 count false d.
Definition RenewBillingSubscription (clock : Z) (w : BillingWriteParams) (userID subscriptionID : string) (planVersion configVersion count : Z) (d : sub_db)
  : result store_error BillingPlanTransaction * sub_db :=
  if empty subscriptionID then (Err (ErrInvalid "subscription ID is required"), d) else
  transactBillingPlan clock w userID "" subscriptionID planVersion configVersion count true d.

(** ** Which sources pay, and in which order *)

Record billingPreferencesSnapshot := { ps_Subscription : option BillingSubscriptionState; ps_Cash : option BillingCashPreferences }.

Definition sub_prefer (priority : Z) (enabled : bool) (at_ : Z) (s : subscription_row) : subscription_row :=
  {| sb_user := sb_user s; sb_name := sb_name s; sb_tier := sb_tier s; sb_enabled := sb_enabled s; sb_allowance := sb_allowance s;
     sb_current_period := sb_current_period s; sb_period_count := sb_period_count s; sb_current_number := sb_current_number s; sb_expires_at := sb_expires_at s;
     sb_disabled_at := sb_disabled_at s; sb_created_at := sb_created_at s; sb_updated_at := at_; sb_period_days := sb_period_days s;
     sb_model_ids := sb_model_ids s; sb_models_initialized := sb_models_initialized s; sb_charge_enabled := enabled; sb_priority := priority; sb_plan := sb_plan s;
     sb_config_version := sb_config_version s |}.

Definition save_preferences (w : BillingWriteParams) (userID subscriptionID : string) (priority : Z) (enabled : bool) : tx sub_db billingPreferencesSnapshot :=
  if empty subscriptionID then
    tmod (fun d => set_flags (let f := default default_flags (sd_flags d !! userID) in
      <[userID := {| af_day := af_day f; af_week := af_week f; af_month := af_month f; af_cash := negb enabled; af_cash_priority := priority |}]> (sd_flags d)) d) ;;
    in_billing (update_one "save cash preferences" billing_accounts set_accounts userID
      (fun a => Account (balance_usd a) (next_cash_lot_sequence a) (At w)) account_check) ;;
    tret {| ps_Subscription := None; ps_Cash := Some {| bp_Priority := priority; bp_ChargeEnabled := enabled |} |}
  else
    let* _ := rollBillingSubscriptionsTx userID (At w) in
    let* d := tgets (fun d => d) in
    tguard (match sd_subs d !! subscriptionID with Some s => bool_decide (sb_user s = userID) && sb_enabled s | None => false end)
      (ErrNotFound "save subscription preferences") ;;
    update_sub "save subscription preferences" subscriptionID (sub_prefer priority enabled (At w)) ;;
    let* value := readBillingSubscriptionStateTx userID subscriptionID (At w) in
    tret {| ps_Subscription := Some value; ps_Cash := None |}.

Definition pref_snapshot (s : billingPreferencesSnapshot) : billingTransactionSnapshot :=
  {| ts_Plan := None; ts_PeriodCount := 0; ts_TotalUSD := ""; ts_BalanceUSD := ""; ts_Subscription := ps_Subscription s; ts_Cash := ps_Cash s |}.

(** A retried change of preferences. *)
Definition replay_preferences (id : Z) (subscriptionID : string) : tx sub_db billingPreferencesSnapshot :=
  let* (id, _) := in_billing (replayBillingLedgerTx id) in
  let* snap := tgets (entry_snapshot id) in
  match snap with
  | None => tfail (ErrOther "unexpected end of JSON input")
  | Some s =>
      let result := {| ps_Subscription := ts_Subscription s; ps_Cash := ts_Cash s |} in
      tguard (if empty subscriptionID then negb (is_nil (ps_Cash result)) else negb (is_nil (ps_Subscription result))) (ErrConflict "missing preferences snapshot") ;;
      tret result
  end.

Definition preferences_body (w : BillingWriteParams) (userID subscriptionID : string) (priority : Z) (enabled : bool) : tx sub_db billingPreferencesSnapshot :=
  let op := if empty subscriptionID then "cash_preferences" else "subscription_preferences" in
  let fp := fingerprint [op; userID; subscriptionID; int_text priority; bool_text enabled; Reason w] in
  in_billing (lockBillingAccountTx userID) ;;
  let* replay := in_billing (claimBillingOperationTx w op userID fp []) in
  match replay with
  | Some id => replay_preferences id subscriptionID
  | None =>
      let* result := save_preferences w userID subscriptionID priority enabled in
      let* (id, _) := record_sub_operation "record preferences ledger" userID w op 0 {| lx_tier := None; lx_period := None; lx_snapshot := Some (pref_snapshot result) |} in
      in_billing (finishBillingOperationTx (OperationID w) id) ;;
      sub_audit w ("billing." +:+ op) "billing_preferences" (if empty subscriptionID then userID else subscriptionID)
        [("priority", MetaInt priority); ("charge_enabled", MetaBool enabled); ("operation_id", MetaString (OperationID w))] ;;
      tret result
  end.
Definition setBillingPreferences (clock : Z) (w : BillingWriteParams) (userID subscriptionID : string) (priority : Z) (enabled : bool) (d : sub_db)
  : result store_error billingPreferencesSnapshot * sub_db :=
  match validateBillingWrite w with
  | Err e => (Err e, d)
  | Ok _ =>
      if empty userID || negb (bool_decide (ActorUserID w = userID)) || (priority <? 1) || (100 <? priority)
      then (Err (ErrInvalid "preferences require their owner and priority between 1 and 100"), d) else
      withTx (preferences_body (normalized clock w) userID subscriptionID priority enabled) d
  end.
Definition SetBillingSubscriptionPreferences (clock : Z) (w : BillingWriteParams) (userID subscriptionID : string) (priority : Z) (enabled : bool) (d : sub_db)
  : result store_error (option BillingSubscriptionState) * sub_db :=
  if empty subscriptionID then (Err (ErrInvalid "subscription ID required"), d) else
  match setBillingPreferences clock w userID subscriptionID priority enabled d with
  | (Ok snap, d') => (Ok (ps_Subscription snap), d')
  | (Err e, d') => (Err e, d')
  end.
Definition SetBillingCashPreferences (clock : Z) (w : BillingWriteParams) (userID : string) (priority : Z) (enabled : bool) (d : sub_db)
  : result store_error (option BillingCashPreferences) * sub_db :=
  match setBillingPreferences clock w userID "" priority enabled d with
  | (Ok snap, d') => (Ok (ps_Cash snap), d')
  | (Err e, d') => (Err e, d')
  end.
End plans.

(** ** The money of a purchase *)

Lemma plan_total_text n count : billingPlanTotal (numeric_text n) count =
  match ParsePrice (numeric_text (n * count)) with Ok _ => Ok (numeric_text (n * count)) | Err _ => Err (ErrInvalid "purchase total exceeds supported range") end.
Proof.
  unfold billingPlanTotal, billingRat. rewrite rat_numeric_text. cbn [rbind]. rewrite (FloatString_exact _ (n * count) AmountScale); [done|].
  unfold Qeq, Qmult, inject_Z, scaled. cbn [Qnum Qden]. lia.
Qed.

(** The loop is the one of an adjustment, with its own error. *)
Lemma debit_plan_lots_run lots : forall s d r, debit_lots lots s d = Ok r -> debit_plan_lots lots s d = Ok r.
Proof.
  induction lots as [|[id l] lots IH]; intros s d [r d'] H; [done|]. cbn [debit_lots debit_plan_lots] in *. destruct (negb (billingPositive s)); [done|].
  apply tbind_Ok in H as (deduction & d1 & H1 & H). rewrite (tbind_run _ _ _ _ _ H1). apply tbind_Ok in H as (n & d2 & H2 & H). unfold numeric_arg in *.
  destruct (numeric_of deduction) as [n'|]; [|done]. injection H2 as -> ->. rewrite tret_bind. apply tbind_Ok in H as (u & d3 & H3 & H). unfold update_one in *. rewrite tgets_bind in H3.
  unfold tbind at 1. rewrite tgets_bind. destruct (update_rows _ _ _ _ _) as [[m rows]|]; [|done]. injection H3 as <- <-. cbn [tmod].
  apply tbind_Ok in H as (s' & d4 & H4 & H). rewrite (tbind_run _ _ _ _ _ H4). by apply IH.
Qed.

(** What a debit of [n] leaves of the money tables. *)
Definition debited (user : string) (n at_ : Z) (b b' : billing_db) : Prop :=
  exists a L, billing_accounts b !! user = Some a /\ n <= balance_usd a /\
    b' = set_accounts (<[user := Account (balance_usd a - n) (next_cash_lot_sequence a) at_]> (billing_accounts b)) (set_lots L b) /\
    (forall u, cash_total u L = cash_total u (cash_lots b) - (if bool_decide (u = user) then n else 0)) /\
    (forall id, option_Forall2 lot_shrinks (cash_lots b !! id) (L !! id)) /\ (forall id l, L !! id = Some l -> lot_check l = true).

Lemma debit_cash_run user n at_ b a : money_inv b -> billing_accounts b !! user = Some a -> 0 <= n ->
  if balance_usd a <? n then debitBillingPlanCashTx user (numeric_text n) at_ b = Err (ErrInsufficientFunds 0)
  else exists b', debitBillingPlanCashTx user (numeric_text n) at_ b = Ok (numeric_text (balance_usd a - n), b') /\ debited user n at_ b b'.
Proof.
  intros M Ha Hn. destruct (inv_account b M user a Ha) as [Ka Hbal]. pose proof (rat_gtb_zero (balance_usd a - n)) as Hz.
  destruct (Z.ltb_spec (balance_usd a) n); unfold debitBillingPlanCashTx; rewrite tgets_bind, Ha; unfold tsome at 1; rewrite tret_bind;
    unfold money; rewrite billingSubtract_text, tlift_Ok_bind; unfold billingRat; rewrite rat_numeric_text, tlift_Ok_bind, tguard_bind, <- Hz.
  { by replace (balance_usd a - n <? 0) with true by lia. }
  replace (balance_usd a - n <? 0) with false by lia. cbn [negb].
  rewrite tgets_bind. destruct (debit_covers b user n M ltac:(lia)) as (L & Hrun & H1 & H2 & H3). rewrite (tbind_run _ _ _ _ _ (debit_plan_lots_run _ _ _ _ Hrun)).
  rewrite tguard_bind, billingPositive_text. cbn [Z.ltb negb]. rewrite numeric_arg_bind. rewrite (update_one_eq _ _ _ _ _ _ _ a) by (btables; done).
  assert (Hck : account_check (Account (balance_usd a - n) (next_cash_lot_sequence a) at_) = true).
  { unfold account_check in *. cbn. breflect. rewrite (numeric_fits_le _ (balance_usd a)) by (done || lia). lia. }
  rewrite Hck. eexists. split; [reflexivity|]. exists a, L. split_and!; try done.
Qed.

Lemma debit_cash_Ok user n at_ b r b' : money_inv b -> 0 <= n -> debitBillingPlanCashTx user (numeric_text n) at_ b = Ok (r, b') ->
  debited user n at_ b b' /\ exists a, billing_accounts b !! user = Some a /\ r = numeric_text (balance_usd a - n).
Proof.
  intros M Hn H. destruct (billing_accounts b !! user) as [a|] eqn:Ha; [|unfold debitBillingPlanCashTx in H; rewrite tgets_bind, Ha in H; done].
  pose proof (debit_cash_run user n at_ b a M Ha Hn) as Hr. destruct (balance_usd a <? n); [congruence|]. destruct Hr as (b1 & Hr & D). rewrite H in Hr. injection Hr as -> ->. eauto.
Qed.

Lemma debited_inv user n at_ b b' : money_inv b -> 0 <= n -> debited user n at_ b b' -> money_inv b'.
Proof.
  intros M Hn (a & L & Ha & Hle & -> & H1 & H2 & H3). eapply money_inv_ext; [..|apply (money_inv_debit b user a n L at_ M Ha ltac:(lia) H1 H2 H3)]; done.
Qed.

(** ** The subscription rows *)

(** The columns the consistency of a subscription depends on. *)
Definition same_terms (s s' : subscription_row) : Prop :=
  sb_user s' = sb_user s /\ sb_enabled s' = sb_enabled s /\ sb_current_period s' = sb_current_period s /\ sb_period_count s' = sb_period_count s /\
  sb_expires_at s' = sb_expires_at s /\ sb_models_initialized s' = sb_models_initialized s.

Lemma touched_consistent id d s s' : subs_consistent d -> sd_subs d !! id = Some s -> same_terms s s' -> subscription_check s' = true ->
  subs_consistent (set_subs (<[id := s']> (sd_subs d)) d).
Proof.
  intros C Hs (E1 & E2 & E3 & E4 & E5 & E6) Hc. destruct C as (I & O & P) eqn:EC. clear EC. destruct (I id s Hs) as (_ & Hseg & Hcur).
  eapply (consistent_others id d); [done|apply others_update|stables; apply lookup_insert_eq| |].
  - split_and!; [done| |].
    + intros i e He Hsub Hl. specialize (Hseg i e He Hsub Hl). unfold segment_ok in *. by rewrite E6, E4.
    + rewrite E2. intros Hen. destruct (Hcur Hen) as (pid & p & m & []). exists pid, p, m. split; rewrite ?E1, ?E3, ?E5; done.
  - intros pid. rewrite E3. intros Hp. by apply (P id s Hs pid).
Qed.

Lemma update_terms_consistent op id f d u d' : subs_consistent d -> (forall s, same_terms s (f s)) -> update_sub op id f d = Ok (u, d') -> subs_consistent d'.
Proof.
  intros C Hf [[_ ->]|(s & Hs & Hc & ->)]%update_sub_Ok; [by destruct d|]. by eapply touched_consistent.
Qed.

Lemma detach_consistent l : forall d u d', subs_consistent d -> detach_each l d = Ok (u, d') -> subs_consistent d'.
Proof.
  induction l as [|id l IH]; intros d u d' C H; [by injection H as _ <-|]. cbn [detach_each] in H. apply tbind_Ok in H as (v & d1 & H1 & H). apply same_next_version in H1.
  apply tbind_Ok in H as (? & d2 & H2 & H). eapply IH; [|exact H]. eapply update_terms_consistent; [by eapply consistent_same| |exact H2]. by intros s.
Qed.

(** An extended term: one more segment where the last one ends. *)
Lemma extended_consistent id d d1 d' s t e eid count config at_ version :
  subs_consistent d -> sd_subs d !! id = Some s -> sb_enabled s = true -> sb_expires_at s = Some t -> sd_entitlements d !! eid = None ->
  sd_entitlements d1 = <[eid := e]> (sd_entitlements d) -> sd_subs d1 = sd_subs d -> sd_periods d1 = sd_periods d -> periods (sd_billing d1) = periods (sd_billing d) ->
  en_subscription e = id -> en_starts e = t -> en_ends e = Some (t + en_days e * count * Day24) -> en_count e = count -> en_first e = sb_period_count s + 1 ->
  en_superseded e = None -> en_models e <> [] -> entitlement_check e = true -> sub_time t -> t + en_days e * count * Day24 < year10000 -> 0 < count ->
  subscription_check (sub_extend count (en_ends e) at_ version config s) = true ->
  same_subs (set_subs (<[id := sub_extend count (en_ends e) at_ version config s]> (sd_subs d1)) d1) d' -> subs_consistent d'.
Proof.
  intros C Hs Hen Hx Hn E1 S1 P1 M1 He1 He2 He3 He4 He5 He6 He7 Hec Ht Hy Hcount Hck S. eapply consistent_same; [exact S|].
  destruct C as (I & O & P) eqn:EC. clear EC. destruct (I id s Hs) as (Hc & Hseg & Hcur). destruct (Hcur Hen) as (pid & p & m & [H1 H2 H3 H4 [H5 H5'] H6 H7 H8]).
  assert (K : others_kept id d d1) by (eapply others_insert_segment; eauto). rewrite S1.
  eapply (consistent_others id d); [done| |stables; apply lookup_insert_eq| |].
  - transitivity d1; [done|]. rewrite <- S1. apply others_update.
  - split_and!; [done| |].
    + intros i x. stables. rewrite E1. intros [[<- <-]|[_ Hi]]%lookup_insert_Some Hsub Hl.
      * split_and!; [done|by rewrite He2|done|]. rewrite He3. cbn. rewrite He2, He4, He5. split_and!; [lia|done|lia].
      * destruct (Hseg i x Hi Hsub Hl) as (A1 & A2 & A3 & A4). split_and!; try done. cbn. destruct (en_ends x); [lia|]. destruct A4 as [A4 _].
        unfold subscription_check in Hc. rewrite A4, Hx in Hc. cbn [Z.eqb is_nil] in Hc. rewrite !andb_true_iff in Hc. destruct_and!. done.
    + intros _. exists pid, p, m. rewrite Hx in *. split; stables; rewrite ?P1; cbn; try done.
      * unfold sd_billing in *. stables. by rewrite M1.
      * rewrite He3. cbn in *. apply Z.ltb_lt in H7. apply Z.ltb_lt. destruct (entitlement_check_facts _ Hec) as (_ & Hd & _). unfold Day24, Hour, Minute, Second. nia.
      * intros x Hge Hdl. rewrite E1, He3 in *. cbn in Hdl. destruct (Z_lt_le_dec x t) as [Hlt|Hle].
        -- destruct (H8 x Hge) as (i & y & Hi & Hcov); [cbn; lia|]. exists i, y. rewrite lookup_insert_ne by congruence. done.
        -- exists eid, e. rewrite lookup_insert_eq. split; [done|]. unfold covers. rewrite He1, He6, He2, He3. cbn. rewrite bool_decide_true by done. cbn. lia.
  - intros q Hq. cbn in Hq. destruct (P id s Hs q Hq) as (m' & Hm' & Eo). exists m'. unfold sd_billing in *. stables. by rewrite M1.
Qed.

(** ** What the statements leave of money and catalog *)

Definition money_kept (d d' : sub_db) : Prop :=
  billing_accounts (sd_billing d') = billing_accounts (sd_billing d) /\ cash_lots (sd_billing d') = cash_lots (sd_billing d) /\
  (money_inv (sd_billing d) -> money_inv (sd_billing d')) /\ sd_plans d' = sd_plans d.
#[export] Instance money_kept_preorder : PreOrder money_kept.
Proof. split; [by intros d|]. intros a b c (H1 & H2 & H3 & H4) (G1 & G2 & G3 & G4). split_and!; [congruence|congruence|auto|congruence]. Qed.
#[export] Hint Extern 0 (PreOrder money_kept) => exact money_kept_preorder : keeps.
#[export] Hint Extern 3 (keeps money_kept (tmod _)) => (apply keeps_mod; intros ?; by unfold money_kept) : keeps.

(** Books that only record: the ledger, the operations and the audit. *)
Definition only_books (b b' : billing_db) : Prop := exists l o a, b' = set_audit a (set_operations o (set_ledger l b)).
#[export] Instance only_books_preorder : PreOrder only_books.
Proof. split; [intros b; exists (ledger b), (operations b), (audit b); by destruct b|]. intros a b c (l & o & u & ->) (l' & o' & u' & ->). exists l', o', u'. done. Qed.
#[export] Hint Extern 0 (PreOrder only_books) => exact only_books_preorder : keeps.
Lemma books_set_operations o b : only_books b (set_operations o b).
Proof. exists (ledger b), o, (audit b). by destruct b. Qed.
Lemma books_set_ledger l b : only_books b (set_ledger l b).
Proof. exists l, (operations b), (audit b). by destruct b. Qed.
Lemma books_set_audit a b : only_books b (set_audit a b).
Proof. exists (ledger b), (operations b), a. by destruct b. Qed.
#[export] Hint Extern 3 (keeps only_books (tmod _)) =>
  (apply keeps_mod; intros ?; first [apply books_set_operations|apply books_set_ledger|apply books_set_audit]) : keeps.

Lemma only_claim p kind target fp c : keeps only_books (claimBillingOperationTx p kind target fp c).
Proof. unfold claimBillingOperationTx. keeps_tac. Qed.
Lemma only_finish op id : keeps only_books (finishBillingOperationTx op id).
Proof. unfold finishBillingOperationTx. keeps_tac. Qed.
Lemma only_replay id : keeps only_books (replayBillingLedgerTx id).
Proof. unfold replayBillingLedgerTx. keeps_tac. Qed.
Lemma only_insert op e : keeps only_books (insert_ledger op e).
Proof. unfold insert_ledger. keeps_tac. Qed.
#[export] Hint Resolve only_insert : keeps.
Lemma only_entry op e : keeps only_books (insert_operation_entry op e).
Proof. unfold insert_operation_entry. keeps_tac. Qed.
Lemma only_audit session_of inet_ok p t st si m : keeps only_books (appendBillingAuditTx session_of inet_ok p t st si m).
Proof. unfold appendBillingAuditTx. keeps_tac. Qed.
Lemma only_lock userID : keeps only_books (lockBillingAccountTx userID).
Proof. unfold lockBillingAccountTx, lockNonPendingUserTx. keeps_tac. Qed.
#[export] Hint Resolve only_claim only_finish only_replay only_entry only_audit only_lock : keeps.

Lemma kept_in_billing {A} (m : tx billing_db A) : keeps only_books m -> keeps money_kept (in_billing m).
Proof.
  intros H d a d' (b' & Hb & ->)%sub_billing_Ok. apply H in Hb as (l & o & u & ->). unfold money_kept, sd_billing. stables. gtables. split_and!; try done.
  intros M. eapply money_inv_ext; [..|exact M]; done.
Qed.
Lemma kept_in_groups {A} (m : tx group_db A) : keeps (fun d d' => gd_billing d' = gd_billing d) m -> keeps money_kept (in_groups m).
Proof. intros H d a d'. unfold in_groups, tzoom. destruct (m (sd_groups d)) as [[x g]|] eqn:E; [|done]. intros [= <- <-]. apply H in E. unfold money_kept, sd_billing. stables. by rewrite E. Qed.
#[export] Hint Resolve kept_in_billing : keeps.
Lemma kept_newUUID : keeps money_kept (in_groups newUUID).
Proof. apply kept_in_groups. intros d a d'. unfold newUUID. destruct (gd_random d); [done|]. by intros [= _ <-]. Qed.
Lemma kept_validate models : keeps money_kept (in_groups (validateBillingModelsTx models)).
Proof. apply kept_in_groups. intros d a d'. unfold validateBillingModelsTx. rewrite tgets_bind. by intros [_ ->]%tguard_Ok. Qed.
Lemma kept_update op id f : keeps money_kept (update_sub op id f).
Proof. unfold update_sub. keeps_tac. Qed.
Lemma kept_close op pid f reason b : keeps money_kept (close_sub_period op pid f reason b).
Proof. unfold close_sub_period. keeps_tac. Qed.
Lemma kept_version : keeps money_kept next_config_version.
Proof. unfold next_config_version. keeps_tac. Qed.
Lemma kept_numeric op s : keeps money_kept (sub_numeric op s).
Proof. unfold sub_numeric. keeps_tac. Qed.
Lemma kept_read u id t : keeps money_kept (readBillingSubscriptionStateTx u id t).
Proof. unfold readBillingSubscriptionStateTx. keeps_tac. Qed.
Lemma kept_insert_period op pid id u tier n p : keeps money_kept (insert_sub_period op pid id u tier n p).
Proof.
  intros d x d'. unfold insert_sub_period. rewrite tguard_bind. destruct (sub_period_check tier n p) eqn:Hc; [|done]. rewrite tgets_bind, tguard_bind.
  destruct (bool_decide _ && bool_decide _); [|done]. rewrite tguard_bind. destruct (bool_decide _ && bool_decide _); [|done]. rewrite tmod_bind.
  intros (b' & [= _ <-] & ->)%sub_billing_Ok. unfold money_kept, sd_billing in *. stables. gtables. btables. split_and!; try done. intros M.
  unfold sub_period_check in Hc. rewrite !andb_true_iff in Hc. destruct Hc as [[[[[[[Ht _] _] _] _] Ha] Hf] _]. destruct M. split; btables; try done.
  intros q y [[<- <-]|[_ Hy]]%lookup_insert_Some; [|by eapply inv_period]. unfold period_check. cbn. apply Z.ltb_lt in Ha. rewrite Hf. lia.
Qed.
#[export] Hint Resolve kept_newUUID kept_validate kept_update kept_close kept_version kept_numeric kept_read kept_insert_period : keeps.

Lemma kept_entitlement u id start tier days count first allowance models plan t :
  keeps money_kept (insertBillingEntitlementTx u id start tier days count first allowance models plan t).
Proof. unfold insertBillingEntitlementTx. keeps_tac. Qed.
#[export] Hint Resolve kept_entitlement : keeps.
Lemma kept_reopen p allowance plan : keeps money_kept (reopenBillingSubscriptionTx p allowance plan).
Proof. unfold reopenBillingSubscriptionTx, retire_previous, insert_subscription. keeps_tac. Qed.
Lemma kept_open u id t : keeps money_kept (open_period u id t).
Proof. unfold open_period, insert_sub_ledger. keeps_tac. Qed.
#[export] Hint Resolve kept_reopen kept_open : keeps.
Lemma kept_roll u t : keeps money_kept (rollBillingSubscriptionsTx u t).
Proof.
  unfold rollBillingSubscriptionsTx, rollBillingEntitlementsTx. apply keeps_bind; [exact _|apply keeps_gets; exact _|]. intros l.
  induction l as [|[[id pid] x] l IH]; cbn [roll_each]; [apply keeps_ret; exact _|]. apply keeps_bind; [exact _| |]; [unfold roll_one; keeps_tac|]. intros n. keeps_tac.
Qed.
#[export] Hint Resolve kept_roll : keeps.
Lemma kept_renew w u id plan count : keeps money_kept (renew_subscription w u id plan count).
Proof. unfold renew_subscription. keeps_tac. Qed.
Lemma kept_quoted u planID id v c count renew : keeps money_kept (quoted_plan u planID id v c count renew).
Proof. unfold quoted_plan. keeps_tac. Qed.
#[export] Hint Resolve kept_renew kept_quoted : keeps.

(** ** A renewal *)

(** What a renewal makes of the subscription, whose row after the roll was [s]. *)
Record renewed (w : BillingWriteParams) (id : string) (plan : BillingPlan) (count n : Z) (s : subscription_row) (t : Z) (eid : string) (d' : sub_db) : Prop := {
  rn_open : sb_enabled s = true /\ sb_expires_at s = Some t /\ At w < t;
  rn_segment : exists e, sd_entitlements d' !! eid = Some e /\ en_subscription e = id /\ en_starts e = t /\ en_ends e = Some (t + pl_PeriodDays plan * count * Day24) /\
    en_tier e = pl_Tier plan /\ en_days e = pl_PeriodDays plan /\ en_allowance e = n /\ en_models e = pl_ModelIDs plan /\ en_first e = sb_period_count s + 1 /\ en_superseded e = None;
  rn_row : exists config, sd_subs d' !! id = Some (sub_extend count (Some (t + pl_PeriodDays plan * count * Day24)) (At w) (pl_Version plan) config s);
}.

Lemma read_Ok u id t d st d' : readBillingSubscriptionStateTx u id t d = Ok (st, d') ->
  d' = d /\ exists s, sd_subs d !! id = Some s /\ sb_user s = u /\ st = with_renewable t (subscription_state id s d).
Proof.
  unfold readBillingSubscriptionStateTx. rewrite tgets_bind. intros (s & d1 & [Hs ->]%tsome_Ok & H)%tbind_Ok.
  destruct (bool_decide_reflect (sb_user s = u)); [|done]. injection H as <- <-. eauto.
Qed.

Lemma renew_Ok w u id plan count d st d' : subs_consistent d -> clock_ok (At w) -> fresh_ids (length (stale_subs u (At w) d)) d -> pl_ModelIDs plan <> [] -> 1 <= count ->
  renew_subscription w u id plan count d = Ok (st, d') ->
  subs_consistent d' /\ exists n d1 s t eid m, numeric_of (pl_AllowanceUSD plan) = Some n /\ rollBillingSubscriptionsTx u (At w) d = Ok (m, d1) /\ sd_subs d1 !! id = Some s /\
    sb_user s = u /\ renewed w id plan count n s t eid d' /\ (exists b, sb_plan s = Some b /\ (pl_ID <$> sd_plans d !! b.1) = Some (pl_ID plan)).
Proof.
  intros C Ht Fr Hm Hcount H. unfold renew_subscription in H. apply tbind_Ok in H as (m & d1 & H1 & H). pose proof (roll_consistent _ _ _ _ _ Ht C Fr H1) as C1.
  pose proof (kept_roll _ _ _ _ _ H1) as (_ & _ & _ & Hpl1).
  apply tbind_Ok in H as (st1 & d1' & (-> & s & Hs & Hu & ->)%read_Ok & H). cbn in H. destruct (sb_plan s ≫= _) as [bound|] eqn:Eb; [|done]. cbn [is_nil negb andb] in H.
  destruct (sb_enabled s) eqn:Een; [|done]. cbn [andb] in H. destruct (sb_expires_at s) as [t|] eqn:Ex; [|done]. destruct (Z.ltb_spec (At w) t) as [Hlt|]; [|done].
  rewrite tguard_bind in H. destruct (bool_decide_reflect (pl_ID bound = pl_ID plan)) as [Hid|]; [|done]. rewrite tguard_bind in H.
  destruct (negb (max_int32 - count <? sb_period_count s)) eqn:Emax; [|done]. apply tbind_Ok in H as ([eid expiry] & d2 & H2 & H).
  apply insert_entitlement_Ok in H2 as (n & e & Hn & Hexp & Hterm & He & Hec & Hfresh & E2 & S2 & P2 & M2). unfold term_of in Hexp. replace (0 <? count) with true in Hexp by lia.
  destruct (Hterm ltac:(lia)) as [Hst Hy]. apply tbind_Ok in H as (config & d3 & H3 & H). apply same_next_version in H3 as Q3. pose proof Q3 as (S3 & E3 & P3 & M3).
  apply tbind_Ok in H as (? & d4 & H4 & H). apply update_sub_Ok in H4 as [[Hx _]|(s' & Hs' & Hck & ->)]; [congruence|]. assert (s' = s) as -> by congruence.
  apply read_Ok in H as (-> & _). rewrite Hexp in Hck. split.
  - eapply (extended_consistent id d1 d3 _ s t e eid count config (At w) (pl_Version plan)); rewrite ?He; try done; try congruence; try lia.
    cbn. by rewrite Hexp.
  - exists n, d1, s, t, eid, m. split_and!; try done.
    + split; [done|..]; stables.
      * exists e. rewrite E3, E2, lookup_insert_eq, He. cbn. rewrite Hexp. done.
      * exists config. rewrite Hexp. apply lookup_insert_eq.
    + destruct (sb_plan s) as [b|]; [|done]. cbn in Eb. exists b. split; [done|]. rewrite <- Hpl1. destruct (sd_plans d1 !! b.1) as [q|]; [|done]. cbn in *.
      destruct (is_nil (pl_DeletedAt q)); [|done]. injection Eb as ->. by rewrite Hid.
Qed.

(** ** Committed purchases and renewals *)

(** The amounts of a plan's row, and what its constraints say. *)
Definition plan_ok (id : string) (p : BillingPlan) : Prop :=
  pl_ID p = id /\ exists price allowance, pl_PriceUSD p = numeric_text price /\ pl_AllowanceUSD p = numeric_text allowance /\ plan_check price allowance p = true.
Definition plans_ok (d : sub_db) : Prop := map_Forall plan_ok (sd_plans d).

Lemma plan_check_facts price allowance p : plan_check price allowance p = true -> 0 < price /\ 0 < allowance /\ pl_ModelIDs p <> [] /\ 0 < pl_Version p.
Proof.
  unfold plan_check. rewrite !andb_true_iff, negb_true_iff. intros [[[[[[[[[[[_ _] Hp] _] _] Ha] _] _] _] Hv] _] Hm]. apply bool_decide_eq_false in Hm. split_and!; [lia|lia|done|lia].
Qed.

Lemma quoted_Ok u planID id v c count renew d plan d' : quoted_plan u planID id v c count renew d = Ok (plan, d') ->
  d' = d /\ exists pid, sd_plans d !! pid = Some plan /\ (if renew then bound_plan u id d = Some pid else pid = planID /\ pl_Active plan = true) /\
    pl_DeletedAt plan = None /\ pl_Version plan = v /\ pl_MinPeriodCount plan <= count.
Proof.
  unfold quoted_plan. rewrite tgets_bind. intros (pid & d1 & Hpid & H)%tbind_Ok.
  assert (d1 = d /\ if renew then bound_plan u id d = Some pid else pid = planID) as [-> Hp].
  { destruct renew; [destruct (bound_plan u id d); [|done]|]; by injection Hpid as <- <-. }
  apply tbind_Ok in H as (p & d1 & Hpl & H). destruct (sd_plans d !! pid) as [p'|] eqn:Epl; [|done]. injection Hpl as -> <-. rewrite tguard_bind in H.
  destruct (is_nil (pl_DeletedAt p) && (renew || pl_Active p) && (pl_Version p =? v)) eqn:E1; [|done]. rewrite tguard_bind in H.
  destruct (Z.leb_spec (pl_MinPeriodCount p) count); [|done]. apply tbind_Ok in H as (? & d1 & H1 & [= <- <-]).
  assert (d1 = d) as -> by (destruct renew; [apply tbind_Ok in H1 as (s & d2 & [_ ->]%tsome_Ok & [_ ->]%tguard_Ok); done|by injection H1 as _ <-]).
  split; [done|]. exists pid. rewrite !andb_true_iff, orb_true_iff in E1. destruct E1 as [[E1 E2] E3]. split_and!; try done; [|by destruct (pl_DeletedAt p)|lia].
  destruct renew; [done|]. split; [done|]. by destruct E2.
Qed.

(** What a committed purchase or renewal on a new operation id did. *)
Record bought (w : BillingWriteParams) (u planID id : string) (v count : Z) (renew : bool) (r : BillingPlanTransaction) (d d' : sub_db) : Prop := {
  by_plan : exists pid price, sd_plans d !! pid = Some (bt_Plan r) /\ (if renew then bound_plan u id d = Some pid else pid = planID /\ pl_Active (bt_Plan r) = true) /\
    pl_DeletedAt (bt_Plan r) = None /\ pl_Version (bt_Plan r) = v /\ pl_MinPeriodCount (bt_Plan r) <= count /\ pl_PriceUSD (bt_Plan r) = numeric_text price /\
    bt_TotalUSD r = numeric_text (price * count) /\ exists a, billing_accounts (sd_billing d) !! u = Some a /\ price * count <= balance_usd a /\
      bt_BalanceUSD r = numeric_text (balance_usd a - price * count) /\
      billing_accounts (sd_billing d') = <[u := Account (balance_usd a - price * count) (next_cash_lot_sequence a) (At w)]> (billing_accounts (sd_billing d)) /\
      forall x, cash_total x (cash_lots (sd_billing d')) = cash_total x (cash_lots (sd_billing d)) - (if bool_decide (x = u) then price * count else 0);
  by_money : money_inv (sd_billing d');
  by_plans : sd_plans d' = sd_plans d;
  by_consistent : subs_consistent d';
  by_subscription : exists n d2, numeric_of (pl_AllowanceUSD (bt_Plan r)) = Some n /\ same_subs d d2 /\ sd_plans d2 = sd_plans d /\
    if renew then exists d1 s t eid m, rollBillingSubscriptionsTx u (At w) d2 = Ok (m, d1) /\ sd_subs d1 !! id = Some s /\ renewed w id (bt_Plan r) count n s t eid d'
    else exists sid eid pid, reopened (purchase_params w u (bt_Plan r) count) n (Some (bt_Plan r)) sid eid pid d d';
}.

Lemma reopened_frame p n plan id eid pid d0 d1 d2 d3 : same_subs d0 d1 -> same_subs d2 d3 -> reopened p n plan id eid pid d1 d2 -> reopened p n plan id eid pid d0 d3.
Proof.
  intros S0 S2 [R1 R2 R3 R4 R5 R6 R7 R8]. pose proof S0 as (A1 & A2 & A3 & A4). pose proof S2 as (B1 & B2 & B3 & B4).
  split; rewrite ?B1, ?B2, ?B3, ?B4; try done; try (rewrite A1 in R2; exact R2); try (rewrite A3 in R6; exact R6).
  transitivity d1; [by apply others_same|]. transitivity d2; [done|by apply others_same].
Qed.

Lemma renewed_frame w id plan count n s t eid d d' : same_subs d d' -> renewed w id plan count n s t eid d -> renewed w id plan count n s t eid d'.
Proof. intros (S1 & S2 & _) [R1 R2 R3]. split; rewrite ?S1, ?S2; done. Qed.

Section committed.
Context (fingerprint : list string -> string) (session_of : string -> string -> bool) (inet_ok : string -> bool).

Lemma kept_sub_audit w t st si m : keeps money_kept (sub_audit session_of inet_ok w t st si m).
Proof. unfold sub_audit. keeps_tac. Qed.
Lemma same_sub_audit w t st si m : keeps same_subs (sub_audit session_of inet_ok w t st si m).
Proof. unfold sub_audit. keeps_tac. Qed.

(** The books a transaction writes last. *)
Lemma transact_tail w u opType plan subscription total balance n count d id entry d1 d3 d4 u1 u2 a b :
  in_billing (insert_operation_entry "record plan transaction ledger" (operation_entry u w opType n (- n) (Some a) None None)) d = Ok ((id, entry), d1) ->
  in_billing (finishBillingOperationTx (OperationID w) id)
    (set_ledger_extra (<[id := {| lx_tier := Some (pl_Tier plan); lx_period := b;
        lx_snapshot := Some {| ts_Plan := Some plan; ts_PeriodCount := count; ts_TotalUSD := total; ts_BalanceUSD := balance; ts_Subscription := Some subscription;
        ts_Cash := None |} |}]> (sd_ledger_extra d1)) d1) = Ok (u1, d3) ->
  sub_audit session_of inet_ok w ("billing." +:+ opType) "subscription" (ss_ID subscription)
        [("operation_id", MetaString (OperationID w)); ("plan", billingPlanAuditMetadata plan); ("period_count", MetaInt count); ("total_usd", MetaString total)] d3 = Ok (u2, d4) ->
  same_subs d d4 /\ money_kept d d4.
Proof.
  intros H1 H2 H3. pose proof (same_in_billing _ (same_operation_entry _ _) _ _ _ H1) as S1. pose proof (kept_in_billing _ (only_entry _ _) _ _ _ H1) as K1.
  pose proof (same_in_billing _ (same_finish_operation _ _) _ _ _ H2) as S2. pose proof (kept_in_billing _ (only_finish _ _) _ _ _ H2) as K2.
  apply same_sub_audit in H3 as S3. apply kept_sub_audit in H3 as K3. split.
  - transitivity d1; [done|]. transitivity d3; [exact S2|done].
  - transitivity d1; [done|]. transitivity d3; [exact K2|done].
Qed.

Lemma debit_same u total t d r d' : in_billing (debitBillingPlanCashTx u total t) d = Ok (r, d') -> same_subs d d' /\ sd_plans d' = sd_plans d.
Proof.
  intros H. split; [|by apply sub_billing_Ok in H as (b' & _ & ->)]. revert H. apply same_in_billing. unfold debitBillingPlanCashTx.
  assert (L : forall l s, keeps same_periods (debit_plan_lots l s)).
  { induction l as [|[i x] l IH]; intros s; cbn [debit_plan_lots]; [apply keeps_ret; exact _|]. apply keeps_if; [apply keeps_ret; exact _|].
    unfold money, numeric_arg, update_one. keeps_tac. by apply keeps_mod. }
  unfold money, numeric_arg, update_one. keeps_tac. by apply keeps_mod.
Qed.

Lemma transact_fresh w u planID id v c count renew d r d' :
  subs_consistent d -> money_inv (sd_billing d) -> plans_ok d -> 1 <= count ->
  (renew = true -> clock_ok (At w) /\ fresh_ids (length (stale_subs u (At w) d)) d) ->
  transact_body fingerprint session_of inet_ok w u planID id v c count renew d = Ok (r, d') ->
  (is_Some (operations (sd_billing d) !! OperationID w) /\ same_subs d d' /\ money_kept d d') \/
  (operations (sd_billing d) !! OperationID w = None /\ bought w u planID id v count renew r d d').
Proof.
  intros C M Pl Hcount Hrn H. unfold transact_body in H. cbv zeta in H. apply tbind_Ok in H as (? & d1 & H1 & H). apply sub_billing_Ok in H1 as (b1 & [-> _]%lock_account_Ok & ->).
  rewrite lock_same in H. apply tbind_Ok in H as (replay & d2 & H2 & H). pose proof (same_in_billing _ (same_claim_operation _ _ _ _ _) _ _ _ H2) as S2.
  pose proof (kept_in_billing _ (only_claim _ _ _ _ _) _ _ _ H2) as K2. apply sub_billing_Ok in H2 as (b2 & H2 & E2).
  apply claim_Ok in H2 as (_ & [(-> & Hop & _ & _ & Eb)|(i & row & -> & Eb & Hop & _)]).
  2:{ left. split; [eauto|]. unfold replay_transaction in H. apply tbind_Ok in H as ([j entry] & d3 & H3 & H). pose proof (same_in_billing _ (same_replay _) _ _ _ H3) as S3.
      pose proof (kept_in_billing _ (only_replay _) _ _ _ H3) as K3. rewrite tgets_bind in H. destruct (entry_snapshot j d3) as [sn|]; [|done].
      destruct (ts_Plan sn), (ts_Subscription sn); try done. injection H as _ <-. split; [by transitivity d2|by transitivity d2]. }
  right. split; [done|]. pose proof (consistent_same _ _ S2 C) as C2. apply tbind_Ok in H as (plan & d2' & (-> & pid & Hpl & Hsrc & Hdel & Hv & Hmin)%quoted_Ok & H).
  pose proof K2 as (KA2 & KL2 & KM2 & KP2). rewrite KP2 in Hpl. destruct (Pl pid plan Hpl) as (Hpid & price & allowance & Hprice & Hallow & Hchk).
  pose proof (plan_check_facts _ _ _ Hchk) as (Hpos & _ & Hmodels & _). apply tbind_Ok in H as (subscription & d3 & H3 & H).
  assert (K3 : money_kept d2 d3) by (destruct renew; [by eapply kept_renew|by eapply kept_reopen]).
  apply tbind_Ok in H as (total & d3' & [Ht ->]%tlift_Ok & H). rewrite Hprice, plan_total_text in Ht. destruct (ParsePrice _) as [tt_|]; [|done]. injection Ht as <-.
  apply tbind_Ok in H as (balance & d4 & H4 & H). destruct (debit_same _ _ _ _ _ _ H4) as [S4 PL4].
  apply tbind_Ok in H as (n & d4' & Hn & H). unfold sub_numeric in Hn. destruct (numeric_of (numeric_text (price * count))) as [n0|]; [|done]. injection Hn as -> <-.
  apply tbind_Ok in H as (b & d4' & Hb & H). unfold sub_numeric in Hb. destruct (numeric_of balance) as [b0|]; [|done]. injection Hb as -> <-.
  apply tbind_Ok in H as ([lid entry] & d5 & H5 & H). rewrite tmod_bind in H. apply tbind_Ok in H as (? & d6 & H6 & H). apply tbind_Ok in H as (? & d7 & H7 & H).
  injection H as <- <-. destruct (transact_tail _ _ _ _ _ _ _ _ _ _ _ _ _ _ _ _ _ _ _ H5 H6 H7) as [S7 K7]. pose proof K3 as (KA3 & KL3 & KM3 & KP3).
  pose proof K7 as (KA7 & KL7 & KM7 & KP7). assert (M3 : money_inv (sd_billing d3)) by auto. apply sub_billing_Ok in H4 as (b4 & H4 & E4).
  apply debit_cash_Ok in H4 as ((a & L & Ha & Hle & Eb4 & HL1 & HL2 & HL3) & a' & Ha' & Hbal); [|done|nia]. assert (a' = a) as -> by congruence.
  assert (Eb4' : sd_billing d4 = b4) by (by subst d4). split; cbn [bt_Plan bt_TotalUSD bt_BalanceUSD].
  - exists pid, price. split_and!; try done.
    + destruct renew; [|done]. unfold bound_plan in *. destruct S2 as (S2 & _). by rewrite S2 in Hsrc.
    + exists a. rewrite KA3, KA2 in Ha. rewrite KA7, KL7, Eb4', Eb4. btables. rewrite KA3, KA2. split_and!; try done. intros y. rewrite HL1, KL3, KL2. done.
  - apply KM7. rewrite Eb4'. eapply debited_inv; [exact M3| |]; [|exists a, L; done]. nia.
  - congruence.
  - destruct renew.
    + destruct (Hrn eq_refl) as [Hclock Hfr]. assert (F2 : fresh_ids (length (stale_subs u (At w) d2)) d2) by (destruct Hfr; subst b2 d2; split; assumption).
      eapply renew_Ok in H3 as [C3 _]; try done. eapply consistent_same; [|exact C3]. by transitivity d4.
    + apply reopen_Ok in H3 as (n1 & sid & eid & q & Hn1 & R & _); [|done]. eapply consistent_same; [|eapply reopened_consistent; [exact C2| |exact R]]; [by transitivity d4|done].
  - destruct renew.
    + destruct (Hrn eq_refl) as [Hclock Hfr]. assert (F2 : fresh_ids (length (stale_subs u (At w) d2)) d2) by (destruct Hfr; subst b2 d2; split; assumption).
      eapply renew_Ok in H3 as [_ (n1 & d1 & s & t & eid & m & Hn1 & Hroll & Hs & _ & R & _)]; try done. exists n1, d2. split_and!; try done.
      exists d1, s, t, eid, m. split_and!; try done. eapply renewed_frame; [|exact R]. by transitivity d4.
    + apply reopen_Ok in H3 as (n1 & sid & eid & q & Hn1 & R & _); [|done]. exists n1, d2. split_and!; try done. exists sid, eid, q.
      eapply reopened_frame; [exact S2| |exact R]. by transitivity d4.
Qed.
End committed.

(** ** Versions *)

(** What a plan offers: everything a buyer agrees to. *)
Definition same_offer (p q : BillingPlan) : Prop :=
  pl_Name q = pl_Name p /\ pl_PriceUSD q = pl_PriceUSD p /\ pl_Tier q = pl_Tier p /\ pl_AllowanceUSD q = pl_AllowanceUSD p /\ pl_MinPeriodCount q = pl_MinPeriodCount p /\
  pl_Active q = pl_Active p /\ pl_PeriodDays q = pl_PeriodDays p /\ pl_ModelIDs q = pl_ModelIDs p /\ pl_DeletedAt q = pl_DeletedAt p.
(** Plans are never removed, and a version names one offer. *)
Definition plans_evolve (d d' : sub_db) : Prop :=
  forall id p, sd_plans d !! id = Some p -> exists p', sd_plans d' !! id = Some p' /\ pl_Version p <= pl_Version p' /\ (pl_Version p' = pl_Version p -> same_offer p p').
#[export] Instance plans_evolve_preorder : PreOrder plans_evolve.
Proof.
  split; [by intros d id p Hp; exists p|]. intros a b c H1 H2 id p Hp. destruct (H1 id p Hp) as (q & Hq & Hv & Ho). destruct (H2 id q Hq) as (r & Hr & Hv' & Ho').
  exists r. split_and!; [done|lia|]. intros E. assert (pl_Version q = pl_Version p) by lia. destruct Ho as (? & ? & ? & ? & ? & ? & ? & ? & ?); [done|].
  destruct Ho' as (? & ? & ? & ? & ? & ? & ? & ? & ?); [lia|]. split_and!; congruence.
Qed.
Lemma evolve_same d d' : sd_plans d' = sd_plans d -> plans_evolve d d'.
Proof. intros E id p Hp. exists p. by rewrite E. Qed.

Lemma plan_changed_false p q : plan_changed p q = false -> pl_DeletedAt q = pl_DeletedAt p -> same_offer p q.
Proof.
  unfold plan_changed. rewrite negb_false_iff, !andb_true_iff, !bool_decide_eq_true, !Z.eqb_eq. intros [[[[[[[? ?] ?] ?] ?] ?] ?] ?] ?. split_and!; done.
Qed.

(** The catalog after one write. *)
Definition plan_written (d d' : sub_db) (id : string) (row : BillingPlan) : Prop :=
  sd_plans d' = <[id := row]> (sd_plans d) /\ (plans_ok d -> plan_ok id row) /\
  (forall p, sd_plans d !! id = Some p -> pl_Version p <= pl_Version row /\ (pl_Version row = pl_Version p -> same_offer p row)).
Lemma written_evolve d d' id row : plan_written d d' id row -> plans_evolve d d' /\ (plans_ok d -> plans_ok d').
Proof.
  intros (E & Hok & Hv). split.
  - intros i p Hp. rewrite E. destruct (decide (i = id)) as [->|Hi]; [|exists p; by rewrite lookup_insert_ne]. destruct (Hv p Hp). exists row. by rewrite lookup_insert_eq.
  - intros P i p. rewrite E. intros [[<- <-]|[_ Hp]]%lookup_insert_Some; auto.
Qed.

Section catalog.
Context (fingerprint : list string -> string) (session_of : string -> string -> bool) (inet_ok : string -> bool).

Lemma same_record_plan w op kind subject plan : keeps same_subs (record_plan_operation session_of inet_ok w op kind subject plan).
Proof. unfold record_plan_operation, sub_audit. keeps_tac. Qed.
Lemma kept_record op u w kind n x : keeps money_kept (record_sub_operation op u w kind n x).
Proof. unfold record_sub_operation. keeps_tac. Qed.
#[local] Hint Resolve kept_record kept_sub_audit : keeps.
Lemma kept_record_plan w op kind subject plan : keeps money_kept (record_plan_operation session_of inet_ok w op kind subject plan).
Proof. unfold record_plan_operation. keeps_tac. Qed.
Lemma replay_plan_reads id missing : keeps eq (replay_plan id missing).
Proof.
  unfold replay_plan. keeps_tac. intros d a d' (b' & Hb & ->)%sub_billing_Ok. apply replay_Ok in Hb as [-> _]. by rewrite lock_same.
Qed.

Lemma insert_plan_Ok w plan d row d' : insert_plan w plan d = Ok (row, d') ->
  same_subs d d' /\ sd_billing d' = sd_billing d /\ exists id, sd_plans d !! id = None /\ plan_written d d' id row /\ pl_ID row = id.
Proof.
  unfold insert_plan. intros (price & d1 & Hp & H)%tbind_Ok. unfold sub_numeric in Hp. destruct (numeric_of (pl_PriceUSD plan)); [|done]. injection Hp as -> <-.
  apply tbind_Ok in H as (allowance & d1 & Ha & H). unfold sub_numeric in Ha. destruct (numeric_of (pl_AllowanceUSD plan)); [|done]. injection Ha as -> <-.
  apply tbind_Ok in H as (id & d1 & H1 & H). apply same_newUUID in H1 as S1. assert (E1 : sd_billing d1 = sd_billing d /\ sd_plans d1 = sd_plans d).
  { unfold in_groups, tzoom, newUUID in H1. destruct (gd_random _); [done|]. injection H1 as _ <-. done. }
  destruct E1 as [E1 E2]. rewrite tgets_bind in H. cbv zeta in H. rewrite tguard_bind in H. destruct (plan_check _ _ _) eqn:Hc; [|done]. rewrite tguard_bind in H.
  destruct (bool_decide_reflect (sd_plans d1 !! id = None)) as [Hn|]; [|done]. rewrite tguard_bind in H. destruct (bool_decide _); [|done]. injection H as <- <-.
  split_and!; [exact S1|exact E1|]. exists id. rewrite E2 in Hn. split_and!; [done|split_and!|done].
  - stables. by rewrite E2.
  - intros _. split; [done|]. exists price, allowance. done.
  - intros p Hp. congruence.
Qed.

Lemma update_plan_Ok w plan d row d' : update_plan w plan d = Ok (row, d') ->
  same_subs d d' /\ sd_billing d' = sd_billing d /\ plan_written d d' (pl_ID plan) row /\ exists current, sd_plans d !! pl_ID plan = Some current /\ pl_Version current = pl_Version plan.
Proof.
  unfold update_plan. rewrite tgets_bind. intros (current & d1 & [Hcur ->]%tsome_Ok & H)%tbind_Ok. rewrite tguard_bind in H.
  destruct (is_nil (pl_DeletedAt current) && (pl_Version current =? pl_Version plan)) eqn:E1; [|done]. apply andb_true_iff in E1 as [E1 E2].
  apply tbind_Ok in H as (price & d1 & Hp & H). unfold sub_numeric in Hp. destruct (numeric_of (pl_PriceUSD plan)); [|done]. injection Hp as -> <-.
  apply tbind_Ok in H as (allowance & d1 & Ha & H). unfold sub_numeric in Ha. destruct (numeric_of (pl_AllowanceUSD plan)); [|done]. injection Ha as -> <-.
  cbv zeta in H. rewrite tguard_bind in H. destruct (plan_check _ _ _) eqn:Hc; [|done]. rewrite tguard_bind in H. destruct (bool_decide _); [|done]. injection H as <- <-.
  split_and!; [done..| |]; [|exists current; split; [done|lia]]. split_and!; [done|..].
  - intros P. destruct (P _ _ Hcur) as [Hid _]. split; [done|]. exists price, allowance. done.
  - intros p Hp'. assert (p = current) as -> by congruence. cbn. destruct (plan_changed current _) eqn:Ech; split; try lia. intros _.
    by apply plan_changed_false in Ech.
Qed.

Lemma detach_kept l : keeps money_kept (detach_each l).
Proof. induction l as [|id l IH]; cbn [detach_each]; keeps_tac. Qed.

(** A catalog write leaves the money and evolves the catalog. *)
Definition catalog_write (d d' : sub_db) : Prop :=
  plans_evolve d d' /\ (plans_ok d -> plans_ok d') /\ (subs_consistent d -> subs_consistent d') /\
  (money_inv (sd_billing d) -> money_inv (sd_billing d')) /\ billing_accounts (sd_billing d') = billing_accounts (sd_billing d) /\ cash_lots (sd_billing d') = cash_lots (sd_billing d).
#[local] Instance catalog_write_preorder : PreOrder catalog_write.
Proof.
  split; [intros d; split_and!; try done; reflexivity|]. intros a b c (A1 & A2 & A3 & A4 & A5 & A6) (B1 & B2 & B3 & B4 & B5 & B6).
  split_and!; [by transitivity b|auto|auto|auto|congruence|congruence].
Qed.
Lemma catalog_kept d d' : same_subs d d' -> money_kept d d' -> catalog_write d d'.
Proof. intros S (K1 & K2 & K3 & K4). split_and!; try done; [by apply evolve_same|unfold plans_ok; by rewrite K4|by apply consistent_same]. Qed.
Lemma catalog_written d d' id row : same_subs d d' -> sd_billing d' = sd_billing d -> plan_written d d' id row -> catalog_write d d'.
Proof. intros S E W. apply written_evolve in W as [W1 W2]. split_and!; try done; [by apply consistent_same|by rewrite E..]. Qed.

Lemma write_plan_catalog w plan create d r d' : write_plan_body fingerprint session_of inet_ok w plan create d = Ok (r, d') -> catalog_write d d'.
Proof.
  unfold write_plan_body. cbv zeta. intros (replay & d1 & H1 & H)%tbind_Ok. pose proof (same_in_billing _ (same_claim_operation _ _ _ _ _) _ _ _ H1) as S1.
  pose proof (kept_in_billing _ (only_claim _ _ _ _ _) _ _ _ H1) as K1. transitivity d1; [by apply catalog_kept|]. clear H1 S1 K1.
  destruct replay as [id|]; [apply replay_plan_reads in H as <-; reflexivity|]. apply tbind_Ok in H as (? & d2 & H2 & H).
  transitivity d2; [apply catalog_kept; [by eapply same_validate|by eapply kept_validate]|]. apply tbind_Ok in H as (row & d3 & H3 & H). transitivity d3.
  - destruct create; [apply insert_plan_Ok in H3 as (S & E & id & _ & W & _)|apply update_plan_Ok in H3 as (S & E & W & _)]; by eapply catalog_written.
  - apply tbind_Ok in H as (? & d4 & H4 & [= _ <-]). apply catalog_kept; [by eapply same_record_plan|by eapply kept_record_plan].
Qed.

Lemma delete_plan_catalog w planID version d r d' : delete_plan_body fingerprint session_of inet_ok w planID version d = Ok (r, d') -> catalog_write d d'.
Proof.
  unfold delete_plan_body. cbv zeta. intros (replay & d1 & H1 & H)%tbind_Ok. pose proof (same_in_billing _ (same_claim_operation _ _ _ _ _) _ _ _ H1) as S1.
  pose proof (kept_in_billing _ (only_claim _ _ _ _ _) _ _ _ H1) as K1. transitivity d1; [by apply catalog_kept|]. clear H1 S1 K1.
  destruct replay as [id|]; [apply replay_plan_reads in H as <-; reflexivity|]. rewrite tgets_bind in H. apply tbind_Ok in H as (current & d2 & [Hcur ->]%tsome_Ok & H).
  rewrite tguard_bind in H. destruct (is_nil (pl_DeletedAt current) && _) eqn:E1; [|done]. rewrite tguard_bind in H. destruct (int64b _ && _) eqn:E2; [|done]. rewrite tmod_bind in H.
  set (d2 := set_plans _ d1) in *. apply andb_true_iff in E2 as [E2 _]. transitivity d2.
  - apply (catalog_written _ _ planID (deleted_plan current (At w))); [done..|]. split_and!; [done| |].
    + intros P. destruct (P _ _ Hcur) as (Hid & price & allowance & Hp & Ha & Hc). split; [done|]. exists price, allowance. split_and!; [done..|].
      unfold plan_check in *. cbn in *. rewrite !andb_true_iff in *. destruct Hc as [[[[[[[[[[[A1 A2] A3] A4] A5] A6] A7] A8] A9] A10] A11] A12]. split_and!; try done. lia.
    + intros p Hp. assert (p = current) as -> by congruence. cbn. split; [lia|lia].
  - apply tbind_Ok in H as (? & d3 & H3 & H). transitivity d3.
    + pose proof (detach_kept _ _ _ _ H3) as (K1 & K2 & K3 & K4). split_and!; try done; [by apply evolve_same|unfold plans_ok; by rewrite K4|].
      intros C. by eapply detach_consistent.
    + apply tbind_Ok in H as (? & d4 & H4 & [= _ <-]). apply catalog_kept; [by eapply same_record_plan|by eapply kept_record_plan].
Qed.
End catalog.

(** ** Subscriptions move no cash *)

Lemma kept_operation_state id entry enabled : keeps money_kept (subscriptionOperationStateTx id entry enabled).
Proof. unfold subscriptionOperationStateTx. keeps_tac. Qed.
#[export] Hint Resolve kept_record kept_operation_state : keeps.
Lemma kept_expire_each t l : keeps money_kept (expire_each t l).
Proof. induction l as [|[[[id x] pid] y] l IH]; cbn [expire_each]; [keeps_tac|]. apply keeps_bind; [exact _| |by intros ?]. unfold expire_one. keeps_tac. Qed.
#[export] Hint Resolve kept_expire_each : keeps.

Section kept.
Context (fingerprint : list string -> string) (session_of : string -> string -> bool) (inet_ok : string -> bool).
Lemma put_kept clock p d : money_kept d (PutSubscription fingerprint session_of inet_ok clock p d).2.
Proof.
  unfold PutSubscription. destruct (put_subscription_arguments clock p) as [[p' allowance]|]; [|reflexivity]. apply keeps_withTx; [exact _|]. unfold put_subscription_body. keeps_tac.
Qed.
Lemma delete_kept clock w userID id d : money_kept d (DeleteSubscription fingerprint session_of inet_ok clock w userID id d).2.
Proof.
  unfold DeleteSubscription. destruct (validateBillingWrite w); [|reflexivity]. destruct (empty userID); [reflexivity|]. destruct (empty id); [reflexivity|].
  apply keeps_withTx; [exact _|]. unfold delete_subscription_body. keeps_tac. by apply keeps_mod.
Qed.
Lemma expire_kept clock t limit d : money_kept d (ExpireBillingSubscriptions clock t limit d).2.
Proof.
  unfold ExpireBillingSubscriptions. cbv zeta. generalize (normalizedBillingTime t clock). intros at_. generalize (expired_users at_ (if (limit <=? 0) || (10000 <? limit) then 1000 else limit) d).
  intros l. generalize 0. revert d. induction l as [|u l IH]; intros d n; [reflexivity|]. cbn [converge_each].
  assert (K : money_kept d (convergeBillingSubscriptionsCount u at_ d).2).
  { unfold convergeBillingSubscriptionsCount. apply keeps_withTx; [exact _|]. unfold expireBillingSubscriptionsTx. keeps_tac. }
  destruct (convergeBillingSubscriptionsCount u at_ d) as [[m|e] d1]; cbn [snd] in *; [|done]. by transitivity d1.
Qed.
Lemma initialize_kept d : money_kept d (InitializeBillingSubscriptionModels d).2.
Proof. unfold InitializeBillingSubscriptionModels. apply keeps_withTx; [exact _|]. keeps_tac; by apply keeps_mod. Qed.

(** ** Preferences *)

Lemma account_touched b user a t : money_inv b -> billing_accounts b !! user = Some a ->
  money_inv (set_accounts (<[user := Account (balance_usd a) (next_cash_lot_sequence a) t]> (billing_accounts b)) b).
Proof.
  intros M Ha. destruct (inv_account b M user a Ha) as [Ka Hb]. destruct M. split; btables; try done.
  - intros u x [[<- <-]|[_ Hx]]%lookup_insert_Some; [split; [exact Ka|done]|by apply inv_account].
  - intros id l Hl. destruct (inv_lot id l Hl) as (Hc & x & Hx & Hs). split; [done|]. destruct (decide (lot_user l = user)) as [E|E].
    + rewrite E, lookup_insert_eq. eexists. split; [done|]. cbn. congruence.
    + exists x. by rewrite lookup_insert_ne.
Qed.

Lemma preferences_Ok w u id priority enabled d r d' : subs_consistent d ->
  (id <> "" -> clock_ok (At w) /\ fresh_ids (length (stale_subs u (At w) d)) d) ->
  preferences_body fingerprint session_of inet_ok w u id priority enabled d = Ok (r, d') ->
  subs_consistent d' /\ sd_plans d' = sd_plans d /\ (money_inv (sd_billing d) -> money_inv (sd_billing d')).
Proof.
  intros C Hside H. unfold preferences_body in H. cbv zeta in H. apply tbind_Ok in H as (? & d1 & H1 & H). apply sub_billing_Ok in H1 as (b1 & [-> _]%lock_account_Ok & ->).
  rewrite lock_same in H. apply tbind_Ok in H as (replay & d2 & H2 & H). pose proof (same_in_billing _ (same_claim_operation _ _ _ _ _) _ _ _ H2) as S2.
  pose proof (kept_in_billing _ (only_claim _ _ _ _ _) _ _ _ H2) as K2. pose proof (consistent_same _ _ S2 C) as C2. pose proof K2 as (_ & _ & M2 & P2).
  destruct replay as [i|].
  { unfold replay_preferences in H. apply tbind_Ok in H as ([j entry] & d3 & H3 & H). apply sub_billing_Ok in H3 as (b & [-> _]%replay_Ok & ->). rewrite lock_same, tgets_bind in H.
    destruct (entry_snapshot j d2); [|done]. cbv zeta in H. apply tbind_Ok in H as (? & d3 & [_ ->]%tguard_Ok & [= _ <-]). done. }
  apply tbind_Ok in H as (result & d3 & H3 & H). apply tbind_Ok in H as ([i entry] & d4 & H4 & H). apply same_record_operation in H4 as S4. apply kept_record in H4 as K4.
  apply tbind_Ok in H as (? & d5 & H5 & H). pose proof (same_in_billing _ (same_finish_operation _ _) _ _ _ H5) as S5. pose proof (kept_in_billing _ (only_finish _ _) _ _ _ H5) as K5.
  apply tbind_Ok in H as (? & d6 & H6 & [= _ <-]). apply same_sub_audit in H6 as S6. apply kept_sub_audit in H6 as K6.
  assert (S : same_subs d3 d6) by (transitivity d4; [done|by transitivity d5]). assert (K : money_kept d3 d6) by (transitivity d4; [done|by transitivity d5]).
  pose proof K as (_ & _ & M6 & P6). assert (G : subs_consistent d3 /\ sd_plans d3 = sd_plans d2 /\ (money_inv (sd_billing d2) -> money_inv (sd_billing d3))).
  2:{ destruct G as (G1 & G2 & G3). split_and!; [by eapply consistent_same|congruence|auto]. }
  unfold save_preferences in H3. destruct (bool_decide_reflect (id = "")) as [->|Hne].
  - cbn [empty] in H3. change (empty "") with true in H3. cbn iota in H3. rewrite tmod_bind in H3. apply tbind_Ok in H3 as (? & d2' & H3 & [= _ <-]). apply sub_billing_Ok in H3 as (b & Hb & ->).
    assert (Hper : periods b = periods (sd_billing d2)).
    { unfold update_one in Hb. rewrite tgets_bind in Hb. destruct (update_rows _ _ _ _ _) as [[m rows]|]; [|done]. by injection Hb as _ <-. }
    split_and!; [by eapply consistent_same; [|exact C2]|done|]. intros M. apply update_one_Ok in Hb as [[_ ->]|(a & Ha & _ & ->)].
    + eapply money_inv_ext; [..|exact M]; done.
    + unfold sd_billing in *. stables. gtables. by apply account_touched.
  - assert (Eid : empty id = false) by (apply bool_decide_eq_false; done). rewrite Eid in H3. destruct (Hside Hne) as [Hclock Hfr].
    apply tbind_Ok in H3 as (m & d2' & H7 & H3). apply kept_roll in H7 as K7. destruct K7 as (_ & _ & M7 & P7).
    assert (F2 : fresh_ids (length (stale_subs u (At w) d2)) d2).
    { apply sub_billing_Ok in H2 as (b2 & [_ [(_ & _ & _ & _ & ->)|(? & ? & [=] & _)]]%claim_Ok & ->). destruct Hfr. split; assumption. }
    pose proof (roll_consistent _ _ _ _ _ Hclock C2 F2 H7) as C7. rewrite tgets_bind in H3. apply tbind_Ok in H3 as (? & d2'' & [_ ->]%tguard_Ok & H3).
    apply tbind_Ok in H3 as (? & d8 & H8 & H3). apply kept_update in H8 as K8. destruct K8 as (_ & _ & M8 & P8). apply tbind_Ok in H3 as (v & d9 & [-> _]%read_Ok & [= _ <-]).
    split_and!; [|congruence|auto]. eapply update_terms_consistent; [exact C7| |exact H8]. by intros s.
Qed.
End kept.

(** ** Histories *)

Section histories.
Context (fingerprint : list string -> string) (session_of : string -> string -> bool) (inet_ok : string -> bool).

(** A call that rolls the user's subscriptions forward runs while the clock is in
    range and the ids it draws are new. *)
Definition can_roll (u : string) (t : Z) (d : sub_db) : Prop := clock_ok t /\ fresh_ids (length (stale_subs u t d)) d.

Inductive plan_step (d : sub_db) : sub_db -> Prop :=
| Do_put clock p : plan_step d (PutSubscription fingerprint session_of inet_ok clock p d).2
| Do_delete clock w u id : plan_step d (DeleteSubscription fingerprint session_of inet_ok clock w u id d).2
| Do_roll u t n d' : can_roll u t d -> rollBillingSubscriptionsTx u t d = Ok (n, d') -> plan_step d d'
| Do_expire clock t limit : plan_step d (ExpireBillingSubscriptions clock t limit d).2
| Do_initialize : plan_step d (InitializeBillingSubscriptionModels d).2
| Do_create clock p : plan_step d (CreateBillingPlan fingerprint session_of inet_ok clock p d).2
| Do_update clock p id v : plan_step d (UpdateBillingPlan fingerprint session_of inet_ok clock p id v d).2
| Do_remove clock w id v : plan_step d (DeleteBillingPlan fingerprint session_of inet_ok clock w id v d).2
| Do_purchase clock w u id v count : money_inv (sd_billing d) -> plan_step d (PurchaseBillingPlan fingerprint session_of inet_ok clock w u id v count d).2
| Do_renew clock w u id v c count : money_inv (sd_billing d) -> can_roll u (At (normalized clock w)) d ->
    plan_step d (RenewBillingSubscription fingerprint session_of inet_ok clock w u id v c count d).2
| Do_prefer clock w u id priority enabled : can_roll u (At (normalized clock w)) d ->
    plan_step d (SetBillingSubscriptionPreferences fingerprint session_of inet_ok clock w u id priority enabled d).2
| Do_prefer_cash clock w u priority enabled : plan_step d (SetBillingCashPreferences fingerprint session_of inet_ok clock w u priority enabled d).2
| Do_other d' : same_subs d d' -> sd_plans d' = sd_plans d -> plan_step d d'.

Definition plan_inv (d : sub_db) : Prop := subs_consistent d /\ plans_ok d.
Definition step_ok (d d' : sub_db) : Prop := plan_inv d -> plan_inv d' /\ plans_evolve d d'.

Lemma kept_step d d' : (subs_consistent d -> subs_consistent d') -> sd_plans d' = sd_plans d -> step_ok d d'.
Proof. intros H E [C P]. split; [split; [auto|unfold plans_ok; by rewrite E]|by apply evolve_same]. Qed.
Lemma step_refl d : step_ok d d.
Proof. intros H. split; [done|reflexivity]. Qed.
Lemma catalog_step d d' : catalog_write d d' -> step_ok d d'.
Proof. intros (H1 & H2 & H3 & _) [C P]. split; [split; auto|done]. Qed.

Lemma write_plan_step clock w plan create d : step_ok d (writeBillingPlan fingerprint session_of inet_ok clock w plan create d).2.
Proof.
  unfold writeBillingPlan. destruct (let! _ := validateBillingWrite w in normalizeBillingPlan plan) as [q|]; [|apply step_refl]. unfold withTx.
  destruct (write_plan_body _ _ _ _ _ _ d) as [[r d']|] eqn:E; [|apply step_refl]. eapply catalog_step, write_plan_catalog, E.
Qed.

Lemma transact_step clock w u planID id v c count renew d : money_inv (sd_billing d) -> (renew = true -> can_roll u (At (normalized clock w)) d) ->
  step_ok d (transactBillingPlan fingerprint session_of inet_ok clock w u planID id v c count renew d).2.
Proof.
  intros M Hr [C P]. unfold transactBillingPlan. destruct (validateBillingWrite w); [|by apply step_refl]. destruct (_ || (99 <? count)) eqn:Ec; [by apply step_refl|]. unfold withTx.
  destruct (transact_body _ _ _ _ _ _ _ _ _ _ _ d) as [[r d']|] eqn:E; [|by apply step_refl].
  apply transact_fresh in E as [(_ & S & _ & _ & _ & Pk)|(_ & [_ _ Pk C' _])]; try done.
  - apply kept_step; [by apply consistent_same|done|done].
  - by apply kept_step.
  - rewrite !orb_false_iff in Ec. lia.
Qed.

Lemma prefer_step clock w u id priority enabled d : (id <> "" -> can_roll u (At (normalized clock w)) d) ->
  step_ok d (setBillingPreferences fingerprint session_of inet_ok clock w u id priority enabled d).2.
Proof.
  intros Hr [C P]. unfold setBillingPreferences. destruct (validateBillingWrite w); [|by apply step_refl]. destruct (_ || (100 <? priority)); [by apply step_refl|]. unfold withTx.
  destruct (preferences_body _ _ _ _ _ _ _ _ d) as [[r d']|] eqn:E; [|by apply step_refl]. apply preferences_Ok in E as (C' & Pk & _); [|done|exact Hr]. by apply kept_step.
Qed.

Lemma plan_step_ok d d' : plan_step d d' -> step_ok d d'.
Proof.
  intros []; try (apply kept_step; [|by eapply put_kept || by eapply delete_kept || by eapply expire_kept || by eapply initialize_kept]).
  - apply put_consistent. - apply delete_consistent.
  - destruct H. apply kept_step; [intros C; by eapply roll_consistent|by eapply kept_roll].
  - apply expire_consistent. - apply initialize_consistent.
  - apply write_plan_step.
  - unfold UpdateBillingPlan. destruct (_ || _); [apply step_refl|apply write_plan_step].
  - unfold DeleteBillingPlan. destruct (validateBillingWrite w); [|apply step_refl]. destruct (_ || _); [apply step_refl|]. unfold withTx.
    destruct (delete_plan_body _ _ _ _ _ _ d) as [[r dd]|] eqn:E; [|apply step_refl]. eapply catalog_step, delete_plan_catalog, E.
  - unfold PurchaseBillingPlan. destruct (empty id); [apply step_refl|]. by apply transact_step.
  - unfold RenewBillingSubscription. destruct (empty id); [apply step_refl|]. by apply transact_step.
  - unfold SetBillingSubscriptionPreferences. destruct (empty id); [apply step_refl|]. pose proof (prefer_step clock w u id priority enabled d (fun _ => H)) as S.
    destruct (setBillingPreferences _ _ _ _ _ _ _ _ _ d) as [[?|?] ?]; done.
  - unfold SetBillingCashPreferences. pose proof (prefer_step clock w u "" priority enabled d ltac:(done)) as S.
    destruct (setBillingPreferences _ _ _ _ _ _ _ _ _ d) as [[?|?] ?]; done.
  - apply kept_step; [by apply consistent_same|done].
Qed.

Lemma history_ok d0 d : plan_inv d0 -> rtc plan_step d0 d -> plan_inv d /\ plans_evolve d0 d.
Proof.
  intros I H. induction H as [d|a b c Hab Hbc IH]; [split; [done|reflexivity]|]. destruct (plan_step_ok a b Hab I) as [Ib Eb]. destruct (IH Ib) as [Ic Ec].
  split; [done|by transitivity b].
Qed.
End histories.

(** ** Theorems *)

(** [C13] However plans are edited and subscriptions opened, bought, renewed,
    disabled, rolled and expired, from empty tables on: an enabled subscription
    has an open current period of its own, and until its term ends every instant
    from that period on is covered by one of its live segments.  A renewal
    leaves no gap and the next roll always finds what to grant. *)
Theorem terms_always_covered fingerprint session_of inet_ok d0 d :
  sd_subs d0 = ∅ -> sd_entitlements d0 = ∅ -> sd_plans d0 = ∅ -> rtc (plan_step fingerprint session_of inet_ok) d0 d ->
  forall id s, sd_subs d !! id = Some s -> subscription_check s = true /\
    (sb_enabled s = true -> exists pid p m, sb_current_period s = Some pid /\ sd_periods d !! pid = Some p /\ periods (sd_billing d) !! pid = Some m /\
      sp_closed p = None /\ period_subscription m = id /\ period_user m = sb_user s /\ sp_starts p < sp_ends p /\
      before_deadline (sp_starts p) (sb_expires_at s) = true /\
      forall t, sp_starts p <= t -> before_deadline t (sb_expires_at s) = true -> is_Some (current_entitlement id t d)).
Proof.
  intros H1 H2 H3 Hr. assert (I0 : plan_inv d0) by (split; [split_and!; [intros ? ?; by rewrite H1|intros ? ?; by rewrite H2|intros ? ?; by rewrite H1]|intros ? ?; by rewrite H3]).
  destruct (history_ok _ _ _ d0 d I0 Hr) as [[(I & _) _] _]. intros id s Hs. destruct (I id s Hs) as (Hc & _ & Hcur). split; [done|].
  intros Hen. destruct (Hcur Hen) as (pid & p & m & [A1 A2 A3 A4 [A5 A5'] A6 A7 A8]). exists pid, p, m. split_and!; try done. intros t Ht Hd.
  destruct (A8 t Ht Hd) as (eid & e & He & Hcov). pose proof (current_entitlement_spec id t d) as Hspec. destruct (current_entitlement id t d); [eauto|]. rewrite (Hspec eid e He) in Hcov. done.
Qed.

Lemma transact_bought fingerprint session_of inet_ok clock w u planID id v c count renew d r d' :
  plan_inv d -> money_inv (sd_billing d) -> operations (sd_billing d) !! OperationID w = None ->
  (renew = true -> can_roll u (normalizedBillingTime (At w) clock) d) ->
  transactBillingPlan fingerprint session_of inet_ok clock w u planID id v c count renew d = (Ok r, d') -> bought (normalized clock w) u planID id v count renew r d d' /\ 1 <= count.
Proof.
  intros [C P] M Hop Hr H. unfold transactBillingPlan in H. destruct (validateBillingWrite w); [|done]. destruct (_ || (99 <? count)) eqn:Ec; [done|]. apply withTx_commit in H.
  rewrite !orb_false_iff in Ec. apply transact_fresh in H as [([? Hx] & _)|(_ & B)]; try done; [cbn in Hx; congruence|split; [done|lia]|lia].
Qed.

(** [C14] A buyer pays what he was quoted.  Whatever happens to the catalog between
    the quote and the purchase or renewal, if it commits with the version of the
    quote the plan still offers the same; exactly the quoted price times the
    number of periods leaves the buyer's balance, which covered it, and his
    cash lots; nobody else pays. *)
Theorem purchase_at_quote fingerprint session_of inet_ok d0 d clock w u planID id v c count renew pid p0 r d' :
  plan_inv d0 -> sd_plans d0 !! pid = Some p0 -> pl_Version p0 = v -> rtc (plan_step fingerprint session_of inet_ok) d0 d -> money_inv (sd_billing d) ->
  operations (sd_billing d) !! OperationID w = None -> (renew = true -> can_roll u (normalizedBillingTime (At w) clock) d) ->
  (if renew then bound_plan u id d = Some pid else planID = pid) ->
  transactBillingPlan fingerprint session_of inet_ok clock w u planID id v c count renew d = (Ok r, d') ->
  same_offer p0 (bt_Plan r) /\ pl_MinPeriodCount p0 <= count /\ money_inv (sd_billing d') /\
  exists price a, pl_PriceUSD p0 = numeric_text price /\ 0 < price /\ billing_accounts (sd_billing d) !! u = Some a /\ price * count <= balance_usd a /\
    bt_TotalUSD r = numeric_text (price * count) /\ bt_BalanceUSD r = numeric_text (balance_usd a - price * count) /\
    (balance_usd <$> billing_accounts (sd_billing d') !! u) = Some (balance_usd a - price * count) /\
    (forall x, x <> u -> billing_accounts (sd_billing d') !! x = billing_accounts (sd_billing d) !! x) /\
    forall x, cash_total x (cash_lots (sd_billing d')) = cash_total x (cash_lots (sd_billing d)) - (if bool_decide (x = u) then price * count else 0).
Proof.
  intros I0 Hp0 Hv Hhist M Hop Hr Hsrc H. destruct (history_ok _ _ _ d0 d I0 Hhist) as [I Hev]. destruct (transact_bought _ _ _ _ _ _ _ _ _ _ _ _ _ _ _ I M Hop Hr H) as [B Hcount].
  destruct B as [(pid' & price & Hpl & Hs & Hdel & Hv' & Hmin & Hprice & Htot & a & Ha & Hle & Hbal & Hacc & Hlots) Hm _ _ _].
  assert (pid' = pid) as -> by (destruct renew; [congruence|destruct Hs; congruence]). destruct (Hev pid p0 Hp0) as (p' & Hp' & _ & Hoff). assert (p' = bt_Plan r) as -> by congruence.
  specialize (Hoff ltac:(congruence)). destruct I as [_ P]. destruct (P pid _ Hpl) as (_ & price' & al & Hpr & _ & Hchk). apply plan_check_facts in Hchk as (Hpos & _).
  assert (price' = price) as ->.
  { pose proof (rat_numeric_text price) as R1. pose proof (rat_numeric_text price') as R2. rewrite <- Hprice in R1. rewrite <- Hpr in R2. rewrite R1 in R2. injection R2 as E. done. }
  destruct Hoff as (O1 & O2 & O3 & O4 & O5 & O6 & O7 & O8 & O9). split_and!; try done; [lia|].
  exists price, a. rewrite Hacc. split_and!; try done; [congruence|by rewrite lookup_insert_eq|]. intros x Hx. by rewrite lookup_insert_ne.
Qed.

(** A renewal on a new operation id adds time at the end: with the
    subscriptions rolled forward first, the term ends [count] of the plan's
    periods after it used to, those periods are one more segment with the plan's
    allowance and models that starts where the old term ended, and the current
    period, its number and its configuration stay as they were. *)
Theorem renewal_extends fingerprint session_of inet_ok clock w u id v c count d r d' :
  plan_inv d -> money_inv (sd_billing d) -> operations (sd_billing d) !! OperationID w = None -> can_roll u (normalizedBillingTime (At w) clock) d ->
  RenewBillingSubscription fingerprint session_of inet_ok clock w u id v c count d = (Ok r, d') ->
  plan_inv d' /\ let plan := bt_Plan r in
  exists d2 m d1 s t eid e s', same_subs d d2 /\ rollBillingSubscriptionsTx u (normalizedBillingTime (At w) clock) d2 = Ok (m, d1) /\
    sd_subs d1 !! id = Some s /\ sb_enabled s = true /\ sb_expires_at s = Some t /\ normalizedBillingTime (At w) clock < t /\
    sd_subs d' !! id = Some s' /\ sb_expires_at s' = Some (t + count * (pl_PeriodDays plan * Day24)) /\ sb_period_count s' = sb_period_count s + count /\
    sb_enabled s' = true /\ sb_current_period s' = sb_current_period s /\ sb_current_number s' = sb_current_number s /\ sb_allowance s' = sb_allowance s /\
    sd_entitlements d' !! eid = Some e /\ en_subscription e = id /\ en_starts e = t /\ en_ends e = sb_expires_at s' /\ en_models e = pl_ModelIDs plan /\
    en_tier e = pl_Tier plan /\ Some (en_allowance e) = numeric_of (pl_AllowanceUSD plan) /\ en_first e = sb_period_count s + 1 /\ en_superseded e = None.
Proof.
  intros I M Hop Hr H. unfold RenewBillingSubscription in H. destruct (empty id); [done|]. destruct (transact_bought _ _ _ _ _ _ _ _ _ _ _ _ _ _ _ I M Hop (fun _ => Hr) H) as [[_ _ Hp C' HS] _].
  split; [split; [done|unfold plans_ok; rewrite Hp; apply I]|]. destruct HS as (n & d2 & Hn & S2 & _ & d1 & s & t & eid & m & Hroll & Hs & [(R1 & R2 & R3) (e & E1 & E2 & E3 & E4 & E5 & E6 & E7 & E8 & E9 & E10) (cfg & Hs')]).
  cbv zeta. exists d2, m, d1, s, t, eid, e. eexists. split_and!; try eassumption; try done; cbn; [f_equal; lia|congruence].
Qed.

(** ** Replays *)

(** What a replay needs of the rest of the books. *)
Definition replay_frame (d d' : sub_db) : Prop :=
  let b := sd_billing d in let b' := sd_billing d' in
  operations b' = operations b /\ tombstones b' = tombstones b /\ users b' = users b /\ dom (billing_accounts b') = dom (billing_accounts b).
#[export] Instance replay_frame_preorder : PreOrder replay_frame.
Proof. split; [by intros d|]. unfold replay_frame. cbv zeta. intros a b c (H1 & H2 & H3 & H4) (G1 & G2 & G3 & G4). split_and!; congruence. Qed.
#[export] Hint Extern 0 (PreOrder replay_frame) => exact replay_frame_preorder : keeps.
#[export] Hint Extern 3 (keeps replay_frame (tmod _)) => (apply keeps_mod; intros ?; by unfold replay_frame) : keeps.
Lemma books_frame {A} (m : tx sub_db A) : keeps same_books m -> keeps replay_frame m.
Proof. intros H d a d' Hd. apply H in Hd as (H1 & H2 & H3 & H4 & H5). unfold replay_frame. cbv zeta. rewrite H5. done. Qed.
Lemma frame_in_billing {A} (m : tx billing_db A) :
  keeps (fun b b' => operations b' = operations b /\ tombstones b' = tombstones b /\ users b' = users b /\ dom (billing_accounts b') = dom (billing_accounts b)) m ->
  keeps replay_frame (in_billing m).
Proof. intros H d a d' (b' & Hb & ->)%sub_billing_Ok. apply H in Hb. exact Hb. Qed.
#[export] Hint Resolve books_frame books_newUUID books_update books_close books_insert_period books_version books_entitlement books_read books_reopen : keeps.

Lemma frame_open u id t : keeps replay_frame (open_period u id t).
Proof.
  unfold open_period, insert_sub_ledger. keeps_tac. apply frame_in_billing. intros b x b'. unfold insert_ledger. rewrite tguard_bind. destruct (ledger_check _); [|done].
  intros [= _ <-]. done.
Qed.
#[export] Hint Resolve frame_open : keeps.
Lemma frame_roll_subs u t : keeps replay_frame (rollBillingSubscriptionsTx u t).
Proof.
  unfold rollBillingSubscriptionsTx, rollBillingEntitlementsTx. apply keeps_bind; [exact _|apply keeps_gets; exact _|]. intros l.
  induction l as [|[[id pid] x] l IH]; cbn [roll_each]; [apply keeps_ret; exact _|]. apply keeps_bind; [exact _| |]; [unfold roll_one; keeps_tac|]. intros n. keeps_tac.
Qed.
#[export] Hint Resolve frame_roll_subs : keeps.
Lemma frame_renew w u id plan count : keeps replay_frame (renew_subscription w u id plan count).
Proof. unfold renew_subscription. keeps_tac. Qed.
Lemma frame_debit u total t : keeps replay_frame (in_billing (debitBillingPlanCashTx u total t)).
Proof.
  apply frame_in_billing. intros b r b' H. unfold debitBillingPlanCashTx in H. rewrite tgets_bind in H. apply tbind_Ok in H as (a & b1 & [Ha ->]%tsome_Ok & H). unfold money in H.
  apply tbind_Ok in H as (up & b1 & [_ ->]%tlift_Ok & H). apply tbind_Ok in H as (am & b1 & [_ ->]%tlift_Ok & H). apply tbind_Ok in H as (? & b1 & [_ ->]%tguard_Ok & H).
  rewrite tgets_bind in H. apply tbind_Ok in H as (nd & b1 & Hl & H). assert (HL : exists L, b1 = set_lots L b).
  { clear H Ha. revert Hl. generalize (user_lots u None b). intros l. revert b total. induction l as [|[i lot] l IH]; intros b s Hl; cbn [debit_plan_lots] in Hl;
      [injection Hl as _ <-; exists (cash_lots b); by destruct b|]. destruct (negb _); [injection Hl as _ <-; exists (cash_lots b); by destruct b|]. unfold money in Hl.
    apply tbind_Ok in Hl as (y & b2 & [_ ->]%tlift_Ok & Hl). apply tbind_Ok in Hl as (z & b2 & ->%numeric_arg_frame & Hl). apply tbind_Ok in Hl as (? & b2 & Hu & Hl).
    apply tbind_Ok in Hl as (q & b3 & [_ ->]%tlift_Ok & Hl). apply IH in Hl as [L ->]. apply update_one_Ok in Hu as [[_ ->]|(v & _ & _ & ->)]; by exists L. }
  destruct HL as [L ->]. apply tbind_Ok in H as (? & b2 & [_ ->]%tguard_Ok & H). apply tbind_Ok in H as (n & b2 & ->%numeric_arg_frame & H). apply tbind_Ok in H as (? & b2 & Hu & [= _ <-]).
  apply update_one_Ok in Hu as [[_ ->]|(v & Hv & _ & ->)]; btables; split_and!; try done. apply dom_insert_lookup_L. eauto.
Qed.

Section replay.
Context (fingerprint : list string -> string) (session_of : string -> string -> bool) (inet_ok : string -> bool).

Definition transaction_replays (d : sub_db) (w : BillingWriteParams) (kind target fp : string) (r : BillingPlanTransaction) : Prop :=
  (exists a, account_open (sd_billing d) target a) /\ replays (sd_billing d) w kind target fp (bt_Ledger r) /\
  exists x snap, sd_ledger_extra d !! (bt_Ledger r).1 = Some x /\ lx_snapshot x = Some snap /\ ts_Plan snap = Some (bt_Plan r) /\ ts_Subscription snap = Some (bt_Subscription r) /\
    ts_PeriodCount snap = bt_PeriodCount r /\ ts_TotalUSD snap = bt_TotalUSD r /\ ts_BalanceUSD snap = bt_BalanceUSD r.

Lemma transaction_replay_run w u planID id v c count (renew : bool) d r :
  transaction_replays d w (if renew then "plan_renewal" else "plan_purchase") u
    (fingerprint [if renew then "plan_renewal" else "plan_purchase"; ActorUserID w; u; Reason w; planID; id; int_text v; int_text c; int_text count]) r ->
  transact_body fingerprint session_of inet_ok w u planID id v c count renew d = Ok (r, d).
Proof.
  intros ((a & O) & R & x & snap & Hx & Hs & H1 & H2 & H3 & H4 & H5). unfold transact_body. cbv zeta. assert (Hl : in_billing (lockBillingAccountTx u) d = Ok (tt, d)).
  { rewrite <- (lock_same d) at 2. apply in_billing_run. pose proof (lock_account_eq u a (sd_billing d) tret O) as E. unfold tbind in E. by destruct (lockBillingAccountTx u (sd_billing d)) as [[[] ?]|]. }
  rewrite (tbind_run _ _ _ _ _ Hl). set (fp := fingerprint _) in *. set (kind := if renew then _ else _) in *.
  assert (Hc : in_billing (claimBillingOperationTx w kind u fp []) d = Ok (Some (bt_Ledger r).1, d)).
  { rewrite <- (lock_same d) at 2. apply in_billing_run. pose proof (claim_replay_eq w kind u fp (sd_billing d) _ tret R) as E.
    unfold tbind in E. destruct (claimBillingOperationTx w kind u fp [] (sd_billing d)) as [[o ?]|]; [|done]. by injection E as -> ->. }
  rewrite (tbind_run _ _ _ _ _ Hc). unfold replay_transaction. assert (Hr : in_billing (replayBillingLedgerTx (bt_Ledger r).1) d = Ok (bt_Ledger r, d)).
  { rewrite <- (lock_same d) at 2. apply in_billing_run. by eapply replay_ledger_eq. }
  rewrite (tbind_run _ _ _ _ _ Hr). destruct r as [plan k total balance sub [lid entry]]. cbn [bt_Ledger bt_Plan bt_Subscription bt_PeriodCount bt_TotalUSD bt_BalanceUSD fst] in *. rewrite tgets_bind.
  unfold entry_snapshot. rewrite Hx. cbn [mbind option_bind]. rewrite Hs, H1, H2. unfold tret. by rewrite H3, H4, H5.
Qed.

Lemma transact_recorded w u planID id v c count (renew : bool) d r d' :
  transact_body fingerprint session_of inet_ok w u planID id v c count renew d = Ok (r, d') ->
  transaction_replays d' w (if renew then "plan_renewal" else "plan_purchase") u
    (fingerprint [if renew then "plan_renewal" else "plan_purchase"; ActorUserID w; u; Reason w; planID; id; int_text v; int_text c; int_text count]) r.
Proof.
  intros H. unfold transact_body in H. cbv zeta in H. set (fp := fingerprint _) in *. set (kind := if renew then _ else _) in *. apply tbind_Ok in H as (? & d1 & H1 & H).
  apply sub_billing_Ok in H1 as (b1 & (-> & a & O)%lock_account_Ok & ->). rewrite lock_same in H. apply tbind_Ok in H as (replay & d2 & H2 & H). apply sub_billing_Ok in H2 as (b2 & H2 & E2).
  apply claim_Ok in H2 as (Htomb & [(-> & Hop & _ & _ & ->)|(i & row & -> & -> & Hop & Hres & Hk & Ha & Ht & Hf)]).
  2:{ rewrite lock_same in E2. subst d2. unfold replay_transaction in H. apply tbind_Ok in H as ([j entry] & d3 & H3 & H). apply sub_billing_Ok in H3 as (b3 & (-> & Ej & Hl)%replay_Ok & ->).
      rewrite lock_same, tgets_bind in H. cbn in Ej, Hl. subst j. unfold entry_snapshot in H. destruct (sd_ledger_extra d !! i) as [lx|] eqn:Hx; [|done]. cbn in H.
      destruct (lx_snapshot lx) as [sn|] eqn:Hsn; [|done]. destruct (ts_Plan sn) eqn:Hp; [|done]. destruct (ts_Subscription sn) eqn:Hsub; [|done]. injection H as <- <-.
      split; [eauto|]. cbn [bt_Ledger bt_Plan bt_Subscription bt_PeriodCount bt_TotalUSD bt_BalanceUSD fst]. split; [|exists lx, sn; done]. split_and!; [done..|]. exists row. done. }
  apply tbind_Ok in H as (plan & d2' & (-> & _)%quoted_Ok & H). apply tbind_Ok in H as (subscription & d3 & H3 & H).
  assert (F3 : replay_frame d2 d3) by (destruct renew; [by eapply frame_renew|by eapply books_frame; [apply books_reopen|exact H3]]).
  apply tbind_Ok in H as (total & d3' & [_ ->]%tlift_Ok & H). apply tbind_Ok in H as (balance & d4 & H4 & H). apply frame_debit in H4 as F4.
  apply tbind_Ok in H as (n & d4' & Hn & H). unfold sub_numeric in Hn. destruct (numeric_of total) as [n0|]; [|done]. injection Hn as -> <-.
  apply tbind_Ok in H as (b & d4' & Hb & H). unfold sub_numeric in Hb. destruct (numeric_of balance) as [b0|]; [|done]. injection Hb as -> <-.
  apply tbind_Ok in H as ([lid entry] & d5 & H5 & H). rewrite tmod_bind in H. apply tbind_Ok in H as (? & d6 & H6 & H). apply tbind_Ok in H as (? & d7 & H7 & H).
  assert (F : replay_frame d2 d4) by by transitivity d3. destruct F as (F1 & F2 & F5 & F6). apply sub_billing_Ok in H5 as (b5 & (_ & [= -> ->] & ->)%insert_entry_Ok & ->).
  apply sub_billing_Ok in H6 as (b6 & H6 & ->). subst d2. unfold sd_billing in *. stables. gtables. unfold finishBillingOperationTx in H6. rewrite tgets_bind in H6. btables. cbn [update_rows] in H6.
  rewrite F1, lookup_insert_eq, bool_decide_true in H6 by done. rewrite tmod_bind in H6. apply tguard_Ok in H6 as [_ ->].
  unfold sub_audit in H7. apply tbind_Ok in H7 as (md & d8 & [_ ->]%tlift_Ok & H7). apply sub_billing_Ok in H7 as (b7 & H7 & ->). unfold appendBillingAuditTx in H7. rewrite tgets_bind in H7.
  apply tbind_Ok in H7 as (? & b8 & [_ ->]%tguard_Ok & [= _ <-]). injection H as <- <-. split_and!.
  - destruct O as [Ha Hst]. assert (Hd : is_Some (billing_accounts (gd_billing (sd_groups d4)) !! u)) by (apply elem_of_dom; rewrite F6; apply elem_of_dom; eauto).
    destruct Hd as [a' Ha']. exists a'. unfold account_open, sd_billing. stables. gtables. btables. by rewrite F5.
  - cbn [bt_Ledger]. unfold replays, sd_billing. stables. gtables. btables. cbn [fst snd]. rewrite F2. split_and!; [done| |].
    + unfold entry_id. replace (Z.to_nat _) with (length (ledger (gd_billing (sd_groups d4)))) by lia. by rewrite list_lookup_middle.
    + rewrite lookup_insert_eq. eexists. split_and!; [done|..]; done.
  - cbn [bt_Ledger fst]. stables. rewrite lookup_insert_eq. eexists _, _. split_and!; [done|..]; done.
Qed.

(** Purchases and renewals happen once: repeating a committed one, at any
    time and from any session, returns the recorded answer, whatever became of
    the plan, the balance or the subscription, and takes no money. *)
Theorem plan_transactions_idempotent clock clock' w q u planID id v c count renew d r d' :
  same_write w q -> transactBillingPlan fingerprint session_of inet_ok clock w u planID id v c count renew d = (Ok r, d') ->
  transactBillingPlan fingerprint session_of inet_ok clock' q u planID id v c count renew d' = (Ok r, d').
Proof.
  intros Hw H. pose proof (same_write_valid _ _ Hw) as Hv. destruct Hw as (W1 & W2 & W3). unfold transactBillingPlan in *. rewrite Hv, W2. destruct (validateBillingWrite w); [|done].
  destruct (_ || (99 <? count)); [done|]. apply withTx_commit in H. apply withTx_commit, transaction_replay_run. apply transact_recorded in H.
  cbn [normalized ActorUserID Reason] in *. rewrite W2, W3. destruct H as (O & R & X). split_and!; try done. unfold replays in *. cbn [normalized OperationID ActorUserID] in *. by rewrite W1, W2.
Qed.
End replay.

(** ** A sample shop *)

Definition usd_units (n : Z) : Z := n * 10 ^ 12.
(** Ann has a hundred dollars. *)
Definition shop_billing : billing_db :=
  BillingDB {["owner" := "active"; "ann" := "active"]} {["ann" := Account (usd_units 100) 2 1]} {[1 := Lot "ann" 1 1 (usd_units 100) (usd_units 100) 1]}
    ∅ ∅ ∅ ∅ ∅ ∅ ∅ [] ∅ ∅ ∅ (Settings 1 0 None) [].
Definition shop_empty : sub_db :=
  SubDB (GroupDB shop_billing {["ann" := ("ann", "Ann")]} ∅ ∅ ∅ (Some ∅) ∅ {["gpt-5" := true]} demo_random) ∅ ∅ ∅ ∅ ∅ (true, ["gpt-5"]) ∅ ∅ 0.
Definition shop_write (op actor : string) : BillingWriteParams :=
  {| OperationID := op; Reason := "shop"; ActorUserID := actor; ActorSessionID := ""; RequestID := ""; SourceIP := ""; At := 0 |}.
(** Ten dollars a week at three dollars a period. *)
Definition shop_offer (op : string) : PlanParams :=
  {| cp_write := shop_write op "owner"; cp_PeriodDays := 0; cp_ModelIDs := ["gpt-5"]; cp_Name := "weekly"; cp_PriceUSD := "3"; cp_Tier := "week"; cp_AllowanceUSD := "10";
     cp_MinPeriodCount := 0; cp_Active := true |}.
Definition shop_plan : string := "61616161-6161-4161-a161-616161616161".
Definition shop_sub : string := "62626262-6262-4262-a262-626262626262".
Definition shop_yes2 (_ _ : string) : bool := true.
Definition shop_yes (_ : string) : bool := true.
Definition shop_open : sub_db := (CreateBillingPlan demo_fingerprint shop_yes2 shop_yes demo_start (shop_offer "op-1") shop_empty).2.
Definition shop_buy (clock : Z) : sub_db -> result store_error BillingPlanTransaction * sub_db :=
  PurchaseBillingPlan demo_fingerprint shop_yes2 shop_yes clock (shop_write "op-2" "ann") "ann" shop_plan 1 4.
Definition shop_sold : sub_db := (shop_buy demo_start shop_open).2.
Definition shop_renew (clock : Z) : sub_db -> result store_error BillingPlanTransaction * sub_db :=
  RenewBillingSubscription demo_fingerprint shop_yes2 shop_yes clock (shop_write "op-3" "ann") "ann" shop_sub 1 2 2.

(** Four weeks from the start, then two more; 82 dollars are left. *)
Example shop_ex :
  match shop_buy demo_start shop_open, shop_renew (demo_start + 9 * Day24) shop_sold with
  | (Ok r, _), (Ok q, _) => (ss_ID (bt_Subscription r), bt_TotalUSD r, ss_ExpiresAt (bt_Subscription r), bt_BalanceUSD q, ss_ExpiresAt (bt_Subscription q))
  | _, _ => ("", "", None, "", None)
  end = (shop_sub, "12.000000000000", Some (demo_start + 28 * Day24), "82.000000000000", Some (demo_start + 42 * Day24)).
Proof. vm_compute. reflexivity. Qed.

Lemma shop_empty_inv : plan_inv shop_empty.
Proof. split; [split_and!|]; intros ? ? H; vm_compute in H; discriminate H. Qed.
Lemma shop_money : money_inv shop_billing.
Proof.
  split; unfold shop_billing; btables.
  - intros u a [<- <-]%lookup_singleton_Some. split; vm_compute; reflexivity.
  - intros id l [<- <-]%lookup_singleton_Some. split; [by vm_compute|]. exists (Account (usd_units 100) 2 1). split; [by rewrite lookup_singleton_eq|cbn; lia].
  - intros id p. by rewrite lookup_empty.
  - intros id g. by rewrite lookup_empty.
  - intros p u n. by rewrite lookup_empty.
  - intros id r. by rewrite lookup_empty.
  - intros id. by rewrite lookup_empty.
  - intros id o [x Hx]. by rewrite lookup_empty in Hx.
Qed.

Lemma shop_opened : rtc (plan_step demo_fingerprint shop_yes2 shop_yes) shop_empty shop_open.
Proof. apply rtc_once. exact (Do_create _ _ _ _ demo_start (shop_offer "op-1")). Qed.
Lemma shop_open_inv : plan_inv shop_open.
Proof. exact (proj1 (history_ok _ _ _ _ _ shop_empty_inv shop_opened)). Qed.
Lemma shop_open_money : money_inv (sd_billing shop_open).
Proof. apply (money_inv_ext shop_billing); [vm_compute; reflexivity..|exact shop_money]. Qed.
Lemma shop_bought : rtc (plan_step demo_fingerprint shop_yes2 shop_yes) shop_open shop_sold.
Proof. apply rtc_once. exact (Do_purchase _ _ _ _ demo_start (shop_write "op-2" "ann") "ann" shop_plan 1 4 shop_open_money). Qed.
Lemma shop_sold_inv : plan_inv shop_sold.
Proof. exact (proj1 (history_ok _ _ _ _ _ shop_open_inv shop_bought)). Qed.

Lemma shop_open_new : operations (sd_billing shop_open) !! OperationID (shop_write "op-2" "ann") = None.
Proof. vm_compute. reflexivity. Qed.
Lemma shop_sold_new : operations (sd_billing shop_sold) !! OperationID (shop_write "op-3" "ann") = None.
Proof. vm_compute. reflexivity. Qed.
Lemma shop_purchase : exists r, transactBillingPlan demo_fingerprint shop_yes2 shop_yes demo_start (shop_write "op-2" "ann") "ann" shop_plan "" 1 0 4 false shop_open = (Ok r, shop_sold).
Proof.
  destruct (shop_buy demo_start shop_open) as [[r|e] d'] eqn:E; [|vm_compute in E; discriminate E]. exists r.
  replace shop_sold with d' by (unfold shop_sold; rewrite E; reflexivity). exact E.
Qed.

(** Twelve dollars leave Ann's account for four weeks at three. *)
Lemma purchase_at_quote_witness : (balance_usd <$> billing_accounts (sd_billing shop_sold) !! "ann") = Some (usd_units 100 - usd_units 3 * 4).
Proof.
  destruct shop_purchase as [r Hr]. destruct (sd_plans shop_open !! shop_plan) as [p0|] eqn:Hp; [|vm_compute in Hp; discriminate Hp].
  assert (Hv : pl_Version p0 = 1) by (vm_compute in Hp; injection Hp as <-; reflexivity).
  destruct (purchase_at_quote demo_fingerprint shop_yes2 shop_yes shop_open shop_open demo_start (shop_write "op-2" "ann") "ann" shop_plan "" 1 0 4 false shop_plan p0 r shop_sold
    shop_open_inv Hp Hv (rtc_refl _ _) shop_open_money shop_open_new (fun H => False_ind _ (Bool.diff_false_true H)) eq_refl Hr) as (_ & _ & _ & price & a & Hprice & _ & Ha & _ & _ & _ & Hbal & _).
  rewrite Hbal. vm_compute in Ha. injection Ha as <-. vm_compute in Hp. injection Hp as <-. cbn [pl_PriceUSD] in Hprice.
  assert (E : numeric_text (usd_units 3) = numeric_text price) by (rewrite <- Hprice; vm_compute; reflexivity).
  pose proof (rat_numeric_text price) as R1. pose proof (rat_numeric_text (usd_units 3)) as R2. rewrite E, R1 in R2. injection R2 as ->. reflexivity.
Defined.

Lemma shop_sold_money : money_inv (sd_billing shop_sold).
Proof.
  destruct shop_purchase as [r Hr].
  destruct (transact_bought _ _ _ _ _ _ _ _ _ _ _ _ _ _ _ shop_open_inv shop_open_money shop_open_new (fun H => False_ind _ (Bool.diff_false_true H)) Hr) as [[_ Hm _ _ _] _]. exact Hm.
Qed.
Lemma shop_can_roll : can_roll "ann" (demo_start + 9 * Day24) shop_sold.
Proof.
  split; [vm_compute; split; [discriminate|reflexivity]|]. split; [vm_compute; lia|apply (bool_decide_eq_true _); vm_compute; reflexivity|].
  assert (H : forallb (fun b => bool_decide (sd_periods shop_sold !! uuid_text b = None) && bool_decide (periods (sd_billing shop_sold) !! uuid_text b = None))
    (gd_random (sd_groups shop_sold)) = true) by (vm_compute; reflexivity).
  intros b Hb%list_elem_of_In. rewrite forallb_forall in H. apply H in Hb. by rewrite andb_true_iff, !bool_decide_eq_true in Hb.
Qed.

(** On the ninth day Ann renews for two weeks. *)
Lemma renewal_extends_witness : exists r d' s', shop_renew (demo_start + 9 * Day24) shop_sold = (Ok r, d') /\ sd_subs d' !! shop_sub = Some s' /\
  exists t, sb_expires_at s' = Some (t + 2 * (pl_PeriodDays (bt_Plan r) * Day24)) /\ demo_start + 9 * Day24 < t.
Proof.
  destruct (shop_renew (demo_start + 9 * Day24) shop_sold) as [[r|e] d'] eqn:E; [|vm_compute in E; discriminate E].
  destruct (renewal_extends demo_fingerprint shop_yes2 shop_yes (demo_start + 9 * Day24) (shop_write "op-3" "ann") "ann" shop_sub 1 2 2 shop_sold r d'
    shop_sold_inv shop_sold_money shop_sold_new shop_can_roll E) as (_ & d2 & m & d1 & s & t & eid & e & s' & _ & _ & _ & _ & _ & Ht & Hs' & Hx & _).
  exists r, d', s'. split; [reflexivity|]. split; [exact Hs'|]. exists t. split; [exact Hx|exact Ht].
Defined.

Lemma plan_transactions_idempotent_witness : exists r, shop_buy demo_start shop_open = (Ok r, shop_sold) /\ shop_buy (demo_start + Day24) shop_sold = (Ok r, shop_sold).
Proof.
  destruct shop_purchase as [r Hr]. exists r. split; [exact Hr|].
  apply (plan_transactions_idempotent demo_fingerprint shop_yes2 shop_yes demo_start (demo_start + Day24) (shop_write "op-2" "ann") (shop_write "op-2" "ann")
    "ann" shop_plan "" 1 0 4 false shop_open r shop_sold); [repeat split|exact Hr].
Defined.

Lemma terms_always_covered_witness : is_Some (current_entitlement shop_sub (demo_start + 27 * Day24) shop_sold).
Proof.
  destruct (sd_subs shop_sold !! shop_sub) as [s|] eqn:Hs; [|vm_compute in Hs; discriminate Hs].
  destruct (terms_always_covered demo_fingerprint shop_yes2 shop_yes shop_empty shop_sold eq_refl eq_refl eq_refl (PreOrder_Transitive _ _ _ shop_opened shop_bought) shop_sub s Hs) as [_ H].
  assert (Hen : sb_enabled s = true) by (vm_compute in Hs; injection Hs as <-; reflexivity).
  destruct (H Hen) as (pid & p & m & Hp & Hq & _ & _ & _ & _ & _ & _ & Hcov). vm_compute in Hs. injection Hs as <-. injection Hp as <-. vm_compute in Hq. injection Hq as <-.
  apply Hcov; vm_compute; [discriminate|reflexivity].
Defined.
