(* ===== verification/ModelAccess.v ===== *)
(** * Model access ([internal/store/model_access.go], [model_access_batch.go])

    Every user has, for every model of the catalog, a row that says whether he
    may use it.  The rows are snapshots: a new user gets the defaults of that
    moment, by a trigger on [users]; a change of a default never rewrites them.
    A missing row is treated as corruption.  [ORDER BY model] is the order of
    the bytes; names of users are ordered by the database's collation
    [collate] of their lower-case form. *)
From Stdlib Require Import Ascii.
From S2P Require Import Prelude GoStrings GoTime Amount Store Money Funding BillingTables Accounts Groups.

Definition ErrModelNotAllowed : store_error := ErrOther "store: model not allowed".
Definition ErrModelAccessUnavailable : store_error := ErrOther "store: model access unavailable".

Definition ModelAccessScopeDefault : string := "default".
Definition ModelAccessScopeAll : string := "all".
Definition ModelAccessScopeSelected : string := "selected".

(** ** Tables *)

Record access_user := AccessUser { au_username : string; au_display : string; au_role : string; au_status : string }.
(** A row of [model_access_defaults], without its model. *)
Record default_row := DefaultRow { dr_enabled : bool; dr_active : bool; dr_created : Z; dr_updated : Z; dr_by : option string }.
(** A row of [user_model_access]; the key is (user, model). *)
Record access_row := AccessRow { ar_enabled : bool; ar_created : Z; ar_updated : Z; ar_by : option string }.

Record access_db := AccessDB {
  xd_users : gmap string access_user;
  xd_defaults : gmap string default_row;
  xd_access : gmap (string * string) access_row;
  xd_audit : list audit_row;
}.
Definition set_xusers v d := AccessDB v (xd_defaults d) (xd_access d) (xd_audit d).
Definition set_defaults v d := AccessDB (xd_users d) v (xd_access d) (xd_audit d).
Definition set_access v d := AccessDB (xd_users d) (xd_defaults d) v (xd_audit d).
Definition set_xaudit v d := AccessDB (xd_users d) (xd_defaults d) (xd_access d) v.

Ltac xtables := cbn [set_xusers set_defaults set_access set_xaudit xd_users xd_defaults xd_access xd_audit] in *.

Definition default_check (model : string) (r : default_row) : bool := validModelAccessModel model && (dr_created r <=? dr_updated r).
Definition access_check (r : access_row) : bool := ar_created r <=? ar_updated r.

(** [status <> 'pending']. *)
Definition approved (d : access_db) (userID : string) : bool :=
  match xd_users d !! userID with Some u => negb (bool_decide (au_status u = "pending")) | None => false end.
Definition approved_users (d : access_db) : gset string := dom (filter (fun kv => au_status kv.2 <> "pending") (xd_users d)).
Definition model_active (d : access_db) (model : string) : bool :=
  match xd_defaults d !! model with Some r => dr_active r | None => false end.
Definition active_models (d : access_db) : list string :=
  stable_sort str_ltb (elements (dom (filter (fun kv => dr_active kv.2 = true) (xd_defaults d)))).

(** ** Parameters *)

Record ModelAccessWriteParams := {
  mw_ActorUserID : string;
  mw_ActorSessionID : string;
  mw_RequestID : string;
  mw_SourceIP : string;
  mw_Reason : string;
  mw_At : Z;
}.
Record ModelAccessChangeResult := ChangeResult { mc_Model : string; mc_Enabled : bool; mc_Scope : string; mc_TargetCount : Z; mc_ChangedCount : Z }.
Record ModelAccessBatchResult := BatchResult { mb_Results : list ModelAccessChangeResult; mb_TargetCount : Z; mb_ChangedCount : Z }.

Definition normalizeModelAccessWrite (p : ModelAccessWriteParams) (clock : Z) : result store_error ModelAccessWriteParams :=
  let p' := {| mw_ActorUserID := trim_space (mw_ActorUserID p); mw_ActorSessionID := trim_space (mw_ActorSessionID p);
               mw_RequestID := trim_space (mw_RequestID p); mw_SourceIP := trim_space (mw_SourceIP p); mw_Reason := trim_space (mw_Reason p);
               mw_At := if is_zero_time (mw_At p) then clock else mw_At p |} in
  if empty (mw_ActorUserID p') || empty (mw_Reason p') || (500 <? rune_count (mw_Reason p'))
  then Err (ErrInvalid "model access actor and 1-500 character reason are required") else Ok p'.

Definition normalizeModelAccessBatch (models : list string) : result store_error (list string) :=
  if bool_decide (models = []) || (1000 <? Z.of_nat (length models)) then Err (ErrInvalid "model access batch requires 1-1000 models") else
  let! normalized := normalizeModelAccessCatalog models in
  if negb (length normalized =? length models)%nat then Err (ErrInvalid "model access models must be unique") else Ok normalized.

(** ** The catalog *)

Definition deactivate (models : list string) (model : string) (r : default_row) : default_row :=
  if dr_active r && negb (bool_decide (model ∈ models)) then DefaultRow (dr_enabled r) false (dr_created r) (dr_updated r) (dr_by r) else r.
(** [INSERT ... ON CONFLICT (model) DO UPDATE SET catalog_active = true]. *)
Definition activate (at_ : Z) (rows : gmap string default_row) (model : string) : gmap string default_row :=
  <[model := match rows !! model with
             | Some r => DefaultRow (dr_enabled r) true (dr_created r) (dr_updated r) (dr_by r)
             | None => DefaultRow true true at_ at_ None
             end]> rows.
(** The rows of [users CROSS JOIN model_access_defaults WHERE catalog_active]. *)
Definition access_pairs (d : access_db) : list (string * string * default_row) :=
  u ← elements (dom (xd_users d)); m ← map_to_list (filter (fun kv => dr_active kv.2 = true) (xd_defaults d)); [(u, m.1, m.2)].
(** [ON CONFLICT (user_id, model) DO NOTHING]. *)
Definition backfill (at_ : Z) (rows : gmap (string * string) access_row) (x : string * string * default_row) : gmap (string * string) access_row :=
  insert_missing x.1 (AccessRow (dr_enabled x.2) at_ at_ None) rows.

Definition SyncModelAccessCatalog (clock : Z) (models : list string) (d : access_db) : result store_error unit * access_db :=
  match normalizeModelAccessCatalog models with
  | Err e => (Err e, d)
  | Ok models => withTx (
      tmod (fun d => set_defaults (map_imap (fun m r => Some (deactivate models m r)) (xd_defaults d)) d) ;;
      tguard (forallb validModelAccessModel models) (ErrInvalid "synchronize model access defaults") ;;
      tmod (fun d => set_defaults (foldl (activate clock) (xd_defaults d) models) d) ;;
      tmod (fun d => set_access (foldl (backfill clock) (xd_access d) (access_pairs d)) d)) d
  end.

(** The trigger [users_snapshot_model_access_defaults] on a new user. *)
Definition register_user (userID : string) (u : access_user) (at_ : Z) (d : access_db) : access_db :=
  let d' := set_xusers (<[userID := u]> (xd_users d)) d in
  set_access (foldl (backfill at_) (xd_access d')
    ((fun m => (userID, m.1, m.2)) <$> map_to_list (filter (fun kv => dr_active kv.2 = true) (xd_defaults d')))) d'.

(** ** Questions *)

Definition requireModelAccess (userID model : string) (d : access_db) : result store_error unit :=
  if model_active d model && approved d userID then
    match xd_access d !! (userID, model) with
    | None => Err ErrModelAccessUnavailable
    | Some r => if ar_enabled r then Ok tt else Err ErrModelNotAllowed
    end
  else Err ErrModelAccessUnavailable.
Definition RequireModelAccess (userID model : string) (d : access_db) : result store_error unit :=
  let! model := normalizeModelAccessModel model in
  let userID := trim_space userID in
  if empty userID then Err (ErrInvalid "model access user is required") else requireModelAccess userID model d.

Fixpoint enabled_models (userID : string) (d : access_db) (models : list string) : result store_error (list string) :=
  match models with
  | [] => Ok []
  | m :: rest =>
      match xd_access d !! (userID, m) with
      | None => Err ErrModelAccessUnavailable
      | Some r => let! l := enabled_models userID d rest in Ok (if ar_enabled r then m :: l else l)
      end
  end.
Definition ListEnabledModelsForUser (userID : string) (d : access_db) : result store_error (list string) :=
  let userID := trim_space userID in
  if empty userID then Err (ErrInvalid "model access user is required") else
  if approved d userID then enabled_models userID d (active_models d) else Err (ErrNotFound "list enabled models for user").

(** What the owner sees of a model: the row and its counts of approved users. *)
Record ModelAccessModel := {
  mm_Model : string;
  mm_DefaultEnabled : bool;
  mm_EnabledUserCount : Z;
  mm_DisabledUserCount : Z;
  mm_UpdatedAt : Z;
  mm_UpdatedByUserID : option string;
}.
Definition model_users (d : access_db) (model : string) (enabled : bool) : Z :=
  Z.of_nat (size (filter (fun kv => kv.1.2 = model /\ approved d kv.1.1 = true /\ ar_enabled kv.2 = enabled) (xd_access d))).
Definition model_summary (d : access_db) (model : string) : result store_error ModelAccessModel :=
  match xd_defaults d !! model with
  | None => Err ErrModelAccessUnavailable
  | Some r =>
      if negb (model_users d model true + model_users d model false =? Z.of_nat (size (approved_users d))) then Err ErrModelAccessUnavailable else
      Ok {| mm_Model := model; mm_DefaultEnabled := dr_enabled r; mm_EnabledUserCount := model_users d model true;
            mm_DisabledUserCount := model_users d model false; mm_UpdatedAt := dr_updated r; mm_UpdatedByUserID := dr_by r |}
  end.
(** The first error ends a loop over rows. *)
Fixpoint collect {A B} (f : A -> result store_error B) (l : list A) : result store_error (list B) :=
  match l with [] => Ok [] | x :: rest => let! y := f x in let! ys := collect f rest in Ok (y :: ys) end.
Definition ListModelAccessModels (d : access_db) : result store_error (list ModelAccessModel) := collect (model_summary d) (active_models d).

(** The authorization of one user for one model. *)
Record ModelAccessUser := {
  mu_Model : string;
  mu_UserID : string;
  mu_Username : string;
  mu_DisplayName : string;
  mu_Role : string;
  mu_Status : string;
  mu_Enabled : bool;
  mu_UpdatedAt : Z;
  mu_UpdatedByUserID : option string;
}.
Section users.
Context (collate : string -> string -> comparison).
Definition user_less (a b : string * access_user) : bool :=
  match collate (to_lower (au_username a.2)) (to_lower (au_username b.2)) with Lt => true | Gt => false | Eq => str_ltb a.1 b.1 end.
Definition listed_users (d : access_db) : list (string * access_user) :=
  stable_sort user_less (map_to_list (filter (fun kv => au_status kv.2 <> "pending") (xd_users d))).
Definition user_state (d : access_db) (model : string) (u : string * access_user) : result store_error ModelAccessUser :=
  match xd_access d !! (u.1, model) with
  | None => Err ErrModelAccessUnavailable
  | Some r => Ok {| mu_Model := model; mu_UserID := u.1; mu_Username := au_username u.2; mu_DisplayName := au_display u.2; mu_Role := au_role u.2;
                    mu_Status := au_status u.2; mu_Enabled := ar_enabled r; mu_UpdatedAt := ar_updated r; mu_UpdatedByUserID := ar_by r |}
  end.
Definition ListModelAccessUsers (model : string) (d : access_db) : result store_error (list ModelAccessUser) :=
  let! model := normalizeModelAccessModel model in
  if model_active d model then collect (user_state d model) (listed_users d) else Err (ErrNotFound "list model access users").
(** Users first, then the sorted models. *)
Definition ListModelAccessUsersBatch (requested : list string) (d : access_db) : result store_error (list ModelAccessUser) :=
  let! models := normalizeModelAccessBatch requested in
  if (length (List.filter (model_active d) models) =? length models)%nat
  then collect (fun x => user_state d x.2 x.1) (u ← listed_users d; m ← models; [(u, m)])
  else Err (ErrNotFound "model access batch model not found").
End users.

(** ** Changes *)

Section writes.
Context (session_of : string -> string -> bool) (inet_ok : string -> bool) (uuid_parse : string -> option string).

Definition appendModelAccessAuditTx (w : ModelAccessWriteParams) (eventType : string) (r : ModelAccessChangeResult) : tx access_db unit :=
  let* metadata := tlift (marshalSafeMetadata [("reason", MetaString (mw_Reason w)); ("enabled", MetaBool (mc_Enabled r)); ("scope", MetaString (mc_Scope r));
    ("target_count", MetaInt (mc_TargetCount r)); ("changed_count", MetaInt (mc_ChangedCount r))]) in
  let* users := tgets xd_users in
  tguard (bool_decide (is_Some (users !! mw_ActorUserID w)) && (empty (mw_ActorSessionID w) || session_of (mw_ActorSessionID w) (mw_ActorUserID w)) &&
          (empty (mw_SourceIP w) || inet_ok (mw_SourceIP w)) &&
          (empty (mw_RequestID w) || ((16 <=? rune_count (mw_RequestID w)) && (rune_count (mw_RequestID w) <=? 128))))
    (ErrInvalid "append model access audit event") ;;
  tmod (fun d => set_xaudit (xd_audit d ++ [Audit (mw_At w) (mw_ActorUserID w) (value_or_nil (mw_ActorSessionID w)) eventType
    (value_or_nil (mw_SourceIP w)) "model" (mc_Model r) (value_or_nil (mw_RequestID w)) metadata]) d).

Fixpoint lock_models (models : list string) : tx access_db unit :=
  match models with
  | [] => tret tt
  | m :: rest => let* active := tgets (fun d => model_active d m) in tguard active (ErrNotFound "lock model access batch model") ;; lock_models rest
  end.
Definition lockModelAccessBatch : list string -> tx access_db unit := lock_models.

(** One model of a batch: the update, counted, and its audit event. *)
Definition change_default (w : ModelAccessWriteParams) (enabled : bool) (model : string) : tx access_db ModelAccessChangeResult :=
  let* d := tgets (fun d => d) in
  match xd_defaults d !! model with
  | Some r =>
      if Bool.eqb (dr_enabled r) enabled then tret (ChangeResult model enabled ModelAccessScopeDefault 1 0) else
      let r' := DefaultRow enabled (dr_active r) (dr_created r) (mw_At w) (Some (mw_ActorUserID w)) in
      let change := ChangeResult model enabled ModelAccessScopeDefault 1 1 in
      tguard (default_check model r' && bool_decide (is_Some (xd_users d !! mw_ActorUserID w))) (ErrInvalid "update model access batch default") ;;
      tmod (fun d => set_defaults (<[model := r']> (xd_defaults d)) d) ;;
      appendModelAccessAuditTx w "model_access.default_changed" change ;;
      tret change
  | None => tret (ChangeResult model enabled ModelAccessScopeDefault 1 0)
  end.

Fixpoint change_each (f : string -> tx access_db ModelAccessChangeResult) (models : list string) : tx access_db ModelAccessBatchResult :=
  match models with
  | [] => tret (BatchResult [] 0 0)
  | m :: rest =>
      let* c := f m in
      let* r := change_each f rest in
      tret (BatchResult (c :: mb_Results r) (mc_TargetCount c + mb_TargetCount r) (mc_ChangedCount c + mb_ChangedCount r))
  end.

Definition SetModelAccessDefaultsBatch (clock : Z) (w : ModelAccessWriteParams) (models : list string) (enabled : bool) (d : access_db)
  : result store_error ModelAccessBatchResult * access_db :=
  match (let! models := normalizeModelAccessBatch models in let! w := normalizeModelAccessWrite w clock in Ok (models, w)) with
  | Err e => (Err e, d)
  | Ok (models, w) => withTx (lockModelAccessBatch models ;; change_each (change_default w enabled) models) d
  end.
Definition SetModelAccessDefault (clock : Z) (w : ModelAccessWriteParams) (model : string) (enabled : bool) (d : access_db)
  : result store_error (option ModelAccessChangeResult) * access_db :=
  match SetModelAccessDefaultsBatch clock w [model] enabled d with
  | (Ok r, d') => (Ok (head (mb_Results r)), d')
  | (Err e, d') => (Err e, d')
  end.

Fixpoint normalize_selected (seen userIDs : list string) : result store_error (list string) :=
  match userIDs with
  | [] => Ok []
  | id :: rest =>
      let id := trim_space id in
      if negb (bool_decide (uuid_parse id = Some id)) then Err (ErrInvalid "selected model access user id is invalid") else
      if bool_decide (id ∈ seen) then Err (ErrInvalid "selected model access users must be unique") else
      let! l := normalize_selected (id :: seen) rest in Ok (id :: l)
  end.
Definition normalizeSelectedModelAccessUsers (userIDs : list string) : result store_error (list string) :=
  if bool_decide (userIDs = []) || (5000 <? Z.of_nat (length userIDs)) then Err (ErrInvalid "selected model access scope requires 1-5000 users") else
  normalize_selected [] userIDs.

(** [status <> 'pending' AND ($2 = 'all' OR user_id IN ...)]. *)
Definition targeted (scope : string) (userIDs : list string) (d : access_db) (userID : string) : bool :=
  approved d userID && (bool_decide (scope = ModelAccessScopeAll) || bool_decide (userID ∈ userIDs)).
Definition target_rows (scope : string) (userIDs : list string) (model : string) (d : access_db) : gmap (string * string) access_row :=
  filter (fun kv => kv.1.2 = model /\ targeted scope userIDs d kv.1.1 = true) (xd_access d).

Definition change_users (w : ModelAccessWriteParams) (enabled : bool) (scope : string) (userIDs : list string) (users : Z) (model : string)
  : tx access_db ModelAccessChangeResult :=
  let* d := tgets (fun d => d) in
  let rows := target_rows scope userIDs model d in
  tguard (Z.of_nat (size rows) =? users) ErrModelAccessUnavailable ;;
  let changed := filter (fun kv => ar_enabled kv.2 <> enabled) rows in
  let new := (fun r => AccessRow enabled (ar_created r) (mw_At w) (Some (mw_ActorUserID w))) <$> changed in
  let n := Z.of_nat (size changed) in
  tguard (forallb (fun kv => access_check kv.2) (map_to_list new) && (bool_decide (n = 0) || bool_decide (is_Some (xd_users d !! mw_ActorUserID w))))
    (ErrInvalid "update model access batch users") ;;
  tmod (fun d => set_access (new ∪ xd_access d) d) ;;
  let change := ChangeResult model enabled scope users n in
  (if 0 <? n then appendModelAccessAuditTx w "model_access.users_changed" change else tret tt) ;;
  tret change.

Definition count_targets (scope : string) (userIDs : list string) : tx access_db Z :=
  let* d := tgets (fun d => d) in
  if bool_decide (scope = ModelAccessScopeAll) then tret (Z.of_nat (size (approved_users d))) else
  let n := Z.of_nat (length (List.filter (approved d) userIDs)) in
  tguard (n =? Z.of_nat (length userIDs)) (ErrInvalid "selected model access user does not exist") ;;
  tret n.

Definition batch_scope (scope : string) (userIDs : list string) : result store_error (list string) :=
  if bool_decide (scope = ModelAccessScopeAll) then
    if bool_decide (userIDs = []) then Ok [] else Err (ErrInvalid "all model access scope cannot include user ids")
  else if bool_decide (scope = ModelAccessScopeSelected) then normalizeSelectedModelAccessUsers userIDs
  else Err (ErrInvalid "invalid model access scope").

Definition SetUserModelAccessBatch (clock : Z) (w : ModelAccessWriteParams) (models : list string) (enabled : bool) (scope : string) (userIDs : list string)
  (d : access_db) : result store_error ModelAccessBatchResult * access_db :=
  let scope := trim_space scope in
  match (let! models := normalizeModelAccessBatch models in let! w := normalizeModelAccessWrite w clock in
         let! ids := batch_scope scope userIDs in Ok (models, w, ids)) with
  | Err e => (Err e, d)
  | Ok (models, w, ids) => withTx (
      lockModelAccessBatch models ;;
      let* users := count_targets scope ids in
      change_each (change_users w enabled scope ids users) models) d
  end.
Definition SetUserModelAccess (clock : Z) (w : ModelAccessWriteParams) (model : string) (enabled : bool) (scope : string) (userIDs : list string) (d : access_db)
  : result store_error (option ModelAccessChangeResult) * access_db :=
  match SetUserModelAccessBatch clock w [model] enabled scope userIDs d with
  | (Ok r, d') => (Ok (head (mb_Results r)), d')
  | (Err e, d') => (Err e, d')
  end.
End writes.

(** ** What a synchronisation leaves *)

Definition activated_default (at_ : Z) (r : option default_row) : default_row :=
  match r with Some r => DefaultRow (dr_enabled r) true (dr_created r) (dr_updated r) (dr_by r) | None => DefaultRow true true at_ at_ None end.
Lemma activated_default_idem at_ r : activated_default at_ (Some (activated_default at_ r)) = activated_default at_ r.
Proof. by destruct r. Qed.
Lemma activate_all at_ models rows m :
  foldl (activate at_) rows models !! m = if bool_decide (m ∈ models) then Some (activated_default at_ (rows !! m)) else rows !! m.
Proof.
  revert rows. induction models as [|x models IH]; intros rows; cbn [foldl]; [by rewrite bool_decide_false by apply not_elem_of_nil|].
  rewrite IH. unfold activate at 1 2. fold (activated_default at_ (rows !! x)). destruct (decide (m = x)) as [->|Hm].
  - rewrite lookup_insert_eq. rewrite (bool_decide_true (x ∈ x :: models)) by apply list_elem_of_here. rewrite activated_default_idem. by destruct (bool_decide _).
  - rewrite lookup_insert_ne by done. rewrite (bool_decide_ext (m ∈ x :: models) (m ∈ models)); [done|]. rewrite elem_of_cons. split; [intros [?|?]; done|by right].
Qed.

(** Existing rows stay; a missing one is the first that the query names. *)
Lemma backfill_at at_ rows k x j :
  backfill at_ rows (k, x) !! j = if bool_decide (j = k) then Some (default (AccessRow (dr_enabled x) at_ at_ None) (rows !! k)) else rows !! j.
Proof.
  unfold backfill. cbn. case_bool_decide as E; [subst j|by apply insert_missing_ne].
  destruct (insert_missing_lookup k (AccessRow (dr_enabled x) at_ at_ None) rows) as (v & -> & ->). done.
Qed.
Lemma backfill_keeps at_ l rows k r : rows !! k = Some r -> foldl (backfill at_) rows l !! k = Some r.
Proof.
  revert rows. induction l as [|[j x] l IH]; intros rows H; cbn [foldl]; [done|]. apply IH. rewrite backfill_at. case_bool_decide as E; [subst k; by rewrite H|done].
Qed.
Lemma backfill_new at_ l rows k r : foldl (backfill at_) rows l !! k = Some r ->
  rows !! k = Some r \/ rows !! k = None /\ exists x, (k, x) ∈ l /\ r = AccessRow (dr_enabled x) at_ at_ None.
Proof.
  revert rows. induction l as [|[j x] l IH]; intros rows H; cbn [foldl] in H; [by left|]. apply IH in H. rewrite backfill_at in H.
  destruct (bool_decide (k = j)) eqn:E; [apply bool_decide_eq_true in E; subst j|].
  - destruct H as [H|(H & _)]; [|done]. injection H as <-. destruct (rows !! k); [by left|]. right. split; [done|]. exists x. split; [apply list_elem_of_here|done].
  - destruct H as [H|(H & y & Hy & ->)]; [by left|]. right. split; [done|]. exists y. split; [by apply list_elem_of_further|done].
Qed.
Lemma backfill_covers at_ l rows k x : (k, x) ∈ l -> is_Some (foldl (backfill at_) rows l !! k).
Proof.
  revert rows. induction l as [|[j y] l IH]; intros rows; [by intros ?%not_elem_of_nil|]. intros [[= <- <-]|H]%elem_of_cons; cbn [foldl]; [|by apply IH].
  eexists. apply backfill_keeps. rewrite backfill_at, bool_decide_true by done. done.
Qed.

Lemma access_pairs_elem d u m r : ((u, m), r) ∈ access_pairs d <-> is_Some (xd_users d !! u) /\ xd_defaults d !! m = Some r /\ dr_active r = true.
Proof.
  unfold access_pairs. rewrite list_elem_of_bind. split.
  - intros (u' & H & Hu). apply list_elem_of_bind in H as ([m' r'] & H & Hm). apply list_elem_of_singleton in H as [= -> -> ->].
    apply elem_of_elements, elem_of_dom in Hu. apply elem_of_map_to_list, map_lookup_filter_Some in Hm as [Hm Ha]. done.
  - intros (Hu & Hm & Ha). exists u. split; [|by apply elem_of_elements, elem_of_dom]. apply list_elem_of_bind. exists (m, r). split; [by apply list_elem_of_singleton|].
    apply elem_of_map_to_list, map_lookup_filter_Some. done.
Qed.

(** ** Complete snapshots *)

Record access_inv (d : access_db) : Prop := {
  xi_complete : forall u m, is_Some (xd_users d !! u) -> model_active d m = true -> is_Some (xd_access d !! (u, m));
  xi_rows : forall u m r, xd_access d !! (u, m) = Some r -> is_Some (xd_users d !! u) /\ is_Some (xd_defaults d !! m) /\ access_check r = true;
  xi_defaults : forall m r, xd_defaults d !! m = Some r -> default_check m r = true;
}.

Lemma catalog_Ok models l : normalizeModelAccessCatalog models = Ok l -> NoDup l /\ Forall (fun m => validModelAccessModel m = true) l.
Proof.
  unfold normalizeModelAccessCatalog. intros H. apply rbind_Ok in H as (xs & Hn & [= <-]). split; [rewrite (stable_sort_perm str_ltb); apply NoDup_elements|].
  assert (HF : Forall (fun m => validModelAccessModel m = true) xs).
  { revert xs Hn. induction models as [|m models IH]; intros xs Hn; cbn [normalize_each] in Hn; [injection Hn as <-; constructor|].
    apply rbind_Ok in Hn as (x & Hx & Hn). apply rbind_Ok in Hn as (ys & Hys & [= <-]). constructor; [|by apply IH].
    unfold normalizeModelAccessModel in Hx. destruct (validModelAccessModel (trim_space m)) eqn:E; [|done]. by injection Hx as <-. }
  apply Forall_forall. intros m Hm. rewrite (stable_sort_perm str_ltb), elem_of_elements, elem_of_list_to_set in Hm. by apply (proj1 (Forall_forall _ _) HF).
Qed.

Definition synced_defaults (at_ : Z) (l : list string) (rows : gmap string default_row) : gmap string default_row :=
  foldl (activate at_) (map_imap (fun m r => Some (deactivate l m r)) rows) l.
Lemma synced_lookup at_ l rows m : synced_defaults at_ l rows !! m =
  if bool_decide (m ∈ l) then Some (activated_default at_ (rows !! m)) else deactivate l m <$> rows !! m.
Proof.
  unfold synced_defaults. rewrite activate_all, map_lookup_imap. case_bool_decide as E; [|by destruct (rows !! m)].
  destruct (rows !! m) as [r|]; cbn; [|done]. unfold deactivate. rewrite bool_decide_true by done. cbn [negb]. by rewrite andb_false_r.
Qed.
Lemma synced_active at_ l rows m r : synced_defaults at_ l rows !! m = Some r -> dr_active r = bool_decide (m ∈ l).
Proof.
  rewrite synced_lookup. case_bool_decide as E; [intros [= <-]; by destruct (rows !! m)|]. destruct (rows !! m) as [x|]; cbn; [|done]. intros [= <-].
  unfold deactivate. rewrite bool_decide_false by done. by destruct (dr_active x) eqn:?.
Qed.
Lemma synced_check at_ l rows : Forall (fun m => validModelAccessModel m = true) l -> (forall m r, rows !! m = Some r -> default_check m r = true) ->
  forall m r, synced_defaults at_ l rows !! m = Some r -> default_check m r = true.
Proof.
  intros Hl Hr m r. rewrite synced_lookup. case_bool_decide as E.
  - intros [= <-]. destruct (rows !! m) as [x|] eqn:Hx; [by apply Hr in Hx|]. unfold default_check. cbn. rewrite (proj1 (Forall_forall _ _) Hl m E). cbn. lia.
  - destruct (rows !! m) as [x|] eqn:Hx; [|done]. intros [= <-]. apply Hr in Hx. unfold deactivate. by destruct (_ && _).
Qed.

Lemma sync_Ok clock models d : SyncModelAccessCatalog clock models d =
  match normalizeModelAccessCatalog models with
  | Err e => (Err e, d)
  | Ok l => let d1 := set_defaults (synced_defaults clock l (xd_defaults d)) d in
      (Ok tt, set_access (foldl (backfill clock) (xd_access d1) (access_pairs d1)) d1)
  end.
Proof.
  unfold SyncModelAccessCatalog. destruct (normalizeModelAccessCatalog models) as [l|] eqn:E; [|done]. apply catalog_Ok in E as [_ HF].
  cbv zeta. unfold withTx. rewrite tmod_bind, tguard_bind. replace (forallb validModelAccessModel l) with true by (symmetry; apply forallb_forall; intros m Hm%list_elem_of_In; by apply (proj1 (Forall_forall _ _) HF)).
  rewrite tmod_bind. reflexivity.
Qed.

Lemma catalog_inv clock models d : access_inv d -> access_inv (SyncModelAccessCatalog clock models d).2.
Proof.
  intros I. rewrite sync_Ok. destruct (normalizeModelAccessCatalog models) as [l|] eqn:E; [|done]. destruct I as [I1 I2 I3]. apply catalog_Ok in E as [_ HF]. cbv zeta.
  set (d1 := set_defaults _ d). set (d2 := set_access _ d1). split.
  - intros u m Hu Hm. change (is_Some (foldl (backfill clock) (xd_access d1) (access_pairs d1) !! (u, m))). change (model_active d1 m = true) in Hm. change (is_Some (xd_users d1 !! u)) in Hu. clearbody d1. unfold model_active in Hm.
    destruct (xd_defaults d1 !! m) as [r|] eqn:Hr; [|discriminate Hm]. apply (backfill_covers _ _ _ _ r). by apply access_pairs_elem.
  - intros u m r Hr. change (foldl (backfill clock) (xd_access d) (access_pairs d1) !! (u, m) = Some r) in Hr.
    assert (Hd : forall m, is_Some (xd_defaults d !! m) -> is_Some (xd_defaults d1 !! m)).
    { intros m' [x Hx]. change (is_Some (synced_defaults clock l (xd_defaults d) !! m')). rewrite synced_lookup, Hx. destruct (bool_decide _); eexists; reflexivity. }
    apply backfill_new in Hr as [Hr|(_ & x & Hx & ->)]; [destruct (I2 u m r Hr) as (? & ? & ?); split_and!; auto|]. apply access_pairs_elem in Hx as (Hu & Hm & _).
    split_and!; [done|eexists; exact Hm|]. unfold access_check. cbn. lia.
  - change (xd_defaults d2) with (synced_defaults clock l (xd_defaults d)). by apply synced_check.
Qed.

(** ** What a batch leaves *)

Section batches.
Context (session_of : string -> string -> bool) (inet_ok : string -> bool) (uuid_parse : string -> option string).

Lemma lock_models_Ok models d u d' : lockModelAccessBatch models d = Ok (u, d') -> d' = d /\ Forall (fun m => model_active d m = true) models.
Proof.
  unfold lockModelAccessBatch. induction models as [|m models IH]; cbn [lock_models]; [intros [= _ <-]; by split; [|constructor]|].
  rewrite tgets_bind, tguard_bind. destruct (model_active d m) eqn:E; [|done]. intros [-> HF]%IH. split; [done|by constructor].
Qed.
Lemma lock_models_Err models d e : lockModelAccessBatch models d = Err e -> e = ErrNotFound "lock model access batch model".
Proof.
  unfold lockModelAccessBatch. induction models as [|m models IH]; cbn [lock_models]; [done|].
  rewrite tgets_bind, tguard_bind. destruct (model_active d m); [apply IH|]. by intros [= <-].
Qed.

(** An audit event touches nothing else. *)
Lemma append_audit_Ok w event c d u d' : appendModelAccessAuditTx session_of inet_ok w event c d = Ok (u, d') ->
  exists a, d' = set_xaudit (xd_audit d ++ [a]) d /\ ev_type a = event /\ ev_subject a = mc_Model c.
Proof.
  unfold appendModelAccessAuditTx. intros H. inv_tx H. apply tlift_Ok in Ht as [_ ->]. rewrite tgets_bind, tguard_bind in H. destruct (_ && _); [|done].
  injection H as _ <-. eexists. split_and!; reflexivity.
Qed.


(** The row of a pair after the models of [l] are set for the targeted users. *)
Definition set_row (w : ModelAccessWriteParams) (enabled : bool) (scope : string) (ids l : list string) (d : access_db) (k : string * string)
  (r : access_row) : access_row :=
  if bool_decide (k.2 ∈ l) && targeted scope ids d k.1 && negb (Bool.eqb (ar_enabled r) enabled)
  then AccessRow enabled (ar_created r) (mw_At w) (Some (mw_ActorUserID w)) else r.
(** The targeted users whose row for the model says something else. *)
Definition differing (scope : string) (ids : list string) (enabled : bool) (d : access_db) (model : string) : Z :=
  Z.of_nat (size (filter (fun kv => ar_enabled kv.2 <> enabled) (target_rows scope ids model d))).

Lemma changed_lookup scope ids enabled m d k : filter (fun kv => ar_enabled kv.2 <> enabled) (target_rows scope ids m d) !! k =
  match xd_access d !! k with
  | Some r => if bool_decide (k.2 ∈ [m]) && targeted scope ids d k.1 && negb (Bool.eqb (ar_enabled r) enabled) then Some r else None
  | None => None
  end.
Proof.
  unfold target_rows. destruct (xd_access d !! k) as [r|] eqn:E; [|by apply map_lookup_filter_None_2; left; apply map_lookup_filter_None_2; left].
  destruct (bool_decide (k.2 ∈ [m]) && targeted scope ids d k.1 && negb (Bool.eqb (ar_enabled r) enabled)) eqn:B.
  - apply andb_true_iff in B as [[B1%bool_decide_eq_true B2]%andb_true_iff B3]. apply list_elem_of_singleton in B1. apply map_lookup_filter_Some. split; [by apply map_lookup_filter_Some|].
    cbn. intros X. rewrite X in B3. by rewrite eqb_reflx in B3.
  - apply map_lookup_filter_None_2. right. intros r' Hr. apply map_lookup_filter_Some in Hr as [Hr [H1 H2]]. cbn in *. intros X.
    rewrite E in Hr. injection Hr as <-. rewrite H2, bool_decide_true in B by (rewrite H1; apply list_elem_of_here). cbn in B.
    destruct (Bool.eqb (ar_enabled r) enabled) eqn:Q; [by apply X, eqb_prop|done].
Qed.

Lemma change_users_Ok w enabled scope ids n m d c d' :
  change_users session_of inet_ok w enabled scope ids n m d = Ok (c, d') ->
  xd_users d' = xd_users d /\ xd_defaults d' = xd_defaults d /\ Z.of_nat (size (target_rows scope ids m d)) = n /\
  c = ChangeResult m enabled scope n (differing scope ids enabled d m) /\
  (forall k, xd_access d' !! k = set_row w enabled scope ids [m] d k <$> xd_access d !! k) /\
  (forall k r, xd_access d' !! k = Some r -> xd_access d !! k = Some r \/ access_check r = true) /\
  exists evs, xd_audit d' = xd_audit d ++ evs /\ Forall (fun a => ev_type a = "model_access.users_changed") evs /\
    ev_subject <$> evs = if 0 <? differing scope ids enabled d m then [m] else [].
Proof.
  unfold change_users. intros H. rewrite tgets_bind, tguard_bind in H. destruct (_ =? n) eqn:En; [|done]. apply Z.eqb_eq in En.
  rewrite tguard_bind in H. destruct (_ && _) eqn:Hg; [|done]. rewrite tmod_bind in H. fold (differing scope ids enabled d m) in H.
  apply andb_true_iff in Hg as [Hc _]. rewrite forallb_forall in Hc.
  set (new := (fun r => AccessRow enabled (ar_created r) (mw_At w) (Some (mw_ActorUserID w))) <$> _) in *.
  assert (HL : forall k, (new ∪ xd_access d) !! k = set_row w enabled scope ids [m] d k <$> xd_access d !! k).
  { intros k. rewrite lookup_union. unfold new. rewrite lookup_fmap, changed_lookup. destruct (xd_access d !! k) as [r|]; [|done]. unfold set_row. cbn.
    by destruct (_ && _). }
  assert (HC : forall k r, (new ∪ xd_access d) !! k = Some r -> xd_access d !! k = Some r \/ access_check r = true).
  { intros k r Hr. apply lookup_union_Some_raw in Hr as [Hr|[_ Hr]]; [right|by left]. apply (Hc (k, r)), list_elem_of_In, elem_of_map_to_list. done. }
  clearbody new. inv_tx H. injection H as <- <-.
  assert (Hd : exists evs, s = set_xaudit (xd_audit d ++ evs) (set_access (new ∪ xd_access d) d) /\ Forall (fun a => ev_type a = "model_access.users_changed") evs /\
    ev_subject <$> evs = if 0 <? differing scope ids enabled d m then [m] else []).
  { destruct (0 <? differing scope ids enabled d m) eqn:E.
    - apply append_audit_Ok in Ht as (ev & -> & Hev & Hm). exists [ev]. split_and!; [done|by constructor|cbn; by rewrite Hm].
    - injection Ht as _ <-. exists []. rewrite app_nil_r. split_and!; by destruct d. }
  destruct Hd as (evs & -> & Hev). xtables. split_and!; try done. by exists evs.
Qed.

Lemma set_row_fields w enabled scope ids l d k r : ar_created (set_row w enabled scope ids l d k r) = ar_created r /\
  ar_enabled (set_row w enabled scope ids l d k r) = if bool_decide (k.2 ∈ l) && targeted scope ids d k.1 then enabled else ar_enabled r.
Proof.
  unfold set_row. destruct (bool_decide (k.2 ∈ l) && targeted scope ids d k.1); [|done]. cbn. destruct (Bool.eqb (ar_enabled r) enabled) eqn:E; [|done].
  by apply eqb_prop in E.
Qed.
Lemma targeted_users scope ids d d' u : xd_users d' = xd_users d -> targeted scope ids d' u = targeted scope ids d u.
Proof. unfold targeted, approved. by intros ->. Qed.
Lemma target_rows_ext scope ids m d d' : xd_users d' = xd_users d -> (forall u, xd_access d' !! (u, m) = xd_access d !! (u, m)) ->
  target_rows scope ids m d' = target_rows scope ids m d.
Proof.
  intros Hu Ha. apply map_eq. intros [u x]. apply option_eq. intros r. unfold target_rows. rewrite !map_lookup_filter_Some. cbn.
  rewrite (targeted_users _ _ _ _ _ Hu). split; intros (H & -> & ?); (split; [|done]); [by rewrite <- Ha|by rewrite Ha].
Qed.
(** Setting the models one by one is setting them all. *)
Lemma set_row_cons w enabled scope ids m l d d' k r : xd_users d' = xd_users d -> m ∉ l ->
  set_row w enabled scope ids l d' k (set_row w enabled scope ids [m] d k r) = set_row w enabled scope ids (m :: l) d k r.
Proof.
  intros Hu Hm. unfold set_row. rewrite (targeted_users _ _ _ _ _ Hu). destruct (decide (k.2 = m)) as [E|E].
  - rewrite (bool_decide_false (k.2 ∈ l)) by by rewrite E. rewrite (bool_decide_true (k.2 ∈ [m])) by (rewrite E; apply list_elem_of_here).
    rewrite (bool_decide_true (k.2 ∈ m :: l)) by (rewrite E; apply list_elem_of_here). done.
  - rewrite (bool_decide_false (k.2 ∈ [m])) by by rewrite list_elem_of_singleton. cbn [andb].
    by rewrite (bool_decide_ext (k.2 ∈ m :: l) (k.2 ∈ l)) by (rewrite elem_of_cons; split; [intros [?|?]; done|by right]).
Qed.

Definition total (f : string -> Z) (l : list string) : Z := foldr (fun m n => f m + n) 0 l.

Lemma total_ext f g l : (forall m, m ∈ l -> f m = g m) -> total f l = total g l.
Proof.
  induction l as [|x l IH]; intros H; [done|]. cbn. rewrite H by apply list_elem_of_here. f_equal. apply IH. intros y Hy. apply H. by apply list_elem_of_further.
Qed.
(** The models that an event names. *)
Definition named (f : string -> Z) (l : list string) : list string := List.filter (fun m => 0 <? f m) l.
Lemma named_ext f g l : (forall m, m ∈ l -> f m = g m) -> named f l = named g l.
Proof. intros H. apply List.filter_ext_in. intros m Hm%list_elem_of_In. by rewrite H. Qed.

Lemma each_users_Ok w enabled scope ids n l d r d' : NoDup l -> change_each (change_users session_of inet_ok w enabled scope ids n) l d = Ok (r, d') ->
  xd_users d' = xd_users d /\ xd_defaults d' = xd_defaults d /\ Forall (fun m => Z.of_nat (size (target_rows scope ids m d)) = n) l /\
  r = BatchResult ((fun m => ChangeResult m enabled scope n (differing scope ids enabled d m)) <$> l) (n * Z.of_nat (length l)) (total (differing scope ids enabled d) l) /\
  (forall k, xd_access d' !! k = set_row w enabled scope ids l d k <$> xd_access d !! k) /\
  (forall k r, xd_access d' !! k = Some r -> xd_access d !! k = Some r \/ access_check r = true) /\
  exists evs, xd_audit d' = xd_audit d ++ evs /\ Forall (fun a => ev_type a = "model_access.users_changed") evs /\
    ev_subject <$> evs = named (differing scope ids enabled d) l.
Proof.
  revert d r d'. induction l as [|m l IH]; intros d r d' HN H; cbn [change_each] in H.
  { injection H as <- <-. split_and!; try done; [cbn; f_equal; lia|intros k; by destruct (xd_access d !! k)|by left|]. exists []. by rewrite app_nil_r. }
  apply NoDup_cons in HN as [Hm HN]. inv_tx H. inv_tx H. injection H as <- <-. apply change_users_Ok in Ht as (U1 & D1 & S1 & -> & A1 & C1 & e1 & E1 & T1 & M1).
  apply IH in Ht0 as (U2 & D2 & S2 & -> & A2 & C2 & e2 & E2 & T2 & M2); [|done].
  assert (Hsame : forall x, x ∈ l -> target_rows scope ids x s = target_rows scope ids x d).
  { intros x Hx. apply target_rows_ext; [done|]. intros u. rewrite A1. destruct (xd_access d !! (u, x)); [|done]. cbn. unfold set_row. cbn.
    rewrite bool_decide_false; [done|]. rewrite list_elem_of_singleton. by intros ->. }
  assert (Hdiff : forall x, x ∈ l -> differing scope ids enabled s x = differing scope ids enabled d x) by (intros x Hx; unfold differing; by rewrite Hsame).
  split_and!; [congruence|congruence| | | | |].
  - constructor; [done|]. apply Forall_forall. intros x Hx. rewrite <- Hsame by done. by apply (proj1 (Forall_forall _ _) S2).
  - cbn. f_equal; [f_equal|lia|f_equal].
    + apply list_fmap_ext. intros i x Hx. apply list_elem_of_lookup_2 in Hx. by rewrite Hdiff.
    + by apply total_ext.
  - intros k. rewrite A2, A1. destruct (xd_access d !! k) as [x|]; [|done]. cbn. by rewrite (set_row_cons _ _ _ _ _ _ _ _ _ _ U1 Hm).
  - intros k x Hx. apply C2 in Hx as [Hx|Hx]; [by apply C1|by right].
  - exists (e1 ++ e2). rewrite E2, E1, app_assoc. split_and!; [done|by apply Forall_app|]. rewrite fmap_app, M1, M2.
    rewrite (named_ext _ _ _ Hdiff). unfold named. cbn [List.filter]. by destruct (0 <? differing scope ids enabled d m).
Qed.
End batches.

(** ** Counting *)

Definition targets (scope : string) (ids : list string) (d : access_db) : gset string :=
  dom (filter (fun kv => targeted scope ids d kv.1 = true) (xd_users d)).
Lemma targets_elem scope ids d u : u ∈ targets scope ids d <-> targeted scope ids d u = true.
Proof.
  unfold targets. rewrite elem_of_dom. split.
  - by intros [x [_ H]%map_lookup_filter_Some].
  - intros H. assert (Ha : approved d u = true) by by apply andb_true_iff in H as [? _]. unfold approved in Ha.
    destruct (xd_users d !! u) as [x|] eqn:E; [|done]. exists x. by apply map_lookup_filter_Some.
Qed.
Lemma approved_elem d u : u ∈ approved_users d <-> approved d u = true.
Proof.
  unfold approved_users, approved. rewrite elem_of_dom. split.
  - intros [x [-> H]%map_lookup_filter_Some]. cbn in H. by rewrite bool_decide_false.
  - destruct (xd_users d !! u) as [x|] eqn:E; [|done]. intros H%negb_true_iff%bool_decide_eq_false. exists x. by apply map_lookup_filter_Some.
Qed.
Lemma approved_user d u : approved d u = true -> is_Some (xd_users d !! u).
Proof. unfold approved. destruct (xd_users d !! u); [by eexists|done]. Qed.

(** One row for each user of a set: as many rows as users. *)
Lemma rows_of_users (rows : gmap (string * string) access_row) (m : string) (users : gset string) :
  (forall u x, is_Some (rows !! (u, x)) <-> x = m /\ u ∈ users) -> size rows = size users.
Proof.
  intros H. rewrite <- (size_dom (D := gset (string * string))).
  assert (E : dom rows = list_to_set ((fun u => (u, m)) <$> elements users) :> gset (string * string)).
  { apply set_eq. intros [u x]. rewrite elem_of_dom, H, elem_of_list_to_set, list_elem_of_fmap. split.
    - intros [-> Hu]. exists u. split; [done|by apply elem_of_elements].
    - intros (u' & [= -> ->] & Hu). split; [done|by apply elem_of_elements]. }
  rewrite E, size_list_to_set by (apply NoDup_fmap; [by intros ? ? [=]|apply NoDup_elements]). by rewrite length_fmap.
Qed.

Lemma target_rows_size scope ids m d : access_inv d -> model_active d m = true -> size (target_rows scope ids m d) = size (targets scope ids d).
Proof.
  intros I Hm. apply (rows_of_users _ m). intros u x. rewrite targets_elem. unfold target_rows. split.
  - by intros [r [_ [? ?]]%map_lookup_filter_Some].
  - intros [-> Hu]. assert (Ha : approved d u = true) by by apply andb_true_iff in Hu as [? _]. destruct (xi_complete d I u m (approved_user d u Ha) Hm) as [r Hr].
    exists r. by apply map_lookup_filter_Some.
Qed.

Lemma model_users_total d m : access_inv d -> model_active d m = true ->
  model_users d m true + model_users d m false = Z.of_nat (size (approved_users d)).
Proof.
  intros I Hm. set (rows b := filter (fun kv => kv.1.2 = m /\ approved d kv.1.1 = true /\ ar_enabled kv.2 = b) (xd_access d)).
  assert (HD : rows true ##ₘ rows false).
  { apply map_disjoint_spec. intros k r r' [Hr [_ [_ E]]]%map_lookup_filter_Some [Hr' [_ [_ E']]]%map_lookup_filter_Some. cbn in *. congruence. }
  unfold model_users. fold (rows true) (rows false). rewrite <- Nat2Z.inj_add, <- map_size_disj_union by done. f_equal. apply (rows_of_users _ m).
  intros u x. rewrite approved_elem. rewrite lookup_union_is_Some. unfold rows. split.
  - by intros [[r [_ [? [? _]]]%map_lookup_filter_Some]|[r [_ [? [? _]]]%map_lookup_filter_Some]].
  - intros [-> Ha]. destruct (xi_complete d I u m (approved_user d u Ha) Hm) as [r Hr].
    destruct (ar_enabled r) eqn:E; [left|right]; exists r; by apply map_lookup_filter_Some.
Qed.

Lemma normalize_selected_Ok uuid_parse seen ids l : normalize_selected uuid_parse seen ids = Ok l -> NoDup l /\ Forall (fun u => u ∉ seen) l.
Proof.
  revert seen l. induction ids as [|id ids IH]; intros seen l H; cbn [normalize_selected] in H; [injection H as <-; split; constructor|].
  destruct (negb _); [done|]. case_bool_decide as E; [done|]. apply rbind_Ok in H as (ys & Hy & [= <-]). apply IH in Hy as [HN HF]. split.
  - apply NoDup_cons. split; [|done]. intros Hin. apply (proj1 (Forall_forall _ _) HF) in Hin. apply Hin, list_elem_of_here.
  - constructor; [done|]. apply (Forall_impl _ _ _ HF). intros u Hu Hs. apply Hu. by apply list_elem_of_further.
Qed.
Lemma batch_scope_Ok uuid_parse scope userIDs ids : batch_scope uuid_parse scope userIDs = Ok ids ->
  NoDup ids /\ (scope = ModelAccessScopeAll /\ ids = [] \/ scope = ModelAccessScopeSelected).
Proof.
  unfold batch_scope. case_bool_decide as E1; [case_bool_decide; [|done]; intros [= <-]; split; [constructor|by left]|].
  case_bool_decide as E2; [|done]. unfold normalizeSelectedModelAccessUsers. destruct (_ || _); [done|]. intros [HN _]%normalize_selected_Ok. auto.
Qed.

Lemma count_targets_Ok scope ids d n d' : NoDup ids -> (scope = ModelAccessScopeAll /\ ids = [] \/ scope = ModelAccessScopeSelected) ->
  count_targets scope ids d = Ok (n, d') -> d' = d /\ n = Z.of_nat (size (targets scope ids d)).
Proof.
  intros HN HS. unfold count_targets. rewrite tgets_bind. case_bool_decide as E.
  - intros [= <- <-]. split; [done|]. do 2 f_equal. apply set_eq. intros u. rewrite targets_elem, approved_elem. unfold targeted. rewrite bool_decide_true by done.
    by rewrite orb_true_l, andb_true_r.
  - rewrite tguard_bind. destruct (_ =? _) eqn:En; [|done]. intros [= <- <-]. split; [done|]. apply Z.eqb_eq in En. rewrite En. f_equal.
    assert (HF : forall u, u ∈ ids -> approved d u = true).
    { intros u Hu. destruct (approved d u) eqn:Ha; [done|]. exfalso. apply list_elem_of_In, in_split in Hu as (l1 & l2 & ->).
      rewrite List.filter_app, !length_app in En. cbn in En. rewrite Ha in En. pose proof (List.filter_length_le (approved d) l1).
      pose proof (List.filter_length_le (approved d) l2). lia. }
    rewrite <- (size_list_to_set (C := gset string) ids) by done. f_equal. apply set_eq. intros u. rewrite targets_elem, elem_of_list_to_set. unfold targeted.
    rewrite (bool_decide_false (scope = _)) by done. cbn. rewrite andb_true_iff, bool_decide_eq_true. split; [auto|by intros [_ ?]].
Qed.

Section defaults.
Context (session_of : string -> string -> bool) (inet_ok : string -> bool).

(** The default of a model after those of [l] are set. *)
Definition set_default (w : ModelAccessWriteParams) (enabled : bool) (l : list string) (m : string) (r : default_row) : default_row :=
  if bool_decide (m ∈ l) && negb (Bool.eqb (dr_enabled r) enabled) then DefaultRow enabled (dr_active r) (dr_created r) (mw_At w) (Some (mw_ActorUserID w)) else r.
Definition default_differs (enabled : bool) (d : access_db) (m : string) : Z :=
  match xd_defaults d !! m with Some r => b2z (negb (Bool.eqb (dr_enabled r) enabled)) | None => 0 end.

Lemma change_default_Ok w enabled m d c d' : change_default session_of inet_ok w enabled m d = Ok (c, d') ->
  xd_users d' = xd_users d /\ xd_access d' = xd_access d /\ c = ChangeResult m enabled ModelAccessScopeDefault 1 (default_differs enabled d m) /\
  (forall k, xd_defaults d' !! k = set_default w enabled [m] k <$> xd_defaults d !! k) /\
  (forall k r, xd_defaults d' !! k = Some r -> xd_defaults d !! k = Some r \/ default_check k r = true) /\
  exists evs, xd_audit d' = xd_audit d ++ evs /\ ev_subject <$> evs = if 0 <? default_differs enabled d m then [m] else [].
Proof.
  unfold change_default, default_differs. rewrite tgets_bind. intros H.
  assert (Hk : forall k, k <> m -> forall r : default_row, set_default w enabled [m] k r = r).
  { intros k Hk r. unfold set_default. by rewrite bool_decide_false by by rewrite list_elem_of_singleton. }
  assert (Hin : m ∈ [m]) by apply list_elem_of_here.
  destruct (xd_defaults d !! m) as [r|] eqn:Hr; [destruct (Bool.eqb (dr_enabled r) enabled) eqn:E|].
  - injection H as <- <-. split_and!; try done; [|by left|exists []; by rewrite app_nil_r]. intros k. destruct (decide (k = m)) as [->|].
    + rewrite Hr. cbn. unfold set_default. rewrite E. cbn. by rewrite andb_false_r.
    + destruct (xd_defaults d !! k); [|done]. cbn. by rewrite Hk.
  - rewrite tguard_bind in H. destruct (_ && _) eqn:Hg; [|done]. apply andb_true_iff in Hg as [Hc _]. rewrite tmod_bind in H. inv_tx H. injection H as <- <-.
    apply append_audit_Ok in Ht as (ev & -> & _ & He). xtables. split_and!; try done; [| |exists [ev]; split; [done|cbn; by rewrite He]].
    + intros k. destruct (decide (k = m)) as [->|]; [|rewrite lookup_insert_ne by done; destruct (xd_defaults d !! k); [|done]; cbn; by rewrite Hk].
      rewrite lookup_insert_eq, Hr. cbn. unfold set_default. by rewrite bool_decide_true, E.
    + intros k x. destruct (decide (k = m)) as [->|]; [rewrite lookup_insert_eq; intros [= <-]; by right|rewrite lookup_insert_ne by done; by left].
  - injection H as <- <-. split_and!; try done; [|by left|exists []; by rewrite app_nil_r]. intros k. destruct (decide (k = m)) as [->|]; [by rewrite Hr|].
    destruct (xd_defaults d !! k); [|done]. cbn. by rewrite Hk.
Qed.

Lemma set_default_cons w enabled m l k r : m ∉ l -> set_default w enabled l k (set_default w enabled [m] k r) = set_default w enabled (m :: l) k r.
Proof.
  intros Hm. unfold set_default. destruct (decide (k = m)) as [->|E].
  - rewrite (bool_decide_false (m ∈ l)) by done. rewrite !bool_decide_true by apply list_elem_of_here. done.
  - rewrite (bool_decide_false (k ∈ [m])) by by rewrite list_elem_of_singleton. cbn [andb].
    by rewrite (bool_decide_ext (k ∈ m :: l) (k ∈ l)) by (rewrite elem_of_cons; split; [intros [?|?]; done|by right]).
Qed.

Lemma each_defaults_Ok w enabled l d r d' : NoDup l -> change_each (change_default session_of inet_ok w enabled) l d = Ok (r, d') ->
  xd_users d' = xd_users d /\ xd_access d' = xd_access d /\
  r = BatchResult ((fun m => ChangeResult m enabled ModelAccessScopeDefault 1 (default_differs enabled d m)) <$> l) (Z.of_nat (length l)) (total (default_differs enabled d) l) /\
  (forall k, xd_defaults d' !! k = set_default w enabled l k <$> xd_defaults d !! k) /\
  (forall k r, xd_defaults d' !! k = Some r -> xd_defaults d !! k = Some r \/ default_check k r = true) /\
  exists evs, xd_audit d' = xd_audit d ++ evs /\ ev_subject <$> evs = named (default_differs enabled d) l.
Proof.
  revert d r d'. induction l as [|m l IH]; intros d r d' HN H; cbn [change_each] in H.
  { injection H as <- <-. split_and!; try done; [intros k; by destruct (xd_defaults d !! k)|by left|]. exists []. by rewrite app_nil_r. }
  apply NoDup_cons in HN as [Hm HN]. inv_tx H. inv_tx H. injection H as <- <-. apply change_default_Ok in Ht as (U1 & S1 & -> & A1 & C1 & e1 & E1 & M1).
  apply IH in Ht0 as (U2 & S2 & -> & A2 & C2 & e2 & E2 & M2); [|done].
  assert (Hdiff : forall x, x ∈ l -> default_differs enabled s x = default_differs enabled d x).
  { intros x Hx. unfold default_differs. rewrite A1. destruct (xd_defaults d !! x) as [y|]; [|done]. cbn. unfold set_default.
    rewrite bool_decide_false; [done|]. rewrite list_elem_of_singleton. by intros ->. }
  split_and!; [congruence|congruence| | | |].
  - cbn. f_equal; [f_equal|lia|f_equal].
    + apply list_fmap_ext. intros i x Hx. apply list_elem_of_lookup_2 in Hx. by rewrite Hdiff.
    + by apply total_ext.
  - intros k. rewrite A2, A1. destruct (xd_defaults d !! k) as [x|]; [|done]. cbn. by rewrite set_default_cons.
  - intros k x Hx. apply C2 in Hx as [Hx|Hx]; [by apply C1|by right].
  - exists (e1 ++ e2). rewrite E2, E1, app_assoc. split_and!; [done|]. rewrite fmap_app, M1, M2.
    rewrite (named_ext _ _ _ Hdiff). unfold named. cbn [List.filter]. by destruct (0 <? default_differs enabled d m).
Qed.
End defaults.

(** ** The calls *)

Lemma batch_Ok models l : normalizeModelAccessBatch models = Ok l -> NoDup l /\ l <> [] /\ (length l = length models)%nat.
Proof.
  unfold normalizeModelAccessBatch. destruct (_ || _) eqn:E; [done|]. intros H. apply rbind_Ok in H as (xs & Hx & H).
  destruct (negb _) eqn:En; [done|]. injection H as <-. apply negb_false_iff, Nat.eqb_eq in En. apply orb_false_iff in E as [E%bool_decide_eq_false _].
  split_and!; [apply catalog_Ok in Hx as [? _]; done|intros ->; by destruct models|done].
Qed.

Section calls.
Context (session_of : string -> string -> bool) (inet_ok : string -> bool) (uuid_parse : string -> option string).
Abbreviation Defaults := (SetModelAccessDefaultsBatch session_of inet_ok).
Abbreviation Users := (SetUserModelAccessBatch session_of inet_ok uuid_parse).

Lemma defaults_batch_run clock w models enabled d r d' : Defaults clock w models enabled d = (Ok r, d') ->
  exists l w', normalizeModelAccessBatch models = Ok l /\ normalizeModelAccessWrite w clock = Ok w' /\ NoDup l /\ Forall (fun m => model_active d m = true) l /\
    change_each (change_default session_of inet_ok w' enabled) l d = Ok (r, d').
Proof.
  unfold SetModelAccessDefaultsBatch. destruct (normalizeModelAccessBatch models) as [l|] eqn:El; cbn; [|done]. destruct (normalizeModelAccessWrite w clock) as [w'|] eqn:Ew; cbn; [|done].
  intros H%withTx_commit. inv_tx H. apply lock_models_Ok in Ht as [-> HF]. exists l, w'. destruct (batch_Ok _ _ El) as [HN _]. by split_and!.
Qed.
Lemma users_batch_run clock w models enabled scope userIDs d r d' : Users clock w models enabled scope userIDs d = (Ok r, d') ->
  exists l w' ids n, normalizeModelAccessBatch models = Ok l /\ normalizeModelAccessWrite w clock = Ok w' /\ batch_scope uuid_parse (trim_space scope) userIDs = Ok ids /\
    NoDup l /\ Forall (fun m => model_active d m = true) l /\ n = Z.of_nat (size (targets (trim_space scope) ids d)) /\
    change_each (change_users session_of inet_ok w' enabled (trim_space scope) ids n) l d = Ok (r, d').
Proof.
  unfold SetUserModelAccessBatch. destruct (normalizeModelAccessBatch models) as [l|] eqn:El; cbn; [|done]. destruct (normalizeModelAccessWrite w clock) as [w'|] eqn:Ew; cbn; [|done].
  destruct (batch_scope uuid_parse (trim_space scope) userIDs) as [ids|] eqn:Es; cbn; [|done].
  intros H%withTx_commit. inv_tx H. apply lock_models_Ok in Ht as [-> HF]. inv_tx H. destruct (batch_scope_Ok _ _ _ _ Es) as [HN HS].
  apply count_targets_Ok in Ht as [-> ->]; [|done|done]. exists l, w', ids. eexists. destruct (batch_Ok _ _ El) as [HL _]. by split_and!.
Qed.

(** ** Every history keeps the snapshots complete *)

Lemma model_active_ext d d' m : (forall k, dr_active <$> xd_defaults d' !! k = dr_active <$> xd_defaults d !! k) -> model_active d' m = model_active d m.
Proof. intros H. specialize (H m). unfold model_active. destruct (xd_defaults d' !! m), (xd_defaults d !! m); cbn in H; congruence. Qed.

Lemma defaults_batch_inv clock w models enabled d : access_inv d -> access_inv (Defaults clock w models enabled d).2.
Proof.
  intros I. destruct (Defaults clock w models enabled d) as [[r|e] d'] eqn:E.
  - apply defaults_batch_run in E as (l & w' & _ & _ & HN & _ & E). apply each_defaults_Ok in E as (U & A & _ & D & C & _); [|done]. cbn. destruct I as [I1 I2 I3]. split.
    + intros u m. rewrite U, A. intros Hu Hm. apply I1; [done|]. rewrite <- Hm. symmetry. apply model_active_ext. intros k. rewrite D. destruct (xd_defaults d !! k); [|done].
      cbn. unfold set_default. by destruct (_ && _).
    + intros u m x. rewrite U, A, D. rewrite fmap_is_Some. apply I2.
    + intros m x [H|H]%C; [by apply I3|done].
  - revert E. unfold SetModelAccessDefaultsBatch. destruct (rbind _ _) as [[]|]; [intros ->%withTx_rollback; done|]. by intros [= _ <-].
Qed.
Lemma users_batch_inv clock w models enabled scope userIDs d : access_inv d -> access_inv (Users clock w models enabled scope userIDs d).2.
Proof.
  intros I. destruct (Users clock w models enabled scope userIDs d) as [[r|e] d'] eqn:E.
  - apply users_batch_run in E as (l & w' & ids & n & _ & _ & _ & HN & _ & _ & E). apply each_users_Ok in E as (U & D & _ & _ & A & C & _); [|done]. cbn.
    destruct I as [I1 I2 I3]. split.
    + intros u m. rewrite U, A, fmap_is_Some. unfold model_active. rewrite D. apply I1.
    + intros u m x Hx. rewrite U, D. destruct (C _ _ Hx) as [H|H]; [by apply I2|]. rewrite A in Hx. apply fmap_Some in Hx as (y & Hy & _).
      destruct (I2 u m y Hy) as (? & ? & _). done.
    + rewrite D. apply I3.
  - revert E. unfold SetUserModelAccessBatch. destruct (rbind _ _) as [[[]]|]; [intros ->%withTx_rollback; done|]. by intros [= _ <-].
Qed.
Definition new_pairs (userID : string) (d : access_db) : list (string * string * default_row) :=
  (fun m => (userID, m.1, m.2)) <$> map_to_list (filter (fun kv => dr_active kv.2 = true) (xd_defaults d)).
Lemma new_pairs_elem userID d v m r : ((v, m), r) ∈ new_pairs userID d <-> v = userID /\ xd_defaults d !! m = Some r /\ dr_active r = true.
Proof.
  unfold new_pairs. rewrite list_elem_of_fmap. split.
  - intros ([m' r'] & [= -> -> ->] & H). by apply elem_of_map_to_list, map_lookup_filter_Some in H.
  - intros (-> & H). exists (m, r). split; [done|]. by apply elem_of_map_to_list, map_lookup_filter_Some.
Qed.
Lemma register_eq userID u at_ d : register_user userID u at_ d =
  set_access (foldl (backfill at_) (xd_access d) (new_pairs userID d)) (set_xusers (<[userID := u]> (xd_users d)) d).
Proof. done. Qed.
(** A new user has the default of each model of the catalog. *)
Lemma register_row userID u at_ d m r : (forall m, xd_access d !! (userID, m) = None) -> xd_defaults d !! m = Some r -> dr_active r = true ->
  xd_access (register_user userID u at_ d) !! (userID, m) = Some (AccessRow (dr_enabled r) at_ at_ None).
Proof.
  intros Hn Hr Ha. rewrite register_eq. xtables. destruct (backfill_covers at_ (new_pairs userID d) (xd_access d) (userID, m) r) as [x Hx]; [by apply new_pairs_elem|].
  rewrite Hx. apply backfill_new in Hx as [Hx|(_ & y & (_ & Hy & _)%new_pairs_elem & ->)]; congruence.
Qed.
Lemma register_inv userID u at_ d : xd_users d !! userID = None -> access_inv d -> access_inv (register_user userID u at_ d).
Proof.
  intros Hn [I1 I2 I3]. rewrite register_eq. split; xtables.
  - intros v m Hv Hm. destruct (decide (v = userID)) as [->|Hne].
    + change (model_active d m = true) in Hm. unfold model_active in Hm. destruct (xd_defaults d !! m) as [r|] eqn:Hr; [|done].
      apply (backfill_covers _ _ _ _ r), new_pairs_elem. done.
    + rewrite lookup_insert_ne in Hv by done. destruct (I1 v m Hv Hm) as [r Hr]. exists r. by apply backfill_keeps.
  - intros v m r Hr. apply backfill_new in Hr as [Hr|(_ & x & (-> & Hx & _)%new_pairs_elem & ->)].
    + destruct (I2 v m r Hr) as (Hv & ? & ?). split_and!; [|done|done]. destruct (decide (v = userID)) as [->|]; [by rewrite lookup_insert_eq|by rewrite lookup_insert_ne].
    + rewrite lookup_insert_eq. split_and!; [done|by eexists|]. unfold access_check. cbn. lia.
  - done.
Qed.

(** A store's life: synchronisations, changes, new users, changes of a user's
    row (his name or status), and deletions, which drop the user's rows. *)
Inductive access_step : access_db -> access_db -> Prop :=
| step_sync clock models d : access_step d (SyncModelAccessCatalog clock models d).2
| step_defaults clock w models enabled d : access_step d (Defaults clock w models enabled d).2
| step_users clock w models enabled scope ids d : access_step d (Users clock w models enabled scope ids d).2
| step_register userID u at_ d : xd_users d !! userID = None -> access_step d (register_user userID u at_ d)
| step_user userID u d : is_Some (xd_users d !! userID) -> access_step d (set_xusers (<[userID := u]> (xd_users d)) d)
| step_delete userID d : access_step d (set_xusers (delete userID (xd_users d)) (set_access (filter (fun kv => kv.1.1 <> userID) (xd_access d)) d)).
Definition access_reachable : access_db -> access_db -> Prop := rtc access_step.
Definition empty_access (d : access_db) : Prop := xd_users d = ∅ /\ xd_defaults d = ∅ /\ xd_access d = ∅.

Lemma access_step_inv d d' : access_step d d' -> access_inv d -> access_inv d'.
Proof.
  intros [clock models x|clock w models en x|clock w models en scope ids x|userID u at_ x Hn|userID u x Hu|userID x] I.
  - by apply catalog_inv.
  - by apply defaults_batch_inv.
  - by apply users_batch_inv.
  - by apply register_inv.
  - destruct I as [I1 I2 I3]. split; xtables; [| |done].
    + intros v m Hv Hm. apply I1; [|done]. destruct (decide (v = userID)) as [->|]; [done|by rewrite lookup_insert_ne in Hv].
    + intros v m r Hr. destruct (I2 v m r Hr) as (Hv & ? & ?). split_and!; [|done|done]. destruct (decide (v = userID)) as [->|]; [by rewrite lookup_insert_eq|by rewrite lookup_insert_ne].
  - destruct I as [I1 I2 I3]. split; xtables; [| |done].
    + intros v m Hv Hm. destruct (decide (v = userID)) as [->|Hne]; [rewrite lookup_delete_eq in Hv; by destruct Hv|]. rewrite lookup_delete_ne in Hv by done.
      destruct (I1 v m Hv Hm) as [r Hr]. exists r. by apply map_lookup_filter_Some.
    + intros v m r [Hr Hne]%map_lookup_filter_Some. cbn in Hne. destruct (I2 v m r Hr) as (Hv & ? & ?). split_and!; [by rewrite lookup_delete_ne by done|done|done].
Qed.
Lemma access_reachable_inv d0 d : empty_access d0 -> access_reachable d0 d -> access_inv d.
Proof.
  intros (E1 & E2 & E3) H. assert (I : access_inv d0) by (split; [intros u m; by rewrite E1, lookup_empty; intros []|intros u m r; by rewrite E3, lookup_empty|intros m r; by rewrite E2, lookup_empty]).
  clear -H I. induction H as [|x y z Hs _ IH]; [done|]. apply IH. by eapply access_step_inv.
Qed.
End calls.

(** ** What cannot fail *)

Section complete.
Context (session_of : string -> string -> bool) (inet_ok : string -> bool) (uuid_parse : string -> option string).

Lemma append_audit_Err w event c d e : appendModelAccessAuditTx session_of inet_ok w event c d = Err e -> exists op, e = ErrInvalid op.
Proof.
  unfold appendModelAccessAuditTx, marshalSafeMetadata. destruct (maxMetadataBytes <? _); [intros [= <-]; by eexists|]. cbn [tlift]. unfold tbind at 1, tlift.
  rewrite tgets_bind, tguard_bind. destruct (_ && _); [done|]. intros [= <-]. by eexists.
Qed.
Lemma change_users_Err w enabled scope ids n m d e : Z.of_nat (size (target_rows scope ids m d)) = n ->
  change_users session_of inet_ok w enabled scope ids n m d = Err e -> exists op, e = ErrInvalid op.
Proof.
  intros Hn. unfold change_users. rewrite tgets_bind, tguard_bind. rewrite (proj2 (Z.eqb_eq _ _) Hn), tguard_bind.
  destruct (_ && _); [|intros [= <-]; by eexists]. rewrite tmod_bind. unfold tbind at 1. destruct (0 <? _); [|done].
  destruct (appendModelAccessAuditTx _ _ _ _ _ _) as [[]|e'] eqn:E; [done|]. intros [= <-]. by eapply append_audit_Err.
Qed.
Lemma each_users_Err w enabled scope ids n l d e : NoDup l -> Forall (fun m => Z.of_nat (size (target_rows scope ids m d)) = n) l ->
  change_each (change_users session_of inet_ok w enabled scope ids n) l d = Err e -> exists op, e = ErrInvalid op.
Proof.
  revert d. induction l as [|m l IH]; intros d HN HF H; cbn [change_each] in H; [done|]. apply NoDup_cons in HN as [Hm HN]. apply Forall_cons in HF as [Hs HF].
  unfold tbind at 1 in H. destruct (change_users _ _ _ _ _ _ _ _ _) as [[c s]|e'] eqn:E; [|injection H as <-; by eapply change_users_Err].
  unfold tbind at 1 in H. destruct (change_each _ l s) as [[r s']|e'] eqn:E'; [done|]. injection H as <-. apply (IH s); [done| |done].
  apply change_users_Ok in E as (U & _ & _ & _ & A & _). apply Forall_forall. intros x Hx. rewrite <- (proj1 (Forall_forall _ _) HF x Hx). do 2 f_equal. apply target_rows_ext; [done|]. intros u. rewrite A.
  destruct (xd_access d !! (u, x)); [|done]. cbn. unfold set_row. cbn. rewrite bool_decide_false; [done|]. rewrite list_elem_of_singleton. by intros ->.
Qed.
Lemma batch_scope_Err scope userIDs e : batch_scope uuid_parse scope userIDs = Err e -> exists op, e = ErrInvalid op.
Proof.
  unfold batch_scope. case_bool_decide; [case_bool_decide; [done|]; intros [= <-]; by eexists|]. case_bool_decide; [|intros [= <-]; by eexists].
  unfold normalizeSelectedModelAccessUsers. destruct (_ || _); [intros [= <-]; by eexists|]. generalize (@nil string) as seen.
  induction userIDs as [|id l IH]; intros seen; cbn [normalize_selected]; [done|]. destruct (negb _); [intros [= <-]; by eexists|].
  case_bool_decide; [intros [= <-]; by eexists|]. destruct (normalize_selected _ _ l) eqn:E; cbn; [done|]. intros [= <-]. by eapply IH.
Qed.
Lemma catalog_Err models e : normalizeModelAccessCatalog models = Err e -> exists op, e = ErrInvalid op.
Proof.
  unfold normalizeModelAccessCatalog. destruct (normalize_each models) eqn:E; cbn; [done|]. intros [= ->]. revert e E.
  induction models as [|m l IH]; intros e; cbn [normalize_each]; [done|]. unfold normalizeModelAccessModel. destruct (validModelAccessModel _); cbn; [|intros [= <-]; by eexists].
  destruct (normalize_each l); cbn; [done|]. intros [= <-]. by apply IH.
Qed.
Lemma batch_Err models e : normalizeModelAccessBatch models = Err e -> exists op, e = ErrInvalid op.
Proof.
  unfold normalizeModelAccessBatch. destruct (_ || _); [intros [= <-]; by eexists|]. destruct (normalizeModelAccessCatalog models) eqn:E; cbn; [|intros [= <-]; by eapply catalog_Err].
  destruct (negb _); [intros [= <-]; by eexists|done].
Qed.

(** A batch fails only for what it was asked, never for a missing row. *)
Lemma users_batch_Err clock w models enabled scope userIDs d e d' : access_inv d ->
  SetUserModelAccessBatch session_of inet_ok uuid_parse clock w models enabled scope userIDs d = (Err e, d') ->
  (exists op, e = ErrInvalid op) \/ e = ErrNotFound "lock model access batch model".
Proof.
  intros I. unfold SetUserModelAccessBatch. destruct (normalizeModelAccessBatch models) as [l|] eqn:El; cbn; [|intros [= <- _]; left; by eapply batch_Err].
  destruct (normalizeModelAccessWrite w clock) as [w'|] eqn:Ew; cbn; [|intros [= <- _]; left; revert Ew; unfold normalizeModelAccessWrite; destruct (_ || _); [intros [= <-]; by eexists|done]].
  destruct (batch_scope uuid_parse (trim_space scope) userIDs) as [ids|] eqn:Es; cbn; [|intros [= <- _]; left; by eapply batch_scope_Err].
  unfold withTx. destruct (tbind _ _ _) as [[]|e'] eqn:E; [done|]. intros [= -> _]. unfold tbind at 1 in E.
  destruct (lockModelAccessBatch l d) as [[u s]|] eqn:E1; [|injection E as <-; right; by eapply lock_models_Err]. apply lock_models_Ok in E1 as [-> HF]. left.
  destruct (batch_scope_Ok _ _ _ _ Es) as [HN HS]. unfold tbind at 1 in E. destruct (count_targets _ ids d) as [[n s]|] eqn:E2.
  - apply count_targets_Ok in E2 as [-> ->]; [|done|done]. destruct (batch_Ok _ _ El) as [HL _]. refine (each_users_Err _ _ _ _ _ _ _ _ HL _ E).
    apply (Forall_impl _ _ _ HF). intros m Hm. f_equal. by apply target_rows_size.
  - injection E as <-. revert E2. unfold count_targets. rewrite tgets_bind. case_bool_decide; [done|]. rewrite tguard_bind. destruct (_ =? _); [done|]. intros [= <-]. by eexists.
Qed.

Lemma active_dom d m : m ∈ (dom (filter (fun kv => dr_active kv.2 = true) (xd_defaults d)) : gset string) <-> model_active d m = true.
Proof.
  unfold model_active. rewrite elem_of_dom. split; [by intros [r [-> H]%map_lookup_filter_Some]|].
  destruct (xd_defaults d !! m) as [r|] eqn:E; [|done]. intros H. exists r. by apply map_lookup_filter_Some.
Qed.
Lemma active_models_elem d m : m ∈ active_models d <-> model_active d m = true.
Proof. unfold active_models. by rewrite (stable_sort_perm str_ltb), elem_of_elements, active_dom. Qed.
Lemma active_models_ext d d' : (forall m, model_active d' m = model_active d m) -> active_models d' = active_models d.
Proof. intros H. unfold active_models. do 2 f_equal. apply set_eq. intros m. by rewrite !active_dom, H. Qed.
Lemma require_Ok u m d r : approved d u = true -> model_active d m = true -> xd_access d !! (u, m) = Some r ->
  requireModelAccess u m d = if ar_enabled r then Ok tt else Err ErrModelNotAllowed.
Proof. intros Ha Hm Hr. unfold requireModelAccess. by rewrite Ha, Hm, Hr. Qed.
Lemma enabled_models_Ok u d l : access_inv d -> approved d u = true -> Forall (fun m => model_active d m = true) l ->
  enabled_models u d l = Ok (List.filter (fun m => bool_decide (requireModelAccess u m d = Ok tt)) l).
Proof.
  intros I Ha. induction l as [|m l IH]; intros HF; [done|]. apply Forall_cons in HF as [Hm HF]. cbn [enabled_models List.filter].
  destruct (xi_complete d I u m (approved_user d u Ha) Hm) as [r Hr]. rewrite (require_Ok u m d r Ha Hm Hr), Hr, IH by done. cbn. by destruct (ar_enabled r).
Qed.
Lemma collect_Ok {A B} (f : A -> result store_error B) l : (forall x, x ∈ l -> exists y, f x = Ok y) -> exists ys, collect f l = Ok ys /\ length ys = length l.
Proof.
  induction l as [|x l IH]; intros H; [by exists []|]. destruct (H x) as [y Hy]; [apply list_elem_of_here|]. destruct IH as (ys & E & Hl); [intros z Hz; apply H; by apply list_elem_of_further|].
  exists (y :: ys). cbn. rewrite Hy. cbn. rewrite E. cbn. by rewrite Hl.
Qed.
Lemma list_users_Ok collate m d : access_inv d -> validModelAccessModel (trim_space m) = true -> model_active d (trim_space m) = true ->
  exists rows, ListModelAccessUsers collate m d = Ok rows /\ length rows = size (approved_users d).
Proof.
  intros I Hv Hm. unfold ListModelAccessUsers, normalizeModelAccessModel. rewrite Hv. cbn [rbind]. rewrite Hm. destruct (collect_Ok (user_state d (trim_space m)) (listed_users collate d)) as (ys & -> & Hl).
  - intros [u x] Hx. unfold listed_users in Hx. rewrite (stable_sort_perm (user_less collate)) in Hx. apply elem_of_map_to_list, map_lookup_filter_Some in Hx as [Hx _]. unfold user_state. cbn.
    destruct (xi_complete d I u (trim_space m)) as [r ->]; [by eexists|done|by eexists].
  - exists ys. split; [done|]. rewrite Hl. unfold listed_users, approved_users. rewrite (stable_sort_perm (user_less collate)), length_map_to_list. by rewrite size_dom.
Qed.
End complete.

(** ** A catalog is the given one *)

Lemma catalog_sorted models l : normalizeModelAccessCatalog models = Ok l -> l = stable_sort str_ltb (elements (list_to_set l : gset string)).
Proof.
  unfold normalizeModelAccessCatalog. intros H. apply rbind_Ok in H as (xs & _ & [= <-]). f_equal. f_equal. apply set_eq. intros m.
  by rewrite (elem_of_list_to_set (C := gset string) m (stable_sort _ _)), (stable_sort_perm str_ltb), elem_of_elements.
Qed.
Lemma backfill_present at_ pairs rows : (forall k x, (k, x) ∈ pairs -> is_Some (rows !! k)) -> foldl (backfill at_) rows pairs = rows.
Proof.
  induction pairs as [|[k x] pairs IH]; intros H; [done|]. cbn [foldl]. replace (backfill at_ rows (k, x)) with rows; [apply IH; intros j y Hj; eapply H; by apply list_elem_of_further|].
  destruct (H k x) as [r Hr]; [apply list_elem_of_here|]. unfold backfill, insert_missing. cbn. by rewrite Hr.
Qed.
Lemma synced_defaults_twice c1 c2 l rows : synced_defaults c2 l (synced_defaults c1 l rows) = synced_defaults c1 l rows.
Proof.
  apply map_eq. intros m. rewrite (synced_lookup c2). case_bool_decide as E; rewrite !synced_lookup.
  - rewrite bool_decide_true by done. by destruct (rows !! m).
  - rewrite bool_decide_false by done. destruct (rows !! m) as [r|]; [|done]. cbn. f_equal. unfold deactivate. rewrite bool_decide_false by done. cbn.
    rewrite !andb_true_r. by destruct (dr_active r) eqn:?; cbn; [|rewrite Heqb].
Qed.

Lemma sync_settled clock models l d : normalizeModelAccessCatalog models = Ok l -> synced_defaults clock l (xd_defaults d) = xd_defaults d ->
  (forall k x, (k, x) ∈ access_pairs d -> is_Some (xd_access d !! k)) -> SyncModelAccessCatalog clock models d = (Ok tt, d).
Proof.
  intros E Hd Hp. rewrite sync_Ok, E, Hd. cbv zeta. destruct d as [u r a t]. unfold set_access, set_defaults. cbn in *. by rewrite backfill_present.
Qed.

(** Synchronising makes the given models, sorted and without duplicates, the
    catalog.  No default and no choice of a user is overwritten, a removed
    model keeps its row; a new model is enabled by default, and every pair of a
    user and a catalog model that had no row gets the model's default.  Doing
    it again, at any time, changes nothing. *)
Theorem catalog_sync_exact clock models l d : normalizeModelAccessCatalog models = Ok l ->
  exists d', SyncModelAccessCatalog clock models d = (Ok tt, d') /\ active_models d' = l /\ xd_users d' = xd_users d /\ xd_audit d' = xd_audit d /\
    (forall m r, xd_defaults d !! m = Some r -> xd_defaults d' !! m = Some (DefaultRow (dr_enabled r) (bool_decide (m ∈ l)) (dr_created r) (dr_updated r) (dr_by r))) /\
    (forall m, xd_defaults d !! m = None -> xd_defaults d' !! m = if bool_decide (m ∈ l) then Some (DefaultRow true true clock clock None) else None) /\
    (forall k r, xd_access d !! k = Some r -> xd_access d' !! k = Some r) /\
    (forall u m, xd_access d !! (u, m) = None -> xd_access d' !! (u, m) =
       match xd_users d !! u, xd_defaults d' !! m with
       | Some _, Some r => if bool_decide (m ∈ l) then Some (AccessRow (dr_enabled r) clock clock None) else None
       | _, _ => None
       end) /\
    forall later, SyncModelAccessCatalog later models d' = (Ok tt, d').
Proof.
  intros E. rewrite sync_Ok, E. cbv zeta. set (d1 := set_defaults _ d). eexists. split; [reflexivity|].
  assert (Hact : forall m r, xd_defaults d1 !! m = Some r -> dr_active r = bool_decide (m ∈ l)) by apply synced_active.
  split_and!; [|done|done| | |apply backfill_keeps| |].
  - refine (eq_trans _ (eq_sym (catalog_sorted models l E))). unfold active_models. f_equal. f_equal. apply set_eq. intros m. rewrite elem_of_dom, elem_of_list_to_set. split.
    + intros [r [Hr Ha]%map_lookup_filter_Some]. cbn in Ha. rewrite (Hact m r Hr) in Ha. by apply bool_decide_eq_true in Ha.
    + intros Hm. assert (Hr : xd_defaults d1 !! m = Some (activated_default clock (xd_defaults d !! m))) by (cbn; by rewrite synced_lookup, bool_decide_true).
      eexists. apply map_lookup_filter_Some. split; [exact Hr|]. cbn. by destruct (xd_defaults d !! m).
  - intros m r Hr. cbn. rewrite synced_lookup, Hr. case_bool_decide as Hm; cbn; [done|]. f_equal. unfold deactivate. rewrite bool_decide_false by done.
    by destruct r as [? [] ? ? ?].
  - intros m Hr. cbn. rewrite synced_lookup, Hr. by case_bool_decide.
  - intros u m Hn. xtables. destruct (foldl _ _ _ !! (u, m)) as [r|] eqn:Hr.
    + apply backfill_new in Hr as [Hr|(_ & x & (Hu & Hx & Ha)%access_pairs_elem & ->)]; [cbn in Hr; congruence|].
      rewrite (Hact m x Hx) in Ha. change (is_Some (xd_users d !! u)) in Hu. destruct Hu as [v ->]. by rewrite Hx, Ha.
    + destruct (xd_users d !! u) as [v|] eqn:Hu; [|done]. destruct (xd_defaults d1 !! m) as [x|] eqn:Hx; [|done]. case_bool_decide as Hm; [|done]. exfalso.
      assert (HP : ((u, m), x) ∈ access_pairs d1) by (apply access_pairs_elem; split_and!; [by eexists|done|]; rewrite (Hact m x Hx); by apply bool_decide_eq_true).
      apply (backfill_covers clock _ (xd_access d)) in HP as [? Hs]. change (xd_access d1) with (xd_access d) in Hr. congruence.
  - intros later. apply (sync_settled _ _ l); [done|apply synced_defaults_twice|]. intros [u m] x Hx. apply (backfill_covers _ _ _ _ x). apply access_pairs_elem. by apply access_pairs_elem in Hx.
Qed.

Section theorems.
Context (session_of : string -> string -> bool) (inet_ok : string -> bool) (uuid_parse : string -> option string).

Lemma bool_decide_of (P : Prop) `{Decision P} (b : bool) : (P <-> b = true) -> bool_decide P = b.
Proof. intros Hb. case_bool_decide as HP; [symmetry; by apply Hb|]. destruct b; [|done]. by destruct HP; apply Hb. Qed.
Lemma require_after scope ids w enabled l d d' u m : xd_users d' = xd_users d -> xd_defaults d' = xd_defaults d ->
  (forall k, xd_access d' !! k = set_row w enabled scope ids l d k <$> xd_access d !! k) -> access_inv d -> Forall (fun m => model_active d m = true) l ->
  requireModelAccess u m d' = if bool_decide (m ∈ l) && targeted scope ids d u then (if enabled then Ok tt else Err ErrModelNotAllowed) else requireModelAccess u m d.
Proof.
  intros U D A I HF. unfold requireModelAccess. assert (Hm : model_active d' m = model_active d m) by (unfold model_active; by rewrite D).
  assert (Hu : approved d' u = approved d u) by (unfold approved; by rewrite U). rewrite Hm, Hu, A. case_bool_decide as El; cbn [andb].
  - pose proof (proj1 (Forall_forall _ _) HF m El) as Ha. cbn in Ha. rewrite Ha. cbn [andb]. destruct (approved d u) eqn:Hp.
    + destruct (xi_complete d I u m (approved_user d u Hp) Ha) as [r Hr]. rewrite Hr. cbn. destruct (set_row_fields w enabled scope ids l d (u, m) r) as [_ ->]. cbn.
      rewrite bool_decide_true by done. cbn [andb]. by destruct (targeted scope ids d u).
    + unfold targeted. by rewrite Hp.
  - destruct (_ && approved d u); [|done]. destruct (xd_access d !! (u, m)) as [r|]; [|done]. cbn. destruct (set_row_fields w enabled scope ids l d (u, m) r) as [_ ->]. cbn.
    by rewrite bool_decide_false.
Qed.

(** [C21] A batch of user permissions sets exactly what it names: afterwards a
    targeted user may use a named model if and only if the batch enabled it, and
    every other question has the answer it had.  The counts it returns are the
    users it targets and those whose choice changed, model by model and in
    total, and one event is written for each model with a change. *)
Theorem users_batch_exact clock w models enabled scope userIDs d r d' : access_inv d ->
  SetUserModelAccessBatch session_of inet_ok uuid_parse clock w models enabled scope userIDs d = (Ok r, d') ->
  exists l ids, normalizeModelAccessBatch models = Ok l /\ batch_scope uuid_parse (trim_space scope) userIDs = Ok ids /\
    let who := targets (trim_space scope) ids d in
    let changed m := Z.of_nat (size (filter (fun u => requireModelAccess u m d' <> requireModelAccess u m d) who)) in
    (forall u m, requireModelAccess u m d' =
       if bool_decide (m ∈ l) && bool_decide (u ∈ who) then (if enabled then Ok tt else Err ErrModelNotAllowed) else requireModelAccess u m d) /\
    xd_users d' = xd_users d /\ xd_defaults d' = xd_defaults d /\ dom (xd_access d') = dom (xd_access d) /\
    mb_Results r = (fun m => ChangeResult m enabled (trim_space scope) (Z.of_nat (size who)) (changed m)) <$> l /\
    mb_TargetCount r = Z.of_nat (size who) * Z.of_nat (length l) /\ mb_ChangedCount r = total changed l /\
    exists evs, xd_audit d' = xd_audit d ++ evs /\ ev_subject <$> evs = named changed l.
Proof.
  intros I E. apply users_batch_run in E as (l & w' & ids & n & El & _ & Es & HN & HF & -> & E). apply each_users_Ok in E as (U & D & S & -> & A & _ & evs & T & _ & M); [|done].
  exists l, ids. split_and!; [done|done|]. set (who := targets (trim_space scope) ids d). cbv zeta.
  assert (HR : forall u m, requireModelAccess u m d' = if bool_decide (m ∈ l) && bool_decide (u ∈ who) then (if enabled then Ok tt else Err ErrModelNotAllowed) else requireModelAccess u m d).
  { intros u m. rewrite (require_after _ _ _ _ _ _ _ u m U D A I HF).
    replace (bool_decide (u ∈ who)) with (targeted (trim_space scope) ids d u); [done|]. symmetry. apply (bool_decide_of _ _ (targets_elem _ _ _ _)). }
  assert (HC : forall m, m ∈ l -> differing (trim_space scope) ids enabled d m = Z.of_nat (size (filter (fun u => requireModelAccess u m d' <> requireModelAccess u m d) who))).
  { intros m Hm. unfold differing. f_equal. pose proof (proj1 (Forall_forall _ _) HF m Hm) as Ha. cbn in Ha. apply (rows_of_users _ m). intros u x. rewrite changed_lookup, elem_of_filter, HR.
    rewrite (bool_decide_true (m ∈ l)) by done. cbn [andb]. split.
    - destruct (xd_access d !! (u, x)) as [y|] eqn:Hy; [|by intros []]. cbn. destruct (_ && _) eqn:B; [|by intros []]. intros _.
      apply andb_true_iff in B as [[B1%bool_decide_eq_true B2]%andb_true_iff B3%negb_true_iff]. apply list_elem_of_singleton in B1 as ->. split; [done|].
      assert (Hin : u ∈ who) by by apply targets_elem. split; [|done]. rewrite bool_decide_true by done. apply andb_true_iff in B2 as [B2 _]. rewrite (require_Ok u m d y B2 Ha Hy).
      destruct enabled, (ar_enabled y); done.
    - intros (-> & Hne & Hin). rewrite bool_decide_true in Hne by done. apply targets_elem in Hin. assert (Hp : approved d u = true) by by apply andb_true_iff in Hin as [? _].
      destruct (xi_complete d I u m (approved_user d u Hp) Ha) as [y Hy]. rewrite Hy. cbn. rewrite bool_decide_true by apply list_elem_of_here. rewrite Hin. cbn.
      rewrite (require_Ok u m d y Hp Ha Hy) in Hne. destruct enabled, (ar_enabled y); cbn; try done; by eexists. }
  split_and!; [done|done|done| | |done| |].
  - apply set_eq. intros k. by rewrite !elem_of_dom, A, fmap_is_Some.
  - cbn. apply list_fmap_ext. intros i m Hm. apply list_elem_of_lookup_2 in Hm. by rewrite HC.
  - cbn. by apply total_ext.
  - exists evs. split; [done|]. rewrite M. by apply named_ext.
Qed.

(** A batch of defaults changes no user's permission: it is the next user who
    gets the new defaults, for every model of the catalog. *)
Theorem defaults_batch_exact clock w models enabled d r d' : access_inv d ->
  SetModelAccessDefaultsBatch session_of inet_ok clock w models enabled d = (Ok r, d') ->
  exists l, normalizeModelAccessBatch models = Ok l /\ (forall u m, requireModelAccess u m d' = requireModelAccess u m d) /\
    (forall m, dr_enabled <$> xd_defaults d' !! m = if bool_decide (m ∈ l) then Some enabled else dr_enabled <$> xd_defaults d !! m) /\
    active_models d' = active_models d /\ mb_TargetCount r = Z.of_nat (length l) /\ mb_ChangedCount r = total (default_differs enabled d) l /\
    (exists evs, xd_audit d' = xd_audit d ++ evs /\ ev_subject <$> evs = named (default_differs enabled d) l) /\
    forall u v at_ m, xd_users d !! u = None -> au_status v <> "pending" -> model_active d m = true ->
      requireModelAccess u m (register_user u v at_ d') =
        if (if bool_decide (m ∈ l) then enabled else bool_decide (dr_enabled <$> xd_defaults d !! m = Some true)) then Ok tt else Err ErrModelNotAllowed.
Proof.
  intros I E. apply defaults_batch_run in E as (l & w' & El & _ & HN & HF & E). apply each_defaults_Ok in E as (U & A & -> & D & _ & evs & T & M); [|done].
  exists l. assert (Hact : forall m, dr_active <$> xd_defaults d' !! m = dr_active <$> xd_defaults d !! m).
  { intros m. rewrite D. destruct (xd_defaults d !! m); [|done]. cbn. unfold set_default. by destruct (_ && _). }
  assert (Hen : forall m, dr_enabled <$> xd_defaults d' !! m = if bool_decide (m ∈ l) then Some enabled else dr_enabled <$> xd_defaults d !! m).
  { intros m. rewrite D. unfold set_default. case_bool_decide as Hm; [|by destruct (xd_defaults d !! m)]. pose proof (proj1 (Forall_forall _ _) HF m Hm) as Ha. cbn in Ha. unfold model_active in Ha.
    destruct (xd_defaults d !! m) as [x|]; [|done]. cbn. destruct (Bool.eqb (dr_enabled x) enabled) eqn:Q; [|done]. cbn. f_equal. by apply eqb_prop. }
  split_and!; [done| |done| |done|done|by exists evs|].
  - intros u m. unfold requireModelAccess. rewrite (model_active_ext d d' m Hact), A. unfold approved. by rewrite U.
  - apply active_models_ext. intros m. by apply model_active_ext.
  - intros u v at_ m Hu Hv Hm. assert (Hm' : model_active d' m = true) by by rewrite (model_active_ext d d' m Hact).
    assert (Hp : approved (register_user u v at_ d') u = true) by (unfold approved, register_user; xtables; rewrite lookup_insert_eq; by rewrite bool_decide_false).
    unfold model_active in Hm'. destruct (xd_defaults d' !! m) as [x|] eqn:Hx; [|done].
    rewrite (require_Ok _ _ _ (AccessRow (dr_enabled x) at_ at_ None) Hp); [|unfold model_active, register_user; xtables; by rewrite Hx|].
    + cbn. specialize (Hen m). rewrite Hx in Hen. cbn in Hen. case_bool_decide as Hl; [by injection Hen as ->|]. rewrite <- Hen. by destruct (dr_enabled x).
    + apply register_row; [|done|done]. intros x'. rewrite A. apply eq_None_not_Some. intros [y Hy]. destruct (xi_rows d I u x' y Hy) as ([z Hz] & _). congruence.
Qed.

(** [C20] However the store came about from an empty one, no permission is ever
    missing: for an approved user and a model of the catalog the answer is yes or
    no and never "unavailable", the list of a user's models is exactly those
    with the answer yes, the owner's lists of models and of their users never
    fail and leave nobody out, and a batch of
    user permissions never fails for want of a row. *)
Theorem access_never_missing d0 d : empty_access d0 -> access_reachable session_of inet_ok uuid_parse d0 d ->
  (forall u m, approved d u = true -> model_active d m = true -> requireModelAccess u m d = Ok tt \/ requireModelAccess u m d = Err ErrModelNotAllowed) /\
  (forall u, empty (trim_space u) = false -> approved d (trim_space u) = true ->
     ListEnabledModelsForUser u d = Ok (List.filter (fun m => bool_decide (requireModelAccess (trim_space u) m d = Ok tt)) (active_models d))) /\
  (exists rows, ListModelAccessModels d = Ok rows /\ length rows = length (active_models d)) /\
  (forall collate m, validModelAccessModel (trim_space m) = true -> model_active d (trim_space m) = true ->
     exists rows, ListModelAccessUsers collate m d = Ok rows /\ length rows = size (approved_users d)) /\
  (forall clock w models enabled scope userIDs, (SetUserModelAccessBatch session_of inet_ok uuid_parse clock w models enabled scope userIDs d).1 <> Err ErrModelAccessUnavailable).
Proof.
  intros H0 H. apply access_reachable_inv in H as I; [|done]. split_and!.
  - intros u m Hu Hm. destruct (xi_complete d I u m (approved_user d u Hu) Hm) as [r Hr]. rewrite (require_Ok u m d r Hu Hm Hr). destruct (ar_enabled r); auto.
  - intros u He Hu. unfold ListEnabledModelsForUser. rewrite He, Hu. apply enabled_models_Ok; [done|done|]. apply Forall_forall. intros m. apply active_models_elem.
  - apply collect_Ok. intros m Hm%active_models_elem. unfold model_summary. rewrite model_users_total, Z.eqb_refl by done. unfold model_active in Hm.
    destruct (xd_defaults d !! m); [by eexists|done].
  - intros collate m. by apply list_users_Ok.
  - intros clock w models enabled scope userIDs E. destruct (SetUserModelAccessBatch _ _ _ _ _ _ _ _ _ _) as [r d'] eqn:Er. cbn in E. subst r.
    apply users_batch_Err in Er as [[op Hop]|Hop]; done.
Qed.
End theorems.

(** ** Examples *)

Definition no_access : access_db := AccessDB ∅ ∅ ∅ [].
Definition demo_owner : access_user := AccessUser "owner" "Owner" "owner" "active".
Definition demo_member : access_user := AccessUser "ann" "Ann" "member" "active".
(** Two models, then the owner and a member. *)
Definition demo_access : access_db :=
  register_user "u2" demo_member 200 (register_user "u1" demo_owner 100 (SyncModelAccessCatalog 50 [" gpt-5"; "claude"; "gpt-5"] no_access).2).
Definition demo_access_write : ModelAccessWriteParams :=
  {| mw_ActorUserID := "u1"; mw_ActorSessionID := ""; mw_RequestID := ""; mw_SourceIP := ""; mw_Reason := "trial"; mw_At := 300 |}.
Abbreviation demo_users := (SetUserModelAccessBatch (fun _ _ => true) (fun _ => true) Some 1 demo_access_write ["gpt-5"] false "selected" ["u2"]).
Abbreviation demo_defaults := (SetModelAccessDefaultsBatch (fun _ _ => true) (fun _ => true) 1 demo_access_write ["claude"] false).

Lemma demo_access_reachable : access_reachable (fun _ _ => true) (fun _ => true) Some no_access demo_access.
Proof.
  eapply rtc_l; [apply (step_sync _ _ _ 50 [" gpt-5"; "claude"; "gpt-5"])|]. eapply rtc_l; [by apply (step_register _ _ _ "u1" demo_owner 100)|].
  apply rtc_once. by apply (step_register _ _ _ "u2" demo_member 200).
Qed.
Lemma demo_access_inv : access_inv demo_access.
Proof. by apply (access_reachable_inv (fun _ _ => true) (fun _ => true) Some no_access), demo_access_reachable. Qed.

(** A user is shut out of one model and keeps the other. *)
Example demo_shut_out : requireModelAccess "u2" "gpt-5" (demo_users demo_access).2 = Err ErrModelNotAllowed /\
  ListEnabledModelsForUser "u2" (demo_users demo_access).2 = Ok ["claude"] /\ ListEnabledModelsForUser "u1" (demo_users demo_access).2 = Ok ["claude"; "gpt-5"].
Proof. vm_compute. done. Qed.
(** Selecting someone who is not there fails. *)
Example demo_no_such_user : (SetUserModelAccessBatch (fun _ _ => true) (fun _ => true) Some 1 demo_access_write ["gpt-5"] false "selected" ["u9"] demo_access).1
  = Err (ErrInvalid "selected model access user does not exist").
Proof. vm_compute. done. Qed.

Lemma catalog_sync_exact_witness : normalizeModelAccessCatalog ["b"; " a"; "b"] = Ok ["a"; "b"] /\
  exists d', SyncModelAccessCatalog 500 ["b"; " a"; "b"] demo_access = (Ok tt, d') /\ active_models d' = ["a"; "b"].
Proof.
  assert (E : normalizeModelAccessCatalog ["b"; " a"; "b"] = Ok ["a"; "b"]) by (vm_compute; reflexivity).
  split; [exact E|]. destruct (catalog_sync_exact 500 _ _ demo_access E) as (d' & Hd & Ha & _). by exists d'.
Defined.

Lemma users_batch_exact_witness : exists r d', demo_users demo_access = (Ok r, d') /\ mb_ChangedCount r = 1 /\
  requireModelAccess "u1" "gpt-5" d' = requireModelAccess "u1" "gpt-5" demo_access.
Proof.
  destruct (demo_users demo_access) as [[r|e] d'] eqn:E; [|by vm_compute in E].
  exists r, d'. assert (Hr : mb_ChangedCount r = 1) by (clear -E; vm_compute in E; by injection E as <- <-). split_and!; [done|done|].
  destruct (users_batch_exact (fun _ _ => true) (fun _ => true) Some 1 demo_access_write ["gpt-5"] false "selected" ["u2"] demo_access r d' demo_access_inv E) as (l & ids & _ & Hs & HR & _).
  assert (Hids : ids = ["u2"]) by (vm_compute in Hs; by injection Hs as <-). subst ids. rewrite HR.
  replace (bool_decide ("u1" ∈ targets (trim_space "selected") ["u2"] demo_access)) with false by (vm_compute; reflexivity). by rewrite andb_false_r.
Defined.

Lemma defaults_batch_exact_witness : exists r d', demo_defaults demo_access = (Ok r, d') /\
  requireModelAccess "u3" "claude" (register_user "u3" demo_member 400 d') = Err ErrModelNotAllowed /\ requireModelAccess "u2" "claude" d' = Ok tt.
Proof.
  destruct (demo_defaults demo_access) as [[r|e] d'] eqn:E; [|by vm_compute in E]. exists r, d'. split; [done|].
  destruct (defaults_batch_exact (fun _ _ => true) (fun _ => true) 1 demo_access_write ["claude"] false demo_access r d' demo_access_inv E) as (l & Hl & HR & _ & _ & _ & _ & _ & Hnew).
  assert (El : l = ["claude"]) by (vm_compute in Hl; by injection Hl as <-). subst l. split.
  - rewrite (Hnew "u3" demo_member 400 "claude"); [by rewrite bool_decide_true by apply list_elem_of_here|vm_compute; reflexivity|done|vm_compute; reflexivity].
  - rewrite HR. vm_compute. reflexivity.
Defined.

Lemma access_never_missing_witness : empty_access no_access /\ (requireModelAccess "u2" "gpt-5" demo_access = Ok tt \/ requireModelAccess "u2" "gpt-5" demo_access = Err ErrModelNotAllowed).
Proof.
  split; [by split_and!|]. destruct (access_never_missing (fun _ _ => true) (fun _ => true) Some no_access demo_access) as (H & _); [by split_and!|exact demo_access_reachable|].
  apply H; vm_compute; reflexivity.
Defined.
