(* ===== verification/ModelPrices.v ===== *)
(** * The owner's prices and multipliers ([internal/config/model_prices.go],
      [model_access.go], [internal/store/model_prices.go], [model_multipliers.go])

    A price of the deployment's catalog can be overridden, as long as the
    override keeps everything but the amounts; the part that must stay is known
    by its digest.  A multiplier scales what a model costs.  Both are operations
    of the billing books.  The digest (SHA-256 of the JSON of its arguments) and
    the JSON texts of prices and snapshots are parameters.  The JSONB columns
    hold what [encoding/json] reads back from them. *)
From Stdlib Require Import Ascii QArith.
From S2P Require Import Prelude GoStrings GoTime Amount Pricing Store Money Funding BillingTables Charging Accounts Groups.

Definition InternalGovernanceModel : string := "codex-auto-review".

(** ** Prices and their structure *)

Definition ManageableModelNames (p : UsagePricing) : list string :=
  stable_sort str_ltb (List.filter (fun m => negb (bool_decide (m = InternalGovernanceModel))) (elements (dom (Models p)))).
Definition IsManageableModel (p : UsagePricing) (model : string) : bool :=
  if bool_decide (model = InternalGovernanceModel) then false else bool_decide (is_Some (Models p !! model)).

Definition structure_context (price : TokenPricing) : TokenPricing :=
  {| tp_Input := EmptyString; tp_CachedInput := EmptyString; tp_CacheWrite := (fun _ => EmptyString) <$> tp_CacheWrite price;
     tp_CacheWrite5m := (fun _ => EmptyString) <$> tp_CacheWrite5m price; tp_CacheWrite1h := (fun _ => EmptyString) <$> tp_CacheWrite1h price;
     tp_Output := EmptyString |}.
Definition map_contexts (f : TokenPricing -> TokenPricing) (contexts : ServiceTierPricing) : ServiceTierPricing :=
  {| Short := f <$> Short contexts; Long := f <$> Long contexts |}.
Definition modelPriceStructure (rule : ModelPricing) : ModelPricing :=
  {| mp_Input := EmptyString; mp_CachedInput := EmptyString; mp_Output := EmptyString; CacheWriteMode := CacheWriteMode rule;
     MaxInputTokens := MaxInputTokens rule; LongContextThresholdTokens := LongContextThresholdTokens rule;
     ServiceTiers := map_contexts structure_context <$> ServiceTiers rule |}.

Definition canonical_price : string -> string := parsed_or_empty.
Definition canonical_context (price : TokenPricing) : TokenPricing :=
  {| tp_Input := canonical_price (tp_Input price); tp_CachedInput := canonical_price (tp_CachedInput price);
     tp_CacheWrite := canonical_price <$> tp_CacheWrite price; tp_CacheWrite5m := canonical_price <$> tp_CacheWrite5m price;
     tp_CacheWrite1h := canonical_price <$> tp_CacheWrite1h price; tp_Output := canonical_price (tp_Output price) |}.
Definition with_v1_prices (input cached output : string) (rule : ModelPricing) : ModelPricing :=
  {| mp_Input := input; mp_CachedInput := cached; mp_Output := output; CacheWriteMode := CacheWriteMode rule; MaxInputTokens := MaxInputTokens rule;
     LongContextThresholdTokens := LongContextThresholdTokens rule; ServiceTiers := ServiceTiers rule |}.
Definition with_tiers (tiers : gmap string ServiceTierPricing) (rule : ModelPricing) : ModelPricing :=
  {| mp_Input := mp_Input rule; mp_CachedInput := mp_CachedInput rule; mp_Output := mp_Output rule; CacheWriteMode := CacheWriteMode rule;
     MaxInputTokens := MaxInputTokens rule; LongContextThresholdTokens := LongContextThresholdTokens rule; ServiceTiers := tiers |}.
(** The model only names the rule in an error. *)
Definition NormalizeModelPrice (schema : Z) (rule : ModelPricing) : result string ModelPricing :=
  let! _ := if (schema =? 0) || (schema =? PricingSchemaV1) then validateV1ModelPricing rule
            else if schema =? PricingSchemaV2 then validateV2ModelPricing rule else Err "unsupported pricing schema" in
  if negb (schema =? PricingSchemaV2) then
    Ok (with_v1_prices (canonical_price (mp_Input rule)) (canonical_price (mp_CachedInput rule)) (canonical_price (mp_Output rule)) rule)
  else Ok (with_tiers (map_contexts canonical_context <$> ServiceTiers rule) rule).

Definition known_schema (schema : Z) : Z := if schema =? 0 then PricingSchemaV1 else schema.
Definition with_models (models : gmap string ModelPricing) (p : UsagePricing) : UsagePricing :=
  {| up_SchemaVersion := up_SchemaVersion p; CatalogAsOf := CatalogAsOf p; FXAsOf := FXAsOf p; USDCNYRate := USDCNYRate p;
     up_FallbackPolicy := up_FallbackPolicy p; Models := models |}.

Section structure.
Context (digest : Z -> PricingFallbackPolicy -> ModelPricing -> string).
Definition ModelPriceStructureID (p : UsagePricing) (model : string) : result string string :=
  match Models p !! model with
  | None => Err "pricing model is not configured"
  | Some rule => Ok (digest (known_schema (up_SchemaVersion p)) (up_FallbackPolicy p) (modelPriceStructure rule))
  end.
Definition ValidateModelPriceOverride (p : UsagePricing) (model : string) (rule : ModelPricing) : result string ModelPricing :=
  if bool_decide (model = InternalGovernanceModel) then Err "internal pricing is fixed" else
  let! expected := ModelPriceStructureID p model in
  let! normalized := NormalizeModelPrice (up_SchemaVersion p) rule in
  let! actual := ModelPriceStructureID (with_models {[model := normalized]} p) model in
  if bool_decide (expected = actual) then Ok normalized else Err "model pricing structure is read-only".
End structure.

(** ** Tables *)

(** A row of [billing_model_multipliers]; the multiplier is in units of 10^-12. *)
Record multiplier_row := MultiplierRow { mr_multiplier : Z; mr_updated : Z; mr_by : string }.
(** A row of [billing_model_prices]. *)
Record price_row := PriceRow { pr_price : option ModelPricing; pr_structure : string; pr_version : Z; pr_updated : Z; pr_by : string }.

Record ModelPrice := {
  mo_Model : string;
  mo_SchemaVersion : Z;
  mo_ConfiguredPrice : ModelPricing;
  mo_EffectivePrice : option ModelPricing;
  mo_Multiplier : string;
  mo_Version : Z;
  mo_StructureID : string;
  mo_Source : string;
  mo_Conflict : bool;
  mo_Editable : bool;
  mo_UpdatedAt : option Z;
}.
(** The [transaction_snapshot] of a ledger entry of this kind. *)
Record price_snapshot := PriceSnapshot { sn_ModelPrice : ModelPrice; sn_Action : string; sn_PreviousPrice : option ModelPricing }.

Record price_db := PriceDB {
  pd_billing : billing_db;
  pd_multipliers : gmap string multiplier_row;
  pd_prices : gmap string price_row;
  pd_snapshots : gmap Z price_snapshot;
}.
Definition set_price_billing v d := PriceDB v (pd_multipliers d) (pd_prices d) (pd_snapshots d).
Definition set_multipliers v d := PriceDB (pd_billing d) v (pd_prices d) (pd_snapshots d).
Definition set_prices v d := PriceDB (pd_billing d) (pd_multipliers d) v (pd_snapshots d).
Definition set_snapshots v d := PriceDB (pd_billing d) (pd_multipliers d) (pd_prices d) v.
Definition in_books {A} (m : tx billing_db A) : tx price_db A := tzoom pd_billing set_price_billing m.

Ltac ptables := cbn [set_price_billing set_multipliers set_prices set_snapshots pd_billing pd_multipliers pd_prices pd_snapshots] in *.

Definition hex_char (c : ascii) : bool := let n := byte_of c in ((48 <=? n) && (n <=? 57)) || ((97 <=? n) && (n <=? 102)).
Definition modelPriceNamePattern : string -> bool := usagePricingModelPattern.
Definition modelPriceStructurePattern (s : string) : bool := (String.length s =? 64)%nat && str_forall hex_char s.

Definition multiplier_check (model : string) (r : multiplier_row) : bool :=
  (1 <=? rune_count model) && (rune_count model <=? 128) && negb (bool_decide (model = InternalGovernanceModel)) && (0 <? mr_multiplier r) && numeric_fits (mr_multiplier r).
Definition price_check (model : string) (r : price_row) : bool :=
  modelPriceNamePattern model && negb (bool_decide (model = InternalGovernanceModel)) && modelPriceStructurePattern (pr_structure r) &&
  (0 <? pr_version r) && int64b (pr_version r).

(** ** Multipliers *)

Record ModelMultiplier := { mx_Model : string; mx_Multiplier : string; mx_UpdatedAt : option Z }.

Definition multiplier_text (model : string) (d : price_db) : string :=
  match pd_multipliers d !! model with Some r => numeric_text (mr_multiplier r) | None => "1" end.
Definition ListModelMultipliers (models : list string) (d : price_db) : list ModelMultiplier :=
  map (fun m => {| mx_Model := m; mx_Multiplier := if bool_decide (m = InternalGovernanceModel) then "1" else multiplier_text m d;
                   mx_UpdatedAt := mr_updated <$> pd_multipliers d !! m |}) models.
Definition readModelMultiplierTx (model : string) : tx price_db string := tgets (multiplier_text model).
Definition snapshotModelMultiplierTx : string -> tx price_db string := readModelMultiplierTx.

(** A ledger entry about a model. *)
Definition model_entry (p : BillingWriteParams) (kind model multiplier : string) : ledger_row :=
  {| le_user := ActorUserID p; le_operation := Some (OperationID p); le_entry_type := kind; le_amount := 0; le_cash_delta := 0; le_balance_after := None; le_cny := None;
     le_rate := None; le_reason := Reason p; le_actor := Some (ActorUserID p); le_created_at := At p; le_request := None; le_model := Some model;
     le_usage_requested_at := None; le_account := None; le_group := None; le_group_period := None; le_rule_version := Some 1; le_multiplier := Some multiplier; le_charge := None |}.

Section writes.
Context (fingerprint : list string -> string) (session_of : string -> string -> bool) (inet_ok : string -> bool).

Definition set_multiplier_body (p : BillingWriteParams) (model multiplier : string) : tx price_db ModelMultiplier :=
  let fp := fingerprint ["model_multiplier"; ActorUserID p; Reason p; model; multiplier] in
  let* replay := in_books (claimBillingOperationTx p "model_multiplier" EmptyString fp []) in
  match replay with
  | Some id =>
      let* (_, entry) := in_books (replayBillingLedgerTx id) in
      if bool_decide (le_model entry = Some model) then
        tret {| mx_Model := model; mx_Multiplier := default "1" (le_multiplier entry); mx_UpdatedAt := Some (le_created_at entry) |}
      else tfail (ErrConflict "replayed multiplier operation has no matching model")
  | None =>
      let* previous := readModelMultiplierTx model in
      let* n := in_books (numeric_arg "set model multiplier" multiplier) in
      let row := MultiplierRow n (At p) (ActorUserID p) in
      tguard (multiplier_check model row) (ErrInvalid "set model multiplier") ;;
      tmod (fun d => set_multipliers (<[model := row]> (pd_multipliers d)) d) ;;
      let* (id, _) := in_books (insert_operation_entry "record model multiplier ledger" (model_entry p "model_multiplier" model (numeric_text n))) in
      in_books (finishBillingOperationTx (OperationID p) id) ;;
      in_books (appendBillingAuditTx session_of inet_ok p "billing.model_multiplier_updated" "billing_model_multiplier" model
        [("operation_id", OperationID p); ("model", model); ("previous_multiplier", previous); ("multiplier", multiplier); ("reason", Reason p)]) ;;
      tret {| mx_Model := model; mx_Multiplier := numeric_text n; mx_UpdatedAt := Some (At p) |}
  end.
Definition multiplier_arguments (p : BillingWriteParams) (model multiplier : string) : result store_error (string * string) :=
  let! _ := validateBillingWrite p in
  let model := trim_space model in
  if empty model || (128 <? rune_count model) || bool_decide (model = InternalGovernanceModel) then Err (ErrInvalid "invalid editable pricing model") else
  let! multiplier := map_err (fun _ => ErrInvalid "invalid model multiplier") (ParseMultiplier multiplier) in
  Ok (model, multiplier).
Definition SetModelMultiplier (clock : Z) (p : BillingWriteParams) (model multiplier : string) (d : price_db) : result store_error ModelMultiplier * price_db :=
  match multiplier_arguments p model multiplier with
  | Err e => (Err e, d)
  | Ok (model, multiplier) => withTx (set_multiplier_body (normalized clock p) model multiplier) d
  end.
End writes.

(** ** Prices *)

(** What admission, list and write read of a row; zero values for none. *)
Record storedModelPrice := StoredPrice { st_price : option ModelPricing; st_structureID : string; st_version : Z; st_updatedAt : option Z }.
Definition stored_price (model : string) (d : price_db) : storedModelPrice :=
  match pd_prices d !! model with
  | Some r => StoredPrice (pr_price r) (pr_structure r) (pr_version r) (Some (pr_updated r))
  | None => StoredPrice None EmptyString 0 None
  end.
Definition readModelPriceTx (model : string) : tx price_db storedModelPrice := tgets (stored_price model).

Definition zero_context (price : TokenPricing) : TokenPricing :=
  {| tp_Input := "0"; tp_CachedInput := "0"; tp_CacheWrite := (fun _ => "0") <$> tp_CacheWrite price; tp_CacheWrite5m := (fun _ => "0") <$> tp_CacheWrite5m price;
     tp_CacheWrite1h := (fun _ => "0") <$> tp_CacheWrite1h price; tp_Output := "0" |}.
(** The internal model is free. *)
Definition zero_price (schema : Z) (price : ModelPricing) : ModelPricing :=
  if schema =? PricingSchemaV1 then with_v1_prices "0" "0" "0" price else with_tiers (map_contexts zero_context <$> ServiceTiers price) price.
Definition no_fallback : PricingFallbackPolicy := {| UnknownServiceTier := EmptyString; MissingPriceCombination := EmptyString; MissingCacheWriteTokens := EmptyString |}.
Definition v1_rule (input cached output : string) : ModelPricing :=
  {| mp_Input := input; mp_CachedInput := cached; mp_Output := output; CacheWriteMode := EmptyString; MaxInputTokens := 0; LongContextThresholdTokens := 0; ServiceTiers := ∅ |}.
Definition bare_pricing (schema : Z) (policy : PricingFallbackPolicy) (models : gmap string ModelPricing) : UsagePricing :=
  {| up_SchemaVersion := schema; CatalogAsOf := EmptyString; FXAsOf := EmptyString; USDCNYRate := EmptyString; up_FallbackPolicy := policy; Models := models |}.

Section prices.
Context (digest : Z -> PricingFallbackPolicy -> ModelPricing -> string).

Definition value_pricing (pricing : UsagePricing) (model : string) : UsagePricing :=
  if bool_decide (model = InternalGovernanceModel) && negb (bool_decide (is_Some (Models pricing !! model)))
  then bare_pricing PricingSchemaV1 no_fallback {[model := v1_rule "0" "0" "0"]} else pricing.
Definition modelPriceValue (pricing : UsagePricing) (model multiplier : string) (stored : storedModelPrice) : result store_error ModelPrice :=
  let pricing := value_pricing pricing model in
  let schema := known_schema (up_SchemaVersion pricing) in
  let! structureID := map_err ErrOther (ModelPriceStructureID digest pricing model) in
  let rule := default (v1_rule EmptyString EmptyString EmptyString) (Models pricing !! model) in
  let! configured := map_err (fun _ => ErrOther "validate configured model prices") (NormalizeModelPrice schema rule) in
  let value configured effective multiplier source conflict :=
    {| mo_Model := model; mo_SchemaVersion := schema; mo_ConfiguredPrice := configured; mo_EffectivePrice := effective; mo_Multiplier := multiplier;
       mo_Version := st_version stored; mo_StructureID := structureID; mo_Source := source; mo_Conflict := conflict;
       mo_Editable := negb (bool_decide (model = InternalGovernanceModel)); mo_UpdatedAt := st_updatedAt stored |} in
  if bool_decide (model = InternalGovernanceModel) then
    let effective := zero_price schema configured in
    Ok (value effective (Some effective) "1" "internal" false)
  else match st_price stored with
  | None => Ok (value configured (Some configured) multiplier "config" false)
  | Some override =>
      if negb (bool_decide (st_structureID stored = structureID)) then Ok (value configured None multiplier "conflict" true) else
      let! override := map_err (fun _ => ErrOther "validate stored model price") (ValidateModelPriceOverride digest pricing model override) in
      Ok (value configured (Some override) multiplier "override" false)
  end.

Definition priced_models (pricing : UsagePricing) : list string :=
  stable_sort str_ltb (elements (dom (Models pricing)) ++
    if bool_decide (is_Some (Models pricing !! InternalGovernanceModel)) then [] else [InternalGovernanceModel]).
(** The first error ends the loop over the rows. *)
Fixpoint price_rows (pricing : UsagePricing) (d : price_db) (models : list string) : result store_error (list ModelPrice) :=
  match models with
  | [] => Ok []
  | m :: rest => let! v := modelPriceValue pricing m (multiplier_text m d) (stored_price m d) in let! vs := price_rows pricing d rest in Ok (v :: vs)
  end.
Definition ListModelPrices (pricing : UsagePricing) (d : price_db) : result store_error (list ModelPrice) := price_rows pricing d (priced_models pricing).

(** ** Writes *)

(** The price of a save, and whether its map of service tiers is not nil. *)
Record SetModelPriceParams := {
  sp_Write : BillingWriteParams;
  sp_Pricing : UsagePricing;
  sp_Model : string;
  sp_Action : string;
  sp_Version : Z;
  sp_StructureID : string;
  sp_Price : option (ModelPricing * bool);
}.

Context (encode_price : ModelPricing -> string).
Context (fingerprint : list string -> string) (session_of : string -> string -> bool) (inet_ok : string -> bool).

Definition price_arguments (p : SetModelPriceParams) : result store_error (string * option ModelPricing) :=
  let! _ := validateBillingWrite (sp_Write p) in
  let model := trim_space (sp_Model p) in
  if negb (modelPriceNamePattern model) || bool_decide (model = InternalGovernanceModel) || (sp_Version p <? 0) || negb (modelPriceStructurePattern (sp_StructureID p))
  then Err (ErrInvalid "invalid editable model price") else
  if negb (bool_decide (sp_Action p = "save")) && negb (bool_decide (sp_Action p = "restore")) then Err (ErrInvalid "invalid model price action") else
  if negb (Bool.eqb (bool_decide (sp_Action p = "save")) (bool_decide (is_Some (sp_Price p)))) then Err (ErrInvalid "save requires a full matrix; restore must omit it") else
  match sp_Price p with
  | None => Ok (model, None)
  | Some (price, tiers) =>
      let! price := map_err (fun _ => ErrInvalid "invalid model price") (NormalizeModelPrice (if tiers then PricingSchemaV2 else PricingSchemaV1) price) in
      Ok (model, Some price)
  end.

(** [INSERT ... ON CONFLICT (model) DO UPDATE SET version = version + 1]. *)
Definition save_price (w : BillingWriteParams) (model : string) (price : option ModelPricing) (structureID : string) : tx price_db storedModelPrice :=
  let* rows := tgets pd_prices in
  let version := match rows !! model with Some r => pr_version r + 1 | None => 1 end in
  let row := PriceRow price structureID version (At w) (ActorUserID w) in
  tguard (price_check model row) (ErrInvalid "save model price") ;;
  tmod (fun d => set_prices (<[model := row]> (pd_prices d)) d) ;;
  tret (StoredPrice price structureID version (Some (At w))).

Definition set_price_body (w : BillingWriteParams) (p : SetModelPriceParams) (model : string) (price : option ModelPricing) : tx price_db ModelPrice :=
  let fp := fingerprint ["model_price"; ActorUserID w; Reason w; model; sp_Action p; int_text (sp_Version p); sp_StructureID p; match price with Some r => encode_price r | None => EmptyString end] in
  let* replay := in_books (claimBillingOperationTx w "model_price" EmptyString fp []) in
  match replay with
  | Some id =>
      let* _ := in_books (replayBillingLedgerTx id) in
      let* snapshots := tgets pd_snapshots in
      match snapshots !! id with
      | None => tfail (ErrOther "decode model price replay")
      | Some s => tguard (bool_decide (mo_Model (sn_ModelPrice s) = model)) (ErrConflict "missing model price replay") ;; tret (sn_ModelPrice s)
      end
  | None =>
      tguard (bool_decide (is_Some (Models (sp_Pricing p) !! model))) (ErrNotFound "model price is no longer configured") ;;
      let* structureID := tlift (map_err ErrInvalid (ModelPriceStructureID digest (sp_Pricing p) model)) in
      let* previous := readModelPriceTx model in
      tguard (bool_decide (st_version previous = sp_Version p) && bool_decide (structureID = sp_StructureID p)) (ErrConflict "model price changed; reload current configuration") ;;
      (match price with
       | Some r => let* _ := tlift (map_err ErrInvalid (ValidateModelPriceOverride digest (sp_Pricing p) model r)) in tret tt
       | None => tret tt
       end) ;;
      let* current := save_price w model price structureID in
      let* multiplier := snapshotModelMultiplierTx model in
      let* result := tlift (modelPriceValue (sp_Pricing p) model multiplier current) in
      let* (id, _) := in_books (let* n := numeric_arg "record model price ledger" multiplier in
        insert_operation_entry "record model price ledger" (model_entry w "model_price" model (numeric_text n))) in
      tmod (fun d => set_snapshots (<[id := PriceSnapshot result (sp_Action p) (st_price previous)]> (pd_snapshots d)) d) ;;
      in_books (finishBillingOperationTx (OperationID w) id) ;;
      in_books (appendBillingAuditTx session_of inet_ok w "billing.model_price_updated" "billing_model_price" model
        [("operation_id", OperationID w); ("model", model); ("action", sp_Action p); ("version", int_text (mo_Version result));
         ("structure_id", structureID); ("previous_version", int_text (st_version previous)); ("reason", Reason w)]) ;;
      tret result
  end.
Definition SetModelPrice (clock : Z) (p : SetModelPriceParams) (d : price_db) : result store_error ModelPrice * price_db :=
  match price_arguments p with
  | Err e => (Err e, d)
  | Ok (model, price) => withTx (set_price_body (normalized clock (sp_Write p)) p model price) d
  end.

(** ** The price of a request *)

Record BillingReservationParams := {
  rp_RequestID : string;
  rp_UserID : string;
  rp_APIKeyID : string;
  rp_Model : string;
  rp_InputUSDPerMillion : string;
  rp_CachedInputUSDPerMillion : string;
  rp_OutputUSDPerMillion : string;
  rp_PricingRuleVersion : Z;
  rp_BillingMode : string;
  rp_PricingCatalogAsOf : string;
  rp_PricingModel : string;
  rp_PricingSnapshot : string;
  rp_CacheWriteMode : string;
  rp_RequestedServiceTier : string;
  rp_UpstreamProvider : string;
  rp_Now : Z;
}.
Definition with_price_snapshot (snapshot : string) (p : BillingReservationParams) : BillingReservationParams :=
  {| rp_RequestID := rp_RequestID p; rp_UserID := rp_UserID p; rp_APIKeyID := rp_APIKeyID p; rp_Model := rp_Model p; rp_InputUSDPerMillion := rp_InputUSDPerMillion p;
     rp_CachedInputUSDPerMillion := rp_CachedInputUSDPerMillion p; rp_OutputUSDPerMillion := rp_OutputUSDPerMillion p; rp_PricingRuleVersion := rp_PricingRuleVersion p;
     rp_BillingMode := rp_BillingMode p; rp_PricingCatalogAsOf := rp_PricingCatalogAsOf p; rp_PricingModel := rp_PricingModel p; rp_PricingSnapshot := snapshot;
     rp_CacheWriteMode := rp_CacheWriteMode p; rp_RequestedServiceTier := rp_RequestedServiceTier p; rp_UpstreamProvider := rp_UpstreamProvider p; rp_Now := rp_Now p |}.
Definition with_prices (input cached output : string) (p : BillingReservationParams) : BillingReservationParams :=
  {| rp_RequestID := rp_RequestID p; rp_UserID := rp_UserID p; rp_APIKeyID := rp_APIKeyID p; rp_Model := rp_Model p; rp_InputUSDPerMillion := input;
     rp_CachedInputUSDPerMillion := cached; rp_OutputUSDPerMillion := output; rp_PricingRuleVersion := rp_PricingRuleVersion p;
     rp_BillingMode := rp_BillingMode p; rp_PricingCatalogAsOf := rp_PricingCatalogAsOf p; rp_PricingModel := rp_PricingModel p; rp_PricingSnapshot := rp_PricingSnapshot p;
     rp_CacheWriteMode := rp_CacheWriteMode p; rp_RequestedServiceTier := rp_RequestedServiceTier p; rp_UpstreamProvider := rp_UpstreamProvider p; rp_Now := rp_Now p |}.

Context (decode_snapshot : string -> option DecodedSnapshot) (encode_snapshot : PricingSnapshot -> string).

(** The catalog that the parameters came from, as far as it concerns the model. *)
Definition request_pricing (p : BillingReservationParams) : result store_error UsagePricing :=
  if rp_PricingRuleVersion p =? PricingSchemaV2 then
    let! s := map_err ErrOther (ParsePricingSnapshot decode_snapshot (rp_PricingSnapshot p)) in
    Ok (bare_pricing (rp_PricingRuleVersion p) (ps_FallbackPolicy s) {[rp_Model p := Rule s]})
  else Ok (bare_pricing (rp_PricingRuleVersion p) no_fallback
    {[rp_Model p := v1_rule (rp_InputUSDPerMillion p) (rp_CachedInputUSDPerMillion p) (rp_OutputUSDPerMillion p)]}).
(** An effective price is there unless the value is in conflict. *)
Definition apply_price (p : BillingReservationParams) (pricing : UsagePricing) (effective : ModelPricing) : BillingReservationParams :=
  if rp_PricingRuleVersion p =? PricingSchemaV2 then
    match ModelSnapshot (with_models (<[rp_Model p := effective]> (Models pricing)) pricing) (rp_Model p) with
    | Some (Some s, _) => with_price_snapshot (encode_snapshot s) p
    | _ => with_price_snapshot EmptyString p
    end
  else with_prices (mp_Input effective) (mp_CachedInput effective) (mp_Output effective) p.
Definition snapshotModelPriceTx (p : BillingReservationParams) : tx price_db BillingReservationParams :=
  let* stored := readModelPriceTx (rp_Model p) in
  match st_price stored with
  | None => tret p
  | Some _ =>
      let* pricing := tlift (request_pricing p) in
      let* value := tlift (modelPriceValue pricing (rp_Model p) "1" stored) in
      tguard (negb (mo_Conflict value)) (ErrConflict "configured model price structure conflicts with stored override") ;;
      match mo_EffectivePrice value with Some effective => tret (apply_price p pricing effective) | None => tfail (ErrOther "invalid memory address or nil pointer dereference") end
  end.
End prices.

(** ** Normal forms *)

Lemma canonical_valid v : valid_price v = Ok tt -> valid_price (canonical_price v) = Ok tt /\ canonical_price (canonical_price v) = canonical_price v /\
  price_units (canonical_price v) = price_units v.
Proof.
  unfold valid_price, canonical_price, parsed_or_empty. destruct (ParsePrice v) as [c|] eqn:E; [|done]. intros _. rewrite (parse_idem v c E).
  split_and!; [done|done|by apply price_units_parsed].
Qed.
Lemma canonical_optional (o : option string) : match o with Some v => valid_price v = Ok tt | None => True end ->
  match canonical_price <$> o with Some v => valid_price v = Ok tt | None => True end /\ (canonical_price <$> (canonical_price <$> o)) = canonical_price <$> o.
Proof. destruct o as [v|]; [|done]. intros H. cbn. destruct (canonical_valid v H) as (? & -> & _). done. Qed.

Lemma canonical_context_valid mode p : validateTokenPricing mode p = Ok tt ->
  validateTokenPricing mode (canonical_context p) = Ok tt /\ canonical_context (canonical_context p) = canonical_context p.
Proof.
  unfold validateTokenPricing. intros H. apply rbind_Ok in H as ([] & H1 & H). apply rbind_Ok in H as ([] & H2 & H3).
  rewrite all_ok_Forall in H1. apply Forall_cons in H1 as [Hi H1]. apply Forall_cons in H1 as [Hc H1]. apply Forall_cons in H1 as [Ho _].
  destruct (canonical_valid _ Hi) as (Vi & Ci & _), (canonical_valid _ Hc) as (Vc & Cc & _), (canonical_valid _ Ho) as (Vo & Co & _).
  destruct p as [i c w w5 w1 o]. cbn in *. rewrite Vi, Vc, Vo. cbn.
  assert (W : match w with Some v => valid_price v = Ok tt | None => True end) by (destruct (bool_decide (mode = CacheWriteSeparate)), w; done).
  assert (W5 : match w5 with Some v => valid_price v = Ok tt | None => True end /\ match w1 with Some v => valid_price v = Ok tt | None => True end).
  { destruct (bool_decide (mode = CacheWriteSeparateByTTL)); [|by destruct w5, w1]. cbn in H3. destruct w5 as [v|]; [|done]. destruct (valid_price v) as [[]|] eqn:E; [|done]. split; [done|].
    destruct w1 as [v'|]; [|done]. cbn in H3. by destruct (valid_price v') as [[]|]. }
  destruct W5 as [W5 W1]. destruct (canonical_optional w W) as [X X'], (canonical_optional w5 W5) as [X5 X5'], (canonical_optional w1 W1) as [X1 X1'].
  split.
  - destruct (bool_decide (mode = CacheWriteSeparate)), w as [v|]; cbn in *; try done; rewrite ?X; cbn; destruct (bool_decide (mode = CacheWriteSeparateByTTL)), w5 as [v5|], w1 as [v1|];
      cbn in *; rewrite ?W5, ?W1 in H3; cbn in H3; rewrite ?X5; cbn; rewrite ?X1; done.
  - unfold canonical_context. cbn. by rewrite Ci, Cc, Co, X', X5', X1'.
Qed.
Lemma structure_canonical p : structure_context (canonical_context p) = structure_context p.
Proof. unfold structure_context, canonical_context. cbn. by destruct (tp_CacheWrite p), (tp_CacheWrite5m p), (tp_CacheWrite1h p). Qed.

Lemma all_ok_map {A} (f : string * A -> result string unit) (m : gmap string A) : all_ok f (map_to_list m) = Ok tt <-> map_Forall (fun k v => f (k, v) = Ok tt) m.
Proof. rewrite all_ok_Forall. rewrite map_Forall_to_list. apply Forall_iff. by intros [k v]. Qed.

Lemma canonical_tier_valid mode t c : validate_tier mode (t, c) = Ok tt -> validate_tier mode (t, map_contexts canonical_context c) = Ok tt /\
  map_contexts canonical_context (map_contexts canonical_context c) = map_contexts canonical_context c.
Proof.
  unfold validate_tier. destruct (_ && _); [done|]. destruct c as [[s|] [l|]]; cbn; intros H; try done.
  - destruct (validateTokenPricing mode s) as [[]|] eqn:Es; [|done]. cbn in H. destruct (canonical_context_valid _ _ Es) as [-> Cs], (canonical_context_valid _ _ H) as [-> Cl].
    cbn. unfold map_contexts. cbn. by rewrite Cs, Cl.
  - destruct (validateTokenPricing mode s) as [[]|] eqn:Es; [|done]. destruct (canonical_context_valid _ _ Es) as [-> Cs]. cbn. unfold map_contexts. cbn. by rewrite Cs.
  - destruct (canonical_context_valid _ _ H) as [-> Cl]. unfold map_contexts. cbn. by rewrite Cl.
Qed.
Lemma structure_tier c : map_contexts structure_context (map_contexts canonical_context c) = map_contexts structure_context c.
Proof. destruct c as [[s|] [l|]]; unfold map_contexts; cbn; by rewrite ?structure_canonical. Qed.

Lemma v1_normal rule : validateV1ModelPricing rule = Ok tt ->
  let r := with_v1_prices (canonical_price (mp_Input rule)) (canonical_price (mp_CachedInput rule)) (canonical_price (mp_Output rule)) rule in
  validateV1ModelPricing r = Ok tt /\ with_v1_prices (canonical_price (mp_Input r)) (canonical_price (mp_CachedInput r)) (canonical_price (mp_Output r)) r = r.
Proof.
  unfold validateV1ModelPricing. cbv zeta. cbn [with_v1_prices CacheWriteMode MaxInputTokens LongContextThresholdTokens ServiceTiers mp_Input mp_CachedInput mp_Output].
  destruct (_ || _); [done|]. rewrite !all_ok_Forall. intros H. apply Forall_cons in H as [Hi H]. apply Forall_cons in H as [Hc H]. apply Forall_cons in H as [Ho _].
  destruct (canonical_valid _ Hi) as (Vi & -> & _), (canonical_valid _ Hc) as (Vc & -> & _), (canonical_valid _ Ho) as (Vo & -> & _). split; [by repeat constructor|done].
Qed.
Lemma v2_normal rule : validateV2ModelPricing rule = Ok tt ->
  let r := with_tiers (map_contexts canonical_context <$> ServiceTiers rule) rule in
  validateV2ModelPricing r = Ok tt /\ with_tiers (map_contexts canonical_context <$> ServiceTiers r) r = r.
Proof.
  unfold validateV2ModelPricing. cbv zeta. cbn [with_tiers CacheWriteMode MaxInputTokens LongContextThresholdTokens ServiceTiers mp_Input mp_CachedInput mp_Output].
  destruct (_ || _); [done|]. destruct (_ && _); [done|]. destruct (_ || _); [done|]. rewrite map_size_fmap. destruct (bool_decide _); [done|]. rewrite !all_ok_map. intros H. split.
  - intros t c Hc. apply lookup_fmap_Some in Hc as (x & <- & Hx). by apply canonical_tier_valid, H.
  - unfold with_tiers. cbn. f_equal. apply map_eq. intros t. rewrite !lookup_fmap. destruct (ServiceTiers rule !! t) as [c|] eqn:E; [|done]. cbn. f_equal.
    destruct (canonical_tier_valid (CacheWriteMode rule) t c); [by apply H|done].
Qed.

(** A rule and its normal form: the same rule with the same amounts. *)
Definition same_price (p q : string) : Prop := price_units p = price_units q.
Definition same_context (p q : TokenPricing) : Prop :=
  same_price (tp_Input p) (tp_Input q) /\ same_price (tp_CachedInput p) (tp_CachedInput q) /\ same_price (tp_Output p) (tp_Output q) /\
  option_Forall2 same_price (tp_CacheWrite p) (tp_CacheWrite q) /\ option_Forall2 same_price (tp_CacheWrite5m p) (tp_CacheWrite5m q) /\
  option_Forall2 same_price (tp_CacheWrite1h p) (tp_CacheWrite1h q).

Lemma normalize_cases schema rule r : NormalizeModelPrice schema rule = Ok r ->
  (schema <> PricingSchemaV2 /\ (schema = 0 \/ schema = PricingSchemaV1) /\ validateV1ModelPricing rule = Ok tt /\
     r = with_v1_prices (canonical_price (mp_Input rule)) (canonical_price (mp_CachedInput rule)) (canonical_price (mp_Output rule)) rule) \/
  (schema = PricingSchemaV2 /\ validateV2ModelPricing rule = Ok tt /\ r = with_tiers (map_contexts canonical_context <$> ServiceTiers rule) rule).
Proof.
  unfold NormalizeModelPrice. intros H. apply rbind_Ok in H as ([] & Hv & H). destruct ((schema =? 0) || (schema =? PricingSchemaV1)) eqn:E1.
  - assert (schema <> PricingSchemaV2 /\ (schema = 0 \/ schema = PricingSchemaV1)) as [Hn Hs] by (unfold PricingSchemaV1, PricingSchemaV2 in *; lia).
    left. destruct (schema =? PricingSchemaV2) eqn:E2; [apply Z.eqb_eq in E2; done|]. cbn in H. by injection H as <-.
  - right. destruct (schema =? PricingSchemaV2) eqn:E2; [|done]. cbn in H. injection H as <-. apply Z.eqb_eq in E2. done.
Qed.
Lemma normalize_fixed schema rule r : NormalizeModelPrice schema rule = Ok r -> NormalizeModelPrice schema r = Ok r /\ modelPriceStructure r = modelPriceStructure rule.
Proof.
  intros H. apply normalize_cases in H as [(Hn & Hs & Hv & ->)|(-> & Hv & ->)].
  - destruct (v1_normal rule Hv) as [V F]. split; [|done]. unfold NormalizeModelPrice. replace ((schema =? 0) || (schema =? PricingSchemaV1)) with true by (symmetry; lia).
    rewrite V. cbn [rbind]. replace (schema =? PricingSchemaV2) with false by (symmetry; lia). cbn [negb]. by rewrite F.
  - destruct (v2_normal rule Hv) as [V F]. split.
    + unfold NormalizeModelPrice. change ((PricingSchemaV2 =? 0) || (PricingSchemaV2 =? PricingSchemaV1)) with false. rewrite Z.eqb_refl, V. cbn [rbind negb]. by rewrite F.
    + unfold modelPriceStructure. cbn. f_equal. apply map_eq. intros t. rewrite !lookup_fmap. destruct (ServiceTiers rule !! t) as [c|]; [|done]. cbn. by rewrite structure_tier.
Qed.
Lemma canonical_same v : valid_price v = Ok tt -> same_price (canonical_price v) v.
Proof. intros H. by destruct (canonical_valid v H) as (_ & _ & ?). Qed.
Lemma optional_same b o : opt_valid b o -> option_Forall2 same_price (canonical_price <$> o) o.
Proof. intros H. destruct o as [v|]; cbn; constructor. apply canonical_same. by apply opt_valid_elim in H. Qed.
Lemma context_same mode p : validateTokenPricing mode p = Ok tt -> same_context (canonical_context p) p.
Proof.
  intros H. assert (HV := validateTokenPricing_valid mode p H). unfold token_valid in HV. unfold same_context, canonical_context. cbn.
  unfold validateTokenPricing in H. apply rbind_Ok in H as ([] & H1 & _). rewrite all_ok_Forall in H1. apply Forall_cons in H1 as [Hi H1]. apply Forall_cons in H1 as [Hc H1].
  apply Forall_cons in H1 as [Ho _]. destruct_and! HV. split_and!; [by apply canonical_same..| | |]; by eapply optional_same.
Qed.

(** [NormalizeModelPrice] gives the normal form of a valid rule: a fixed point
    with the same structure and the same amounts. *)
Theorem normalized_price schema rule r : NormalizeModelPrice schema rule = Ok r ->
  NormalizeModelPrice schema r = Ok r /\ modelPriceStructure r = modelPriceStructure rule /\
  if schema =? PricingSchemaV2
  then map_relation (fun _ a b => option_Forall2 same_context (Short a) (Short b) /\ option_Forall2 same_context (Long a) (Long b)) (fun _ _ => False) (fun _ _ => False)
         (ServiceTiers r) (ServiceTiers rule)
  else same_price (mp_Input r) (mp_Input rule) /\ same_price (mp_CachedInput r) (mp_CachedInput rule) /\ same_price (mp_Output r) (mp_Output rule).
Proof.
  intros H. destruct (normalize_fixed _ _ _ H) as [HF HS]. split_and!; [done|done|]. apply normalize_cases in H as [(Hn & _ & Hv & ->)|(-> & Hv & ->)].
  - replace (schema =? PricingSchemaV2) with false by (symmetry; lia). unfold validateV1ModelPricing in Hv. destruct (_ || _); [done|]. rewrite all_ok_Forall in Hv.
    apply Forall_cons in Hv as [Hi Hv]. apply Forall_cons in Hv as [Hc Hv]. apply Forall_cons in Hv as [Ho _]. cbn. split_and!; by apply canonical_same.
  - rewrite Z.eqb_refl. intros t. cbn. rewrite lookup_fmap. destruct (ServiceTiers rule !! t) as [c|] eqn:E; [|done]. cbn.
    assert (HT : validate_tier (CacheWriteMode rule) (t, c) = Ok tt).
    { unfold validateV2ModelPricing in Hv. destruct (_ || _); [done|]. destruct (_ && _); [done|]. destruct (_ || _); [done|]. destruct (bool_decide _); [done|]. rewrite all_ok_map in Hv. by apply Hv. }
    unfold validate_tier in HT. destruct (_ && _); [done|]. destruct c as [[s|] [l|]]; cbn in *; try done.
    + destruct (validateTokenPricing _ s) as [[]|] eqn:Es; [|done]. split; constructor; by eapply context_same.
    + destruct (validateTokenPricing _ s) as [[]|] eqn:Es; [|done]. split; constructor; by eapply context_same.
    + split; constructor. by eapply context_same.
Qed.

#[export] Instance TokenPricing_eq_dec : EqDecision TokenPricing.
Proof. solve_decision. Defined.
#[export] Instance ServiceTierPricing_eq_dec : EqDecision ServiceTierPricing.
Proof. solve_decision. Defined.
#[export] Instance ModelPricing_eq_dec : EqDecision ModelPricing.
Proof. solve_decision. Defined.
#[export] Instance PricingFallbackPolicy_eq_dec : EqDecision PricingFallbackPolicy.
Proof. solve_decision. Defined.

Section overrides.
Context (digest : Z -> PricingFallbackPolicy -> ModelPricing -> string).

(** Two different structures with the same digest. *)
Definition digest_collision : Prop := exists s f r s' f' r', (s, f, r) <> (s', f', r') /\ digest s f r = digest s' f' r'.

Lemma digest_eq s f r s' f' r' : digest s f r = digest s' f' r' -> (s = s' /\ f = f' /\ r = r') \/ digest_collision.
Proof.
  intros E. destruct (decide ((s, f, r) = (s', f', r'))) as [H|H]; [injection H as -> -> ->; by left|]. right. by exists s, f, r, s', f', r'.
Qed.

Lemma override_inv p model rule e : ValidateModelPriceOverride digest p model rule = Ok e ->
  model <> InternalGovernanceModel /\ NormalizeModelPrice (up_SchemaVersion p) rule = Ok e /\
  ModelPriceStructureID digest p model = Ok (digest (known_schema (up_SchemaVersion p)) (up_FallbackPolicy p) (modelPriceStructure e)).
Proof.
  unfold ValidateModelPriceOverride. case_bool_decide as Hm; [done|]. intros H. apply rbind_Ok in H as (sid & Hs & H). apply rbind_Ok in H as (n & Hn & H).
  unfold ModelPriceStructureID in H at 1. cbn in H. rewrite lookup_singleton_eq in H. cbn in H. case_bool_decide as E; [|done]. injection H as ->. by rewrite Hs, E.
Qed.

Lemma override_run p model conf rule r : model <> InternalGovernanceModel -> Models p !! model = Some conf ->
  NormalizeModelPrice (up_SchemaVersion p) rule = Ok r -> modelPriceStructure rule = modelPriceStructure conf -> ValidateModelPriceOverride digest p model rule = Ok r.
Proof.
  intros Hm Hc En Hs. unfold ValidateModelPriceOverride, ModelPriceStructureID. rewrite bool_decide_false, Hc, En by done. cbn. rewrite lookup_singleton_eq. cbn.
  destruct (normalize_fixed _ _ _ En) as [_ HS]. by rewrite bool_decide_true by by rewrite HS, Hs.
Qed.

(** An override is accepted exactly when it is a valid rule of the catalog's
    schema with the structure of the configured one, and what is accepted is its
    normal form; a different structure passes only through a SHA-256 collision. *)
Theorem override_exact p model conf rule : model <> InternalGovernanceModel -> Models p !! model = Some conf ->
  (forall r, ValidateModelPriceOverride digest p model rule = Ok r ->
     NormalizeModelPrice (up_SchemaVersion p) rule = Ok r /\ (modelPriceStructure rule = modelPriceStructure conf \/ digest_collision)) /\
  (forall r, NormalizeModelPrice (up_SchemaVersion p) rule = Ok r -> modelPriceStructure rule = modelPriceStructure conf ->
     ValidateModelPriceOverride digest p model rule = Ok r).
Proof.
  intros Hm Hc. split.
  - intros r (_ & Hn & Hs)%override_inv. split; [done|]. unfold ModelPriceStructureID in Hs. rewrite Hc in Hs. injection Hs as Hs.
    destruct (normalize_fixed _ _ _ Hn) as [_ HS]. apply digest_eq in Hs as [(_ & _ & E)|E]; [left; congruence|by right].
  - intros r. by apply override_run.
Qed.

(** ** What the catalog contributes to a price *)

Definition agree (model : string) (p q : UsagePricing) : Prop :=
  known_schema (up_SchemaVersion p) = known_schema (up_SchemaVersion q) /\ up_FallbackPolicy p = up_FallbackPolicy q /\ Models p !! model = Models q !! model.

Lemma normalize_known schema rule : NormalizeModelPrice (known_schema schema) rule = NormalizeModelPrice schema rule.
Proof. unfold known_schema. destruct (schema =? 0) eqn:E; [|done]. apply Z.eqb_eq in E. by subst. Qed.
Lemma structure_agree model p q : agree model p q -> ModelPriceStructureID digest p model = ModelPriceStructureID digest q model.
Proof. intros (Hs & Hf & Hm). unfold ModelPriceStructureID. by rewrite Hs, Hf, Hm. Qed.
Lemma override_agree model p q rule : agree model p q -> ValidateModelPriceOverride digest p model rule = ValidateModelPriceOverride digest q model rule.
Proof.
  intros H. unfold ValidateModelPriceOverride. rewrite (structure_agree model p q H). destruct H as (Hs & Hf & Hm).
  rewrite <- (normalize_known (up_SchemaVersion p)), <- (normalize_known (up_SchemaVersion q)), Hs. destruct (bool_decide (model = InternalGovernanceModel)); [done|].
  destruct (ModelPriceStructureID digest q model); cbn; [|done]. destruct (NormalizeModelPrice _ rule) as [n|]; cbn; [|done]. rewrite (structure_agree model (with_models {[model := n]} p) (with_models {[model := n]} q)); [done|].
  by split_and!.
Qed.
Lemma value_agree model p q multiplier stored : model <> InternalGovernanceModel -> agree model p q ->
  modelPriceValue digest p model multiplier stored = modelPriceValue digest q model multiplier stored.
Proof.
  intros Hm H. unfold modelPriceValue, value_pricing. rewrite (bool_decide_false (model = _)) by done. cbn [andb]. rewrite (structure_agree model p q H).
  destruct (st_price stored) as [r|]; [rewrite (override_agree model p q r H)|]; destruct H as (-> & _ & ->); done.
Qed.
(** The multiplier is only passed on. *)
Definition with_multiplier (multiplier : string) (v : ModelPrice) : ModelPrice :=
  {| mo_Model := mo_Model v; mo_SchemaVersion := mo_SchemaVersion v; mo_ConfiguredPrice := mo_ConfiguredPrice v; mo_EffectivePrice := mo_EffectivePrice v; mo_Multiplier := multiplier;
     mo_Version := mo_Version v; mo_StructureID := mo_StructureID v; mo_Source := mo_Source v; mo_Conflict := mo_Conflict v; mo_Editable := mo_Editable v; mo_UpdatedAt := mo_UpdatedAt v |}.
Lemma value_cases p model conf multiplier stored v : model <> InternalGovernanceModel -> Models p !! model = Some conf -> modelPriceValue digest p model multiplier stored = Ok v ->
  mo_Model v = model /\ mo_Version v = st_version stored /\ mo_Multiplier v = multiplier /\ NormalizeModelPrice (up_SchemaVersion p) conf = Ok (mo_ConfiguredPrice v) /\
  match st_price stored with
  | None => mo_Source v = "config" /\ mo_Conflict v = false /\ mo_EffectivePrice v = Some (mo_ConfiguredPrice v)
  | Some r =>
      if bool_decide (Ok (st_structureID stored) = ModelPriceStructureID digest p model)
      then mo_Source v = "override" /\ mo_Conflict v = false /\ exists e, ValidateModelPriceOverride digest p model r = Ok e /\ mo_EffectivePrice v = Some e
      else mo_Source v = "conflict" /\ mo_Conflict v = true /\ mo_EffectivePrice v = None
  end.
Proof.
  intros Hm Hc. destruct (ModelPriceStructureID digest p model) as [sid|e] eqn:Hid; [|unfold ModelPriceStructureID in Hid; by rewrite Hc in Hid].
  unfold modelPriceValue, value_pricing. rewrite !(bool_decide_false (model = _)) by done. cbn [andb negb]. rewrite Hid, Hc, normalize_known. cbn.
  destruct (NormalizeModelPrice (up_SchemaVersion p) conf) as [c|]; cbn; [|done]. destruct (st_price stored) as [r|]; [|intros [= <-]; by split_and!].
  case_bool_decide as E; cbn [negb].
  - rewrite bool_decide_true by by rewrite E. destruct (ValidateModelPriceOverride digest p model r) as [e|] eqn:Ev; cbn; [|done]. intros [= <-]. split_and!; try done. by exists e.
  - rewrite bool_decide_false by by intros [= ?]. by intros [= <-].
Qed.
End overrides.

(** ** The books of one operation *)

Definition booked (b : billing_db) (p : BillingWriteParams) (kind fp : string) (e : ledger_row) (ev : audit_row) : billing_db :=
  set_audit (audit b ++ [ev]) (set_operations (<[OperationID p := Operation kind (ActorUserID p) EmptyString (trim_space (Reason p)) fp (Some (entry_id b)) (At p)]> (operations b))
    (set_ledger (ledger b ++ [e]) b)).

Lemma in_books_Ok {A} (m : tx billing_db A) d a d' : in_books m d = Ok (a, d') -> exists b, m (pd_billing d) = Ok (a, b) /\ d' = set_price_billing b d.
Proof. unfold in_books, tzoom. destruct (m (pd_billing d)) as [[x b]|]; [|done]. intros [= <- <-]. by exists b. Qed.
Lemma in_books_run {A B} (m : tx billing_db A) (k : A -> tx price_db B) d a b : m (pd_billing d) = Ok (a, b) -> tbind (in_books m) k d = k a (set_price_billing b d).
Proof. intros H. unfold tbind, in_books, tzoom. by rewrite H. Qed.

Lemma finish_claimed p kind fp id b row u b' : operations b !! OperationID p = Some row -> op_result row = None ->
  finishBillingOperationTx (OperationID p) id b = Ok (u, b') -> row = Operation kind (ActorUserID p) EmptyString (trim_space (Reason p)) fp None (At p) ->
  b' = set_operations (<[OperationID p := Operation kind (ActorUserID p) EmptyString (trim_space (Reason p)) fp (Some id) (At p)]> (operations b)) b.
Proof.
  intros Hr Hn H ->. pose proof (finish_eq (OperationID p) id _ b (fun _ => tret tt) Hr Hn) as E. unfold tbind in E. rewrite H in E. unfold tret in E. by injection E.
Qed.

Section books.
Context (session_of : string -> string -> bool) (inet_ok : string -> bool).

(** Entry, result and event of a claimed operation. *)
Lemma booked_Ok p kind fp e event st sid op meta b b1 b2 b3 b4 x u u' :
  claimBillingOperationTx p kind EmptyString fp [] b = Ok (None, b1) -> insert_operation_entry op e b1 = Ok (x, b2) ->
  finishBillingOperationTx (OperationID p) x.1 b2 = Ok (u, b3) -> appendBillingAuditTx session_of inet_ok p event st sid meta b3 = Ok (u', b4) ->
  (OperationID p ∉ tombstones b) /\ x = (entry_id b, e) /\ exists ev, b4 = booked b p kind fp e ev /\ ev_type ev = event /\ ev_subject ev = sid.
Proof.
  intros H1 H2 H3 H4. apply claim_Ok in H1 as [Htomb [(_ & Hop & Hact & _ & ->)|(? & ? & [=] & _)]]. split; [done|].
  apply insert_entry_Ok in H2 as (_ & -> & ->). btables. split; [done|]. cbn [fst] in H3.
  apply (finish_claimed p kind fp) with (row := Operation kind (ActorUserID p) EmptyString (trim_space (Reason p)) fp None (At p)) in H3; [|btables; apply lookup_insert_eq|done|done].
  subst b3. btables. unfold appendBillingAuditTx in H4. rewrite tgets_bind, tguard_bind in H4. destruct (_ && _); [|done]. injection H4 as _ <-.
  exists (Audit (At p) (ActorUserID p) (value_or_nil (ActorSessionID p)) event (value_or_nil (SourceIP p)) st sid (value_or_nil (RequestID p)) meta).
  split_and!; [|done|done]. unfold booked. destruct b. unfold set_audit, set_operations, set_ledger, entry_id. cbn. by rewrite insert_insert_eq.
Qed.
Lemma booked_replays b p q kind fp e ev : OperationID p ∉ tombstones b -> OperationID q = OperationID p -> ActorUserID q = ActorUserID p ->
  replays (booked b p kind fp e ev) q kind EmptyString fp (entry_id b, e).
Proof.
  intros Ht E1 E2. unfold replays, booked. btables. rewrite E1, E2. split; [done|]. split.
  - cbn. unfold entry_id. replace (Z.to_nat (Z.of_nat (length (ledger b)) + 1 - 1)) with (length (ledger b)) by lia. by rewrite list_lookup_middle.
  - rewrite lookup_insert_eq. eexists. split; [done|]. auto.
Qed.
End books.

(** Nothing of value moves. *)
Definition same_money (b b' : billing_db) : Prop :=
  users b' = users b /\ billing_accounts b' = billing_accounts b /\ cash_lots b' = cash_lots b /\ periods b' = periods b /\ group_periods b' = group_periods b /\
  member_usage b' = member_usage b /\ billing_reservations b' = billing_reservations b /\ allocations b' = allocations b.
Lemma booked_money b p kind fp e ev : same_money b (booked b p kind fp e ev).
Proof. by repeat split. Qed.

Section committed.
Context (digest : Z -> PricingFallbackPolicy -> ModelPricing -> string) (encode_price : ModelPricing -> string).
Context (fingerprint : list string -> string) (session_of : string -> string -> bool) (inet_ok : string -> bool).
Abbreviation SetMultiplier := (SetModelMultiplier fingerprint session_of inet_ok).
Abbreviation SetPrice := (SetModelPrice digest encode_price fingerprint session_of inet_ok).
Abbreviation price_body := (set_price_body digest encode_price fingerprint session_of inet_ok).

(** ** Multipliers *)

Definition multiplier_fp (p : BillingWriteParams) (model multiplier : string) : string := fingerprint ["model_multiplier"; ActorUserID p; Reason p; model; multiplier].

Lemma multiplier_body_Ok p model multiplier d v d' : set_multiplier_body fingerprint session_of inet_ok p model multiplier d = Ok (v, d') ->
  (exists x, replays (pd_billing d) p "model_multiplier" EmptyString (multiplier_fp p model multiplier) x /\ le_model x.2 = Some model /\ d' = d /\
     v = {| mx_Model := model; mx_Multiplier := default "1" (le_multiplier x.2); mx_UpdatedAt := Some (le_created_at x.2) |}) \/
  (operations (pd_billing d) !! OperationID p = None /\ exists n ev, (OperationID p ∉ tombstones (pd_billing d)) /\ numeric_of multiplier = Some n /\
     multiplier_check model (MultiplierRow n (At p) (ActorUserID p)) = true /\
     v = {| mx_Model := model; mx_Multiplier := numeric_text n; mx_UpdatedAt := Some (At p) |} /\
     d' = PriceDB (booked (pd_billing d) p "model_multiplier" (multiplier_fp p model multiplier) (model_entry p "model_multiplier" model (numeric_text n)) ev)
            (<[model := MultiplierRow n (At p) (ActorUserID p)]> (pd_multipliers d)) (pd_prices d) (pd_snapshots d)).
Proof.
  unfold set_multiplier_body. fold (multiplier_fp p model multiplier). intros H. inv_tx H. apply in_books_Ok in Ht as (b1 & Hc & ->).
  pose proof (claim_Ok _ _ _ _ _ _ _ Hc) as [Htomb [(-> & Hop & _)|(id & row & -> & -> & Hrow & Hres & Hk & Ha & Hta & Hf)]].
  - right. split; [done|]. unfold readModelMultiplierTx in H. rewrite tgets_bind in H. inv_tx H. apply in_books_Ok in Ht as (b2 & Hn & ->). unfold numeric_arg in Hn.
    destruct (numeric_of multiplier) as [n|]; [|done]. injection Hn as <- <-. rewrite tguard_bind in H. destruct (multiplier_check _ _) eqn:Hg; [|done]. rewrite tmod_bind in H.
    inv_tx H. apply in_books_Ok in Ht as (b3 & Hi & ->). destruct a as [id e]. inv_tx H. apply in_books_Ok in Ht as (b4 & Hfin & ->). inv_tx H. apply in_books_Ok in Ht as (b5 & Hau & ->).
    ptables. injection H as <- <-. pose proof (insert_entry_Ok _ _ _ _ _ Hi) as (_ & [= -> ->] & _).
    destruct (booked_Ok _ _ _ _ _ _ _ _ _ _ _ _ _ _ _ _ (entry_id b1, _) _ _ Hc Hi Hfin Hau) as (_ & _ & ev & -> & _). exists n, ev. split_and!; done.
  - left. inv_tx H. apply in_books_Ok in Ht as (b2 & Hr & ->). destruct a as [id' e]. apply replay_Ok in Hr as (-> & Hid & Hl). cbn in Hid, Hl. subst id'.
    case_bool_decide as Em; [|done]. injection H as <- <-. exists (id, e). split_and!; [split_and!; [done|done|by exists row]|done|by destruct d|done].
Qed.

(** ** Prices *)

Definition price_fp (w : BillingWriteParams) (p : SetModelPriceParams) (model : string) (price : option ModelPricing) : string :=
  fingerprint ["model_price"; ActorUserID w; Reason w; model; sp_Action p; int_text (sp_Version p); sp_StructureID p; match price with Some r => encode_price r | None => EmptyString end].

(** The row that a save leaves. *)
Definition saved_row (w : BillingWriteParams) (price : option ModelPricing) (structureID : string) (version : Z) : price_row :=
  PriceRow price structureID (version + 1) (At w) (ActorUserID w).

Lemma price_body_Ok w p model price d v d' : price_body w p model price d = Ok (v, d') ->
  (exists x s, replays (pd_billing d) w "model_price" EmptyString (price_fp w p model price) x /\ pd_snapshots d !! x.1 = Some s /\ sn_ModelPrice s = v /\ mo_Model v = model /\ d' = d) \/
  (operations (pd_billing d) !! OperationID w = None /\ exists conf n ev, (OperationID w ∉ tombstones (pd_billing d)) /\ Models (sp_Pricing p) !! model = Some conf /\
     ModelPriceStructureID digest (sp_Pricing p) model = Ok (sp_StructureID p) /\ st_version (stored_price model d) = sp_Version p /\
     (forall r, price = Some r -> exists r', ValidateModelPriceOverride digest (sp_Pricing p) model r = Ok r') /\
     let row := saved_row w price (sp_StructureID p) (sp_Version p) in
     price_check model row = true /\
     modelPriceValue digest (sp_Pricing p) model (multiplier_text model d) (StoredPrice price (sp_StructureID p) (sp_Version p + 1) (Some (At w))) = Ok v /\
     d' = PriceDB (booked (pd_billing d) w "model_price" (price_fp w p model price) (model_entry w "model_price" model (numeric_text n)) ev)
            (pd_multipliers d) (<[model := row]> (pd_prices d))
            (<[entry_id (pd_billing d) := PriceSnapshot v (sp_Action p) (st_price (stored_price model d))]> (pd_snapshots d))).
Proof.
  unfold set_price_body. fold (price_fp w p model price). intros H. inv_tx H. apply in_books_Ok in Ht as (b1 & Hc & ->).
  pose proof (claim_Ok _ _ _ _ _ _ _ Hc) as [Htomb [(-> & Hop & _)|(id & row & -> & -> & Hrow & Hres & Hk & Ha & Hta & Hf)]].
  - right. split; [done|]. rewrite tguard_bind in H. case_bool_decide as Hconf; [|done]. destruct Hconf as [conf Hconf]. inv_tx H. apply tlift_Ok in Ht as [Hid ->].
    unfold readModelPriceTx in H. rewrite tgets_bind, tguard_bind in H. change (stored_price model (set_price_billing b1 d)) with (stored_price model d) in H.
    destruct (_ && _) eqn:Hg; [|done]. apply andb_true_iff in Hg as [Hver%bool_decide_eq_true Hs%bool_decide_eq_true]. subst a.
    inv_tx H. assert (Hval : (forall r, price = Some r -> exists r', ValidateModelPriceOverride digest (sp_Pricing p) model r = Ok r') /\ s = set_price_billing b1 d).
    { destruct price as [r|]; [|by injection Ht as _ <-]. inv_tx Ht. apply tlift_Ok in Ht0 as [Hv ->]. injection Ht as _ <-. split; [|done].
      destruct (ValidateModelPriceOverride digest (sp_Pricing p) model r) as [r'|] eqn:E; [|done]. intros ? [= <-]. by exists r'. }
    destruct Hval as [Hval ->]. clear Ht. inv_tx H. unfold save_price in Ht. rewrite tgets_bind, tguard_bind in Ht. ptables.
    assert (Hnext : match pd_prices d !! model with Some r => pr_version r + 1 | None => 1 end = sp_Version p + 1).
    { rewrite <- Hver. unfold stored_price. by destruct (pd_prices d !! model). }
    rewrite Hnext in Ht. fold (saved_row w price (sp_StructureID p) (sp_Version p)) in Ht. destruct (price_check _ _) eqn:Hpc; [|done]. rewrite tmod_bind in Ht. injection Ht as <- <-. ptables.
    unfold snapshotModelMultiplierTx, readModelMultiplierTx in H. rewrite tgets_bind in H. inv_tx H. apply tlift_Ok in Ht as [Hv ->]. inv_tx H. destruct a1 as [id e].
    apply in_books_Ok in Ht as (b2 & Hi & ->). ptables. inv_tx Hi. pose proof (numeric_arg_frame _ _ _ _ _ Ht) as ->. cbv beta iota in H. rewrite tmod_bind in H. ptables.
    inv_tx H. apply in_books_Ok in Ht0 as (b4 & Hfin & ->). inv_tx H. apply in_books_Ok in Ht0 as (b5 & Hau & ->). ptables. injection H as <- <-.
    pose proof (insert_entry_Ok _ _ _ _ _ Hi) as (_ & [= -> ->] & _).
    destruct (booked_Ok _ _ _ _ _ _ _ _ _ _ _ _ _ _ _ _ (entry_id b1, _) _ _ Hc Hi Hfin Hau) as (_ & [= Hent] & ev & -> & _). rewrite Hent.
    exists conf, a1, ev. split_and!; try done. destruct (ModelPriceStructureID digest (sp_Pricing p) model); [|done]. cbn in Hid. by injection Hid as ->.
  - left. inv_tx H. apply in_books_Ok in Ht as (b2 & Hr & ->). destruct a as [id' e]. apply replay_Ok in Hr as (-> & Hid & Hl). cbn in Hid, Hl. subst id'.
    rewrite tgets_bind in H. ptables. destruct (pd_snapshots d !! id) as [s|] eqn:Es; [|done]. rewrite tguard_bind in H. case_bool_decide as Em; [|done]. injection H as <- <-.
    exists (id, e), s. split_and!; [split_and!; [done|done|by exists row]|done|done|done|by destruct d].
Qed.
End committed.

Lemma v1_no_tiers r : validateV1ModelPricing r = Ok tt -> bool_decide (size (ServiceTiers r) = 0%nat) = true.
Proof. unfold validateV1ModelPricing. destruct (bool_decide (size _ = _)); [done|]. cbn [negb]. by rewrite orb_true_r. Qed.
Lemma v2_tiers r : validateV2ModelPricing r = Ok tt -> bool_decide (size (ServiceTiers r) = 0%nat) = false.
Proof. unfold validateV2ModelPricing. destruct (_ || _); [done|]. destruct (_ && _); [done|]. destruct (_ || _); [done|]. by destruct (bool_decide (size _ = _)). Qed.
(** A rule that two schemas accept is the same in both. *)
Lemma normalize_schemas s s' r e : NormalizeModelPrice s r = Ok r -> NormalizeModelPrice s' r = Ok e -> e = r.
Proof.
  intros H H'. apply normalize_cases in H as [(_ & _ & Hv & E)|(-> & Hv & E)]; apply normalize_cases in H' as [(_ & _ & Hv' & ->)|(-> & Hv' & ->)].
  - by rewrite <- E.
  - apply v1_no_tiers in Hv. apply v2_tiers in Hv'. congruence.
  - apply v1_no_tiers in Hv'. apply v2_tiers in Hv. congruence.
  - by rewrite <- E.
Qed.
Lemma price_arguments_Ok p model price : price_arguments p = Ok (model, price) ->
  validateBillingWrite (sp_Write p) = Ok tt /\ model = trim_space (sp_Model p) /\ model <> InternalGovernanceModel /\
  (forall r, price = Some r -> exists s, NormalizeModelPrice s r = Ok r).
Proof.
  unfold price_arguments. destruct (validateBillingWrite (sp_Write p)) as [[]|]; [|done]. cbn [rbind]. destruct (_ || _) eqn:E1; [done|].
  assert (Hm : trim_space (sp_Model p) <> InternalGovernanceModel).
  { intros X. rewrite X in E1. rewrite bool_decide_true in E1 by done. by rewrite orb_true_r in E1. }
  destruct (negb _ && negb _); [done|]. destruct (negb (Bool.eqb _ _)); [done|]. destruct (sp_Price p) as [[r t]|]; [|intros [= <- <-]; by split_and!].
  destruct (NormalizeModelPrice _ r) as [n|] eqn:En; [|done]. cbn. intros [= <- <-]. split_and!; try done. intros ? [= <-]. eexists. by apply normalize_fixed in En as [? _].
Qed.

Section theorems.
Context (digest : Z -> PricingFallbackPolicy -> ModelPricing -> string) (encode_price : ModelPricing -> string).
Context (fingerprint : list string -> string) (session_of : string -> string -> bool) (inet_ok : string -> bool).
Abbreviation SetMultiplier := (SetModelMultiplier fingerprint session_of inet_ok).
Abbreviation SetPrice := (SetModelPrice digest encode_price fingerprint session_of inet_ok).

Lemma set_price_run clock p d v d' : SetPrice clock p d = (Ok v, d') ->
  exists model price, price_arguments p = Ok (model, price) /\ set_price_body digest encode_price fingerprint session_of inet_ok (normalized clock (sp_Write p)) p model price d = Ok (v, d').
Proof. unfold SetModelPrice. destruct (price_arguments p) as [[model price]|]; [|done]. intros H%withTx_commit. by exists model, price. Qed.

(** A committed price is the one the list shows from then on: the given matrix
    or, after a restore, the configured one.  It commits only on the version
    that the editor saw, which it advances by one; no other model, no multiplier
    and no money changes. *)
Theorem set_price_exact clock p d v d' : SetPrice clock p d = (Ok v, d') -> operations (pd_billing d) !! OperationID (sp_Write p) = None ->
  exists model price, price_arguments p = Ok (model, price) /\ st_version (stored_price model d) = sp_Version p /\ mo_Version v = sp_Version p + 1 /\
    modelPriceValue digest (sp_Pricing p) model (multiplier_text model d') (stored_price model d') = Ok v /\ mo_Conflict v = false /\
    mo_EffectivePrice v = Some (default (mo_ConfiguredPrice v) price) /\ mo_Source v = match price with Some _ => "override" | None => "config" end /\
    (forall m, m <> model -> stored_price m d' = stored_price m d) /\ pd_multipliers d' = pd_multipliers d /\ same_money (pd_billing d) (pd_billing d').
Proof.
  intros H Hop. apply set_price_run in H as (model & price & Ha & H). destruct (price_arguments_Ok _ _ _ Ha) as (_ & _ & Hm & Hnorm).
  apply price_body_Ok in H as [(x & s & (_ & _ & row & Hr & _) & _)|(_ & conf & n & ev & _ & Hc & Hid & Hver & Hval & _ & Hv & ->)]; [cbn in Hr; congruence|].
  exists model, price. pose proof Hv as Hv0. apply (value_cases digest _ _ conf) in Hv0 as (_ & Hmv & _ & _ & Hcase); [|done|done]. cbn in Hmv, Hcase.
  assert (Hstored : stored_price model (PriceDB (booked (pd_billing d) (normalized clock (sp_Write p)) "model_price" (price_fp encode_price fingerprint (normalized clock (sp_Write p)) p model price)
    (model_entry (normalized clock (sp_Write p)) "model_price" model (numeric_text n)) ev) (pd_multipliers d)
    (<[model := saved_row (normalized clock (sp_Write p)) price (sp_StructureID p) (sp_Version p)]> (pd_prices d))
    (<[entry_id (pd_billing d) := PriceSnapshot v (sp_Action p) (st_price (stored_price model d))]> (pd_snapshots d))) =
    StoredPrice price (sp_StructureID p) (sp_Version p + 1) (Some (At (normalized clock (sp_Write p))))) by (unfold stored_price; ptables; by rewrite lookup_insert_eq).
  rewrite Hstored. change (multiplier_text model (PriceDB _ _ _ _)) with (multiplier_text model d). split_and!; try done.
  - destruct price as [r|]; [|by destruct Hcase as (_ & ? & _)]. rewrite bool_decide_true in Hcase by by rewrite Hid. by destruct Hcase as (_ & ? & _).
  - destruct price as [r|]; [|by destruct Hcase as (_ & _ & ?)]. rewrite bool_decide_true in Hcase by by rewrite Hid. destruct Hcase as (_ & _ & e & He & ->). cbn.
    destruct (Hnorm r eq_refl) as [s Hs]. apply override_inv in He as (_ & He & _). by rewrite (normalize_schemas _ _ _ _ Hs He).
  - destruct price as [r|]; [|by destruct Hcase as (? & _)]. rewrite bool_decide_true in Hcase by by rewrite Hid. by destruct Hcase as (? & _).
  - intros m Hne. unfold stored_price. ptables. by rewrite lookup_insert_ne.
Qed.

(** [C24] Two editors who saw the same version: once one of them has saved, the
    other's save is refused and changes nothing. *)
Theorem no_lost_update clock clock' p q d v d1 : SetPrice clock p d = (Ok v, d1) -> operations (pd_billing d) !! OperationID (sp_Write p) = None ->
  operations (pd_billing d1) !! OperationID (sp_Write q) = None -> trim_space (sp_Model q) = trim_space (sp_Model p) -> sp_Version q = sp_Version p ->
  exists e, SetPrice clock' q d1 = (Err e, d1).
Proof.
  intros H Hp Hq Hm Hv. apply set_price_run in H as (model & price & Ha & H). destruct (price_arguments_Ok _ _ _ Ha) as (_ & -> & _).
  apply price_body_Ok in H as [(x & s & (_ & _ & row & Hr & _) & _)|(_ & conf & n & ev & _ & _ & _ & _ & _ & _ & _ & ->)]; [cbn in Hr; congruence|].
  set (d1 := PriceDB _ _ _ _) in *. destruct (SetPrice clock' q d1) as [[v'|e] d2] eqn:E.
  - exfalso. apply set_price_run in E as (model & price' & Ha' & E). destruct (price_arguments_Ok _ _ _ Ha') as (_ & -> & _). rewrite Hm in E.
    apply price_body_Ok in E as [(x & s & (_ & _ & row & Hr & _) & _)|(_ & conf' & n' & ev' & _ & _ & _ & Hver & _)]; [cbn [normalized OperationID] in Hr; congruence|].
    unfold stored_price, d1 in Hver. ptables. rewrite lookup_insert_eq in Hver. cbn in Hver. lia.
  - exists e. f_equal. revert E. unfold SetModelPrice. destruct (price_arguments q) as [[m r]|]; [intros ->%withTx_rollback; done|by intros [= _ <-]].
Qed.

Definition same_price_write (p q : SetModelPriceParams) : Prop :=
  same_write (sp_Write p) (sp_Write q) /\ sp_Model q = sp_Model p /\ sp_Action q = sp_Action p /\ sp_Version q = sp_Version p /\ sp_StructureID q = sp_StructureID p /\ sp_Price q = sp_Price p.

Lemma price_arguments_same p q : same_price_write p q -> price_arguments q = price_arguments p.
Proof.
  intros (Hw & Hm & Ha & Hv & Hs & Hp). unfold price_arguments. rewrite (same_write_valid _ _ Hw), Hm, Ha, Hv, Hs, Hp. done.
Qed.
Lemma price_replay_run w p model price d x s : replays (pd_billing d) w "model_price" EmptyString (price_fp encode_price fingerprint w p model price) x ->
  pd_snapshots d !! x.1 = Some s -> mo_Model (sn_ModelPrice s) = model ->
  set_price_body digest encode_price fingerprint session_of inet_ok w p model price d = Ok (sn_ModelPrice s, d).
Proof.
  intros R Hs Hm. unfold set_price_body. fold (price_fp encode_price fingerprint w p model price).
  assert (Hc : claimBillingOperationTx w "model_price" EmptyString (price_fp encode_price fingerprint w p model price) [] (pd_billing d) = Ok (Some x.1, pd_billing d)).
  { pose proof (claim_replay_eq w "model_price" EmptyString _ (pd_billing d) x tret R) as E. unfold tbind in E.
    destruct (claimBillingOperationTx _ _ _ _ _ _) as [[o b]|]; [|done]. exact E. }
  rewrite (in_books_run _ _ _ _ _ Hc). assert (Hr : replayBillingLedgerTx x.1 (pd_billing d) = Ok (x, pd_billing d)) by by eapply replay_ledger_eq.
  rewrite (in_books_run _ _ (set_price_billing (pd_billing d) d) x (pd_billing d)) by exact Hr. rewrite tgets_bind. ptables. rewrite Hs, tguard_bind, bool_decide_true by done. by destruct d.
Qed.
Lemma multiplier_replay_run p model multiplier d x : replays (pd_billing d) p "model_multiplier" EmptyString (multiplier_fp fingerprint p model multiplier) x -> le_model x.2 = Some model ->
  set_multiplier_body fingerprint session_of inet_ok p model multiplier d =
    Ok ({| mx_Model := model; mx_Multiplier := default "1" (le_multiplier x.2); mx_UpdatedAt := Some (le_created_at x.2) |}, d).
Proof.
  intros R Hm. unfold set_multiplier_body. fold (multiplier_fp fingerprint p model multiplier).
  assert (Hc : claimBillingOperationTx p "model_multiplier" EmptyString (multiplier_fp fingerprint p model multiplier) [] (pd_billing d) = Ok (Some x.1, pd_billing d)).
  { pose proof (claim_replay_eq p "model_multiplier" EmptyString _ (pd_billing d) x tret R) as E. unfold tbind in E.
    destruct (claimBillingOperationTx _ _ _ _ _ _) as [[o b]|]; [|done]. exact E. }
  rewrite (in_books_run _ _ _ _ _ Hc). assert (Hr : replayBillingLedgerTx x.1 (pd_billing d) = Ok (x, pd_billing d)) by by eapply replay_ledger_eq.
  rewrite (in_books_run _ _ (set_price_billing (pd_billing d) d) x (pd_billing d)) by exact Hr. destruct x as [id e]. cbn in Hm. rewrite bool_decide_true by done. by destruct d.
Qed.

(** Price and multiplier writes happen once: repeating a committed one, at any
    later time and whatever the catalog is by then, returns what was recorded
    and changes nothing. *)
Theorem price_writes_idempotent clock clock' d d' :
  (forall p q v, same_price_write p q -> SetPrice clock p d = (Ok v, d') -> SetPrice clock' q d' = (Ok v, d')) /\
  (forall p q model multiplier v, same_write p q -> SetMultiplier clock p model multiplier d = (Ok v, d') -> SetMultiplier clock' q model multiplier d' = (Ok v, d')).
Proof.
  split.
  - intros p q v HS H. apply set_price_run in H as (model & price & Ha & H). unfold SetModelPrice. rewrite (price_arguments_same p q HS), Ha. apply withTx_commit.
    destruct (price_arguments_Ok _ _ _ Ha) as (_ & _ & Hm & _). pose proof HS as ((E1 & E2 & E3) & _ & Hact & Hver & Hsid & _).
    assert (Hfp : price_fp encode_price fingerprint (normalized clock' (sp_Write q)) q model price = price_fp encode_price fingerprint (normalized clock (sp_Write p)) p model price).
    { unfold price_fp. cbn [normalized ActorUserID Reason]. by rewrite E2, E3, Hact, Hver, Hsid. }
    apply price_body_Ok in H as [(x & s & R & Hs & <- & Hmo & ->)|(_ & conf & n & ev & Ht & Hc & _ & _ & _ & _ & Hv & ->)].
    + apply (price_replay_run _ _ _ _ _ x); [|done|done]. rewrite Hfp. unfold replays in *. cbn [normalized OperationID ActorUserID] in *. by rewrite E1, E2.
    + apply (value_cases digest _ _ conf) in Hv as (Hmo & _); [|done|done]. set (d1 := PriceDB _ _ _ _).
      apply (price_replay_run _ _ _ _ d1 (entry_id (pd_billing d), model_entry (normalized clock (sp_Write p)) "model_price" model (numeric_text n)) (PriceSnapshot v (sp_Action p) (st_price (stored_price model d)))).
      * rewrite Hfp. apply booked_replays; done.
      * unfold d1. ptables. apply lookup_insert_eq.
      * done.
  - intros p q model multiplier v HS H. unfold SetModelMultiplier in *. assert (Ha : multiplier_arguments q model multiplier = multiplier_arguments p model multiplier)
      by (unfold multiplier_arguments; by rewrite (same_write_valid _ _ HS)).
    rewrite Ha. destruct (multiplier_arguments p model multiplier) as [[m k]|]; [|done]. apply withTx_commit in H. apply withTx_commit. destruct HS as (E1 & E2 & E3).
    assert (Hfp : multiplier_fp fingerprint (normalized clock' q) m k = multiplier_fp fingerprint (normalized clock p) m k).
    { unfold multiplier_fp. cbn [normalized ActorUserID Reason]. by rewrite E2, E3. }
    apply multiplier_body_Ok in H as [(x & R & Hm & -> & ->)|(_ & n & ev & Ht & _ & _ & -> & ->)].
    + apply (multiplier_replay_run _ _ _ _ x); [|done]. rewrite Hfp. unfold replays in *. cbn [normalized OperationID ActorUserID] in *. by rewrite E1, E2.
    + set (d1 := PriceDB _ _ _ _). rewrite (multiplier_replay_run _ _ _ d1 (entry_id (pd_billing d), model_entry (normalized clock p) "model_multiplier" m (numeric_text n))); [done| |done].
      rewrite Hfp. apply booked_replays; done.
Qed.
End theorems.

(** ** The price of a request is the one in the list *)

Section request.
Context (digest : Z -> PricingFallbackPolicy -> ModelPricing -> string).
Context (decode_snapshot : string -> option DecodedSnapshot) (encode_snapshot : PricingSnapshot -> string).

(** The parameters carry the catalog's price of their model. *)
Definition from_catalog (pricing : UsagePricing) (conf : ModelPricing) (q : BillingReservationParams) : Prop :=
  Models pricing !! rp_Model q = Some conf /\ rp_PricingRuleVersion q = known_schema (up_SchemaVersion pricing) /\
  if rp_PricingRuleVersion q =? PricingSchemaV2
  then exists s, ParsePricingSnapshot decode_snapshot (rp_PricingSnapshot q) = Ok s /\ ps_FallbackPolicy s = up_FallbackPolicy pricing /\ Rule s = conf
  else up_FallbackPolicy pricing = no_fallback /\ conf = v1_rule (rp_InputUSDPerMillion q) (rp_CachedInputUSDPerMillion q) (rp_OutputUSDPerMillion q).

Lemma request_agrees pricing conf q : from_catalog pricing conf q -> exists p, request_pricing decode_snapshot q = Ok p /\ agree (rp_Model q) p pricing.
Proof.
  intros (Hc & Hv & H). assert (Hk : known_schema (rp_PricingRuleVersion q) = known_schema (up_SchemaVersion pricing)).
  { rewrite Hv. unfold known_schema. destruct (up_SchemaVersion pricing =? 0) eqn:E; [done|]. by rewrite E. }
  unfold request_pricing. destruct (rp_PricingRuleVersion q =? PricingSchemaV2).
  - destruct H as (s & -> & Hf & Hr). cbn. eexists. split; [done|]. split_and!; [done|done|]. cbn. by rewrite lookup_singleton_eq, Hr, Hc.
  - destruct H as [Hf Hr]. eexists. split; [done|]. split_and!; [done|done|]. cbn. by rewrite lookup_singleton_eq, <- Hr, Hc.
Qed.

(** [C22] What admission charges is what the owner's list shows for the model: with no
    override the request keeps the configured price, with an override it carries
    exactly the effective price of the list, and a conflict refuses the request. *)
Theorem request_price_listed pricing conf q multiplier d v : from_catalog pricing conf q -> rp_Model q <> InternalGovernanceModel ->
  modelPriceValue digest pricing (rp_Model q) multiplier (stored_price (rp_Model q) d) = Ok v ->
  snapshotModelPriceTx digest decode_snapshot encode_snapshot q d =
    match mo_EffectivePrice v with
    | None => Err (ErrConflict "configured model price structure conflicts with stored override")
    | Some e => Ok (if bool_decide (mo_Source v = "config") then q
                    else if rp_PricingRuleVersion q =? PricingSchemaV2
                    then with_price_snapshot (encode_snapshot {| ps_SchemaVersion := PricingSchemaV2; ps_FallbackPolicy := up_FallbackPolicy pricing; ps_Model := rp_Model q; Rule := e |}) q
                    else with_prices (mp_Input e) (mp_CachedInput e) (mp_Output e) q, d)
    end.
Proof.
  intros HF Hm Hv. destruct (request_agrees _ _ _ HF) as (p & Hp & HA). pose proof HF as (Hc & Hver & _).
  pose proof (value_cases digest _ _ conf _ _ v Hm Hc Hv) as (_ & _ & _ & _ & Hcase). unfold snapshotModelPriceTx, readModelPriceTx. rewrite tgets_bind.
  destruct (st_price (stored_price (rp_Model q) d)) as [r|] eqn:Hs; [|by destruct Hcase as (-> & _ & ->)].
  assert (Hcq : Models p !! rp_Model q = Some conf) by (destruct HA as (_ & _ & ->); done).
  unfold tbind at 1, tlift. rewrite Hp. unfold tbind at 1.
  assert (Hone : exists v1, modelPriceValue digest p (rp_Model q) "1" (stored_price (rp_Model q) d) = Ok v1 /\ mo_Conflict v1 = mo_Conflict v /\ mo_EffectivePrice v1 = mo_EffectivePrice v).
  { rewrite (value_agree digest (rp_Model q) p pricing) by done. revert Hv. unfold modelPriceValue, value_pricing. rewrite !(bool_decide_false (rp_Model q = _)) by done. cbn [andb negb].
    destruct (ModelPriceStructureID digest pricing (rp_Model q)); cbn; [|done]. destruct (NormalizeModelPrice _ _); cbn; [|done]. rewrite Hs.
    destruct (negb _); [intros [= <-]; by eexists|]. destruct (ValidateModelPriceOverride _ _ _ _); cbn; [|done]. intros [= <-]. by eexists. }
  destruct Hone as (v1 & -> & Hc1 & He1). rewrite tguard_bind, Hc1, He1. destruct (bool_decide (Ok _ = _)).
  - destruct Hcase as (-> & -> & e & _ & ->). cbn [negb]. unfold tret. f_equal. f_equal. unfold apply_price. destruct (rp_PricingRuleVersion q =? PricingSchemaV2) eqn:E2; [|done].
    unfold ModelSnapshot. cbn. rewrite lookup_insert_eq. assert (Hsch : up_SchemaVersion p = PricingSchemaV2).
    { unfold request_pricing in Hp. rewrite E2 in Hp. apply rbind_Ok in Hp as (s & _ & [= <-]). cbn. by apply Z.eqb_eq. }
    rewrite Hsch, Z.eqb_refl. cbn. destruct HA as (_ & -> & _). done.
  - destruct Hcase as (_ & -> & ->). done.
Qed.
End request.

(** ** Every stored override is sound *)

Section history.
Context (digest : Z -> PricingFallbackPolicy -> ModelPricing -> string) (encode_price : ModelPricing -> string).
Context (fingerprint : list string -> string) (session_of : string -> string -> bool) (inet_ok : string -> bool).

Definition price_inv (d : price_db) : Prop := forall m row, pd_prices d !! m = Some row -> price_check m row = true /\
  forall r, pr_price row = Some r -> exists schema policy, NormalizeModelPrice schema r = Ok r /\ pr_structure row = digest (known_schema schema) policy (modelPriceStructure r).

(** Saves and restores under whatever catalog, and multipliers. *)
Inductive price_step : price_db -> price_db -> Prop :=
| step_price clock p d : price_step d (SetModelPrice digest encode_price fingerprint session_of inet_ok clock p d).2
| step_multiplier clock p model multiplier d : price_step d (SetModelMultiplier fingerprint session_of inet_ok clock p model multiplier d).2
| step_books b d : price_step d (set_price_billing b d).

Lemma price_step_inv d d' : price_step d d' -> price_inv d -> price_inv d'.
Proof.
  intros [clock p x|clock p model multiplier x|b x] I; [| |exact I].
  - unfold SetModelPrice. destruct (price_arguments p) as [[model price]|] eqn:Ha; [|done]. apply withTx_preserves; [|done]. intros v d1 H.
    destruct (price_arguments_Ok _ _ _ Ha) as (_ & _ & _ & Hnorm).
    apply price_body_Ok in H as [(? & s & _ & _ & _ & _ & ->)|(_ & conf & n & ev & _ & Hc & Hid & _ & Hval & Hck & _ & ->)]; [done|].
    intros m row. ptables. destruct (decide (m = model)) as [->|Hne]; [|rewrite lookup_insert_ne by done; apply I].
    rewrite lookup_insert_eq. intros [= <-]. split; [done|]. cbn. intros r ->. destruct (Hval r eq_refl) as [r' Hr']. apply override_inv in Hr' as (_ & Hn & Hs).
    destruct (Hnorm r eq_refl) as [s0 Hs0]. pose proof (normalize_schemas _ _ _ _ Hs0 Hn) as ->. exists (up_SchemaVersion (sp_Pricing p)), (up_FallbackPolicy (sp_Pricing p)). split; [done|].
    rewrite Hid in Hs. by injection Hs as ->.
  - unfold SetModelMultiplier. destruct (multiplier_arguments p model multiplier) as [[m k]|]; [|done]. apply withTx_preserves; [|done]. intros v d1 H.
    apply multiplier_body_Ok in H as [(? & _ & _ & -> & _)|(_ & n & ev & _ & _ & _ & _ & ->)]; exact I.
Qed.

(** A catalog whose rules are valid, as [ParseUsagePricing] leaves it. *)
Definition valid_catalog (p : UsagePricing) : Prop := forall m conf, Models p !! m = Some conf -> exists c, NormalizeModelPrice (up_SchemaVersion p) conf = Ok c.

Lemma value_total p m multiplier d : valid_catalog p -> price_inv d -> m ∈ priced_models p ->
  digest_collision digest \/ exists v, modelPriceValue digest p m multiplier (stored_price m d) = Ok v /\ mo_Model v = m /\ (mo_Conflict v = false -> is_Some (mo_EffectivePrice v)).
Proof.
  intros HV I Hin. destruct (decide (m = InternalGovernanceModel)) as [->|Hm].
  - right. unfold modelPriceValue, value_pricing. rewrite !(bool_decide_true (InternalGovernanceModel = _)) by done. cbn [andb negb].
    destruct (Models p !! InternalGovernanceModel) as [conf|] eqn:Ec.
    + rewrite (bool_decide_true (is_Some _)) by done. cbn [negb]. unfold ModelPriceStructureID. rewrite Ec. cbn. destruct (HV _ _ Ec) as [c Hc]. rewrite normalize_known, Hc. cbn. by eexists.
    + rewrite (bool_decide_false (is_Some _)) by by intros []. cbn [negb]. unfold ModelPriceStructureID. cbn [bare_pricing Models up_SchemaVersion up_FallbackPolicy]. rewrite lookup_singleton_eq. eexists. split_and!; [vm_compute; reflexivity|done|done].
  - assert (Hc : exists conf, Models p !! m = Some conf).
    { unfold priced_models in Hin. rewrite (stable_sort_perm str_ltb), elem_of_app in Hin. destruct Hin as [Hin|Hin]; [by apply elem_of_elements, elem_of_dom in Hin|].
      destruct (bool_decide _); [by apply not_elem_of_nil in Hin|]. by apply list_elem_of_singleton in Hin. }
    destruct Hc as [conf Hc]. destruct (HV _ _ Hc) as [c Hn].
    assert (Hval : forall r, st_price (stored_price m d) = Some r -> Ok (st_structureID (stored_price m d)) = ModelPriceStructureID digest p m ->
      digest_collision digest \/ ValidateModelPriceOverride digest p m r = Ok r).
    { intros r. unfold stored_price. destruct (pd_prices d !! m) as [row|] eqn:Hrow; [|done]. cbn. intros Hr Hs. destruct (I m row Hrow) as [_ HI].
      destruct (HI r Hr) as (schema & policy & Hnr & Hst). unfold ModelPriceStructureID in Hs. rewrite Hc, Hst in Hs. injection Hs as Hs.
      apply digest_eq in Hs as [(Hk & _ & HS)|Hcol]; [right|by left]. apply (override_run digest p m conf); [done|done| |done]. rewrite <- normalize_known, <- Hk, normalize_known. done. }
    unfold modelPriceValue, value_pricing. rewrite !(bool_decide_false (m = _)) by done. cbn [andb negb]. destruct (ModelPriceStructureID digest p m) as [sid|] eqn:Hid; [|unfold ModelPriceStructureID in Hid; by rewrite Hc in Hid].
    rewrite Hc, normalize_known. cbn. rewrite Hn. cbn. destruct (st_price (stored_price m d)) as [r|]; [|right; by eexists].
    case_bool_decide as E; cbn [negb]; [|right; eexists; split_and!; [reflexivity|done|done]]. destruct (Hval r eq_refl) as [Hcol|Hok]; [by rewrite E|by left|].
    rewrite Hok. cbn. right. by eexists.
Qed.


(** A committed multiplier is read back by admissions and lists, exactly as
    given and positive; no other multiplier, price or money changes. *)
Theorem multiplier_exact clock p model multiplier d v d' : SetModelMultiplier fingerprint session_of inet_ok clock p model multiplier d = (Ok v, d') ->
  operations (pd_billing d) !! OperationID p = None ->
  exists m c n, multiplier_arguments p model multiplier = Ok (m, c) /\ numeric_of c = Some n /\ 0 < n /\ snapshotModelMultiplierTx m d' = Ok (numeric_text n, d') /\
    mx_Multiplier v = numeric_text n /\ ListModelMultipliers [m] d' = [v] /\
    (forall k, k <> m -> multiplier_text k d' = multiplier_text k d) /\ pd_prices d' = pd_prices d /\ same_money (pd_billing d) (pd_billing d').
Proof.
  unfold SetModelMultiplier. destruct (multiplier_arguments p model multiplier) as [[m c]|] eqn:Ha; [|done]. intros H%withTx_commit Hop.
  assert (Hm : m <> InternalGovernanceModel).
  { unfold multiplier_arguments in Ha. apply rbind_Ok in Ha as (_ & _ & Ha). destruct (_ || _) eqn:E; [done|]. apply rbind_Ok in Ha as (? & _ & [= <- _]). apply orb_false_iff in E as [_ E%bool_decide_eq_false]. done. }
  apply multiplier_body_Ok in H as [(x & (_ & _ & row & Hr & _) & _)|(_ & n & ev & _ & Hn & Hck & -> & ->)]; [cbn in Hr; congruence|].
  exists m, c, n. unfold multiplier_check in Hck. cbn in Hck. split_and!; try done.
  - lia.
  - unfold snapshotModelMultiplierTx, readModelMultiplierTx, tgets, multiplier_text. ptables. by rewrite lookup_insert_eq.
  - unfold ListModelMultipliers, multiplier_text. cbn. rewrite lookup_insert_eq, bool_decide_false by done. done.
  - intros k Hk. unfold multiplier_text. ptables. by rewrite lookup_insert_ne.
Qed.
End history.

(** ** Examples *)

Definition list_tiers (std fast : TokenPricing) : ModelPricing :=
  {| mp_Input := ""; mp_CachedInput := ""; mp_Output := ""; CacheWriteMode := CacheWriteSeparateByTTL; MaxInputTokens := 1000000; LongContextThresholdTokens := 200000;
     ServiceTiers := {[ PricingTierStandard := {| Short := Some std; Long := None |}; PricingTierFast := {| Short := Some fast; Long := None |} ]} |}.
Definition list_rule : ModelPricing := list_tiers (demo_price "3" "0.3" "3.75" "6" "15") (demo_price "10" "0.25" "12.5" "20" "9.5").
(** The same matrix with other amounts, one of them not in normal form. *)
Definition sale_rule : ModelPricing := list_tiers (demo_price "2.50" "0.3" "3.75" "6" "15") (demo_price "8" "0.25" "12.5" "20" "9.5").
Definition list_catalog : UsagePricing := bare_pricing PricingSchemaV2 (ps_FallbackPolicy demo_snapshot) {["demo-model" := list_rule]}.
(** A stand-in for the digest: it only tells the schemas apart. *)
Definition list_digest (schema : Z) (_ : PricingFallbackPolicy) (_ : ModelPricing) : string := str_repeat (if schema =? 2 then "2"%char else "1"%char) 64.
Definition list_db : price_db := PriceDB bank_db ∅ ∅ ∅.
Definition list_write (op : string) : BillingWriteParams :=
  {| OperationID := op; Reason := "sale"; ActorUserID := "admin"; ActorSessionID := ""; RequestID := ""; SourceIP := ""; At := 7 |}.
Definition list_save (op : string) (version : Z) : SetModelPriceParams :=
  {| sp_Write := list_write op; sp_Pricing := list_catalog; sp_Model := " demo-model"; sp_Action := "save"; sp_Version := version;
     sp_StructureID := list_digest 2 no_fallback list_rule; sp_Price := Some (sale_rule, true) |}.
Definition list_encode (_ : ModelPricing) : string := "{}".
Abbreviation list_set := (SetModelPrice list_digest list_encode plain_fingerprint no_session any_inet).
Definition list_saved : price_db := (list_set 9 (list_save "op-7" 0) list_db).2.
Definition list_value : ModelPrice := match (list_set 9 (list_save "op-7" 0) list_db).1 with Ok v => v | Err _ => Build_ModelPrice "" 0 list_rule None "" 0 "" "" true true None end.

Lemma list_saved_ok : list_set 9 (list_save "op-7" 0) list_db = (Ok list_value, list_saved).
Proof. unfold list_value, list_saved. destruct (list_set 9 (list_save "op-7" 0) list_db) as [[v|e] d] eqn:E; [done|]. exfalso. vm_compute in E. discriminate E. Qed.

Example list_saved_ex : mo_Source list_value = "override" /\ mo_Version list_value = 1 /\
  (ServiceTiers <$> mo_EffectivePrice list_value) ≫= (fun t => t !! PricingTierStandard) = Some {| Short := Some (demo_price "2.5" "0.3" "3.75" "6" "15"); Long := None |}.
Proof. vm_compute. done. Qed.
(** The second editor is told to reload. *)
Example list_stale_ex : (list_set 9 (list_save "op-8" 0) list_saved).1 = Err (ErrConflict "model price changed; reload current configuration").
Proof. vm_compute. done. Qed.

Lemma normalized_price_witness : exists r, NormalizeModelPrice PricingSchemaV2 sale_rule = Ok r /\ NormalizeModelPrice PricingSchemaV2 r = Ok r /\ r <> sale_rule.
Proof.
  destruct (NormalizeModelPrice PricingSchemaV2 sale_rule) as [r|e] eqn:E; [|exfalso; vm_compute in E; discriminate E].
  exists r. destruct (normalized_price _ _ _ E) as (H & _). split_and!; [done|exact H|]. intros ->. vm_compute in E. discriminate E.
Defined.
Lemma override_exact_witness : exists r, ValidateModelPriceOverride list_digest list_catalog "demo-model" sale_rule = Ok r.
Proof.
  destruct (NormalizeModelPrice PricingSchemaV2 sale_rule) as [r|e] eqn:E; [|exfalso; vm_compute in E; discriminate E]. exists r.
  apply (proj2 (override_exact list_digest list_catalog "demo-model" list_rule sale_rule ltac:(discriminate) ltac:(vm_compute; reflexivity))); [exact E|vm_compute; reflexivity].
Defined.
Lemma set_price_exact_witness : mo_Version list_value = 0 + 1 /\ same_money (pd_billing list_db) (pd_billing list_saved).
Proof.
  destruct (set_price_exact _ _ _ _ _ 9 (list_save "op-7" 0) list_db list_value list_saved list_saved_ok ltac:(vm_compute; reflexivity)) as (model & price & _ & _ & Hv & _ & _ & _ & _ & _ & _ & Hm).
  split; [exact Hv|exact Hm].
Defined.
Lemma no_lost_update_witness : exists e, list_set 12 (list_save "op-8" 0) list_saved = (Err e, list_saved).
Proof.
  apply (no_lost_update _ _ _ _ _ 9 12 (list_save "op-7" 0) (list_save "op-8" 0) list_db list_value list_saved list_saved_ok); vm_compute; reflexivity.
Defined.
Lemma price_writes_idempotent_witness : list_set 99 (list_save "op-7" 0) list_saved = (Ok list_value, list_saved).
Proof.
  apply (proj1 (price_writes_idempotent list_digest list_encode plain_fingerprint no_session any_inet 9 99 list_db list_saved) (list_save "op-7" 0)); [by repeat split|exact list_saved_ok].
Defined.

Definition list_request : BillingReservationParams :=
  {| rp_RequestID := "r1"; rp_UserID := "u1"; rp_APIKeyID := "k1"; rp_Model := "demo-model"; rp_InputUSDPerMillion := ""; rp_CachedInputUSDPerMillion := ""; rp_OutputUSDPerMillion := "";
     rp_PricingRuleVersion := 2; rp_BillingMode := "v2"; rp_PricingCatalogAsOf := ""; rp_PricingModel := "demo-model"; rp_PricingSnapshot := "snapshot"; rp_CacheWriteMode := CacheWriteSeparateByTTL;
     rp_RequestedServiceTier := ""; rp_UpstreamProvider := ""; rp_Now := 8 |}.
Definition list_decode (_ : string) : option DecodedSnapshot :=
  Some {| ds_snapshot := {| ps_SchemaVersion := PricingSchemaV2; ps_FallbackPolicy := ps_FallbackPolicy demo_snapshot; ps_Model := "demo-model"; Rule := list_rule |}; ds_rule_fields := ∅ |}.
Definition list_encode_snapshot (s : PricingSnapshot) : string :=
  match ServiceTiers (Rule s) !! PricingTierStandard with Some {| Short := Some p |} => tp_Input p | _ => "" end.
Lemma list_request_from : from_catalog list_decode list_catalog list_rule list_request.
Proof.
  split; [vm_compute; reflexivity|]. split; [vm_compute; reflexivity|]. cbn. exists {| ps_SchemaVersion := PricingSchemaV2; ps_FallbackPolicy := ps_FallbackPolicy demo_snapshot; ps_Model := "demo-model"; Rule := list_rule |}.
  split_and!; [vm_compute; reflexivity|done|done].
Qed.
Lemma request_price_listed_witness : exists q, snapshotModelPriceTx list_digest list_decode list_encode_snapshot list_request list_saved = Ok (q, list_saved) /\ rp_PricingSnapshot q = "2.5".
Proof.
  destruct (modelPriceValue list_digest list_catalog "demo-model" "1" (stored_price "demo-model" list_saved)) as [v|e] eqn:E; [|exfalso; vm_compute in E; discriminate E].
  rewrite (request_price_listed list_digest list_decode list_encode_snapshot list_catalog list_rule list_request "1" list_saved v list_request_from ltac:(discriminate) E).
  vm_compute in E. injection E as <-. eexists. split; [reflexivity|]. vm_compute. reflexivity.
Defined.

Lemma list_valid : valid_catalog list_catalog.
Proof. intros m conf. unfold list_catalog. cbn [bare_pricing Models]. intros [<- <-]%lookup_singleton_Some. eexists. vm_compute. reflexivity. Qed.
Definition double : result store_error ModelMultiplier * price_db := SetModelMultiplier plain_fingerprint no_session any_inet 9 (list_write "op-9") "demo-model" "2.0" list_saved.
Lemma multiplier_exact_witness : exists v d', double = (Ok v, d') /\ mx_Multiplier v = numeric_text (2 * pow10 12) /\ pd_prices d' = pd_prices list_saved.
Proof.
  unfold double. destruct (SetModelMultiplier _ _ _ _ _ _ _ _) as [[v|e] d'] eqn:E; [|exfalso; vm_compute in E; discriminate E]. exists v, d'. split; [done|].
  destruct (multiplier_exact plain_fingerprint no_session any_inet _ _ _ _ _ _ _ E ltac:(vm_compute; reflexivity)) as (m & c & n & Ha & Hn & _ & _ & Hv & _ & _ & Hp & _). split; [|done].
  rewrite Hv. vm_compute in Ha. injection Ha as <- <-. vm_compute in Hn. by injection Hn as <-.
Defined.
