(* ===== verification/Admission.v ===== *)
(** * Admission of requests ([internal/store/quota.go] 15-163, [billing.go] 451-657,
      [billing_layers.go] 39-119, [billing_funding.go] 56-132, [usage.go] 46-106)

    [AdmitRequest] makes the quota reservation, the billing reservation and the
    usage row of a request in one transaction, over the tables of all the
    components it asks: model access, the user's groups and subscriptions, the
    account pools, the owner's prices.  [usage_requests] is kept in two parts:
    the columns that settlement reads in [BillingTables], the others here.
    A pricing snapshot is kept as the text that was stored. *)
From Stdlib Require Import Ascii QArith.
From S2P Require Import Prelude GoStrings GoTime Amount Pricing Store Quota Money Funding BillingTables Charging Settling Accounts Requests Groups Membership QuotaGuard Upstreams Pools Subscriptions Plans ModelAccess ModelPrices.

Definition BillingModeLegacy : string := "legacy".
Definition BillingModeOpenAIAPIEquivalent : string := "openai_api_token_equivalent".
Definition BillingModeGeminiAPIEquivalent : string := "gemini_api_token_equivalent".
Definition BillingModeAnthropicAPIEquivalent : string := "anthropic_api_token_equivalent".
Definition NoUpstreamAccountError : store_error := ErrOther "billing: no upstream account for funding sources".

(** ** Tables *)

(** A row of [api_key_history]; the quota tables refer to its (id, user). *)
Record api_key_row := ApiKey { ak_user : string; ak_device : string; ak_prefix : string }.
(** A row of [billing_reservation_sources]; the key is (request, position). *)
Record source_ref := SourceRef { sf_user : string; sf_period : option string; sf_cutoff : option Z }.
(** The other columns of [usage_requests]. *)
Record usage_meta := {
  um_user : string;
  um_device : string;
  um_api_key : string;
  um_key_prefix : string;
  um_project : option string;
  um_requested_model : string;
  um_requested_tier : option string;
  um_rule_version : Z;
  um_request_bytes : Z;
  um_conversation : option string;
  um_first_token_at : option Z;
  um_ttft_ms : option Z;
  um_reasoning : Z;
  um_response_bytes : Z;
  um_upstream_request : option string;
}.
Record pool_tables := PoolTables {
  pt_policies : option (gmap (string * string) policy_row);
  pt_selected : gmap (string * string) (gset string);
  pt_responses : gmap string GroupUpstreamAccountPolicy;
}.
Record price_tables := PriceTables {
  pp_multipliers : gmap string multiplier_row;
  pp_prices : gmap string price_row;
  pp_snapshots : gmap Z price_snapshot;
}.
Record admission_db := AdmissionDB {
  ad_subs : sub_db;
  ad_upstreams : upstream_db;
  ad_pools : pool_tables;
  ad_prices : price_tables;
  ad_access : access_db;
  ad_quota : quota_db;
  ad_keys : gmap string api_key_row;
  ad_projects : gset (string * string);
  ad_sources : gmap (string * Z) source_ref;
  ad_usage : gmap string usage_meta;
}.
Definition set_ad_subs v d := AdmissionDB v (ad_upstreams d) (ad_pools d) (ad_prices d) (ad_access d) (ad_quota d) (ad_keys d) (ad_projects d) (ad_sources d) (ad_usage d).
Definition set_ad_upstreams v d := AdmissionDB (ad_subs d) v (ad_pools d) (ad_prices d) (ad_access d) (ad_quota d) (ad_keys d) (ad_projects d) (ad_sources d) (ad_usage d).
Definition set_ad_pools v d := AdmissionDB (ad_subs d) (ad_upstreams d) v (ad_prices d) (ad_access d) (ad_quota d) (ad_keys d) (ad_projects d) (ad_sources d) (ad_usage d).
Definition set_ad_prices v d := AdmissionDB (ad_subs d) (ad_upstreams d) (ad_pools d) v (ad_access d) (ad_quota d) (ad_keys d) (ad_projects d) (ad_sources d) (ad_usage d).
Definition set_ad_quota v d := AdmissionDB (ad_subs d) (ad_upstreams d) (ad_pools d) (ad_prices d) (ad_access d) v (ad_keys d) (ad_projects d) (ad_sources d) (ad_usage d).
Definition set_ad_sources v d := AdmissionDB (ad_subs d) (ad_upstreams d) (ad_pools d) (ad_prices d) (ad_access d) (ad_quota d) (ad_keys d) (ad_projects d) v (ad_usage d).
Definition set_ad_usage v d := AdmissionDB (ad_subs d) (ad_upstreams d) (ad_pools d) (ad_prices d) (ad_access d) (ad_quota d) (ad_keys d) (ad_projects d) (ad_sources d) v.

Ltac adtables :=
  cbn [set_ad_subs set_ad_upstreams set_ad_pools set_ad_prices set_ad_quota set_ad_sources set_ad_usage ad_subs ad_upstreams ad_pools ad_prices ad_access ad_quota
       ad_keys ad_projects ad_sources ad_usage] in *.

(** The stores of the components. *)
Definition ad_billing (d : admission_db) : billing_db := sd_billing (ad_subs d).
Definition pools_of (d : admission_db) : pools_db :=
  PoolsDB (sd_groups (ad_subs d)) (ad_upstreams d) (pt_policies (ad_pools d)) (pt_selected (ad_pools d)) (pt_responses (ad_pools d)).
Definition put_pools (p : pools_db) (d : admission_db) : admission_db :=
  set_ad_pools (PoolTables (po_policies p) (po_selected p) (po_responses p)) (set_ad_upstreams (po_upstreams p) (set_ad_subs (set_sub_groups (po_groups p) (ad_subs d)) d)).
Definition prices_of (d : admission_db) : price_db :=
  PriceDB (ad_billing d) (pp_multipliers (ad_prices d)) (pp_prices (ad_prices d)) (pp_snapshots (ad_prices d)).
Definition put_billing (b : billing_db) (d : admission_db) : admission_db :=
  set_ad_subs (set_sub_groups (set_billing b (sd_groups (ad_subs d))) (ad_subs d)) d.
Definition put_prices (p : price_db) (d : admission_db) : admission_db :=
  set_ad_prices (PriceTables (pd_multipliers p) (pd_prices p) (pd_snapshots p)) (put_billing (pd_billing p) d).
Definition gateway_of (d : admission_db) : gateway_db := GatewayDB (ad_quota d) (ad_billing d).

Definition ad_in_subs {A} (m : tx sub_db A) : tx admission_db A := tzoom ad_subs set_ad_subs m.
Definition ad_in_groups {A} (m : tx group_db A) : tx admission_db A := ad_in_subs (in_groups m).
Definition ad_in_billing {A} (m : tx billing_db A) : tx admission_db A := tzoom ad_billing put_billing m.
Definition ad_in_pools {A} (m : tx pools_db A) : tx admission_db A := tzoom pools_of put_pools m.
Definition ad_in_prices {A} (m : tx price_db A) : tx admission_db A := tzoom prices_of put_prices m.
Definition ad_in_quota {A} (m : tx quota_db A) : tx admission_db A := tzoom ad_quota set_ad_quota m.

Definition set_layers v d := BillingDB (users d) (billing_accounts d) (cash_lots d) (periods d) (user_groups d) (group_periods d) (member_usage d) (billing_reservations d) v (allocations d) (ledger d) (usage_requests d) (operations d) (tombstones d) (billing_settings d) (audit d).

(** ** Parameters *)

Record BeginUsageRequestParams := {
  bu_RequestID : string;
  bu_UserID : string;
  bu_DeviceID : string;
  bu_APIKeyID : string;
  bu_ProjectID : string;
  bu_Model : string;
  bu_RequestedServiceTier : string;
  bu_PricingRuleVersion : Z;
  bu_Endpoint : string;
  bu_RequestedAt : zoned;
  bu_RequestBytes : Z;
}.
Record AdmitRequestParams := {
  am_Quota : ReserveQuotaParams;
  am_Usage : BeginUsageRequestParams;
  am_Billing : option BillingReservationParams;
  am_RequireModelAccess : bool;
  am_UpstreamProvider : string;
}.
(** What admission returns of a billing reservation: its row and the account
    pools for the request. *)
Record BillingReservation := { rv_RequestID : string; rv_row : billing_reservation; rv_AllocationGroups : list UpstreamAllocationGroup }.
Record RequestAdmission := { ra_Quota : QuotaReservation; ra_Usage : usage_row * usage_meta; ra_Billing : option BillingReservation }.

Definition with_now (now_ : Z) (p : BillingReservationParams) : BillingReservationParams :=
  {| rp_RequestID := rp_RequestID p; rp_UserID := rp_UserID p; rp_APIKeyID := rp_APIKeyID p; rp_Model := rp_Model p; rp_InputUSDPerMillion := rp_InputUSDPerMillion p;
     rp_CachedInputUSDPerMillion := rp_CachedInputUSDPerMillion p; rp_OutputUSDPerMillion := rp_OutputUSDPerMillion p; rp_PricingRuleVersion := rp_PricingRuleVersion p;
     rp_BillingMode := rp_BillingMode p; rp_PricingCatalogAsOf := rp_PricingCatalogAsOf p; rp_PricingModel := rp_PricingModel p; rp_PricingSnapshot := rp_PricingSnapshot p;
     rp_CacheWriteMode := rp_CacheWriteMode p; rp_RequestedServiceTier := rp_RequestedServiceTier p; rp_UpstreamProvider := rp_UpstreamProvider p; rp_Now := now_ |}.

(** ** The pricing of a reservation *)

Definition price_is_zero (v : string) : bool := match ParsePrice v with Ok c => bool_decide (c = "0") | Err _ => false end.
Definition token_pricing_is_zero (p : TokenPricing) : bool :=
  forallb price_is_zero ([tp_Input p; tp_CachedInput p; tp_Output p] ++ option_list (tp_CacheWrite p) ++ option_list (tp_CacheWrite5m p) ++ option_list (tp_CacheWrite1h p)).
Definition pricingRuleIsZero (rule : ModelPricing) : bool :=
  forallb (fun tier => forallb token_pricing_is_zero (option_list (Short tier.2) ++ option_list (Long tier.2))) (map_to_list (ServiceTiers rule)).

Section reserve.
Context (uuid_parse : string -> option string) (collate : string -> string -> comparison)
        (digest : Z -> PricingFallbackPolicy -> ModelPricing -> string)
        (decode_snapshot : string -> option DecodedSnapshot) (encode_snapshot : PricingSnapshot -> string).

Definition v1_pricing (p : BillingReservationParams) : result store_error BillingReservationParams :=
  let mode := if empty (rp_BillingMode p) then BillingModeLegacy else rp_BillingMode p in
  if negb (bool_decide (mode = BillingModeLegacy)) || negb (empty (rp_PricingCatalogAsOf p)) || negb (empty (rp_PricingModel p)) ||
     negb (empty (rp_PricingSnapshot p)) || negb (empty (rp_CacheWriteMode p))
  then Err (ErrInvalid "invalid v1 pricing snapshot") else
  let price v := map_err (fun _ => ErrInvalid "invalid price snapshot") (ParsePrice v) in
  let! input := price (rp_InputUSDPerMillion p) in
  let! cached := price (rp_CachedInputUSDPerMillion p) in
  let! output := price (rp_OutputUSDPerMillion p) in
  Ok {| rp_RequestID := rp_RequestID p; rp_UserID := rp_UserID p; rp_APIKeyID := rp_APIKeyID p; rp_Model := rp_Model p; rp_InputUSDPerMillion := input;
        rp_CachedInputUSDPerMillion := cached; rp_OutputUSDPerMillion := output; rp_PricingRuleVersion := rp_PricingRuleVersion p; rp_BillingMode := mode;
        rp_PricingCatalogAsOf := rp_PricingCatalogAsOf p; rp_PricingModel := rp_PricingModel p; rp_PricingSnapshot := rp_PricingSnapshot p;
        rp_CacheWriteMode := rp_CacheWriteMode p; rp_RequestedServiceTier := rp_RequestedServiceTier p; rp_UpstreamProvider := rp_UpstreamProvider p; rp_Now := rp_Now p |}.
Definition v2_pricing (p : BillingReservationParams) : result store_error BillingReservationParams :=
  if negb (bool_decide (rp_BillingMode p ∈ [BillingModeOpenAIAPIEquivalent; BillingModeGeminiAPIEquivalent; BillingModeAnthropicAPIEquivalent; BillingModeInternalZero]))
  then Err (ErrInvalid "invalid v2 billing mode") else
  if negb (empty (rp_InputUSDPerMillion p)) || negb (empty (rp_CachedInputUSDPerMillion p)) || negb (empty (rp_OutputUSDPerMillion p)) ||
     empty (rp_PricingCatalogAsOf p) || empty (rp_PricingModel p) || empty (rp_PricingSnapshot p)
  then Err (ErrInvalid "invalid v2 pricing snapshot") else
  if negb (valid_date (rp_PricingCatalogAsOf p)) then Err (ErrInvalid "invalid pricing catalog date") else
  match ParsePricingSnapshot decode_snapshot (rp_PricingSnapshot p) with
  | Err _ => Err (ErrInvalid "inconsistent v2 pricing snapshot")
  | Ok s =>
      if negb (bool_decide (ps_Model s = rp_PricingModel p)) || negb (bool_decide (rp_PricingModel p = rp_Model p)) ||
         negb (bool_decide (CacheWriteMode (Rule s) = rp_CacheWriteMode p))
      then Err (ErrInvalid "inconsistent v2 pricing snapshot") else
      if bool_decide (rp_BillingMode p = BillingModeInternalZero) && negb (pricingRuleIsZero (Rule s))
      then Err (ErrInvalid "internal zero pricing must contain only zero prices") else Ok p
  end.
Definition reservation_trimmed (p : BillingReservationParams) : BillingReservationParams :=
  {| rp_RequestID := rp_RequestID p; rp_UserID := rp_UserID p; rp_APIKeyID := rp_APIKeyID p; rp_Model := trim_space (rp_Model p);
     rp_InputUSDPerMillion := rp_InputUSDPerMillion p; rp_CachedInputUSDPerMillion := rp_CachedInputUSDPerMillion p; rp_OutputUSDPerMillion := rp_OutputUSDPerMillion p;
     rp_PricingRuleVersion := if rp_PricingRuleVersion p =? 0 then PricingSchemaV1 else rp_PricingRuleVersion p; rp_BillingMode := rp_BillingMode p;
     rp_PricingCatalogAsOf := rp_PricingCatalogAsOf p; rp_PricingModel := trim_space (rp_PricingModel p); rp_PricingSnapshot := rp_PricingSnapshot p;
     rp_CacheWriteMode := rp_CacheWriteMode p; rp_RequestedServiceTier := trim_space (rp_RequestedServiceTier p); rp_UpstreamProvider := rp_UpstreamProvider p; rp_Now := rp_Now p |}.
(** The checks before the first statement. *)
Definition reservation_arguments (clock : Z) (p : BillingReservationParams) : result store_error BillingReservationParams :=
  let p := reservation_trimmed p in
  if empty (rp_RequestID p) || empty (rp_UserID p) || empty (rp_APIKeyID p) || empty (rp_Model p) then Err (ErrInvalid "invalid billing reservation") else
  let! p := (if rp_PricingRuleVersion p =? PricingSchemaV1 then v1_pricing p else if rp_PricingRuleVersion p =? PricingSchemaV2 then v2_pricing p
             else Err (ErrInvalid "unsupported pricing rule version")) in
  if (32 <? Z.of_nat (String.length (rp_RequestedServiceTier p))) then Err (ErrInvalid "invalid requested service tier") else
  Ok (with_now (if is_zero_time (rp_Now p) then clock else rp_Now p) p).

(** ** Personal funds *)

Definition subscription_source (model : string) (at_ : Z) (d : sub_db) (s : string * subscription_row) : option BillingFundingSource :=
  if sb_enabled s.2 && sb_charge_enabled s.2 && sb_models_initialized s.2 && bool_decide (model ∈ sb_model_ids s.2) then
    pid ← sb_current_period s.2; p ← sd_periods d !! pid; a ← periods (sd_billing d) !! pid;
    if is_nil (sp_closed p) && (sp_starts p <=? at_) && (at_ <? sp_ends p) && (0 <? period_remaining a) then
      Some {| SourceType := "subscription"; SubscriptionID := s.1; PeriodID := pid; CashLotCutoff := 0; Priority := sb_priority s.2;
              PeriodDays := sb_period_days s.2; RemainingUSD := numeric_text (period_remaining a) |}
    else None
  else None.
Definition cash_allowed (model : string) (d : sub_db) : bool := (sd_cash_models d).1 && bool_decide (model ∈ (sd_cash_models d).2).
Definition cash_source (balance : string) (cashPriority cutoff : Z) : BillingFundingSource :=
  {| SourceType := "cash"; SubscriptionID := ""; PeriodID := ""; CashLotCutoff := cutoff; Priority := cashPriority; PeriodDays := 0; RemainingUSD := balance |}.
Definition snapshotBillingFundingTx (userID model : string) (at_ : Z) (balance : string) (cashPriority : Z) (cashCutoff : option Z) : tx sub_db (list BillingFundingSource) :=
  let* sources := tgets (fun d => omap (subscription_source model at_ d) (user_subs userID d)) in
  let* allowed := tgets (cash_allowed model) in
  tlift (sortBillingFundingSources (sources ++ match cashCutoff with Some c => if allowed then [cash_source balance cashPriority c] else [] | None => [] end)).

(** The next instant at which an entitlement for the model opens a period. *)
Definition renewal_candidate (at_ : Z) (p : option sub_period) (e : entitlement_row) : option Z :=
  if at_ <? en_starts e then Some (en_starts e) else
  match p with
  | Some p => if (at_ <? sp_ends p) && match en_ends e with None => true | Some t => sp_ends p <? t end then Some (sp_ends p) else None
  | None => None
  end.
Definition renewal_candidates (userID model : string) (at_ : Z) (d : sub_db) : list Z :=
  s ← List.filter (fun s => sb_enabled s.2 && sb_charge_enabled s.2 && sb_models_initialized s.2) (user_subs userID d);
  e ← List.filter (fun e => bool_decide (en_subscription e.2 = s.1) && is_nil (en_superseded e.2) && bool_decide (model ∈ en_models e.2) &&
        (0 <? en_allowance e.2) && match en_ends e.2 with None => true | Some t => at_ <? t end) (map_to_list (sd_entitlements d));
  option_list (renewal_candidate at_ (pid ← sb_current_period s.2; sd_periods d !! pid) e.2).
Definition min_time (l : list Z) : option Z := match l with [] => None | x :: rest => Some (foldr Z.min x rest) end.
Definition billingFundingRetryTx (userID model : string) (at_ : Z) : tx sub_db Z :=
  let* renewal := tgets (fun d => min_time (renewal_candidates userID model at_ d)) in
  tret (match renewal with Some t => if at_ <? t then time_sub t at_ else 0 | None => 0 end).
(** The wait for a group of the user, if it is shorter. *)
Definition group_retry (p : BillingReservationParams) (group : option GroupSummary) (retry : Z) : Z :=
  match group with
  | Some g =>
      if groupModelAllowed (Some g) (rp_Model p) && billingPositive (gs_LimitUSD g) && match gs_MemberLimitUSD g with None => true | Some l => billingPositive l end then
        let renewal := if rp_Now p <? gs_PeriodStartsAt g then Some (gs_PeriodStartsAt g) else if groupHasNextPeriod (Some g) then Some (gs_PeriodEndsAt g) else None in
        match renewal with
        | Some t => if (rp_Now p <? t) && before_deadline t (gs_ExpiresAt g) && ((retry =? 0) || (time_sub t (rp_Now p) <? retry)) then time_sub t (rp_Now p) else retry
        | None => retry
        end
      else retry
  | None => retry
  end.

(** ** Layers *)

Definition permitted (userID provider : string) (d : upstream_db) (id : string) : bool :=
  match ud_accounts d !! id with
  | None => false
  | Some a => bool_decide (ac_provider a = provider) && (bool_decide (ac_access_mode a = "shared") || bool_decide (userID ∈ grants id d))
  end && userUpstreamAccessPredicate userID provider id d.
Definition userPermittedAccountsTx (userID provider : string) (ids : list string) : tx admission_db (list string) :=
  tgets (fun d => sorted_set collate (filter (fun id => permitted userID provider (ad_upstreams d) id = true) (list_to_set ids))).

Definition group_layer (g : GroupSummary) (ids : list string) : fundingLayer :=
  {| position := 0; groupID := gs_ID g; groupPeriodID := gs_PeriodID g; allAccounts := false; accountIDs := ids |}.
Definition personal_layer : fundingLayer := {| position := 0; groupID := ""; groupPeriodID := ""; allAccounts := true; accountIDs := [] |}.
Fixpoint group_layers (userID provider : string) (groups : list GroupSummary) : tx admission_db (list fundingLayer) :=
  match groups with
  | [] => tret []
  | g :: rest =>
      let* pool := ad_in_pools (snapshotGroupUpstreamAllocationGroupTx uuid_parse collate (gs_ID g) provider) in
      let* ids := userPermittedAccountsTx userID provider (ag_AccountIDs pool) in
      if bool_decide (ids = []) then group_layers userID provider rest else
      tguard (Z.of_nat (length ids) <=? MaxUpstreamAllocationCandidates) (ErrInvalid "group account pool exceeds the forwarding limit") ;;
      let* layers := group_layers userID provider rest in
      tret (group_layer g ids :: layers)
  end.
Definition at_position (i : nat) (l : fundingLayer) : fundingLayer :=
  {| position := Z.of_nat i + 1; groupID := groupID l; groupPeriodID := groupPeriodID l; allAccounts := allAccounts l; accountIDs := accountIDs l |}.
Definition fundingLayersTx (p : BillingReservationParams) (groups : list GroupSummary) (personal : bool) : tx admission_db (list fundingLayer) :=
  let provider := to_lower (trim_space (rp_UpstreamProvider p)) in
  let provider := if empty provider then UpstreamProviderCodex else provider in
  let* layers := group_layers (rp_UserID p) provider groups in
  let layers := layers ++ (if personal || bool_decide (rp_BillingMode p = BillingModeInternalZero) then [personal_layer] else []) in
  tret (imap at_position layers).

(** CHECK (all_accounts = (group_id IS NULL)), the cardinality and the pattern. *)
Definition layer_check (l : fundingLayer) : bool :=
  (1 <=? position l) && (position l <=? 65) &&
  if allAccounts l then empty (groupID l) && empty (groupPeriodID l) && bool_decide (accountIDs l = [])
  else (1 <=? Z.of_nat (length (accountIDs l))) && (Z.of_nat (length (accountIDs l)) <=? 256) && forallb upstreamAccountIDPattern (accountIDs l).
(** The keys (request, position), (request, group) and the one personal layer. *)
Definition layer_unique (l : fundingLayer) (old : list fundingLayer) : bool :=
  forallb (fun o => negb (position o =? position l) && negb (bool_decide (groupID o = groupID l)) && negb (allAccounts o && allAccounts l)) old.
Definition record_layer (requestID : string) (l : fundingLayer) : tx billing_db unit :=
  let op := "record billing funding layer" in
  tguard (layer_check l) (ErrInvalid op) ;;
  let* d := tgets (fun d => d) in
  let old := default [] (reservation_layers d !! requestID) in
  tguard (layer_unique l old) (ErrConflict op) ;;
  tguard (allAccounts l || match group_periods d !! groupPeriodID l with Some p => bool_decide (gp_group p = groupID l) | None => false end) (ErrInvalid op) ;;
  tmod (set_layers (<[requestID := old ++ [l]]> (reservation_layers d))).
Fixpoint recordFundingLayersTx (requestID : string) (layers : list fundingLayer) : tx billing_db unit :=
  match layers with [] => tret tt | l :: rest => record_layer requestID l ;; recordFundingLayersTx requestID rest end.

Definition source_row (userID : string) (s : BillingFundingSource) : source_ref :=
  if bool_decide (SourceType s = "subscription") then SourceRef userID (Some (PeriodID s)) None else SourceRef userID None (Some (CashLotCutoff s)).
Definition source_row_ok (r : source_ref) (d : admission_db) : bool :=
  match sf_period r, sf_cutoff r with
  | Some pid, None => match periods (ad_billing d) !! pid with Some p => bool_decide (period_user p = sf_user r) | None => false end
  | None, Some c => 0 <? c
  | _, _ => false
  end.
Fixpoint recordBillingFundingSourcesTx (requestID userID : string) (n : Z) (sources : list BillingFundingSource) : tx admission_db unit :=
  match sources with
  | [] => tret tt
  | s :: rest =>
      let* d := tgets (fun d => d) in
      tguard (source_row_ok (source_row userID s) d) (ErrInvalid "record billing funding reference") ;;
      tguard (bool_decide (ad_sources d !! (requestID, n) = None)) (ErrConflict "record billing funding reference") ;;
      tmod (fun d => set_ad_sources (<[(requestID, n) := source_row userID s]> (ad_sources d)) d) ;;
      recordBillingFundingSourcesTx requestID userID (n + 1) rest
  end.

(** ** The billing reservation *)

(** The numbers of the row; an empty price is NULL. *)
Definition price_column (operation v : string) : tx billing_db string :=
  if empty v then tret "" else
  match numeric_of v with Some n => tguard ((0 <=? n) && numeric_fits n) (ErrInvalid operation) ;; tret (numeric_text n) | None => tfail (ErrInvalid operation) end.
Definition multiplier_column (operation v : string) : tx billing_db string :=
  match numeric_of v with
  | Some n => tguard ((0 <? n) && (n <? pow10 30)) (ErrInvalid operation) ;; tret (numeric_text n)
  | None => tfail (ErrInvalid operation)
  end.
Definition version_check (p : BillingReservationParams) : bool :=
  if rp_PricingRuleVersion p =? 1 then
    bool_decide (rp_BillingMode p = BillingModeLegacy) && negb (empty (rp_InputUSDPerMillion p)) && negb (empty (rp_CachedInputUSDPerMillion p)) &&
    negb (empty (rp_OutputUSDPerMillion p)) && empty (rp_PricingCatalogAsOf p) && empty (rp_PricingModel p) && empty (rp_PricingSnapshot p) && empty (rp_CacheWriteMode p)
  else
    (rp_PricingRuleVersion p =? 2) && bool_decide (rp_BillingMode p ∈ [BillingModeOpenAIAPIEquivalent; BillingModeGeminiAPIEquivalent; BillingModeAnthropicAPIEquivalent; BillingModeInternalZero]) &&
    empty (rp_InputUSDPerMillion p) && empty (rp_CachedInputUSDPerMillion p) && empty (rp_OutputUSDPerMillion p) && negb (empty (rp_PricingCatalogAsOf p)) &&
    (1 <=? rune_count (rp_PricingModel p)) && (rune_count (rp_PricingModel p) <=? 128) && negb (empty (rp_PricingSnapshot p)) &&
    bool_decide (rp_CacheWriteMode p ∈ [CacheWriteSeparate; CacheWriteIncludedInInput; CacheWriteSeparateByTTL]).
Definition funded_check (p : BillingReservationParams) (sources : list BillingFundingSource) (cutoff : option Z) (groupPeriod : option string) : bool :=
  bool_decide (rp_BillingMode p = BillingModeInternalZero) || negb (is_nil cutoff) || negb (is_nil groupPeriod) || negb (bool_decide (sources = [])).
Definition reservation_row_of (p : BillingReservationParams) (input cached output multiplier : string) (sources : list BillingFundingSource)
  (cutoff : option Z) (group period : option string) : billing_reservation :=
  {| br_user := rp_UserID p; br_api_key := rp_APIKeyID p; br_model := rp_Model p; br_input_price := input; br_cached_price := cached; br_output_price := output;
     br_rule_version := rp_PricingRuleVersion p; br_multiplier := multiplier; br_mode := rp_BillingMode p; br_catalog := value_or_nil (rp_PricingCatalogAsOf p);
     br_snapshot := rp_PricingSnapshot p; br_cache_write_mode := value_or_nil (rp_CacheWriteMode p); br_requested_tier := value_or_nil (rp_RequestedServiceTier p);
     br_day_period := None; br_week_period := None; br_month_period := None; br_cash_cutoff := cutoff; br_sources := sources; br_funding_rule := 4; br_group := group;
     br_group_period := period; br_state := Reserved; br_created_at := rp_Now p; br_settled_at := None; br_charge := None |}.
Definition group_reference (group period : option string) (d : billing_db) : bool :=
  match group, period with
  | None, None => true
  | Some g, Some p => match group_periods d !! p with Some row => bool_decide (gp_group row = g) | None => false end
  | _, _ => false
  end.
(** [INSERT INTO billing_reservations ... RETURNING]. *)
Definition insert_billing_reservation (keys : gmap string api_key_row) (p : BillingReservationParams) (multiplier : string) (sources : list BillingFundingSource)
  (cutoff : option Z) (group period : option string) : tx billing_db billing_reservation :=
  let op := "insert billing reservation" in
  let* input := price_column op (rp_InputUSDPerMillion p) in
  let* cached := price_column op (rp_CachedInputUSDPerMillion p) in
  let* output := price_column op (rp_OutputUSDPerMillion p) in
  let* multiplier := multiplier_column op multiplier in
  tguard (request_id_check (rp_RequestID p) && (1 <=? rune_count (rp_Model p)) && (rune_count (rp_Model p) <=? 128) && version_check p &&
          (rune_count (rp_RequestedServiceTier p) <=? 32) && match cutoff with Some c => 0 <? c | None => true end && funded_check p sources cutoff period) (ErrInvalid op) ;;
  let* d := tgets (fun d => d) in
  tguard (bool_decide (billing_reservations d !! rp_RequestID p = None)) (ErrConflict op) ;;
  tguard (match keys !! rp_APIKeyID p with Some k => bool_decide (ak_user k = rp_UserID p) | None => false end && group_reference group period d) (ErrInvalid op) ;;
  let row := reservation_row_of p input cached output multiplier sources cutoff group period in
  tmod (set_billing_reservations (<[rp_RequestID p := row]> (billing_reservations d))) ;;
  tret row.

(** [SELECT balance_usd, next_cash_lot_sequence, ..., cash_priority ... FOR UPDATE]. *)
Definition lock_funding_account (userID : string) : tx admission_db (account_row * account_flags) :=
  let* d := tgets (fun d => d) in
  let* a := tsome "lock billing account" (billing_accounts (ad_billing d) !! userID) in
  tret (a, default default_flags (sd_flags (ad_subs d) !! userID)).
Definition cash_cutoff (a : account_row) (flags : account_flags) : option Z :=
  if negb (af_cash flags) && billingPositive (numeric_text (balance_usd a)) then
    let cutoff := wrap64 (next_cash_lot_sequence a - 1) in if 0 <? cutoff then Some cutoff else None
  else None.

(** From the funds to the recorded reservation. *)
Definition record_reservation (p : BillingReservationParams) (sources : list BillingFundingSource) (cutoff : option Z) (layers : list fundingLayer) : tx admission_db BillingReservation :=
  let '(group, period) := match layers with l :: _ => if empty (groupID l) then (None, None) else (Some (groupID l), Some (groupPeriodID l)) | [] => (None, None) end in
  let* p := ad_in_prices (snapshotModelPriceTx digest decode_snapshot encode_snapshot p) in
  let* multiplier := ad_in_prices (snapshotModelMultiplierTx (rp_Model p)) in
  let* keys := tgets ad_keys in
  let* row := ad_in_billing (insert_billing_reservation keys p multiplier sources cutoff group period) in
  recordBillingFundingSourcesTx (rp_RequestID p) (br_user row) 1 (br_sources row) ;;
  ad_in_billing (recordFundingLayersTx (rp_RequestID p) layers) ;;
  tret {| rv_RequestID := rp_RequestID p; rv_row := row; rv_AllocationGroups := allocationGroup <$> layers |}.

Definition reserve_body (p : BillingReservationParams) : tx admission_db BillingReservation :=
  let* (account, flags) := lock_funding_account (rp_UserID p) in
  let* (groups, group) := ad_in_groups (userFundingGroupsTx (rp_UserID p) (rp_Now p) (rp_Model p)) in
  let* _ := ad_in_subs (rollBillingSubscriptionsTx (rp_UserID p) (rp_Now p)) in
  let cutoff := cash_cutoff account flags in
  let* sources := ad_in_subs (snapshotBillingFundingTx (rp_UserID p) (rp_Model p) (rp_Now p) (numeric_text (balance_usd account)) (af_cash_priority flags) cutoff) in
  if negb (bool_decide (rp_BillingMode p = BillingModeInternalZero)) && bool_decide (sources = []) && bool_decide (groups = []) then
    let* retry := ad_in_subs (billingFundingRetryTx (rp_UserID p) (rp_Model p) (rp_Now p)) in
    tfail (ErrInsufficientFunds (group_retry p group retry))
  else
    let* layers := fundingLayersTx p groups (negb (bool_decide (sources = []))) in
    tguard (negb (bool_decide (layers = []))) NoUpstreamAccountError ;;
    record_reservation p sources cutoff layers.
Definition reserveBillingTx (clock : Z) (p : BillingReservationParams) : tx admission_db BillingReservation :=
  let* p := tlift (reservation_arguments clock p) in
  reserve_body p.

(** After a refusal for lack of funds, expired subscriptions are closed in a
    transaction of its own. *)
Definition converge_after {A} (userID : string) (at_ : Z) (r : result store_error A * admission_db) : result store_error A * admission_db :=
  match r with
  | (Err (ErrInsufficientFunds retry), d) =>
      match convergeBillingSubscriptions userID at_ (ad_subs d) with
      | (Ok _, s) => (Err (ErrInsufficientFunds retry), set_ad_subs s d)
      | (Err e, s) => (Err e, set_ad_subs s d)
      end
  | r => r
  end.
Definition ReserveBilling (clock : Z) (p : BillingReservationParams) (d : admission_db) : result store_error BillingReservation * admission_db :=
  let p := with_now (if is_zero_time (rp_Now p) then clock else rp_Now p) p in
  converge_after (rp_UserID p) (rp_Now p) (withTx (reserveBillingTx clock p) d).

(** ** The usage row *)

Definition normalizeBeginUsageRequest (clock : Z) (p : BeginUsageRequestParams) : result store_error BeginUsageRequestParams :=
  let version := if bu_PricingRuleVersion p =? 0 then 1 else bu_PricingRuleVersion p in
  let model := trim_space (bu_Model p) in
  let tier := trim_space (bu_RequestedServiceTier p) in
  if empty (bu_RequestID p) || empty (bu_UserID p) || empty (bu_DeviceID p) || empty (bu_APIKeyID p) || empty model || (bu_RequestBytes p <? 0) ||
     (negb (version =? 1) && negb (version =? 2)) || (32 <? Z.of_nat (String.length tier))
  then Err (ErrInvalid "invalid usage request metadata") else
  Ok {| bu_RequestID := bu_RequestID p; bu_UserID := bu_UserID p; bu_DeviceID := bu_DeviceID p; bu_APIKeyID := bu_APIKeyID p; bu_ProjectID := bu_ProjectID p;
        bu_Model := model; bu_RequestedServiceTier := tier; bu_PricingRuleVersion := version; bu_Endpoint := bu_Endpoint p;
        bu_RequestedAt := if is_zero_time (instant (bu_RequestedAt p)) then Zoned clock 0 else bu_RequestedAt p; bu_RequestBytes := bu_RequestBytes p |}.

Definition usage_endpoints : list string :=
  ["responses"; "responses.compact"; "models"; "gemini.generateContent"; "gemini.streamGenerateContent"; "messages"; "messages.count_tokens"].
Definition new_usage (p : BeginUsageRequestParams) : usage_row :=
  {| u_state := "in_progress"; u_endpoint := bu_Endpoint p; u_model := bu_Model p; u_requested_at := instant (bu_RequestedAt p); u_completed_at := None;
     u_http_status := None; u_error_code := None; u_duration_ms := None; u_input := 0; u_cached := 0; u_cache_write := 0; u_cache_write_present := false; u_output := 0;
     u_actual_tier := None; u_account := None; u_write5m := 0; u_write1h := 0; u_ttl_present := false; u_pricing_tier := None; u_context_class := None;
     u_fallback_reason := None |}.
Definition new_usage_meta (p : BeginUsageRequestParams) (key_prefix : string) : usage_meta :=
  {| um_user := bu_UserID p; um_device := bu_DeviceID p; um_api_key := bu_APIKeyID p; um_key_prefix := key_prefix; um_project := value_or_nil (bu_ProjectID p);
     um_requested_model := bu_Model p; um_requested_tier := value_or_nil (bu_RequestedServiceTier p); um_rule_version := bu_PricingRuleVersion p;
     um_request_bytes := bu_RequestBytes p; um_conversation := None; um_first_token_at := None; um_ttft_ms := None; um_reasoning := 0; um_response_bytes := 0;
     um_upstream_request := None |}.
Definition beginUsageRequestTx (p : BeginUsageRequestParams) : tx admission_db (usage_row * usage_meta) :=
  let op := "begin usage request" in
  let* d := tgets (fun d => d) in
  let* k := tsome op (match ad_keys d !! bu_APIKeyID p with Some k => if bool_decide (ak_user k = bu_UserID p) && bool_decide (ak_device k = bu_DeviceID p) then Some k else None | None => None end) in
  tguard (request_id_check (bu_RequestID p) && (1 <=? rune_count (bu_Model p)) && (rune_count (bu_Model p) <=? 128) && bool_decide (bu_Endpoint p ∈ usage_endpoints) &&
          (rune_count (bu_RequestedServiceTier p) <=? 32) && (0 <=? bu_RequestBytes p) && int64b (bu_RequestBytes p)) (ErrInvalid op) ;;
  tguard (bool_decide (usage_requests (ad_billing d) !! bu_RequestID p = None) && bool_decide (ad_usage d !! bu_RequestID p = None)) (ErrConflict op) ;;
  tguard (empty (bu_ProjectID p) || bool_decide ((bu_ProjectID p, bu_UserID p) ∈ ad_projects d)) (ErrInvalid op) ;;
  ad_in_billing (tmod (fun b => set_usage (<[bu_RequestID p := new_usage p]> (usage_requests b)) b)) ;;
  tmod (fun d => set_ad_usage (<[bu_RequestID p := new_usage_meta p (ak_prefix k)]> (ad_usage d)) d) ;;
  tret (new_usage p, new_usage_meta p (ak_prefix k)).
Definition BeginUsageRequest (clock : Z) (p : BeginUsageRequestParams) (d : admission_db) : result store_error (usage_row * usage_meta) * admission_db :=
  match normalizeBeginUsageRequest clock p with Err e => (Err e, d) | Ok p => withTx (beginUsageRequestTx p) d end.

(** ** Admission *)

Definition with_quota_now (now_ : zoned) (q : ReserveQuotaParams) : ReserveQuotaParams :=
  {| rq_RequestID := rq_RequestID q; rq_UserID := rq_UserID q; rq_APIKeyID := rq_APIKeyID q; rq_Day := rq_Day q; rq_Now := now_; rq_ReservedTokens := rq_ReservedTokens q;
     rq_LeaseTTL := rq_LeaseTTL q; rq_Limits := rq_Limits q |}.
Definition with_requested_at (at_ : zoned) (u : BeginUsageRequestParams) : BeginUsageRequestParams :=
  {| bu_RequestID := bu_RequestID u; bu_UserID := bu_UserID u; bu_DeviceID := bu_DeviceID u; bu_APIKeyID := bu_APIKeyID u; bu_ProjectID := bu_ProjectID u; bu_Model := bu_Model u;
     bu_RequestedServiceTier := bu_RequestedServiceTier u; bu_PricingRuleVersion := bu_PricingRuleVersion u; bu_Endpoint := bu_Endpoint u; bu_RequestedAt := at_;
     bu_RequestBytes := bu_RequestBytes u |}.
(** The parts of an admission agree on the request and its time. *)
Definition admission_times (clock : Z) (p : AdmitRequestParams) : ReserveQuotaParams * BeginUsageRequestParams :=
  let now_ := if is_zero_time (instant (rq_Now (am_Quota p))) then
                if is_zero_time (instant (bu_RequestedAt (am_Usage p))) then Zoned clock 0 else bu_RequestedAt (am_Usage p)
              else rq_Now (am_Quota p) in
  (with_quota_now now_ (am_Quota p), if is_zero_time (instant (bu_RequestedAt (am_Usage p))) then with_requested_at now_ (am_Usage p) else am_Usage p).
Definition billable_endpoints : list string := ["responses"; "responses.compact"; "gemini.generateContent"; "gemini.streamGenerateContent"; "messages"].
Definition endpoint_billing (endpoint : string) (billed : bool) : result store_error unit :=
  if bool_decide (endpoint ∈ ["models"; "messages.count_tokens"]) then if billed then Err (ErrInvalid "models endpoint cannot be billed") else Ok tt else
  if bool_decide (endpoint ∈ billable_endpoints) then if billed then Ok tt else Err (ErrInvalid "generation endpoint requires billing") else
  Err (ErrInvalid "unsupported usage endpoint").
Definition admission_billing (p : AdmitRequestParams) (quota : ReserveQuotaParams) (usage : BeginUsageRequestParams) (b : BillingReservationParams) : result store_error BillingReservationParams :=
  let provider := if empty (am_UpstreamProvider p) then UpstreamProviderCodex else am_UpstreamProvider p in
  if negb (isUpstreamProvider provider) then Err (ErrInvalid "invalid upstream provider") else
  let version := if rp_PricingRuleVersion b =? 0 then 1 else rp_PricingRuleVersion b in
  let tier := trim_space (rp_RequestedServiceTier b) in
  if negb (bool_decide (rp_RequestID b = rq_RequestID quota)) || negb (bool_decide (rp_UserID b = rq_UserID quota)) || negb (bool_decide (rp_APIKeyID b = rq_APIKeyID quota)) ||
     negb (bool_decide (rp_Model b = bu_Model usage)) || negb (version =? bu_PricingRuleVersion usage) || negb (bool_decide (trim_space tier = bu_RequestedServiceTier usage))
  then Err (ErrInvalid "inconsistent billing admission") else
  Ok {| rp_RequestID := rp_RequestID b; rp_UserID := rp_UserID b; rp_APIKeyID := rp_APIKeyID b; rp_Model := rp_Model b; rp_InputUSDPerMillion := rp_InputUSDPerMillion b;
        rp_CachedInputUSDPerMillion := rp_CachedInputUSDPerMillion b; rp_OutputUSDPerMillion := rp_OutputUSDPerMillion b; rp_PricingRuleVersion := version;
        rp_BillingMode := rp_BillingMode b; rp_PricingCatalogAsOf := rp_PricingCatalogAsOf b; rp_PricingModel := rp_PricingModel b; rp_PricingSnapshot := rp_PricingSnapshot b;
        rp_CacheWriteMode := rp_CacheWriteMode b; rp_RequestedServiceTier := tier; rp_UpstreamProvider := provider; rp_Now := instant (rq_Now quota) |}.
Definition admission_arguments (clock : Z) (p : AdmitRequestParams) : result store_error (ReserveQuotaParams * BeginUsageRequestParams * option BillingReservationParams) :=
  let '(quota, usage) := admission_times clock p in
  let! quota := normalizeReserveQuota clock quota in
  let! usage := normalizeBeginUsageRequest clock usage in
  if negb (bool_decide (bu_RequestID usage = rq_RequestID quota)) || negb (bool_decide (bu_UserID usage = rq_UserID quota)) ||
     negb (bool_decide (bu_APIKeyID usage = rq_APIKeyID quota)) || negb (instant (bu_RequestedAt usage) =? instant (rq_Now quota))
  then Err (ErrInvalid "inconsistent request admission") else
  let! _ := endpoint_billing (bu_Endpoint usage) (negb (is_nil (am_Billing p))) in
  match am_Billing p with
  | None => Ok (quota, usage, None)
  | Some b => let! b := admission_billing p quota usage b in Ok (quota, usage, Some b)
  end.
Definition admit_body (clock : Z) (access : bool) (quota : ReserveQuotaParams) (usage : BeginUsageRequestParams) (billing : option BillingReservationParams) : tx admission_db RequestAdmission :=
  (if access then let* x := tgets ad_access in tlift (requireModelAccess (bu_UserID usage) (bu_Model usage) x) else tret tt) ;;
  ad_in_quota (lockQuotaScopes (rq_UserID quota) (rq_APIKeyID quota)) ;;
  let* b := match billing with Some b => let* r := reserveBillingTx clock b in tret (Some r) | None => tret None end in
  let* q := ad_in_quota (reserveQuotaLockedTx quota) in
  let* u := beginUsageRequestTx usage in
  tret {| ra_Quota := q; ra_Usage := u; ra_Billing := b |}.
Definition AdmitRequest (clock : Z) (p : AdmitRequestParams) (d : admission_db) : result store_error RequestAdmission * admission_db :=
  match admission_arguments clock p with
  | Err e => (Err e, d)
  | Ok (quota, usage, billing) =>
      let r := withTx (admit_body clock (am_RequireModelAccess p) quota usage billing) d in
      match billing with Some _ => converge_after (rq_UserID quota) (instant (rq_Now quota)) r | None => r end
  end.
End reserve.

(** ** What rolling the funds forward leaves alone *)

(** The tables that only the reservation itself writes. *)
Record request_frame (b b' : billing_db) : Prop := {
  rf_users : users b' = users b;
  rf_accounts : billing_accounts b' = billing_accounts b;
  rf_lots : cash_lots b' = cash_lots b;
  rf_groups : user_groups b' = user_groups b;
  rf_members : member_usage b' = member_usage b;
  rf_reservations : billing_reservations b' = billing_reservations b;
  rf_layers : reservation_layers b' = reservation_layers b;
  rf_allocations : allocations b' = allocations b;
  rf_usage : usage_requests b' = usage_requests b;
  rf_operations : operations b' = operations b;
  rf_settings : billing_settings b' = billing_settings b;
  rf_periods : forall id p, periods b !! id = Some p -> periods b' !! id = Some p;
}.
#[export] Instance request_frame_preorder : PreOrder request_frame.
Proof. split; [by intros b|]. intros a b c [] []. split; try congruence. auto. Qed.
Definition group_request_frame (d d' : group_db) : Prop := request_frame (gd_billing d) (gd_billing d').
#[export] Instance group_request_frame_preorder : PreOrder group_request_frame.
Proof. unfold group_request_frame. split; [intros d; reflexivity|]. intros a b c H1 H2. by transitivity (gd_billing b). Qed.
#[export] Hint Extern 0 (PreOrder group_request_frame) => exact group_request_frame_preorder : keeps.
#[export] Hint Extern 3 (keeps group_request_frame (tmod _)) => (apply keeps_mod; intros ?; by split) : keeps.
Definition sub_request_frame (d d' : sub_db) : Prop := request_frame (sd_billing d) (sd_billing d').
#[export] Instance sub_request_frame_preorder : PreOrder sub_request_frame.
Proof. unfold sub_request_frame. split; [intros d; reflexivity|]. intros a b c H1 H2. by transitivity (sd_billing b). Qed.
#[export] Hint Extern 0 (PreOrder sub_request_frame) => exact sub_request_frame_preorder : keeps.
#[export] Hint Extern 3 (keeps sub_request_frame (tmod _)) => (apply keeps_mod; intros ?; by split) : keeps.

Lemma rframe_newUUID : keeps group_request_frame newUUID.
Proof. intros d id d'. unfold newUUID. destruct (gd_random d); [done|]. intros [= _ <-]. by split. Qed.
Lemma rframe_on_billing {A} (m : tx billing_db A) : keeps request_frame m -> keeps group_request_frame (on_billing m).
Proof. intros H d a d'. unfold on_billing, tzoom. destruct (m (gd_billing d)) as [[x b]|] eqn:E; [|done]. intros [= <- <-]. by apply H in E. Qed.
Lemma rframe_numeric op s : keeps group_request_frame (numeric_param op s).
Proof. unfold numeric_param. keeps_tac. Qed.
#[export] Hint Resolve rframe_newUUID rframe_numeric : keeps.
Lemma rframe_funding u at_ model : keeps group_request_frame (userFundingGroupsTx u at_ model).
Proof.
  assert (Hroll : forall id t, keeps group_request_frame (rollGroupTx id t)).
  { intros id t. unfold rollGroupTx, readGroupSummaryTx, replaceGroupPeriodTx, insert_period, update_group, close_periods, nullable_numeric. keeps_tac;
      try (apply rframe_on_billing, keeps_mod; intros ?; by split). }
  assert (Hmem : forall members byID, keeps group_request_frame (roll_members at_ members byID)).
  { induction members as [|m rest IH]; intros byID; cbn [roll_members]; keeps_tac. }
  assert (Hlock : forall ids, keeps group_request_frame (lock_each ids)).
  { induction ids; cbn [lock_each]; unfold lockGroupTx; keeps_tac. }
  assert (Hfund : forall byID members l, keeps group_request_frame (funding_members u at_ model byID members l)).
  { intros byID. induction members as [|m rest IH]; intros l; cbn [funding_members]; unfold funding_member, groupMemberRemainingTx, groupMemberUsedTx; keeps_tac. }
  unfold userFundingGroupsTx. keeps_tac.
Qed.

Lemma rframe_in_groups {A} (m : tx group_db A) : keeps group_request_frame m -> keeps sub_request_frame (in_groups m).
Proof. intros H d a d'. unfold in_groups, tzoom. destruct (m (sd_groups d)) as [[x g]|] eqn:E; [|done]. intros [= <- <-]. by apply H in E. Qed.
Lemma rframe_in_billing {A} (m : tx billing_db A) : keeps request_frame m -> keeps sub_request_frame (in_billing m).
Proof. intros H. by apply rframe_in_groups, rframe_on_billing. Qed.
Lemma rframe_insert_period op pid id u tier n p : keeps sub_request_frame (insert_sub_period op pid id u tier n p).
Proof.
  intros d x d'. unfold insert_sub_period. rewrite tguard_bind. destruct (sub_period_check tier n p); [|done]. rewrite tgets_bind, tguard_bind.
  destruct (bool_decide _ && bool_decide (periods _ !! _ = None)) eqn:Hn; [|done]. apply andb_true_iff in Hn as [_ Hn%bool_decide_eq_true].
  rewrite tguard_bind. destruct (bool_decide _ && bool_decide _); [|done]. rewrite tmod_bind.
  intros (b' & [= _ <-] & ->)%sub_billing_Ok. unfold sub_request_frame, sd_billing in *. stables. gtables. btables. split; btables; try done.
  intros q y Hq. rewrite lookup_insert_ne; [done|]. congruence.
Qed.
Lemma rframe_update op id f : keeps sub_request_frame (update_sub op id f).
Proof. unfold update_sub. keeps_tac. Qed.
Lemma rframe_close op pid f reason b : keeps sub_request_frame (close_sub_period op pid f reason b).
Proof. unfold close_sub_period. keeps_tac. Qed.
Lemma rframe_new : keeps sub_request_frame (in_groups newUUID).
Proof. apply rframe_in_groups, rframe_newUUID. Qed.
Lemma rframe_ledger op e : keeps sub_request_frame (in_billing (insert_ledger op e)).
Proof.
  apply rframe_in_billing. intros b x b'. unfold insert_ledger. rewrite tguard_bind. destruct (ledger_check e); [|done]. intros [= _ <-]. by split.
Qed.
#[export] Hint Resolve rframe_insert_period rframe_update rframe_close rframe_new rframe_ledger : keeps.
Lemma rframe_roll u t : keeps sub_request_frame (rollBillingSubscriptionsTx u t).
Proof.
  unfold rollBillingSubscriptionsTx, rollBillingEntitlementsTx. apply keeps_bind; [exact _|apply keeps_gets; exact _|]. intros l.
  induction l as [|[[id pid] x] l IH]; cbn [roll_each]; [apply keeps_ret; exact _|].
  apply keeps_bind; [exact _| |]; [unfold roll_one, open_period, insert_sub_ledger; keeps_tac|]. intros n. keeps_tac.
Qed.

(** The tables behind the summary of a group: subscriptions do not touch them. *)
Definition group_view (g : group_db) := (gd_groups g, gd_periods g, gd_memberships g, gd_mirror g, group_periods (gd_billing g)).
Definition same_group_view (d d' : sub_db) : Prop := group_view (sd_groups d') = group_view (sd_groups d).
#[export] Instance same_group_view_preorder : PreOrder same_group_view.
Proof. unfold same_group_view. split; [by intros d|]. intros a b c H1 H2. congruence. Qed.
#[export] Hint Extern 0 (PreOrder same_group_view) => exact same_group_view_preorder : keeps.
#[export] Hint Extern 3 (keeps same_group_view (tmod _)) => (apply keeps_mod; intros ?; by unfold same_group_view) : keeps.
Lemma view_insert_period op pid id u tier n p : keeps same_group_view (insert_sub_period op pid id u tier n p).
Proof.
  intros d x d'. unfold insert_sub_period. rewrite tguard_bind. destruct (sub_period_check tier n p); [|done]. rewrite tgets_bind, tguard_bind.
  destruct (bool_decide _ && bool_decide (periods _ !! _ = None)); [|done].
  rewrite tguard_bind. destruct (bool_decide _ && bool_decide _); [|done]. rewrite tmod_bind. by intros (b' & [= _ <-] & ->)%sub_billing_Ok.
Qed.
Lemma view_update op id f : keeps same_group_view (update_sub op id f).
Proof. unfold update_sub. keeps_tac. Qed.
Lemma view_close op pid f reason b : keeps same_group_view (close_sub_period op pid f reason b).
Proof. unfold close_sub_period. keeps_tac. Qed.
Lemma view_new : keeps same_group_view (in_groups newUUID).
Proof. intros d id d'. unfold in_groups, tzoom, newUUID. destruct (gd_random _); [done|]. by intros [= _ <-]. Qed.
Lemma view_ledger op e : keeps same_group_view (in_billing (insert_ledger op e)).
Proof. intros d x d' (b' & H & ->)%sub_billing_Ok. unfold insert_ledger in H. rewrite tguard_bind in H. destruct (ledger_check e); [|done]. by injection H as _ <-. Qed.
#[export] Hint Resolve view_insert_period view_update view_close view_new view_ledger : keeps.
Lemma view_roll u t : keeps same_group_view (rollBillingSubscriptionsTx u t).
Proof.
  unfold rollBillingSubscriptionsTx, rollBillingEntitlementsTx. apply keeps_bind; [exact _|apply keeps_gets; exact _|]. intros l.
  induction l as [|[[id pid] x] l IH]; cbn [roll_each]; [apply keeps_ret; exact _|].
  apply keeps_bind; [exact _| |]; [unfold roll_one, open_period, insert_sub_ledger; keeps_tac|]. intros n. keeps_tac.
Qed.

Lemma view_summary id g g' : group_view g' = group_view g -> group_summary_of id g' = group_summary_of id g.
Proof.
  intros [= E1 E2 E3 E4 E5]. unfold group_summary_of. rewrite E1, E2, E5. destruct (gd_groups g !! id) as [x|]; [|done]. cbn. destruct (ug_current_period x) as [pid|]; [|done]. cbn.
  destruct (gd_periods g !! pid); [|done]. cbn. destruct (group_periods _ !! pid); [|done]. cbn. f_equal. unfold summary_of, member_ids, memberships. by rewrite E3, ?E4.
Qed.

(** The groups a committed question names. *)
Lemma funding_groups_Ok u t model d groups fallback d' : groups_inv d -> group_time t -> is_Some (billing_accounts (gd_billing d) !! u) -> userFundingGroupsTx u t model d = Ok ((groups, fallback), d') ->
  groups = List.filter (group_usable d' u t model) (omap (fun m => live_group d' m.1) (candidate_groups u d)).
Proof.
  intros I Ht Ha H. rewrite funding_unfold in H by done. inv_tx H. apply lock_each_Ok in Ht0 as [-> _]. inv_tx H. rename a0 into byID, Ht0 into Hr.
  destruct (roll_members_Ok t (candidate_groups u d) ∅ d byID s) as (_ & _ & _ & HbyID); [done|done|apply candidate_NoDup|intros; apply lookup_empty|done|].
  assert (Hsum : forall id g, byID !! id = Some g -> group_summary_of id s = Some g).
  { intros id g. rewrite HbyID. case_bool_decide; [|by rewrite lookup_empty]. unfold live_group. destruct (group_summary_of id s); [|done]. by destruct (is_nil _); [intros [= <-]|]. }
  destruct (funding_members_run u t model byID (candidate_groups u d) s (FundingLoop [] ∅ None)) as (l & Hrun & Eu & _); [apply candidate_NoDup|intros; apply not_elem_of_empty|done|].
  rewrite (tbind_run _ _ _ _ _ Hrun) in H. injection H as <- _ <-. rewrite Eu. cbn [fl_usable app]. f_equal.
  apply omap_ext_elem. intros m Hin. rewrite HbyID, bool_decide_true; [done|]. by apply list_elem_of_fmap_2.
Qed.

(** ** What a committed reservation did *)

Lemma tzoom_Ok {S T A} (get : S -> T) (set : T -> S -> S) (m : tx T A) s a s' :
  tzoom get set m s = Ok (a, s') <-> exists t, m (get s) = Ok (a, t) /\ s' = set t s.
Proof.
  unfold tzoom. destruct (m (get s)) as [[x t]|e]; split; try done.
  - intros [= <- <-]. eauto.
  - by intros (? & [= <- <-] & ->).
  - by intros (? & [=] & _).
Qed.

Lemma put_pools_id d : put_pools (pools_of d) d = d.
Proof. by destruct d as [[] ? [] ? ? ? ? ? ? ?]. Qed.
Lemma put_prices_id d : put_prices (prices_of d) d = d.
Proof. by destruct d as [[[] ? ? ? ? ? ? ? ? ?] ? ? [] ? ? ? ? ? ?]. Qed.

Lemma set_layers_same b : set_layers (reservation_layers b) b = b.
Proof. by destruct b. Qed.

(** The layers of a request are appended in order. *)
Lemma record_layers_Ok req layers : forall b u b', recordFundingLayersTx req layers b = Ok (u, b') ->
  exists v, b' = set_layers v b /\ default [] (v !! req) = default [] (reservation_layers b !! req) ++ layers /\ (forall i, i <> req -> v !! i = reservation_layers b !! i) /\
    Forall (fun l => layer_check l = true /\ (allAccounts l = false -> exists row, group_periods b !! groupPeriodID l = Some row /\ gp_group row = groupID l)) layers.
Proof.
  induction layers as [|l rest IH]; intros b u b'; cbn [recordFundingLayersTx].
  - intros [= _ <-]. exists (reservation_layers b). rewrite set_layers_same, app_nil_r. by split_and!.
  - intros H. inv_tx H. unfold record_layer in Ht. rewrite tguard_bind in Ht. destruct (layer_check l) eqn:Hc; [|done]. rewrite tgets_bind, tguard_bind in Ht.
    destruct (layer_unique _ _); [|done]. rewrite tguard_bind in Ht. destruct (allAccounts l || _) eqn:Hg; [|done]. injection Ht as _ <-.
    apply IH in H as (v & -> & Hv & Hi & HF). exists v. unfold set_layers in *. btables. rewrite lookup_insert_eq in Hv. split; [done|].
    split; [refine (eq_trans Hv _); exact (eq_sym (app_assoc _ [l] rest))|]. split; [intros i Hne; rewrite Hi, lookup_insert_ne; done|]. constructor; [|done]. split; [done|]. intros Ha. rewrite Ha in Hg. cbn in Hg.
    destruct (group_periods b !! groupPeriodID l) as [row|]; [|done]. apply bool_decide_eq_true in Hg. eauto.
Qed.

Lemma record_sources_Ok req user sources : forall n d u d', recordBillingFundingSourcesTx req user n sources d = Ok (u, d') ->
  exists v, d' = set_ad_sources v d /\ Forall (fun s => source_row_ok (source_row user s) d = true) sources /\
    (forall k s, sources !! k = Some s -> v !! (req, n + Z.of_nat k) = Some (source_row user s)) /\
    (forall i m, i <> req \/ m < n -> v !! (i, m) = ad_sources d !! (i, m)).
Proof.
  induction sources as [|s rest IH]; intros n d u d'; cbn [recordBillingFundingSourcesTx].
  - intros [= _ <-]. exists (ad_sources d). split_and!; try done. by destruct d.
  - rewrite tgets_bind, tguard_bind. destruct (source_row_ok _ d) eqn:Hs; [|done]. rewrite tguard_bind. destruct (bool_decide _); [|done]. rewrite tmod_bind.
    intros H. apply IH in H as (v & -> & HF & Hk & Ho). exists v. adtables. split; [done|]. split; [constructor; [done|exact HF]|]. split.
    + intros [|k] x; cbn [lookup list_lookup].
      * intros [= <-]. rewrite Z.add_0_r. rewrite Ho by lia. by rewrite lookup_insert_eq.
      * intros Hx. apply Hk in Hx. by replace (n + Z.of_nat (S k)) with (n + 1 + Z.of_nat k) by lia.
    + intros i m Hm. rewrite Ho by (destruct Hm; [by left|right; lia]). apply lookup_insert_ne. destruct Hm; [congruence|]. intros [= _ ->]. lia.
Qed.

(** The price of the owner changes the amounts only. *)
Definition same_request (p q : BillingReservationParams) : Prop :=
  (rp_RequestID q, rp_UserID q, rp_APIKeyID q, rp_Model q, rp_PricingRuleVersion q, rp_BillingMode q, rp_PricingCatalogAsOf q, rp_PricingModel q, rp_CacheWriteMode q, rp_RequestedServiceTier q, rp_UpstreamProvider q, rp_Now q) =
  (rp_RequestID p, rp_UserID p, rp_APIKeyID p, rp_Model p, rp_PricingRuleVersion p, rp_BillingMode p, rp_PricingCatalogAsOf p, rp_PricingModel p, rp_CacheWriteMode p, rp_RequestedServiceTier p, rp_UpstreamProvider p, rp_Now p).
Lemma price_Ok digest decode encode p d q d' : snapshotModelPriceTx digest decode encode p d = Ok (q, d') -> d' = d /\ same_request p q.
Proof.
  unfold snapshotModelPriceTx, readModelPriceTx. rewrite tgets_bind. destruct (st_price _); [|by intros [= <- <-]]. intros H. inv_tx H. apply tlift_Ok in Ht as [_ ->].
  inv_tx H. apply tlift_Ok in Ht as [_ ->]. rewrite tguard_bind in H. destruct (negb _); [|done]. destruct (mo_EffectivePrice _); [|done]. injection H as <- <-. split; [done|].
  unfold apply_price. destruct (_ =? _); [|done]. destruct (ModelSnapshot _ _) as [[[?|] ?]|]; done.
Qed.

Lemma insert_reservation_Ok keys p mult sources cutoff g pd b row b' : insert_billing_reservation keys p mult sources cutoff g pd b = Ok (row, b') ->
  (exists i c o m, row = reservation_row_of p i c o m sources cutoff g pd) /\ request_id_check (rp_RequestID p) = true /\
  billing_reservations b !! rp_RequestID p = None /\ (exists k, keys !! rp_APIKeyID p = Some k /\ ak_user k = rp_UserID p) /\ group_reference g pd b = true /\
  b' = set_billing_reservations (<[rp_RequestID p := row]> (billing_reservations b)) b.
Proof.
  assert (Hcol : forall op v b x b', price_column op v b = Ok (x, b') -> b' = b).
  { intros op v b0 x b0'. unfold price_column. destruct (empty v); [by intros [= _ <-]|]. destruct (numeric_of v); [|done]. rewrite tguard_bind. destruct (_ && _); [|done]. by intros [= _ <-]. }
  assert (Hmul : forall op v b x b', multiplier_column op v b = Ok (x, b') -> b' = b).
  { intros op v b0 x b0'. unfold multiplier_column. destruct (numeric_of v); [|done]. rewrite tguard_bind. destruct (_ && _); [|done]. by intros [= _ <-]. }
  unfold insert_billing_reservation. intros H. inv_tx H. apply Hcol in Ht as ->. inv_tx H. apply Hcol in Ht as ->. inv_tx H. apply Hcol in Ht as ->. inv_tx H.
  apply Hmul in Ht as ->.
  rewrite tguard_bind in H. destruct (_ && _) eqn:Hg in H; [|done]. rewrite tgets_bind, tguard_bind in H. destruct (bool_decide_reflect (billing_reservations b !! rp_RequestID p = None)) as [Hn|]; [|done].
  rewrite tguard_bind in H. destruct (match keys !! _ with Some _ => _ | None => _ end && _) eqn:Hk in H; [|done]. injection H as <- <-. rewrite !andb_true_iff in Hg. apply andb_true_iff in Hk as [Hk Hr].
  split; [by do 4 eexists|]. split; [apply Hg|]. split; [done|]. split; [|done]. destruct (keys !! rp_APIKeyID p) as [k|]; [|done]. apply bool_decide_eq_true in Hk. eauto.
Qed.

Section committed.
Context (uuid_parse : string -> option string) (collate : string -> string -> comparison)
        (digest : Z -> PricingFallbackPolicy -> ModelPricing -> string)
        (decode_snapshot : string -> option DecodedSnapshot) (encode_snapshot : PricingSnapshot -> string).
Abbreviation canonical := (canonicalGroupID uuid_parse).

(** The accounts a group layer may forward to: those of the group's pool that
    the user is permitted to use, at least one. *)
Definition layer_pool (userID provider : string) (d : admission_db) (l : fundingLayer) : Prop :=
  accountIDs l <> [] /\ exists gid, canonical (trim_space (groupID l)) = Ok gid /\
  forall id, id ∈ accountIDs l <-> id ∈ account_pool gid provider (pools_of d) /\ permitted userID provider (ad_upstreams d) id = true.
Definition layer_of (groups : list GroupSummary) (l : fundingLayer) : Prop :=
  allAccounts l = false /\ exists g, g ∈ groups /\ groupID l = gs_ID g /\ groupPeriodID l = gs_PeriodID g.

Lemma provider_norm p : isUpstreamProvider p = true -> to_lower (trim_space p) = p /\ empty p = false.
Proof. unfold isUpstreamProvider. rewrite bool_decide_eq_true, !elem_of_cons, elem_of_nil. by intros [->|[->|[->|[]]]]. Qed.

Lemma group_layers_Ok user provider groups : isUpstreamProvider provider = true -> forall d layers d', group_layers uuid_parse collate user provider groups d = Ok (layers, d') ->
  d' = d /\ Forall (fun l => layer_of groups l /\ layer_pool user provider d l) layers.
Proof.
  intros Hp. pose proof (pool_provider_fix provider Hp) as Hp'. induction groups as [|g rest IH]; intros d layers d'; cbn [group_layers].
  { intros [= <- <-]. by split. }
  intros H. inv_tx H. apply tzoom_Ok in Ht as (t & Ht & ->). unfold snapshotGroupUpstreamAllocationGroupTx in Ht. inv_tx Ht. apply tlift_Ok in Ht0 as [Hg ->].
  inv_tx Ht. apply tlift_Ok in Ht0 as [Hpp ->]. rewrite Hp' in Hpp. injection Hpp as <-. rewrite tgets_bind in Ht. injection Ht as <- <-. rewrite put_pools_id in H.
  fold (account_pool a0 provider (pools_of d)) in H. cbn [ag_AccountIDs] in H. unfold userPermittedAccountsTx in H. rewrite tgets_bind in H.
  set (ids := sorted_set _ _) in H.
  assert (Hids : forall id, id ∈ ids <-> id ∈ account_pool a0 provider (pools_of d) /\ permitted user provider (ad_upstreams d) id = true).
  { intros id. subst ids. rewrite sorted_elem, elem_of_filter, elem_of_list_to_set, sorted_elem. unfold account_pool. tauto. }
  destruct (bool_decide_reflect (ids = [])) as [_|Hne].
  - apply IH in H as [-> HF]. split; [done|]. eapply Forall_impl; [exact HF|]. intros l [[Ha (x & Hx & ?)] ?]. split; [|done]. split; [done|]. exists x. split; [by right|done].
  - rewrite tguard_bind in H. destruct (_ <=? _); [|done]. inv_tx H. injection H as <- <-. apply IH in Ht as [-> HF]. split; [done|]. constructor.
    + split; [split; [done|]; exists g; split; [left|done]|]. split; [done|]. eexists. split; [exact Hg|]. exact Hids.
    + eapply Forall_impl; [exact HF|]. intros l [[Ha (x & Hx & ?)] ?]. split; [|done]. split; [done|]. exists x. split; [by right|done].
Qed.

(** The layers in order: the groups' pools, then the personal layer. *)
Lemma layers_Ok p groups personal d layers d' : isUpstreamProvider (rp_UpstreamProvider p) = true -> fundingLayersTx uuid_parse collate p groups personal d = Ok (layers, d') ->
  d' = d /\ (forall l, l ∈ layers -> allAccounts l = false -> layer_of groups l /\ layer_pool (rp_UserID p) (rp_UpstreamProvider p) d l) /\
  (forall l, l ∈ layers -> allAccounts l = true -> groupID l = "" /\ groupPeriodID l = "" /\ accountIDs l = [] /\ (personal = true \/ rp_BillingMode p = BillingModeInternalZero)).
Proof.
  intros Hp. unfold fundingLayersTx. destruct (provider_norm _ Hp) as [-> Hne]. cbv zeta. rewrite Hne. intros H. inv_tx H. apply group_layers_Ok in Ht as [-> HF]; [|done].
  injection H as <- <-. split; [done|]. rewrite Forall_forall in HF.
  assert (Hel : forall l, l ∈ imap at_position (a ++ (if personal || bool_decide (rp_BillingMode p = BillingModeInternalZero) then [personal_layer] else [])) ->
    exists i x, l = at_position i x /\ (x ∈ a \/ x = personal_layer /\ (personal = true \/ rp_BillingMode p = BillingModeInternalZero))).
  { intros l Hl. apply elem_of_lookup_imap in Hl as (i & x & -> & Hx). exists i, x. split; [done|]. apply list_elem_of_lookup_2 in Hx. apply elem_of_app in Hx as [Hx|Hx]; [by left|right].
    destruct personal; cbn in Hx; [apply list_elem_of_singleton in Hx; auto|]. case_bool_decide; [|by apply elem_of_nil in Hx]. apply list_elem_of_singleton in Hx. auto. }
  split; intros l Hl Ha; apply Hel in Hl as (i & x & -> & [Hx|[-> Hx]]); cbn in Ha; try done.
  - apply HF in Hx as [[? (g & ? & ? & ?)] [? ?]]. split; [split; [done|]; exists g; done|]. split; done.
  - apply HF in Hx as [[Hx _] _]. congruence.
Qed.

Lemma snapshot_Ok user model t balance priority cutoff d sources d' : snapshotBillingFundingTx user model t balance priority cutoff d = Ok (sources, d') ->
  d' = d /\ sources ≡ₚ omap (subscription_source model t d) (user_subs user d) ++
    match cutoff with Some c => if cash_allowed model d then [cash_source balance priority c] else [] | None => [] end.
Proof.
  unfold snapshotBillingFundingTx. rewrite !tgets_bind. intros [H ->]%tlift_Ok. split; [done|]. unfold sortBillingFundingSources in H. inv_bind H. injection H as <-. apply stable_sort_perm.
Qed.

(** The reservation and its side tables, on the store after the rolls. *)
Record recorded (p : BillingReservationParams) (sources : list BillingFundingSource) (cutoff : option Z) (layers : list fundingLayer) (d : admission_db) (r : BillingReservation) (d' : admission_db) : Prop := {
  rec_id : rv_RequestID r = rp_RequestID p;
  rec_check : request_id_check (rp_RequestID p) = true;
  rec_row : exists q i c o m g pd, same_request p q /\ rv_row r = reservation_row_of q i c o m sources cutoff g pd /\ group_reference g pd (ad_billing d) = true /\
    (g, pd) = match layers with l :: _ => if empty (groupID l) then (None, None) else (Some (groupID l), Some (groupPeriodID l)) | [] => (None, None) end;
  rec_fresh : billing_reservations (ad_billing d) !! rp_RequestID p = None;
  rec_key : exists k, ad_keys d !! rp_APIKeyID p = Some k /\ ak_user k = rp_UserID p;
  rec_groups : rv_AllocationGroups r = allocationGroup <$> layers;
  rec_sources : Forall (fun s => source_row_ok (source_row (rp_UserID p) s) d = true) sources;
  rec_layers : Forall (fun l => layer_check l = true /\ (allAccounts l = false -> exists row, group_periods (ad_billing d) !! groupPeriodID l = Some row /\ gp_group row = groupID l)) layers;
  rec_store : exists v w, d' = set_ad_sources v (put_billing (set_layers w (set_billing_reservations (<[rp_RequestID p := rv_row r]> (billing_reservations (ad_billing d))) (ad_billing d))) d) /\
    default [] (w !! rp_RequestID p) = default [] (reservation_layers (ad_billing d) !! rp_RequestID p) ++ layers /\
    (forall i, i <> rp_RequestID p -> w !! i = reservation_layers (ad_billing d) !! i) /\
    (forall k s, sources !! k = Some s -> v !! (rp_RequestID p, 1 + Z.of_nat k) = Some (source_row (rp_UserID p) s));
}.

Lemma record_Ok p sources cutoff layers d r d' :
  record_reservation digest decode_snapshot encode_snapshot p sources cutoff layers d = Ok (r, d') -> recorded p sources cutoff layers d r d'.
Proof.
  unfold record_reservation. destruct (match layers with [] => _ | _ => _ end) as [g pd] eqn:Eg. intros H. inv_tx H. apply tzoom_Ok in Ht as (t & Ht & ->).
  apply price_Ok in Ht as [-> Hq]. rewrite put_prices_id in H. inv_tx H. apply tzoom_Ok in Ht as (t & Ht & ->). injection Ht as <- <-. rewrite put_prices_id in H.
  rewrite tgets_bind in H. inv_tx H. apply tzoom_Ok in Ht as (b & Hb & ->). apply insert_reservation_Ok in Hb as ((i & c & o & m & Hrow) & Hid & Hf & Hk & Hr & ->).
  inv_tx H. apply record_sources_Ok in Ht as (v & -> & HF & Hv & _). inv_tx H. apply tzoom_Ok in Ht as (b & Hb & ->). apply record_layers_Ok in Hb as (w & -> & Hw & Hi & HL).
  injection H as <- <-. pose proof Hq as Hq'. injection Hq' as E1 E2 E3 E4 E5 E6 E7 E8 E9 E10 E11 E12. rewrite E1 in *. rewrite Hrow in HF, Hv. cbn [br_user br_sources reservation_row_of] in HF, Hv. rewrite E2 in HF, Hv.
  split; cbn [rv_RequestID rv_row rv_AllocationGroups]; try done.
  - rewrite Hrow. exists a, i, c, o, m, g, pd. by split_and!.
  - destruct Hk as (k & ? & ?). rewrite E3 in *. rewrite E2 in *. eauto.
  - exists v, w. split; [|done]. by destruct d as [[[] ? ? ? ? ? ? ? ? ?] ? ? ? ? ? ? ? ? ?].
Qed.

(** The stores between the steps of a reservation. *)
Record reserved (p : BillingReservationParams) (d : admission_db) (r : BillingReservation) (d' : admission_db)
  (account : account_row) (groups : list GroupSummary) (g1 : group_db) (s2 : sub_db) (sources : list BillingFundingSource) (layers : list fundingLayer) : Prop := {
  rs_account : billing_accounts (ad_billing d) !! rp_UserID p = Some account;
  rs_groups : exists fallback, userFundingGroupsTx (rp_UserID p) (rp_Now p) (rp_Model p) (sd_groups (ad_subs d)) = Ok ((groups, fallback), g1);
  rs_roll : exists n, rollBillingSubscriptionsTx (rp_UserID p) (rp_Now p) (set_sub_groups g1 (ad_subs d)) = Ok (n, s2);
  rs_sources : sources ≡ₚ omap (subscription_source (rp_Model p) (rp_Now p) s2) (user_subs (rp_UserID p) s2) ++
    match cash_cutoff account (default default_flags (sd_flags (ad_subs d) !! rp_UserID p)) with
    | Some c => if cash_allowed (rp_Model p) s2 then [cash_source (numeric_text (balance_usd account)) (af_cash_priority (default default_flags (sd_flags (ad_subs d) !! rp_UserID p))) c] else []
    | None => [] end;
  rs_funded : rp_BillingMode p = BillingModeInternalZero \/ sources <> [] \/ groups <> [];
  rs_layers : layers <> [];
  rs_group_layers : forall l, l ∈ layers -> allAccounts l = false -> layer_of groups l /\ layer_pool (rp_UserID p) (rp_UpstreamProvider p) (set_ad_subs s2 d) l;
  rs_personal : forall l, l ∈ layers -> allAccounts l = true -> groupID l = "" /\ groupPeriodID l = "" /\ accountIDs l = [] /\ (sources <> [] \/ rp_BillingMode p = BillingModeInternalZero);
  rs_recorded : recorded p sources (cash_cutoff account (default default_flags (sd_flags (ad_subs d) !! rp_UserID p))) layers (set_ad_subs s2 d) r d';
}.

Lemma reserve_body_Ok p d r d' : isUpstreamProvider (rp_UpstreamProvider p) = true -> reserve_body uuid_parse collate digest decode_snapshot encode_snapshot p d = Ok (r, d') ->
  exists account groups g1 s2 sources layers, reserved p d r d' account groups g1 s2 sources layers.
Proof.
  intros Hp. unfold reserve_body. intros H. inv_tx H. destruct a as [account flags]. unfold lock_funding_account in Ht. rewrite tgets_bind in Ht. inv_tx Ht. apply tsome_Ok in Ht0 as [Ha ->].
  injection Ht as -> <- <-. inv_tx H. destruct a as [groups fallback]. apply tzoom_Ok in Ht as (t & Ht & ->). apply tzoom_Ok in Ht as (g1 & Hg & ->).
  inv_tx H. apply tzoom_Ok in Ht as (s2 & Hs & ->). adtables. cbv zeta in H. inv_tx H. apply tzoom_Ok in Ht as (t & Ht & ->). apply snapshot_Ok in Ht as [-> Hsrc]. adtables.
  replace (set_ad_subs s2 (set_ad_subs s2 (set_ad_subs (set_sub_groups g1 (ad_subs d)) d))) with (set_ad_subs s2 d) in H by by destruct d.
  destruct (negb _ && _ && _) eqn:Ez.
  { inv_tx H. apply tzoom_Ok in Ht as (? & ? & ->). done. }
  inv_tx H. apply layers_Ok in Ht as (-> & HL1 & HL2); [|done]. inv_tx H. apply tguard_Ok in Ht as [Hne ->]. apply negb_true_iff, bool_decide_eq_false in Hne.
  apply record_Ok in H. exists account, groups, g1, s2, a0, a1. split; try done; [by eexists|by eexists| |].
  - rewrite !andb_false_iff, negb_false_iff, bool_decide_eq_true, !bool_decide_eq_false in Ez. tauto.
  - intros l Hl Hall. destruct (HL2 l Hl Hall) as (? & ? & ? & Hor). split_and!; try done. destruct Hor as [Hor|]; [left|by right]. by apply negb_true_iff, bool_decide_eq_false in Hor.
Qed.

(** *** Frames *)

Lemma reserved_frame p d r d' account groups g1 s2 sources layers : reserved p d r d' account groups g1 s2 sources layers -> request_frame (ad_billing d) (sd_billing s2).
Proof.
  intros R. destruct (rs_groups _ _ _ _ _ _ _ _ _ _ R) as [f Hg]. destruct (rs_roll _ _ _ _ _ _ _ _ _ _ R) as [n Hr].
  apply rframe_funding in Hg. apply rframe_roll in Hr. unfold sub_request_frame, group_request_frame, sd_billing in *. stables. by transitivity (gd_billing g1).
Qed.

(** Every period has both halves of its row. *)
Definition group_halves (d : admission_db) : Prop := dom (gd_periods (sd_groups (ad_subs d))) = dom (group_periods (ad_billing d)).

Lemma reserved_money p d r d' account groups g1 s2 sources layers : reserved p d r d' account groups g1 s2 sources layers -> group_halves d -> money_inv (ad_billing d) -> money_inv (sd_billing s2).
Proof.
  intros R Hh M. destruct (rs_groups _ _ _ _ _ _ _ _ _ _ R) as [f Hg]. destruct (rs_roll _ _ _ _ _ _ _ _ _ _ R) as [n Hr].
  apply frame_funding in Hg. destruct (Hg Hh) as [_ K]. apply kept_roll in Hr as (_ & _ & K' & _). apply K'. unfold sd_billing. stables. by eapply spending_kept_inv.
Qed.

Lemma recorded_billing p sources cutoff layers d r d' : recorded p sources cutoff layers d r d' ->
  exists w, ad_billing d' = set_layers w (set_billing_reservations (<[rp_RequestID p := rv_row r]> (billing_reservations (ad_billing d))) (ad_billing d)) /\
    default [] (w !! rp_RequestID p) = default [] (reservation_layers (ad_billing d) !! rp_RequestID p) ++ layers /\ (forall i, i <> rp_RequestID p -> w !! i = reservation_layers (ad_billing d) !! i).
Proof. intros R. destruct (rec_store _ _ _ _ _ _ _ R) as (v & w & -> & Hw & Hi & _). exists w. split; [|done]. done. Qed.

Lemma recorded_rest p sources cutoff layers d r d' : recorded p sources cutoff layers d r d' ->
  ad_upstreams d' = ad_upstreams d /\ ad_pools d' = ad_pools d /\ ad_quota d' = ad_quota d /\ ad_usage d' = ad_usage d /\ ad_keys d' = ad_keys d /\ ad_projects d' = ad_projects d /\
  ad_access d' = ad_access d /\ sd_subs (ad_subs d') = sd_subs (ad_subs d) /\ sd_periods (ad_subs d') = sd_periods (ad_subs d) /\ sd_cash_models (ad_subs d') = sd_cash_models (ad_subs d) /\
  gd_periods (sd_groups (ad_subs d')) = gd_periods (sd_groups (ad_subs d)) /\ gd_groups (sd_groups (ad_subs d')) = gd_groups (sd_groups (ad_subs d)).
Proof. intros R. destruct (rec_store _ _ _ _ _ _ _ R) as (v & w & -> & _). by split_and!. Qed.

(** *** Where the money of a request comes from *)

Definition source_funded (d : admission_db) (user model : string) (t : Z) (s : BillingFundingSource) : Prop :=
  (SourceType s = "subscription" /\ CashLotCutoff s = 0 /\ exists sub p a, sd_subs (ad_subs d) !! SubscriptionID s = Some sub /\ sb_user sub = user /\ sb_enabled sub = true /\ sb_charge_enabled sub = true /\
     model ∈ sb_model_ids sub /\ sb_current_period sub = Some (PeriodID s) /\ sd_periods (ad_subs d) !! PeriodID s = Some p /\ sp_closed p = None /\ sp_starts p <= t < sp_ends p /\
     periods (ad_billing d) !! PeriodID s = Some a /\ 0 < period_remaining a) \/
  (SourceType s = "cash" /\ SubscriptionID s = "" /\ PeriodID s = "" /\ cash_allowed model (ad_subs d) = true /\
   exists a, billing_accounts (ad_billing d) !! user = Some a /\ 0 < balance_usd a /\ CashLotCutoff s = wrap64 (next_cash_lot_sequence a - 1) /\ 0 < CashLotCutoff s).

Lemma subscription_source_Some model t d x s : subscription_source model t d x = Some s ->
  SourceType s = "subscription" /\ SubscriptionID s = x.1 /\ CashLotCutoff s = 0 /\ sb_enabled x.2 = true /\ sb_charge_enabled x.2 = true /\ model ∈ sb_model_ids x.2 /\ sb_current_period x.2 = Some (PeriodID s) /\
  exists p a, sd_periods d !! PeriodID s = Some p /\ sp_closed p = None /\ sp_starts p <= t < sp_ends p /\ periods (sd_billing d) !! PeriodID s = Some a /\ 0 < period_remaining a.
Proof.
  unfold subscription_source. destruct (_ && _) eqn:Hc; [|done]. rewrite !andb_true_iff, bool_decide_eq_true in Hc. destruct Hc as [[[? ?] ?] ?].
  destruct (sb_current_period x.2) as [pid|]; [|done]. cbn [mbind option_bind]. destruct (sd_periods d !! pid) as [p|] eqn:Ep; [|done]. cbn [mbind option_bind].
  destruct (periods (sd_billing d) !! pid) as [a|] eqn:Ea; [|done]. cbn [mbind option_bind]. destruct (is_nil _ && _ && _ && _) eqn:Hp; [|done]. intros [= <-].
  rewrite !andb_true_iff in Hp. destruct Hp as [[[Hn Hp1] Hp2] Hp3]. cbn [SourceType SubscriptionID PeriodID CashLotCutoff]. split_and!; try done. exists p, a. split_and!; try done; [by destruct (sp_closed p)|lia..].
Qed.

Lemma reserved_source_funded p d r d' account groups g1 s2 sources layers : reserved p d r d' account groups g1 s2 sources layers ->
  Forall (source_funded d' (rp_UserID p) (rp_Model p) (rp_Now p)) sources.
Proof.
  intros R. pose proof (rs_recorded _ _ _ _ _ _ _ _ _ _ R) as Rec. destruct (recorded_billing _ _ _ _ _ _ _ Rec) as (w & Eb & _).
  destruct (recorded_rest _ _ _ _ _ _ _ Rec) as (_ & _ & _ & _ & _ & _ & _ & Es & Ep & Ec & _). pose proof (reserved_frame _ _ _ _ _ _ _ _ _ _ R) as F.
  change (ad_billing (set_ad_subs s2 d)) with (sd_billing s2) in Eb. adtables. apply Forall_forall. intros s Hs. rewrite (rs_sources _ _ _ _ _ _ _ _ _ _ R) in Hs. apply elem_of_app in Hs as [Hs|Hs].
  - left. apply list_elem_of_omap in Hs as (x & Hx & Hs). apply user_subs_elem in Hx as [Hx Hu].
    apply subscription_source_Some in Hs as (H1 & H2 & H3 & H4 & H5 & H6 & H7 & q & a & H8 & H9 & H10 & H11 & H12). split; [done|]. split; [done|].
    exists x.2, q, a. rewrite Es, Ep, Eb, H2. unfold set_layers. btables. split_and!; try done; lia.
  - right. destruct (cash_cutoff account _) as [c|] eqn:Hc; [|by apply elem_of_nil in Hs]. destruct (cash_allowed (rp_Model p) s2) eqn:Ha; [|by apply elem_of_nil in Hs].
    apply list_elem_of_singleton in Hs as ->. unfold cash_source. cbn [SourceType SubscriptionID PeriodID CashLotCutoff]. split_and!; try done.
    { unfold cash_allowed in *. by rewrite Ec. }
    exists account. rewrite Eb. unfold set_layers. btables. rewrite (rf_accounts _ _ F). split; [apply (rs_account _ _ _ _ _ _ _ _ _ _ R)|].
    unfold cash_cutoff in Hc. destruct (negb _ && _) eqn:Hb; [|done]. rewrite billingPositive_text in Hb. apply andb_true_iff in Hb as [_ Hb]. destruct (0 <? wrap64 _) eqn:Hw in Hc; [|done].
    injection Hc as <-. lia.
Qed.


(** *** The steps of an admission *)

Lemma begin_usage_Ok p d u d' : beginUsageRequestTx p d = Ok (u, d') ->
  usage_requests (ad_billing d) !! bu_RequestID p = None /\ u.1 = new_usage p /\ (um_user u.2, um_api_key u.2, um_device u.2) = (bu_UserID p, bu_APIKeyID p, bu_DeviceID p) /\
  d' = set_ad_usage (<[bu_RequestID p := u.2]> (ad_usage d)) (put_billing (set_usage (<[bu_RequestID p := new_usage p]> (usage_requests (ad_billing d))) (ad_billing d)) d).
Proof.
  unfold beginUsageRequestTx. rewrite tgets_bind. intros H. inv_tx H. apply tsome_Ok in Ht as [_ ->]. rewrite tguard_bind in H. destruct (_ && _) in H; [|done].
  rewrite tguard_bind in H. destruct (bool_decide_reflect (usage_requests (ad_billing d) !! bu_RequestID p = None)) as [Hn|]; [|done]. cbn [andb] in H. destruct (bool_decide _) in H; [|done].
  rewrite tguard_bind in H. destruct (_ || _) in H; [|done]. inv_tx H. apply tzoom_Ok in Ht as (b & Hb & ->). injection Hb as _ <-. rewrite tmod_bind in H. injection H as <- <-. by split_and!.
Qed.

(** Requests without a provider go to the first one. *)
Definition admission_provider (p : AdmitRequestParams) : string := if empty (am_UpstreamProvider p) then UpstreamProviderCodex else am_UpstreamProvider p.

Lemma admission_arguments_Ok clock p quota usage billing : admission_arguments clock p = Ok (quota, usage, billing) ->
  (exists now_, normalizeReserveQuota clock (with_quota_now now_ (am_Quota p)) = Ok quota) /\ bu_RequestID usage = rq_RequestID quota /\ bu_UserID usage = rq_UserID quota /\
  match billing with
  | None => am_Billing p = None /\ unbilled (bu_Endpoint usage) = true
  | Some b => unbilled (bu_Endpoint usage) = false /\ is_Some (am_Billing p) /\ rp_RequestID b = rq_RequestID quota /\ rp_UserID b = rq_UserID quota /\ isUpstreamProvider (rp_UpstreamProvider b) = true /\ rp_UpstreamProvider b = admission_provider p /\
              rp_Now b = instant (rq_Now quota) /\ rp_Model b = bu_Model usage
  end.
Proof.
  unfold admission_arguments. destruct (admission_times clock p) as [qu us] eqn:Et. intros H. inv_bind H. inv_bind H. destruct (_ || _) eqn:Hi; [done|]. inv_bind H.
  rewrite !orb_false_iff, !negb_false_iff, !bool_decide_eq_true in Hi. destruct Hi as [[[E1 E2] E3] E4]. rename Hm into Hq.
  assert (Hends : forall e billed, endpoint_billing e billed = Ok tt -> unbilled e = negb billed).
  { intros e billed. unfold endpoint_billing. case_bool_decide as He.
    - destruct billed; [done|]. intros _. rewrite !elem_of_cons, elem_of_nil in He. by destruct He as [->|[->|[]]].
    - case_bool_decide as He'; [|done]. destruct billed; [|done]. intros _. unfold billable_endpoints in He'. rewrite !elem_of_cons, elem_of_nil in He'. by destruct He' as [->|[->|[->|[->|[->|[]]]]]]. }
  destruct a1. apply Hends in Hm1. injection Et as <- _.
  destruct (am_Billing p) as [b|]; cbn [is_nil negb] in Hm1.
  - inv_bind H. injection H as <- <- <-. split; [eauto|]. split; [done|]. split; [done|]. unfold admission_billing in Hm. destruct (isUpstreamProvider _) eqn:Hp in Hm; [|done]. cbn [negb] in Hm.
    destruct (_ || _) eqn:Hi in Hm; [done|]. injection Hm as <-. cbn [rp_RequestID rp_UserID rp_UpstreamProvider rp_Now rp_Model].
    rewrite !orb_false_iff, !negb_false_iff, !bool_decide_eq_true in Hi. split_and!; try done. all: by destruct Hi as [[[[[? ?] _] ?] _] _].
  - injection H as <- <- <-. split; [eauto|]. by split_and!.
Qed.

(** The parts of a committed admission. *)
Record admitted_parts (clock : Z) (quota : ReserveQuotaParams) (usage : BeginUsageRequestParams) (billing : option BillingReservationParams) (d : admission_db) (adm : RequestAdmission)
  (ql q' : quota_db) (d1 d' : admission_db) : Prop := {
  ap_lock : lockQuotaScopes (rq_UserID quota) (rq_APIKeyID quota) (ad_quota d) = Ok (tt, ql);
  ap_billing : match billing with
    | None => d1 = set_ad_quota ql d /\ ra_Billing adm = None
    | Some b => exists r, ra_Billing adm = Some r /\ reserveBillingTx uuid_parse collate digest decode_snapshot encode_snapshot clock b (set_ad_quota ql d) = Ok (r, d1) end;
  ap_quota : reserveQuotaLockedTx quota (ad_quota d1) = Ok (ra_Quota adm, q');
  ap_usage : beginUsageRequestTx usage (set_ad_quota q' d1) = Ok (ra_Usage adm, d');
}.
Lemma admit_body_Ok clock access quota usage billing d adm d' :
  admit_body uuid_parse collate digest decode_snapshot encode_snapshot clock access quota usage billing d = Ok (adm, d') ->
  (access = true -> requireModelAccess (bu_UserID usage) (bu_Model usage) (ad_access d) = Ok tt) /\ exists ql q' d1, admitted_parts clock quota usage billing d adm ql q' d1 d'.
Proof.
  unfold admit_body. intros H. inv_tx H. destruct a. assert (s = d /\ (access = true -> requireModelAccess (bu_UserID usage) (bu_Model usage) (ad_access d) = Ok tt)) as [-> Hacc].
  { destruct access; [|by injection Ht as <-]. rewrite tgets_bind in Ht. by apply tlift_Ok in Ht as [-> ->]. }
  split; [done|]. clear Ht Hacc. inv_tx H. destruct a. apply tzoom_Ok in Ht as (ql & Hl & ->). inv_tx H. rename a into ob, s into d1, Ht into Hb.
  inv_tx H. apply tzoom_Ok in Ht as (q' & Hq & ->). inv_tx H. injection H as <- <-. exists ql, q', d1. split; cbn [ra_Billing ra_Quota ra_Usage]; try done.
  destruct billing as [b|]; [|by injection Hb as <- <-]. inv_tx Hb. injection Hb as <- <-. eauto.
Qed.

Lemma reserve_Ok_parts clock b d r d' : isUpstreamProvider (rp_UpstreamProvider b) = true ->
  reserveBillingTx uuid_parse collate digest decode_snapshot encode_snapshot clock b d = Ok (r, d') ->
  exists p account groups g1 s2 sources layers, reservation_arguments decode_snapshot clock b = Ok p /\ rp_RequestID p = rp_RequestID b /\ rp_UserID p = rp_UserID b /\
    rp_UpstreamProvider p = rp_UpstreamProvider b /\ rp_Model p = trim_space (rp_Model b) /\ (is_zero_time (rp_Now b) = false -> rp_Now p = rp_Now b) /\ reserved p d r d' account groups g1 s2 sources layers.
Proof.
  intros Hp. unfold reserveBillingTx. intros H. inv_tx H. apply tlift_Ok in Ht as [Ha ->].
  assert (E : rp_RequestID a = rp_RequestID b /\ rp_UserID a = rp_UserID b /\ rp_UpstreamProvider a = rp_UpstreamProvider b /\ rp_Model a = trim_space (rp_Model b) /\ (is_zero_time (rp_Now b) = false -> rp_Now a = rp_Now b)).
  { unfold reservation_arguments in Ha. cbv zeta in Ha. destruct (_ || _) in Ha; [done|]. inv_bind Ha. destruct (_ <? _) in Ha; [done|]. injection Ha as <-. cbn [with_now rp_RequestID rp_UserID rp_UpstreamProvider rp_Model rp_Now].
    assert (Hx : rp_RequestID a0 = rp_RequestID b /\ rp_UserID a0 = rp_UserID b /\ rp_UpstreamProvider a0 = rp_UpstreamProvider b /\ rp_Model a0 = trim_space (rp_Model b) /\ rp_Now a0 = rp_Now b).
    { destruct (_ =? PricingSchemaV1) in Hm.
      - unfold v1_pricing in Hm. destruct (_ || _) in Hm; [done|]. inv_bind Hm. inv_bind Hm. inv_bind Hm. by injection Hm as <-.
      - destruct (_ =? PricingSchemaV2) in Hm; [|done]. unfold v2_pricing in Hm. destruct (negb _) in Hm; [done|]. destruct (_ || _) in Hm; [done|]. destruct (negb _) in Hm; [done|].
        destruct (ParsePricingSnapshot _ _); [|done]. destruct (_ || _) in Hm; [done|]. destruct (_ && _) in Hm; [done|]. by injection Hm as <-. }
    destruct Hx as (-> & -> & -> & -> & ->). split_and!; try done. by intros ->. }
  destruct E as (E1 & E2 & E3 & E4 & E5). apply reserve_body_Ok in H as (account & groups & g1 & s2 & sources & layers & R); [|by rewrite E3]. by exists a, account, groups, g1, s2, sources, layers.
Qed.

Lemma quota_request_id quota d r d' : reserveQuotaLockedTx quota d = Ok (r, d') -> qr_RequestID r = rq_RequestID quota.
Proof.
  unfold reserveQuotaLockedTx. intros H. repeat (apply tbind_Ok in H as (? & ? & _ & H); repeat match goal with x : (_ * _)%type |- _ => destruct x end). by injection H as <- _.
Qed.

(** The writes that an admission makes besides its own rows keep the books. *)
Lemma reserved_other p d r d' account groups g1 s2 sources layers : reserved p d r d' account groups g1 s2 sources layers -> group_halves d -> money_inv (ad_billing d) ->
  other_writes (ad_billing d) (ad_billing d') /\ usage_requests (ad_billing d') = usage_requests (ad_billing d) /\ billing_reservations (ad_billing d) !! rp_RequestID p = None /\
  billing_reservations (ad_billing d') = <[rp_RequestID p := rv_row r]> (billing_reservations (ad_billing d)) /\ br_state (rv_row r) = Reserved.
Proof.
  intros R Hh M. pose proof (rs_recorded _ _ _ _ _ _ _ _ _ _ R) as Rec. destruct (recorded_billing _ _ _ _ _ _ _ Rec) as (w & Eb & _).
  pose proof (reserved_frame _ _ _ _ _ _ _ _ _ _ R) as F. pose proof (reserved_money _ _ _ _ _ _ _ _ _ _ R Hh M) as M2.
  destruct (rec_row _ _ _ _ _ _ _ Rec) as (q & i & c & o & m & g & pd & _ & Hrow & _). pose proof (rec_fresh _ _ _ _ _ _ _ Rec) as Hf.
  change (ad_billing (set_ad_subs s2 d)) with (sd_billing s2) in *. rewrite (rf_reservations _ _ F) in *.
  assert (Hst : br_state (rv_row r) = Reserved) by by rewrite Hrow. assert (Hck : reservation_row_check (rv_row r) = true) by by rewrite Hrow.
  rewrite Eb. unfold set_layers. btables. split; [|split; [apply (rf_usage _ _ F)|done]]. destruct M2. split; btables.
  - apply (rf_accounts _ _ F).
  - apply (rf_lots _ _ F).
  - apply (rf_allocations _ _ F).
  - done.
  - done.
  - done.
  - intros id x Hx. rewrite lookup_insert_ne; [done|]. congruence.
  - intros id x [[<- <-]|[_ Hx]]%lookup_insert_Some Hn; [done|congruence].
Qed.

(** Reading an admission that committed. *)
Lemma admit_Ok clock p d adm d' : AdmitRequest uuid_parse collate digest decode_snapshot encode_snapshot clock p d = (Ok adm, d') ->
  exists quota usage billing ql q' d1, admission_arguments clock p = Ok (quota, usage, billing) /\ admitted_parts clock quota usage billing d adm ql q' d1 d' /\
    (am_RequireModelAccess p = true -> requireModelAccess (bu_UserID usage) (bu_Model usage) (ad_access d) = Ok tt).
Proof.
  unfold AdmitRequest. destruct (admission_arguments clock p) as [[[quota usage] billing]|e]; [|done]. intros H.
  assert (Hw : withTx (admit_body uuid_parse collate digest decode_snapshot encode_snapshot clock (am_RequireModelAccess p) quota usage billing) d = (Ok adm, d')).
  { destruct billing; [|done]. unfold converge_after in H. destruct (withTx _ d) as [[x|[]] y]; try done. by destruct (convergeBillingSubscriptions _ _ _) as [[]]. }
  apply withTx_commit in Hw. apply admit_body_Ok in Hw as (Hacc & ql & q' & d1 & P). by exists quota, usage, billing, ql, q', d1.
Qed.

Lemma admission_step clock p d adm d' :
  AdmitRequest uuid_parse collate digest decode_snapshot encode_snapshot clock p d = (Ok adm, d') -> group_halves d -> money_inv (ad_billing d) ->
  (am_Billing p = None -> billing_reservations (ad_billing d) !! qr_RequestID (ra_Quota adm) = None) ->
  request_step decode_snapshot (gateway_of d) (gateway_of d') /\ (ra_Billing adm = None <-> am_Billing p = None) /\
  (forall r, ra_Billing adm = Some r -> rv_RequestID r = qr_RequestID (ra_Quota adm) /\ billing_reservations (ad_billing d') !! rv_RequestID r = Some (rv_row r)).
Proof.
  intros H Hh M Hfresh. apply admit_Ok in H as (quota & usage & billing & ql & q' & d1 & Ha & P & _). apply admission_arguments_Ok in Ha as ((now_ & Hn) & Eid & Eu & Hb).
  pose proof (ap_lock _ _ _ _ _ _ _ _ _ _ P) as Hl. pose proof (ap_quota _ _ _ _ _ _ _ _ _ _ P) as Hq. apply quota_request_id in Hq as Eq. pose proof (ap_usage _ _ _ _ _ _ _ _ _ _ P) as Hu.
  apply begin_usage_Ok in Hu as (Hun & Hu1 & _ & ->). pose proof (ap_billing _ _ _ _ _ _ _ _ _ _ P) as Hbill. rewrite Eq in *.
  change (ad_billing (set_ad_quota q' d1)) with (ad_billing d1) in *. rewrite Eid in *.
  assert (Hd1 : ad_quota d1 = ql /\ other_writes (ad_billing d) (ad_billing d1) /\ usage_requests (ad_billing d1) = usage_requests (ad_billing d) /\ billing_reservations (ad_billing d) !! rq_RequestID quota = None /\
    match billing with None => billing_reservations (ad_billing d1) = billing_reservations (ad_billing d)
    | Some b => exists r, ra_Billing adm = Some r /\ rv_RequestID r = rq_RequestID quota /\ billing_reservations (ad_billing d1) = <[rq_RequestID quota := rv_row r]> (billing_reservations (ad_billing d)) /\ br_state (rv_row r) = Reserved end).
  { destruct billing as [b|].
    - destruct Hb as (_ & _ & Er & _ & Hprov & _ & _). destruct Hbill as (r & Hr & Hres).
      apply reserve_Ok_parts in Hres as (q & account & groups & g1 & s2 & sources & layers & _ & Eq1 & _ & _ & _ & _ & R); [|done].
      destruct (reserved_other _ _ _ _ _ _ _ _ _ _ R Hh M) as (O & Hus & Hf & Hrows & Hst). change (ad_billing (set_ad_quota ql d)) with (ad_billing d) in *.
      pose proof (rs_recorded _ _ _ _ _ _ _ _ _ _ R) as Rec. destruct (recorded_rest _ _ _ _ _ _ _ Rec) as (_ & _ & Hquota & _). assert (Ei : rp_RequestID q = rq_RequestID quota) by congruence. rewrite Ei in Hf, Hrows.
      split_and!; try done. exists r. split_and!; try done. by rewrite (rec_id _ _ _ _ _ _ _ Rec).
    - destruct Hbill as [-> _]. destruct Hb as [Hb _]. split_and!; try done; [|by apply Hfresh]. change (ad_billing (set_ad_quota ql d)) with (ad_billing d). destruct M. split; try done. intros; congruence. }
  destruct Hd1 as (Hquota & O & Hus & Hf & Hrows). split.
  - change (gateway_of _) with (GatewayDB q' (set_usage (<[rq_RequestID quota := new_usage usage]> (usage_requests (ad_billing d1))) (ad_billing d1))) at 2.
    eapply (rs_admit _ clock (with_quota_now now_ (am_Quota p)) (ra_Quota adm)).
    + unfold ReserveQuota. rewrite Hn. apply withTx_commit. unfold reserveQuotaTx. cbn [Requests.quota gateway_of]. rewrite (tbind_run _ _ _ _ _ Hl). by rewrite <- Hquota.
    + rewrite Eq. split; cbn [Requests.billing gateway_of].
      * destruct O. split; btables; done.
      * by rewrite <- Hus.
      * exists (new_usage usage). btables. rewrite Hus. split; [done|]. cbn [u_endpoint new_usage]. destruct billing as [b|].
        -- destruct Hb as (-> & _). destruct Hrows as (r & _ & _ & -> & ?). by exists (rv_row r).
        -- destruct Hb as [_ ->]. done.
  - destruct billing as [b|].
    + destruct Hrows as (r & Hr & Er & Hrow & _). destruct Hb as (_ & [x Hx] & _). split. { by rewrite Hr, Hx. } clear Hx x.
      intros x Hx. rewrite Hr in Hx. injection Hx as <-. split; [by rewrite Er|]. change (billing_reservations (ad_billing d1) !! rv_RequestID r = Some (rv_row r)). by rewrite Hrow, Er, lookup_insert_eq.
    + destruct Hbill as [_ Hx]. destruct Hb as [Hb _]. rewrite Hx. split; [done|]. by intros r.
Qed.

(** [C4] Admission is a step of the request machine.  What one [AdmitRequest]
    writes, over groups and subscriptions that it may roll forward, is one
    admission step on quota and billing: the quota reservation that
    [ReserveQuota] makes, a usage row for a new request id and, exactly on the
    billed endpoints, one open billing reservation under the same id; balances,
    lots, allocations and every other reservation stay as they are. *)
Theorem admission_is_a_step clock p d adm d' :
  AdmitRequest uuid_parse collate digest decode_snapshot encode_snapshot clock p d = (Ok adm, d') -> group_halves d -> money_inv (ad_billing d) ->
  (am_Billing p = None -> billing_reservations (ad_billing d) !! qr_RequestID (ra_Quota adm) = None) ->
  request_step decode_snapshot (gateway_of d) (gateway_of d') /\ (ra_Billing adm = None <-> am_Billing p = None) /\
  (forall r, ra_Billing adm = Some r -> rv_RequestID r = qr_RequestID (ra_Quota adm) /\ billing_reservations (ad_billing d') !! rv_RequestID r = Some (rv_row r)).
Proof. apply admission_step. Qed.

(** *** A request that was admitted can be paid for *)

(** The layers of a request that its user may spend from: a group of his that is
    live, in its period, open to the model and with money left for the group and
    for him, over accounts of the group's pool that he is permitted to use; or
    his own funds. *)
Definition layer_funded (d : admission_db) (provider : string) (row : billing_reservation) (l : fundingLayer) : Prop :=
  if allAccounts l then groupID l = "" /\ groupPeriodID l = "" /\ accountIDs l = [] /\ (br_sources row <> [] \/ br_mode row = BillingModeInternalZero)
  else layer_pool (br_user row) provider d l /\ exists g, live_group (sd_groups (ad_subs d)) (groupID l) = Some g /\ gs_PeriodID g = groupPeriodID l /\
         group_usable (sd_groups (ad_subs d)) (br_user row) (br_created_at row) (br_model row) g = true.

Lemma reserved_columns p d r d' account groups g1 s2 sources layers : reserved p d r d' account groups g1 s2 sources layers ->
  br_user (rv_row r) = rp_UserID p /\ br_model (rv_row r) = rp_Model p /\ br_created_at (rv_row r) = rp_Now p /\ br_mode (rv_row r) = rp_BillingMode p /\ br_sources (rv_row r) = sources /\
  br_state (rv_row r) = Reserved /\ br_funding_rule (rv_row r) = 4.
Proof.
  intros R. destruct (rec_row _ _ _ _ _ _ _ (rs_recorded _ _ _ _ _ _ _ _ _ _ R)) as (q & i & c & o & m & g & pd & Hq & -> & _). injection Hq as E1 E2 E3 E4 E5 E6 E7 E8 E9 E10 E11 E12.
  by cbn [br_user br_model br_created_at br_mode br_sources br_state br_funding_rule reservation_row_of].
Qed.

Lemma summary_id id d g : group_summary_of id d = Some g -> gs_ID g = id.
Proof.
  unfold group_summary_of. destruct (gd_groups d !! id) as [x|]; [|done]. cbn. destruct (ug_current_period x) as [pid|]; [|done]. cbn. destruct (gd_periods d !! pid); [|done]. cbn.
  destruct (group_periods _ !! pid); [|done]. by intros [= <-].
Qed.

Lemma reserved_layers_funded p d r d' account groups g1 s2 sources layers : reserved p d r d' account groups g1 s2 sources layers ->
  groups_inv (sd_groups (ad_subs d)) -> group_time (rp_Now p) -> Forall (layer_funded d' (rp_UpstreamProvider p) (rv_row r)) layers.
Proof.
  intros R I Ht. pose proof (rs_recorded _ _ _ _ _ _ _ _ _ _ R) as Rec. destruct (reserved_columns _ _ _ _ _ _ _ _ _ _ R) as (Eu & Em & Ec & Eb & Es & _).
  destruct (rs_groups _ _ _ _ _ _ _ _ _ _ R) as [f Hg]. destruct (rs_roll _ _ _ _ _ _ _ _ _ _ R) as [n Hr].
  apply funding_groups_Ok in Hg; [|done|done|by exists account; exact (rs_account _ _ _ _ _ _ _ _ _ _ R)].
  pose proof (view_roll _ _ _ _ _ Hr) as Hv. apply rframe_roll in Hr. apply rf_members in Hr. unfold same_group_view, sd_billing in *. stables.
  destruct (rec_store _ _ _ _ _ _ _ Rec) as (v & w & Ed & _). apply Forall_forall. intros l Hl. unfold layer_funded. destruct (allAccounts l) eqn:Ha.
  - rewrite Es, Eb. by apply (rs_personal _ _ _ _ _ _ _ _ _ _ R).
  - destruct (rs_group_layers _ _ _ _ _ _ _ _ _ _ R l Hl Ha) as [(_ & g & Hgl & Eg & Ep) Hpool]. rewrite Eu, Em, Ec, Ed. split; [exact Hpool|]. exists g.
    rewrite Hg in Hgl. apply list_elem_of_In, filter_In in Hgl as [Hgl Hus]. apply list_elem_of_In, list_elem_of_omap in Hgl as (m & _ & Hlive).
    change (sd_groups (ad_subs (set_ad_sources _ _))) with (set_billing (set_layers w (set_billing_reservations (<[rp_RequestID p := rv_row r]> (billing_reservations (sd_billing s2))) (sd_billing s2))) (sd_groups s2)).
    set (g2 := set_billing _ _). assert (Hv2 : group_view g2 = group_view g1) by by rewrite <- Hv. unfold live_group in *. rewrite (view_summary _ _ _ Hv2).
    destruct (group_summary_of m.1 g1) as [g'|] eqn:E; [|done]. pose proof (summary_id _ _ _ E) as Eid. destruct (is_nil _) eqn:Hn in Hlive; [|done]. injection Hlive as ->.
    rewrite Eg, Eid, E, Hn, Ep. split; [done|]. split; [done|]. unfold group_usable, Membership.member_left in *.
    change (member_usage (gd_billing g2)) with (member_usage (gd_billing (sd_groups s2))). by rewrite Hr.
Qed.

Definition layers_referenced (b : billing_db) : Prop := forall id, is_Some (reservation_layers b !! id) -> is_Some (billing_reservations b !! id).

(** The reservation inside an admission; the quota and the usage row around it. *)
Lemma admitted_billing clock p d adm d' r :
  AdmitRequest uuid_parse collate digest decode_snapshot encode_snapshot clock p d = (Ok adm, d') -> ra_Billing adm = Some r ->
  exists q ql d1 account groups g1 s2 sources layers, rp_UpstreamProvider q = admission_provider p /\ rp_UserID q = um_user (ra_Usage adm).2 /\
    reserved q (set_ad_quota ql d) r d1 account groups g1 s2 sources layers /\
    exists v w q', d' = set_ad_usage v (put_billing (set_usage w (ad_billing d1)) (set_ad_quota q' d1)).
Proof.
  intros H Hr. apply admit_Ok in H as (quota & usage & billing & ql & q' & d1 & Ha & P & _). apply admission_arguments_Ok in Ha as (_ & _ & Eu & Hb).
  pose proof (ap_usage _ _ _ _ _ _ _ _ _ _ P) as Hu. apply begin_usage_Ok in Hu as (_ & _ & [= Hu _ _] & ->). pose proof (ap_billing _ _ _ _ _ _ _ _ _ _ P) as Hbill.
  destruct billing as [b|]; [|destruct Hbill; congruence]. destruct Hbill as (r' & Hr' & Hres). rewrite Hr in Hr'. injection Hr' as <-. destruct Hb as (_ & _ & _ & Ebu & Hprov & Eprov & _).
  apply reserve_Ok_parts in Hres as (q & account & groups & g1 & s2 & sources & layers & _ & _ & Equ & Eqp & _ & _ & R); [|done].
  exists q, ql, d1, account, groups, g1, s2, sources, layers. split; [congruence|]. split; [congruence|]. split; [done|]. do 3 eexists. reflexivity.
Qed.

Lemma reserved_tables p d r d' account groups g1 s2 sources layers : reserved p d r d' account groups g1 s2 sources layers -> layers_referenced (ad_billing d) ->
  rv_RequestID r = rp_RequestID p /\ billing_reservations (ad_billing d') !! rv_RequestID r = Some (rv_row r) /\ reservation_layers (ad_billing d') !! rv_RequestID r = Some layers.
Proof.
  intros R Hfk. pose proof (rs_recorded _ _ _ _ _ _ _ _ _ _ R) as Rec. destruct (recorded_billing _ _ _ _ _ _ _ Rec) as (w & Eb & Hw & _). pose proof (reserved_frame _ _ _ _ _ _ _ _ _ _ R) as F.
  pose proof (rec_fresh _ _ _ _ _ _ _ Rec) as Hf. change (ad_billing (set_ad_subs s2 d)) with (sd_billing s2) in *. rewrite (rf_reservations _ _ F) in Hf, Eb. rewrite (rf_layers _ _ F) in Hw.
  assert (Hnone : reservation_layers (ad_billing d) !! rp_RequestID p = None).
  { destruct (reservation_layers (ad_billing d) !! rp_RequestID p) eqn:E; [|done]. destruct (Hfk (rp_RequestID p)); [by rewrite E|congruence]. }
  rewrite Hnone in Hw. cbn [default app] in Hw. rewrite (rec_id _ _ _ _ _ _ _ Rec), Eb. unfold set_layers. btables. split; [done|]. split; [apply lookup_insert_eq|].
  destruct (w !! rp_RequestID p) as [ls|]; cbn in Hw; [by subst|]. by destruct (rs_layers _ _ _ _ _ _ _ _ _ _ R).
Qed.

(** [C5] A billed request that was admitted can be paid for and forwarded.  In
    the store that admission leaves, its reservation is open and records at
    least one funding layer, the layers are the account pools of the answer, and
    each is backed there and then: a group layer by a live group of the user that
    covers the model, is in its period and has money left for the group and for
    him, over accounts of that group's pool that he may use; the personal layer
    by at least one source, and every source is an enabled subscription of his
    for the model with an open, unspent period, or cash that the model may use
    and that he has.  Only internal zero-price requests need no source. *)
Theorem admission_funded clock p d adm d' r :
  AdmitRequest uuid_parse collate digest decode_snapshot encode_snapshot clock p d = (Ok adm, d') -> ra_Billing adm = Some r ->
  groups_inv (sd_groups (ad_subs d)) -> group_time (br_created_at (rv_row r)) -> layers_referenced (ad_billing d) ->
  let row := rv_row r in
  billing_reservations (ad_billing d') !! rv_RequestID r = Some row /\ br_state row = Reserved /\ br_user row = um_user (ra_Usage adm).2 /\
  (exists layers, reservation_layers (ad_billing d') !! rv_RequestID r = Some layers /\ layers <> [] /\ rv_AllocationGroups r = allocationGroup <$> layers /\
     Forall (layer_funded d' (admission_provider p) row) layers) /\
  Forall (source_funded d' (br_user row) (br_model row) (br_created_at row)) (br_sources row).
Proof.
  intros H Hr I Ht Hfk row. subst row. destruct (admitted_billing _ _ _ _ _ _ H Hr) as (q & q1 & d1 & account & groups & g1 & s2 & sources & layers & Eprov & Eu & R & v & w & q' & ->).
  destruct (reserved_tables _ _ _ _ _ _ _ _ _ _ R Hfk) as (E0 & H1 & H2). destruct (reserved_columns _ _ _ _ _ _ _ _ _ _ R) as (E1 & E2 & E3 & _ & E5 & E6 & _). rewrite E3 in Ht.
  split; [exact H1|]. split; [done|]. split; [by rewrite E1|]. split.
  - exists layers. split; [exact H2|]. split; [apply (rs_layers _ _ _ _ _ _ _ _ _ _ R)|]. split; [apply (rec_groups _ _ _ _ _ _ _ (rs_recorded _ _ _ _ _ _ _ _ _ _ R))|].
    rewrite <- Eprov. exact (reserved_layers_funded _ _ _ _ _ _ _ _ _ _ R I Ht).
  - rewrite E1, E2, E3, E5. exact (reserved_source_funded _ _ _ _ _ _ _ _ _ _ R).
Qed.

(** *** An admitted request can be settled *)

Definition source_key (s : BillingFundingSource) : string := if bool_decide (SourceType s = "subscription") then PeriodID s else "cash".
Definition source_valid (s : BillingFundingSource) : Prop :=
  (SourceType s = "subscription" /\ PeriodID s <> "" /\ SubscriptionID s <> "" /\ CashLotCutoff s = 0) \/
  (SourceType s = "cash" /\ PeriodID s = "" /\ SubscriptionID s = "" /\ 0 < CashLotCutoff s).
Lemma check_sources_Ok sources : forall seen, Forall source_valid sources -> NoDup (source_key <$> sources) -> (forall k, k ∈ source_key <$> sources -> k ∉ seen) ->
  check_sources seen sources = Ok tt.
Proof.
  induction sources as [|s rest IH]; intros seen HF Hn Hs; [done|]. apply Forall_cons in HF as [Hv HF]. rewrite fmap_cons in Hn, Hs. apply NoDup_cons in Hn as [Hn1 Hn2]. cbn [check_sources].
  assert (Hk : source_key s ∉ seen) by (apply Hs; left).
  assert (Hnext : check_sources (source_key s :: seen) rest = Ok tt).
  { apply IH; [done|done|]. intros k Hk1 [->|Hk2]%elem_of_cons; [done|]. by apply (Hs k); [right|]. }
  revert Hk Hnext. unfold source_key. destruct Hv as [(-> & H1 & H2 & H3)|(-> & H1 & H2 & H3)].
  - rewrite bool_decide_true by done. rewrite !bool_decide_false by done. rewrite H3. cbn. intros Hk. by rewrite bool_decide_false.
  - rewrite bool_decide_false by done. rewrite !bool_decide_true by done. replace (CashLotCutoff s <? 1) with false by lia. cbn. intros Hk. by rewrite bool_decide_false.
Qed.

(** The references between the tables that admission and settlement follow: ids
    of subscriptions and periods are UUIDs, a subscription's current period is
    its own, and a group period belongs to a group. *)
Record linked (d : admission_db) : Prop := {
  lk_periods : forall id, is_Some (periods (ad_billing d) !! id) -> id <> "" /\ id <> "cash";
  lk_subs : forall id, is_Some (sd_subs (ad_subs d) !! id) -> id <> "";
  lk_current : map_Forall (own_period (ad_subs d)) (sd_subs (ad_subs d));
  lk_groups : forall pid g, group_periods (ad_billing d) !! pid = Some g -> gp_group g ∈ user_groups (ad_billing d);
}.

Lemma funded_valid d user model t s : linked d -> source_funded d user model t s -> source_valid s.
Proof.
  intros L [(H1 & H2 & sub & p & a & H3 & _ & _ & _ & _ & _ & _ & _ & _ & H4 & _)|(H1 & H2 & H3 & _ & a & _ & _ & _ & H4)]; [left|by right].
  destruct (lk_periods d L (PeriodID s)) as [? _]; [by rewrite H4|]. split_and!; try done. apply (lk_subs d L). by rewrite H3.
Qed.
Lemma subscription_keys model t d user : map_Forall (own_period d) (sd_subs d) -> (forall id, is_Some (periods (sd_billing d) !! id) -> id <> "" /\ id <> "cash") ->
  NoDup (source_key <$> omap (subscription_source model t d) (user_subs user d)) /\ "cash" ∉ source_key <$> omap (subscription_source model t d) (user_subs user d).
Proof.
  intros Hown Hne. pose proof (user_subs_NoDup user d) as Hn. pose proof (fun x => proj1 (user_subs_elem user d x)) as Hel. revert Hn Hel. generalize (user_subs user d) as l.
  assert (Hkey : forall x s, sd_subs d !! x.1 = Some x.2 -> subscription_source model t d x = Some s -> source_key s <> "cash" /\ exists m, periods (sd_billing d) !! source_key s = Some m /\ period_subscription m = x.1).
  { intros x s Hx (H1 & _ & _ & _ & _ & _ & H2 & p & a & _ & _ & _ & H3 & _)%subscription_source_Some. unfold source_key. rewrite bool_decide_true by done.
    split; [apply Hne; by rewrite H3|]. by apply (Hown x.1 x.2). }
  assert (Hall : forall (l : list (string * subscription_row)) k, (forall x, x ∈ l -> sd_subs d !! x.1 = Some x.2 /\ sb_user x.2 = user) -> k ∈ source_key <$> omap (subscription_source model t d) l ->
    exists x m, x ∈ l /\ k <> "cash" /\ periods (sd_billing d) !! k = Some m /\ period_subscription m = x.1).
  { intros l k Hel (s & -> & (x & Hx & Hs)%list_elem_of_omap)%list_elem_of_fmap. destruct (Hkey x s) as (? & m & ? & ?); [by apply Hel|done|]. by exists x, m. }
  induction l as [|x l IH]; intros Hn Hel; [split; [constructor|apply not_elem_of_nil]|]. cbn [map] in Hn. apply NoDup_cons in Hn as [Hn1 Hn2].
  destruct (IH Hn2) as [I1 I2]; [intros y Hy; apply Hel; by right|]. cbn [omap list_omap]. destruct (subscription_source model t d x) as [s|] eqn:Es; [|done]. rewrite fmap_cons.
  destruct (Hkey x s) as (K1 & m & K2 & K3); [apply Hel; left|done|]. split.
  - constructor; [|done]. intros Hin. destruct (Hall l (source_key s)) as (y & m' & Hy & _ & E1 & E2); [intros y Hy; apply Hel; by right|done|].
    apply Hn1. assert (x.1 = y.1) as -> by congruence. by apply list_elem_of_fmap_2.
  - intros [E|E]%elem_of_cons; [congruence|done].
Qed.

(** The rows that a reservation's settlement will look up. *)
Lemma reserved_ready p d r d1 account groups g1 s2 sources layers : reserved p d r d1 account groups g1 s2 sources layers -> layers_referenced (ad_billing d) -> linked d1 ->
  forall us u n tokens decision, us !! rv_RequestID r = Some u -> terminal u = true -> u_input u <= max_int64 -> settlement_cost decode_snapshot (rv_row r) u = Ok (numeric_text n, tokens, decision) ->
  settle_ready decode_snapshot (set_usage us (ad_billing d1)) (rv_RequestID r) (rv_row r) u n tokens decision sources.
Proof.
  intros R Hfk L us u n tokens decision Hus Hterm Hin Hcost. destruct (reserved_tables _ _ _ _ _ _ _ _ _ _ R Hfk) as (_ & H1 & H2). destruct (reserved_columns _ _ _ _ _ _ _ _ _ _ R) as (E1 & E2 & E3 & _ & E5 & E6 & E7).
  pose proof (reserved_source_funded _ _ _ _ _ _ _ _ _ _ R) as HS. pose proof (rs_recorded _ _ _ _ _ _ _ _ _ _ R) as Rec.
  destruct (recorded_billing _ _ _ _ _ _ _ Rec) as (w & Eb & _). destruct (recorded_rest _ _ _ _ _ _ _ Rec) as (_ & _ & _ & _ & _ & _ & _ & Es & _).
  change (ad_billing (set_ad_subs s2 d)) with (sd_billing s2) in *. change (ad_subs (set_ad_subs s2 d)) with s2 in *.
  assert (Ep : periods (ad_billing d1) = periods (sd_billing s2)) by by rewrite Eb. assert (Eg : group_periods (ad_billing d1) = group_periods (sd_billing s2)) by by rewrite Eb.
  assert (Hrows : forall g pid row, group_periods (sd_billing s2) !! pid = Some row -> gp_group row = g -> group_rows_exist (ad_billing d1) g pid).
  { intros g pid row Hrow <-. rewrite <- Eg in Hrow. split; [by apply (lk_groups d1 L pid)|]. by exists row. }
  split; btables; try done.
  - unfold settlement_sources, billingSettlementSources. rewrite E7, E5. cbn [Z.eqb orb]. rewrite check_sources_Ok; [done| | |intros k _; apply not_elem_of_nil].
    { eapply Forall_impl; [exact HS|]. intros s. by apply funded_valid. }
    destruct (subscription_keys (rp_Model p) (rp_Now p) s2 (rp_UserID p)) as [Hn Hc].
    { pose proof (lk_current d1 L) as Hc. rewrite Es in Hc. intros id s Hs pid Hpid. unfold sd_billing. fold (sd_billing s2). rewrite <- Ep. by apply (Hc id s Hs pid). }
    { rewrite <- Ep. apply (lk_periods d1 L). }
    rewrite (rs_sources _ _ _ _ _ _ _ _ _ _ R), fmap_app. apply NoDup_app. split; [done|].
    destruct (cash_cutoff _ _); [destruct (cash_allowed _ _)|]; cbn [fmap list_fmap]; split; try (by intros x _ ?%elem_of_nil); try apply NoDup_nil_2; try apply NoDup_singleton.
    intros x Hx ->%list_elem_of_singleton. by apply Hc.
  - rewrite E1. apply Forall_forall. intros s Hs. pose proof (rec_sources _ _ _ _ _ _ _ Rec) as Hok. rewrite Forall_forall in HS, Hok. specialize (HS s Hs). specialize (Hok s Hs).
    destruct HS as [(T1 & _ & sub & q & a & Q1 & Q2 & _ & _ & _ & Q3 & _ & _ & _ & Q4 & _)|(T1 & _)]; [right|by left].
    exists a. split; [exact Q4|]. unfold bound_period. rewrite T1. unfold source_row_ok, source_row in Hok. rewrite T1 in Hok. cbn [sf_period sf_cutoff bool_decide] in Hok.
    rewrite bool_decide_true in Hok by done. cbn in Hok. change (ad_billing (set_ad_subs s2 d)) with (sd_billing s2) in Hok. rewrite <- Ep, Q4 in Hok. cbn in Hok.
    destruct (lk_current d1 L _ _ Q1 _ Q3) as (m & M1 & M2). fold (ad_billing d1) in M1. assert (m = a) as -> by congruence. rewrite Hok, M2. by rewrite (bool_decide_true (SubscriptionID s = _)), (bool_decide_true ("subscription" = _)).
  - rewrite E1. exists account. rewrite Eb. unfold set_layers. btables. rewrite (rf_accounts _ _ (reserved_frame _ _ _ _ _ _ _ _ _ _ R)). exact (rs_account _ _ _ _ _ _ _ _ _ _ R).
  - destruct (rec_row _ _ _ _ _ _ _ Rec) as (q & i & c & o & m & g & pd & _ & -> & Href & _). unfold binding_exists. cbn [br_group br_group_period reservation_row_of]. unfold group_reference in Href.
    change (ad_billing (set_ad_subs s2 d)) with (sd_billing s2) in Href. destruct g as [g|], pd as [pd|]; try done. destruct (group_periods (sd_billing s2) !! pd) as [row|] eqn:Ed; [|done].
    apply bool_decide_eq_true in Href. exact (Hrows g pd row Ed Href).
  - intros _. exists layers. split; [done|]. split; [apply (rs_layers _ _ _ _ _ _ _ _ _ _ R)|]. eapply Forall_impl; [exact (rec_layers _ _ _ _ _ _ _ Rec)|]. intros l [_ Hl] Ha. destruct (Hl Ha) as (row & Hrow & Hg).
    exact (Hrows _ _ row Hrow Hg).
  - rewrite E7. done.
Qed.

(** Everything that settlement looks up (the recorded sources, without duplicates,
    their periods, the account, the bound group and the rows of every layer) is in
    the store that admission left. *)
Lemma admitted_ready clock p d adm d' r us u n tokens decision :
  AdmitRequest uuid_parse collate digest decode_snapshot encode_snapshot clock p d = (Ok adm, d') -> ra_Billing adm = Some r -> layers_referenced (ad_billing d) -> linked d' ->
  us !! rv_RequestID r = Some u -> terminal u = true -> u_input u <= max_int64 -> settlement_cost decode_snapshot (rv_row r) u = Ok (numeric_text n, tokens, decision) ->
  rv_RequestID r <> "" /\ exists sources, settle_ready decode_snapshot (set_usage us (ad_billing d')) (rv_RequestID r) (rv_row r) u n tokens decision sources.
Proof.
  intros H Hr Hfk L Hus Hterm Hin Hcost. destruct (admitted_billing _ _ _ _ _ _ H Hr) as (q & q1 & d1 & account & groups & g1 & s2 & sources & layers & _ & _ & R & v & w & q' & ->).
  assert (L1 : linked d1) by (destruct L; by split). split; [|exists sources; by apply (reserved_ready _ _ _ _ _ _ _ _ _ _ R)].
  rewrite (rec_id _ _ _ _ _ _ _ (rs_recorded _ _ _ _ _ _ _ _ _ _ R)). pose proof (rec_check _ _ _ _ _ _ _ (rs_recorded _ _ _ _ _ _ _ _ _ _ R)) as Hc. by intros E; rewrite E in Hc.
Qed.

(** *** Refusals *)

Lemma rframe_converge u t d : sub_request_frame d (convergeBillingSubscriptions u t d).2.
Proof.
  assert (K : keeps sub_request_frame (in_billing (lockBillingAccountTx u) ;; expireBillingSubscriptionsTx u t)).
  { apply keeps_bind; [exact _| |].
    - apply rframe_in_billing. intros b x b'. unfold lockBillingAccountTx. rewrite tgets_bind. intros H. inv_tx H. apply tsome_Ok in Ht as [_ ->]. unfold lockNonPendingUserTx in H. inv_tx H. injection Ht as _ ->. inv_tx H. apply tsome_Ok in Ht as [_ ->]. by apply tguard_Ok in H as [_ ->].
    - intros _. unfold expireBillingSubscriptionsTx. apply keeps_bind; [exact _|apply keeps_gets; exact _|]. intros l. apply keeps_bind; [exact _| |keeps_tac].
      induction l as [|[[[id e] pid] p] l IH]; cbn [expire_each]; [apply keeps_ret; exact _|]. unfold expire_one. keeps_tac. }
  unfold convergeBillingSubscriptions, convergeBillingSubscriptionsCount, withTx. destruct ((_ ;; _) d) as [[x d']|e] eqn:E; [|cbn; reflexivity]. cbn [snd]. by apply K in E.
Qed.

End committed.

(** ** A sample admission *)

(** Ann is in one group with ten dollars a week and has a weekly subscription. *)
Definition adm_billing : billing_db :=
  BillingDB {["ann" := "active"]} {["ann" := Account 0 1 0]} ∅ {["p1" := Period "s1" "ann" (Some "week") (usd 10) (usd 10) 0]} {["g1"]}
    {["gp1" := GroupPeriod "g1" (usd 10) 0 (Some (usd 4))]} ∅ ∅ ∅ ∅ [] ∅ ∅ ∅ (Settings 1 0 None) [].
Definition adm_group : group_row :=
  {| ug_name := "team"; ug_limit := usd 10; ug_member_limit := Some (usd 4); ug_period := "week"; ug_custom_days := 0; ug_starts_at := demo_start; ug_current_period := Some "gp1";
     ug_period_count := 0; ug_current_number := 1; ug_expires_at := None; ug_archived_at := None; ug_created_at := demo_start; ug_updated_at := demo_start; ug_model_ids := ["gpt-5"];
     ug_models_initialized := true; ug_usage_visible := false |}.
Definition adm_groups : group_db :=
  GroupDB adm_billing ∅ ∅ {["g1" := adm_group]} {["gp1" := PeriodTimes demo_start (demo_start + 7 * Day24) None demo_start]}
    (Some {[("g1", "ann") := Membership 100 demo_start demo_start]}) ∅ ∅ [].
Definition adm_sub : subscription_row :=
  {| sb_user := "ann"; sb_name := "weekly"; sb_tier := "week"; sb_enabled := true; sb_allowance := usd 10; sb_current_period := Some "p1"; sb_period_count := 0; sb_current_number := 1;
     sb_expires_at := None; sb_disabled_at := None; sb_created_at := demo_start; sb_updated_at := demo_start; sb_period_days := 7; sb_model_ids := ["gpt-5"]; sb_models_initialized := true;
     sb_charge_enabled := true; sb_priority := 1; sb_plan := None; sb_config_version := 1 |}.
Definition adm_period : sub_period :=
  {| sp_starts := demo_start; sp_ends := demo_start + 7 * Day24; sp_number := 1; sp_count := 0; sp_days := 7; sp_entitlement := "e1"; sp_closed := None; sp_created := demo_start |}.
Definition adm_subs : sub_db := SubDB adm_groups {["s1" := adm_sub]} ∅ {["p1" := adm_period]} ∅ ∅ (true, ["gpt-5"]) ∅ ∅ 1.
Definition adm_account : upstream_account :=
  {| ac_provider := "codex"; ac_display_name := "slot-a"; ac_alias := ""; ac_masked_email := ""; ac_plan := ""; ac_status := "available"; ac_last_synced := None; ac_created_at := 0;
     ac_updated_at := 0; ac_weight := 1; ac_limit := 1; ac_access_mode := "shared" |}.
Definition adm_upstreams : upstream_db := set_upstream_accounts {[acct_a := adm_account]} pool_start.
Definition adm_db : admission_db := AdmissionDB adm_subs adm_upstreams (PoolTables (Some ∅) ∅ ∅) (PriceTables ∅ ∅ ∅) no_access (QuotaDB ∅ ∅ ∅ ∅ ∅ {[ ("ak1", "ann") ]})
  {["ak1" := ApiKey "ann" "dev1" "cgk"]} ∅ ∅ ∅.

Definition adm_quota : ReserveQuotaParams := {| rq_RequestID := demo_id; rq_UserID := "ann"; rq_APIKeyID := "ak1"; rq_Day := Zoned 0 0; rq_Now := Zoned (demo_start + Hour) 0;
  rq_ReservedTokens := 100; rq_LeaseTTL := 0; rq_Limits := demo_limits |}.
Definition adm_usage (model : string) : BeginUsageRequestParams := {| bu_RequestID := demo_id; bu_UserID := "ann"; bu_DeviceID := "dev1"; bu_APIKeyID := "ak1"; bu_ProjectID := ""; bu_Model := model;
  bu_RequestedServiceTier := ""; bu_PricingRuleVersion := 0; bu_Endpoint := "responses"; bu_RequestedAt := Zoned 0 0; bu_RequestBytes := 10 |}.
Definition adm_price (model : string) : BillingReservationParams := {| rp_RequestID := demo_id; rp_UserID := "ann"; rp_APIKeyID := "ak1"; rp_Model := model; rp_InputUSDPerMillion := "1";
  rp_CachedInputUSDPerMillion := "0.1"; rp_OutputUSDPerMillion := "10"; rp_PricingRuleVersion := 0; rp_BillingMode := ""; rp_PricingCatalogAsOf := ""; rp_PricingModel := ""; rp_PricingSnapshot := "";
  rp_CacheWriteMode := ""; rp_RequestedServiceTier := ""; rp_UpstreamProvider := ""; rp_Now := 0 |}.
Definition adm_params (model : string) : AdmitRequestParams :=
  {| am_Quota := adm_quota; am_Usage := adm_usage model; am_Billing := Some (adm_price model); am_RequireModelAccess := false; am_UpstreamProvider := "" |}.
Definition adm_run (model : string) : result store_error RequestAdmission * admission_db :=
  AdmitRequest Some demo_collate (fun _ _ _ => "") (fun _ => None) (fun _ => "") demo_start (adm_params model) adm_db.

Lemma adm_groups_inv : groups_inv (sd_groups (ad_subs adm_db)).
Proof.
  change (sd_groups (ad_subs adm_db)) with adm_groups. split; unfold adm_groups, adm_billing; gtables; btables.
  - intros id g [<- <-]%lookup_singleton_Some. exists "gp1", (PeriodTimes demo_start (demo_start + 7 * Day24) None demo_start), (GroupPeriod "g1" (usd 10) 0 (Some (usd 4))), (7 * Day24).
    split; try (vm_compute; reflexivity); try done; try (vm_compute; split; (reflexivity || discriminate)).
  - vm_compute. reflexivity.
  - vm_compute. reflexivity.
  - intros pid p [<- <-]%lookup_singleton_Some. exists adm_group. vm_compute. reflexivity.
Qed.
Lemma adm_halves : group_halves adm_db.
Proof. exact (gi_periods _ adm_groups_inv). Qed.
Lemma adm_layers : layers_referenced (ad_billing adm_db).
Proof. intros id [x Hx]. change (reservation_layers (ad_billing adm_db)) with (∅ : gmap string (list fundingLayer)) in Hx. rewrite lookup_empty in Hx. discriminate Hx. Qed.
Lemma adm_money : money_inv (ad_billing adm_db).
Proof.
  change (ad_billing adm_db) with adm_billing. split; unfold adm_billing; btables.
  - intros u a [<- <-]%lookup_singleton_Some. split; vm_compute; reflexivity.
  - intros id l. by rewrite lookup_empty.
  - intros id p [<- <-]%lookup_singleton_Some. by vm_compute.
  - intros id g [<- <-]%lookup_singleton_Some. by vm_compute.
  - intros p u n. by rewrite lookup_empty.
  - intros id r. by rewrite lookup_empty.
  - intros id. rewrite lookup_empty. reflexivity.
  - intros id o [x Hx]. by rewrite lookup_empty in Hx.
Qed.

(** What the samples below use of the committed admission, checked in one run. *)
Definition adm_linked (d : admission_db) : bool :=
  bool_decide (map_Forall (fun id _ => id <> "" /\ id <> "cash") (periods (ad_billing d))) && bool_decide (map_Forall (fun id _ => id <> "") (sd_subs (ad_subs d))) &&
  bool_decide (map_Forall (fun id s => match sb_current_period s with Some pid => bool_decide ((period_subscription <$> periods (ad_billing d) !! pid) = Some id) | None => true end = true) (sd_subs (ad_subs d))) &&
  bool_decide (map_Forall (fun _ g => gp_group g ∈ user_groups (ad_billing d)) (group_periods (ad_billing d))).
Definition adm_row (r : BillingReservation) : bool :=
  bool_decide (rv_RequestID r = demo_id) && (br_created_at (rv_row r) =? demo_start + Hour) && bool_decide (map SourceType (br_sources (rv_row r)) = ["subscription"]) &&
  bool_decide (map (fun g => (ag_GroupID g, ag_AllAccounts g)) (rv_AllocationGroups r) = [("g1", false); (PersonalFundingLayerID, true)]) &&
  match settlement_cost (fun _ => None) (rv_row r) billed_usage with Ok (cost, 0, None) => bool_decide (cost = numeric_text (usd 1)) | _ => false end.
Definition adm_facts : bool :=
  match adm_run "gpt-5" with (Ok adm, d') => match ra_Billing adm with Some r => adm_row r | None => false end && adm_linked d' | (Err _, _) => false end.
Lemma adm_facts_true : adm_facts = true.
Proof. vm_compute. reflexivity. Qed.

Lemma adm_linked_ok d : adm_linked d = true -> linked d.
Proof.
  unfold adm_linked. rewrite !andb_true_iff, !bool_decide_eq_true. intros [[[H1 H2] H3] H4]. split.
  - intros id [p Hp]. exact (H1 id p Hp).
  - intros id [p Hp]. exact (H2 id p Hp).
  - intros id s Hs pid Hpid. specialize (H3 id s Hs). cbv beta in H3. rewrite Hpid in H3. apply bool_decide_eq_true, fmap_Some in H3 as (m & Hm & E). by exists m.
  - intros pid g Hg. exact (H4 pid g Hg).
Qed.
Lemma adm_admitted : exists adm d' r, adm_run "gpt-5" = (Ok adm, d') /\ ra_Billing adm = Some r /\ adm_row r = true /\ linked d'.
Proof.
  pose proof adm_facts_true as H. unfold adm_facts in H. destruct (adm_run "gpt-5") as [[adm|] d']; [|discriminate H]. destruct (ra_Billing adm) as [r|] eqn:Er; [|discriminate H].
  apply andb_true_iff in H as [H1 H2]. exists adm, d', r. split; [reflexivity|]. split; [exact Er|]. split; [exact H1|]. by apply adm_linked_ok.
Qed.
Lemma adm_row_facts r : adm_row r = true -> rv_RequestID r = demo_id /\ group_time (br_created_at (rv_row r)) /\ br_sources (rv_row r) <> [] /\
  settlement_cost (fun _ => None) (rv_row r) billed_usage = Ok (numeric_text (usd 1), 0, None).
Proof.
  unfold adm_row. rewrite !andb_true_iff, !bool_decide_eq_true, Z.eqb_eq. intros [[[[H1 H2] H3] _] H4]. split; [done|]. split; [rewrite H2; by vm_compute|]. split; [by intros E; rewrite E in H3|].
  destruct (settlement_cost _ _ _) as [[[c []] []]|]; try discriminate H4. apply bool_decide_eq_true in H4. by rewrite H4.
Qed.

Lemma admission_is_a_step_witness : exists adm d' r, adm_run "gpt-5" = (Ok adm, d') /\ ra_Billing adm = Some r /\ request_step (fun _ => None) (gateway_of adm_db) (gateway_of d') /\
  billing_reservations (ad_billing d') !! rv_RequestID r = Some (rv_row r).
Proof.
  destruct adm_admitted as (adm & d' & r & H & Hr & _).
  destruct (admission_is_a_step Some demo_collate (fun _ _ _ => "") (fun _ => None) (fun _ => "") demo_start (adm_params "gpt-5") adm_db adm d' H adm_halves adm_money ltac:(discriminate)) as (S & _ & Hb).
  exists adm, d', r. split; [exact H|]. split; [exact Hr|]. split; [exact S|]. exact (proj2 (Hb r Hr)).
Defined.

Lemma admission_funded_witness : exists adm d' r layers, adm_run "gpt-5" = (Ok adm, d') /\ ra_Billing adm = Some r /\ reservation_layers (ad_billing d') !! rv_RequestID r = Some layers /\
  Forall (layer_funded Some d' "codex" (rv_row r)) layers /\ Forall (source_funded d' (br_user (rv_row r)) (br_model (rv_row r)) (br_created_at (rv_row r))) (br_sources (rv_row r)) /\ br_sources (rv_row r) <> [].
Proof.
  destruct adm_admitted as (adm & d' & r & H & Hr & Hrow & _). destruct (adm_row_facts r Hrow) as (_ & Ht & Hs & _).
  destruct (admission_funded Some demo_collate (fun _ _ _ => "") (fun _ => None) (fun _ => "") demo_start (adm_params "gpt-5") adm_db adm d' r H Hr adm_groups_inv Ht adm_layers) as (_ & _ & _ & (layers & H1 & _ & _ & H2) & H3).
  exists adm, d', r, layers. split; [exact H|]. split; [exact Hr|]. split; [exact H1|]. split; [exact H2|]. split; [exact H3|exact Hs].
Defined.

(** The same request for another model: no group and no subscription covers it. *)
Lemma adm_refused_ex : (adm_run "claude").1 = Err (ErrInsufficientFunds 0).
Proof. vm_compute. reflexivity. Qed.
