(* ===== verification/Usage.v ===== *)
(** * Usage records ([internal/store/usage.go], [conversation.go],
      [AttributeUsageRequest] of [upstream_accounts.go])

    The life of a usage row after its admission: the first token, the completion
    with its replay, the attribution to an upstream account and the retention.
    The columns that settlement reads are in [BillingTables], the others in
    [Admission]; every operation here is one step of the request machine of
    [Requests].  The reports over the table are not modelled. *)
From Stdlib Require Import Ascii QArith.
From stdpp Require Import sorting.
From S2P Require Import Prelude GoStrings GoTime Amount Pricing Store Quota Money Funding BillingTables Charging Settling Accounts Requests Groups Membership QuotaGuard Upstreams Pools Subscriptions Plans ModelAccess ModelPrices Admission.

(** ** Parameters *)

Record CompleteUsageRequestParams := {
  cu_RequestID : string;
  cu_ConversationHash : string;
  cu_State : string;
  cu_HTTPStatus : Z;
  cu_ErrorCode : string;
  cu_FirstTokenAt : option Z;
  cu_CompletedAt : Z;
  cu_InputTokens : Z;
  cu_CachedInputTokens : Z;
  cu_CacheWriteTokens : Z;
  cu_CacheWriteTokensPresent : bool;
  cu_CacheWrite5mTokens : Z;
  cu_CacheWrite1hTokens : Z;
  cu_CacheWriteTTLPresent : bool;
  cu_OutputTokens : Z;
  cu_ReasoningTokens : Z;
  cu_RequestBytes : Z;
  cu_ResponseBytes : Z;
  cu_UpstreamRequestID : string;
  cu_UpstreamAccountID : string;
  cu_ActualModel : string;
  cu_ActualServiceTier : string;
}.

Definition validateCacheWriteTTL (total fiveMinute oneHour : Z) (totalPresent ttlPresent : bool) : result store_error unit :=
  if (total <? 0) || (fiveMinute <? 0) || (oneHour <? 0) then Err (ErrInvalid "negative cache write TTL metrics") else
  if ttlPresent then
    if negb totalPresent || (total <? fiveMinute) || negb (oneHour =? total - fiveMinute) then Err (ErrInvalid "cache write TTL metrics do not match total") else Ok tt
  else if negb (fiveMinute =? 0) || negb (oneHour =? 0) then Err (ErrInvalid "unobserved cache write TTL metrics") else Ok tt.

Definition ValidConversationHash (value : string) : bool :=
  (String.length value =? 37)%nat && has_prefix "conv-" value && str_forall is_lower_hex (str_drop 5 value).

Definition terminal_states : list string := ["completed"; "degraded"; "failed"; "cancelled"].
(** The checks and the normal form before the first statement; [clock] is [s.now()]. *)
Definition completion_arguments (clock : Z) (p : CompleteUsageRequestParams) : result store_error CompleteUsageRequestParams :=
  if empty (cu_RequestID p) || negb (bool_decide (cu_State p ∈ terminal_states)) then Err (ErrInvalid "invalid terminal usage state") else
  if (cu_HTTPStatus p <? 100) || (599 <? cu_HTTPStatus p) || (cu_InputTokens p <? 0) || (cu_CachedInputTokens p <? 0) || (cu_CacheWriteTokens p <? 0) ||
     (cu_OutputTokens p <? 0) || (cu_ReasoningTokens p <? 0) || (cu_RequestBytes p <? 0) || (cu_ResponseBytes p <? 0) ||
     (cu_InputTokens p <? cu_CachedInputTokens p) || (cu_InputTokens p - cu_CachedInputTokens p <? cu_CacheWriteTokens p)
  then Err (ErrInvalid "invalid usage metrics") else
  let! _ := validateCacheWriteTTL (cu_CacheWriteTokens p) (cu_CacheWrite5mTokens p) (cu_CacheWrite1hTokens p) (cu_CacheWriteTokensPresent p) (cu_CacheWriteTTLPresent p) in
  let tier := trim_space (cu_ActualServiceTier p) in
  if (32 <? Z.of_nat (String.length tier)) then Err (ErrInvalid "invalid actual service tier") else
  Ok {| cu_RequestID := cu_RequestID p; cu_ConversationHash := if ValidConversationHash (cu_ConversationHash p) then cu_ConversationHash p else ""; cu_State := cu_State p;
        cu_HTTPStatus := cu_HTTPStatus p; cu_ErrorCode := cu_ErrorCode p; cu_FirstTokenAt := cu_FirstTokenAt p;
        cu_CompletedAt := if is_zero_time (cu_CompletedAt p) then clock else cu_CompletedAt p; cu_InputTokens := cu_InputTokens p; cu_CachedInputTokens := cu_CachedInputTokens p;
        cu_CacheWriteTokens := cu_CacheWriteTokens p; cu_CacheWriteTokensPresent := cu_CacheWriteTokensPresent p; cu_CacheWrite5mTokens := cu_CacheWrite5mTokens p;
        cu_CacheWrite1hTokens := cu_CacheWrite1hTokens p; cu_CacheWriteTTLPresent := cu_CacheWriteTTLPresent p; cu_OutputTokens := cu_OutputTokens p;
        cu_ReasoningTokens := cu_ReasoningTokens p; cu_RequestBytes := cu_RequestBytes p; cu_ResponseBytes := cu_ResponseBytes p; cu_UpstreamRequestID := cu_UpstreamRequestID p;
        cu_UpstreamAccountID := match normalizeUpstreamAccountID (trim_space (cu_UpstreamAccountID p)) with Ok id => id | Err _ => "" end;
        cu_ActualModel := trim_space (cu_ActualModel p); cu_ActualServiceTier := tier |}.
(** A trace that names another provider's account is dropped, and turns a
    success into a failure. *)
Definition mismatched (p : CompleteUsageRequestParams) : CompleteUsageRequestParams :=
  let success := bool_decide (cu_State p ∈ ["completed"; "degraded"]) in
  {| cu_RequestID := cu_RequestID p; cu_ConversationHash := cu_ConversationHash p; cu_State := if success then "failed" else cu_State p; cu_HTTPStatus := cu_HTTPStatus p;
     cu_ErrorCode := if success then "upstream_account_provider_mismatch" else cu_ErrorCode p; cu_FirstTokenAt := cu_FirstTokenAt p; cu_CompletedAt := cu_CompletedAt p;
     cu_InputTokens := cu_InputTokens p; cu_CachedInputTokens := cu_CachedInputTokens p; cu_CacheWriteTokens := cu_CacheWriteTokens p;
     cu_CacheWriteTokensPresent := cu_CacheWriteTokensPresent p; cu_CacheWrite5mTokens := cu_CacheWrite5mTokens p; cu_CacheWrite1hTokens := cu_CacheWrite1hTokens p;
     cu_CacheWriteTTLPresent := cu_CacheWriteTTLPresent p; cu_OutputTokens := cu_OutputTokens p; cu_ReasoningTokens := cu_ReasoningTokens p; cu_RequestBytes := cu_RequestBytes p;
     cu_ResponseBytes := cu_ResponseBytes p; cu_UpstreamRequestID := cu_UpstreamRequestID p; cu_UpstreamAccountID := ""; cu_ActualModel := cu_ActualModel p;
     cu_ActualServiceTier := cu_ActualServiceTier p |}.

(** ** The table *)

(** A row is kept in two parts. *)
Definition usage_of (id : string) (d : admission_db) : option (usage_row * usage_meta) :=
  match usage_requests (ad_billing d) !! id, ad_usage d !! id with Some u, Some m => Some (u, m) | _, _ => None end.
Definition put_usage (id : string) (r : usage_row * usage_meta) (d : admission_db) : admission_db :=
  set_ad_usage (<[id := r.2]> (ad_usage d)) (put_billing (set_usage (<[id := r.1]> (usage_requests (ad_billing d))) (ad_billing d)) d).

(** CHECKs of [usage_requests] over the columns that a completion writes. *)
Definition usage_row_check (u : usage_row) (m : usage_meta) : bool :=
  (1 <=? rune_count (u_model u)) && (rune_count (u_model u) <=? 128) && bool_decide (u_endpoint u ∈ usage_endpoints) && bool_decide (u_state u ∈ "in_progress" :: terminal_states) &&
  match u_http_status u with None => true | Some s => (100 <=? s) && (s <=? 599) end &&
  match um_first_token_at m with None => true | Some t => u_requested_at u <=? t end && match u_completed_at u with None => true | Some t => u_requested_at u <=? t end &&
  match u_completed_at u, um_first_token_at m with Some c, Some t => t <=? c | _, _ => true end &&
  forallb (fun n => (0 <=? n) && int64b n) [u_input u; u_cached u; u_cache_write u; u_output u; um_reasoning m; um_request_bytes m; um_response_bytes m] &&
  (u_cached u + u_cache_write u <=? u_input u) && eqb (bool_decide (u_state u = "in_progress")) (is_nil (u_completed_at u)) &&
  (0 <=? u_write5m u) && (0 <=? u_write1h u) && (u_write5m u <=? u_cache_write u) && (u_write1h u <=? u_cache_write u - u_write5m u) &&
  (if u_ttl_present u then u_cache_write_present u && (u_write1h u =? u_cache_write u - u_write5m u) else (u_write5m u =? 0) && (u_write1h u =? 0)).

(** [(SELECT id FROM upstream_accounts WHERE id = $n)]. *)
Definition known_account (id : string) (d : admission_db) : option string := if empty id then None else if bool_decide (is_Some (ud_accounts (ad_upstreams d) !! id)) then Some id else None.

(** ** First token *)

Definition mark_first_token (at_ : Z) (u : usage_row) (m : usage_meta) : usage_meta :=
  {| um_user := um_user m; um_device := um_device m; um_api_key := um_api_key m; um_key_prefix := um_key_prefix m; um_project := um_project m; um_requested_model := um_requested_model m;
     um_requested_tier := um_requested_tier m; um_rule_version := um_rule_version m; um_request_bytes := um_request_bytes m; um_conversation := um_conversation m;
     um_first_token_at := Some at_; um_ttft_ms := Some (duration_ms (u_requested_at u) at_); um_reasoning := um_reasoning m; um_response_bytes := um_response_bytes m;
     um_upstream_request := um_upstream_request m |}.
Definition MarkUsageFirstToken (requestID : string) (at_ : Z) (d : admission_db) : result store_error unit * admission_db :=
  match usage_of requestID d with
  | Some (u, m) =>
      if bool_decide (u_state u = "in_progress") && is_nil (um_first_token_at m) && (u_requested_at u <=? at_)
      then (Ok tt, put_usage requestID (u, mark_first_token at_ u m) d) else (Err (ErrNotFound "mark first token"), d)
  | None => (Err (ErrNotFound "mark first token"), d)
  end.

(** ** Completion *)

Definition completed_usage (p : CompleteUsageRequestParams) (account : option string) (r : usage_row * usage_meta) : usage_row * usage_meta :=
  let '(u, m) := r in
  let first := match um_first_token_at m with Some t => Some t | None => cu_FirstTokenAt p end in
  ({| u_state := cu_State p; u_endpoint := u_endpoint u; u_model := if empty (cu_ActualModel p) then u_model u else cu_ActualModel p; u_requested_at := u_requested_at u;
      u_completed_at := Some (cu_CompletedAt p); u_http_status := Some (cu_HTTPStatus p); u_error_code := value_or_nil (cu_ErrorCode p);
      u_duration_ms := Some (duration_ms (u_requested_at u) (cu_CompletedAt p)); u_input := cu_InputTokens p; u_cached := cu_CachedInputTokens p; u_cache_write := cu_CacheWriteTokens p;
      u_cache_write_present := cu_CacheWriteTokensPresent p; u_output := cu_OutputTokens p; u_actual_tier := value_or_nil (cu_ActualServiceTier p); u_account := account;
      u_write5m := cu_CacheWrite5mTokens p; u_write1h := cu_CacheWrite1hTokens p; u_ttl_present := cu_CacheWriteTTLPresent p; u_pricing_tier := u_pricing_tier u;
      u_context_class := u_context_class u; u_fallback_reason := u_fallback_reason u |},
   {| um_user := um_user m; um_device := um_device m; um_api_key := um_api_key m; um_key_prefix := um_key_prefix m; um_project := um_project m; um_requested_model := um_requested_model m;
      um_requested_tier := um_requested_tier m; um_rule_version := um_rule_version m; um_request_bytes := cu_RequestBytes p; um_conversation := value_or_nil (cu_ConversationHash p);
      um_first_token_at := first; um_ttft_ms := (fun t => duration_ms (u_requested_at u) t) <$> first; um_reasoning := cu_ReasoningTokens p; um_response_bytes := cu_ResponseBytes p;
      um_upstream_request := value_or_nil (cu_UpstreamRequestID p) |}).
(** The row that the [UPDATE] takes. *)
Definition completable (p : CompleteUsageRequestParams) (u : usage_row) : bool :=
  bool_decide (u_state u = "in_progress") && (u_requested_at u <=? cu_CompletedAt p) &&
  match cu_FirstTokenAt p with None => true | Some t => (u_requested_at u <=? t) && (t <=? cu_CompletedAt p) end.
(** The row that the replay query accepts. *)
Definition replays (p : CompleteUsageRequestParams) (account : option string) (u : usage_row) (m : usage_meta) : bool :=
  bool_decide (u_state u = cu_State p) && bool_decide (u_http_status u = Some (cu_HTTPStatus p)) && bool_decide (u_error_code u = value_or_nil (cu_ErrorCode p)) &&
  bool_decide (u_completed_at u = Some (cu_CompletedAt p)) && (u_input u =? cu_InputTokens p) && (u_cached u =? cu_CachedInputTokens p) && (u_cache_write u =? cu_CacheWriteTokens p) &&
  eqb (u_cache_write_present u) (cu_CacheWriteTokensPresent p) && (u_write5m u =? cu_CacheWrite5mTokens p) && (u_write1h u =? cu_CacheWrite1hTokens p) &&
  eqb (u_ttl_present u) (cu_CacheWriteTTLPresent p) && (u_output u =? cu_OutputTokens p) && (um_reasoning m =? cu_ReasoningTokens p) && (um_request_bytes m =? cu_RequestBytes p) &&
  (um_response_bytes m =? cu_ResponseBytes p) && bool_decide (um_upstream_request m = value_or_nil (cu_UpstreamRequestID p)) && bool_decide (um_first_token_at m = cu_FirstTokenAt p) &&
  (empty (cu_ActualModel p) || bool_decide (u_model u = cu_ActualModel p)) && bool_decide (u_actual_tier u = value_or_nil (cu_ActualServiceTier p)) &&
  bool_decide (um_conversation m = value_or_nil (cu_ConversationHash p)) && bool_decide (u_account u = account).

Definition complete_or_replay (p : CompleteUsageRequestParams) (d : admission_db) : result store_error (usage_row * usage_meta) * admission_db :=
  let account := known_account (cu_UpstreamAccountID p) d in
  match usage_of (cu_RequestID p) d with
  | None => (Err (ErrNotFound "complete usage request"), d)
  | Some (u, m) =>
      if completable p u then
        let r := completed_usage p account (u, m) in
        if usage_row_check r.1 r.2 then (Ok r, put_usage (cu_RequestID p) r d) else (Err (ErrInvalid "complete usage request"), d)
      else if replays p account u m then (Ok (u, m), d)
      else if negb (bool_decide (u_state u = "in_progress")) then (Err (ErrConflict "complete usage request differently"), d)
      else (Err (ErrNotFound "complete usage request"), d)
  end.
(** The account is registered first, by a statement of its own; [self] is the
    provider the store was opened for. *)
Definition CompleteUsageRequest (self : string) (clock : Z) (p : CompleteUsageRequestParams) (d : admission_db) : result store_error (usage_row * usage_meta) * admission_db :=
  match completion_arguments clock p with
  | Err e => (Err e, d)
  | Ok p =>
      if empty (cu_UpstreamAccountID p) then complete_or_replay p d else
      let '(r, up) := ensureUsageUpstreamAccount self clock (cu_UpstreamAccountID p) (cu_CompletedAt p) (ad_upstreams d) in
      let d := set_ad_upstreams up d in
      match r with
      | Ok _ => complete_or_replay p d
      | Err (ErrConflict e) => if empty self then (Err (ErrConflict e), d) else complete_or_replay (mismatched p) d
      | Err e => (Err e, d)
      end
  end.
Definition GetUsageRequest (requestID : string) (d : admission_db) : result store_error (usage_row * usage_meta) :=
  match usage_of requestID d with Some r => Ok r | None => Err (ErrNotFound "get usage request") end.

(** ** Attribution *)

Definition charged_request (id : string) (b : billing_db) : bool := existsb (fun e => bool_decide (le_request e = Some id) && bool_decide (le_entry_type e = "usage_charge")) (ledger b).
Definition with_account (account : option string) (u : usage_row) : usage_row :=
  {| u_state := u_state u; u_endpoint := u_endpoint u; u_model := u_model u; u_requested_at := u_requested_at u; u_completed_at := u_completed_at u; u_http_status := u_http_status u;
     u_error_code := u_error_code u; u_duration_ms := u_duration_ms u; u_input := u_input u; u_cached := u_cached u; u_cache_write := u_cache_write u;
     u_cache_write_present := u_cache_write_present u; u_output := u_output u; u_actual_tier := u_actual_tier u; u_account := account; u_write5m := u_write5m u; u_write1h := u_write1h u;
     u_ttl_present := u_ttl_present u; u_pricing_tier := u_pricing_tier u; u_context_class := u_context_class u; u_fallback_reason := u_fallback_reason u |}.
Definition AttributeUsageRequest (requestID accountID : string) (d : admission_db) : result store_error unit * admission_db :=
  if empty (trim_space requestID) then (Err (ErrInvalid "empty usage request id"), d) else
  let account := known_account (match normalizeUpstreamAccountID accountID with Ok id => id | Err _ => "" end) d in
  match usage_of requestID d with
  | None => (Err (ErrNotFound "attribute usage request"), d)
  | Some (u, m) =>
      if negb (charged_request requestID (ad_billing d)) || bool_decide (u_account u = account) then (Ok tt, put_usage requestID (with_account account u, m) d)
      else (Err (ErrConflict "change settled usage attribution"), d)
  end.

(** ** Retention *)

(** Old rows of requests that are closed in quota and in billing. *)
Definition deletable (before : Z) (d : admission_db) (kv : string * usage_row) : bool :=
  match u_completed_at kv.2 with Some t => t <? before | None => false end &&
  match quota_reservations (ad_quota d) !! kv.1 with Some q => negb (bool_decide (state q = Reserved)) | None => true end &&
  match billing_reservations (ad_billing d) !! kv.1 with Some b => negb (bool_decide (br_state b = Reserved)) | None => true end.
(** [ORDER BY completed_at]. *)
Definition completed_le (a b : string * usage_row) : Prop := default 0 (u_completed_at a.2) <= default 0 (u_completed_at b.2).
#[export] Instance completed_le_dec : RelDecision completed_le.
Proof. intros x y. unfold completed_le. apply _. Defined.
Definition retention_limit (limit : Z) : nat := Z.to_nat (if (limit <=? 0) || (100000 <? limit) then 10000 else limit).
Definition retention_batch (before limit : Z) (d : admission_db) : list string :=
  (take (retention_limit limit) (merge_sort completed_le (map_to_list (filter (fun kv => deletable before d kv = true) (usage_requests (ad_billing d)))))).*1.
Definition delete_all {A} (ids : list string) (m : gmap string A) : gmap string A := foldr delete m ids.
Definition DeleteUsageRequestsBefore (before limit : Z) (d : admission_db) : result store_error Z * admission_db :=
  let batch := retention_batch before limit d in
  (Ok (Z.of_nat (length batch)),
   set_ad_usage (delete_all batch (ad_usage d)) (put_billing (set_usage (delete_all batch (usage_requests (ad_billing d))) (ad_billing d)) d)).

(** ** Steps of the request machine *)

Lemma set_usage_same b : set_usage (usage_requests b) b = b.
Proof. by destruct b. Qed.
Lemma gateway_put_usage id r d : gateway_of (put_usage id r d) = GatewayDB (ad_quota d) (set_usage (<[id := r.1]> (usage_requests (ad_billing d))) (ad_billing d)).
Proof. done. Qed.
Lemma usage_of_Some id d u m : usage_of id d = Some (u, m) <-> usage_requests (ad_billing d) !! id = Some u /\ ad_usage d !! id = Some m.
Proof. unfold usage_of. destruct (usage_requests _ !! id), (ad_usage d !! id); split; try done; [by intros [= -> ->]|by intros [[= ->] [= ->]]|by intros []..]. Qed.
Lemma usage_of_put id r d : usage_of id (put_usage id r d) = Some r.
Proof. destruct r as [u m]. apply usage_of_Some. split; [exact (lookup_insert_eq _ _ _)|exact (lookup_insert_eq _ _ _)]. Qed.
Lemma usage_of_put_ne id j r d : j <> id -> usage_of j (put_usage id r d) = usage_of j d.
Proof.
  intros Hne. unfold usage_of. change (usage_requests (ad_billing (put_usage id r d))) with (<[id := r.1]> (usage_requests (ad_billing d))).
  change (ad_usage (put_usage id r d)) with (<[id := r.2]> (ad_usage d)). by rewrite !lookup_insert_ne.
Qed.

(** Replacing one row by a row of the same endpoint. *)
Lemma usage_writes_put b id u u' : usage_requests b !! id = Some u -> u_endpoint u' = u_endpoint u ->
  (forall i row, billing_reservations b !! i = Some row -> br_state row = Reserved -> is_Some (usage_requests b !! i)) -> usage_writes b (<[id := u']> (usage_requests b)).
Proof.
  intros Hu He Hopen. split.
  - intros i x [[<- <-]|[_ Hx]]%lookup_insert_Some; eauto.
  - intros i row Hi Hs. destruct (decide (i = id)) as [->|]; [rewrite lookup_insert_eq; eauto|]. rewrite lookup_insert_ne by done. eauto.
Qed.

Lemma delete_all_lookup {A} ids (m : gmap string A) i : delete_all ids m !! i = if bool_decide (i ∈ ids) then None else m !! i.
Proof.
  induction ids as [|j ids IH]; [done|]. change (delete_all (j :: ids) m) with (delete j (delete_all ids m)). destruct (decide (i = j)) as [->|Hne].
  - rewrite lookup_delete_eq, bool_decide_true; [done|left].
  - rewrite lookup_delete_ne by done. rewrite IH. apply (f_equal (fun b : bool => if b then None else m !! i)), bool_decide_ext. rewrite elem_of_cons. tauto.
Qed.
Lemma retention_batch_elem before limit d id : id ∈ retention_batch before limit d -> exists u, usage_requests (ad_billing d) !! id = Some u /\ deletable before d (id, u) = true.
Proof.
  intros ([i u] & -> & H)%list_elem_of_fmap. apply elem_of_take in H as (k & H & _). apply list_elem_of_lookup_2 in H. rewrite merge_sort_Permutation in H.
  apply elem_of_map_to_list, map_lookup_filter_Some in H as [H1 H2]. eauto.
Qed.

Section calls.
Context (decode_snapshot : string -> option DecodedSnapshot).

Inductive usage_call : admission_db -> admission_db -> Prop :=
| call_mark id at_ d : usage_call d (MarkUsageFirstToken id at_ d).2
| call_complete self clock p d : usage_call d (CompleteUsageRequest self clock p d).2
| call_attribute id account d : usage_call d (AttributeUsageRequest id account d).2
| call_retention before limit d : usage_call d (DeleteUsageRequestsBefore before limit d).2.

Definition open_rows (b : billing_db) : Prop := forall i row, billing_reservations b !! i = Some row -> br_state row = Reserved -> is_Some (usage_requests b !! i).

Lemma same_step d d' : open_rows (ad_billing d) -> gateway_of d' = gateway_of d -> request_step decode_snapshot (gateway_of d) (gateway_of d').
Proof.
  intros Ho ->.
  assert (E : gateway_of d = GatewayDB (quota (gateway_of d)) (set_usage (usage_requests (billing (gateway_of d))) (billing (gateway_of d)))) by (unfold gateway_of; cbn; by rewrite set_usage_same).
  rewrite E at 2. apply rs_usage. split; [eauto|exact Ho].
Qed.
Lemma put_step d d0 id u m u' m' : open_rows (ad_billing d) -> gateway_of d0 = gateway_of d -> usage_of id d0 = Some (u, m) -> u_endpoint u' = u_endpoint u ->
  request_step decode_snapshot (gateway_of d) (gateway_of (put_usage id (u', m') d0)).
Proof.
  intros Ho E [Hu _]%usage_of_Some He. rewrite gateway_put_usage. injection E as Eq Eb. rewrite Eq, Eb in *. apply (rs_usage _ _ (gateway_of d)). by eapply usage_writes_put.
Qed.

Lemma complete_step p d d0 : open_rows (ad_billing d) -> gateway_of d0 = gateway_of d -> request_step decode_snapshot (gateway_of d) (gateway_of (complete_or_replay p d0).2).
Proof.
  intros Ho E. unfold complete_or_replay. destruct (usage_of (cu_RequestID p) d0) as [[u m]|] eqn:Hu; [|by apply same_step]. destruct (completable p u).
  - destruct (usage_row_check _ _); [|by apply same_step]. cbn [snd]. by eapply put_step.
  - destruct (replays _ _ _ _); [by apply same_step|]. destruct (negb _); by apply same_step.
Qed.

Lemma retention_step before limit d : open_rows (ad_billing d) -> request_step decode_snapshot (gateway_of d) (gateway_of (DeleteUsageRequestsBefore before limit d).2).
Proof.
  intros Ho. apply (rs_usage _ (delete_all (retention_batch before limit d) (usage_requests (ad_billing d))) (gateway_of d)). split.
  - intros i u'. rewrite delete_all_lookup. case_bool_decide; [done|]. eauto.
  - intros i row Hi Hs. rewrite delete_all_lookup. case_bool_decide as Hin; [|by eapply Ho]. exfalso. apply retention_batch_elem in Hin as (u & _ & Hd).
    unfold deletable in Hd. cbn [fst] in Hd. change (billing (gateway_of d)) with (ad_billing d) in Hi. rewrite Hi, Hs in Hd. rewrite andb_false_r in Hd. done.
Qed.

Lemma usage_step d d' : gateway_inv (gateway_of d) -> usage_call d d' -> request_step decode_snapshot (gateway_of d) (gateway_of d').
Proof.
  intros G H. assert (Ho : open_rows (ad_billing d)).
  { intros i row Hi Hs. destruct (gi_open_billing _ G i row Hi Hs) as [_ (u & Hu & _)]. by exists u. }
  clear G. revert Ho. destruct H as [id at_ d0|self clock p d0|id account d0|before limit d0]; intros Ho.
  - unfold MarkUsageFirstToken. destruct (usage_of id d0) as [[u m]|] eqn:Hu; [|by apply same_step]. destruct (_ && _); [|by apply same_step]. by eapply put_step.
  - unfold CompleteUsageRequest. destruct (completion_arguments clock p) as [q|]; [|by apply same_step]. destruct (empty _); [by apply complete_step|].
    destruct (ensureUsageUpstreamAccount _ _ _ _ _) as [r up]. destruct r as [x|[]]; try by apply same_step. 1: by apply complete_step.
    destruct (empty self); [by apply same_step|by apply complete_step].
  - unfold AttributeUsageRequest. destruct (empty _); [by apply same_step|]. destruct (usage_of id d0) as [[u m]|] eqn:Hu; [|by apply same_step]. destruct (_ || _); [|by apply same_step]. by eapply put_step.
  - by apply retention_step.
Qed.

(** [C9] The life of a usage row is part of the request machine.  Marking the
    first token, completing, attributing and deleting old rows, whatever their
    arguments and outcome, are steps of the machine for which [Requests] proves
    that quota and billing stay in step: they keep the endpoint of every row, and
    retention never deletes the row of a request whose billing is still open. *)
Theorem usage_calls_are_steps d d' : gateway_inv (gateway_of d) -> usage_call d d' -> request_step decode_snapshot (gateway_of d) (gateway_of d').
Proof. apply usage_step. Qed.
End calls.

(** ** A request is completed once *)

Lemma normalized_id x : upstreamAccountIDPattern x = true -> normalizeUpstreamAccountID x = Ok x /\ empty x = false.
Proof.
  intros H. pose proof H as H'. unfold upstreamAccountIDPattern in H. apply andb_true_iff in H as [Hl Hx]. assert (He : empty x = false) by (destruct x; [done|reflexivity]).
  assert (Hg : str_forall is_graphic x = true).
  { clear Hl He H'. induction x as [|c x IH]; [done|]. cbn [str_forall] in *. apply andb_true_iff in Hx as [Hc Hx]. rewrite IH by done. unfold is_lower_hex, is_graphic in *. cbv zeta in *. lia. }
  split; [|done]. unfold normalizeUpstreamAccountID. by rewrite (trim_space_graphic x Hg), He, H'.
Qed.

Lemma ensure_again self clock id at_ up up' x : upstreamAccountIDPattern id = true -> ensureUsageUpstreamAccount self clock id at_ up = (Ok x, up') ->
  forall clock' at', ensureUsageUpstreamAccount self clock' id at' up' = (Ok tt, up').
Proof.
  intros [Hn He]%normalized_id H clock' at'. unfold ensureUsageUpstreamAccount in *. destruct (ud_accounts up !! id) as [a|] eqn:Ea.
  - destruct (_ && _) eqn:Hc; [done|]. injection H as _ <-. by rewrite Ea, Hc.
  - unfold EnsureUpstreamAccount in H. rewrite Hn, He, Ea in H. unfold withTx, save_account in H. rewrite tguard_bind in H. destruct (upstream_account_check _ _); [|done]. injection H as _ <-.
    change (ud_accounts (set_upstream_accounts ?m _)) with m. rewrite lookup_insert_eq. cbn [ac_provider new_upstream_account]. by rewrite bool_decide_true, andb_false_r.
Qed.
Lemma ensure_refused self clock id at_ up up' e : ensureUsageUpstreamAccount self clock id at_ up = (Err e, up') ->
  up' = up.
Proof.
  unfold ensureUsageUpstreamAccount, EnsureUpstreamAccount. destruct (ud_accounts up !! id) as [a|]; [by destruct (_ && _); intros [= _ <-]|].
  destruct (normalizeUpstreamAccountID id); [|by intros [= _ <-]]. destruct (empty _); [by intros [= _ <-]|]. destruct (ud_accounts up !! _) as [b|]; [by destruct (bool_decide _); intros [= _ <-]|].
  unfold withTx. destruct (save_account _ _ _ _) as [[]|]; [done|]. by intros [= _ <-].
Qed.
(** A conflict does not depend on the clock. *)
Lemma ensure_conflict self clock id at_ up e : upstreamAccountIDPattern id = true -> ensureUsageUpstreamAccount self clock id at_ up = (Err (ErrConflict e), up) ->
  forall clock' at', ensureUsageUpstreamAccount self clock' id at' up = (Err (ErrConflict e), up).
Proof.
  intros [Hn He]%normalized_id H clock' at'. unfold ensureUsageUpstreamAccount in *. destruct (ud_accounts up !! id) as [a|] eqn:Ea; [done|].
  exfalso. unfold EnsureUpstreamAccount in H. rewrite Hn, He, Ea in H. unfold withTx, save_account in H. rewrite tguard_bind in H. by destruct (upstream_account_check _ _).
Qed.

Lemma arguments_Ok clock p q : completion_arguments clock p = Ok q -> cu_RequestID q = cu_RequestID p /\ cu_State q ∈ terminal_states /\ cu_FirstTokenAt q = cu_FirstTokenAt p /\
  (empty (cu_UpstreamAccountID q) = false -> upstreamAccountIDPattern (cu_UpstreamAccountID q) = true).
Proof.
  unfold completion_arguments. destruct (_ || _) eqn:H1; [done|]. destruct (_ || _) eqn:H2 in |- *; [done|]. intros H. inv_bind H. destruct (_ <? _) in H; [done|]. injection H as <-.
  apply orb_false_iff in H1 as [_ H1%negb_false_iff%bool_decide_eq_true]. cbn [cu_RequestID cu_State cu_FirstTokenAt cu_UpstreamAccountID]. split_and!; try done.
  destruct (normalizeUpstreamAccountID _) as [x|] eqn:E; [|done]. unfold normalizeUpstreamAccountID in E. destruct (empty (trim_space _)); [by injection E as <-|].
  destruct (upstreamAccountIDPattern _) eqn:Hp in E; [|done]. by injection E as <-.
Qed.

Lemma arguments_clock clock clock' p : is_zero_time (cu_CompletedAt p) = false -> completion_arguments clock' p = completion_arguments clock p.
Proof. intros H. unfold completion_arguments. by rewrite H. Qed.

Lemma terminal_not_progress s : s ∈ terminal_states -> bool_decide (s = "in_progress") = false.
Proof. unfold terminal_states. rewrite !elem_of_cons, elem_of_nil. by intros [->|[->|[->|[->|[]]]]]. Qed.

Lemma completed_replays q account u m : um_first_token_at m = None -> let r := completed_usage q account (u, m) in replays q account r.1 r.2 = true.
Proof.
  intros Hm. unfold replays, completed_usage. cbn [fst snd u_state u_http_status u_error_code u_completed_at u_input u_cached u_cache_write u_cache_write_present u_write5m u_write1h u_ttl_present u_output
    um_reasoning um_request_bytes um_response_bytes um_upstream_request um_first_token_at u_model u_actual_tier um_conversation u_account]. rewrite Hm, !bool_decide_true, !Z.eqb_refl, !eqb_reflx by done. cbn [andb].
  destruct (empty (cu_ActualModel q)); cbn [orb]; by rewrite !bool_decide_true.
Qed.

Lemma complete_Ok q d r d' : complete_or_replay q d = (Ok r, d') -> cu_State q ∈ terminal_states ->
  (forall u m, usage_of (cu_RequestID q) d = Some (u, m) -> u_state u = "in_progress" -> um_first_token_at m = None) ->
  usage_of (cu_RequestID q) d' = Some r /\ terminal r.1 = true /\ ad_upstreams d' = ad_upstreams d /\ complete_or_replay q d' = (Ok r, d').
Proof.
  intros H Hs Hf. pose proof (terminal_not_progress _ Hs) as Hp. pose proof H as H0. unfold complete_or_replay in H. destruct (usage_of (cu_RequestID q) d) as [[u m]|] eqn:Hu; [|done].
  destruct (completable q u) eqn:Hc.
  - assert (Hin : u_state u = "in_progress"). { unfold completable in Hc. rewrite !andb_true_iff in Hc. by destruct Hc as [[?%bool_decide_eq_true _] _]. }
    pose proof (completed_replays q (known_account (cu_UpstreamAccountID q) d) u m (Hf u m eq_refl Hin)) as Hrep. cbv zeta in Hrep, H.
    assert (Er : u_state (completed_usage q (known_account (cu_UpstreamAccountID q) d) (u, m)).1 = cu_State q) by done.
    destruct (completed_usage q _ (u, m)) as [u' m']. cbn [fst snd] in *. destruct (usage_row_check _ _); [|done]. injection H as <- <-. split; [apply usage_of_put|].
    split; [unfold terminal; cbn [fst]; by rewrite Er, Hp|]. split; [done|]. unfold complete_or_replay. rewrite usage_of_put. unfold completable. rewrite Er, Hp. cbn [andb].
    change (known_account (cu_UpstreamAccountID q) (put_usage _ _ d)) with (known_account (cu_UpstreamAccountID q) d). by rewrite Hrep.
  - destruct (replays _ _ u m) eqn:Hr; [|by destruct (negb _)]. injection H as <- <-. split; [done|]. split; [|by rewrite H0].
    assert (Est : u_state u = cu_State q) by (unfold replays in Hr; destruct (bool_decide_reflect (u_state u = cu_State q)) as [E|]; [exact E|discriminate Hr]). unfold terminal. cbn [fst]. by rewrite Est, Hp.
Qed.

(** A closed row is never completed again. *)
Lemma closed_kept id r d self clock p : usage_of id d = Some r -> terminal r.1 = true -> usage_of id (CompleteUsageRequest self clock p d).2 = Some r.
Proof.
  intros Hu Ht. unfold terminal in Ht. apply negb_true_iff in Ht.
  assert (K : forall q d0, usage_of id d0 = Some r -> usage_of id (complete_or_replay q d0).2 = Some r).
  { intros q d0 H0. unfold complete_or_replay. destruct (usage_of (cu_RequestID q) d0) as [[u m]|] eqn:E; [|done]. destruct (completable q u) eqn:Hc; [|destruct (replays _ _ _ _); [done|]; by destruct (negb _)].
    destruct (usage_row_check _ _); [|done]. cbn [snd]. destruct (decide (id = cu_RequestID q)) as [->|Hne]; [|by rewrite usage_of_put_ne]. rewrite E in H0. injection H0 as <-. cbn [fst] in Ht.
    unfold completable in Hc. by rewrite Ht in Hc. }
  unfold CompleteUsageRequest. destruct (completion_arguments clock p) as [q|]; [|done]. destruct (empty _); [by apply K|]. destruct (ensureUsageUpstreamAccount _ _ _ _ _) as [x up].
  assert (H1 : usage_of id (set_ad_upstreams up d) = Some r) by done. destruct x as [x|[]]; try done; [by apply K|]. destruct (empty self); [done|by apply K].
Qed.


(** ** From admission to settlement *)

(** Completing a running request writes its row only. *)
Lemma complete_running q d u m r d' : complete_or_replay q d = (Ok r, d') -> cu_State q ∈ terminal_states -> usage_of (cu_RequestID q) d = Some (u, m) -> u_state u = "in_progress" ->
  d' = put_usage (cu_RequestID q) r d /\ usage_row_check r.1 r.2 = true /\ terminal r.1 = true /\ u_endpoint r.1 = u_endpoint u.
Proof.
  intros H Hs Hu Hin. pose proof (terminal_not_progress _ Hs) as Hp. unfold complete_or_replay in H. rewrite Hu in H. destruct (completable q u).
  - cbv zeta in H. assert (Er : u_state (completed_usage q (known_account (cu_UpstreamAccountID q) d) (u, m)).1 = cu_State q) by done.
    assert (Ee : u_endpoint (completed_usage q (known_account (cu_UpstreamAccountID q) d) (u, m)).1 = u_endpoint u) by done. destruct (completed_usage q _ (u, m)) as [u' m'].
    cbn [fst snd] in *. destruct (usage_row_check u' m') eqn:Hc; [|done]. injection H as <- <-. split; [done|]. split; [done|]. split; [|done]. unfold terminal. cbn [fst]. by rewrite Er, Hp.
  - destruct (replays _ _ u m) eqn:Hr; [|by destruct (negb _)]. exfalso. unfold replays in Hr. rewrite Hin in Hr.
    destruct (bool_decide_reflect ("in_progress" = cu_State q)) as [E|]; [|done]. by rewrite <- E in Hp.
Qed.
Lemma completion_running self clock p d u m r d' : CompleteUsageRequest self clock p d = (Ok r, d') -> usage_of (cu_RequestID p) d = Some (u, m) -> u_state u = "in_progress" ->
  (exists up, d' = put_usage (cu_RequestID p) r (set_ad_upstreams up d)) /\ usage_row_check r.1 r.2 = true /\ terminal r.1 = true /\ u_endpoint r.1 = u_endpoint u.
Proof.
  intros H Hu Hin. unfold CompleteUsageRequest in H. destruct (completion_arguments clock p) as [q|] eqn:Ha; [|done]. destruct (arguments_Ok _ _ _ Ha) as (Ei & Hs & _). rewrite <- Ei in *.
  destruct (empty (cu_UpstreamAccountID q)).
  - destruct (complete_running _ _ _ _ _ _ H Hs Hu Hin) as (-> & H1). split; [|done]. exists (ad_upstreams d). by destruct d.
  - destruct (ensureUsageUpstreamAccount _ _ _ _ _) as [[x|[]] up]; try done; [|destruct (empty self); [done|]].
    + destruct (complete_running q (set_ad_upstreams up d) u m _ _ H Hs Hu Hin) as (-> & H1). split; [|done]. by exists up.
    + assert (Hs' : cu_State (mismatched q) ∈ terminal_states) by (cbn; destruct (bool_decide _); [unfold terminal_states; do 2 right; left|done]).
      destruct (complete_running (mismatched q) (set_ad_upstreams up d) u m _ _ H Hs' Hu Hin) as (-> & H1). split; [|done]. by exists up.
Qed.

Lemma row_check_int64 u m : usage_row_check u m = true -> u_input u <= max_int64.
Proof. unfold usage_row_check. rewrite !andb_true_iff. cbn [forallb]. rewrite !andb_true_iff. unfold int64b. intros H. destruct_and!. lia. Qed.

Section lifecycle.
Context (uuid_parse : string -> option string) (collate : string -> string -> comparison)
        (digest : Z -> PricingFallbackPolicy -> ModelPricing -> string)
        (decode_snapshot : string -> option DecodedSnapshot) (encode_snapshot : PricingSnapshot -> string).

(** The usage row that an admission leaves. *)
Lemma admitted_usage clock p d adm d' r :
  AdmitRequest uuid_parse collate digest decode_snapshot encode_snapshot clock p d = (Ok adm, d') -> ra_Billing adm = Some r ->
  am_Billing p <> None /\ exists u m, usage_of (rv_RequestID r) d' = Some (u, m) /\ u_state u = "in_progress" /\ unbilled (u_endpoint u) = false.
Proof.
  intros H Hr. apply admit_Ok in H as (quota & usage & billing & ql & q' & d1 & Ha & P & _). apply admission_arguments_Ok in Ha as (_ & Eid & _ & Hb).
  pose proof (ap_usage _ _ _ _ _ _ _ _ _ _ _ _ _ _ _ P) as Hu. apply begin_usage_Ok in Hu as (_ & Hu1 & _ & ->). pose proof (ap_billing _ _ _ _ _ _ _ _ _ _ _ _ _ _ _ P) as Hbill.
  destruct billing as [b|]; [|destruct Hbill; congruence]. destruct Hbill as (r' & Hr' & Hres). rewrite Hr in Hr'. injection Hr' as <-. destruct Hb as (Hub & [x Hx] & Er & _ & Hprov & _).
  apply reserve_Ok_parts in Hres as (q & account & groups & g1 & s2 & sources & layers & _ & Eq1 & _ & _ & _ & _ & R); [|done].
  rewrite (rec_id _ _ _ _ _ _ _ (rs_recorded _ _ _ _ _ _ _ _ _ _ _ R)), Eq1, Er, <- Eid. split; [by rewrite Hx|].
  exists (new_usage usage), (ra_Usage adm).2. split; [|done]. apply usage_of_Some. split; exact (lookup_insert_eq _ _ _).
Qed.

Abbreviation Admit := (AdmitRequest uuid_parse collate digest decode_snapshot encode_snapshot).

(** [C6] A request that was admitted and completed settles.  From a consistent
    store, when a billed request is admitted, its usage is completed and the
    counts can be priced and fit the counters, then [SettleRequest] commits in
    quota and billing at once: the quota reservation records the tokens and gives
    its lease back, the billing reservation is settled, and quota and billing
    agree again.  Nothing that settlement looks up can be missing. *)
Theorem request_lifecycle clock p d adm d1 r self clock1 p1 u d2 n tokens decision clock2 at_ :
  Admit clock p d = (Ok adm, d1) -> ra_Billing adm = Some r -> CompleteUsageRequest self clock1 p1 d1 = (Ok u, d2) -> cu_RequestID p1 = rv_RequestID r ->
  gateway_inv (gateway_of d) -> group_halves d -> layers_referenced (ad_billing d) -> linked d1 ->
  gateway_columns (gateway_of d) -> gateway_columns (gateway_of d1) -> gateway_columns (gateway_of d2) ->
  settlement_cost decode_snapshot (rv_row r) u.1 = Ok (numeric_text n, tokens, decision) -> u_input u.1 + u_output u.1 <= max_int64 ->
  (forall q k c, quota_reservations (ad_quota d2) !! rv_RequestID r = Some q -> in_scope k q = true -> quota_counters (ad_quota d2) !! k = Some c ->
     tokens_used c + (u_input u.1 + u_output u.1) <= max_int64) ->
  exists d3 row, SettleRequest decode_snapshot clock2 (rv_RequestID r) at_ (gateway_of d2) = (Ok tt, d3) /\ gateway_inv d3 /\
    concurrency_leases (Requests.quota d3) = delete (rv_RequestID r) (concurrency_leases (ad_quota d2)) /\
    billing_reservations (Requests.billing d3) !! rv_RequestID r = Some row /\ br_state row = Settled.
Proof.
  intros H1 Hr H2 Ei G Hh Hfk L C C1 C2 Hcost Hsum Hcnt. destruct (admitted_usage _ _ _ _ _ _ H1 Hr) as (Hb & u0 & m0 & Hu0 & Hin & Hub).
  destruct (admission_step _ _ _ _ _ _ _ _ _ _ H1 Hh (gi_money _ G)) as (S1 & _ & Hrow); [done|]. destruct (Hrow r Hr) as [_ Hrow1]. clear Hrow.
  pose proof (request_step_inv _ _ _ C S1 G) as G1.
  rewrite <- Ei in Hu0. destruct (completion_running _ _ _ _ _ _ _ _ H2 Hu0 Hin) as ((up & E2) & Hck & Hterm & Hend). rewrite Ei in *.
  assert (S2 : request_step decode_snapshot (gateway_of d1) (gateway_of d2)).
  { pose proof (call_complete self clock1 p1 d1) as K. rewrite H2 in K. exact (usage_step decode_snapshot _ _ G1 K). }
  pose proof (request_step_inv _ _ _ C1 S2 G1) as G2.
  assert (Eb : ad_billing d2 = set_usage (<[rv_RequestID r := u.1]> (usage_requests (ad_billing d1))) (ad_billing d1)) by by rewrite E2.
  assert (Hrow2 : billing_reservations (ad_billing d2) !! rv_RequestID r = Some (rv_row r)) by by rewrite Eb.
  destruct (admitted_ready uuid_parse collate digest decode_snapshot encode_snapshot clock p d adm d1 r (<[rv_RequestID r := u.1]> (usage_requests (ad_billing d1))) u.1 n tokens decision) as (Hne & sources & R); try done.
  { apply lookup_insert_eq. } { by eapply row_check_int64. }
  rewrite <- Eb in R. pose proof (ready_reserved _ _ _ _ _ _ _ _ _ R) as Hst.
  destruct (gi_open_billing _ G2 _ _ Hrow2 Hst) as [[q Hq] _]. pose proof (gi_same _ G2 _ _ _ Hq Hrow2) as Hsame. rewrite Hst in Hsame.
  destruct (settle_request_commits decode_snapshot clock2 (rv_RequestID r) at_ (gateway_of d2) q (rv_row r) u.1 n tokens decision sources) as (d3 & row & E & G3 & _ & Hl & Hbr & Hs); try done.
  - by rewrite Hend.
  - intros k c. by apply Hcnt.
  - exists d3, row. split_and!; try done. rewrite Hbr. apply lookup_insert_eq.
Qed.
End lifecycle.

(** ** Retention and attribution *)

#[export] Instance completed_le_total : Total completed_le.
Proof. intros x y. unfold completed_le. lia. Qed.
#[export] Instance completed_le_trans : Transitive completed_le.
Proof. intros x y z. unfold completed_le. lia. Qed.

Definition candidates (before : Z) (d : admission_db) : list (string * usage_row) :=
  merge_sort completed_le (map_to_list (filter (fun kv => deletable before d kv = true) (usage_requests (ad_billing d)))).
Lemma candidates_elem before d id u : (id, u) ∈ candidates before d <-> usage_requests (ad_billing d) !! id = Some u /\ deletable before d (id, u) = true.
Proof. unfold candidates. rewrite merge_sort_Permutation, elem_of_map_to_list. apply map_lookup_filter_Some. Qed.
Lemma candidates_split before limit d id u : (id, u) ∈ candidates before d -> id ∉ retention_batch before limit d -> (id, u) ∈ drop (retention_limit limit) (candidates before d).
Proof.
  intros H Hn. rewrite <- (take_drop (retention_limit limit) (candidates before d)) in H. apply elem_of_app in H as [H|H]; [|done]. exfalso. apply Hn. by apply (list_elem_of_fmap_2 fst) in H.
Qed.


(** The attribution is frozen with the charge: as long as a request has not been
    charged its row takes the account of the call (none when it is unknown);
    afterwards the row does not change, and only the recorded account is accepted. *)
Theorem attribution_exact id accountID d u m : usage_of id d = Some (u, m) -> empty (trim_space id) = false ->
  let account := known_account (match normalizeUpstreamAccountID accountID with Ok x => x | Err _ => "" end) d in
  if charged_request id (ad_billing d) then
    usage_of id (AttributeUsageRequest id accountID d).2 = Some (u, m) /\ ((AttributeUsageRequest id accountID d).1 = Ok tt <-> u_account u = account)
  else (AttributeUsageRequest id accountID d).1 = Ok tt /\ usage_of id (AttributeUsageRequest id accountID d).2 = Some (with_account account u, m).
Proof.
  intros Hu He account. unfold AttributeUsageRequest. rewrite He. fold account. rewrite Hu. destruct (charged_request id (ad_billing d)); cbn [negb orb].
  - case_bool_decide as Ha; cbn [fst snd]; [|by split]. split; [|done]. rewrite usage_of_put. rewrite <- Ha. by destruct u.
  - split; [done|]. apply usage_of_put.
Qed.

(** ** A sample life *)

Definition life_params : CompleteUsageRequestParams :=
  {| cu_RequestID := demo_id; cu_ConversationHash := ""; cu_State := "completed"; cu_HTTPStatus := 200; cu_ErrorCode := ""; cu_FirstTokenAt := Some (demo_start + Hour + Second);
     cu_CompletedAt := demo_start + 2 * Hour; cu_InputTokens := 1000000; cu_CachedInputTokens := 0; cu_CacheWriteTokens := 0; cu_CacheWriteTokensPresent := false;
     cu_CacheWrite5mTokens := 0; cu_CacheWrite1hTokens := 0; cu_CacheWriteTTLPresent := false; cu_OutputTokens := 0; cu_ReasoningTokens := 0; cu_RequestBytes := 10;
     cu_ResponseBytes := 20; cu_UpstreamRequestID := "up-1"; cu_UpstreamAccountID := acct_b; cu_ActualModel := ""; cu_ActualServiceTier := "" |}.
Definition life_complete (d : admission_db) : result store_error (usage_row * usage_meta) * admission_db := CompleteUsageRequest "" 1 life_params d.

Definition life_columns (d : admission_db) : bool :=
  bool_decide (map_Forall (fun _ a => next_cash_lot_sequence a <= max_int64) (billing_accounts (ad_billing d))) && (usd_per_cny (billing_settings (ad_billing d)) =? 1) &&
  bool_decide (map_Forall (fun _ u => (0 <= u_input u /\ u_input u <= max_int64) /\ (0 <= u_output u /\ u_output u <= max_int64)) (usage_requests (ad_billing d))).
Lemma life_columns_ok d : life_columns d = true -> gateway_columns (gateway_of d).
Proof.
  unfold life_columns. rewrite !andb_true_iff, !bool_decide_eq_true, Z.eqb_eq. intros [[H1 H2] H3]. split.
  - split; [cbn; rewrite H2; by vm_compute|exact H1|]. intros r u Hu. by destruct (H3 r u Hu) as [[_ ?] _].
  - intros id u Hu. exact (H3 id u Hu).
Qed.
(** What the samples use, checked in one run. *)
Definition life_facts : bool :=
  match adm_run "gpt-5" with
  | (Ok adm, d1) =>
      match ra_Billing adm, life_complete d1 with
      | Some r, (Ok u, d2) =>
          life_columns d1 && life_columns d2 && (u_input u.1 =? 1000000) && (u_output u.1 =? 0) && bool_decide (u_account u.1 = Some acct_b) &&
          bool_decide (map_Forall (fun _ c => tokens_used c = 0) (quota_counters (ad_quota d2))) &&
          match settlement_cost (fun _ => None) (rv_row r) u.1 with Ok (cost, 0, None) => bool_decide (cost = numeric_text (usd 1)) | _ => false end &&
          match usage_of demo_id d1 with Some (_, m) => is_nil (um_first_token_at m) | None => false end
      | _, _ => false
      end
  | _ => false
  end.
Lemma life_facts_true : life_facts = true.
Proof. vm_compute. reflexivity. Qed.

Lemma adm_gateway_inv : gateway_inv (gateway_of adm_db).
Proof.
  split.
  - exact (empty_quota_inv _ _).
  - exact adm_money.
  - intros id q b Hq. change (quota_reservations (quota (gateway_of adm_db))) with (∅ : gmap string reservation_row) in Hq. rewrite lookup_empty in Hq. discriminate Hq.
  - intros id b Hb. change (billing_reservations (billing (gateway_of adm_db))) with (∅ : gmap string billing_reservation) in Hb. rewrite lookup_empty in Hb. discriminate Hb.
  - intros id q u Hq. change (quota_reservations (quota (gateway_of adm_db))) with (∅ : gmap string reservation_row) in Hq. rewrite lookup_empty in Hq. discriminate Hq.
Qed.
Lemma adm_columns : gateway_columns (gateway_of adm_db).
Proof. apply life_columns_ok. vm_compute. reflexivity. Qed.

(** The admitted store, with what the samples need of it. *)
Lemma life_run : exists adm d1 r u d2, adm_run "gpt-5" = (Ok adm, d1) /\ ra_Billing adm = Some r /\ rv_RequestID r = demo_id /\ linked d1 /\ life_complete d1 = (Ok u, d2) /\
  gateway_columns (gateway_of d1) /\ gateway_columns (gateway_of d2) /\ (u_input u.1, u_output u.1) = (1000000, 0) /\
  settlement_cost (fun _ => None) (rv_row r) u.1 = Ok (numeric_text (usd 1), 0, None) /\ map_Forall (fun _ c => tokens_used c = 0) (quota_counters (ad_quota d2)) /\
  (forall x m, usage_of demo_id d1 = Some (x, m) -> u_state x = "in_progress" -> um_first_token_at m = None) /\ gateway_inv (gateway_of d1).
Proof.
  pose proof life_facts_true as H. destruct adm_admitted as (adm & d1 & r & Hrun & Hr & Hrow & L). destruct (adm_row_facts r Hrow) as (Hid & _). unfold life_facts in H. rewrite Hrun, Hr in H.
  destruct (life_complete d1) as [[u|] d2] eqn:Hc; [|discriminate H]. rewrite !andb_true_iff, !bool_decide_eq_true, !Z.eqb_eq in H. destruct H as [[[[[[[H1 H2] H3] H4] _] H5] H6] H7].
  exists adm, d1, r, u, d2. rewrite H3, H4. split; [exact Hrun|]. split; [exact Hr|]. split; [exact Hid|]. split; [exact L|]. split; [exact Hc|].
  split; [exact (life_columns_ok _ H1)|]. split; [exact (life_columns_ok _ H2)|]. split; [reflexivity|]. split.
  { destruct (settlement_cost _ _ _) as [[[c []] []]|]; try discriminate H6. apply bool_decide_eq_true in H6. rewrite H6. reflexivity. }
  split; [exact H5|]. split.
  { intros x m Hx _. rewrite Hx in H7. destruct (um_first_token_at m); [discriminate H7|reflexivity]. }
  destruct (admission_step Some demo_collate (fun _ _ _ => "") (fun _ => None) (fun _ => "") demo_start (adm_params "gpt-5") adm_db adm d1 Hrun adm_halves adm_money ltac:(discriminate)) as (S & _).
  exact (request_step_inv _ _ _ adm_columns S adm_gateway_inv).
Qed.

Lemma usage_calls_are_steps_witness : exists adm d1, adm_run "gpt-5" = (Ok adm, d1) /\ request_step (fun _ => None) (gateway_of d1) (gateway_of (life_complete d1).2).
Proof.
  destruct life_run as (adm & d1 & r & u & d2 & H & _ & _ & _ & _ & _ & _ & _ & _ & _ & _ & G). exists adm, d1. split; [exact H|].
  exact (usage_calls_are_steps (fun _ => None) d1 (life_complete d1).2 G (call_complete "" 1 life_params d1)).
Defined.


Lemma request_lifecycle_witness : exists adm d1 u d2 d3, adm_run "gpt-5" = (Ok adm, d1) /\ life_complete d1 = (Ok u, d2) /\
  SettleRequest (fun _ => None) 1 demo_id (demo_start + 3 * Hour) (gateway_of d2) = (Ok tt, d3) /\ gateway_inv d3.
Proof.
  destruct life_run as (adm & d1 & r & u & d2 & H & Hr & Hid & L & Hc & C1 & C2 & Hio & Hcost & Hcnt & _). injection Hio as Hi Ho.
  destruct (request_lifecycle Some demo_collate (fun _ _ _ => "") (fun _ => None) (fun _ => "") demo_start (adm_params "gpt-5") adm_db adm d1 r "" 1 life_params u d2 (usd 1) 0 None 1 (demo_start + 3 * Hour)
    H Hr Hc (eq_sym Hid) adm_gateway_inv adm_halves adm_layers L adm_columns C1 C2 Hcost) as (d3 & row & Hs & G & _).
  - rewrite Hi, Ho. vm_compute. discriminate.
  - intros q k c _ _ Hk. rewrite Hi, Ho, (Hcnt k c Hk). vm_compute. discriminate.
  - exists adm, d1, u, d2, d3. rewrite Hid in Hs. split; [exact H|]. split; [exact Hc|]. split; [exact Hs|exact G].
Defined.

Lemma attribution_exact_witness : exists d, usage_of demo_id d = Some (billed_usage, new_usage_meta (adm_usage "gpt-5") "cgk") /\
  usage_of demo_id (AttributeUsageRequest demo_id acct_a d).2 = Some (with_account (Some acct_a) billed_usage, new_usage_meta (adm_usage "gpt-5") "cgk").
Proof.
  set (d := put_usage demo_id (billed_usage, new_usage_meta (adm_usage "gpt-5") "cgk") adm_db). exists d.
  assert (Hu : usage_of demo_id d = Some (billed_usage, new_usage_meta (adm_usage "gpt-5") "cgk")) by exact (usage_of_put _ _ _). split; [exact Hu|].
  pose proof (attribution_exact demo_id acct_a d _ _ Hu ltac:(vm_compute; reflexivity)) as H. cbv zeta in H. change (charged_request demo_id (ad_billing d)) with false in H. destruct H as [_ H].
  refine (eq_trans H _). vm_compute. reflexivity.
Defined.

(** A first token that was marked before is kept by the completion, but the replay
    compares the stored one with the argument: the same call again is then taken
    for another completion. *)
Definition life_marked : bool :=
  match adm_run "gpt-5" with
  | (Ok _, d1) =>
      match MarkUsageFirstToken demo_id (demo_start + Hour + 2 * Second) d1 with
      | (Ok _, d2) => match life_complete d2 with (Ok _, d3) => match (life_complete d3).1 with Err e => bool_decide (e = ErrConflict "complete usage request differently") | Ok _ => false end | _ => false end
      | _ => false
      end
  | _ => false
  end.
Example replay_after_mark : life_marked = true.
Proof. vm_compute. reflexivity. Qed.
